(* ===== verification/_CoqProject ===== *)
-Q . S2P
Prelude.v
ChargerClass.v
AlgClass.v
ChargerTypes.v
ChargerDt.v
Platform.v
Board.v
ChargerIntf.v
Jeita.v
BasicCharger.v
PulseCharger.v
MtkCharger.v
ChargerThread.v
ChargerEntry.v
ChargerSpec.v
PulseSpec.v
Coulomb.v
CoulombSpec.v
Kstrtox.v
Mt6357.v
Mt6357Ops.v
Mt6357Spec.v
Mt6357Coulomb.v
RtRegmap.v
RtMem.v
RtRegmapSpec.v
RtSema.v
RtCache.v
Mt6370Map.v
Mt6370Enc.v
Mt6370.v
Mt6370Ops.v
Mt6370Chip.v
Mt6370Locks.v
Mt6370Regs.v
Mt6370Spec.v
Mt6370Hidden.v
Mt6370Rt.v
BatteryTable.v
BatteryTableSpec.v
BatteryAlgo.v
BatteryAlgoSpec.v
BatteryGauge.v
BatteryCust.v
BatteryCore.v
BatteryCoreSpec.v
BatteryShutdown.v
BatteryShutdownSpec.v
BatteryDaemon.v
BatteryDaemonSpec.v
BatteryIrq.v
BatteryIrqSpec.v
BatterySupply.v
BatterySupplySpec.v
AdapterClass.v
AdapterSpec.v
MtkPd.v
MtkPdSpec.v
MtkPdContract.v
Mt6370Irq.v
Mt6370Probe.v
Mt6370IrqSpec.v
Mt6370Line.v
Mt6370ProbeSpec.v
Mt6370Supply.v
TypeDet.v
TypeDetSpec.v
Mt6370TypeDet.v
