(* ===== verification/Prelude.v ===== *)
(** * Verification of the charging and battery stack of the Fire HD 8 kernel

    The repository is the Linux 5.4 kernel of a tablet with a MediaTek MT8169.
    This development verifies the code that decides when and how its battery is
    charged, that measures the battery, and that switches the device off when it
    is empty, hot or gone.  Paths are relative to
    src/src/kernel/mediatek/mt8169/5.4/.

    ** The program

    - drivers/power/supply/mtk_charger.c, the charging manager.  A kernel thread
      ([charger_routine_thread]) wakes on plugging, on a timer and on
      interrupts; it checks the protections ([charger_check_status]), runs a
      charging algorithm and follows the end of charge.  Entry points around it
      (sysfs, procfs, power supplies, notifiers, suspend, the alarm) change its
      state and wake it.
    - mtk_basic_charger.c, the algorithm this board uses: it computes current
      and voltage limits from the source, the adapter, JEITA and the thermal
      limits, and programs the charger.
    - mtk_pulse_charger.c, the other algorithm of the manager, for boards whose
      device tree asks for it: a state machine of pulsed charging, top-off, full
      and error.
    - mtk_chg_type_det.c, which tells the charger driver what the Type-C port
      has attached.
    - mtk_charger_intf.c, the readings of battery and charger.
    - charger_class.c and mtk_charger_algorithm_class.c, the classes through
      which the manager calls charger drivers and fast-charging algorithms.
    - mtk_pd.c with mtk_pd_hal.c, an algorithm of that class: charging by USB
      power delivery, on adapter_class.c and the adapter mtk_pd_adapter.c.
    - drivers/misc/mediatek/subpmic/mt6370_pmu_charger.c with mt6370_pmu_reg.c,
      the driver of the charger chip: register fields, an A/D converter, AICL
      (search for the input current), BC 1.2 detection, OTG, pump express, the
      operation table it registers with the class, the interrupts, the power
      supply and the regulator of the boost, and probe.
    - drivers/misc/mediatek/rt-regmap/rt-regmap.c, the register map between that
      driver and the bus: copies of the registers in three cache modes, blocking
      modes, delayed write-back, debugfs.
    - mt6357-gauge.c, the driver of the fuel gauge, and
      mtk_battery_coulomb_service.c, which multiplexes its one pair of coulomb
      interrupts among four consumers.
    - mtk_battery_algo.c, the state of charge in the kernel: interpolated tables
      of open-circuit voltage, coulomb counting, the percentage shown.
    - mtk_battery.c and mtk_battery_daemon.c, the battery manager: temperature,
      the shutdown controller, the interrupts of the gauge, the update thread,
      the power supply "battery", and the netlink protocol with the gauge daemon
      in user space.

    The manager calls the class, the class calls the driver's table, the driver
    writes registers through the register map; interrupts and notifications go
    the other way.  The battery manager reads the gauge by properties, wakes
    either the kernel algorithm or the daemon, and gives the charging manager
    its readings through the supply.

    ** The files

    - [Prelude]: machine integers with their wrap-around, records as C structs,
      the state monad [M], [wp], [keeps] and [preserves] with their automation,
      bit fields.
    - [ChargerClass], [AlgClass]: charger_class.[ch] and
      mtk_charger_algorithm_class.[ch]; a device is its table of optional
      operations, every class function tests for the operation and calls it.
    - [ChargerTypes], [ChargerDt]: the structures of mtk_charger.h, field by
      field, and [mtk_charger_parse_dt] with all its helpers.
    - [Platform]: the type class that is everything the manager calls; [E] is
      the state of the rest of the system, [world E] that state with
      [struct mtk_charger] and the function-local statics.
    - [Board]: a concrete platform for examples and witnesses.
    - [ChargerIntf]: mtk_charger_intf.c.
    - [Jeita]: the temperature state machine ([do_sw_jeita_state_machine]) and
      [select_cv].
    - [BasicCharger]: mtk_basic_charger.c, [select_charging_current_limit] in
      the stages of the source.
    - [PulseCharger]: mtk_pulse_charger.c; [PulseSpec] its theorems.
    - [MtkCharger], [ChargerThread], [ChargerEntry]: mtk_charger.c, its
      protections and helpers, the thread, and the entry points.
    - [ChargerSpec]: the contract [ChipLaws] between manager and chargers, the
      laws [AlgLaws] of the calls that only algorithms make, the step relation of
      the whole manager, and the safety theorems.
    - [AdapterClass], [AdapterSpec]: adapter_class.[ch] and the power-delivery
      adapter over the type class [Tcpm] of the Type-C port controller.
    - [MtkPd], [MtkPdSpec]: mtk_pd.c and mtk_pd_hal.c over [PdPlatform];
      [MtkPdContract] plugs the algorithm into the manager's platform, on any
      chargers with these laws and on the MT6370.
    - [Coulomb], [CoulombSpec]: the coulomb service with its consumers, as a
      step relation with the counter, and its theorems.
    - [Kstrtox]: lib/kstrtox.c, the conversion of numbers that the sysfs and
      debug files use, against a reference parser.
    - [Mt6357], [Mt6357Ops]: mt6357-gauge.c over the type class of its PMIC;
      [Mt6357Spec] its theorems, [Mt6357Coulomb] the coulomb service on it.
    - [RtRegmap]: rt-regmap.c; [RtMem] its buffers, [RtRegmapSpec] memory
      safety, [RtSema] its semaphores and the delayed work as a step relation,
      [RtCache] the copies against the chip.
    - [Mt6370Map]: the register table of the chip.
    - [Mt6370Enc]: register codes and calibration of the MT6370.
    - [Mt6370], [Mt6370Ops]: the driver's state, internal functions and
      operation tables over the type class [Mt6370Bus]; taking a mutex is
      recorded in the state.
    - [Mt6370Chip]: a concrete chip with a bus that can fail.
    - [Mt6370Locks]: which operations give back their mutexes.
    - [Mt6370Regs]: the laws [RegLaws] of the bus, and that the chip has them.
    - [Mt6370Spec]: the driver against these laws, among them that it honours
      the manager's contract.
    - [Mt6370Hidden]: the hidden-mode counter.
    - [Mt6370Rt]: the driver on the register map: [RegLaws] proved of it.
    - [Mt6370Irq]: interrupt handlers, power supply, regulator and files of the
      driver; [Mt6370Probe]: device tree, initial setting, probe and remove.
    - [Mt6370IrqSpec]: everything that can happen to the driver as one event
      type, and what every event preserves; [Mt6370Line]: the line of the MIVR
      interrupt; [Mt6370ProbeSpec]: the life of the driver from probe on, and
      what a failed probe leaves; [Mt6370Supply]: the boost, the files and the
      late interrupt of the detection.
    - [TypeDet], [TypeDetSpec]: mtk_chg_type_det.c, notifier and thread as
      interleaved steps; [Mt6370TypeDet]: with the MT6370 as its supply.
    - [BatteryTable], [BatteryTableSpec]: the battery's tables and look-ups.
    - [BatteryAlgo], [BatteryAlgoSpec]: mtk_battery_algo.c over the type class
      [AlgoEnv]; [BatteryGauge] implements that class by the gauge driver and
      the coulomb service.
    - [BatteryCust]: the layout of the custom data and of the daemon's log data.
    - [BatteryCore], [BatteryCoreSpec]: the state of the battery manager
      ([struct mtk_battery] with the function-local statics), over the type
      class [BattEnv]; messages, thermistor, cycle count.
    - [BatteryShutdown], [BatteryShutdownSpec]: the shutdown controller.
    - [BatteryDaemon], [BatteryDaemonSpec]: the netlink protocol, every command.
    - [BatteryIrq], [BatteryIrqSpec]: interrupts, average current, low-voltage
      check, update thread, suspend and resume.
    - [BatterySupply], [BatterySupplySpec]: the supply "battery".

    ** What the theorems show

    Safety of the manager: in every state reachable by any interleaving of
    thread passes, interrupts, notifications, property writes and changes of
    the environment, the chip is off while the permission to charge is
    withdrawn, whichever of the two algorithms runs; permission is given only
    when every protection agrees.  The contract on which this rests is proved of
    the MT6370 driver.  The pulse algorithm does not charge a battery it found
    full or was told to leave, until the voltage is low again, software JEITA
    recovers or charging is switched on.

    Functional behaviour: the JEITA ladder refines the zone of the temperature
    with hysteresis, and its invariants; the limits are the minimum of the
    active caps, within the thermal limits, and zero or at least the charger's
    minimum; temperature and bus-voltage protection, the end-of-charge and DPM
    holds, plugging, the timer and the thread's initialisation are exact; every
    number of a device tree stays in its C type.

    Power delivery: the neighbours of a capability are the nearest ones in
    power, indices stay inside the table, programmed currents are within the
    limits, starting settles, and the algorithm as a device of the class keeps
    the manager's contract, so the safety theorem covers it.

    The driver: a programmed value is the nearest one not above the request;
    setters and getters agree even on a bus that fails; what is remembered is
    what the chip does, across stopping and starting; mutexes and hidden mode
    are balanced; calibration is bounded and its data decode to what was
    written.  From probe on, through any sequence of calls of both tables,
    interrupts, works and requests of user space, these limits stay in agreement;
    without direct charging, the line of the MIVR interrupt is masked exactly
    while its work is pending or the power path is off; a failed probe takes back
    its devices.  The charger is told the state of the Type-C port however reports
    and rounds of the thread interleave, but for changes of the port's role that
    the notifier does not know, which are counted exactly.

    The register map: no access leaves its buffers; the copies are transparent
    on a bus that works; operations other than changes of the cache mode and
    delayed writes cannot block each other; for the ten registers of the
    configuration the register map is the bus.

    The gauge and the coulomb service: no consumer's expiry is missed, the
    thread settles, a reset of the counter keeps the distances, what is stored
    for the next boot is read back; the service's contract is proved of the
    MT6357.

    The state of charge: look-ups never divide by zero, are monotone and invert
    each other up to the rounding; mixed tables keep their order; the count is
    exact; the percentage shown stays in range, moves by at most one percent an
    interrupt, and survives a reboot from 0.5 % up, also on the MT6357.

    The battery manager: temperatures are bounded and monotone and the two
    conversions of the thermistor agree; the device goes off exactly under the
    stated conditions, and a pending one is looked at again; a missing battery
    is noticed whatever false alarms came before; a message of the daemon is
    answered exactly if it is accepted, blocks arrive as they were sent, and the
    accesses outside of a buffer are characterised exactly.

    Some theorems state what the code does where it is not what it means to do:
    "current_cmd" bypasses the protections, the limits handed to the
    fast-charging algorithms lose their caps, [disable_hw_ovp] misses the enable
    bit, two class functions guard wrongly, AICL can leave with two mutexes
    held, the hidden-mode counter can wrap, changing the cache mode can block
    for ever on every device with copies, a write that failed sticks in the copy, coulomb thresholds come
    3 % late, the charge at shutdown is lost when it is positive, any process
    can register as the daemon and power off, a short reply leaks kernel memory,
    an overload ends the watch over the voltage, a shorted thermistor reads 0
    degrees, a battery drained on a charger boots at 127 %, and power delivery
    never sees a collapsed bus, keeps the raised voltage when the battery is
    full, ignores a raised limit and steps down to a capability that is too
    weak; the file "shipping_mode" keeps a mutex, a failed probe leaves files
    behind, a late interrupt makes the next charger a standard port, a quick
    change of cables is not seen, and the pulse algorithm stays in its error
    state when the cable is put back.

    ** Conventions and bounds

    A C integer is a [Z]; arithmetic that can leave the type is wrapped by
    [u8], [u32], [s32] or [s64].  The kernel is built with wrapping signed
    arithmetic.  Output parameters are results: a function that may leave one
    alone takes its old contents.  An uninitialised variable is the parameter
    [undef], memory outside an object the parameter [stray]; such an access
    sets a flag of the state ([mem_error]), a division by zero another
    ([div_by_zero]).  Log output is left out unless its arguments change the
    state.  Loops of the source have constant bounds, which are the fuel of the
    definitions: 6 polls of the converter, 5 of pump express, 200 rounds of
    waiting for the USB stack, 3 retries of the temperature and of clearing the
    discharge bit, 1000 polls of the gauge's latch, 6 of its voltage detector,
    60 samples of its calibration; the AICL loop takes distance over step plus
    one iterations, which [Mt6370Spec.post_aicl_fuel] shows to be enough; the
    loops over a consumer list of the coulomb service run once for each of its
    at most two members and once more to stop; the search for the voltage behind
    a load takes [compensate_rounds] steps of 0.1 %, splitting a log text into
    pieces at most one per character, the loop of [_pd_start_algo] two rounds
    ([MtkPdSpec.pd_start_settles]: more make no difference), and the loop over
    an adapter's programmable supplies ends with its ten table entries.  The forever loops of the threads are
    single steps of relations.  Code is total, so a theorem about a result is
    also one about termination; the exception are mutexes and semaphores, of
    which [mt_deadlock] and the step relation of [RtSema] record who waits.

    ** What is not modelled

    The wireless driver, Type-C and the power-supply core are behind [Platform],
    [Tcpm] and [BattEnv], and so is the gauge daemon, which runs in user space.
    [mtk_chg_enable_vbus_ovp] of the manager is a parameter of the
    power-delivery algorithm, because it changes the manager's own structure,
    which the algorithm does not see; what is assumed of it, that it does not switch
    the charger on, is proved of the function ([MtkPdContract.ovp_quiet]).  The
    mutexes of that algorithm are not part of its state.  Of the
    MT6370, the other functions of the chip (backlight, flash, LDO, its interrupt
    controller) are not modelled, and neither is code of its charger driver for
    builds without CONFIG_TCPC_CLASS.  Of the battery manager, probe,
    the device tree of the battery, the checks of the custom data and the debug
    command files are not modelled, nor are the mutexes of the shutdown
    controller, the text of the metrics and the software timer [sw_uisoc_timer]:
    they copy numbers field by field and decide nothing.
    Allocations succeed.  Interleaving is at the level of whole entry points,
    not of memory accesses. *)

From stdpp Require Export base numbers list gmap strings.
From Stdlib Require Export ZArith Lia.
#[global] Open Scope Z_scope.

(** ** Machine integers

    The kernel is built with wrapping signed arithmetic, so every C integer
    is a [Z] together with the wrap-around of its type. *)

Definition wrapu (w x : Z) : Z := x mod 2 ^ w.
Definition u8 (x : Z) : Z := wrapu 8 x.
Definition u16 (x : Z) : Z := wrapu 16 x.
Definition u32 (x : Z) : Z := wrapu 32 x.
Definition u64 (x : Z) : Z := wrapu 64 x.
Definition s32 (x : Z) : Z := (x + 2 ^ 31) mod 2 ^ 32 - 2 ^ 31.
Definition s64 (x : Z) : Z := (x + 2 ^ 63) mod 2 ^ 64 - 2 ^ 63.

Definition is_s32 (x : Z) : Prop := - 2 ^ 31 <= x < 2 ^ 31.
Definition is_u32 (x : Z) : Prop := 0 <= x < 2 ^ 32.
Definition is_u8 (x : Z) : Prop := 0 <= x < 2 ^ 8.

#[global] Instance is_s32_dec x : Decision (is_s32 x) := _.
#[global] Instance is_u32_dec x : Decision (is_u32 x) := _.
#[global] Instance is_u8_dec x : Decision (is_u8 x) := _.

(** C's [/] truncates towards zero. *)
Notation "x ÷c y" := (Z.quot x y) (at level 40, left associativity) : Z_scope.

Definition b2z (b : bool) : Z := if b then 1 else 0.
Definition z2b (x : Z) : bool := negb (x =? 0).

Create HintDb kern.
Create Rewrite HintDb kern.

Lemma s32_id x : is_s32 x -> s32 x = x.
Proof. unfold is_s32, s32. intros H. rewrite Z.mod_small; lia. Qed.

Lemma s32_range x : is_s32 (s32 x).
Proof.
  unfold is_s32, s32. pose proof (Z.mod_pos_bound (x + 2 ^ 31) (2 ^ 32)). lia.
Qed.

Lemma u32_id x : is_u32 x -> u32 x = x.
Proof. unfold is_u32, u32, wrapu. intros H. apply Z.mod_small; lia. Qed.

Lemma u32_range x : is_u32 (u32 x).
Proof. unfold is_u32, u32, wrapu. apply Z.mod_pos_bound. lia. Qed.

Lemma u8_id x : is_u8 x -> u8 x = x.
Proof. unfold is_u8, u8, wrapu. intros H. apply Z.mod_small; lia. Qed.

Lemma u8_range x : is_u8 (u8 x).
Proof. unfold is_u8, u8, wrapu. apply Z.mod_pos_bound. lia. Qed.

Lemma s32_idem x : s32 (s32 x) = s32 x.
Proof. apply s32_id, s32_range. Qed.

Lemma u32_idem x : u32 (u32 x) = u32 x.
Proof. apply u32_id, u32_range. Qed.

(** Reinterpreting a signed [int] as [u32] and back is the identity. *)
Lemma s32_u32 x : is_s32 x -> s32 (u32 x) = x.
Proof.
  unfold is_s32, s32, u32, wrapu. intros H.
  rewrite Zplus_mod_idemp_l, Z.mod_small; lia.
Qed.

Lemma u32_s32 x : is_u32 x -> u32 (s32 x) = x.
Proof.
  unfold is_u32, s32, u32, wrapu. intros H.
  rewrite Zminus_mod, Zmod_mod, <- Zminus_mod.
  replace (x + 2 ^ 31 - 2 ^ 31) with x by lia. apply Z.mod_small; lia.
Qed.

#[export] Hint Resolve s32_range u32_range u8_range : kern.

(** ** Error numbers *)

Definition EIO : Z := 5.
Definition ENXIO : Z := 6.
Definition ENOMEM : Z := 12.
Definition EFAULT : Z := 14.
Definition ENODEV : Z := 19.
Definition EINVAL : Z := 22.
Definition ERANGE : Z := 34.
Definition EOPNOTSUPP : Z := 95.
Definition ENOTSUPP : Z := 524.

(** ** Records as C structs

    [s <| f := v |>] is the assignment [s.f = v] to a copy of [s].  The setter
    of a field is derived from the eta expansion of the record. *)

Class Struct (R : Type) := eta_struct : R -> R.
Class Field {R T : Type} (f : R -> T) := upd_field : (T -> T) -> R -> R.

Ltac derive_field f R :=
  let e := eval unfold eta_struct in (eta_struct : R -> R) in
  let e := eval hnf in e in
  match eval pattern f in e with
  | ?abs f => exact (fun g r => abs (fun x => g (f x)) r)
  end.

#[export] Hint Extern 0 (@Field ?R ?T ?f) => derive_field f R : typeclass_instances.

Declare Scope struct_scope.
Open Scope struct_scope.
Notation "r <| f := v |>" :=
  (upd_field (f := f) (fun _ => v) r)
  (at level 1, f at level 9, v at level 200, left associativity) : struct_scope.
Notation "r <| f ::= g |>" :=
  (upd_field (f := f) g r)
  (at level 1, f at level 9, g at level 200, left associativity) : struct_scope.

(** ** Stateful code

    A C function that reads and writes a state [W] and returns an [A]. *)

Definition M (W A : Type) : Type := W -> A * W.
Definition ret {W A} (a : A) : M W A := fun w => (a, w).
Definition bind {W A B} (m : M W A) (k : A -> M W B) : M W B :=
  fun w => let '(a, w') := m w in k a w'.
Definition get {W} : M W W := fun w => (w, w).
Definition gets {W A} (f : W -> A) : M W A := fun w => (f w, w).
Definition modify {W} (f : W -> W) : M W unit := fun w => (tt, f w).
Definition when {W} (b : bool) (m : M W unit) : M W unit := if b then m else ret tt.
Definition ignore {W A} (m : M W A) : M W unit := fun w => (tt, (m w).2).

Declare Scope cm_scope.
Delimit Scope cm_scope with cm.
Notation "'let!' x := m 'in' k" := (bind m (fun x => k))
  (at level 10, x pattern, m at level 100, k at level 200) : cm_scope.
Notation "m ';;;' k" := (bind m (fun _ => k))
  (at level 199, right associativity) : cm_scope.
Open Scope cm_scope.

(** Final state and result of a run. *)
Definition exec {W A} (m : M W A) (w : W) : W := (m w).2.
Definition eval {W A} (m : M W A) (w : W) : A := (m w).1.

(** A C [for] loop over the entries of an array, without [break]. *)
Fixpoint for_each {W A} (l : list A) (body : A -> M W unit) : M W unit :=
  match l with
  | [] => ret tt
  | x :: l' => body x ;;; for_each l' body
  end.

(** A loop whose body returns [true] to [break]. *)
Fixpoint for_break {W A} (l : list A) (body : A -> M W bool) : M W unit :=
  match l with
  | [] => ret tt
  | x :: l' => let! stop := body x in if stop then ret tt else for_break l' body
  end.

Lemma exec_bind {W A B} (m : M W A) (k : A -> M W B) w :
  exec (bind m k) w = exec (k (eval m w)) (exec m w).
Proof. unfold exec, eval, bind. by destruct (m w). Qed.

Lemma eval_bind {W A B} (m : M W A) (k : A -> M W B) w :
  eval (bind m k) w = eval (k (eval m w)) (exec m w).
Proof. unfold exec, eval, bind. by destruct (m w). Qed.

Lemma exec_ret {W A} (a : A) (w : W) : exec (ret a) w = w.
Proof. done. Qed.
Lemma eval_ret {W A} (a : A) (w : W) : eval (ret a) w = a.
Proof. done. Qed.
Lemma exec_gets {W A} (f : W -> A) w : exec (gets f) w = w.
Proof. done. Qed.
Lemma eval_gets {W A} (f : W -> A) w : eval (gets f) w = f w.
Proof. done. Qed.
Lemma exec_modify {W} (f : W -> W) w : exec (modify f) w = f w.
Proof. done. Qed.
Lemma exec_when {W} b (m : M W unit) w : exec (when b m) w = if b then exec m w else w.
Proof. by destruct b. Qed.
Lemma exec_ignore {W A} (m : M W A) w : exec (ignore m) w = exec m w.
Proof. done. Qed.
Lemma exec_if {W A} (b : bool) (m1 m2 : M W A) w :
  exec (if b then m1 else m2) w = if b then exec m1 w else exec m2 w.
Proof. by destruct b. Qed.
Lemma eval_if {W A} (b : bool) (m1 m2 : M W A) w :
  eval (if b then m1 else m2) w = if b then eval m1 w else eval m2 w.
Proof. by destruct b. Qed.

(** An assertion on the state that a function preserves. *)
Definition preserves {W A} (P : W -> Prop) (m : M W A) : Prop :=
  forall w, P w -> P (exec m w).

(** The same with what is known of the result. *)
Definition yields {W A} (P : W -> Prop) (Q : A -> Prop) (m : M W A) : Prop :=
  forall w, P w -> P (exec m w) /\ Q (eval m w).

Section Yields.
  Context {W : Type} (P : W -> Prop).

Lemma preserves_post {A B} (Q : A -> Prop) (m : M W A) (k : A -> M W B) :
  yields P Q m -> (forall a, Q a -> preserves P (k a)) -> preserves P (bind m k).
Proof. intros Hm Hk w Hw. rewrite exec_bind. destruct (Hm w Hw). by apply Hk. Qed.
Lemma yields_ret {A} (Q : A -> Prop) a : Q a -> yields P Q (ret a).
Proof. by intros H w Hw. Qed.
Lemma yields_if {A} (Q : A -> Prop) (b : bool) m1 m2 :
  (b = true -> yields P Q m1) -> (b = false -> yields P Q m2) -> yields P Q (if b then m1 else m2).
Proof. destruct b; auto. Qed.
Lemma yields_bind {A B} (Q : B -> Prop) (m : M W A) k :
  preserves P m -> (forall a, yields P Q (k a)) -> yields P Q (bind m k).
Proof. intros Hm Hk w Hw. rewrite exec_bind, eval_bind. apply Hk. by apply Hm. Qed.
Lemma yields_post {A B} (R : A -> Prop) (Q : B -> Prop) (m : M W A) k :
  yields P R m -> (forall a, R a -> yields P Q (k a)) -> yields P Q (bind m k).
Proof. intros Hm Hk w Hw. rewrite exec_bind, eval_bind. destruct (Hm w Hw). by apply Hk. Qed.
Lemma yields_pure {A B} (Q : B -> Prop) a (m : M W A) k :
  (forall w, P w -> m w = (a, w)) -> yields P Q (k a) -> yields P Q (bind m k).
Proof.
  intros E H w Hw. rewrite exec_bind, eval_bind.
  assert (eval m w = a /\ exec m w = w) as [-> ->] by (unfold eval, exec; by rewrite (E w Hw)). by apply H.
Qed.
End Yields.

(** A quantity of the state that a function leaves alone. *)
Definition keeps {W A T} (f : W -> T) (m : M W A) : Prop :=
  forall w, f (exec m w) = f w.

Section Keeps.
  Context {W T : Type} (f : W -> T).

Lemma keeps_ret {A} (a : A) : keeps f (ret a : M W A).
Proof. done. Qed.
Lemma keeps_gets {A} (g : W -> A) : keeps f (gets g).
Proof. done. Qed.
Lemma keeps_bind {A B} (m : M W A) (k : A -> M W B) :
  keeps f m -> (forall a, keeps f (k a)) -> keeps f (bind m k).
Proof. intros Hm Hk w. rewrite exec_bind, Hk. apply Hm. Qed.
Lemma keeps_if {A} (b : bool) (m1 m2 : M W A) :
  keeps f m1 -> keeps f m2 -> keeps f (if b then m1 else m2).
Proof. by destruct b. Qed.
Lemma keeps_when (b : bool) (m : M W unit) : keeps f m -> keeps f (when b m).
Proof. by destruct b. Qed.
Lemma keeps_ignore {A} (m : M W A) : keeps f m -> keeps f (ignore m).
Proof. intros H w. apply H. Qed.
Lemma keeps_modify (g : W -> W) : (forall w, f (g w) = f w) -> keeps f (modify g).
Proof. intros H w. apply H. Qed.
Lemma keeps_for_each {A} (l : list A) body :
  (forall x, keeps f (body x)) -> keeps f (for_each l body).
Proof.
  intros H. induction l; simpl; [apply keeps_ret|by apply keeps_bind].
Qed.
Lemma keeps_for_break {A} (l : list A) body :
  (forall x, keeps f (body x)) -> keeps f (for_break l body).
Proof.
  intros H. induction l; simpl; [apply keeps_ret|].
  apply keeps_bind; [done|]. intros []; [apply keeps_ret|done].
Qed.
End Keeps.

#[export] Hint Resolve keeps_ret keeps_gets keeps_bind keeps_if keeps_when
  keeps_ignore keeps_for_each keeps_for_break : kern.

Section Preserves.
  Context {W : Type} (P : W -> Prop).

Lemma preserves_ret {A} (a : A) : preserves P (ret a : M W A).
Proof. by intros w. Qed.
Lemma preserves_gets {A} (g : W -> A) : preserves P (gets g).
Proof. by intros w. Qed.
Lemma preserves_bind {A B} (m : M W A) (k : A -> M W B) :
  preserves P m -> (forall a, preserves P (k a)) -> preserves P (bind m k).
Proof. intros Hm Hk w Hw. rewrite exec_bind. apply Hk, Hm, Hw. Qed.
Lemma preserves_if {A} (b : bool) (m1 m2 : M W A) :
  preserves P m1 -> preserves P m2 -> preserves P (if b then m1 else m2).
Proof. by destruct b. Qed.
Lemma preserves_when (b : bool) (m : M W unit) : preserves P m -> preserves P (when b m).
Proof. destruct b; [done|]. intros _. apply preserves_ret. Qed.
Lemma preserves_ignore {A} (m : M W A) : preserves P m -> preserves P (ignore m).
Proof. intros H w. apply H. Qed.
Lemma preserves_modify (g : W -> W) : (forall w, P w -> P (g w)) -> preserves P (modify g).
Proof. intros H w. apply H. Qed.
Lemma preserves_for_each {A} (l : list A) body :
  (forall x, preserves P (body x)) -> preserves P (for_each l body).
Proof. intros H. induction l; simpl; [apply preserves_ret|by apply preserves_bind]. Qed.
Lemma preserves_for_break {A} (l : list A) body :
  (forall x, preserves P (body x)) -> preserves P (for_break l body).
Proof.
  intros H. induction l; simpl; [apply preserves_ret|].
  apply preserves_bind; [done|]. intros []; [apply preserves_ret|done].
Qed.
End Preserves.

#[export] Hint Resolve preserves_ret preserves_gets preserves_bind preserves_if
  preserves_when preserves_ignore preserves_for_each preserves_for_break : kern.

(** *** Weakest preconditions

    [wp m Q w]: from [w], [m] ends with a result and a state that satisfy [Q].
    Code is total, so this is both partial and total correctness. *)

Definition wp {W A} (m : M W A) (Q : A -> W -> Prop) (w : W) : Prop := Q (eval m w) (exec m w).

Section Wp.
  Context {W : Type}.

Lemma wp_run {A} (m : M W A) (Q : A -> W -> Prop) w :
  Q (eval m w) (exec m w) -> wp m Q w.
Proof. done. Qed.
Lemma wp_eq {A} (m : M W A) a w' (Q : A -> W -> Prop) w : m w = (a, w') -> Q a w' -> wp m Q w.
Proof. unfold wp, eval, exec. by intros ->. Qed.
Lemma wp_ret {A} (a : A) (Q : A -> W -> Prop) w : Q a w -> wp (ret a) Q w.
Proof. done. Qed.
Lemma wp_bind {A B} (m : M W A) (k : A -> M W B) Q w :
  wp m (fun a => wp (k a) Q) w -> wp (bind m k) Q w.
Proof. unfold wp. by rewrite eval_bind, exec_bind. Qed.
Lemma wp_gets {A} (f : W -> A) Q w : Q (f w) w -> wp (gets f) Q w.
Proof. done. Qed.
Lemma wp_modify (f : W -> W) Q w : Q tt (f w) -> wp (modify f) Q w.
Proof. done. Qed.
Lemma wp_if {A} (b : bool) (m1 m2 : M W A) Q w :
  (b = true -> wp m1 Q w) -> (b = false -> wp m2 Q w) -> wp (if b then m1 else m2) Q w.
Proof. destruct b; auto. Qed.
Lemma wp_when (b : bool) (m : M W unit) Q w :
  (b = true -> wp m Q w) -> (b = false -> Q tt w) -> wp (when b m) Q w.
Proof. destruct b; intros H1 H2; [by apply H1|by apply H2]. Qed.
Lemma wp_ignore {A} (m : M W A) Q w : wp m (fun _ => Q tt) w -> wp (ignore m) Q w.
Proof. done. Qed.
Lemma wp_mono {A} (m : M W A) (P Q : A -> W -> Prop) w :
  wp m P w -> (forall a w', P a w' -> Q a w') -> wp m Q w.
Proof. unfold wp. auto. Qed.
(** Code of which only what it keeps is known. *)
Lemma wp_keeps {A T} (f : W -> T) (m : M W A) (Q : A -> W -> Prop) w :
  keeps f m -> (forall a w', f w' = f w -> Q a w') -> wp m Q w.
Proof. intros Hk H. apply H, Hk. Qed.
Lemma wp_exec {A} (m : M W A) (P : W -> Prop) w : wp m (fun _ => P) w -> P (exec m w).
Proof. done. Qed.
End Wp.

(** ** Bit fields *)

(** [regmap_update_bits]: replace the bits of [mask] by those of [val]. *)
Definition update_bits (old mask val : Z) : Z :=
  Z.lor (Z.land old (Z.lnot mask)) (Z.land val mask).

Lemma update_bits_spec old mask val i :
  0 <= i ->
  Z.testbit (update_bits old mask val) i =
  if Z.testbit mask i then Z.testbit val i else Z.testbit old i.
Proof.
  intros Hi. unfold update_bits.
  rewrite Z.lor_spec, !Z.land_spec, Z.lnot_spec by done.
  by destruct (Z.testbit mask i), (Z.testbit old i), (Z.testbit val i).
Qed.

Lemma update_bits_same old mask val :
  Z.land (update_bits old mask val) mask = Z.land val mask.
Proof.
  apply Z.bits_inj'. intros i Hi.
  rewrite !Z.land_spec, update_bits_spec by done.
  by destruct (Z.testbit mask i); rewrite ?andb_false_r.
Qed.

Lemma update_bits_other old mask val m2 :
  Z.land mask m2 = 0 -> Z.land (update_bits old mask val) m2 = Z.land old m2.
Proof.
  intros H0. apply Z.bits_inj'. intros i Hi.
  rewrite !Z.land_spec, update_bits_spec by done.
  assert (Z.testbit (Z.land mask m2) i = false) as H by (rewrite H0; apply Z.bits_0).
  rewrite Z.land_spec in H.
  by destruct (Z.testbit mask i), (Z.testbit m2 i); rewrite ?andb_false_r.
Qed.

Lemma land_nonneg_r a b : 0 <= b -> 0 <= Z.land a b.
Proof. intros. apply Z.land_nonneg. by right. Qed.

Lemma is_u8_testbit x :
  0 <= x -> (forall i, 8 <= i -> Z.testbit x i = false) -> is_u8 x.
Proof.
  intros Hx H. unfold is_u8. split; [done|].
  destruct (Z.eq_dec x 0) as [->|]; [done|].
  apply Z.log2_lt_pow2; [lia|].
  destruct (Z.lt_ge_cases (Z.log2 x) 8) as [|Hl]; [done|].
  specialize (H _ Hl). rewrite Z.bit_log2 in H by lia. done.
Qed.

Lemma testbit_u8 x i : is_u8 x -> 8 <= i -> Z.testbit x i = false.
Proof.
  intros [H1 H2] Hi. destruct (Z.eq_dec x 0) as [->|]; [apply Z.bits_0|].
  apply Z.bits_above_log2; [done|].
  apply Z.lt_le_trans with 8; [|done]. apply Z.log2_lt_pow2; [lia|done].
Qed.

Lemma update_bits_u8 old mask val :
  is_u8 old -> is_u8 mask -> is_u8 (update_bits old mask val).
Proof.
  intros Ho Hm. apply is_u8_testbit.
  - unfold update_bits. apply Z.lor_nonneg. split; apply Z.land_nonneg.
    + left. apply Ho.
    + right. apply Hm.
  - intros i Hi. rewrite update_bits_spec by lia.
    by rewrite (testbit_u8 mask), (testbit_u8 old).
Qed.

#[export] Hint Resolve update_bits_u8 : kern.

(** ** Tactics *)

(** Case analysis on every boolean test and option in the goal. *)
Ltac case_tests :=
  repeat match goal with
    | |- context [if ?b then _ else _] => let E := fresh "E" in destruct b eqn:E
    | |- context [match ?o with Some _ => _ | None => _ end] =>
        let E := fresh "E" in destruct o eqn:E
    end.

(** Turn boolean comparisons of the context into propositions. *)
Ltac bool_prop :=
  repeat match goal with
    | H : (_ && _)%bool = true |- _ => apply andb_true_iff in H; destruct H
    | H : (_ && _)%bool = false |- _ => apply andb_false_iff in H
    | H : (_ || _)%bool = true |- _ => apply orb_true_iff in H
    | H : (_ || _)%bool = false |- _ => apply orb_false_iff in H; destruct H
    | H : negb _ = true |- _ => apply negb_true_iff in H
    | H : negb _ = false |- _ => apply negb_false_iff in H
    | H : (_ =? _) = true |- _ => apply Z.eqb_eq in H
    | H : (_ =? _) = false |- _ => apply Z.eqb_neq in H
    | H : (_ <? _) = true |- _ => apply Z.ltb_lt in H
    | H : (_ <? _) = false |- _ => apply Z.ltb_ge in H
    | H : (_ <=? _) = true |- _ => apply Z.leb_le in H
    | H : (_ <=? _) = false |- _ => apply Z.leb_gt in H
    end.
