(* ===== verification/ChargerClass.v ===== *)
(** * The charger class (drivers/power/supply/charger_class.c)

    The charging code reaches a charger chip only through the functions of
    this class, which call the entry of the driver's [struct charger_ops] if
    the device, its table and the entry are present and fail otherwise.

    [E] is the state behind the function pointers (every driver and chip), [V]
    the object a wireless charger is handed by its algorithm callback.  A
    pointer argument that the driver may write, [u32 *uA], is an argument that
    gives the current contents and a result that gives the contents after
    the call, so a call that writes nothing returns the old contents. *)

From S2P Require Import Prelude.
#[local] Open Scope Z_scope.

Section ChargerClass.
  Context {E V : Type}.

  (** [struct charger_ops] of charger_class.h; an absent entry is [None].
      The entries [suspend] and [resume] are called by nothing. *)
Record charger_ops : Type := {
  ops_plug_in : option (M E Z);
  ops_plug_out : option (M E Z);
  ops_enable : option (bool -> M E Z);
  ops_is_enabled : option (bool -> M E (Z * bool));
  ops_enable_chip : option (bool -> M E Z);
  ops_is_chip_enabled : option (bool -> M E (Z * bool));
  ops_get_charging_current : option (Z -> M E (Z * Z));
  ops_set_charging_current : option (Z -> M E Z);
  ops_get_min_charging_current : option (Z -> M E (Z * Z));
  ops_set_constant_voltage : option (Z -> M E Z);
  ops_get_constant_voltage : option (Z -> M E (Z * Z));
  ops_get_input_current : option (Z -> M E (Z * Z));
  ops_set_input_current : option (Z -> M E Z);
  ops_get_min_input_current : option (Z -> M E (Z * Z));
  ops_get_eoc_current : option (Z -> M E (Z * Z));
  ops_set_eoc_current : option (Z -> M E Z);
  ops_kick_wdt : option (M E Z);
  ops_event : option (Z -> Z -> M E Z);
  ops_send_ta_current_pattern : option (bool -> M E Z);
  ops_send_ta20_current_pattern : option (Z -> M E Z);
  ops_reset_ta : option (M E Z);
  ops_enable_cable_drop_comp : option (bool -> M E Z);
  ops_set_mivr : option (Z -> M E Z);
  ops_get_mivr : option (Z -> M E (Z * Z));
  ops_get_mivr_state : option (bool -> M E (Z * bool));
  ops_get_indpm_state : option (bool -> bool -> M E (Z * (bool * bool)));
  ops_is_powerpath_enabled : option (bool -> M E (Z * bool));
  ops_enable_powerpath : option (bool -> M E Z);
  ops_enable_vbus_ovp : option (bool -> M E Z);
  ops_is_safety_timer_enabled : option (bool -> M E (Z * bool));
  ops_enable_safety_timer : option (bool -> M E Z);
  ops_enable_termination : option (bool -> M E Z);
  ops_enable_direct_charging : option (bool -> M E Z);
  ops_kick_direct_charging_wdt : option (M E Z);
  ops_set_direct_charging_ibusoc : option (Z -> M E Z);
  ops_set_direct_charging_vbusov : option (Z -> M E Z);
  ops_enable_otg : option (bool -> M E Z);
  ops_enable_discharge : option (bool -> M E Z);
  ops_set_boost_current_limit : option (Z -> M E Z);
  ops_enable_chg_type_det : option (bool -> M E Z);
  ops_get_wpc_online : option (bool -> M E (Z * bool));
  ops_do_wpc_algorithm : option (V -> M E (Z * V));
  ops_force_enable_wpc_charge : option (bool -> M E Z);
  ops_get_temp : option (M E Z);
  ops_set_wpc_en : option (bool -> M E Z);
  ops_set_sleep_en : option (bool -> M E Z);
  ops_run_aicl : option (Z -> M E (Z * Z));
  ops_reset_eoc_state : option (M E Z);
  ops_safety_check : option (Z -> M E Z);
  ops_is_charging_done : option (bool -> M E (Z * bool));
  ops_set_pe20_efficiency_table : option (M E Z);
  ops_dump_registers : option (M E Z);
  ops_get_adc : option (Z -> Z -> Z -> M E (Z * (Z * Z)));
  ops_get_vbus_adc : option (Z -> M E (Z * Z));
  ops_get_ibus_adc : option (Z -> M E (Z * Z));
  ops_get_ibat_adc : option (Z -> M E (Z * Z));
  ops_get_tchg_adc : option (Z -> Z -> M E (Z * (Z * Z)));
  ops_get_zcv : option (Z -> M E (Z * Z));
  ops_enable_usbid : option (bool -> M E Z);
  ops_set_usbid_rup : option (Z -> M E Z);
  ops_set_usbid_src_ton : option (Z -> M E Z);
  ops_enable_usbid_floating : option (bool -> M E Z);
  ops_enable_force_typec_otp : option (bool -> M E Z);
  ops_enable_hidden_mode : option (bool -> M E Z);
  ops_get_ctd_dischg_status : option (Z -> M E (Z * Z));
  ops_enable_hz : option (bool -> M E Z);
  ops_set_property : option (Z -> Z -> M E (Z * Z));
  ops_get_property : option (Z -> Z -> M E (Z * Z));
  ops_enable_dcap : option (bool -> M E Z);
  ops_enable_ir_comp : option (bool -> M E Z)
}.

  (** A [struct charger_device].  The device itself lives in [E], where the
      driver, the class and the charging code share it: a pointer to it is how
      to read and write its fields. *)
Record charger_device : Type := {
  dev_ops : E -> option charger_ops;
  dev_set_ops : option charger_ops -> M E unit;
  dev_is_polling_mode : E -> bool;
  dev_set_is_adapter_detect : bool -> M E unit
}.

  (** [chg_dev != NULL && chg_dev->ops != NULL && chg_dev->ops->entry]. *)
Definition dev_op {T} (d : option charger_device) (sel : charger_ops -> option T) (e : E)
    : option T :=
  match d with
  | Some d' => match dev_ops d' e with Some o => sel o | None => None end
  | None => None
  end.

  (** The shape of the class functions: call the entry or fail. *)
Definition call_op {T R} (d : option charger_device) (sel : charger_ops -> option T)
    (fail : M E R) (call : T -> M E R) : M E R :=
  fun e => match dev_op d sel e with Some f => call f e | None => fail e end.

Definition charger_dev_enable (d : option charger_device) (en : bool) : M E (Z) :=
  call_op d ops_enable (ret (- EOPNOTSUPP))
    (fun f => f en).

Definition charger_dev_is_enabled (d : option charger_device) (en : bool) : M E (Z * bool) :=
  call_op d ops_is_enabled (ret (- EOPNOTSUPP, en))
    (fun f => f en).

Definition charger_dev_plug_in (d : option charger_device) : M E (Z) :=
  call_op d ops_plug_in (ret (- EOPNOTSUPP))
    (fun f => f).

Definition charger_dev_plug_out (d : option charger_device) : M E (Z) :=
  call_op d ops_plug_out (ret (- EOPNOTSUPP))
    (fun f => f).

Definition charger_dev_do_event (d : option charger_device) (event : Z) (args : Z) : M E (Z) :=
  call_op d ops_event (ret (- EOPNOTSUPP))
    (fun f => f (u32 event) (u32 args)).

Definition charger_dev_set_charging_current (d : option charger_device) (uA : Z) : M E (Z) :=
  call_op d ops_set_charging_current (ret (- EOPNOTSUPP))
    (fun f => f (u32 uA)).

Definition charger_dev_get_charging_current (d : option charger_device) (uA : Z) : M E (Z * Z) :=
  call_op d ops_get_charging_current (ret (- EOPNOTSUPP, uA))
    (fun f => f uA).

Definition charger_dev_get_min_charging_current (d : option charger_device) (uA : Z) : M E (Z * Z) :=
  call_op d ops_get_min_charging_current (ret (- EOPNOTSUPP, uA))
    (fun f => f uA).

Definition charger_dev_enable_chip (d : option charger_device) (en : bool) : M E (Z) :=
  call_op d ops_enable_chip (ret (- EOPNOTSUPP))
    (fun f => f en).

Definition charger_dev_is_chip_enabled (d : option charger_device) (en : bool) : M E (Z * bool) :=
  call_op d ops_is_chip_enabled (ret (- EOPNOTSUPP, en))
    (fun f => f en).

Definition charger_dev_enable_direct_charging (d : option charger_device) (en : bool) : M E (Z) :=
  call_op d ops_enable_direct_charging (ret (- EOPNOTSUPP))
    (fun f => f en).

Definition charger_dev_kick_direct_charging_wdt (d : option charger_device) : M E (Z) :=
  call_op d ops_kick_direct_charging_wdt (ret (- EOPNOTSUPP))
    (fun f => f).

Definition charger_dev_get_vbus (d : option charger_device) (vbus : Z) : M E (Z * Z) :=
  call_op d ops_get_vbus_adc (ret (- EOPNOTSUPP, vbus))
    (fun f => f vbus).

Definition charger_dev_get_ibus (d : option charger_device) (ibus : Z) : M E (Z * Z) :=
  call_op d ops_get_ibus_adc (ret (- EOPNOTSUPP, ibus))
    (fun f => f ibus).

Definition charger_dev_get_ibat (d : option charger_device) (ibat : Z) : M E (Z * Z) :=
  call_op d ops_get_ibat_adc (ret (- EOPNOTSUPP, ibat))
    (fun f => f ibat).

Definition charger_dev_get_temperature (d : option charger_device) (tchg_min : Z) (tchg_max : Z) : M E (Z * (Z * Z)) :=
  call_op d ops_get_tchg_adc (ret (- EOPNOTSUPP, (tchg_min, tchg_max)))
    (fun f => f tchg_min tchg_max).

Definition charger_dev_enable_dcap (d : option charger_device) (en : bool) : M E (Z) :=
  call_op d ops_enable_dcap (ret (- EOPNOTSUPP))
    (fun f => f en).

Definition charger_dev_set_input_current (d : option charger_device) (uA : Z) : M E (Z) :=
  call_op d ops_set_input_current (ret (- EOPNOTSUPP))
    (fun f => f (u32 uA)).

Definition charger_dev_get_input_current (d : option charger_device) (uA : Z) : M E (Z * Z) :=
  call_op d ops_get_input_current (ret (- EOPNOTSUPP, uA))
    (fun f => f uA).

Definition charger_dev_get_min_input_current (d : option charger_device) (uA : Z) : M E (Z * Z) :=
  call_op d ops_get_min_input_current (ret (- EOPNOTSUPP, uA))
    (fun f => f uA).

Definition charger_dev_get_eoc_current (d : option charger_device) (uA : Z) : M E (Z * Z) :=
  call_op d ops_get_eoc_current (ret (- EOPNOTSUPP, uA))
    (fun f => f uA).

Definition charger_dev_kick_wdt (d : option charger_device) : M E (Z) :=
  call_op d ops_kick_wdt (ret (- EOPNOTSUPP))
    (fun f => f).

Definition charger_dev_set_constant_voltage (d : option charger_device) (uV : Z) : M E (Z) :=
  call_op d ops_set_constant_voltage (ret (- EOPNOTSUPP))
    (fun f => f (u32 uV)).

Definition charger_dev_get_constant_voltage (d : option charger_device) (uV : Z) : M E (Z * Z) :=
  call_op d ops_get_constant_voltage (ret (- EOPNOTSUPP, uV))
    (fun f => f uV).

Definition charger_dev_dump_registers (d : option charger_device) : M E (Z) :=
  call_op d ops_dump_registers (ret (- EOPNOTSUPP))
    (fun f => f).

Definition charger_dev_is_charging_done (d : option charger_device) (done : bool) : M E (Z * bool) :=
  call_op d ops_is_charging_done (ret (- EOPNOTSUPP, done))
    (fun f => f done).

Definition charger_dev_enable_vbus_ovp (d : option charger_device) (en : bool) : M E (Z) :=
  call_op d ops_enable_vbus_ovp (ret (- EOPNOTSUPP))
    (fun f => f en).

Definition charger_dev_set_mivr (d : option charger_device) (uV : Z) : M E (Z) :=
  call_op d ops_set_mivr (ret (- EOPNOTSUPP))
    (fun f => f (u32 uV)).

Definition charger_dev_get_mivr (d : option charger_device) (uV : Z) : M E (Z * Z) :=
  call_op d ops_get_mivr (ret (- EOPNOTSUPP, uV))
    (fun f => f uV).

Definition charger_dev_enable_powerpath (d : option charger_device) (en : bool) : M E (Z) :=
  call_op d ops_enable_powerpath (ret (- EOPNOTSUPP))
    (fun f => f en).

Definition charger_dev_is_powerpath_enabled (d : option charger_device) (en : bool) : M E (Z * bool) :=
  call_op d ops_is_powerpath_enabled (ret (- EOPNOTSUPP, en))
    (fun f => f en).

Definition charger_dev_enable_safety_timer (d : option charger_device) (en : bool) : M E (Z) :=
  call_op d ops_enable_safety_timer (ret (- EOPNOTSUPP))
    (fun f => f en).

Definition charger_dev_enable_hz (d : option charger_device) (en : bool) : M E (Z) :=
  call_op d ops_enable_hz (ret (- EOPNOTSUPP))
    (fun f => f en).

Definition charger_dev_is_safety_timer_enabled (d : option charger_device) (en : bool) : M E (Z * bool) :=
  call_op d ops_is_safety_timer_enabled (ret (- EOPNOTSUPP, en))
    (fun f => f en).

Definition charger_dev_enable_termination (d : option charger_device) (en : bool) : M E (Z) :=
  call_op d ops_enable_termination (ret (- EOPNOTSUPP))
    (fun f => f en).

Definition charger_dev_get_mivr_state (d : option charger_device) (in_loop : bool) : M E (Z * bool) :=
  call_op d ops_get_mivr_state (ret (- EOPNOTSUPP, in_loop))
    (fun f => f in_loop).

Definition charger_dev_get_indpm_state (d : option charger_device) (vdpm : bool) (idpm : bool) : M E (Z * (bool * bool)) :=
  call_op d ops_get_indpm_state (ret (- ENOTSUPP, (vdpm, idpm)))
    (fun f => f vdpm idpm).

Definition charger_dev_send_ta_current_pattern (d : option charger_device) (is_increase : bool) : M E (Z) :=
  call_op d ops_send_ta_current_pattern (ret (- EOPNOTSUPP))
    (fun f => f is_increase).

Definition charger_dev_send_ta20_current_pattern (d : option charger_device) (uV : Z) : M E (Z) :=
  call_op d ops_send_ta20_current_pattern (ret (- EOPNOTSUPP))
    (fun f => f (u32 uV)).

Definition charger_dev_reset_ta (d : option charger_device) : M E (Z) :=
  call_op d ops_reset_ta (ret (- EOPNOTSUPP))
    (fun f => f).

Definition charger_dev_set_pe20_efficiency_table (d : option charger_device) : M E (Z) :=
  call_op d ops_set_pe20_efficiency_table (ret (- EOPNOTSUPP))
    (fun f => f).

Definition charger_dev_enable_cable_drop_comp (d : option charger_device) (en : bool) : M E (Z) :=
  call_op d ops_enable_cable_drop_comp (ret (- EOPNOTSUPP))
    (fun f => f en).

Definition charger_dev_set_direct_charging_ibusoc (d : option charger_device) (uA : Z) : M E (Z) :=
  call_op d ops_set_direct_charging_ibusoc (ret (- EOPNOTSUPP))
    (fun f => f (u32 uA)).

Definition charger_dev_set_direct_charging_vbusov (d : option charger_device) (uV : Z) : M E (Z) :=
  call_op d ops_set_direct_charging_vbusov (ret (- EOPNOTSUPP))
    (fun f => f (u32 uV)).

Definition charger_dev_enable_chg_type_det (d : option charger_device) (en : bool) : M E (Z) :=
  call_op d ops_enable_chg_type_det (ret (- EOPNOTSUPP))
    (fun f => f en).

Definition charger_dev_enable_otg (d : option charger_device) (en : bool) : M E (Z) :=
  call_op d ops_enable_otg (ret (- EOPNOTSUPP))
    (fun f => f en).

Definition charger_dev_enable_discharge (d : option charger_device) (en : bool) : M E (Z) :=
  call_op d ops_enable_discharge (ret (- EOPNOTSUPP))
    (fun f => f en).

Definition charger_dev_set_boost_current_limit (d : option charger_device) (uA : Z) : M E (Z) :=
  call_op d ops_set_boost_current_limit (ret (- EOPNOTSUPP))
    (fun f => f (u32 uA)).

Definition charger_dev_get_zcv (d : option charger_device) (uV : Z) : M E (Z * Z) :=
  call_op d ops_get_zcv (ret (- EOPNOTSUPP, uV))
    (fun f => f uV).

Definition charger_dev_run_aicl (d : option charger_device) (uA : Z) : M E (Z * Z) :=
  call_op d ops_run_aicl (ret (- EOPNOTSUPP, uA))
    (fun f => f uA).

Definition charger_dev_reset_eoc_state (d : option charger_device) : M E (Z) :=
  call_op d ops_reset_eoc_state (ret (- EOPNOTSUPP))
    (fun f => f).

Definition charger_dev_enable_ir_comp (d : option charger_device) (en : bool) : M E (Z) :=
  call_op d ops_enable_ir_comp (ret (- ENOTSUPP))
    (fun f => f en).

Definition charger_dev_safety_check (d : option charger_device) (polling_ieoc : Z) : M E (Z) :=
  call_op d ops_safety_check (ret (- EOPNOTSUPP))
    (fun f => f (u32 polling_ieoc)).

Definition charger_dev_enable_usbid (d : option charger_device) (en : bool) : M E (Z) :=
  call_op d ops_enable_usbid (ret (- EOPNOTSUPP))
    (fun f => f en).

Definition charger_dev_set_usbid_rup (d : option charger_device) (rup : Z) : M E (Z) :=
  call_op d ops_set_usbid_rup (ret (- EOPNOTSUPP))
    (fun f => f (u32 rup)).

Definition charger_dev_set_usbid_src_ton (d : option charger_device) (src_ton : Z) : M E (Z) :=
  call_op d ops_set_usbid_src_ton (ret (- EOPNOTSUPP))
    (fun f => f (u32 src_ton)).

Definition charger_dev_enable_usbid_floating (d : option charger_device) (en : bool) : M E (Z) :=
  call_op d ops_enable_usbid_floating (ret (- EOPNOTSUPP))
    (fun f => f en).

Definition charger_dev_enable_force_typec_otp (d : option charger_device) (en : bool) : M E (Z) :=
  call_op d ops_enable_force_typec_otp (ret (- EOPNOTSUPP))
    (fun f => f en).

Definition charger_dev_get_ctd_dischg_status (d : option charger_device) (status : Z) : M E (Z * Z) :=
  call_op d ops_get_ctd_dischg_status (ret (- EOPNOTSUPP, status))
    (fun f => f status).

Definition charger_dev_enable_hidden_mode (d : option charger_device) (en : bool) : M E (Z) :=
  call_op d ops_enable_hidden_mode (ret (- EOPNOTSUPP))
    (fun f => f en).

Definition wireless_charger_dev_get_online (d : option charger_device) (stat : bool) : M E (Z * bool) :=
  call_op d ops_get_wpc_online (ret (- ENOTSUPP, stat))
    (fun f => f stat).

Definition wireless_charger_dev_force_en_charge (d : option charger_device) (en : bool) : M E (Z) :=
  call_op d ops_force_enable_wpc_charge (ret (- ENOTSUPP))
    (fun f => f en).

Definition wireless_charger_dev_get_temp (d : option charger_device) : M E (Z) :=
  call_op d ops_get_temp (ret (- ENOTSUPP))
    (fun f => f).

Definition wireless_charger_dev_set_wpc_en (d : option charger_device) (en : bool) : M E (Z) :=
  call_op d ops_set_wpc_en (ret (- ENOTSUPP))
    (fun f => f en).

Definition charger_dev_get_adc (d : option charger_device) (chan min max : Z)
    : M E (Z * (Z * Z)) :=
  call_op d ops_get_adc (ret (- EOPNOTSUPP, (min, max))) (fun f => f chan min max).

Definition charger_dev_set_property (d : option charger_device) (prop val : Z)
    : M E (Z * Z) :=
  call_op d ops_set_property (ret (- EOPNOTSUPP, val)) (fun f => f prop val).

Definition charger_dev_get_property (d : option charger_device) (prop val : Z)
    : M E (Z * Z) :=
  call_op d ops_get_property (ret (- EOPNOTSUPP, val)) (fun f => f prop val).

Definition wireless_charger_dev_do_algorithm (d : option charger_device) (data : V)
    : M E (Z * V) :=
  call_op d ops_do_wpc_algorithm (ret (- ENOTSUPP, data)) (fun f => f data).

  (** The result of the driver is dropped: the function falls through to its
      failure exit. *)
Definition charger_dev_set_eoc_current (d : option charger_device) (uA : Z) : M E Z :=
  call_op d ops_set_eoc_current (ret (- EOPNOTSUPP))
    (fun f => f (u32 uA) ;;; ret (- EOPNOTSUPP)).

  (** The guard tests [set_wpc_en] and the call goes to [set_sleep_en]: [None]
      is the call through a null pointer. *)
Definition wireless_charger_dev_set_sleep_en (d : option charger_device) (en : bool)
    (e : E) : option (Z * E) :=
  match dev_op d ops_set_wpc_en e with
  | Some _ =>
      match dev_op d ops_set_sleep_en e with
      | Some f => Some (f en e)
      | None => None
      end
  | None => Some (- ENOTSUPP, e)
  end.

  (** The devices of the class, searched by name in registration order. *)
Definition get_charger_by_name {D} (devices : list (string * D))
    (name : option string) : option D :=
  match name with
  | None => None
  | Some n => snd <$> find (fun d => bool_decide (fst d = n)) devices
  end.

Definition set_shutdown_enable_dcap (devices : list (string * charger_device)) : M E Z :=
  match get_charger_by_name devices (Some "primary_chg"%string) with
  | Some d => charger_dev_enable_dcap (Some d) true
  | None => ret (- ENODEV)
  end.

  (** Only the ops table is cleared here; freeing the object is the device
      core's part of [device_unregister]. *)
Definition charger_device_unregister (d : option charger_device) : M E unit :=
  match d with
  | None => ret tt
  | Some d' => dev_set_ops d' None
  end.

End ChargerClass.

Arguments charger_ops : clear implicits.
Arguments charger_device : clear implicits.

(** ** Theorems *)

Section ClassTheorems.
  Context {E V : Type}.

Lemma call_op_unbound {T R} (d : charger_device E V) (sel : charger_ops E V -> option T)
    (fail : M E R) call e :
  dev_ops d e = None -> call_op (Some d) sel fail call e = fail e.
Proof. intros H. unfold call_op, dev_op. by rewrite H. Qed.

(** Unregistering a charger makes its operations unreachable: every class
    function on a pointer that is still held takes its failure exit and leaves
    the state alone, among them switching on, the current and the voltage. *)
Theorem unregistered_inert (d : charger_device E V) e en uA uV :
  (forall e, dev_ops d (exec (dev_set_ops d None) e) = None) ->
  let e' := exec (charger_device_unregister (Some d)) e in
  (forall T R (sel : charger_ops E V -> option T) (fail : M E R) call,
     call_op (Some d) sel fail call e' = fail e') /\
  charger_dev_enable (Some d) en e' = (- EOPNOTSUPP, e') /\
  charger_dev_set_charging_current (Some d) uA e' = (- EOPNOTSUPP, e') /\
  charger_dev_set_constant_voltage (Some d) uV e' = (- EOPNOTSUPP, e').
Proof.
  intros Hs. cbv zeta.
  assert (dev_ops d (exec (charger_device_unregister (Some d)) e) = None) as H by apply Hs.
  split_and!; intros; by apply call_op_unbound.
Qed.

(** [charger_dev_set_eoc_current] reports failure even when the driver has
    the operation and it succeeds; the driver's effect is kept. *)
Theorem set_eoc_current_always_fails (d : option (charger_device E V)) uA e :
  eval (charger_dev_set_eoc_current d uA) e = - EOPNOTSUPP /\
  (forall f, dev_op d ops_set_eoc_current e = Some f ->
     exec (charger_dev_set_eoc_current d uA) e = exec (f (u32 uA)) e).
Proof.
  unfold charger_dev_set_eoc_current, call_op, exec, eval. split.
  - destruct (dev_op d ops_set_eoc_current e) as [f|]; [|done].
    unfold bind. by destruct (f (u32 uA) e).
  - intros f ->. unfold bind. by destruct (f (u32 uA) e).
Qed.

(** [wireless_charger_dev_set_sleep_en] tests one entry and calls another:
    with a driver that has [set_wpc_en] and not [set_sleep_en] it calls through
    a null pointer, and with one that has only [set_sleep_en] it refuses. *)
Theorem set_sleep_en_wrong_guard (d : charger_device E V) o en e :
  dev_ops d e = Some o ->
  (ops_set_sleep_en o = None ->
   (wireless_charger_dev_set_sleep_en (Some d) en e = None <-> ops_set_wpc_en o <> None)) /\
  (ops_set_wpc_en o = None ->
   wireless_charger_dev_set_sleep_en (Some d) en e = Some (- ENOTSUPP, e)).
Proof.
  intros Ho. unfold wireless_charger_dev_set_sleep_en, dev_op. rewrite Ho.
  split; [intros ->|by intros ->]. by destruct (ops_set_wpc_en o).
Qed.

(** A lookup by name gives the first device of that name. *)
Lemma get_charger_by_name_first {D} (l1 l2 : list (string * D)) n d :
  n ∉ l1.*1 -> get_charger_by_name (l1 ++ (n, d) :: l2) (Some n) = Some d.
Proof.
  unfold get_charger_by_name. induction l1 as [|[m x] l1 IH]; cbn; intros Hn.
  - by rewrite bool_decide_true.
  - apply not_elem_of_cons in Hn as [Hm Hn]. rewrite bool_decide_false by done. by apply IH.
Qed.

End ClassTheorems.
