(* ===== verification/AlgClass.v ===== *)
(** * The charging-algorithm class (drivers/power/supply/mtk_charger_algorithm_class.c)

    Fast-charging algorithms (Pump Express, USB PD) register a
    [struct chg_alg_ops]; the charging code drives them through the functions
    of this class.  As in the charger class, [E] is the state behind the
    function pointers, which the algorithms share with the charger drivers
    they command. *)

From S2P Require Import Prelude.
#[local] Open Scope Z_scope.

(** [enum chg_alg_state]; a class function returns one of these numbers or a
    negative error. *)
Definition ALG_INIT_FAIL : Z := 0.
Definition ALG_TA_CHECKING : Z := 1.
Definition ALG_TA_NOT_SUPPORT : Z := 2.
Definition ALG_NOT_READY : Z := 3.
Definition ALG_READY : Z := 4.
Definition ALG_RUNNING : Z := 5.
Definition ALG_DONE : Z := 6.

(** [enum charger_configuration]. *)
Definition SINGLE_CHARGER : Z := 0.
Definition DUAL_CHARGERS_IN_SERIES : Z := 1.
Definition DUAL_CHARGERS_IN_PARALLEL : Z := 2.

(** [enum chg_alg_notifier_events]. *)
Inductive chg_alg_evt : Type := EVT_PLUG_IN | EVT_PLUG_OUT | EVT_FULL | EVT_RECHARGE.

#[global] Instance chg_alg_evt_eq_dec : EqDecision chg_alg_evt.
Proof. solve_decision. Defined.

(** [struct chg_alg_notify]. *)
Record chg_alg_notify : Type := mk_chg_alg_notify {
  notify_evt : chg_alg_evt;
  notify_value : Z
}.

(** [struct chg_limit_setting]: what an algorithm is told of the limits. *)
Record chg_limit_setting : Type := mk_chg_limit_setting {
  set_cv : Z;
  input_current_limit1 : Z;
  input_current_limit2 : Z;
  charging_current_limit1 : Z;
  charging_current_limit2 : Z
}.
#[global] Instance chg_limit_setting_struct : Struct chg_limit_setting :=
  fun r => mk_chg_limit_setting (set_cv r) (input_current_limit1 r)
    (input_current_limit2 r) (charging_current_limit1 r) (charging_current_limit2 r).

(** [enum chg_alg_props]. *)
Definition ALG_MAX_VBUS : Z := 0.

Section AlgClass.
  Context {E : Type}.

  (** [struct chg_alg_ops]; [plugout_reset] is called by nothing. *)
Record chg_alg_ops : Type := {
  alg_init_algo : option (M E Z);
  alg_is_algo_ready : option (M E Z);
  alg_start_algo : option (M E Z);
  alg_is_algo_running : option (M E bool);
  alg_stop_algo : option (M E Z);
  alg_notifier_call : option (chg_alg_notify -> M E Z);
  alg_get_prop : option (Z -> Z -> M E (Z * Z));
  alg_set_prop : option (Z -> Z -> M E Z);
  alg_set_current_limit : option (chg_limit_setting -> M E Z)
}.

  (** [struct chg_alg_device]: the object lives in [E]; joining its notifier
      chain is the kernel's [srcu_notifier_chain_register]. *)
Record chg_alg_device : Type := {
  alg_ops : E -> option chg_alg_ops;
  alg_set_ops : option chg_alg_ops -> M E unit;
  alg_set_config : Z -> M E unit;
  alg_notifier_chain_register : M E Z
}.

Definition alg_op {T} (d : option chg_alg_device) (sel : chg_alg_ops -> option T) (e : E)
    : option T :=
  match d with
  | Some d' => match alg_ops d' e with Some o => sel o | None => None end
  | None => None
  end.

Definition call_alg {T R} (d : option chg_alg_device) (sel : chg_alg_ops -> option T)
    (fail : M E R) (call : T -> M E R) : M E R :=
  fun e => match alg_op d sel e with Some f => call f e | None => fail e end.

Definition chg_alg_init_algo (d : option chg_alg_device) : M E Z :=
  call_alg d alg_init_algo (ret (- EOPNOTSUPP)) (fun f => f).

Definition chg_alg_is_algo_ready (d : option chg_alg_device) : M E Z :=
  call_alg d alg_is_algo_ready (ret (- EOPNOTSUPP)) (fun f => f).

  (** The entry returns a [bool], the function an [int]: a missing entry
      yields a non-zero, hence true, value. *)
Definition chg_alg_is_algo_running (d : option chg_alg_device) : M E Z :=
  call_alg d alg_is_algo_running (ret (- EOPNOTSUPP)) (fun f => let! b := f in ret (b2z b)).

Definition chg_alg_start_algo (d : option chg_alg_device) : M E Z :=
  call_alg d alg_start_algo (ret (- EOPNOTSUPP)) (fun f => f).

Definition chg_alg_get_prop (d : option chg_alg_device) (s value : Z) : M E (Z * Z) :=
  call_alg d alg_get_prop (ret (- EOPNOTSUPP, value)) (fun f => f s value).

Definition chg_alg_set_prop (d : option chg_alg_device) (s value : Z) : M E Z :=
  call_alg d alg_set_prop (ret (- EOPNOTSUPP)) (fun f => f s value).

Definition chg_alg_stop_algo (d : option chg_alg_device) : M E Z :=
  call_alg d alg_stop_algo (ret (- EOPNOTSUPP)) (fun f => f).

Definition chg_alg_notifier_call (d : option chg_alg_device) (notify : chg_alg_notify)
    : M E Z :=
  call_alg d alg_notifier_call (ret (- EOPNOTSUPP)) (fun f => f notify).

Definition chg_alg_set_current_limit (d : option chg_alg_device)
    (setting : chg_limit_setting) : M E Z :=
  call_alg d alg_set_current_limit (ret (- EOPNOTSUPP)) (fun f => f setting).

Definition chg_alg_state_to_str (state : Z) : string :=
  (if (state =? ALG_INIT_FAIL)%Z then "ALG_INIT_FAIL"
   else if (state =? ALG_TA_CHECKING)%Z then "ALG_TA_CHECKING"
   else if (state =? ALG_TA_NOT_SUPPORT)%Z then "ALG_TA_NOT_SUPPORT"
   else if (state =? ALG_NOT_READY)%Z then "ALG_NOT_READY"
   else if (state =? ALG_READY)%Z then "ALG_READY"
   else if (state =? ALG_RUNNING)%Z then "ALG_RUNNING"
   else if (state =? ALG_DONE)%Z then "ALG_DONE"
   else "chg_alg_state_UNKNOWN")%string.

Definition chg_alg_device_unregister (d : option chg_alg_device) : M E unit :=
  match d with
  | None => ret tt
  | Some d' => alg_set_ops d' None
  end.

  (** The class device list, searched by name. *)
Definition get_chg_alg_by_name {D} (devices : list (string * D))
    (name : option string) : option D :=
  match name with
  | None => None
  | Some n => snd <$> find (fun d => bool_decide (fst d = n)) devices
  end.

End AlgClass.

Arguments chg_alg_ops : clear implicits.
Arguments chg_alg_device : clear implicits.
