(* ===== verification/ChargerTypes.v ===== *)
(** * The state of the charging manager (drivers/power/supply/mtk_charger.h)

    The structures of mtk_charger.h as records with the fields the modelled
    code reads or writes, under their C names.  A field name that two
    structures share carries a prefix ([jeita_], [thm_], [det_], [lim_]).  Pointers
    to other objects are handles: [None] is [NULL], [Some h] names a
    device that lives in the platform state [E]. *)

From S2P Require Import Prelude ChargerClass AlgClass.
#[local] Open Scope Z_scope.

(** ** Constants of mtk_charger.h and include/linux/power_supply.h *)

Definition POWER_SUPPLY_TYPE_UNKNOWN : Z := 0.
Definition POWER_SUPPLY_TYPE_USB : Z := 4.
Definition POWER_SUPPLY_TYPE_USB_DCP : Z := 5.
Definition POWER_SUPPLY_TYPE_USB_CDP : Z := 6.
Definition POWER_SUPPLY_TYPE_WIRELESS : Z := 12.
Definition POWER_SUPPLY_TYPE_USB_FLOAT : Z := 16.
Definition POWER_SUPPLY_TYPE_WIRELESS_5W : Z := 17.
Definition POWER_SUPPLY_TYPE_WIRELESS_10W : Z := 18.
Definition POWER_SUPPLY_USB_TYPE_DCP : Z := 2.

(** [enum sw_jeita_state_enum]. *)
Definition TEMP_BELOW_T0 : Z := 0.
Definition TEMP_T0_TO_T1 : Z := 1.
Definition TEMP_T1_TO_T2 : Z := 2.
Definition TEMP_T2_TO_T3 : Z := 3.
Definition TEMP_T3_TO_T4 : Z := 4.
Definition TEMP_ABOVE_T4 : Z := 5.

(** [enum bat_temp_state_enum]. *)
Definition BAT_TEMP_LOW : Z := 0.
Definition BAT_TEMP_NORMAL : Z := 1.
Definition BAT_TEMP_HIGH : Z := 2.

(** [enum vbus_voltage_state]. *)
Definition VBUS_NORMAL : Z := 0.
Definition VBUS_OVP : Z := 1.
Definition VBUS_UVLO : Z := 2.

(** [enum adapter_power_category]. *)
Definition ADAPTER_5W : Z := 0.
Definition ADAPTER_7P5W : Z := 1.
Definition ADAPTER_9W : Z := 2.
Definition ADAPTER_12W : Z := 3.
Definition ADAPTER_15W : Z := 4.

(** [enum chg_dev_notifier_events]. *)
Definition EVENT_FULL : Z := 0.
Definition EVENT_RECHARGE : Z := 1.
Definition EVENT_DISCHARGE : Z := 2.

(** Charging abnormal status bits. *)
Definition CHG_VBUS_OV_STATUS : Z := 1.
Definition CHG_BAT_OT_STATUS : Z := 2.
Definition CHG_OC_STATUS : Z := 4.
Definition CHG_BAT_OV_STATUS : Z := 8.
Definition CHG_ST_TMO_STATUS : Z := 16.
Definition CHG_BAT_LT_STATUS : Z := 32.
Definition CHG_TYPEC_WD_STATUS : Z := 64.

Definition BCM_FLAG_NONE : Z := 0.
Definition BCM_FLAG_CHARGE_TIMER : Z := 1.
Definition MAX_ALG_NO : nat := 10.
Definition CHARGING_INTERVAL : Z := 10.
Definition CHARGING_FULL_INTERVAL : Z := 20.

(** ** Structures *)

(** [struct sw_jeita_data] *)
Record sw_jeita_data : Type := mk_sw_jeita_data {
  jeita_sm : Z;
  jeita_pre_sm : Z;
  jeita_cv : Z;
  jeita_charging : bool;
  jeita_error_recovery_flag : bool
}.
#[global] Instance sw_jeita_data_struct : Struct sw_jeita_data := fun r => mk_sw_jeita_data
  (jeita_sm r) (jeita_pre_sm r) (jeita_cv r) (jeita_charging r) (jeita_error_recovery_flag r).

(** [struct battery_thermal_protection_data] *)
Record battery_thermal_protection_data : Type := mk_battery_thermal_protection_data {
  thm_sm : Z;
  thm_enable_min_charge_temp : bool;
  thm_min_charge_temp : Z;
  thm_min_charge_temp_plus_x_degree : Z;
  thm_max_charge_temp : Z;
  thm_max_charge_temp_minus_x_degree : Z
}.
#[global] Instance battery_thermal_protection_data_struct : Struct battery_thermal_protection_data := fun r => mk_battery_thermal_protection_data
  (thm_sm r) (thm_enable_min_charge_temp r) (thm_min_charge_temp r) 
  (thm_min_charge_temp_plus_x_degree r) (thm_max_charge_temp r) 
  (thm_max_charge_temp_minus_x_degree r).

(** [struct charger_custom_data], with [CONFIG_MTK_USE_AGING_ZCV] as the product sets it *)
Record charger_custom_data : Type := mk_charger_custom_data {
  battery_cv : Z;
  max_charger_voltage : Z;
  max_charger_voltage_setting : Z;
  min_charger_voltage : Z;
  vbus_uvlo_voltage : Z;
  usb_charger_current : Z;
  ac_charger_current : Z;
  ac_charger_input_current : Z;
  non_std_ac_charger_current : Z;
  charging_host_charger_current : Z;
  wireless_5w_charger_input_current : Z;
  wireless_5w_charger_current : Z;
  wireless_10w_charger_input_current : Z;
  wireless_10w_charger_current : Z;
  wireless_default_charger_input_current : Z;
  wireless_default_charger_current : Z;
  jeita_temp_above_t4_cv : Z;
  jeita_temp_t3_to_t4_cv : Z;
  jeita_temp_t2_to_t3_cv : Z;
  jeita_temp_t1_to_t2_cv : Z;
  jeita_temp_t0_to_t1_cv : Z;
  jeita_temp_below_t0_cv : Z;
  temp_t4_thres : Z;
  temp_t4_thres_minus_x_degree : Z;
  temp_t3_thres : Z;
  temp_t3_thres_minus_x_degree : Z;
  temp_t2_thres : Z;
  temp_t2_thres_plus_x_degree : Z;
  temp_t1_thres : Z;
  temp_t1_thres_plus_x_degree : Z;
  temp_t0_thres : Z;
  temp_t0_thres_plus_x_degree : Z;
  temp_neg_10_thres : Z;
  temp_t0_to_t1_charger_current : Z;
  temp_t3_to_t4_charger_current : Z;
  min_charger_voltage_1 : Z;
  min_charger_voltage_2 : Z;
  max_dmivr_charger_current : Z;
  battery_cv_aging1 : Z;
  jeita_temp_above_t4_cv_aging1 : Z;
  jeita_temp_t3_to_t4_cv_aging1 : Z;
  jeita_temp_t2_to_t3_cv_aging1 : Z;
  jeita_temp_t1_to_t2_cv_aging1 : Z;
  jeita_temp_t0_to_t1_cv_aging1 : Z;
  jeita_temp_below_t0_cv_aging1 : Z;
  battery_cv_aging2 : Z;
  jeita_temp_above_t4_cv_aging2 : Z;
  jeita_temp_t3_to_t4_cv_aging2 : Z;
  jeita_temp_t2_to_t3_cv_aging2 : Z;
  jeita_temp_t1_to_t2_cv_aging2 : Z;
  jeita_temp_t0_to_t1_cv_aging2 : Z;
  jeita_temp_below_t0_cv_aging2 : Z
}.
#[global] Instance charger_custom_data_struct : Struct charger_custom_data := fun r => mk_charger_custom_data
  (battery_cv r) (max_charger_voltage r) (max_charger_voltage_setting r) (min_charger_voltage r) 
  (vbus_uvlo_voltage r) (usb_charger_current r) (ac_charger_current r) 
  (ac_charger_input_current r) (non_std_ac_charger_current r) (charging_host_charger_current r) 
  (wireless_5w_charger_input_current r) (wireless_5w_charger_current r) 
  (wireless_10w_charger_input_current r) (wireless_10w_charger_current r) 
  (wireless_default_charger_input_current r) (wireless_default_charger_current r) 
  (jeita_temp_above_t4_cv r) (jeita_temp_t3_to_t4_cv r) (jeita_temp_t2_to_t3_cv r) 
  (jeita_temp_t1_to_t2_cv r) (jeita_temp_t0_to_t1_cv r) (jeita_temp_below_t0_cv r) 
  (temp_t4_thres r) (temp_t4_thres_minus_x_degree r) (temp_t3_thres r) 
  (temp_t3_thres_minus_x_degree r) (temp_t2_thres r) (temp_t2_thres_plus_x_degree r) 
  (temp_t1_thres r) (temp_t1_thres_plus_x_degree r) (temp_t0_thres r) 
  (temp_t0_thres_plus_x_degree r) (temp_neg_10_thres r) (temp_t0_to_t1_charger_current r) 
  (temp_t3_to_t4_charger_current r) (min_charger_voltage_1 r) (min_charger_voltage_2 r) 
  (max_dmivr_charger_current r) (battery_cv_aging1 r) (jeita_temp_above_t4_cv_aging1 r) 
  (jeita_temp_t3_to_t4_cv_aging1 r) (jeita_temp_t2_to_t3_cv_aging1 r) 
  (jeita_temp_t1_to_t2_cv_aging1 r) (jeita_temp_t0_to_t1_cv_aging1 r) 
  (jeita_temp_below_t0_cv_aging1 r) (battery_cv_aging2 r) (jeita_temp_above_t4_cv_aging2 r) 
  (jeita_temp_t3_to_t4_cv_aging2 r) (jeita_temp_t2_to_t3_cv_aging2 r) 
  (jeita_temp_t1_to_t2_cv_aging2 r) (jeita_temp_t0_to_t1_cv_aging2 r) 
  (jeita_temp_below_t0_cv_aging2 r).

(** [struct charger_data] *)
Record charger_data : Type := mk_charger_data {
  input_current_limit : Z;
  charging_current_limit : Z;
  force_charging_current : Z;
  force_input_current_limit : Z;
  thermal_input_current_limit : Z;
  thermal_input_power_limit : Z;
  thermal_charging_current_limit : Z;
  disable_charging_count : Z;
  input_current_limit_by_aicl : Z;
  junction_temp_min : Z;
  junction_temp_max : Z
}.
#[global] Instance charger_data_struct : Struct charger_data := fun r => mk_charger_data
  (input_current_limit r) (charging_current_limit r) (force_charging_current r) 
  (force_input_current_limit r) (thermal_input_current_limit r) (thermal_input_power_limit r) 
  (thermal_charging_current_limit r) (disable_charging_count r) (input_current_limit_by_aicl r) 
  (junction_temp_min r) (junction_temp_max r).

(** [struct power_detection_data] *)
Record power_detection_data : Type := mk_power_detection_data {
  det_en : bool;
  det_iusb_ua : Z;
  det_type : Z;
  det_adapter_9w_aicl_min : Z;
  det_adapter_12w_aicl_min : Z;
  det_adapter_5w_iusb_lim : Z;
  det_adapter_7p5w_iusb_lim : Z;
  det_adapter_9w_iusb_lim : Z;
  det_adapter_12w_iusb_lim : Z;
  det_adapter_15w_iusb_lim : Z;
  det_aicl_trigger_iusb : Z;
  det_aicl_trigger_ichg : Z
}.
#[global] Instance power_detection_data_struct : Struct power_detection_data := fun r => mk_power_detection_data
  (det_en r) (det_iusb_ua r) (det_type r) (det_adapter_9w_aicl_min r) 
  (det_adapter_12w_aicl_min r) (det_adapter_5w_iusb_lim r) (det_adapter_7p5w_iusb_lim r) 
  (det_adapter_9w_iusb_lim r) (det_adapter_12w_iusb_lim r) (det_adapter_15w_iusb_lim r) 
  (det_aicl_trigger_iusb r) (det_aicl_trigger_ichg r).

(** Which [struct mtk_charger_algorithm] was installed. *)
Inductive charger_algo : Type := AlgoNone | AlgoBasic | AlgoPulse.

#[global] Instance charger_algo_eq_dec : EqDecision charger_algo.
Proof. solve_decision. Defined.

(** [struct mtk_charger]; [chg_data1] and [chg_data2] are the two entries of [chg_data], [wakelock_active] is [charger_wakelock->active] and [invalid_charger] is the state of the switch device *)
Record mtk_charger : Type := mk_mtk_charger {
  chg1_dev : option nat;
  chg2_dev : option nat;
  chg_data1 : charger_data;
  chg_data2 : charger_data;
  setting : chg_limit_setting;
  config : Z;
  chg_psy : option nat;
  bat_psy : option nat;
  pd_adapter : option nat;
  pd_type : Z;
  pd_reset : bool;
  tcpc : option nat;
  bootmode : Z;
  boottype : Z;
  bcm_flag : Z;
  chr_type : Z;
  usb_state : Z;
  cable_out_cnt : Z;
  wakelock_active : bool;
  charger_thread_timeout : bool;
  polling_interval : Z;
  charger_thread_polling : bool;
  endtime_sec : Z;
  endtime_nsec : Z;
  is_suspend : bool;
  log_level : Z;
  usb_unlimited : bool;
  disable_charger : bool;
  battery_temp : Z;
  can_charging : bool;
  cmd_discharging : bool;
  safety_timeout : bool;
  vbusov_stat : bool;
  is_chg_done : bool;
  init_done : bool;
  atm_enabled : bool;
  algorithm_name : string;
  algo : charger_algo;
  data : charger_custom_data;
  notify_code : Z;
  notify_test_mode : Z;
  enable_sw_safety_timer : bool;
  sw_safety_timer_setting : bool;
  enable_sw_jeita : bool;
  sw_jeita : sw_jeita_data;
  thermal : battery_thermal_protection_data;
  alg : list (option nat);
  enable_hv_charging : bool;
  water_detected : bool;
  enable_dynamic_mivr : bool;
  enable_bat_eoc_protect : bool;
  bat_eoc_protect : bool;
  soc_exit_eoc : Z;
  dpm_disable_charging : bool;
  soc_exit_dpm_eoc : Z;
  cv_enter_dpm_eoc : Z;
  dpm_state_count : Z;
  dpm_cv_bat_vdiff_uv : Z;
  dpm_ibat_threshold_ma : Z;
  dpm_state_count_max : Z;
  dpm_rechg_low_soc_diff : Z;
  dpm_input_cur_limit_ua : Z;
  dpm_charge_cur_limit_ua : Z;
  invalid_charger_det_done : bool;
  invalid_charger_det_weak : bool;
  invchg_check_iusb_ua : Z;
  invchg_check_ichg_ua : Z;
  invchg_check_mivr_uv : Z;
  disconnect_time : Z;
  disconnect_duration : Z;
  bat_eoc_protect_reset_time : Z;
  top_off_mode_enable : Z;
  custom_charging_cv : Z;
  top_off_mode_cv : Z;
  top_off_difference_full_cv : Z;
  normal_difference_full_cv : Z;
  power_detection : power_detection_data;
  vbus_state : Z;
  vbus_recovery_from_uvlo : bool;
  invalid_charger : Z;
  top_off_mode_cv_aging1 : Z;
  top_off_mode_cv_aging2 : Z
}.
#[global] Instance mtk_charger_struct : Struct mtk_charger := fun r => mk_mtk_charger
  (chg1_dev r) (chg2_dev r) (chg_data1 r) (chg_data2 r) (setting r) (config r) (chg_psy r) 
  (bat_psy r) (pd_adapter r) (pd_type r) (pd_reset r) (tcpc r) (bootmode r) (boottype r) 
  (bcm_flag r) (chr_type r) (usb_state r) (cable_out_cnt r) (wakelock_active r) 
  (charger_thread_timeout r) (polling_interval r) (charger_thread_polling r) (endtime_sec r) 
  (endtime_nsec r) (is_suspend r) (log_level r) (usb_unlimited r) (disable_charger r) 
  (battery_temp r) (can_charging r) (cmd_discharging r) (safety_timeout r) (vbusov_stat r) 
  (is_chg_done r) (init_done r) (atm_enabled r) (algorithm_name r) (algo r) (data r) 
  (notify_code r) (notify_test_mode r) (enable_sw_safety_timer r) (sw_safety_timer_setting r) 
  (enable_sw_jeita r) (sw_jeita r) (thermal r) (alg r) (enable_hv_charging r) (water_detected r) 
  (enable_dynamic_mivr r) (enable_bat_eoc_protect r) (bat_eoc_protect r) (soc_exit_eoc r) 
  (dpm_disable_charging r) (soc_exit_dpm_eoc r) (cv_enter_dpm_eoc r) (dpm_state_count r) 
  (dpm_cv_bat_vdiff_uv r) (dpm_ibat_threshold_ma r) (dpm_state_count_max r) 
  (dpm_rechg_low_soc_diff r) (dpm_input_cur_limit_ua r) (dpm_charge_cur_limit_ua r) 
  (invalid_charger_det_done r) (invalid_charger_det_weak r) (invchg_check_iusb_ua r) 
  (invchg_check_ichg_ua r) (invchg_check_mivr_uv r) (disconnect_time r) (disconnect_duration r) 
  (bat_eoc_protect_reset_time r) (top_off_mode_enable r) (custom_charging_cv r) 
  (top_off_mode_cv r) (top_off_difference_full_cv r) (normal_difference_full_cv r) 
  (power_detection r) (vbus_state r) (vbus_recovery_from_uvlo r) (invalid_charger r) 
  (top_off_mode_cv_aging1 r) (top_off_mode_cv_aging2 r).

(** [&info->chg_data[idx]] for an index that is one of the two. *)
Definition chg_data (idx : Z) (i : mtk_charger) : charger_data :=
  if idx =? 0 then chg_data1 i else chg_data2 i.

(** Objects as [devm_kzalloc] returns them. *)
Definition zero_sw_jeita : sw_jeita_data := mk_sw_jeita_data 0 0 0 false false.
Definition zero_thermal : battery_thermal_protection_data :=
  mk_battery_thermal_protection_data 0 false 0 0 0 0.
Definition zero_custom : charger_custom_data := mk_charger_custom_data
  0 0 0 0 0 0 0 0 0 0 0 0 0 0 0 0 0 0 0 0 0 0 0 0 0 0 0 0 0 0 0 0 0 0 0 0 0 0 0 0 0 0 0 0
  0 0 0 0 0 0 0 0.
Definition zero_charger_data : charger_data := mk_charger_data
  0 0 0 0 0 0 0 0 0 0 0.
Definition zero_power_detection : power_detection_data := mk_power_detection_data
  false 0 0 0 0 0 0 0 0 0 0 0.
Definition zero_setting : chg_limit_setting := mk_chg_limit_setting 0 0 0 0 0.
Definition zero_mtk_charger : mtk_charger := mk_mtk_charger
  None None zero_charger_data zero_charger_data zero_setting 0 None None None 0 false None
  0 0 0 0 0 0 false false 0 false 0 0 false 0 false false 0 false false false false false
  false false EmptyString AlgoNone zero_custom 0 0 false false false zero_sw_jeita
  zero_thermal (replicate MAX_ALG_NO None) false false false false false 0 false 0 0 0 0 0
  0 0 0 0 false false 0 0 0 0 0 0 0 0 0 0 0 zero_power_detection 0 false 0 0 0.
