(* ===== verification/ChargerDt.v ===== *)
(** * The device tree (drivers/power/supply/mtk_charger.c)

    [mtk_charger_parse_dt] and its helpers fill the manager's configuration
    from the device-tree node, with the defaults of mtk_charger.h.  A node is
    what its properties give: [of_u32] is [of_property_read_u32], [of_bool] is
    [of_property_read_bool], [of_bootmode] the boot tag of the node that the
    phandle "bootmode" names. *)

From S2P Require Import Prelude ChargerClass AlgClass ChargerTypes.
#[local] Open Scope Z_scope.

(** ** Defaults *)

Definition BATTERY_CV_AGING1 : Z := 4300000.
Definition JEITA_TEMP_ABOVE_T4_CV : Z := 4240000.
Definition JEITA_TEMP_T3_TO_T4_CV : Z := 4240000.
Definition JEITA_TEMP_T2_TO_T3_CV : Z := 4340000.
Definition JEITA_TEMP_T1_TO_T2_CV : Z := 4240000.
Definition JEITA_TEMP_T0_TO_T1_CV : Z := 4040000.
Definition JEITA_TEMP_BELOW_T0_CV : Z := 4040000.
Definition BATTERY_CV_AGING2 : Z := 4000000.
Definition DEFAULT_TOP_OFF_CHARGING_CV_AGING1 : Z := 4200000.
Definition DEFAULT_TOP_OFF_CHARGING_CV_AGING2 : Z := 0.
Definition DEFAULT_BAT_SOC_EXIT_EOC : Z := 96.
Definition DEFAULT_BAT_EOC_PROTECT_RESET_TIME : Z := 60.
Definition BATTERY_CV : Z := 4400000.
Definition V_CHARGER_MAX : Z := 6500000.
Definition V_CHARGER_MIN : Z := 4600000.
Definition V_VBUS_UVLO : Z := 4300000.
Definition TEMP_T4_THRES : Z := 50.
Definition TEMP_T4_THRES_MINUS_X_DEGREE : Z := 47.
Definition TEMP_T3_THRES : Z := 45.
Definition TEMP_T3_THRES_MINUS_X_DEGREE : Z := 39.
Definition TEMP_T2_THRES : Z := 10.
Definition TEMP_T2_THRES_PLUS_X_DEGREE : Z := 16.
Definition TEMP_T1_THRES : Z := 0.
Definition TEMP_T1_THRES_PLUS_X_DEGREE : Z := 6.
Definition TEMP_T0_THRES : Z := 0.
Definition TEMP_T0_TO_T1_DEFAULT_CHARGING_CURRENT : Z := 350000.
Definition TEMP_T3_TO_T4_DEFAULT_CHARGING_CURRENT : Z := 2000000.
Definition TEMP_T0_THRES_PLUS_X_DEGREE : Z := 0.
Definition MIN_CHARGE_TEMP : Z := 0.
Definition MIN_CHARGE_TEMP_PLUS_X_DEGREE : Z := 6.
Definition MAX_CHARGE_TEMP : Z := 50.
Definition MAX_CHARGE_TEMP_MINUS_X_DEGREE : Z := 47.
Definition USB_CHARGER_CURRENT : Z := 500000.
Definition AC_CHARGER_CURRENT : Z := 2050000.
Definition AC_CHARGER_INPUT_CURRENT : Z := 3200000.
Definition NON_STD_AC_CHARGER_CURRENT : Z := 500000.
Definition CHARGING_HOST_CHARGER_CURRENT : Z := 650000.
Definition WIRELESS_5W_CHARGER_CURRENT : Z := 1000000.
Definition WIRELESS_10W_CHARGER_CURRENT : Z := 1800000.
Definition WIRELESS_DEFAULT_CHARGER_CURRENT : Z := 500000.
Definition V_CHARGER_MIN_1 : Z := 4400000.
Definition V_CHARGER_MIN_2 : Z := 4200000.
Definition MAX_DMIVR_CHARGER_CURRENT : Z := 1800000.
Definition DEFAULT_TOP_OFF_CHARGING_CV : Z := 4200000.
Definition DEFAULT_DIFFERENCE_FULL_CV : Z := 500.
Definition TEMP_NEG_10_THRES : Z := -10.
Definition DEFAULT_CHECK_INVILID_CHARGER_IUSB : Z := 300000.
Definition DEFAULT_CHECK_INVILID_CHARGER_ICHG : Z := 1000000.
Definition DEFAULT_CHECK_INVILID_CHARGER_MIVR : Z := 4500000.
Definition DEFAULT_DPM_CV_BAT_VDIFF_UV : Z := 20000.
Definition DEFAULT_DPM_IBAT_THRESHOLD_MA : Z := 200.
Definition DEFAULT_DPM_STATE_COUNT_MAX : Z := 9.
Definition DEFAULT_DPM_RECHG_LOW_SOC_DIFF : Z := 2.
Definition DEFAULT_DPM_INPUT_CUR_LIMIT_UA : Z := 300000.
Definition DEFAULT_DPM_CHARGE_CUR_LIMIT_UA : Z := 300000.

Record device_node : Type := {
  of_u32 : string -> option Z;
  of_bool : string -> bool;
  of_string : string -> option string;
  of_bootmode : option (Z * Z)
}.

(** A property stored in an unsigned field, or its default. *)
Definition read_u32 (np : device_node) (name : string) (default : Z) : Z :=
  match of_u32 np name with Some v => u32 v | None => default end.

(** A property stored in an [int]. *)
Definition read_int (np : device_node) (name : string) (default : Z) : Z :=
  match of_u32 np name with Some v => s32 (u32 v) | None => default end.

(** [mtk_charger_parse_aging_dt]: the voltages for an aged battery. *)
Definition parse_aging_data (np : device_node) (d : charger_custom_data) : charger_custom_data :=
  d <| battery_cv_aging1 := read_int np "battery_cv_aging1"%string BATTERY_CV_AGING1 |>
    <| jeita_temp_above_t4_cv_aging1 := read_int np "jeita_temp_above_t4_cv_aging1"%string JEITA_TEMP_ABOVE_T4_CV |>
    <| jeita_temp_t3_to_t4_cv_aging1 := read_int np "jeita_temp_t3_to_t4_cv_aging1"%string JEITA_TEMP_T3_TO_T4_CV |>
    <| jeita_temp_t2_to_t3_cv_aging1 := read_int np "jeita_temp_t2_to_t3_cv_aging1"%string JEITA_TEMP_T2_TO_T3_CV |>
    <| jeita_temp_t1_to_t2_cv_aging1 := read_int np "jeita_temp_t1_to_t2_cv_aging1"%string JEITA_TEMP_T1_TO_T2_CV |>
    <| jeita_temp_t0_to_t1_cv_aging1 := read_int np "jeita_temp_t0_to_t1_cv_aging1"%string JEITA_TEMP_T0_TO_T1_CV |>
    <| jeita_temp_below_t0_cv_aging1 := read_int np "jeita_temp_below_t0_cv_aging1"%string JEITA_TEMP_BELOW_T0_CV |>
    <| battery_cv_aging2 := read_int np "battery_cv_aging2"%string BATTERY_CV_AGING2 |>
    <| jeita_temp_above_t4_cv_aging2 := read_int np "jeita_temp_above_t4_cv_aging2"%string JEITA_TEMP_ABOVE_T4_CV |>
    <| jeita_temp_t3_to_t4_cv_aging2 := read_int np "jeita_temp_t3_to_t4_cv_aging2"%string JEITA_TEMP_T3_TO_T4_CV |>
    <| jeita_temp_t2_to_t3_cv_aging2 := read_int np "jeita_temp_t2_to_t3_cv_aging2"%string JEITA_TEMP_T2_TO_T3_CV |>
    <| jeita_temp_t1_to_t2_cv_aging2 := read_int np "jeita_temp_t1_to_t2_cv_aging2"%string JEITA_TEMP_T1_TO_T2_CV |>
    <| jeita_temp_t0_to_t1_cv_aging2 := read_int np "jeita_temp_t0_to_t1_cv_aging2"%string JEITA_TEMP_T0_TO_T1_CV |>
    <| jeita_temp_below_t0_cv_aging2 := read_int np "jeita_temp_below_t0_cv_aging2"%string JEITA_TEMP_BELOW_T0_CV |>.

Definition mtk_charger_parse_aging_dt (np : device_node) (i : mtk_charger) : mtk_charger :=
  i <| data ::= parse_aging_data np |>
    <| top_off_mode_cv_aging1 :=
         read_int np "top_off_mode_cv_aging1"%string DEFAULT_TOP_OFF_CHARGING_CV_AGING1 |>
    <| top_off_mode_cv_aging2 :=
         read_int np "top_off_mode_cv_aging2"%string DEFAULT_TOP_OFF_CHARGING_CV_AGING2 |>.

(** The parts of [mtk_charger_parse_dt], in its order. *)
Definition parse_boot (np : device_node) (i : mtk_charger) : mtk_charger :=
  let i := match of_bootmode np with
           | Some (mode, type) => i <| bootmode := mode |> <| boottype := type |>
           | None => i
           end in
  let name := match of_string np "algorithm_name"%string with
              | Some s => s
              | None => "Basic"%string
              end in
  let i := i <| algorithm_name := name |> in
  let i := if bool_decide (name = "Basic"%string) then i <| algo := AlgoBasic |>
           else if bool_decide (name = "Pulse"%string) then i <| algo := AlgoPulse |>
           else i in
  let t := of_bool np "enable_sw_safety_timer"%string in
  i <| disable_charger := of_bool np "disable_charger"%string |>
    <| enable_sw_safety_timer := t |> <| sw_safety_timer_setting := t |>.

Definition parse_voltages (np : device_node) (d : charger_custom_data) : charger_custom_data :=
  let d :=
    d <| battery_cv := read_int np "battery_cv"%string BATTERY_CV |>
    <| max_charger_voltage := read_int np "max_charger_voltage"%string V_CHARGER_MAX |>
    <| min_charger_voltage := read_int np "min_charger_voltage"%string V_CHARGER_MIN |>
    <| vbus_uvlo_voltage := read_int np "vbus_uvlo_voltage"%string V_VBUS_UVLO |> in
  d <| max_charger_voltage_setting := max_charger_voltage d |>.

Definition parse_common (np : device_node) (i : mtk_charger) : mtk_charger :=
  i <| config := read_u32 np "charger_configuration"%string SINGLE_CHARGER |>
    <| enable_bat_eoc_protect := of_bool np "enable_bat_eoc_protect"%string |>
    <| soc_exit_eoc := read_u32 np "soc_exit_eoc"%string DEFAULT_BAT_SOC_EXIT_EOC |>
    <| bat_eoc_protect_reset_time :=
         read_u32 np "bat_eoc_protect_reset_time"%string DEFAULT_BAT_EOC_PROTECT_RESET_TIME |>
    <| data ::= parse_voltages np |>.

(** [-val] is computed in [u32] and stored in an [int]. *)
Definition parse_neg_10 (np : device_node) : Z :=
  match of_u32 np "temp_neg_10_thres"%string with
  | Some v => if of_bool np "temp_neg_10_thres_neg"%string then s32 (u32 (- u32 v)) else s32 (u32 v)
  | None => TEMP_NEG_10_THRES
  end.

Definition parse_jeita_data (np : device_node) (d : charger_custom_data) : charger_custom_data :=
  d <| jeita_temp_above_t4_cv := read_int np "jeita_temp_above_t4_cv"%string JEITA_TEMP_ABOVE_T4_CV |>
    <| jeita_temp_t3_to_t4_cv := read_int np "jeita_temp_t3_to_t4_cv"%string JEITA_TEMP_T3_TO_T4_CV |>
    <| jeita_temp_t2_to_t3_cv := read_int np "jeita_temp_t2_to_t3_cv"%string JEITA_TEMP_T2_TO_T3_CV |>
    <| jeita_temp_t1_to_t2_cv := read_int np "jeita_temp_t1_to_t2_cv"%string JEITA_TEMP_T1_TO_T2_CV |>
    <| jeita_temp_t0_to_t1_cv := read_int np "jeita_temp_t0_to_t1_cv"%string JEITA_TEMP_T0_TO_T1_CV |>
    <| jeita_temp_below_t0_cv := read_int np "jeita_temp_below_t0_cv"%string JEITA_TEMP_BELOW_T0_CV |>
    <| temp_t4_thres := read_int np "temp_t4_thres"%string TEMP_T4_THRES |>
    <| temp_t4_thres_minus_x_degree := read_int np "temp_t4_thres_minus_x_degree"%string TEMP_T4_THRES_MINUS_X_DEGREE |>
    <| temp_t3_thres := read_int np "temp_t3_thres"%string TEMP_T3_THRES |>
    <| temp_t3_thres_minus_x_degree := read_int np "temp_t3_thres_minus_x_degree"%string TEMP_T3_THRES_MINUS_X_DEGREE |>
    <| temp_t2_thres := read_int np "temp_t2_thres"%string TEMP_T2_THRES |>
    <| temp_t2_thres_plus_x_degree := read_int np "temp_t2_thres_plus_x_degree"%string TEMP_T2_THRES_PLUS_X_DEGREE |>
    <| temp_t1_thres := read_int np "temp_t1_thres"%string TEMP_T1_THRES |>
    <| temp_t1_thres_plus_x_degree := read_int np "temp_t1_thres_plus_x_degree"%string TEMP_T1_THRES_PLUS_X_DEGREE |>
    <| temp_t0_thres := read_int np "temp_t0_thres"%string TEMP_T0_THRES |>
    <| temp_t0_to_t1_charger_current := read_int np "temp_t0_to_t1_charger_current"%string TEMP_T0_TO_T1_DEFAULT_CHARGING_CURRENT |>
    <| temp_t3_to_t4_charger_current := read_int np "temp_t3_to_t4_charger_current"%string TEMP_T3_TO_T4_DEFAULT_CHARGING_CURRENT |>
    <| temp_t0_thres_plus_x_degree := read_int np "temp_t0_thres_plus_x_degree"%string TEMP_T0_THRES_PLUS_X_DEGREE |>
    <| temp_neg_10_thres := parse_neg_10 np |>.

Definition parse_jeita (np : device_node) (i : mtk_charger) : mtk_charger :=
  i <| enable_sw_jeita := of_bool np "enable_sw_jeita"%string |> <| data ::= parse_jeita_data np |>.

Definition parse_thermal (np : device_node) (t : battery_thermal_protection_data)
    : battery_thermal_protection_data :=
  let t := t <| thm_sm := BAT_TEMP_NORMAL |>
    <| thm_enable_min_charge_temp := of_bool np "enable_min_charge_temp"%string |> in
  t <| thm_min_charge_temp := read_int np "min_charge_temp"%string MIN_CHARGE_TEMP |>
    <| thm_min_charge_temp_plus_x_degree := read_int np "min_charge_temp_plus_x_degree"%string MIN_CHARGE_TEMP_PLUS_X_DEGREE |>
    <| thm_max_charge_temp := read_int np "max_charge_temp"%string MAX_CHARGE_TEMP |>
    <| thm_max_charge_temp_minus_x_degree := read_int np "max_charge_temp_minus_x_degree"%string MAX_CHARGE_TEMP_MINUS_X_DEGREE |>.

Definition parse_currents (np : device_node) (d : charger_custom_data) : charger_custom_data :=
  d <| usb_charger_current := read_int np "usb_charger_current"%string USB_CHARGER_CURRENT |>
    <| ac_charger_current := read_int np "ac_charger_current"%string AC_CHARGER_CURRENT |>
    <| ac_charger_input_current := read_int np "ac_charger_input_current"%string AC_CHARGER_INPUT_CURRENT |>
    <| non_std_ac_charger_current := read_int np "non_std_ac_charger_current"%string NON_STD_AC_CHARGER_CURRENT |>
    <| charging_host_charger_current := read_int np "charging_host_charger_current"%string CHARGING_HOST_CHARGER_CURRENT |>
    <| wireless_5w_charger_input_current := read_int np "wireless_5w_charger_input_current"%string WIRELESS_5W_CHARGER_CURRENT |>
    <| wireless_5w_charger_current := read_int np "wireless_5w_charger_current"%string WIRELESS_5W_CHARGER_CURRENT |>
    <| wireless_10w_charger_input_current := read_int np "wireless_10w_charger_input_current"%string WIRELESS_10W_CHARGER_CURRENT |>
    <| wireless_10w_charger_current := read_int np "wireless_10w_charger_current"%string WIRELESS_10W_CHARGER_CURRENT |>
    <| wireless_default_charger_input_current := read_int np "wireless_default_charger_input_current"%string WIRELESS_DEFAULT_CHARGER_CURRENT |>
    <| wireless_default_charger_current := read_int np "wireless_default_charger_current"%string WIRELESS_DEFAULT_CHARGER_CURRENT |>.

Definition parse_mivr_data (np : device_node) (d : charger_custom_data) : charger_custom_data :=
  d <| min_charger_voltage_1 := read_int np "min_charger_voltage_1"%string V_CHARGER_MIN_1 |>
    <| min_charger_voltage_2 := read_int np "min_charger_voltage_2"%string V_CHARGER_MIN_2 |>
    <| max_dmivr_charger_current := read_int np "max_dmivr_charger_current"%string MAX_DMIVR_CHARGER_CURRENT |>.

Definition parse_mivr (np : device_node) (i : mtk_charger) : mtk_charger :=
  i <| enable_dynamic_mivr := of_bool np "enable_dynamic_mivr"%string |>
    <| data ::= parse_mivr_data np |>.

Definition parse_top_off (np : device_node) (i : mtk_charger) : mtk_charger :=
  i <| top_off_mode_cv := read_int np "top_off_mode_cv"%string DEFAULT_TOP_OFF_CHARGING_CV |>
    <| top_off_difference_full_cv :=
         read_u32 np "top_off_difference_full_cv"%string DEFAULT_DIFFERENCE_FULL_CV |>
    <| normal_difference_full_cv :=
         read_u32 np "normal_difference_full_cv"%string DEFAULT_DIFFERENCE_FULL_CV |>.

(** [__parse_node]: an absent property leaves the old value. *)
Definition __parse_node (np : device_node) (name : string) (cust_val : Z) : Z :=
  match of_u32 np name with Some v => s32 (u32 v) | None => cust_val end.

Definition parse_power_detection (np : device_node) (d : power_detection_data)
    : power_detection_data :=
  let d := d <| det_en := true |>
    <| det_adapter_9w_aicl_min ::= __parse_node np "adapter_9w_aicl_min"%string |>
    <| det_adapter_12w_aicl_min ::= __parse_node np "adapter_12w_aicl_min"%string |>
    <| det_adapter_5w_iusb_lim ::= __parse_node np "adapter_5w_iusb_lim"%string |>
    <| det_adapter_7p5w_iusb_lim ::= __parse_node np "adapter_7p5w_iusb_lim"%string |>
    <| det_adapter_9w_iusb_lim ::= __parse_node np "adapter_9w_iusb_lim"%string |>
    <| det_adapter_12w_iusb_lim ::= __parse_node np "adapter_12w_iusb_lim"%string |>
    <| det_adapter_15w_iusb_lim ::= __parse_node np "adapter_15w_iusb_lim"%string |>
    <| det_aicl_trigger_iusb ::= __parse_node np "aicl_trigger_iusb"%string |>
    <| det_aicl_trigger_ichg ::= __parse_node np "aicl_trigger_ichg"%string |> in
  if (det_adapter_9w_aicl_min d =? 0) ||
     (det_adapter_12w_aicl_min d =? 0) ||
     (det_adapter_5w_iusb_lim d =? 0) ||
     (det_adapter_7p5w_iusb_lim d =? 0) ||
     (det_adapter_9w_iusb_lim d =? 0) ||
     (det_adapter_12w_iusb_lim d =? 0) ||
     (det_adapter_15w_iusb_lim d =? 0) ||
     (det_aicl_trigger_iusb d =? 0) ||
     (det_aicl_trigger_ichg d =? 0)
  then d <| det_en := false |> else d.

Definition adapter_power_detection_parse_dt (np : device_node) (i : mtk_charger) : mtk_charger :=
  if of_bool np "power_detection_en"%string
  then i <| power_detection ::= parse_power_detection np |> else i.

Definition invalid_charger_check_parse_dt (np : device_node) (i : mtk_charger) : mtk_charger :=
  i <| invchg_check_iusb_ua := read_int np "invchg_check_iusb_ua"%string DEFAULT_CHECK_INVILID_CHARGER_IUSB |>
    <| invchg_check_ichg_ua := read_int np "invchg_check_ichg_ua"%string DEFAULT_CHECK_INVILID_CHARGER_ICHG |>
    <| invchg_check_mivr_uv := read_int np "invchg_check_mivr_uv"%string DEFAULT_CHECK_INVILID_CHARGER_MIVR |>.

Definition dpm_eoc_parse_dt (np : device_node) (i : mtk_charger) : mtk_charger :=
  i <| dpm_cv_bat_vdiff_uv := read_int np "dpm_cv_bat_vdiff_uv"%string DEFAULT_DPM_CV_BAT_VDIFF_UV |>
    <| dpm_ibat_threshold_ma := read_int np "dpm_ibat_threshold_ma"%string DEFAULT_DPM_IBAT_THRESHOLD_MA |>
    <| dpm_state_count_max := read_int np "dpm_state_count_max"%string DEFAULT_DPM_STATE_COUNT_MAX |>
    <| dpm_rechg_low_soc_diff := read_int np "dpm_rechg_low_soc_diff"%string DEFAULT_DPM_RECHG_LOW_SOC_DIFF |>
    <| dpm_input_cur_limit_ua := read_int np "dpm_input_cur_limit_ua"%string DEFAULT_DPM_INPUT_CUR_LIMIT_UA |>
    <| dpm_charge_cur_limit_ua := read_int np "dpm_charge_cur_limit_ua"%string DEFAULT_DPM_CHARGE_CUR_LIMIT_UA |>.

Definition mtk_charger_parse_dt (np : device_node) (i : mtk_charger) : mtk_charger :=
  let i := parse_boot np i in
  let i := parse_common np i in
  let i := parse_jeita np i in
  let i := i <| thermal ::= parse_thermal np |> in
  let i := i <| data ::= parse_currents np |> in
  let i := parse_mivr np i in
  let i := parse_top_off np i in
  let i := mtk_charger_parse_aging_dt np i in
  let i := adapter_power_detection_parse_dt np i in
  let i := invalid_charger_check_parse_dt np i in
  dpm_eoc_parse_dt np i.

(** A node without properties: every setting at its default. *)
Definition empty_node : device_node := {|
  of_u32 := fun _ => None; of_bool := fun _ => false; of_string := fun _ => None;
  of_bootmode := None
|}.
Definition default_charger : mtk_charger := mtk_charger_parse_dt empty_node zero_mtk_charger.

(** ** Theorems *)

(** All the numbers of [struct charger_custom_data]. *)
Definition custom_fields (d : charger_custom_data) : list Z :=
  [battery_cv d; max_charger_voltage d; max_charger_voltage_setting d; min_charger_voltage d;
   vbus_uvlo_voltage d; usb_charger_current d; ac_charger_current d; ac_charger_input_current d;
   non_std_ac_charger_current d; charging_host_charger_current d;
   wireless_5w_charger_input_current d; wireless_5w_charger_current d;
   wireless_10w_charger_input_current d; wireless_10w_charger_current d;
   wireless_default_charger_input_current d; wireless_default_charger_current d;
   jeita_temp_above_t4_cv d; jeita_temp_t3_to_t4_cv d; jeita_temp_t2_to_t3_cv d;
   jeita_temp_t1_to_t2_cv d; jeita_temp_t0_to_t1_cv d; jeita_temp_below_t0_cv d; temp_t4_thres d;
   temp_t4_thres_minus_x_degree d; temp_t3_thres d; temp_t3_thres_minus_x_degree d;
   temp_t2_thres d; temp_t2_thres_plus_x_degree d; temp_t1_thres d;
   temp_t1_thres_plus_x_degree d; temp_t0_thres d; temp_t0_thres_plus_x_degree d;
   temp_neg_10_thres d; temp_t0_to_t1_charger_current d; temp_t3_to_t4_charger_current d;
   min_charger_voltage_1 d; min_charger_voltage_2 d; max_dmivr_charger_current d;
   battery_cv_aging1 d; jeita_temp_above_t4_cv_aging1 d; jeita_temp_t3_to_t4_cv_aging1 d;
   jeita_temp_t2_to_t3_cv_aging1 d; jeita_temp_t1_to_t2_cv_aging1 d;
   jeita_temp_t0_to_t1_cv_aging1 d; jeita_temp_below_t0_cv_aging1 d; battery_cv_aging2 d;
   jeita_temp_above_t4_cv_aging2 d; jeita_temp_t3_to_t4_cv_aging2 d;
   jeita_temp_t2_to_t3_cv_aging2 d; jeita_temp_t1_to_t2_cv_aging2 d;
   jeita_temp_t0_to_t1_cv_aging2 d; jeita_temp_below_t0_cv_aging2 d].

Lemma read_int_s32 np name v : is_s32 v -> is_s32 (read_int np name v).
Proof. unfold read_int. intros H. case_match; [apply s32_range|done]. Qed.

Lemma parse_neg_10_s32 np : is_s32 (parse_neg_10 np).
Proof. unfold parse_neg_10. case_match; [case_match; apply s32_range|by vm_compute]. Qed.

(** The parts that fill it. *)
Definition parse_custom (np : device_node) (d : charger_custom_data) : charger_custom_data :=
  parse_aging_data np (parse_mivr_data np (parse_currents np (parse_jeita_data np
    (parse_voltages np d)))).

Lemma parse_dt_custom np i : data (mtk_charger_parse_dt np i) = parse_custom np (data i).
Proof.
  unfold mtk_charger_parse_dt, dpm_eoc_parse_dt, invalid_charger_check_parse_dt,
    adapter_power_detection_parse_dt, parse_boot. by destruct (of_bool np _), (of_bootmode np) as [[]|]; cbn; case_tests.
Qed.

(** Whatever the device tree holds, every number of the charger
    configuration that [mtk_charger_parse_dt] produces is in the range of a
    32-bit [int]: each field is written, so this needs nothing of the state
    before. *)
Theorem parse_dt_in_range np i : Forall is_s32 (custom_fields (data (mtk_charger_parse_dt np i))).
Proof.
  rewrite parse_dt_custom. unfold parse_custom.
  cbv -[read_int parse_neg_10 is_s32].
  repeat (apply Forall_cons; split); [first [apply parse_neg_10_s32|apply read_int_s32; by vm_compute]..|].
  constructor.
Qed.

(** The sign of the cold threshold survives the unsigned property: with the
    property "temp_neg_10_thres_neg" a stored magnitude [v] reads back as [-v],
    without it as [v]. *)
Theorem parse_neg_10_roundtrip np v :
  of_u32 np "temp_neg_10_thres"%string = Some v -> 0 <= v < 2 ^ 31 ->
  parse_neg_10 np = if of_bool np "temp_neg_10_thres_neg"%string then - v else v.
Proof.
  intros Hv Hr. unfold parse_neg_10. rewrite Hv, (u32_id v) by (unfold is_u32; lia).
  case_match; [apply s32_u32|apply s32_id]; unfold is_s32; lia.
Qed.

Definition cold_node : device_node := {|
  of_u32 := fun s => if bool_decide (s = "temp_neg_10_thres"%string) then Some 10 else None;
  of_bool := fun s => bool_decide (s = "temp_neg_10_thres_neg"%string);
  of_string := fun _ => None; of_bootmode := None
|}.

Lemma parse_neg_10_roundtrip_witness : parse_neg_10 cold_node = -10.
Proof.
  refine (parse_neg_10_roundtrip cold_node 10 eq_refl _). split; [discriminate|reflexivity].
Defined.

(** Adapter power detection is enabled only with a complete description:
    if it is on after parsing, none of its nine parameters is zero. *)
Theorem power_detection_complete np i :
  det_en (power_detection i) = false ->
  let d := power_detection (mtk_charger_parse_dt np i) in
  det_en d = true ->
  Forall (fun x => x <> 0)
    [det_adapter_9w_aicl_min d; det_adapter_12w_aicl_min d; det_adapter_5w_iusb_lim d;
     det_adapter_7p5w_iusb_lim d; det_adapter_9w_iusb_lim d; det_adapter_12w_iusb_lim d;
     det_adapter_15w_iusb_lim d; det_aicl_trigger_iusb d; det_aicl_trigger_ichg d].
Proof.
  intros H0. cbv zeta.
  assert (power_detection (mtk_charger_parse_dt np i) =
    if of_bool np "power_detection_en"%string then parse_power_detection np (power_detection i)
    else power_detection i) as ->.
  { unfold mtk_charger_parse_dt, adapter_power_detection_parse_dt, parse_boot.
    destruct (of_bool np "power_detection_en"%string), (of_bootmode np) as [[]|]; cbn; case_tests; reflexivity. }
  case_match; [|congruence]. unfold parse_power_detection. cbv zeta.
  match goal with |- context [if ?b then _ else _] => destruct b eqn:E end; [done|].
  intros _. bool_prop. repeat (apply Forall_cons; split; [done|]). constructor.
Qed.

Definition detection_node : device_node := {|
  of_u32 := fun _ => Some 1000000;
  of_bool := fun s => bool_decide (s = "power_detection_en"%string);
  of_string := fun _ => None; of_bootmode := None
|}.

Lemma power_detection_complete_witness :
  det_en (power_detection (mtk_charger_parse_dt detection_node zero_mtk_charger)) = true /\
  Forall (fun x => x <> 0)
    [det_adapter_9w_aicl_min (power_detection (mtk_charger_parse_dt detection_node zero_mtk_charger))].
Proof.
  split; [reflexivity|].
  pose proof (power_detection_complete detection_node zero_mtk_charger eq_refl eq_refl) as H.
  apply Forall_cons in H as [H _]. by constructor.
Defined.
