(* ===== verification/Platform.v ===== *)
(** * The platform the charging manager runs on

    [Platform E] is the interface between the charging manager and the rest
    of the kernel: the registered charger and algorithm devices, the power
    supplies, the Type-C port controller, timers, the wait queue.  [E] is the
    state of all of it.  The manager's definitions are written against this
    class, so their theorems hold for every platform; a property that needs
    more of a platform states it as laws on top of the class. *)

From S2P Require Import Prelude ChargerClass AlgClass ChargerTypes.
#[local] Open Scope Z_scope.

(** [enum adapter_event] and [enum adapter_property] of adapter_class.h. *)
Definition MTK_PD_CONNECT_NONE : Z := 0.
Definition MTK_PD_CONNECT_HARD_RESET : Z := 1.
Definition MTK_PD_CONNECT_PE_READY_SNK : Z := 2.
Definition MTK_PD_CONNECT_PE_READY_SNK_PD30 : Z := 3.
Definition MTK_PD_CONNECT_PE_READY_SNK_APDO : Z := 4.
Definition MTK_PD_CONNECT_TYPEC_ONLY_SNK : Z := 5.
Definition MTK_TYPEC_WD_STATUS : Z := 6.
Definition TYPEC_RP_LEVEL : Z := 0.

(** Power-supply properties the manager reads or writes. *)
Inductive psy_prop : Type :=
  PSP_CAPACITY | PSP_VOLTAGE_NOW | PSP_TEMP | PSP_CURRENT_NOW | PSP_PRESENT
| PSP_ONLINE | PSP_TYPE | PSP_USB_TYPE | PSP_DIFF_FULL_CV.

(** Events handed to the battery metrics log. *)
Inductive metric : Type :=
  MetricAdapterPower (type aicl_ma : Z) | MetricInvalidCharger
| MetricChgFault (code : Z) | MetricTopOff (en : bool) | MetricDpmEoc (cv : Z)
| MetricBcmFlag (flag : Z).

Class Platform (E : Type) : Type := {
  (** The object behind a handle. *)
  charger_at : nat -> charger_device E mtk_charger;
  alg_at : nat -> chg_alg_device E;
  (** The device lists of the two classes, by name. *)
  charger_list : E -> list (string * nat);
  alg_list : E -> list (string * nat);
  (** Type-C port controller and adapter. *)
  (** Joining a charger's notifier chain, and making [info] its driver data. *)
  charger_notifier_chain_register : nat -> M E Z;
  charger_dev_set_drvdata : nat -> M E unit;
  tcpc_dev_get_by_name : string -> M E (option nat);
  tcpm_inquire_typec_remote_rp_curr : nat -> M E Z;
  get_adapter_by_name : string -> M E (option nat);
  register_adapter_device_notifier : nat -> M E Z;
  adapter_dev_get_property : option nat -> Z -> M E Z;
  (** Power supplies: a lookup by phandle or by name that gives [NULL] or an
      error pointer is [None]; a property read has the contents of the value
      before and after it. *)
  power_supply_get_by_phandle : string -> M E (option nat);
  power_supply_get_by_name : string -> M E (option nat);
  power_supply_get_property : nat -> psy_prop -> Z -> M E (Z * Z);
  power_supply_set_property : nat -> psy_prop -> Z -> M E Z;
  (** The driver data of a supply and, where it is the [struct mtk_gauge],
      [gauge->gm->soc] and [gauge->gm->use_aging_zcv]. *)
  power_supply_get_drvdata : nat -> M E (option nat);
  gauge_soc : nat -> M E Z;
  gauge_use_aging_zcv : nat -> M E Z;
  get_battery_id_status : M E bool;
  (** The PMIC regmap, if the device tree names one that is probed. *)
  pmic_regmap : M E (option nat);
  regmap_update_bits : nat -> Z -> Z -> Z -> M E Z;
  (** Time, sleeping and the alarm. *)
  ktime_get_boottime : M E Z;
  msleep : Z -> M E unit;
  alarm_try_to_cancel : M E Z;
  alarm_start : Z -> M E unit;
  (** Waking the thread, user events, metrics, power off. *)
  wake_up_interruptible : M E unit;
  kobject_uevent : M E Z;
  bat_metrics : metric -> M E unit;
  kernel_power_off : M E unit;
  (** The contents of an uninitialised local variable. *)
  uninit : M E Z
}.

(** [struct pcharger_data] of mtk_pulse_charger.c; a [struct timespec] is a time
    in nanoseconds. *)
Record pcharger_data : Type := mk_pcharger_data {
  pc_state : Z;
  pc_disable_charging : bool;
  total_charging_time : Z;
  cc_charging_time : Z;
  topoff_charging_time : Z;
  full_charging_time : Z;
  topoff_begin_time : Z;
  charging_begin_time : Z;
  recharge_offset : Z;
  topoff_voltage : Z;
  chg_full_current : Z
}.
#[global] Instance pcharger_data_struct : Struct pcharger_data := fun r => mk_pcharger_data
  (pc_state r) (pc_disable_charging r) (total_charging_time r) (cc_charging_time r) (topoff_charging_time r)
  (full_charging_time r) (topoff_begin_time r) (charging_begin_time r) (recharge_offset r) (topoff_voltage r)
  (chg_full_current r).
Definition pcharger0 : pcharger_data := mk_pcharger_data 0 false 0 0 0 0 0 0 0 0 0.

(** C statics local to functions of mtk_charger.c and mtk_pulse_charger.c. *)
Record statics : Type := mk_statics {
  plug_status : bool;        (* bat_eoc_protect_handle_plug_state: status *)
  recharge_soc : Z;          (* battery_protect_algo: recharge_soc *)
  update_eoc_status : bool;  (* battery_full_track: update_eoc_status *)
  is_module_init_done : bool; (* charger_routine_thread: is_module_init_done *)
  aging_gauge : option nat;  (* get_use_aging_zcv: gauge *)
  pdata : pcharger_data;     (* mtk_pulse_charger_init: pdata *)
  full_check_count : Z       (* charging_full_check: full_check_count *)
}.
#[global] Instance statics_struct : Struct statics := fun r => mk_statics
  (plug_status r) (recharge_soc r) (update_eoc_status r) (is_module_init_done r)
  (aging_gauge r) (pdata r) (full_check_count r).

(** The manager's memory together with the platform. *)
Record world (E : Type) : Type := mk_world {
  info : mtk_charger;
  static : statics;
  env : E
}.
Arguments mk_world {E}.
Arguments info {E}.
Arguments static {E}.
Arguments env {E}.
#[global] Instance world_struct E : Struct (world E) :=
  fun r => mk_world (info r) (static r) (env r).

Section Access.
  Context {E : Type}.

(** Run platform code. *)
Definition call {A} (m : M E A) : M (world E) A :=
  fun w => let '(a, e) := m (env w) in (a, w <| env := e |>).

(** Read and write [*info] and the statics. *)
Definition geti {A} (f : mtk_charger -> A) : M (world E) A := gets (fun w => f (info w)).
Definition modi (f : mtk_charger -> mtk_charger) : M (world E) unit :=
  modify (fun w => w <| info ::= f |>).
Definition getst {A} (f : statics -> A) : M (world E) A := gets (fun w => f (static w)).
Definition modst (f : statics -> statics) : M (world E) unit :=
  modify (fun w => w <| static ::= f |>).

Lemma exec_call {A} (m : M E A) w :
  exec (call m) w = w <| env := exec m (env w) |>.
Proof. unfold exec, call. by destruct (m (env w)). Qed.

Lemma eval_call {A} (m : M E A) w : eval (call m) w = eval m (env w).
Proof. unfold eval, call. by destruct (m (env w)). Qed.

Lemma info_exec_call {A} (m : M E A) w : info (exec (call m) w) = info w.
Proof. by rewrite exec_call. Qed.

Lemma exec_geti {A} (f : mtk_charger -> A) w : exec (geti f) w = w.
Proof. done. Qed.
Lemma eval_geti {A} (f : mtk_charger -> A) w : eval (geti f) w = f (info w).
Proof. done. Qed.
Lemma exec_getst {A} (f : statics -> A) w : exec (getst f) w = w.
Proof. done. Qed.
Lemma eval_getst {A} (f : statics -> A) w : eval (getst f) w = f (static w).
Proof. done. Qed.
Lemma info_modi f w : info (exec (modi f) w) = f (info w).
Proof. done. Qed.
Lemma env_modi f w : env (exec (modi f) w) = env w.
Proof. done. Qed.
Lemma static_modi f w : static (exec (modi f) w) = static w.
Proof. done. Qed.
Lemma info_modst f w : info (exec (modst f) w) = info w.
Proof. done. Qed.
Lemma env_modst f w : env (exec (modst f) w) = env w.
Proof. done. Qed.
Lemma static_modst f w : static (exec (modst f) w) = f (static w).
Proof. done. Qed.
Lemma env_exec_call {A} (m : M E A) w : env (exec (call m) w) = exec m (env w).
Proof. by rewrite exec_call. Qed.
Lemma static_exec_call {A} (m : M E A) w : static (exec (call m) w) = static w.
Proof. by rewrite exec_call. Qed.

Lemma keeps_call {A T} (f : mtk_charger -> T) (m : M E A) :
  keeps (fun w => f (info w)) (call m).
Proof. intros w. by rewrite info_exec_call. Qed.

Lemma keeps_geti {A T} (f : world E -> T) (g : mtk_charger -> A) : keeps f (geti g).
Proof. done. Qed.

Lemma keeps_modi {T} (f : mtk_charger -> T) g :
  (forall i, f (g i) = f i) -> keeps (fun w => f (info w)) (modi g).
Proof. intros H w. apply H. Qed.

Lemma keeps_modst {T} (f : mtk_charger -> T) g : keeps (fun w => f (info w)) (modst g).
Proof. done. Qed.
Lemma wp_call {A} (m : M E A) (Q : A -> world E -> Prop) w :
  (forall a e, m (env w) = (a, e) -> Q a (w <| env := e |>)) -> wp (call m) Q w.
Proof.
  intros H. unfold wp, eval, exec, call. destruct (m (env w)) as [a e] eqn:Em. by apply H.
Qed.
Lemma wp_geti {A} (f : mtk_charger -> A) (Q : A -> world E -> Prop) w :
  Q (f (info w)) w -> wp (geti f) Q w.
Proof. done. Qed.
Lemma wp_getst {A} (f : statics -> A) (Q : A -> world E -> Prop) w :
  Q (f (static w)) w -> wp (getst f) Q w.
Proof. done. Qed.
Lemma wp_modi f (Q : unit -> world E -> Prop) w : Q tt (w <| info ::= f |>) -> wp (modi f) Q w.
Proof. done. Qed.
Lemma wp_modst f (Q : unit -> world E -> Prop) w : Q tt (w <| static ::= f |>) -> wp (modst f) Q w.
Proof. done. Qed.
End Access.

#[export] Hint Resolve keeps_call keeps_geti keeps_modst : kern.

#[export] Hint Rewrite @exec_bind @eval_bind @exec_ret @eval_ret @exec_gets @eval_gets
  @exec_when @exec_if @eval_if @exec_geti @eval_geti @exec_getst @eval_getst @info_modi
  @env_modi @static_modi @info_modst @env_modst @static_modst @info_exec_call
  @env_exec_call @static_exec_call @eval_call @exec_ignore : kern.

(** Run the code symbolically. *)
Ltac run := repeat (progress (autorewrite with kern; cbn [fst snd])).
Tactic Notation "run" "in" hyp(H) :=
  repeat (progress (autorewrite with kern in H; cbn [fst snd] in H)).

(** Forward symbolic execution of a [wp] goal. *)
Ltac wp_step :=
  match goal with
  | |- wp (bind _ _) _ _ => apply wp_bind
  | |- wp (ret _) _ _ => apply wp_ret
  | |- wp (gets _) _ _ => apply wp_gets
  | |- wp (geti _) _ _ => apply wp_geti
  | |- wp (getst _) _ _ => apply wp_getst
  | |- wp (modi _) _ _ => apply wp_modi
  | |- wp (modst _) _ _ => apply wp_modst
  | |- wp (call _) _ _ => apply wp_call; intros ? ? ?
  | |- wp (ignore _) _ _ => apply wp_ignore
  | |- wp (when _ _) _ _ => apply wp_when; intros ?
  | |- wp (if ?b then _ else _) _ _ =>
      lazymatch type of b with bool => apply wp_if; intros ? | _ => destruct b eqn:? end
  | |- wp (match ?x with _ => _ end) _ _ => destruct x eqn:?
  end; cbn beta zeta.
Ltac wps := repeat wp_step.

(** Solve [keeps] goals by following the structure of the code: a function with
    a [keeps] lemma in [kern] is not unfolded. *)
Ltac solve_keeps :=
  repeat match goal with
    | |- forall _, _ => intro
    | |- keeps _ (bind _ _) => apply keeps_bind
    | |- keeps _ (ret _) => apply keeps_ret
    | |- keeps _ (gets _) => apply keeps_gets
    | |- keeps _ (geti _) => apply keeps_geti
    | |- keeps _ (getst _) => apply keeps_gets
    | |- keeps _ (call _) => apply keeps_call
    | |- keeps _ (ignore _) => apply keeps_ignore
    | |- keeps _ (when _ _) => apply keeps_when
    | |- keeps _ (for_each _ _) => apply keeps_for_each
    | |- keeps _ (for_break _ _) => apply keeps_for_break
    | |- keeps _ (modst _) => apply keeps_modst
    | |- keeps _ (modi _) => apply keeps_modi; intros; try reflexivity
    | |- keeps _ (if ?b then _ else _) => destruct b
    | |- keeps _ (match ?x with _ => _ end) => destruct x
    | |- keeps _ _ => solve [auto with kern nocore]
    end.

Section Deref.
  Context {E : Type} `{!Platform E}.

(** Follow a device pointer. *)
Definition chg (h : option nat) : option (charger_device E mtk_charger) := charger_at <$> h.
Definition algd (h : option nat) : option (chg_alg_device E) := alg_at <$> h.

(** [get_charger_by_name] and [get_chg_alg_by_name] at the level of handles. *)
Definition find_charger (name : string) : M E (option nat) :=
  gets (fun e => get_charger_by_name (charger_list e) (Some name)).
Definition find_alg (name : string) : M E (option nat) :=
  gets (fun e => get_chg_alg_by_name (alg_list e) (Some name)).
End Deref.
