(* ===== verification/Board.v ===== *)
(** * A concrete platform

    A board with one ideal charger ("primary_chg") and one battery: the
    smallest state on which every function of the manager can be run.  It
    shows that the assumptions of the theorems can hold, and lets examples be
    evaluated. *)

From S2P Require Import Prelude ChargerClass AlgClass ChargerTypes ChargerDt Platform.
#[local] Open Scope Z_scope.

Record board : Type := mk_board {
  b_enabled : bool;      (* the charger's enable bit *)
  b_icl : Z;             (* input current limit, uA *)
  b_ccl : Z;             (* charging current limit, uA *)
  b_cv : Z;              (* constant voltage, uV *)
  b_mivr : Z;            (* minimum input voltage, uV *)
  b_vbus : Z;            (* bus voltage, uV *)
  b_done : bool;         (* charging done *)
  b_now : Z;             (* time since boot, ns *)
  b_temp : Z;            (* battery temperature, 0.1 degree *)
  b_soc : Z;             (* state of charge, percent *)
  b_type : Z;            (* type of the attached charger *)
  b_wakeups : Z;         (* how often the thread was woken *)
  b_off : bool;          (* powered off *)
  b_ops : bool           (* whether the charger's driver is bound *)
}.
#[global] Instance board_struct : Struct board := fun r => mk_board
  (b_enabled r) (b_icl r) (b_ccl r) (b_cv r) (b_mivr r) (b_vbus r) (b_done r) (b_now r)
  (b_temp r) (b_soc r) (b_type r) (b_wakeups r) (b_off r) (b_ops r).

(** A setting and its reading. *)
Definition b_set (f : Z -> board -> board) : option (Z -> M board Z) :=
  Some (fun v => modify (f v) ;;; ret 0).
Definition b_get (f : board -> Z) : option (Z -> M board (Z * Z)) :=
  Some (fun _ => let! v := gets f in ret (0, v)).

Definition board_ops : charger_ops board mtk_charger := {|
  ops_plug_in := Some (ret 0);
  ops_plug_out := Some (ret 0);
  ops_enable := Some (fun en => modify (fun b => b <| b_enabled := en |>) ;;; ret 0);
  ops_is_enabled := Some (fun _ => let! v := gets b_enabled in ret (0, v));
  ops_enable_chip := None;
  ops_is_chip_enabled := None;
  ops_get_charging_current := b_get b_ccl;
  ops_set_charging_current := b_set (fun v b => b <| b_ccl := v |>);
  ops_get_min_charging_current := Some (fun _ => ret (0, 500000));
  ops_set_constant_voltage := b_set (fun v b => b <| b_cv := v |>);
  ops_get_constant_voltage := b_get b_cv;
  ops_get_input_current := b_get b_icl;
  ops_set_input_current := b_set (fun v b => b <| b_icl := v |>);
  ops_get_min_input_current := Some (fun _ => ret (0, 100000));
  ops_get_eoc_current := None;
  ops_set_eoc_current := Some (fun _ => ret 0);
  ops_kick_wdt := None;
  ops_event := Some (fun _ _ => ret 0);
  ops_send_ta_current_pattern := None;
  ops_send_ta20_current_pattern := None;
  ops_reset_ta := None;
  ops_enable_cable_drop_comp := None;
  ops_set_mivr := b_set (fun v b => b <| b_mivr := v |>);
  ops_get_mivr := b_get b_mivr;
  ops_get_mivr_state := None;
  ops_get_indpm_state := Some (fun _ _ => ret (0, (false, false)));
  ops_is_powerpath_enabled := None;
  ops_enable_powerpath := None;
  ops_enable_vbus_ovp := None;
  ops_is_safety_timer_enabled := None;
  ops_enable_safety_timer := None;
  ops_enable_termination := None;
  ops_enable_direct_charging := None;
  ops_kick_direct_charging_wdt := None;
  ops_set_direct_charging_ibusoc := None;
  ops_set_direct_charging_vbusov := None;
  ops_enable_otg := None;
  ops_enable_discharge := None;
  ops_set_boost_current_limit := None;
  ops_enable_chg_type_det := None;
  ops_get_wpc_online := None;
  ops_do_wpc_algorithm := None;
  ops_force_enable_wpc_charge := None;
  ops_get_temp := None;
  ops_set_wpc_en := Some (fun _ => ret 0);
  ops_set_sleep_en := None;
  ops_run_aicl := Some (fun old => ret (0, old));
  ops_reset_eoc_state := None;
  ops_safety_check := None;
  ops_is_charging_done := Some (fun _ => let! v := gets b_done in ret (0, v));
  ops_set_pe20_efficiency_table := None;
  ops_dump_registers := Some (ret 0);
  ops_get_adc := None;
  ops_get_vbus_adc := b_get b_vbus;
  ops_get_ibus_adc := Some (fun _ => ret (0, 0));
  ops_get_ibat_adc := None;
  ops_get_tchg_adc := Some (fun _ _ => ret (0, (40, 40)));
  ops_get_zcv := None;
  ops_enable_usbid := None;
  ops_set_usbid_rup := None;
  ops_set_usbid_src_ton := None;
  ops_enable_usbid_floating := None;
  ops_enable_force_typec_otp := None;
  ops_enable_hidden_mode := None;
  ops_get_ctd_dischg_status := None;
  ops_enable_hz := None;
  ops_set_property := None;
  ops_get_property := None;
  ops_enable_dcap := None;
  ops_enable_ir_comp := Some (fun _ => ret 0)
|}.

Definition board_charger : charger_device board mtk_charger := {|
  dev_ops := fun _ => Some board_ops;
  dev_set_ops := fun _ => ret tt;
  dev_is_polling_mode := fun _ => false;
  dev_set_is_adapter_detect := fun _ => ret tt
|}.

(** The same chip behind a driver that can be unbound. *)
Definition board_removable : charger_device board mtk_charger := {|
  dev_ops := fun b => if b_ops b then Some board_ops else None;
  dev_set_ops := fun o => modify (fun b =>
    b <| b_ops := match o with Some _ => true | None => false end |>);
  dev_is_polling_mode := fun _ => false;
  dev_set_is_adapter_detect := fun _ => ret tt
|}.

Definition board_alg : chg_alg_device board := {|
  alg_ops := fun _ => None;
  alg_set_ops := fun _ => ret tt;
  alg_set_config := fun _ => ret tt;
  alg_notifier_chain_register := ret 0
|}.

(** Handle 0 is the charger; handle 1 the supply that is charger and gauge. *)
#[global] Instance board_platform : Platform board := {|
  charger_at := fun h => match h with O => board_charger | _ => board_removable end;
  alg_at := fun _ => board_alg;
  charger_list := fun _ => [("primary_chg"%string, 0%nat)];
  alg_list := fun _ => [];
  charger_notifier_chain_register := fun _ => ret 0;
  charger_dev_set_drvdata := fun _ => ret tt;
  tcpc_dev_get_by_name := fun _ => ret None;
  tcpm_inquire_typec_remote_rp_curr := fun _ => ret 500;
  get_adapter_by_name := fun _ => ret None;
  register_adapter_device_notifier := fun _ => ret 0;
  adapter_dev_get_property := fun _ _ => ret 500;
  power_supply_get_by_phandle := fun _ => ret (Some 1%nat);
  power_supply_get_by_name := fun _ => ret None;
  power_supply_get_property := fun _ psp old =>
    let! b := get in
    ret (0, match psp with
            | PSP_CAPACITY => b_soc b
            | PSP_VOLTAGE_NOW => 4000000
            | PSP_TEMP => b_temp b
            | PSP_PRESENT => 1
            | PSP_ONLINE => b2z (negb (b_type b =? 0))
            | PSP_TYPE => b_type b
            | _ => 0
            end);
  power_supply_set_property := fun _ _ _ => ret 0;
  power_supply_get_drvdata := fun _ => ret None;
  gauge_soc := fun _ => gets b_soc;
  gauge_use_aging_zcv := fun _ => ret 0;
  get_battery_id_status := ret true;
  pmic_regmap := ret (Some 2%nat);
  regmap_update_bits := fun _ _ _ _ => ret 0;
  ktime_get_boottime := gets b_now;
  msleep := fun ms => modify (fun b => b <| b_now ::= fun t => t + ms * 1000000 |>);
  alarm_try_to_cancel := ret 0;
  alarm_start := fun _ => ret tt;
  wake_up_interruptible := modify (fun b => b <| b_wakeups ::= Z.succ |>);
  kobject_uevent := ret 0;
  bat_metrics := fun _ => ret tt;
  kernel_power_off := modify (fun b => b <| b_off := true |>);
  uninit := ret 0
|}.

(** A charging board: a 5 V wall adapter, battery at 25 degrees and 50 percent. *)
Definition board0 : board :=
  mk_board true 500000 500000 4350000 4500000 5000000 false 1000000000 250 50
    POWER_SUPPLY_TYPE_USB_DCP 0 false true.

Definition statics0 : statics := mk_statics false 0 false true None pcharger0 0.

(** The manager at its defaults, software JEITA on, with the charger found. *)
Definition info0 : mtk_charger :=
  default_charger
    <| chg1_dev := Some 0%nat |> <| enable_sw_jeita := true |> <| battery_temp := 25 |>
    <| chr_type := POWER_SUPPLY_TYPE_USB_DCP |> <| can_charging := true |>
    <| custom_charging_cv := -1 |>
    <| sw_jeita ::= fun s => s <| jeita_sm := TEMP_T2_TO_T3 |> |>
    <| chg_data1 ::= fun p => p <| thermal_charging_current_limit := -1 |>
         <| thermal_input_current_limit := -1 |> <| thermal_input_power_limit := -1 |>
         <| input_current_limit_by_aicl := -1 |> <| force_charging_current := -1 |>
         <| force_input_current_limit := -1 |> |>
    <| chg_data2 ::= fun p => p <| thermal_charging_current_limit := -1 |>
         <| thermal_input_current_limit := -1 |> <| thermal_input_power_limit := -1 |> |>.

Definition world0 : world board := mk_world info0 statics0 board0.

(** ** Witnesses of the class theorems *)

Lemma unregistered_inert_witness :
  charger_dev_enable (Some board_removable) true
    (exec (charger_device_unregister (Some board_removable)) board0) =
  (- EOPNOTSUPP, exec (charger_device_unregister (Some board_removable)) board0).
Proof.
  refine (proj1 (proj2 (unregistered_inert board_removable board0 true 0 0 _))). reflexivity.
Defined.

Lemma set_sleep_en_wrong_guard_witness :
  wireless_charger_dev_set_sleep_en (Some board_charger) true board0 = None.
Proof.
  refine (proj2 (proj1 (set_sleep_en_wrong_guard board_charger board_ops true board0 eq_refl) eq_refl) _).
  discriminate.
Defined.
