(* ===== verification/ChargerIntf.v ===== *)
(** * Readings of battery and adapter (drivers/power/supply/mtk_charger_intf.c)

    The functions through which the charging manager reads the battery gauge
    and the charger: each looks its power supply up again if the pointer is
    not set, and falls back to a fixed value if there is none. *)

From S2P Require Import Prelude ChargerClass AlgClass ChargerTypes Platform Board.
#[local] Open Scope Z_scope.

Section Intf.
  Context {E : Type} `{!Platform E}.

  (** [bat_psy = info->bat_psy], looked up again by phandle if not set. *)
Definition get_bat_psy : M (world E) (option nat) :=
  let! p := geti bat_psy in
  match p with
  | Some h => ret (Some h)
  | None =>
      let! p' := call (power_supply_get_by_phandle "gauge"%string) in
      modi (fun i => i <| bat_psy := p' |>) ;;;
      ret p'
  end.

Definition get_chg_psy : M (world E) (option nat) :=
  let! p := geti chg_psy in
  match p with
  | Some h => ret (Some h)
  | None =>
      let! p' := call (power_supply_get_by_phandle "charger"%string) in
      modi (fun i => i <| chg_psy := p' |>) ;;;
      ret p'
  end.

  (** Read a property into an uninitialised [union power_supply_propval] and
      take its contents, whatever the call returned. *)
Definition read_prop (h : nat) (psp : psy_prop) : M (world E) Z :=
  let! junk := call uninit in
  let! r := call (power_supply_get_property h psp junk) in
  ret (s32 (snd r)).

Definition get_uisoc : M (world E) Z :=
  let! p := get_bat_psy in
  match p with
  | None => ret 50
  | Some h => read_prop h PSP_CAPACITY
  end.

Definition battery_get_soc : M (world E) Z :=
  let! p := call (power_supply_get_by_name "mtk-gauge"%string) in
  match p with
  | None => ret (-1)
  | Some h =>
      let! g := call (power_supply_get_drvdata h) in
      match g with
      | None => ret (-1)
      | Some gauge => call (gauge_soc gauge)
      end
  end.

Definition get_battery_voltage : M (world E) Z :=
  let! p := get_bat_psy in
  match p with
  | None => ret 3999
  | Some h => let! v := read_prop h PSP_VOLTAGE_NOW in ret (v ÷c 1000)
  end.

Definition get_battery_temperature : M (world E) Z :=
  let! p := get_bat_psy in
  match p with
  | None => ret 27
  | Some h => let! v := read_prop h PSP_TEMP in ret (v ÷c 10)
  end.

Definition get_battery_current : M (world E) Z :=
  let! p := get_bat_psy in
  match p with
  | None => ret 0
  | Some h => let! v := read_prop h PSP_CURRENT_NOW in ret (v ÷c 1000)
  end.

Definition set_battery_difference_full_cv (val : Z) : M (world E) Z :=
  let! p := get_bat_psy in
  match p with
  | None => ret (- ENODEV)
  | Some h => call (power_supply_set_property h PSP_DIFF_FULL_CV (s32 val))
  end.

  (** Returns the code and the contents of [*vchr]. *)
Definition get_pmic_vbus : M (world E) (Z * Z) :=
  let! junk := call uninit in
  let! p := call (power_supply_get_by_name "mtk_charger_type"%string) in
  match p with
  | None => ret (-1, s32 junk)
  | Some h =>
      let! r := call (power_supply_get_property h PSP_VOLTAGE_NOW junk) in
      ret (fst r, s32 (snd r))
  end.

Definition get_vbus : M (world E) Z :=
  let! d := geti chg1_dev in
  let! r := call (charger_dev_get_vbus (chg d) 0) in
  if fst r <? 0 then
    let! r' := get_pmic_vbus in ret (snd r')
  else ret (s32 (snd r) ÷c 1000).

Definition get_ibus : M (world E) Z :=
  let! d := geti chg1_dev in
  let! r := call (charger_dev_get_ibus (chg d) 0) in
  ret (s32 (snd r) ÷c 1000).

Definition is_battery_exist : M (world E) bool :=
  let! p := get_bat_psy in
  match p with
  | None => ret true
  | Some h => let! v := read_prop h PSP_PRESENT in ret (z2b v)
  end.

Definition is_charger_exist : M (world E) bool :=
  let! p := get_chg_psy in
  match p with
  | None => ret true
  | Some h => let! v := read_prop h PSP_ONLINE in ret (z2b v)
  end.

  (** Without a supply the returned [prop2.intval] was never written. *)
Definition get_charger_type : M (world E) Z :=
  let! p := get_chg_psy in
  match p with
  | None => let! junk := call uninit in ret (s32 junk)
  | Some h =>
      let! online := read_prop h PSP_ONLINE in
      let! type := read_prop h PSP_TYPE in
      let! usb_type := read_prop h PSP_USB_TYPE in
      ret (if online =? 0 then POWER_SUPPLY_TYPE_UNKNOWN
           else if (type =? POWER_SUPPLY_TYPE_USB) &&
                   (usb_type =? POWER_SUPPLY_USB_TYPE_DCP)
           then POWER_SUPPLY_TYPE_USB_FLOAT
           else type)
  end.

Definition get_charger_temperature (d : option nat) : M (world E) Z :=
  let! r := call (charger_dev_get_temperature (chg d) 0 0) in
  let '(code, (tmin, tmax)) := r in
  ret (if code <? 0 then code else s32 (tmax + tmin) ÷c 2).

Definition get_charger_charging_current (d : option nat) : M (world E) Z :=
  let! r := call (charger_dev_get_charging_current (chg d) 0) in
  ret (if fst r <? 0 then fst r else s32 (snd r)).

Definition get_charger_input_current (d : option nat) : M (world E) Z :=
  let! r := call (charger_dev_get_input_current (chg d) 0) in
  ret (if fst r <? 0 then fst r else s32 (snd r)).

Definition get_charger_zcv (d : option nat) : M (world E) Z :=
  let! r := call (charger_dev_get_zcv (chg d) 0) in
  ret (if fst r <? 0 then fst r else s32 (snd r)).

Definition PMIC_RG_VCDT_HV_EN_ADDR : Z := 0xb88.
Definition PMIC_RG_VCDT_HV_EN_MASK : Z := 0x1.
Definition PMIC_RG_VCDT_HV_EN_SHIFT : Z := 11.

Definition pmic_set_register_value (map : nat) (addr mask shift val : Z)
    : M (world E) Z :=
  call (regmap_update_bits map addr (u32 (Z.shiftl mask shift)) (u32 (Z.shiftl val shift))).

  (** The arguments are passed in the order the source passes them. *)
Definition disable_hw_ovp (en : Z) : M (world E) Z :=
  let! r := call pmic_regmap in
  match r with
  | None => ret (-1)
  | Some map =>
      pmic_set_register_value map PMIC_RG_VCDT_HV_EN_ADDR
        PMIC_RG_VCDT_HV_EN_SHIFT PMIC_RG_VCDT_HV_EN_MASK en ;;;
      ret 0
  end.

(** [_wake_up_charger] of mtk_charger.c: hold the wakeup source and wake the
    charger thread. *)
Definition _wake_up_charger : M (world E) unit :=
  modi (fun i => if wakelock_active i then i else i <| wakelock_active := true |>) ;;;
  modi (fun i => i <| charger_thread_timeout := true |>) ;;;
  call wake_up_interruptible.

(** [disable_hw_ovp] passes the shift and the mask of the over-voltage
    enable in each other's place: the write goes to bits 1, 2 and 4 of the
    register and never to bit 11, where the enable is, so the hardware
    protection is neither switched off nor on. *)
Theorem disable_hw_ovp_misses_enable (w : world E) map en :
  en = 0 \/ en = 1 -> eval pmic_regmap (env w) = Some map ->
  exec (disable_hw_ovp en) w =
    exec (call (regmap_update_bits map PMIC_RG_VCDT_HV_EN_ADDR 22 (2 * en)))
      (exec (call pmic_regmap) w) /\
  Z.testbit 22 PMIC_RG_VCDT_HV_EN_SHIFT = false.
Proof.
  intros Hen Hm. split; [|reflexivity].
  unfold disable_hw_ovp, pmic_set_register_value. rewrite exec_bind, eval_call, Hm, exec_bind, exec_ret.
  by destruct Hen as [->| ->].
Qed.

End Intf.

Lemma disable_hw_ovp_misses_enable_witness :
  exec (disable_hw_ovp 1) world0 =
    exec (call (regmap_update_bits 2 PMIC_RG_VCDT_HV_EN_ADDR 22 2))
      (exec (call pmic_regmap) world0).
Proof.
  refine (proj1 (disable_hw_ovp_misses_enable world0 2 1 _ _)); [by right|reflexivity].
Defined.
