(* ===== verification/Jeita.v ===== *)
(** * Software JEITA (drivers/power/supply/mtk_charger.c)

    The battery-temperature state machine: six temperature zones with
    hysteresis between them, the charging permission and the constant voltage
    of a zone.  [Jeita] holds the transition as a function of the thresholds,
    the measured temperature and the zone, and the step relation it induces;
    [do_sw_jeita_state_machine] is the C function around it. *)

From S2P Require Import Prelude ChargerClass AlgClass ChargerTypes ChargerDt Platform Board.
From S2P Require Import ChargerIntf.
#[local] Open Scope Z_scope.

Module Jeita.

(** The chain of temperature tests of [do_sw_jeita_state_machine]: the new zone
    and whether charging is allowed. *)
Definition transition (d : charger_custom_data) (temp sm : Z) : Z * bool :=
  if temp_t4_thres d <=? temp then (TEMP_ABOVE_T4, false)
  else if temp_t3_thres d <? temp then
    if (sm =? TEMP_ABOVE_T4) && (temp_t4_thres_minus_x_degree d <=? temp)
    then (sm, false)
    else (TEMP_T3_TO_T4, true)
  else if temp_t2_thres d <=? temp then
    if ((sm =? TEMP_T3_TO_T4) && (temp_t3_thres_minus_x_degree d <=? temp)) ||
       ((sm =? TEMP_T1_TO_T2) && (temp <=? temp_t2_thres_plus_x_degree d))
    then (sm, true)
    else (TEMP_T2_TO_T3, true)
  else if temp_t1_thres d <=? temp then
    if ((sm =? TEMP_T0_TO_T1) || (sm =? TEMP_BELOW_T0)) &&
       (temp <=? temp_t1_thres_plus_x_degree d)
    then (sm, negb (sm =? TEMP_BELOW_T0))
    else (TEMP_T1_TO_T2, true)
  else if temp_t0_thres d <=? temp then
    if (sm =? TEMP_BELOW_T0) && (temp <=? temp_t0_thres_plus_x_degree d)
    then (sm, false)
    else (TEMP_T0_TO_T1, true)
  else (TEMP_BELOW_T0, false).

(** The constant voltage of a zone; zero leaves the battery's own. *)
Definition zone_cv (d : charger_custom_data) (sm : Z) : Z :=
  if negb (sm =? TEMP_T2_TO_T3) then
    if sm =? TEMP_ABOVE_T4 then jeita_temp_above_t4_cv d
    else if sm =? TEMP_T3_TO_T4 then jeita_temp_t3_to_t4_cv d
    else if sm =? TEMP_T2_TO_T3 then 0
    else if sm =? TEMP_T1_TO_T2 then jeita_temp_t1_to_t2_cv d
    else if sm =? TEMP_T0_TO_T1 then jeita_temp_t0_to_t1_cv d
    else if sm =? TEMP_BELOW_T0 then jeita_temp_below_t0_cv d
    else battery_cv d
  else 0.

Definition zone_cv_aging1 (d : charger_custom_data) (sm : Z) : Z :=
  if sm =? TEMP_ABOVE_T4 then jeita_temp_above_t4_cv_aging1 d
  else if sm =? TEMP_T3_TO_T4 then jeita_temp_t3_to_t4_cv_aging1 d
  else if sm =? TEMP_T2_TO_T3 then 0
  else if sm =? TEMP_T1_TO_T2 then jeita_temp_t1_to_t2_cv_aging1 d
  else if sm =? TEMP_T0_TO_T1 then jeita_temp_t0_to_t1_cv_aging1 d
  else if sm =? TEMP_BELOW_T0 then jeita_temp_below_t0_cv_aging1 d
  else battery_cv_aging1 d.

Definition zone_cv_aging2 (d : charger_custom_data) (sm : Z) : Z :=
  if sm =? TEMP_ABOVE_T4 then jeita_temp_above_t4_cv_aging2 d
  else if sm =? TEMP_T3_TO_T4 then jeita_temp_t3_to_t4_cv_aging2 d
  else if sm =? TEMP_T2_TO_T3 then 0
  else if sm =? TEMP_T1_TO_T2 then jeita_temp_t1_to_t2_cv_aging2 d
  else if sm =? TEMP_T0_TO_T1 then jeita_temp_t0_to_t1_cv_aging2 d
  else if sm =? TEMP_BELOW_T0 then jeita_temp_below_t0_cv_aging2 d
  else battery_cv_aging1 d.

(** One evaluation of the machine at a temperature, as a relation on zones. *)
Inductive step (d : charger_custom_data) : Z * bool -> Z * bool -> Prop :=
| step_at temp sm c : step d (sm, c) (transition d temp sm).

(** The specification the machine is checked against: the zone of a
    temperature without hysteresis, the zones in which charging stops, and
    the margin in which a zone entered earlier is kept. *)
Definition plain_zone (d : charger_custom_data) (temp : Z) : Z :=
  if temp_t4_thres d <=? temp then TEMP_ABOVE_T4
  else if temp_t3_thres d <? temp then TEMP_T3_TO_T4
  else if temp_t2_thres d <=? temp then TEMP_T2_TO_T3
  else if temp_t1_thres d <=? temp then TEMP_T1_TO_T2
  else if temp_t0_thres d <=? temp then TEMP_T0_TO_T1
  else TEMP_BELOW_T0.

Definition stops (sm : Z) : bool := (sm =? TEMP_ABOVE_T4) || (sm =? TEMP_BELOW_T0).

(** The hysteresis, from the zone that is left: a neighbouring zone on the way
    to the normal one is entered only beyond the margin of its threshold. *)
Definition in_margin (d : charger_custom_data) (temp sm : Z) : bool :=
  let zone := plain_zone d temp in
  if sm =? TEMP_ABOVE_T4 then (zone =? TEMP_T3_TO_T4) && (temp_t4_thres_minus_x_degree d <=? temp)
  else if sm =? TEMP_T3_TO_T4 then (zone =? TEMP_T2_TO_T3) && (temp_t3_thres_minus_x_degree d <=? temp)
  else if sm =? TEMP_T1_TO_T2 then (zone =? TEMP_T2_TO_T3) && (temp <=? temp_t2_thres_plus_x_degree d)
  else if sm =? TEMP_T0_TO_T1 then (zone =? TEMP_T1_TO_T2) && (temp <=? temp_t1_thres_plus_x_degree d)
  else if sm =? TEMP_BELOW_T0 then
    ((zone =? TEMP_T0_TO_T1) && (temp <=? temp_t0_thres_plus_x_degree d)) ||
    ((zone =? TEMP_T1_TO_T2) && (temp <=? temp_t1_thres_plus_x_degree d))
  else false.

(** Thresholds in ascending order. *)
Definition ordered (d : charger_custom_data) : bool :=
  (temp_t0_thres d <=? temp_t1_thres d) && (temp_t1_thres d <=? temp_t2_thres d) &&
  (temp_t2_thres d <=? temp_t3_thres d) && (temp_t3_thres d <? temp_t4_thres d).

End Jeita.

Section SwJeita.
  Context {E : Type} `{!Platform E}.

Definition get_use_aging_zcv : M (world E) Z :=
  let! g := getst aging_gauge in
  match g with
  | Some gauge => call (gauge_use_aging_zcv gauge)
  | None =>
      let! p := call (power_supply_get_by_name "mtk-gauge"%string) in
      match p with
      | None => ret 0
      | Some h =>
          let! g' := call (power_supply_get_drvdata h) in
          modst (fun s => s <| aging_gauge := g' |>) ;;;
          match g' with
          | None => ret 0
          | Some gauge => call (gauge_use_aging_zcv gauge)
          end
      end
  end.

Definition mtk_get_battery_cv : M (world E) Z :=
  let! d := geti data in
  let! z1 := get_use_aging_zcv in
  if z1 =? 1 then ret (battery_cv_aging1 d)
  else
    let! z2 := get_use_aging_zcv in
    ret (if z2 =? 2 then battery_cv_aging2 d else battery_cv d).

Definition do_sw_jeita_state_machine : M (world E) unit :=
  let! i := geti (fun i => i) in
  let d := data i in
  let '(sm, charging) := Jeita.transition d (battery_temp i) (jeita_sm (sw_jeita i)) in
  modi (fun i => i <| sw_jeita ::= fun s =>
    s <| jeita_pre_sm := jeita_sm s |> <| jeita_charging := charging |>
      <| jeita_sm := sm |> <| jeita_cv := Jeita.zone_cv d sm |> |>) ;;;
  if negb (sm =? TEMP_T2_TO_T3) then
    let! z1 := get_use_aging_zcv in
    if z1 =? 1 then
      modi (fun i => i <| sw_jeita ::= fun s => s <| jeita_cv := Jeita.zone_cv_aging1 d sm |> |>)
    else
      let! z2 := get_use_aging_zcv in
      if z2 =? 2 then
        modi (fun i => i <| sw_jeita ::= fun s => s <| jeita_cv := Jeita.zone_cv_aging2 d sm |> |>)
      else ret tt
  else modi (fun i => i <| sw_jeita ::= fun s => s <| jeita_cv := 0 |> |>).

(** select_cv of mtk_basic_charger.c.  [constant_voltage] is a [u32], so the
    top-off voltage is compared with it as an unsigned number. *)
Definition select_cv : M (world E) unit :=
  let! cv0 := mtk_get_battery_cv in
  let! i := geti (fun i => i) in
  let cv1 := if enable_sw_jeita i && negb (jeita_cv (sw_jeita i) =? 0)
             then u32 (jeita_cv (sw_jeita i)) else u32 cv0 in
  let cv2 := if negb (custom_charging_cv i =? -1) && (u32 (custom_charging_cv i) <? cv1)
             then u32 (custom_charging_cv i) else cv1 in
  modi (fun i => i <| setting ::= fun s => s <| set_cv := s32 cv2 |> |>).

End SwJeita.

(** ** Theorems on the transition *)

Ltac jeita_cases :=
  unfold Jeita.transition, Jeita.plain_zone, Jeita.in_margin, Jeita.stops, Jeita.ordered,
    TEMP_ABOVE_T4, TEMP_T3_TO_T4, TEMP_T2_TO_T3, TEMP_T1_TO_T2, TEMP_T0_TO_T1,
    TEMP_BELOW_T0 in *.

Lemma transition_stops d temp sm :
  (Jeita.transition d temp sm).2 = negb (Jeita.stops (Jeita.transition d temp sm).1).
Proof. jeita_cases. case_tests; simpl; bool_prop; try done; try lia. Qed.

Lemma transition_zone_exact d temp sm :
  (Jeita.transition d temp sm).1 =
  if Jeita.in_margin d temp sm then sm else Jeita.plain_zone d temp.
Proof.
  unfold Jeita.in_margin. jeita_cases. cbv zeta.
  destruct (sm =? 5) eqn:E5, (sm =? 4) eqn:E4, (sm =? 2) eqn:E2, (sm =? 1) eqn:E1, (sm =? 0) eqn:E0;
    bool_prop; try lia;
    destruct (temp_t4_thres d <=? temp), (temp_t3_thres d <? temp), (temp_t2_thres d <=? temp),
      (temp_t1_thres d <=? temp), (temp_t0_thres d <=? temp); cbn; case_tests; simpl in *; try discriminate; congruence.
Qed.

Lemma transition_zone_spec d temp sm :
  (Jeita.transition d temp sm).1 = Jeita.plain_zone d temp \/ (Jeita.transition d temp sm).1 = sm.
Proof. rewrite transition_zone_exact. case_match; auto. Qed.

(** C30: every evaluation of the JEITA machine lands in the zone of the measured
    temperature, except that inside the hysteresis margin of the zone it was in
    it stays there; charging is refused exactly in the two outer zones. *)
Theorem jeita_transition_refines d temp sm :
  let r := Jeita.transition d temp sm in
  r.1 = (if Jeita.in_margin d temp sm then sm else Jeita.plain_zone d temp) /\
  r.2 = negb (Jeita.stops r.1).
Proof. split; [apply transition_zone_exact|apply transition_stops]. Qed.

(** A transition that keeps the zone does so again; one that moves to the plain
    zone stays there. *)
Lemma transition_keep d temp sm :
  (Jeita.transition d temp sm).1 = sm ->
  Jeita.transition d temp (Jeita.transition d temp sm).1 = Jeita.transition d temp sm.
Proof. by intros ->. Qed.

Lemma transition_plain d temp :
  Jeita.transition d temp (Jeita.plain_zone d temp) =
  (Jeita.plain_zone d temp, negb (Jeita.stops (Jeita.plain_zone d temp))).
Proof.
  jeita_cases.
  destruct (temp_t4_thres d <=? temp), (temp_t3_thres d <? temp), (temp_t2_thres d <=? temp),
    (temp_t1_thres d <=? temp), (temp_t0_thres d <=? temp); reflexivity.
Qed.

(** At a steady temperature the machine settles after one evaluation: a
    second one changes neither the zone nor the permission, so the hysteresis
    cannot oscillate. *)
Theorem jeita_transition_settles d temp sm :
  Jeita.transition d temp (Jeita.transition d temp sm).1 = Jeita.transition d temp sm.
Proof.
  destruct (transition_zone_spec d temp sm) as [E|E]; [|by apply transition_keep].
  rewrite E, transition_plain. symmetry. apply injective_projections; [done|].
  by rewrite transition_stops, E.
Qed.

(** Permission to charge bounds the temperature. *)
Lemma transition_charging_bounds d temp sm :
  Jeita.ordered d = true -> (Jeita.transition d temp sm).2 = true ->
  temp_t0_thres d <= temp < temp_t4_thres d.
Proof. jeita_cases. intros Ho. bool_prop. case_tests; simpl; bool_prop; intros; try done; lia. Qed.

(** With ordered thresholds, whatever the history, charging is allowed only
    at a temperature in [T0, T4); once the machine is in the hot zone it allows
    charging again only below T4 - x, and once in the cold zone only above
    T0 + x and, up to T2, above T1 + x too. *)
Theorem jeita_charging_window d temp sm :
  Jeita.ordered d = true -> (Jeita.transition d temp sm).2 = true ->
  temp_t0_thres d <= temp < temp_t4_thres d /\
  (sm = TEMP_ABOVE_T4 -> temp_t3_thres d < temp -> temp < temp_t4_thres_minus_x_degree d) /\
  (sm = TEMP_BELOW_T0 -> temp < temp_t1_thres d -> temp_t0_thres_plus_x_degree d < temp) /\
  (sm = TEMP_BELOW_T0 -> temp_t1_thres d <= temp < temp_t2_thres d ->
   temp_t1_thres_plus_x_degree d < temp).
Proof.
  intros Ho Hc. split; [by eapply transition_charging_bounds|].
  revert Ho Hc. jeita_cases. intros Ho. bool_prop.
  case_tests; simpl; bool_prop; intros Hc; try done; repeat split; intros; subst; try done; lia.
Qed.

Lemma jeita_charging_window_witness :
  Jeita.ordered (data default_charger) = true /\
  (Jeita.transition (data default_charger) 46 TEMP_ABOVE_T4).2 = true /\ 46 < 47.
Proof.
  split; [reflexivity|split; [reflexivity|]].
  exact (proj1 (proj2 (jeita_charging_window (data default_charger) 46 TEMP_ABOVE_T4
    eq_refl eq_refl)) eq_refl eq_refl).
Defined.

(** The zone numbers of the enumeration. *)
Definition is_zone (sm : Z) : Prop := TEMP_BELOW_T0 <= sm <= TEMP_ABOVE_T4.

Lemma transition_zone d temp sm : is_zone sm -> is_zone (Jeita.transition d temp sm).1.
Proof.
  unfold is_zone. destruct (transition_zone_spec d temp sm) as [-> | ->]; [|done].
  intros _. jeita_cases. case_tests; lia.
Qed.

(** In every run of the machine from the zone probe sets, through any
    sequence of temperatures, the zone is one of the six and the permission is
    the one of the zone. *)
Theorem jeita_run_invariant d s :
  rtc (Jeita.step d) (TEMP_T2_TO_T3, true) s ->
  is_zone s.1 /\ s.2 = negb (Jeita.stops s.1).
Proof.
  intros H. remember (TEMP_T2_TO_T3, true) as s0 eqn:E0.
  assert (is_zone s0.1 /\ s0.2 = negb (Jeita.stops s0.1)) as H0
    by (subst; split; [by vm_compute|reflexivity]).
  clear E0. induction H as [|s1 s2 s3 Hs _ IH]; [done|]. apply IH.
  destruct Hs as [temp sm c]. split; [by apply transition_zone, H0|apply transition_stops].
Qed.

Lemma jeita_run_invariant_witness :
  is_zone (Jeita.transition (data default_charger) 55 TEMP_T2_TO_T3).1.
Proof.
  apply (jeita_run_invariant (data default_charger)).
  apply rtc_once, Jeita.step_at.
Defined.

(** ** Theorems on the C functions *)

Section JeitaCode.
  Context {E : Type} `{!Platform E}.

Lemma keeps_get_use_aging_zcv {T} (f : mtk_charger -> T) :
  keeps (fun w : world E => f (info w)) get_use_aging_zcv.
Proof. unfold get_use_aging_zcv. solve_keeps. Qed.
#[local] Hint Resolve keeps_get_use_aging_zcv : kern.

Lemma info_get_use_aging_zcv (w : world E) : info (exec get_use_aging_zcv w) = info w.
Proof. apply (keeps_get_use_aging_zcv (fun i => i)). Qed.

Lemma keeps_mtk_get_battery_cv {T} (f : mtk_charger -> T) :
  keeps (fun w : world E => f (info w)) mtk_get_battery_cv.
Proof. unfold mtk_get_battery_cv. solve_keeps. Qed.
#[local] Hint Resolve keeps_mtk_get_battery_cv : kern.

Lemma info_mtk_get_battery_cv (w : world E) : info (exec mtk_get_battery_cv w) = info w.
Proof. apply (keeps_mtk_get_battery_cv (fun i => i)). Qed.

(** It writes nothing but [sw_jeita]. *)
Lemma info_do_sw_jeita (w : world E) :
  exists cv, info (exec do_sw_jeita_state_machine w) =
    (info w) <| sw_jeita := let r := Jeita.transition (data (info w)) (battery_temp (info w))
                                    (jeita_sm (sw_jeita (info w))) in
                            mk_sw_jeita_data r.1 (jeita_sm (sw_jeita (info w))) cv r.2 (jeita_error_recovery_flag (sw_jeita (info w))) |>.
Proof.
  unfold do_sw_jeita_state_machine. run.
  destruct (Jeita.transition _ _ _) as [sm c]. run.
  case_tests; run; rewrite ?info_get_use_aging_zcv; run; eexists; reflexivity.
Qed.

(** [do_sw_jeita_state_machine] applies the transition to the measured
    temperature and the stored zone and writes nothing but [sw_jeita]: the new
    zone and permission, the old zone in [pre_sm], and a constant voltage that
    is zero in the normal zone and otherwise the entry of the zone in one of
    the three tables (fresh or aged battery). *)
Theorem do_sw_jeita_spec (w : world E) :
  let i := info w in
  let d := data i in
  let r := Jeita.transition d (battery_temp i) (jeita_sm (sw_jeita i)) in
  exists cv,
    info (exec do_sw_jeita_state_machine w) =
      i <| sw_jeita := mk_sw_jeita_data r.1 (jeita_sm (sw_jeita i)) cv r.2 (jeita_error_recovery_flag (sw_jeita i)) |> /\
    (r.1 = TEMP_T2_TO_T3 -> cv = 0) /\
    (r.1 <> TEMP_T2_TO_T3 ->
     cv = Jeita.zone_cv d r.1 \/ cv = Jeita.zone_cv_aging1 d r.1 \/
     cv = Jeita.zone_cv_aging2 d r.1).
Proof.
  unfold do_sw_jeita_state_machine. run.
  destruct (Jeita.transition _ _ _) as [sm c]. run.
  destruct (sm =? TEMP_T2_TO_T3) eqn:Esm; bool_prop; simpl negb; cbv iota.
  { subst. exists 0. split; [done|]. split; [done|]. by intros []. }
  case_tests; run; rewrite ?info_get_use_aging_zcv; run;
    (eexists; split; [reflexivity|split; [done|auto]]).
Qed.

(** The voltage [select_cv] starts from: the zone's if there is one, else the
    battery's at its age. *)
Definition base_cv (w : world E) : Z :=
  if enable_sw_jeita (info w) && negb (jeita_cv (sw_jeita (info w)) =? 0)
  then jeita_cv (sw_jeita (info w)) else eval mtk_get_battery_cv w.

Lemma info_select_cv (w : world E) :
  exists cv, info (exec select_cv w) = (info w) <| setting ::= fun s => s <| set_cv := cv |> |>.
Proof.
  unfold select_cv. run. rewrite info_mtk_get_battery_cv. run. eexists. reflexivity.
Qed.

(** C31: [select_cv] never sets more than the base voltage and, with the top-off
    voltage in force, never more than that either; it sets one of the two, and
    writes nothing but [setting.cv]. *)
Theorem select_cv_bounded (w : world E) :
  0 <= base_cv w < 2 ^ 31 ->
  (custom_charging_cv (info w) = -1 \/ 0 <= custom_charging_cv (info w) < 2 ^ 31) ->
  let cv := set_cv (setting (info (exec select_cv w))) in
  cv = (if custom_charging_cv (info w) =? -1 then base_cv w
        else Z.min (custom_charging_cv (info w)) (base_cv w)) /\
  info (exec select_cv w) = (info w) <| setting ::= fun s => s <| set_cv := cv |> |>.
Proof.
  intros Hb Hc. destruct (info_select_cv w) as [cv Ei].
  enough (cv = if custom_charging_cv (info w) =? -1 then base_cv w
               else Z.min (custom_charging_cv (info w)) (base_cv w)) as Ecv
    by (rewrite Ei; subst cv; split; reflexivity).
  apply (f_equal (fun i => set_cv (setting i))) in Ei. revert Ei. unfold select_cv. run.
  rewrite info_mtk_get_battery_cv. intros Ei. cbn in Ei. rewrite <- Ei. clear Ei.
  revert Hb. unfold base_cv.
  destruct (enable_sw_jeita (info w) && negb (jeita_cv (sw_jeita (info w)) =? 0));
    intros Hb; (destruct (custom_charging_cv (info w) =? -1) eqn:E1; bool_prop; simpl;
    [by rewrite s32_u32 by (unfold is_s32; lia)|]);
    rewrite (u32_id (custom_charging_cv _)), u32_id by (unfold is_u32; lia);
    case_tests; bool_prop; rewrite s32_id by (unfold is_s32; lia); lia.
Qed.

End JeitaCode.

#[export] Hint Resolve keeps_get_use_aging_zcv keeps_mtk_get_battery_cv : kern.

Lemma select_cv_bounded_witness :
  set_cv (setting (info (exec select_cv world0))) = 4400000.
Proof.
  refine (proj1 (select_cv_bounded world0 _ _)); [vm_compute; split; [discriminate|reflexivity]|].
  left. reflexivity.
Defined.
