(* ===== verification/BasicCharger.v ===== *)
(** * The basic charging algorithm (drivers/power/supply/mtk_basic_charger.c)

    How the manager picks the charging voltage and the input and charging
    current limits, drives the fast-charging algorithms and programs the
    charger.  The functions have the names of the source; the long
    [select_charging_current_limit] is cut where the source has its labels. *)

From S2P Require Import Prelude ChargerClass AlgClass ChargerTypes Platform Board ChargerIntf.
From S2P Require Import Jeita.
#[local] Open Scope Z_scope.

(** [IS_ENABLED(CONFIG_USBIF_COMPLIANCE)]: not set in the product. *)
Definition CONFIG_USBIF_COMPLIANCE : bool := false.

(** [enum] of charger_class.h: notifications of a charger device. *)
Definition CHARGER_DEV_NOTIFY_VBUS_OVP : Z := 0.
Definition CHARGER_DEV_NOTIFY_BAT_OVP : Z := 1.
Definition CHARGER_DEV_NOTIFY_EOC : Z := 2.
Definition CHARGER_DEV_NOTIFY_RECHG : Z := 3.
Definition CHARGER_DEV_NOTIFY_SAFETY_TIMEOUT : Z := 4.
Definition CHARGER_DEV_NOTIFY_VBUS_EVENT : Z := 5.
Definition CHARGER_DEV_NOTIFY_UPDATE : Z := 6.
Definition METRICS_FAULT_SAFETY_TIMEOUT : Z := 3.
Definition METRICS_FAULT_VBUS_OVP : Z := 1.

Definition _uA_to_mA (uA : Z) : Z := if uA =? -1 then -1 else uA ÷c 1000.

(** Assignments to [pdata->...] and [info->setting...]. *)
Definition set_icl (v : Z) (i : mtk_charger) : mtk_charger :=
  i <| chg_data1 ::= fun p => p <| input_current_limit := v |> |>.
Definition set_ccl (v : Z) (i : mtk_charger) : mtk_charger :=
  i <| chg_data1 ::= fun p => p <| charging_current_limit := v |> |>.
Definition set_icl2 (v : Z) (i : mtk_charger) : mtk_charger :=
  i <| chg_data2 ::= fun p => p <| input_current_limit := v |> |>.
Definition set_ccl2 (v : Z) (i : mtk_charger) : mtk_charger :=
  i <| chg_data2 ::= fun p => p <| charging_current_limit := v |> |>.
Definition set_aicl (v : Z) (i : mtk_charger) : mtk_charger :=
  i <| chg_data1 ::= fun p => p <| input_current_limit_by_aicl := v |> |>.
Definition set_lim (f : chg_limit_setting -> chg_limit_setting) (i : mtk_charger) : mtk_charger :=
  i <| setting ::= f |>.
Definition set_det (f : power_detection_data -> power_detection_data) (i : mtk_charger)
    : mtk_charger := i <| power_detection ::= f |>.

(** The limits by the kind of supply, up to the [done] label and the wireless
    test: the new state, whether the source jumps to [done], and [is_basic]. *)
Definition wireless_limits (in_cur chg_cur div : Z) (i : mtk_charger) : mtk_charger :=
  let i := set_ccl chg_cur (set_icl in_cur i) in
  let p := chg_data1 i in
  if negb (thermal_input_power_limit p =? -1) then
    let iusb_ua := s32 (thermal_input_power_limit p * 1000) ÷c div in
    if iusb_ua <? input_current_limit p then set_icl iusb_ua i else i
  else i.

Definition limits_by_type (i : mtk_charger) : mtk_charger * bool :=
  let d := data i in
  let t := chr_type i in
  if t =? POWER_SUPPLY_TYPE_USB then
    (set_ccl (usb_charger_current d) (set_icl (usb_charger_current d) i), true)
  else if t =? POWER_SUPPLY_TYPE_USB_CDP then
    (set_ccl (charging_host_charger_current d)
       (set_icl (charging_host_charger_current d) i), true)
  else if t =? POWER_SUPPLY_TYPE_USB_DCP then
    let i := set_ccl (ac_charger_current d) (set_icl (ac_charger_input_current d) i) in
    if config i =? DUAL_CHARGERS_IN_SERIES then
      (set_ccl2 2000000 (set_icl2 (input_current_limit (chg_data1 i)) i), false)
    else (i, false)
  else if t =? POWER_SUPPLY_TYPE_USB_FLOAT then
    (set_ccl (non_std_ac_charger_current d)
       (set_icl (non_std_ac_charger_current d) i), true)
  else if t =? POWER_SUPPLY_TYPE_WIRELESS_5W then
    (wireless_limits (wireless_5w_charger_input_current d)
       (wireless_5w_charger_current d) 5 i, false)
  else if t =? POWER_SUPPLY_TYPE_WIRELESS_10W then
    (wireless_limits (wireless_10w_charger_input_current d)
       (wireless_10w_charger_current d) 9 i, false)
  else if t =? POWER_SUPPLY_TYPE_WIRELESS then
    (wireless_limits (wireless_default_charger_input_current d)
       (wireless_default_charger_current d) 5 i, false)
  else (i, false).

(** Result: the state, [Some is_basic] to go on or [None] to jump to [done]
    (where [is_basic] is true). *)
Definition limits_by_source (i : mtk_charger) : mtk_charger * option bool :=
  let d := data i in
  if usb_unlimited i then
    (set_ccl (ac_charger_current d) (set_icl (ac_charger_input_current d) i), None)
  else if water_detected i then
    (set_ccl (usb_charger_current d) (set_icl (usb_charger_current d) i), None)
  else if (bootmode i =? 1) || (bootmode i =? 5) then (set_icl 200000 i, None)
  else if atm_enabled i &&
          ((chr_type i =? POWER_SUPPLY_TYPE_USB) || (chr_type i =? POWER_SUPPLY_TYPE_USB_CDP))
  then (set_icl 100000 i, None)
  else let '(i, b) := limits_by_type i in (i, Some b).

(** JEITA and thermal limits, from the label [wireless_skip] to [done]. *)
Definition jeita_limit (lim : Z) (i : mtk_charger) : mtk_charger :=
  if negb (lim =? -1) then
    if lim <? charging_current_limit (chg_data1 i)
    then set_lim (fun s => s <| charging_current_limit1 := lim |>) (set_ccl lim i)
    else i
  else set_lim (fun s => s <| charging_current_limit1 := -1 |>) i.

Definition jeita_limits (i : mtk_charger) : mtk_charger :=
  if enable_sw_jeita i then
    if CONFIG_USBIF_COMPLIANCE && (chr_type i =? POWER_SUPPLY_TYPE_USB) then i
    else
      let i := if jeita_sm (sw_jeita i) =? TEMP_T0_TO_T1
               then jeita_limit (temp_t0_to_t1_charger_current (data i)) i else i in
      if jeita_sm (sw_jeita i) =? TEMP_T3_TO_T4
      then jeita_limit (temp_t3_to_t4_charger_current (data i)) i else i
  else i.

(** The four thermal limits: charging and input current of the two chargers. *)
Definition thermal_ccl1 (i : mtk_charger) : mtk_charger :=
  let t := thermal_charging_current_limit (chg_data1 i) in
  if negb (t =? -1) then
    if t <? charging_current_limit (chg_data1 i)
    then set_lim (fun s => s <| charging_current_limit1 := t |>) (set_ccl t i) else i
  else set_lim (fun s => s <| charging_current_limit1 := -1 |>) i.

Definition thermal_icl1 (i : mtk_charger) : mtk_charger :=
  let t := thermal_input_current_limit (chg_data1 i) in
  if negb (t =? -1) then
    if t <? input_current_limit (chg_data1 i)
    then set_lim (fun s => s <| input_current_limit1 := t |>) (set_icl t i) else i
  else set_lim (fun s => s <| input_current_limit1 := -1 |>) i.

Definition thermal_ccl2 (i : mtk_charger) : mtk_charger :=
  let t := thermal_charging_current_limit (chg_data2 i) in
  if negb (t =? -1) then
    if t <? charging_current_limit (chg_data2 i)
    then set_lim (fun s => s <| charging_current_limit2 := t |>) (set_ccl2 t i) else i
  else set_lim (fun s => s <| charging_current_limit2 := -1 |>) i.

Definition thermal_icl2 (i : mtk_charger) : mtk_charger :=
  let t := thermal_input_current_limit (chg_data2 i) in
  if negb (t =? -1) then
    if t <? input_current_limit (chg_data2 i)
    then set_lim (fun s => s <| input_current_limit2 := t |>) (set_icl2 t i) else i
  else set_lim (fun s => s <| input_current_limit2 := -1 |>) i.

Definition thermal_limits (i : mtk_charger) : mtk_charger :=
  thermal_icl2 (thermal_ccl2 (thermal_icl1 (thermal_ccl1 i))).

(** The forced limits at the label [done]. *)
Definition force_limits (i : mtk_charger) : mtk_charger :=
  let f1 := force_input_current_limit (chg_data1 i) in
  let i :=
    if negb (f1 =? -1) then
      set_lim (fun s => s <| input_current_limit1 := f1 |> <| input_current_limit2 := f1 |>)
        (set_icl f1 i)
    else set_lim (fun s => s <| input_current_limit1 := -1 |> <| input_current_limit2 := -1 |>) i in
  let f2 := force_charging_current (chg_data1 i) in
  if negb (f2 =? -1) then
    set_lim (fun s => s <| charging_current_limit1 := f2 |> <| charging_current_limit2 := f2 |>)
      (set_ccl f2 i)
  else set_lim (fun s => s <| charging_current_limit1 := -1 |>
                           <| charging_current_limit2 := -1 |>) i.

(** AICL as the last input limit, lines 487-497. *)
Definition apply_aicl (is_basic : bool) (i : mtk_charger) : mtk_charger :=
  let p := chg_data1 i in
  if is_basic && negb (input_current_limit_by_aicl p =? -1) then
    if vbus_recovery_from_uvlo i then i <| vbus_recovery_from_uvlo := false |>
    else if input_current_limit_by_aicl p <? input_current_limit p
    then set_icl (input_current_limit_by_aicl p) i else i
  else i.

Section BasicCharger.
  Context {E : Type} `{!Platform E}.

Definition with_chg1 {A} (f : option (charger_device E mtk_charger) -> M E A)
    : M (world E) A :=
  let! h := geti chg1_dev in call (f (chg h)).

(** [info->tcpc], looked up by name while it is not set. *)
Definition ensure_tcpc : M (world E) (option nat) :=
  let! t := geti tcpc in
  match t with
  | Some h => ret (Some h)
  | None =>
      let! t' := call (tcpc_dev_get_by_name "type_c_port0"%string) in
      modi (fun i => i <| tcpc := t' |>) ;;;
      ret t'
  end.

Definition is_typec_adapter : M (world E) bool :=
  let! t := ensure_tcpc in
  match t with
  | None => ret false
  | Some h =>
      let! en := geti (fun i => det_en (power_detection i)) in
      let! by_rp :=
        (if en then
           let! c1 := call (tcpm_inquire_typec_remote_rp_curr h) in
           if c1 =? 3000 then ret true
           else let! c2 := call (tcpm_inquire_typec_remote_rp_curr h) in ret (c2 =? 1500)
         else ret false) in
      if by_rp then ret true
      else
        let! ad := geti pd_adapter in
        let! rp := call (adapter_dev_get_property ad TYPEC_RP_LEVEL) in
        let! i := geti (fun i => i) in
        ret ((pd_type i =? MTK_PD_CONNECT_TYPEC_ONLY_SNK) && negb (rp =? 500) &&
             negb (chr_type i =? POWER_SUPPLY_TYPE_USB) &&
             negb (chr_type i =? POWER_SUPPLY_TYPE_USB_CDP))
  end.

Fixpoint support_fast_charging_from (algs : list (option nat)) : M (world E) bool :=
  match algs with
  | [] => ret false
  | None :: l => support_fast_charging_from l
  | Some h :: l =>
      let! s := geti setting in
      call (chg_alg_set_current_limit (algd (Some h)) s) ;;;
      let! state := call (chg_alg_is_algo_ready (algd (Some h))) in
      if (state =? ALG_READY) || (state =? ALG_RUNNING) then ret true
      else support_fast_charging_from l
  end.

Definition support_fast_charging : M (world E) bool :=
  let! algs := geti alg in support_fast_charging_from algs.

Definition DETECTION_MIVR_UV : Z := 4500000.

(** [info->chg1_dev->is_adapter_detect = b]. *)
Definition set_adapter_detect (b : bool) : M (world E) unit :=
  with_chg1 (fun d => match d with Some d' => dev_set_is_adapter_detect d' b | None => ret tt end).

Definition run_aicl_limit : M (world E) unit :=
  let! old := geti (fun i => input_current_limit_by_aicl (chg_data1 i)) in
  let! r := with_chg1 (fun d => charger_dev_run_aicl d (u32 old)) in
  modi (set_aicl (s32 (snd r))).

Definition adapter_power_detection_by_ocp : M (world E) Z :=
  let! i := geti (fun i => i) in
  let cv_uv := battery_cv (data i) in
  let iusb_ua := det_aicl_trigger_iusb (power_detection i) in
  let ichg_ua := det_aicl_trigger_ichg (power_detection i) in
  let! j1 := call uninit in
  let! j2 := call uninit in
  let! j3 := call uninit in
  let! bak_cv := with_chg1 (fun d => charger_dev_get_constant_voltage d (u32 j1)) in
  let! bak_iusb := with_chg1 (fun d => charger_dev_get_input_current d (u32 j2)) in
  let! bak_ichg := with_chg1 (fun d => charger_dev_get_charging_current d (u32 j3)) in
  let! bak_mivr := with_chg1 (fun d => charger_dev_get_mivr d 0) in
  with_chg1 (fun d => charger_dev_set_mivr d DETECTION_MIVR_UV) ;;;
  with_chg1 (fun d => charger_dev_set_constant_voltage d cv_uv) ;;;
  with_chg1 (fun d => charger_dev_set_input_current d iusb_ua) ;;;
  with_chg1 (fun d => charger_dev_set_charging_current d ichg_ua) ;;;
  with_chg1 (fun d => charger_dev_dump_registers d) ;;;
  call (msleep 50) ;;;
  set_adapter_detect true ;;;
  run_aicl_limit ;;;
  set_adapter_detect false ;;;
  with_chg1 (fun d => charger_dev_set_mivr d (snd bak_mivr)) ;;;
  with_chg1 (fun d => charger_dev_set_constant_voltage d (snd bak_cv)) ;;;
  with_chg1 (fun d => charger_dev_set_input_current d (snd bak_iusb)) ;;;
  with_chg1 (fun d => charger_dev_set_charging_current d (snd bak_ichg)) ;;;
  with_chg1 (fun d => charger_dev_dump_registers d) ;;;
  geti (fun i => input_current_limit_by_aicl (chg_data1 i)).

(** Record the detected category: limit, [det->iusb_ua] and [det->type]. *)
Definition set_category (icl iusb type : Z) : M (world E) unit :=
  modi (fun i => set_det (fun p => p <| det_iusb_ua := iusb |> <| det_type := type |>)
                   (set_icl icl i)).

Definition detection_done (aicl_ua : Z) : M (world E) Z :=
  let! t := geti (fun i => det_type (power_detection i)) in
  call (bat_metrics (MetricAdapterPower t (_uA_to_mA aicl_ua))) ;;;
  ret 0.

Definition adapter_power_detection : M (world E) Z :=
  let! i := geti (fun i => i) in
  let det := power_detection i in
  let p := chg_data1 i in
  if negb (det_en det) then ret 0
  else if z2b (det_iusb_ua det) then
    (* skip: *)
    (if negb (thermal_input_current_limit p =? -1) &&
        (thermal_input_current_limit p <? det_iusb_ua det)
     then ret 0
     else modi (set_icl (det_iusb_ua det)) ;;; ret 0)
  else
    let! t := ensure_tcpc in
    match t with
    | None => ret (- ENODEV)
    | Some h =>
        let! rp := call (tcpm_inquire_typec_remote_rp_curr h) in
        if rp =? 3000 then
          set_category 3000000 (det_adapter_15w_iusb_lim det) ADAPTER_15W ;;;
          detection_done 0
        else if rp =? 1500 then
          set_category 1500000 (det_adapter_7p5w_iusb_lim det) ADAPTER_7P5W ;;;
          detection_done 0
        else if negb (chr_type i =? POWER_SUPPLY_TYPE_USB_DCP) then ret 0
        else
          let! aicl_ua := adapter_power_detection_by_ocp in
          (if aicl_ua <? 0 then
             set_category (det_adapter_12w_iusb_lim det) (det_adapter_12w_iusb_lim det) ADAPTER_12W
           else if det_adapter_12w_aicl_min det <? aicl_ua then
             set_category (det_adapter_12w_iusb_lim det) (det_adapter_12w_iusb_lim det) ADAPTER_12W
           else if det_adapter_9w_aicl_min det <? aicl_ua then
             set_category (det_adapter_9w_iusb_lim det) (det_adapter_9w_iusb_lim det) ADAPTER_9W
           else
             set_category (det_adapter_5w_iusb_lim det) (det_adapter_5w_iusb_lim det) ADAPTER_5W) ;;;
          detection_done aicl_ua
    end.

Definition check_invalid_charger : M (world E) unit :=
  let! i := geti (fun i => i) in
  if invalid_charger_det_done i then ret tt
  else
    let! j1 := call uninit in
    let! j2 := call uninit in
    let! j3 := call uninit in
    let! bak_cur := with_chg1 (fun d => charger_dev_get_charging_current d (u32 j1)) in
    let! bak_mivr := with_chg1 (fun d => charger_dev_get_mivr d (u32 j2)) in
    let! bak_iusb := with_chg1 (fun d => charger_dev_get_input_current d (u32 j3)) in
    with_chg1 (fun d => charger_dev_set_mivr d (invchg_check_mivr_uv i)) ;;;
    with_chg1 (fun d => charger_dev_set_input_current d (invchg_check_iusb_ua i)) ;;;
    with_chg1 (fun d => charger_dev_set_charging_current d (invchg_check_ichg_ua i)) ;;;
    call (msleep 200) ;;;
    let! dpm := with_chg1 (fun d => charger_dev_get_indpm_state d false false) in
    let! vbus := get_vbus in
    let vbus_uv := s32 (vbus * 1000) in
    with_chg1 (fun d => charger_dev_dump_registers d) ;;;
    with_chg1 (fun d => charger_dev_set_charging_current d (snd bak_cur)) ;;;
    with_chg1 (fun d => charger_dev_set_mivr d (snd bak_mivr)) ;;;
    with_chg1 (fun d => charger_dev_set_input_current d (snd bak_iusb)) ;;;
    when (negb (fst dpm =? - ENOTSUPP) && fst (snd dpm))
      (modi (fun i => i <| invalid_charger_det_weak := true |>)) ;;;
    when (vbus_uv <? invchg_check_mivr_uv i)
      (modi (fun i => i <| invalid_charger_det_weak := true |>)) ;;;
    let! weak := geti invalid_charger_det_weak in
    when weak (modi (fun i => i <| invalid_charger := 1 |>) ;;;
               call (bat_metrics MetricInvalidCharger)) ;;;
    modi (fun i => i <| invalid_charger_det_done := true |>).

(** Lines 461-481: the current a Type-C source advertises. *)
Definition typec_limits (h : nat) : M (world E) unit :=
  let! c1 := call (tcpm_inquire_typec_remote_rp_curr h) in
  let! ac := geti (fun i => ac_charger_current (data i)) in
  let! lim :=
    (if c1 =? 3000 then ret (3000000, ac)
     else
       let! c2 := call (tcpm_inquire_typec_remote_rp_curr h) in
       ret (if c2 =? 1500 then (1500000, ac) else (500000, 500000))) in
  modi (fun i => if fst lim <? input_current_limit (chg_data1 i) then set_icl (fst lim) i else i) ;;;
  modi (fun i => if snd lim <? charging_current_limit (chg_data1 i) then set_ccl (snd lim) i else i).

(** The wired path, lines 448-497; returns [is_basic]. *)
Definition wired_limits : M (world E) bool :=
  let! fast := support_fast_charging in
  (if fast then ret tt
   else
     run_aicl_limit ;;;
     modi (fun i =>
       if enable_dynamic_mivr i &&
          (max_dmivr_charger_current (data i) <? input_current_limit_by_aicl (chg_data1 i))
       then set_aicl (max_dmivr_charger_current (data i)) i else i) ;;;
     let! typec := is_typec_adapter in
     if typec then
       let! t := geti tcpc in
       match t with Some h => typec_limits h | None => ret tt end
     else ret tt) ;;;
  check_invalid_charger ;;;
  adapter_power_detection ;;;
  modi (apply_aicl (negb fast)) ;;;
  ret (negb fast).

(** Lines 605-619: limits below the charger's minimum become zero.  The
    comparison is between [int] and [u32], hence unsigned. *)
Definition check_min_current : M (world E) bool :=
  let! r1 := with_chg1 (fun d => charger_dev_get_min_charging_current d 0) in
  let! p := geti chg_data1 in
  let b1 := negb (fst r1 =? - EOPNOTSUPP) && (u32 (charging_current_limit p) <? snd r1) in
  when b1 (modi (set_ccl 0)) ;;;
  let! r2 := with_chg1 (fun d => charger_dev_get_min_input_current d 0) in
  let! p := geti chg_data1 in
  let b2 := negb (fst r2 =? - EOPNOTSUPP) && (u32 (input_current_limit p) <? snd r2) in
  when b2 (modi (set_icl 0)) ;;;
  ret (b1 || b2).

Definition wpc_is_online : M (world E) bool :=
  let! h := call (find_charger "wireless_chg"%string) in
  let! r := call (wireless_charger_dev_get_online (chg h) false) in
  ret (snd r).

(** Unless a wireless charger is online, the wired path follows. *)
Definition path_limits (b : bool) : M (world E) bool :=
  let! online := wpc_is_online in
  if online then ret b else wired_limits.

Definition select_charging_current_limit : M (world E) bool :=
  select_cv ;;;
  let! next := geti (fun i => (limits_by_source i).2) in
  modi (fun i => (limits_by_source i).1) ;;;
  let! is_basic :=
    match next with
    | None => ret true
    | Some b =>
        let! b := path_limits b in
        modi (fun i => thermal_limits (jeita_limits i)) ;;;
        ret b
    end in
  modi force_limits ;;;
  let! low := check_min_current in
  ret (is_basic || low).

(** The loop of [do_algorithm] over the fast-charging algorithms.  [val] is the
    local the maximum voltage is read into; it keeps its value from one
    algorithm to the next when an algorithm does not write it.  Returns
    [is_basic]. *)
Fixpoint run_algs (algs : list (option nat)) (chg_done : bool) (val : Z) (is_basic : bool)
    : M (world E) bool :=
  match algs with
  | [] => ret is_basic
  | None :: l => run_algs l chg_done val is_basic
  | Some h :: l =>
      let a := algd (Some h) in
      let! i := geti (fun i => i) in
      if negb (enable_hv_charging i) || (charging_current_limit (chg_data1 i) =? 0) ||
         (input_current_limit (chg_data1 i) =? 0)
      then
        let! r := call (chg_alg_get_prop a ALG_MAX_VBUS val) in
        when (5000 <? snd r) (ignore (call (chg_alg_stop_algo a))) ;;;
        run_algs l chg_done (snd r) is_basic
      else
        when (negb (eqb chg_done (is_chg_done i)))
          (ignore (call (chg_alg_notifier_call a
             (mk_chg_alg_notify (if chg_done then EVT_FULL else EVT_RECHARGE) 0)))) ;;;
        call (chg_alg_set_current_limit a (setting i)) ;;;
        let! st := call (chg_alg_is_algo_ready a) in
        if (st =? ALG_INIT_FAIL) || (st =? ALG_TA_NOT_SUPPORT) then
          run_algs l chg_done val is_basic
        else if (st =? ALG_TA_CHECKING) || (st =? ALG_DONE) || (st =? ALG_NOT_READY) then
          ret true
        else if (st =? ALG_READY) || (st =? ALG_RUNNING) then
          call (chg_alg_start_algo a) ;;; ret false
        else run_algs l chg_done val true
  end.

(** The loop that stops the high-voltage algorithms in basic mode. *)
Fixpoint stop_hv_algs (algs : list (option nat)) (val : Z) : M (world E) unit :=
  match algs with
  | [] => ret tt
  | None :: l => stop_hv_algs l val
  | Some h :: l =>
      let a := algd (Some h) in
      let! r := call (chg_alg_get_prop a ALG_MAX_VBUS val) in
      (if 5000 <? snd r then
         let! running := call (chg_alg_is_algo_running a) in
         when (z2b running) (ignore (call (chg_alg_stop_algo a)))
       else ret tt) ;;;
      stop_hv_algs l (snd r)
  end.

(** Program the charger with the selected limits. *)
Definition program_charger : M (world E) unit :=
  let! p := geti chg_data1 in
  with_chg1 (fun d => charger_dev_set_input_current d (input_current_limit p)) ;;;
  with_chg1 (fun d => charger_dev_set_charging_current d (charging_current_limit p)) ;;;
  let! s := geti setting in
  with_chg1 (fun d => charger_dev_set_constant_voltage d (set_cv s)) ;;;
  ignore (with_chg1 (fun d => charger_dev_enable d
    (negb ((input_current_limit p =? 0) || (charging_current_limit p =? 0))))).

Definition do_algorithm : M (world E) Z :=
  let! done := with_chg1 (fun d => charger_dev_is_charging_done d false) in
  let chg_done := snd done in
  let! is_basic := select_charging_current_limit in
  let! i := geti (fun i => i) in
  (if negb (eqb (is_chg_done i) chg_done) then
     if chg_done then
       with_chg1 (fun d => charger_dev_do_event d EVENT_FULL 0) ;;;
       ignore (with_chg1 (fun d => charger_dev_enable_ir_comp d false))
     else ignore (with_chg1 (fun d => charger_dev_do_event d EVENT_RECHARGE 0))
   else ret tt) ;;;
  let! is_basic :=
    (if negb is_basic then run_algs (alg i) chg_done 0 true
     else
       when (negb (enable_hv_charging i) || (charging_current_limit (chg_data1 i) =? 0) ||
             (input_current_limit (chg_data1 i) =? 0))
         (stop_hv_algs (alg i) 0) ;;;
       ret true) in
  modi (fun i => i <| is_chg_done := chg_done |>) ;;;
  when is_basic program_charger ;;;
  ignore (with_chg1 (fun d => charger_dev_dump_registers d)) ;;;
  let! h2 := geti chg2_dev in
  ignore (call (charger_dev_dump_registers (chg h2))) ;;;
  ret 0.

Definition enable_charging (en : bool) : M (world E) Z :=
  (if negb en then
     let! algs := geti alg in
     for_each algs (fun a =>
       match a with
       | None => ret tt
       | Some h => ignore (call (chg_alg_stop_algo (algd (Some h))))
       end) ;;;
     with_chg1 (fun d => charger_dev_enable d false) ;;;
     with_chg1 (fun d => charger_dev_do_event d EVENT_DISCHARGE 0)
   else
     with_chg1 (fun d => charger_dev_enable d true) ;;;
     with_chg1 (fun d => charger_dev_do_event d EVENT_RECHARGE 0)) ;;;
  ret 0.

(** The notifier of the primary charger; [vbusov] is [data->vbusov_stat]. *)
Definition charger_dev_event (event : Z) (vbusov : bool) : M (world E) unit :=
  let wake_unless_polling :=
    let! h := geti chg1_dev in
    let! e := gets env in
    when (negb (match chg h with Some d => dev_is_polling_mode d e | None => false end))
      _wake_up_charger in
  if event =? CHARGER_DEV_NOTIFY_EOC then
    let! algs := geti alg in
    for_each algs (fun a =>
      ignore (call (chg_alg_notifier_call (algd a) (mk_chg_alg_notify EVT_FULL 0)))) ;;;
    wake_unless_polling
  else if event =? CHARGER_DEV_NOTIFY_RECHG then wake_unless_polling
  else if event =? CHARGER_DEV_NOTIFY_SAFETY_TIMEOUT then
    modi (fun i => i <| safety_timeout := true |>) ;;;
    call (bat_metrics (MetricChgFault METRICS_FAULT_SAFETY_TIMEOUT)) ;;;
    wake_unless_polling
  else if event =? CHARGER_DEV_NOTIFY_VBUS_OVP then
    modi (fun i => i <| vbusov_stat := vbusov |>) ;;;
    call (bat_metrics (MetricChgFault METRICS_FAULT_VBUS_OVP)) ;;;
    wake_unless_polling
  else if event =? CHARGER_DEV_NOTIFY_UPDATE then _wake_up_charger
  else ret tt.

Definition mtk_basic_charging_current : M (world E) Z :=
  select_charging_current_limit ;;; ret 0.

End BasicCharger.

(** ** Theorems on the pure parts *)

(** Case analysis on the tests of the limit functions. *)
Ltac limit_cases :=
  repeat match goal with
    | |- context [if ?b then _ else _] => let E := fresh "E" in destruct b eqn:E; cbn
    end; bool_prop.

(** What the selection of limits reads and must not write. *)
Definition limit_inputs (i : mtk_charger) :=
  (thermal_charging_current_limit (chg_data1 i), thermal_input_current_limit (chg_data1 i),
   thermal_charging_current_limit (chg_data2 i), thermal_input_current_limit (chg_data2 i),
   force_charging_current (chg_data1 i), force_input_current_limit (chg_data1 i),
   (enable_sw_jeita i, sw_jeita i, data i, chg1_dev i)).

(** The charging and input limits of the two chargers. *)
Definition limits (i : mtk_charger) :=
  (charging_current_limit (chg_data1 i), input_current_limit (chg_data1 i),
   charging_current_limit (chg_data2 i), input_current_limit (chg_data2 i)).

(** The limit [t] applied to a current [c]: [-1] means no limit. *)
Definition capped (t c : Z) : Z := if t =? -1 then c else Z.min t c.

Lemma capped_le t c : capped t c <= c.
Proof. unfold capped. case_match; lia. Qed.

Lemma capped_limit t c : t <> -1 -> capped t c <= t.
Proof. intros H. unfold capped. case_match; bool_prop; lia. Qed.

Lemma if_min t c : (if t <? c then t else c) = Z.min t c.
Proof. destruct (t <? c) eqn:E; bool_prop; lia. Qed.

(** One of the four thermal limits: the capped current at its place, the others
    and the inputs as before. *)
Ltac solve_cap :=
  intros; unfold limits, capped; rewrite <- ?if_min; cbn;
  repeat match goal with
    | |- context [?t =? -1] => destruct (t =? -1) eqn:?; cbn
    | |- context [?t <? ?c] => destruct (t <? c) eqn:?; cbn
    end; split; reflexivity.

Lemma thermal_ccl1_spec i :
  limits (thermal_ccl1 i) =
    (capped (thermal_charging_current_limit (chg_data1 i)) (limits i).1.1.1,
     (limits i).1.1.2, (limits i).1.2, (limits i).2) /\
  limit_inputs (thermal_ccl1 i) = limit_inputs i.
Proof. unfold thermal_ccl1. solve_cap. Qed.

Lemma thermal_icl1_spec i :
  limits (thermal_icl1 i) =
    ((limits i).1.1.1, capped (thermal_input_current_limit (chg_data1 i)) (limits i).1.1.2,
     (limits i).1.2, (limits i).2) /\
  limit_inputs (thermal_icl1 i) = limit_inputs i.
Proof. unfold thermal_icl1. solve_cap. Qed.

Lemma thermal_ccl2_spec i :
  limits (thermal_ccl2 i) =
    ((limits i).1.1.1, (limits i).1.1.2,
     capped (thermal_charging_current_limit (chg_data2 i)) (limits i).1.2, (limits i).2) /\
  limit_inputs (thermal_ccl2 i) = limit_inputs i.
Proof. unfold thermal_ccl2. solve_cap. Qed.

Lemma thermal_icl2_spec i :
  limits (thermal_icl2 i) =
    ((limits i).1.1.1, (limits i).1.1.2, (limits i).1.2,
     capped (thermal_input_current_limit (chg_data2 i)) (limits i).2) /\
  limit_inputs (thermal_icl2 i) = limit_inputs i.
Proof. unfold thermal_icl2. solve_cap. Qed.

Lemma jeita_limit_spec lim i :
  limits (jeita_limit lim i) =
    (capped lim (limits i).1.1.1, (limits i).1.1.2, (limits i).1.2, (limits i).2) /\
  limit_inputs (jeita_limit lim i) = limit_inputs i.
Proof. unfold jeita_limit. solve_cap. Qed.

Lemma thermal_limits_spec i :
  limits (thermal_limits i) =
    (capped (thermal_charging_current_limit (chg_data1 i)) (limits i).1.1.1,
     capped (thermal_input_current_limit (chg_data1 i)) (limits i).1.1.2,
     capped (thermal_charging_current_limit (chg_data2 i)) (limits i).1.2,
     capped (thermal_input_current_limit (chg_data2 i)) (limits i).2) /\
  limit_inputs (thermal_limits i) = limit_inputs i.
Proof.
  unfold thermal_limits.
  destruct (thermal_ccl1_spec i) as [L1 I1]. set (i1 := thermal_ccl1 i) in *.
  destruct (thermal_icl1_spec i1) as [L2 I2]. set (i2 := thermal_icl1 i1) in *.
  destruct (thermal_ccl2_spec i2) as [L3 I3]. set (i3 := thermal_ccl2 i2) in *.
  destruct (thermal_icl2_spec i3) as [L4 I4]. set (i4 := thermal_icl2 i3) in *.
  rewrite L4, L3, L2, L1, I4, I3, I2, I1. cbn [fst snd]. split; [|done].
  unfold limit_inputs in I1, I2, I3, I4. congruence.
Qed.

(** The JEITA current limit in force: [-1] if there is none. *)
Definition jeita_cap (i : mtk_charger) : Z :=
  if enable_sw_jeita i then
    if jeita_sm (sw_jeita i) =? TEMP_T0_TO_T1 then temp_t0_to_t1_charger_current (data i)
    else if jeita_sm (sw_jeita i) =? TEMP_T3_TO_T4 then temp_t3_to_t4_charger_current (data i)
    else -1
  else -1.

Lemma jeita_limits_spec i :
  limits (jeita_limits i) =
    (capped (jeita_cap i) (limits i).1.1.1, (limits i).1.1.2, (limits i).1.2, (limits i).2) /\
  limit_inputs (jeita_limits i) = limit_inputs i.
Proof.
  unfold jeita_limits, jeita_cap, CONFIG_USBIF_COMPLIANCE. rewrite andb_false_l. cbv iota zeta.
  destruct (enable_sw_jeita i) eqn:Ee; [|done].
  destruct (jeita_sm (sw_jeita i) =? TEMP_T0_TO_T1) eqn:E0.
  - destruct (jeita_limit_spec (temp_t0_to_t1_charger_current (data i)) i) as [L I].
    assert (sw_jeita (jeita_limit (temp_t0_to_t1_charger_current (data i)) i) = sw_jeita i) as Hs
      by (unfold limit_inputs in I; congruence).
    rewrite Hs. destruct (jeita_sm (sw_jeita i) =? TEMP_T3_TO_T4) eqn:E4; [|done].
    bool_prop. rewrite E0 in E4. discriminate.
  - destruct (jeita_sm (sw_jeita i) =? TEMP_T3_TO_T4); [apply jeita_limit_spec|done].
Qed.

(** C32: the JEITA and thermal stage leaves the charging current of the primary
    charger at the smallest of the selected current, the JEITA zone's current
    and the thermal limit, its input current at the smaller of the selected one
    and the thermal limit, the same for the secondary charger without JEITA,
    and changes none of the settings it reads. *)
Theorem protection_limits_exact i :
  limits (thermal_limits (jeita_limits i)) =
    (capped (thermal_charging_current_limit (chg_data1 i))
       (capped (jeita_cap i) (charging_current_limit (chg_data1 i))),
     capped (thermal_input_current_limit (chg_data1 i)) (input_current_limit (chg_data1 i)),
     capped (thermal_charging_current_limit (chg_data2 i)) (charging_current_limit (chg_data2 i)),
     capped (thermal_input_current_limit (chg_data2 i)) (input_current_limit (chg_data2 i))) /\
  limit_inputs (thermal_limits (jeita_limits i)) = limit_inputs i.
Proof.
  destruct (thermal_limits_spec (jeita_limits i)) as [-> ->].
  destruct (jeita_limits_spec i) as [-> I]. rewrite I. cbn [fst snd]. split; [|done].
  unfold limits; cbn [fst snd]. unfold limit_inputs in I. congruence.
Qed.

(** ** Theorems on the selection of limits, for every platform *)

Section SelectLimits.
  Context {E : Type} `{!Platform E}.

Abbreviation inputs := (fun w : world E => limit_inputs (info w)).

Lemma keeps_support_fast_charging_from {T} (f : mtk_charger -> T) algs :
  keeps (fun w : world E => f (info w)) (support_fast_charging_from algs).
Proof. induction algs as [|[h|] l IH]; simpl; solve_keeps; apply IH. Qed.
#[local] Hint Resolve keeps_support_fast_charging_from : kern.

Lemma keeps_inputs_run_aicl : keeps inputs run_aicl_limit.
Proof. unfold run_aicl_limit, with_chg1. solve_keeps. Qed.

Lemma keeps_inputs_get_vbus : keeps inputs get_vbus.
Proof. unfold get_vbus, get_pmic_vbus. solve_keeps. Qed.

Lemma keeps_inputs_ensure_tcpc : keeps inputs ensure_tcpc.
Proof. unfold ensure_tcpc. solve_keeps. Qed.
#[local] Hint Resolve keeps_inputs_run_aicl keeps_inputs_get_vbus keeps_inputs_ensure_tcpc : kern.

Lemma keeps_inputs_is_typec_adapter : keeps inputs is_typec_adapter.
Proof. unfold is_typec_adapter. solve_keeps. Qed.

Lemma keeps_inputs_typec_limits h : keeps inputs (typec_limits h).
Proof. unfold typec_limits. solve_keeps; case_match; reflexivity. Qed.

Lemma keeps_inputs_check_invalid_charger : keeps inputs check_invalid_charger.
Proof. unfold check_invalid_charger, with_chg1. solve_keeps. Qed.

Lemma keeps_inputs_by_ocp : keeps inputs adapter_power_detection_by_ocp.
Proof.
  unfold adapter_power_detection_by_ocp, set_adapter_detect, with_chg1. solve_keeps.
Qed.

Lemma keeps_inputs_set_category a b c : keeps inputs (set_category a b c).
Proof. unfold set_category. solve_keeps. Qed.
#[local] Hint Resolve keeps_inputs_is_typec_adapter keeps_inputs_typec_limits
  keeps_inputs_check_invalid_charger keeps_inputs_by_ocp keeps_inputs_set_category : kern.

Lemma keeps_inputs_adapter_power_detection : keeps inputs adapter_power_detection.
Proof. unfold adapter_power_detection, detection_done. solve_keeps. Qed.
#[local] Hint Resolve keeps_inputs_adapter_power_detection : kern.

Lemma apply_aicl_inputs b i : limit_inputs (apply_aicl b i) = limit_inputs i.
Proof. unfold apply_aicl. case_tests; reflexivity. Qed.

Lemma keeps_inputs_wired_limits : keeps inputs wired_limits.
Proof.
  unfold wired_limits, support_fast_charging.
  solve_keeps; first [apply apply_aicl_inputs|case_match; reflexivity].
Qed.
#[local] Hint Resolve keeps_inputs_wired_limits : kern.

Lemma limits_by_source_inputs i : limit_inputs (limits_by_source i).1 = limit_inputs i.
Proof.
  unfold limits_by_source, limits_by_type, wireless_limits. case_tests; cbn; try reflexivity;
    repeat (case_match; simplify_eq; try reflexivity).
Qed.

(** The source is one whose limits go through the protections: none of the
    tests that jump to [done]. *)
Definition ordinary_source (i : mtk_charger) : bool :=
  match (limits_by_source i).2 with Some _ => true | None => false end.

Lemma info_select_cv_limits (w : world E) :
  limit_inputs (info (exec select_cv w)) = limit_inputs (info w) /\
  ordinary_source (info (exec select_cv w)) = ordinary_source (info w).
Proof.
  destruct (info_select_cv w) as [cv ->]. split; [reflexivity|].
  unfold ordinary_source, limits_by_source. cbn. repeat (case_match; simplify_eq; try reflexivity).
Qed.

Lemma keeps_inputs_path_limits b : keeps inputs (path_limits b).
Proof. unfold path_limits, wpc_is_online. solve_keeps. Qed.

(** The selection ends with the forced limits and the check against the
    charger's minimum, applied to a state with unchanged inputs which, for an
    ordinary source, comes out of the protections. *)
Lemma exec_select (w : world E) :
  exists w1, exec select_charging_current_limit w = exec check_min_current (exec (modi force_limits) w1) /\
    limit_inputs (info w1) = limit_inputs (info w) /\
    (ordinary_source (info w) = true ->
     exists i, info w1 = thermal_limits (jeita_limits i) /\
               limit_inputs i = limit_inputs (info w)).
Proof.
  destruct (info_select_cv_limits w) as [Hi Ho]. unfold select_charging_current_limit. run.
  set (w0 := exec select_cv w) in *.
  assert (limit_inputs (limits_by_source (info w0)).1 = limit_inputs (info w)) as Hi'
    by (by rewrite <- Hi, limits_by_source_inputs).
  unfold ordinary_source in Ho at 1. rewrite <- Ho.
  destruct (limits_by_source (info w0)).2 as [b|]; run; eexists; (split; [reflexivity|]);
    [|split; [exact Hi'|done]].
  run. set (w2 := exec (path_limits b) _).
  assert (limit_inputs (info w2) = limit_inputs (info w)) as H2
    by (unfold w2; rewrite (keeps_inputs_path_limits b); exact Hi').
  split; [|intros _; eexists; split; [reflexivity|exact H2]].
  by rewrite (proj2 (thermal_limits_spec _)), (proj2 (jeita_limits_spec _)).
Qed.

(** The check against the charger's minimum changes nothing but the two limits
    of the primary charger, and those only to zero. *)
Lemma check_min_current_spec (w : world E) :
  let i := info w in let i' := info (exec check_min_current w) in
  (charging_current_limit (chg_data1 i') = charging_current_limit (chg_data1 i) \/
   charging_current_limit (chg_data1 i') = 0) /\
  (input_current_limit (chg_data1 i') = input_current_limit (chg_data1 i) \/
   input_current_limit (chg_data1 i') = 0) /\
  setting i' = setting i.
Proof. unfold check_min_current, with_chg1. run. case_tests; run; cbn; auto. Qed.

Lemma force_limits_unforced i :
  force_charging_current (chg_data1 i) = -1 -> force_input_current_limit (chg_data1 i) = -1 ->
  limits (force_limits i) = limits i.
Proof. intros H1 H2. unfold force_limits. rewrite H2. cbn. rewrite H1. reflexivity. Qed.

(** C33: for every platform, whatever the devices answer: with an ordinary
    source and no forced limit, the charging current selected for the primary
    charger is within the thermal limit and the input current within the
    thermal input limit, where those are set. *)
Theorem select_respects_thermal (w : world E) :
  let i := info w in let p := chg_data1 i in
  let p' := chg_data1 (info (exec select_charging_current_limit w)) in
  ordinary_source i = true ->
  force_charging_current p = -1 -> force_input_current_limit p = -1 ->
  (0 <= thermal_charging_current_limit p ->
   charging_current_limit p' <= thermal_charging_current_limit p) /\
  (0 <= thermal_input_current_limit p ->
   input_current_limit p' <= thermal_input_current_limit p).
Proof.
  cbv zeta. intros Ho F1 F2. destruct (exec_select w) as (w1 & -> & Hw1 & Hp).
  destruct (Hp Ho) as (i & Ei & Hi). clear Hp.
  destruct (check_min_current_spec (exec (modi force_limits) w1)) as (Hc & Hl & _).
  destruct (thermal_limits_spec (jeita_limits i)) as [HL _].
  pose proof (proj2 (jeita_limits_spec i)) as Hj.
  run in Hc. run in Hl. unfold limit_inputs in Hw1, Hi, Hj.
  assert (limits (force_limits (info w1)) = limits (info w1)) as HF
    by (apply force_limits_unforced; congruence).
  rewrite Ei in HF at 2. rewrite HL in HF. unfold limits in HF.
  split; intros Ht.
  - destruct Hc as [->| ->]; [|lia].
    replace (charging_current_limit (chg_data1 (force_limits (info w1)))) with
      (capped (thermal_charging_current_limit (chg_data1 (jeita_limits i)))
         (charging_current_limit (chg_data1 (jeita_limits i)))) by (cbn in HF; congruence).
    replace (thermal_charging_current_limit (chg_data1 (jeita_limits i))) with
      (thermal_charging_current_limit (chg_data1 (info w))) by congruence.
    apply capped_limit. lia.
  - destruct Hl as [->| ->]; [|lia].
    replace (input_current_limit (chg_data1 (force_limits (info w1)))) with
      (capped (thermal_input_current_limit (chg_data1 (jeita_limits i)))
         (input_current_limit (chg_data1 (jeita_limits i)))) by (cbn in HF; congruence).
    replace (thermal_input_current_limit (chg_data1 (jeita_limits i))) with
      (thermal_input_current_limit (chg_data1 (info w))) by congruence.
    apply capped_limit. lia.
Qed.

(** The limits that the fast-charging algorithms receive through
    [info->setting] are the forced ones or none: unless a limit is forced, the
    block at the label [done] overwrites what the thermal and JEITA stages
    stored there with [-1]. *)
Theorem select_setting_only_forced (w : world E) :
  let p := chg_data1 (info w) in
  let s := setting (info (exec select_charging_current_limit w)) in
  input_current_limit1 s = force_input_current_limit p /\
  input_current_limit2 s = force_input_current_limit p /\
  charging_current_limit1 s = force_charging_current p /\
  charging_current_limit2 s = force_charging_current p.
Proof.
  cbv zeta. destruct (exec_select w) as (w1 & -> & Hw1 & _).
  destruct (check_min_current_spec (exec (modi force_limits) w1)) as (_ & _ & ->). run.
  replace (force_input_current_limit (chg_data1 (info w))) with
    (force_input_current_limit (chg_data1 (info w1))) by (unfold limit_inputs in Hw1; congruence).
  replace (force_charging_current (chg_data1 (info w))) with
    (force_charging_current (chg_data1 (info w1))) by (unfold limit_inputs in Hw1; congruence).
  unfold force_limits.
  destruct (force_input_current_limit (chg_data1 (info w1)) =? -1) eqn:E1; bool_prop; cbn;
    destruct (force_charging_current (chg_data1 (info w1)) =? -1) eqn:E2; bool_prop; cbn; auto.
Qed.

(** A reading that leaves the platform alone. *)
Lemma with_chg1_const {A} (f : option (charger_device E mtk_charger) -> M E A) h r (w : world E) :
  chg1_dev (info w) = Some h -> (forall e, f (Some (charger_at h)) e = (r, e)) ->
  with_chg1 f w = (r, w).
Proof.
  intros Hh Hf. unfold with_chg1, bind, geti, gets, call, chg. rewrite Hh. cbn.
  rewrite Hf. by destruct w.
Qed.

Lemma check_min_current_min (w : world E) h mc mi :
  chg1_dev (info w) = Some h ->
  (forall e v, charger_dev_get_min_charging_current (Some (charger_at h)) v e = ((0, mc), e)) ->
  (forall e v, charger_dev_get_min_input_current (Some (charger_at h)) v e = ((0, mi), e)) ->
  let p := chg_data1 (info (exec check_min_current w)) in
  (charging_current_limit p = 0 \/ mc <= u32 (charging_current_limit p)) /\
  (input_current_limit p = 0 \/ mi <= u32 (input_current_limit p)).
Proof.
  intros Hh H1 H2.
  enough (exists b w', check_min_current w = (b, w') /\
    (charging_current_limit (chg_data1 (info w')) = 0 \/
     mc <= u32 (charging_current_limit (chg_data1 (info w')))) /\
    (input_current_limit (chg_data1 (info w')) = 0 \/
     mi <= u32 (input_current_limit (chg_data1 (info w'))))) as (b & w' & Hw & H)
    by (unfold exec; rewrite Hw; exact H).
  unfold check_min_current. unfold bind at 1.
  rewrite (with_chg1_const _ h (0, mc)) by auto. cbn [fst snd].
  change (negb (0 =? - EOPNOTSUPP)) with true. cbn [andb]. unfold bind, geti, gets, when, modi, modify, ret.
  destruct (u32 (charging_current_limit (chg_data1 (info w))) <? mc) eqn:E1;
    (rewrite (with_chg1_const _ h (0, mi)) by auto; cbn [fst snd];
     change (negb (0 =? - EOPNOTSUPP)) with true; cbn [andb];
     match goal with |- context [?x <? mi] => destruct (x <? mi) eqn:E2 end;
     do 2 eexists; (split; [reflexivity|]); cbn in E2 |- *; bool_prop; auto).
Qed.

(** With a charger that reports its minimum currents, a selected limit
    below the minimum becomes zero: no current strictly between zero and the
    minimum is ever requested. *)
Theorem select_zero_or_minimum (w : world E) h mc mi :
  chg1_dev (info w) = Some h ->
  (forall e v, charger_dev_get_min_charging_current (Some (charger_at h)) v e = ((0, mc), e)) ->
  (forall e v, charger_dev_get_min_input_current (Some (charger_at h)) v e = ((0, mi), e)) ->
  let p := chg_data1 (info (exec select_charging_current_limit w)) in
  (charging_current_limit p = 0 \/ mc <= u32 (charging_current_limit p)) /\
  (input_current_limit p = 0 \/ mi <= u32 (input_current_limit p)).
Proof.
  intros Hh H1 H2. destruct (exec_select w) as (w1 & -> & Hw1 & _).
  apply check_min_current_min with h; [|done|done]. run.
  transitivity (chg1_dev (info w1)); [|unfold limit_inputs in Hw1; congruence].
  unfold force_limits. case_tests; reflexivity.
Qed.

End SelectLimits.

Lemma select_respects_thermal_witness :
  charging_current_limit (chg_data1 (info (exec select_charging_current_limit
    (world0 <| info ::= fun i => i <| chg_data1 ::= fun p =>
       p <| thermal_charging_current_limit := 700000 |> |> |>)))) <= 700000.
Proof.
  refine (proj1 (select_respects_thermal (world0 <| info ::= fun i => i <| chg_data1 ::= fun p =>
       p <| thermal_charging_current_limit := 700000 |> |> |>) _ _ _) _);
    try (vm_compute; reflexivity); vm_compute; discriminate.
Defined.

Lemma select_zero_or_minimum_witness :
  let p := chg_data1 (info (exec select_charging_current_limit world0)) in
  (charging_current_limit p = 0 \/ 500000 <= u32 (charging_current_limit p)) /\
  (input_current_limit p = 0 \/ 100000 <= u32 (input_current_limit p)).
Proof. apply (select_zero_or_minimum world0 0%nat 500000 100000); reflexivity. Defined.
