(* ===== verification/PulseCharger.v ===== *)
(** * The pulse charging algorithm (drivers/power/supply/mtk_pulse_charger.c)

    The alternative to the basic algorithm: constant current with a pause in each
    pass, top-off, full, and an error state.  Its data are the statics [pdata],
    which [info->algo.algo_data] points to, and [full_check_count]. *)

From S2P Require Import Prelude ChargerClass AlgClass ChargerTypes ChargerDt Platform Board.
From S2P Require Import ChargerIntf Jeita BasicCharger.
#[local] Open Scope Z_scope.

Definition MAX_TOPOFF_CHARGING_TIME : Z := 3 * 60 * 60.
Definition RECHARGE_OFFSET : Z := 150000.
Definition TOPOFF_VOLTAGE : Z := 4200000.
Definition CHG_FULL_CURRENT : Z := 150000.
Definition CHR_CC : Z := 0.
Definition CHR_TOPOFF : Z := 1.
Definition CHR_BATFULL : Z := 2.
Definition CHR_ERROR : Z := 3.

(** The constant voltage, and whether it is programmed at once. *)
Definition pchr_cv (i : mtk_charger) : Z * bool :=
  if enable_sw_jeita i && negb (jeita_cv (sw_jeita i) =? 0) then (jeita_cv (sw_jeita i), false)
  else (s32 (u32 (battery_cv (data i))), true).

(** The limits by the kind of supply: the new state, and [Some is_basic], or
    [None] to jump to [done]. *)
Definition pchr_limits (i : mtk_charger) : mtk_charger * option bool :=
  let d := data i in
  let t := chr_type i in
  if usb_unlimited i then
    (set_ccl (ac_charger_current d) (set_icl (ac_charger_input_current d) i), None)
  else if (bootmode i =? 1) || (bootmode i =? 5) then (set_icl 200000 i, None)
  else if atm_enabled i && ((t =? POWER_SUPPLY_TYPE_USB) || (t =? POWER_SUPPLY_TYPE_USB_CDP))
  then (set_icl 100000 i, None)
  else if t =? POWER_SUPPLY_TYPE_USB then
    (set_ccl (usb_charger_current d) (set_icl (usb_charger_current d) i), Some true)
  else if t =? POWER_SUPPLY_TYPE_USB_DCP then
    (set_ccl (ac_charger_current d) (set_icl (ac_charger_input_current d) i), Some false)
  else if t =? POWER_SUPPLY_TYPE_USB_CDP then
    (set_ccl (charging_host_charger_current d) (set_icl (charging_host_charger_current d) i), Some true)
  else (i, Some false).

Definition pchr_jeita (i : mtk_charger) : mtk_charger :=
  if enable_sw_jeita i then
    if CONFIG_USBIF_COMPLIANCE && (chr_type i =? POWER_SUPPLY_TYPE_USB) then i
    else if jeita_sm (sw_jeita i) =? TEMP_T0_TO_T1 then set_ccl 350000 (set_icl 500000 i) else i
  else i.

(** [tv_sec] of the time since [t], stored in an [unsigned int]. *)
Definition seconds_since (now t : Z) : Z := u32 ((now - t) / 1000000000).

Section Pulse.
  Context {E : Type} `{!Platform E}.
  Abbreviation W := (world E).

Definition getpc {A} (f : pcharger_data -> A) : M W A := getst (fun s => f (pdata s)).
Definition modpc (f : pcharger_data -> pcharger_data) : M W unit := modst (fun s => s <| pdata ::= f |>).

Definition pchr_select_cv : M W unit :=
  let! c := geti pchr_cv in
  modi (set_lim (fun s => s <| set_cv := fst c |>)) ;;;
  when (snd c) (ignore (with_chg1 (fun d => charger_dev_set_constant_voltage d (fst c)))).

(** A limit below the charger's minimum becomes zero; [int] against [u32]. *)
Definition pchr_check_min : M W unit :=
  let! r1 := with_chg1 (fun d => charger_dev_get_min_charging_current d 0) in
  let! p := geti chg_data1 in
  when (negb (fst r1 =? - ENOTSUPP) && (u32 (charging_current_limit p) <? snd r1)) (modi (set_ccl 0)) ;;;
  let! r2 := with_chg1 (fun d => charger_dev_get_min_input_current d 0) in
  let! p := geti chg_data1 in
  when (negb (fst r2 =? - ENOTSUPP) && (u32 (input_current_limit p) <? snd r2)) (modi (set_icl 0)).

Definition pchr_select_charging_current_limit : M W bool :=
  pchr_select_cv ;;;
  let! next := geti (fun i => snd (pchr_limits i)) in
  modi (fun i => fst (pchr_limits i)) ;;;
  let! is_basic :=
    match next with
    | None => ret true
    | Some b =>
        modi (fun i => thermal_icl1 (thermal_ccl1 (pchr_jeita i))) ;;;
        let! t := geti pd_type in
        ret (if (t =? MTK_PD_CONNECT_PE_READY_SNK) || (t =? MTK_PD_CONNECT_PE_READY_SNK_PD30) ||
                (t =? MTK_PD_CONNECT_PE_READY_SNK_APDO) then false else b)
    end in
  pchr_check_min ;;;
  ret is_basic.

(** Input current, charging current and voltage of the primary charger. *)
Definition pchr_program : M W unit :=
  let! p := geti chg_data1 in
  with_chg1 (fun d => charger_dev_set_input_current d (input_current_limit p)) ;;;
  with_chg1 (fun d => charger_dev_set_charging_current d (charging_current_limit p)) ;;;
  let! s := geti setting in
  ignore (with_chg1 (fun d => charger_dev_set_constant_voltage d (set_cv s))).

(** SUPPORT_BOOTMODE is not defined. *)
Definition linear_chg_turn_on_charging : M W unit :=
  let! st := getpc pc_state in
  let! charging_enable :=
    if st =? CHR_ERROR then ret false
    else
      pchr_select_charging_current_limit ;;;
      let! p := geti chg_data1 in
      pchr_program ;;;
      ret (negb (charging_current_limit p =? 0)) in
  ignore (with_chg1 (fun d => charger_dev_enable d charging_enable)).

Definition mtk_linear_chr_cc : M W Z :=
  let! now := call ktime_get_boottime in
  modpc (fun d => let t := seconds_since now (charging_begin_time d) in
    d <| cc_charging_time := t |> <| topoff_charging_time := 0 |> <| total_charging_time := t |>) ;;;
  with_chg1 (fun d => charger_dev_enable d false) ;;;
  call (msleep 1000) ;;;
  let! v := get_battery_voltage in
  let vbat := u32 (v * 1000) in
  let! top := getpc topoff_voltage in
  when (u32 top <? vbat)
    (modpc (fun d => d <| pc_state := CHR_TOPOFF |>) ;;;
     let! now := call ktime_get_boottime in
     modpc (fun d => d <| topoff_begin_time := now |>)) ;;;
  linear_chg_turn_on_charging ;;;
  ret 0.

Definition charging_full_check : M W bool :=
  let! c := get_battery_current in
  let chg_current := s32 (c * 1000) in
  let! full := getpc chg_full_current in
  if full <? chg_current then modst (fun s => s <| full_check_count := 0 |>) ;;; ret false
  else
    modst (fun s => s <| full_check_count ::= fun n => u32 (n + 1) |>) ;;;
    let! n := getst full_check_count in
    if 6 <=? n then modst (fun s => s <| full_check_count := 0 |>) ;;; ret true else ret false.

Definition mtk_linear_chr_topoff : M W Z :=
  let! now := call ktime_get_boottime in
  modpc (fun d => d <| cc_charging_time := 0 |>
    <| topoff_charging_time := seconds_since now (topoff_begin_time d) |>
    <| total_charging_time := seconds_since now (charging_begin_time d) |>) ;;;
  linear_chg_turn_on_charging ;;;
  let! t := getpc topoff_charging_time in
  let! full := if MAX_TOPOFF_CHARGING_TIME <=? t then ret true else charging_full_check in
  when full
    (modpc (fun d => d <| pc_state := CHR_BATFULL |>) ;;;
     ignore (with_chg1 (fun d => charger_dev_enable d false))) ;;;
  ret 0.

Definition mtk_linear_chr_full : M W Z :=
  modpc (fun d => d <| total_charging_time := 0 |> <| cc_charging_time := 0 |> <| topoff_charging_time := 0 |>) ;;;
  pchr_select_cv ;;;
  modi (fun i => i <| polling_interval := CHARGING_FULL_INTERVAL |>) ;;;
  let! v := get_battery_voltage in
  let vbat := u32 (v * 1000) in
  let! i := geti (fun i => i) in
  let! off := getpc recharge_offset in
  let cv := if enable_sw_jeita i && negb (jeita_cv (sw_jeita i) =? 0) then jeita_cv (sw_jeita i) else battery_cv (data i) in
  when (vbat <? u32 (cv - off))
    (modpc (fun d => d <| pc_state := CHR_CC |>) ;;;
     let! now := call ktime_get_boottime in
     modpc (fun d => d <| charging_begin_time := now |>) ;;;
     modi (fun i => i <| polling_interval := CHARGING_INTERVAL |>)) ;;;
  ret 0.

Definition pchr_disable_all_charging : M W unit := ignore (with_chg1 (fun d => charger_dev_enable d false)).

Definition at_extreme (i : mtk_charger) : bool :=
  (jeita_sm (sw_jeita i) =? TEMP_BELOW_T0) || (jeita_sm (sw_jeita i) =? TEMP_ABOVE_T4).

Definition mtk_linear_chr_err : M W Z :=
  let! i := geti (fun i => i) in
  when (enable_sw_jeita i)
    (when (at_extreme i) (modi (fun i => i <| sw_jeita ::= fun j => j <| jeita_error_recovery_flag := false |> |>)) ;;;
     let! i := geti (fun i => i) in
     when (negb (jeita_error_recovery_flag (sw_jeita i)) && negb (at_extreme i))
       (modi (fun i => i <| sw_jeita ::= fun j => j <| jeita_error_recovery_flag := true |> |>) ;;;
        modpc (fun d => d <| pc_state := CHR_CC |>) ;;;
        let! now := call ktime_get_boottime in
        modpc (fun d => d <| charging_begin_time := now |>))) ;;;
  modpc (fun d => d <| total_charging_time := 0 |> <| cc_charging_time := 0 |> <| topoff_charging_time := 0 |>) ;;;
  pchr_disable_all_charging ;;;
  ret 0.

Definition pchr_do_algorithm : M W Z :=
  with_chg1 (fun d => charger_dev_kick_wdt d) ;;;
  let! st := getpc pc_state in
  (if st =? CHR_CC then ignore mtk_linear_chr_cc
   else if st =? CHR_TOPOFF then ignore mtk_linear_chr_topoff
   else if st =? CHR_BATFULL then ignore mtk_linear_chr_full
   else when (st =? CHR_ERROR) (ignore mtk_linear_chr_err)) ;;;
  pchr_program ;;;
  with_chg1 (fun d => charger_dev_dump_registers d) ;;;
  ret 0.

Definition mtk_linear_charging_do_charging (en : bool) : M W Z :=
  (if en then
     modpc (fun d => d <| pc_disable_charging := false |> <| pc_state := CHR_CC |>) ;;;
     let! now := call ktime_get_boottime in
     modpc (fun d => d <| charging_begin_time := now |>)
   else
     modpc (fun d => d <| pc_disable_charging := true |> <| pc_state := CHR_ERROR |>) ;;;
     pchr_disable_all_charging) ;;;
  ret 0.

(** [mtk_pulse_charger_init] reads the device tree into [pdata]; the operations
    it stores are [pulse_ops] of [MtkCharger]. *)
Definition mtk_pulse_charger_parse_dt (np : device_node) (d : pcharger_data) : pcharger_data :=
  d <| recharge_offset := read_int np "recharge_offset"%string RECHARGE_OFFSET |>
    <| topoff_voltage := read_int np "topoff_voltage"%string TOPOFF_VOLTAGE |>
    <| chg_full_current := read_int np "chg_full_current"%string CHG_FULL_CURRENT |>.

Definition mtk_pulse_charger_init (np : device_node) : M W Z := modpc (mtk_pulse_charger_parse_dt np) ;;; ret 0.
End Pulse.
