(* ===== verification/MtkCharger.v ===== *)
(** * The charging manager (drivers/power/supply/mtk_charger.c)

    Charging permission, protections, plug handling and the charger thread.
    [algorithm_ops] is the [struct mtk_charger_algorithm] of the source: the
    manager is written against it, [basic_ops] is the basic algorithm and
    [pulse_ops] the pulse algorithm. *)

From S2P Require Import Prelude ChargerClass AlgClass ChargerTypes ChargerDt Platform Board.
From S2P Require Import ChargerIntf Jeita BasicCharger PulseCharger.
#[local] Open Scope Z_scope.

(** [IS_ENABLED(CONFIG_POWER_EXT)]: not set in the product. *)
Definition CONFIG_POWER_EXT : bool := false.

Record algorithm_ops (E : Type) : Type := {
  algo_do_algorithm : option (M (world E) Z);
  algo_enable_charging : option (bool -> M (world E) Z);
  algo_do_event : option (Z -> bool -> M (world E) unit);
  algo_change_current_setting : option (M (world E) Z)
}.
Arguments algo_do_algorithm {E}.
Arguments algo_enable_charging {E}.
Arguments algo_do_event {E}.
Arguments algo_change_current_setting {E}.

(** [mtk_basic_charger_init]. *)
Definition basic_ops {E} `{!Platform E} : algorithm_ops E := {|
  algo_do_algorithm := Some do_algorithm;
  algo_enable_charging := Some enable_charging;
  algo_do_event := Some charger_dev_event;
  algo_change_current_setting := Some mtk_basic_charging_current
|}.

(** [mtk_pulse_charger_init]: it has no event handler. *)
Definition pulse_ops {E} `{!Platform E} : algorithm_ops E := {|
  algo_do_algorithm := Some pchr_do_algorithm;
  algo_enable_charging := Some mtk_linear_charging_do_charging;
  algo_do_event := None;
  algo_change_current_setting := None
|}.

Definition no_ops {E} : algorithm_ops E := {|
  algo_do_algorithm := None; algo_enable_charging := None;
  algo_do_event := None; algo_change_current_setting := None
|}.

(** ** Pure parts *)

Definition is_disable_charger (i : mtk_charger) : bool :=
  disable_charger i || CONFIG_POWER_EXT.

Definition get_bcm_flag (i : mtk_charger) : bool := negb (bcm_flag i =? BCM_FLAG_NONE).

(** The battery-temperature protection used without software JEITA, lines
    2077-2117: the new state and whether charging may go on. *)
Definition temperature_check (t : battery_thermal_protection_data) (temperature : Z)
    : battery_thermal_protection_data * bool :=
  let high (t : battery_thermal_protection_data) :=
    if thm_max_charge_temp t <=? temperature then (t <| thm_sm := BAT_TEMP_HIGH |>, false)
    else if thm_sm t =? BAT_TEMP_HIGH then
      if temperature <? thm_max_charge_temp_minus_x_degree t
      then (t <| thm_sm := BAT_TEMP_NORMAL |>, true)
      else (t, false)
    else (t, true) in
  if thm_enable_min_charge_temp t then
    if temperature <? thm_min_charge_temp t then (t <| thm_sm := BAT_TEMP_LOW |>, false)
    else if thm_sm t =? BAT_TEMP_LOW then
      if thm_min_charge_temp_plus_x_degree t <=? temperature
      then high (t <| thm_sm := BAT_TEMP_NORMAL |>)
      else (t, false)
    else high t
  else high t.

Definition reset_invalid_charger_state (i : mtk_charger) : mtk_charger :=
  i <| invalid_charger_det_done := false |> <| invalid_charger_det_weak := false |>.

Definition reset_dpm_eoc_state (i : mtk_charger) : mtk_charger :=
  i <| dpm_disable_charging := false |> <| soc_exit_dpm_eoc := 0 |>
    <| cv_enter_dpm_eoc := 0 |> <| dpm_state_count := 0 |>.

Definition reset_bat_eoc_protect_state (i : mtk_charger) : mtk_charger :=
  i <| bat_eoc_protect := false |> <| disconnect_duration := 0 |>.

(** Set and clear a bit of [info->notify_code], an [unsigned int]. *)
Definition notify_set (bit : Z) (i : mtk_charger) : mtk_charger :=
  i <| notify_code ::= fun c => Z.lor c bit |>.
Definition notify_clear (bit : Z) (i : mtk_charger) : mtk_charger :=
  i <| notify_code ::= fun c => Z.land c (Z.lnot bit) |>.

(** The conditions of [charger_check_status] that do not jump, lines 2133-2143. *)
Definition charging_allowed (i : mtk_charger) : bool :=
  negb (cmd_discharging i || safety_timeout i || vbusov_stat i ||
        (enable_bat_eoc_protect i && (bat_eoc_protect i || dpm_disable_charging i)) ||
        invalid_charger_det_weak i).

Section MtkCharger.
  Context {E : Type} `{!Platform E}.

Definition algo_of (a : charger_algo) : algorithm_ops E :=
  match a with AlgoNone => no_ops | AlgoBasic => basic_ops | AlgoPulse => pulse_ops end.

Definition _mtk_enable_charging (en : bool) : M (world E) Z :=
  let! a := geti algo in
  match algo_enable_charging (algo_of a) with
  | Some f => f en
  | None => ret 0
  end.

Definition mtk_charger_start_timer : M (world E) unit :=
  let! c := call alarm_try_to_cancel in
  if c <? 0 then ret tt
  else
    let! now := call ktime_get_boottime in
    let! p := geti polling_interval in
    let sec := now / 1000000000 + p in
    let nsec := now mod 1000000000 in
    modi (fun i => i <| endtime_sec := sec |> <| endtime_nsec := nsec |>) ;;;
    call (alarm_start (sec * 1000000000 + nsec)).

(** The count of failed readings has no effect: its use is compiled out. *)
Definition check_battery_exist : M (world E) unit :=
  let! i := geti (fun i => i) in
  if is_disable_charger i then ret tt
  else for_each [0; 1; 2] (fun _ => ignore is_battery_exist).

Fixpoint any_alg_running (algs : list (option nat)) : M (world E) bool :=
  match algs with
  | [] => ret false
  | None :: l => any_alg_running l
  | Some h :: l =>
      let! st := call (chg_alg_is_algo_ready (algd (Some h))) in
      if st =? ALG_RUNNING then ret true else any_alg_running l
  end.

Definition check_dynamic_mivr : M (world E) unit :=
  let! i := geti (fun i => i) in
  if negb (enable_dynamic_mivr i) then ret tt
  else
    let! fast := any_alg_running (alg i) in
    if fast then ret tt
    else
      let! vbat := get_battery_voltage in
      let d := data i in
      let mivr := if vbat <? min_charger_voltage_2 d ÷c 1000 - 200 then min_charger_voltage_2 d
                  else if vbat <? min_charger_voltage_1 d ÷c 1000 - 200 then min_charger_voltage_1 d
                  else min_charger_voltage d in
      ignore (with_chg1 (fun c => charger_dev_set_mivr c mivr)).

Definition mtk_chgstat_notify : M (world E) unit := ignore (call kobject_uevent).

(** The driver data of the "mtk-master-charger" supply is [info] itself once it
    is registered; the failure of that lookup is the [None] case. *)
Definition mtk_chg_enable_vbus_ovp (pinfo_ready : bool) (enable : bool) : M (world E) Z :=
  if negb pinfo_ready then ret (-1)
  else
    modi (fun i => i <| data ::= fun d =>
      d <| max_charger_voltage := if enable then max_charger_voltage_setting d else 15000000 |> |>) ;;;
    disable_hw_ovp (b2z enable) ;;;
    ret 0.

(** Returns false if vbus is out of range. *)
Definition mtk_chg_check_vbus : M (world E) bool :=
  let! i := geti (fun i => i) in
  if invalid_charger_det_weak i then ret true
  else
    let! h := call (find_charger "wireless_chg"%string) in
    let! online :=
      match h with
      | Some _ => let! r := call (wireless_charger_dev_get_online (chg h) false) in ret (snd r)
      | None => ret false
      end in
    let! v := get_vbus in
    let vchr := s32 (v * 1000) in
    let pre_state := vbus_state i in
    let state :=
      if (max_charger_voltage (data i) <? vchr) && negb online then VBUS_OVP
      else if (vchr <? vbus_uvlo_voltage (data i)) &&
              negb (chr_type i =? POWER_SUPPLY_TYPE_UNKNOWN) then VBUS_UVLO
      else VBUS_NORMAL in
    when (negb (state =? VBUS_NORMAL)) (modi (fun i => i <| invalid_charger := 1 |>)) ;;;
    modi (fun i => i <| vbus_state := state |>) ;;;
    when (negb (pre_state =? state) && (pre_state =? VBUS_UVLO))
      (modi (fun i => i <| vbus_recovery_from_uvlo := true |>)) ;;;
    if (state =? VBUS_OVP) || (state =? VBUS_UVLO) then ret false
    else modi (fun i => i <| invalid_charger := 0 |>) ;;; ret true.

Definition mtk_battery_notify_VCharger_check : M (world E) unit :=
  let! v := get_vbus in
  let vchr := s32 (v * 1000) in
  let! mx := geti (fun i => max_charger_voltage (data i)) in
  if vchr <? mx then modi (notify_clear CHG_VBUS_OV_STATUS)
  else modi (notify_set CHG_VBUS_OV_STATUS) ;;; mtk_chgstat_notify.

Definition mtk_battery_notify_VBatTemp_check : M (world E) unit :=
  let! i := geti (fun i => i) in
  (if thm_max_charge_temp (thermal i) <=? battery_temp i then
     modi (notify_set CHG_BAT_OT_STATUS) ;;; mtk_chgstat_notify
   else modi (notify_clear CHG_BAT_OT_STATUS)) ;;;
  if enable_sw_jeita i then
    if battery_temp i <? temp_neg_10_thres (data i) then
      modi (notify_set CHG_BAT_LT_STATUS) ;;; mtk_chgstat_notify
    else modi (notify_clear CHG_BAT_LT_STATUS)
  else ret tt.

Definition mtk_battery_notify_UI_test : M (world E) unit :=
  modi (fun i =>
    let m := notify_test_mode i in
    if m =? 1 then i <| notify_code := CHG_VBUS_OV_STATUS |>
    else if m =? 2 then i <| notify_code := CHG_BAT_OT_STATUS |>
    else if m =? 3 then i <| notify_code := CHG_OC_STATUS |>
    else if m =? 4 then i <| notify_code := CHG_BAT_OV_STATUS |>
    else if m =? 5 then i <| notify_code := CHG_ST_TMO_STATUS |>
    else if m =? 6 then i <| notify_code := CHG_BAT_LT_STATUS |>
    else if m =? 7 then i <| notify_code := CHG_TYPEC_WD_STATUS |>
    else i) ;;;
  mtk_chgstat_notify.

Definition mtk_battery_notify_check : M (world E) unit :=
  let! m := geti notify_test_mode in
  if m =? 0 then
    mtk_battery_notify_VCharger_check ;;; mtk_battery_notify_VBatTemp_check
  else mtk_battery_notify_UI_test.

(** The second reading starts from the values the first one left. *)
Definition mtk_chg_get_tchg : M (world E) unit :=
  let! r := with_chg1 (fun d => charger_dev_get_temperature d (-127) (-127)) in
  let '(c, (tmin, tmax)) := r in
  modi (fun i => i <| chg_data1 ::= fun p =>
    if c <? 0 then p <| junction_temp_min := -127 |> <| junction_temp_max := -127 |>
    else p <| junction_temp_min := tmin |> <| junction_temp_max := tmax |> |>) ;;;
  let! h2 := geti chg2_dev in
  match h2 with
  | None => ret tt
  | Some _ =>
      let! r := call (charger_dev_get_temperature (chg h2) tmin tmax) in
      let '(c, (tmin, tmax)) := r in
      modi (fun i => i <| chg_data2 ::= fun p =>
        if c <? 0 then p <| junction_temp_min := -127 |> <| junction_temp_max := -127 |>
        else p <| junction_temp_min := tmin |> <| junction_temp_max := tmax |> |>)
  end.

Definition charger_top_off_mode : M (world E) unit :=
  let! i := geti (fun i => i) in
  let! z1 := get_use_aging_zcv in
  let! top_off_cv :=
    (if z1 =? 1 then ret (top_off_mode_cv_aging1 i)
     else
       let! z2 := get_use_aging_zcv in
       ret (if z2 =? 2 then top_off_mode_cv_aging2 i else top_off_mode_cv i)) in
  if top_off_cv =? 0 then ret tt
  else
    let! ui_soc := get_uisoc in
    let en := z2b (top_off_mode_enable i) in
    if en && (ui_soc <? 100) then ret tt
    else if en then
      modi (fun i => i <| custom_charging_cv := top_off_cv |>) ;;;
      ignore (set_battery_difference_full_cv (top_off_difference_full_cv i)) ;;;
      call (bat_metrics (MetricTopOff true))
    else
      modi (fun i => i <| custom_charging_cv := -1 |>) ;;;
      ignore (set_battery_difference_full_cv (normal_difference_full_cv i)) ;;;
      call (bat_metrics (MetricTopOff false)).

End MtkCharger.

(** ** Theorems *)

(** The battery-temperature protection allows charging exactly when the
    temperature is below the maximum, not below the minimum where that is
    enforced, and past the hysteresis of the side it tripped on; its thresholds
    never change, and while charging is allowed its state is not HIGH. *)
Theorem temperature_check_exact t temp :
  let r := temperature_check t temp in
  (r.2 = true <->
   (thm_enable_min_charge_temp t = true ->
    thm_min_charge_temp t <= temp /\
    (thm_sm t = BAT_TEMP_LOW -> thm_min_charge_temp_plus_x_degree t <= temp)) /\
   temp < thm_max_charge_temp t /\
   (thm_sm t = BAT_TEMP_HIGH -> temp < thm_max_charge_temp_minus_x_degree t)) /\
  (r.2 = true -> thm_sm r.1 <> BAT_TEMP_HIGH) /\
  (exists sm, r.1 = t <| thm_sm := sm |>).
Proof.
  destruct t as [sm en mn mnx mx mxx].
  unfold temperature_check, BAT_TEMP_HIGH, BAT_TEMP_LOW, BAT_TEMP_NORMAL, upd_field. cbn.
  destruct en, (temp <? mn) eqn:E1, (sm =? 0) eqn:E2, (mnx <=? temp) eqn:E3, (mx <=? temp) eqn:E4,
    (sm =? 2) eqn:E5, (temp <? mxx) eqn:E6; bool_prop; subst; cbn; try lia;
    (split; [lia|split; [lia|eexists; reflexivity]]).
Qed.

Section ManagerTheorems.
  Context {E : Type} `{!Platform E}.

(** The verdict on a bus voltage. *)
Definition vbus_verdict (d : charger_custom_data) (type vchr : Z) (online : bool) : Z :=
  if (max_charger_voltage d <? vchr) && negb online then VBUS_OVP
  else if (vchr <? vbus_uvlo_voltage d) && negb (type =? POWER_SUPPLY_TYPE_UNKNOWN)
  then VBUS_UVLO else VBUS_NORMAL.

(** The manager's configuration is untouched by reading the bus voltage. *)
Lemma keeps_get_vbus {T} (f : mtk_charger -> T) :
  keeps (fun w : world E => f (info w)) get_vbus.
Proof. unfold get_vbus, get_pmic_vbus. solve_keeps. Qed.

Lemma info_get_vbus (w : world E) : info (exec get_vbus w) = info w.
Proof. apply (keeps_get_vbus (fun i => i)). Qed.

(** On a platform without a wireless charger, a bus voltage above the
    configured maximum or, with a charger attached, below the lockout voltage
    makes [mtk_chg_check_vbus] refuse charging and mark the charger invalid; a
    voltage in between is accepted and clears the mark; a recovery from under
    voltage is recorded.  A charger already known to be weak is not checked. *)
Theorem check_vbus_exact (w : world E) :
  eval (find_charger "wireless_chg"%string) (env w) = None ->
  invalid_charger_det_weak (info w) = false ->
  let i := info w in let i' := info (exec mtk_chg_check_vbus w) in
  let st := vbus_verdict (data i) (chr_type i) (s32 (eval get_vbus w * 1000)) false in
  eval mtk_chg_check_vbus w = (st =? VBUS_NORMAL) /\
  vbus_state i' = st /\
  invalid_charger i' = b2z (negb (st =? VBUS_NORMAL)) /\
  vbus_recovery_from_uvlo i' =
    (vbus_recovery_from_uvlo i || (negb (st =? VBUS_UVLO) && (vbus_state i =? VBUS_UVLO))).
Proof.
  intros Hw Hweak. cbv zeta.
  set (st := vbus_verdict _ _ _ _).
  assert (st = VBUS_OVP \/ st = VBUS_UVLO \/ st = VBUS_NORMAL) as Hst
    by (unfold st, vbus_verdict; case_tests; auto).
  change (wp mtk_chg_check_vbus (fun r w' =>
    r = (st =? VBUS_NORMAL) /\ vbus_state (info w') = st /\
    invalid_charger (info w') = b2z (negb (st =? VBUS_NORMAL)) /\
    vbus_recovery_from_uvlo (info w') = (vbus_recovery_from_uvlo (info w) ||
      (negb (st =? VBUS_UVLO) && (vbus_state (info w) =? VBUS_UVLO)))) w).
  unfold mtk_chg_check_vbus. do 3 wp_step; [congruence|].
  apply wp_bind, wp_call. intros h e He. cbn beta.
  assert (h = None /\ e = env w) as [-> ->] by (unfold eval, find_charger, gets in *; by simplify_eq).
  replace (w <| env := env w |>) with w by (by destruct w).
  do 3 wp_step. apply wp_run.
  change (if (max_charger_voltage (data (info w)) <? s32 (eval get_vbus w * 1000)) && negb false
          then VBUS_OVP else _) with st.
  pose proof (info_get_vbus w) as Hi. clearbody st. destruct (exec get_vbus w) as [i' s' e'].
  cbn in Hi. subst i'.
  destruct Hst as [->|[->| ->]]; wps; cbn in *; bool_prop; try lia;
    destruct (vbus_state (info w) =? VBUS_UVLO) eqn:E1; bool_prop;
    rewrite ?E1, ?orb_false_r, ?orb_true_r in *; cbn in *; auto; try lia.
Qed.

Lemma notify_set_bit n i k :
  0 <= k -> 0 <= n -> Z.testbit (notify_code (notify_set (2 ^ n) i)) k =
  Z.testbit (notify_code i) k || (k =? n).
Proof.
  intros Hk Hn. cbn. rewrite Z.lor_spec. f_equal.
  destruct (k =? n) eqn:Ek; bool_prop; [subst; by apply Z.pow2_bits_true|].
  apply Z.pow2_bits_false. lia.
Qed.

Lemma notify_clear_bit n i k :
  0 <= k -> 0 <= n -> Z.testbit (notify_code (notify_clear (2 ^ n) i)) k =
  Z.testbit (notify_code i) k && negb (k =? n).
Proof.
  intros Hk Hn. cbn. rewrite Z.land_spec, Z.lnot_spec by done. f_equal. f_equal.
  destruct (k =? n) eqn:Ek; bool_prop; [subst; by apply Z.pow2_bits_true|].
  apply Z.pow2_bits_false. lia.
Qed.

(** The battery part of the notification: the over-temperature bit (bit 1)
    of [notify_code] follows the temperature limit, with software JEITA the
    low-temperature bit (bit 5) follows the minus-ten threshold, and no other
    bit changes. *)
Theorem notify_vbattemp_bits (w : world E) k :
  0 <= k ->
  let i := info w in
  Z.testbit (notify_code (info (exec mtk_battery_notify_VBatTemp_check w))) k =
    if k =? 1 then thm_max_charge_temp (thermal i) <=? battery_temp i
    else if (k =? 5) && enable_sw_jeita i then battery_temp i <? temp_neg_10_thres (data i)
    else Z.testbit (notify_code i) k.
Proof.
  intros Hk. cbv zeta. apply (wp_exec mtk_battery_notify_VBatTemp_check (fun w' =>
    Z.testbit (notify_code (info w')) k = _)).
  unfold mtk_battery_notify_VBatTemp_check, mtk_chgstat_notify.
  change CHG_BAT_OT_STATUS with (2 ^ 1). change CHG_BAT_LT_STATUS with (2 ^ 5).
  wps; cbn -[notify_set notify_clear];
    repeat first [rewrite notify_set_bit by lia|rewrite notify_clear_bit by lia];
    repeat match goal with H : _ = _ :> bool |- _ => rewrite H; clear H end;
    destruct (k =? 1) eqn:E1, (k =? 5) eqn:E5; bool_prop; subst; try lia; cbn;
    rewrite ?orb_true_r, ?orb_false_r, ?andb_false_r, ?andb_true_r; reflexivity.
Qed.

End ManagerTheorems.

Lemma check_vbus_exact_witness :
  let w := world0 <| env ::= fun b => b <| b_vbus := 7000000 |> |> in
  eval mtk_chg_check_vbus w = false /\ vbus_state (info (exec mtk_chg_check_vbus w)) = VBUS_OVP.
Proof.
  split.
  - exact (proj1 (check_vbus_exact (world0 <| env ::= fun b => b <| b_vbus := 7000000 |> |>)
      eq_refl eq_refl)).
  - exact (proj1 (proj2 (check_vbus_exact
      (world0 <| env ::= fun b => b <| b_vbus := 7000000 |> |>) eq_refl eq_refl))).
Defined.

Lemma notify_vbattemp_bits_witness :
  Z.testbit (notify_code (info (exec mtk_battery_notify_VBatTemp_check
    (world0 <| info ::= fun i => i <| battery_temp := 60 |> |>)))) 1 = true.
Proof.
  refine (notify_vbattemp_bits (world0 <| info ::= fun i => i <| battery_temp := 60 |> |>) 1 _).
  lia.
Defined.
