(* ===== verification/ChargerThread.v ===== *)
(** * Permission, plugging and the charger thread (drivers/power/supply/mtk_charger.c)

    [charger_check_status] decides whether charging may go on,
    [mtk_is_charger_on] tracks the cable, the end-of-charge and DPM
    protections hold charging back when the battery is full, and the thread
    runs all of them once per wake-up.  Locks and the wakeup source do not
    appear except for the wakeup source's [active] flag: the thread's body is
    one atomic step of the system. *)

From S2P Require Import Prelude ChargerClass AlgClass ChargerTypes ChargerDt Platform Board.
From S2P Require Import ChargerIntf Jeita BasicCharger MtkCharger.
#[local] Open Scope Z_scope.

Definition NO_IR_COMPENSATION_SOC : Z := 85.
Definition RECHARGE_SOC_DIFF_FOR_LOW_SOC : Z := 2.

Definition dump_charger_type (type : Z) : string :=
  (if (type =? POWER_SUPPLY_TYPE_UNKNOWN)%Z then "none"
   else if (type =? POWER_SUPPLY_TYPE_USB)%Z then "usb"
   else if (type =? POWER_SUPPLY_TYPE_USB_CDP)%Z then "usb-h"
   else if (type =? POWER_SUPPLY_TYPE_USB_DCP)%Z then "std"
   else if (type =? POWER_SUPPLY_TYPE_USB_FLOAT)%Z then "nonstd"
   else if (type =? POWER_SUPPLY_TYPE_WIRELESS)%Z then "wireless"
   else if (type =? POWER_SUPPLY_TYPE_WIRELESS_5W)%Z then "wireless-5w"
   else if (type =? POWER_SUPPLY_TYPE_WIRELESS_10W)%Z then "wireless-10w"
   else "unknown")%string.

(** The fields that [mtk_charger_plug_out] and [mtk_charger_plug_in] assign. *)
Definition plug_out_fields (i : mtk_charger) : mtk_charger :=
  i <| chr_type := POWER_SUPPLY_TYPE_UNKNOWN |> <| charger_thread_polling := false |>
    <| power_detection ::= fun p => p <| det_iusb_ua := 0 |> |>
    <| chg_data1 ::= fun p => p <| disable_charging_count := 0 |>
         <| input_current_limit_by_aicl := -1 |> <| input_current_limit := 500000 |> |>
    <| chg_data2 ::= fun p => p <| disable_charging_count := 0 |> |>
    <| invalid_charger := 0 |>.

Definition plug_in_fields (type : Z) (i : mtk_charger) : mtk_charger :=
  i <| chr_type := type |> <| charger_thread_polling := true |>
    <| can_charging := true |> <| safety_timeout := false |>
    <| vbusov_stat := false |> <| invalid_charger := 0 |>.

(** What [check_dpm_eoc_state] measures. *)
Record dpm_reading : Type := mk_dpm_reading {
  dr_cur_cv : Z; dr_soc : Z; dr_vbat_uv : Z; dr_ibat : Z;
  dr_en_chg : bool; dr_chg_done : bool; dr_icl : Z; dr_ccl : Z;
  dr_vdpm : bool; dr_idpm : bool
}.

(** Lines 2283-2296: leaving the state. *)
Definition dpm_eoc_exit (cur_cv soc : Z) (i : mtk_charger) : mtk_charger :=
  let i1 := if negb (cur_cv =? cv_enter_dpm_eoc i) then reset_dpm_eoc_state i else i in
  if soc <? soc_exit_dpm_eoc i1 then reset_dpm_eoc_state i1 else i1.

(** Lines 2322-2329, negated: a valid DPM reading. *)
Definition dpm_valid (i : mtk_charger) (r : dpm_reading) : bool :=
  negb ((dr_ibat r <=? 0) || (dpm_ibat_threshold_ma i <? dr_ibat r) ||
        negb (dr_cur_cv r =? battery_cv (data i)) ||
        (dr_icl r <? dpm_input_cur_limit_ua i) ||
        (dr_ccl r <? dpm_charge_cur_limit_ua i) ||
        negb (dr_en_chg r) || dr_chg_done r ||
        (dr_vbat_uv r <=? s32 (battery_cv (data i) - dpm_cv_bat_vdiff_uv i)) ||
        negb (dr_vdpm r || dr_idpm r)).

(** Lines 2322-2352; [soc_exit_eoc] is unsigned, so [soc] is compared with it
    as an unsigned number. *)
Definition dpm_eoc_count (r : dpm_reading) (i : mtk_charger) : mtk_charger * bool :=
  if negb (dpm_valid i r) then (reset_dpm_eoc_state i, false)
  else
    let i := i <| dpm_state_count ::= fun c => s32 (c + 1) |> in
    if dpm_state_count_max i <=? dpm_state_count i then
      (i <| dpm_disable_charging := true |>
         <| soc_exit_dpm_eoc :=
              if soc_exit_eoc i <=? u32 (dr_soc r) then s32 (soc_exit_eoc i)
              else s32 (dr_soc r - dpm_rechg_low_soc_diff i) |>
         <| cv_enter_dpm_eoc := dr_cur_cv r |> <| dpm_state_count := 0 |>, true)
    else (i, false).

(** Lines 2382-2390: the plug-in branch at a given time. *)
Definition eoc_plug_in (now : Z) (i : mtk_charger) : mtk_charger :=
  let dur := s64 (now - disconnect_time i) ÷c 1000000 ÷c 1000 in
  let i := i <| disconnect_duration := dur |> in
  if (bat_eoc_protect i || dpm_disable_charging i) && (bat_eoc_protect_reset_time i <=? dur)
  then reset_dpm_eoc_state (reset_bat_eoc_protect_state i) else i.

(** Lines 2573-2602: the two halves of [battery_protect_algo]. *)
Definition eoc_enter (ui_soc soc cv sw_cv : Z) (chg_done : bool) (i : mtk_charger) : bool :=
  chg_done && negb (bat_eoc_protect i) && (ui_soc =? 100) &&
  (custom_charging_cv i =? -1) && (sw_cv =? cv).
Definition eoc_recharge_soc (soc : Z) (i : mtk_charger) : Z :=
  if soc_exit_eoc i <=? u32 soc then s32 (soc_exit_eoc i)
  else s32 (soc - RECHARGE_SOC_DIFF_FOR_LOW_SOC).
Definition eoc_leave (ui_soc soc cv sw_cv rsoc : Z) (i : mtk_charger) : mtk_charger :=
  let i := if (soc <? rsoc) || (ui_soc <? 100) then reset_bat_eoc_protect_state i else i in
  if (0 <? custom_charging_cv i) || (sw_cv <? cv) then reset_bat_eoc_protect_state i else i.

Section Thread.
  Context {E : Type} `{!Platform E}.

(** The tests of [charger_check_status] up to the label [stop_charging]: the
    value of [charging]. *)
Definition check_charging : M (world E) bool :=
  let! i := geti (fun i => i) in
  if get_bcm_flag i then ret false
  else
    let! temp_ok :=
      (if enable_sw_jeita i then
         do_sw_jeita_state_machine ;;; geti (fun i => jeita_charging (sw_jeita i))
       else
         let '(t, ok) := temperature_check (thermal i) (battery_temp i) in
         modi (fun i => i <| thermal := t |>) ;;; ret ok) in
    if negb temp_ok then ret false
    else
      mtk_chg_get_tchg ;;;
      let! vbus_ok := mtk_chg_check_vbus in
      if negb vbus_ok then ret false
      else
        let! id_ok := call get_battery_id_status in
        if negb id_ok then ret false
        else geti charging_allowed.

Definition charger_check_status : M (world E) unit :=
  let! type := get_charger_type in
  if type =? POWER_SUPPLY_TYPE_UNKNOWN then ret tt
  else
    let! charging := check_charging in
    mtk_battery_notify_check ;;;
    let! can := geti can_charging in
    when (negb (eqb charging can)) (ignore (_mtk_enable_charging charging)) ;;;
    when (negb charging)
      (select_cv ;;;
       let! s := geti setting in
       ignore (with_chg1 (fun c => charger_dev_set_constant_voltage c (set_cv s)))) ;;;
    modi (fun i => i <| can_charging := charging |>).

(** One of the four lookups of [charger_init_algo]. *)
Definition init_one_alg (idx : nat) (name : string) : M (world E) unit :=
  let! a := call (find_alg name) in
  modi (fun i => i <| alg ::= fun l => <[idx := a]> l |>) ;;;
  match a with
  | None => ret tt
  | Some h =>
      let! c := geti config in
      call (alg_set_config (alg_at h) c) ;;;
      call (chg_alg_init_algo (algd a)) ;;;
      ignore (call (alg_notifier_chain_register (alg_at h)))
  end.

Definition charger_init_algo : M (world E) bool :=
  init_one_alg 0 "pe4"%string ;;;
  init_one_alg 1 "pd"%string ;;;
  init_one_alg 2 "pe2"%string ;;;
  init_one_alg 3 "pe"%string ;;;
  let! c1 := call (find_charger "primary_chg"%string) in
  modi (fun i => i <| chg1_dev := c1 |>) ;;;
  match c1 with
  | None => ret false
  | Some h1 =>
      let! cfg := geti config in
      let! ok :=
        (if cfg =? DUAL_CHARGERS_IN_SERIES then
           let! c2 := call (find_charger "secondary_chg"%string) in
           modi (fun i => i <| chg2_dev := c2 |>) ;;;
           ret (match c2 with Some _ => true | None => false end)
         else ret true) in
      if negb ok then ret false
      else
        let! a := geti algo in
        match algo_do_event (algo_of a) with
        | None => ret true
        | Some _ =>
            call (charger_notifier_chain_register h1) ;;;
            call (charger_dev_set_drvdata h1) ;;;
            ret true
        end
  end.

Definition check_dpm_eoc_state : M (world E) unit :=
  let! i := geti (fun i => i) in
  if negb (enable_bat_eoc_protect i) then ret tt
  else
    let! jv := call uninit in
    let! ji := call uninit in
    let! dpm := with_chg1 (fun d => charger_dev_get_indpm_state d (z2b jv) (z2b ji)) in
    if fst dpm =? - ENOTSUPP then ret tt
    else
      let! jc := call uninit in
      let! cv := with_chg1 (fun d => charger_dev_get_constant_voltage d (u32 jc)) in
      let cur_cv := s32 (snd cv) in
      let! soc := battery_get_soc in
      if dpm_disable_charging i then modi (dpm_eoc_exit cur_cv soc)
      else
        let! vbat := get_battery_voltage in
        let! ibat := get_battery_current in
        let! je := call uninit in
        let! en := with_chg1 (fun d => charger_dev_is_enabled d (z2b je)) in
        let! jd := call uninit in
        let! done := with_chg1 (fun d => charger_dev_is_charging_done d (z2b jd)) in
        let! jl := call uninit in
        let! icl := with_chg1 (fun d => charger_dev_get_input_current d (u32 jl)) in
        let! jm := call uninit in
        let! ccl := with_chg1 (fun d => charger_dev_get_charging_current d (u32 jm)) in
        let r := mk_dpm_reading cur_cv soc (s32 (vbat * 1000)) ibat (snd en) (snd done)
                   (s32 (snd icl)) (s32 (snd ccl)) (fst (snd dpm)) (snd (snd dpm)) in
        let! entered := geti (fun i => (dpm_eoc_count r i).2) in
        modi (fun i => (dpm_eoc_count r i).1) ;;;
        when entered (call (bat_metrics (MetricDpmEoc cur_cv))).

Definition bat_eoc_protect_handle_plug_state (plugged : bool) : M (world E) unit :=
  let! i := geti (fun i => i) in
  let! st := getst plug_status in
  if negb (enable_bat_eoc_protect i) then ret tt
  else if eqb st plugged then ret tt
  else
    modi reset_invalid_charger_state ;;;
    modst (fun s => s <| plug_status := plugged |>) ;;;
    let! now := call ktime_get_boottime in
    if plugged then modi (eoc_plug_in now)
    else modi (fun i => i <| disconnect_time := now |> <| disconnect_duration := 0 |>).

Definition notify_algs (evt : chg_alg_evt) : M (world E) unit :=
  let! algs := geti alg in
  for_each algs (fun a =>
    ignore (call (chg_alg_notifier_call (algd a) (mk_chg_alg_notify evt 0)))).

Definition mtk_charger_plug_out : M (world E) Z :=
  modi plug_out_fields ;;;
  notify_algs EVT_PLUG_OUT ;;;
  with_chg1 (fun d => charger_dev_enable_ir_comp d false) ;;;
  with_chg1 (fun d => charger_dev_set_input_current d 500000) ;;;
  let! v := geti (fun i => min_charger_voltage (data i)) in
  with_chg1 (fun d => charger_dev_set_mivr d v) ;;;
  with_chg1 (fun d => charger_dev_plug_out d) ;;;
  ret 0.

Definition mtk_charger_plug_in (type : Z) : M (world E) Z :=
  modi (plug_in_fields type) ;;;
  notify_algs EVT_PLUG_IN ;;;
  let! icl := geti (fun i => input_current_limit (chg_data1 i)) in
  with_chg1 (fun d => charger_dev_set_input_current d icl) ;;;
  let! soc := battery_get_soc in
  when ((0 <=? soc) && (soc <? NO_IR_COMPENSATION_SOC))
    (ignore (with_chg1 (fun d => charger_dev_enable_ir_comp d true))) ;;;
  with_chg1 (fun d => charger_dev_plug_in d) ;;;
  ret 0.

Definition mtk_is_charger_on : M (world E) bool :=
  let! type := get_charger_type in
  let! i := geti (fun i => i) in
  (if type =? POWER_SUPPLY_TYPE_UNKNOWN then
     when (negb (chr_type i =? POWER_SUPPLY_TYPE_UNKNOWN))
       (mtk_charger_plug_out ;;; modi (fun i => i <| cable_out_cnt := 0 |>))
   else
     (if chr_type i =? POWER_SUPPLY_TYPE_UNKNOWN then ignore (mtk_charger_plug_in type)
      else modi (fun i => i <| chr_type := type |>)) ;;;
     let! n := geti cable_out_cnt in
     when (0 <? n)
       (mtk_charger_plug_out ;;; mtk_charger_plug_in type ;;;
        modi (fun i => i <| cable_out_cnt := 0 |>))) ;;;
  ret (negb (type =? POWER_SUPPLY_TYPE_UNKNOWN)).

Definition kpoc_power_off_check : M (world E) unit :=
  let! m := geti bootmode in
  if (m =? 8) || (m =? 9) then
    let! vbus := get_vbus in
    if (0 <=? vbus) && (vbus <? 2500) then
      let! on := mtk_is_charger_on in
      when (negb on) (call kernel_power_off)
    else ret tt
  else ret tt.

Definition battery_protect_algo : M (world E) unit :=
  let! i := geti (fun i => i) in
  if negb (enable_bat_eoc_protect i) then ret tt
  else if chr_type i =? POWER_SUPPLY_TYPE_UNKNOWN then ret tt
  else
    let! ui_soc := get_uisoc in
    let! soc := battery_get_soc in
    let! cv := mtk_get_battery_cv in
    let! i := geti (fun i => i) in
    let sw_cv := if enable_sw_jeita i && negb (jeita_cv (sw_jeita i) =? 0)
                 then jeita_cv (sw_jeita i) else cv in
    if negb (bat_eoc_protect i) then
      let! done := with_chg1 (fun d => charger_dev_is_charging_done d false) in
      if eoc_enter ui_soc soc cv sw_cv (snd done) i then
        modst (fun s => s <| recharge_soc := eoc_recharge_soc soc i |>) ;;;
        modi (fun i => i <| bat_eoc_protect := true |>)
      else ret tt
    else
      let! rsoc := getst recharge_soc in
      modi (eoc_leave ui_soc soc cv sw_cv rsoc).

Definition battery_full_track : M (world E) unit :=
  let! ui_soc := get_uisoc in
  let! done := with_chg1 (fun d => charger_dev_is_charging_done d false) in
  let! upd := getst update_eoc_status in
  if snd done then
    if negb upd && (ui_soc <? 100) then modst (fun s => s <| update_eoc_status := true |>)
    else if upd && (ui_soc =? 100) then
      modst (fun s => s <| update_eoc_status := false |>) ;;;
      ignore (with_chg1 (fun d => charger_dev_do_event d EVENT_FULL 0))
    else ret tt
  else ret tt.

(** One pass of the loop that waits for the charger to be registered. *)
Definition thread_init_pass : M (world E) unit :=
  let! ok := charger_init_algo in
  if ok then modst (fun s => s <| is_module_init_done := true |>)
  else call (msleep 5000).

(** The readings of the log line; the supplies they look up are stored. *)
Definition log_readings : M (world E) unit :=
  get_battery_voltage ;;; get_vbus ;;; get_ibus ;;; get_battery_current ;;;
  get_uisoc ;;; ignore get_charger_type.

(** Lines 2691-2700: run the charging algorithm if charging is permitted. *)
Definition run_algorithm (is_charger_on : bool) : M (world E) unit :=
  let! i := geti (fun i => i) in
  if negb (is_disable_charger i) && is_charger_on && can_charging i then
    match algo_do_algorithm (algo_of (algo i)) with
    | Some f => ignore f
    | None => ret tt
    end
  else ret tt.

(** Lines 2702-2703. *)
Definition run_wireless : M (world E) unit :=
  let! h := call (find_charger "wireless_chg"%string) in
  let! i := geti (fun i => i) in
  let! r := call (wireless_charger_dev_do_algorithm (chg h) i) in
  modi (fun _ => snd r).

(** The body of the thread, from taking [charger_lock] to releasing it. *)
Definition charger_routine_body : M (world E) unit :=
  modi (fun i => i <| wakelock_active := true |> <| charger_thread_timeout := false |>) ;;;
  let! temp := get_battery_temperature in
  modi (fun i => i <| battery_temp := temp |>) ;;;
  log_readings ;;;
  let! on := mtk_is_charger_on in
  let! poll := geti charger_thread_polling in
  when poll mtk_charger_start_timer ;;;
  check_battery_exist ;;;
  check_dynamic_mivr ;;;
  charger_check_status ;;;
  charger_top_off_mode ;;;
  kpoc_power_off_check ;;;
  battery_protect_algo ;;;
  battery_full_track ;;;
  check_dpm_eoc_state ;;;
  run_algorithm on ;;;
  run_wireless ;;;
  modi (fun i => i <| wakelock_active := false |>).

(** [charger_pm_event]. *)
Inductive pm_event : Type := PM_SUSPEND_PREPARE | PM_POST_SUSPEND | PM_OTHER.

Definition timespec_compare (s1 n1 s2 n2 : Z) : Z :=
  if s1 <? s2 then -1 else if s2 <? s1 then 1 else n1 - n2.

Definition charger_pm_event (ev : pm_event) : M (world E) unit :=
  match ev with
  | PM_SUSPEND_PREPARE => modi (fun i => i <| is_suspend := true |>)
  | PM_POST_SUSPEND =>
      modi (fun i => i <| is_suspend := false |>) ;;;
      let! now := call ktime_get_boottime in
      let! i := geti (fun i => i) in
      if (0 <=? timespec_compare (now / 1000000000) (now mod 1000000000)
                  (endtime_sec i) (endtime_nsec i)) &&
         negb (endtime_sec i =? 0) && negb (endtime_nsec i =? 0)
      then
        modi (fun i => i <| wakelock_active := false |> <| endtime_sec := 0 |>
                         <| endtime_nsec := 0 |>) ;;;
        _wake_up_charger
      else ret tt
  | PM_OTHER => ret tt
  end.

Definition mtk_charger_alarm_timer_func : M (world E) unit :=
  let! s := geti is_suspend in
  if negb s then _wake_up_charger
  else modi (fun i => i <| wakelock_active := true |>).

End Thread.

(** ** Theorems on the end-of-charge protections *)

(** The configuration a DPM reading is judged by. *)
Definition dpm_config (i : mtk_charger) :=
  (data i, dpm_ibat_threshold_ma i, dpm_input_cur_limit_ua i, dpm_charge_cur_limit_ua i,
   dpm_cv_bat_vdiff_uv i, dpm_state_count_max i).

Lemma dpm_valid_config i i' r : dpm_config i = dpm_config i' -> dpm_valid i r = dpm_valid i' r.
Proof. unfold dpm_config, dpm_valid. intros H. injection H as -> -> -> -> -> _. done. Qed.

Lemma dpm_eoc_count_config r i : dpm_config (dpm_eoc_count r i).1 = dpm_config i.
Proof. unfold dpm_eoc_count. cbv zeta. by case_tests. Qed.

Definition dpm_run (rs : list dpm_reading) (i : mtk_charger) : mtk_charger :=
  fold_left (fun i r => (dpm_eoc_count r i).1) rs i.

Lemma dpm_count_one r i :
  dpm_valid i r = true -> dpm_state_count_max i < 2 ^ 31 ->
  0 <= dpm_state_count i < dpm_state_count_max i ->
  let i' := (dpm_eoc_count r i).1 in
  dpm_state_count i' = (if dpm_state_count i + 1 =? dpm_state_count_max i then 0
                        else dpm_state_count i + 1) /\
  dpm_disable_charging i' = (dpm_disable_charging i || (dpm_state_count i + 1 =? dpm_state_count_max i)).
Proof.
  intros Hv Hm Hc. unfold dpm_eoc_count. rewrite Hv. cbn.
  pose proof (s32_id (dpm_state_count i + 1) ltac:(unfold is_s32; lia)) as Hs. rewrite Hs.
  destruct (dpm_state_count i + 1 =? dpm_state_count_max i) eqn:E1,
    (dpm_state_count_max i <=? dpm_state_count i + 1) eqn:E2; bool_prop; try lia; cbn;
    rewrite ?orb_true_r, ?orb_false_r; auto.
Qed.

Lemma dpm_run_partial rs i :
  Forall (fun r => dpm_valid i r = true) rs ->
  dpm_disable_charging i = false -> 0 <= dpm_state_count i -> dpm_state_count_max i < 2 ^ 31 ->
  dpm_state_count i + Z.of_nat (length rs) < dpm_state_count_max i ->
  dpm_state_count (dpm_run rs i) = dpm_state_count i + Z.of_nat (length rs) /\
  dpm_disable_charging (dpm_run rs i) = false /\ dpm_config (dpm_run rs i) = dpm_config i.
Proof.
  revert i. induction rs as [|r rs IH]; intros i Hf Hd Hc Hm Hl;
    [cbn; rewrite Z.add_0_r; auto|].
  cbn [length] in Hl. apply Forall_cons in Hf as [Hr Hf].
  destruct (dpm_count_one r i) as [Ec Ed]; [done|done|lia|]. cbv zeta in Ec, Ed.
  pose proof (dpm_eoc_count_config r i) as Hcfg. set (i1 := (dpm_eoc_count r i).1) in *.
  change (dpm_run (r :: rs) i) with (dpm_run rs i1).
  destruct (dpm_state_count i + 1 =? dpm_state_count_max i) eqn:E1; bool_prop; [lia|].
  assert (dpm_state_count_max i1 = dpm_state_count_max i) as Em by (unfold dpm_config in Hcfg; congruence).
  destruct (IH i1) as (A1 & A2 & A3).
  - eapply Forall_impl; [exact Hf|]. intros r' Hr'. cbn in *. by rewrite (dpm_valid_config i1 i).
  - by rewrite Ed, Hd.
  - lia.
  - lia.
  - lia.
  - cbn [length]. split_and!; [lia|done|congruence].
Qed.

(** The DPM end-of-charge state is entered exactly at the
    [dpm_state_count_max]-th consecutive valid reading: any shorter run of valid
    readings from a reset leaves charging enabled with the count equal to its
    length, one more disables charging, and an invalid reading starts the count
    over. *)
Theorem dpm_enters_exactly i rs r :
  Forall (fun r => dpm_valid i r = true) (rs ++ [r]) ->
  dpm_disable_charging i = false -> dpm_state_count i = 0 -> dpm_state_count_max i < 2 ^ 31 ->
  Z.of_nat (length rs) + 1 = dpm_state_count_max i ->
  (forall rs1 rs2, rs = rs1 ++ rs2 ->
     dpm_disable_charging (dpm_run rs1 i) = false /\
     dpm_state_count (dpm_run rs1 i) = Z.of_nat (length rs1)) /\
  dpm_disable_charging (dpm_run (rs ++ [r]) i) = true /\
  (forall bad, dpm_valid i bad = false ->
     dpm_disable_charging (dpm_run (rs ++ [bad]) i) = false /\
     dpm_state_count (dpm_run (rs ++ [bad]) i) = 0).
Proof.
  intros Hf Hd Hc Hm Hl. apply Forall_app in Hf as [Hf Hr]. apply Forall_cons in Hr as [Hr _].
  destruct (dpm_run_partial rs i) as (A1 & A2 & A3); [done|done|lia|done|lia|].
  split_and!.
  - intros rs1 rs2 ->. rewrite length_app in Hl. apply Forall_app in Hf as [Hf1 _].
    destruct (dpm_run_partial rs1 i) as (B1 & B2 & _); [done|done|lia|done|lia|].
    split; [done|lia].
  - unfold dpm_run. rewrite fold_left_app. cbn. fold (dpm_run rs i).
    assert (dpm_state_count_max (dpm_run rs i) = dpm_state_count_max i)
      by (unfold dpm_config in A3; congruence).
    destruct (dpm_count_one r (dpm_run rs i)) as [_ ->]; [|lia|lia|].
    + rewrite (dpm_valid_config (dpm_run rs i) i) by exact A3. exact Hr.
    + apply orb_true_iff. right. apply Z.eqb_eq. lia.
  - intros bad Hb. unfold dpm_run. rewrite fold_left_app. cbn. fold (dpm_run rs i).
    unfold dpm_eoc_count. rewrite (dpm_valid_config _ i) by done. by rewrite Hb.
Qed.

Definition good_reading : dpm_reading :=
  mk_dpm_reading 4400000 99 4390000 100 true false 500000 500000 true false.

Lemma dpm_enters_exactly_witness :
  dpm_disable_charging (dpm_run (replicate 8 good_reading ++ [good_reading]) default_charger) = true.
Proof.
  refine (proj1 (proj2 (dpm_enters_exactly default_charger (replicate 8 good_reading) good_reading
    _ _ _ _ _))); try reflexivity.
  apply Forall_forall. intros x Hx. vm_compute in Hx.
  repeat (apply elem_of_cons in Hx as [->|Hx]; [reflexivity|]). by apply not_elem_of_nil in Hx.
Defined.

(** Replugging within the reset time keeps the end-of-charge and DPM
    holds, a longer absence clears both: the decision depends on the whole
    seconds between the disconnection and the plug-in only. *)
Theorem eoc_replug_exact i t0 t1 :
  0 <= t1 - t0 < 2 ^ 63 ->
  let i' := eoc_plug_in t1 (i <| disconnect_time := t0 |>) in
  let short := (t1 - t0) / 1000000000 <? bat_eoc_protect_reset_time i in
  bat_eoc_protect i' = (bat_eoc_protect i && short) /\
  dpm_disable_charging i' = (dpm_disable_charging i && short).
Proof.
  intros Ht. cbv zeta. unfold eoc_plug_in. cbn [disconnect_time].
  assert (s64 (t1 - t0) ÷c 1000000 ÷c 1000 = (t1 - t0) / 1000000000) as Hd.
  { replace (s64 (t1 - t0)) with (t1 - t0)
      by (unfold s64; rewrite Z.mod_small by lia; lia).
    rewrite !Z.quot_div_nonneg by (try apply Z.quot_pos; lia).
    by rewrite Z.div_div by lia. }
  cbn. rewrite Hd.
  destruct ((t1 - t0) / 1000000000 <? bat_eoc_protect_reset_time i) eqn:E1,
    (bat_eoc_protect_reset_time i <=? (t1 - t0) / 1000000000) eqn:E2; bool_prop; try lia;
    destruct (bat_eoc_protect i) eqn:Eb, (dpm_disable_charging i) eqn:Ed; cbn; rewrite ?Eb, ?Ed; auto.
Qed.

Lemma eoc_replug_exact_witness :
  bat_eoc_protect (eoc_plug_in 30000000000 ((default_charger <| bat_eoc_protect := true |>)
    <| disconnect_time := 0 |>)) = true.
Proof.
  refine (proj1 (eoc_replug_exact (default_charger <| bat_eoc_protect := true |>) 0 30000000000 _)).
  split; [discriminate|reflexivity].
Defined.

(** The end-of-charge hold does not flap: evaluated again on the readings
    that started it, it holds, and on later readings it is released only by a
    state of charge below the stored threshold, by a displayed charge below
    100 percent, by the top-off voltage or by a lower JEITA voltage. *)
Theorem eoc_hold_stable i ui_soc soc cv sw_cv chg_done :
  0 <= soc <= 100 -> 0 <= soc_exit_eoc i <= 100 ->
  eoc_enter ui_soc soc cv sw_cv chg_done i = true ->
  let held := i <| bat_eoc_protect := true |> in
  let rsoc := eoc_recharge_soc soc i in
  bat_eoc_protect (eoc_leave ui_soc soc cv sw_cv rsoc held) = true /\
  (forall ui' soc' cv' sw' i', bat_eoc_protect i' = true ->
     bat_eoc_protect (eoc_leave ui' soc' cv' sw' rsoc i') = false ->
     soc' < rsoc \/ ui' < 100 \/ 0 < custom_charging_cv i' \/ sw' < cv').
Proof.
  intros Hs Hx He. cbv zeta. unfold eoc_enter in He. bool_prop. subst. split.
  - unfold eoc_leave, eoc_recharge_soc, RECHARGE_SOC_DIFF_FOR_LOW_SOC.
    rewrite u32_id by (unfold is_u32; lia).
    destruct (soc_exit_eoc i <=? soc) eqn:E1; bool_prop; rewrite s32_id by (unfold is_s32; lia);
      cbn; (replace (soc <? _) with false by (symmetry; apply Z.ltb_ge; lia)); cbn;
      replace (custom_charging_cv i) with (-1) by done; by rewrite Z.ltb_irrefl.
  - intros ui' soc' cv' sw' i' Hp. unfold eoc_leave. cbv zeta.
    destruct (soc' <? _) eqn:E1; bool_prop; [auto|].
    destruct (ui' <? 100) eqn:E2; bool_prop; [auto|]. cbn.
    destruct (0 <? custom_charging_cv i') eqn:E3; bool_prop; [auto|].
    destruct (sw' <? cv') eqn:E4; bool_prop; [auto|]. cbn. congruence.
Qed.

Lemma eoc_hold_stable_witness :
  bat_eoc_protect (eoc_leave 100 98 4400000 4400000 (eoc_recharge_soc 98 info0)
    (info0 <| bat_eoc_protect := true |>)) = true.
Proof.
  refine (proj1 (eoc_hold_stable info0 100 98 4400000 4400000 true _ _ _));
    try reflexivity; split; discriminate.
Defined.

(** ** Theorems on plugging, start-up and the timer *)

Section ThreadTheorems.
  Context {E : Type} `{!Platform E}.

(** The cable state: what [mtk_is_charger_on] maintains. *)
Definition cable (i : mtk_charger) :=
  (chr_type i, charger_thread_polling i, cable_out_cnt i, input_current_limit (chg_data1 i),
   input_current_limit_by_aicl (chg_data1 i), can_charging i).

Lemma keeps_cable_get_charger_type : keeps (fun w : world E => cable (info w)) get_charger_type.
Proof. unfold get_charger_type, get_chg_psy, read_prop. solve_keeps. Qed.

(** Plugging in or out is its field assignments followed by calls. *)
Lemma info_plug_out (w : world E) : info (exec mtk_charger_plug_out w) = plug_out_fields (info w).
Proof.
  apply (wp_exec mtk_charger_plug_out (fun w' => info w' = _)).
  unfold mtk_charger_plug_out, notify_algs, with_chg1. wp_step. wp_step.
  apply (wp_keeps (fun w => info w)); [solve_keeps; apply (keeps_call (fun i => i))|].
  by intros.
Qed.

Lemma info_plug_in type (w : world E) :
  info (exec (mtk_charger_plug_in type) w) = plug_in_fields type (info w).
Proof.
  apply (wp_exec (mtk_charger_plug_in type) (fun w' => info w' = _)).
  unfold mtk_charger_plug_in, notify_algs, battery_get_soc, with_chg1. wp_step. wp_step.
  apply (wp_keeps (fun w => info w)); [solve_keeps; apply (keeps_call (fun i => i))|].
  by intros.
Qed.

Lemma cable_plug_out i :
  cable (plug_out_fields i) =
  (POWER_SUPPLY_TYPE_UNKNOWN, false, cable_out_cnt i, 500000, -1, can_charging i).
Proof. reflexivity. Qed.

Lemma cable_plug_in type i :
  cable (plug_in_fields type i) =
  (type, true, cable_out_cnt i, (cable i).1.1.2, (cable i).1.2, true).
Proof. reflexivity. Qed.

Lemma wp_plug_out Q (w : world E) :
  (forall w', cable (info w') =
     (POWER_SUPPLY_TYPE_UNKNOWN, false, cable_out_cnt (info w), 500000, -1, can_charging (info w)) ->
   Q 0 w') -> wp mtk_charger_plug_out Q w.
Proof.
  intros H. unfold wp. replace (eval mtk_charger_plug_out w) with 0
    by (unfold mtk_charger_plug_out; by rewrite !eval_bind).
  apply H. by rewrite info_plug_out.
Qed.

Lemma wp_plug_in type Q (w : world E) :
  (forall w', cable (info w') =
     (type, true, cable_out_cnt (info w), (cable (info w)).1.1.2, (cable (info w)).1.2, true) ->
   Q 0 w') -> wp (mtk_charger_plug_in type) Q w.
Proof.
  intros H. unfold wp. replace (eval (mtk_charger_plug_in type) w) with 0
    by (unfold mtk_charger_plug_in; by rewrite !eval_bind).
  apply H. by rewrite info_plug_in, cable_plug_in.
Qed.

(** What [mtk_is_charger_on] guarantees, on the cable state before and after. *)
Definition on_post (type : Z) (c : Z * bool * Z * Z * Z * bool) (r : bool)
    (c' : Z * bool * Z * Z * Z * bool) : Prop :=
  let '(t0, _, n0, _, _, _) := c in
  let '(t', p', n', l', a', can') := c' in
  r = negb (type =? POWER_SUPPLY_TYPE_UNKNOWN) /\ t' = type /\
  (t0 <> POWER_SUPPLY_TYPE_UNKNOWN -> type = POWER_SUPPLY_TYPE_UNKNOWN ->
   p' = false /\ n' = 0 /\ l' = 500000 /\ a' = -1) /\
  (type <> POWER_SUPPLY_TYPE_UNKNOWN ->
   n' <= 0 /\ (t0 = POWER_SUPPLY_TYPE_UNKNOWN \/ 0 < n0 -> p' = true /\ can' = true)).

(** [mtk_is_charger_on] returns whether a charger is attached and leaves
    [chr_type] equal to the type read, on every platform.  When the charger
    goes away the thread stops polling and the input limit is back at 500 mA
    without an AICL result; when one appears, charging is permitted and polled;
    a pending cable-out count is consumed by a plug-out and plug-in. *)
Theorem is_charger_on_tracks (w : world E) :
  let type := eval get_charger_type w in
  let i := info w in let i' := info (exec mtk_is_charger_on w) in
  eval mtk_is_charger_on w = negb (type =? POWER_SUPPLY_TYPE_UNKNOWN) /\
  chr_type i' = type /\
  (chr_type i <> POWER_SUPPLY_TYPE_UNKNOWN -> type = POWER_SUPPLY_TYPE_UNKNOWN ->
   charger_thread_polling i' = false /\ cable_out_cnt i' = 0 /\
   input_current_limit (chg_data1 i') = 500000 /\
   input_current_limit_by_aicl (chg_data1 i') = -1) /\
  (type <> POWER_SUPPLY_TYPE_UNKNOWN ->
   cable_out_cnt i' <= 0 /\
   (chr_type i = POWER_SUPPLY_TYPE_UNKNOWN \/ 0 < cable_out_cnt i ->
    charger_thread_polling i' = true /\ can_charging i' = true)).
Proof.
  cbv zeta. set (type := eval get_charger_type w).
  change (wp mtk_is_charger_on (fun r w' => on_post type (cable (info w)) r (cable (info w'))) w).
  pose proof (keeps_cable_get_charger_type w) as Hc. cbn beta in Hc. unfold mtk_is_charger_on.
  wp_step. apply wp_run. fold type. rewrite <- Hc. generalize (exec get_charger_type w).
  clear Hc. intros w1. clearbody type. do 4 wp_step.
  - wp_step; cycle 1.
    { wp_step. unfold on_post. destruct (cable (info w1)) as [[[[[t0 p0] n0] l0] a0] c0] eqn:Ec.
      unfold cable in Ec. bool_prop. injection Ec as <- <- <- <- <- <-.
      split_and!; try congruence; intros; exfalso; congruence. }
    wp_step. apply wp_plug_out. intros w2 H2. do 2 wp_step.
    unfold cable in H2 |- *. injection H2 as ? ? ? ? ? ?. bool_prop. cbn.
    unfold on_post. split_and!; auto; try congruence; intros; exfalso; congruence.
  - wp_step. 
    apply (wp_mono _ (fun _ w2 => exists p c,
      cable (info w2) = (type, p, cable_out_cnt (info w1), (cable (info w1)).1.1.2,
                         (cable (info w1)).1.2, c) /\
      (chr_type (info w1) = POWER_SUPPLY_TYPE_UNKNOWN -> p = true /\ c = true))).
    { wp_step; [apply wp_ignore, wp_plug_in; intros w2 H2; eauto|].
      wp_step. bool_prop. do 2 eexists. split; [reflexivity|done]. }
    intros [] w2 (p & c & H2 & Hpc). bool_prop.
    assert (cable_out_cnt (info w2) = cable_out_cnt (info w1)) as Hn by (unfold cable in H2; congruence).
    do 3 wp_step.
    + wp_step. apply wp_plug_out. intros w3 H3. wp_step. apply wp_plug_in. intros w4 H4. do 2 wp_step.
      unfold cable in H4 |- *. injection H4 as ? ? ? ? ? ?. unfold on_post. cbn. split_and!; try congruence; intros; try congruence; split_and!; intros; congruence || lia || auto.
    + wp_step. bool_prop. rewrite H2. unfold on_post. cbn. split_and!; auto; try lia.
      intros _. split; [lia|]. intros [?|?]; [auto|lia].
Qed.

(** Once the primary charger is registered, and with a single charger
    configured, one pass of the start-up loop completes it, whatever the
    algorithms do: the thread is not stuck before its main loop.  The pass
    stores the charger's handle. *)
Theorem thread_init_completes (w : world E) h :
  config (info w) <> DUAL_CHARGERS_IN_SERIES ->
  (forall e, get_charger_by_name (charger_list e) (Some "primary_chg"%string) = Some h) ->
  let w' := exec thread_init_pass w in
  is_module_init_done (static w') = true /\ chg1_dev (info w') = Some h.
Proof.
  intros Hcfg Hl. cbv zeta.
  assert (forall k name, keeps (fun w : world E => config (info w)) (init_one_alg k name)) as Hk
    by (intros; unfold init_one_alg; solve_keeps).
  apply (wp_exec thread_init_pass (fun w' =>
    is_module_init_done (static w') = true /\ chg1_dev (info w') = Some h)).
  unfold thread_init_pass, charger_init_algo. wp_step.
  do 4 (wp_step; apply (wp_keeps _ _ _ _ (Hk _ _)); intros ? ? ?).
  wp_step. apply wp_call. intros c e Hc. unfold find_charger, gets in Hc. rewrite Hl in Hc.
  injection Hc as <- <-. do 5 wp_step. wp_step.
  - bool_prop. cbn in *. congruence.
  - do 3 wp_step; [done|]. wps; by cbn.
Qed.

Lemma timer_end now p : 0 <= now ->
  let sec := now / 1000000000 + p in let nsec := now mod 1000000000 in
  sec * 1000000000 + nsec = now + p * 1000000000 /\ 0 <= nsec < 1000000000.
Proof.
  intros H. cbv zeta. pose proof (Z.div_mod now 1000000000).
  pose proof (Z.mod_pos_bound now 1000000000). lia.
Qed.

(** Starting the timer, when the old alarm can be cancelled, stores as end
    time the boot time plus the polling interval, as a normalised second and
    nanosecond pair, and arms the alarm for exactly that time. *)
Theorem start_timer_exact (w : world E) :
  0 <= eval alarm_try_to_cancel (env w) ->
  let e1 := exec alarm_try_to_cancel (env w) in
  let now := eval ktime_get_boottime e1 in
  0 <= now ->
  let w' := exec mtk_charger_start_timer w in
  let i' := info w' in
  let deadline := now + polling_interval (info w) * 1000000000 in
  endtime_sec i' * 1000000000 + endtime_nsec i' = deadline /\
  0 <= endtime_nsec i' < 1000000000 /\
  env w' = exec (alarm_start deadline) (exec ktime_get_boottime e1).
Proof.
  intros Hc. cbv zeta. intros Hn. unfold mtk_charger_start_timer. run.
  destruct (eval alarm_try_to_cancel (env w) <? 0) eqn:E0; bool_prop; [lia|]. run.
  destruct (timer_end _ (polling_interval (info w)) Hn) as [A1 A2]. cbn.
  split_and!; [exact A1|apply A2|apply A2|]. by rewrite A1.
Qed.

End ThreadTheorems.

Lemma thread_init_completes_witness :
  chg1_dev (info (exec thread_init_pass world0)) = Some 0%nat.
Proof.
  refine (proj2 (thread_init_completes world0 0 _ _)); [discriminate|reflexivity].
Defined.

Lemma start_timer_exact_witness :
  let i' := info (exec mtk_charger_start_timer world0) in
  endtime_sec i' * 1000000000 + endtime_nsec i' = 1000000000.
Proof.
  refine (proj1 (start_timer_exact world0 _ _)); discriminate.
Defined.
