(* ===== verification/ChargerEntry.v ===== *)
(** * Entry points of the charging manager (drivers/power/supply/mtk_charger.c)

    What user space, the power-supply core, the adapter driver and the driver
    core call: the sysfs and procfs files, the "mtk-master-charger" supply,
    notifications, probe and shutdown.  A file's input is what the parser it
    uses makes of the buffer: [None] is a buffer the parser rejects. *)

From Stdlib Require Import String.
From S2P Require Import Prelude ChargerClass AlgClass ChargerTypes ChargerDt Platform Board.
From S2P Require Import ChargerIntf Jeita BasicCharger MtkCharger ChargerThread.
#[local] Open Scope Z_scope.

Definition CHRLOG_DEBUG_LEVEL : Z := 3.

(** The supply a property access goes to: [info->psy1], [info->psy2] or one
    that is neither. *)
Inductive psy_side : Type := PsyMaster | PsySlave | PsyOther.

Inductive chg_prop : Type :=
  PROP_ONLINE | PROP_PRESENT | PROP_VOLTAGE_MAX | PROP_VOLTAGE_NOW | PROP_TEMP
| PROP_CONSTANT_CHARGE_CURRENT_MAX | PROP_INPUT_CURRENT_LIMIT | PROP_USB_TYPE
| PROP_VOLTAGE_BOOT | PROP_EOC_PROTECT | PROP_OTHER.

#[global] Instance chg_prop_eq_dec : EqDecision chg_prop.
Proof. solve_decision. Defined.

Definition psy_charger_property_is_writeable (psp : chg_prop) : Z :=
  match psp with
  | PROP_VOLTAGE_MAX | PROP_CONSTANT_CHARGE_CURRENT_MAX | PROP_INPUT_CURRENT_LIMIT => 1
  | _ => 0
  end.

(** The value of "androidboot.atm=" on the command line decides ATM mode.
    [None] is a value of 64 characters or more, which overruns [atm_str]. *)
Definition atm_keyword : string := "androidboot.atm="%string.

Definition mtk_charger_get_atm_mode (cmdline : string) : option bool :=
  match String.index 0 atm_keyword cmdline with
  | None => Some false
  | Some n =>
      let ptr := String.substring n (String.length cmdline - n) cmdline in
      match String.index 0 " " ptr with
      | None => Some false
      | Some e =>
          if (e <=? String.length atm_keyword)%nat then Some false
          else
            let size := (e - String.length atm_keyword)%nat in
            if (64 <=? size)%nat then None
            else
              let atm_str := String.substring (String.length atm_keyword) size ptr in
              Some (String.prefix "enable" atm_str)
      end
  end.

(** ** Files that only touch [*info] *)

Definition sw_jeita_store (buf : option Z) (i : mtk_charger) : mtk_charger :=
  match buf with Some temp => i <| enable_sw_jeita := negb (temp =? 0) |> | None => i end.

Definition chr_type_store (buf : option Z) (i : mtk_charger) : mtk_charger :=
  match buf with Some temp => i <| chr_type := temp |> | None => i end.

Definition input_current_store (buf : option Z) (i : mtk_charger) : mtk_charger :=
  match buf with
  | Some temp => i <| chg_data1 ::= fun p =>
      p <| thermal_input_current_limit := if temp <? 0 then 0 else temp |> |>
  | None => i
  end.

Definition charger_log_level_store (buf : option Z) (i : mtk_charger) : mtk_charger :=
  match buf with
  | Some temp => i <| log_level := if temp <? 0 then 0 else temp |>
  | None => i
  end.

Definition bat_eoc_protect_reset_time_write (buf : option Z) (i : mtk_charger) : mtk_charger :=
  match buf with Some t => i <| bat_eoc_protect_reset_time := t |> | None => i end.

(** The text of [bcm_flag_show]; the page the core passes is empty. *)
Definition newline : string := String.String (Ascii.ascii_of_nat 10) EmptyString.
Definition bcm_flag_show (i : mtk_charger) : string :=
  String.append
    (if negb (Z.land (bcm_flag i) BCM_FLAG_CHARGE_TIMER =? 0)
     then String.append "charge_timer" newline else EmptyString)
    (if bcm_flag i =? BCM_FLAG_NONE then String.append "0" newline else EmptyString).

(** The initial values probe gives the two entries of [chg_data]. *)
Definition probe_chg_data (p : charger_data) : charger_data :=
  p <| thermal_charging_current_limit := -1 |> <| thermal_input_current_limit := -1 |>
    <| thermal_input_power_limit := -1 |> <| input_current_limit_by_aicl := -1 |>
    <| force_charging_current := -1 |> <| force_input_current_limit := -1 |>
    <| input_current_limit := 500000 |>.

(** Lines 3305-3320; the disconnection time starts so far in the past that the
    first plug-in counts as a long disconnection. *)
Definition probe_fields (i : mtk_charger) : mtk_charger :=
  i <| chg_data1 ::= probe_chg_data |> <| chg_data2 ::= probe_chg_data |>
    <| enable_hv_charging := true |>
    <| disconnect_time := s64 (0 - u64 (u64 (bat_eoc_protect_reset_time i * 1000) * 1000000)) |>
    <| custom_charging_cv := -1 |> <| top_off_mode_enable := 0 |>.

Section Entry.
  Context {E : Type} `{!Platform E}.

Definition BatteryNotify_store (buf : option Z) : M (world E) unit :=
  match buf with
  | Some reg => modi (fun i => i <| notify_code := u32 reg |>) ;;; mtk_chgstat_notify
  | None => ret tt
  end.

Definition bcm_flag_store (buf : string) : M (world E) unit :=
  if String.prefix "charge_timer" buf then
    modi (fun i => i <| bcm_flag ::= fun f => Z.lor f BCM_FLAG_CHARGE_TIMER |>) ;;;
    call (bat_metrics (MetricBcmFlag BCM_FLAG_CHARGE_TIMER))
  else if String.prefix "0" buf then
    modi (fun i => i <| bcm_flag := BCM_FLAG_NONE |>) ;;;
    call (bat_metrics (MetricBcmFlag BCM_FLAG_NONE))
  else ret tt.

Definition Pump_Express_show : M (world E) bool :=
  let! algs := geti alg in any_alg_running algs.

(** [vbus_show] and [ibus_show]: the value printed, with the lookup of the
    primary charger they store. *)
Definition ensure_chg1 : M (world E) (option nat) :=
  let! h := geti chg1_dev in
  match h with
  | Some _ => ret h
  | None =>
      let! h' := call (find_charger "primary_chg"%string) in
      modi (fun i => i <| chg1_dev := h' |>) ;;; ret h'
  end.

Definition vbus_show : M (world E) Z :=
  let! h := ensure_chg1 in
  match h with
  | None => ret (-1)
  | Some _ =>
      let! r := call (charger_dev_get_vbus (chg h) 0) in
      ret (if fst r <? 0 then -1 else s32 (snd r))
  end.

Definition ibus_show : M (world E) Z :=
  let! h := ensure_chg1 in
  match h with
  | None => ret (-1)
  | Some _ =>
      let! r := call (charger_dev_get_ibus (chg h) 0) in
      ret (if fst r <? 0 then -1 else s32 (snd r))
  end.

(** The frame of the procfs writes: an empty buffer and one that cannot be
    copied are refused; otherwise the count is returned whatever the parser
    made of the text. *)
Definition proc_write {A} (count : Z) (copied : bool) (parsed : option A)
    (apply : option A -> M (world E) unit) : M (world E) Z :=
  if count <=? 0 then ret (- EINVAL)
  else if negb copied then ret (- EFAULT)
  else apply parsed ;;; ret count.

(** [current_cmd]: two numbers, or nothing if [sscanf] reads fewer. *)
Definition mtk_chg_current_cmd_write (cmd : option (Z * Z)) : M (world E) unit :=
  match cmd with
  | None => ret tt
  | Some (unlimited, discharging) =>
      modi (fun i => i <| usb_unlimited := z2b unlimited |>) ;;;
      if discharging =? 1 then
        modi (fun i => i <| cmd_discharging := true |>) ;;;
        with_chg1 (fun d => charger_dev_enable d false) ;;;
        ignore (with_chg1 (fun d => charger_dev_do_event d EVENT_DISCHARGE 0))
      else if discharging =? 0 then
        modi (fun i => i <| cmd_discharging := false |>) ;;;
        with_chg1 (fun d => charger_dev_enable d true) ;;;
        ignore (with_chg1 (fun d => charger_dev_do_event d EVENT_RECHARGE 0))
      else ret tt
  end.

Definition mtk_chg_en_power_path_write (buf : option Z) : M (world E) unit :=
  match buf with
  | Some enable => ignore (with_chg1 (fun d => charger_dev_enable_powerpath d (z2b enable)))
  | None => ret tt
  end.

Definition mtk_chg_en_power_path_show : M (world E) bool :=
  let! r := with_chg1 (fun d => charger_dev_is_powerpath_enabled d true) in ret (snd r).

Definition mtk_chg_en_safety_timer_write (buf : option Z) : M (world E) unit :=
  match buf with
  | Some enable =>
      with_chg1 (fun d => charger_dev_enable_safety_timer d (z2b enable)) ;;;
      modi (fun i => if sw_safety_timer_setting i
                     then i <| enable_sw_safety_timer := z2b enable |> else i)
  | None => ret tt
  end.

Definition mtk_chg_en_safety_timer_show : M (world E) bool :=
  let! r := with_chg1 (fun d => charger_dev_is_safety_timer_enabled d false) in ret (snd r).

Definition store_top_off_mode (buf : option Z) : M (world E) unit :=
  modi (fun i => match buf with Some v => i <| top_off_mode_enable := v |> | None => i end) ;;;
  _wake_up_charger.

(** The master and slave supplies; the result is the code and the contents of
    [val->intval], [old] before the call. *)
Definition psy_charger_get_property (side : psy_side) (psp : chg_prop) (old : Z)
    : M (world E) (Z * Z) :=
  let! i := geti (fun i => i) in
  match side with
  | PsyOther => ret (0, old)
  | _ =>
      let chgh := match side with PsySlave => chg2_dev i | _ => chg1_dev i end in
      match psp with
      | PROP_ONLINE => let! b := is_charger_exist in ret (0, b2z b)
      | PROP_PRESENT => ret (0, match chgh with Some _ => 1 | None => 0 end)
      | PROP_VOLTAGE_MAX => ret (0, b2z (enable_hv_charging i))
      | PROP_VOLTAGE_NOW => let! v := get_vbus in ret (0, v)
      | PROP_TEMP =>
          ret (0, if bool_decide (chgh = chg1_dev i)
                  then s32 (junction_temp_max (chg_data1 i) * 10)
                  else if bool_decide (chgh = chg2_dev i)
                  then s32 (junction_temp_max (chg_data2 i) * 10)
                  else -127)
      | PROP_CONSTANT_CHARGE_CURRENT_MAX =>
          let! v := get_charger_charging_current chgh in ret (0, v)
      | PROP_INPUT_CURRENT_LIMIT => let! v := get_charger_input_current chgh in ret (0, v)
      | PROP_USB_TYPE => ret (0, chr_type i)
      | PROP_VOLTAGE_BOOT => let! v := get_charger_zcv chgh in ret (0, v)
      | PROP_EOC_PROTECT =>
          ret (0, if enable_bat_eoc_protect i
                  then b2z (bat_eoc_protect i || dpm_disable_charging i) else 0)
      | PROP_OTHER => ret (- EINVAL, old)
      end
  end.

(** The assignment of a writable property. *)
Definition set_property_fields (side : psy_side) (psp : chg_prop) (v : Z)
    : option (mtk_charger -> mtk_charger) :=
  let at_idx f (i : mtk_charger) := match side with
              | PsySlave => i <| chg_data2 ::= f |>
              | _ => i <| chg_data1 ::= f |>
              end in
  match psp with
  | PROP_VOLTAGE_MAX => Some (fun i => i <| enable_hv_charging := 0 <? v |>)
  | PROP_CONSTANT_CHARGE_CURRENT_MAX =>
      Some (at_idx (fun p => p <| thermal_charging_current_limit := v |>))
  | PROP_INPUT_CURRENT_LIMIT =>
      Some (at_idx (fun p => p <| thermal_input_current_limit := v |>))
  | _ => None
  end.

Definition psy_charger_set_property (side : psy_side) (psp : chg_prop) (v : Z)
    : M (world E) Z :=
  match side with
  | PsyOther => ret 0
  | _ =>
      match set_property_fields side psp v with
      | None => ret (- EINVAL)
      | Some f => modi f ;;; _wake_up_charger ;;; ret 0
      end
  end.

(** Without a charger supply the tested [prop.intval] was never written. *)
Definition mtk_charger_external_power_changed : M (world E) unit :=
  let! p := geti chg_psy in
  let! junk := call uninit in
  let! online :=
    match p with
    | None =>
        let! p' := call (power_supply_get_by_phandle "charger"%string) in
        modi (fun i => i <| chg_psy := p' |>) ;;; ret (s32 junk)
    | Some h =>
        let! r := call (power_supply_get_property h PSP_ONLINE junk) in
        let! junk2 := call uninit in
        call (power_supply_get_property h PSP_USB_TYPE junk2) ;;;
        ret (s32 (snd r))
    end in
  get_vbus ;;;
  bat_eoc_protect_handle_plug_state (negb (online =? 0)) ;;;
  _wake_up_charger.

(** [wd] is the flag [val] points to. *)
Definition notify_adapter_event (evt : Z) (wd : bool) : M (world E) unit :=
  let set t := modi (fun i => i <| pd_type := t |>) in
  if evt =? MTK_PD_CONNECT_NONE then set MTK_PD_CONNECT_NONE
  else if evt =? MTK_PD_CONNECT_HARD_RESET then
    set MTK_PD_CONNECT_NONE ;;; modi (fun i => i <| pd_reset := true |>) ;;; _wake_up_charger
  else if evt =? MTK_PD_CONNECT_PE_READY_SNK then set MTK_PD_CONNECT_PE_READY_SNK
  else if evt =? MTK_PD_CONNECT_PE_READY_SNK_PD30 then set MTK_PD_CONNECT_PE_READY_SNK_PD30
  else if evt =? MTK_PD_CONNECT_PE_READY_SNK_APDO then
    set MTK_PD_CONNECT_PE_READY_SNK_APDO ;;; _wake_up_charger
  else if evt =? MTK_PD_CONNECT_TYPEC_ONLY_SNK then
    set MTK_PD_CONNECT_TYPEC_ONLY_SNK ;;; _wake_up_charger
  else if evt =? MTK_TYPEC_WD_STATUS then
    modi (fun i => i <| water_detected := wd |>) ;;;
    modi (if wd then notify_set CHG_TYPEC_WD_STATUS else notify_clear CHG_TYPEC_WD_STATUS) ;;;
    mtk_chgstat_notify
  else ret tt.

(** [mtk_master_charger_get_temp]: the thermal zone's reading in millidegrees. *)
Definition mtk_master_charger_get_temp (data : option mtk_charger) (old : Z) : Z * Z :=
  match data with
  | None => (- EINVAL, old)
  | Some i => (0, s32 (junction_temp_max (chg_data1 i) * 1000))
  end.

Definition probe_adapter : M (world E) unit :=
  let! t := call (tcpc_dev_get_by_name "type_c_port0"%string) in
  modi (fun i => i <| tcpc := t |>) ;;;
  let! a := call (get_adapter_by_name "pd_adapter"%string) in
  modi (fun i => i <| pd_adapter := a |>) ;;;
  match a with
  | None => ret tt
  | Some h => ignore (call (register_adapter_device_notifier h))
  end.

(** [alloc] is whether the allocation succeeds, [switch_ret] the result of
    [switch_dev_register], [atm] the parsed command line.  The registration of
    files, supplies and the thermal zone changes no field of [*info] that is
    modelled. *)
Definition mtk_charger_probe (np : device_node) (alloc : bool) (switch_ret : Z) (atm : bool)
    : M (world E) Z :=
  if negb alloc then ret (- ENOMEM)
  else
    modi (fun _ => mtk_charger_parse_dt np zero_mtk_charger) ;;;
    modi (fun i => i <| polling_interval := CHARGING_INTERVAL |> <| bcm_flag := BCM_FLAG_NONE |>) ;;;
    mtk_charger_start_timer ;;;
    modi (fun i => i <| invalid_charger := 0 |>) ;;;
    if negb (switch_ret =? 0) then ret switch_ret
    else
      modi (fun i => probe_fields (i <| atm_enabled := atm |>)) ;;;
      let! c := call (power_supply_get_by_phandle "charger"%string) in
      modi (fun i => i <| chg_psy := c |>) ;;;
      let! b := call (power_supply_get_by_phandle "gauge"%string) in
      modi (fun i => i <| bat_psy := b |>) ;;;
      modi (fun i => i <| log_level := CHRLOG_DEBUG_LEVEL |>) ;;;
      probe_adapter ;;;
      modi (fun i => i <| init_done := true |>
                       <| sw_jeita ::= fun s => s <| jeita_sm := TEMP_T2_TO_T3 |> |>) ;;;
      ret 0.

Definition mtk_charger_shutdown : M (world E) unit :=
  let! algs := geti alg in
  for_each algs (fun a =>
    match a with
    | None => ret tt
    | Some h => ignore (call (chg_alg_stop_algo (algd (Some h))))
    end).

End Entry.

(** ** Theorems *)

Section EntryTheorems.
  Context {E : Type} `{!Platform E}.

(** Writing a property of the master or slave supply succeeds exactly for
    the properties declared writable; a refused write changes nothing, and a
    successful one wakes the charger thread with the limit stored in the entry
    of that charger. *)
Theorem set_property_exact (w : world E) side psp v :
  side <> PsyOther ->
  let r := eval (psy_charger_set_property side psp v) w in
  let w' := exec (psy_charger_set_property side psp v) w in
  let p' := match side with PsySlave => chg_data2 (info w') | _ => chg_data1 (info w') end in
  r = (if psy_charger_property_is_writeable psp =? 1 then 0 else - EINVAL) /\
  (psy_charger_property_is_writeable psp <> 1 -> w' = w) /\
  (psy_charger_property_is_writeable psp = 1 -> charger_thread_timeout (info w') = true) /\
  (psp = PROP_CONSTANT_CHARGE_CURRENT_MAX -> thermal_charging_current_limit p' = v) /\
  (psp = PROP_INPUT_CURRENT_LIMIT -> thermal_input_current_limit p' = v) /\
  (psp = PROP_VOLTAGE_MAX -> enable_hv_charging (info w') = (0 <? v)).
Proof.
  intros Hs. cbv zeta.
  unfold psy_charger_set_property, _wake_up_charger.
  destruct side, psp; try done; cbn [set_property_fields psy_charger_property_is_writeable];
    run; cbn; split_and!; intros; try done; try congruence; by case_match.
Qed.

(** The disconnection time that probe sets makes the first plug-in after
    boot count as a long absence: it clears the end-of-charge and DPM holds
    whatever the configured reset time. *)
Theorem probe_first_plug_in i now :
  0 <= bat_eoc_protect_reset_time i < 2 ^ 32 -> 0 <= now < 2 ^ 62 ->
  let i' := eoc_plug_in now (probe_fields i) in
  bat_eoc_protect i' = false /\ dpm_disable_charging i' = false.
Proof.
  intros Hr Hn. cbv zeta. set (r := bat_eoc_protect_reset_time i) in *.
  assert (disconnect_time (probe_fields i) = - (r * 1000000000)) as Ht.
  { cbn -[u64 s64]. fold r. unfold u64, wrapu, s64.
    rewrite (Z.mod_small (r * 1000)), (Z.mod_small (r * 1000 * 1000000)) by lia.
    rewrite Z.mod_small by lia. lia. }
  unfold eoc_plug_in. rewrite Ht.
  change (bat_eoc_protect_reset_time ((probe_fields i) <| disconnect_duration := _ |>)) with r.
  replace (r <=? s64 (now - - (r * 1000000000)) ÷c 1000000 ÷c 1000) with true; cycle 1.
  { symmetry. apply Z.leb_le. unfold s64. rewrite Z.mod_small by lia.
    rewrite !Z.quot_div_nonneg by (try apply Z.quot_pos; lia). rewrite Z.div_div by lia.
    apply Z.div_le_lower_bound; lia. }
  cbn. destruct (bat_eoc_protect i) eqn:Eb, (dpm_disable_charging i) eqn:Ed; cbn;
    rewrite ?Eb, ?Ed; auto.
Qed.

End EntryTheorems.

Lemma set_property_exact_witness :
  eval (psy_charger_set_property PsyMaster PROP_INPUT_CURRENT_LIMIT 700000) world0 = 0.
Proof.
  refine (proj1 (set_property_exact world0 PsyMaster PROP_INPUT_CURRENT_LIMIT 700000 _)).
  discriminate.
Defined.

Lemma probe_first_plug_in_witness :
  bat_eoc_protect (eoc_plug_in 5000000000
    (probe_fields (default_charger <| bat_eoc_protect := true |>))) = false.
Proof.
  refine (proj1 (probe_first_plug_in (default_charger <| bat_eoc_protect := true |>) 5000000000 _ _));
    (split; [discriminate|reflexivity]).
Defined.
