(* ===== verification/ChargerSpec.v ===== *)
(** * What the manager needs of a charger, and what it guarantees with it

    [ChipLaws on h] is the contract between the charging manager and the
    platform, in two parts, for the charger drivers and for the rest: [on] observes whether the chip behind handle [h] charges; the
    chip obeys an "off" command, and of everything else the manager calls only
    "on" and the start of an algorithm may switch it on.  From it follows the
    manager's guarantee [Safe]: whenever it has withdrawn the permission to
    charge, the chip is off. *)

From S2P Require Import Prelude ChargerClass AlgClass ChargerTypes ChargerDt Platform Board.
From S2P Require Import ChargerIntf Jeita BasicCharger PulseCharger MtkCharger ChargerThread ChargerEntry.
#[local] Open Scope Z_scope.

(** A call that does not switch the chip on. *)
Definition quiet {E A} (on : E -> bool) (m : M E A) : Prop :=
  forall e, on e = false -> on (exec m e) = false.

(** The fields of [*info] the guarantee is about. *)
Definition core (i : mtk_charger) := (chg1_dev i, algo i, can_charging i).

(** What is asked of the chargers; [h0] is the primary one. *)
Class ChargerLaws {E} `{!Platform E} (on : E -> bool) (h0 : nat) : Prop := {
  law_off : forall e, on (exec (charger_dev_enable (chg (Some h0)) false) e) = false;
  (** The charger's other operations, for any charger. *)
  q_plug_out : forall h, quiet on (charger_dev_plug_out (chg h));
  q_do_event : forall h ev a, quiet on (charger_dev_do_event (chg h) ev a);
  q_set_cv : forall h v, quiet on (charger_dev_set_constant_voltage (chg h) v);
  q_get_cv : forall h v, quiet on (charger_dev_get_constant_voltage (chg h) v);
  q_set_mivr : forall h v, quiet on (charger_dev_set_mivr (chg h) v);
  q_set_input : forall h v, quiet on (charger_dev_set_input_current (chg h) v);
  q_get_input : forall h v, quiet on (charger_dev_get_input_current (chg h) v);
  q_get_charging : forall h v, quiet on (charger_dev_get_charging_current (chg h) v);
  q_ir_comp : forall h en, quiet on (charger_dev_enable_ir_comp (chg h) en);
  q_vbus : forall h v, quiet on (charger_dev_get_vbus (chg h) v);
  q_ibus : forall h v, quiet on (charger_dev_get_ibus (chg h) v);
  q_temperature : forall h a b, quiet on (charger_dev_get_temperature (chg h) a b);
  q_is_enabled : forall h b, quiet on (charger_dev_is_enabled (chg h) b);
  q_done : forall h b, quiet on (charger_dev_is_charging_done (chg h) b);
  q_indpm : forall h a b, quiet on (charger_dev_get_indpm_state (chg h) a b);
  q_powerpath : forall h b, quiet on (charger_dev_enable_powerpath (chg h) b);
  q_safety_timer : forall h b, quiet on (charger_dev_enable_safety_timer (chg h) b);
  q_wpc_online : forall h b, quiet on (wireless_charger_dev_get_online (chg h) b);
  q_wpc : forall h i, quiet on (wireless_charger_dev_do_algorithm (chg h) i);
  law_wpc : forall h i e, core (eval (wireless_charger_dev_do_algorithm (chg h) i) e).2 = core i
}.

(** What is asked of everybody else. *)
Class KernelLaws {E} `{!Platform E} (on : E -> bool) : Prop := {
  (** The algorithms, except their start. *)
  q_alg_ready : forall h, quiet on (chg_alg_is_algo_ready (algd h));
  q_alg_notify : forall h n, quiet on (chg_alg_notifier_call (algd h) n);
  q_alg_stop : forall h, quiet on (chg_alg_stop_algo (algd h));
  (** The rest of the kernel. *)
  q_phandle : forall s, quiet on (power_supply_get_by_phandle s);
  q_psy_name : forall s, quiet on (power_supply_get_by_name s);
  q_psy_get : forall h p v, quiet on (power_supply_get_property h p v);
  q_psy_set : forall h p v, quiet on (power_supply_set_property h p v);
  q_drvdata : forall h, quiet on (power_supply_get_drvdata h);
  q_gauge_soc : forall h, quiet on (gauge_soc h);
  q_gauge_zcv : forall h, quiet on (gauge_use_aging_zcv h);
  q_battery_id : quiet on get_battery_id_status;
  q_time : quiet on ktime_get_boottime;
  q_alarm_cancel : quiet on alarm_try_to_cancel;
  q_alarm_start : forall t, quiet on (alarm_start t);
  q_wake : quiet on wake_up_interruptible;
  q_uevent : quiet on kobject_uevent;
  q_metrics : forall m, quiet on (bat_metrics m);
  q_power_off : quiet on kernel_power_off;
  q_uninit : quiet on uninit
}.

Class ChipLaws {E} `{!Platform E} (on : E -> bool) (h0 : nat) : Prop := {
  chip_charger :: ChargerLaws on h0;
  chip_kernel :: KernelLaws on
}.

#[export] Hint Resolve q_plug_out q_do_event q_set_cv q_get_cv q_set_mivr q_set_input q_get_input
  q_get_charging q_ir_comp q_vbus q_ibus q_temperature q_is_enabled q_done q_indpm q_powerpath
  q_safety_timer q_wpc_online q_wpc q_alg_ready q_alg_notify q_alg_stop q_phandle q_psy_name
  q_psy_get q_psy_set q_drvdata q_gauge_soc q_gauge_zcv q_battery_id q_time q_alarm_cancel
  q_alarm_start q_wake q_uevent q_metrics q_power_off q_uninit chip_charger chip_kernel : kern.

(** What the charging algorithms ask of the chargers besides: of the calls that
    only they make none switches the chip on.  The manager itself makes them only
    while it permits charging, and needs no such law. *)
Class AlgLaws {E} `{!Platform E} (on : E -> bool) : Prop := {
  q_disable : forall h, quiet on (charger_dev_enable (chg h) false);
  q_set_charging : forall h v, quiet on (charger_dev_set_charging_current (chg h) v);
  q_min_charging : forall h v, quiet on (charger_dev_get_min_charging_current (chg h) v);
  q_min_input : forall h v, quiet on (charger_dev_get_min_input_current (chg h) v);
  q_get_mivr : forall h v, quiet on (charger_dev_get_mivr (chg h) v);
  q_aicl : forall h v, quiet on (charger_dev_run_aicl (chg h) v);
  q_kick_wdt : forall h, quiet on (charger_dev_kick_wdt (chg h));
  q_dump : forall h, quiet on (charger_dev_dump_registers (chg h));
  q_chip_enabled : forall h b, quiet on (charger_dev_is_chip_enabled (chg h) b);
  q_disable_chip : forall h, quiet on (charger_dev_enable_chip (chg h) false);
  q_eoc : forall h v, quiet on (charger_dev_set_eoc_current (chg h) v);
  q_termination : forall h b, quiet on (charger_dev_enable_termination (chg h) b)
}.

#[export] Hint Resolve q_disable q_set_charging q_min_charging q_min_input q_get_mivr q_aicl q_kick_wdt q_dump
  q_chip_enabled q_disable_chip q_eoc q_termination : kern.

Section Safe.
  Context {E : Type} `{!Platform E} (on : E -> bool) (h0 : nat) `{!ChipLaws on h0}.

(** The chip is off whenever the permission satisfies [G]. *)
Definition Guard (G : bool -> Prop) (w : world E) : Prop :=
  chg1_dev (info w) = Some h0 /\ algo (info w) <> AlgoNone /\
  (G (can_charging (info w)) -> on (env w) = false).

(** The guarantee: no permission, no charging. *)
Definition Safe : world E -> Prop := Guard (fun c => c = false).

(** The chip is off, permission or not. *)
Definition Off : world E -> Prop := Guard (fun _ => True).

Context (G : bool -> Prop).

Lemma quiet_find_charger s : quiet on (find_charger s).
Proof. by intros e. Qed.

Lemma Guard_call {A} (m : M E A) : quiet on m -> preserves (Guard G) (call m).
Proof.
  intros Hq w (H1 & H2 & H3). unfold Guard. rewrite info_exec_call, env_exec_call. eauto.
Qed.

Lemma Guard_with_chg1 {A} (f : option (charger_device E mtk_charger) -> M E A) :
  (forall h, quiet on (f (chg h))) -> preserves (Guard G) (with_chg1 f).
Proof. intros Hq. apply preserves_bind; [apply preserves_gets|]. intros h. by apply Guard_call. Qed.

Lemma Guard_modi f : (forall i, core (f i) = core i) -> preserves (Guard G) (modi f).
Proof.
  intros Hf w (H1 & H2 & H3). specialize (Hf (info w)). unfold core in Hf.
  unfold Guard. rewrite info_modi, env_modi. repeat split; try congruence.
  intros H. apply H3. by replace (can_charging (info w)) with (can_charging (f (info w))) by congruence.
Qed.

Lemma Guard_modst f : preserves (Guard G) (modst f).
Proof. by intros w. Qed.

End Safe.

#[export] Hint Resolve quiet_find_charger Guard_call Guard_with_chg1 Guard_modst : kern.

(** Follow the structure of the code, as [solve_keeps] does. *)
Ltac solve_guard :=
  repeat match goal with
    | |- forall _, _ => intro
    | |- preserves _ (bind _ _) => apply preserves_bind
    | |- preserves _ (ret _) => apply preserves_ret
    | |- preserves _ (gets _) => apply preserves_gets
    | |- preserves _ (geti _) => apply preserves_gets
    | |- preserves _ (getst _) => apply preserves_gets
    | |- preserves _ (ignore _) => apply preserves_ignore
    | |- preserves _ (when _ _) => apply preserves_when
    | |- preserves _ (for_each _ _) => apply preserves_for_each
    | |- preserves _ (modst _) => apply Guard_modst
    | |- preserves _ (modi _) => apply Guard_modi; intros; try reflexivity
    | |- preserves _ (with_chg1 _) => apply Guard_with_chg1; intros; solve [eauto with kern nocore]
    | |- preserves _ (call _) => apply Guard_call; solve [eauto with kern nocore]
    | |- preserves _ (if ?b then _ else _) => destruct b
    | |- preserves _ (match ?x with _ => _ end) => destruct x
    | |- preserves _ _ => solve [eauto with kern nocore]
    end.

Section SafeCode.
  Context {E : Type} `{!Platform E} (on : E -> bool) (h0 : nat) `{!ChipLaws on h0}.

Section AnyGuard.
  Context (G : bool -> Prop).
Abbreviation Inv := (Guard on h0 G).

Lemma Guard_get_bat_psy : preserves Inv get_bat_psy.
Proof. unfold get_bat_psy. solve_guard. Qed.
Lemma Guard_get_chg_psy : preserves Inv get_chg_psy.
Proof. unfold get_chg_psy. solve_guard. Qed.
Lemma Guard_read_prop h p : preserves Inv (read_prop h p).
Proof. unfold read_prop. solve_guard. Qed.
Lemma Guard_get_vbus : preserves Inv get_vbus.
Proof. unfold get_vbus, get_pmic_vbus. solve_guard. Qed.
Lemma Guard_get_ibus : preserves Inv get_ibus.
Proof. unfold get_ibus. solve_guard. Qed.
Lemma Guard_get_use_aging_zcv : preserves Inv get_use_aging_zcv.
Proof. unfold get_use_aging_zcv. solve_guard. Qed.
Lemma Guard_wake : preserves Inv _wake_up_charger.
Proof. unfold _wake_up_charger. solve_guard. by case_match. Qed.
#[local] Hint Resolve Guard_get_bat_psy Guard_get_chg_psy Guard_read_prop Guard_get_vbus Guard_get_ibus
  Guard_get_use_aging_zcv Guard_wake : kern.


Lemma Guard_get_charger_type : preserves Inv get_charger_type.
Proof. unfold get_charger_type. solve_guard. Qed.
Lemma Guard_get_uisoc : preserves Inv get_uisoc.
Proof. unfold get_uisoc. solve_guard. Qed.
Lemma Guard_battery_get_soc : preserves Inv battery_get_soc.
Proof. unfold battery_get_soc. solve_guard. Qed.
Lemma Guard_get_battery_voltage : preserves Inv get_battery_voltage.
Proof. unfold get_battery_voltage. solve_guard. Qed.
Lemma Guard_get_battery_current : preserves Inv get_battery_current.
Proof. unfold get_battery_current. solve_guard. Qed.
Lemma Guard_get_battery_temperature : preserves Inv get_battery_temperature.
Proof. unfold get_battery_temperature. solve_guard. Qed.
Lemma Guard_is_battery_exist : preserves Inv is_battery_exist.
Proof. unfold is_battery_exist. solve_guard. Qed.
Lemma Guard_set_diff_full_cv v : preserves Inv (set_battery_difference_full_cv v).
Proof. unfold set_battery_difference_full_cv. solve_guard. Qed.
Lemma Guard_mtk_get_battery_cv : preserves Inv mtk_get_battery_cv.
Proof. unfold mtk_get_battery_cv. solve_guard. Qed.
#[local] Hint Resolve Guard_get_charger_type Guard_get_uisoc Guard_battery_get_soc
  Guard_get_battery_voltage Guard_get_battery_current Guard_get_battery_temperature
  Guard_is_battery_exist Guard_set_diff_full_cv Guard_mtk_get_battery_cv : kern.

Lemma Guard_select_cv : preserves Inv select_cv.
Proof. unfold select_cv. solve_guard. Qed.
Lemma Guard_do_sw_jeita : preserves Inv do_sw_jeita_state_machine.
Proof. unfold do_sw_jeita_state_machine. solve_guard. Qed.
Lemma Guard_notify_check : preserves Inv mtk_battery_notify_check.
Proof.
  unfold mtk_battery_notify_check, mtk_battery_notify_VCharger_check,
    mtk_battery_notify_VBatTemp_check, mtk_battery_notify_UI_test, mtk_chgstat_notify.
  solve_guard. cbv zeta. by case_tests.
Qed.
Lemma Guard_get_tchg : preserves Inv mtk_chg_get_tchg.
Proof. unfold mtk_chg_get_tchg. solve_guard. Qed.
Lemma Guard_check_vbus : preserves Inv mtk_chg_check_vbus.
Proof. unfold mtk_chg_check_vbus. solve_guard. Qed.
#[local] Hint Resolve Guard_select_cv Guard_do_sw_jeita Guard_notify_check Guard_get_tchg
  Guard_check_vbus : kern.

Lemma Guard_check_charging : preserves Inv check_charging.
Proof. unfold check_charging. solve_guard. Qed.
Lemma Guard_start_timer : preserves Inv mtk_charger_start_timer.
Proof. unfold mtk_charger_start_timer. solve_guard. Qed.
Lemma Guard_check_battery_exist : preserves Inv check_battery_exist.
Proof. unfold check_battery_exist. solve_guard. Qed.
Lemma Guard_any_alg_running l : preserves Inv (any_alg_running l).
Proof. induction l as [|[h|] l IH]; cbn [any_alg_running]; solve_guard. Qed.
#[local] Hint Resolve Guard_any_alg_running : kern.
Lemma Guard_check_dynamic_mivr : preserves Inv check_dynamic_mivr.
Proof. unfold check_dynamic_mivr. solve_guard. Qed.
Lemma Guard_top_off : preserves Inv charger_top_off_mode.
Proof. unfold charger_top_off_mode. solve_guard. Qed.
Lemma Guard_battery_protect : preserves Inv battery_protect_algo.
Proof.
  unfold battery_protect_algo. solve_guard.
  unfold eoc_leave. cbv zeta. by case_tests.
Qed.
Lemma Guard_full_track : preserves Inv battery_full_track.
Proof. unfold battery_full_track. solve_guard. Qed.
Lemma Guard_plug_state b : preserves Inv (bat_eoc_protect_handle_plug_state b).
Proof.
  unfold bat_eoc_protect_handle_plug_state. solve_guard. unfold eoc_plug_in. cbv zeta. by case_tests.
Qed.
Lemma Guard_notify_algs evt : preserves Inv (notify_algs evt).
Proof. unfold notify_algs. solve_guard. Qed.
#[local] Hint Resolve Guard_notify_algs : kern.
Lemma Guard_plug_out : preserves Inv mtk_charger_plug_out.
Proof. unfold mtk_charger_plug_out. solve_guard. Qed.

Lemma dpm_eoc_core r cv soc i :
  core (dpm_eoc_count r i).1 = core i /\ core (dpm_eoc_exit cv soc i) = core i.
Proof. unfold dpm_eoc_count, dpm_eoc_exit. cbv zeta. split; by case_tests. Qed.
Lemma Guard_check_dpm : preserves Inv check_dpm_eoc_state.
Proof.
  unfold check_dpm_eoc_state. solve_guard; [apply (dpm_eoc_core (mk_dpm_reading 0 0 0 0 false false 0 0 false false))|].
  by apply dpm_eoc_core.
Qed.
Lemma Guard_log_readings : preserves Inv log_readings.
Proof. unfold log_readings. solve_guard. Qed.

End AnyGuard.

#[local] Hint Resolve Guard_get_charger_type Guard_check_charging Guard_notify_check
  Guard_select_cv Guard_start_timer Guard_check_battery_exist Guard_check_dynamic_mivr
  Guard_top_off Guard_battery_protect Guard_full_track Guard_check_dpm Guard_log_readings
  Guard_get_battery_temperature Guard_plug_out Guard_notify_algs Guard_get_vbus
  Guard_battery_get_soc Guard_wake Guard_plug_state : kern.

(** What [enable_charging] of the basic algorithm leaves of [*info]. *)
Lemma keeps_enable_charging {T} (f : mtk_charger -> T) en :
  keeps (fun w : world E => f (info w)) (enable_charging en).
Proof. unfold enable_charging, with_chg1. solve_keeps. Qed.

Lemma enable_charging_off (w : world E) :
  chg1_dev (info w) = Some h0 -> on (env (exec (enable_charging false) w)) = false.
Proof.
  intros Hh. apply (wp_exec (enable_charging false) (fun w => on (env w) = false)).
  unfold enable_charging. cbn [negb]. cbv iota. do 4 wp_step.
  apply (wp_keeps (fun w => info w)).
  { solve_keeps. apply (keeps_call (fun i => i)). }
  intros [] w1 Hw1. unfold with_chg1. do 4 wp_step. rewrite Hw1, Hh in H.
  do 4 wp_step. wps. cbn. cbn in H0.
  match goal with
  | Ha : charger_dev_enable _ _ _ = (_, ?e1), Hb : charger_dev_do_event _ _ _ ?e1 = (_, ?e2)
    |- on ?e2 = false =>
      change e2 with ((a0, e2).2); rewrite <- Hb; apply q_do_event;
      change e1 with ((a, e1).2); rewrite <- Ha; apply law_off
  end.
Qed.

Abbreviation Safe := (Safe on h0).
Abbreviation Off := (Off on h0).

Lemma core_Safe (w w' : world E) :
  Safe w -> chg1_dev (info w') = chg1_dev (info w) -> algo (info w') = algo (info w) ->
  can_charging (info w') = true -> Safe w'.
Proof.
  intros (H1 & H2 & _) E1 E2 E3. split; [congruence|]. split; [congruence|]. by rewrite E3.
Qed.

Lemma Off_set_permission (w : world E) c :
  Off w -> Safe (w <| info ::= fun i => i <| can_charging := c |> |>).
Proof. intros (H1 & H2 & H3). split_and!; [done|done|]. intros _. by apply H3. Qed.

Lemma Safe_forbidden (w : world E) : Safe w -> can_charging (info w) = false -> Off w.
Proof. intros (H1 & H2 & H3) Hc. split_and!; auto. Qed.

(** The part of [charger_check_status] after the decision. *)
Definition apply_permission (charging : bool) : M (world E) unit :=
  let! can := geti can_charging in
  when (negb (eqb charging can)) (ignore (_mtk_enable_charging charging)) ;;;
  when (negb charging)
    (select_cv ;;;
     let! s := geti setting in
     ignore (with_chg1 (fun c => charger_dev_set_constant_voltage c (set_cv s)))) ;;;
  modi (fun i => i <| can_charging := charging |>).

(** The same for the pulse algorithm, and for the one that is selected. *)
Lemma keeps_do_charging {T} (f : mtk_charger -> T) en :
  keeps (fun w : world E => f (info w)) (mtk_linear_charging_do_charging en).
Proof. unfold mtk_linear_charging_do_charging, pchr_disable_all_charging, modpc, with_chg1. solve_keeps. Qed.

Lemma do_charging_off (w : world E) :
  chg1_dev (info w) = Some h0 -> on (env (exec (mtk_linear_charging_do_charging false) w)) = false.
Proof.
  intros Hh. apply (wp_exec (mtk_linear_charging_do_charging false) (fun w => on (env w) = false)).
  unfold mtk_linear_charging_do_charging, pchr_disable_all_charging, modpc, with_chg1. do 3 wp_step. wps. cbn.
  match goal with H : charger_dev_enable _ _ _ = (?a, ?e1) |- on ?e1 = false =>
    cbn in H; rewrite Hh in H; change e1 with ((a, e1).2); rewrite <- H; apply law_off end.
Qed.

Lemma keeps_mtk_enable en : keeps (fun w : world E => info w) (_mtk_enable_charging en).
Proof.
  intros w. unfold _mtk_enable_charging. rewrite exec_bind, exec_geti, eval_geti. destruct (algo (info w)); [done|..];
    [apply (keeps_enable_charging (fun i => i))|apply (keeps_do_charging (fun i => i))].
Qed.

Lemma mtk_enable_off (w : world E) :
  chg1_dev (info w) = Some h0 -> algo (info w) <> AlgoNone -> on (env (exec (_mtk_enable_charging false) w)) = false.
Proof.
  intros Hh Ha. unfold _mtk_enable_charging. rewrite exec_bind, exec_geti, eval_geti. destruct (algo (info w)); [done|..];
    [by apply enable_charging_off|by apply do_charging_off].
Qed.

Lemma apply_permission_true (w : world E) :
  Safe w -> wp (apply_permission true) (fun _ w' => Safe w' /\ can_charging (info w') = true) w.
Proof.
  intros Hs. unfold apply_permission. wp_step. wp_step. wp_step. wp_step.
  - wp_step. apply (wp_keeps (fun w => info w)); [apply keeps_mtk_enable|].
    intros z w1 Hw1. wp_step. wp_step; [done|]. wp_step. split; [|done].
    apply (core_Safe w); cbn; congruence.
  - wp_step. wp_step; [done|]. wp_step. split; [|done]. by apply (core_Safe w).
Qed.

Lemma apply_permission_false (w : world E) :
  Safe w -> wp (apply_permission false) (fun _ w' => Safe w' /\ can_charging (info w') = false /\
    on (env w') = false) w.
Proof.
  intros Hs. unfold apply_permission. wp_step. wp_step. wp_step.
  enough (wp (when (negb (eqb false (can_charging (info w))))
            (ignore (_mtk_enable_charging false))) (fun _ => Off) w) as Hoff.
  { eapply wp_mono; [exact Hoff|]. intros [] w1 H1. wp_step. wp_step; [|done].
    do 1 wp_step. apply (wp_mono _ (fun _ => Off)); [by apply Guard_select_cv|].
    intros [] w2 H2. do 3 wp_step. 
    apply (wp_mono _ (fun _ => Off));
      [by apply (Guard_with_chg1 on h0 (fun _ => True)); [intros; apply q_set_cv|]|].
    intros _ w3 H3. wp_step. split; [by apply Off_set_permission|]. split; [done|]. apply H3, I. }
  wp_step.
  - wp_step. apply wp_run.
    split_and!; [..|intros _; apply mtk_enable_off; apply Hs]; rewrite (keeps_mtk_enable false w); apply Hs.
  - destruct (can_charging (info w)) eqn:Ec; [done|]. by apply Safe_forbidden.
Qed.

Lemma charger_check_status_unfold :
  charger_check_status =
  (let! type := get_charger_type in
   if type =? POWER_SUPPLY_TYPE_UNKNOWN then ret tt
   else
     let! charging := check_charging in
     mtk_battery_notify_check ;;; apply_permission charging).
Proof. reflexivity. Qed.

Lemma Safe_charger_check_status : preserves Safe charger_check_status.
Proof.
  rewrite charger_check_status_unfold. solve_guard. intros w Hw. destruct a0.
  - exact (proj1 (apply_permission_true w Hw)).
  - exact (proj1 (apply_permission_false w Hw)).
Qed.

(** Code that keeps [core] and starts with the permission. *)
Lemma Safe_allowed {A} (m : M (world E) A) (w : world E) :
  keeps (fun w : world E => core (info w)) m ->
  Safe w -> can_charging (info w) = true -> Safe (exec m w).
Proof.
  intros Hk Hs Hc. specialize (Hk w). unfold core in Hk. apply (core_Safe w); congruence.
Qed.

Abbreviation keeps_core := (keeps (fun w : world E => core (info w))).

Lemma Safe_plug_in type : preserves Safe (mtk_charger_plug_in type).
Proof.
  intros w Hw. unfold mtk_charger_plug_in. rewrite exec_bind.
  apply Safe_allowed; [|by apply (core_Safe w)|done].
  unfold notify_algs, battery_get_soc, with_chg1. solve_keeps.
Qed.
#[local] Hint Resolve Safe_plug_in Safe_charger_check_status : kern.

Lemma Safe_is_charger_on : preserves Safe mtk_is_charger_on.
Proof. unfold mtk_is_charger_on. solve_guard. Qed.
#[local] Hint Resolve Safe_is_charger_on : kern.

Lemma Safe_kpoc : preserves Safe kpoc_power_off_check.
Proof. unfold kpoc_power_off_check. solve_guard. Qed.
#[local] Hint Resolve Safe_kpoc : kern.

Lemma keeps_core_wired_limits : keeps_core wired_limits.
Proof.
  unfold wired_limits, support_fast_charging, is_typec_adapter,
    typec_limits, check_invalid_charger, adapter_power_detection, adapter_power_detection_by_ocp,
    set_category, detection_done, set_adapter_detect, run_aicl_limit, ensure_tcpc, get_vbus,
    get_pmic_vbus, with_chg1.
  solve_keeps; try apply (keeps_support_fast_charging_from core); unfold apply_aicl; by case_tests.
Qed.

Lemma core_limits i :
  core (limits_by_source i).1 = core i /\ core (thermal_limits (jeita_limits i)) = core i /\
  core (force_limits i) = core i.
Proof.
  assert (forall i, core (thermal_ccl1 i) = core i /\ core (thermal_icl1 i) = core i /\
    core (thermal_ccl2 i) = core i /\ core (thermal_icl2 i) = core i) as Ht
    by (intros j; unfold thermal_ccl1, thermal_icl1, thermal_ccl2, thermal_icl2;
        cbv zeta; split_and!; by case_tests).
  assert (forall l i, core (jeita_limit l i) = core i) as Hj
    by (intros l j; unfold jeita_limit; by case_tests).
  split_and!.
  - unfold limits_by_source, limits_by_type, wireless_limits. cbv zeta. by repeat (case_match; simplify_eq).
  - unfold thermal_limits. rewrite !(proj2 (proj2 (proj2 (Ht _)))), !(proj1 (proj2 (proj2 (Ht _)))),
      !(proj1 (proj2 (Ht _))), !(proj1 (Ht _)).
    unfold jeita_limits, CONFIG_USBIF_COMPLIANCE. cbv zeta. case_match; [|done]. cbn [andb].
    repeat case_match; by rewrite ?Hj.
  - unfold force_limits. cbv zeta. by case_tests.
Qed.

Lemma keeps_core_select : keeps_core select_charging_current_limit.
Proof.
  unfold select_charging_current_limit, select_cv, path_limits, wpc_is_online, check_min_current,
    with_chg1.
  solve_keeps; try apply core_limits; apply keeps_core_wired_limits.
Qed.

Lemma keeps_core_algs l b v c :
  keeps_core (run_algs l b v c) /\ keeps_core (stop_hv_algs l v).
Proof.
  split; revert v c; induction l as [|[h|] l IH]; intros v c; cbn [run_algs stop_hv_algs];
    solve_keeps; apply IH; exact false.
Qed.

Lemma keeps_core_do_algorithm : keeps_core do_algorithm.
Proof.
  unfold do_algorithm, program_charger, with_chg1.
  solve_keeps; first [apply keeps_core_select|apply keeps_core_algs; exact false].
Qed.

Lemma core_pchr i : core (pchr_limits i).1 = core i /\ core (thermal_icl1 (thermal_ccl1 (pchr_jeita i))) = core i.
Proof.
  split; [unfold pchr_limits; cbv zeta; by repeat (case_match; simplify_eq)|].
  assert (core (pchr_jeita i) = core i) as <- by (unfold pchr_jeita; by case_tests).
  unfold thermal_icl1, thermal_ccl1. cbv zeta. by case_tests.
Qed.

Lemma keeps_core_pulse : keeps_core pchr_do_algorithm.
Proof.
  unfold pchr_do_algorithm, mtk_linear_chr_cc, mtk_linear_chr_topoff, mtk_linear_chr_full, mtk_linear_chr_err,
    linear_chg_turn_on_charging, charging_full_check, pchr_select_charging_current_limit, pchr_check_min, pchr_program,
    pchr_select_cv, pchr_disable_all_charging, get_battery_voltage, get_battery_current, get_bat_psy, read_prop, getpc, modpc, with_chg1.
  solve_keeps; apply core_pchr.
Qed.

Lemma Safe_run_algorithm b : preserves Safe (run_algorithm b).
Proof.
  intros w Hw. apply (wp_exec (run_algorithm b) Safe).
  unfold run_algorithm. do 3 wp_step; [|by wp_step]. bool_prop.
  destruct (algo (info w)) eqn:Ea; [by destruct Hw as (_ & [] & _)|..];
    (apply wp_ignore, Safe_allowed; [|done|done]); [apply keeps_core_do_algorithm|apply keeps_core_pulse].
Qed.

Lemma Safe_run_wireless : preserves Safe run_wireless.
Proof.
  intros w Hw. apply (wp_exec run_wireless Safe).
  unfold run_wireless. wp_step. apply (wp_mono _ (fun _ => Safe)); [by apply Guard_call; [apply quiet_find_charger|]|].
  intros h w1 H1. do 4 wp_step. wp_step. destruct H1 as (A1 & A2 & A3).
  pose proof (law_wpc h (info w1) (env w1)) as Hl. pose proof (q_wpc h (info w1) (env w1)) as Hq.
  unfold eval, exec in Hl, Hq. rewrite H in Hl, Hq. cbn in Hl, Hq. unfold core in Hl.
  unfold ChargerSpec.Safe, Guard. cbn. split_and!; [congruence|congruence|].
  intros Hc. apply Hq, A3. congruence.
Qed.
#[local] Hint Resolve Safe_run_algorithm Safe_run_wireless : kern.

Lemma Safe_routine_body : preserves Safe charger_routine_body.
Proof. unfold charger_routine_body. solve_guard. Qed.

(** ** The system: the thread and everything that runs beside it *)

(** The entry points as atomic steps.  [S_env] is the world outside: battery,
    cable, chip and other drivers may change in any way that does not start
    charging.  The file "current_cmd" is left out: [current_cmd_overrides]
    shows what it does. *)
Inductive sys_step (w : world E) : world E -> Prop :=
| S_thread : is_module_init_done (static w) = true -> charger_thread_timeout (info w) = true ->
    sys_step w (exec charger_routine_body w)
| S_charger_event ev b : sys_step w (exec (charger_dev_event ev b) w)
| S_power_changed : sys_step w (exec mtk_charger_external_power_changed w)
| S_adapter ev wd : sys_step w (exec (notify_adapter_event ev wd) w)
| S_pm ev : sys_step w (exec (charger_pm_event ev) w)
| S_alarm : sys_step w (exec mtk_charger_alarm_timer_func w)
| S_set_property side psp v : sys_step w (exec (psy_charger_set_property side psp v) w)
| S_power_path buf : sys_step w (exec (mtk_chg_en_power_path_write buf) w)
| S_safety_timer buf : sys_step w (exec (mtk_chg_en_safety_timer_write buf) w)
| S_top_off buf : sys_step w (exec (store_top_off_mode buf) w)
| S_notify buf : sys_step w (exec (BatteryNotify_store buf) w)
| S_bcm buf : sys_step w (exec (bcm_flag_store buf) w)
| S_sysfs f : In f [sw_jeita_store; chr_type_store; input_current_store;
                    charger_log_level_store; bat_eoc_protect_reset_time_write] ->
    forall buf, sys_step w (exec (modi (f buf)) w)
| S_env e : (on e = true -> on (env w) = true) -> sys_step w (w <| env := e |>).

Lemma Safe_entry :
  (forall ev b, preserves Safe (charger_dev_event ev b)) /\
  preserves Safe mtk_charger_external_power_changed /\
  (forall ev wd, preserves Safe (notify_adapter_event ev wd)) /\
  (forall ev, preserves Safe (charger_pm_event ev)) /\
  preserves Safe mtk_charger_alarm_timer_func /\
  (forall buf, preserves Safe (mtk_chg_en_power_path_write buf)) /\
  (forall buf, preserves Safe (mtk_chg_en_safety_timer_write buf)) /\
  (forall buf, preserves Safe (store_top_off_mode buf)) /\
  (forall buf, preserves Safe (BatteryNotify_store buf)) /\
  (forall buf, preserves Safe (bcm_flag_store buf)).
Proof.
  split_and!.
  - unfold charger_dev_event. cbv zeta. solve_guard.
  - unfold mtk_charger_external_power_changed. solve_guard.
  - intros ev []; unfold notify_adapter_event, mtk_chgstat_notify; cbv zeta; solve_guard.
  - unfold charger_pm_event. solve_guard.
  - unfold mtk_charger_alarm_timer_func. solve_guard.
  - unfold mtk_chg_en_power_path_write. solve_guard.
  - unfold mtk_chg_en_safety_timer_write. solve_guard; by case_match.
  - unfold store_top_off_mode. solve_guard; by case_match.
  - unfold BatteryNotify_store, mtk_chgstat_notify. solve_guard.
  - unfold bcm_flag_store. solve_guard.
Qed.

Lemma Safe_set_property side psp v : preserves Safe (psy_charger_set_property side psp v).
Proof.
  unfold psy_charger_set_property.
  destruct side, psp; cbn [set_property_fields]; solve_guard.
Qed.

Lemma Safe_sysfs f buf :
  In f [sw_jeita_store; chr_type_store; input_current_store; charger_log_level_store;
        bat_eoc_protect_reset_time_write] -> preserves Safe (modi (f buf)).
Proof.
  intros Hf. apply Guard_modi. intros i.
  repeat destruct Hf as [<-|Hf]; [by destruct buf..|destruct Hf].
Qed.

(** C1: where the charger obeys the contract of the manager (the command to stop
    turns it off, and none of the calls that the contract names turns it on) and
    charging does not start by itself: in every state the running system can reach
    from a safe one, with the basic or the pulse algorithm, through any
    interleaving of thread passes, interrupts, notifications, power-supply and
    sysfs writes and changes of the environment, the charger is off whenever the
    manager has withdrawn the permission to charge. The write of current_cmd in
    procfs is not among these steps; it overrides the permission. *)
Theorem system_safe (w w' : world E) : rtc sys_step w w' -> Safe w -> Safe w'.
Proof.
  destruct Safe_entry as (H1 & H2 & H3 & H4 & H5 & H6 & H7 & H8 & H9 & H10).
  induction 1 as [|w w1 w2 Hs _ IH]; [done|]. intros Hw. apply IH.
  destruct Hs as [| | | | | |side psp v| | | | | |f Hf buf|e He];
    try first [by apply H1|by apply H2|by apply H3|by apply H4|by apply H5|by apply H6|by apply H7
              |by apply H8|by apply H9|by apply H10].
  - by apply Safe_routine_body.
  - by apply Safe_set_property.
  - by apply Safe_sysfs.
  - destruct Hw as (A1 & A2 & A3). split_and!; [done|done|]. intros Hc. cbn in *.
    destruct (on e); [|done]. rewrite A3 in He by done. by specialize (He eq_refl).
Qed.

(** ** Permission *)

(** The fields the decision reads. *)
Definition guards (i : mtk_charger) :=
  (bcm_flag i, enable_sw_jeita i, data i, battery_temp i, thermal i, jeita_sm (sw_jeita i),
   (cmd_discharging i, safety_timeout i, vbusov_stat i, enable_bat_eoc_protect i,
    bat_eoc_protect i, dpm_disable_charging i, invalid_charger_det_weak i, algo i)).

(** All protections agree to charging. *)
Definition protections_pass (i : mtk_charger) : Prop :=
  bcm_flag i = BCM_FLAG_NONE /\
  (if enable_sw_jeita i
   then (Jeita.transition (data i) (battery_temp i) (jeita_sm (sw_jeita i))).2
   else (temperature_check (thermal i) (battery_temp i)).2) = true /\
  cmd_discharging i = false /\ safety_timeout i = false /\ vbusov_stat i = false /\
  (enable_bat_eoc_protect i = true -> bat_eoc_protect i = false /\ dpm_disable_charging i = false) /\
  invalid_charger_det_weak i = false.

Lemma charging_allowed_spec i :
  charging_allowed i = true ->
  cmd_discharging i = false /\ safety_timeout i = false /\ vbusov_stat i = false /\
  (enable_bat_eoc_protect i = true -> bat_eoc_protect i = false /\ dpm_disable_charging i = false) /\
  invalid_charger_det_weak i = false.
Proof.
  unfold charging_allowed.
  destruct (cmd_discharging i), (safety_timeout i), (vbusov_stat i), (enable_bat_eoc_protect i),
    (bat_eoc_protect i), (dpm_disable_charging i), (invalid_charger_det_weak i); by intros.
Qed.

Lemma wp_check_vbus_state (w : world E) :
  wp mtk_chg_check_vbus (fun r w' => charging_allowed (info w') = charging_allowed (info w) /\
    (r = true -> invalid_charger_det_weak (info w) = false -> vbus_state (info w') = VBUS_NORMAL)) w.
Proof.
  assert (forall w1 : world E, info w1 = info w -> wp mtk_chg_check_vbus (fun r w' =>
    charging_allowed (info w') = charging_allowed (info w) /\
    (r = true -> invalid_charger_det_weak (info w) = false -> vbus_state (info w') = VBUS_NORMAL)) w1)
    as H; [|by apply H].
  intros w1 Hw1. unfold mtk_chg_check_vbus. do 3 wp_step.
  { wp_step. split; [by rewrite Hw1|]. intros _ Hf. congruence. }
  wp_step. apply (wp_keeps (fun w => info w)); [apply (keeps_call (fun i => i))|]. intros h w2 Hw2.
  wp_step. apply (wp_keeps (fun w => info w)).
  { destruct h; solve_keeps. apply (keeps_call (fun i => i)). }
  intros online w3 Hw3. wp_step.
  apply (wp_keeps (fun w => info w)); [apply (keeps_get_vbus (fun i => i))|]. intros v w4 Hw4.
  assert (info w4 = info w) as Hw by congruence. rewrite Hw1.
  destruct w4 as [i4 s4 e4]. cbn in Hw. subst i4.
  match goal with |- context [when (negb (?x =? VBUS_NORMAL))] =>
    assert (x = VBUS_OVP \/ x = VBUS_UVLO \/ x = VBUS_NORMAL) as Hst by (case_tests; auto);
    set (st := x) in * end.
  clearbody st. wps; cbn in *; (split; [done|]); intros; try done;
    destruct Hst as [->|[->| ->]]; done.
Qed.

Lemma wp_check_charging (w : world E) :
  wp check_charging (fun c w' => c = true ->
    protections_pass (info w) /\ vbus_state (info w') = VBUS_NORMAL) w.
Proof.
  unfold check_charging, get_bcm_flag. do 3 wp_step; [by wp_step|]. bool_prop.
  assert (forall (w1 : world E) ok, (ok = true ->
      (if enable_sw_jeita (info w)
       then (Jeita.transition (data (info w)) (battery_temp (info w)) (jeita_sm (sw_jeita (info w)))).2
       else (temperature_check (thermal (info w)) (battery_temp (info w))).2) = true) ->
      charging_allowed (info w1) = charging_allowed (info w) ->
    wp (if negb ok then ret false
        else mtk_chg_get_tchg ;;; let! vbus_ok := mtk_chg_check_vbus in
          if negb vbus_ok then ret false
          else let! id_ok := call get_battery_id_status in
            if negb id_ok then ret false else geti charging_allowed)
      (fun c w' => c = true -> protections_pass (info w) /\ vbus_state (info w') = VBUS_NORMAL) w1) as K.
  { intros w1 ok Hok Ha. wp_step; [by wp_step|]. wp_step.
    apply (wp_keeps (fun w => charging_allowed (info w)));
      [unfold mtk_chg_get_tchg, with_chg1; solve_keeps|]. intros [] w2 H2. wp_step.
    eapply wp_mono; [apply wp_check_vbus_state|]. intros vok w3 [Ha3 Hv3]. cbn beta. wps; try done.
    intros Hc. cbn in Hc |- *.
    assert (charging_allowed (info w) = true) as Hall by congruence.
    destruct (charging_allowed_spec _ Hall) as (A1 & A2 & A3 & A4 & A5).
    split; [unfold protections_pass; split_and!; auto|].
    - apply Hok. by bool_prop.
    - apply Hv3; [by bool_prop|].
      assert (charging_allowed (info w2) = true) as Hall2 by congruence. by apply charging_allowed_spec. }
  wp_step. destruct (enable_sw_jeita (info w)) eqn:Ej.
  - wp_step. apply wp_run. destruct (info_do_sw_jeita w) as [cv Hi].
    wp_step. rewrite Hi. apply K; [done|]. by rewrite Hi.
  - destruct (temperature_check _ _) as [t ok] eqn:Et. do 3 wp_step. apply K; [|done].
    by rewrite ?Ej, ?Et.
Qed.

Lemma protections_guards i i' : guards i = guards i' -> protections_pass i -> protections_pass i'.
Proof.
  unfold guards, protections_pass. intros H. injection H as -> -> -> -> -> -> -> -> -> -> -> -> ->. done.
Qed.

Lemma keeps_guards_get_charger_type : keeps (fun w : world E => guards (info w)) get_charger_type.
Proof. unfold get_charger_type, get_chg_psy, read_prop. solve_keeps. Qed.

Lemma keeps_notify_check : keeps (fun w : world E => (algo (info w), vbus_state (info w))) mtk_battery_notify_check.
Proof.
  unfold mtk_battery_notify_check, mtk_battery_notify_VCharger_check, mtk_battery_notify_VBatTemp_check,
    mtk_battery_notify_UI_test, mtk_chgstat_notify, get_vbus, get_pmic_vbus.
  solve_keeps; try apply (keeps_call (fun i => (algo i, vbus_state i)));
    try apply (keeps_modi (fun i => (algo i, vbus_state i))); intros; cbv zeta; by case_tests.
Qed.

Lemma wp_apply_permission c (w : world E) :
  wp (apply_permission c) (fun _ w' => can_charging (info w') = c /\
    (c = true -> vbus_state (info w') = vbus_state (info w))) w.
Proof.
  unfold apply_permission. do 4 wp_step.
  - wp_step. apply (wp_keeps (fun w => info w)); [apply keeps_mtk_enable|].
    intros z w1 Hw1. destruct c; cbn [negb when]; wps; cbn; [by rewrite Hw1|].
    apply wp_run. cbn. wps. done.
  - destruct c; cbn [negb when]; wps; [done|]. apply wp_run. cbn. wps. done.
Qed.

(** C2: on every platform, if a check with a charger attached ends with the
    permission to charge, then every protection agreed: no software stop flag,
    the battery temperature in the JEITA or protection window, no discharge
    command, no safety time-out, no over-voltage reported, no end-of-charge or
    DPM hold, no weak charger, and the bus voltage was found normal. *)
Theorem permission_sound (w : world E) :
  eval get_charger_type w <> POWER_SUPPLY_TYPE_UNKNOWN ->
  let i' := info (exec charger_check_status w) in
  can_charging i' = true -> protections_pass (info w) /\ vbus_state i' = VBUS_NORMAL.
Proof.
  intros Ht. cbv zeta.
  apply (wp_exec charger_check_status (fun w' => can_charging (info w') = true ->
    protections_pass (info w) /\ vbus_state (info w') = VBUS_NORMAL)).
  rewrite charger_check_status_unfold. wp_step. apply wp_run.
  pose proof (keeps_guards_get_charger_type w) as Hg. set (w1 := exec get_charger_type w) in *.
  wp_step; [bool_prop; congruence|]. wp_step. apply wp_run.
  pose proof (wp_check_charging w1) as Hc. unfold wp in Hc.
  set (w2 := exec check_charging w1) in *. wp_step. apply (wp_keeps _ _ _ _ keeps_notify_check).
  intros [] w3 H3. injection H3 as H3a H3v.
  eapply wp_mono; [apply wp_apply_permission|].
  intros [] w4 [H4 H5]. rewrite H4. intros Ht'. destruct (Hc Ht') as [Hp Hv].
  split; [by apply (protections_guards (info w1))|]. rewrite H5, H3v; done.
Qed.

End SafeCode.

(** ** The board obeys the contract *)

#[global] Instance board_laws : ChipLaws b_enabled 0.
Proof.
  split; constructor; try (intros; intros e He; exact He); try (by intros);
    intros h; intros; try intros e He;
    destruct h as [[|?]|]; try done; cbn; unfold exec, eval, chg, algd; cbn;
    unfold charger_dev_plug_out, charger_dev_do_event, charger_dev_set_constant_voltage,
      charger_dev_get_constant_voltage, charger_dev_set_mivr, charger_dev_set_input_current,
      charger_dev_get_input_current, charger_dev_get_charging_current, charger_dev_enable_ir_comp,
      charger_dev_get_vbus, charger_dev_get_ibus, charger_dev_get_temperature,
      charger_dev_is_enabled, charger_dev_is_charging_done, charger_dev_get_indpm_state,
      charger_dev_enable_powerpath, charger_dev_enable_safety_timer,
      wireless_charger_dev_get_online, wireless_charger_dev_do_algorithm, call_op, dev_op;
    cbn; try done; by destruct (b_ops e).
Qed.

#[global] Instance board_alg_laws : AlgLaws b_enabled.
Proof.
  constructor; try (intros; intros e He; exact He); intros h; intros; intros e He;
    (destruct h as [[|?]|]; try done); cbn; unfold exec, eval, chg; cbn;
    unfold charger_dev_enable, charger_dev_set_charging_current, charger_dev_get_min_charging_current,
      charger_dev_get_min_input_current, charger_dev_get_mivr, charger_dev_run_aicl, charger_dev_kick_wdt,
      charger_dev_dump_registers, charger_dev_is_chip_enabled, charger_dev_enable_chip, charger_dev_set_eoc_current,
      charger_dev_enable_termination, call_op, dev_op; cbn; try done; by destruct (b_ops e).
Qed.

Lemma world0_safe : Safe b_enabled 0 world0.
Proof. by split_and!. Qed.

Lemma system_safe_witness :
  Safe b_enabled 0 (exec charger_routine_body
    (world0 <| info ::= fun i => i <| charger_thread_timeout := true |> |>)).
Proof.
  apply (system_safe b_enabled 0
    (world0 <| info ::= fun i => i <| charger_thread_timeout := true |> |>)).
  - apply rtc_once, S_thread; reflexivity.
  - by split_and!.
Defined.

Lemma permission_sound_witness :
  protections_pass (info world0) /\
  vbus_state (info (exec charger_check_status world0)) = VBUS_NORMAL.
Proof.
  apply (permission_sound world0); [vm_compute; discriminate|].
  vm_compute. reflexivity.
Defined.

(** Writing "0 0" to the file "current_cmd" switches the charger on
    without asking the protections, and since the manager already holds the
    permission as withdrawn, its next check does not switch the charger off
    again: with the battery at 60 degrees and the JEITA machine in its hot
    zone, the chip goes on charging. *)
Theorem current_cmd_overrides :
  let hot := world0
    <| info ::= fun i => i <| can_charging := false |> <| battery_temp := 60 |>
         <| sw_jeita ::= fun s => s <| jeita_sm := TEMP_ABOVE_T4 |> |> |>
    <| env ::= fun b => b <| b_enabled := false |> <| b_temp := 600 |> |> in
  let w := exec charger_check_status (exec (mtk_chg_current_cmd_write (Some (0, 0))) hot) in
  Jeita.stops (jeita_sm (sw_jeita (info w))) = true /\
  can_charging (info w) = false /\ b_enabled (env w) = true.
Proof. vm_compute. auto. Qed.
