(* ===== verification/PulseSpec.v ===== *)
(** * The pulse charging algorithm: what it guarantees

    A battery that the algorithm found full, or that it stopped charging because
    of an error, is not charged; when it counts as full; the limits it selects;
    and the error state it does not leave when the cable is put back. *)

From S2P Require Import Prelude ChargerClass AlgClass ChargerTypes ChargerDt Platform Board.
From S2P Require Import ChargerIntf Jeita BasicCharger PulseCharger MtkCharger ChargerThread ChargerSpec.
#[local] Open Scope Z_scope.

Section Pulse.
  Context {E : Type} `{!Platform E} (on : E -> bool) (h0 : nat) `{!ChipLaws on h0} `{!AlgLaws on}.
Abbreviation W := (world E).
Definition st (w : W) : Z := pc_state (pdata (static w)).

(** The charger and the state. *)
Definition seat (w : W) : option nat * Z := (chg1_dev (info w), st w).

(** The permission, software JEITA and the state. *)
Definition terms (w : W) : bool * bool * Z := (can_charging (info w), enable_sw_jeita (info w), st w).

(** The voltage below which a full battery is charged again. *)
Definition recharge_voltage (w : W) : Z :=
  let i := info w in
  u32 ((if enable_sw_jeita i && negb (jeita_cv (sw_jeita i) =? 0) then jeita_cv (sw_jeita i) else battery_cv (data i)) -
       recharge_offset (pdata (static w))).

(** The state, and what the recharge voltage depends on. *)
Definition recharge_terms (w : W) := (st w, recharge_voltage w).

(** The states in which the battery is not to be charged. *)
Definition resting (s : Z) : bool := (s =? CHR_BATFULL) || (s =? CHR_ERROR).
Definition Rest (w : W) : Prop := chg1_dev (info w) = Some h0 /\ (resting (st w) = true -> on (env w) = false).

(** The charger is off. *)
Definition Dark (w : W) : Prop := chg1_dev (info w) = Some h0 /\ on (env w) = false.

Lemma Dark_Rest w : Dark w -> Rest w.
Proof. by intros [H1 H2]. Qed.

Lemma Dark_call {A} (m : M E A) : quiet on m -> preserves Dark (call m).
Proof. intros Hq w [H1 H2]. unfold Dark. rewrite info_exec_call, env_exec_call. auto. Qed.
Lemma Dark_with_chg1 {A} (f : option (charger_device E mtk_charger) -> M E A) :
  (forall h, quiet on (f (chg h))) -> preserves Dark (with_chg1 f).
Proof. intros Hq. apply preserves_bind; [apply preserves_gets|]. intros h. by apply Dark_call. Qed.
Lemma Dark_modi f : (forall i, chg1_dev (f i) = chg1_dev i) -> preserves Dark (modi f).
Proof. intros Hf w [H1 H2]. unfold Dark. rewrite info_modi, env_modi, Hf. done. Qed.

(** Off is obeyed in any state. *)
Lemma off_makes_dark (w : W) :
  chg1_dev (info w) = Some h0 -> Dark (exec (with_chg1 (fun d => charger_dev_enable d false)) w).
Proof.
  intros Hh. unfold with_chg1. rewrite exec_bind. unfold Dark. rewrite info_exec_call, env_exec_call.
  rewrite exec_geti, eval_geti, Hh. split; [done|]. apply law_off.
Qed.
End Pulse.

(** Follow the code, for a property of the state of the algorithm. *)
Ltac solve_state :=
  repeat match goal with
    | |- forall _, _ => intro
    | |- keeps _ (bind _ _) => apply keeps_bind
    | |- keeps _ (ret _) => apply keeps_ret
    | |- keeps _ (gets _) => apply keeps_gets
    | |- keeps _ (geti _) => apply keeps_gets
    | |- keeps _ (getst _) => apply keeps_gets
    | |- keeps _ (getpc _) => apply keeps_gets
    | |- keeps _ (ignore _) => apply keeps_ignore
    | |- keeps _ (when _ _) => apply keeps_when
    | |- keeps _ (for_each _ _) => apply keeps_for_each
    | |- keeps _ (modi _) => by intros ?
    | |- keeps _ (modst _) => by intros ?
    | |- keeps _ (modpc _) => by intros ?
    | |- keeps _ (with_chg1 _) => unfold with_chg1
    | |- keeps _ (call _) => intros ?; unfold seat, terms, recharge_terms, recharge_voltage, st; by rewrite static_exec_call, info_exec_call
    | |- keeps _ (if ?b then _ else _) => destruct b
    | |- keeps _ (match ?x with _ => _ end) => destruct x
    | |- keeps _ _ => solve [eauto with kern nocore]
    end.

Ltac solve_dark :=
  repeat match goal with
    | |- forall _, _ => intro
    | |- preserves _ (bind _ _) => apply preserves_bind
    | |- preserves _ (ret _) => apply preserves_ret
    | |- preserves _ (gets _) => apply preserves_gets
    | |- preserves _ (geti _) => apply preserves_gets
    | |- preserves _ (getst _) => apply preserves_gets
    | |- preserves _ (getpc _) => apply preserves_gets
    | |- preserves _ (ignore _) => apply preserves_ignore
    | |- preserves _ (when _ _) => apply preserves_when
    | |- preserves _ (modst _) => by intros ?
    | |- preserves _ (modpc _) => by intros ?
    | |- preserves _ (modi _) => apply Dark_modi; intros; try reflexivity
    | |- preserves _ (with_chg1 _) => apply Dark_with_chg1; intros; solve [eauto with kern nocore]
    | |- preserves _ (call _) => apply Dark_call; solve [eauto with kern nocore]
    | |- preserves _ (if ?b then _ else _) => destruct b
    | |- preserves _ (match ?x with _ => _ end) => destruct x
    | |- preserves _ _ => solve [eauto with kern nocore]
    end.

Section States.
  Context {E : Type} `{!Platform E} (on : E -> bool) (h0 : nat) `{!ChipLaws on h0} `{!AlgLaws on}.
Abbreviation W := (world E).
Abbreviation Rest := (Rest on h0).
Abbreviation Dark := (Dark on h0).

Lemma dk_voltage : preserves Dark get_battery_voltage.
Proof using ChipLaws0. unfold get_battery_voltage, get_bat_psy, read_prop. solve_dark. Qed.
Lemma dk_program : preserves Dark pchr_program.
Proof using ChipLaws0 AlgLaws0. unfold pchr_program. solve_dark. Qed.
Lemma dk_select_cv : preserves Dark pchr_select_cv.
Proof using ChipLaws0. unfold pchr_select_cv. solve_dark. Qed.
Lemma dk_disable : preserves Dark pchr_disable_all_charging.
Proof using ChipLaws0.
  intros w [H1 _]. unfold pchr_disable_all_charging. rewrite exec_ignore. by apply off_makes_dark.
Qed.
#[local] Hint Resolve dk_voltage dk_program dk_select_cv dk_disable : kern.

Lemma dk_full : preserves Dark mtk_linear_chr_full.
Proof using ChipLaws0 AlgLaws0. unfold mtk_linear_chr_full. solve_dark. Qed.
Lemma dk_err : preserves Dark mtk_linear_chr_err.
Proof using ChipLaws0 AlgLaws0. unfold mtk_linear_chr_err. solve_dark. Qed.

Lemma seat_modi f : (forall i, chg1_dev (f i) = chg1_dev i) -> keeps (seat (E := E)) (modi f).
Proof. intros Hf w. unfold seat, st. rewrite info_modi, static_modi, Hf. done. Qed.

Lemma chg1_pchr i : chg1_dev (fst (pchr_limits i)) = chg1_dev i /\
  chg1_dev (thermal_icl1 (thermal_ccl1 (pchr_jeita i))) = chg1_dev i.
Proof. destruct (core_pchr i) as [H1 H2]. unfold core in *. split; congruence. Qed.

Lemma sk_voltage : keeps (seat (E := E)) get_battery_voltage.
Proof. unfold get_battery_voltage, get_bat_psy, read_prop. solve_state. Qed.
Lemma sk_current : keeps (seat (E := E)) get_battery_current.
Proof. unfold get_battery_current, get_bat_psy, read_prop. solve_state. Qed.
Lemma sk_select_cv : keeps (seat (E := E)) pchr_select_cv.
Proof. unfold pchr_select_cv. solve_state. Qed.
Lemma sk_program : keeps (seat (E := E)) pchr_program.
Proof. unfold pchr_program. solve_state. Qed.
Lemma sk_kick : keeps (seat (E := E)) (with_chg1 (fun d => charger_dev_kick_wdt d)).
Proof. solve_state. Qed.
#[local] Hint Resolve sk_voltage sk_current sk_select_cv sk_program : kern.
Lemma sk_select : keeps (seat (E := E)) pchr_select_charging_current_limit.
Proof.
  unfold pchr_select_charging_current_limit, pchr_check_min. solve_state; apply seat_modi; intros; by apply chg1_pchr.
Qed.
#[local] Hint Resolve sk_select : kern.
Lemma sk_turn_on : keeps (seat (E := E)) linear_chg_turn_on_charging.
Proof. unfold linear_chg_turn_on_charging. solve_state. Qed.
Lemma sk_full_check : keeps (seat (E := E)) charging_full_check.
Proof. unfold charging_full_check. solve_state. Qed.
#[local] Hint Resolve sk_turn_on sk_full_check : kern.

Lemma wp_seat {A C} (m : M W A) (k : A -> M W C) Q (w : W) :
  keeps seat m -> (forall a w', seat w' = seat w -> wp (k a) Q w') -> wp (bind m k) Q w.
Proof. intros Hm Hk. apply wp_bind, (wp_keeps seat); [done|]. intros a w' Hw. by apply Hk. Qed.

(** Constant current does not end in a state of rest. *)
Lemma cc_goes_on (w : W) : st w = CHR_CC -> wp mtk_linear_chr_cc (fun _ w' => resting (st w') = false) w.
Proof.
  intros Hs. unfold mtk_linear_chr_cc, modpc.
  do 6 (apply wp_seat; [solve_state|let w1 := fresh "w1" in let H1 := fresh "H1" in intros ? w1 H1;
    apply (f_equal snd) in H1; cbn in H1; rewrite Hs in H1; clear Hs; rename H1 into Hs; clear dependent w; rename w1 into w]).
  wp_step. apply (wp_mono _ (fun _ w' => resting (st w') = false)).
  - wp_step; [|by rewrite Hs]. do 2 wp_step. apply wp_seat; [solve_state|]. intros now w2 Hw. wp_step.
    apply (f_equal snd) in Hw. change (resting (st w2) = false). cbn in Hw. by rewrite Hw.
  - intros [] w2 Hw. apply wp_seat; [solve_state|]. intros [] w3 Hw3. wp_step. apply (f_equal snd) in Hw3. cbn in Hw3.
    by rewrite Hw3.
Qed.

(** Top-off goes on, or ends with the battery full and the charger off. *)
Lemma topoff_ends_off (w : W) : chg1_dev (info w) = Some h0 -> st w = CHR_TOPOFF ->
  wp mtk_linear_chr_topoff (fun _ w' => seat w' = seat w \/ Dark w') w.
Proof using ChipLaws0.
  intros Hc Hs. unfold mtk_linear_chr_topoff, modpc.
  apply wp_seat; [solve_state|]. intros now w1 H1. apply wp_seat; [solve_state|]. intros [] w2 H2.
  apply wp_seat; [solve_state|]. intros [] w3 H3. apply wp_seat; [solve_state|]. intros t w4 H4.
  apply wp_seat; [solve_state|]. intros full w5 H5. wp_step. wp_step.
  - wp_step. wp_step. wp_step. apply wp_run. wp_step. right. apply (off_makes_dark on h0). cbn. injection H5 as -> _.
    injection H4 as -> _. injection H3 as -> _. injection H2 as -> _. injection H1 as -> _. done.
  - wp_step. left. congruence.
Qed.

#[local] Hint Resolve dk_full dk_err : kern.

(** A pass that starts at rest. *)
Lemma rest_pass (w : W) : resting (st w) = true -> Dark w -> Dark (exec pchr_do_algorithm w).
Proof using ChipLaws0 AlgLaws0.
  intros Hs Hd. apply (wp_exec pchr_do_algorithm Dark). unfold pchr_do_algorithm. wp_step.
  assert (preserves Dark (with_chg1 (fun d => charger_dev_kick_wdt d))) as Hk by solve_dark.
  pose proof (sk_kick w) as Hw. apply wp_run. specialize (Hk w Hd).
  generalize dependent (exec (with_chg1 (fun d => charger_dev_kick_wdt d)) w). intros w1 H1 Hw.
  unfold getpc. do 2 wp_step. apply (f_equal snd) in Hw. cbn in Hw. rewrite <- Hw in Hs. fold (st w1).
  assert ((st w1 =? CHR_CC) = false /\ (st w1 =? CHR_TOPOFF) = false) as [-> ->]
    by (apply orb_true_iff in Hs as [->%Z.eqb_eq| ->%Z.eqb_eq]; done).
  match goal with |- wp ?m _ _ => assert (preserves Dark m) as Hm by solve_dark end. by apply Hm.
Qed.

(** A pass that starts while charging. *)
Lemma charging_pass (w : W) : resting (st w) = false -> chg1_dev (info w) = Some h0 -> Rest (exec pchr_do_algorithm w).
Proof using ChipLaws0 AlgLaws0.
  intros Hs Hc. split.
  { pose proof (keeps_core_pulse w) as Hk. unfold core in Hk. congruence. }
  apply (wp_exec pchr_do_algorithm (fun w' => resting (st w') = true -> on (env w') = false)). unfold pchr_do_algorithm.
  apply wp_seat; [solve_state|]. intros r w1 H1. unfold getpc. do 2 wp_step. injection H1 as E1 E2. rewrite <- E2 in Hs.
  assert (forall m : M W unit, wp m (fun _ w' => resting (st w') = false \/ Dark w') w1 ->
    wp (m ;;; pchr_program ;;; with_chg1 (fun d => charger_dev_dump_registers d) ;;; ret 0)
      (fun _ w' => resting (st w') = true -> on (env w') = false) w1) as Hm.
  { intros m Hm. wp_step. eapply wp_mono; [exact Hm|]. intros [] w2 [H2|H2].
    - apply wp_seat; [solve_state|]. intros [] w3 H3. apply wp_seat; [solve_state|]. intros r3 w4 H4. wp_step.
      apply (f_equal snd) in H3, H4. cbn in H3, H4. rewrite H4, H3, H2. done.
    - match goal with |- wp ?m _ _ => assert (preserves Dark m) as Hd by solve_dark end. intros _. by apply (Hd w2). }
  apply Hm. fold (st w1). destruct (st w1 =? CHR_CC) eqn:Ea; [|destruct (st w1 =? CHR_TOPOFF) eqn:Eb]; bool_prop.
  - wp_step. eapply wp_mono; [by apply cc_goes_on|]. auto.
  - wp_step. eapply wp_mono; [apply topoff_ends_off; congruence|]. cbn beta. intros _ w2 [H2|H2]; [left|by right].
    apply (f_equal snd) in H2. cbn in H2. rewrite H2, Eb. done.
  - pose proof Hs as Hr. apply orb_false_iff in Hr as [-> ->]. apply (wp_ret tt). by left.
Qed.

(** What happens to the algorithm: passes, the manager's commands, and anything
    else that neither starts charging nor touches the algorithm. *)
Inductive pulse_step (w : W) : W -> Prop :=
| PulsePass : pulse_step w (exec pchr_do_algorithm w)
| PulseSwitch en : pulse_step w (exec (mtk_linear_charging_do_charging en) w)
| PulseOther w' : seat w' = seat w -> (on (env w') = true -> on (env w) = true) -> pulse_step w w'.

Lemma Rest_step w w' : pulse_step w w' -> Rest w -> Rest w'.
Proof using ChipLaws0 AlgLaws0.
  intros [|en|w2 Hs He] [Hc Hr].
  - destruct (resting (st w)) eqn:Er; [|by apply charging_pass]. apply Dark_Rest, rest_pass; [done|]. split; auto.
  - split; [by rewrite (keeps_do_charging chg1_dev en w)|]. destruct en; [|intros _; by apply (do_charging_off on h0)].
    intros Hx. exfalso. revert Hx. unfold mtk_linear_charging_do_charging, modpc, st. run. cbn. done.
  - injection Hs as E1 E2. split; [by rewrite E1|]. rewrite E2. intros H. specialize (Hr H).
    destruct (on (env w2)); [|done]. rewrite He in Hr by done. done.
Qed.

(** *** How a rest ends *)

(** The state in which a pass with a full battery measures it, and what it reads. *)
Definition full_measures (w : W) : W :=
  exec (with_chg1 (fun d => charger_dev_kick_wdt d) ;;;
        modpc (fun d => d <| total_charging_time := 0 |> <| cc_charging_time := 0 |> <| topoff_charging_time := 0 |>) ;;;
        pchr_select_cv ;;;
        modi (fun i => i <| polling_interval := CHARGING_FULL_INTERVAL |>)) w.
Definition full_reading (w : W) : Z := u32 (eval get_battery_voltage (full_measures w) * 1000).

(** Software JEITA has left the extreme zones, and has not restarted charging since. *)
Definition jeita_recovered (i : mtk_charger) : bool :=
  enable_sw_jeita i && negb (jeita_error_recovery_flag (sw_jeita i)) && negb (at_extreme i).

Lemma rk_voltage : keeps recharge_terms get_battery_voltage.
Proof. unfold get_battery_voltage, get_bat_psy, read_prop. solve_state. Qed.
Lemma rk_select_cv : keeps recharge_terms pchr_select_cv.
Proof. unfold pchr_select_cv. solve_state. Qed.
Lemma rk_program : keeps (recharge_terms (E := E)) pchr_program.
Proof. unfold pchr_program. solve_state. Qed.
#[local] Hint Resolve rk_voltage rk_select_cv rk_program : kern.

(** A pass with a full battery looks at the voltage. *)
Lemma full_pass (w : W) : st w = CHR_BATFULL ->
  st (exec pchr_do_algorithm w) = if full_reading w <? recharge_voltage w then CHR_CC else CHR_BATFULL.
Proof.
  intros Hs. assert (recharge_terms (full_measures w) = recharge_terms w) as Hm.
  { unfold full_measures. match goal with |- recharge_terms (exec ?m w) = _ => assert (keeps recharge_terms m) as Hk by solve_state end.
    apply Hk. }
  apply (wp_exec pchr_do_algorithm (fun w' => st w' = if full_reading w <? recharge_voltage w then CHR_CC else CHR_BATFULL)).
  unfold pchr_do_algorithm, getpc. wp_step. apply wp_run. do 2 wp_step.
  assert (pc_state (pdata (static (exec (with_chg1 (fun d => charger_dev_kick_wdt d)) w))) = CHR_BATFULL) as ->.
  { pose proof (sk_kick w) as Hk. apply (f_equal snd) in Hk. cbn in Hk. unfold st in *. congruence. }
  change (CHR_BATFULL =? CHR_CC) with false. change (CHR_BATFULL =? CHR_TOPOFF) with false.
  change (CHR_BATFULL =? CHR_BATFULL) with true. cbv iota. do 2 wp_step. unfold mtk_linear_chr_full, getpc.
  do 3 (wp_step; apply wp_run; cbn beta). wp_step. apply wp_run.
  match goal with |- context [eval get_battery_voltage ?w1] =>
    replace w1 with (full_measures w) by (unfold full_measures; by rewrite !exec_bind) end.
  pose proof (rk_voltage (full_measures w)) as Hv. rewrite Hm in Hv. fold (full_reading w).
  generalize dependent (exec get_battery_voltage (full_measures w)). intros w1 Hv. cbv zeta.
  injection Hv as S1 R1. rewrite Hs in S1. do 5 wp_step. fold (full_reading w). fold (recharge_voltage w1). rewrite R1.
  apply (wp_mono _ (fun _ w' => st w' = if full_reading w <? recharge_voltage w then CHR_CC else CHR_BATFULL)).
  - wp_step; [|by destruct (full_reading w <? recharge_voltage w)].
    match goal with H : _ = true |- _ => rewrite H end. unfold modpc. do 2 wp_step.
    apply wp_seat; [solve_state|]. intros now w2 H2. apply (f_equal snd) in H2. cbn in H2. wps. exact H2.
  - intros [] w2 H2. wp_step. apply wp_seat; [solve_state|]. intros [] w3 H3. apply wp_seat; [solve_state|]. intros r w4 H4.
    wp_step. injection H3 as _ H3. injection H4 as _ H4. congruence.
Qed.

(** A pass in the error state looks at software JEITA. *)
Lemma error_exit (w : W) : st w = CHR_ERROR ->
  st (exec pchr_do_algorithm w) = if jeita_recovered (info w) then CHR_CC else CHR_ERROR.
Proof.
  intros Hs. apply (wp_exec pchr_do_algorithm (fun w' => st w' = if jeita_recovered (info w) then CHR_CC else CHR_ERROR)).
  unfold pchr_do_algorithm, getpc. wp_step. apply wp_run.
  assert (info (exec (with_chg1 (fun d => charger_dev_kick_wdt d)) w) = info w) as <-
    by (unfold with_chg1; by rewrite exec_bind, info_exec_call).
  pose proof (sk_kick w) as Hk. apply (f_equal snd) in Hk. cbn in Hk. rewrite Hs in Hk.
  generalize dependent (exec (with_chg1 (fun d => charger_dev_kick_wdt d)) w). intros w1 Hk. do 2 wp_step. fold (st w1).
  rewrite Hk. change (CHR_ERROR =? CHR_CC) with false. change (CHR_ERROR =? CHR_TOPOFF) with false.
  change (CHR_ERROR =? CHR_BATFULL) with false. change (CHR_ERROR =? CHR_ERROR) with true. cbv iota. cbn [when].
  do 2 wp_step. unfold mtk_linear_chr_err, modpc. do 3 wp_step.
  apply (wp_mono _ (fun _ w' => st w' = if jeita_recovered (info w1) then CHR_CC else CHR_ERROR)).
  - unfold jeita_recovered. wp_step; [|by match goal with H : enable_sw_jeita _ = _ |- _ => rewrite H end].
    match goal with H : enable_sw_jeita _ = _ |- _ => rewrite H end. wp_step.
    destruct (at_extreme (info w1)) eqn:Ex; cbn [when].
    + do 3 wp_step. cbn. unfold at_extreme in *. cbn. rewrite Ex. cbn. by rewrite andb_false_r.
    + do 4 wp_step; rewrite Ex in *; cbn [negb andb] in *; [|by match goal with H : _ = false |- _ => rewrite H end].
      match goal with H : _ = true |- _ => rewrite H end. do 4 wp_step. apply wp_seat; [solve_state|].
      intros now w2 H2. apply (f_equal snd) in H2. cbn in H2. wps. exact H2.
  - intros [] w2 H2. do 2 wp_step. unfold pchr_disable_all_charging.
    apply wp_seat; [solve_state|]. intros [] w3 H3. wp_step. apply wp_seat; [solve_state|]. intros [] w4 H4.
    apply wp_seat; [solve_state|]. intros r w5 H5. wp_step. injection H3 as _ H3. injection H4 as _ H4.
    injection H5 as _ H5. change (st w3 = st w2) in H3. congruence.
Qed.

Lemma switch_state en (w : W) :
  st (exec (mtk_linear_charging_do_charging en) w) = if en then CHR_CC else CHR_ERROR.
Proof.
  apply (wp_exec _ (fun w' => st w' = if en then CHR_CC else CHR_ERROR)).
  unfold mtk_linear_charging_do_charging, pchr_disable_all_charging, modpc. wp_step. destruct en.
  - do 2 wp_step. apply wp_seat; [solve_state|]. intros now w1 H1. injection H1 as _ H1. wps. exact H1.
  - do 2 wp_step. apply (wp_keeps seat); [solve_state|]. intros [] w1 H1. injection H1 as _ H1. wps. exact H1.
Qed.

(** C39: where the chargers honour the manager's contract and no call of the
    algorithm but the one to start switches them on: once the pulse algorithm has
    found the battery full, or has been stopped, the charger is off and stays off
    through every pass, and the rest ends in three ways only.  A full battery is
    charged again from the pass on that reads a voltage below the recharge voltage
    (the JEITA voltage, or that of the battery, less the offset), a stopped one
    from the pass on that finds software JEITA out of the extreme zones with its
    recovery flag down, and either when charging is switched on. *)
Theorem pulse_rests_off (w w' : W) : rtc pulse_step w w' -> Rest w ->
  Rest w' /\
  (st w' = CHR_BATFULL ->
   st (exec pchr_do_algorithm w') = if full_reading w' <? recharge_voltage w' then CHR_CC else CHR_BATFULL) /\
  (st w' = CHR_ERROR ->
   st (exec pchr_do_algorithm w') = if jeita_recovered (info w') then CHR_CC else CHR_ERROR) /\
  (forall en, st (exec (mtk_linear_charging_do_charging en) w') = if en then CHR_CC else CHR_ERROR).
Proof using ChipLaws0 AlgLaws0.
  intros Hr Hw. split_and!; [|apply full_pass|apply error_exit|intros; apply switch_state].
  induction Hr as [|w w1 w2 Hs _ IH]; [done|]. by apply IH, (Rest_step w).
Qed.
End States.

(** ** When the battery counts as full *)

Section Full.
  Context {E : Type} `{!Platform E}.
Abbreviation W := (world E).

Lemma static_current (w : W) : static (exec get_battery_current w) = static w.
Proof.
  unfold get_battery_current, get_bat_psy, read_prop. run. by repeat (case_match; run).
Qed.

(** On every platform: the check says "full" exactly at the sixth reading in a row
    that is not above the threshold; a reading above it starts the count anew, and
    so does saying "full". *)
Theorem full_check_exact (w : W) :
  let low := s32 (eval get_battery_current w * 1000) <=? chg_full_current (pdata (static w)) in
  let n := full_check_count (static w) in
  0 <= n <= 5 ->
  eval charging_full_check w = low && (n =? 5) /\
  full_check_count (static (exec charging_full_check w)) = (if low && negb (n =? 5) then n + 1 else 0).
Proof.
  cbv zeta. intros Hn. set (c := s32 (eval get_battery_current w * 1000)).
  assert (wp charging_full_check (fun r w' => r = (c <=? chg_full_current (pdata (static w))) && (full_check_count (static w) =? 5) /\
    full_check_count (static w') = (if (c <=? chg_full_current (pdata (static w))) && negb (full_check_count (static w) =? 5)
      then full_check_count (static w) + 1 else 0)) w) as H; [|exact H].
  unfold charging_full_check, getpc. wp_step. apply wp_run. fold c. cbv zeta. pose proof (static_current w) as Es.
  revert Hn. generalize dependent (exec get_battery_current w). intros w1 <- Hn. do 2 wp_step. wp_step; bool_prop.
  - rewrite (proj2 (Z.leb_gt c _)) by lia. wps. by split.
  - rewrite (proj2 (Z.leb_le c _)) by lia. do 4 wp_step. cbn. rewrite (u32_id (full_check_count (static w1) + 1)) by (unfold is_u32; lia).
    destruct (full_check_count (static w1) =? 5) eqn:E5; bool_prop.
    + rewrite E5. wp_step; [|done]. wps. by split.
    + wp_step; bool_prop; [lia|]. wps. cbn. rewrite u32_id by (unfold is_u32; lia). by split.
Qed.
End Full.

(** ** Limits *)

Section Limits.
  Context {E : Type} `{!Platform E}.
Abbreviation W := (world E).

(** A kind of source for which the selection does not end early. *)
Definition pchr_ordinary (i : mtk_charger) : bool := match snd (pchr_limits i) with Some _ => true | None => false end.

(** The fields the limits are taken from. *)
Definition thermal_of (i : mtk_charger) : Z * Z :=
  (thermal_charging_current_limit (chg_data1 i), thermal_input_current_limit (chg_data1 i)).

Lemma pchr_thermal i :
  let j := thermal_icl1 (thermal_ccl1 (pchr_jeita i)) in
  thermal_of j = thermal_of i /\
  (thermal_charging_current_limit (chg_data1 i) <> -1 ->
   charging_current_limit (chg_data1 j) <= thermal_charging_current_limit (chg_data1 i)) /\
  (thermal_input_current_limit (chg_data1 i) <> -1 ->
   input_current_limit (chg_data1 j) <= thermal_input_current_limit (chg_data1 i)).
Proof.
  cbv zeta. assert (thermal_of (pchr_jeita i) = thermal_of i) as Hj by (unfold pchr_jeita; by case_tests).
  unfold thermal_of in *. injection Hj as H1 H2. rewrite <- H1, <- H2. generalize (pchr_jeita i). intros j.
  unfold thermal_icl1, thermal_ccl1. cbv zeta. case_tests; cbn; bool_prop; split_and!; try done; lia.
Qed.

Lemma pchr_limits_thermal i : thermal_of (fst (pchr_limits i)) = thermal_of i.
Proof. unfold pchr_limits. cbv zeta. by repeat (case_match; simplify_eq). Qed.

Lemma pchr_min_spec (w : W) :
  let p := chg_data1 (info w) in let p' := chg_data1 (info (exec pchr_check_min w)) in
  (charging_current_limit p' = charging_current_limit p \/ charging_current_limit p' = 0) /\
  (input_current_limit p' = input_current_limit p \/ input_current_limit p' = 0).
Proof. unfold pchr_check_min, with_chg1. run. case_tests; run; cbn; auto. Qed.

Lemma info_pchr_select_cv (w : W) :
  info (exec pchr_select_cv w) = set_lim (fun s => s <| set_cv := fst (pchr_cv (info w)) |>) (info w).
Proof. unfold pchr_select_cv, with_chg1. run. by case_match; run. Qed.

(** On every platform, whatever the charger answers: with an ordinary source the
    currents that the pulse algorithm selects are within the thermal limits,
    where those are set. *)
Theorem pulse_respects_thermal (w : W) :
  let p := chg_data1 (info w) in
  let p' := chg_data1 (info (exec pchr_select_charging_current_limit w)) in
  pchr_ordinary (info w) = true ->
  (0 <= thermal_charging_current_limit p -> charging_current_limit p' <= thermal_charging_current_limit p) /\
  (0 <= thermal_input_current_limit p -> input_current_limit p' <= thermal_input_current_limit p).
Proof.
  cbv zeta. unfold pchr_ordinary. intros Ho. unfold pchr_select_charging_current_limit. run. rewrite info_pchr_select_cv.
  set (i := set_lim _ (info w)). assert (thermal_of i = thermal_of (info w)) as Ht by done.
  replace (snd (pchr_limits i)) with (snd (pchr_limits (info w)))
    by (unfold i, pchr_limits, set_lim; cbv zeta; cbn; by repeat case_match).
  destruct (snd (pchr_limits (info w))) as [b|]; [|done]. run.
  match goal with |- context [exec pchr_check_min ?w1] => destruct (pchr_min_spec w1) as [H1 H2];
    assert (info w1 = thermal_icl1 (thermal_ccl1 (pchr_jeita (fst (pchr_limits i))))) as Ew
      by (run; by rewrite info_pchr_select_cv) end.
  rewrite Ew in H1, H2. destruct (pchr_thermal (fst (pchr_limits i))) as (_ & H3 & H4).
  pose proof (pchr_limits_thermal i) as Hl. rewrite Ht in Hl. unfold thermal_of in Hl. injection Hl as L1 L2.
  rewrite L1 in H3. rewrite L2 in H4. split; intros Hp.
  - destruct H1 as [-> | ->]; [apply H3; lia|done].
  - destruct H2 as [-> | ->]; [apply H4; lia|done].
Qed.
End Limits.

(** ** The error state *)

Lemma error_pass {E} `{!Platform E} (w : world E) :
  can_charging (info w) = true -> enable_sw_jeita (info w) = false -> st w = CHR_ERROR ->
  wp pchr_do_algorithm (fun _ w' => terms w' = (true, false, CHR_ERROR)) w.
Proof.
  intros C J S. assert (terms w = (true, false, CHR_ERROR)) as Ht by (unfold terms; by rewrite C, J, S). clear C J S.
  unfold pchr_do_algorithm. apply wp_bind, (wp_keeps terms); [solve_state|]. intros r w1 H1. rewrite Ht in H1.
  unfold getpc. do 2 wp_step. assert (pc_state (pdata (static w1)) = CHR_ERROR) as -> by (unfold terms, st in H1; congruence).
  change (CHR_ERROR =? CHR_CC) with false. change (CHR_ERROR =? CHR_TOPOFF) with false.
  change (CHR_ERROR =? CHR_BATFULL) with false. change (CHR_ERROR =? CHR_ERROR) with true. cbn [when].
  unfold mtk_linear_chr_err. do 4 wp_step. assert (enable_sw_jeita (info w1) = false) as -> by (unfold terms in H1; congruence).
  wp_step. wp_step; [done|].
  apply (wp_keeps terms); [unfold pchr_disable_all_charging; solve_state|]. intros z w2 H2. cbn beta.
  apply (wp_keeps terms); [unfold pchr_program; solve_state|]. intros z' w3 H3. congruence.
Qed.

(** Without software JEITA the algorithm leaves the error state only when charging
    is switched on, which the manager does when it gives the permission back.  But
    putting the cable back gives the permission without that: the manager then
    believes it charges, and every pass switches the charger off. *)
Theorem error_state_sticks {E} `{!Platform E} (w : world E) (type : Z) :
  st w = CHR_ERROR -> enable_sw_jeita (info w) = false ->
  let w1 := exec (mtk_charger_plug_in type) w in
  let w2 := exec pchr_do_algorithm w1 in
  can_charging (info w1) = true /\ st w1 = CHR_ERROR /\
  can_charging (info w2) = true /\ st w2 = CHR_ERROR /\ enable_sw_jeita (info w2) = false.
Proof.
  intros Hs Hj. cbv zeta. assert (terms (exec (mtk_charger_plug_in type) w) = (true, false, CHR_ERROR)) as H1.
  { unfold mtk_charger_plug_in. rewrite exec_bind. set (w0 := exec (modi (plug_in_fields type)) w).
    match goal with |- terms (exec ?m w0) = _ => assert (keeps terms m) as Hk end.
    { unfold notify_algs, battery_get_soc. solve_state. }
    rewrite (Hk w0). unfold terms. change (st w0) with (st w). rewrite Hs. cbn. by rewrite Hj. }
  unfold terms in H1. injection H1 as C1 J1 S1. split_and!; [done..| | |].
  all: enough (terms (exec pchr_do_algorithm (exec (mtk_charger_plug_in type) w)) = (true, false, CHR_ERROR)) as H
    by (unfold terms in H; congruence).
  all: apply (wp_exec pchr_do_algorithm (fun w => terms w = (true, false, CHR_ERROR))).
  all: revert C1 J1 S1; generalize (exec (mtk_charger_plug_in type) w); clear; intros w C1 J1 S1.
  all: exact (error_pass w C1 J1 S1).
Qed.

(** ** The board *)

(** The board with the pulse algorithm, in top-off with five low readings. *)
Definition pulse_world : world board :=
  world0 <| info ::= fun i => i <| algo := AlgoPulse |> <| enable_sw_jeita := false |> |>
         <| static ::= fun s => s <| pdata := mk_pcharger_data CHR_TOPOFF false 0 0 0 0 0 0 150000 4200000 150000 |>
                                  <| full_check_count := 5 |> |>.

Lemma pulse_rests_off_witness :
  let w := exec pchr_do_algorithm pulse_world in
  st w = CHR_BATFULL /\ b_enabled (env w) = false.
Proof.
  split; [vm_compute; reflexivity|].
  refine (proj2 (proj1 (pulse_rests_off b_enabled 0 pulse_world _ (rtc_once _ _ (PulsePass b_enabled pulse_world)) _)) _);
    [split; [reflexivity|vm_compute; discriminate]|vm_compute; reflexivity].
Defined.

Lemma pulse_respects_thermal_witness :
  let w := pulse_world <| info ::= fun i => i <| chg_data1 ::= fun p => p <| thermal_charging_current_limit := 300000 |> |> |> in
  charging_current_limit (chg_data1 (info (exec pchr_select_charging_current_limit w))) <= 300000.
Proof.
  refine (proj1 (pulse_respects_thermal (pulse_world <| info ::= fun i =>
    i <| chg_data1 ::= fun p => p <| thermal_charging_current_limit := 300000 |> |> |>) _) _);
    [vm_compute; reflexivity|vm_compute; discriminate].
Defined.

(** The manager with the pulse algorithm, stopped and then given another cable:
    two passes later it is permitted to charge, and does not. *)
Example replugged_not_charging :
  let stop := exec charger_check_status (pulse_world <| info ::= fun i => i <| cmd_discharging := true |> |>) in
  let replug := exec (mtk_charger_plug_in POWER_SUPPLY_TYPE_USB_DCP) (stop <| info ::= fun i => i <| cmd_discharging := false |> |>) in
  let w := exec (charger_check_status ;;; run_algorithm true ;;; charger_check_status ;;; run_algorithm true) replug in
  can_charging (info w) = true /\ st w = CHR_ERROR /\ b_enabled (env w) = false.
Proof. vm_compute. auto. Qed.
