(* ===== verification/Coulomb.v ===== *)
(** * The coulomb service of the battery gauge

    mtk_battery_coulomb_service.c: consumers ask to be called when the coulomb
    counter has moved by an amount.  They wait in two lists, those for a rising
    counter in ascending and those for a falling counter in descending order of
    the reading they wait for; the hardware has one threshold for each
    direction.  The consumers are the four of mtk_battery.c, with their
    handlers and the sysfs fields that start and stop them, in daemon mode. *)

From S2P Require Import Prelude.
#[local] Open Scope Z_scope.

(** [gm->coulomb_plus], [coulomb_minus], [uisoc_plus] and [uisoc_minus]. *)
Inductive consumer : Type := CoulombPlus | CoulombMinus | UisocPlus | UisocMinus.
#[global] Instance consumer_eq_dec : EqDecision consumer.
Proof. solve_decision. Defined.

(** [struct gauge_consumer]; whether it is queued is seen in the lists. *)
Record gauge_consumer : Type := mk_consumer {
  gc_start : Z;
  gc_end : Z;
  gc_variable : Z;
  gc_callback : bool
}.
#[global] Instance gauge_consumer_struct : Struct gauge_consumer := fun r =>
  mk_consumer (gc_start r) (gc_end r) (gc_variable r) (gc_callback r).

(** [struct mtk_coulomb_service]; [cs_calls] are the callbacks made, the latest
    first. *)
Record coulomb_service : Type := mk_cs {
  head_plus : list consumer;
  head_minus : list consumer;
  reset_coulomb : Z;
  wlock : bool;
  thread_timeout : bool;
  pre_coulomb : Z;
  cs_init : bool;
  cs_calls : list consumer
}.
#[global] Instance coulomb_service_struct : Struct coulomb_service := fun r =>
  mk_cs (head_plus r) (head_minus r) (reset_coulomb r) (wlock r) (thread_timeout r) (pre_coulomb r)
    (cs_init r) (cs_calls r).

(** The part of [struct mtk_battery] that the service and its consumers use. *)
Record mtk_battery : Type := mk_battery {
  cs : coulomb_service;
  consumers : consumer -> gauge_consumer;
  coulomb_int_gap : Z;
  coulomb_int_ht : Z;
  coulomb_int_lt : Z;
  uisoc_int_ht_gap : Z;
  uisoc_int_lt_gap : Z;
  uisoc_int_ht_en : Z;
  uisoc_int_lt_en : Z;
  disableGM30 : bool
}.
#[global] Instance mtk_battery_struct : Struct mtk_battery := fun r =>
  mk_battery (cs r) (consumers r) (coulomb_int_gap r) (coulomb_int_ht r) (coulomb_int_lt r)
    (uisoc_int_ht_gap r) (uisoc_int_lt_gap r) (uisoc_int_ht_en r) (uisoc_int_lt_en r) (disableGM30 r).

(** The gauge: its counter, its two thresholds (relative to the counter), the
    reset, and what the handlers call of the daemon. *)
Class Gauge (G : Type) : Type := {
  gauge_get_coulomb : M G Z;
  gauge_set_ht_interrupt : Z -> M G unit;
  gauge_set_lt_interrupt : Z -> M G unit;
  gauge_set_reset : M G unit;
  fg_sw_bat_cycle_accu : M G unit;
  wakeup_fg_algo : Z -> M G unit
}.

Record bworld (G : Type) : Type := mk_bworld { gm : mtk_battery; ga : G }.
Arguments mk_bworld {G}.
Arguments gm {G}.
Arguments ga {G}.
#[global] Instance bworld_struct G : Struct (bworld G) := fun r => mk_bworld (gm r) (ga r).

Definition FG_INTR_BAT_INT1_HT : Z := 32.
Definition FG_INTR_BAT_INT1_LT : Z := 64.
Definition FG_INTR_BAT_INT2_HT : Z := 128.
Definition FG_INTR_BAT_INT2_LT : Z := 256.

Section Service.
  Context {G : Type} `{!Gauge G}.
  Abbreviation W := (bworld G).

Definition gauge {A} (m : M G A) : M W A := fun w => let '(a, g) := m (ga w) in (a, w <| ga := g |>).
Definition getb {A} (f : mtk_battery -> A) : M W A := gets (fun w => f (gm w)).
Definition modb (f : mtk_battery -> mtk_battery) : M W unit := modify (fun w => w <| gm ::= f |>).
Definition modcs (f : coulomb_service -> coulomb_service) : M W unit := modb (fun b => b <| cs ::= f |>).
Definition set_consumer (c : consumer) (v : gauge_consumer) (f : consumer -> gauge_consumer) : consumer -> gauge_consumer :=
  fun x => if decide (x = c) then v else f x.
Definition end_of (b : mtk_battery) (c : consumer) : Z := gc_end (consumers b c).

(** [gauge_get_property(GAUGE_PROP_COULOMB, &val)] with an [int]. *)
Definition get_car : M W Z := let! v := gauge gauge_get_coulomb in ret (s32 v).

Definition wake_up_gauge_coulomb : M W unit :=
  let! init := getb (fun b => cs_init (cs b)) in
  when init
    (gauge (gauge_set_ht_interrupt 300) ;;; gauge (gauge_set_lt_interrupt 300) ;;;
     modcs (fun c => c <| wlock := true |> <| thread_timeout := true |>)).

(** It reads the counter for the log. *)
Definition gauge_coulomb_dump_list : M W unit :=
  let! init := getb (fun b => cs_init (cs b)) in when init (ignore get_car).

Definition gauge_coulomb_before_reset : M W unit :=
  let! init := getb (fun b => cs_init (cs b)) in
  when init
    (gauge (gauge_set_ht_interrupt 0) ;;; gauge (gauge_set_lt_interrupt 0) ;;;
     let! val := get_car in
     modcs (fun c => c <| reset_coulomb := u64 val |>) ;;;
     gauge_coulomb_dump_list).

(** [ptr->end = duraction] and [ptr->variable = duraction] of an [unsigned long]. *)
Definition rebase (now : Z) (v : gauge_consumer) : gauge_consumer :=
  let duraction := u64 (gc_end v - now) in
  v <| gc_start := 0 |> <| gc_end := s64 duraction |> <| gc_variable := s32 duraction |>.

Definition gauge_coulomb_after_reset : M W unit :=
  let! init := getb (fun b => cs_init (cs b)) in
  when init
    (modb (fun b => b <| consumers ::= fun f => fun c =>
       if bool_decide (c ∈ head_plus (cs b) ++ head_minus (cs b)) then rebase (reset_coulomb (cs b)) (f c) else f c |>) ;;;
     gauge_coulomb_dump_list ;;;
     wake_up_gauge_coulomb).

(** [list_del_init]: out of the list it is in. *)
Definition list_del (c : consumer) (s : coulomb_service) : coulomb_service :=
  s <| head_plus ::= filter (fun x => x <> c) |> <| head_minus ::= filter (fun x => x <> c) |>.

(** The place of a consumer: behind those that wait for the same reading. *)
Fixpoint add_plus (e : consumer -> Z) (c : consumer) (l : list consumer) : list consumer :=
  match l with
  | [] => [c]
  | p :: l' => if e c <? e p then c :: l else p :: add_plus e c l'
  end.
Fixpoint add_minus (e : consumer -> Z) (c : consumer) (l : list consumer) : list consumer :=
  match l with
  | [] => [c]
  | p :: l' => if e p <? e c then c :: l else p :: add_minus e c l'
  end.

(** The loops over the expired: whether there was one, and where they stopped. *)
Fixpoint scan_plus (e : consumer -> Z) (now : Z) (l : list consumer) (wake : bool) (ptr : option consumer)
    : bool * option consumer :=
  match l with
  | [] => (wake, ptr)
  | p :: l' => if e p - now <=? 0 then scan_plus e now l' true (Some p) else (wake, Some p)
  end.
Fixpoint scan_minus (e : consumer -> Z) (now : Z) (l : list consumer) (wake : bool) (ptr : option consumer)
    : bool * option consumer :=
  match l with
  | [] => (wake, ptr)
  | p :: l' => if 0 <=? e p - now then scan_minus e now l' true (Some p) else (wake, Some p)
  end.

Definition gauge_coulomb_start (c : consumer) (car : Z) : M W unit :=
  if car =? 0 then ret tt
  else
    let! init := getb (fun b => cs_init (cs b)) in
    if negb init then ret tt
    else
      let! now := get_car in
      modcs (list_del c) ;;;
      modb (fun b => b <| consumers ::= fun f => set_consumer c
        ((f c) <| gc_start := now |> <| gc_end := now + car |> <| gc_variable := car |>) f |>) ;;;
      let! e := getb end_of in
      let! wake :=
        (if 0 <? car then
           modcs (fun s => s <| head_plus ::= add_plus e c |>) ;;;
           let! l := getb (fun b => head_plus (cs b)) in
           let '(wake, ptr) := scan_plus e now l false None in
           gauge (gauge_set_ht_interrupt (s32 (default 0 (e <$> ptr) - now))) ;;; ret wake
         else
           modcs (fun s => s <| head_minus ::= add_minus e c |>) ;;;
           let! l := getb (fun b => head_minus (cs b)) in
           let '(wake, ptr) := scan_minus e now l false None in
           gauge (gauge_set_lt_interrupt (s32 (now - default 0 (e <$> ptr)))) ;;; ret wake) in
      when wake wake_up_gauge_coulomb.

Definition gauge_coulomb_stop (c : consumer) : M W unit :=
  let! init := getb (fun b => cs_init (cs b)) in
  when init (modcs (list_del c)).

(** ** The consumers (mtk_battery.c) *)

Definition fg_coulomb_int_h_handler : M W unit :=
  let! car := get_car in
  modb (fun b => b <| coulomb_int_ht := s32 (car + coulomb_int_gap b) |>
                   <| coulomb_int_lt := s32 (car - coulomb_int_gap b) |>) ;;;
  let! gap := getb coulomb_int_gap in
  gauge_coulomb_start CoulombPlus gap ;;;
  gauge_coulomb_start CoulombMinus (s32 (- gap)) ;;;
  gauge (wakeup_fg_algo FG_INTR_BAT_INT1_HT).

Definition fg_coulomb_int_l_handler : M W unit :=
  let! car := get_car in
  gauge fg_sw_bat_cycle_accu ;;;
  modb (fun b => b <| coulomb_int_ht := s32 (car + coulomb_int_gap b) |>
                   <| coulomb_int_lt := s32 (car - coulomb_int_gap b) |>) ;;;
  let! gap := getb coulomb_int_gap in
  gauge_coulomb_start CoulombPlus gap ;;;
  gauge_coulomb_start CoulombMinus (s32 (- gap)) ;;;
  gauge (wakeup_fg_algo FG_INTR_BAT_INT1_LT).

Definition fg_bat_int2_h_handler : M W unit :=
  ignore get_car ;;; gauge fg_sw_bat_cycle_accu ;;; gauge (wakeup_fg_algo FG_INTR_BAT_INT2_HT).
Definition fg_bat_int2_l_handler : M W unit :=
  ignore get_car ;;; gauge fg_sw_bat_cycle_accu ;;; gauge (wakeup_fg_algo FG_INTR_BAT_INT2_LT).

(** [ptr->callback], as probe sets it. *)
Definition callback (c : consumer) : M W unit :=
  match c with
  | CoulombPlus => fg_coulomb_int_h_handler
  | CoulombMinus => fg_coulomb_int_l_handler
  | UisocPlus => fg_bat_int2_h_handler
  | UisocMinus => fg_bat_int2_l_handler
  end.

Definition coulomb_int_gap_set (val : Z) : M W unit :=
  let! car := get_car in
  modb (fun b => b <| coulomb_int_gap := val |> <| coulomb_int_ht := s32 (car + val) |>
                   <| coulomb_int_lt := s32 (car - val) |>) ;;;
  gauge_coulomb_start CoulombPlus val ;;;
  gauge_coulomb_start CoulombMinus (s32 (- val)).
Definition uisoc_ht_int_gap_set (val : Z) : M W unit :=
  modb (fun b => b <| uisoc_int_ht_gap := val |>) ;;; gauge_coulomb_start UisocPlus val.
Definition uisoc_lt_int_gap_set (val : Z) : M W unit :=
  modb (fun b => b <| uisoc_int_lt_gap := val |>) ;;; gauge_coulomb_start UisocMinus (s32 (- val)).
Definition en_uisoc_ht_int_set (val : Z) : M W unit :=
  modb (fun b => b <| uisoc_int_ht_en := val |>) ;;; when (val =? 0) (gauge_coulomb_stop UisocPlus).
Definition en_uisoc_lt_int_set (val : Z) : M W unit :=
  modb (fun b => b <| uisoc_int_lt_en := val |>) ;;; when (val =? 0) (gauge_coulomb_stop UisocMinus).

(** [reset_set], but for the cycle counts and the average current. *)
Definition reset_set : M W unit :=
  let! off := getb disableGM30 in
  when (negb off)
    (gauge fg_sw_bat_cycle_accu ;;; ignore get_car ;;;
     gauge_coulomb_before_reset ;;; gauge gauge_set_reset ;;; gauge_coulomb_after_reset).

(** ** The thread *)

(** Expired consumers leave the list and are called, the first of the list each
    time; [false] when [fuel] runs out. *)
Fixpoint expire_plus (fuel : nat) (car : Z) : M W bool :=
  match fuel with
  | O => ret false
  | S n =>
      let! l := getb (fun b => head_plus (cs b)) in
      match l with
      | [] => ret true
      | c :: _ =>
          let! e := getb (fun b => end_of b c) in
          if e <=? car then
            modcs (list_del c) ;;;
            let! cb := getb (fun b => gc_callback (consumers b c)) in
            when cb (modcs (fun s => s <| cs_calls ::= cons c |>) ;;; callback c) ;;;
            expire_plus n car
          else ret true
      end
  end.
Fixpoint expire_minus (fuel : nat) (car : Z) : M W bool :=
  match fuel with
  | O => ret false
  | S n =>
      let! l := getb (fun b => head_minus (cs b)) in
      match l with
      | [] => ret true
      | c :: _ =>
          let! e := getb (fun b => end_of b c) in
          if car <=? e then
            modcs (list_del c) ;;;
            let! cb := getb (fun b => gc_callback (consumers b c)) in
            when cb (modcs (fun s => s <| cs_calls ::= cons c |>) ;;; callback c) ;;;
            expire_minus n car
          else ret true
      end
  end.

Definition gauge_coulomb_int_handler (fuel : nat) : M W bool :=
  let! car := get_car in
  let! ok1 := expire_plus fuel car in
  let! p := getb (fun b => (head (head_plus (cs b)), end_of b)) in
  (match fst p with
   | Some c => gauge (gauge_set_ht_interrupt (s32 (snd p c - car)))
   | None => ret tt
   end) ;;;
  let! ok2 := expire_minus fuel car in
  let! p := getb (fun b => (head (head_minus (cs b)), end_of b)) in
  (match fst p with
   | Some c => gauge (gauge_set_lt_interrupt (s32 (car - snd p c)))
   | None => ret tt
   end) ;;;
  modcs (fun s => s <| pre_coulomb := car |>) ;;;
  ret (ok1 && ok2).

(** A pass of [gauge_coulomb_thread], once [coulomb_thread_timeout] is set. *)
Definition gauge_coulomb_thread (fuel : nat) : M W bool :=
  modcs (fun s => s <| thread_timeout := false |>) ;;;
  let! ok := gauge_coulomb_int_handler fuel in
  modcs (fun s => s <| wlock := false |>) ;;;
  ret ok.

Definition coulomb_irq : M W unit := wake_up_gauge_coulomb.

Definition gauge_coulomb_service_init : M W unit :=
  modcs (fun s => s <| head_minus := [] |> <| head_plus := [] |> <| wlock := false |>) ;;;
  let! val := get_car in
  modcs (fun s => s <| pre_coulomb := val |> <| cs_init := true |>).
End Service.
