(* ===== verification/CoulombSpec.v ===== *)
(** * The coulomb service: what it guarantees

    The lists stay in order, every expired consumer is called and no other, the
    thresholds of the hardware never lie behind the first reading a consumer
    waits for, and a reset of the counter changes no distance. *)

From Stdlib Require Import Sorting.Sorted.
From S2P Require Import Prelude Coulomb.
#[local] Open Scope Z_scope.

(** A gauge whose counter moves only between the operations: [now] is the
    counter, [ht] and [lt] the readings at which its interrupts come.  For
    a distance below [reach] an interrupt comes at most [lag] late, and it may
    come early; a distance of zero turns it off. *)
Class GaugeLaws {G} `{!Gauge G} (now ht lt : G -> Z) (reach lag : Z) : Prop := {
  gl_reach : 0 < reach <= 2 ^ 31;
  gl_range : forall g, is_s32 (now g);
  gl_get : forall g, exists g', gauge_get_coulomb g = (now g, g') /\ now g' = now g /\ ht g' = ht g /\ lt g' = lt g;
  gl_ht : forall v g, let g' := exec (gauge_set_ht_interrupt v) g in
    now g' = now g /\ lt g' = lt g /\ (0 < v < reach -> ht g' <= now g + v + lag);
  gl_lt : forall v g, let g' := exec (gauge_set_lt_interrupt v) g in
    now g' = now g /\ ht g' = ht g /\ (0 < v < reach -> now g - v - lag <= lt g');
  gl_reset : forall g, now (exec gauge_set_reset g) = 0;
  gl_accu : forall g, let g' := exec fg_sw_bat_cycle_accu g in now g' = now g /\ ht g' = ht g /\ lt g' = lt g;
  gl_algo : forall e g, let g' := exec (wakeup_fg_algo e) g in now g' = now g /\ ht g' = ht g /\ lt g' = lt g
}.

(** ** Lists in order *)

Definition rising (e : consumer -> Z) : list consumer -> Prop := StronglySorted (fun a b => e a <= e b).
Definition falling (e : consumer -> Z) : list consumer -> Prop := StronglySorted (fun a b => e b <= e a).

(** A list for a falling counter is one for a rising counter with the signs changed. *)
Lemma add_minus_opp e c l : add_minus e c l = add_plus (fun x => - e x) c l.
Proof.
  induction l as [|p l IH]; [done|]. cbn. rewrite IH.
  destruct (Z.ltb_spec (e p) (e c)), (Z.ltb_spec (- e c) (- e p)); done || lia.
Qed.
Lemma scan_minus_opp e now l k q : scan_minus e now l k q = scan_plus (fun x => - e x) (- now) l k q.
Proof.
  revert k q. induction l as [|p l IH]; intros k q; [done|]. cbn. rewrite IH.
  destruct (Z.leb_spec 0 (e p - now)), (Z.leb_spec (- e p - - now) 0); done || lia.
Qed.
Lemma falling_opp e l : falling e l <-> rising (fun x => - e x) l.
Proof.
  unfold falling, rising.
  split; induction 1 as [|a l _ IH H]; constructor; try done; (eapply Forall_impl; [exact H|cbn; lia]).
Qed.

Lemma add_plus_perm e c l : add_plus e c l ≡ₚ c :: l.
Proof.
  induction l as [|p l IH]; [done|]. cbn. destruct (e c <? e p); [done|]. rewrite IH. apply Permutation_swap.
Qed.

Lemma add_plus_rising e c l : rising e l -> rising e (add_plus e c l).
Proof.
  unfold rising. induction 1 as [|p l Hs IH H]; cbn; [by repeat constructor|].
  destruct (Z.ltb_spec (e c) (e p)) as [Hc|Hc].
  - constructor; [by constructor|]. constructor; [lia|]. eapply Forall_impl; [exact H|]. cbn. lia.
  - constructor; [exact IH|]. rewrite add_plus_perm. by constructor.
Qed.

Lemma rising_filter e P `{!forall x, Decision (P x)} l : rising e l -> rising e (filter P l).
Proof.
  unfold rising. induction 1 as [|p l Hs IH Hf]; [constructor|]. rewrite filter_cons. case_decide; [|done].
  constructor; [exact IH|]. rewrite Forall_forall in *. intros x [_ Hx]%list_elem_of_filter. by apply Hf.
Qed.

Lemma rising_ext e e' l : (forall x, x ∈ l -> e x = e' x) -> rising e l -> rising e' l.
Proof.
  intros He H. unfold rising in *. induction H as [|p l Hs IH H]; constructor.
  - apply IH. intros x Hx. apply He. by right.
  - rewrite Forall_forall in *. intros x Hx. rewrite <- !He by (by left || by right). by apply H.
Qed.

Lemma rising_head e c l x : rising e (c :: l) -> x ∈ c :: l -> e c <= e x.
Proof.
  intros H Hx. inversion H as [|? ? _ Hf]; subst. apply elem_of_cons in Hx as [->|Hx]; [lia|].
  rewrite Forall_forall in Hf. by apply Hf.
Qed.

(** The scan stops at the first consumer that has not expired; none has expired
    when it reports none. *)
Lemma scan_plus_spec e now l k q :
  rising e l -> l <> [] ->
  exists p, snd (scan_plus e now l k q) = Some p /\ p ∈ l /\
    (fst (scan_plus e now l k q) = false -> k = false /\ now < e p /\ forall x, x ∈ l -> e p <= e x).
Proof.
  intros Hs. revert k q. induction l as [|c l IH]; intros k q Hl; [done|]. cbn [scan_plus].
  destruct (Z.leb_spec (e c - now) 0).
  - destruct l as [|d l].
    + exists c. cbn. split; [done|]. split; [by left|done].
    + inversion Hs; subst. destruct (IH ltac:(done) true (Some c) ltac:(done)) as (p & Hp1 & Hp2 & Hp3).
      exists p. split; [done|]. split; [by right|]. intros Hf. by destruct (Hp3 Hf).
  - exists c. cbn. split; [done|]. split; [by left|]. intros ->. split; [done|]. split; [lia|]. intros x. by apply rising_head.
Qed.

Lemma filter_out (c : consumer) (l : list consumer) : c ∉ l -> filter (fun x => x <> c) l = l.
Proof.
  induction l as [|p l IH]; intros H; [done|]. rewrite filter_cons, decide_True by set_solver.
  f_equal. apply IH. set_solver.
Qed.

(** ** The state of the service *)

Definition up (c : consumer) : bool := match c with CoulombPlus | UisocPlus => true | _ => false end.

Section Inv.
  Context {G : Type} `{!Gauge G} (now ht lt : G -> Z) (reach lag : Z) `{!GaugeLaws now ht lt reach lag}.
  Abbreviation W := (bworld G).

Definition plus (w : W) : list consumer := head_plus (cs (gm w)).
Definition minus (w : W) : list consumer := head_minus (cs (gm w)).
Definition ends (w : W) : consumer -> Z := end_of (gm w).
Definition woken (w : W) : bool := thread_timeout (cs (gm w)).
Definition calls (w : W) : list consumer := cs_calls (cs (gm w)).
Definition car (w : W) : Z := now (ga w).

(** The consumers for a rising counter are in the first list, the others in the
    second, each once and in order; the distances are below [reach]. *)
Record base (w : W) : Prop := {
  b_init : cs_init (cs (gm w)) = true;
  b_plus : forall c, c ∈ plus w -> up c = true;
  b_minus : forall c, c ∈ minus w -> up c = false;
  b_nodup_p : NoDup (plus w);
  b_nodup_m : NoDup (minus w);
  b_rising : rising (ends w) (plus w);
  b_falling : falling (ends w) (minus w);
  b_near : forall c, c ∈ plus w \/ c ∈ minus w -> - reach < ends w c - car w < reach;
  b_gap : 0 < coulomb_int_gap (gm w) < reach;
  b_callback : forall c, gc_callback (consumers (gm w) c) = true
}.

(** Unless the thread has been woken, the interrupts come at most [lag] after the
    first consumer expires. *)
Definition armed_plus (w : W) : Prop := woken w = false -> forall c, c ∈ plus w -> ht (ga w) <= ends w c + lag.
Definition armed_minus (w : W) : Prop := woken w = false -> forall c, c ∈ minus w -> ends w c - lag <= lt (ga w).

Lemma reach_ok : 0 < reach <= 2 ^ 31.
Proof using GaugeLaws0. exact gl_reach. Qed.
Ltac in_s32 := pose proof reach_ok; unfold is_s32; lia.

Lemma wp_gauge {A} (m : M G A) Q (w : W) :
  Q (eval m (ga w)) (w <| ga := exec m (ga w) |>) -> wp (gauge m) Q w.
Proof. unfold wp, gauge, eval, exec. by destruct (m (ga w)). Qed.

Lemma wp_car Q (w : W) :
  (forall g', now g' = now (ga w) -> ht g' = ht (ga w) -> lt g' = lt (ga w) -> Q (car w) (w <| ga := g' |>)) ->
  wp get_car Q w.
Proof using GaugeLaws0.
  intros H. apply wp_bind, wp_gauge, wp_ret. destruct (gl_get (ga w)) as (g' & E & H1 & H2 & H3).
  unfold eval, exec. rewrite E. cbn [fst snd]. rewrite s32_id by apply gl_range. by apply H.
Qed.

(** What starting or restarting [c] for a reading [v] leaves. *)
Record placed (c : consumer) (v : Z) (w w' : W) : Prop := {
  pl_base : base w';
  pl_car : car w' = car w;
  pl_end : ends w' c = v;
  pl_ends : forall x, x <> c -> ends w' x = ends w x;
  pl_plus : plus w' = if up c then add_plus (ends w') c (filter (fun x => x <> c) (plus w)) else plus w;
  pl_minus : minus w' = if up c then minus w else add_minus (ends w') c (filter (fun x => x <> c) (minus w));
  pl_calls : calls w' = calls w;
  pl_gap : coulomb_int_gap (gm w') = coulomb_int_gap (gm w)
}.

(** With the thresholds, unless it woke the thread. *)
Definition started (c : consumer) (v : Z) (w w' : W) : Prop :=
  placed c v w w' /\
  (woken w' = false -> woken w = false /\
   if up c then armed_plus w' /\ lt (ga w') = lt (ga w) else armed_minus w' /\ ht (ga w') = ht (ga w)).

(** The lists, the consumers and the counter are all that matters. *)
Lemma base_same w w' :
  base w -> cs_init (cs (gm w')) = true -> plus w' = plus w -> minus w' = minus w ->
  consumers (gm w') = consumers (gm w) -> car w' = car w -> coulomb_int_gap (gm w') = coulomb_int_gap (gm w) -> base w'.
Proof.
  intros [] Hi Hp Hm Hc Hn Hg. assert (ends w' = ends w) as He by (unfold ends, end_of; by rewrite Hc).
  constructor; rewrite ?Hp, ?Hm, ?He, ?Hn, ?Hg, ?Hc; done.
Qed.

Lemma wake_up_wp Q (w : W) :
  cs_init (cs (gm w)) = true ->
  (forall g', now g' = now (ga w) -> Q tt (mk_bworld ((gm w) <| cs ::= fun c => c <| wlock := true |> <| thread_timeout := true |> |>) g')) ->
  wp wake_up_gauge_coulomb Q w.
Proof using GaugeLaws0.
  intros Hi H. apply wp_bind, wp_gets. rewrite Hi. apply wp_bind, wp_gauge, wp_bind, wp_gauge, wp_modify.
  destruct (gl_ht 300 (ga w)) as (H1 & _). cbn. destruct (gl_lt 300 (exec (gauge_set_ht_interrupt 300) (ga w))) as (H2 & _).
  apply H. cbn. by rewrite H2, H1.
Qed.

Lemma wake_placed c v w w1 : placed c v w w1 -> wp wake_up_gauge_coulomb (fun _ w' => started c v w w') w1.
Proof using GaugeLaws0.
  intros []. pose proof pl_base0 as Hb. apply wake_up_wp; [apply Hb|]. intros g' Hg.
  split; [|done]. constructor; try done; [apply (base_same w1); try done; apply Hb|unfold car in *; cbn; congruence].
Qed.

Lemma add_nodup e c (l : list consumer) : NoDup l -> NoDup (add_plus e c (filter (fun x => x <> c) l)).
Proof.
  intros H. rewrite add_plus_perm. constructor; [|by apply NoDup_filter].
  intros [Hc _]%list_elem_of_filter. done.
Qed.

Lemma add_elem e c (l : list consumer) x :
  x ∈ add_plus e c (filter (fun x => x <> c) l) -> x = c \/ (x <> c /\ x ∈ l).
Proof. rewrite add_plus_perm, elem_of_cons, list_elem_of_filter. naive_solver. Qed.

(** ** Starting a consumer *)

(** The state in which a start examines the list. *)
Definition queue (c : consumer) (v : Z) (w : W) (g : G) : W :=
  let b := (gm w) <| cs ::= list_del c |>
    <| consumers ::= fun f => set_consumer c ((f c) <| gc_start := car w |> <| gc_end := car w + v |> <| gc_variable := v |>) f |> in
  let e := end_of b in
  mk_bworld (b <| cs ::= fun s => if 0 <? v then s <| head_plus ::= add_plus e c |> else s <| head_minus ::= add_minus e c |> |>) g.

(** The distance asked for is on the consumer's side. *)
Definition sided (c : consumer) (v : Z) : Prop := if up c then 0 < v < reach else - reach < v < 0.

Lemma queue_placed c v w g : base w -> sided c v -> now g = car w -> placed c (car w + v) w (queue c v w g).
Proof.
  intros [] Hv Hg. set (w' := queue c v w g).
  assert (ends w' c = car w + v) as Ec by (unfold ends, end_of, w', queue, set_consumer; cbn; by rewrite decide_True).
  assert (forall x, x <> c -> ends w' x = ends w x) as Ex by (intros x Hx; unfold ends, end_of, w', queue, set_consumer; cbn; by rewrite decide_False).
  assert (up c = false -> c ∉ plus w) as Hp by (intros H Hc%b_plus0; congruence).
  assert (up c = true -> c ∉ minus w) as Hm by (intros H Hc%b_minus0; congruence).
  assert (plus w' = if up c then add_plus (ends w') c (filter (fun x => x <> c) (plus w)) else plus w) as Pl.
  { unfold sided in Hv. unfold plus at 1, w', queue. cbn. destruct (up c), (Z.ltb_spec 0 v); try lia; [done|]. apply filter_out. auto. }
  assert (minus w' = if up c then minus w else add_minus (ends w') c (filter (fun x => x <> c) (minus w))) as Ml.
  { unfold sided in Hv. unfold minus at 1, w', queue. cbn. destruct (up c), (Z.ltb_spec 0 v); try lia; [|done]. apply filter_out. auto. }
  assert (forall x, x ∈ plus w' -> (x = c /\ up c = true) \/ (x <> c /\ x ∈ plus w)) as Ep.
  { intros x. rewrite Pl. destruct (up c) eqn:Hu; [intros [->|?]%add_elem; auto|]. intros Hx. right. split; [|done]. by intros ->; apply Hp. }
  assert (forall x, x ∈ minus w' -> (x = c /\ up c = false) \/ (x <> c /\ x ∈ minus w)) as Em.
  { intros x. rewrite Ml, add_minus_opp. destruct (up c) eqn:Hu; [|intros [->|?]%add_elem; auto]. intros Hx. right. split; [|done]. by intros ->; apply Hm. }
  assert (cs_init (cs (gm w')) = true /\ calls w' = calls w) as [Hi Hc] by (unfold calls, w', queue; cbn; by destruct (0 <? v)).
  constructor; try done. constructor; try done.
  - intros x [[-> ?]|[_ ?]]%Ep; auto.
  - intros x [[-> ?]|[_ ?]]%Em; auto.
  - rewrite Pl. destruct (up c); [by apply add_nodup|done].
  - rewrite Ml, add_minus_opp. destruct (up c); [done|by apply add_nodup].
  - rewrite Pl. destruct (up c) eqn:Hu; [apply add_plus_rising|]; (eapply rising_ext; [|try apply rising_filter; exact b_rising0]).
    + intros x [Hx _]%list_elem_of_filter. symmetry. by apply Ex.
    + intros x Hx. symmetry. apply Ex. intros ->. by apply Hp.
  - apply falling_opp in b_falling0. apply falling_opp. rewrite Ml, add_minus_opp.
    destruct (up c) eqn:Hu; [|apply add_plus_rising]; (eapply rising_ext; [|try apply rising_filter; exact b_falling0]).
    + intros x Hx. cbn. rewrite Ex; [done|]. intros ->. by apply Hm.
    + intros x [Hx _]%list_elem_of_filter. cbn. by rewrite Ex.
  - change (car w') with (now g). rewrite Hg. intros x [[[-> ?]|[? ?]]%Ep|[[-> ?]|[? ?]]%Em];
      first [rewrite Ec; unfold sided in Hv; destruct (up c); lia|rewrite Ex by done; apply b_near0; auto].
  - intros x. unfold w'. cbn. unfold set_consumer. case_decide; [subst; cbn|]; apply b_callback0.
Qed.

Lemma elem_nonempty {A} (x : A) l : x ∈ l -> l <> [].
Proof. by intros H ->; apply not_elem_of_nil in H. Qed.

Lemma add_self e c l : c ∈ add_plus e c l.
Proof. rewrite add_plus_perm. by left. Qed.

Lemma placed_gauge c v w w1 g : placed c v w w1 -> now g = now (ga w1) -> placed c v w (w1 <| ga := g |>).
Proof.
  intros [] Hg. pose proof pl_base0 as Hb.
  constructor; try done; [apply (base_same w1); try done; apply Hb|unfold car in *; cbn; congruence].
Qed.

(** The end of a start: the threshold is set to where the scan stopped. *)
Lemma arm_plus_wp c v w w1 :
  placed c v w w1 -> up c = true -> lt (ga w1) = lt (ga w) -> woken w1 = woken w ->
  wp (let '(wake, ptr) := scan_plus (ends w1) (car w1) (plus w1) false None in
        gauge (gauge_set_ht_interrupt (s32 (default 0 (ends w1 <$> ptr) - car w1))) ;;; ret wake)
     (fun wake => wp (when wake wake_up_gauge_coulomb) (fun _ w' => started c v w w')) w1.
Proof using GaugeLaws0.
  intros Hpl Hu Hlt Hw. pose proof (pl_base _ _ _ _ Hpl) as Hb.
  destruct (scan_plus_spec (ends w1) (car w1) (plus w1) false None) as (p & Hp1 & Hp2 & Hp3);
    [apply Hb|rewrite (pl_plus _ _ _ _ Hpl), Hu; eapply elem_nonempty, add_self|].
  destruct (scan_plus _ _ _ _ _) as [wake ptr]. cbn [fst snd] in *. subst ptr.
  change (default 0 (ends w1 <$> Some p)) with (ends w1 p). pose proof (b_near _ Hb p (or_introl Hp2)).
  rewrite s32_id by in_s32. apply wp_bind, wp_gauge, wp_ret.
  destruct (gl_ht (ends w1 p - car w1) (ga w1)) as (N & L & T).
  pose proof (placed_gauge _ _ _ _ _ Hpl N) as Hpl'.
  destruct wake; [by apply wake_placed|]. apply wp_ret. split; [done|]. intros Hf. rewrite Hu.
  split; [by rewrite <- Hw|]. split; [|cbn; by rewrite L]. intros _ x Hx. destruct Hp3 as (_ & H1 & H2); [done|].
  specialize (H2 x Hx). cbn. unfold car in *. specialize (T ltac:(lia)).
  change (ends _ x) with (ends w1 x). lia.
Qed.

Lemma arm_minus_wp c v w w1 :
  placed c v w w1 -> up c = false -> ht (ga w1) = ht (ga w) -> woken w1 = woken w ->
  wp (let '(wake, ptr) := scan_minus (ends w1) (car w1) (minus w1) false None in
        gauge (gauge_set_lt_interrupt (s32 (car w1 - default 0 (ends w1 <$> ptr)))) ;;; ret wake)
     (fun wake => wp (when wake wake_up_gauge_coulomb) (fun _ w' => started c v w w')) w1.
Proof using GaugeLaws0.
  intros Hpl Hu Hlt Hw. pose proof (pl_base _ _ _ _ Hpl) as Hb. rewrite scan_minus_opp.
  destruct (scan_plus_spec (fun x => - ends w1 x) (- car w1) (minus w1) false None) as (p & Hp1 & Hp2 & Hp3);
    [apply falling_opp, Hb|rewrite (pl_minus _ _ _ _ Hpl), Hu, add_minus_opp; eapply elem_nonempty, add_self|].
  destruct (scan_plus _ _ _ _ _) as [wake ptr]. cbn [fst snd] in *. subst ptr.
  change (default 0 (ends w1 <$> Some p)) with (ends w1 p). pose proof (b_near _ Hb p (or_intror Hp2)).
  rewrite s32_id by in_s32. apply wp_bind, wp_gauge, wp_ret.
  destruct (gl_lt (car w1 - ends w1 p) (ga w1)) as (N & T & L).
  pose proof (placed_gauge _ _ _ _ _ Hpl N) as Hpl'.
  destruct wake; [by apply wake_placed|]. apply wp_ret. split; [done|]. intros Hf. rewrite Hu.
  split; [by rewrite <- Hw|]. split; [|cbn; by rewrite T]. intros _ x Hx. destruct Hp3 as (_ & H1 & H2); [done|].
  specialize (H2 x Hx). cbn. unfold car in *. specialize (L ltac:(lia)).
  change (ends _ x) with (ends w1 x). cbn in H2. lia.
Qed.

Lemma start_wp c v (w : W) :
  base w -> sided c v -> wp (gauge_coulomb_start c v) (fun _ w' => started c (car w + v) w w') w.
Proof using GaugeLaws0.
  intros Hb Hv. assert (v <> 0) as Hv0 by (unfold sided in Hv; destruct (up c); lia).
  unfold gauge_coulomb_start. rewrite (proj2 (Z.eqb_neq v 0) Hv0).
  apply wp_bind, wp_gets. rewrite (b_init w Hb). cbn [negb]. apply wp_bind, wp_car. intros g1 N1 T1 L1.
  apply wp_bind, wp_modify, wp_bind, wp_modify, wp_bind, wp_gets.
  pose proof (queue_placed c v w g1 Hb Hv N1) as Hpl. set (w1 := queue c v w g1) in *.
  assert (car w1 = car w) as Hc by apply Hpl. assert (woken w1 = woken w) as Hw by (unfold woken, w1, queue; cbn; by destruct (0 <? v)).
  pose proof (arm_plus_wp _ _ _ _ Hpl) as Hp. pose proof (arm_minus_wp _ _ _ _ Hpl) as Hm. rewrite Hc in Hp, Hm.
  unfold w1, queue, sided in *. destruct (Z.ltb_spec 0 v) as [Hlt|Hlt], (up c) eqn:Hu; try lia;
    apply wp_bind, wp_bind, wp_modify, wp_bind, wp_gets.
  - apply Hp; done.
  - apply Hm; done.
Qed.

(** ** Stopping one *)

Definition dequeue (c : consumer) (w : W) : W := w <| gm ::= fun b => b <| cs ::= list_del c |> |>.

Lemma dequeue_base c w : base w -> base (dequeue c w).
Proof.
  intros []. constructor; try done; try by apply NoDup_filter.
  - intros x [_ Hx]%list_elem_of_filter. auto.
  - intros x [_ Hx]%list_elem_of_filter. auto.
  - by apply rising_filter.
  - apply falling_opp, rising_filter. by apply falling_opp.
  - intros x [[_ Hx]%list_elem_of_filter|[_ Hx]%list_elem_of_filter]; apply (b_near0 x); auto.
Qed.

Lemma dequeue_armed c w : armed_plus w -> armed_minus w -> armed_plus (dequeue c w) /\ armed_minus (dequeue c w).
Proof.
  intros Hp Hm. split; intros Hw x [_ Hx]%list_elem_of_filter; [by apply Hp|by apply Hm].
Qed.

Lemma stop_wp c Q (w : W) : base w -> Q tt (dequeue c w) -> wp (gauge_coulomb_stop c) Q w.
Proof. intros Hb H. apply wp_bind, wp_gets. rewrite (b_init w Hb). by apply wp_modify. Qed.

(** ** The consumers' handlers *)

(** The window around the counter is set anew. *)
Record restarted (w w' : W) : Prop := {
  rs_base : base w';
  rs_car : car w' = car w;
  rs_up : ends w' CoulombPlus = car w + coulomb_int_gap (gm w);
  rs_down : ends w' CoulombMinus = car w - coulomb_int_gap (gm w);
  rs_ends : forall x, x <> CoulombPlus -> x <> CoulombMinus -> ends w' x = ends w x;
  rs_plus : plus w' = add_plus (ends w') CoulombPlus (filter (fun x => x <> CoulombPlus) (plus w));
  rs_minus : minus w' = add_minus (ends w') CoulombMinus (filter (fun x => x <> CoulombMinus) (minus w));
  rs_calls : calls w' = calls w;
  rs_armed : woken w' = false -> woken w = false /\ armed_plus w' /\ armed_minus w'
}.

Lemma add_plus_ext e e' c l : e c = e' c -> (forall x, x ∈ l -> e x = e' x) -> add_plus e c l = add_plus e' c l.
Proof.
  intros Hc. induction l as [|p l IH]; intros H; [done|]. cbn.
  rewrite Hc, (H p) by (by left). rewrite IH; [done|]. intros x Hx. apply H. by right.
Qed.

Lemma window_wp (w : W) :
  base w ->
  wp (gauge_coulomb_start CoulombPlus (coulomb_int_gap (gm w)) ;;;
      gauge_coulomb_start CoulombMinus (s32 (- coulomb_int_gap (gm w)))) (fun _ w' => restarted w w') w.
Proof using GaugeLaws0.
  intros Hb. pose proof (b_gap w Hb) as Hg. rewrite s32_id by in_s32.
  eapply wp_bind, wp_mono; [by apply start_wp; [|cbn; lia]|]. intros _ w1 [P1 A1]. cbn [up] in A1.
  eapply wp_mono; [apply start_wp; [apply P1|cbn; lia]|]. intros _ w2 [P2 A2]. cbn [up] in A2.
  destruct P1, P2. cbn [up] in *.
  assert (forall x, x <> CoulombMinus -> ends w2 x = ends w1 x) as Ex by done.
  assert (forall x, x ∈ plus w1 -> ends w2 x = ends w1 x) as Ep.
  { intros x Hx%(b_plus _ pl_base0). apply Ex. by intros ->. }
  constructor; try done; try congruence.
  - by rewrite Ex.
  - rewrite pl_end1, pl_car0. lia.
  - intros x H1 H2. rewrite Ex by done. auto.
  - rewrite pl_plus1, pl_plus0. apply add_plus_ext; [symmetry; by apply Ex|].
    intros x [_ Hx%(b_plus _ Hb)]%list_elem_of_filter. symmetry. apply Ex. by intros ->.
  - intros Hw. destruct (A2 Hw) as (Hw1 & Am & Ht). destruct (A1 Hw1) as (Hw0 & Ap & Hl). split; [done|]. split; [|done].
    intros _ x. rewrite pl_plus1, Ht. intros Hx. rewrite Ep by done. by apply Ap.
Qed.

(** What the handlers do besides changes nothing the service depends on. *)
Record same (w w' : W) : Prop := {
  sm_lists : cs (gm w') = cs (gm w);
  sm_consumers : consumers (gm w') = consumers (gm w);
  sm_gap : coulomb_int_gap (gm w') = coulomb_int_gap (gm w);
  sm_now : now (ga w') = now (ga w);
  sm_ht : ht (ga w') = ht (ga w);
  sm_lt : lt (ga w') = lt (ga w)
}.

Lemma same_base w w' : same w w' -> base w -> base w'.
Proof.
  intros [] Hb. apply (base_same w); unfold plus, minus, car; rewrite ?sm_lists0; try done. apply Hb.
Qed.

Definition expired_plus (w : W) : list consumer := filter (fun c => ends w c <= car w) (plus w).
Definition expired_minus (w : W) : list consumer := filter (fun c => car w <= ends w c) (minus w).

(** [CoulombPlus] and [CoulombMinus] restart each other. *)
Definition window (c : consumer) : bool := match c with CoulombPlus | CoulombMinus => true | _ => false end.

Record called (c : consumer) (w w' : W) : Prop := {
  cl_base : base w';
  cl_car : car w' = car w;
  cl_plus : expired_plus w' = if window c then filter (fun x => x <> CoulombPlus) (expired_plus w) else expired_plus w;
  cl_minus : expired_minus w' = if window c then filter (fun x => x <> CoulombMinus) (expired_minus w) else expired_minus w;
  cl_calls : calls w' = calls w;
  cl_armed : woken w' = false -> woken w = false /\ (armed_plus w -> armed_plus w') /\ (armed_minus w -> armed_minus w')
}.

Lemma same_called c w w' : same w w' -> window c = false -> base w -> called c w w'.
Proof.
  intros Hs Hc Hb. pose proof (same_base _ _ Hs Hb). destruct Hs.
  constructor; rewrite ?Hc;
    unfold expired_plus, expired_minus, armed_plus, armed_minus, plus, minus, ends, end_of, car, calls, woken;
    rewrite ?sm_lists0, ?sm_consumers0, ?sm_now0, ?sm_ht0, ?sm_lt0; auto.
Qed.

(** Steps that change nothing may come before and after. *)
Lemma called_same c w w1 w2 w3 : same w w1 -> called c w1 w2 -> same w2 w3 -> called c w w3.
Proof.
  intros H1 [] H3. pose proof (same_base _ _ H3 cl_base0). destruct H1, H3.
  constructor; [done|unfold car in *; congruence|..];
    unfold expired_plus, expired_minus, armed_plus, armed_minus, plus, minus, ends, end_of, car, calls, woken in *;
    rewrite ?sm_lists1, ?sm_consumers1, ?sm_now1, ?sm_ht1, ?sm_lt1;
    rewrite <- ?sm_lists0, <- ?sm_consumers0, <- ?sm_now0, <- ?sm_ht0, <- ?sm_lt0; done.
Qed.

Lemma filter_add P `{!forall x, Decision (P x)} e c l : ~ P c -> filter P (add_plus e c l) = filter P l.
Proof.
  intros Hc. induction l as [|p l IH]; cbn [add_plus]; [by rewrite filter_cons_False|].
  destruct (e c <? e p); [by rewrite filter_cons_False|]. rewrite !filter_cons. by rewrite IH.
Qed.

Lemma filter_swap (P Q : consumer -> Prop) `{!forall x, Decision (P x), !forall x, Decision (Q x)} (l : list consumer) :
  filter P (filter Q l) = filter Q (filter P l).
Proof. rewrite !list_filter_filter. apply list_filter_iff. tauto. Qed.

Lemma filter_agree (P Q : consumer -> Prop) `{!forall x, Decision (P x), !forall x, Decision (Q x)} (l : list consumer) :
  (forall x, x ∈ l -> P x <-> Q x) -> filter P l = filter Q l.
Proof.
  induction l as [|p l IH]; intros Ha; [done|]. rewrite !filter_cons, IH by (intros x Hx; apply Ha; by right).
  assert (P p <-> Q p) as Hp by (apply Ha; by left). destruct (decide (P p)), (decide (Q p)); tauto || done.
Qed.

Lemma restarted_called c w w' : window c = true -> base w -> restarted w w' -> called c w w'.
Proof.
  intros Hc Hb []. pose proof (b_gap w Hb). constructor; try done; rewrite ?Hc.
  - unfold expired_plus. rewrite rs_plus0, rs_car0, filter_add by (rewrite rs_up0; lia).
    rewrite (filter_swap (fun x => x <> CoulombPlus)). apply filter_agree. intros x [H1 H2%(b_plus w Hb)]%list_elem_of_filter.
    rewrite rs_ends0; [done..|by intros ->].
  - unfold expired_minus. rewrite rs_minus0, rs_car0, add_minus_opp, filter_add by (rewrite rs_down0; lia).
    rewrite (filter_swap (fun x => x <> CoulombMinus)). apply filter_agree. intros x [H1 H2%(b_minus w Hb)]%list_elem_of_filter.
    rewrite rs_ends0; [done|by intros ->|done].
  - intros Hw. destruct (rs_armed0 Hw) as (? & ? & ?). auto.
Qed.

Lemma same_gauge {A} (m : M G A) w :
  (let g' := exec m (ga w) in now g' = now (ga w) /\ ht g' = ht (ga w) /\ lt g' = lt (ga w)) -> same w (w <| ga := exec m (ga w) |>).
Proof. intros (? & ? & ?). by constructor. Qed.

Lemma same_refl w : same w w.
Proof. done. Qed.
Lemma same_trans w1 w2 w3 : same w1 w2 -> same w2 w3 -> same w1 w3.
Proof. intros [] []. constructor; congruence. Qed.

Lemma wp_unbind {S A B} (m : M S A) (k : A -> M S B) Q w : wp (bind m k) Q w -> wp m (fun a => wp (k a) Q) w.
Proof. unfold wp. by rewrite eval_bind, exec_bind. Qed.

(** The handlers set the window anew after some steps that change nothing, and
    wake the daemon. *)
Lemma rewindow_wp c w w1 flag :
  base w -> same w w1 -> window c = true ->
  wp (let! gap := getb coulomb_int_gap in
      gauge_coulomb_start CoulombPlus gap ;;; gauge_coulomb_start CoulombMinus (s32 (- gap)) ;;;
      gauge (wakeup_fg_algo flag)) (fun _ w' => called c w w') w1.
Proof using GaugeLaws0.
  intros Hb Hs Hc. apply wp_bind, wp_gets. pose proof (same_base _ _ Hs Hb) as Hb1.
  pose proof (window_wp w1 Hb1) as H. apply wp_bind.
  eapply wp_mono; [eapply wp_unbind, H|]. intros u w2 H2. apply wp_bind. eapply wp_mono; [exact H2|]. intros u3 w3 H3.
  apply (restarted_called c) in H3; [|done..]. apply wp_gauge.
  eapply called_same; [exact Hs|exact H3|apply same_gauge, gl_algo].
Qed.

Lemma int2_wp c w flag :
  window c = false -> base w ->
  wp (ignore get_car ;;; gauge fg_sw_bat_cycle_accu ;;; gauge (wakeup_fg_algo flag)) (fun _ w' => called c w w') w.
Proof using GaugeLaws0.
  intros Hc Hb. apply wp_bind, wp_ignore, wp_car. intros g1 N1 T1 L1. apply wp_bind, wp_gauge, wp_gauge.
  apply same_called; [|done..]. destruct (gl_accu g1) as (N2 & T2 & L2). cbn.
  destruct (gl_algo flag (exec fg_sw_bat_cycle_accu g1)) as (N3 & T3 & L3). constructor; cbn; congruence.
Qed.

Lemma callback_wp c (w : W) : base w -> wp (callback c) (fun _ w' => called c w w') w.
Proof using GaugeLaws0.
  intros Hb. destruct c; cbn [callback]; [..|by apply int2_wp|by apply int2_wp].
  - apply wp_bind, wp_car. intros g1 N1 T1 L1. apply wp_bind, wp_modify. by apply rewindow_wp.
  - apply wp_bind, wp_car. intros g1 N1 T1 L1. apply wp_bind, wp_gauge, wp_bind, wp_modify.
    destruct (gl_accu g1) as (N2 & T2 & L2). apply rewindow_wp; [done| |done]. constructor; cbn; congruence.
Qed.

(** ** The passes over the expired *)

Lemma filter_none (P : consumer -> Prop) `{!forall x, Decision (P x)} (l : list consumer) :
  (forall x, x ∈ l -> ~ P x) -> filter P l = [].
Proof.
  induction l as [|p l IH]; intros Hn; [done|]. rewrite filter_cons, decide_False by (apply Hn; by left).
  apply IH. intros x Hx. apply Hn. by right.
Qed.

(** The expired are a prefix of a list in order. *)
Lemma expired_head (P : consumer -> Prop) `{!forall x, Decision (P x)} c (l : list consumer) :
  NoDup (c :: l) -> (forall x, x ∈ l -> P x -> P c) ->
  filter P (c :: l) = if decide (P c) then c :: filter P (filter (fun x => x <> c) (c :: l)) else [].
Proof.
  intros [Hn _]%NoDup_cons Hp. rewrite (filter_cons_False (fun x => x <> c)), filter_out by auto.
  rewrite filter_cons. case_decide as Hc; [done|]. apply filter_none. eauto.
Qed.

Lemma expired_plus_head w c l :
  base w -> plus w = c :: l -> expired_plus w = if ends w c <=? car w then c :: expired_plus (dequeue c w) else [].
Proof.
  intros Hb Hl. pose proof (b_rising _ Hb) as Hr. pose proof (b_nodup_p _ Hb) as Hn. rewrite Hl in Hr, Hn.
  unfold expired_plus. change (plus (dequeue c w)) with (filter (fun x => x <> c) (plus w)). rewrite Hl.
  rewrite expired_head; [|done|intros x Hx ?; pose proof (rising_head _ _ _ x Hr (list_elem_of_further x c _ Hx)); lia].
  destruct (Z.leb_spec (ends w c) (car w)); [by rewrite decide_True|]. rewrite decide_False; [done|lia].
Qed.

Lemma expired_minus_head w c l :
  base w -> minus w = c :: l -> expired_minus w = if car w <=? ends w c then c :: expired_minus (dequeue c w) else [].
Proof.
  intros Hb Hl. pose proof (b_falling _ Hb) as Hr%falling_opp. pose proof (b_nodup_m _ Hb) as Hn. rewrite Hl in Hr, Hn.
  unfold expired_minus. change (minus (dequeue c w)) with (filter (fun x => x <> c) (minus w)). rewrite Hl.
  rewrite expired_head; [|done|intros x Hx ?; pose proof (rising_head _ _ _ x Hr (list_elem_of_further x c _ Hx)); cbn in *; lia].
  destruct (Z.leb_spec (car w) (ends w c)); [by rewrite decide_True|]. rewrite decide_False; [done|lia].
Qed.

(** A consumer taken off its list, about to be called. *)
Definition noted (c : consumer) (w : W) : W :=
  (dequeue c w) <| gm ::= fun b => b <| cs ::= fun s => s <| cs_calls ::= cons c |> |> |>.

Lemma noted_base c w : base w -> base (noted c w).
Proof. intros Hb%(dequeue_base c). apply (base_same (dequeue c w)); try done. apply Hb. Qed.

Lemma call_wp c (k : M W bool) Q (w : W) :
  base w -> (forall w', called c (noted c w) w' -> wp k Q w') ->
  wp (modcs (list_del c) ;;;
      let! cb := getb (fun b => gc_callback (consumers b c)) in
      when cb (modcs (fun s => s <| cs_calls ::= cons c |>) ;;; callback c) ;;; k) Q w.
Proof using GaugeLaws0.
  intros Hb H. apply wp_bind, wp_modify, wp_bind, wp_gets, wp_bind, wp_when.
  - intros _. apply wp_bind, wp_modify. eapply wp_mono; [apply callback_wp, noted_base, Hb|]. intros u w' Hw. by apply H.
  - change (gc_callback (consumers (gm w) c) = false -> wp k Q (dequeue c w)). by rewrite (b_callback w Hb).
Qed.

(** What a loop that calls the consumers [l] leaves. *)
Record swept (l : list consumer) (w w' : W) : Prop := {
  sw_base : base w';
  sw_car : car w' = car w;
  sw_calls : calls w' = rev l ++ calls w;
  sw_idle : l = [] -> woken w' = woken w;
  sw_armed : woken w' = false -> woken w = false /\ (armed_plus w -> armed_plus w') /\ (armed_minus w -> armed_minus w')
}.

Lemma swept_nil w : base w -> swept [] w w.
Proof. by constructor. Qed.

Lemma swept_cons c l w w1 w' : called c (noted c w) w1 -> swept l w1 w' -> swept (c :: l) w w'.
Proof.
  intros [] []. constructor; [done|by rewrite sw_car0|..].
  - rewrite sw_calls0, cl_calls0. cbn. by rewrite <- app_assoc.
  - done.
  - intros Hw. destruct (sw_armed0 Hw) as (Hw1 & P1 & M1). destruct (cl_armed0 Hw1) as (Hw0 & P0 & M0).
    split; [done|]. split; intros H.
    + apply P1, P0. intros _ x [_ Hx]%list_elem_of_filter. by apply H.
    + apply M1, M0. intros _ x [_ Hx]%list_elem_of_filter. by apply H.
Qed.

(** A call of a window consumer restarts the other one as well, which then has
    not expired. *)
Definition dropped (c : consumer) (r l : list consumer) : list consumer :=
  if existsb window r then filter (fun x => x <> c) l else l.

Lemma dropped_cons c x r l : dropped c (x :: r) l = dropped c r (if window x then filter (fun x => x <> c) l else l).
Proof.
  unfold dropped. cbn [existsb]. destruct (window x); cbn [orb]; [|done]. destruct (existsb window r); [|done].
  rewrite list_filter_filter. apply list_filter_iff. tauto.
Qed.

Lemma dropped_nil c r : dropped c r [] = [].
Proof. unfold dropped. by destruct (existsb window r). Qed.

Lemma expired_minus_out c w : base w -> up c = true -> expired_minus (noted c w) = expired_minus w.
Proof.
  intros Hb Hc. unfold expired_minus. change (minus (noted c w)) with (filter (fun x => x <> c) (minus w)).
  rewrite filter_out; [done|]. intros H%(b_minus w Hb). congruence.
Qed.
Lemma expired_plus_out c w : base w -> up c = false -> expired_plus (noted c w) = expired_plus w.
Proof.
  intros Hb Hc. unfold expired_plus. change (plus (noted c w)) with (filter (fun x => x <> c) (plus w)).
  rewrite filter_out; [done|]. intros H%(b_plus w Hb). congruence.
Qed.
Lemma drop_out c w :
  filter (fun y => y <> c) (expired_plus (dequeue c w)) = expired_plus (dequeue c w) /\
  filter (fun y => y <> c) (expired_minus (dequeue c w)) = expired_minus (dequeue c w).
Proof.
  split; unfold expired_plus, expired_minus; rewrite filter_swap; f_equal; apply filter_out; by intros [? _]%list_elem_of_filter.
Qed.

Lemma expire_plus_wp fuel (w : W) :
  base w -> (length (expired_plus w) < fuel)%nat ->
  wp (expire_plus fuel (car w)) (fun ok w' => ok = true /\ swept (expired_plus w) w w' /\ expired_plus w' = [] /\
    expired_minus w' = dropped CoulombMinus (expired_plus w) (expired_minus w)) w.
Proof using GaugeLaws0.
  revert w. induction fuel as [|fuel IH]; intros w Hb Hf; [lia|]. cbn [expire_plus].
  apply wp_bind, wp_gets. change (head_plus (cs (gm w))) with (plus w). destruct (plus w) as [|c l] eqn:Hl.
  - apply wp_ret. assert (expired_plus w = []) as -> by (unfold expired_plus; by rewrite Hl). auto using swept_nil.
  - pose proof (expired_plus_head w c l Hb Hl) as He. apply wp_bind, wp_gets.
    change (end_of (gm w) c) with (ends w c). destruct (ends w c <=? car w) in He |- *.
    + assert (up c = true) as Hu by (apply (b_plus w Hb); rewrite Hl; by left).
      apply call_wp; [done|]. intros w1 H1. rewrite <- (cl_car _ _ _ H1 : car w1 = car w).
      assert (expired_plus w1 = expired_plus (dequeue c w)) as Hp.
      { rewrite (cl_plus _ _ _ H1). change (expired_plus (noted c w)) with (expired_plus (dequeue c w)).
        destruct c; try done. apply drop_out. }
      eapply wp_mono; [apply IH; [apply H1|rewrite Hp; rewrite He in Hf; cbn [length] in Hf; lia]|].
      intros ok w' (-> & Hs & Hp' & Hm'). rewrite Hp in *. split; [done|]. rewrite He.
      split; [by eapply swept_cons|]. split; [done|].
      by rewrite Hm', dropped_cons, (cl_minus _ _ _ H1), expired_minus_out.
    + apply wp_ret. rewrite He. auto using swept_nil.
Qed.

Lemma expire_minus_wp fuel (w : W) :
  base w -> expired_plus w = [] -> (length (expired_minus w) < fuel)%nat ->
  wp (expire_minus fuel (car w)) (fun ok w' => ok = true /\ swept (expired_minus w) w w' /\
    expired_plus w' = [] /\ expired_minus w' = []) w.
Proof using GaugeLaws0.
  revert w. induction fuel as [|fuel IH]; intros w Hb Hp Hf; [lia|]. cbn [expire_minus].
  apply wp_bind, wp_gets. change (head_minus (cs (gm w))) with (minus w). destruct (minus w) as [|c l] eqn:Hl.
  - apply wp_ret. assert (expired_minus w = []) as -> by (unfold expired_minus; by rewrite Hl). auto using swept_nil.
  - pose proof (expired_minus_head w c l Hb Hl) as He. apply wp_bind, wp_gets.
    change (end_of (gm w) c) with (ends w c). destruct (car w <=? ends w c) in He |- *.
    + assert (up c = false) as Hu by (apply (b_minus w Hb); rewrite Hl; by left).
      apply call_wp; [done|]. intros w1 H1. rewrite <- (cl_car _ _ _ H1 : car w1 = car w).
      assert (expired_minus w1 = expired_minus (dequeue c w)) as Hm.
      { rewrite (cl_minus _ _ _ H1). change (expired_minus (noted c w)) with (expired_minus (dequeue c w)).
        destruct c; try done. apply drop_out. }
      eapply wp_mono; [apply IH; [apply H1| |rewrite Hm; rewrite He in Hf; cbn [length] in Hf; lia]|].
      * rewrite (cl_plus _ _ _ H1), expired_plus_out, Hp by done. by destruct (window c).
      * intros ok w' (-> & Hs & Hp' & Hm'). rewrite Hm in *. rewrite He. eauto using swept_cons.
    + apply wp_ret. rewrite He. auto using swept_nil.
Qed.

(** ** The thread *)

Lemma expired_short w : base w -> (length (expired_plus w) <= 2 /\ length (expired_minus w) <= 2)%nat.
Proof.
  intros []. split.
  - change 2%nat with (length [CoulombPlus; UisocPlus]). apply submseteq_length, NoDup_submseteq; [by apply NoDup_filter|].
    intros x [_ Hx%b_plus0]%list_elem_of_filter. destruct x; try done; [by left|by right; left].
  - change 2%nat with (length [CoulombMinus; UisocMinus]). apply submseteq_length, NoDup_submseteq; [by apply NoDup_filter|].
    intros x [_ Hx%b_minus0]%list_elem_of_filter. destruct x; try done; [by left|by right; left].
Qed.

(** Only the gauge is different, and it counts the same. *)
Definition retuned (w w' : W) : Prop := gm w' = gm w /\ now (ga w') = now (ga w).

Lemma retuned_base w w' : retuned w w' -> base w -> base w'.
Proof.
  intros [H1 H2] Hb. apply (base_same w); unfold plus, minus, car; rewrite ?H1; try done. apply Hb.
Qed.

Lemma retuned_same w w' :
  retuned w w' -> plus w' = plus w /\ minus w' = minus w /\ ends w' = ends w /\ woken w' = woken w /\ calls w' = calls w /\
    car w' = car w /\ expired_plus w' = expired_plus w /\ expired_minus w' = expired_minus w.
Proof.
  intros [H1 H2]. unfold expired_plus, expired_minus, plus, minus, ends, woken, calls, car. by rewrite H1, H2.
Qed.

Lemma aim_plus_wp w :
  base w -> expired_plus w = [] ->
  wp (match head (plus w) with Some c => gauge (gauge_set_ht_interrupt (s32 (ends w c - car w))) | None => ret tt end)
    (fun _ w' => retuned w w' /\ armed_plus w') w.
Proof using GaugeLaws0.
  intros Hb He. destruct (plus w) as [|c l] eqn:Hl; cbn [head].
  { apply wp_ret. split; [done|]. intros _ x. rewrite Hl. by intros ?%not_elem_of_nil. }
  pose proof (expired_plus_head w c l Hb Hl) as Hx. rewrite He in Hx. destruct (Z.leb_spec (ends w c) (car w)); [done|].
  assert (c ∈ plus w) as Hc by (rewrite Hl; by left). pose proof (b_near w Hb c (or_introl Hc)).
  rewrite s32_id by in_s32. apply wp_gauge. destruct (gl_ht (ends w c - car w) (ga w)) as (N & L & T).
  split; [done|]. intros _ x Hp. cbn. change (ends _ x) with (ends w x). change (plus _) with (plus w) in Hp.
  pose proof (b_rising w Hb) as Hr. rewrite Hl in Hr, Hp. pose proof (rising_head _ _ _ x Hr Hp).
  specialize (T ltac:(lia)). unfold car in *. lia.
Qed.

Lemma aim_minus_wp w :
  base w -> expired_minus w = [] ->
  wp (match head (minus w) with Some c => gauge (gauge_set_lt_interrupt (s32 (car w - ends w c))) | None => ret tt end)
    (fun _ w' => retuned w w' /\ armed_minus w' /\ ht (ga w') = ht (ga w)) w.
Proof using GaugeLaws0.
  intros Hb He. destruct (minus w) as [|c l] eqn:Hl; cbn [head].
  { apply wp_ret. split; [done|]. split; [|done]. intros _ x. rewrite Hl. by intros ?%not_elem_of_nil. }
  pose proof (expired_minus_head w c l Hb Hl) as Hx. rewrite He in Hx. destruct (Z.leb_spec (car w) (ends w c)); [done|].
  assert (c ∈ minus w) as Hc by (rewrite Hl; by left). pose proof (b_near w Hb c (or_intror Hc)).
  rewrite s32_id by in_s32. apply wp_gauge. destruct (gl_lt (car w - ends w c) (ga w)) as (N & T & L).
  split; [done|]. split; [|done]. intros _ x Hp. cbn. change (ends _ x) with (ends w x). change (minus _) with (minus w) in Hp.
  pose proof (b_falling w Hb) as Hr%falling_opp. rewrite Hl in Hr, Hp. pose proof (rising_head _ _ _ x Hr Hp) as Hle. cbn in Hle.
  specialize (L ltac:(lia)). unfold car in *. lia.
Qed.

(** The callbacks of a pass, in order. *)
Definition due (w : W) : list consumer := expired_plus w ++ dropped CoulombMinus (expired_plus w) (expired_minus w).

Record passed (w w' : W) : Prop := {
  ps_base : base w';
  ps_car : car w' = car w;
  ps_calls : calls w' = rev (due w) ++ calls w;
  ps_idle : due w = [] -> woken w' = woken w;
  ps_plus : expired_plus w' = [];
  ps_minus : expired_minus w' = [];
  ps_armed_plus : armed_plus w';
  ps_armed_minus : armed_minus w'
}.

Lemma passed_pre w w' v : passed w w' -> passed w (w' <| gm ::= fun b => b <| cs ::= fun s => s <| pre_coulomb := v |> |> |>).
Proof. intros []. constructor; try done. apply (base_same w'); try done. apply ps_base0. Qed.

Lemma dropped_length c r l : (length (dropped c r l) <= length l)%nat.
Proof. unfold dropped. destruct (existsb window r); [apply length_filter|done]. Qed.

Lemma handler_wp fuel (w : W) :
  base w -> (2 < fuel)%nat ->
  wp (gauge_coulomb_int_handler fuel) (fun ok w' => ok = true /\ passed w w') w.
Proof using GaugeLaws0.
  intros Hb Hf. destruct (expired_short w Hb) as [Sp Sm]. apply wp_bind, wp_car. intros g1 N1 T1 L1.
  set (w1 := w <| ga := g1 |>). assert (retuned w w1) as R1 by done.
  destruct (retuned_same w w1 R1) as (_ & _ & _ & _ & C1 & K1 & P1 & M1). pose proof (retuned_base _ _ R1 Hb) as B1.
  rewrite <- K1. apply wp_bind. eapply wp_mono; [apply expire_plus_wp; [done|rewrite P1; lia]|].
  intros ok w2 (-> & S2 & P2 & M2). rewrite P1, M1 in *. destruct S2. apply wp_bind, wp_gets. cbn [fst snd].
  rewrite <- sw_car0. apply wp_bind. eapply wp_mono; [by apply aim_plus_wp|]. intros u3 w3 [R3 A3].
  destruct (retuned_same w2 w3 R3) as (_ & _ & _ & _ & C3 & K3 & P3 & M3). pose proof (retuned_base _ _ R3 sw_base0) as B3.
  pose proof (dropped_length CoulombMinus (expired_plus w) (expired_minus w)).
  rewrite <- K3. apply wp_bind. eapply wp_mono; [apply expire_minus_wp; [done|congruence|rewrite M3, M2; lia]|].
  intros ok w4 (-> & S4 & P4 & M4). rewrite M3, M2 in S4. destruct S4. apply wp_bind, wp_gets. cbn [fst snd].
  rewrite <- sw_car1. apply wp_bind. eapply wp_mono; [by apply aim_minus_wp|]. intros u5 w5 (R5 & A5 & T5).
  destruct (retuned_same w4 w5 R5) as (E5 & _ & F5 & W5 & C5 & K5 & P5 & M5). pose proof (retuned_base _ _ R5 sw_base1) as B5.
  apply wp_bind, wp_modify, wp_ret. split; [done|].
  apply passed_pre. constructor; [done|congruence|..|congruence|congruence|intros Hw|done].
  - unfold due. by rewrite C5, sw_calls1, C3, sw_calls0, C1, rev_app_distr, app_assoc.
  - unfold due. intros [E1 E2]%app_eq_nil. destruct (retuned_same w2 w3 R3) as (_ & _ & _ & W3 & _).
    by rewrite W5, sw_idle1, W3, sw_idle0.
  - rewrite E5, F5, T5. rewrite W5 in Hw. destruct (sw_armed1 Hw) as (_ & A & _). by apply A.
Qed.

Lemma thread_wp fuel (w : W) :
  base w -> (2 < fuel)%nat ->
  wp (gauge_coulomb_thread fuel) (fun ok w' => ok = true /\ passed (w <| gm ::= fun b => b <| cs ::= fun s => s <| thread_timeout := false |> |> |>) w') w.
Proof using GaugeLaws0.
  intros Hb Hf. apply wp_bind, wp_modify, wp_bind. eapply wp_mono; [apply handler_wp; [|done]|].
  - apply (base_same w); try done. apply Hb.
  - intros ok w' [-> []]. apply wp_bind, wp_modify, wp_ret. split; [done|].
    constructor; try done. apply (base_same w'); try done. apply ps_base0.
Qed.

(** ** A reset of the counter *)

Lemma rising_mono e e' l : (forall x y, x ∈ l -> y ∈ l -> e x <= e y -> e' x <= e' y) -> rising e l -> rising e' l.
Proof.
  intros He H. unfold rising in *. induction H as [|p l Hs IH H]; constructor.
  - apply IH. intros x y Hx Hy. apply He; by right.
  - rewrite Forall_forall in *. intros x Hx. apply He; [by left|by right|by apply H].
Qed.

Lemma rebase_end v x : is_s32 v -> - 2 ^ 31 < gc_end x - v < 2 ^ 31 -> gc_end (rebase (u64 v) x) = gc_end x - v.
Proof.
  intros Hv Hx. unfold rebase. cbn. unfold s64, u64, wrapu. rewrite Zplus_mod_idemp_l.
  rewrite <- (Zplus_mod_idemp_l (gc_end x - v mod 2 ^ 64)), Zminus_mod_idemp_r, Zplus_mod_idemp_l.
  rewrite Z.mod_small; lia.
Qed.

(** Every distance is as before, and the thread looks at the lists. *)
Record rebased (w w' : W) : Prop := {
  rb_base : base w';
  rb_car : car w' = 0;
  rb_plus : plus w' = plus w;
  rb_minus : minus w' = minus w;
  rb_ends : forall c, c ∈ plus w \/ c ∈ minus w -> ends w' c = ends w c - car w;
  rb_calls : calls w' = calls w;
  rb_woken : woken w' = true
}.

Lemma dump_wp Q (w : W) :
  cs_init (cs (gm w)) = true -> (forall g', now g' = now (ga w) -> Q tt (w <| ga := g' |>)) -> wp gauge_coulomb_dump_list Q w.
Proof using GaugeLaws0. intros Hi H. apply wp_bind, wp_gets. rewrite Hi. apply wp_ignore, wp_car. intros g' N _ _. by apply H. Qed.

Lemma before_reset_wp Q (w : W) :
  cs_init (cs (gm w)) = true ->
  (forall g', now g' = now (ga w) -> Q tt (mk_bworld ((gm w) <| cs ::= fun c => c <| reset_coulomb := u64 (car w) |> |>) g')) ->
  wp gauge_coulomb_before_reset Q w.
Proof using GaugeLaws0.
  intros Hi H. apply wp_bind, wp_gets. rewrite Hi. cbn [when]. apply wp_bind, wp_gauge, wp_bind, wp_gauge.
  pose proof (proj1 (gl_ht 0 (ga w))) as N2. pose proof (proj1 (gl_lt 0 (exec (gauge_set_ht_interrupt 0) (ga w)))) as N3.
  apply wp_bind, wp_car. intros g4 N4 _ _. apply wp_bind, wp_modify, dump_wp; [done|]. intros g5 N5. cbn in N4, N5.
  assert (car _ = car w) as -> by (unfold car; cbn; congruence). apply H. congruence.
Qed.

(** After the counter [v] was remembered and set to zero. *)
Lemma after_reset_wp (w w1 : W) :
  base w -> now (ga w1) = 0 -> gm w1 = (gm w) <| cs ::= fun c => c <| reset_coulomb := u64 (car w) |> |> ->
  wp gauge_coulomb_after_reset (fun _ w' => rebased w w') w1.
Proof using GaugeLaws0.
  intros Hb N1 E1. apply wp_bind, wp_gets. rewrite E1. cbn [cs_init cs]. change (cs_init _) with (cs_init (cs (gm w))).
  rewrite (b_init w Hb). cbn [when]. apply wp_bind, wp_modify, wp_bind, dump_wp; [cbn; rewrite E1; apply Hb|].
  intros g2 N2. apply wake_up_wp; [cbn; rewrite E1; apply Hb|]. intros g3 N3. cbn. rewrite E1. clear E1. cbn in N2, N3.
  match goal with |- rebased _ ?x => set (w' := x) end.
  assert (forall c, c ∈ plus w \/ c ∈ minus w -> ends w' c = ends w c - car w) as He.
  { intros c Hc. unfold ends, end_of, w'. cbn. rewrite bool_decide_eq_true_2 by (by apply elem_of_app).
    apply rebase_end; [exact (gl_range (ga w))|]. pose proof reach_ok. pose proof (b_near w Hb c Hc). unfold ends, end_of in *. unfold car in *. lia. }
  assert (car w' = 0) as Hc by (unfold car; cbn; congruence). pose proof Hb as [].
  constructor; try done. constructor; try done.
  - eapply rising_mono; [|exact b_rising0]. intros x y Hx Hy. rewrite !He by (by left). lia.
  - apply falling_opp. eapply rising_mono; [|apply falling_opp; exact b_falling0]. intros x y Hx Hy. cbn. rewrite !He by (by right). lia.
  - intros c Hq. rewrite He, Hc by done. pose proof (b_near0 c Hq). lia.
  - intros c. unfold w'. cbn. case_bool_decide; [cbn|]; apply b_callback0.
Qed.

Lemma reset_wp (w : W) : base w -> disableGM30 (gm w) = false -> wp reset_set (fun _ w' => rebased w w') w.
Proof using GaugeLaws0.
  intros Hb Hd. apply wp_bind, wp_gets. rewrite Hd. cbn [negb when].
  apply wp_bind, wp_gauge, wp_bind, wp_ignore, wp_car. intros g1 N1 _ _. cbn in N1. rewrite (proj1 (gl_accu (ga w))) in N1.
  apply wp_bind, before_reset_wp; [apply Hb|]. intros g2 N2. apply wp_bind, wp_gauge, after_reset_wp; [done|apply gl_reset|].
  cbn. assert (car _ = car w) as -> by (unfold car; cbn; congruence). done.
Qed.

(** ** All interleavings *)

(** The fields written through sysfs, the interrupt, the thread once it is
    woken, and the counter, which moves without the thresholds moving and stays
    within reach of the consumers. *)
Inductive svc_step : W -> W -> Prop :=
| sv_gap val w : 0 < val < reach -> svc_step w (exec (coulomb_int_gap_set val) w)
| sv_uisoc_ht val w : 0 <= val < reach -> svc_step w (exec (uisoc_ht_int_gap_set val) w)
| sv_uisoc_lt val w : 0 <= val < reach -> svc_step w (exec (uisoc_lt_int_gap_set val) w)
| sv_en_ht val w : svc_step w (exec (en_uisoc_ht_int_set val) w)
| sv_en_lt val w : svc_step w (exec (en_uisoc_lt_int_set val) w)
| sv_reset w : svc_step w (exec reset_set w)
| sv_irq w : svc_step w (exec coulomb_irq w)
| sv_thread w : woken w = true -> svc_step w (exec (gauge_coulomb_thread 3) w)
| sv_count g w :
    ht g = ht (ga w) -> lt g = lt (ga w) ->
    (forall c, c ∈ plus w \/ c ∈ minus w -> - reach < ends w c - now g < reach) ->
    svc_step w (w <| ga := g |>).

(** From probe on, with a gap and the callbacks set. *)
Definition reachable (w : W) : Prop :=
  exists w0, 0 < coulomb_int_gap (gm w0) < reach /\ (forall c, gc_callback (consumers (gm w0) c) = true) /\
    rtc svc_step (exec gauge_coulomb_service_init w0) w.

Record inv (w : W) : Prop := {
  i_base : base w;
  i_plus : armed_plus w;
  i_minus : armed_minus w
}.

Lemma inv_init w :
  0 < coulomb_int_gap (gm w) < reach -> (forall c, gc_callback (consumers (gm w) c) = true) ->
  inv (exec gauge_coulomb_service_init w).
Proof using GaugeLaws0.
  intros Hg Hc. apply wp_exec, wp_bind, wp_modify, wp_bind, wp_car. intros g N _ _. apply wp_modify.
  assert (forall x : consumer, x ∈ [] -> False) as Hn by (intros x; apply not_elem_of_nil).
  split; [|intros _ x []%Hn..]. constructor; first [done|by intros x []%Hn|by intros x [[]%Hn|[]%Hn]|constructor].
Qed.

Lemma started_inv c v w w' : inv w -> started c v w w' -> inv w'.
Proof.
  intros [Hb Hp Hm] [[] Ha]. destruct (up c) eqn:Hu.
  - split; [done|..]; intros Hw; destruct (Ha Hw) as (Hw0 & Ha' & E); [by apply Ha'|].
    intros x. rewrite pl_minus0, E. intros Hx. rewrite pl_ends0; [by apply Hm|]. intros ->. apply (b_minus w Hb) in Hx. congruence.
  - split; [done|..]; intros Hw; destruct (Ha Hw) as (Hw0 & Ha' & E); [|by apply Ha'].
    intros x. rewrite pl_plus0, E. intros Hx. rewrite pl_ends0; [by apply Hp|]. intros ->. apply (b_plus w Hb) in Hx. congruence.
Qed.

Lemma same_inv w w' : same w w' -> inv w -> inv w'.
Proof.
  intros Hs [Hb Hp Hm]. pose proof (same_base _ _ Hs Hb). destruct Hs. split; [done|..];
    unfold armed_plus, armed_minus, plus, minus, ends, end_of, woken in *; by rewrite sm_lists0, sm_consumers0, ?sm_ht0, ?sm_lt0.
Qed.

Lemma restarted_inv w w' : restarted w w' -> inv w'.
Proof. intros []. split; [done|..]; intros Hw; by apply rs_armed0. Qed.

Lemma start_inv c v w : inv w -> sided c v \/ v = 0 -> wp (gauge_coulomb_start c v) (fun _ w' => inv w') w.
Proof using GaugeLaws0.
  intros Hi [Hv| ->]; [|by apply wp_ret]. eapply wp_mono; [by apply start_wp; [apply Hi|]|]. intros u w'. by apply started_inv.
Qed.

Lemma stop_inv c w : inv w -> wp (gauge_coulomb_stop c) (fun _ w' => inv w') w.
Proof. intros []. apply stop_wp; [done|]. destruct (dequeue_armed c w) as [? ?]; [done..|]. split; try done. by apply dequeue_base. Qed.

Lemma passed_inv w w' : passed w w' -> inv w'.
Proof. by intros []; split. Qed.

Lemma woken_inv w : base w -> woken w = true -> inv w.
Proof. intros Hb Hw. split; [done|..]; intros Hf; congruence. Qed.

Lemma gap_base w val v1 v2 :
  base w -> 0 < val < reach ->
  base (w <| gm ::= fun b => b <| coulomb_int_gap := val |> <| coulomb_int_ht := v1 |> <| coulomb_int_lt := v2 |> |>).
Proof. intros [] Hv. by constructor. Qed.

Lemma step_inv w w' : svc_step w w' -> inv w -> inv w'.
Proof using GaugeLaws0.
  intros Hs Hi. pose proof (i_base w Hi) as Hb. destruct Hs as [val w Hv|val w Hv|val w Hv|val w|val w|w|w|w Hw|g w Ht Hl Hn]; try apply wp_exec.
  - apply wp_bind, wp_car. intros g N T L. apply wp_bind, wp_modify. match goal with |- wp _ _ ?x => set (w1 := x) end.
    assert (base w1) as B1 by (apply gap_base; [|done]; apply (retuned_base w); done).
    eapply wp_mono; [exact (window_wp w1 B1)|]. intros u w2. apply restarted_inv.
  - apply wp_bind, wp_modify, start_inv; [by apply (same_inv w)|]. cbn. lia.
  - apply wp_bind, wp_modify, start_inv; [by apply (same_inv w)|]. rewrite s32_id by in_s32. cbn. lia.
  - apply wp_bind, wp_modify, wp_when; [intros _; apply stop_inv|intros _]; by apply (same_inv w).
  - apply wp_bind, wp_modify, wp_when; [intros _; apply stop_inv|intros _]; by apply (same_inv w).
  - destruct (disableGM30 (gm w)) eqn:Hd.
    + apply wp_bind, wp_gets. by rewrite Hd.
    + eapply wp_mono; [by apply reset_wp|]. intros u w2 []. by apply woken_inv.
  - apply wake_up_wp; [apply Hb|]. intros g N. apply woken_inv; [|done]. apply (base_same w); try done. apply Hb.
  - eapply wp_mono; [by apply thread_wp; [|lia]|]. intros ok w2 [_ H2]. by eapply passed_inv.
  - destruct Hi as [[] Hp Hm]. split; [by constructor|..]; intros Hw x Hx; cbn; rewrite ?Ht, ?Hl; [by apply Hp|by apply Hm].
Qed.

Lemma reachable_inv w : reachable w -> inv w.
Proof using GaugeLaws0.
  intros (w0 & Hg & Hc & Hr). pose proof (inv_init w0 Hg Hc) as Hi. revert Hi.
  induction Hr as [|w1 w2 w3 H1 _ IH]; [done|]. intros Hi. apply IH. by eapply step_inv.
Qed.

Lemma no_missed_expiry_at w :
  reachable w -> woken w = false -> lt (ga w) < car w < ht (ga w) ->
  (forall c, c ∈ plus w -> car w < ends w c + lag) /\ (forall c, c ∈ minus w -> ends w c - lag < car w).
Proof using GaugeLaws0.
  intros [Hb Hp Hm]%reachable_inv Hw [Hl Hh]. split; intros c Hc; [specialize (Hp Hw c Hc)|specialize (Hm Hw c Hc)]; lia.
Qed.

(** C10: no expiry is missed: in every state that sysfs writes (of bounded
    values), resets, interrupts, passes of the thread and moves of the counter can
    lead to, one after the other, when the thread is not woken and the counter is
    between the two thresholds (no interrupt is due), no consumer has expired, but
    for the lag of the gauge: every consumer for a rising counter waits for a
    reading above [car - lag], and every one for a falling counter for one below
    [car + lag]. *)
Theorem no_missed_expiry w :
  reachable w -> woken w = false -> lt (ga w) < car w < ht (ga w) ->
  (forall c, c ∈ plus w -> car w < ends w c + lag) /\ (forall c, c ∈ minus w -> ends w c - lag < car w).
Proof using GaugeLaws0. apply no_missed_expiry_at. Qed.

(** C20: a pass of the thread ends: its loops, which start over after each callback,
    make at most two rounds a list.  The callbacks are exactly those due, in order:
    the expired of the first list, then those of the second (less [CoulombMinus]
    when the callback of [CoulombPlus] has restarted it); nobody expired is left,
    and a second pass makes no callback and lets the thread sleep with the
    thresholds set. *)
Theorem coulomb_thread_settles fuel w :
  reachable w -> (2 < fuel)%nat ->
  let w' := exec (gauge_coulomb_thread fuel) w in
  let w'' := exec (gauge_coulomb_thread fuel) w' in
  eval (gauge_coulomb_thread fuel) w = true /\ calls w' = rev (due w) ++ calls w /\ due w' = [] /\
  calls w'' = calls w' /\ woken w'' = false /\
  (forall c, c ∈ plus w'' -> car w < ends w'' c /\ ht (ga w'') <= ends w'' c + lag) /\
  (forall c, c ∈ minus w'' -> ends w'' c < car w /\ ends w'' c - lag <= lt (ga w'')).
Proof using GaugeLaws0.
  intros [Hb _ _]%reachable_inv Hf w' w''. destruct (thread_wp fuel w Hb Hf) as [Hok [B1 K1 C1 _ P1 M1 _ _]].
  destruct (thread_wp fuel w' B1 Hf) as [_ [B2 K2 C2 I2 P2 M2 A2 A2']]. fold w' in K1, C1, P1, M1. fold w'' in K2, C2, I2, P2, M2, A2, A2'.
  assert (due w' = []) as D1 by (unfold due; rewrite P1, M1; by rewrite dropped_nil).
  change (due _) with (due w') in C2, I2. rewrite D1 in C2, I2. change (car w' = car w) in K1. change (car w'' = car w') in K2.
  split; [done|]. split; [done|]. split; [done|]. split; [done|]. split; [by apply I2|].
  split; intros c Hc; (split; [|by first [apply A2|apply A2']; [apply I2|]]).
  - destruct (Z.lt_ge_cases (car w) (ends w'' c)) as [?|Hle]; [done|]. exfalso.
    apply (not_elem_of_nil c). rewrite <- P2. apply list_elem_of_filter. split; [lia|done].
  - destruct (Z.lt_ge_cases (ends w'' c) (car w)) as [?|Hle]; [done|]. exfalso.
    apply (not_elem_of_nil c). rewrite <- M2. apply list_elem_of_filter. split; [lia|done].
Qed.

(** Resetting the counter moves no consumer: the lists are the same, every
    queued consumer is as far from the counter as before, no callback is made,
    and the thread is woken to set the thresholds again. *)
Theorem reset_keeps_distances w :
  reachable w -> disableGM30 (gm w) = false ->
  let w' := exec reset_set w in
  car w' = 0 /\ plus w' = plus w /\ minus w' = minus w /\
  (forall c, c ∈ plus w \/ c ∈ minus w -> ends w' c - car w' = ends w c - car w) /\
  calls w' = calls w /\ woken w' = true.
Proof using GaugeLaws0.
  intros [Hb _ _]%reachable_inv Hd w'. destruct (reset_wp w Hb Hd) as [_ K P Q E C T].
  split; [done|]. split; [done|]. split; [done|]. split; [|done]. intros c Hc. unfold w'. rewrite K, E by done. lia.
Qed.
End Inv.

(** ** A gauge that has the laws *)

Module TestGauge.
Record tg : Type := mk_tg { t_now : Z; t_ht : Z; t_lt : Z; t_events : list Z }.
#[global] Instance tg_struct : Struct tg := fun r => mk_tg (t_now r) (t_ht r) (t_lt r) (t_events r).
Definition now (g : tg) : Z := s32 (t_now g).

#[global] Instance test_gauge : Gauge tg := {
  gauge_get_coulomb := gets now;
  gauge_set_ht_interrupt v := modify (fun g => g <| t_ht := now g + v |>);
  gauge_set_lt_interrupt v := modify (fun g => g <| t_lt := now g - v |>);
  gauge_set_reset := modify (fun g => g <| t_now := 0 |>);
  fg_sw_bat_cycle_accu := ret tt;
  wakeup_fg_algo e := modify (fun g => g <| t_events ::= cons e |>)
}.

#[global] Instance test_laws : GaugeLaws now t_ht t_lt (2 ^ 31) 0.
Proof.
  constructor; try done.
  - intros g. apply s32_range.
  - intros g. by exists g.
  - intros v g. cbn. split; [done|]. split; [done|]. unfold now. lia.
  - intros v g. cbn. split; [done|]. split; [done|]. unfold now. lia.
Qed.

Definition w0 : bworld tg :=
  mk_bworld (mk_battery (mk_cs [] [] 0 false false 0 false []) (fun _ => mk_consumer 0 0 0 true) 100 0 0 0 0 0 0 false) (mk_tg 5000 0 0 []).
(** A window of 100, 40 more for the upper display step; then the counter rises by 120. *)
Definition w1 : bworld tg :=
  exec (uisoc_ht_int_gap_set 40) (exec (coulomb_int_gap_set 100) (exec gauge_coulomb_service_init w0)).
Definition w2 : bworld tg := w1 <| ga := (ga w1) <| t_now := 5120 |> |>.

Lemma w1_reachable : reachable now t_ht t_lt (2 ^ 31) w1.
Proof.
  exists w0. split; [cbn; lia|]. split; [done|]. unfold w1. apply (rtc_l _ _ (exec (coulomb_int_gap_set 100) (exec gauge_coulomb_service_init w0))).
  - apply sv_gap. lia.
  - apply rtc_once, sv_uisoc_ht. lia.
Qed.
Lemma w2_reachable : reachable now t_ht t_lt (2 ^ 31) w2.
Proof.
  destruct w1_reachable as (w & Hg & Hc & Hr). exists w. split; [done|]. split; [done|]. eapply rtc_r; [exact Hr|].
  apply sv_count; [done..|]. intros c _. destruct c; vm_compute; split; reflexivity.
Qed.
End TestGauge.

(** At the first state the consumers wait; after the rise both upper ones are called. *)
Lemma no_missed_expiry_witness :
  (forall c, c ∈ plus TestGauge.w1 -> car TestGauge.now TestGauge.w1 < ends TestGauge.w1 c + 0) /\
  (forall c, c ∈ minus TestGauge.w1 -> ends TestGauge.w1 c - 0 < car TestGauge.now TestGauge.w1).
Proof.
  apply (no_missed_expiry TestGauge.now TestGauge.t_ht TestGauge.t_lt (2 ^ 31) 0 TestGauge.w1 TestGauge.w1_reachable); vm_compute; auto.
Defined.

Lemma coulomb_thread_settles_witness :
  eval (gauge_coulomb_thread 3) TestGauge.w2 = true /\
  calls (exec (gauge_coulomb_thread 3) TestGauge.w2) = [CoulombPlus; UisocPlus].
Proof.
  destruct (coulomb_thread_settles TestGauge.now TestGauge.t_ht TestGauge.t_lt (2 ^ 31) 0 3 TestGauge.w2 TestGauge.w2_reachable) as (H & E & _);
    [lia|]. split; [exact H|]. rewrite E. reflexivity.
Defined.

Lemma reset_keeps_distances_witness :
  car TestGauge.now (exec reset_set TestGauge.w2) = 0 /\ ends (exec reset_set TestGauge.w2) UisocPlus = -80.
Proof.
  destruct (reset_keeps_distances TestGauge.now TestGauge.t_ht TestGauge.t_lt (2 ^ 31) 0 TestGauge.w2 TestGauge.w2_reachable) as (H & _);
    [reflexivity|]. split; [exact H|reflexivity].
Defined.
