(* ===== verification/Kstrtox.v ===== *)
(** * Conversion of strings to integers (lib/kstrtox.c)

    Every value written to a sysfs, procfs or debugfs file of the charging
    stack goes through these functions.  A string is the list of the codes of
    its characters, without the terminating NUL; reading at its end gives the
    NUL.  The conversion is proved equal to a reference that computes in
    unbounded integers, which shows the shortcut of the overflow test sound. *)

From S2P Require Import Prelude.
#[local] Open Scope Z_scope.

Definition cstr : Type := list Z.
Definition at0 (s : cstr) (i : nat) : Z := default 0 (s !! i).
Definition of_string (s : string) : cstr :=
  map (fun a => Z.of_nat (Ascii.nat_of_ascii a)) (String.list_ascii_of_string s).

(** A conversion gives an error or a value. *)
Inductive kres : Type := KErr (err : Z) | KOk (v : Z).

Definition kbind (r : kres) (k : Z -> kres) : kres :=
  match r with KErr e => KErr e | KOk v => k v end.

Definition KSTRTOX_OVERFLOW : Z := 2 ^ 31.
Definition ULLONG_MAX : Z := 2 ^ 64 - 1.

Definition _tolower (c : Z) : Z := Z.lor c 0x20.
Definition isxdigit (c : Z) : bool :=
  ((48 <=? c) && (c <=? 57)) || ((97 <=? c) && (c <=? 102)) || ((65 <=? c) && (c <=? 70)).

(** The string after an optional prefix, and the base. *)
Definition _parse_integer_fixup_radix (s : cstr) (base : Z) : cstr * Z :=
  let base :=
    if base =? 0 then
      if at0 s 0 =? 48 then
        if (_tolower (at0 s 1) =? 120) && isxdigit (at0 s 2) then 16 else 8
      else 10
    else base in
  (if (base =? 16) && (at0 s 0 =? 48) && (_tolower (at0 s 1) =? 120) then drop 2 s else s, base).

(** The value of a character as a digit, [None] for the [break]. *)
Definition digit_val (c : Z) : option Z :=
  let lc := Z.lor c 0x20 in
  if (48 <=? c) && (c <=? 57) then Some (c - 48)
  else if (97 <=? lc) && (lc <=? 102) then Some (lc - 97 + 10)
  else None.

(** The loop of [_parse_integer]: [res] and [rv] so far; gives [rv] and [res]. *)
Fixpoint parse_integer_loop (s : cstr) (base res rv : Z) : Z * Z :=
  match s with
  | [] => (rv, res)
  | c :: s' =>
      match digit_val c with
      | None => (rv, res)
      | Some val =>
          if base <=? val then (rv, res)
          else
            let rv :=
              if z2b (Z.land res (Z.shiftl 15 60)) && ((ULLONG_MAX - val) / base <? res)
              then Z.lor rv KSTRTOX_OVERFLOW else rv in
            parse_integer_loop s' base (u64 (res * base + val)) (u32 (rv + 1))
      end
  end.

Definition _parse_integer (s : cstr) (base : Z) : Z * Z := parse_integer_loop s base 0 0.

Definition _kstrtoull (s : cstr) (base : Z) : kres :=
  let '(s, base) := _parse_integer_fixup_radix s base in
  let '(rv, res) := _parse_integer s base in
  if z2b (Z.land rv KSTRTOX_OVERFLOW) then KErr (- ERANGE)
  else if rv =? 0 then KErr (- EINVAL)
  else
    let s := drop (Z.to_nat rv) s in
    let s := if at0 s 0 =? 10 then drop 1 s else s in
    if z2b (at0 s 0) then KErr (- EINVAL) else KOk res.

Definition kstrtoull (s : cstr) (base : Z) : kres :=
  _kstrtoull (if at0 s 0 =? 43 then drop 1 s else s) base.

Definition kstrtoll (s : cstr) (base : Z) : kres :=
  if at0 s 0 =? 45 then
    kbind (_kstrtoull (drop 1 s) base) (fun tmp =>
      if 0 <? s64 (- tmp) then KErr (- ERANGE) else KOk (s64 (- tmp)))
  else
    kbind (kstrtoull s base) (fun tmp =>
      if s64 tmp <? 0 then KErr (- ERANGE) else KOk tmp).

(** [long] has 64 bits. *)
Definition _kstrtoul (s : cstr) (base : Z) : kres :=
  kbind (kstrtoull s base) (fun tmp => if negb (tmp =? u64 tmp) then KErr (- ERANGE) else KOk tmp).
Definition _kstrtol (s : cstr) (base : Z) : kres :=
  kbind (kstrtoll s base) (fun tmp => if negb (tmp =? s64 tmp) then KErr (- ERANGE) else KOk tmp).
Definition kstrtouint (s : cstr) (base : Z) : kres :=
  kbind (kstrtoull s base) (fun tmp => if negb (tmp =? u32 tmp) then KErr (- ERANGE) else KOk tmp).
Definition kstrtoint (s : cstr) (base : Z) : kres :=
  kbind (kstrtoll s base) (fun tmp => if negb (tmp =? s32 tmp) then KErr (- ERANGE) else KOk tmp).
Definition kstrtou16 (s : cstr) (base : Z) : kres :=
  kbind (kstrtoull s base) (fun tmp => if negb (tmp =? u16 tmp) then KErr (- ERANGE) else KOk tmp).
Definition kstrtou8 (s : cstr) (base : Z) : kres :=
  kbind (kstrtoull s base) (fun tmp => if negb (tmp =? u8 tmp) then KErr (- ERANGE) else KOk tmp).

Example kstrtoull_samples :
  kstrtoull (of_string "+18446744073709551615") 10 = KOk (2 ^ 64 - 1) /\
  kstrtoull (of_string "18446744073709551616") 10 = KErr (- ERANGE) /\
  kstrtoull (of_string "0xfF") 0 = KOk 255 /\ kstrtoull (of_string "017") 0 = KOk 15 /\
  kstrtoull (of_string "12a") 10 = KErr (- EINVAL) /\
  kstrtoll (of_string "-9223372036854775808") 10 = KOk (- 2 ^ 63) /\
  kstrtoint (of_string "-2147483649") 10 = KErr (- ERANGE).
Proof. by vm_compute. Qed.

(** ** The reference

    The longest prefix of digits of the base, its length being what is
    consumed, and its value as an unbounded integer. *)

Fixpoint digits (base : Z) (s : cstr) : list Z :=
  match s with
  | [] => []
  | c :: s' =>
      match digit_val c with
      | Some v => if base <=? v then [] else v :: digits base s'
      | None => []
      end
  end.

Fixpoint value (base acc : Z) (ds : list Z) : Z :=
  match ds with
  | [] => acc
  | d :: ds' => value base (acc * base + d) ds'
  end.

(** What may follow the digits: nothing, or a newline. *)
Definition ends (s : cstr) : bool :=
  z2b (at0 (if at0 s 0 =? 10 then drop 1 s else s) 0).

Definition ref_kstrtoull (s : cstr) (base : Z) : kres :=
  let ds := digits base s in
  if 2 ^ 64 <=? value base 0 ds then KErr (- ERANGE)
  else match ds with
    | [] => KErr (- EINVAL)
    | _ => if ends (drop (length ds) s) then KErr (- EINVAL) else KOk (value base 0 ds)
    end.

Lemma digit_val_nonneg c v : digit_val c = Some v -> 0 <= v.
Proof. unfold digit_val. intros H. repeat case_match; simplify_eq; bool_prop; lia. Qed.

Lemma value_mono base acc ds :
  1 <= base -> 0 <= acc -> Forall (fun d => 0 <= d) ds -> acc <= value base acc ds.
Proof.
  intros Hb. revert acc. induction ds as [|d ds IH]; intros acc Ha H; [done|].
  inversion H; subst. cbn [value]. etrans; [|apply IH; [nia|done]]. nia.
Qed.

Lemma digits_nonneg base s : Forall (fun d => 0 <= d) (digits base s).
Proof.
  induction s as [|c s IH]; [done|]. cbn [digits]. destruct (digit_val c) eqn:E; [|done].
  case_match; [done|]. constructor; [by eapply digit_val_nonneg|done].
Qed.

(** The shortcut: below [2^60] no base up to 16 can overflow. *)
Lemma overflow_test base res val :
  1 <= base <= 16 -> 0 <= val < base -> 0 <= res < 2 ^ 64 ->
  z2b (Z.land res (Z.shiftl 15 60)) && ((ULLONG_MAX - val) / base <? res) =
  (2 ^ 64 <=? res * base + val).
Proof.
  intros Hb Hv Hr.
  assert (Z.land res (Z.shiftl 15 60) = Z.shiftl (Z.shiftr res 60) 60) as ->.
  { apply Z.bits_inj'. intros i Hi. rewrite Z.land_spec, !Z.shiftl_spec by done.
    destruct (Z.lt_ge_cases i 60) as [|H60]; [by rewrite !(Z.testbit_neg_r _ (i - 60)), andb_false_r by lia|].
    rewrite Z.shiftr_spec, Z.sub_add by lia.
    destruct (Z.lt_ge_cases i 64) as [H64|H64].
    - assert (i - 60 = 0 \/ i - 60 = 1 \/ i - 60 = 2 \/ i - 60 = 3) as Hc by lia.
      destruct Hc as [->|[->|[->| ->]]]; by rewrite andb_true_r.
    - rewrite (Z.bits_above_log2 15) by (cbn; lia). rewrite andb_false_r.
      destruct (Z.eq_dec res 0) as [->|]; [by rewrite Z.bits_0|].
      symmetry. apply Z.bits_above_log2; [lia|].
      apply Z.lt_le_trans with 64; [|done]. apply Z.log2_lt_pow2; lia. }
  rewrite Z.shiftl_mul_pow2, Z.shiftr_div_pow2 by lia. unfold z2b, ULLONG_MAX.
  pose proof (Z.div_mod res (2 ^ 60) ltac:(lia)). pose proof (Z.mod_pos_bound res (2 ^ 60) ltac:(lia)).
  pose proof (Z.div_mod (2 ^ 64 - 1 - val) base ltac:(lia)).
  pose proof (Z.mod_pos_bound (2 ^ 64 - 1 - val) base ltac:(lia)).
  destruct (Z.eqb_spec (res / 2 ^ 60 * 2 ^ 60) 0) as [E|E]; cbn [negb andb].
  - symmetry. apply Z.leb_gt. assert (res < 2 ^ 60) by lia. nia.
  - destruct (Z.leb_spec (2 ^ 64) (res * base + val)); [apply Z.ltb_lt|apply Z.ltb_ge]; nia.
Qed.

Lemma value_u64 base acc ds : u64 (value base (u64 acc) ds) = u64 (value base acc ds).
Proof.
  unfold u64, wrapu. revert acc. induction ds as [|d ds IH]; intros acc; cbn [value].
  - by rewrite Zmod_mod.
  - rewrite <- IH, <- (IH (acc * base + d)). do 2 f_equal.
    by rewrite <- Zplus_mod_idemp_l, Zmult_mod_idemp_l, Zplus_mod_idemp_l.
Qed.

(** [rv] is a count with the overflow bit above it. *)
Definition rv_of (ov : bool) (n : Z) : Z := b2z ov * 2 ^ 31 + n.

Lemma rv_bit ov n : 0 <= n < 2 ^ 31 -> Z.land (rv_of ov n) KSTRTOX_OVERFLOW = b2z ov * 2 ^ 31.
Proof.
  intros Hn. apply Z.bits_inj'. intros i Hi. unfold KSTRTOX_OVERFLOW.
  rewrite Z.land_spec, Z.pow2_bits_eqb by lia.
  destruct (Z.eqb_spec 31 i) as [<-|Hne].
  - rewrite andb_true_r, Z.testbit_eqb by done. unfold rv_of.
    rewrite Z.div_add_l, (Z.div_small n), Z.add_0_r by lia. by destruct ov.
  - rewrite andb_false_r. symmetry. destruct ov; cbn [b2z]; [|apply Z.bits_0].
    rewrite Z.mul_1_l, Z.pow2_bits_eqb by lia. by apply Z.eqb_neq.
Qed.

Lemma rv_overflow ov n : 0 <= n < 2 ^ 31 -> Z.lor (rv_of ov n) KSTRTOX_OVERFLOW = rv_of true n.
Proof.
  intros Hn. pose proof (Z.add_lor_land (rv_of ov n) KSTRTOX_OVERFLOW) as H.
  rewrite rv_bit in H by done. unfold rv_of, KSTRTOX_OVERFLOW in *. cbn [b2z]. lia.
Qed.

Lemma parse_integer_loop_exact base s res ov n :
  1 <= base <= 16 -> 0 <= res < 2 ^ 64 -> 0 <= n -> n + Z.of_nat (length s) < 2 ^ 31 ->
  parse_integer_loop s base res (rv_of ov n) =
  (rv_of (ov || (2 ^ 64 <=? value base res (digits base s))) (n + Z.of_nat (length (digits base s))),
   u64 (value base res (digits base s))).
Proof.
  intros Hb.
  assert (forall r, 0 <= r < 2 ^ 64 -> (2 ^ 64 <=? r) = false) as Hlt by (intros; apply Z.leb_gt; lia).
  assert (forall r, 0 <= r < 2 ^ 64 -> u64 r = r) as Hid by (intros; by apply Z.mod_small).
  revert res ov n. induction s as [|c s IH]; intros res ov n Hr Hn Hl.
  { cbn [parse_integer_loop digits value length]. by rewrite Hlt, orb_false_r, Hid, Z.add_0_r. }
  cbn [parse_integer_loop digits]. destruct (digit_val c) as [v|] eqn:E.
  2: { cbn [value length]. by rewrite Hlt, orb_false_r, Hid, Z.add_0_r. }
  destruct (Z.leb_spec base v).
  { cbn [value length]. by rewrite Hlt, orb_false_r, Hid, Z.add_0_r. }
  pose proof (digit_val_nonneg _ _ E). cbn [length] in Hl. cbn [value length].
  rewrite overflow_test by lia.
  assert (forall o, u32 (rv_of o n + 1) = rv_of o (n + 1)) as Hu.
  { intros o. unfold rv_of. rewrite u32_id; [lia|]. unfold is_u32. destruct o; cbn [b2z]; lia. }
  assert (0 <= u64 (res * base + v) < 2 ^ 64) as Hr' by (apply Z.mod_pos_bound; lia).
  destruct (Z.leb_spec (2 ^ 64) (res * base + v)) as [Ho|Ho].
  - rewrite rv_overflow, Hu, IH by lia. rewrite value_u64.
    assert ((2 ^ 64 <=? value base (res * base + v) (digits base s)) = true) as ->.
    { apply Z.leb_le. etrans; [exact Ho|]. apply value_mono; [lia|lia|apply digits_nonneg]. }
    rewrite orb_true_r. cbn [orb]. f_equal. f_equal. lia.
  - rewrite Hu, IH by lia. rewrite !(Hid (res * base + v)) by nia. f_equal. f_equal. lia.
Qed.

Lemma length_digits base s : (length (digits base s) <= length s)%nat.
Proof. induction s; cbn; [done|]. repeat case_match; cbn; lia. Qed.

Lemma _kstrtoull_ref s base :
  0 <= base <= 16 -> Z.of_nat (length s) < 2 ^ 31 ->
  let '(s', b) := _parse_integer_fixup_radix s base in
  1 <= b -> _kstrtoull s base = ref_kstrtoull s' b.
Proof.
  intros Hb Hl. unfold _kstrtoull. destruct (_parse_integer_fixup_radix s base) as [s' b] eqn:E.
  intros Hb1.
  assert (b <= 16 /\ Z.of_nat (length s') < 2 ^ 31) as [Hb2 Hl'].
  { unfold _parse_integer_fixup_radix in E. repeat case_match; simplify_eq; rewrite ?length_drop; lia. }
  pose proof (length_digits b s'). unfold _parse_integer.
  pose proof (parse_integer_loop_exact b s' 0 false 0) as Hp. change (rv_of false 0) with 0 in Hp.
  rewrite Hp by lia. clear Hp. rewrite orb_false_l, Z.add_0_l, rv_bit by lia.
  unfold ref_kstrtoull. destruct (2 ^ 64 <=? value b 0 (digits b s')) eqn:Ev; [done|].
  cbn [b2z]. rewrite Z.mul_0_l. cbn [z2b Z.eqb negb]. unfold rv_of. cbn [b2z].
  rewrite Z.mul_0_l, Z.add_0_l. destruct (digits b s') as [|d ds] eqn:Ed; [done|].
  destruct (Z.eqb_spec (Z.of_nat (length (d :: ds))) 0) as [|_]; [cbn in *; lia|].
  rewrite Nat2Z.id. cbv zeta. unfold ends.
  match goal with |- (if ?c then _ else _) = (if ?d then _ else _) => change d with c; destruct c end;
    [done|].
  f_equal. apply Z.mod_small. apply Z.leb_gt in Ev. split; [|done].
  rewrite <- Ed. apply value_mono; [lia|lia|apply digits_nonneg].
Qed.

(** C40: [_kstrtoull], with its wrapping 64-bit accumulator, a count that shares
    its word with the overflow flag, and an overflow test that is skipped while
    the accumulator is below [2^60], gives for every base up to 16 and every text
    shorter than 2^31 what the conversion in unbounded integers gives: -ERANGE
    exactly when the number does not fit, -EINVAL without digits or with anything
    but a newline after them, and otherwise the number. *)
Theorem kstrtoull_equiv s base :
  0 <= base <= 16 -> Z.of_nat (length s) < 2 ^ 31 ->
  let '(s', b) := _parse_integer_fixup_radix s base in
  1 <= b -> _kstrtoull s base = ref_kstrtoull s' b.
Proof. apply _kstrtoull_ref. Qed.

Lemma kstrtoull_equiv_witness :
  kstrtoull (of_string "0x1F") 0 = ref_kstrtoull (of_string "1F") 16 /\
  ref_kstrtoull (of_string "1F") 16 = KOk 31.
Proof.
  split; [|reflexivity]. apply (kstrtoull_equiv (of_string "0x1F") 0); [lia|by vm_compute|by vm_compute].
Defined.

(** ** Printing and reading back *)

(** The digits of a number, most significant first; 20 of them are enough for
    64 bits in base 10 and above. *)
Fixpoint show_digits (fuel : nat) (base n : Z) : list Z :=
  match fuel with
  | O => []
  | S k => if n <? base then [n] else show_digits k base (n / base) ++ [n mod base]
  end.

Definition digit_chr (d : Z) : Z := if d <? 10 then 48 + d else 87 + d.
Definition show_u (base n : Z) : cstr := map digit_chr (show_digits 64 base n).
Definition show_s (base n : Z) : cstr := if n <? 0 then 45 :: show_u base (- n) else show_u base n.

Lemma digit_chr_val d : 0 <= d < 16 -> digit_val (digit_chr d) = Some d.
Proof.
  intros H.
  assert (d = 0 \/ d = 1 \/ d = 2 \/ d = 3 \/ d = 4 \/ d = 5 \/ d = 6 \/ d = 7 \/ d = 8 \/ d = 9 \/
    d = 10 \/ d = 11 \/ d = 12 \/ d = 13 \/ d = 14 \/ d = 15) as Hc by lia.
  repeat destruct Hc as [->|Hc]; try reflexivity. by subst.
Qed.

Lemma digits_show base ds t :
  base <= 16 -> Forall (fun d => 0 <= d < base) ds -> digit_val (at0 t 0) = None ->
  digits base (map digit_chr ds ++ t) = ds.
Proof.
  intros Hb H Ht. induction H as [|d ds Hd _ IH].
  - destruct t as [|c t]; [done|]. cbn in *. by rewrite Ht.
  - cbn [map app digits]. rewrite digit_chr_val by lia.
    destruct (Z.leb_spec base d); [lia|]. by rewrite IH.
Qed.

Lemma value_app base acc ds d : value base acc (ds ++ [d]) = value base acc ds * base + d.
Proof. revert acc. induction ds as [|x ds IH]; intros acc; [done|]. cbn [app value]. apply IH. Qed.

Lemma show_digits_spec fuel base n :
  2 <= base -> 0 <= n < 2 ^ Z.of_nat fuel ->
  Forall (fun d => 0 <= d < base) (show_digits fuel base n) /\
  value base 0 (show_digits fuel base n) = n.
Proof.
  intros Hb. revert n. induction fuel as [|k IH]; intros n Hn; [cbn in *; split; [done|lia]|].
  cbn [show_digits]. destruct (Z.ltb_spec n base).
  - split; [apply Forall_singleton; lia|cbn; lia].
  - pose proof (Z.div_mod n base ltac:(lia)). pose proof (Z.mod_pos_bound n base ltac:(lia)).
    rewrite Nat2Z.inj_succ, Z.pow_succ_r in Hn by lia.
    assert (0 <= n / base) by (apply Z.div_pos; lia).
    destruct (IH (n / base)) as [H3 H4]; [nia|].
    split; [apply Forall_app; split; [done|by apply Forall_singleton]|]. rewrite value_app, H4. lia.
Qed.

Lemma show_digits_nonempty fuel base n : show_digits (S fuel) base n <> [].
Proof. cbn. case_match; [done|]. by destruct (show_digits fuel base _). Qed.

(** A rendered number has no sign and no prefix of its own. *)
Lemma show_u_head base n :
  2 <= base <= 16 -> 0 <= n < 2 ^ 64 -> at0 (show_u base n) 0 <> 43 /\ at0 (show_u base n) 0 <> 45.
Proof.
  intros Hb Hn. destruct (show_digits_spec 64 base n ltac:(lia) ltac:(done)) as [H _].
  unfold show_u. destruct (show_digits 64 base n) as [|d ds] eqn:E; [by apply show_digits_nonempty in E|].
  inversion H; subst. unfold at0, digit_chr. cbn. case_match; bool_prop; lia.
Qed.

(** An optional newline. *)
Definition newline (nl : bool) : cstr := if nl then [10] else [].

Lemma length_show_digits fuel base n : (length (show_digits fuel base n) <= fuel)%nat.
Proof.
  revert n. induction fuel as [|k IH]; intros n; cbn; [done|].
  case_match; cbn; [lia|]. rewrite length_app. cbn. specialize (IH (n / base)). lia.
Qed.

Lemma fixup_10 s : _parse_integer_fixup_radix s 10 = (s, 10).
Proof. done. Qed.

Lemma _kstrtoull_show n nl : 0 <= n < 2 ^ 64 -> _kstrtoull (show_u 10 n ++ newline nl) 10 = KOk n.
Proof.
  intros Hn. destruct (show_digits_spec 64 10 n ltac:(lia) Hn) as [Hd Hv].
  assert (Z.of_nat (length (show_u 10 n ++ newline nl)) < 2 ^ 31) as Hl.
  { pose proof (length_show_digits 64 10 n). unfold show_u. rewrite length_app, length_map.
    assert (length (newline nl) <= 1)%nat by (destruct nl; cbn; lia). lia. }
  pose proof (_kstrtoull_ref (show_u 10 n ++ newline nl) 10 ltac:(lia) Hl) as H.
  rewrite fixup_10 in H. rewrite H by done. clear H. unfold ref_kstrtoull, show_u.
  rewrite digits_show by (done || by destruct nl). rewrite Hv.
  destruct (Z.leb_spec (2 ^ 64) n); [lia|].
  rewrite drop_app_length' by (by rewrite length_map).
  destruct (show_digits 64 10 n) eqn:E; [by apply show_digits_nonempty in E|]. by destruct nl.
Qed.

Lemma kstrtoull_show n nl : 0 <= n < 2 ^ 64 -> kstrtoull (show_u 10 n ++ newline nl) 10 = KOk n.
Proof.
  intros Hn. unfold kstrtoull.
  destruct (show_u_head 10 n ltac:(lia) Hn) as [H _].
  replace (at0 (show_u 10 n ++ newline nl) 0) with (at0 (show_u 10 n) 0).
  2: { unfold show_u. destruct (show_digits 64 10 n) eqn:E; [by apply show_digits_nonempty in E|done]. }
  apply Z.eqb_neq in H. rewrite H. by apply _kstrtoull_show.
Qed.

Lemma kstrtoll_show v nl : - 2 ^ 63 <= v < 2 ^ 63 -> kstrtoll (show_s 10 v ++ newline nl) 10 = KOk v.
Proof.
  intros Hv. unfold kstrtoll, show_s.
  assert (forall x, - 2 ^ 63 <= x < 2 ^ 63 -> s64 x = x) as Hs
    by (intros x Hx; unfold s64; rewrite Z.mod_small; lia).
  destruct (Z.ltb_spec v 0).
  - cbn [app]. change (at0 (45 :: _) 0) with 45. cbn [Z.eqb Pos.eqb]. change (drop 1 (45 :: ?l)) with l.
    rewrite _kstrtoull_show by lia. cbn [kbind].
    rewrite Z.opp_involutive, Hs by lia. destruct (Z.ltb_spec 0 v); [lia|done].
  - destruct (show_u_head 10 v ltac:(lia) ltac:(lia)) as [_ H1].
    replace (at0 (show_u 10 v ++ newline nl) 0) with (at0 (show_u 10 v) 0).
    2: { unfold show_u. destruct (show_digits 64 10 v) eqn:E; [by apply show_digits_nonempty in E|done]. }
    apply Z.eqb_neq in H1. rewrite H1, kstrtoull_show by lia. cbn [kbind].
    rewrite Hs by lia. destruct (Z.ltb_spec v 0); [lia|done].
Qed.

(** An integer written in decimal, with a minus sign when it is negative
    and with or without a newline at the end, is read back by [kstrtoint] as
    itself when it fits in an [int], and refused with -ERANGE when it does not;
    this is how every number reaches the driver from a file in sysfs or
    procfs. *)
Theorem kstrtoint_roundtrip v nl :
  - 2 ^ 63 <= v < 2 ^ 63 ->
  kstrtoint (show_s 10 v ++ newline nl) 10 = if bool_decide (is_s32 v) then KOk v else KErr (- ERANGE).
Proof.
  intros Hv. unfold kstrtoint. rewrite kstrtoll_show by done. cbn [kbind].
  case_bool_decide as H.
  - by rewrite (s32_id v H), Z.eqb_refl.
  - destruct (Z.eqb_spec v (s32 v)) as [E|]; [|done]. destruct H. rewrite E. apply s32_range.
Qed.

Lemma kstrtoint_roundtrip_witness :
  kstrtoint (of_string "-4350000" ++ [10]) 10 = KOk (-4350000) /\
  kstrtoint (of_string "4294967296") 10 = KErr (- ERANGE).
Proof.
  split; [apply (kstrtoint_roundtrip (-4350000) true); lia|apply (kstrtoint_roundtrip 4294967296 false); lia].
Defined.
