(* ===== verification/Mt6357.v ===== *)
(** * The fuel gauge of the MT6357

    mt6357-gauge.c: the registers of the gauge in the power-management chip, the
    conversions between register values and physical units, the flags that
    survive a reboot, and the two coulomb thresholds.  The register map of the
    chip, the cells of the real-time clock, the converter channels and the
    charger's power supply are the type class [Pmic]. *)

From S2P Require Import Prelude.
#[local] Open Scope Z_scope.

(** ** Data *)

Inductive gauge_property : Type :=
| GAUGE_PROP_INITIAL | GAUGE_PROP_BATTERY_CURRENT | GAUGE_PROP_COULOMB
| GAUGE_PROP_COULOMB_HT_INTERRUPT | GAUGE_PROP_COULOMB_LT_INTERRUPT | GAUGE_PROP_BATTERY_EXIST
| GAUGE_PROP_HW_VERSION | GAUGE_PROP_VSYS_VOLTAGE | GAUGE_PROP_BATTERY_VOLTAGE
| GAUGE_PROP_BATTERY_TEMPERATURE_ADC | GAUGE_PROP_BIF_VOLTAGE | GAUGE_PROP_EN_HIGH_VBAT_INTERRUPT
| GAUGE_PROP_EN_LOW_VBAT_INTERRUPT | GAUGE_PROP_VBAT_HT_INTR_THRESHOLD | GAUGE_PROP_VBAT_LT_INTR_THRESHOLD
| GAUGE_PROP_RTC_UI_SOC | GAUGE_PROP_PTIM_BATTERY_VOLTAGE | GAUGE_PROP_PTIM_RESIST
| GAUGE_PROP_RESET | GAUGE_PROP_BOOT_ZCV | GAUGE_PROP_ZCV
| GAUGE_PROP_ZCV_CURRENT | GAUGE_PROP_NAFG_CNT | GAUGE_PROP_NAFG_DLTV
| GAUGE_PROP_NAFG_C_DLTV | GAUGE_PROP_NAFG_EN | GAUGE_PROP_NAFG_ZCV
| GAUGE_PROP_NAFG_VBAT | GAUGE_PROP_RESET_FG_RTC | GAUGE_PROP_GAUGE_INITIALIZED
| GAUGE_PROP_AVERAGE_CURRENT | GAUGE_PROP_BAT_PLUGOUT_EN | GAUGE_PROP_ZCV_INTR_THRESHOLD
| GAUGE_PROP_ZCV_INTR_EN | GAUGE_PROP_SOFF_RESET | GAUGE_PROP_NCAR_RESET
| GAUGE_PROP_BAT_CYCLE_INTR_THRESHOLD | GAUGE_PROP_HW_INFO | GAUGE_PROP_EVENT
| GAUGE_PROP_EN_BAT_TMP_HT | GAUGE_PROP_EN_BAT_TMP_LT | GAUGE_PROP_BAT_TMP_HT_THRESHOLD
| GAUGE_PROP_BAT_TMP_LT_THRESHOLD | GAUGE_PROP_2SEC_REBOOT | GAUGE_PROP_PL_CHARGING_STATUS
| GAUGE_PROP_MONITER_PLCHG_STATUS | GAUGE_PROP_BAT_PLUG_STATUS | GAUGE_PROP_IS_NVRAM_FAIL_MODE
| GAUGE_PROP_MONITOR_SOFF_VALIDTIME | GAUGE_PROP_CON0_SOC | GAUGE_PROP_SHUTDOWN_CAR
| GAUGE_PROP_CAR_TUNE_VALUE | GAUGE_PROP_R_FG_VALUE | GAUGE_PROP_VBAT2_DETECT_TIME
| GAUGE_PROP_VBAT2_DETECT_COUNTER | GAUGE_PROP_BAT_TEMP_FROZE_EN.
#[global] Instance gauge_property_eq_dec : EqDecision gauge_property.
Proof. solve_decision. Defined.

Inductive gauge_irq : Type :=
| COULOMB_H_IRQ | COULOMB_L_IRQ | VBAT_H_IRQ | VBAT_L_IRQ | NAFG_IRQ | BAT_PLUGOUT_IRQ | ZCV_IRQ
| FG_N_CHARGE_L_IRQ | FG_IAVG_H_IRQ | FG_IAVG_L_IRQ | BAT_TMP_H_IRQ | BAT_TMP_L_IRQ.
#[global] Instance gauge_irq_eq_dec : EqDecision gauge_irq.
Proof. solve_decision. Defined.

(** [struct gauge_hw_status]: the fields the driver uses. *)
Record gauge_hw_status : Type := mk_hw_status {
  sw_ocv : Z;
  flag_hw_ocv_unreliable : bool;
  iavg_intr_flag : Z;
  pl_charger_status : Z;
  gspare0_reg : Z;
  gspare3_reg : Z;
  rtc_invalid : Z;
  is_bat_plugout : Z;
  bat_plug_out_time : Z;
  r_fg_value : Z;
  car_tune_value : Z;
  meta_current : Z;
  tmp_car_tune : Z;
  vbat2_det_time : Z;
  vbat2_det_counter : Z
}.
#[global] Instance gauge_hw_status_struct : Struct gauge_hw_status := fun r =>
  mk_hw_status (sw_ocv r) (flag_hw_ocv_unreliable r) (iavg_intr_flag r) (pl_charger_status r) (gspare0_reg r)
    (gspare3_reg r) (rtc_invalid r) (is_bat_plugout r) (bat_plug_out_time r) (r_fg_value r) (car_tune_value r)
    (meta_current r) (tmp_car_tune r) (vbat2_det_time r) (vbat2_det_counter r).

(** [struct gauge_hw_info_data]. *)
Record gauge_hw_info_data : Type := mk_hw_info {
  current_1 : Z;
  current_2 : Z;
  current_avg_valid : Z;
  hw_car : Z;
  hw_time : Z;
  hi_pmic_zcv : Z;
  hi_pmic_zcv_rdy : Z;
  hi_charger_zcv : Z;
  hw_zcv : Z
}.
#[global] Instance gauge_hw_info_struct : Struct gauge_hw_info_data := fun r =>
  mk_hw_info (current_1 r) (current_2 r) (current_avg_valid r) (hw_car r) (hw_time r) (hi_pmic_zcv r)
    (hi_pmic_zcv_rdy r) (hi_charger_zcv r) (hw_zcv r).

Definition FROM_SW_OCV : Z := 1.
Definition FROM_PMIC_PLUG_IN : Z := 2.
Definition FROM_PMIC_PON_ON : Z := 3.
Definition FROM_CHR_IN : Z := 4.

(** The voltages at boot, of [struct zcv_data]. *)
Record zcv_set : Type := mk_zcv {
  charger_zcv : Z;
  pmic_in_zcv : Z;
  pmic_zcv : Z;
  pmic_rdy : Z;
  swocv : Z;
  zcv_from : Z;
  zcv_tmp : Z
}.

(** [struct zcv_data]: the latest set and the first. *)
Record zcv_data : Type := mk_zcv_data {
  zcv_now : zcv_set;
  zcv_1st_read : bool;
  zcv_1st : zcv_set;
  moniter_plchg_bit : Z;
  pl_charging_status : Z
}.
#[global] Instance zcv_data_struct : Struct zcv_data := fun r =>
  mk_zcv_data (zcv_now r) (zcv_1st_read r) (zcv_1st r) (moniter_plchg_bit r) (pl_charging_status r).

(** What the driver uses of [struct mtk_battery]. *)
Record battery_data : Type := mk_battery_data {
  cust_r_fg_value : Z;
  cust_car_tune_value : Z;
  nafg_time_setting : Z;
  sleep_current_avg : Z;
  zcv_suspend_time : Z;
  bat_batt_temp : Z;
  ext_hwocv_swocv_lt_temp : Z;
  ext_hwocv_swocv : Z;
  ext_hwocv_swocv_lt : Z;
  gm_disableGM30 : bool;
  is_dlpt_shutdown : Z;
  sw_low_battery_ht_en : Z;
  sw_low_battery_lt_en : Z
}.
#[global] Instance battery_data_struct : Struct battery_data := fun r =>
  mk_battery_data (cust_r_fg_value r) (cust_car_tune_value r) (nafg_time_setting r) (sleep_current_avg r)
    (zcv_suspend_time r) (bat_batt_temp r) (ext_hwocv_swocv_lt_temp r) (ext_hwocv_swocv r) (ext_hwocv_swocv_lt r)
    (gm_disableGM30 r) (is_dlpt_shutdown r) (sw_low_battery_ht_en r) (sw_low_battery_lt_en r).

(** [struct mtk_gauge]; [irq_depth] are the disable depths of the interrupts,
    [gauge_psy] and [gauge_attr] tell whether the power supply is registered and
    has its table. *)
Record mtk_gauge : Type := mk_gauge {
  hw_status : gauge_hw_status;
  fg_hw_info : gauge_hw_info_data;
  zcv_info : zcv_data;
  irq_no : gauge_irq -> Z;
  irq_depth : gauge_irq -> Z;
  nafg_corner : Z;
  nafg_zcv_mv : Z;
  nafg_c_dltv_mv : Z;
  zcv_reg : Z;
  thr_reg : Z;
  bat : battery_data;
  gauge_psy : bool;
  gauge_attr : bool
}.
#[global] Instance mtk_gauge_struct : Struct mtk_gauge := fun r =>
  mk_gauge (hw_status r) (fg_hw_info r) (zcv_info r) (irq_no r) (irq_depth r) (nafg_corner r) (nafg_zcv_mv r)
    (nafg_c_dltv_mv r) (zcv_reg r) (thr_reg r) (bat r) (gauge_psy r) (gauge_attr r).

(** ** Registers *)

(** [PMIC_x_ADDR], [PMIC_x_MASK] and [PMIC_x_SHIFT]. *)
Record pmic_field : Type := mk_pf { pf_addr : Z; pf_mask : Z; pf_shift : Z }.

Definition MT6357_FGADC_CON1 : Z := 0xd0a.
Definition PMIC_HWCID : pmic_field := mk_pf 0x8 0xFFFF 0.
Definition PMIC_AUXADC_NAG_PRD : pmic_field := mk_pf 0x1218 0x7f 3.
Definition PMIC_FG_LATCHDATA_ST : pmic_field := mk_pf 0xd0a 0x1 15.
Definition PMIC_FG_SW_CLEAR : pmic_field := mk_pf 0xd0a 0x1 3.
Definition PMIC_FG_SW_READ_PRE : pmic_field := mk_pf 0xd0a 0x1 0.
Definition PMIC_FG_CURRENT_OUT : pmic_field := mk_pf 0xd8a 0xFFFF 0.
Definition PMIC_FG_R_CURR : pmic_field := mk_pf 0xd88 0xFFFF 0.
Definition PMIC_FG_CAR_15_00 : pmic_field := mk_pf 0xd12 0xFFFF 0.
Definition PMIC_FG_CAR_31_16 : pmic_field := mk_pf 0xd14 0xFFFF 0.
Definition PMIC_FG_BAT0_HTH_15_00 : pmic_field := mk_pf 0xd1c 0xFFFF 0.
Definition PMIC_FG_BAT0_HTH_31_16 : pmic_field := mk_pf 0xd1e 0xFFFF 0.
Definition PMIC_FG_BAT0_LTH_15_00 : pmic_field := mk_pf 0xd18 0xFFFF 0.
Definition PMIC_FG_BAT0_LTH_31_16 : pmic_field := mk_pf 0xd1a 0xFFFF 0.
Definition PMIC_RGS_BATON_UNDET : pmic_field := mk_pf 0xe08 0x1 1.
Definition PMIC_AUXADC_ADC_RDY_PWRON_CLR : pmic_field := mk_pf 0x114a 0x1 3.
Definition PMIC_AUXADC_NAG_CNT_15_0 : pmic_field := mk_pf 0x1220 0xFFFF 0.
Definition PMIC_AUXADC_NAG_CNT_25_16 : pmic_field := mk_pf 0x1222 0x3FF 0.
Definition PMIC_AUXADC_NAG_DLTV : pmic_field := mk_pf 0x1224 0xFFFF 0.
Definition PMIC_AUXADC_NAG_C_DLTV_15_0 : pmic_field := mk_pf 0x1226 0xFFFF 0.
Definition PMIC_AUXADC_NAG_C_DLTV_26_16 : pmic_field := mk_pf 0x1228 0x7FF 0.
Definition PMIC_AUXADC_ADC_OUT_FGADC_PCHR : pmic_field := mk_pf 0x10bc 0x7FFF 0.
Definition PMIC_AUXADC_NAG_IRQ_EN : pmic_field := mk_pf 0x1218 0x1 10.
Definition PMIC_AUXADC_NAG_EN : pmic_field := mk_pf 0x1218 0x1 0.
Definition PMIC_AUXADC_NAG_ZCV : pmic_field := mk_pf 0x121a 0x7FFF 0.
Definition PMIC_AUXADC_NAG_C_DLTV_TH_15_0 : pmic_field := mk_pf 0x121c 0xFFFF 0.
Definition PMIC_AUXADC_NAG_C_DLTV_TH_26_16 : pmic_field := mk_pf 0x121e 0x7FF 0.
Definition PMIC_AUXADC_NAG_VBAT1_SEL : pmic_field := mk_pf 0x1218 0x1 2.
Definition PMIC_FG_ZCV_DET_TIME : pmic_field := mk_pf 0xd2e 0x3F 8.
Definition PMIC_FG_ZCV_CAR_TH_15_00 : pmic_field := mk_pf 0xd38 0xFFFF 0.
Definition PMIC_FG_ZCV_CAR_TH_31_16 : pmic_field := mk_pf 0xd3a 0xFFFF 0.
Definition PMIC_FG_ZCV_DET_EN : pmic_field := mk_pf 0xd08 0x1 10.
Definition PMIC_AUXADC_ADC_OUT_NAG : pmic_field := mk_pf 0x10d4 0x7FFF 0.
Definition PMIC_AUXADC_ADC_RDY_PWRON_PCHR : pmic_field := mk_pf 0x10ac 0x1 15.
Definition PMIC_AUXADC_ADC_OUT_PWRON_PCHR : pmic_field := mk_pf 0x10ac 0x7FFF 0.
Definition PMIC_RG_STRUP_AUXADC_START_SEL : pmic_field := mk_pf 0xa20 0x1 2.
Definition PMIC_AUXADC_ADC_RDY_BAT_PLUGIN_PCHR : pmic_field := mk_pf 0x10c0 0x1 15.
Definition PMIC_AUXADC_ADC_OUT_BAT_PLUGIN_PCHR : pmic_field := mk_pf 0x10c0 0x7FFF 0.
Definition PMIC_AUXADC_ADC_RDY_BAT_PLUGIN_CLR : pmic_field := mk_pf 0x114a 0x1 2.
Definition PMIC_FG_NTER_15_00 : pmic_field := mk_pf 0xd20 0xFFFF 0.
Definition PMIC_FG_NTER_31_16 : pmic_field := mk_pf 0xd22 0xFFFF 0.
Definition PMIC_FG_CIC2 : pmic_field := mk_pf 0xd90 0xFFFF 0.
Definition PMIC_FG_ZCV_CURR : pmic_field := mk_pf 0xd30 0xFFFF 0.
Definition PMIC_RG_SYSTEM_INFO_CON0_ADDR : Z := 0xd9a.
Definition PMIC_RG_SYSTEM_INFO_CON1_ADDR : Z := 0xd9c.

Definition UNIT_FGCURRENT : Z := 314331.
Definition UNIT_TIME : Z := 50.
Definition DEFAULT_R_FG : Z := 100.
Definition UNIT_FGCAR_ZCV : Z := 19646.
Definition VOLTAGE_FULL_RANGES : Z := 1800.
Definition R_VAL_TEMP_3 : Z := 3.
Definition ADC_PRECISE : Z := 32768.
Definition CAR_TO_REG_SHIFT : Z := 3.
Definition CAR_TO_REG_FACTOR : Z := 0x5c2a.
Definition UNIT_FGCAR : Z := 11176.
Definition CALI_CAR_TUNE_AVG_NUM : nat := 60.

(** ** Conversions *)

(** [do_div(x, n)] of a [long long]: an unsigned division. *)
Definition do_div (x n : Z) : Z := s64 (u64 x / n).

Definition reg_to_mv_value (reg : Z) : Z := s32 ((reg * VOLTAGE_FULL_RANGES * 10 * R_VAL_TEMP_3) ÷c ADC_PRECISE).
Definition mv_to_reg_value (mv : Z) : Z := s32 ((mv * ADC_PRECISE) ÷c (VOLTAGE_FULL_RANGES * 10 * R_VAL_TEMP_3)).

(** The magnitude of a current register of 16 bits, and whether its sign bit is set. *)
Definition current_magnitude (dvalue : Z) : Z :=
  if 32767 <? dvalue then - (dvalue - 65535) else dvalue.
Definition current_scaled (dvalue : Z) : Z := s32 (u32 (do_div (current_magnitude dvalue * UNIT_FGCURRENT) 100000)).

Definition reg_to_current (regval : Z) : Z :=
  let dvalue := u16 regval in
  let retval := current_scaled dvalue in
  if (dvalue =? 0) || (32767 <? dvalue) then s32 (- retval) else retval.

(** The correction for the sense resistor and the calibration. *)
Definition adjust (r_fg tune v : Z) : Z :=
  let v := if r_fg =? DEFAULT_R_FG then v else s32 (v * DEFAULT_R_FG) ÷c r_fg in
  s32 (v * tune) ÷c 1000.

(** [coulomb_get] after the two registers are read. *)
Definition car_value (r_fg tune lo hi : Z) : Z :=
  let uvalue32_car := Z.lor (Z.shiftr lo 11) (Z.shiftl (Z.land hi 0x7fff) 5) in
  let msb := Z.shiftr (Z.land hi 0x8000) 15 in
  let temp_value :=
    if uvalue32_car =? 0 then 0
    else if uvalue32_car =? 0xfffff then 0
    else if msb =? 1 then - (uvalue32_car - 0xfffff)
    else uvalue32_car in
  let temp_value := (temp_value * UNIT_FGCAR) ÷c 1000 in
  let temp_value := do_div (do_div temp_value 10 + 5) 10 in
  adjust r_fg tune (if msb =? 1 then s32 (- temp_value) else s32 temp_value).

(** A distance in steps of the threshold registers. *)
Definition car_to_reg (r_fg tune val : Z) : Z :=
  let car := (val * CAR_TO_REG_FACTOR) ÷c 10 in
  let car := if r_fg =? 100 then car else s64 (car * r_fg) ÷c 100 in
  s64 (car * 1000) ÷c tune.
(** [value32_car >> CAR_TO_REG_SHIFT]. *)
Definition car_steps (lo hi : Z) : Z :=
  Z.shiftr (s32 (Z.lor (Z.land lo 0xffff) (u32 (Z.shiftl (Z.land hi 0xffff) 16)))) CAR_TO_REG_SHIFT.

(** ** The chip and what else the driver calls *)

Inductive rtc_cell : Type := Initialization | StateOfCharge.
#[global] Instance rtc_cell_eq_dec : EqDecision rtc_cell.
Proof. solve_decision. Defined.
Inductive iio_chan : Type := Chan_bat_temp | Chan_vsys_voltage | Chan_bat_voltage | Chan_bif | Chan_ptim_bat_voltage | Chan_ptim_r.

(** [None] for a read that fails.  [charger_voltage_boot] is [None] without the
    master charger and [Some None] when it does not tell. *)
Class Pmic (P : Type) : Type := {
  pm_read : Z -> M P (option Z);
  pm_update : Z -> Z -> Z -> M P unit;
  nv_read : rtc_cell -> M P (option Z);
  nv_write : rtc_cell -> Z -> M P unit;
  iio_present : iio_chan -> P -> bool;
  iio_read_channel_processed : iio_chan -> M P (Z * option Z);
  charger_voltage_boot : M P (option (option Z));
  set_dlpt_shutdown : M P unit
}.

Record gworld (P : Type) : Type := mk_gworld { gg : mtk_gauge; pm : P }.
Arguments mk_gworld {P}.
Arguments gg {P}.
Arguments pm {P}.
#[global] Instance gworld_struct P : Struct (gworld P) := fun r => mk_gworld (gg r) (pm r).

Section Driver.
  Context {P : Type} `{!Pmic P} (undef : Z).
  Abbreviation W := (gworld P).

Definition chip {A} (m : M P A) : M W A := fun w => let '(a, p) := m (pm w) in (a, w <| pm := p |>).
Definition getg {A} (f : mtk_gauge -> A) : M W A := gets (fun w => f (gg w)).
Definition modg (f : mtk_gauge -> mtk_gauge) : M W unit := modify (fun w => w <| gg ::= f |>).
Definition modhs (f : gauge_hw_status -> gauge_hw_status) : M W unit := modg (fun g => g <| hw_status ::= f |>).
Definition modhi (f : gauge_hw_info_data -> gauge_hw_info_data) : M W unit := modg (fun g => g <| fg_hw_info ::= f |>).

(** [regmap_read(addr, &v)]: a failure leaves [v] alone; [undef] is what an
    uninitialised variable holds. *)
Definition regmap_read (addr old : Z) : M W Z := let! v := chip (pm_read addr) in ret (default old v).
Definition regmap_update_bits (addr mask val : Z) : M W unit := chip (pm_update addr mask (u32 val)).

Definition field_of (f : pmic_field) (v : Z) : Z := Z.shiftr (Z.land v (Z.shiftl (pf_mask f) (pf_shift f))) (pf_shift f).
Definition read_field (f : pmic_field) (old : Z) : M W Z := let! v := regmap_read (pf_addr f) old in ret (field_of f v).
Definition write_field (f : pmic_field) (v : Z) : M W unit :=
  regmap_update_bits (pf_addr f) (Z.shiftl (pf_mask f) (pf_shift f)) (Z.shiftl v (pf_shift f)).

(** ** Interrupts *)

Definition set_depth (irq : gauge_irq) (d : Z) : M W unit :=
  modg (fun g => g <| irq_depth ::= fun f => fun i => if decide (i = irq) then d else f i |>).
Definition enable_gauge_irq (irq : gauge_irq) : M W unit :=
  let! d := getg (fun g => irq_depth g irq) in when (d =? 1) (set_depth irq 0).
Definition disable_gauge_irq (irq : gauge_irq) : M W unit :=
  let! n := getg (fun g => irq_no g irq) in
  if n =? 0 then ret tt
  else let! d := getg (fun g => irq_depth g irq) in when (d =? 0) (set_depth irq 1).

Definition all_irqs : list gauge_irq :=
  [COULOMB_H_IRQ; COULOMB_L_IRQ; VBAT_H_IRQ; VBAT_L_IRQ; NAFG_IRQ; BAT_PLUGOUT_IRQ; ZCV_IRQ;
   FG_N_CHARGE_L_IRQ; FG_IAVG_H_IRQ; FG_IAVG_L_IRQ; BAT_TMP_H_IRQ; BAT_TMP_L_IRQ].
Definition disable_all_irq : M W unit := for_each all_irqs disable_gauge_irq.

(** ** Latching *)

(** Poll until the latch bit is [want], at most [n] times. *)
Fixpoint poll_latch (n : nat) (want : bool) (reg_val : Z) : M W unit :=
  match n with
  | O => ret tt
  | S n' =>
      let! v := read_field PMIC_FG_LATCHDATA_ST reg_val in
      if Bool.eqb (z2b v) want then ret tt else poll_latch n' want v
  end.

Definition pre_gauge_update : M W unit :=
  write_field PMIC_FG_SW_READ_PRE 1 ;;; poll_latch 1000 true 0.
Definition post_gauge_update : M W unit :=
  write_field PMIC_FG_SW_CLEAR 1 ;;; write_field PMIC_FG_SW_READ_PRE 0 ;;;
  poll_latch 1000 false undef ;;; write_field PMIC_FG_SW_CLEAR 0.

(** ** Cells of the real-time clock *)

Definition get_rtc (c : rtc_cell) : M W Z := let! v := chip (nv_read c) in ret (u8 (default 0 v)).
Definition set_rtc (c : rtc_cell) (val : Z) : M W unit := chip (nv_write c (u8 val)).
Definition get_rtc_spare0_fg_value : M W Z := get_rtc Initialization.
Definition set_rtc_spare0_fg_value (val : Z) : M W unit := set_rtc Initialization val.
Definition get_rtc_spare_fg_value : M W Z := get_rtc StateOfCharge.
Definition set_rtc_spare_fg_value (val : Z) : M W unit := set_rtc StateOfCharge val.

(** ** Flags that survive a reboot *)

Definition fgauge_set_info (ginfo : gauge_property) (value : Z) : M W Z :=
  (match ginfo with
   | GAUGE_PROP_2SEC_REBOOT => regmap_update_bits PMIC_RG_SYSTEM_INFO_CON0_ADDR 0x0001 value
   | GAUGE_PROP_PL_CHARGING_STATUS =>
       regmap_update_bits PMIC_RG_SYSTEM_INFO_CON0_ADDR (Z.shiftl 0x0001 1) (Z.shiftl value 1)
   | GAUGE_PROP_MONITER_PLCHG_STATUS =>
       regmap_update_bits PMIC_RG_SYSTEM_INFO_CON0_ADDR (Z.shiftl 0x0001 2) (Z.shiftl value 2)
   | GAUGE_PROP_BAT_PLUG_STATUS =>
       regmap_update_bits PMIC_RG_SYSTEM_INFO_CON0_ADDR (Z.shiftl 0x0001 3) (Z.shiftl value 3)
   | GAUGE_PROP_IS_NVRAM_FAIL_MODE =>
       regmap_update_bits PMIC_RG_SYSTEM_INFO_CON0_ADDR (Z.shiftl 0x0001 4) (Z.shiftl value 4)
   | GAUGE_PROP_MONITOR_SOFF_VALIDTIME =>
       regmap_update_bits PMIC_RG_SYSTEM_INFO_CON0_ADDR (Z.shiftl 0x0001 5) (Z.shiftl value 5)
   | GAUGE_PROP_CON0_SOC =>
       regmap_update_bits PMIC_RG_SYSTEM_INFO_CON0_ADDR (Z.shiftl 0x007f 9) (Z.shiftl (value ÷c 100) 9)
   | GAUGE_PROP_SHUTDOWN_CAR =>
       if value =? -99999 then
         regmap_update_bits PMIC_RG_SYSTEM_INFO_CON1_ADDR (Z.shiftl 0x01FF 7) (Z.shiftl 0x1FF 7)
       else
         let sign_bit := b2z (value <? 0) in
         let value_mask := Z.land (s32 (Z.abs value)) 0x00ff in
         regmap_update_bits PMIC_RG_SYSTEM_INFO_CON1_ADDR (Z.shiftl 0x00FF 7) (Z.shiftl value_mask 7) ;;;
         regmap_update_bits PMIC_RG_SYSTEM_INFO_CON1_ADDR (Z.shiftl 0x0001 0xf) (Z.shiftl sign_bit 0xf) ;;;
         ignore (regmap_read PMIC_RG_SYSTEM_INFO_CON1_ADDR 0)
   | _ => ret tt
   end) ;;; ret 0.

(** [*value] afterwards, from its contents before. *)
Definition fgauge_get_info (ginfo : gauge_property) (value : Z) : M W Z :=
  let! reg_val := regmap_read PMIC_RG_SYSTEM_INFO_CON0_ADDR 0 in
  let bit k := Z.shiftr (Z.land reg_val (Z.shiftl 0x0001 k)) k in
  match ginfo with
  | GAUGE_PROP_2SEC_REBOOT => ret (Z.land reg_val 0x0001)
  | GAUGE_PROP_PL_CHARGING_STATUS => ret (bit 1)
  | GAUGE_PROP_MONITER_PLCHG_STATUS => ret (bit 2)
  | GAUGE_PROP_BAT_PLUG_STATUS => ret (bit 3)
  | GAUGE_PROP_IS_NVRAM_FAIL_MODE => ret (bit 4)
  | GAUGE_PROP_MONITOR_SOFF_VALIDTIME => ret (bit 5)
  | GAUGE_PROP_CON0_SOC => ret (Z.shiftr (Z.land reg_val (Z.shiftl 0x007F 9)) 9)
  | GAUGE_PROP_SHUTDOWN_CAR =>
      let! reg_val := regmap_read PMIC_RG_SYSTEM_INFO_CON1_ADDR reg_val in
      let sign_bit := Z.shiftr (Z.land reg_val (Z.shiftl 0x1 0xf)) 0xf in
      let tmp_val := Z.shiftr (Z.land reg_val (Z.shiftl 0xff 7)) 7 in
      ret (if (sign_bit =? 1) && (tmp_val =? 0xff) then 0
           else if sign_bit =? 1 then 0 - tmp_val
           else value)
  | _ => ret value
  end.

(** ** Open-circuit voltage and not-accurate-gauge detection *)

Definition fgauge_set_nafg_intr_internal (prd zcv_mv thr_mv : Z) : M W unit :=
  modg (fun g => g <| zcv_reg := mv_to_reg_value zcv_mv |> <| thr_reg := mv_to_reg_value thr_mv |>) ;;;
  let! thr := getg thr_reg in
  let! zcv := getg zcv_reg in
  let th_26_16 := Z.shiftr (Z.land (u32 thr) 0xffff0000) 16 in
  let th_15_0 := Z.land thr 0x0000ffff in
  write_field PMIC_AUXADC_NAG_ZCV zcv ;;;
  write_field PMIC_AUXADC_NAG_C_DLTV_TH_26_16 th_26_16 ;;;
  write_field PMIC_AUXADC_NAG_C_DLTV_TH_15_0 th_15_0 ;;;
  write_field PMIC_AUXADC_NAG_PRD prd ;;;
  write_field PMIC_AUXADC_NAG_VBAT1_SEL 1.

Definition nafg_zcv_set (zcv : Z) : M W Z := modg (fun g => g <| nafg_zcv_mv := zcv |>) ;;; ret 0.

(** Unlike [reg_to_current] it returns the magnitude. *)
Definition zcv_current_get : M W Z :=
  let! uvalue16 := read_field PMIC_FG_ZCV_CURR 0 in
  let! b := getg bat in
  ret (adjust (cust_r_fg_value b) (cust_car_tune_value b) (current_scaled uvalue16)).

Definition nafg_c_dltv_set (c_dltv_mv : Z) : M W Z :=
  modg (fun g => g <| nafg_c_dltv_mv := c_dltv_mv |>) ;;;
  let! g := getg (fun g => g) in
  fgauge_set_nafg_intr_internal (nafg_time_setting (bat g)) (nafg_zcv_mv g) (nafg_c_dltv_mv g) ;;; ret 0.

(** The ready bit, bit 15, is not in the mask of the field. *)
Fixpoint poll_nafg_vbat (n : nat) (old : Z) : M W Z :=
  match n with
  | O => ret old
  | S n' =>
      let! nag_vbat_reg := read_field PMIC_AUXADC_ADC_OUT_NAG old in
      if z2b (Z.land nag_vbat_reg 0x8000) then ret nag_vbat_reg else poll_nafg_vbat n' nag_vbat_reg
  end.
Definition get_nafg_vbat : M W Z :=
  let! nag_vbat_reg := poll_nafg_vbat 6 undef in ret (reg_to_mv_value (Z.land nag_vbat_reg 0x7fff)).
Definition nafg_vbat_get : M W Z := get_nafg_vbat.

Definition fgauge_set_zcv_intr_internal (fg_zcv_det_time fg_zcv_car_th : Z) : M W unit :=
  let! g := getg (fun g => g) in
  let hs := hw_status g in
  let fg_zcv_car_th := s32 (s32 (fg_zcv_det_time + 1) * sleep_current_avg (bat g)) ÷c 60 in
  let th_reg := do_div (fg_zcv_car_th * 100 * 3600 * 1000) UNIT_FGCAR_ZCV in
  let th_reg := if r_fg_value hs =? DEFAULT_R_FG then th_reg else s64 (th_reg * r_fg_value hs) ÷c DEFAULT_R_FG in
  let th_reg := s64 (th_reg * 1000) ÷c car_tune_value hs in
  write_field PMIC_FG_ZCV_DET_TIME fg_zcv_det_time ;;;
  write_field PMIC_FG_ZCV_CAR_TH_15_00 (Z.land th_reg 0x0000ffff) ;;;
  write_field PMIC_FG_ZCV_CAR_TH_31_16 (Z.shiftr (Z.land th_reg 0xffff0000) 16).

Definition zcv_intr_threshold_set (zcv_avg_current : Z) : M W Z :=
  let! t := getg (fun g => zcv_suspend_time (bat g)) in
  fgauge_set_zcv_intr_internal t zcv_avg_current ;;; ret 0.

Definition zcv_intr_en_set (en : Z) : M W Z :=
  when (en =? 0) (disable_gauge_irq ZCV_IRQ ;;; write_field PMIC_FG_ZCV_DET_EN en) ;;;
  when (en =? 1) (enable_gauge_irq ZCV_IRQ ;;; write_field PMIC_FG_ZCV_DET_EN en) ;;; ret 0.

(** ** Time, current and charge *)

Definition fgauge_get_time : M W Z :=
  pre_gauge_update ;;;
  let! time_15_00 := read_field PMIC_FG_NTER_15_00 undef in
  let! time_31_16 := read_field PMIC_FG_NTER_31_16 undef in
  let time := Z.lor time_15_00 (u32 (Z.shiftl time_31_16 16)) in
  post_gauge_update ;;;
  ret (u32 ((time * UNIT_TIME) ÷c 100)).

Definition latched (f : pmic_field) (old : Z) : M W Z :=
  pre_gauge_update ;;; let! v := read_field f old in post_gauge_update ;;; ret v.

Definition instant_current_for_car_tune : M W Z := latched PMIC_FG_CURRENT_OUT 0.
Definition instant_current : M W Z :=
  let! hs := getg hw_status in
  let! reg_value := latched PMIC_FG_CURRENT_OUT undef in
  ret (adjust (r_fg_value hs) (car_tune_value hs) (reg_to_current reg_value)).

Definition read_fg_hw_info_current_1 : M W unit :=
  let! v := instant_current in modhi (fun i => i <| current_1 := v |>).
Definition read_fg_hw_info_current_2 : M W unit :=
  let! cic2_reg := read_field PMIC_FG_CIC2 undef in
  let! hs := getg hw_status in
  let dvalue := current_scaled cic2_reg in
  let dvalue := if r_fg_value hs =? DEFAULT_R_FG then dvalue else s32 (dvalue * DEFAULT_R_FG) ÷c r_fg_value hs in
  let dvalue := if 32767 <? cic2_reg then s32 (dvalue - dvalue * 2) else dvalue in
  modhi (fun i => i <| current_2 := s32 (dvalue * car_tune_value hs) ÷c 1000 |>).

(** The two halves of the counter, latched together. *)
Definition read_car : M W (Z * Z) :=
  pre_gauge_update ;;;
  let! lo := read_field PMIC_FG_CAR_15_00 0 in
  let! hi := read_field PMIC_FG_CAR_31_16 0 in
  post_gauge_update ;;; ret (lo, hi).

Definition coulomb_get : M W Z :=
  let! hs := getg hw_status in
  let! v := read_car in
  ret (car_value (r_fg_value hs) (car_tune_value hs) (fst v) (snd v)).

Definition hw_info_set (en : Z) : M W Z :=
  post_gauge_update ;;; read_fg_hw_info_current_1 ;;; read_fg_hw_info_current_2 ;;;
  let! valid := getg (fun g => current_avg_valid (fg_hw_info g)) in
  let! flag := getg (fun g => iavg_intr_flag (hw_status g)) in
  (if (valid =? 1) && (flag =? 0) then modhs (fun h => h <| iavg_intr_flag := 1 |>)
   else when (valid =? 0)
     (modhs (fun h => h <| iavg_intr_flag := 0 |>) ;;; disable_gauge_irq FG_IAVG_H_IRQ ;;; disable_gauge_irq FG_IAVG_L_IRQ)) ;;;
  post_gauge_update ;;;
  let! car := coulomb_get in modhi (fun i => i <| hw_car := car |>) ;;;
  let! time := fgauge_get_time in modhi (fun i => i <| hw_time := s32 time |>) ;;;
  ret 0.

Definition nafg_en_set (val : Z) : M W Z :=
  let en := b2z (z2b val) in
  (if z2b val then enable_gauge_irq NAFG_IRQ else disable_gauge_irq NAFG_IRQ) ;;;
  write_field PMIC_AUXADC_NAG_IRQ_EN en ;;; write_field PMIC_AUXADC_NAG_EN en ;;; ret 0.

(** ** Calibration *)

(** The sum of the non-zero samples and their number. *)
Fixpoint tune_samples (n : nat) (sum_all avg_cnt : Z) : M W (Z * Z) :=
  match n with
  | O => ret (sum_all, avg_cnt)
  | S n' =>
      let! uvalue32 := instant_current_for_car_tune in
      if uvalue32 =? 0 then tune_samples n' sum_all avg_cnt
      else tune_samples n' (sum_all + if uvalue32 <=? 0x8000 then uvalue32 else u32 (65535 - uvalue32)) (avg_cnt + 1)
  end.

Definition calculate_car_tune : M W Z :=
  let! meta := getg (fun g => meta_current (hw_status g)) in
  if meta =? 0 then ret 0
  else
    let! s := tune_samples CALI_CAR_TUNE_AVG_NUM 0 0 in
    let '(sum_all, avg_cnt) := s in
    let current_from_ADC := if avg_cnt =? 0 then sum_all else sum_all / avg_cnt in
    let dvalue := s32 ((current_from_ADC * UNIT_FGCURRENT) / 10000) in
    let! r_fg := getg (fun g => r_fg_value (hw_status g)) in
    let dvalue := if r_fg =? 100 then dvalue else s32 (dvalue * 100) ÷c r_fg in
    when (negb (dvalue =? 0)) (modhs (fun h => h <| tmp_car_tune := s32 (s32 (meta * 1000) * 100) ÷c dvalue |>)) ;;;
    ret 0.

Definition info_set (prop : gauge_property) (val : Z) : M W Z :=
  if bool_decide (prop = GAUGE_PROP_CAR_TUNE_VALUE) && ((500 <? val) && (val <? 1500)) then
    modhs (fun h => h <| meta_current := val |>) ;;; ignore calculate_car_tune ;;; ret 0
  else if bool_decide (prop = GAUGE_PROP_R_FG_VALUE) && negb (val =? 0) then
    modhs (fun h => h <| r_fg_value := val |>) ;;; ret 0
  else if bool_decide (prop = GAUGE_PROP_VBAT2_DETECT_TIME) then modhs (fun h => h <| vbat2_det_time := val |>) ;;; ret 0
  else if bool_decide (prop = GAUGE_PROP_VBAT2_DETECT_COUNTER) then modhs (fun h => h <| vbat2_det_counter := val |>) ;;; ret 0
  else fgauge_set_info prop val.

Definition info_get (prop : gauge_property) (val : Z) : M W Z :=
  let! hs := getg hw_status in
  match prop with
  | GAUGE_PROP_CAR_TUNE_VALUE => ret (tmp_car_tune hs)
  | GAUGE_PROP_R_FG_VALUE => ret (r_fg_value hs)
  | GAUGE_PROP_VBAT2_DETECT_TIME => ret (vbat2_det_time hs)
  | GAUGE_PROP_VBAT2_DETECT_COUNTER => ret (vbat2_det_counter hs)
  | _ => fgauge_get_info prop val
  end.

Definition get_ptim_current : M W Z :=
  let! hs := getg hw_status in
  let! reg_value := read_field PMIC_FG_R_CURR undef in
  ret (s32 (adjust (r_fg_value hs) (car_tune_value hs) (reg_to_current reg_value) * -1)).

(** ** Thresholds of the coulomb counter, and its reset *)

Definition coulomb_interrupt_ht_set (val : Z) : M W Z :=
  let! hs := getg hw_status in
  if val =? 0 then disable_gauge_irq COULOMB_H_IRQ ;;; ret 0
  else
    let! v := read_car in
    let upperbound := s32 (car_steps (fst v) (snd v) + car_to_reg (r_fg_value hs) (car_tune_value hs) val) in
    disable_gauge_irq COULOMB_H_IRQ ;;;
    write_field PMIC_FG_BAT0_HTH_15_00 (Z.land upperbound 0xffff) ;;;
    write_field PMIC_FG_BAT0_HTH_31_16 (Z.shiftr (Z.land (u32 upperbound) 0xffff0000) 16) ;;;
    enable_gauge_irq COULOMB_H_IRQ ;;; ret 0.

Definition coulomb_interrupt_lt_set (val : Z) : M W Z :=
  let! hs := getg hw_status in
  if val =? 0 then disable_gauge_irq COULOMB_L_IRQ ;;; ret 0
  else
    let! v := read_car in
    let lowbound := s32 (car_steps (fst v) (snd v) - car_to_reg (r_fg_value hs) (car_tune_value hs) val) in
    disable_gauge_irq COULOMB_L_IRQ ;;;
    write_field PMIC_FG_BAT0_LTH_15_00 (Z.land lowbound 0xffff) ;;;
    write_field PMIC_FG_BAT0_LTH_31_16 (Z.shiftr (Z.land (u32 lowbound) 0xffff0000) 16) ;;;
    enable_gauge_irq COULOMB_L_IRQ ;;; ret 0.

Definition reset_set : M W Z :=
  regmap_update_bits MT6357_FGADC_CON1 0x0F00 0x0630 ;;;
  regmap_update_bits MT6357_FGADC_CON1 0x0F00 0x0030 ;;; ret 0.
End Driver.
