(* ===== verification/Mt6357Ops.v ===== *)
(** * The fuel gauge of the MT6357: boot, and the property table

    The open-circuit voltage the gauge starts from, the state kept in the cells
    of the real-time clock, the operations of the property table and the access
    to it from mtk_battery.c and through sysfs. *)

From S2P Require Import Prelude Kstrtox Mt6357.
#[local] Open Scope Z_scope.

Section Ops.
  Context {P : Type} `{!Pmic P} (undef : Z).
  Abbreviation W := (gworld P).
  Abbreviation regmap_read := (regmap_read (P := P)).

(** ** The real-time clock *)

Definition fgauge_read_RTC_boot_status : M W unit :=
  let! hw_id := read_field PMIC_HWCID undef in
  let! spare0_reg := get_rtc_spare0_fg_value in
  let! spare3_reg := get_rtc_spare_fg_value in
  modhs (fun h => h <| gspare0_reg := spare0_reg |> <| gspare3_reg := spare3_reg |>) ;;;
  let spare3_reg_valid := Z.shiftr (Z.land spare3_reg 0x80) 7 in
  modhs (fun h => h <| rtc_invalid := if spare3_reg_valid =? 0 then 1 else 0 |>) ;;;
  let! inv := getg (fun g => rtc_invalid (hw_status g)) in
  if inv =? 0 then
    let b13 := Z.shiftr (Z.land spare0_reg 0x20) 5 in
    modhs (fun h => h <| is_bat_plugout := if Z.land hw_id 0xff00 =? 0x3500 then b13 else b2z (negb (z2b b13)) |>
                      <| bat_plug_out_time := Z.land spare0_reg 0x1f |>)
  else modhs (fun h => h <| is_bat_plugout := 1 |> <| bat_plug_out_time := 31 |>).

Definition reset_fg_rtc_set (val : Z) : M W Z :=
  let! hw_id := read_field PMIC_HWCID undef in
  fgauge_read_RTC_boot_status ;;;
  ignore get_rtc_spare0_fg_value ;;;
  (if Z.land hw_id 0xff00 =? 0x3500 then set_rtc_spare0_fg_value 0x80 ;;; set_rtc_spare0_fg_value 0x00
   else set_rtc_spare0_fg_value 0x80 ;;; set_rtc_spare0_fg_value 0x20) ;;;
  ignore get_rtc_spare0_fg_value ;;;
  let! spare3_reg := get_rtc_spare_fg_value in
  set_rtc_spare_fg_value (Z.lor spare3_reg 0x80) ;;;
  ignore get_rtc_spare_fg_value ;;; ret 0.

Definition rtc_ui_soc_get : M W Z := let! rtc_value := get_rtc_spare_fg_value in ret (Z.land rtc_value 0x7f).
Definition rtc_ui_soc_set (val : Z) : M W Z :=
  let! spare3_reg := get_rtc_spare_fg_value in
  set_rtc_spare_fg_value (Z.land spare3_reg 0x80 + val) ;;; ret 1.

(** ** Open-circuit voltage *)

Definition clear_pulse (f : pmic_field) : M W unit := write_field f 1 ;;; write_field f 0.

Definition read_hw_ocv_6357_plug_in : M W Z :=
  let! adc_rdy := read_field PMIC_AUXADC_ADC_RDY_BAT_PLUGIN_PCHR 0 in
  let! adc_result_reg := read_field PMIC_AUXADC_ADC_OUT_BAT_PLUGIN_PCHR 0 in
  ignore (read_field PMIC_RG_STRUP_AUXADC_START_SEL undef) ;;;
  when (adc_rdy =? 1) (clear_pulse PMIC_AUXADC_ADC_RDY_BAT_PLUGIN_CLR) ;;;
  ret (reg_to_mv_value adc_result_reg).

Definition read_hw_ocv_6357_power_on : M W Z :=
  let! adc_result_rdy := read_field PMIC_AUXADC_ADC_RDY_PWRON_PCHR 0 in
  let! adc_result_reg := read_field PMIC_AUXADC_ADC_OUT_PWRON_PCHR 0 in
  ignore (read_field PMIC_RG_STRUP_AUXADC_START_SEL undef) ;;;
  when (adc_result_rdy =? 1) (clear_pulse PMIC_AUXADC_ADC_RDY_PWRON_CLR) ;;;
  ret (reg_to_mv_value adc_result_reg).

Definition read_hw_ocv_6357_power_on_rdy : M W Z := read_field PMIC_AUXADC_ADC_RDY_PWRON_PCHR 0.

Definition get_charger_zcv : M W Z :=
  let! v := chip charger_voltage_boot in
  ret (match v with None => - ENODEV | Some v => default undef v end).

(** The choice of [boot_zcv_get]: the voltage, its source, and whether the
    hardware was found unreliable. *)
Definition choose_zcv (charger : bool) (rdy pon chgin sw thr : Z) (disabled : bool) : Z * Z * bool :=
  let chgin_rdy := negb (chgin <? 25000) in
  let '(v, src, unreliable) :=
    if charger then
      if rdy =? 1 then
        let '(v, src) := if chgin_rdy then (chgin, FROM_CHR_IN) else (pon, FROM_PMIC_PON_ON) in
        if thr <? s32 (Z.abs (s32 (v - sw))) then (sw, FROM_SW_OCV, true) else (v, src, false)
      else
        if negb chgin_rdy && (thr <? s32 (Z.abs (s32 (sw - sw)))) then (sw, FROM_SW_OCV, true) else (sw, FROM_SW_OCV, false)
    else if rdy =? 0 then (sw, FROM_SW_OCV, false) else (pon, FROM_PMIC_PON_ON, false) in
  if (v <? 28000) && negb disabled then (sw, FROM_SW_OCV, unreliable) else (v, src, unreliable).

Definition boot_zcv_get : M W Z :=
  let! pon_rdy := read_hw_ocv_6357_power_on_rdy in
  let! pon := read_hw_ocv_6357_power_on in
  let! plugin := read_hw_ocv_6357_plug_in in
  let! tmp_hwocv_chgin := get_charger_zcv in
  let chgin := if tmp_hwocv_chgin =? - ENODEV then 0 else tmp_hwocv_chgin ÷c 100 in
  let! b := getg bat in
  let now_temp := bat_batt_temp b in
  let now_thr := if ext_hwocv_swocv_lt_temp b <? now_temp then ext_hwocv_swocv b else ext_hwocv_swocv_lt b in
  let! old := getg (fun g => pl_charging_status (zcv_info g)) in
  let! pl := fgauge_get_info GAUGE_PROP_PL_CHARGING_STATUS old in
  modg (fun g => g <| zcv_info ::= fun z => z <| pl_charging_status := pl |> |>) ;;;
  ignore (fgauge_set_info GAUGE_PROP_PL_CHARGING_STATUS 0) ;;;
  let! old := getg (fun g => moniter_plchg_bit (zcv_info g)) in
  let! mon := fgauge_get_info GAUGE_PROP_MONITER_PLCHG_STATUS old in
  modg (fun g => g <| zcv_info ::= fun z => z <| moniter_plchg_bit := mon |> |>) ;;;
  ignore (fgauge_set_info GAUGE_PROP_MONITER_PLCHG_STATUS 0) ;;;
  let! sw := getg (fun g => sw_ocv (hw_status g)) in
  let '(v, src, unreliable) := choose_zcv (pl =? 1) pon_rdy pon chgin sw now_thr (gm_disableGM30 b) in
  when unreliable (modhs (fun h => h <| flag_hw_ocv_unreliable := true |>)) ;;;
  modg (fun g => g <| zcv_info ::= fun z =>
    let s := mk_zcv chgin plugin pon pon_rdy sw src now_temp in
    z <| zcv_now := s |> <| zcv_1st := if zcv_1st_read z then zcv_1st z else s |> <| zcv_1st_read := true |> |>) ;;;
  modhi (fun i => i <| hi_pmic_zcv := pon |> <| hi_pmic_zcv_rdy := pon_rdy |> <| hi_charger_zcv := chgin |> <| hw_zcv := v |>) ;;;
  ret v.

Definition zcv_get : M W Z :=
  let! adc_result_reg := read_field PMIC_AUXADC_ADC_OUT_FGADC_PCHR 0 in ret (reg_to_mv_value adc_result_reg).

Definition initial_set (val : Z) : M W Z :=
  write_field PMIC_AUXADC_NAG_PRD 10 ;;;
  let! bat_flag := fgauge_get_info GAUGE_PROP_BAT_PLUG_STATUS 0 in
  let! is_charger_exist := fgauge_get_info GAUGE_PROP_PL_CHARGING_STATUS undef in
  ignore (regmap_read PMIC_RG_SYSTEM_INFO_CON0_ADDR 0) ;;;
  modhs (fun h => h <| pl_charger_status := is_charger_exist |>) ;;;
  (if is_charger_exist =? 1 then
     modhs (fun h => h <| is_bat_plugout := 1 |>) ;;; ignore (fgauge_set_info GAUGE_PROP_2SEC_REBOOT 0)
   else modhs (fun h => h <| is_bat_plugout := if bat_flag =? 0 then 1 else 0 |>)) ;;;
  ignore (fgauge_set_info GAUGE_PROP_BAT_PLUG_STATUS 1) ;;;
  modhs (fun h => h <| bat_plug_out_time := 31 |>) ;;;
  fgauge_read_RTC_boot_status ;;; ret 1.

(** ** The detector's counters *)

Definition nafg_cnt_get : M W Z :=
  let! lo := regmap_read (pf_addr PMIC_AUXADC_NAG_CNT_15_0) undef in
  let! hi := regmap_read (pf_addr PMIC_AUXADC_NAG_CNT_25_16) undef in
  ret (s32 (Z.land lo (pf_mask PMIC_AUXADC_NAG_CNT_15_0) + Z.shiftl (Z.land hi (pf_mask PMIC_AUXADC_NAG_CNT_25_16)) 16)).

(** The register as it is, without its sign. *)
Definition nafg_dltv_get : M W Z :=
  let! v := regmap_read (pf_addr PMIC_AUXADC_NAG_DLTV) undef in ret (reg_to_mv_value (s32 v)).

Definition c_dltv_reg (corner value value_h : Z) : Z :=
  let value_h := Z.land value_h (pf_mask PMIC_AUXADC_NAG_C_DLTV_26_16) in
  if corner =? 1 then Z.land value 0x7fff
  else if corner =? 2 then s32 (value - 32768)
  else if Z.land value_h 0x0400 =? 0 then s32 (Z.land value 0xffff + Z.shiftl (Z.land value_h 0x07ff) 16)
  else s32 (Z.land value 0xffff + Z.shiftl (Z.land (Z.lor value_h 0xf800) 0xffff) 16).
Definition nafg_c_dltv_get : M W Z :=
  let! value := regmap_read (pf_addr PMIC_AUXADC_NAG_C_DLTV_15_0) undef in
  let! value_h := regmap_read (pf_addr PMIC_AUXADC_NAG_C_DLTV_26_16) undef in
  let! corner := getg nafg_corner in
  ret (reg_to_mv_value (c_dltv_reg corner value value_h)).

Definition battery_current_get : M W Z := instant_current undef.
Definition hw_version_get : M W Z := ret 1000.

Definition battery_exist_get : M W Z :=
  let! regval := read_field PMIC_RGS_BATON_UNDET undef in
  if regval =? 0 then ret 1 else clear_pulse PMIC_AUXADC_ADC_RDY_PWRON_CLR ;;; ret 0.

(** A converter channel; [*val] from its contents before. *)
Definition chan_get (c : iio_chan) (val : Z) : M W Z :=
  let! ok := gets (fun w => iio_present c (pm w)) in
  if ok then let! r := chip (iio_read_channel_processed c) in ret (default val (snd r)) else ret val.
Definition vsys_vol_get : Z -> M W Z := chan_get Chan_vsys_voltage.
Definition bat_vol_get : Z -> M W Z := chan_get Chan_bat_voltage.
Definition battery_temperature_adc_get : Z -> M W Z := chan_get Chan_bat_temp.
Definition bif_voltage_get : Z -> M W Z := chan_get Chan_bif.
Definition ptim_battery_voltage_get : Z -> M W Z := chan_get Chan_ptim_bat_voltage.
Definition ptim_resist_get : Z -> M W Z := chan_get Chan_ptim_r.

Definition en_h_vbat_set (val : Z) : M W Z := modg (fun g => g <| bat ::= fun b => b <| sw_low_battery_ht_en := val |> |>) ;;; ret 0.
Definition en_l_vbat_set (val : Z) : M W Z := modg (fun g => g <| bat ::= fun b => b <| sw_low_battery_lt_en := val |> |>) ;;; ret 0.

(** Operations that do nothing on this chip. *)
Definition noop_set (val : Z) : M W Z := ret 0.
Definition noop_get (val : Z) : M W Z := ret val.

(** ** The table *)

(** A row of [mt6357_sysfs_field_tbl]: its property, setter and getter. *)
Record field_info : Type := mk_field {
  fi_prop : gauge_property;
  fi_set : option (Z -> M W Z);
  fi_get : option (Z -> M W Z)
}.
Definition FIELD_WO (set : Z -> M W Z) (p : gauge_property) : field_info := mk_field p (Some set) None.
Definition FIELD_RO (get : Z -> M W Z) (p : gauge_property) : field_info := mk_field p None (Some get).
Definition FIELD_RW (set get : Z -> M W Z) (p : gauge_property) : field_info := mk_field p (Some set) (Some get).
Definition INFO_FIELD_RW (p : gauge_property) : field_info := mk_field p (Some (info_set undef p)) (Some (info_get p)).

Definition mt6357_sysfs_field_tbl : list field_info :=
  [ FIELD_WO initial_set GAUGE_PROP_INITIAL;
    FIELD_RO (fun _ => battery_current_get) GAUGE_PROP_BATTERY_CURRENT;
    FIELD_RO (fun _ => coulomb_get undef) GAUGE_PROP_COULOMB;
    FIELD_WO (coulomb_interrupt_ht_set undef) GAUGE_PROP_COULOMB_HT_INTERRUPT;
    FIELD_WO (coulomb_interrupt_lt_set undef) GAUGE_PROP_COULOMB_LT_INTERRUPT;
    FIELD_RO (fun _ => battery_exist_get) GAUGE_PROP_BATTERY_EXIST;
    FIELD_RO (fun _ => hw_version_get) GAUGE_PROP_HW_VERSION;
    FIELD_RO vsys_vol_get GAUGE_PROP_VSYS_VOLTAGE;
    FIELD_RO bat_vol_get GAUGE_PROP_BATTERY_VOLTAGE;
    FIELD_RO battery_temperature_adc_get GAUGE_PROP_BATTERY_TEMPERATURE_ADC;
    FIELD_RO bif_voltage_get GAUGE_PROP_BIF_VOLTAGE;
    FIELD_WO en_h_vbat_set GAUGE_PROP_EN_HIGH_VBAT_INTERRUPT;
    FIELD_WO en_l_vbat_set GAUGE_PROP_EN_LOW_VBAT_INTERRUPT;
    FIELD_WO noop_set GAUGE_PROP_VBAT_HT_INTR_THRESHOLD;
    FIELD_WO noop_set GAUGE_PROP_VBAT_LT_INTR_THRESHOLD;
    FIELD_RW rtc_ui_soc_set (fun _ => rtc_ui_soc_get) GAUGE_PROP_RTC_UI_SOC;
    FIELD_RO ptim_battery_voltage_get GAUGE_PROP_PTIM_BATTERY_VOLTAGE;
    FIELD_RO ptim_resist_get GAUGE_PROP_PTIM_RESIST;
    FIELD_WO (fun _ => reset_set) GAUGE_PROP_RESET;
    FIELD_RO (fun _ => boot_zcv_get) GAUGE_PROP_BOOT_ZCV;
    FIELD_RO (fun _ => zcv_get) GAUGE_PROP_ZCV;
    FIELD_RO (fun _ => zcv_current_get) GAUGE_PROP_ZCV_CURRENT;
    FIELD_RO (fun _ => nafg_cnt_get) GAUGE_PROP_NAFG_CNT;
    FIELD_RO (fun _ => nafg_dltv_get) GAUGE_PROP_NAFG_DLTV;
    FIELD_RW nafg_c_dltv_set (fun _ => nafg_c_dltv_get) GAUGE_PROP_NAFG_C_DLTV;
    FIELD_WO nafg_en_set GAUGE_PROP_NAFG_EN;
    FIELD_WO nafg_zcv_set GAUGE_PROP_NAFG_ZCV;
    FIELD_RO (fun _ => nafg_vbat_get undef) GAUGE_PROP_NAFG_VBAT;
    FIELD_WO reset_fg_rtc_set GAUGE_PROP_RESET_FG_RTC;
    FIELD_RW noop_set noop_get GAUGE_PROP_GAUGE_INITIALIZED;
    FIELD_RO noop_get GAUGE_PROP_AVERAGE_CURRENT;
    FIELD_WO noop_set GAUGE_PROP_BAT_PLUGOUT_EN;
    FIELD_WO zcv_intr_threshold_set GAUGE_PROP_ZCV_INTR_THRESHOLD;
    FIELD_WO zcv_intr_en_set GAUGE_PROP_ZCV_INTR_EN;
    FIELD_WO noop_set GAUGE_PROP_SOFF_RESET;
    FIELD_WO noop_set GAUGE_PROP_NCAR_RESET;
    FIELD_WO noop_set GAUGE_PROP_BAT_CYCLE_INTR_THRESHOLD;
    FIELD_WO (hw_info_set undef) GAUGE_PROP_HW_INFO;
    FIELD_WO noop_set GAUGE_PROP_EVENT;
    FIELD_WO noop_set GAUGE_PROP_EN_BAT_TMP_HT;
    FIELD_WO noop_set GAUGE_PROP_EN_BAT_TMP_LT;
    FIELD_WO noop_set GAUGE_PROP_BAT_TMP_HT_THRESHOLD;
    FIELD_WO noop_set GAUGE_PROP_BAT_TMP_LT_THRESHOLD;
    INFO_FIELD_RW GAUGE_PROP_2SEC_REBOOT;
    INFO_FIELD_RW GAUGE_PROP_PL_CHARGING_STATUS;
    INFO_FIELD_RW GAUGE_PROP_MONITER_PLCHG_STATUS;
    INFO_FIELD_RW GAUGE_PROP_BAT_PLUG_STATUS;
    INFO_FIELD_RW GAUGE_PROP_IS_NVRAM_FAIL_MODE;
    INFO_FIELD_RW GAUGE_PROP_MONITOR_SOFF_VALIDTIME;
    INFO_FIELD_RW GAUGE_PROP_CON0_SOC;
    INFO_FIELD_RW GAUGE_PROP_SHUTDOWN_CAR;
    INFO_FIELD_RW GAUGE_PROP_CAR_TUNE_VALUE;
    INFO_FIELD_RW GAUGE_PROP_R_FG_VALUE;
    INFO_FIELD_RW GAUGE_PROP_VBAT2_DETECT_TIME;
    INFO_FIELD_RW GAUGE_PROP_VBAT2_DETECT_COUNTER;
    FIELD_WO noop_set GAUGE_PROP_BAT_TEMP_FROZE_EN ].

(** ** Access by property (mtk_battery.c) *)

Definition all_properties : list gauge_property :=
  [ GAUGE_PROP_INITIAL; GAUGE_PROP_BATTERY_CURRENT; GAUGE_PROP_COULOMB; GAUGE_PROP_COULOMB_HT_INTERRUPT;
    GAUGE_PROP_COULOMB_LT_INTERRUPT; GAUGE_PROP_BATTERY_EXIST; GAUGE_PROP_HW_VERSION; GAUGE_PROP_VSYS_VOLTAGE;
    GAUGE_PROP_BATTERY_VOLTAGE; GAUGE_PROP_BATTERY_TEMPERATURE_ADC; GAUGE_PROP_BIF_VOLTAGE;
    GAUGE_PROP_EN_HIGH_VBAT_INTERRUPT; GAUGE_PROP_EN_LOW_VBAT_INTERRUPT; GAUGE_PROP_VBAT_HT_INTR_THRESHOLD;
    GAUGE_PROP_VBAT_LT_INTR_THRESHOLD; GAUGE_PROP_RTC_UI_SOC; GAUGE_PROP_PTIM_BATTERY_VOLTAGE;
    GAUGE_PROP_PTIM_RESIST; GAUGE_PROP_RESET; GAUGE_PROP_BOOT_ZCV; GAUGE_PROP_ZCV; GAUGE_PROP_ZCV_CURRENT;
    GAUGE_PROP_NAFG_CNT; GAUGE_PROP_NAFG_DLTV; GAUGE_PROP_NAFG_C_DLTV; GAUGE_PROP_NAFG_EN; GAUGE_PROP_NAFG_ZCV;
    GAUGE_PROP_NAFG_VBAT; GAUGE_PROP_RESET_FG_RTC; GAUGE_PROP_GAUGE_INITIALIZED; GAUGE_PROP_AVERAGE_CURRENT;
    GAUGE_PROP_BAT_PLUGOUT_EN; GAUGE_PROP_ZCV_INTR_THRESHOLD; GAUGE_PROP_ZCV_INTR_EN; GAUGE_PROP_SOFF_RESET;
    GAUGE_PROP_NCAR_RESET; GAUGE_PROP_BAT_CYCLE_INTR_THRESHOLD; GAUGE_PROP_HW_INFO; GAUGE_PROP_EVENT;
    GAUGE_PROP_EN_BAT_TMP_HT; GAUGE_PROP_EN_BAT_TMP_LT; GAUGE_PROP_BAT_TMP_HT_THRESHOLD;
    GAUGE_PROP_BAT_TMP_LT_THRESHOLD; GAUGE_PROP_2SEC_REBOOT; GAUGE_PROP_PL_CHARGING_STATUS;
    GAUGE_PROP_MONITER_PLCHG_STATUS; GAUGE_PROP_BAT_PLUG_STATUS; GAUGE_PROP_IS_NVRAM_FAIL_MODE;
    GAUGE_PROP_MONITOR_SOFF_VALIDTIME; GAUGE_PROP_CON0_SOC; GAUGE_PROP_SHUTDOWN_CAR; GAUGE_PROP_CAR_TUNE_VALUE;
    GAUGE_PROP_R_FG_VALUE; GAUGE_PROP_VBAT2_DETECT_TIME; GAUGE_PROP_VBAT2_DETECT_COUNTER;
    GAUGE_PROP_BAT_TEMP_FROZE_EN ].

(** The value of the enumerator. *)
Definition prop_index (p : gauge_property) : nat :=
  match list_find (fun q => q = p) all_properties with Some (i, _) => i | None => 0%nat end.

(** What comes back: a code and [*val]; or the kernel called a null pointer. *)
Inductive access : Type := Returned (code val : Z) | NullCall.

Definition gauge_get_property (gp : gauge_property) (val : Z) : M W access :=
  let! g := getg (fun g => g) in
  if negb (gauge_psy g) then ret (Returned (- ENODEV) val)
  else if negb (gauge_attr g) then ret (Returned (- ENODEV) val)
  else
    match mt6357_sysfs_field_tbl !! prop_index gp with
    | Some a =>
        if decide (fi_prop a = gp) then
          match fi_get a with
          | Some get => let! v := get val in ret (Returned 0 v)
          | None => ret NullCall
          end
        else ret (Returned (- ENOTSUPP) val)
    | None => ret NullCall
    end.

Definition gauge_set_property (gp : gauge_property) (val : Z) : M W access :=
  let! g := getg (fun g => g) in
  if negb (gauge_psy g) then ret (Returned (- ENODEV) val)
  else if negb (gauge_attr g) then ret (Returned (- ENODEV) val)
  else
    match mt6357_sysfs_field_tbl !! prop_index gp with
    | Some a =>
        if decide (fi_prop a = gp) then
          match fi_set a with
          | Some set => ignore (set val) ;;; ret (Returned 0 val)
          | None => ret NullCall
          end
        else ret (Returned (- ENOTSUPP) val)
    | None => ret NullCall
    end.

Definition gauge_get_int_property (gp : gauge_property) : M W Z :=
  let! r := gauge_get_property gp undef in
  ret (match r with Returned _ v => v | NullCall => undef end).

(** ** Access through sysfs *)

Definition gauge_sysfs_store (a : field_info) (buf : cstr) (count : Z) : M W Z :=
  match kstrtoint buf 0 with
  | KErr e => ret e
  | KOk val => match fi_set a with Some set => ignore (set val) | None => ret tt end ;;; ret count
  end.

Definition gauge_sysfs_show (a : field_info) : M W cstr :=
  let! val := match fi_get a with Some get => get 0 | None => ret 0 end in
  ret (show_s 10 val ++ [10]).

(** ** The power supply *)

Inductive gauge_psp : Type :=
| POWER_SUPPLY_PROP_PRESENT | POWER_SUPPLY_PROP_ONLINE | POWER_SUPPLY_PROP_CURRENT_NOW
| POWER_SUPPLY_PROP_ENERGY_EMPTY | Other_property.

Definition psy_gauge_get_property (psp : gauge_psp) (val : Z) : M W (Z * Z) :=
  let! b := getg bat in
  match psp with
  | POWER_SUPPLY_PROP_PRESENT => ret (0, b2z (gm_disableGM30 b))
  | POWER_SUPPLY_PROP_ONLINE => ret (0, b2z (gm_disableGM30 b))
  | POWER_SUPPLY_PROP_CURRENT_NOW => let! v := get_ptim_current undef in ret (0, v)
  | POWER_SUPPLY_PROP_ENERGY_EMPTY => ret (0, is_dlpt_shutdown b)
  | Other_property => ret (- EINVAL, val)
  end.

Definition psy_gauge_set_property (psp : gauge_psp) (val : Z) : M W Z :=
  match psp with
  | POWER_SUPPLY_PROP_ENERGY_EMPTY => when (val =? 1) (chip set_dlpt_shutdown) ;;; ret 0
  | _ => ret (- EINVAL)
  end.

(** ** Calibration from the test tool *)

Definition battery_meter_meta_tool_cali_car_tune (meta : Z) : M W Z :=
  let! b := getg bat in
  if meta =? 0 then ret (s32 (cust_car_tune_value b * 10))
  else
    modhs (fun h => h <| meta_current := meta |>) ;;; ignore (calculate_car_tune undef) ;;;
    getg (fun g => tmp_car_tune (hw_status g)).
End Ops.
