(* ===== verification/Mt6357Spec.v ===== *)
(** * The fuel gauge of the MT6357: what it guarantees

    Register accesses against the laws [FgLaws] of the chip; the flags that
    survive a reboot, the conversions, the voltage chosen at boot, the state in
    the real-time clock, and the dispatch by property. *)

From S2P Require Import Prelude Kstrtox Mt6357 Mt6357Ops.
#[local] Open Scope Z_scope.

(** ** Conversions *)

Lemma quot_floor a b : 0 <= a -> 0 < b -> b * (a ÷c b) <= a < b * (a ÷c b) + b.
Proof. intros Ha Hb. rewrite Z.quot_div_nonneg by lia. pose proof (Z.div_mod a b). pose proof (Z.mod_pos_bound a b). lia. Qed.

(** A voltage (in steps of 0.1 mV) turned into a register value and back is the
    voltage or at most two steps less. *)
Theorem mv_reg_roundtrip mv :
  0 <= mv < 2 ^ 31 -> mv - 2 <= reg_to_mv_value (mv_to_reg_value mv) <= mv.
Proof.
  intros H. unfold reg_to_mv_value, mv_to_reg_value, VOLTAGE_FULL_RANGES, R_VAL_TEMP_3, ADC_PRECISE.
  pose proof (quot_floor (mv * 32768) (1800 * 10 * 3)) as H1. set (r := (mv * 32768) ÷c (1800 * 10 * 3)) in *.
  rewrite (s32_id r) by (unfold is_s32; lia).
  pose proof (quot_floor (r * 1800 * 10 * 3) 32768) as H2. set (q := (r * 1800 * 10 * 3) ÷c 32768) in *.
  rewrite s32_id by (unfold is_s32; lia). lia.
Qed.
Lemma mv_reg_roundtrip_witness : 38000 - 2 <= reg_to_mv_value (mv_to_reg_value 38000) <= 38000.
Proof. apply mv_reg_roundtrip. lia. Defined.

(** The accumulated difference has 27 bits and a sign. *)
Definition sext27 (v : Z) : Z := if v <? 2 ^ 26 then v else v - 2 ^ 27.

Lemma c_dltv_high h : 0 <= h < 2 ^ 11 ->
  (if Z.land h 0x0400 =? 0 then Z.land h 0x07ff else Z.land (Z.lor h 0xf800) 0xffff) =
  if h <? 2 ^ 10 then h else h + 0xf800.
Proof.
  intros Hh. assert (forall n, (n < 2048)%nat -> let h := Z.of_nat n in
    (if Z.land h 0x0400 =? 0 then Z.land h 0x07ff else Z.land (Z.lor h 0xf800) 0xffff) = (if h <? 2 ^ 10 then h else h + 0xf800)) as H.
  { intros n Hn. assert (forallb (fun n => let h := Z.of_nat n in
      Z.eqb (if Z.land h 0x0400 =? 0 then Z.land h 0x07ff else Z.land (Z.lor h 0xf800) 0xffff) (if h <? 2 ^ 10 then h else h + 0xf800))
      (seq 0 2048) = true) as F by (vm_compute; reflexivity).
    rewrite forallb_forall in F. specialize (F n). apply Z.eqb_eq, F, in_seq. lia. }
  specialize (H (Z.to_nat h)). rewrite Z2Nat.id in H by lia. apply H. lia.
Qed.

(** Outside its corner modes the detector's accumulated difference is the sign
    extension of the 27 bits that its two registers hold. *)
Theorem c_dltv_sign_extension corner lo hi :
  corner <> 1 -> corner <> 2 -> 0 <= lo < 2 ^ 16 -> 0 <= hi < 2 ^ 16 ->
  c_dltv_reg corner lo hi = sext27 (lo + 2 ^ 16 * (hi mod 2 ^ 11)).
Proof.
  intros H1 H2 Hl Hh. unfold c_dltv_reg. rewrite (proj2 (Z.eqb_neq _ _) H1), (proj2 (Z.eqb_neq _ _) H2).
  change (pf_mask PMIC_AUXADC_NAG_C_DLTV_26_16) with (Z.ones 11). rewrite Z.land_ones by lia.
  set (h := hi mod 2 ^ 11). assert (0 <= h < 2 ^ 11) as Hb by (apply Z.mod_pos_bound; lia).
  transitivity (s32 (Z.land lo 0xffff +
    Z.shiftl (if Z.land h 0x0400 =? 0 then Z.land h 0x07ff else Z.land (Z.lor h 0xf800) 0xffff) 16)); [by destruct (Z.land h 0x0400 =? 0)|].
  rewrite c_dltv_high by done. change 0xffff with (Z.ones 16). rewrite Z.land_ones, (Z.mod_small lo), Z.shiftl_mul_pow2 by lia.
  unfold sext27. destruct (Z.ltb_spec h (2 ^ 10)), (Z.ltb_spec (lo + 2 ^ 16 * h) (2 ^ 26)); try lia.
  - rewrite s32_id by (unfold is_s32; lia). lia.
  - unfold s32. rewrite <- (Z.mod_add _ (-1)) by lia. rewrite Z.mod_small; lia.
Qed.
Lemma c_dltv_sign_extension_witness : c_dltv_reg 0 0xfffe 0x7ff = sext27 (0xfffe + 2 ^ 16 * (0x7ff mod 2 ^ 11)).
Proof. apply c_dltv_sign_extension; lia. Defined.

(** ** The chip *)

Definition info_reg (a : Z) : bool := (a =? PMIC_RG_SYSTEM_INFO_CON0_ADDR) || (a =? PMIC_RG_SYSTEM_INFO_CON1_ADDR).
Definition threshold_reg (a : Z) : bool :=
  (a =? pf_addr PMIC_FG_BAT0_HTH_15_00) || (a =? pf_addr PMIC_FG_BAT0_HTH_31_16) ||
  (a =? pf_addr PMIC_FG_BAT0_LTH_15_00) || (a =? pf_addr PMIC_FG_BAT0_LTH_31_16).
(** The registers that hold what was written. *)
Definition stored (a : Z) : bool := info_reg a || threshold_reg a.
(** With the chip's identity, the registers whose contents are known. *)
Definition known (a : Z) : bool := stored a || (a =? pf_addr PMIC_HWCID).

(** Raising bits 9 and 10 of the first gauge register clears the counter. *)
Definition clears (a m v : Z) : bool := (a =? MT6357_FGADC_CON1) && (Z.land (Z.land m v) 0x0600 =? 0x0600).

(** [reg] are the known registers, [raw] the counter of 32 bits, which the battery
    keeps far from its ends, and [cell] the cells of the real-time clock. *)
Class FgLaws {P} `{!Pmic P} (reg : P -> Z -> Z) (raw : P -> Z) (cell : P -> rtc_cell -> Z) : Prop := {
  fl_raw : forall p, - 2 ^ 30 <= raw p < 2 ^ 30;
  fl_cell : forall p c, is_u8 (cell p c);
  fl_read : forall a p, exists v p', pm_read a p = (v, p') /\ reg p' = reg p /\ raw p' = raw p /\ cell p' = cell p /\
    (known a = true -> v = Some (reg p a)) /\
    (a = pf_addr PMIC_FG_CAR_15_00 -> v = Some (raw p mod 2 ^ 16)) /\
    (a = pf_addr PMIC_FG_CAR_31_16 -> v = Some (raw p / 2 ^ 16 mod 2 ^ 16));
  fl_update : forall a m v p, let p' := exec (pm_update a m v) p in
    (forall b, reg p' b = if stored a && (b =? a) then update_bits (reg p a) m v else reg p b) /\
    raw p' = (if clears a m v then 0 else raw p) /\ cell p' = cell p;
  fl_nv_read : forall c p, exists p', nv_read c p = (Some (cell p c), p') /\ reg p' = reg p /\ raw p' = raw p /\ cell p' = cell p;
  fl_nv_write : forall c v p, let p' := exec (nv_write c v) p in
    (forall d, cell p' d = if bool_decide (d = c) then u8 v else cell p d) /\ reg p' = reg p /\ raw p' = raw p
}.

(** A field read after it was written. *)
Lemma field_write k m v old :
  0 <= k -> 0 <= m -> m * 2 ^ k < 2 ^ 32 ->
  Z.shiftr (Z.land (update_bits old (Z.shiftl m k) (u32 (Z.shiftl v k))) (Z.shiftl m k)) k = Z.land v m.
Proof.
  intros Hk Hm Hb. rewrite update_bits_same. apply Z.bits_inj'. intros i Hi.
  rewrite Z.shiftr_spec, !Z.land_spec, Z.shiftl_spec by lia. replace (i + k - k) with i by lia.
  destruct (Z.testbit m i) eqn:E; rewrite ?andb_false_r; [|done]. rewrite !andb_true_r.
  assert (i + k < 32) as Hl.
  { destruct (Z.lt_ge_cases (i + k) 32) as [|Hge]; [done|]. exfalso.
    assert (0 < m) by (destruct (Z.eq_dec m 0) as [->|]; [by rewrite Z.bits_0 in E|lia]).
    assert (2 ^ i <= m) as Hi2.
    { destruct (Z.lt_ge_cases m (2 ^ i)) as [Hlt|]; [|done]. exfalso.
      apply Z.log2_lt_pow2 in Hlt; [|lia]. by rewrite Z.bits_above_log2 in E by lia. }
    assert (2 ^ 32 <= 2 ^ i * 2 ^ k) by (rewrite <- Z.pow_add_r by lia; apply Z.pow_le_mono_r; lia). nia. }
  unfold u32, wrapu. rewrite Z.mod_pow2_bits_low by done. rewrite Z.shiftl_spec by lia. f_equal. lia.
Qed.

(** ** The detector's voltage *)

(** Reading the converter [n] times. *)
Fixpoint read_times {P} `{!Pmic P} (n : nat) (old : Z) : M (gworld P) Z :=
  match n with
  | O => ret old
  | S n' => let! v := read_field PMIC_AUXADC_ADC_OUT_NAG old in read_times n' v
  end.

(** Waiting for the converter of the detector always runs out: the ready bit is
    masked away before it is tested, so the loop reads the register all its six
    times (and sleeps 30 ms each time) on every chip. *)
Theorem nafg_vbat_polls_out {P} `{!Pmic P} n old (w : gworld P) : poll_nafg_vbat n old w = read_times n old w.
Proof.
  revert old w. induction n as [|n IH]; intros old w; [done|]. cbn [poll_nafg_vbat read_times]. 
  unfold read_field, bind, ret. destruct (regmap_read _ old w) as [v w1].
  assert (Z.land (field_of PMIC_AUXADC_ADC_OUT_NAG v) 0x8000 = 0) as ->; [|apply IH].
  unfold field_of. cbn [pf_mask pf_shift PMIC_AUXADC_ADC_OUT_NAG]. rewrite Z.shiftr_0_r, <- Z.land_assoc. apply Z.land_0_r.
Qed.

(** ** The voltage chosen at boot *)

(** The voltage the gauge starts from: it is the one its source names; a
    voltage of the hardware is only used if it is ready and at least 2.8 V (unless
    the gauge is disabled), the charger's only above 2.5 V, and with a charger at
    boot only within the threshold of the computed one; a disagreement is reported. *)
Theorem boot_zcv_choice charger rdy pon chgin sw thr disabled :
  is_s32 (pon - sw) -> is_s32 (chgin - sw) -> - 2 ^ 31 < pon - sw -> - 2 ^ 31 < chgin - sw -> 0 <= thr -> rdy = 0 \/ rdy = 1 ->
  let '(v, src, unreliable) := choose_zcv charger rdy pon chgin sw thr disabled in
  (src = FROM_SW_OCV /\ v = sw \/
   src = FROM_PMIC_PON_ON /\ v = pon /\ rdy = 1 \/
   src = FROM_CHR_IN /\ v = chgin /\ rdy = 1 /\ charger = true /\ 25000 <= chgin) /\
  (src <> FROM_SW_OCV -> disabled = false -> 28000 <= v) /\
  (src <> FROM_SW_OCV -> charger = true -> Z.abs (v - sw) <= thr) /\
  (unreliable = true -> charger = true /\ v = sw /\ src = FROM_SW_OCV).
Proof.
  intros H1 H2 H3 H4 Ht Hr. unfold choose_zcv, FROM_SW_OCV, FROM_PMIC_PON_ON, FROM_CHR_IN, is_s32 in *.
  rewrite Z.sub_diag. change (s32 (Z.abs (s32 0))) with 0. rewrite (proj2 (Z.ltb_ge thr 0)) by done. rewrite andb_false_r.
  destruct charger, Hr as [-> | ->]; cbn [Z.eqb Pos.eqb];
    destruct (Z.ltb_spec chgin 25000); cbn [negb andb];
    rewrite ?(s32_id (chgin - sw)), ?(s32_id (pon - sw)) by (unfold is_s32; lia);
    rewrite ?(s32_id (Z.abs _)) by (unfold is_s32; lia);
    repeat match goal with |- context [?a <? Z.abs ?b] => destruct (Z.ltb_spec a (Z.abs b)) end; cbv beta iota;
    repeat match goal with |- context [?a <? ?b] => destruct (Z.ltb_spec a b) end; destruct disabled; cbn [negb andb];
    repeat split; intros; try lia; try done; tauto.
Qed.
Lemma boot_zcv_choice_witness :
  choose_zcv true 1 38000 37900 36000 300 false = (36000, FROM_SW_OCV, true) /\ (true = true -> 36000 = 36000 /\ FROM_SW_OCV = FROM_SW_OCV).
Proof.
  pose proof (boot_zcv_choice true 1 38000 37900 36000 300 false) as H.
  change (choose_zcv true 1 38000 37900 36000 300 false) with (36000, FROM_SW_OCV, true) in *. split; [reflexivity|]. intros Hu.
  destruct H as (_ & _ & _ & H); unfold is_s32; [lia..|by right|]. destruct (H Hu) as (_ & H1 & H2). split; [exact H1|exact H2].
Defined.

(** ** Dispatch by property *)

(** The table is in the order of the enumeration: the row that a property
    indexes is the row found by searching for the property, so access by property
    never answers that the property is not supported. *)
Theorem property_table_indexed {P} `{!Pmic P} (undef : Z) gp :
  mt6357_sysfs_field_tbl undef !! prop_index gp =
  List.find (fun a => bool_decide (fi_prop (P := P) a = gp)) (mt6357_sysfs_field_tbl undef).
Proof. by destruct gp. Qed.

Section Laws.
  Context {P : Type} `{!Pmic P} (reg : P -> Z -> Z) (raw : P -> Z) (cell : P -> rtc_cell -> Z).
  Context `{!FgLaws reg raw cell} (undef : Z).
  Abbreviation W := (gworld P).

(** The chip as far as the laws describe it. *)
Record same_chip (w w' : W) : Prop := {
  sc_reg : forall a, reg (pm w') a = reg (pm w) a;
  sc_raw : raw (pm w') = raw (pm w);
  sc_cell : cell (pm w') = cell (pm w)
}.

Lemma wp_chip {A} (m : M P A) Q (w : W) : Q (eval m (pm w)) (w <| pm := exec m (pm w) |>) -> wp (chip m) Q w.
Proof. unfold wp, chip, eval, exec. by destruct (m (pm w)). Qed.

Lemma wp_read a old Q (w : W) :
  (forall v p', same_chip w (w <| pm := p' |>) -> (known a = true -> v = reg (pm w) a) ->
     (a = pf_addr PMIC_FG_CAR_15_00 -> v = raw (pm w) mod 2 ^ 16) ->
     (a = pf_addr PMIC_FG_CAR_31_16 -> v = raw (pm w) / 2 ^ 16 mod 2 ^ 16) -> Q v (w <| pm := p' |>)) ->
  wp (regmap_read a old) Q w.
Proof using FgLaws0.
  intros H. apply wp_bind, wp_chip, wp_ret. destruct (fl_read a (pm w)) as (v & p' & E & E1 & E2 & E3 & H1 & H2 & H3).
  unfold eval, exec. rewrite E. cbn. apply H; [constructor; cbn; congruence|..]; intros Ha; [by rewrite H1|by rewrite H2|by rewrite H3].
Qed.

Lemma wp_update a m v Q (w : W) :
  (forall p', (forall b, reg p' b = if stored a && (b =? a) then update_bits (reg (pm w) a) m (u32 v) else reg (pm w) b) ->
     raw p' = (if clears a m (u32 v) then 0 else raw (pm w)) -> cell p' = cell (pm w) -> Q tt (w <| pm := p' |>)) ->
  wp (regmap_update_bits a m v) Q w.
Proof using FgLaws0.
  intros H. apply wp_chip. destruct (fl_update a m (u32 v) (pm w)) as (H1 & H2 & H3). by destruct (eval _ _); apply H.
Qed.

(** ** Flags that survive a reboot *)

Definition info_props : list gauge_property :=
  [ GAUGE_PROP_2SEC_REBOOT; GAUGE_PROP_PL_CHARGING_STATUS; GAUGE_PROP_MONITER_PLCHG_STATUS; GAUGE_PROP_BAT_PLUG_STATUS;
    GAUGE_PROP_IS_NVRAM_FAIL_MODE; GAUGE_PROP_MONITOR_SOFF_VALIDTIME; GAUGE_PROP_CON0_SOC; GAUGE_PROP_SHUTDOWN_CAR ].

(** What a flag reads as after [v] was written. *)
Definition info_kept (p : gauge_property) (v : Z) : Z :=
  match p with
  | GAUGE_PROP_CON0_SOC => (v ÷c 100) mod 128
  | GAUGE_PROP_SHUTDOWN_CAR => if v =? -99999 then 0 else if Z.abs v mod 256 =? 255 then 0 else - (Z.abs v mod 256)
  | _ => v mod 2
  end.

(** The registers behind the flags, and what the two functions do with them. *)
Definition info_read (p : gauge_property) (con0 con1 old : Z) : Z :=
  match p with
  | GAUGE_PROP_2SEC_REBOOT => Z.land con0 1
  | GAUGE_PROP_PL_CHARGING_STATUS => Z.shiftr (Z.land con0 (Z.shiftl 1 1)) 1
  | GAUGE_PROP_MONITER_PLCHG_STATUS => Z.shiftr (Z.land con0 (Z.shiftl 1 2)) 2
  | GAUGE_PROP_BAT_PLUG_STATUS => Z.shiftr (Z.land con0 (Z.shiftl 1 3)) 3
  | GAUGE_PROP_IS_NVRAM_FAIL_MODE => Z.shiftr (Z.land con0 (Z.shiftl 1 4)) 4
  | GAUGE_PROP_MONITOR_SOFF_VALIDTIME => Z.shiftr (Z.land con0 (Z.shiftl 1 5)) 5
  | GAUGE_PROP_CON0_SOC => Z.shiftr (Z.land con0 (Z.shiftl 0x7f 9)) 9
  | GAUGE_PROP_SHUTDOWN_CAR =>
      let sign_bit := Z.shiftr (Z.land con1 (Z.shiftl 1 15)) 15 in
      let tmp_val := Z.shiftr (Z.land con1 (Z.shiftl 0xff 7)) 7 in
      if (sign_bit =? 1) && (tmp_val =? 0xff) then 0 else if sign_bit =? 1 then 0 - tmp_val else old
  | _ => old
  end.

Lemma get_info_wp p old Q (w : W) :
  (forall p', same_chip w (w <| pm := p' |>) ->
     Q (info_read p (reg (pm w) PMIC_RG_SYSTEM_INFO_CON0_ADDR) (reg (pm w) PMIC_RG_SYSTEM_INFO_CON1_ADDR) old) (w <| pm := p' |>)) ->
  wp (fgauge_get_info p old) Q w.
Proof using FgLaws0.
  intros H. apply wp_bind, wp_read. intros v p1 S1 E1 _ _. specialize (E1 eq_refl). subst v.
  destruct p; try (apply wp_ret; exact (H p1 S1)).
  apply wp_bind, wp_read. intros v p2 S2 E2 _ _. specialize (E2 eq_refl). subst v. apply wp_ret.
  destruct S1 as [A1 A2 A3], S2 as [B1 B2 B3]. cbn in *. rewrite A1. apply H. constructor; cbn; [intros a|..]; congruence.
Qed.

Definition info_write (p : gauge_property) (v con0 con1 : Z) : Z * Z :=
  let flag k := (update_bits con0 (Z.shiftl 1 k) (u32 (Z.shiftl v k)), con1) in
  match p with
  | GAUGE_PROP_2SEC_REBOOT => (update_bits con0 1 (u32 v), con1)
  | GAUGE_PROP_PL_CHARGING_STATUS => flag 1
  | GAUGE_PROP_MONITER_PLCHG_STATUS => flag 2
  | GAUGE_PROP_BAT_PLUG_STATUS => flag 3
  | GAUGE_PROP_IS_NVRAM_FAIL_MODE => flag 4
  | GAUGE_PROP_MONITOR_SOFF_VALIDTIME => flag 5
  | GAUGE_PROP_CON0_SOC => (update_bits con0 (Z.shiftl 0x7f 9) (u32 (Z.shiftl (v ÷c 100) 9)), con1)
  | GAUGE_PROP_SHUTDOWN_CAR =>
      (con0, if v =? -99999 then update_bits con1 (Z.shiftl 0x1ff 7) (u32 (Z.shiftl 0x1ff 7))
             else update_bits (update_bits con1 (Z.shiftl 0xff 7) (u32 (Z.shiftl (Z.land (s32 (Z.abs v)) 0xff) 7)))
                    (Z.shiftl 1 15) (u32 (Z.shiftl (b2z (v <? 0)) 15)))
  | _ => (con0, con1)
  end.

Lemma info_write_eq p v w :
  let w' := exec (fgauge_set_info p v) w in
  (reg (pm w') PMIC_RG_SYSTEM_INFO_CON0_ADDR, reg (pm w') PMIC_RG_SYSTEM_INFO_CON1_ADDR) =
  info_write p v (reg (pm w) PMIC_RG_SYSTEM_INFO_CON0_ADDR) (reg (pm w) PMIC_RG_SYSTEM_INFO_CON1_ADDR).
Proof using FgLaws0.
  cbv zeta. apply (wp_exec _ (fun w' => (reg (pm w') _, reg (pm w') _) = _)). apply wp_bind.
  destruct p; try (by apply wp_ret); try (apply wp_update; intros p' R _ _; apply wp_ret; cbn; rewrite !R; reflexivity).
  cbn [info_write]. destruct (v =? -99999); [apply wp_update; intros p' R _ _; apply wp_ret; cbn; rewrite !R; reflexivity|].
  apply wp_bind, wp_update. intros p1 R1 _ _. apply wp_bind, wp_update. intros p2 R2 _ _.
  apply wp_ignore, wp_read. intros x p3 [S3 _ _] _ _ _. apply wp_ret. cbn in *. rewrite !S3, !R2, !R1. reflexivity.
Qed.

Lemma s32_abs_mod v : Z.land (s32 (Z.abs v)) 0xff = Z.abs v mod 256.
Proof.
  change 0xff with (Z.ones 8). rewrite Z.land_ones by lia. unfold s32.
  set (a := Z.abs v). change (2 ^ 8) with 256. rewrite Zminus_mod. change (2 ^ 31 mod 256) with 0. rewrite Z.sub_0_r, Zmod_mod.
  pose proof (Z.div_mod (a + 2 ^ 31) (2 ^ 32)). replace ((a + 2 ^ 31) mod 2 ^ 32) with (a + (2 ^ 23 - 2 ^ 24 * ((a + 2 ^ 31) / 2 ^ 32)) * 256) by lia.
  apply Z.mod_add. lia.
Qed.

(** The two fields of the charge at shutdown. *)
Lemma shutdown_fields v con0 con1 :
  v <> -99999 ->
  let c := snd (info_write GAUGE_PROP_SHUTDOWN_CAR v con0 con1) in
  Z.shiftr (Z.land c (Z.shiftl 1 15)) 15 = b2z (v <? 0) /\ Z.shiftr (Z.land c (Z.shiftl 0xff 7)) 7 = Z.abs v mod 256.
Proof.
  intros Hv. cbn [info_write snd]. rewrite (proj2 (Z.eqb_neq _ _) Hv). split.
  - rewrite field_write by lia. by destruct (v <? 0).
  - rewrite update_bits_other by reflexivity. rewrite field_write by lia. rewrite s32_abs_mod.
    change 0xff with (Z.ones 8). rewrite Z.land_ones by lia. change (2 ^ 8) with 256. apply Zmod_mod.
Qed.

Ltac not_elem H := repeat (apply elem_of_cons in H as [H|H]; [discriminate H|]); by apply not_elem_of_nil in H.

Lemma info_read_write p v con0 con1 old :
  p ∈ info_props -> p <> GAUGE_PROP_SHUTDOWN_CAR \/ v < 0 ->
  let c := info_write p v con0 con1 in info_read p (fst c) (snd c) old = info_kept p v.
Proof.
  intros Hp Hv. assert (forall x, Z.land x 1 = x mod 2) as L1 by (intros x; apply (Z.land_ones x 1); lia).
  cbv zeta. destruct p; cbn [info_write info_read info_kept fst snd];
    try (rewrite field_write by lia; apply L1); try (exfalso; not_elem Hp).
  - rewrite update_bits_same, L1. unfold u32, wrapu. apply Z.mod_mod_divide. by exists (2 ^ 31).
  - rewrite field_write by lia. change 127 with (Z.ones 7). by rewrite Z.land_ones by lia.
  - destruct Hv as [|Hv]; [done|]. destruct (Z.eqb_spec v (-99999)) as [->|Hn].
    + assert (forall m, Z.land m (Z.shiftl 0x1ff 7) = m -> Z.land (update_bits con1 (Z.shiftl 0x1ff 7) (u32 (Z.shiftl 0x1ff 7))) m = m) as H.
      { intros m Hm. rewrite <- Hm at 1. rewrite (Z.land_comm m), Z.land_assoc, update_bits_same, <- Z.land_assoc, (Z.land_comm _ m), Hm.
        rewrite Z.land_comm. exact Hm. }
      by rewrite !H by reflexivity.
    + pose proof (shutdown_fields v con0 con1 Hn) as [E1 E2]. cbn [info_write snd] in E1, E2. rewrite (proj2 (Z.eqb_neq _ _) Hn) in E1, E2.
      rewrite E1, E2. rewrite (proj2 (Z.ltb_lt v 0)) by lia. cbn. by destruct (Z.abs v mod 256 =? 255).
Qed.

Lemma info_read_other p q v con0 con1 old :
  p <> q -> let c := info_write p v con0 con1 in info_read q (fst c) (snd c) old = info_read q con0 con1 old.
Proof.
  intros Hpq. cbv zeta. destruct p, q; try done; cbn [info_write info_read fst snd]; by rewrite update_bits_other.
Qed.

Lemma get_after_set p q v w old :
  let w' := exec (fgauge_set_info p v) w in
  let con0 := reg (pm w) PMIC_RG_SYSTEM_INFO_CON0_ADDR in let con1 := reg (pm w) PMIC_RG_SYSTEM_INFO_CON1_ADDR in
  eval (fgauge_get_info q old) w' = info_read q (fst (info_write p v con0 con1)) (snd (info_write p v con0 con1)) old.
Proof using FgLaws0.
  cbv zeta. rewrite <- info_write_eq. cbn [fst snd]. set (w' := exec _ w).
  exact (get_info_wp q old (fun x _ => x = info_read q (reg (pm w') _) (reg (pm w') _) old) w' (fun _ _ => eq_refl)).
Qed.

(** The flags that survive a reboot: what is written is read back (one bit, the
    charge in percent, or a negative charge at shutdown, in the width of its
    field), whatever the reader's variable held, and every other flag reads as
    before. *)
Theorem info_roundtrip p v w old :
  p ∈ info_props -> p <> GAUGE_PROP_SHUTDOWN_CAR \/ v < 0 ->
  let w' := exec (fgauge_set_info p v) w in
  eval (fgauge_get_info p old) w' = info_kept p v /\
  (forall q, q <> p -> eval (fgauge_get_info q old) w' = eval (fgauge_get_info q old) w).
Proof using FgLaws0.
  intros Hp Hv w'. split; [unfold w'; rewrite get_after_set; by apply info_read_write|].
  intros q Hq. unfold w'. rewrite get_after_set, info_read_other by done. symmetry.
  exact (get_info_wp q old (fun x _ => x = info_read q (reg (pm w) _) (reg (pm w) _) old) w (fun _ _ => eq_refl)).
Qed.

(** A charge at shutdown that is not negative is lost: after it was written,
    reading it leaves the reader's variable as it was, whatever the charge; a
    reader that does not initialise it gets an arbitrary value. *)
Theorem shutdown_car_lost v w old :
  0 <= v ->
  eval (fgauge_get_info GAUGE_PROP_SHUTDOWN_CAR old) (exec (fgauge_set_info GAUGE_PROP_SHUTDOWN_CAR v) w) = old.
Proof using FgLaws0.
  intros Hv. rewrite get_after_set. assert (v <> -99999) as Hn by lia. cbn [info_read].
  rewrite (proj1 (shutdown_fields v _ _ Hn)), (proj2 (Z.ltb_ge v 0)) by done. done.
Qed.

(** ** The real-time clock *)

Lemma wp_rtc c Q (w : W) : (forall p', same_chip w (w <| pm := p' |>) -> Q (cell (pm w) c) (w <| pm := p' |>)) -> wp (get_rtc c) Q w.
Proof using FgLaws0.
  intros H. apply wp_bind, wp_chip, wp_ret. destruct (fl_nv_read c (pm w)) as (p' & E & E1 & E2 & E3).
  unfold eval, exec. rewrite E. cbn. rewrite u8_id by apply fl_cell. apply H. constructor; cbn; congruence.
Qed.

Lemma wp_set_rtc c v Q (w : W) :
  (forall p', reg p' = reg (pm w) -> (forall d, cell p' d = if bool_decide (d = c) then u8 v else cell (pm w) d) -> Q tt (w <| pm := p' |>)) ->
  wp (set_rtc c v) Q w.
Proof using FgLaws0.
  intros H. apply wp_chip. destruct (fl_nv_write c (u8 v) (pm w)) as (H1 & H2 & _). destruct (eval _ _). apply H; [done|].
  intros d. rewrite H1. case_bool_decide; [|done]. apply u8_id, u8_range.
Qed.

Lemma spare_bits c v :
  is_u8 c -> 0 <= v < 128 -> let x := u8 (Z.land c 0x80 + v) in Z.land x 0x7f = v /\ Z.testbit x 7 = Z.testbit c 7.
Proof.
  intros Hc Hv. assert (forallb (fun c => forallb (fun v => let x := u8 (Z.land (Z.of_nat c) 0x80 + Z.of_nat v) in
    (Z.land x 0x7f =? Z.of_nat v) && Bool.eqb (Z.testbit x 7) (Z.testbit (Z.of_nat c) 7)) (seq 0 128)) (seq 0 256) = true) as F by (vm_compute; reflexivity).
  rewrite forallb_forall in F. unfold is_u8 in Hc. specialize (F (Z.to_nat c) ltac:(apply in_seq; lia)). rewrite forallb_forall in F.
  specialize (F (Z.to_nat v) ltac:(apply in_seq; lia)). rewrite !Z2Nat.id in F by lia. apply andb_true_iff in F as [F1 F2].
  split; [by apply Z.eqb_eq|by apply eqb_prop].
Qed.

(** The displayed charge survives in the real-time clock: a percentage written
    is read back, the mark that says the clock's contents are valid is left as it
    was, and so is the other cell. *)
Theorem rtc_ui_soc_roundtrip v w :
  0 <= v < 128 ->
  let w' := exec (rtc_ui_soc_set v) w in
  eval rtc_ui_soc_get w' = v /\
  Z.testbit (cell (pm w') StateOfCharge) 7 = Z.testbit (cell (pm w) StateOfCharge) 7 /\
  cell (pm w') Initialization = cell (pm w) Initialization.
Proof using FgLaws0.
  intros Hv w'. set (c := cell (pm w) StateOfCharge). assert (is_u8 c) as Hc by apply fl_cell.
  assert (wp (rtc_ui_soc_set v) (fun _ w' => forall d,
    cell (pm w') d = if bool_decide (d = StateOfCharge) then u8 (Z.land c 0x80 + v) else cell (pm w) d) w) as Ew.
  { apply wp_bind, wp_rtc. intros p1 [S1 _ S1'].
    apply wp_bind, wp_set_rtc. intros p2 _ R2. apply wp_ret. intros d. cbn in *. rewrite R2, S1'. done. }
  assert (eval rtc_ui_soc_get w' = Z.land (cell (pm w') StateOfCharge) 0x7f) as ->.
  { change (wp rtc_ui_soc_get (fun x _ => x = Z.land (cell (pm w') StateOfCharge) 0x7f) w'). by apply wp_bind, wp_rtc. }
  unfold wp in Ew. fold w' in Ew. rewrite !Ew. rewrite bool_decide_eq_true_2, bool_decide_eq_false_2 by done.
  destruct (spare_bits c v Hc Hv) as [E1 E2]. by rewrite E1, E2.
Qed.

(** ** Starting *)

Lemma wp_hwcid old Q (w : W) :
  (forall p', same_chip w (w <| pm := p' |>) -> Q (field_of PMIC_HWCID (reg (pm w) (pf_addr PMIC_HWCID))) (w <| pm := p' |>)) ->
  wp (read_field PMIC_HWCID old) Q w.
Proof using FgLaws0.
  intros H. apply wp_bind, wp_read. intros v p' S E _ _. specialize (E eq_refl). subst v. by apply wp_ret, H.
Qed.

(** What the real-time clock says of the battery: whether it was taken out, and
    for how long. *)
Definition rtc_plugout (id spare0 spare3 : Z) : Z * Z :=
  if Z.shiftr (Z.land spare3 0x80) 7 =? 0 then (1, 31)
  else
    let b13 := Z.shiftr (Z.land spare0 0x20) 5 in
    (if Z.land (field_of PMIC_HWCID id) 0xff00 =? 0x3500 then b13 else b2z (negb (z2b b13)), Z.land spare0 0x1f).

Definition plugout (w : W) : Z * Z := (is_bat_plugout (hw_status (gg w)), bat_plug_out_time (hw_status (gg w))).
Definition rtc_says (w : W) : Z * Z :=
  rtc_plugout (reg (pm w) (pf_addr PMIC_HWCID)) (cell (pm w) Initialization) (cell (pm w) StateOfCharge).

Lemma boot_status_wp (w : W) : wp (fgauge_read_RTC_boot_status undef) (fun _ w' => plugout w' = rtc_says w) w.
Proof using FgLaws0.
  apply wp_bind, wp_hwcid. intros p1 [S1 _ C1]. apply wp_bind, wp_rtc. intros p2 [S2 _ C2]. apply wp_bind, wp_rtc. intros p3 [S3 _ C3].
  cbn in *. rewrite C2, C1. apply wp_bind, wp_modify, wp_bind, wp_modify, wp_bind, wp_gets. unfold rtc_says, rtc_plugout. cbn.
  destruct (Z.shiftr (Z.land (cell (pm w) StateOfCharge) 128) 7 =? 0); apply wp_modify; done.
Qed.

Lemma same_rtc_says w w' : reg (pm w') (pf_addr PMIC_HWCID) = reg (pm w) (pf_addr PMIC_HWCID) -> cell (pm w') = cell (pm w) -> rtc_says w' = rtc_says w.
Proof. unfold rtc_says. by intros -> ->. Qed.

(** A step that leaves the clock and the identity of the chip alone. *)
Lemma wp_clock {A} (m : M W A) Q w :
  wp m (fun _ w' => rtc_says w' = rtc_says w) w -> (forall a w', rtc_says w' = rtc_says w -> Q a w') -> wp m Q w.
Proof. intros H HQ. eapply wp_mono; [exact H|]. intros a w' Hw. by apply HQ. Qed.

Lemma clock_get_info p old w : wp (fgauge_get_info p old) (fun _ w' => rtc_says w' = rtc_says w) w.
Proof using FgLaws0. apply get_info_wp. intros p' [S1 _ C1]. by apply same_rtc_says. Qed.

Lemma clock_update a m v w : wp (regmap_update_bits a m v) (fun _ w' => rtc_says w' = rtc_says w) w.
Proof using FgLaws0.
  apply wp_update. intros p' R _ C. apply same_rtc_says; [|done]. cbn [pm]. rewrite R.
  destruct (stored a) eqn:E; [|done]. cbn [andb]. destruct (Z.eqb_spec (pf_addr PMIC_HWCID) a) as [<-|]; [done|done].
Qed.

Lemma clock_set_info p v w : wp (fgauge_set_info p v) (fun _ w' => rtc_says w' = rtc_says w) w.
Proof using FgLaws0.
  apply wp_bind.
  destruct p; lazymatch goal with |- wp (regmap_update_bits _ _ _) _ _ => apply clock_update | |- wp (ret _) _ _ => by apply wp_ret | _ => idtac end.
  destruct (v =? -99999); [apply clock_update|].
  apply wp_bind. eapply wp_clock; [apply clock_update|]. intros u w1 E1. apply wp_bind. eapply wp_clock; [apply clock_update|]. intros u2 w2 E2.
  apply wp_ignore, wp_read. intros x p3 [S3 _ C3] _ _ _. apply wp_ret. rewrite <- E1, <- E2. by apply same_rtc_says.
Qed.

(** Whether the battery was taken out comes from the real-time clock alone:
    [initial_set] first derives it from the flags the boot loader left, and then
    overwrites it. *)
Theorem initial_plugout_from_rtc val w : plugout (exec (initial_set undef val) w) = rtc_says w.
Proof using FgLaws0.
  apply (wp_exec _ (fun w' => plugout w' = rtc_says w)). apply wp_bind. eapply wp_clock; [apply clock_update|]. intros u1 w1 E1.
  apply wp_bind. eapply wp_clock; [apply clock_get_info|]. intros flag w2 E2. apply wp_bind. eapply wp_clock; [apply clock_get_info|]. intros chr w3 E3.
  apply wp_bind, wp_ignore, wp_read. intros v p4 [S4 _ C4] _ _ _. apply wp_bind, wp_modify, wp_bind.
  match goal with |- wp _ _ ?x => set (w4 := x) end. assert (rtc_says w4 = rtc_says w3) as E4 by (by apply same_rtc_says).
  eapply wp_clock.
  { apply wp_if; intros _; [|by apply wp_modify]. apply wp_bind, wp_modify, wp_ignore.
    eapply wp_clock; [apply clock_set_info|]. by intros a w' ->. }
  intros u5 w5 E5. apply wp_bind, wp_ignore. eapply wp_clock; [apply clock_set_info|]. intros u6 w6 E6.
  apply wp_bind, wp_modify, wp_bind. eapply wp_mono; [apply boot_status_wp|]. intros u7 w7 E7. apply wp_ret.
  rewrite E7, <- E1, <- E2, <- E3, <- E4, <- E5, <- E6. done.
Qed.
End Laws.

(** ** A chip that has the laws *)

Module TestChip.
Record fg : Type := mk_fg { f_regs : Z -> Z; f_raw : Z; f_cell : rtc_cell -> Z; f_con1 : Z }.
#[global] Instance fg_struct : Struct fg := fun r => mk_fg (f_regs r) (f_raw r) (f_cell r) (f_con1 r).
Definition raw (p : fg) : Z := Z.max (- 2 ^ 30) (Z.min (2 ^ 30 - 1) (f_raw p)).
Definition cell (p : fg) (c : rtc_cell) : Z := u8 (f_cell p c).

(** The latch follows its request; registers that are not modelled read as zero. *)
Definition rd (a : Z) (p : fg) : Z :=
  if known a then f_regs p a
  else if a =? pf_addr PMIC_FG_CAR_15_00 then raw p mod 2 ^ 16
  else if a =? pf_addr PMIC_FG_CAR_31_16 then raw p / 2 ^ 16 mod 2 ^ 16
  else if a =? MT6357_FGADC_CON1 then update_bits (f_con1 p) 0x8000 (Z.shiftl (Z.land (f_con1 p) 1) 15)
  else 0.

#[global] Instance test_pmic : Pmic fg := {
  pm_read a := gets (fun p => Some (rd a p));
  pm_update a m v := modify (fun p =>
    p <| f_regs ::= fun f => fun b => if stored a && (b =? a) then update_bits (f a) m v else f b |>
      <| f_con1 ::= fun c => if a =? MT6357_FGADC_CON1 then update_bits c m v else c |>
      <| f_raw ::= fun r => if clears a m v then 0 else r |>);
  nv_read c := gets (fun p => Some (cell p c));
  nv_write c v := modify (fun p => p <| f_cell ::= fun f => fun d => if bool_decide (d = c) then v else f d |>);
  iio_present c p := true;
  iio_read_channel_processed c := ret (0, Some 4000);
  charger_voltage_boot := ret (Some (Some 3800000));
  set_dlpt_shutdown := ret tt
}.

#[global] Instance test_laws : FgLaws f_regs raw cell.
Proof.
  constructor.
  - intros p. unfold raw. lia.
  - intros p c. apply u8_range.
  - intros a p. exists (Some (rd a p)), p. repeat (split; [done|]). unfold rd.
    split; [by intros ->|]. split; intros ->; reflexivity.
  - intros a m v p. cbn. split; [done|]. split; [|done]. unfold raw. cbn. destruct (clears a m v); [reflexivity|done].
  - intros c p. by exists p.
  - intros c v p. cbn. split; [|done]. intros d. unfold cell. cbn. by case_bool_decide.
Qed.

Definition g0 : mtk_gauge :=
  mk_gauge (mk_hw_status 37000 false 0 0 0 0 0 0 0 100 1000 0 0 0 0) (mk_hw_info 0 0 0 0 0 0 0 0 0)
    (mk_zcv_data (mk_zcv 0 0 0 0 0 0 0) false (mk_zcv 0 0 0 0 0 0 0) 0 0) (fun _ => 40) (fun _ => 0) 0 0 0 0 0
    (mk_battery_data 100 1000 10 30 5 25 0 300 600 false 0 0 0) true true.
Definition w0 : gworld fg := mk_gworld g0 (mk_fg (fun _ => 0) 20480000 (fun _ => 0xB2) 0).
End TestChip.

Lemma info_roundtrip_witness :
  eval (fgauge_get_info GAUGE_PROP_SHUTDOWN_CAR 77) (exec (fgauge_set_info GAUGE_PROP_SHUTDOWN_CAR (-120)) TestChip.w0) = -120.
Proof.
  destruct (info_roundtrip TestChip.f_regs TestChip.raw TestChip.cell GAUGE_PROP_SHUTDOWN_CAR (-120) TestChip.w0 77) as [H _];
    [repeat (by left) || right.. |by right|exact H].
Defined.

Lemma shutdown_car_lost_witness :
  eval (fgauge_get_info GAUGE_PROP_SHUTDOWN_CAR 77) (exec (fgauge_set_info GAUGE_PROP_SHUTDOWN_CAR 120) TestChip.w0) = 77.
Proof. apply (shutdown_car_lost TestChip.f_regs TestChip.raw TestChip.cell 120 TestChip.w0 77). lia. Defined.

Lemma rtc_ui_soc_roundtrip_witness : eval rtc_ui_soc_get (exec (rtc_ui_soc_set 85) TestChip.w0) = 85.
Proof. apply (rtc_ui_soc_roundtrip TestChip.f_regs TestChip.raw TestChip.cell 85 TestChip.w0). lia. Defined.

Lemma initial_plugout_from_rtc_witness : plugout (exec (initial_set 0 1) TestChip.w0) = (0, 18).
Proof. rewrite (initial_plugout_from_rtc TestChip.f_regs TestChip.raw TestChip.cell 0 1 TestChip.w0). reflexivity. Defined.
