(* ===== verification/Mt6357Coulomb.v ===== *)
(** * The coulomb service on the MT6357

    The driver's reading of the counter and its two thresholds have the laws
    [GaugeLaws] that the coulomb service relies on: for distances below 6 Ah an
    interrupt comes at most 3 % and a few steps late.  So no expiry is missed by
    more on this chip. *)

From S2P Require Import Prelude Coulomb CoulombSpec Mt6357 Mt6357Ops Mt6357Spec.
#[local] Open Scope Z_scope.

(** ** Readings of the counter *)

(** A count of 2^11 steps in units of 0.1 mAh, rounded, and with its sign. *)
Definition scaled (m : Z) : Z := (m * UNIT_FGCAR / 1000 / 10 + 5) / 10.
Definition signed (n : Z) : Z := if 0 <=? n then scaled n else - scaled (- n - 1).
Definition reading (tune n : Z) : Z := (signed n * tune) ÷c 1000.

Lemma scaled_bounds m : 0 <= m -> 11176 * m - 61000 < 100000 * scaled m <= 11176 * m + 50000.
Proof.
  intros Hm. unfold scaled, UNIT_FGCAR.
  pose proof (Z.div_mod (m * 11176) 1000). pose proof (Z.mod_pos_bound (m * 11176) 1000).
  set (a := m * 11176 / 1000) in *. pose proof (Z.div_mod a 10). pose proof (Z.mod_pos_bound a 10).
  set (b := a / 10) in *. pose proof (Z.div_mod (b + 5) 10). pose proof (Z.mod_pos_bound (b + 5) 10). lia.
Qed.

Lemma scaled_mono m n : 0 <= m <= n -> scaled m <= scaled n.
Proof. intros H. unfold scaled, UNIT_FGCAR. repeat first [apply Z.div_le_mono; [lia|]|apply Z.add_le_mono_r]. lia. Qed.

Lemma scaled_0 : scaled 0 = 0.
Proof. reflexivity. Qed.

Lemma signed_mono m n : m <= n -> signed m <= signed n.
Proof.
  intros H. unfold signed. destruct (Z.leb_spec 0 m), (Z.leb_spec 0 n); try lia.
  - by apply scaled_mono.
  - pose proof (scaled_mono 0 n). pose proof (scaled_mono 0 (- m - 1)). rewrite scaled_0 in *. lia.
  - pose proof (scaled_mono (- n - 1) (- m - 1)). lia.
Qed.

(** How much a rise of the counter can raise the reading. *)
Lemma signed_rise m n : m <= n -> 100000 * (signed n - signed m) <= 11176 * (n - m) + 111000.
Proof.
  intros H. unfold signed. destruct (Z.leb_spec 0 m), (Z.leb_spec 0 n); try lia.
  - pose proof (scaled_bounds m). pose proof (scaled_bounds n). lia.
  - pose proof (scaled_bounds n). pose proof (scaled_bounds (- m - 1)). lia.
  - pose proof (scaled_bounds (- m - 1)). pose proof (scaled_bounds (- n - 1)). lia.
Qed.

Lemma signed_rise_least m n : m <= n -> 11176 * (n - m) - 133176 <= 100000 * (signed n - signed m).
Proof.
  intros H. unfold signed. destruct (Z.leb_spec 0 m), (Z.leb_spec 0 n); try lia.
  - pose proof (scaled_bounds m). pose proof (scaled_bounds n). lia.
  - pose proof (scaled_bounds n). pose proof (scaled_bounds (- m - 1)). lia.
  - pose proof (scaled_bounds (- m - 1)). pose proof (scaled_bounds (- n - 1)). lia.
Qed.

Lemma quot_near x : - 1000 < 1000 * (x ÷c 1000) - x < 1000.
Proof. pose proof (Z.quot_rem' x 1000). pose proof (Z.rem_bound_abs x 1000). lia. Qed.

Lemma reading_mono tune m n : 0 <= tune -> m <= n -> reading tune m <= reading tune n.
Proof.
  intros Ht H. unfold reading. apply Z.quot_le_mono; [lia|]. apply Z.mul_le_mono_nonneg_r; [done|by apply signed_mono].
Qed.

Lemma reading_rise tune m n :
  0 < tune -> m <= n -> 100000000 * (reading tune n - reading tune m) <= tune * (11176 * (n - m) + 111000) + 200000000.
Proof.
  intros Ht H. pose proof (signed_rise m n H) as Hr. unfold reading.
  pose proof (quot_near (signed n * tune)). pose proof (quot_near (signed m * tune)). nia.
Qed.

Lemma reading_rise_least tune m n :
  0 < tune -> m <= n -> tune * (11176 * (n - m) - 133176) - 200000000 <= 100000000 * (reading tune n - reading tune m).
Proof.
  intros Ht H. pose proof (signed_rise_least m n H) as Hr. unfold reading.
  pose proof (quot_near (signed n * tune)). pose proof (quot_near (signed m * tune)). nia.
Qed.

(** ** The conversions of the driver *)

Lemma do_div_small x n : 0 <= x < 2 ^ 63 -> 0 < n -> do_div x n = x / n.
Proof.
  intros Hx Hn. unfold do_div, u64, wrapu. rewrite (Z.mod_small x) by lia.
  assert (0 <= x / n <= x) by (split; [apply Z.div_pos; lia|apply Z.div_le_upper_bound; nia]).
  unfold s64. rewrite Z.mod_small; lia.
Qed.

Definition lo16 (r : Z) : Z := r mod 2 ^ 16.
Definition hi16 (r : Z) : Z := r / 2 ^ 16 mod 2 ^ 16.

Lemma lor_add a b k : 0 <= k -> 0 <= a < 2 ^ k -> Z.lor a (Z.shiftl b k) = a + b * 2 ^ k.
Proof.
  intros Hk Ha. rewrite <- Z.shiftl_mul_pow2 by done. symmetry. rewrite <- Z.lxor_lor, Z.add_nocarry_lxor; try done;
    apply Z.bits_inj'; intros i Hi; rewrite Z.land_spec, Z.bits_0;
    (destruct (Z.lt_ge_cases i k); [by rewrite Z.shiftl_spec_low, andb_false_r by done|];
     rewrite <- (Z.mod_small a (2 ^ k)), Z.mod_pow2_bits_high by lia; done).
Qed.

(** What [coulomb_get] makes of the two registers. *)
Lemma counter_bits r :
  - 2 ^ 30 <= r < 2 ^ 30 ->
  Z.lor (Z.shiftr (lo16 r) 11) (Z.shiftl (Z.land (hi16 r) 0x7fff) 5) = (r / 2 ^ 11) mod 2 ^ 20 /\
  Z.shiftr (Z.land (hi16 r) 0x8000) 15 = b2z (r <? 0).
Proof.
  intros Hr. unfold lo16, hi16. set (H := r / 2 ^ 16). set (L := r mod 2 ^ 16).
  pose proof (Z.div_mod r (2 ^ 16)) as E1. pose proof (Z.mod_pos_bound r (2 ^ 16)) as B1. fold H L in E1, B1.
  split.
  - change 0x7fff with (Z.ones 15). rewrite Z.land_ones, Z.shiftr_div_pow2 by lia.
    pose proof (Z.div_mod L (2 ^ 11)) as E2. pose proof (Z.mod_pos_bound L (2 ^ 11)) as B2.
    assert (0 <= L / 2 ^ 11 < 2 ^ 5) as B3 by (split; [apply Z.div_pos; lia|apply Z.div_lt_upper_bound; lia]).
    rewrite lor_add by lia. assert (r / 2 ^ 11 = 32 * H + L / 2 ^ 11) as ->.
    { symmetry. apply (Z.div_unique r (2 ^ 11) _ (L mod 2 ^ 11)); lia. }
    pose proof (Z.div_mod (H mod 2 ^ 16) (2 ^ 15)). pose proof (Z.mod_pos_bound (H mod 2 ^ 16) (2 ^ 15)).
    pose proof (Z.div_mod H (2 ^ 16)). pose proof (Z.mod_pos_bound H (2 ^ 16)).
    apply (Z.mod_unique _ _ (2 * (H / 2 ^ 16) + H mod 2 ^ 16 / 2 ^ 15)); lia.
  - assert (Z.shiftr (Z.land (H mod 2 ^ 16) 0x8000) 15 = H mod 2 ^ 16 / 2 ^ 15) as ->.
    { pose proof (Z.mod_pos_bound H (2 ^ 16)). rewrite Z.shiftr_land, Z.shiftr_div_pow2 by lia. change (Z.shiftr 0x8000 15) with (Z.ones 1).
      rewrite Z.land_ones by lia. apply Z.mod_small. split; [apply Z.div_pos; lia|apply Z.div_lt_upper_bound; lia]. }
    assert (H = r / 2 ^ 16) as EH by done. destruct (Z.ltb_spec r 0); cbn.
    + rewrite <- (Z.mod_unique H (2 ^ 16) (-1) (H + 2 ^ 16)) by lia. symmetry. apply (Z.div_unique _ _ _ (H + 2 ^ 15)); lia.
    + rewrite (Z.mod_small H) by lia. apply Z.div_small. lia.
Qed.

Lemma car_value_reading tune r :
  - 2 ^ 30 <= r < 2 ^ 30 -> 0 < tune <= 1500 -> car_value 100 tune (lo16 r) (hi16 r) = reading tune (r / 2 ^ 11).
Proof.
  intros Hr Ht. unfold car_value. destruct (counter_bits r Hr) as [-> ->].
  set (n := r / 2 ^ 11). assert (- 2 ^ 19 <= n < 2 ^ 19) as Hn.
  { unfold n. split; [apply Z.div_le_lower_bound; lia|apply Z.div_lt_upper_bound; lia]. }
  assert (r < 0 <-> n < 0) as Hs.
  { unfold n. split; intros; [apply Z.div_lt_upper_bound; lia|]. destruct (Z.lt_ge_cases r 0); [done|].
    pose proof (Z.div_pos r (2 ^ 11)). lia. }
  assert (forall m, 0 <= m < 2 ^ 20 -> do_div (do_div ((m * UNIT_FGCAR) ÷c 1000) 10 + 5) 10 = scaled m /\ 0 <= scaled m < 2 ^ 18) as Hd.
  { intros m Hm. pose proof (scaled_bounds m). pose proof (scaled_mono 0 m). rewrite scaled_0 in *. split; [|lia].
    unfold UNIT_FGCAR. rewrite Z.quot_div_nonneg by lia.
    assert (0 <= m * 11176 / 1000 < 2 ^ 40) by (split; [apply Z.div_pos; lia|apply Z.div_lt_upper_bound; lia]).
    rewrite (do_div_small (_ / 1000)) by lia.
    assert (0 <= m * 11176 / 1000 / 10 < 2 ^ 40) by (split; [apply Z.div_pos; lia|apply Z.div_lt_upper_bound; lia]).
    rewrite do_div_small by lia. done. }
  unfold adjust, reading, signed, DEFAULT_R_FG. rewrite Z.eqb_refl.
  destruct (Z.ltb_spec r 0); cbn [b2z].
  - replace (n mod 2 ^ 20) with (n + 2 ^ 20) by (apply (Z.mod_unique _ _ (-1)); lia).
    destruct (Z.eqb_spec (n + 2 ^ 20) 0); [lia|]. rewrite Z.eqb_refl. destruct (Z.leb_spec 0 n); [lia|].
    assert ((if n + 2 ^ 20 =? 0xfffff then 0 else - (n + 2 ^ 20 - 0xfffff)) = - n - 1) as -> by (destruct (Z.eqb_spec (n + 2 ^ 20) 0xfffff); lia).
    destruct (Hd (- n - 1)) as [-> B]; [lia|]. rewrite (s32_id (- scaled _)) by (unfold is_s32; lia). rewrite s32_id by (unfold is_s32; nia). done.
  - rewrite Z.mod_small by lia. change (0 =? 1) with false. cbv iota.
    assert ((if n =? 0 then 0 else if n =? 0xfffff then 0 else n) = n) as -> by (destruct (Z.eqb_spec n 0), (Z.eqb_spec n 0xfffff); lia).
    destruct (Z.leb_spec 0 n); [|lia]. destruct (Hd n) as [-> B]; [lia|].
    rewrite (s32_id (scaled _)) by (unfold is_s32; lia). rewrite s32_id by (unfold is_s32; nia). done.
Qed.

Lemma car_steps_raw r : - 2 ^ 30 <= r < 2 ^ 30 -> car_steps (lo16 r) (hi16 r) = r / 8.
Proof.
  intros Hr. unfold car_steps, lo16, hi16, CAR_TO_REG_SHIFT. change 0xffff with (Z.ones 16). rewrite !Z.land_ones, !Zmod_mod by lia.
  pose proof (Z.mod_pos_bound r (2 ^ 16)). pose proof (Z.mod_pos_bound (r / 2 ^ 16) (2 ^ 16)).
  rewrite (u32_id (Z.shiftl _ _)) by (rewrite Z.shiftl_mul_pow2 by lia; unfold is_u32; lia).
  rewrite lor_add by lia. assert (s32 (r mod 2 ^ 16 + r / 2 ^ 16 mod 2 ^ 16 * 2 ^ 16) = r) as ->; [|by rewrite Z.shiftr_div_pow2].
  replace (r mod 2 ^ 16 + r / 2 ^ 16 mod 2 ^ 16 * 2 ^ 16) with (u32 r); [apply s32_u32; unfold is_s32; lia|].
  unfold u32, wrapu. pose proof (Z.div_mod r (2 ^ 16)). pose proof (Z.div_mod (r / 2 ^ 16) (2 ^ 16)).
  symmetry. apply (Z.mod_unique _ _ (r / 2 ^ 16 / 2 ^ 16)); lia.
Qed.

(** Up to 6 Ah, in units of 0.1 mAh. *)
Definition reach : Z := 60000.
Definition lag : Z := 1807.

Lemma car_to_reg_steps tune v :
  500 <= tune <= 1500 -> 0 < v < reach ->
  let s := car_to_reg 100 tune v in 0 <= s < 2 ^ 29 /\ 23594000 * v - 9000 - 10 * tune <= 10 * (tune * s) <= 23594000 * v.
Proof.
  unfold reach. intros Ht Hv. unfold car_to_reg, CAR_TO_REG_FACTOR. rewrite Z.eqb_refl.
  pose proof (quot_floor (v * 0x5c2a) 10) as H1. set (c := (v * 0x5c2a) ÷c 10) in *.
  assert (s64 (c * 1000) = c * 1000) as -> by (unfold s64; rewrite Z.mod_small; lia).
  pose proof (quot_floor (c * 1000) tune) as H2. set (s := (c * 1000) ÷c tune) in *. cbv zeta. nia.
Qed.

(** The reading at a threshold against the distance it was set for. *)
Lemma threshold_rise tune v q q' :
  500 <= tune <= 1500 -> 0 < v < reach -> q <= q' <= q + car_to_reg 100 tune v ->
  reading tune (q' / 256) - reading tune (q / 256) + 1 <= v + lag.
Proof.
  intros Ht Hv Hq. destruct (car_to_reg_steps tune v Ht Hv) as [_ Hs]. set (s := car_to_reg 100 tune v) in *.
  pose proof (Z.div_le_mono q q' 256 ltac:(lia) ltac:(lia)) as Hm.
  pose proof (reading_rise tune (q / 256) (q' / 256) ltac:(lia) Hm) as Hr.
  pose proof (Z.div_mod q 256). pose proof (Z.mod_pos_bound q 256). pose proof (Z.div_mod q' 256). pose proof (Z.mod_pos_bound q' 256).
  set (d := q' / 256 - q / 256) in *. assert (256 * d <= s + 255) as Hd by (unfold d; lia).
  assert (256 * (tune * d) <= tune * s + 255 * tune) by nia. unfold lag, reach in *. lia.
Qed.

Lemma threshold_rise_least tune v q :
  500 <= tune <= 1500 -> 0 < v < reach ->
  103 * v - 420 <= 100 * (reading tune ((q + car_to_reg 100 tune v) / 256) - reading tune (q / 256)).
Proof.
  intros Ht Hv. destruct (car_to_reg_steps tune v Ht Hv) as [Hs0 Hs]. set (s := car_to_reg 100 tune v) in *.
  pose proof (Z.div_le_mono q (q + s) 256 ltac:(lia) ltac:(lia)) as Hm.
  pose proof (reading_rise_least tune (q / 256) ((q + s) / 256) ltac:(lia) Hm) as Hr.
  pose proof (Z.div_mod q 256). pose proof (Z.mod_pos_bound q 256). pose proof (Z.div_mod (q + s) 256). pose proof (Z.mod_pos_bound (q + s) 256).
  set (d := (q + s) / 256 - q / 256) in *. assert (s - 255 <= 256 * d) as Hd by (unfold d; lia).
  assert (tune * s - 255 * tune <= 256 * (tune * d)) by nia. unfold reach in *. lia.
Qed.

(** ** The gauge *)

Section Chip.
  Context {P : Type} `{!Pmic P} (reg : P -> Z -> Z) (raw : P -> Z) (cell : P -> rtc_cell -> Z).
  Context `{!FgLaws reg raw cell} (undef : Z).
  Abbreviation W := (gworld P).

(** Only the chip's state outside the laws may be different. *)
Record still (w w' : W) : Prop := { st_chip : same_chip reg raw cell w w'; st_gg : gg w' = gg w }.

Lemma still_refl w : still w w.
Proof. by constructor. Qed.
Lemma still_trans w1 w2 w3 : still w1 w2 -> still w2 w3 -> still w1 w3.
Proof. intros [[] ?] [[] ?]. constructor; [constructor; [intros a|..]|]; congruence. Qed.

Lemma still_then {A B} (m : M W A) (k : A -> M W B) Q w w1 :
  still w w1 -> wp m (fun _ w' => still w1 w') w1 -> (forall a w', still w w' -> wp (k a) Q w') -> wp (bind m k) Q w1.
Proof. intros S H HQ. apply wp_bind. eapply wp_mono; [exact H|]. intros a w' Hw. apply HQ. by eapply still_trans. Qed.

Lemma write_con1_still f v w :
  pf_addr f = MT6357_FGADC_CON1 -> clears MT6357_FGADC_CON1 (Z.shiftl (pf_mask f) (pf_shift f)) (u32 (Z.shiftl v (pf_shift f))) = false ->
  wp (write_field f v) (fun _ w' => still w w') w.
Proof using FgLaws0.
  intros Ha Hc. unfold write_field. rewrite Ha. eapply wp_update; [done|]. intros p' R E C. rewrite Hc in E. by constructor.
Qed.

Lemma read_still f old w : wp (read_field f old) (fun _ w' => still w w') w.
Proof using FgLaws0. apply wp_bind. eapply wp_read; [done|]. intros v p' S _ _ _. apply wp_ret. by constructor. Qed.

Lemma poll_still n want old w : wp (poll_latch n want old) (fun _ w' => still w w') w.
Proof using FgLaws0.
  revert old w. induction n as [|n IH]; intros old w; [apply wp_ret, still_refl|]. cbn [poll_latch].
  eapply still_then; [apply still_refl|apply read_still|]. intros v w' S. destruct (Bool.eqb (z2b v) want); [by apply wp_ret|].
  eapply wp_mono; [apply IH|]. intros u w2 S2. by eapply still_trans.
Qed.

Lemma pre_still w : wp pre_gauge_update (fun _ w' => still w w') w.
Proof using FgLaws0.
  eapply still_then; [apply still_refl|by apply write_con1_still|]. intros u w1 S1.
  eapply wp_mono; [apply poll_still|]. intros u2 w2. by apply still_trans.
Qed.

Lemma post_still w : wp (post_gauge_update undef) (fun _ w' => still w w') w.
Proof using FgLaws0.
  eapply still_then; [apply still_refl|by apply write_con1_still|]. intros u1 w1 S1.
  eapply still_then; [exact S1|by apply write_con1_still|]. intros u2 w2 S2.
  eapply still_then; [exact S2|apply poll_still|]. intros u3 w3 S3.
  eapply wp_mono; [by apply write_con1_still|]. intros u4 w4. by apply still_trans.
Qed.

Lemma field16 f v : pf_mask f = 0xFFFF -> pf_shift f = 0 -> field_of f v = v mod 2 ^ 16.
Proof. intros Hm Hs. unfold field_of. rewrite Hm, Hs, Z.shiftr_0_r, Z.shiftl_0_r. apply (Z.land_ones v 16). lia. Qed.

(** The two halves of the counter. *)
Lemma read_car_wp Q (w : W) :
  (forall w', still w w' -> Q (lo16 (raw (pm w)), hi16 (raw (pm w))) w') -> wp (read_car undef) Q w.
Proof using FgLaws0.
  intros H. eapply still_then; [apply still_refl|apply pre_still|]. intros u w1 S1.
  apply wp_bind, wp_bind. eapply wp_read; [done|]. intros lo p2 S2 _ E2 _. specialize (E2 eq_refl). apply wp_ret.
  apply wp_bind, wp_bind. eapply wp_read; [done|]. intros hi p3 S3 _ _ E3. specialize (E3 eq_refl). apply wp_ret.
  assert (still w ((w1 <| pm := p2 |>) <| pm := p3 |>)) as S.
  { eapply still_trans; [exact S1|]. eapply still_trans; [by split; [exact S2|]|]. by split. }
  eapply still_then; [exact S|apply post_still|]. intros u4 w4 S4. apply wp_ret. subst lo hi. rewrite !field16 by done.
  destruct S1 as [[_ R1 _] _], S2 as [_ R2 _]. cbn in R2 |- *. rewrite ?R2, ?R1, !Zmod_mod. by apply H.
Qed.

(** A threshold of the chip: the two halves of a number of steps. *)
Definition threshold (flo fhi : pmic_field) (w : W) : Z :=
  s32 (Z.land (reg (pm w) (pf_addr flo)) 0xffff + Z.land (reg (pm w) (pf_addr fhi)) 0xffff * 2 ^ 16).

(** The driver's state but for the depths of its interrupts. *)
Record same_gauge_state (w w' : W) : Prop := {
  sg_hw : hw_status (gg w') = hw_status (gg w);
  sg_irq : irq_no (gg w') = irq_no (gg w);
  sg_psy : gauge_psy (gg w') = gauge_psy (gg w);
  sg_attr : gauge_attr (gg w') = gauge_attr (gg w)
}.

Record rearmed (irq : gauge_irq) (flo fhi : pmic_field) (bound : Z) (w w' : W) : Prop := {
  ra_state : same_gauge_state w w';
  ra_depth : irq_depth (gg w') irq = 0;
  ra_depths : forall i, i <> irq -> irq_depth (gg w') i = irq_depth (gg w) i;
  ra_raw : raw (pm w') = raw (pm w);
  ra_threshold : threshold flo fhi w' = bound;
  ra_regs : forall b, b <> pf_addr flo -> b <> pf_addr fhi -> reg (pm w') b = reg (pm w) b
}.

Definition depth_ok (d : Z) : Prop := d = 0 \/ d = 1.

Lemma disable_wp irq Q (w : W) :
  irq_no (gg w) irq <> 0 -> depth_ok (irq_depth (gg w) irq) ->
  (forall g, same_gauge_state w (w <| gg := g |>) -> irq_depth g irq = 1 -> (forall i, i <> irq -> irq_depth g i = irq_depth (gg w) i) ->
     Q tt (w <| gg := g |>)) ->
  wp (disable_gauge_irq irq) Q w.
Proof.
  intros Hn Hd H. apply wp_bind, wp_gets. rewrite (proj2 (Z.eqb_neq _ _) Hn). apply wp_bind, wp_gets, wp_when; intros E.
  - apply wp_modify. apply H; [done|cbn; by rewrite decide_True|]. intros i Hi. cbn. by rewrite decide_False.
  - apply Z.eqb_neq in E. destruct w as [g p]. apply (H g); [done|cbn in *; unfold depth_ok in Hd; lia|done].
Qed.

Lemma enable_wp irq Q (w : W) :
  irq_depth (gg w) irq = 1 ->
  (forall g, same_gauge_state w (w <| gg := g |>) -> irq_depth g irq = 0 -> (forall i, i <> irq -> irq_depth g i = irq_depth (gg w) i) ->
     Q tt (w <| gg := g |>)) ->
  wp (enable_gauge_irq irq) Q w.
Proof.
  intros Hd H. apply wp_bind, wp_gets. rewrite Hd. apply wp_modify. apply H; [done|cbn; by rewrite decide_True|].
  intros i Hi. cbn. by rewrite decide_False.
Qed.

Lemma halves bound : is_s32 bound ->
  s32 (Z.land (Z.land bound 0xffff) 0xffff + Z.land (Z.shiftr (Z.land (u32 bound) 0xffff0000) 16) 0xffff * 2 ^ 16) = bound.
Proof.
  intros Hb. rewrite <- Z.land_assoc, Z.land_diag, Z.shiftr_land. change (Z.shiftr 0xffff0000 16) with 0xffff.
  rewrite <- (Z.land_assoc _ 0xffff 0xffff), Z.land_diag. change 0xffff with (Z.ones 16). rewrite !Z.land_ones, Z.shiftr_div_pow2 by lia.
  pose proof (u32_range bound) as Hu. unfold is_u32 in Hu. rewrite (Z.mod_small (u32 bound / 2 ^ 16)) by (split; [apply Z.div_pos; lia|apply Z.div_lt_upper_bound; lia]).
  assert (bound mod 2 ^ 16 = u32 bound mod 2 ^ 16) as ->.
  { unfold u32, wrapu. symmetry. apply Z.mod_mod_divide. by exists (2 ^ 16). }
  pose proof (Z.div_mod (u32 bound) (2 ^ 16)). replace (u32 bound mod 2 ^ 16 + u32 bound / 2 ^ 16 * 2 ^ 16) with (u32 bound) by lia.
  by apply s32_u32.
Qed.

(** Writing one half. *)
Lemma half_wp f v Q (w : W) :
  pf_mask f = 0xFFFF -> pf_shift f = 0 -> stored (pf_addr f) = true ->
  (forall p', raw p' = raw (pm w) -> Z.land (reg p' (pf_addr f)) 0xffff = Z.land v 0xffff ->
     (forall b, b <> pf_addr f -> reg p' b = reg (pm w) b) -> Q tt (w <| pm := p' |>)) ->
  wp (write_field f v) Q w.
Proof using FgLaws0.
  intros Hm Hs Hst H. unfold write_field. rewrite Hm, Hs. eapply wp_update; [done|]. intros p' R E _. rewrite Hst in R. cbn [andb] in R.
  apply H.
  - rewrite E. unfold clears. destruct (Z.eqb_spec (pf_addr f) MT6357_FGADC_CON1) as [Ea|]; [|done]. by rewrite Ea in Hst.
  - rewrite R, Z.eqb_refl. pose proof (field_write 0 0xffff v (reg (pm w) (pf_addr f))) as F. rewrite Z.shiftr_0_r in F. apply F; lia.
  - intros b Hb. rewrite R. by rewrite (proj2 (Z.eqb_neq _ _) Hb).
Qed.

Lemma rearm_wp irq flo fhi bound (w : W) :
  irq_no (gg w) irq <> 0 -> depth_ok (irq_depth (gg w) irq) -> is_s32 bound ->
  pf_mask flo = 0xFFFF -> pf_shift flo = 0 -> stored (pf_addr flo) = true ->
  pf_mask fhi = 0xFFFF -> pf_shift fhi = 0 -> stored (pf_addr fhi) = true -> pf_addr flo <> pf_addr fhi ->
  wp (disable_gauge_irq irq ;;; write_field flo (Z.land bound 0xffff) ;;;
      write_field fhi (Z.shiftr (Z.land (u32 bound) 0xffff0000) 16) ;;; enable_gauge_irq irq ;;; ret 0)
    (fun _ w' => rearmed irq flo fhi bound w w') w.
Proof using FgLaws0.
  intros Hn Hd Hb M1 S1 T1 M2 S2 T2 Hne. apply wp_bind, disable_wp; [done..|]. intros g1 [] D1 O1.
  apply wp_bind, half_wp; [done..|]. intros p2 R2 L2 B2. apply wp_bind, half_wp; [done..|]. intros p3 R3 L3 B3.
  apply wp_bind, enable_wp; [done|]. intros g4 [] D4 O4. apply wp_ret. cbn in *.
  constructor; cbn; try congruence; [constructor; cbn; congruence|..].
  - intros i Hi. rewrite O4, O1 by done. done.
  - unfold threshold. cbn. rewrite L3, B3, L2 by done. by apply halves.
  - intros b H1 H2. rewrite B3, B2 by done. done.
Qed.

(** ** The laws of the service *)

Definition tune (w : W) : Z := car_tune_value (hw_status (gg w)).

(** The driver is set up, with the default sense resistor and a calibration within
    50 %, and the two coulomb interrupts are requested. *)
Record good (w : W) : Prop := {
  gd_psy : gauge_psy (gg w) = true;
  gd_attr : gauge_attr (gg w) = true;
  gd_r_fg : r_fg_value (hw_status (gg w)) = 100;
  gd_tune : 500 <= tune w <= 1500;
  gd_irq_h : irq_no (gg w) COULOMB_H_IRQ <> 0;
  gd_irq_l : irq_no (gg w) COULOMB_L_IRQ <> 0;
  gd_depth_h : depth_ok (irq_depth (gg w) COULOMB_H_IRQ);
  gd_depth_l : depth_ok (irq_depth (gg w) COULOMB_L_IRQ)
}.

Definition hth : W -> Z := threshold PMIC_FG_BAT0_HTH_15_00 PMIC_FG_BAT0_HTH_31_16.
Definition lth : W -> Z := threshold PMIC_FG_BAT0_LTH_15_00 PMIC_FG_BAT0_LTH_31_16.
Definition steps (w : W) : Z := raw (pm w) / 8.

(** The chip raises an interrupt when the counter has reached a threshold. *)
Definition high_due (w : W) : Prop := irq_depth (gg w) COULOMB_H_IRQ = 0 /\ hth w <= steps w.
Definition low_due (w : W) : Prop := irq_depth (gg w) COULOMB_L_IRQ = 0 /\ steps w <= lth w.

(** In readings. *)
Definition now (w : W) : Z := reading (tune w) (steps w / 256).
Definition ht (w : W) : Z := if irq_depth (gg w) COULOMB_H_IRQ =? 0 then reading (tune w) (hth w / 256) + 1 else 2 ^ 40.
Definition lt (w : W) : Z := if irq_depth (gg w) COULOMB_L_IRQ =? 0 then reading (tune w) (lth w / 256) - 1 else - 2 ^ 40.

Lemma steps_div w : steps w / 256 = raw (pm w) / 2 ^ 11.
Proof. unfold steps. by rewrite Z.div_div by lia. Qed.

Lemma signed_range n : - 2 ^ 19 <= n < 2 ^ 19 -> - 2 ^ 17 < signed n < 2 ^ 17.
Proof.
  intros Hn. unfold signed. pose proof (scaled_bounds n). pose proof (scaled_bounds (- n - 1)). destruct (Z.leb_spec 0 n); lia.
Qed.

Lemma now_range w : good w -> is_s32 (now w).
Proof using FgLaws0.
  intros []. unfold now. rewrite steps_div. pose proof (fl_raw (pm w)) as Hr.
  assert (- 2 ^ 19 <= raw (pm w) / 2 ^ 11 < 2 ^ 19) as Hn%signed_range by (split; [apply Z.div_le_lower_bound; lia|apply Z.div_lt_upper_bound; lia]).
  unfold reading. set (x := signed _) in *. assert (- 2 ^ 28 < x * tune w < 2 ^ 28) by nia. unfold is_s32.
  pose proof (Z.quot_rem' (x * tune w) 1000). pose proof (Z.rem_bound_abs (x * tune w) 1000). lia.
Qed.

(** Between the thresholds no interrupt is due, in readings. *)
Lemma quiet_readings w : good w -> ~ high_due w -> ~ low_due w -> - 2 ^ 40 < now w < 2 ^ 40 -> lt w < now w < ht w.
Proof.
  intros [] Hh Hl Hn. unfold high_due, low_due, lt, ht in *. split.
  - destruct (Z.eqb_spec (irq_depth (gg w) COULOMB_L_IRQ) 0) as [E|]; [|lia].
    assert (reading (tune w) (lth w / 256) <= now w); [|lia]. apply reading_mono; [lia|]. apply Z.div_le_mono; [lia|].
    destruct (Z.le_gt_cases (steps w) (lth w)); [tauto|lia].
  - destruct (Z.eqb_spec (irq_depth (gg w) COULOMB_H_IRQ) 0) as [E|]; [|lia].
    assert (now w <= reading (tune w) (hth w / 256)); [|lia]. apply reading_mono; [lia|]. apply Z.div_le_mono; [lia|].
    destruct (Z.le_gt_cases (hth w) (steps w)); [tauto|lia].
Qed.

Lemma same_good w w' :
  good w -> same_gauge_state w w' -> depth_ok (irq_depth (gg w') COULOMB_H_IRQ) -> depth_ok (irq_depth (gg w') COULOMB_L_IRQ) -> good w'.
Proof. intros [] [] Hh Hl. constructor; unfold tune in *; congruence || done || (rewrite ?sg_hw0, ?sg_irq0; done). Qed.

Lemma still_good w w' : good w -> still w w' -> good w' /\ now w' = now w /\ ht w' = ht w /\ lt w' = lt w.
Proof.
  intros Hg [[R1 R2 R3] E]. split; [destruct Hg; constructor; unfold tune in *; by rewrite E|].
  unfold now, ht, lt, hth, lth, threshold, steps, tune. by rewrite E, R2, !R1.
Qed.

Lemma get_car_wp old (w : W) :
  good w -> wp (gauge_get_property undef GAUGE_PROP_COULOMB old) (fun r w' => r = Returned 0 (now w) /\ still w w') w.
Proof using FgLaws0.
  intros Hg. apply wp_bind, wp_gets. rewrite (gd_psy w Hg), (gd_attr w Hg). cbn [negb].
  change (mt6357_sysfs_field_tbl undef !! prop_index GAUGE_PROP_COULOMB) with
    (Some (FIELD_RO (P := P) (fun _ => coulomb_get undef) GAUGE_PROP_COULOMB)). cbn [fi_prop fi_get FIELD_RO].
  rewrite decide_True by done. apply wp_bind, wp_bind, wp_gets, wp_bind, read_car_wp. intros w' S. apply wp_ret, wp_ret. split; [|done].
  cbn [fst snd]. rewrite (gd_r_fg w Hg). rewrite car_value_reading; [|apply fl_raw|pose proof (gd_tune w Hg); unfold tune in *; lia].
  unfold now. by rewrite steps_div.
Qed.

Lemma disabled_low w g :
  good w -> same_gauge_state w (w <| gg := g |>) -> irq_depth g COULOMB_H_IRQ = 1 ->
  (forall i, i <> COULOMB_H_IRQ -> irq_depth g i = irq_depth (gg w) i) ->
  let w' := w <| gg := g |> in good w' /\ now w' = now w /\ lt w' = lt w.
Proof.
  intros Hg Hs D O. split; [apply (same_good w); cbn; [done..|by right|rewrite O by done; apply Hg]|].
  destruct Hs. cbn in *. unfold now, lt, lth, threshold, steps, tune. cbn. rewrite sg_hw0, O by done. done.
Qed.

Lemma disabled_high w g :
  good w -> same_gauge_state w (w <| gg := g |>) -> irq_depth g COULOMB_L_IRQ = 1 ->
  (forall i, i <> COULOMB_L_IRQ -> irq_depth g i = irq_depth (gg w) i) ->
  let w' := w <| gg := g |> in good w' /\ now w' = now w /\ ht w' = ht w.
Proof.
  intros Hg Hs D O. split; [apply (same_good w); cbn; [done..|rewrite O by done; apply Hg|by right]|].
  destruct Hs. cbn in *. unfold now, ht, hth, threshold, steps, tune. cbn. rewrite sg_hw0, O by done. done.
Qed.

(** What setting a threshold leaves, in readings. *)
Definition high_set (v : Z) (w w' : W) : Prop := good w' /\ now w' = now w /\ lt w' = lt w /\ (0 < v < reach -> ht w' <= now w + v + lag).
Definition low_set (v : Z) (w w' : W) : Prop := good w' /\ now w' = now w /\ ht w' = ht w /\ (0 < v < reach -> now w - v - lag <= lt w').

Lemma steps_range w : - 2 ^ 27 <= steps w < 2 ^ 27.
Proof using FgLaws0.
  unfold steps. pose proof (fl_raw (pm w)). split; [apply Z.div_le_lower_bound; lia|apply Z.div_lt_upper_bound; lia].
Qed.

Lemma rearmed_high v w w' :
  good w ->
  rearmed COULOMB_H_IRQ PMIC_FG_BAT0_HTH_15_00 PMIC_FG_BAT0_HTH_31_16 (s32 (steps w + car_to_reg 100 (tune w) v)) w w' -> high_set v w w'.
Proof using FgLaws0.
  intros Hg [Hs D O R T B]. pose proof (gd_tune w Hg) as Ht. pose proof Hs as [E1 _ _ _].
  split; [apply (same_good w); [done..|by left|rewrite O by done; apply Hg]|].
  assert (tune w' = tune w) as Et by (unfold tune; by rewrite E1).
  split; [unfold now, steps; by rewrite Et, R|]. split; [unfold lt, lth, threshold; by rewrite Et, O, !B by done|].
  intros Hv. destruct (car_to_reg_steps (tune w) v Ht Hv) as [Bs _]. pose proof (steps_range w).
  rewrite s32_id in T by (unfold is_s32; lia).
  unfold ht. rewrite D, Et. unfold hth. rewrite T. change (0 =? 0) with true. cbv iota.
  pose proof (threshold_rise (tune w) v (steps w) (steps w + car_to_reg 100 (tune w) v) Ht Hv ltac:(lia)). unfold now. lia.
Qed.

Lemma rearmed_low v w w' :
  good w ->
  rearmed COULOMB_L_IRQ PMIC_FG_BAT0_LTH_15_00 PMIC_FG_BAT0_LTH_31_16 (s32 (steps w - car_to_reg 100 (tune w) v)) w w' -> low_set v w w'.
Proof using FgLaws0.
  intros Hg [Hs D O R T B]. pose proof (gd_tune w Hg) as Ht. pose proof Hs as [E1 _ _ _].
  split; [apply (same_good w); [done..|rewrite O by done; apply Hg|by left]|].
  assert (tune w' = tune w) as Et by (unfold tune; by rewrite E1).
  split; [unfold now, steps; by rewrite Et, R|]. split; [unfold ht, hth, threshold; by rewrite Et, O, !B by done|].
  intros Hv. destruct (car_to_reg_steps (tune w) v Ht Hv) as [Bs _]. pose proof (steps_range w).
  rewrite s32_id in T by (unfold is_s32; lia).
  unfold lt. rewrite D, Et. unfold lth. rewrite T. change (0 =? 0) with true. cbv iota.
  pose proof (threshold_rise (tune w) v (steps w - car_to_reg 100 (tune w) v) (steps w) Ht Hv ltac:(lia)). unfold now. lia.
Qed.

Lemma set_high_wp v (w : W) : good w -> wp (gauge_set_property undef GAUGE_PROP_COULOMB_HT_INTERRUPT v) (fun _ w' => high_set v w w') w.
Proof using FgLaws0.
  intros Hg. apply wp_bind, wp_gets. rewrite (gd_psy w Hg), (gd_attr w Hg). cbn [negb].
  change (mt6357_sysfs_field_tbl undef !! prop_index GAUGE_PROP_COULOMB_HT_INTERRUPT) with
    (Some (FIELD_WO (P := P) (coulomb_interrupt_ht_set undef) GAUGE_PROP_COULOMB_HT_INTERRUPT)). cbn [fi_prop fi_set FIELD_WO].
  rewrite decide_True by done. apply wp_bind, wp_ignore, wp_bind, wp_gets. destruct (Z.eqb_spec v 0) as [->|Hv].
  - apply wp_bind, disable_wp; [apply Hg..|]. intros g S D O. apply wp_ret, wp_ret.
    destruct (disabled_low w g Hg S D O) as (G1 & G2 & G3). split_and!; [done..|lia].
  - apply wp_bind, read_car_wp. intros w1 S1. cbn [fst snd]. rewrite (gd_r_fg w Hg).
    destruct (still_good w w1 Hg S1) as (Hg1 & N1 & H1 & L1). rewrite car_steps_raw by apply fl_raw.
    change (raw (pm w) / 8) with (steps w). change (car_tune_value (hw_status (gg w))) with (tune w).
    eapply wp_mono; [apply rearm_wp; try done; [apply Hg1..|apply s32_range]|]. intros u w2 H2. apply wp_ret.
    assert (steps w1 = steps w /\ tune w1 = tune w) as [E1 E2] by (destruct S1 as [[_ E _] F]; unfold steps, tune; by rewrite E, F).
    rewrite <- E1, <- E2 in H2. destruct (rearmed_high v w1 w2 Hg1 H2) as (G1 & G2 & G3 & G4). rewrite N1, L1 in *. by split_and!.
Qed.

Lemma set_low_wp v (w : W) : good w -> wp (gauge_set_property undef GAUGE_PROP_COULOMB_LT_INTERRUPT v) (fun _ w' => low_set v w w') w.
Proof using FgLaws0.
  intros Hg. apply wp_bind, wp_gets. rewrite (gd_psy w Hg), (gd_attr w Hg). cbn [negb].
  change (mt6357_sysfs_field_tbl undef !! prop_index GAUGE_PROP_COULOMB_LT_INTERRUPT) with
    (Some (FIELD_WO (P := P) (coulomb_interrupt_lt_set undef) GAUGE_PROP_COULOMB_LT_INTERRUPT)). cbn [fi_prop fi_set FIELD_WO].
  rewrite decide_True by done. apply wp_bind, wp_ignore, wp_bind, wp_gets. destruct (Z.eqb_spec v 0) as [->|Hv].
  - apply wp_bind, disable_wp; [apply Hg..|]. intros g S D O. apply wp_ret, wp_ret.
    destruct (disabled_high w g Hg S D O) as (G1 & G2 & G3). split_and!; [done..|lia].
  - apply wp_bind, read_car_wp. intros w1 S1. cbn [fst snd]. rewrite (gd_r_fg w Hg).
    destruct (still_good w w1 Hg S1) as (Hg1 & N1 & H1 & L1). rewrite car_steps_raw by apply fl_raw.
    change (raw (pm w) / 8) with (steps w). change (car_tune_value (hw_status (gg w))) with (tune w).
    eapply wp_mono; [apply rearm_wp; try done; [apply Hg1..|apply s32_range]|]. intros u w2 H2. apply wp_ret.
    assert (steps w1 = steps w /\ tune w1 = tune w) as [E1 E2] by (destruct S1 as [[_ E _] F]; unfold steps, tune; by rewrite E, F).
    rewrite <- E1, <- E2 in H2. destruct (rearmed_low v w1 w2 Hg1 H2) as (G1 & G2 & G3 & G4). rewrite N1, H1 in *. by split_and!.
Qed.

Lemma gauge_reset_wp val (w : W) : good w -> wp (gauge_set_property undef GAUGE_PROP_RESET val) (fun _ w' => good w' /\ now w' = 0) w.
Proof using FgLaws0.
  intros Hg. apply wp_bind, wp_gets. rewrite (gd_psy w Hg), (gd_attr w Hg). cbn [negb].
  change (mt6357_sysfs_field_tbl undef !! prop_index GAUGE_PROP_RESET) with
    (Some (FIELD_WO (P := P) (fun _ => Mt6357.reset_set) GAUGE_PROP_RESET)). cbn [fi_prop fi_set FIELD_WO].
  rewrite decide_True by done. apply wp_bind, wp_ignore, wp_bind. eapply wp_update; [done|]. intros p1 _ R1 _.
  apply wp_bind. eapply wp_update; [done|]. intros p2 _ R2 _. apply wp_ret, wp_ret.
  change (clears _ _ (u32 0x0630)) with true in R1. change (clears _ _ (u32 0x0030)) with false in R2. cbn in R2.
  split; [destruct Hg; by constructor|]. unfold now, steps, tune. cbn. rewrite R2, R1. by destruct (hw_status (gg w)).
Qed.

(** The interrupt for a rising counter comes late: the register factor of the
    thresholds and the unit of the counter disagree, so when the interrupt that
    was set for a distance [v] is due, the reading has risen by 3 % more (less a
    few steps of rounding). *)
Theorem coulomb_interrupt_late v w w' :
  good w -> 0 < v < reach -> w' = exec (coulomb_interrupt_ht_set undef v) w ->
  103 * v - 420 <= 100 * (reading (tune w') (hth w' / 256) - now w).
Proof using FgLaws0.
  intros Hg Hv ->. apply (wp_exec _ (fun w' => 103 * v - 420 <= 100 * (reading (tune w') (hth w' / 256) - now w))).
  apply wp_bind, wp_gets. destruct (Z.eqb_spec v 0); [lia|].
  apply wp_bind, read_car_wp. intros w1 S1. cbn [fst snd]. rewrite (gd_r_fg w Hg), car_steps_raw by apply fl_raw.
  destruct (still_good w w1 Hg S1) as (Hg1 & N1 & _). change (raw (pm w) / 8) with (steps w). change (car_tune_value (hw_status (gg w))) with (tune w).
  eapply wp_mono; [apply rearm_wp; try done; [apply Hg1..|apply s32_range]|]. intros u w2 [[E _ _ _] _ _ _ T _].
  pose proof (gd_tune w Hg) as Ht. destruct (car_to_reg_steps (tune w) v Ht Hv) as [Bs _]. pose proof (steps_range w).
  rewrite s32_id in T by (unfold is_s32; lia). unfold hth. rewrite T.
  assert (tune w2 = tune w) as -> by (destruct S1 as [_ F]; unfold tune; by rewrite E, F).
  pose proof (threshold_rise_least (tune w) v (steps w) Ht Hv). unfold now. lia.
Qed.

(** ** The gauge as the service sees it *)

(** [X] is what the cycle count and the daemon keep. *)
Context {X : Type} (accu : Z -> X -> X) (algo : Z -> X -> X).

Definition G : Type := ({w : W | good w} * X)%type.
Definition dev (g : G) : W := proj1_sig (fst g).

Definition lift {A} (m : M W A) (H : preserves good m) : M G A := fun g =>
  (eval m (dev g), (exist good (exec m (dev g)) (H (dev g) (proj2_sig (fst g))), snd g)).

Lemma pg_get : preserves good (gauge_get_int_property undef GAUGE_PROP_COULOMB).
Proof using FgLaws0.
  intros w Hg. apply wp_exec, wp_bind. eapply wp_mono; [by apply get_car_wp|]. intros r w' [_ S]. apply wp_ret. by apply (still_good w).
Qed.
Lemma pg_high v : preserves good (gauge_set_property undef GAUGE_PROP_COULOMB_HT_INTERRUPT v).
Proof using FgLaws0. intros w Hg. exact (proj1 (set_high_wp v w Hg)). Qed.
Lemma pg_low v : preserves good (gauge_set_property undef GAUGE_PROP_COULOMB_LT_INTERRUPT v).
Proof using FgLaws0. intros w Hg. exact (proj1 (set_low_wp v w Hg)). Qed.
Lemma pg_reset v : preserves good (gauge_set_property undef GAUGE_PROP_RESET v).
Proof using FgLaws0. intros w Hg. exact (proj1 (gauge_reset_wp v w Hg)). Qed.

#[export] Instance mt6357_gauge : Gauge G := {
  gauge_get_coulomb := lift _ pg_get;
  gauge_set_ht_interrupt v := ignore (lift _ (pg_high v));
  gauge_set_lt_interrupt v := ignore (lift _ (pg_low v));
  gauge_set_reset := ignore (lift _ (pg_reset 0));
  fg_sw_bat_cycle_accu := let! v := lift _ pg_get in modify (fun g => (fst g, accu v (snd g)));
  wakeup_fg_algo e := modify (fun g => (fst g, algo e (snd g)))
}.

Lemma int_property_eq w :
  good w -> eval (gauge_get_int_property undef GAUGE_PROP_COULOMB) w = now w /\ still w (exec (gauge_get_int_property undef GAUGE_PROP_COULOMB) w).
Proof using FgLaws0.
  intros Hg. change (wp (gauge_get_int_property undef GAUGE_PROP_COULOMB) (fun v w' => v = now w /\ still w w') w).
  apply wp_bind. eapply wp_mono; [by apply get_car_wp|]. intros r w' [-> S]. by apply wp_ret.
Qed.

#[export] Instance mt6357_gauge_laws : GaugeLaws (fun g => now (dev g)) (fun g => ht (dev g)) (fun g => lt (dev g)) reach lag.
Proof using FgLaws0.
  constructor.
  - unfold reach. lia.
  - intros [[w Hg] x]. by apply now_range.
  - intros [[w Hg] x]. destruct (int_property_eq w Hg) as [E S]. destruct (still_good w _ Hg S) as (_ & H1 & H2 & H3).
    eexists. split; [cbn; unfold lift; cbn; by rewrite E|]. cbn. auto.
  - intros v [[w Hg] x]. destruct (set_high_wp v w Hg) as (_ & H1 & H2 & H3). cbn. auto.
  - intros v [[w Hg] x]. destruct (set_low_wp v w Hg) as (_ & H1 & H2 & H3). cbn. auto.
  - intros [[w Hg] x]. exact (proj2 (gauge_reset_wp 0 w Hg)).
  - intros [[w Hg] x]. destruct (int_property_eq w Hg) as [E S]. destruct (still_good w _ Hg S) as (_ & H1 & H2 & H3). cbn. auto.
  - done.
Qed.

(** C21: the coulomb service on the MT6357, with the sense resistor of the board
    (10 milliohm) and a calibration of the counter between 50 and 150 %: in every
    state that sysfs writes, resets, interrupts, passes of the thread and moves of
    the counter can lead to, when the thread is not woken and the chip has no
    coulomb interrupt due, no consumer within 6 Ah has expired by more than the
    lag of the thresholds. *)
Theorem coulomb_on_mt6357 (w : bworld G) :
  reachable (fun g => now (dev g)) (fun g => ht (dev g)) (fun g => lt (dev g)) reach w ->
  woken w = false -> ~ high_due (dev (ga w)) -> ~ low_due (dev (ga w)) ->
  (forall c, c ∈ plus w -> now (dev (ga w)) < ends w c + lag) /\ (forall c, c ∈ minus w -> ends w c - lag < now (dev (ga w))).
Proof using FgLaws0.
  intros Hr Hw Hh Hl. apply (no_missed_expiry_at (fun g => now (dev g)) (fun g => ht (dev g)) (fun g => lt (dev g)) reach lag w Hr Hw).
  pose proof (proj2_sig (fst (ga w))) as Hg. apply quiet_readings; try done. pose proof (now_range _ Hg) as Hn. unfold is_s32, dev in *. lia.
Qed.
End Chip.

(** ** Witnesses *)

Module TestService.
Import TestChip.

Lemma good0 : good w0.
Proof. constructor; cbn; unfold tune, depth_ok; cbn; lia. Qed.

Abbreviation GT := (@G fg (list Z)).
Definition g0 : GT := (exist good w0 good0, []).
#[local] Instance gauge0 : Gauge GT := mt6357_gauge f_regs raw cell 0 (fun _ x => x) cons.

Definition b0 : bworld GT :=
  mk_bworld (mk_battery (mk_cs [] [] 0 false false 0 false []) (fun _ => mk_consumer 0 0 0 true) 100 0 0 0 0 0 0 false) g0.
Definition b1 : bworld GT := exec (coulomb_int_gap_set 1000) (exec gauge_coulomb_service_init b0).

Definition rnow (g : GT) := now raw (dev g).
Definition rht (g : GT) := ht f_regs (dev g).
Definition rlt (g : GT) := lt f_regs (dev g).

Lemma b1_reachable : reachable rnow rht rlt reach b1.
Proof.
  exists b0. split; [unfold reach; cbn; lia|]. split; [done|]. unfold b1. apply rtc_once, sv_gap. unfold reach. lia.
Qed.
End TestService.

Lemma coulomb_on_mt6357_witness :
  (forall c, c ∈ plus TestService.b1 -> now TestChip.raw (dev (ga TestService.b1)) < ends TestService.b1 c + lag) /\
  (forall c, c ∈ minus TestService.b1 -> ends TestService.b1 c - lag < now TestChip.raw (dev (ga TestService.b1))).
Proof.
  apply (coulomb_on_mt6357 TestChip.f_regs TestChip.raw TestChip.cell 0 (fun _ x => x) cons TestService.b1 TestService.b1_reachable);
    [vm_compute; reflexivity|intros [_ H]; vm_compute in H; apply H; reflexivity|intros [_ H]; vm_compute in H; apply H; reflexivity].
Defined.

Lemma coulomb_interrupt_late_witness :
  103 * 1000 - 420 <= 100 * (reading (tune (exec (coulomb_interrupt_ht_set 0 1000) TestChip.w0)) (hth TestChip.f_regs (exec (coulomb_interrupt_ht_set 0 1000) TestChip.w0) / 256) - now TestChip.raw TestChip.w0).
Proof.
  apply (coulomb_interrupt_late TestChip.f_regs TestChip.raw TestChip.cell 0 1000 TestChip.w0 _ TestService.good0); [unfold reach; lia|reflexivity].
Defined.
