(* ===== verification/RtRegmap.v ===== *)
(** * The register map of Richtek chips (drivers/misc/mediatek/rt-regmap)

    rt-regmap.c sits between the MT6370 driver and the I2C bus.  It knows the
    registers of the chip, keeps a copy of those the chip does not change by
    itself, and can write through to the chip, write back later, or do without
    the copy.

    The state is [rt_regmap_device] with the client behind it, a type [C] of the
    class [RtClient].  An access outside an array of the source sets [rd_fault].
    Semaphores and the work queue are recorded as events, newest first, from
    which [RtSema] runs operations against each other.  Log output is left
    out. *)

From S2P Require Import Prelude.
#[local] Open Scope Z_scope.

(** ** Data (include/mt-plat/rt-regmap.h) *)

Definition RT_REG_TYPE_MASK : Z := 0x03.
Definition RT_NORMAL : Z := 0x00.
Definition RT_WBITS : Z := 0x01.
Definition RT_VOLATILE : Z := 0x02.
Definition RT_RESERVE : Z := 0x03.
Definition RT_WR_ONCE : Z := 0x08.
Definition RT_NORMAL_WR_ONCE : Z := Z.lor RT_NORMAL RT_WR_ONCE.

Inductive rt_data_format : Type := RT_LITTLE_ENDIAN | RT_BIG_ENDIAN.

Definition RT_BYTE_MODE_MASK : Z := 0x01.
Definition RT_CACHE_MODE_MASK : Z := 0x06.
Definition RT_CACHE_WR_THROUGH : Z := 0.
Definition RT_CACHE_WR_BACK : Z := 2.
Definition RT_CACHE_DISABLE : Z := 4.
Definition RT_IO_BLK_MODE_MASK : Z := 0x18.
Definition RT_IO_PASS_THROUGH : Z := 0.
Definition RT_IO_BLK_ALL : Z := 8.
Definition RT_IO_BLK_CACHE : Z := 16.
Definition RT_IO_BLK_CHIP : Z := 24.
Definition RT_DBG_SPECIAL : Z := 32.
Definition RT_1BYTE_MODE : Z := 1.

Record rt_access_group : Type := mk_group { g_start : Z; g_end : Z; g_mode : Z }.

Record rt_register : Type := mk_reg {
  rm_addr : Z;
  rm_size : Z;
  rm_type : Z;
  rm_mask : list Z       (* wbit_mask *)
}.
#[global] Instance rt_register_struct : Struct rt_register := fun r =>
  mk_reg (rm_addr r) (rm_size r) (rm_type r) (rm_mask r).

Definition is_volatile (rm : rt_register) : bool := Z.land (rm_type rm) RT_REG_TYPE_MASK =? RT_VOLATILE.
Definition wr_once (rm : rt_register) : bool := z2b (Z.land (rm_type rm) RT_WR_ONCE).

(** What [regmap_ops] points to: through the cache, through the cache with a
    delayed write, or the chip itself. *)
Inductive rt_ops : Type := OpsCache | OpsAsyn | OpsChip.

Inductive rt_sem : Type := Semaphore | WriteModeLock.
#[global] Instance rt_sem_eq_dec : EqDecision rt_sem.
Proof. solve_decision. Defined.

(** [down], [up], and waiting for the delayed work to end. *)
Inductive rt_event : Type := Down (s : rt_sem) | Up (s : rt_sem) | CancelWork.

Record reg_index_offset : Type := mk_rio { ri_index : Z; ri_offset : Z }.

(** [struct rt_debug_data]. *)
Record rt_debug_data : Type := mk_dbg { dbg_rio : reg_index_offset; dbg_addr : Z; dbg_size : Z }.
#[global] Instance rt_debug_data_struct : Struct rt_debug_data := fun r =>
  mk_dbg (dbg_rio r) (dbg_addr r) (dbg_size r).

(** [struct rt_regmap_device] with its [props].  [cache_data] are offsets into
    [alloc_data]; [rd_work] and [rd_alarm] say that the delayed work and the
    watchdog alarm are pending. *)
Record rt_regmap_device : Type := mk_rd {
  rm_map : list rt_register;
  rd_group : list rt_access_group;
  rt_format : rt_data_format;
  rt_regmap_mode : Z;
  cache_mode_ori : Z;
  io_log_en : bool;
  rd_watchdog : bool;
  rd_ops : rt_ops;
  cache_flag : list Z;
  cached : list Z;
  cache_data : list nat;
  alloc_data : list Z;
  pending_event : bool;
  error_occurred : bool;
  err_len : nat;                 (* strlen(err_msg) *)
  dbg_data : rt_debug_data;
  rd_work : bool;
  rd_alarm : bool;
  rd_fault : bool;
  rd_events : list rt_event
}.
#[global] Instance rt_regmap_device_struct : Struct rt_regmap_device := fun r => mk_rd
  (rm_map r) (rd_group r) (rt_format r) (rt_regmap_mode r) (cache_mode_ori r) (io_log_en r)
  (rd_watchdog r) (rd_ops r) (cache_flag r) (cached r) (cache_data r) (alloc_data r)
  (pending_event r) (error_occurred r) (err_len r) (dbg_data r) (rd_work r) (rd_alarm r)
  (rd_fault r) (rd_events r).

(** [struct rt_regmap_fops]: a read gives the bytes it stored, from the start of
    the buffer. *)
Class RtClient (C : Type) : Type := {
  read_device : Z -> Z -> M C (Z * list Z);
  write_device : Z -> list Z -> M C Z
}.

Record rtworld (C : Type) : Type := mk_rtworld { rd : rt_regmap_device; cl : C }.
Arguments mk_rtworld {C}.
Arguments rd {C}.
Arguments cl {C}.
#[global] Instance rtworld_struct C : Struct (rtworld C) := fun r => mk_rtworld (rd r) (cl r).

(** [dst] after [l] has been stored at [pos]. *)
Definition overlay (dst : list Z) (pos : nat) (l : list Z) : list Z :=
  take pos dst ++ l ++ drop (pos + length l) dst.

Section Access.
  Context {C : Type}.
  Abbreviation W := (rtworld C).

Definition client {A} (m : M C A) : M W A :=
  fun w => let '(a, c) := m (cl w) in (a, w <| cl := c |>).
Definition getr {A} (f : rt_regmap_device -> A) : M W A := gets (fun w => f (rd w)).
Definition modr (f : rt_regmap_device -> rt_regmap_device) : M W unit :=
  modify (fun w => w <| rd ::= f |>).

Definition down (s : rt_sem) : M W unit := modr (fun d => d <| rd_events ::= cons (Down s) |>).
Definition up (s : rt_sem) : M W unit := modr (fun d => d <| rd_events ::= cons (Up s) |>).
Definition fault_unless (ok : bool) : M W unit :=
  when (negb ok) (modr (fun d => d <| rd_fault := true |>)).

(** The bytes of the copy of register [idx], from offset [off]. *)
Definition cache_at (d : rt_regmap_device) (idx : nat) (off : nat) : nat :=
  default 0%nat (cache_data d !! idx) + off.
Definition cache_get (idx off n : nat) : M W (list Z) :=
  let! d := getr id in
  fault_unless (Nat.leb (cache_at d idx off + n) (length (alloc_data d))) ;;;
  ret (take n (drop (cache_at d idx off) (alloc_data d))).
Definition cache_put (idx off : nat) (l : list Z) : M W unit :=
  let! d := getr id in
  fault_unless (Nat.leb (cache_at d idx off + length l) (length (alloc_data d))) ;;;
  modr (fun d => d <| alloc_data := overlay (alloc_data d) (cache_at d idx off) l |>).

Definition is_cached (idx : nat) : M W bool := getr (fun d => z2b (default 0 (cached d !! idx))).
Definition set_cached (idx : nat) : M W unit := modr (fun d => d <| cached ::= <[idx := 1]> |>).
Definition set_flag (idx : nat) (v : Z) : M W unit := modr (fun d => d <| cache_flag ::= <[idx := v]> |>).
End Access.

(** ** Finding a register *)

(** The unit of the first group that contains [reg]; the source runs on behind
    the array when there is none. *)
Fixpoint group_unit (gs : list rt_access_group) (reg : Z) : option Z :=
  match gs with
  | [] => None
  | g :: gs' => if (g_start g <=? reg) && (reg <=? g_end g) then Some (g_mode g) else group_unit gs' reg
  end.

(** The loop, from [index] on; [None] is the run behind the groups. *)
Fixpoint find_loop (rms : list rt_register) (gs : list rt_access_group) (reg index : Z)
    (rio : reg_index_offset) : option reg_index_offset :=
  match rms with
  | [] => Some rio
  | rm :: rms' =>
      if reg =? rm_addr rm then Some (mk_rio index 0)
      else if rm_addr rm <? reg then
        if reg - rm_addr rm <? rm_size rm then
          match group_unit gs reg with
          | Some u => find_loop rms' gs reg (index + 1) (mk_rio index (s32 ((reg - rm_addr rm) * u)))
          | None => None
          end
        else find_loop rms' gs reg (index + 1) (mk_rio (-1) (-1))
      else find_loop rms' gs reg (index + 1) rio
  end.

Definition find_register_index {C} (reg : Z) : M (rtworld C) reg_index_offset :=
  let! d := getr id in
  match find_loop (rm_map d) (rd_group d) reg 0 (mk_rio 0 0) with
  | Some rio => ret rio
  | None => fault_unless false ;;; ret (mk_rio 0 0)
  end.

(** ** The chip and the copies *)

Section Regmap.
  Context {C : Type} `{!RtClient C}.
  Abbreviation W := (rtworld C).

Definition blk_mode (d : rt_regmap_device) : Z := Z.land (rt_regmap_mode d) RT_IO_BLK_MODE_MASK.

Definition rt_chip_block_write (reg : Z) (src : list Z) : M W Z :=
  let! m := getr blk_mode in
  if (m =? RT_IO_BLK_ALL) || (m =? RT_IO_BLK_CHIP) then ret 0
  else client (write_device reg src).

(** [rops->read_device] into a buffer of [unsigned char]. *)
Definition read_chip (reg bytes : Z) : M W (Z * list Z) :=
  let! r := client (read_device reg bytes) in ret (fst r, map u8 (snd r)).
Definition rt_chip_block_read (reg bytes : Z) : M W (Z * list Z) := read_chip reg bytes.

(** The loop of [rt_regmap_cache_sync] over the registers from index [i] on;
    [false] is the jump to the end. *)
Fixpoint sync_loop (rms : list rt_register) (i : nat) : M W bool :=
  match rms with
  | [] => ret true
  | rm :: rms' =>
      let! f := getr (fun d => default 0 (cache_flag d !! i)) in
      if f =? 1 then
        let! src := cache_get i 0 (Z.to_nat (rm_size rm)) in
        let! rc := rt_chip_block_write (rm_addr rm) src in
        if rc <? 0 then ret false
        else set_flag i 0 ;;; sync_loop rms' (S i)
      else sync_loop rms' (S i)
  end.

Definition rt_regmap_cache_sync : M W unit :=
  down Semaphore ;;;
  let! p := getr pending_event in
  when p
    (let! rms := getr rm_map in
     let! ok := sync_loop rms 0 in
     when ok (modr (fun d => d <| pending_event := false |>))) ;;;
  up Semaphore.

(** The register at a known index. *)
Definition reg_at (idx : Z) : M W rt_register :=
  let! d := getr id in
  fault_unless ((0 <=? idx) && (idx <? Z.of_nat (length (rm_map d)))) ;;;
  ret (default (mk_reg 0 0 0 []) (rm_map d !! Z.to_nat idx)).

Definition rt_regmap_cache_write_back (reg : Z) : M W unit :=
  let! rio := find_register_index reg in
  if ri_index rio <? 0 then ret tt
  else
    down Semaphore ;;;
    let! rm := reg_at (ri_index rio) in
    let idx := Z.to_nat (ri_index rio) in
    when (negb (is_volatile rm))
      (let! src := cache_get idx 0 (Z.to_nat (rm_size rm)) in
       let! rc := rt_chip_block_write (rm_addr rm) src in
       if rc <? 0 then ret tt else set_flag idx 0) ;;;
    up Semaphore.

Definition rt_is_reg_volatile (reg : Z) : M W Z :=
  let! rio := find_register_index reg in
  if ri_index rio <? 0 then ret (- EINVAL)
  else let! rm := reg_at (ri_index rio) in ret (b2z (is_volatile rm)).

Definition rt_get_regsize (reg : Z) : M W Z :=
  let! rio := find_register_index reg in
  if (ri_index rio <? 0) || negb (ri_offset rio =? 0) then ret (- EINVAL)
  else let! rm := reg_at (ri_index rio) in ret (s32 (rm_size rm)).

Definition rt_work_func : M W unit := modr (fun d => d <| rd_work := false |>) ;;; rt_regmap_cache_sync.

(** ** Writing one register: the functions of [rt_block_map]

    [chunk] are the bytes of [wdata] for this register, [off] the offset in
    it. *)

Definition rt_block_write_blk_all (rm : rt_register) (off : Z) (chunk : list Z) (idx : nat) : M W Z :=
  down WriteModeLock ;;; up WriteModeLock ;;; ret 0.

(** [wbit_mask[i]]. *)
Definition wbit (rm : rt_register) (i : nat) : M W Z :=
  fault_unless (Nat.ltb i (length (rm_mask rm))) ;;; ret (default 0 (rm_mask rm !! i)).

(** The loops that store the masked bytes; they count the bytes that differ from
    the copy. *)
Fixpoint store_loop (rm : rt_register) (idx i : nat) (chunk : list Z) : M W Z :=
  match chunk with
  | [] => ret 0
  | v :: chunk' =>
      let! change :=
        (if is_volatile rm then ret 0
         else
           let! m := wbit rm i in
           let! old := cache_get idx i 1 in
           cache_put idx i [Z.land v m] ;;;
           ret (b2z (negb (default 0 (head old) =? Z.land v m)))) in
      let! n := store_loop rm idx (S i) chunk' in
      ret (change + n)
  end.

Definition rt_block_write_blk_chip (rm : rt_register) (off : Z) (chunk : list Z) (idx : nat) : M W Z :=
  down WriteModeLock ;;;
  ignore (store_loop rm idx (Z.to_nat off) chunk) ;;;
  when (negb (is_volatile rm) && negb (bool_decide (chunk = []))) (set_cached idx) ;;;
  up WriteModeLock ;;; ret 0.

Definition rt_block_write_blk_cache (rm : rt_register) (off : Z) (chunk : list Z) (idx : nat) : M W Z :=
  down WriteModeLock ;;;
  let! ret_ := rt_chip_block_write (u32 (rm_addr rm + off)) chunk in
  up WriteModeLock ;;;
  ret (if ret_ <? 0 then - EIO else 0).

Definition rt_block_write (rm : rt_register) (off : Z) (chunk : list Z) (idx : nat) : M W Z :=
  down WriteModeLock ;;;
  let! c := is_cached idx in
  let! n := store_loop rm idx (Z.to_nat off) chunk in
  when (negb c) (set_cached idx) ;;;
  let change := if c then if wr_once rm then n else 0 else 1 in
  let! ret_ :=
    (if (change =? 0) && wr_once rm then ret 0
     else
       let! src := cache_get idx 0 (length chunk) in
       rt_chip_block_write (u32 (rm_addr rm + off)) src) in
  up WriteModeLock ;;; ret ret_.

(** [rd->rt_block_write[blk_index]]. *)
Definition rt_block_map (blk : Z) : rt_register -> Z -> list Z -> nat -> M W Z :=
  if blk =? 0 then rt_block_write
  else if blk =? 1 then rt_block_write_blk_all
  else if blk =? 2 then rt_block_write_blk_cache
  else rt_block_write_blk_chip.

(** ** Blocks *)

(** The part of [bytes] that goes to this register: [rm->size - rio.offset] is
    unsigned. *)
Definition chunk_size (rm : rt_register) (off bytes : Z) : Z :=
  let avail := u32 (rm_size rm - off) in
  if bytes <=? avail then bytes else s32 avail.

(** The [while] loop of [rt_cache_block_write] over the registers from [idx] on:
    [rest] is what is left of [wdata].  The register behind the last one is
    loaded before the test that ends the loop.  [rio.offset] stays. *)
Fixpoint cache_write_loop (rms : list rt_register) (idx : nat) (off : Z) (rest : list Z) : M W Z :=
  match rms with
  | [] => fault_unless false ;;; ret (- EIO)
  | rm :: rms' =>
      let n := Z.to_nat (chunk_size rm off (Z.of_nat (length rest))) in
      let! r :=
        (if is_volatile rm then rt_chip_block_write (u32 (rm_addr rm + off)) (take n rest)
         else
           let! m := getr blk_mode in
           rt_block_map (Z.shiftr m 3) rm off (take n rest) idx) in
      if r <? 0 then ret (- EIO)
      else
        when (negb (is_volatile rm)) (set_flag idx 1) ;;;
        if bool_decide (drop n rest = []) then ret 0
        else cache_write_loop rms' (S idx) off (drop n rest)
  end.

(** The log line of [rt_cache_block_write]: [wri_data] has 128 bytes, three for
    each byte written; [false] is the early return. *)
Fixpoint io_log (count : nat) (j : Z) : bool :=
  match count with
  | O => true
  | S n => if 128 - j - 1 <=? 3 then false else io_log n (j + 3)
  end.

Definition rt_cache_block_write (reg : Z) (data : list Z) : M W Z :=
  if 64 <? Z.of_nat (length data) then ret (- EINVAL)
  else
    let! rio := find_register_index reg in
    if ri_index rio <? 0 then ret (- EINVAL)
    else
      ignore (reg_at (ri_index rio)) ;;;
      let! rms := getr (fun d => drop (Z.to_nat (ri_index rio)) (rm_map d)) in
      let! r := (if bool_decide (data = []) then ret 0
                 else cache_write_loop rms (Z.to_nat (ri_index rio)) (ri_offset rio) data) in
      if r <? 0 then ret r
      else
        let! log := getr io_log_en in
        ret (if log && negb (io_log (length data) 0) then - EINVAL else 0).

(** The same for [rt_asyn_cache_block_write], which starts every further
    register at offset 0 and marks the write-back as pending. *)
Fixpoint asyn_write_loop (rms : list rt_register) (idx : nat) (off : Z) (rest : list Z) : M W Z :=
  match rms with
  | [] => fault_unless false ;;; ret (- EIO)
  | rm :: rms' =>
      let n := Z.to_nat (chunk_size rm off (Z.of_nat (length rest))) in
      let! r :=
        (if is_volatile rm then rt_chip_block_write (u32 (rm_addr rm + off)) (take n rest)
         else
           let! m := getr blk_mode in
           rt_block_map (Z.shiftr m 3) rm off (take n rest) idx) in
      if r <? 0 then ret (- EIO)
      else
        when (negb (is_volatile rm))
          (set_flag idx 1 ;;; modr (fun d => d <| pending_event := true |>)) ;;;
        if bool_decide (drop n rest = []) then ret r
        else asyn_write_loop rms' (S idx) 0 (drop n rest)
  end.

(** Its log line, where [ret] adds up. *)
Fixpoint io_log_asyn (count : nat) (j r : Z) : bool :=
  match count with
  | O => true
  | S n => if 128 - j - 1 <=? r + 3 then false else io_log_asyn n (j + (r + 3)) (r + 3)
  end.

Definition rt_asyn_cache_block_write (reg : Z) (data : list Z) : M W Z :=
  fault_unless (Nat.leb (length data) 64) ;;;
  modr (fun d => d <| rd_work := false |> <| rd_events ::= cons CancelWork |>) ;;;
  let! rio := find_register_index reg in
  if ri_index rio <? 0 then ret (- EINVAL)
  else
    ignore (reg_at (ri_index rio)) ;;;
    let! rms := getr (fun d => drop (Z.to_nat (ri_index rio)) (rm_map d)) in
    let! r := (if bool_decide (data = []) then ret 0
               else asyn_write_loop rms (Z.to_nat (ri_index rio)) (ri_offset rio) data) in
    if r <? 0 then ret (- EIO)
    else
      let! log := getr io_log_en in
      if log && negb (io_log_asyn (length data) 0 r) then ret (- EINVAL)
      else modr (fun d => d <| rd_work := true |>) ;;; ret 0.

(** [rt_cache_block_read]: the registers after the first, from index [idx] on;
    [buf] is [data] with [count] bytes filled. *)
Fixpoint cache_read_loop (rms : list rt_register) (idx : nat) (bytes count : Z) (buf : list Z)
    : M W (Z * list Z) :=
  if bytes <=? count then ret (0, buf)
  else
    match rms with
    | [] => fault_unless false ;;; ret (0, buf)
    | rm :: rms' =>
        let! c := is_cached idx in
        if is_volatile rm || negb c then
          fault_unless (count + rm_size rm <=? 100) ;;;
          let! r := read_chip (rm_addr rm) (rm_size rm) in
          if fst r <? 0 then ret (- EIO, buf)
          else
            let buf := overlay buf (Z.to_nat count) (snd r) in
            when (negb c)
              (cache_put idx 0 (take (Z.to_nat (rm_size rm)) (drop (Z.to_nat count) buf)) ;;;
               set_cached idx) ;;;
            cache_read_loop rms' (S idx) bytes (count + rm_size rm) buf
        else cache_read_loop rms' (S idx) bytes (count + rm_size rm) buf
    end.

Definition total_size (rms : list rt_register) : Z := foldr (fun rm n => rm_size rm + n) 0 rms.

(** Gives the bytes stored at [dest]. *)
Definition rt_cache_block_read (reg bytes : Z) : M W (Z * list Z) :=
  if 100 <? bytes then ret (- EINVAL, [])
  else
    let! rio := find_register_index reg in
    if ri_index rio <? 0 then ret (- EINVAL, [])
    else
      let idx := Z.to_nat (ri_index rio) in
      let off := ri_offset rio in
      let! rm := reg_at (ri_index rio) in
      let! rms := getr (fun d => drop (S idx) (rm_map d)) in
      if rm_size rm - off + total_size rms <? bytes then ret (- EINVAL, [])
      else
        fault_unless (0 <=? bytes) ;;;
        let! data := cache_get idx (Z.to_nat off) (Z.to_nat bytes) in
        let! c := is_cached idx in
        let! r :=
          (if is_volatile rm || negb c then
             fault_unless (rm_size rm <=? 32) ;;;
             let! r := read_chip (rm_addr rm) (rm_size rm) in
             if fst r <? 0 then ret (- EIO, (0, data))
             else
               let tmp := overlay (replicate 32 0) 0 (snd r) in
               let data := overlay data 0
                 (take (100 `min` Z.to_nat (rm_size rm - off)) (drop (Z.to_nat off) tmp)) in
               when (negb c)
                 (cache_put idx 0 (take (Z.to_nat (rm_size rm)) tmp) ;;; set_cached idx) ;;;
               ret (0, (100 `min` Z.max 0 (rm_size rm - off), data))
           else ret (0, (u32 (rm_size rm - off), data))) in
        if fst r <? 0 then ret (fst r, [])
        else
          let! r := cache_read_loop rms (S idx) bytes (fst (snd r)) (snd (snd r)) in
          if fst r <? 0 then ret (fst r, [])
          else ret (0, take (Z.to_nat bytes) (snd r)).

Definition rt_regmap_cache_backup : M W unit :=
  down Semaphore ;;;
  modr (fun d =>
    d <| cache_flag := zip_with (fun rm f => if is_volatile rm then f else 1) (rm_map d) (cache_flag d) |>
      <| pending_event := true |>) ;;;
  up Semaphore.

(** ** Registers *)

(** [regmap_ops]. *)
Definition regmap_block_write (reg : Z) (src : list Z) : M W Z :=
  let! o := getr rd_ops in
  match o with
  | OpsCache => rt_cache_block_write reg src
  | OpsAsyn => rt_asyn_cache_block_write reg src
  | OpsChip => rt_chip_block_write reg src
  end.
Definition regmap_block_read (reg bytes : Z) : M W (Z * list Z) :=
  let! o := getr rd_ops in
  match o with OpsChip => rt_chip_block_read reg bytes | _ => rt_cache_block_read reg bytes end.
End Regmap.

(** The bytes of a number in memory, and back; the processor is little-endian. *)
Fixpoint le_bytes (n : nat) (v : Z) : list Z :=
  match n with O => [] | S k => v mod 256 :: le_bytes k (v / 256) end.
Fixpoint le_value (l : list Z) : Z :=
  match l with [] => 0 | b :: l' => b + 256 * le_value l' end.
Definition be16_to_cpu (v : Z) : Z := le_value (rev (le_bytes 2 v)).
Definition be32_to_cpu (v : Z) : Z := le_value (rev (le_bytes 4 v)).

(** A number in the [n] bytes of memory that a block read into it has stored. *)
Definition stored (l : list Z) : Z := le_value (overlay [0; 0; 0; 0] 0 l).

Section Registers.
  Context {C : Type} `{!RtClient C}.
  Abbreviation W := (rtworld C).

(** The bytes that [_rt_regmap_reg_write] passes on; [None] is a size it does
    not support.  [tmp_data] stays 0 in the big-endian format. *)
Definition write_bytes (fmt : rt_data_format) (size data : Z) : option (list Z) :=
  match size with
  | 1 => Some [u8 data]
  | 2 => Some (le_bytes 2 (match fmt with RT_LITTLE_ENDIAN => be16_to_cpu data | RT_BIG_ENDIAN => 0 end))
  | 3 => Some (le_bytes 3
           (match fmt with RT_LITTLE_ENDIAN => Z.shiftr (be32_to_cpu data) 8 | RT_BIG_ENDIAN => 0 end))
  | 4 => Some (le_bytes 4 (match fmt with RT_LITTLE_ENDIAN => be32_to_cpu data | RT_BIG_ENDIAN => 0 end))
  | _ => None
  end.

(** Both write functions, around the block write [bw]. *)
Definition reg_write_with (bw : Z -> list Z -> M W Z) (reg data : Z) : M W Z :=
  let! rio := find_register_index reg in
  if (ri_index rio <? 0) || negb (ri_offset rio =? 0) then ret (- EINVAL)
  else
    down Semaphore ;;;
    let! rm := reg_at (ri_index rio) in
    let! fmt := getr rt_format in
    let! r :=
      (match write_bytes fmt (rm_size rm) data with
       | Some l => let! r := bw reg l in ret (if r <? 0 then - EIO else 0)
       | None => ret 0
       end) in
    up Semaphore ;;; ret r.

Definition _rt_regmap_reg_write (reg data : Z) : M W Z := reg_write_with regmap_block_write reg data.
Definition rt_regmap_reg_write (reg data : Z) : M W Z := _rt_regmap_reg_write (u32 reg) (u32 data).
Definition _rt_asyn_regmap_reg_write (reg data : Z) : M W Z :=
  reg_write_with rt_asyn_cache_block_write reg data.
Definition rt_asyn_regmap_reg_write (reg data : Z) : M W Z :=
  _rt_asyn_regmap_reg_write (u32 reg) (u32 data).

(** [_rt_regmap_update_bits]: from what the block read stored in [old] to the
    number it stands for, and from [new] to the bytes that are written. *)
Definition upd_decode (fmt : rt_data_format) (size old : Z) : Z :=
  match fmt with
  | RT_BIG_ENDIAN => old
  | RT_LITTLE_ENDIAN =>
      match size with
      | 2 => be16_to_cpu old
      | 3 => Z.shiftr (be32_to_cpu old) 8
      | 4 => be32_to_cpu old
      | _ => old
      end
  end.
Definition upd_encode (fmt : rt_data_format) (size new : Z) : list Z :=
  le_bytes (Z.to_nat size)
    (match fmt with
     | RT_BIG_ENDIAN => new
     | RT_LITTLE_ENDIAN =>
         match size with
         | 2 => be16_to_cpu new
         | 3 => be32_to_cpu (u32 (Z.shiftl new 8))
         | 4 => be32_to_cpu new
         | _ => new
         end
     end).
(** [rt_data.data_u8], [data_u16] or [data_u32]. *)
Definition upd_data (size data : Z) : Z :=
  match size with 1 => u8 data | 2 => u16 data | _ => data end.

Definition _rt_regmap_update_bits (reg mask data : Z) : M W Z :=
  let! rio := find_register_index reg in
  if (ri_index rio <? 0) || negb (ri_offset rio =? 0) then ret (- EINVAL)
  else
    down Semaphore ;;;
    let! rm := reg_at (ri_index rio) in
    let! fmt := getr rt_format in
    let size := rm_size rm in
    let! r :=
      (if (1 <=? size) && (size <=? 4) then
         let! r := regmap_block_read reg size in
         if fst r <? 0 then ret (fst r)
         else
           let old := upd_decode fmt size (stored (snd r)) in
           let new := update_bits old mask (upd_data size data) in
           if negb (wr_once rm) || negb (old =? new)
           then regmap_block_write reg (upd_encode fmt size new)
           else ret (fst r)
       else ret 0) in
    up Semaphore ;;; ret r.

Definition rt_regmap_update_bits (reg mask data : Z) : M W Z :=
  _rt_regmap_update_bits (u32 reg) (u32 mask) (u32 data).

Definition with_sem {A} (m : M W A) : M W A := down Semaphore ;;; let! r := m in up Semaphore ;;; ret r.

Definition rt_regmap_block_write (reg : Z) (src : list Z) : M W Z := with_sem (regmap_block_write reg src).
Definition rt_asyn_regmap_block_write (reg : Z) (src : list Z) : M W Z :=
  with_sem (rt_asyn_cache_block_write reg src).
Definition rt_regmap_block_read (reg bytes : Z) : M W (Z * list Z) := with_sem (regmap_block_read reg bytes).

(** [_rt_regmap_reg_read]: what becomes of [rt_data.data_u32], which is [old]
    before. *)
Definition read_value (fmt : rt_data_format) (size old : Z) (l : list Z) : Z :=
  let tmp := stored l in
  let be32 := match fmt with RT_LITTLE_ENDIAN => be32_to_cpu tmp | RT_BIG_ENDIAN => tmp end in
  match size with
  | 1 => le_value (overlay (le_bytes 4 old) 0 l)
  | 2 => le_value (overlay (le_bytes 4 old) 0 (le_bytes 2
           (match fmt with RT_LITTLE_ENDIAN => be16_to_cpu tmp | RT_BIG_ENDIAN => tmp end)))
  | 3 => Z.shiftr be32 8
  | 4 => be32
  | _ => old
  end.

Definition _rt_regmap_reg_read (reg old : Z) : M W (Z * Z) :=
  let! rio := find_register_index reg in
  if (ri_index rio <? 0) || negb (ri_offset rio =? 0) then ret (- EINVAL, old)
  else
    with_sem
      (let! rm := reg_at (ri_index rio) in
       let! fmt := getr rt_format in
       let size := rm_size rm in
       if (1 <=? size) && (size <=? 4) then
         let! r := regmap_block_read reg size in
         if fst r <? 0 then ret (fst r, old) else ret (0, read_value fmt size old (snd r))
       else ret (0, old)).

Definition rt_regmap_reg_read (reg old : Z) : M W (Z * Z) := _rt_regmap_reg_read (u32 reg) old.
End Registers.

(** ** The life of a device *)

Section Life.
  Context {C : Type} `{!RtClient C}.
  Abbreviation W := (rtworld C).

Definition full_mask (rm : rt_register) : rt_register :=
  let t := Z.land (rm_type rm) RT_REG_TYPE_MASK in
  if (t =? RT_NORMAL) || (t =? RT_RESERVE)
  then rm <| rm_mask := replicate (Z.to_nat (rm_size rm)) 0xff |> else rm.

(** Where the copies of the registers start, when the first is at [count]. *)
Fixpoint layout (rms : list rt_register) (count : nat) : list nat :=
  match rms with
  | [] => []
  | rm :: rms' => count :: layout rms' (count + Z.to_nat (rm_size rm))
  end.

Definition default_group : list rt_access_group := [mk_group 0x00 0xffff RT_1BYTE_MODE].

(** The five allocations can fail; [oom] is the first that does.  [have_group]
    is [props.group != NULL]. *)
Definition rt_regmap_cache_init (oom : option nat) (have_group : bool) : M W Z :=
  down Semaphore ;;;
  let! r :=
    (if bool_decide (oom ∈ [Some 0%nat; Some 1%nat; Some 2%nat]) then ret (- ENOMEM)
     else
       let! num := getr (fun d => length (rm_map d)) in
       modr (fun d => d <| cache_flag := replicate num 0 |> <| cached := replicate num 0 |>
                        <| cache_data := replicate num 0%nat |>) ;;;
       if negb have_group && bool_decide (oom = Some 3%nat) then ret (- ENOMEM)
       else
         when (negb have_group) (modr (fun d => d <| rd_group := default_group |>)) ;;;
         if bool_decide (oom = Some 4%nat) then ret (- ENOMEM)
         else
           modr (fun d =>
             d <| alloc_data := replicate (Z.to_nat (total_size (rm_map d))) 0 |>
               <| cache_data := layout (rm_map d) 0 |>
               <| rm_map ::= map full_mask |>) ;;;
           ret 0) in
  up Semaphore ;;; ret r.

Definition rt_regmap_cache_reload : M W Z :=
  down Semaphore ;;;
  modr (fun d =>
    d <| cached := replicate (length (rm_map d)) 0 |> <| cache_flag := replicate (length (rm_map d)) 0 |>
      <| pending_event := false |>) ;;;
  up Semaphore ;;; ret 0.

(** [~] of an 8-bit mask, kept in 8 bits. *)
Definition set_mode (mask v : Z) (d : rt_regmap_device) : rt_regmap_device :=
  d <| rt_regmap_mode ::= fun m => u8 (Z.lor (Z.land m (Z.lnot mask)) v) |>.

Definition rt_regmap_set_cache_mode (mode : Z) : M W unit :=
  let mode_mask := Z.land mode RT_CACHE_MODE_MASK in
  down WriteModeLock ;;;
  (if mode_mask =? RT_CACHE_WR_THROUGH then
     ignore rt_regmap_cache_reload ;;; modr (fun d => d <| rd_ops := OpsCache |>) ;;;
     modr (set_mode RT_CACHE_MODE_MASK mode_mask)
   else if mode_mask =? RT_CACHE_WR_BACK then
     ignore rt_regmap_cache_reload ;;; modr (fun d => d <| rd_ops := OpsAsyn |>) ;;;
     modr (set_mode RT_CACHE_MODE_MASK mode_mask)
   else if mode_mask =? RT_CACHE_DISABLE then
     modr (fun d => d <| rd_ops := OpsChip |>) ;;;
     modr (set_mode RT_CACHE_MODE_MASK mode_mask)
   else ret tt) ;;;
  up WriteModeLock.

Definition rt_regmap_watchdog_work : M W unit :=
  let! d := getr id in
  when (negb (Z.land (rt_regmap_mode d) RT_CACHE_MODE_MASK =? cache_mode_ori d))
    (rt_regmap_set_cache_mode (cache_mode_ori d)) ;;;
  modr (fun d => d <| rd_watchdog := false |>).

Definition rt_regmap_watchdog_alarm : M W unit :=
  modr (fun d => d <| rd_alarm := false |>) ;;; rt_regmap_watchdog_work.

(** [err_msg] has 128 bytes; a message is appended when there is one already,
    with the size of a page as its bound. *)
Definition report_error (len : nat) : M W unit :=
  let! e := getr error_occurred in
  (if e then modr (fun d => d <| err_len ::= fun n => n + len |>)%nat
   else modr (fun d => d <| err_len := len |> <| error_occurred := true |>)) ;;;
  let! n := getr err_len in
  fault_unless (Nat.ltb n 128).

(** The length of a number under the format [%02x]. *)
Definition hex_len (v : Z) : nat := if v <? 256 then 2 else Z.to_nat (Z.log2 v / 4 + 1).

Definition rt_cache_clrlasterror : M W unit :=
  down Semaphore ;;;
  modr (fun d => d <| error_occurred := false |> <| err_len := 8%nat |>) ;;;
  up Semaphore.

(** ** The files in debugfs

    A command is the file written to, with the number [get_parameters] finds
    in the text of [count] characters, [None] when there is none, which leaves
    0; the file "data" takes bytes.  An empty text is refused; [lbuf] has 128
    bytes, and its end is written at [count].  Allocations succeed. *)

Inductive dbg_cmd : Type :=
  DbgReg (p : option Z) | DbgData (datas : option (list Z)) | DbgSync (p : option Z)
| DbgError (p : option Z) | DbgSize (p : option Z) | DbgBlock (p : option Z) | DbgIoLog (p : option Z)
| DbgCacheMode (p : option Z) | DbgWatchdog (p : option Z) | DbgOther.

(** [long] from what [kstrtoul] stored in it. *)
Definition param (p : option Z) : Z := s64 (default 0 p).

Definition dbg_data_write (count : Z) (datas : option (list Z)) : M W Z :=
  modr (fun d => if dbg_size (dbg_data d) =? 0
                 then d <| dbg_data ::= fun g => g <| dbg_size := 1 |> |> else d) ;;;
  let! g := getr dbg_data in
  let size := dbg_size g in
  if negb ((size - 1) * 3 + 5 =? count) then report_error 26 ;;; ret (- EINVAL)
  else
    match datas with
    | None => report_error 22 ;;; ret (- EINVAL)
    | Some l =>
        let hidden := ri_index (dbg_rio g) =? -1 in
        let! rc := with_sem (if hidden then rt_chip_block_write (dbg_addr g) l
                             else regmap_block_write (dbg_addr g) l) in
        if rc <? 0 then report_error ((if hidden then 34 else 36) + hex_len (dbg_addr g)) ;;; ret (- EIO)
        else ret count
    end.

Definition general_write (count : Z) (c : dbg_cmd) : M W Z :=
  if count <=? 0 then ret (- EFAULT)
  else
  fault_unless (count <? 128) ;;;
  match c with
  | DbgReg p =>
      let! rio := find_register_index (u32 (param p)) in
      down Semaphore ;;;
      modr (fun d => d <| dbg_data ::= fun g =>
        (if ri_index rio <? 0
         then g <| dbg_rio := mk_rio (-1) (ri_offset (dbg_rio g)) |>
         else g <| dbg_rio := rio |>) <| dbg_addr := u32 (param p) |> |>) ;;;
      up Semaphore ;;; ret count
  | DbgData l => dbg_data_write count l
  | DbgSync p => when (z2b (param p)) rt_regmap_cache_sync ;;; ret count
  | DbgError p => when (z2b (param p)) rt_cache_clrlasterror ;;; ret count
  | DbgSize p =>
      if 0 <=? param p then
        down Semaphore ;;;
        modr (fun d => d <| dbg_data ::= fun g => g <| dbg_size := u32 (param p) |> |>) ;;;
        up Semaphore ;;; ret count
      else report_error 21 ;;; ret (- EINVAL)
  | DbgBlock p =>
      let v := Z.shiftl (Z.min 3 (Z.max 0 (param p))) 3 in
      with_sem (modr (set_mode RT_IO_BLK_MODE_MASK v)) ;;;
      when (v =? RT_IO_PASS_THROUGH) rt_regmap_cache_sync ;;; ret count
  | DbgIoLog p => with_sem (modr (fun d => d <| io_log_en := z2b (param p) |>)) ;;; ret count
  | DbgCacheMode p => rt_regmap_set_cache_mode (Z.shiftl (Z.min 2 (Z.max 0 (param p))) 1) ;;; ret count
  | DbgWatchdog p =>
      (if z2b (param p)
       then modr (fun d => d <| rd_watchdog := true |> <| rd_alarm := true |>)
       else
         let! on := getr rd_watchdog in
         when on
           (modr (fun d => d <| rd_watchdog := false |> <| rd_alarm := false |>) ;;;
            let! m := getr cache_mode_ori in rt_regmap_set_cache_mode m)) ;;;
      ret count
  | DbgOther => ret (- EINVAL)
  end.

(** The file of register [id]: the text has the bytes of the register. *)
Definition eachreg_write (id : nat) (count : Z) (datas : option (list Z)) : M W Z :=
  let! rm := reg_at (Z.of_nat id) in
  if negb ((rm_size rm - 1) * 3 + 5 =? count) && negb ((rm_size rm - 1) * 3 + 4 =? count)
  then ret (- EINVAL)
  else
    match datas with
    | None => ret (- EINVAL)
    | Some l =>
        let! rc := with_sem (regmap_block_write (rm_addr rm) l) in
        ret (if rc <? 0 then - EIO else count)
    end.

(** [rt_show_regs]: the bytes of every register. *)
Fixpoint show_loop (rms : list rt_register) : M W (list (list Z)) :=
  match rms with
  | [] => ret []
  | rm :: rms' =>
      let! r := regmap_block_read (rm_addr rm) (rm_size rm) in
      if fst r <? 0 then report_error (28 + hex_len (rm_addr rm)) ;;; ret []
      else let! l := show_loop rms' in ret (snd r :: l)
  end.
Definition rt_show_regs : M W (list (list Z)) := with_sem (let! rms := getr rm_map in show_loop rms).

(** [general_read] of the file "data", and [eachreg_read]; [None] for an invalid
    read. *)
Definition dbg_data_read : M W (option (list Z)) :=
  modr (fun d => if dbg_size (dbg_data d) =? 0
                 then d <| dbg_data ::= fun g => g <| dbg_size := 1 |> |> else d) ;;;
  let! g := getr dbg_data in
  let! r := with_sem (if ri_index (dbg_rio g) =? -1 then rt_chip_block_read (dbg_addr g) (dbg_size g)
                      else regmap_block_read (dbg_addr g) (dbg_size g)) in
  ret (if fst r <? 0 then None else Some (snd r)).
Definition eachreg_read (id : nat) : M W (option (list Z)) :=
  let! rm := reg_at (Z.of_nat id) in
  let! r := with_sem (regmap_block_read (rm_addr rm) (rm_size rm)) in
  ret (if fst r <? 0 then None else Some (snd r)).

(** ** Registration *)

Fixpoint sorted_addrs (rms : list rt_register) : bool :=
  match rms with
  | rm :: ((rm' :: _) as rms') => (rm_addr rm <? rm_addr rm') && sorted_addrs rms'
  | _ => true
  end.

Definition rt_regmap_check (have_name : bool) (d : rt_regmap_device) : Z * rt_regmap_device :=
  if negb have_name then (- EINVAL, d)
  else if z2b (Z.land (rt_regmap_mode d) RT_BYTE_MODE_MASK) &&
          negb (forallb (fun rm => (1 <=? rm_size rm) && (rm_size rm <=? 24)) (rm_map d) &&
                sorted_addrs (rm_map d))
  then (- EINVAL, d)
  else
    let first := default 0 (rm_addr <$> head (rm_map d)) in
    (0, if (dbg_addr (dbg_data d) =? 0) && negb (first =? 0)
        then d <| dbg_data ::= fun g => g <| dbg_addr := first |> <| dbg_rio := mk_rio 0 0 |> |>
        else d).

(** [struct rt_regmap_properties]; [p_group] is empty for the null pointer. *)
Record rt_regmap_properties : Type := mk_props {
  p_name : bool;
  p_rm : list rt_register;
  p_group : list rt_access_group;
  p_format : rt_data_format;
  p_mode : Z
}.

Definition rd_init (p : rt_regmap_properties) : rt_regmap_device :=
  mk_rd (p_rm p) (p_group p) (p_format p) (p_mode p) (Z.land (p_mode p) RT_CACHE_MODE_MASK) false false
    OpsCache [] [] [] [] false false 0 (mk_dbg (mk_rio 0 0) 0 0) false false false [].

Definition ops_of_mode (mode : Z) (o : rt_ops) : rt_ops :=
  let data := Z.land mode RT_CACHE_MODE_MASK in
  if data =? RT_CACHE_WR_THROUGH then OpsCache
  else if data =? RT_CACHE_WR_BACK then OpsAsyn
  else if data =? RT_CACHE_DISABLE then OpsChip
  else o.

(** [rt_regmap_device_register_ex]: [dev_ok] and [den_ok] are the results of
    [device_register] and of creating the directory, [oom] the first failing
    allocation of [rt_regmap_cache_init]. *)
Definition rt_regmap_device_register_ex (p : rt_regmap_properties) (dev_ok den_ok : bool)
    (oom : option nat) (c : C) : option W :=
  let '(r, d) := rt_regmap_check (p_name p) (rd_init p) in
  if negb (r =? 0) then None
  else if negb dev_ok then None
  else
    let '(r, w) := rt_regmap_cache_init oom (negb (bool_decide (p_group p = []))) (mk_rtworld d c) in
    if r <? 0 then None
    else if negb den_ok then None
    else Some (w <| rd ::= fun d => d <| rd_ops ::= ops_of_mode (rt_regmap_mode d) |> |>).
End Life.
