(* ===== verification/RtMem.v ===== *)
(** * Concrete clients for the register map

    A memory of bytes whose accesses work, and the same behind a bus that fails
    the accesses it is told to.  With a small map they show that the assumptions
    of the theorems on [RtRegmap] can hold, and let examples be evaluated. *)

From S2P Require Import Prelude RtRegmap.
#[local] Open Scope Z_scope.

Record steady_mem : Type := mk_steady { st_bytes : gmap Z Z }.

Definition byte_at (g : gmap Z Z) (a : Z) : Z := u8 (default 0 (g !! a)).

Fixpoint put_bytes (g : gmap Z Z) (a : Z) (l : list Z) : gmap Z Z :=
  match l with [] => g | v :: l' => put_bytes (<[a := v]> g) (a + 1) l' end.

#[global] Instance steady_client : RtClient steady_mem := {|
  read_device := fun a n => gets (fun c => (Z.max 0 n, map (byte_at (st_bytes c)) (seqZ a n)));
  write_device := fun a l c => (0, mk_steady (put_bytes (st_bytes c) a l))
|}.

(** [fl_fail] says for the next accesses whether they fail. *)
Record flaky_mem : Type := mk_flaky { fl_bytes : gmap Z Z; fl_fail : list bool }.

#[global] Instance flaky_client : RtClient flaky_mem := {|
  read_device := fun a n c =>
    if default false (head (fl_fail c)) then ((- EIO, []), mk_flaky (fl_bytes c) (tail (fl_fail c)))
    else ((n, map (byte_at (fl_bytes c)) (seqZ a n)), mk_flaky (fl_bytes c) (tail (fl_fail c)));
  write_device := fun a l c =>
    if default false (head (fl_fail c)) then (- EIO, mk_flaky (fl_bytes c) (tail (fl_fail c)))
    else (0, mk_flaky (put_bytes (fl_bytes c) a l) (tail (fl_fail c)))
|}.

(** One register of each kind, of one, two and three bytes. *)
Definition demo_map : list rt_register :=
  [mk_reg 0x10 1 RT_NORMAL_WR_ONCE [0]; mk_reg 0x12 3 RT_NORMAL [0; 0; 0]; mk_reg 0x20 2 RT_VOLATILE [0; 0]].

Definition demo_props (mode : Z) : rt_regmap_properties :=
  mk_props true demo_map [] RT_LITTLE_ENDIAN (Z.lor mode 1).

Definition demo_dev {C} `{!RtClient C} (mode : Z) (c : C) : rtworld C :=
  default (mk_rtworld (rd_init (demo_props mode)) c)
    (rt_regmap_device_register_ex (demo_props mode) true true None c).
