(* ===== verification/RtRegmapSpec.v ===== *)
(** * The register map: what it guarantees

    Which registers an address selects, that every operation keeps the device
    well formed and stays inside its arrays, that on a working bus the copies
    agree with the chip and the device with copies answers as the device
    without them, and the round trip through every register size. *)

From S2P Require Import Prelude RtRegmap RtMem.
#[local] Open Scope Z_scope.

(** ** Well-formed devices *)

Definition nsize (rm : rt_register) : nat := Z.to_nat (rm_size rm).

(** Where the copy of register [i] starts. *)
Definition base (rms : list rt_register) (i : nat) : nat := sum_list_with nsize (take i rms).

Definition reg_ok (rm : rt_register) : Prop :=
  (0 <= rm_addr rm /\ rm_addr rm + rm_size rm <= 0x10000) /\ 1 <= rm_size rm <= 24 /\
  length (rm_mask rm) = nsize rm /\ Forall is_u8 (rm_mask rm).
#[global] Instance reg_ok_dec rm : Decision (reg_ok rm) := _.

(** Every register ends before the next one begins. *)
Fixpoint disjoint_regs (rms : list rt_register) : bool :=
  match rms with
  | rm :: ((rm' :: _) as rms') => (rm_addr rm + rm_size rm <=? rm_addr rm') && disjoint_regs rms'
  | _ => true
  end.

Definition map_ok (rms : list rt_register) : Prop := Forall reg_ok rms /\ disjoint_regs rms = true.

(** The device has the map [rms] and its arrays fit it. *)
Record wf (rms : list rt_register) (d : rt_regmap_device) : Prop := {
  wf_map : rm_map d = rms;
  wf_group : rd_group d = default_group;
  wf_flag : length (cache_flag d) = length rms;
  wf_cached : length (cached d) = length rms;
  wf_data : cache_data d = layout rms 0;
  wf_alloc : length (alloc_data d) = base rms (length rms);
  wf_bytes : Forall is_u8 (alloc_data d)
}.

(** Nothing has been accessed outside its bounds. *)
Definition safe (rms : list rt_register) {C} (w : rtworld C) : Prop :=
  wf rms (rd w) /\ rd_fault (rd w) = false.

(** ** The layout of the copies *)

Lemma layout_lookup rms c i : (i < length rms)%nat -> layout rms c !! i = Some (c + base rms i)%nat.
Proof.
  revert c i. induction rms as [|rm rms IH]; intros c i Hi; cbn in *; [lia|].
  destruct i as [|i]; cbn; [f_equal; unfold base; cbn; lia|].
  rewrite IH by lia. f_equal. unfold base, nsize. cbn. lia.
Qed.

Lemma base_S rms i rm : rms !! i = Some rm -> base rms (S i) = (base rms i + nsize rm)%nat.
Proof.
  intros H. unfold base. erewrite take_S_r by done. rewrite sum_list_with_app. cbn. lia.
Qed.

Lemma base_mono rms i j : (i <= j)%nat -> (base rms i <= base rms j)%nat.
Proof.
  intros H. unfold base. replace j with (i + (j - i))%nat by lia.
  rewrite <- (take_take_drop rms). rewrite sum_list_with_app. lia.
Qed.

Lemma base_le rms i rm : rms !! i = Some rm -> (base rms i + nsize rm <= base rms (length rms))%nat.
Proof.
  intros H. rewrite <- (base_S _ _ _ H). apply base_mono. by apply lookup_lt_Some in H.
Qed.

(** Registers at different indices have disjoint copies. *)
Lemma base_disjoint rms i j ri rj :
  rms !! i = Some ri -> rms !! j = Some rj -> i <> j ->
  (base rms i + nsize ri <= base rms j \/ base rms j + nsize rj <= base rms i)%nat.
Proof.
  intros Hi Hj Hn. rewrite <- (base_S _ _ _ Hi), <- (base_S _ _ _ Hj).
  destruct (Nat.lt_gt_cases i j) as [Hc _]. destruct (Hc Hn); [left|right]; apply base_mono; lia.
Qed.

Lemma total_size_base rms : Forall reg_ok rms -> total_size rms = Z.of_nat (base rms (length rms)).
Proof.
  unfold base. rewrite firstn_all. induction 1 as [|rm rms H _ IH]; [done|].
  cbn. unfold total_size in IH. rewrite IH. destruct H as (_ & H & _). unfold nsize. lia.
Qed.

Lemma length_overlay l pos x : (pos + length x <= length l)%nat -> length (overlay l pos x) = length l.
Proof. intros H. unfold overlay. rewrite !length_app, length_take, length_drop. lia. Qed.

(** ** Finding a register *)

Definition reg_covers (reg : Z) (rm : rt_register) : Prop := rm_addr rm <= reg < rm_addr rm + rm_size rm.
#[global] Instance reg_covers_dec reg rm : Decision (reg_covers reg rm) := _.

(** The index a search gives, for a map in order. *)
Definition find_index (rms : list rt_register) (reg : Z) : Z :=
  match list_find (reg_covers reg) rms with
  | Some (i, _) => Z.of_nat i
  | None =>
      match rms with
      | rm :: _ => if reg <? rm_addr rm then 0 else -1
      | [] => 0
      end
  end.

Lemma group_unit_default reg : 0 <= reg <= 0xffff -> group_unit default_group reg = Some 1.
Proof. intros H. cbn. destruct (Z.leb_spec 0 reg), (Z.leb_spec reg 0xffff); cbn; done || lia. Qed.

Lemma find_loop_below rms reg k rio :
  Forall (fun rm => reg < rm_addr rm) rms -> find_loop rms default_group reg k rio = Some rio.
Proof.
  intros H. revert k. induction H as [|rm rms Hr _ IH]; intros k; [done|]. cbn [find_loop].
  destruct (Z.eqb_spec reg (rm_addr rm)); [lia|]. destruct (Z.ltb_spec (rm_addr rm) reg); [lia|]. apply IH.
Qed.

Lemma disjoint_above rm rms :
  Forall reg_ok (rm :: rms) -> disjoint_regs (rm :: rms) = true ->
  Forall (fun r => rm_addr rm + rm_size rm <= rm_addr r) rms /\ disjoint_regs rms = true.
Proof.
  revert rm. induction rms as [|rm' rms IH]; intros rm Hok Hd; [done|].
  inversion Hok as [|? ? Ho1 Ho2]; subst. cbn [disjoint_regs] in Hd. bool_prop.
  destruct (IH rm') as [H1 _]; [done..|]. split; [|done].
  constructor; [done|]. inversion Ho2 as [|? ? Ho3 _]; subst. destruct Ho3 as (_ & Hs & _).
  eapply Forall_impl; [exact H1|]. cbn. intros r Hr. lia.
Qed.

Lemma list_find_below rms reg :
  Forall (fun rm => reg < rm_addr rm) rms -> list_find (reg_covers reg) rms = None.
Proof.
  intros H. apply list_find_None. eapply Forall_impl; [exact H|]. cbn. unfold reg_covers. lia.
Qed.

Lemma find_loop_exact rms reg k rio :
  map_ok rms ->
  find_loop rms default_group reg k rio =
  Some match list_find (reg_covers reg) rms with
       | Some (i, rm) => mk_rio (k + Z.of_nat i) (reg - rm_addr rm)
       | None => match rms with
                 | rm :: _ => if reg <? rm_addr rm then rio else mk_rio (-1) (-1)
                 | [] => rio
                 end
       end.
Proof.
  intros [Hok Hd]. revert k rio. induction rms as [|rm rms IH]; intros k rio; [done|].
  destruct (disjoint_above _ _ Hok Hd) as [Ha Hd'].
  inversion Hok as [|? ? (Ho1 & Ho2 & _) Hok']; subst. specialize (IH Hok' Hd').
  assert (reg < rm_addr rm + rm_size rm -> Forall (fun r => reg < rm_addr r) rms) as Hb.
  { intros H. eapply Forall_impl; [exact Ha|]. cbn. lia. }
  cbn [find_loop list_find]. destruct (Z.eqb_spec reg (rm_addr rm)) as [->|Hne].
  { rewrite decide_True by (unfold reg_covers; lia). repeat f_equal; lia. }
  destruct (Z.ltb_spec (rm_addr rm) reg); [destruct (Z.ltb_spec (reg - rm_addr rm) (rm_size rm))|].
  - rewrite group_unit_default, find_loop_below by (lia || apply Hb; lia).
    rewrite decide_True by (unfold reg_covers; lia).
    rewrite Z.mul_1_r, s32_id by (unfold is_s32; lia). repeat f_equal; lia.
  - rewrite decide_False by (unfold reg_covers; lia). rewrite IH.
    destruct (list_find (reg_covers reg) rms) as [[i r]|]; cbn; [do 2 f_equal; lia|].
    destruct (Z.ltb_spec reg (rm_addr rm)); [lia|]. destruct rms; [done|]. by case_match.
  - rewrite decide_False by (unfold reg_covers; lia).
    rewrite find_loop_below, list_find_below by (apply Hb; lia). cbn.
    destruct (Z.ltb_spec reg (rm_addr rm)); [done|lia].
Qed.

(** The result of a search in a well-formed device. *)
Definition find_rio (rms : list rt_register) (reg : Z) : reg_index_offset :=
  match list_find (reg_covers reg) rms with
  | Some (i, rm) => mk_rio (Z.of_nat i) (reg - rm_addr rm)
  | None => match rms with
            | rm :: _ => if reg <? rm_addr rm then mk_rio 0 0 else mk_rio (-1) (-1)
            | [] => mk_rio 0 0
            end
  end.

Section Find.
  Context {C : Type} (rms : list rt_register) (Hmap : map_ok rms).

Lemma find_register_map (reg : Z) (w : rtworld C) :
  rm_map (rd w) = rms -> rd_group (rd w) = default_group -> find_register_index reg w = (find_rio rms reg, w).
Proof using Hmap.
  intros H1 H2. unfold find_register_index, getr, bind, gets. cbn. rewrite H1, H2. by rewrite find_loop_exact.
Qed.

Lemma find_register_run (reg : Z) (w : rtworld C) :
  wf rms (rd w) -> find_register_index reg w = (find_rio rms reg, w).
Proof using Hmap. intros []. by apply find_register_map. Qed.
End Find.

Lemma find_covers rms reg i rm :
  map_ok rms -> rms !! i = Some rm -> reg_covers reg rm ->
  list_find (reg_covers reg) rms = Some (i, rm).
Proof.
  intros [Hok Hd] Hi Hc. revert i Hi. induction rms as [|r rms IH]; intros i Hi; [done|].
  destruct (disjoint_above _ _ Hok Hd) as [Ha Hd']. inversion Hok; subst.
  destruct i as [|i]; cbn in Hi; [simplify_eq; cbn; by rewrite decide_True|].
  assert (rm_addr r + rm_size r <= rm_addr rm) by (rewrite Forall_lookup in Ha; by eapply Ha).
  cbn. rewrite decide_False by (unfold reg_covers in *; lia). by rewrite (IH H2 Hd' i Hi).
Qed.

(** The address of a register finds it. *)
Lemma find_rio_reg rms i rm :
  map_ok rms -> rms !! i = Some rm -> find_rio rms (rm_addr rm) = mk_rio (Z.of_nat i) 0.
Proof.
  intros Hm Hi. assert (reg_ok rm) as (_ & Hs & _) by (destruct Hm as [H _]; rewrite Forall_lookup in H; eauto).
  unfold find_rio. erewrite find_covers; [|done..|unfold reg_covers; lia]. f_equal. lia.
Qed.

(** In a map whose registers are in order and do not overlap, a search gives
    the index of the register that contains the address together with the
    distance from its start; an address between registers or behind the last
    one gives -1; an address before the first register is taken for the first
    one.  The search ends and touches nothing. *)
Theorem find_register_index_exact {C} (rms : list rt_register) (reg : Z) (w : rtworld C) :
  map_ok rms -> wf rms (rd w) ->
  exists rio, find_register_index reg w = (rio, w) /\
  (forall i rm, rms !! i = Some rm -> reg_covers reg rm ->
     rio = mk_rio (Z.of_nat i) (reg - rm_addr rm)) /\
  ((forall rm, rm ∈ rms -> ~ reg_covers reg rm) ->
     rio = if existsb (fun rm => rm_addr rm <=? reg) rms then mk_rio (-1) (-1) else mk_rio 0 0).
Proof.
  intros Hm Hw. exists (find_rio rms reg). split; [by apply find_register_run|].
  unfold find_rio. split.
  - intros i rm Hi Hc. by erewrite find_covers.
  - intros Hn. assert (list_find (reg_covers reg) rms = None) as ->.
    { apply list_find_None, Forall_forall. by intros x Hx%list_elem_of_In; apply Hn, list_elem_of_In. }
    destruct rms as [|rm l]; [done|]. cbn [existsb]. destruct (Z.ltb_spec reg (rm_addr rm)) as [H|H].
    + destruct (disjoint_above _ _ (proj1 Hm) (proj2 Hm)) as [Ha _].
      destruct (Z.leb_spec (rm_addr rm) reg); [lia|]. cbn.
      destruct (existsb _ l) eqn:E; [|done]. apply existsb_exists in E as (r & Hr & Hle).
      rewrite Forall_forall in Ha. apply list_elem_of_In, Ha in Hr. apply Z.leb_le in Hle.
      destruct Hm as [Hok _]. inversion Hok as [|? ? (_ & Hs & _) _]; subst. lia.
    + destruct (Z.leb_spec (rm_addr rm) reg); [done|lia].
Qed.

Lemma find_register_index_exact_witness :
  find_register_index 0x13 (demo_dev 0 (mk_steady ∅)) = (mk_rio 1 1, demo_dev 0 (mk_steady ∅)) /\
  find_register_index 0x11 (demo_dev 0 (mk_steady ∅)) = (mk_rio (-1) (-1), demo_dev 0 (mk_steady ∅)).
Proof.
  assert (map_ok (rm_map (rd (demo_dev 0 (mk_steady ∅))))) as Hm
    by (split; [by apply (bool_decide_unpack (Forall reg_ok _)); vm_compute|by vm_compute]).
  assert (wf (rm_map (rd (demo_dev 0 (mk_steady ∅)))) (rd (demo_dev 0 (mk_steady ∅)))) as Hw
    by (constructor; try (by vm_compute); by apply (bool_decide_unpack (Forall is_u8 _)); vm_compute).
  split.
  - destruct (find_register_index_exact _ 0x13 _ Hm Hw) as (rio & -> & H & _). f_equal.
    by apply (H 1%nat (mk_reg 0x12 3 RT_NORMAL [0xff; 0xff; 0xff])); vm_compute.
  - destruct (find_register_index_exact _ 0x11 _ Hm Hw) as (rio & -> & _ & H). f_equal.
    apply H. intros rm Hrm. apply list_elem_of_In in Hrm. vm_compute in Hrm. unfold reg_covers.
    destruct Hrm as [<-|[<-|[<-|[]]]]; cbn; lia.
Defined.

(** ** Well-formedness and memory safety *)

Lemma overlay_u8 l pos x : Forall is_u8 l -> Forall is_u8 x -> Forall is_u8 (overlay l pos x).
Proof. intros H1 H2. unfold overlay. repeat apply Forall_app_2; auto using Forall_take, Forall_drop. Qed.

Lemma map_u8 l : Forall is_u8 (map u8 l).
Proof. induction l; constructor; [apply u8_range|done]. Qed.

Lemma land_u8 v m : is_u8 m -> is_u8 (Z.land v m).
Proof.
  intros H. apply is_u8_testbit; [apply land_nonneg_r, H|].
  intros i Hi. rewrite Z.land_spec, (testbit_u8 m) by done. apply andb_false_r.
Qed.

Lemma zeros_u8 n : Forall is_u8 (replicate n 0).
Proof. by apply Forall_replicate. Qed.

#[export] Hint Resolve overlay_u8 map_u8 land_u8 zeros_u8 Forall_take Forall_drop : kern.

(** A search in a map that is not empty fails or gives a register. *)
Lemma find_rio_cases rms reg :
  map_ok rms -> rms <> [] ->
  ri_index (find_rio rms reg) < 0 \/
  exists i rm, rms !! i = Some rm /\ ri_index (find_rio rms reg) = Z.of_nat i /\
    0 <= ri_offset (find_rio rms reg) < rm_size rm.
Proof.
  intros [Hok _] Hne. unfold find_rio. destruct (list_find (reg_covers reg) rms) as [[i rm]|] eqn:E.
  - right. apply list_find_Some in E as (E1 & E2 & _). exists i, rm. unfold reg_covers in E2.
    cbn. split_and!; [done..|lia|lia].
  - destruct rms as [|rm l]; [done|]. inversion Hok as [|? ? (_ & Hs & _) _]; subst.
    destruct (reg <? rm_addr rm); [|left; cbn; lia]. right. exists 0%nat, rm. cbn. split_and!; lia || done.
Qed.

Lemma length_write_bytes fmt size data l : write_bytes fmt size data = Some l -> Z.of_nat (length l) = size.
Proof. unfold write_bytes. intros H. repeat case_match; simplify_eq; done. Qed.

Lemma length_le_bytes n v : length (le_bytes n v) = n.
Proof. revert v. induction n; intros v; cbn; [done|by rewrite IHn]. Qed.

Lemma nsize_size rm : reg_ok rm -> Z.of_nat (nsize rm) = rm_size rm.
Proof. intros (_ & H & _). unfold nsize. lia. Qed.

Section Safe.
  Context {C : Type} `{!RtClient C} (rms : list rt_register) (Hmap : map_ok rms) (Hne : rms <> []).
  Abbreviation ps := (preserves (W := rtworld C) (safe rms)).

Lemma ps_getr {A B} (f : rt_regmap_device -> A) (k : A -> M (rtworld C) B) :
  (forall d, wf rms d -> ps (k (f d))) -> ps (bind (getr f) k).
Proof. intros H w Hw. rewrite exec_bind. cbn. apply H; [apply Hw|done]. Qed.

Lemma ps_client {A} (m : M C A) : ps (client m).
Proof. intros w Hw. unfold client, exec. by destruct (m (cl w)). Qed.

Lemma ps_modr f : (forall d, wf rms d -> wf rms (f d) /\ rd_fault (f d) = rd_fault d) -> ps (modr f).
Proof. intros H [d c] [H1 H2]. destruct (H d H1) as [H3 H4]. split; cbn in *; [done|congruence]. Qed.

Lemma ps_fault b : b = true -> ps (fault_unless b).
Proof. intros ->. apply preserves_ret. Qed.

Lemma ps_down s : ps (down s).
Proof. apply ps_modr. intros d []. by split; [constructor|]. Qed.
Lemma ps_up s : ps (up s).
Proof. apply ps_modr. intros d []. by split; [constructor|]. Qed.
Lemma ps_set_cached i : ps (set_cached i).
Proof. apply ps_modr. intros d []. split; [|done]. constructor; cbn; try done. by rewrite length_insert. Qed.
Lemma ps_set_flag i v : ps (set_flag i v).
Proof. apply ps_modr. intros d []. split; [|done]. constructor; cbn; try done. by rewrite length_insert. Qed.

Lemma ps_is_cached {A} i (k : bool -> M (rtworld C) A) : (forall b, ps (k b)) -> ps (bind (is_cached i) k).
Proof. intros H. apply ps_getr. intros d _. apply H. Qed.

Lemma ps_find {A} reg (k : reg_index_offset -> M (rtworld C) A) :
  ps (k (find_rio rms reg)) -> ps (bind (find_register_index reg) k).
Proof using Hmap.
  intros H w Hw. rewrite exec_bind. unfold exec at 2, eval. rewrite (find_register_run rms) by (done || apply Hw).
  by apply H.
Qed.

Lemma ps_reg_at {A} idx i rm (k : rt_register -> M (rtworld C) A) :
  idx = Z.of_nat i -> rms !! i = Some rm -> ps (k rm) -> ps (bind (reg_at idx) k).
Proof.
  intros -> Hi H w Hw. rewrite exec_bind. pose proof (proj1 Hw) as Hwf. destruct Hwf.
  assert (reg_at (Z.of_nat i) w = (rm, w)) as E.
  { unfold reg_at, getr, bind, gets. cbn. rewrite wf_map0, Nat2Z.id, Hi.
    apply lookup_lt_Some in Hi as Hl. unfold fault_unless.
    destruct (Z.leb_spec 0 (Z.of_nat i)), (Z.ltb_spec (Z.of_nat i) (Z.of_nat (length rms))); done || lia. }
  unfold exec at 2, eval. rewrite E. by apply H.
Qed.

Lemma cache_at_base d i off : wf rms d -> (i < length rms)%nat -> cache_at d i off = (base rms i + off)%nat.
Proof. intros [] Hi. unfold cache_at. by rewrite wf_data0, layout_lookup. Qed.

(** Reading the copy gives bytes. *)
Lemma ps_cache_get {A} i off n (k : list Z -> M (rtworld C) A) :
  (i < length rms)%nat -> (base rms i + off + n <= base rms (length rms))%nat ->
  (forall l, Forall is_u8 l -> ps (k l)) -> ps (bind (cache_get i off n) k).
Proof.
  intros Hi Hn H w Hw. pose proof (proj1 Hw) as Hwf. pose proof Hwf as Hwf'. destruct Hwf'.
  rewrite exec_bind. unfold cache_get, getr, bind, gets, exec at 2, eval. cbn.
  rewrite (cache_at_base _ _ _ Hwf) by done. rewrite wf_alloc0.
  destruct (Nat.leb_spec (base rms i + off + n) (base rms (length rms))); [|lia]. cbn.
  apply H; [|done]. auto with kern.
Qed.

Lemma ps_cache_put i off l :
  (i < length rms)%nat -> (base rms i + off + length l <= base rms (length rms))%nat ->
  Forall is_u8 l -> ps (cache_put i off l).
Proof.
  intros Hi Hn Hl. unfold cache_put. apply ps_getr. intros d Hd. unfold id.
  rewrite (cache_at_base _ _ _ Hd) by done. apply preserves_bind.
  - apply ps_fault. destruct Hd. rewrite wf_alloc0. apply Nat.leb_le. lia.
  - intros _. apply ps_modr. intros d' Hd'. pose proof Hd' as Hd''. destruct Hd''.
    rewrite (cache_at_base _ _ _ Hd') by done. split; [|done]. constructor; cbn; try done; auto with kern.
    rewrite length_overlay; [done|]. rewrite wf_alloc0. lia.
Qed.

Lemma ps_read_chip {A} a n (k : Z * list Z -> M (rtworld C) A) :
  (forall r, Forall is_u8 (snd r) -> ps (k r)) -> ps (bind (read_chip a n) k).
Proof.
  intros H w Hw. rewrite exec_bind. unfold read_chip. rewrite exec_bind, exec_ret, eval_bind.
  apply H; [apply map_u8|]. by apply ps_client.
Qed.

Lemma ps_chip_write a l : ps (rt_chip_block_write a l).
Proof.
  unfold rt_chip_block_write. apply ps_getr. intros d _. case_match; [apply preserves_ret|apply ps_client].
Qed.

(** The same with what is known of the result. *)
Abbreviation psr Q := (yields (W := rtworld C) (safe rms) Q).

Lemma psr_read_chip {B} (Q : B -> Prop) a n (k : Z * list Z -> M (rtworld C) B) :
  (forall r, Forall is_u8 (snd r) -> psr Q (k r)) -> psr Q (bind (read_chip a n) k).
Proof.
  intros H w Hw. rewrite exec_bind, eval_bind. unfold read_chip. rewrite exec_bind, exec_ret, eval_bind.
  apply H; [apply map_u8|]. by apply ps_client.
Qed.

Lemma map_reg i rm : rms !! i = Some rm -> reg_ok rm /\ (i < length rms)%nat.
Proof using Hmap.
  intros Hi. destruct Hmap as [H _]. rewrite Forall_lookup in H. split; [by eapply H|by eapply lookup_lt_Some].
Qed.

Lemma drop_lookup_cons i rm l : drop i rms = rm :: l -> rms !! i = Some rm /\ drop (S i) rms = l.
Proof.
  intros H. split.
  - assert (drop i rms !! 0%nat = Some rm) as E by (by rewrite H). by rewrite lookup_drop, Nat.add_0_r in E.
  - replace (S i) with (i + 1)%nat by lia. by rewrite <- drop_drop, H.
Qed.

Lemma ps_wbit {A} rm i (k : Z -> M (rtworld C) A) :
  reg_ok rm -> (i < nsize rm)%nat -> (forall m, is_u8 m -> ps (k m)) -> ps (bind (wbit rm i) k).
Proof.
  intros (_ & _ & Hm1 & Hm2) Hi H w Hw. rewrite exec_bind. unfold wbit. rewrite exec_bind, eval_bind.
  unfold fault_unless. destruct (Nat.ltb_spec i (length (rm_mask rm))); [|lia]. cbn.
  apply H; [|done]. destruct (lookup_lt_is_Some_2 (rm_mask rm) i) as [x E]; [lia|]. rewrite E. cbn.
  rewrite Forall_lookup in Hm2. by eapply Hm2.
Qed.

Lemma ps_store rm idx i chunk :
  rms !! idx = Some rm -> (i + length chunk <= nsize rm)%nat -> ps (store_loop rm idx i chunk).
Proof using Hmap.
  intros Hi. destruct (map_reg _ _ Hi) as [Hok Hl]. pose proof (base_le _ _ _ Hi).
  revert i. induction chunk as [|v chunk IH]; intros i Hn; cbn [store_loop length] in *; [apply preserves_ret|].
  apply preserves_bind; [|intros c; apply preserves_bind; [apply IH; lia|intros; apply preserves_ret]].
  destruct (is_volatile rm); [apply preserves_ret|].
  apply ps_wbit; [done|lia|]. intros m Hm. apply ps_cache_get; [done|lia|]. intros old _.
  apply preserves_bind; [|intros; apply preserves_ret].
  apply ps_cache_put; [done|cbn; lia|]. apply Forall_singleton. auto with kern.
Qed.

(** The writers of one register. *)
Lemma ps_block_map blk rm off chunk idx :
  rms !! idx = Some rm -> (Z.to_nat off + length chunk <= nsize rm)%nat ->
  ps (rt_block_map blk rm off chunk idx).
Proof using Hmap.
  intros Hi Hn. destruct (map_reg _ _ Hi) as [_ Hl]. pose proof (base_le _ _ _ Hi).
  pose proof (ps_store _ _ _ _ Hi Hn) as Hst. unfold rt_block_map. repeat case_match.
  - unfold rt_block_write. apply preserves_bind; [apply ps_down|intros _]. apply ps_is_cached. intros c.
    apply preserves_bind; [done|intros n].
    apply preserves_bind; [apply preserves_when, ps_set_cached|intros _].
    apply preserves_bind; [|intros r; apply preserves_bind; [apply ps_up|intros; apply preserves_ret]].
    apply preserves_if; [apply preserves_ret|]. apply ps_cache_get; [done|lia|]. intros. apply ps_chip_write.
  - unfold rt_block_write_blk_all. repeat (apply preserves_bind; [apply ps_down || apply ps_up|intros _]).
    apply preserves_ret.
  - unfold rt_block_write_blk_cache. apply preserves_bind; [apply ps_down|intros _].
    apply preserves_bind; [apply ps_chip_write|intros r].
    apply preserves_bind; [apply ps_up|intros; apply preserves_ret].
  - unfold rt_block_write_blk_chip. apply preserves_bind; [apply ps_down|intros _].
    apply preserves_bind; [by apply preserves_ignore|intros _].
    apply preserves_bind; [apply preserves_when, ps_set_cached|intros _].
    apply preserves_bind; [apply ps_up|intros; apply preserves_ret].
Qed.

Lemma chunk_size_spec rm off bytes :
  reg_ok rm -> 0 <= off < rm_size rm -> 0 <= bytes ->
  chunk_size rm off bytes = Z.min bytes (rm_size rm - off).
Proof.
  intros (_ & Hs & _) Ho Hb. unfold chunk_size. rewrite u32_id by (unfold is_u32; lia).
  destruct (Z.leb_spec bytes (rm_size rm - off)); [lia|]. rewrite s32_id by (unfold is_s32; lia). lia.
Qed.

(** One round of either loop. *)
Lemma ps_write_one rm idx off rest n :
  rms !! idx = Some rm -> 0 <= off < rm_size rm ->
  n = Z.to_nat (chunk_size rm off (Z.of_nat (length rest))) ->
  ps (if is_volatile rm then rt_chip_block_write (u32 (rm_addr rm + off)) (take n rest)
      else let! m := getr blk_mode in rt_block_map (Z.shiftr m 3) rm off (take n rest) idx).
Proof using Hmap.
  intros Hi Ho ->. destruct (map_reg _ _ Hi) as [Hok _]. rewrite chunk_size_spec by (done || lia).
  apply preserves_if; [apply ps_chip_write|]. apply ps_getr. intros d _. apply ps_block_map; [done|].
  rewrite length_take. destruct Hok as (_ & Hs & _). unfold nsize. lia.
Qed.

Lemma ps_cache_write_loop l idx rest :
  l = drop idx rms -> rest <> [] -> (length rest <= sum_list_with nsize l)%nat ->
  ps (cache_write_loop l idx 0 rest).
Proof using Hmap.
  revert idx rest. induction l as [|rm l IH]; intros idx rest Hl Hr Hn; cbn in Hn.
  { destruct rest; [done|]. cbn in *. lia. }
  destruct (drop_lookup_cons _ _ _ (eq_sym Hl)) as [Hi Hd]. destruct (map_reg _ _ Hi) as [Hok _].
  pose proof Hok as (_ & Hs & _). cbn [cache_write_loop].
  apply preserves_bind; [eapply ps_write_one; done || lia|intros r].
  apply preserves_if; [apply preserves_ret|].
  apply preserves_bind; [apply preserves_when, ps_set_flag|intros _].
  case_bool_decide as E; [apply preserves_ret|]. apply IH; [done..|].
  rewrite chunk_size_spec by (done || lia). rewrite length_drop. unfold nsize in *. lia.
Qed.

Lemma ps_asyn_write_loop l idx off rest rm :
  l = drop idx rms -> rms !! idx = Some rm -> 0 <= off < rm_size rm -> rest <> [] ->
  (length rest + Z.to_nat off <= sum_list_with nsize l)%nat ->
  ps (asyn_write_loop l idx off rest).
Proof using Hmap.
  revert idx off rest rm. induction l as [|rm l IH]; intros idx off rest rm' Hl Hi' Ho Hr Hn; cbn in Hn.
  { destruct rest; [done|]. cbn in *. lia. }
  destruct (drop_lookup_cons _ _ _ (eq_sym Hl)) as [Hi Hd]. assert (rm' = rm) as -> by congruence.
  destruct (map_reg _ _ Hi) as [Hok _]. pose proof Hok as (_ & Hs & _). cbn [asyn_write_loop].
  apply preserves_bind; [eapply ps_write_one; done || lia|intros r].
  apply preserves_if; [apply preserves_ret|].
  apply preserves_bind.
  { apply preserves_when, preserves_bind; [apply ps_set_flag|intros _].
    apply ps_modr. intros d []. by split; [constructor|]. }
  intros _. case_bool_decide as E; [apply preserves_ret|].
  assert (length (drop (Z.to_nat (chunk_size rm off (Z.of_nat (length rest)))) rest) <=
    sum_list_with nsize l)%nat as Hn'.
  { rewrite chunk_size_spec by (done || lia). rewrite length_drop. unfold nsize in *. lia. }
  destruct l as [|rm2 l2].
  { destruct (drop _ rest); [done|]. cbn in Hn'. lia. }
  destruct (drop_lookup_cons _ _ _ Hd) as [Hi2 _]. destruct (map_reg _ _ Hi2) as [(_ & Hs2 & _) _].
  eapply (IH (S idx) 0 _ rm2); [done|done|lia|done|cbn in *; lia].
Qed.

(** A block write starts at a register and ends inside the map. *)
Definition fits (reg : Z) (n : nat) : Prop :=
  ri_index (find_rio rms reg) < 0 \/
  (ri_offset (find_rio rms reg) = 0 /\
   (n <= sum_list_with nsize (drop (Z.to_nat (ri_index (find_rio rms reg))) rms))%nat).

Lemma ps_cache_block_write reg data : fits reg (length data) -> ps (rt_cache_block_write reg data).
Proof using Hmap Hne.
  intros Hf. unfold rt_cache_block_write. apply preserves_if; [apply preserves_ret|].
  apply ps_find. destruct (find_rio_cases rms reg Hmap Hne) as [H|(i & rm & Hi & E & Ho)].
  { apply Z.ltb_lt in H. rewrite H. apply preserves_ret. }
  apply preserves_if; [apply preserves_ret|]. destruct Hf as [Hf|[Hf1 Hf2]]; [lia|].
  apply preserves_bind.
  { apply preserves_ignore. intros w Hw. pose proof (ps_reg_at _ i rm ret E Hi (preserves_ret _ _) w Hw) as H.
    by rewrite exec_bind in H. }
  intros _. apply ps_getr. intros d []. rewrite wf_map0. apply preserves_bind.
  - case_bool_decide; [apply preserves_ret|]. rewrite Hf1. apply ps_cache_write_loop; auto.
  - intros r. apply preserves_if; [apply preserves_ret|]. apply ps_getr. intros. apply preserves_ret.
Qed.

Lemma ps_asyn_block_write reg data :
  fits reg (length data) -> (length data <= 64)%nat -> ps (rt_asyn_cache_block_write reg data).
Proof using Hmap Hne.
  intros Hf H64. unfold rt_asyn_cache_block_write.
  apply preserves_bind; [apply ps_fault; by apply Nat.leb_le|intros _].
  apply preserves_bind; [apply ps_modr; intros d []; by split; [constructor|]|intros _].
  apply ps_find. destruct (find_rio_cases rms reg Hmap Hne) as [H|(i & rm & Hi & E & Ho)].
  { apply Z.ltb_lt in H. rewrite H. apply preserves_ret. }
  apply preserves_if; [apply preserves_ret|]. destruct Hf as [Hf|[Hf1 Hf2]]; [lia|].
  apply preserves_bind.
  { apply preserves_ignore. intros w Hw. pose proof (ps_reg_at _ i rm ret E Hi (preserves_ret _ _) w Hw) as H.
    by rewrite exec_bind in H. }
  intros _. apply ps_getr. intros d []. rewrite wf_map0. apply preserves_bind.
  - case_bool_decide; [apply preserves_ret|]. rewrite Hf1.
    eapply (ps_asyn_write_loop _ _ 0 _ rm); [done|by rewrite E, Nat2Z.id|lia|done|lia].
  - intros r. apply preserves_if; [apply preserves_ret|]. apply ps_getr. intros d' _.
    apply preserves_if; [apply preserves_ret|].
    apply preserves_bind; [apply ps_modr; intros d'' []; by split; [constructor|]|intros; apply preserves_ret].
Qed.

(** A block read of this length stays inside [data[100]]. *)
Definition reads (bytes : Z) : Prop := 0 <= bytes /\ Forall (fun rm => bytes + rm_size rm <= 101) rms.

Lemma ps_cache_read_loop l idx bytes count buf :
  l = drop idx rms -> reads bytes -> 0 <= count -> bytes - count <= Z.of_nat (sum_list_with nsize l) ->
  Forall is_u8 buf -> ps (cache_read_loop l idx bytes count buf).
Proof using Hmap.
  intros Hl [_ Hr]. revert idx count buf Hl.
  induction l as [|rm l IH]; intros idx count buf Hl Hc Hn Hb; cbn [cache_read_loop];
    (destruct (Z.leb_spec bytes count); [apply preserves_ret|]); [cbn in Hn; lia|].
  destruct (drop_lookup_cons _ _ _ (eq_sym Hl)) as [Hi Hd]. destruct (map_reg _ _ Hi) as [Hok Hlt].
  pose proof Hok as (_ & Hs & _). rewrite Forall_lookup in Hr. pose proof (Hr _ _ Hi) as Hr'. cbn in Hr', Hn.
  assert (forall buf, Forall is_u8 buf -> ps (cache_read_loop l (S idx) bytes (count + rm_size rm) buf)) as Hk.
  { intros b Hb'. pose proof (nsize_size _ Hok). apply IH; [done|lia|lia|done]. }
  apply ps_is_cached. intros c. apply preserves_if; [|by apply Hk].
  apply preserves_bind; [apply ps_fault; apply Z.leb_le; lia|intros _].
  apply ps_read_chip. intros r Hru. apply preserves_if; [apply preserves_ret|].
  assert (Forall is_u8 (overlay buf (Z.to_nat count) (snd r))) as Hb' by auto with kern.
  apply preserves_bind; [|intros _; by apply Hk].
  apply preserves_when, preserves_bind; [|intros _; apply ps_set_cached].
  pose proof (base_le _ _ _ Hi). apply ps_cache_put; [done| |auto with kern].
  rewrite length_take. unfold nsize in *. lia.
Qed.

Lemma sum_drop i rm :
  rms !! i = Some rm ->
  sum_list_with nsize (drop i rms) = (nsize rm + sum_list_with nsize (drop (S i) rms))%nat /\
  (base rms i + sum_list_with nsize (drop i rms) = base rms (length rms))%nat.
Proof.
  intros Hi. split; [by rewrite (drop_S _ _ _ Hi)|]. unfold base. rewrite firstn_all.
  rewrite <- sum_list_with_app. by rewrite take_drop.
Qed.

Lemma total_size_sum l : Forall reg_ok l -> total_size l = Z.of_nat (sum_list_with nsize l).
Proof. intros H. rewrite total_size_base by done. unfold base. by rewrite firstn_all. Qed.

Lemma ps_cache_block_read reg bytes : reads bytes -> ps (rt_cache_block_read reg bytes).
Proof using Hmap Hne.
  intros Hr. pose proof Hr as [Hb0 _]. unfold rt_cache_block_read. apply preserves_if; [apply preserves_ret|].
  apply ps_find. destruct (find_rio_cases rms reg Hmap Hne) as [H|(i & rm & Hi & E & Ho)].
  { apply Z.ltb_lt in H. rewrite H. apply preserves_ret. }
  destruct (map_reg _ _ Hi) as [Hok Hlt]. pose proof Hok as (_ & Hs & _).
  pose proof (base_le _ _ _ Hi). destruct (sum_drop _ _ Hi) as [Hs1 Hs2].
  apply preserves_if; [apply preserves_ret|]. rewrite E, Nat2Z.id.
  eapply ps_reg_at; [done..|]. apply ps_getr. intros d []. rewrite wf_map0.
  rewrite total_size_sum by (apply Forall_drop, Hmap).
  match goal with |- preserves _ (if ?c then _ else _) => destruct c eqn:Et; bool_prop end;
    [apply preserves_ret|].
  apply preserves_bind; [apply ps_fault; by apply Z.leb_le|intros _].
  apply ps_cache_get; [done|unfold nsize in *; lia|]. intros data Hdata. apply ps_is_cached. intros c.
  eapply (preserves_post _ (fun r => 0 <= fst r -> Forall is_u8 (snd (snd r)) /\ 0 <= fst (snd r) /\
    bytes - fst (snd r) <= Z.of_nat (sum_list_with nsize (drop (S i) rms)))).
  - apply yields_if; intros _;
      [|apply yields_ret; intros _; cbn; rewrite u32_id by (unfold is_u32; lia); split_and!; [done|lia..]].
    apply yields_bind; [apply ps_fault; apply Z.leb_le; lia|intros _].
    apply psr_read_chip. intros r Hru. apply yields_if; intros _; [by apply yields_ret|].
    assert (Forall is_u8 (overlay (replicate 32 0) 0 (snd r))) as Ht by auto with kern.
    apply yields_bind; [|intros _; apply yields_ret; intros _; cbn; split_and!; [|lia..]; auto 10 with kern].
    apply preserves_when, preserves_bind; [|intros _; apply ps_set_cached].
    apply ps_cache_put; [done| |auto with kern]. rewrite length_take. unfold nsize in *. lia.
  - intros r Hr'. destruct (Z.ltb_spec (fst r) 0); [apply preserves_ret|].
    destruct Hr' as (H1 & H2 & H3); [done|].
    apply preserves_bind; [by apply ps_cache_read_loop|intros r'; apply preserves_if; apply preserves_ret].
Qed.

Lemma ps_block_write reg l : fits reg (length l) -> (length l <= 64)%nat -> ps (regmap_block_write reg l).
Proof using Hmap Hne.
  intros H1 H2. apply ps_getr. intros d _.
  case_match; [by apply ps_cache_block_write|by apply ps_asyn_block_write|apply ps_chip_write].
Qed.

Lemma ps_block_read reg bytes : reads bytes -> ps (regmap_block_read reg bytes).
Proof using Hmap Hne.
  intros H. apply ps_getr. intros d _. case_match; try (by apply ps_cache_block_read).
  unfold rt_chip_block_read, read_chip. apply preserves_bind; [apply ps_client|intros; apply preserves_ret].
Qed.

Lemma ps_with_sem {A} (m : M (rtworld C) A) : ps m -> ps (with_sem m).
Proof.
  intros H. apply preserves_bind; [apply ps_down|intros _].
  apply preserves_bind; [done|intros; apply preserves_bind; [apply ps_up|intros; apply preserves_ret]].
Qed.

(** A whole register can be read and written. *)
Lemma fits_reg reg i rm n :
  ri_index (find_rio rms reg) = Z.of_nat i -> ri_offset (find_rio rms reg) = 0 ->
  rms !! i = Some rm -> Z.of_nat n = rm_size rm -> fits reg n.
Proof using Hmap.
  intros E1 E2 Hi En. right. rewrite E1, Nat2Z.id. split; [done|].
  destruct (sum_drop _ _ Hi) as [-> _]. destruct (map_reg _ _ Hi) as [Hok _].
  pose proof (nsize_size _ Hok). lia.
Qed.

Lemma reads_reg n : 0 <= n <= 4 -> reads n.
Proof using Hmap.
  intros Hn. split; [lia|]. eapply Forall_impl; [apply Hmap|]. intros rm (_ & Hs & _). lia.
Qed.

Lemma ps_reg_write bw reg data :
  (forall l, fits reg (length l) -> (length l <= 64)%nat -> ps (bw reg l)) -> ps (reg_write_with bw reg data).
Proof using Hmap Hne.
  intros Hbw. unfold reg_write_with. apply ps_find.
  destruct (find_rio_cases rms reg Hmap Hne) as [H|(i & rm & Hi & E & Ho)].
  { apply Z.ltb_lt in H. rewrite H. apply preserves_ret. }
  destruct (Z.eqb_spec (ri_offset (find_rio rms reg)) 0) as [E0|]; [|rewrite orb_true_r; apply preserves_ret].
  apply preserves_if; [apply preserves_ret|]. apply preserves_bind; [apply ps_down|intros _].
  eapply ps_reg_at; [done..|]. apply ps_getr. intros d _.
  apply preserves_bind; [|intros; apply preserves_bind; [apply ps_up|intros; apply preserves_ret]].
  destruct (write_bytes _ _ _) as [l|] eqn:El; [|apply preserves_ret].
  apply length_write_bytes in El as Hl. destruct (map_reg _ _ Hi) as [(_ & Hs & _) _].
  apply preserves_bind; [|intros; apply preserves_ret].
  apply Hbw; [by eapply fits_reg|]. lia.
Qed.

Lemma ps_update_bits reg mask data : ps (_rt_regmap_update_bits reg mask data).
Proof using Hmap Hne.
  unfold _rt_regmap_update_bits. apply ps_find.
  destruct (find_rio_cases rms reg Hmap Hne) as [H|(i & rm & Hi & E & Ho)].
  { apply Z.ltb_lt in H. rewrite H. apply preserves_ret. }
  destruct (Z.eqb_spec (ri_offset (find_rio rms reg)) 0) as [E0|]; [|rewrite orb_true_r; apply preserves_ret].
  apply preserves_if; [apply preserves_ret|]. apply preserves_bind; [apply ps_down|intros _].
  eapply ps_reg_at; [done..|]. apply ps_getr. intros d _.
  apply preserves_bind; [|intros; apply preserves_bind; [apply ps_up|intros; apply preserves_ret]].
  match goal with |- preserves _ (if ?c then _ else _) => destruct c eqn:Ec; bool_prop end; [|apply preserves_ret].
  apply preserves_bind; [apply ps_block_read, reads_reg; lia|intros r].
  apply preserves_if; [apply preserves_ret|]. apply preserves_if; [|apply preserves_ret].
  unfold upd_encode. apply ps_block_write; rewrite length_le_bytes; [|lia].
  eapply fits_reg; [done..|]. lia.
Qed.

Lemma ps_reg_read reg old : ps (_rt_regmap_reg_read reg old).
Proof using Hmap Hne.
  unfold _rt_regmap_reg_read. apply ps_find.
  destruct (find_rio_cases rms reg Hmap Hne) as [H|(i & rm & Hi & E & Ho)].
  { apply Z.ltb_lt in H. rewrite H. apply preserves_ret. }
  apply preserves_if; [apply preserves_ret|]. apply ps_with_sem. eapply ps_reg_at; [done..|].
  apply ps_getr. intros d _.
  match goal with |- preserves _ (if ?c then _ else _) => destruct c eqn:Ec; bool_prop end; [|apply preserves_ret].
  apply preserves_bind; [apply ps_block_read, reads_reg; lia|intros r].
  apply preserves_if; apply preserves_ret.
Qed.

Lemma ps_sync_loop l i : l = drop i rms -> ps (sync_loop l i).
Proof using Hmap.
  revert i. induction l as [|rm l IH]; intros i Hl; cbn [sync_loop]; [apply preserves_ret|].
  destruct (drop_lookup_cons _ _ _ (eq_sym Hl)) as [Hi Hd]. destruct (map_reg _ _ Hi) as [_ Hlt].
  pose proof (base_le _ _ _ Hi). apply ps_getr. intros d _. apply preserves_if; [|by apply IH].
  apply ps_cache_get; [done|unfold nsize in *; lia|]. intros src _.
  apply preserves_bind; [apply ps_chip_write|intros rc]. apply preserves_if; [apply preserves_ret|].
  apply preserves_bind; [apply ps_set_flag|intros _; by apply IH].
Qed.

Ltac plain_modr := apply ps_modr; intros ? []; split; [constructor; cbn; try done|done].

Lemma ps_sync : ps rt_regmap_cache_sync.
Proof using Hmap.
  apply preserves_bind; [apply ps_down|intros _]. apply ps_getr. intros d _.
  apply preserves_bind; [|intros _; apply ps_up]. apply preserves_when, ps_getr. intros d' [].
  apply preserves_bind; [apply ps_sync_loop; by rewrite wf_map0|].
  intros b. apply preserves_when. plain_modr.
Qed.

Lemma ps_write_back reg : ps (rt_regmap_cache_write_back reg).
Proof using Hmap Hne.
  apply ps_find. destruct (find_rio_cases rms reg Hmap Hne) as [H|(i & rm & Hi & E & Ho)].
  { apply Z.ltb_lt in H. rewrite H. apply preserves_ret. }
  apply preserves_if; [apply preserves_ret|]. apply preserves_bind; [apply ps_down|intros _].
  eapply ps_reg_at; [done..|]. apply preserves_bind; [|intros _; apply ps_up]. apply preserves_when.
  destruct (map_reg _ _ Hi) as [_ Hlt]. pose proof (base_le _ _ _ Hi). rewrite E, Nat2Z.id.
  apply ps_cache_get; [done|unfold nsize in *; lia|]. intros src _.
  apply preserves_bind; [apply ps_chip_write|intros rc].
  apply preserves_if; [apply preserves_ret|apply ps_set_flag].
Qed.

Lemma ps_reload : ps rt_regmap_cache_reload.
Proof.
  apply preserves_bind; [apply ps_down|intros _].
  apply preserves_bind; [|intros _; apply preserves_bind; [apply ps_up|intros; apply preserves_ret]].
  plain_modr; rewrite length_replicate; congruence.
Qed.

Lemma ps_set_mode mode : ps (rt_regmap_set_cache_mode mode).
Proof.
  apply preserves_bind; [apply ps_down|intros _]. apply preserves_bind; [|intros _; apply ps_up].
  repeat match goal with
    | |- preserves _ (if _ then _ else _) => apply preserves_if
    | |- preserves _ (ret _) => apply preserves_ret
    | |- preserves _ (bind _ _) => apply preserves_bind; [|intros _]
    | |- preserves _ (ignore _) => apply preserves_ignore, ps_reload
    | |- preserves _ (modr _) => plain_modr
    end.
Qed.

Lemma ps_backup : ps rt_regmap_cache_backup.
Proof.
  apply preserves_bind; [apply ps_down|intros _]. apply preserves_bind; [|intros _; apply ps_up].
  plain_modr. rewrite length_zip_with, wf_map0. lia.
Qed.
End Safe.

(** ** The operations of the device *)

Inductive rt_op : Type :=
  ORead (reg : Z) | OWrite (reg data : Z) | OUpdate (reg mask data : Z)
| OBlockRead (reg bytes : Z) | OBlockWrite (reg : Z) (src : list Z)
| OAsynWrite (reg data : Z) | OAsynBlockWrite (reg : Z) (src : list Z)
| OSync | OWriteBack (reg : Z) | OBackup | OReload | OWork | OWatchdog
| OCacheMode (mode : Z) | OBlockMode (p : option Z).

Section Ops.
  Context {C : Type} `{!RtClient C}.

Definition op_run (o : rt_op) : M (rtworld C) unit :=
  match o with
  | ORead reg => ignore (rt_regmap_reg_read reg 0)
  | OWrite reg data => ignore (rt_regmap_reg_write reg data)
  | OUpdate reg mask data => ignore (rt_regmap_update_bits reg mask data)
  | OBlockRead reg bytes => ignore (rt_regmap_block_read reg bytes)
  | OBlockWrite reg src => ignore (rt_regmap_block_write reg src)
  | OAsynWrite reg data => ignore (rt_asyn_regmap_reg_write reg data)
  | OAsynBlockWrite reg src => ignore (rt_asyn_regmap_block_write reg src)
  | OSync => rt_regmap_cache_sync
  | OWriteBack reg => rt_regmap_cache_write_back reg
  | OBackup => rt_regmap_cache_backup
  | OReload => ignore rt_regmap_cache_reload
  | OWork => rt_work_func
  | OWatchdog => rt_regmap_watchdog_alarm
  | OCacheMode mode => rt_regmap_set_cache_mode mode
  | OBlockMode p => ignore (general_write 2 (DbgBlock p))
  end.

(** What a caller has to respect: a block is read within [data[100]], written
    from the start of a register, within the map and within [wdata[64]]. *)
Definition op_ok (rms : list rt_register) (o : rt_op) : Prop :=
  match o with
  | OBlockRead _ bytes => reads rms bytes
  | OBlockWrite reg src | OAsynBlockWrite reg src => fits rms reg (length src) /\ (length src <= 64)%nat
  | _ => True
  end.

Lemma safe_op rms o : map_ok rms -> rms <> [] -> op_ok rms o -> preserves (safe rms) (op_run o).
Proof.
  intros Hm Hn Ho. destruct o; cbn in *; try apply preserves_ignore.
  - by apply ps_reg_read.
  - apply ps_reg_write; [done..|]. intros. by apply ps_block_write.
  - by apply ps_update_bits.
  - by apply ps_with_sem, ps_block_read.
  - destruct Ho. by apply ps_with_sem, ps_block_write.
  - apply ps_reg_write; [done..|]. intros. by apply ps_asyn_block_write.
  - destruct Ho. by apply ps_with_sem, ps_asyn_block_write.
  - by apply ps_sync.
  - by apply ps_write_back.
  - apply ps_backup.
  - apply ps_reload.
  - apply preserves_bind; [|intros _; by apply ps_sync]. apply ps_modr. intros d []. by split; [constructor|].
  - apply preserves_bind; [apply ps_modr; intros d []; by split; [constructor|]|intros _].
    apply ps_getr. intros d _. apply preserves_bind; [apply preserves_when, ps_set_mode|intros _].
    apply ps_modr. intros d' []. by split; [constructor|].
  - apply ps_set_mode.
  - apply preserves_bind; [apply preserves_ret|intros _].
    apply preserves_bind; [apply ps_with_sem, ps_modr; intros d []; by split; [constructor|]|intros _].
    apply preserves_bind; [by apply preserves_when, ps_sync|intros; apply preserves_ret].
Qed.

Fixpoint run_ops (l : list rt_op) : M (rtworld C) unit :=
  match l with [] => ret tt | o :: l' => op_run o ;;; run_ops l' end.

Lemma safe_ops rms l w :
  map_ok rms -> rms <> [] -> Forall (op_ok rms) l -> safe rms w -> safe rms (exec (run_ops l) w).
Proof.
  intros Hm Hn Hl. revert w. induction Hl as [|o l Ho _ IH]; intros w Hw; [done|].
  cbn [run_ops]. rewrite exec_bind. apply IH. by apply safe_op.
Qed.
End Ops.

(** ** Registration *)

Lemma full_mask_same rm : rm_addr (full_mask rm) = rm_addr rm /\ rm_size (full_mask rm) = rm_size rm.
Proof. unfold full_mask. by case_match. Qed.

Lemma full_mask_ok rm : reg_ok rm -> reg_ok (full_mask rm).
Proof.
  intros (H1 & H2 & H3 & H4). unfold full_mask. case_match; [|done].
  split_and!; cbn; [lia..|by rewrite length_replicate|by apply Forall_replicate].
Qed.

Lemma map_ok_full rms : map_ok rms -> map_ok (map full_mask rms).
Proof.
  intros [H1 H2]. split; [apply Forall_map; eapply Forall_impl; [done|apply full_mask_ok]|].
  clear H1. induction rms as [|rm [|rm' rms] IH]; [done..|]. cbn [map disjoint_regs] in *. bool_prop.
  apply andb_true_iff. split; [|by apply IH].
  destruct (full_mask_same rm) as [-> ->], (full_mask_same rm') as [-> _]. by apply Z.leb_le.
Qed.

Lemma layout_full rms c : layout (map full_mask rms) c = layout rms c.
Proof.
  revert c. induction rms as [|rm rms IH]; intros c; [done|]. cbn. destruct (full_mask_same rm) as [_ ->].
  by rewrite IH.
Qed.

Lemma base_full rms i : base (map full_mask rms) i = base rms i.
Proof.
  unfold base. rewrite firstn_map. induction (take i rms) as [|rm l IH]; [done|]. cbn. rewrite IH.
  unfold nsize. by destruct (full_mask_same rm) as [_ ->].
Qed.

Lemma register_safe {C} `{!RtClient C} p dev_ok den_ok oom (c : C) w :
  map_ok (p_rm p) -> p_group p = [] ->
  rt_regmap_device_register_ex p dev_ok den_ok oom c = Some w ->
  safe (map full_mask (p_rm p)) w.
Proof.
  intros Hm Hg. unfold rt_regmap_device_register_ex, rt_regmap_check.
  destruct (p_name p); [|done]. cbn [negb].
  match goal with |- context [if ?b then (- EINVAL, _) else _] => destruct b; [done|] end.
  destruct dev_ok; [|done]. cbn [negb Z.eqb].
  match goal with |- context [mk_rtworld ?x c] => set (d := x) end.
  assert (rm_map d = p_rm p /\ rd_group d = p_group p /\ rd_fault d = false) as (E1 & E2 & E3)
    by (subst d; by case_match).
  rewrite Hg. clearbody d. clear Hg.
  unfold rt_regmap_cache_init, bind, down, up, modr, modify, getr, gets, ret, when. cbn.
  case_bool_decide; [done|]. cbn. case_bool_decide; [done|]. cbn. case_bool_decide; [done|]. cbn.
  destruct den_ok; [|done]. cbn. intros [= <-]. split; [|done].
  constructor; cbn; rewrite ?E1, ?length_map, ?length_replicate, ?layout_full; try done.
  - rewrite base_full, total_size_base by apply Hm. by rewrite Nat2Z.id.
  - apply zeros_u8.
Qed.

(** C9: a register map registered with a table whose registers are in order and
    do not overlap stays well formed through every sequence of operations, on
    any bus, in every cache mode and blocking mode and across changes of mode:
    its arrays keep their sizes, its copies their places and their type, and
    nothing is accessed outside [wdata], [data], [tmp_data], the masks, the
    copies or the table, as long as callers keep to the lengths of [op_ok]. *)
Theorem regmap_memory_safe {C} `{!RtClient C} p dev_ok den_ok oom (c : C) w ops :
  map_ok (p_rm p) -> p_rm p <> [] -> p_group p = [] ->
  rt_regmap_device_register_ex p dev_ok den_ok oom c = Some w ->
  Forall (op_ok (map full_mask (p_rm p))) ops ->
  safe (map full_mask (p_rm p)) (exec (run_ops ops) w).
Proof.
  intros Hm Hn Hg Hr Ho. apply safe_ops; [by apply map_ok_full| |done|by eapply register_safe].
  by destruct (p_rm p).
Qed.

Lemma regmap_memory_safe_witness :
  safe (map full_mask demo_map)
    (exec (run_ops [OWrite 0x12 0x123456; OUpdate 0x10 0x0f 0x35; OCacheMode 2; OAsynWrite 0x10 7; OBlockRead 0x10 4;
                    OBlockMode (Some 3); OBlockWrite 0x12 [1; 2; 3; 4; 5]; OWork; ORead 0x20])
       (demo_dev 0 (mk_flaky ∅ [false; true]))).
Proof.
  apply (regmap_memory_safe (demo_props 0) true true None (mk_flaky ∅ [false; true])); try done.
  - split; [by apply (bool_decide_unpack (Forall reg_ok _)); vm_compute|by vm_compute].
  - assert (reads (map full_mask demo_map) 4) as Hr
      by (split; [done|]; by apply (bool_decide_unpack (Forall _ _)); vm_compute).
    assert (fits (map full_mask demo_map) 0x12 5) as Hf by (right; split; [done|by apply Nat.leb_le]).
    repeat constructor; done || exact Hr || exact Hf.
Defined.
