(* ===== verification/RtSema.v ===== *)
(** * The semaphores of the register map

    [semaphore] guards the operations, [write_mode_lock] inside it the write of
    a register.  A thread is the sequence of its calls of [down], [up] and
    [cancel_delayed_work_sync], as the operations of [RtRegmap] record them;
    threads interleave in any order.  Threads that take the semaphores in
    order never block each other for good.  Two operations do not keep to the
    order. *)

From S2P Require Import Prelude RtRegmap RtMem RtRegmapSpec.
#[local] Open Scope Z_scope.

(** ** The order *)

(** Whether a thread holds [semaphore] and [write_mode_lock]. *)
Definition held : Type := bool * bool.
Definition none : held := (false, false).
Definition sem : held := (true, false).

(** What a thread that keeps to the order may do next: it takes [semaphore] only
    with nothing held, [write_mode_lock] only inside it, waits for no work, and
    gives back what it has. *)
Definition advance (e : rt_event) (h : held) : option held :=
  match e with
  | Down Semaphore => if fst h || snd h then None else Some (true, snd h)
  | Down WriteModeLock => if negb (fst h) || snd h then None else Some (fst h, true)
  | Up Semaphore => if fst h then Some (false, snd h) else None
  | Up WriteModeLock => if snd h then Some (fst h, false) else None
  | CancelWork => None
  end.

(** Follow events, the latest first, as [rd_events] has them. *)
Fixpoint lock_state (evs : list rt_event) : option held :=
  match evs with
  | [] => Some none
  | e :: evs' => match lock_state evs' with Some h => advance e h | None => None end
  end.

(** Follow events, the earliest first. *)
Fixpoint follow (evs : list rt_event) (h : held) : option held :=
  match evs with
  | [] => Some h
  | e :: evs' => match advance e h with Some h' => follow evs' h' | None => None end
  end.

Lemma follow_app l1 l2 h : follow (l1 ++ l2) h = match follow l1 h with Some h' => follow l2 h' | None => None end.
Proof. revert h. induction l1 as [|e l1 IH]; intros h; [done|]. cbn. by destruct (advance e h). Qed.

Lemma follow_rev evs : follow (rev evs) none = lock_state evs.
Proof.
  induction evs as [|e evs IH]; [done|]. cbn [rev lock_state]. rewrite follow_app, IH.
  destruct (lock_state evs); [|done]. cbn. by destruct (advance e h).
Qed.

(** ** Operations that keep to the order *)

Section Ordered.
  Context {C : Type} `{!RtClient C}.
  Abbreviation W := (rtworld C).

Definition at_held (h : held) (w : W) : Prop :=
  lock_state (rd_events (rd w)) = Some h /\ rd_ops (rd w) <> OpsAsyn.

Definition moves {A} (h h' : held) (m : M W A) : Prop := forall w, at_held h w -> at_held h' (exec m w).

Lemma moves_bind {A B} h1 h2 h3 (m : M W A) (k : A -> M W B) :
  moves h1 h2 m -> (forall a, moves h2 h3 (k a)) -> moves h1 h3 (bind m k).
Proof. intros Hm Hk w Hw. rewrite exec_bind. by apply Hk, Hm. Qed.

Lemma moves_getr {A B} h1 h2 (f : rt_regmap_device -> A) (k : A -> M W B) :
  (forall d, rd_ops d <> OpsAsyn -> moves h1 h2 (k (f d))) -> moves h1 h2 (bind (getr f) k).
Proof. intros H w Hw. rewrite exec_bind. apply H; [apply Hw|done]. Qed.

Lemma moves_ret {A} h (a : A) : moves h h (ret a).
Proof. by intros w. Qed.
Lemma moves_down s h h' : advance (Down s) h = Some h' -> moves h h' (down s).
Proof. intros H w [H1 H2]. split; [|done]. cbn -[advance]. by rewrite H1. Qed.
Lemma moves_up s h h' : advance (Up s) h = Some h' -> moves h h' (up s).
Proof. intros H w [H1 H2]. split; [|done]. cbn -[advance]. by rewrite H1. Qed.

Lemma moves_when h b (m : M W unit) : moves h h m -> moves h h (when b m).
Proof. destruct b; [done|intros _; apply moves_ret]. Qed.

(** Code that uses no semaphore. *)
Definition quiet (d : rt_regmap_device) := (rd_events d, rd_ops d).
Lemma moves_quiet {A} h (m : M W A) : keeps (fun w => quiet (rd w)) m -> moves h h m.
Proof. intros H w [H1 H2]. specialize (H w). unfold quiet in H. injection H as E1 E2. split; congruence. Qed.

Lemma quiet_client {A} (m : M C A) : keeps (fun w : W => quiet (rd w)) (client m).
Proof. intros w. unfold client, exec. by destruct (m (cl w)). Qed.
Lemma quiet_modr f : (forall d, quiet (f d) = quiet d) -> keeps (fun w : W => quiet (rd w)) (modr f).
Proof. intros H w. apply H. Qed.

(** Follow the structure of the code. *)
Ltac solve_quiet :=
  repeat match goal with
    | |- forall _, _ => intro
    | |- keeps _ (let x := _ in _) => cbv zeta
    | |- keeps _ (bind _ _) => apply keeps_bind
    | |- keeps _ (ret _) => apply keeps_ret
    | |- keeps _ (getr _) => apply keeps_gets
    | |- keeps _ (is_cached _) => apply keeps_gets
    | |- keeps _ (client _) => apply quiet_client
    | |- keeps _ (modr _) => by apply quiet_modr
    | |- keeps _ (set_cached _) => by apply quiet_modr
    | |- keeps _ (set_flag _ _) => by apply quiet_modr
    | |- keeps _ (fault_unless _) => apply keeps_when
    | |- keeps _ (ignore _) => apply keeps_ignore
    | |- keeps _ (when _ _) => apply keeps_when
    | |- keeps _ (if ?b then _ else _) => destruct b
    | |- keeps _ (match ?x with _ => _ end) => destruct x
    | |- keeps _ _ => solve [auto with kern nocore]
    end.

Ltac solve_moves :=
  repeat match goal with
    | |- forall _, _ => intro
    | |- moves _ _ (let x := _ in _) => cbv zeta
    | |- moves _ _ (bind (getr _) _) => apply moves_getr
    | |- moves _ _ (bind (down _) _) => eapply moves_bind; [apply moves_down; reflexivity|]
    | |- moves _ _ (bind (up _) _) => eapply moves_bind; [apply moves_up; reflexivity|]
    | |- moves _ _ (up _) => apply moves_up; reflexivity
    | |- moves ?h ?h (ret _) => apply moves_ret
    | |- moves _ _ (if ?b then _ else _) => destruct b
    | |- moves _ _ (match ?x with _ => _ end) => destruct x; try done
    | |- moves _ _ (with_sem _) => unfold with_sem
    | |- moves _ _ (bind _ _) => eapply moves_bind
    | |- moves _ _ _ => solve [apply moves_quiet; solve_quiet]
    | |- moves _ _ (when _ _) => apply moves_when
    | |- moves _ _ _ => solve [auto with kern nocore]
    end.

Lemma quiet_find a : keeps (fun w : W => quiet (rd w)) (find_register_index a).
Proof. unfold find_register_index. solve_quiet. Qed.
Lemma quiet_reg_at i : keeps (fun w : W => quiet (rd w)) (reg_at i).
Proof. unfold reg_at. solve_quiet. Qed.
Lemma quiet_cache_get i o n : keeps (fun w : W => quiet (rd w)) (cache_get i o n).
Proof. unfold cache_get. solve_quiet. Qed.
Lemma quiet_cache_put i o l : keeps (fun w : W => quiet (rd w)) (cache_put i o l).
Proof. unfold cache_put. solve_quiet. Qed.
Lemma quiet_read_chip a n : keeps (fun w : W => quiet (rd w)) (read_chip a n).
Proof. unfold read_chip. solve_quiet. Qed.
Lemma quiet_chip_write a l : keeps (fun w : W => quiet (rd w)) (rt_chip_block_write a l).
Proof. unfold rt_chip_block_write. solve_quiet. Qed.
#[local] Hint Resolve quiet_find quiet_reg_at quiet_cache_get quiet_cache_put quiet_read_chip quiet_chip_write : kern.

Lemma quiet_store rm idx i l : keeps (fun w : W => quiet (rd w)) (store_loop rm idx i l).
Proof. revert i. induction l; intros i; simpl; unfold wbit; solve_quiet; auto. Qed.
Lemma quiet_sync_loop l i : keeps (fun w : W => quiet (rd w)) (sync_loop l i).
Proof. revert i. induction l; intros i; cbn [sync_loop]; solve_quiet; auto. Qed.
Lemma quiet_read_loop l idx n c buf : keeps (fun w : W => quiet (rd w)) (cache_read_loop l idx n c buf).
Proof. revert idx c buf. induction l; intros idx c buf; cbn [cache_read_loop]; solve_quiet; auto. Qed.
#[local] Hint Resolve quiet_store quiet_sync_loop quiet_read_loop : kern.

Lemma quiet_block_read a n : keeps (fun w : W => quiet (rd w)) (regmap_block_read a n).
Proof. unfold regmap_block_read, rt_cache_block_read, rt_chip_block_read. solve_quiet. Qed.
#[local] Hint Resolve quiet_block_read : kern.

(** Writing a register takes [write_mode_lock] inside [semaphore]. *)
Lemma moves_block_map blk rm off l idx : moves sem sem (rt_block_map blk rm off l idx : M W Z).
Proof.
  unfold rt_block_map, rt_block_write, rt_block_write_blk_all, rt_block_write_blk_cache, rt_block_write_blk_chip.
  repeat case_match; solve_moves.
Qed.
#[local] Hint Resolve moves_block_map : kern.

Lemma moves_write_loop l idx off data : moves sem sem (cache_write_loop l idx off data : M W Z).
Proof.
  revert idx data. induction l as [|rm l IH]; intros idx data; cbn [cache_write_loop]; solve_moves; auto.
Qed.
#[local] Hint Resolve moves_write_loop : kern.

Lemma moves_block_write a l : moves sem sem (regmap_block_write a l : M W Z).
Proof. apply moves_getr. intros d Hd. destruct (rd_ops d); [|done|]; [unfold rt_cache_block_write|]; solve_moves. Qed.
#[local] Hint Resolve moves_block_write : kern.

Lemma moves_sync : moves none none (rt_regmap_cache_sync : M W unit).
Proof. unfold rt_regmap_cache_sync. solve_moves. Qed.
Lemma moves_reload : moves none none (rt_regmap_cache_reload : M W Z).
Proof. unfold rt_regmap_cache_reload. solve_moves. Qed.
#[local] Hint Resolve moves_sync moves_reload : kern.

(** Every operation but a change of the cache mode and the writes that leave the
    chip to the delayed work. *)
Definition in_order (o : rt_op) : bool :=
  match o with
  | OCacheMode _ | OWatchdog | OAsynWrite _ _ | OAsynBlockWrite _ _ => false
  | _ => true
  end.

Lemma moves_ignore {A} h h' (m : M W A) : moves h h' m -> moves h h' (ignore m).
Proof. intros H w Hw. by apply H. Qed.

Lemma op_in_order o : in_order o = true -> moves none none (op_run o : M W unit).
Proof.
  intros Ho. destruct o; try done; cbn [op_run]; try apply moves_ignore.
  - unfold rt_regmap_reg_read, _rt_regmap_reg_read. solve_moves.
  - unfold rt_regmap_reg_write, _rt_regmap_reg_write, reg_write_with. solve_moves.
  - unfold rt_regmap_update_bits, _rt_regmap_update_bits. solve_moves.
  - unfold rt_regmap_block_read. solve_moves.
  - unfold rt_regmap_block_write. solve_moves.
  - apply moves_sync.
  - unfold rt_regmap_cache_write_back. solve_moves.
  - unfold rt_regmap_cache_backup. solve_moves.
  - apply moves_reload.
  - unfold rt_work_func. solve_moves.
  - unfold general_write. solve_moves.
Qed.

Lemma ops_in_order l : forallb in_order l = true -> moves none none (run_ops l : M W unit).
Proof.
  induction l as [|o l IH]; intros H; [apply moves_ret|]. cbn in H. bool_prop. cbn [run_ops].
  eapply moves_bind; [by apply op_in_order|intros _; by apply IH].
Qed.

(** The events of a thread that runs the operations [l]. *)
Definition trace (l : list rt_op) (w : W) : list rt_event :=
  rev (rd_events (rd (exec (run_ops l) (w <| rd ::= fun d => d <| rd_events := [] |> |>)))).

Lemma trace_in_order l w :
  forallb in_order l = true -> rd_ops (rd w) <> OpsAsyn -> follow (trace l w) none = Some none.
Proof. intros Hl Hw. unfold trace. rewrite follow_rev. by apply (ops_in_order l Hl). Qed.
(** *** How the traces of some operations begin

    Code adds to the events. *)
Definition grows {A} (m : M W A) : Prop := forall w, exists l, rd_events (rd (exec m w)) = l ++ rd_events (rd w).

Lemma grows_bind {A B} (m : M W A) (k : A -> M W B) : grows m -> (forall a, grows (k a)) -> grows (bind m k).
Proof.
  intros Hm Hk w. rewrite exec_bind. destruct (Hk (eval m w) (exec m w)) as [l2 ->], (Hm w) as [l1 ->].
  exists (l2 ++ l1). by rewrite app_assoc.
Qed.
Lemma grows_quiet {A} (m : M W A) : keeps (fun w => quiet (rd w)) m -> grows m.
Proof. intros H w. exists []. specialize (H w). unfold quiet in H. by injection H as -> _. Qed.
Lemma grows_event e : grows (modr (fun d => d <| rd_events ::= cons e |>) : M W unit).
Proof. intros w. by exists [e]. Qed.
Lemma grows_ret {A} (a : A) : grows (ret a : M W A).
Proof. by apply grows_quiet, keeps_ret. Qed.
Lemma grows_when b (m : M W unit) : grows m -> grows (when b m).
Proof. destruct b; [done|intros _; apply grows_ret]. Qed.

Ltac solve_grows :=
  repeat match goal with
    | |- forall _, _ => intro
    | |- grows (let x := _ in _) => cbv zeta
    | |- grows (down _) => apply grows_event
    | |- grows (up _) => apply grows_event
    | |- grows (ret _) => apply grows_ret
    | |- grows (bind _ _) => apply grows_bind
    | |- grows (when _ _) => apply grows_when
    | |- grows (if ?b then _ else _) => destruct b
    | |- grows (match ?x with _ => _ end) => destruct x
    | |- grows _ => solve [apply grows_quiet; solve_quiet]
    | |- grows _ => solve [auto with kern nocore]
    end.

Lemma grows_block_map blk rm off l idx : grows (rt_block_map blk rm off l idx : M W Z).
Proof.
  unfold rt_block_map, rt_block_write, rt_block_write_blk_all, rt_block_write_blk_cache, rt_block_write_blk_chip.
  repeat case_match; solve_grows.
Qed.
#[local] Hint Resolve grows_block_map : kern.
Lemma grows_write_loop l idx off data : grows (cache_write_loop l idx off data : M W Z).
Proof. revert idx data. induction l as [|rm l IH]; intros idx data; cbn [cache_write_loop]; solve_grows; auto. Qed.
Lemma grows_asyn_loop l idx off data : grows (asyn_write_loop l idx off data : M W Z).
Proof. revert idx off data. induction l as [|rm l IH]; intros idx off data; cbn [asyn_write_loop]; solve_grows; auto. Qed.

#[local] Hint Resolve grows_write_loop grows_asyn_loop : kern.

Abbreviation cleared w := (w <| rd ::= fun d => d <| rd_events := [] |> |>).

(** The events so far began with [evs], the latest first. *)
Definition begun (evs : list rt_event) (w : W) : Prop := exists l, rd_events (rd w) = l ++ evs.

Lemma trace_one o (w : W) evs :
  wp (op_run o) (fun _ => begun (rev evs)) (cleared w) -> exists t, trace [o] w = evs ++ t.
Proof.
  intros [l H]. exists (rev l). unfold trace. cbn [run_ops]. rewrite exec_bind, exec_ret, H, rev_app_distr, rev_involutive. done.
Qed.

Lemma wp_grows {A} (m : M W A) evs (w : W) : grows m -> begun evs w -> wp m (fun _ => begun evs) w.
Proof. intros Hg [l1 H1]. destruct (Hg w) as [l2 H2]. exists (l2 ++ l1). rewrite H2, H1. by rewrite app_assoc. Qed.

Lemma reg_at_trace rms i rm (w : W) : rm_map (rd w) = rms -> rms !! i = Some rm -> reg_at (Z.of_nat i) w = (rm, w).
Proof.
  intros H1 Hi. unfold reg_at, getr, bind, gets. cbn. rewrite H1, Nat2Z.id, Hi. pose proof (lookup_lt_Some _ _ _ Hi).
  destruct (Z.leb_spec 0 (Z.of_nat i)), (Z.ltb_spec (Z.of_nat i) (Z.of_nat (length rms))); try lia. done.
Qed.

(** A change of the cache mode that drops the copies. *)
Definition reloads (mode : Z) : bool :=
  let m := Z.land mode RT_CACHE_MODE_MASK in (m =? RT_CACHE_WR_THROUGH) || (m =? RT_CACHE_WR_BACK).

Lemma mode_trace mode (w : W) : reloads mode = true ->
  trace [OCacheMode mode] w = [Down WriteModeLock; Down Semaphore; Up Semaphore; Up WriteModeLock].
Proof.
  unfold reloads. intros H. unfold trace. cbn [run_ops op_run]. unfold rt_regmap_set_cache_mode. cbv zeta.
  destruct (_ =? RT_CACHE_WR_THROUGH); [reflexivity|]. cbn [orb] in H. rewrite H. reflexivity.
Qed.

(** The write of a register that has a copy. *)
Lemma write_trace rms i rm data (w : W) :
  map_ok rms -> rm_map (rd w) = rms -> rd_group (rd w) = default_group -> rd_ops (rd w) = OpsCache ->
  rms !! i = Some rm -> is_volatile rm = false -> 1 <= rm_size rm <= 4 ->
  exists t, trace [OWrite (rm_addr rm) data] w = [Down Semaphore; Down WriteModeLock] ++ t.
Proof.
  intros Hm H1 H2 Ho Hi Hv Hs. apply trace_one. cbn [op_run]. apply wp_ignore.
  assert (reg_ok rm) as ((Ha1 & Ha2) & _) by (destruct Hm as [H _]; rewrite Forall_lookup in H; eauto).
  unfold rt_regmap_reg_write, _rt_regmap_reg_write, reg_write_with. rewrite (u32_id (rm_addr rm)) by (unfold is_u32; lia).
  apply wp_bind. eapply wp_eq; [by apply (find_register_map rms Hm)|]. rewrite (find_rio_reg rms i rm Hm Hi). cbn [ri_index ri_offset].
  destruct (Z.ltb_spec (Z.of_nat i) 0); [lia|]. cbn [orb negb Z.eqb]. apply wp_bind, wp_modify. set (w1 := _ <| rd ::= _ |>).
  apply wp_bind. eapply wp_eq; [by apply (reg_at_trace rms i rm)|]. apply wp_bind, wp_gets, wp_bind.
  destruct (write_bytes (rt_format (rd w1)) (rm_size rm) (u32 data)) as [l|] eqn:El;
    [|exfalso; revert El; unfold write_bytes; assert (rm_size rm = 1 \/ rm_size rm = 2 \/ rm_size rm = 3 \/ rm_size rm = 4) as Hc by lia;
      by destruct Hc as [-> |[-> |[-> | ->]]]].
  apply (wp_mono _ (fun _ => begun [Down WriteModeLock; Down Semaphore])); [|intros r w2 Hw; apply wp_grows; [solve_grows|done]].
  apply wp_bind. apply (wp_mono _ (fun _ => begun [Down WriteModeLock; Down Semaphore])); [|intros r w2 Hw; by apply wp_ret].
  apply length_write_bytes in El. apply wp_bind, wp_gets. change (rd_ops (rd w1)) with (rd_ops (rd w)). rewrite Ho.
  unfold rt_cache_block_write. destruct (Z.ltb_spec 64 (Z.of_nat (length l))); [lia|].
  apply wp_bind. eapply wp_eq; [by apply (find_register_map rms Hm)|]. rewrite (find_rio_reg rms i rm Hm Hi). cbn [ri_index ri_offset].
  destruct (Z.ltb_spec (Z.of_nat i) 0); [lia|]. apply wp_bind, wp_ignore. eapply wp_eq; [by apply (reg_at_trace rms i rm)|].
  apply wp_bind, wp_gets. change (rm_map (rd w1)) with (rm_map (rd w)). rewrite H1, Nat2Z.id, (drop_S rms rm i Hi). apply wp_bind.
  apply (wp_mono _ (fun _ => begun [Down WriteModeLock; Down Semaphore])); [|intros r w2 Hw; apply wp_grows; [solve_grows|done]].
  rewrite bool_decide_false by (intros ->; cbn in El; lia). cbn [cache_write_loop]. cbv zeta. rewrite Hv. apply wp_bind, wp_bind, wp_gets.
  match goal with |- wp (rt_block_map ?b ?r ?o ?c ?k) _ _ =>
    apply (wp_mono _ (fun _ => begun [Down WriteModeLock; Down Semaphore])) end; [|intros r w2 Hw; apply wp_grows; [solve_grows|done]].
  unfold rt_block_map, rt_block_write, rt_block_write_blk_all, rt_block_write_blk_cache, rt_block_write_blk_chip.
  repeat case_match; apply wp_bind, wp_modify; (apply wp_grows; [solve_grows|by exists []]).
Qed.

(** A write that waits for the delayed work to end. *)
Definition waits_for_work (o : rt_op) (w : W) : bool :=
  match o with
  | OAsynBlockWrite _ _ => true
  | OBlockWrite _ _ => match rd_ops (rd w) with OpsAsyn => true | _ => false end
  | _ => false
  end.

Lemma asyn_begun reg src (w : W) : rd_events (rd w) = [Down Semaphore] ->
  wp (rt_asyn_cache_block_write reg src) (fun _ => begun [CancelWork; Down Semaphore]) w.
Proof.
  intros He. unfold rt_asyn_cache_block_write. apply wp_bind.
  apply (wp_mono _ (fun _ w' => rd_events (rd w') = [Down Semaphore])); [unfold fault_unless; apply wp_when; by intros _|].
  intros [] w1 H1. apply wp_bind, wp_modify, wp_grows; [solve_grows|]. exists []. cbn. by rewrite H1.
Qed.

Lemma waiting_trace o (w : W) : waits_for_work o w = true -> exists t, trace [o] w = [Down Semaphore; CancelWork] ++ t.
Proof.
  intros Hw. apply trace_one. destruct o as [| | | |reg src| |reg src| | | | | | | |]; try done; cbn [op_run]; apply wp_ignore;
    unfold rt_regmap_block_write, rt_asyn_regmap_block_write, with_sem; apply wp_bind, wp_modify, wp_bind.
  - unfold regmap_block_write. apply wp_bind, wp_gets. cbn in Hw |- *. destruct (rd_ops (rd w)); try done.
    eapply wp_mono; [by apply asyn_begun|]. intros r w1 H1. apply wp_grows; [solve_grows|done].
  - eapply wp_mono; [by apply asyn_begun|]. intros r w1 H1. apply wp_grows; [solve_grows|done].
Qed.

Lemma work_trace (w : W) : exists t, trace [OWork] w = [Down Semaphore] ++ t.
Proof.
  apply trace_one. cbn [op_run]. unfold rt_work_func, rt_regmap_cache_sync. apply wp_bind, wp_modify, wp_bind, wp_modify.
  apply wp_grows; [solve_grows|]. by exists [].
Qed.
End Ordered.

(** ** Threads *)

#[global] Instance rt_event_eq_dec : EqDecision rt_event.
Proof. solve_decision. Defined.

(** Who holds the semaphores, and what the threads still have to do.  The first
    thread is the delayed work. *)
Record sys : Type := mk_sys { own_s : option nat; own_w : option nat; todo : list (list rt_event) }.
#[global] Instance sys_struct : Struct sys := fun r => mk_sys (own_s r) (own_w r) (todo r).

Definition owner (s : rt_sem) (y : sys) : option nat := match s with Semaphore => own_s y | WriteModeLock => own_w y end.
Definition set_owner (s : rt_sem) (o : option nat) (y : sys) : sys :=
  match s with Semaphore => y <| own_s := o |> | WriteModeLock => y <| own_w := o |> end.

(** Thread [i] goes on; [None] when it has ended or has to wait. *)
Definition step (i : nat) (y : sys) : option sys :=
  match todo y !! i with
  | Some (e :: evs) =>
      let y' := y <| todo ::= <[i := evs]> |> in
      match e with
      | Down s => if bool_decide (owner s y = None) then Some (set_owner s (Some i) y') else None
      | Up s => Some (set_owner s None y')
      | CancelWork => if bool_decide (todo y !! 0%nat = Some []) then Some y' else None
      end
  | _ => None
  end.

(** [n] steps, of any threads. *)
Inductive runs : nat -> sys -> sys -> Prop :=
| runs_none y : runs 0 y y
| runs_step n i y y1 y2 : step i y = Some y1 -> runs n y1 y2 -> runs (S n) y y2.

Definition start (ts : list (list rt_event)) : sys := mk_sys None None ts.
Definition finished (y : sys) : bool := bool_decide (Forall (fun t => t = []) (todo y)).
Definition stuck (y : sys) : bool :=
  negb (finished y) && forallb (fun i => bool_decide (step i y = None)) (seq 0 (length (todo y))).

(** What thread [i] holds. *)
Definition holds (i : nat) (y : sys) : held := (bool_decide (own_s y = Some i), bool_decide (own_w y = Some i)).

(** Every thread ends with nothing held if it goes on. *)
Definition orderly (y : sys) : Prop :=
  (forall i t, todo y !! i = Some t -> follow t (holds i y) = Some none) /\
  (forall i, own_s y = Some i \/ own_w y = Some i -> (i < length (todo y))%nat).

Definition work_left (y : sys) : nat := sum_list_with length (todo y).

Lemma start_orderly ts : Forall (fun t => follow t none = Some none) ts -> orderly (start ts).
Proof.
  intros H. split; cbn; [|by intros i [|]]. intros i t Hi. rewrite Forall_lookup in H. by apply (H i).
Qed.

Lemma sum_insert {A} (f : A -> nat) l i x y :
  l !! i = Some x -> (sum_list_with f (<[i := y]> l) + f x = sum_list_with f l + f y)%nat.
Proof.
  revert i. induction l as [|a l IH]; intros [|i] H; cbn in *; try done.
  - injection H as ->. change (f y + sum_list_with f l + f x = f x + sum_list_with f l + f y)%nat. lia.
  - specialize (IH i H). change (f a + sum_list_with f (<[i := y]> l) + f x = f a + sum_list_with f l + f y)%nat. lia.
Qed.

Lemma step_work i y y' : step i y = Some y' -> work_left y = S (work_left y').
Proof.
  unfold step, work_left. destruct (todo y !! i) as [[|e evs]|] eqn:E; try done. intros H.
  assert (todo y' = <[i := evs]> (todo y)) as ->.
  { destruct e as [s|s|]; cbn in H; repeat case_bool_decide; simplify_eq; try done; by destruct s. }
  pose proof (sum_insert length (todo y) i _ evs E) as Hs. cbn in Hs. lia.
Qed.

(** Only the stepping thread's holdings change, as [advance] says. *)
Lemma step_holds i y y' e evs :
  todo y !! i = Some (e :: evs) -> step i y = Some y' -> forall h, advance e (holds i y) = Some h ->
  todo y' = <[i := evs]> (todo y) /\ holds i y' = h /\ (forall j, j <> i -> holds j y' = holds j y) /\
  (forall j, own_s y' = Some j \/ own_w y' = Some j -> j = i \/ own_s y = Some j \/ own_w y = Some j).
Proof.
  intros E. unfold step. rewrite E. unfold holds. destruct e as [[]|[]|]; cbn; intros Hs h Ha; try done;
    try (case_bool_decide; simplify_eq); repeat case_bool_decide; cbn in *; simplify_eq; try done;
    (split_and!; [done| | |]); cbn; try (intros j Hj); repeat case_bool_decide; naive_solver congruence.
Qed.

Lemma step_orderly i y y' : orderly y -> step i y = Some y' -> orderly y'.
Proof.
  intros [H1 H2] Hs. destruct (todo y !! i) as [[|e evs]|] eqn:E; try (unfold step in Hs; by rewrite E in Hs).
  pose proof (H1 i _ E) as Hi. cbn in Hi. destruct (advance e (holds i y)) as [h|] eqn:Ea; [|done].
  destruct (step_holds i y y' e evs E Hs h Ea) as (Et & Eh & Ej & Eo). pose proof (lookup_lt_Some _ _ _ E) as Hl.
  split; rewrite Et.
  - intros j t Hj. destruct (decide (j = i)) as [->|Hn].
    + rewrite list_lookup_insert_eq in Hj by done. injection Hj as <-. by rewrite Eh.
    + rewrite list_lookup_insert_ne in Hj by done. rewrite Ej by done. by apply H1.
  - intros j Hj. rewrite length_insert. destruct (Eo j Hj) as [->|]; [done|by apply H2].
Qed.

(** A thread that holds something goes on, unless it waits for the other semaphore. *)
Lemma holder_steps y i :
  orderly y -> own_w y = Some i \/ own_w y = None /\ own_s y = Some i -> exists y', step i y = Some y'.
Proof.
  intros [H1 H2] Ho. assert (i < length (todo y))%nat as Hl by (apply H2; naive_solver).
  apply lookup_lt_is_Some_2 in Hl as [t E]. pose proof (H1 i t E) as Hf. unfold step. rewrite E.
  unfold holds in Hf. destruct t as [|e evs]; cbn [follow] in Hf.
  - destruct Ho as [Ho|[_ Ho]]; rewrite Ho, (bool_decide_true (Some i = Some i)) in Hf by done; done.
  - destruct e as [[]|[]|]; cbn in Hf |- *; eauto; destruct Ho as [Ho|[Ho1 Ho2]];
      rewrite ?Ho, ?Ho1, ?Ho2, ?(bool_decide_true (Some i = Some i)), ?orb_true_r in Hf by done; try done; eauto.
    rewrite bool_decide_true by done. eauto.
Qed.

(** Threads that keep to the order are never all waiting. *)
Lemma orderly_progress y : orderly y -> finished y = false -> exists i y', step i y = Some y'.
Proof.
  intros Ho Hf. destruct (own_w y) as [i|] eqn:Ew; [exists i; apply holder_steps; auto|].
  destruct (own_s y) as [i|] eqn:Es; [exists i; apply holder_steps; auto|].
  unfold finished in Hf. apply bool_decide_eq_false, not_Forall_Exists, Exists_exists in Hf as (t & Ht & Hn); [|intros ?; apply _].
  apply list_elem_of_lookup in Ht as [i Hi]. destruct t as [|e evs]; [by destruct Hn|]. exists i.
  pose proof (proj1 Ho i _ Hi) as Hfo. unfold holds in Hfo. rewrite Ew, Es in Hfo. unfold step. rewrite Hi.
  destruct e as [[]|[]|]; cbn in Hfo |- *; try done; rewrite bool_decide_true by done; eauto.
Qed.

Lemma runs_orderly n y y' : runs n y y' -> orderly y -> orderly y' /\ work_left y = (n + work_left y')%nat.
Proof.
  induction 1 as [|n i y y1 y2 Hs _ IH]; intros Ho; [done|].
  destruct (IH (step_orderly _ _ _ Ho Hs)) as [H1 H2]. split; [done|]. rewrite (step_work _ _ _ Hs). lia.
Qed.

Lemma orderly_not_stuck y : orderly y -> stuck y = false.
Proof.
  intros Ho. unfold stuck. destruct (finished y) eqn:E; [done|]. cbn.
  destruct (orderly_progress y Ho E) as (i & y' & Hs). apply not_true_is_false. rewrite forallb_forall. intros H.
  assert (i < length (todo y))%nat as Hl.
  { unfold step in Hs. destruct (todo y !! i) eqn:Ei; [|done]. by eapply lookup_lt_Some. }
  assert (In i (seq 0 (length (todo y)))) as Hi by (apply in_seq; lia).
  apply H, bool_decide_eq_true in Hi. congruence.
Qed.

Lemma orderly_completes n y : work_left y = n -> orderly y -> exists y', runs n y y' /\ finished y' = true.
Proof.
  revert y. induction n as [|n IH]; intros y Hn Ho; destruct (finished y) eqn:E.
  - exists y. split; [constructor|done].
  - destruct (orderly_progress y Ho E) as (i & y' & Hs). apply step_work in Hs. lia.
  - exfalso. unfold finished in E. apply bool_decide_eq_true in E. unfold work_left in Hn.
    enough (sum_list_with length (todo y) = 0%nat) by lia. clear -E. by induction E as [|t l -> _ IHl].
  - destruct (orderly_progress y Ho E) as (i & y' & Hs). pose proof (step_work _ _ _ Hs).
    destruct (IH y') as (z & Hz & Hf); [lia|by eapply step_orderly|]. exists z. split; [by econstructor|done].
Qed.

(** ** No deadlock, and two deadlocks *)

(** C18: threads that run any operations of the register map except changes of the
    cache mode and delayed writes never block each other for good, however they
    are scheduled: they take [semaphore] before [write_mode_lock], neither twice,
    and give both back on every path, error paths included, so that in every state
    they reach one of them can go on, and after as many steps as they have calls
    all have ended. The locks that a thread takes are those of its operations run
    by themselves, from any state of the device. *)
Theorem regmap_deadlock_free {C} `{!RtClient C} (ls : list (list rt_op * rtworld C)) n y :
  Forall (fun p => forallb in_order (fst p) = true /\ rd_ops (rd (snd p)) <> OpsAsyn) ls ->
  runs n (start (map (fun p => trace (fst p) (snd p)) ls)) y ->
  stuck y = false /\
  exists m y', runs m y y' /\ finished y' = true /\
    (n + m = work_left (start (map (fun p => trace (fst p) (snd p)) ls)))%nat.
Proof.
  intros Hl Hr. assert (orderly (start (map (fun p => trace (fst p) (snd p)) ls))) as Ho.
  { apply start_orderly, Forall_map. eapply Forall_impl; [exact Hl|]. intros [l w] [H1 H2]. by apply trace_in_order. }
  destruct (runs_orderly _ _ _ Hr Ho) as [Hy Hw]. split; [by apply orderly_not_stuck|].
  destruct (orderly_completes _ y eq_refl Hy) as (y' & H1 & H2). exists (work_left y), y'. auto.
Qed.

Definition demo_threads : list (list rt_op * rtworld steady_mem) :=
  [([OWrite 0x12 0x123456; OUpdate 0x10 0x0f 0x35], demo_dev 0 (mk_steady ∅)); ([OSync; OWrite 0x10 7], demo_dev 0 (mk_steady ∅))].

Lemma regmap_deadlock_free_witness :
  exists y, runs 3 (start (map (fun p => trace (fst p) (snd p)) demo_threads)) y /\ stuck y = false.
Proof.
  assert (exists y, runs 3 (start (map (fun p => trace (fst p) (snd p)) demo_threads)) y) as [y Hr].
  { eexists. eapply (runs_step _ 0); [vm_compute; reflexivity|]. eapply (runs_step _ 0); [vm_compute; reflexivity|].
    eapply (runs_step _ 0); [vm_compute; reflexivity|]. apply runs_none. }
  exists y. split; [exact Hr|]. refine (proj1 (regmap_deadlock_free demo_threads 3 _ _ Hr)).
  repeat constructor; done.
Defined.

(** *** Threads that do not keep to the order *)

(** A thread alone, as long as it keeps to the order. *)
Lemma run_first p t r h :
  follow p none = Some h ->
  runs (length p) (start [p ++ t; r]) (mk_sys (if fst h then Some 0%nat else None) (if snd h then Some 0%nat else None) [t; r]).
Proof.
  enough (forall p h0 h, follow p h0 = Some h ->
    runs (length p) (mk_sys (if fst h0 then Some 0%nat else None) (if snd h0 then Some 0%nat else None) [p ++ t; r])
      (mk_sys (if fst h then Some 0%nat else None) (if snd h then Some 0%nat else None) [t; r])) as H by apply (H p none h).
  clear p h. intros p. induction p as [|e p IH]; intros h0 h Hf; [injection Hf as <-; constructor|].
  cbn [follow] in Hf. destruct (advance e h0) as [h1|] eqn:Ea; [|done]. eapply (runs_step _ 0); [|exact (IH h1 h Hf)].
  destruct h0 as [[] []], e as [[]|[]|]; cbn in Ea; simplify_eq; reflexivity.
Qed.

(** One thread wants [write_mode_lock] inside [semaphore], the other has it and
    wants [semaphore]. *)
Lemma crossed_stuck p t1 t2 :
  follow p none = Some sem ->
  exists y, runs (length p + 1) (start [p ++ Down WriteModeLock :: t1; Down WriteModeLock :: Down Semaphore :: t2]) y /\ stuck y = true.
Proof.
  intros Hp. exists (mk_sys (Some 0%nat) (Some 1%nat) [Down WriteModeLock :: t1; Down Semaphore :: t2]). split; [|done].
  pose proof (run_first p (Down WriteModeLock :: t1) (Down WriteModeLock :: Down Semaphore :: t2) sem Hp) as Hr. cbn [fst snd sem] in Hr.
  assert (forall n y1 y2 y3, runs n y1 y2 -> step 1 y2 = Some y3 -> runs (n + 1) y1 y3) as Hend.
  { clear. induction 1 as [y|n i y y1 y2 Hs _ IH]; intros Hl; [by eapply runs_step; [exact Hl|constructor]|].
    eapply runs_step; [exact Hs|by apply IH]. }
  by eapply Hend; [exact Hr|].
Qed.

(** The order puts [write_mode_lock] inside [semaphore]. *)
Lemma first_write_lock evs :
  follow evs none = Some none -> Down WriteModeLock ∈ evs ->
  exists p t, evs = p ++ Down WriteModeLock :: t /\ follow p none = Some sem.
Proof.
  intros Hf (p & t & ->)%list_elem_of_split. exists p, t. split; [done|]. rewrite follow_app in Hf.
  destruct (follow p none) as [[[] []]|]; done.
Qed.

(** C19: two operations do not keep to the order.  For every device and every list
    of in-order operations of a thread that at some point takes [write_mode_lock]
    (the write of any register that has a copy is one), and every change of the
    cache mode that drops the copies, there is a schedule after which both wait for
    ever: the change holds [write_mode_lock] while it takes [semaphore], the other
    thread takes them the other way round.  And every delayed block write, or block
    write of a device in write-back mode, waits for the delayed work while it holds
    the [semaphore] the work needs: if it takes it first, both wait for ever. *)
Theorem cache_mode_deadlock {C} `{!RtClient C} (w w' : rtworld C) :
  (forall l mode, forallb in_order l = true -> rd_ops (rd w) <> OpsAsyn -> Down WriteModeLock ∈ trace l w ->
     reloads mode = true ->
     exists n y, runs n (start [trace l w; trace [OCacheMode mode] w']) y /\ stuck y = true) /\
  (forall rms i rm data, map_ok rms -> safe rms w -> rd_ops (rd w) = OpsCache -> rms !! i = Some rm ->
     is_volatile rm = false -> 1 <= rm_size rm <= 4 -> Down WriteModeLock ∈ trace [OWrite (rm_addr rm) data] w) /\
  (forall o, waits_for_work o w' = true ->
     exists y, runs 1 (start [trace [OWork] w; trace [o] w']) y /\ stuck y = true).
Proof.
  split_and!.
  - intros l mode Hl Ha Hw Hm. destruct (first_write_lock _ (trace_in_order l w Hl Ha) Hw) as (p & t & -> & Hp).
    rewrite (mode_trace mode w' Hm). destruct (crossed_stuck p t [Up Semaphore; Up WriteModeLock] Hp) as (y & Hy & Hs). eauto.
  - intros rms i rm data Hm [[] _] Ho Hi Hv Hs. destruct (write_trace rms i rm data w) as [t ->]; try done. set_solver.
  - intros o Ho. destruct (work_trace w) as [t1 ->], (waiting_trace o w' Ho) as [t2 ->].
    exists (mk_sys (Some 1%nat) None [Down Semaphore :: t1; CancelWork :: t2]). split; [|done].
    eapply (runs_step _ 1); [reflexivity|constructor].
Qed.

(** Two threads on a device with copies. *)
Lemma cache_mode_deadlock_witness :
  exists n y, runs n (start [trace [OSync; OWrite 0x12 5] (demo_dev 0 (mk_steady ∅)); trace [OCacheMode 0] (demo_dev 0 (mk_steady ∅))]) y /\
    stuck y = true.
Proof.
  refine (proj1 (cache_mode_deadlock (demo_dev 0 (mk_steady ∅)) (demo_dev 0 (mk_steady ∅))) [OSync; OWrite 0x12 5] 0 _ _ _ _);
    [reflexivity|discriminate| |reflexivity].
  apply (bool_decide_unpack _). vm_compute. exact I.
Defined.
