(* ===== verification/RtCache.v ===== *)
(** * The register map and the chip's memory

    On a bus that works, the device is the memory of the chip: reading a
    register gives its bytes, writing one changes exactly them, whether the
    device keeps copies or not.  The copies agree with the chip wherever they
    are valid, and the registers the chip changes by itself are never served
    from a copy. *)

From S2P Require Import Prelude RtRegmap RtMem RtRegmapSpec.
#[local] Open Scope Z_scope.

(** [m] after the bytes [l] have been stored from address [a] on. *)
Definition mput (m : Z -> Z) (a : Z) (l : list Z) : Z -> Z :=
  fun x => if (a <=? x) && (x <? a + Z.of_nat (length l)) then default 0 (l !! Z.to_nat (x - a)) else m x.
Definition mget (m : Z -> Z) (a n : Z) : list Z := map m (seqZ a n).

(** A client whose accesses work and that stores what it is given. *)
Class ChipMem {C} `{!RtClient C} (mem : C -> Z -> Z) : Prop := {
  cm_u8 : forall c a, is_u8 (mem c a);
  cm_read : forall a n c, exists r c',
    read_device a n c = ((r, mget (mem c) a n), c') /\ 0 <= r /\ (forall x, mem c' x = mem c x);
  cm_write : forall a l c, Forall is_u8 l -> exists r c',
    write_device a l c = (r, c') /\ 0 <= r /\ (forall x, mem c' x = mput (mem c) a l x)
}.

Lemma length_mget m a n : length (mget m a n) = Z.to_nat n.
Proof. unfold mget. by rewrite length_map, length_seqZ. Qed.

Lemma mget_lookup m a n k : (k < Z.to_nat n)%nat -> mget m a n !! k = Some (m (a + Z.of_nat k)).
Proof. intros H. unfold mget. rewrite list_lookup_fmap, lookup_seqZ_lt; [done|lia]. Qed.

Lemma mget_ext m m' a n : (forall x, m x = m' x) -> mget m a n = mget m' a n.
Proof. intros H. apply list_fmap_ext. intros. apply H. Qed.

Lemma mget_u8 m a n : (forall x, is_u8 (m x)) -> map u8 (mget m a n) = mget m a n.
Proof.
  intros H. unfold mget. rewrite map_map. apply list_fmap_ext. intros. by apply u8_id.
Qed.

Lemma mput_in m a l k : (k < length l)%nat -> mput m a l (a + Z.of_nat k) = default 0 (l !! k).
Proof.
  intros H. unfold mput.
  destruct (Z.leb_spec a (a + Z.of_nat k)), (Z.ltb_spec (a + Z.of_nat k) (a + Z.of_nat (length l))); try lia.
  cbn. do 2 f_equal. lia.
Qed.

Lemma mput_out m a l x : x < a \/ a + Z.of_nat (length l) <= x -> mput m a l x = m x.
Proof. intros H. unfold mput. destruct (Z.leb_spec a x), (Z.ltb_spec x (a + Z.of_nat (length l))); lia || done. Qed.

(** Storing what is there already changes nothing. *)
Lemma mput_same m a n x : mput m a (mget m a n) x = m x.
Proof.
  unfold mput. rewrite length_mget.
  destruct (Z.leb_spec a x), (Z.ltb_spec x (a + Z.of_nat (Z.to_nat n))); try done. cbn.
  rewrite mget_lookup by lia. cbn. f_equal. lia.
Qed.

Lemma overlay_lookup l pos x j :
  (pos + length x <= length l)%nat ->
  overlay l pos x !! j = if decide (pos <= j < pos + length x)%nat then x !! (j - pos)%nat else l !! j.
Proof.
  intros H. unfold overlay. case_decide as Hd.
  - rewrite lookup_app_r, length_take by (rewrite length_take; lia).
    rewrite lookup_app_l by lia. f_equal. lia.
  - destruct (decide (j < pos)%nat).
    + rewrite lookup_app_l, lookup_take_lt by (rewrite ?length_take; lia). done.
    + rewrite lookup_app_r, length_take by (rewrite length_take; lia).
      rewrite lookup_app_r, lookup_drop by lia. f_equal. lia.
Qed.

(** Registers at different indices have different addresses. *)
Lemma addr_disjoint rms i j ri rj :
  map_ok rms -> rms !! i = Some ri -> rms !! j = Some rj -> i <> j ->
  rm_addr ri + rm_size ri <= rm_addr rj \/ rm_addr rj + rm_size rj <= rm_addr ri.
Proof.
  intros Hm Hi Hj Hn.
  destruct (Z.le_gt_cases (rm_addr ri) (rm_addr rj)) as [H|H].
  - left. destruct (Z.le_gt_cases (rm_addr ri + rm_size ri) (rm_addr rj)) as [|H']; [done|].
    pose proof (find_covers _ (rm_addr rj) _ _ Hm Hi) as E1. pose proof (find_covers _ (rm_addr rj) _ _ Hm Hj) as E2.
    destruct (map_reg _ Hm _ _ Hj) as [(_ & Hs & _) _].
    rewrite E1 in E2 by (unfold reg_covers; lia). destruct Hn.
    assert (Some (i, ri) = Some (j, rj)) as E by (apply E2; unfold reg_covers; lia). congruence.
  - right. destruct (Z.le_gt_cases (rm_addr rj + rm_size rj) (rm_addr ri)) as [|H']; [done|].
    pose proof (find_covers _ (rm_addr ri) _ _ Hm Hi) as E1. pose proof (find_covers _ (rm_addr ri) _ _ Hm Hj) as E2.
    destruct (map_reg _ Hm _ _ Hi) as [(_ & Hs & _) _].
    rewrite E1 in E2 by (unfold reg_covers; lia). destruct Hn.
    assert (Some (i, ri) = Some (j, rj)) as E by (apply E2; unfold reg_covers; lia). congruence.
Qed.

(** The masks of the registers that are copied let every bit through, as
    [rt_regmap_cache_init] makes them for the types NORMAL and RESERVE. *)
Definition full_masks (rms : list rt_register) : Prop :=
  Forall (fun rm => is_volatile rm = false -> rm_mask rm = replicate (nsize rm) 0xff) rms.

Section Cache.
  Context {C : Type} `{!RtClient C} (mem : C -> Z -> Z) `{!ChipMem mem}.
  Context (rms : list rt_register) (Hmap : map_ok rms) (Hne : rms <> []) (Hfull : full_masks rms).
  Abbreviation W := (rtworld C).

(** Where a copy is valid it has the bytes of the chip. *)
Definition coherent (w : W) : Prop :=
  forall i rm k, rms !! i = Some rm -> is_volatile rm = false -> z2b (default 0 (cached (rd w) !! i)) = true ->
    (k < nsize rm)%nat -> alloc_data (rd w) !! (base rms i + k)%nat = Some (mem (cl w) (rm_addr rm + Z.of_nat k)).

(** A device with copies that writes through. *)
Definition cached_dev (w : W) : Prop :=
  safe rms w /\ coherent w /\ rd_ops (rd w) = OpsCache /\ blk_mode (rd w) = 0.

Lemma wp_client {A} (m : M C A) Q (w : W) : (forall a c', Q a (w <| cl := c' |>)) -> wp (client m) Q w.
Proof. intros H. unfold wp, eval, exec, client. destruct (m (cl w)). apply H. Qed.

Lemma pass_write a l (w : W) :
  blk_mode (rd w) = 0 -> Forall is_u8 l ->
  exists r c', rt_chip_block_write a l w = (r, w <| cl := c' |>) /\ 0 <= r /\
    (forall x, mem c' x = mput (mem (cl w)) a l x).
Proof using ChipMem0.
  intros Hb Hl. destruct (cm_write a l (cl w) Hl) as (r & c' & E & Hr & Hm). exists r, c'. split; [|done].
  unfold rt_chip_block_write, getr, bind, gets, client. cbn. rewrite Hb. cbn. by rewrite E.
Qed.

Lemma read_chip_run a n (w : W) :
  exists r c', read_chip a n w = ((r, mget (mem (cl w)) a n), w <| cl := c' |>) /\ 0 <= r /\
    (forall x, mem c' x = mem (cl w) x).
Proof using ChipMem0.
  destruct (cm_read a n (cl w)) as (r & c' & E & Hr & Hm). exists r, c'. split; [|done].
  unfold read_chip, bind, client. rewrite E. cbn. rewrite mget_u8; [done|]. intros. apply cm_u8.
Qed.

Lemma cache_get_run i off n (w : W) :
  safe rms w -> (i < length rms)%nat -> (base rms i + off + n <= base rms (length rms))%nat ->
  cache_get i off n w = (take n (drop (base rms i + off) (alloc_data (rd w))), w).
Proof.
  intros [Hw _] Hi Hn. pose proof Hw as []. unfold cache_get, getr, bind, gets. cbn.
  rewrite (cache_at_base rms _ _ _ Hw) by done. rewrite wf_alloc.
  destruct (Nat.leb_spec (base rms i + off + n) (base rms (length rms))); [done|lia].
Qed.

Definition with_alloc (w : W) (A : list Z) : W := w <| rd ::= fun d => d <| alloc_data := A |> |>.

Lemma cache_put_run i off l (w : W) :
  safe rms w -> (i < length rms)%nat -> (base rms i + off + length l <= base rms (length rms))%nat ->
  cache_put i off l w = (tt, with_alloc w (overlay (alloc_data (rd w)) (base rms i + off) l)).
Proof.
  intros [Hw _] Hi Hn. pose proof Hw as []. unfold cache_put, getr, modr, modify, bind, gets, id.
  rewrite (cache_at_base rms _ _ _ Hw), wf_alloc by done.
  destruct (Nat.leb_spec (base rms i + off + length l) (base rms (length rms))); [|lia].
  unfold fault_unless, when, ret, with_alloc. cbn [negb]. f_equal. unfold upd_field. cbn -[cache_at].
  by rewrite (cache_at_base rms _ _ _ Hw).
Qed.

Lemma land_ff v : is_u8 v -> Z.land v 0xff = v.
Proof. intros H. change 0xff with (Z.ones 8). rewrite Z.land_ones by lia. by apply Z.mod_small. Qed.

Lemma mask_ff i rm k :
  rms !! i = Some rm -> is_volatile rm = false -> (k < nsize rm)%nat -> rm_mask rm !! k = Some 0xff.
Proof using Hfull.
  intros Hi Hv Hk. pose proof Hfull as H. unfold full_masks in H. rewrite Forall_lookup in H.
  rewrite (H _ _ Hi Hv). by apply lookup_replicate_2.
Qed.

Lemma wbit_run i rm k (w : W) :
  rms !! i = Some rm -> is_volatile rm = false -> (k < nsize rm)%nat -> wbit rm k w = (0xff, w).
Proof using Hfull Hmap.
  intros Hi Hv Hk. unfold wbit, bind, fault_unless. rewrite (mask_ff _ _ _ Hi Hv Hk).
  destruct (map_reg _ Hmap _ _ Hi) as [(_ & _ & Hm & _) _].
  destruct (Nat.ltb_spec k (length (rm_mask rm))); [done|lia].
Qed.

(** The copy takes the bytes; a count of 0 means it had them already. *)
Lemma store_run rm i k chunk (w : W) :
  safe rms w -> rms !! i = Some rm -> is_volatile rm = false -> Forall is_u8 chunk ->
  (k + length chunk <= nsize rm)%nat ->
  exists n A, store_loop rm i k chunk w = (n, with_alloc w A) /\ length A = length (alloc_data (rd w)) /\
    (forall j, A !! j = if decide (base rms i + k <= j < base rms i + k + length chunk)%nat
                        then chunk !! (j - (base rms i + k))%nat else alloc_data (rd w) !! j) /\
    0 <= n /\ (n = 0 <-> forall m, (m < length chunk)%nat -> alloc_data (rd w) !! (base rms i + k + m)%nat = chunk !! m).
Proof using Hfull Hmap.
  intros Hw Hi Hv Hu. destruct (map_reg _ Hmap _ _ Hi) as [Hok Hl]. pose proof (base_le _ _ _ Hi) as Hb.
  revert w k Hw. induction Hu as [|v chunk Hv8 Hu IH]; intros w k Hw Hn; cbn [length] in *.
  { exists 0, (alloc_data (rd w)). split_and!; try done; [by destruct w as [[] ?]| |].
    - intros j. rewrite decide_False by lia. done.
    - split; [|done]. intros _ m Hm. lia. }
  pose proof (wf_alloc _ _ (proj1 Hw)) as Ha.
  set (A1 := overlay (alloc_data (rd w)) (base rms i + k) [v]).
  assert (safe rms (with_alloc w A1)) as Hw1.
  { pose proof (ps_cache_put rms i k [v] Hl ltac:(cbn; lia) ltac:(by apply Forall_singleton) w Hw) as H.
    unfold exec in H. by rewrite cache_put_run in H by (done || cbn; lia). }
  destruct (IH (with_alloc w A1) (S k) Hw1 ltac:(lia)) as (n & A & E & HA1 & HA2 & Hn0 & HA3).
  change (alloc_data (rd (with_alloc w A1))) with A1 in *.
  assert (length A1 = length (alloc_data (rd w))) as HlA by (apply length_overlay; cbn; lia).
  assert (forall j, A1 !! j = if decide (j = base rms i + k)%nat then Some v else alloc_data (rd w) !! j) as HA0.
  { intros j. unfold A1. rewrite overlay_lookup by (cbn; lia). cbn [length].
    destruct (decide (j = base rms i + k)%nat) as [->|].
    - rewrite decide_True by lia. by rewrite Nat.sub_diag.
    - by rewrite decide_False by lia. }
  exists (b2z (negb (default 0 (alloc_data (rd w) !! (base rms i + k)%nat) =? v)) + n), A. split_and!.
  - cbn [store_loop]. rewrite Hv. unfold bind at 1 2 3 4. rewrite (wbit_run _ _ _ _ Hi Hv) by lia.
    rewrite cache_get_run by (done || lia). rewrite land_ff by done.
    rewrite cache_put_run by (done || cbn; lia). fold A1. unfold ret at 1, bind. rewrite E. cbn. f_equal. f_equal.
    do 3 f_equal. destruct (lookup_lt_is_Some_2 (alloc_data (rd w)) (base rms i + k)) as [x Ex]; [lia|].
    rewrite Ex. by rewrite (drop_S _ _ _ Ex).
  - lia.
  - intros j. rewrite HA2, HA0. repeat case_decide; try lia; try done.
    + replace (j - (base rms i + k))%nat with (S (j - (base rms i + S k))) by lia. done.
    + subst. by rewrite Nat.sub_diag.
  - destruct (_ =? v); cbn; lia.
  - destruct (lookup_lt_is_Some_2 (alloc_data (rd w)) (base rms i + k)) as [x Ex]; [lia|]. rewrite Ex. change (default 0 (Some x)) with x.
    assert (n = 0 <-> forall m, (m < length chunk)%nat ->
      alloc_data (rd w) !! (base rms i + S k + m)%nat = chunk !! m) as HA4.
    { rewrite HA3. split; intros H m Hm; specialize (H m Hm); rewrite HA0, decide_False in * by lia; done. }
    destruct (Z.eqb_spec x v) as [->|Hx]; cbn [negb b2z].
    + rewrite Z.add_0_l, HA4. split; intros H m Hm.
      * destruct m as [|m]; [by rewrite Nat.add_0_r|].
        replace (base rms i + k + S m)%nat with (base rms i + S k + m)%nat by lia. apply H. lia.
      * replace (base rms i + S k + m)%nat with (base rms i + k + S m)%nat by lia. apply (H (S m)). lia.
    + split; [lia|]. intros H. specialize (H 0%nat ltac:(lia)). rewrite Nat.add_0_r, Ex in H. cbn in H. congruence.
Qed.

(** Only register [i], its copy and its bytes on the chip, have changed. *)
Lemma coherent_step i rm (w w' : W) :
  coherent w -> rms !! i = Some rm ->
  (forall j, j <> i -> cached (rd w') !! j = cached (rd w) !! j) ->
  (forall j, ~ (base rms i <= j < base rms i + nsize rm)%nat -> alloc_data (rd w') !! j = alloc_data (rd w) !! j) ->
  (forall x, x < rm_addr rm \/ rm_addr rm + rm_size rm <= x -> mem (cl w') x = mem (cl w) x) ->
  (is_volatile rm = false -> z2b (default 0 (cached (rd w') !! i)) = true -> forall k, (k < nsize rm)%nat ->
     alloc_data (rd w') !! (base rms i + k)%nat = Some (mem (cl w') (rm_addr rm + Z.of_nat k))) ->
  coherent w'.
Proof using Hmap.
  intros Hc Hi H1 H2 H3 H4 j rj k Hj Hv Hcj Hk. destruct (decide (j = i)) as [->|Hn].
  - assert (rj = rm) as -> by congruence. by apply H4.
  - rewrite H1 in Hcj by done. destruct (map_reg _ Hmap _ _ Hj) as [Hok _]. pose proof (nsize_size _ Hok).
    rewrite H2, H3; [by apply Hc| |].
    + pose proof (addr_disjoint _ _ _ _ _ Hmap Hi Hj ltac:(congruence)). lia.
    + pose proof (base_disjoint _ _ _ _ _ Hi Hj ltac:(congruence)). lia.
Qed.

Definition conf (d : rt_regmap_device) := (rd_ops d, rt_regmap_mode d, rt_format d, io_log_en d).

Lemma take_drop_list (A : list Z) b l :
  (b + length l <= length A)%nat -> (forall k, (k < length l)%nat -> A !! (b + k)%nat = l !! k) ->
  take (length l) (drop b A) = l.
Proof.
  intros Hl H. apply list_eq. intros k. destruct (decide (k < length l)%nat) as [Hk|Hk].
  - rewrite lookup_take_lt, lookup_drop by done. by apply H.
  - rewrite !lookup_ge_None_2; [done|lia|rewrite length_take; lia].
Qed.

Lemma block_write_run i rm l (w : W) :
  cached_dev w -> rms !! i = Some rm -> is_volatile rm = false -> Forall is_u8 l -> length l = nsize rm ->
  wp (rt_block_write rm 0 l i) (fun r w' => 0 <= r /\ coherent w' /\ conf (rd w') = conf (rd w) /\
    forall x, mem (cl w') x = mput (mem (cl w)) (rm_addr rm) l x) w.
Proof using ChipMem0 Hfull Hmap.
  intros (Hs & Hc & Hops & Hb) Hi Hv Hu Hl. destruct (map_reg _ Hmap _ _ Hi) as [Hok Hlt].
  pose proof (nsize_size _ Hok) as Hns. pose proof Hok as ((Ha1 & Ha2) & Hsz & _).
  unfold rt_block_write. apply wp_bind. apply wp_modify.
  set (w1 := w <| rd ::= _ |>). assert (safe rms w1) as Hs1 by (by apply (ps_down rms WriteModeLock)).
  apply wp_bind, wp_gets. change (cached (rd w1)) with (cached (rd w)).
  set (c := z2b (default 0 (cached (rd w) !! i))).
  destruct (store_run rm i 0 l w1 Hs1 Hi Hv Hu ltac:(lia)) as (n & A & E & HA1 & HA2 & Hn0 & HA3).
  change (alloc_data (rd w1)) with (alloc_data (rd w)) in *. rewrite Nat.add_0_r in HA2, HA3.
  pose proof (wf_alloc _ _ (proj1 Hs)) as Halloc. pose proof (base_le _ _ _ Hi) as Hble.
  change (Z.to_nat 0) with 0%nat. apply wp_bind. eapply wp_eq; [exact E|].
  apply wp_bind. set (w2 := exec (when (negb c) (set_cached i)) (with_alloc w1 A)).
  assert (cl w2 = cl w /\ alloc_data (rd w2) = A /\ conf (rd w2) = conf (rd w) /\ blk_mode (rd w2) = 0 /\
    z2b (default 0 (cached (rd w2) !! i)) = true /\
    forall j, j <> i -> cached (rd w2) !! j = cached (rd w) !! j) as (F1 & F2 & F3 & F4 & F5 & F6).
  { subst w2. destruct c eqn:Ec; cbn; split_and!; try done.
    - rewrite list_lookup_insert_eq; [done|]. rewrite (wf_cached _ _ (proj1 Hs)). done.
    - intros j Hj. by rewrite list_lookup_insert_ne. }
  assert (safe rms w2) as Hs2.
  { assert (safe rms (with_alloc w1 A)) as H.
    { pose proof (ps_store rms Hmap rm i 0 l Hi ltac:(lia) w1 Hs1) as H. unfold exec in H. by rewrite E in H. }
    subst w2. destruct c; [done|]. by apply (ps_set_cached rms). }
  apply wp_run. fold w2. clearbody w2.
  assert (forall k, (k < nsize rm)%nat -> A !! (base rms i + k)%nat = l !! k) as HAi.
  { intros k Hk. rewrite HA2, decide_True by lia. f_equal. lia. }
  assert (forall j, ~ (base rms i <= j < base rms i + nsize rm)%nat -> A !! j = alloc_data (rd w) !! j) as HAo.
  { intros j Hj. rewrite HA2, decide_False by lia. done. }
  apply wp_bind. apply wp_if; intros Hch.
  - (* nothing to write: the chip has these bytes *)
    bool_prop. destruct c eqn:Ec; [|lia]. rewrite H0 in H. subst n. apply wp_ret. apply wp_bind, wp_modify, wp_ret.
    assert (forall k, (k < nsize rm)%nat -> l !! k = Some (mem (cl w) (rm_addr rm + Z.of_nat k))) as Hlm.
    { intros k Hk. rewrite <- (proj1 HA3 eq_refl) by lia. by apply Hc. }
    assert (forall x, mem (cl w) x = mput (mem (cl w)) (rm_addr rm) l x) as Hm.
    { intros x. assert (l = mget (mem (cl w)) (rm_addr rm) (rm_size rm)) as ->; [|by rewrite mput_same].
      apply list_eq. intros k. destruct (decide (k < nsize rm)%nat) as [Hk|Hk].
      - by rewrite mget_lookup, Hlm.
      - rewrite !lookup_ge_None_2; [done|rewrite length_mget; unfold nsize in Hk; lia|lia]. }
    split; [done|]. split_and!; [|done|cbn; by rewrite F1].
    eapply (coherent_step i rm w); [done..| | | |]; cbn; rewrite ?F1, ?F2; try done.
    intros _ _ k Hk. rewrite HAi by done. by apply Hlm.
  - apply wp_bind. eapply wp_eq; [apply cache_get_run; done || lia|]. rewrite Nat.add_0_r, F2.
    rewrite take_drop_list by first [lia|intros; apply HAi; lia].
    rewrite Z.add_0_r, u32_id by (unfold is_u32; lia).
    destruct (pass_write (rm_addr rm) l w2 F4 Hu) as (r & c' & E2 & Hr & Hm).
    eapply wp_eq; [exact E2|]. apply wp_bind, wp_modify, wp_ret.
    rewrite F1 in Hm. split; [done|]. split_and!; [|done|done].
    eapply (coherent_step i rm w); [done..| | | |]; cbn; rewrite ?F2; try done.
    + intros x Hx. rewrite Hm. apply mput_out. lia.
    + intros _ _ k Hk. rewrite HAi, Hm, mput_in by lia.
      destruct (lookup_lt_is_Some_2 l k) as [y Ey]; [lia|]. by rewrite Ey.
Qed.

Lemma wp_find_reg i rm Q (w : W) :
  safe rms w -> rms !! i = Some rm -> Q (mk_rio (Z.of_nat i) 0) w -> wp (find_register_index (rm_addr rm)) Q w.
Proof using Hmap.
  intros [Hw _] Hi H. unfold wp, eval, exec. rewrite (find_register_run rms Hmap _ _ Hw).
  by rewrite (find_rio_reg _ _ _ Hmap Hi).
Qed.

Lemma wp_reg_at i rm Q (w : W) : safe rms w -> rms !! i = Some rm -> Q rm w -> wp (reg_at (Z.of_nat i)) Q w.
Proof.
  intros [[] _] Hi H. apply lookup_lt_Some in Hi as Hl.
  unfold wp, eval, exec, reg_at, getr, bind, gets, fault_unless. cbn. rewrite wf_map, Nat2Z.id, Hi.
  destruct (Z.leb_spec 0 (Z.of_nat i)), (Z.ltb_spec (Z.of_nat i) (Z.of_nat (length rms))); done || lia.
Qed.

Lemma blk_conf (d d' : rt_regmap_device) : conf d' = conf d -> blk_mode d' = blk_mode d /\ rd_ops d' = rd_ops d.
Proof. unfold conf, blk_mode. by intros [= -> -> _ _]. Qed.

Lemma io_log_small n j : (n <= 24)%nat -> 0 <= j -> j + 3 * Z.of_nat n <= 120 -> io_log n j = true.
Proof.
  revert j. induction n as [|n IH]; intros j Hn Hj H; [done|]. cbn.
  destruct (Z.leb_spec (128 - j - 1) 3); [lia|]. apply IH; lia.
Qed.

Lemma write_one_run i rm l (w : W) :
  cached_dev w -> rms !! i = Some rm -> Forall is_u8 l -> length l = nsize rm ->
  wp (if is_volatile rm then rt_chip_block_write (u32 (rm_addr rm + 0)) l
      else let! m := getr blk_mode in rt_block_map (Z.shiftr m 3) rm 0 l i)
    (fun r w' => 0 <= r /\ coherent w' /\ conf (rd w') = conf (rd w) /\
       forall x, mem (cl w') x = mput (mem (cl w)) (rm_addr rm) l x) w.
Proof using ChipMem0 Hfull Hmap.
  intros Hd Hi Hu Hl. pose proof Hd as (Hs & Hc & Hops & Hb). destruct (map_reg _ Hmap _ _ Hi) as [Hok Hlt].
  pose proof (nsize_size _ Hok). pose proof Hok as ((Ha1 & Ha2) & Hsz & _). destruct (is_volatile rm) eqn:Hv.
  - rewrite Z.add_0_r, u32_id by (unfold is_u32; lia).
    destruct (pass_write (rm_addr rm) l w Hb Hu) as (r & c' & E & Hr & Hm).
    unfold wp, eval, exec. rewrite E. cbn. split_and!; try done.
    eapply (coherent_step i rm w); try done; cbn; [|congruence].
    intros x Hx. rewrite Hm. apply mput_out. lia.
  - apply wp_bind, wp_gets. rewrite Hb. cbn [Z.shiftr]. by apply block_write_run.
Qed.

Lemma cache_block_write_run i rm l (w : W) :
  cached_dev w -> rms !! i = Some rm -> Forall is_u8 l -> length l = nsize rm ->
  wp (rt_cache_block_write (rm_addr rm) l) (fun r w' => r = 0 /\ cached_dev w' /\ conf (rd w') = conf (rd w) /\
    forall x, mem (cl w') x = mput (mem (cl w)) (rm_addr rm) l x) w.
Proof using ChipMem0 Hfull Hmap Hne.
  intros Hd Hi Hu Hl. pose proof Hd as (Hs & Hc & Hops & Hb). destruct (map_reg _ Hmap _ _ Hi) as [Hok Hlt].
  pose proof (nsize_size _ Hok). pose proof Hok as (_ & Hsz & _).
  assert (safe rms (exec (rt_cache_block_write (rm_addr rm) l) w)) as Hsafe.
  { apply ps_cache_block_write; [done..| |done]. eapply fits_reg; [done|..].
    - by rewrite (find_rio_reg _ _ _ Hmap Hi).
    - by rewrite (find_rio_reg _ _ _ Hmap Hi).
    - done.
    - lia. }
  assert (wp (rt_cache_block_write (rm_addr rm) l) (fun r w' => r = 0 /\ coherent w' /\
    conf (rd w') = conf (rd w) /\ forall x, mem (cl w') x = mput (mem (cl w)) (rm_addr rm) l x) w) as H1.
  2: { destruct H1 as (H1 & H2 & H3 & H4). destruct (blk_conf _ _ H3) as [H5 H6].
       split; [done|]. split; [|done]. split_and!; [done|done|by rewrite H6|by rewrite H5]. }
  clear Hsafe. unfold rt_cache_block_write. rewrite (proj2 (Z.ltb_ge _ _)) by lia.
  apply wp_bind. eapply wp_find_reg; [done..|]. cbn [ri_index ri_offset].
  destruct (Z.ltb_spec (Z.of_nat i) 0); [lia|]. apply wp_bind, wp_ignore. eapply wp_reg_at; [done..|].
  apply wp_bind, wp_gets. rewrite (wf_map _ _ (proj1 Hs)), Nat2Z.id, (drop_S _ _ _ Hi).
  apply wp_bind. rewrite bool_decide_false by (intros ->; cbn in *; lia). cbn [cache_write_loop].
  rewrite chunk_size_spec by (done || lia).
  replace (Z.to_nat (Z.min (Z.of_nat (length l)) (rm_size rm - 0))) with (length l) by lia.
  rewrite firstn_all, drop_all. apply wp_bind.
  eapply wp_mono; [by apply write_one_run|]. intros r w1 (Hr & H1 & H2 & H3).
  destruct (Z.ltb_spec r 0); [lia|]. rewrite bool_decide_true by done. apply wp_bind.
  assert (forall w2, cached (rd w2) = cached (rd w1) -> alloc_data (rd w2) = alloc_data (rd w1) ->
    cl w2 = cl w1 -> coherent w2) as Hco.
  { intros w2 E1 E2 E3 j rj k. unfold coherent in H1. rewrite E1, E2, E3. apply H1. }
  apply wp_when; intros _; [apply wp_modify|]; apply wp_ret; cbn [Z.ltb Z.compare];
    apply wp_bind, wp_gets, wp_ret; rewrite io_log_small by lia; rewrite andb_false_r.
  - split_and!; [done|by apply Hco|done|done].
  - split_and!; [done|by apply Hco|done|done].
Qed.

Lemma overlay_nil_take (l dst : list Z) : take (length l) (overlay dst 0 l) = l.
Proof. change (take (length l) (l ++ drop (length l) dst) = l). by rewrite take_app_length. Qed.

(** The copy of a register that is valid is what the chip has. *)
Lemma slice_mem i rm (w : W) :
  cached_dev w -> rms !! i = Some rm -> is_volatile rm = false -> z2b (default 0 (cached (rd w) !! i)) = true ->
  take (nsize rm) (drop (base rms i) (alloc_data (rd w))) = mget (mem (cl w)) (rm_addr rm) (rm_size rm).
Proof using Hmap.
  intros (Hs & Hc & _) Hi Hv Hci.
  replace (nsize rm) with (length (mget (mem (cl w)) (rm_addr rm) (rm_size rm))) by apply length_mget.
  apply take_drop_list; rewrite length_mget.
  - rewrite (wf_alloc _ _ (proj1 Hs)). by apply base_le.
  - intros k Hk. rewrite mget_lookup by done. by apply Hc.
Qed.

Lemma cache_block_read_run i rm (w : W) :
  cached_dev w -> rms !! i = Some rm ->
  wp (rt_cache_block_read (rm_addr rm) (rm_size rm)) (fun r w' =>
    r = (0, mget (mem (cl w)) (rm_addr rm) (rm_size rm)) /\ cached_dev w' /\ conf (rd w') = conf (rd w) /\
    forall x, mem (cl w') x = mem (cl w) x) w.
Proof using ChipMem0 Hmap Hne.
  intros Hd Hi. pose proof Hd as (Hs & Hc & Hops & Hb). destruct (map_reg _ Hmap _ _ Hi) as [Hok Hlt].
  pose proof (nsize_size _ Hok) as Hns. pose proof Hok as (_ & Hsz & _). pose proof (base_le _ _ _ Hi) as Hble.
  assert (safe rms (exec (rt_cache_block_read (rm_addr rm) (rm_size rm)) w)) as Hsafe.
  { apply ps_cache_block_read; [done..| |done]. split; [lia|]. eapply Forall_impl; [apply Hmap|].
    intros rm' (_ & Hs' & _). lia. }
  assert (wp (rt_cache_block_read (rm_addr rm) (rm_size rm)) (fun r w' =>
    r = (0, mget (mem (cl w)) (rm_addr rm) (rm_size rm)) /\ coherent w' /\ conf (rd w') = conf (rd w) /\
    forall x, mem (cl w') x = mem (cl w) x) w) as H1.
  2: { destruct H1 as (H1 & H2 & H3 & H4). destruct (blk_conf _ _ H3) as [H5 H6].
       split; [done|]. split; [|done]. split_and!; [done|done|by rewrite H6|by rewrite H5]. }
  clear Hsafe. unfold rt_cache_block_read. rewrite (proj2 (Z.ltb_ge _ _)) by lia.
  apply wp_bind. eapply wp_find_reg; [done..|]. cbn [ri_index ri_offset].
  destruct (Z.ltb_spec (Z.of_nat i) 0); [lia|]. apply wp_bind. eapply wp_reg_at; [done..|].
  apply wp_bind, wp_gets. rewrite (wf_map _ _ (proj1 Hs)), Nat2Z.id, Z.sub_0_r.
  rewrite total_size_sum by (apply Forall_drop, Hmap). rewrite (proj2 (Z.ltb_ge _ _)) by lia.
  apply wp_bind. unfold fault_unless at 1. rewrite (proj2 (Z.leb_le _ _)) by lia. apply wp_ret.
  apply wp_bind. change (Z.to_nat 0) with 0%nat. fold (nsize rm).
  eapply wp_eq; [apply cache_get_run; done || lia|]. rewrite Nat.add_0_r.
  apply wp_bind, wp_gets. set (c := z2b (default 0 (cached (rd w) !! i))).
  assert (forall n data w', n = rm_size rm -> take (nsize rm) data = mget (mem (cl w)) (rm_addr rm) (rm_size rm) ->
    coherent w' -> conf (rd w') = conf (rd w) -> (forall x, mem (cl w') x = mem (cl w) x) ->
    wp (let! r := cache_read_loop (drop (S i) rms) (S i) (rm_size rm) n data in
        if fst r <? 0 then ret (fst r, []) else ret (0, take (nsize rm) (snd r)))
      (fun r w' => r = (0, mget (mem (cl w)) (rm_addr rm) (rm_size rm)) /\ coherent w' /\
         conf (rd w') = conf (rd w) /\ forall x, mem (cl w') x = mem (cl w) x) w') as Hk.
  { intros n data w' -> Ht H1 H2 H3. apply wp_bind.
    assert (cache_read_loop (drop (S i) rms) (S i) (rm_size rm) (rm_size rm) data = ret (0, data)) as ->.
    { destruct (drop (S i) rms); cbn [cache_read_loop]; by rewrite Z.leb_refl. }
    apply wp_ret. cbn [fst snd Z.ltb Z.compare]. apply wp_ret. by rewrite Ht. }
  apply wp_bind. apply wp_if; intros Hcase.
  - apply wp_bind. unfold fault_unless at 1. rewrite (proj2 (Z.leb_le _ _)) by lia. apply wp_ret.
    apply wp_bind. destruct (read_chip_run (rm_addr rm) (rm_size rm) w) as (r & c' & E & Hr & Hm).
    eapply wp_eq; [exact E|]. cbn [fst snd].
    destruct (Z.ltb_spec r 0); [lia|]. set (l := mget _ _ _).
    assert (length l = nsize rm) as Hll by apply length_mget.
    assert (take (nsize rm) (overlay (replicate 32 0) 0 l) = l) as Ht by (rewrite <- Hll; apply overlay_nil_take).
    rewrite drop_0. fold (nsize rm). replace (100 `min` nsize rm)%nat with (nsize rm) by lia.
    replace (100 `min` Z.max 0 (rm_size rm)) with (rm_size rm) by lia. rewrite Ht.
    apply wp_bind. destruct c eqn:Ec; cbn [negb when].
    + apply wp_ret, wp_ret. cbn [fst snd Z.ltb Z.compare]. apply Hk; [done| |by intros j; intros; cbn; rewrite Hm; apply Hc|done|done].
      rewrite <- Hll. apply overlay_nil_take.
    + apply wp_bind. eapply wp_eq; [apply cache_put_run; [done|done|rewrite Hll; cbn; lia]|].
      apply wp_modify, wp_ret.
      cbn [fst snd Z.ltb Z.compare].
      apply Hk; [done| | |done|done]; [rewrite <- Hll; apply overlay_nil_take|].
      pose proof (wf_alloc _ _ (proj1 Hs)) as Halloc.
      eapply (coherent_step i rm w); [done..| | | |]; cbn.
      * intros j Hj. by rewrite list_lookup_insert_ne.
      * intros j Hj. rewrite overlay_lookup, decide_False by (rewrite ?Hll; lia). done.
      * intros x _. apply Hm.
      * intros _ _ k Hk'. rewrite overlay_lookup, decide_True by (rewrite ?Hll; lia). rewrite Hm.
        subst l. rewrite mget_lookup by (unfold nsize in *; lia). do 2 f_equal. lia.
  - bool_prop. apply wp_ret. cbn [fst snd Z.ltb Z.compare]. apply Hk; try done.
    + apply u32_id. unfold is_u32. lia.
    + rewrite take_take, Nat.min_id. by apply slice_mem.
Qed.

(** A device that reads and writes through, with copies or without. *)
Definition dev (o : rt_ops) (w : W) : Prop :=
  safe rms w /\ rd_ops (rd w) = o /\ blk_mode (rd w) = 0 /\ (o = OpsCache -> coherent w) /\ o <> OpsAsyn.

Lemma dev_cached w : dev OpsCache w <-> cached_dev w.
Proof.
  unfold dev, cached_dev. split; [intros (? & ? & ? & Hc & _); split_and!; auto|].
  by intros (? & ? & ? & ?); split_and!.
Qed.

(** Apart from the events nothing matters that [down] and [up] change. *)
Lemma dev_sem o e (w : W) : dev o w -> dev o (exec (modr (fun d => d <| rd_events ::= cons e |>)) w).
Proof.
  intros (H1 & H2 & H3 & H4 & H5). split; [|done]. apply (ps_modr rms); [|done].
  intros d []. by split; [constructor|].
Qed.

Lemma block_read_run o i rm (w : W) :
  dev o w -> rms !! i = Some rm ->
  wp (regmap_block_read (rm_addr rm) (rm_size rm)) (fun r w' =>
    0 <= fst r /\ snd r = mget (mem (cl w)) (rm_addr rm) (rm_size rm) /\ dev o w' /\ conf (rd w') = conf (rd w) /\
    forall x, mem (cl w') x = mem (cl w) x) w.
Proof using ChipMem0 Hmap Hne.
  intros Hd Hi. pose proof Hd as (H1 & H2 & H3 & H4 & H5). apply wp_bind, wp_gets. rewrite H2.
  destruct o; [|done|].
  - eapply wp_mono; [eapply cache_block_read_run; [by apply dev_cached|done]|].
    intros r w' (-> & Hw & Hc & Hm). split_and!; try done. by apply dev_cached.
  - destruct (read_chip_run (rm_addr rm) (rm_size rm) w) as (r & c' & E & Hr & Hm).
    eapply wp_eq; [exact E|]. by split_and!.
Qed.

Lemma block_write_run' o i rm l (w : W) :
  dev o w -> rms !! i = Some rm -> Forall is_u8 l -> length l = nsize rm ->
  wp (regmap_block_write (rm_addr rm) l) (fun r w' => 0 <= r /\ dev o w' /\ conf (rd w') = conf (rd w) /\
    forall x, mem (cl w') x = mput (mem (cl w)) (rm_addr rm) l x) w.
Proof using ChipMem0 Hfull Hmap Hne.
  intros Hd Hi Hu Hl. pose proof Hd as (H1 & H2 & H3 & H4 & H5). apply wp_bind, wp_gets. rewrite H2.
  destruct o; [|done|].
  - eapply wp_mono; [eapply cache_block_write_run; [by apply dev_cached|done..]|].
    intros r w' (-> & Hw & Hc & Hm). split_and!; try done. by apply dev_cached.
  - destruct (pass_write (rm_addr rm) l w H3 Hu) as (r & c' & E & Hr & Hm).
    eapply wp_eq; [exact E|]. by split_and!.
Qed.

(** ** Registers of one to four bytes as numbers *)

Definition abs_read (fmt : rt_data_format) (rm : rt_register) (m : Z -> Z) (old : Z) : Z :=
  if (1 <=? rm_size rm) && (rm_size rm <=? 4)
  then read_value fmt (rm_size rm) old (mget m (rm_addr rm) (rm_size rm)) else old.

Definition abs_write (fmt : rt_data_format) (rm : rt_register) (m : Z -> Z) (data : Z) : Z -> Z :=
  match write_bytes fmt (rm_size rm) data with Some l => mput m (rm_addr rm) l | None => m end.

Definition abs_update (fmt : rt_data_format) (rm : rt_register) (m : Z -> Z) (mask data : Z) : Z -> Z :=
  let size := rm_size rm in
  if (1 <=? size) && (size <=? 4) then
    let old := upd_decode fmt size (stored (mget m (rm_addr rm) size)) in
    let new := update_bits old mask (upd_data size data) in
    if negb (wr_once rm) || negb (old =? new) then mput m (rm_addr rm) (upd_encode fmt size new) else m
  else m.

Lemma le_bytes_u8 n v : Forall is_u8 (le_bytes n v).
Proof. revert v. induction n; intros v; cbn; constructor; [apply Z.mod_pos_bound; lia|done]. Qed.

Lemma write_bytes_u8 fmt size data l : write_bytes fmt size data = Some l -> Forall is_u8 l.
Proof.
  unfold write_bytes. intros H. repeat case_match; simplify_eq; try apply le_bytes_u8.
  all: apply Forall_singleton, u8_range.
Qed.

Lemma reg_read_run o i rm old (w : W) :
  dev o w -> rms !! i = Some rm ->
  wp (_rt_regmap_reg_read (rm_addr rm) old) (fun r w' =>
    r = (0, abs_read (rt_format (rd w)) rm (mem (cl w)) old) /\ dev o w' /\
    rt_format (rd w') = rt_format (rd w) /\ forall x, mem (cl w') x = mem (cl w) x) w.
Proof using ChipMem0 Hmap Hne.
  intros Hd Hi. apply wp_bind. eapply wp_find_reg; [apply Hd|done|]. cbn [ri_index ri_offset].
  destruct (Z.ltb_spec (Z.of_nat i) 0); [lia|]. cbn [orb negb Z.eqb]. apply wp_bind, wp_modify.
  set (w1 := w <| rd ::= _ |>). assert (dev o w1) as Hd1 by (by apply dev_sem).
  apply wp_bind, wp_bind. eapply wp_reg_at; [apply Hd1|done|]. apply wp_bind, wp_gets. unfold abs_read.
  match goal with |- context [if ?c then _ else old] => destruct c eqn:Ec end.
  - apply wp_bind. eapply wp_mono; [by eapply block_read_run|].
    intros [r l] w2 (Hr & Hl & Hd2 & Hc & Hm). cbn [fst snd] in *. destruct (Z.ltb_spec r 0); [lia|].
    apply wp_ret, wp_bind, wp_modify, wp_ret. rewrite Hl. split_and!; [done|by apply dev_sem| |done].
    cbn. unfold conf in Hc. by injection Hc as _ _ -> _.
  - apply wp_ret, wp_bind, wp_modify, wp_ret. split_and!; try done. by apply dev_sem.
Qed.

Lemma reg_write_run o i rm data (w : W) :
  dev o w -> rms !! i = Some rm ->
  wp (_rt_regmap_reg_write (rm_addr rm) data) (fun r w' => r = 0 /\ dev o w' /\
    rt_format (rd w') = rt_format (rd w) /\
    forall x, mem (cl w') x = abs_write (rt_format (rd w)) rm (mem (cl w)) data x) w.
Proof using ChipMem0 Hfull Hmap Hne.
  intros Hd Hi. apply wp_bind. eapply wp_find_reg; [apply Hd|done|]. cbn [ri_index ri_offset].
  destruct (Z.ltb_spec (Z.of_nat i) 0); [lia|]. cbn [orb negb Z.eqb]. apply wp_bind, wp_modify.
  set (w1 := w <| rd ::= _ |>). assert (dev o w1) as Hd1 by (by apply dev_sem).
  apply wp_bind. eapply wp_reg_at; [apply Hd1|done|]. apply wp_bind, wp_gets. unfold abs_write.
  change (rt_format (rd w1)) with (rt_format (rd w)). apply wp_bind.
  destruct (write_bytes _ _ _) as [l|] eqn:El.
  - destruct (map_reg _ Hmap _ _ Hi) as [Hok _]. pose proof (nsize_size _ Hok).
    apply length_write_bytes in El as Hll. apply wp_bind.
    eapply wp_mono; [apply (block_write_run' o i); [done|done|by eapply write_bytes_u8|lia]|].
    intros r w2 (Hr & Hd2 & Hc & Hm). apply wp_ret. destruct (Z.ltb_spec r 0); [lia|].
    apply wp_bind, wp_modify, wp_ret. split_and!; [done|by apply dev_sem| |done].
    cbn. unfold conf in Hc. by injection Hc as _ _ -> _.
  - apply wp_ret, wp_bind, wp_modify, wp_ret. split_and!; try done. by apply dev_sem.
Qed.

Lemma reg_update_run o i rm mask data (w : W) :
  dev o w -> rms !! i = Some rm ->
  wp (_rt_regmap_update_bits (rm_addr rm) mask data) (fun r w' => 0 <= r /\ dev o w' /\
    rt_format (rd w') = rt_format (rd w) /\
    forall x, mem (cl w') x = abs_update (rt_format (rd w)) rm (mem (cl w)) mask data x) w.
Proof using ChipMem0 Hfull Hmap Hne.
  intros Hd Hi. apply wp_bind. eapply wp_find_reg; [apply Hd|done|]. cbn [ri_index ri_offset].
  destruct (Z.ltb_spec (Z.of_nat i) 0); [lia|]. cbn [orb negb Z.eqb]. apply wp_bind, wp_modify.
  set (w1 := w <| rd ::= _ |>). assert (dev o w1) as Hd1 by (by apply dev_sem).
  destruct (map_reg _ Hmap _ _ Hi) as [Hok _]. pose proof (nsize_size _ Hok).
  apply wp_bind. eapply wp_reg_at; [apply Hd1|done|]. apply wp_bind, wp_gets. unfold abs_update.
  change (rt_format (rd w1)) with (rt_format (rd w)). apply wp_bind.
  match goal with |- context [if ?c then _ else ret 0] => destruct c eqn:Ec end.
  - apply wp_bind. eapply wp_mono; [by eapply block_read_run|].
    intros [r l] w2 (Hr & Hl & Hd2 & Hc & Hm). cbn [fst snd] in *. destruct (Z.ltb_spec r 0); [lia|].
    rewrite Hl. change (cl w1) with (cl w).
    assert (rt_format (rd w2) = rt_format (rd w)) as Hf by (unfold conf in Hc; by injection Hc as _ _ -> _).
    apply wp_if; intros ->.
    + eapply wp_mono; [apply (block_write_run' o i); [done|done|apply le_bytes_u8|]|].
      { unfold upd_encode. by rewrite length_le_bytes. }
      intros r2 w3 (Hr2 & Hd3 & Hc3 & Hm3). apply wp_bind, wp_modify, wp_ret.
      split_and!; [done|by apply dev_sem| |].
      * cbn. unfold conf in Hc3. injection Hc3 as _ _ -> _. done.
      * intros x. cbn. rewrite Hm3. unfold mput. by rewrite Hm.
    + apply wp_ret, wp_bind, wp_modify, wp_ret. split_and!; [done|by apply dev_sem|done|done].
  - apply wp_ret, wp_bind, wp_modify, wp_ret. split_and!; try done. by apply dev_sem.
Qed.

(** What a write leaves in the copy, on any bus: the bytes of the write, valid,
    whether the chip took them or not. *)
Lemma block_write_copy i rm l (w : W) :
  safe rms w -> blk_mode (rd w) = 0 -> rms !! i = Some rm -> is_volatile rm = false -> Forall is_u8 l ->
  length l = nsize rm ->
  wp (rt_block_write rm 0 l i) (fun r w' =>
    conf (rd w') = conf (rd w) /\ z2b (default 0 (cached (rd w') !! i)) = true /\
    take (nsize rm) (drop (base rms i) (alloc_data (rd w'))) = l /\
    (wr_once rm = true -> z2b (default 0 (cached (rd w) !! i)) = true ->
     take (nsize rm) (drop (base rms i) (alloc_data (rd w))) = l -> r = 0 /\ cl w' = cl w)) w.
Proof using Hfull Hmap.
  intros Hs Hb Hi Hv Hu Hl. destruct (map_reg _ Hmap _ _ Hi) as [Hok Hlt].
  pose proof (wf_alloc _ _ (proj1 Hs)) as Halloc. pose proof (base_le _ _ _ Hi) as Hble.
  unfold rt_block_write. apply wp_bind. apply wp_modify.
  set (w1 := w <| rd ::= _ |>). assert (safe rms w1) as Hs1 by (by apply (ps_down rms WriteModeLock)).
  apply wp_bind, wp_gets. change (cached (rd w1)) with (cached (rd w)).
  set (c := z2b (default 0 (cached (rd w) !! i))).
  destruct (store_run rm i 0 l w1 Hs1 Hi Hv Hu ltac:(lia)) as (n & A & E & HA1 & HA2 & Hn0 & HA3).
  change (alloc_data (rd w1)) with (alloc_data (rd w)) in *. rewrite Nat.add_0_r in HA2, HA3.
  change (Z.to_nat 0) with 0%nat. apply wp_bind. eapply wp_eq; [exact E|].
  apply wp_bind. set (w2 := exec (when (negb c) (set_cached i)) (with_alloc w1 A)).
  assert (cl w2 = cl w /\ alloc_data (rd w2) = A /\ conf (rd w2) = conf (rd w) /\ blk_mode (rd w2) = 0 /\
    z2b (default 0 (cached (rd w2) !! i)) = true) as (F1 & F2 & F3 & F4 & F5).
  { subst w2. destruct c eqn:Ec; cbn; split_and!; try done.
    rewrite list_lookup_insert_eq; [done|]. by rewrite (wf_cached _ _ (proj1 Hs)). }
  assert (safe rms w2) as Hs2.
  { assert (safe rms (with_alloc w1 A)) as H.
    { pose proof (ps_store rms Hmap rm i 0 l Hi ltac:(lia) w1 Hs1) as H. unfold exec in H. by rewrite E in H. }
    subst w2. destruct c; [done|]. by apply (ps_set_cached rms). }
  apply wp_run. fold w2. clearbody w2.
  assert (take (nsize rm) (drop (base rms i) A) = l) as HAl.
  { rewrite <- Hl. apply take_drop_list; [lia|]. intros k Hk. rewrite HA2, decide_True by lia. f_equal. lia. }
  assert (c = true -> take (nsize rm) (drop (base rms i) (alloc_data (rd w))) = l -> n = 0) as Hn1.
  { intros _ H. apply HA3. intros m Hm. rewrite <- H at 1. rewrite lookup_take_lt, lookup_drop by lia. done. }
  apply wp_bind. apply wp_if; intros Hch.
  - apply wp_ret, wp_bind, wp_modify, wp_ret. cbn. rewrite F1, F2. by split_and!.
  - apply wp_bind. eapply wp_eq; [apply cache_get_run; done || lia|].
    unfold rt_chip_block_write. apply wp_bind, wp_gets. rewrite F4. cbn [orb Z.eqb].
    apply wp_client. intros r c'. apply wp_bind, wp_modify, wp_ret. cbn.
    rewrite F2. split; [done|]. split; [done|]. split; [done|].
    intros Ho Hc Ht. rewrite Hc, Ho, (Hn1 Hc Ht) in Hch. done.
Qed.

Lemma block_copy_write i rm l (w : W) :
  safe rms w -> blk_mode (rd w) = 0 -> rms !! i = Some rm -> is_volatile rm = false -> Forall is_u8 l ->
  length l = nsize rm ->
  wp (rt_cache_block_write (rm_addr rm) l) (fun r w' =>
    conf (rd w') = conf (rd w) /\ z2b (default 0 (cached (rd w') !! i)) = true /\
    take (nsize rm) (drop (base rms i) (alloc_data (rd w'))) = l /\
    (wr_once rm = true -> z2b (default 0 (cached (rd w) !! i)) = true ->
     take (nsize rm) (drop (base rms i) (alloc_data (rd w))) = l -> r = 0 /\ cl w' = cl w)) w.
Proof using Hfull Hmap.
  intros Hs Hb Hi Hv Hu Hl. destruct (map_reg _ Hmap _ _ Hi) as [Hok Hlt].
  pose proof (nsize_size _ Hok). pose proof Hok as (_ & Hsz & _).
  unfold rt_cache_block_write. rewrite (proj2 (Z.ltb_ge _ _)) by lia.
  apply wp_bind. eapply wp_find_reg; [done..|]. cbn [ri_index ri_offset].
  destruct (Z.ltb_spec (Z.of_nat i) 0); [lia|]. apply wp_bind, wp_ignore. eapply wp_reg_at; [done..|].
  apply wp_bind, wp_gets. rewrite (wf_map _ _ (proj1 Hs)), Nat2Z.id, (drop_S _ _ _ Hi).
  apply wp_bind. rewrite bool_decide_false by (intros ->; cbn in *; lia). cbn [cache_write_loop].
  rewrite chunk_size_spec by (done || lia).
  replace (Z.to_nat (Z.min (Z.of_nat (length l)) (rm_size rm - 0))) with (length l) by lia.
  rewrite firstn_all, drop_all, Hv. apply wp_bind, wp_bind, wp_gets. rewrite Hb.
  eapply wp_mono; [by apply block_write_copy|]. intros r w1 (H1 & H2 & H3 & H4).
  destruct (Z.ltb_spec r 0) as [Hr|Hr].
  - apply wp_ret. cbn [Z.ltb Z.compare]. apply wp_ret. split_and!; [done..|].
    intros Ho Hc Ht. destruct (H4 Ho Hc Ht). lia.
  - rewrite bool_decide_true by done. apply wp_bind, wp_modify, wp_ret. cbn [Z.ltb Z.compare].
    apply wp_bind, wp_gets, wp_ret. rewrite io_log_small by lia. rewrite andb_false_r.
    split_and!; [done..|]. intros Ho Hc Ht. by destruct (H4 Ho Hc Ht).
Qed.

(** A valid copy is read without the chip. *)
Lemma cached_block_read i rm (w : W) :
  safe rms w -> rms !! i = Some rm -> is_volatile rm = false -> z2b (default 0 (cached (rd w) !! i)) = true ->
  rt_cache_block_read (rm_addr rm) (rm_size rm) w =
  ((0, take (nsize rm) (drop (base rms i) (alloc_data (rd w)))), w).
Proof using Hmap.
  intros Hs Hi Hv Hc. destruct (map_reg _ Hmap _ _ Hi) as [Hok Hlt].
  pose proof (nsize_size _ Hok) as Hns. pose proof Hok as (_ & Hsz & _). pose proof (base_le _ _ _ Hi) as Hble.
  assert (wp (rt_cache_block_read (rm_addr rm) (rm_size rm)) (fun r w' =>
    r = (0, take (nsize rm) (drop (base rms i) (alloc_data (rd w)))) /\ w' = w) w) as H.
  2: { unfold wp, eval, exec in H. destruct (rt_cache_block_read _ _ w). cbn in H. by destruct H as [-> ->]. }
  unfold rt_cache_block_read. rewrite (proj2 (Z.ltb_ge _ _)) by lia.
  apply wp_bind. eapply wp_find_reg; [done..|]. cbn [ri_index ri_offset].
  destruct (Z.ltb_spec (Z.of_nat i) 0); [lia|]. apply wp_bind. eapply wp_reg_at; [done..|].
  apply wp_bind, wp_gets. rewrite (wf_map _ _ (proj1 Hs)), Nat2Z.id, Z.sub_0_r.
  rewrite total_size_sum by (apply Forall_drop, Hmap). rewrite (proj2 (Z.ltb_ge _ _)) by lia.
  apply wp_bind. unfold fault_unless at 1. rewrite (proj2 (Z.leb_le _ _)) by lia. apply wp_ret.
  apply wp_bind. change (Z.to_nat 0) with 0%nat. fold (nsize rm).
  eapply wp_eq; [apply cache_get_run; done || lia|]. rewrite Nat.add_0_r.
  apply wp_bind, wp_gets. rewrite Hc, Hv. cbn [orb negb]. apply wp_bind, wp_ret. cbn [fst snd Z.ltb Z.compare].
  rewrite u32_id by (unfold is_u32; lia). apply wp_bind.
  assert (forall data, cache_read_loop (drop (S i) rms) (S i) (rm_size rm) (rm_size rm) data = ret (0, data)) as ->.
  { intros data. destruct (drop (S i) rms); cbn [cache_read_loop]; by rewrite Z.leb_refl. }
  apply wp_ret. cbn [fst snd Z.ltb Z.compare]. apply wp_ret. by rewrite take_take, Nat.min_id.
Qed.

(** The same for the write of a register. *)
Lemma reg_write_copy i rm data l (w : W) :
  safe rms w -> rd_ops (rd w) = OpsCache -> blk_mode (rd w) = 0 -> rms !! i = Some rm ->
  is_volatile rm = false -> write_bytes (rt_format (rd w)) (rm_size rm) data = Some l ->
  wp (_rt_regmap_reg_write (rm_addr rm) data) (fun r w' =>
    safe rms w' /\ conf (rd w') = conf (rd w) /\ z2b (default 0 (cached (rd w') !! i)) = true /\
    take (nsize rm) (drop (base rms i) (alloc_data (rd w'))) = l /\
    (wr_once rm = true -> z2b (default 0 (cached (rd w) !! i)) = true ->
     take (nsize rm) (drop (base rms i) (alloc_data (rd w))) = l -> r = 0 /\ cl w' = cl w)) w.
Proof using Hfull Hmap Hne.
  intros Hs Hops Hb Hi Hv El. destruct (map_reg _ Hmap _ _ Hi) as [Hok Hlt]. pose proof (nsize_size _ Hok).
  apply length_write_bytes in El as Hll. apply write_bytes_u8 in El as Hu.
  assert (safe rms (exec (_rt_regmap_reg_write (rm_addr rm) data) w)) as Hsafe.
  { apply ps_reg_write; [done..| |done]. intros. by apply ps_block_write. }
  cut (wp (_rt_regmap_reg_write (rm_addr rm) data) (fun r w' =>
    conf (rd w') = conf (rd w) /\ z2b (default 0 (cached (rd w') !! i)) = true /\
    take (nsize rm) (drop (base rms i) (alloc_data (rd w'))) = l /\
    (wr_once rm = true -> z2b (default 0 (cached (rd w) !! i)) = true ->
     take (nsize rm) (drop (base rms i) (alloc_data (rd w))) = l -> r = 0 /\ cl w' = cl w)) w);
    [by intros H1; split|]. clear Hsafe.
  apply wp_bind. eapply wp_find_reg; [done..|]. cbn [ri_index ri_offset].
  destruct (Z.ltb_spec (Z.of_nat i) 0); [lia|]. cbn [orb negb Z.eqb]. apply wp_bind, wp_modify.
  set (w1 := w <| rd ::= _ |>). assert (safe rms w1) as Hs1 by (by apply (ps_down rms Semaphore)).
  apply wp_bind. eapply wp_reg_at; [done..|]. apply wp_bind, wp_gets.
  change (rt_format (rd w1)) with (rt_format (rd w)). rewrite El. apply wp_bind, wp_bind.
  apply wp_bind, wp_gets. change (rd_ops (rd w1)) with (rd_ops (rd w)). rewrite Hops.
  eapply wp_mono; [apply (block_copy_write i rm l w1); [done|exact Hb|done|done|done|lia]|].
  intros r w2 (H1 & H2 & H3 & H4). apply wp_ret, wp_bind, wp_modify, wp_ret. split_and!; [done..|].
  intros Ho Hc Ht. destruct (H4 Ho Hc Ht) as [-> E]. done.
Qed.

Lemma reg_read_copy i rm (w : W) l :
  safe rms w -> rd_ops (rd w) = OpsCache -> rms !! i = Some rm -> is_volatile rm = false ->
  z2b (default 0 (cached (rd w) !! i)) = true ->
  take (nsize rm) (drop (base rms i) (alloc_data (rd w))) = l -> 1 <= rm_size rm <= 4 ->
  wp (_rt_regmap_reg_read (rm_addr rm) 0) (fun r w' =>
    r = (0, read_value (rt_format (rd w)) (rm_size rm) 0 l) /\ cl w' = cl w) w.
Proof using Hmap.
  intros Hs Hops Hi Hv Hc Hl Hsz. apply wp_bind. eapply wp_find_reg; [done..|]. cbn [ri_index ri_offset].
  destruct (Z.ltb_spec (Z.of_nat i) 0); [lia|]. cbn [orb negb Z.eqb]. apply wp_bind, wp_modify.
  set (w1 := w <| rd ::= _ |>). assert (safe rms w1) as Hs1 by (by apply (ps_down rms Semaphore)).
  apply wp_bind, wp_bind. eapply wp_reg_at; [done..|]. apply wp_bind, wp_gets.
  rewrite (proj2 (Z.leb_le _ _)), (proj2 (Z.leb_le _ _)) by lia. cbn [andb].
  apply wp_bind, wp_bind, wp_gets. change (rd_ops (rd w1)) with (rd_ops (rd w)). rewrite Hops.
  eapply wp_eq; [by apply (cached_block_read i rm w1)|]. cbn [fst snd Z.ltb Z.compare].
  change (alloc_data (rd w1)) with (alloc_data (rd w)). rewrite Hl. apply wp_ret, wp_bind, wp_modify, wp_ret. done.
Qed.
End Cache.

(** ** Byte order *)

Lemma le_bytes_app l t : Forall is_u8 l -> le_bytes (length l) (le_value (l ++ t)) = l.
Proof.
  induction 1 as [|b l Hb _ IH]; [done|]. cbn [length app le_bytes le_value]. unfold is_u8 in Hb.
  rewrite (Z.mul_comm 256), Z.mod_add, Z.mod_small, Z.div_add, Z.div_small, Z.add_0_l by lia. by rewrite IH.
Qed.

Lemma le_bytes_value l n : Forall is_u8 l -> length l = n -> le_bytes n (le_value l) = l.
Proof. intros H <-. pose proof (le_bytes_app l [] H) as E. by rewrite app_nil_r in E. Qed.

Lemma le_value_bytes n v : le_value (le_bytes n v) = v mod 256 ^ Z.of_nat n.
Proof.
  revert v. induction n as [|n IH]; intros v; [by rewrite Z.mod_1_r|].
  cbn [le_bytes le_value]. rewrite IH, Nat2Z.inj_succ, Z.pow_succ_r by lia.
  rewrite (Z.rem_mul_r v 256) by lia. lia.
Qed.

Lemma le_value_shift b l : is_u8 b -> Z.shiftr (le_value (b :: l)) 8 = le_value l.
Proof.
  intros H. unfold is_u8 in H. cbn [le_value]. rewrite Z.shiftr_div_pow2 by lia. change (2 ^ 8) with 256.
  by rewrite (Z.mul_comm 256), Z.div_add, Z.div_small, Z.add_0_l by lia.
Qed.

Lemma rev_le_bytes_u8 n v : Forall is_u8 (rev (le_bytes n v)).
Proof. apply Forall_rev, le_bytes_u8. Qed.

(** The chip has the most significant byte first. *)
Lemma write_bytes_le size data :
  1 <= size <= 4 -> write_bytes RT_LITTLE_ENDIAN size data = Some (rev (le_bytes (Z.to_nat size) data)).
Proof.
  intros H. assert (size = 1 \/ size = 2 \/ size = 3 \/ size = 4) as Hc by lia.
  destruct Hc as [->|[->|[->| ->]]]; unfold write_bytes; f_equal.
  - apply le_bytes_value; [apply rev_le_bytes_u8|done].
  - change (rev (le_bytes 4 data)) with (data / 256 / 256 / 256 mod 256 :: rev (le_bytes 3 data)).
    unfold be32_to_cpu. change (rev (le_bytes 4 data)) with (data / 256 / 256 / 256 mod 256 :: rev (le_bytes 3 data)).
    rewrite le_value_shift by (apply Z.mod_pos_bound; lia). apply le_bytes_value; [apply rev_le_bytes_u8|done].
  - apply le_bytes_value; [apply rev_le_bytes_u8|done].
Qed.

Lemma read_value_le size l :
  1 <= size <= 4 -> Z.of_nat (length l) = size -> Forall is_u8 l ->
  read_value RT_LITTLE_ENDIAN size 0 l = le_value (rev l).
Proof.
  intros H Hl Hu. assert (size = 1 \/ size = 2 \/ size = 3 \/ size = 4) as Hc by lia.
  unfold read_value, stored, be16_to_cpu, be32_to_cpu.
  destruct Hc as [->|[->|[->| ->]]].
  - destruct l as [|a [|? ?]]; try (cbn in Hl; lia).
    change (overlay (le_bytes 4 0) 0 [a]) with [a; 0; 0; 0]. cbn [rev app le_value]. lia.
  - destruct l as [|a [|b [|? ?]]]; try (cbn in Hl; lia).
    pose proof (le_bytes_app [a; b] [0; 0] Hu) as E. change (length [a; b]) with 2%nat in E.
    change (overlay [0; 0; 0; 0] 0 [a; b]) with ([a; b] ++ [0; 0]). rewrite E.
    rewrite le_bytes_value by (done || by apply Forall_rev).
    change (overlay (le_bytes 4 0) 0 (rev [a; b])) with [b; a; 0; 0]. cbn [rev app le_value]. lia.
  - destruct l as [|a [|b [|c [|? ?]]]]; try (cbn in Hl; lia).
    change (overlay [0; 0; 0; 0] 0 [a; b; c]) with [a; b; c; 0].
    rewrite (le_bytes_value [a; b; c; 0] 4)
      by (done || exact (Forall_app_2 is_u8 [a; b; c] [0] Hu (zeros_u8 1))).
    change (rev [a; b; c; 0]) with (0 :: rev [a; b; c]). by rewrite le_value_shift.
  - destruct l as [|a [|b [|c [|d [|? ?]]]]]; try (cbn in Hl; lia).
    change (overlay [0; 0; 0; 0] 0 [a; b; c; d]) with [a; b; c; d]. by rewrite le_bytes_value.
Qed.

Lemma mget_mput m a l : mget (mput m a l) a (Z.of_nat (length l)) = l.
Proof.
  apply list_eq. intros k. destruct (decide (k < length l)%nat) as [Hk|Hk].
  - rewrite mget_lookup, mput_in by lia. destruct (lookup_lt_is_Some_2 l k Hk) as [x E]. by rewrite E.
  - rewrite !lookup_ge_None_2; [done|lia|rewrite length_mget; lia].
Qed.

Lemma abs_roundtrip rm m data :
  1 <= rm_size rm <= 4 ->
  abs_read RT_LITTLE_ENDIAN rm (abs_write RT_LITTLE_ENDIAN rm m data) 0 = data mod 256 ^ rm_size rm.
Proof.
  intros H. unfold abs_read, abs_write. rewrite write_bytes_le by done.
  rewrite (proj2 (Z.leb_le _ _)), (proj2 (Z.leb_le _ _)) by lia. cbn [andb].
  set (l := rev (le_bytes (Z.to_nat (rm_size rm)) data)).
  assert (Z.of_nat (length l) = rm_size rm) as Hl by (subst l; rewrite length_rev, length_le_bytes; lia).
  assert (mget (mput m (rm_addr rm) l) (rm_addr rm) (rm_size rm) = l) as -> by (rewrite <- Hl; apply mget_mput).
  rewrite read_value_le by (done || apply rev_le_bytes_u8). subst l.
  rewrite rev_involutive, le_value_bytes, Z2Nat.id by lia. done.
Qed.

(** ** The device as a memory *)

Inductive acc : Type := AccRead (reg old : Z) | AccWrite (reg data : Z) | AccUpdate (reg mask data : Z).

Definition acc_reg (a : acc) : Z :=
  match a with AccRead r _ | AccWrite r _ | AccUpdate r _ _ => r end.

(** An access on a memory of bytes: whether it is refused, the value it gives and
    the memory after it. *)
Definition acc_abs (rms : list rt_register) (fmt : rt_data_format) (m : Z -> Z) (a : acc) : bool * Z * (Z -> Z) :=
  match list_find (fun rm => rm_addr rm = acc_reg a) rms with
  | None => (true, match a with AccRead _ old => old | _ => 0 end, m)
  | Some (_, rm) =>
      match a with
      | AccRead _ old => (false, abs_read fmt rm m old, m)
      | AccWrite _ data => (false, 0, abs_write fmt rm m data)
      | AccUpdate _ mask data => (false, 0, abs_update fmt rm m mask data)
      end
  end.

Definition acc_run {C} `{!RtClient C} (a : acc) : M (rtworld C) (Z * Z) :=
  match a with
  | AccRead reg old => rt_regmap_reg_read reg old
  | AccWrite reg data => let! r := rt_regmap_reg_write reg data in ret (r, 0)
  | AccUpdate reg mask data => let! r := rt_regmap_update_bits reg mask data in ret (r, 0)
  end.

(** Arguments of type [u32], the address not below the map. *)
Definition acc_ok (rms : list rt_register) (a : acc) : Prop :=
  is_u32 (acc_reg a) /\ default 0 (rm_addr <$> head rms) <= acc_reg a /\
  match a with AccRead _ _ => True | AccWrite _ d => is_u32 d | AccUpdate _ k d => is_u32 k /\ is_u32 d end.

Lemma find_addr rms reg :
  map_ok rms -> rms <> [] ->
  default 0 (rm_addr <$> head rms) <= reg ->
  match list_find (fun rm => rm_addr rm = reg) rms with
  | Some (i, rm) => rms !! i = Some rm /\ rm_addr rm = reg
  | None => ri_index (find_rio rms reg) < 0 \/ ri_offset (find_rio rms reg) <> 0
  end.
Proof.
  intros Hmap Hne Hf. destruct (list_find _ rms) as [[i rm]|] eqn:E; [by apply list_find_Some in E as (? & ? & _)|].
  apply list_find_None in E. unfold find_rio. destruct (list_find (reg_covers reg) rms) as [[i rm]|] eqn:E2.
  - right. apply list_find_Some in E2 as (H1 & H2 & _). rewrite Forall_lookup in E.
    specialize (E _ _ H1). cbn. lia.
  - destruct rms as [|rm l]; [done|]. cbn in *. destruct (Z.ltb_spec reg (rm_addr rm)); [lia|]. left. cbn. lia.
Qed.

Section Memory.
  Context {C : Type} `{!RtClient C} (mem : C -> Z -> Z) `{!ChipMem mem}.
  Context (rms : list rt_register) (Hmap : map_ok rms) (Hne : rms <> []) (Hfull : full_masks rms).

Lemma acc_spec o a (w : rtworld C) :
  dev mem rms o w -> acc_ok rms a ->
  wp (acc_run a) (fun r w' =>
    let '(fail, v, m) := acc_abs rms (rt_format (rd w)) (mem (cl w)) a in
    (fst r <? 0) = fail /\ snd r = v /\ dev mem rms o w' /\ rt_format (rd w') = rt_format (rd w) /\
    forall x, mem (cl w') x = m x) w.
Proof using ChipMem0 Hfull Hmap Hne.
  intros Hd (Hr & Hf & Ha). pose proof (find_addr _ _ Hmap Hne Hf) as Hfind. unfold acc_abs.
  destruct (list_find _ rms) as [[i rm]|].
  - destruct Hfind as [Hi E]. destruct a as [reg old|reg data|reg mask data]; cbn in *; subst reg.
    + unfold rt_regmap_reg_read. rewrite u32_id by done.
      eapply wp_mono; [by eapply reg_read_run|]. intros r w' (-> & H1 & H2 & H3). done.
    + unfold rt_regmap_reg_write. rewrite !u32_id by done. apply wp_bind.
      eapply wp_mono; [by eapply reg_write_run|]. intros r w' (-> & H1 & H2 & H3). by apply wp_ret.
    + unfold rt_regmap_update_bits. destruct Ha. rewrite !u32_id by done. apply wp_bind.
      eapply wp_mono; [by eapply reg_update_run|]. intros r w' (Hr' & H1 & H2 & H3). apply wp_ret.
      split_and!; try done. cbn. apply Z.ltb_ge. lia.
  - assert ((ri_index (find_rio rms (acc_reg a)) <? 0) || negb (ri_offset (find_rio rms (acc_reg a)) =? 0) = true) as Hb.
    { destruct Hfind as [H|H]; [by rewrite (proj2 (Z.ltb_lt _ _) H)|].
      by rewrite (proj2 (Z.eqb_neq _ _) H), orb_true_r. }
    destruct a as [reg old|reg data|reg mask data]; cbn in *.
    + unfold rt_regmap_reg_read. rewrite u32_id by done. apply wp_bind.
      eapply wp_eq; [apply (find_register_run rms); [done|apply Hd]|]. rewrite Hb. by apply wp_ret.
    + unfold rt_regmap_reg_write, _rt_regmap_reg_write. rewrite !u32_id by done. apply wp_bind, wp_bind.
      eapply wp_eq; [apply (find_register_run rms); [done|apply Hd]|]. rewrite Hb. by apply wp_ret, wp_ret.
    + unfold rt_regmap_update_bits. destruct Ha. rewrite !u32_id by done. apply wp_bind, wp_bind.
      eapply wp_eq; [apply (find_register_run rms); [done|apply Hd]|]. rewrite Hb. by apply wp_ret, wp_ret.
Qed.

Definition related (w1 w2 : rtworld C) : Prop :=
  dev mem rms OpsCache w1 /\ dev mem rms OpsChip w2 /\ rt_format (rd w1) = rt_format (rd w2) /\
  forall x, mem (cl w1) x = mem (cl w2) x.

(** Values and refusals of a list of accesses, and the device after them. *)
Fixpoint observe (l : list acc) (w : rtworld C) : list (bool * Z) * rtworld C :=
  match l with
  | [] => ([], w)
  | a :: l' =>
      let '(r, w1) := acc_run a w in
      let '(rs, w2) := observe l' w1 in ((fst r <? 0, snd r) :: rs, w2)
  end.

(** Reads of the memory depend on its bytes only. *)
Lemma abs_ext fmt m m' a :
  (forall x, m x = m' x) ->
  (acc_abs rms fmt m a).1 = (acc_abs rms fmt m' a).1 /\ forall x, (acc_abs rms fmt m a).2 x = (acc_abs rms fmt m' a).2 x.
Proof.
  intros H. unfold acc_abs. destruct (list_find _ rms) as [[i rm]|]; [|done].
  destruct a; cbn; unfold abs_read, abs_write, abs_update; rewrite ?(mget_ext m m') by done.
  - done.
  - split; [done|]. intros x. destruct (write_bytes _ _ _); [|done]. unfold mput. by rewrite H.
  - split; [done|]. intros x. destruct (_ && _); [|done].
    match goal with |- context [if ?c then _ else m] => destruct c end; [|done]. unfold mput. by rewrite H.
Qed.

Lemma related_step a w1 w2 :
  related w1 w2 -> acc_ok rms a ->
  let '(r1, w1') := acc_run a w1 in let '(r2, w2') := acc_run a w2 in
  (fst r1 <? 0, snd r1) = (fst r2 <? 0, snd r2) /\ related w1' w2'.
Proof using ChipMem0 Hfull Hmap Hne.
  intros (D1 & D2 & Hf & Hm) Ha.
  pose proof (acc_spec _ _ _ D1 Ha) as S1. pose proof (acc_spec _ _ _ D2 Ha) as S2.
  destruct (abs_ext (rt_format (rd w2)) _ _ a Hm) as [E1 E2].
  unfold wp, eval, exec in S1, S2. rewrite Hf in S1.
  destruct (acc_run a w1) as [r1 w1'], (acc_run a w2) as [r2 w2']. cbn [fst snd] in *.
  destruct (acc_abs rms _ (mem (cl w1)) a) as [[f1 v1] m1], (acc_abs rms _ (mem (cl w2)) a) as [[f2 v2] m2].
  cbn in E1, E2. simplify_eq. destruct S1 as (A1 & A2 & A3 & A4 & A5), S2 as (B1 & B2 & B3 & B4 & B5).
  split; [congruence|]. split_and!; try done; [congruence|]. intros x. by rewrite A5, B5, E2.
Qed.

Lemma related_observe l w1 w2 :
  related w1 w2 -> Forall (acc_ok rms) l ->
  fst (observe l w1) = fst (observe l w2) /\ related (snd (observe l w1)) (snd (observe l w2)).
Proof using ChipMem0 Hfull Hmap Hne.
  intros Hr Hl. revert w1 w2 Hr. induction Hl as [|a l Ha _ IH]; intros w1 w2 Hr; [done|].
  cbn [observe]. pose proof (related_step a w1 w2 Hr Ha) as H.
  destruct (acc_run a w1) as [r1 w1'], (acc_run a w2) as [r2 w2']. destruct H as [E Hr'].
  destruct (IH _ _ Hr') as [E2 Hr2]. destruct (observe l w1'), (observe l w2'). cbn in *.
  split; [congruence|done].
Qed.

(** The chip may change what it may change. *)
Lemma related_env w1 w2 c1 c2 :
  related w1 w2 ->
  (forall x, mem c1 x = mem c2 x) ->
  (forall i rm k, rms !! i = Some rm -> is_volatile rm = false -> 0 <= k < rm_size rm ->
     mem c1 (rm_addr rm + k) = mem (cl w1) (rm_addr rm + k)) ->
  related (w1 <| cl := c1 |>) (w2 <| cl := c2 |>).
Proof using Hmap.
  intros ((S1 & O1 & B1 & C1 & N1) & (S2 & O2 & B2 & C2 & N2) & Hf & Hm) Hc Hv.
  assert (coherent mem rms (w1 <| cl := c1 |>)); [|by split_and!].
  intros i rm k Hi Hvol Hcached Hk. cbn in *.
  destruct (map_reg _ Hmap _ _ Hi) as [Hok _]. pose proof (nsize_size _ Hok).
  rewrite (Hv i rm (Z.of_nat k)) by (done || lia). by apply C1.
Qed.
End Memory.


(** ** The concrete memory *)

Definition steady_at (c : steady_mem) (a : Z) : Z := byte_at (st_bytes c) a.

Lemma put_bytes_at l g a x :
  Forall is_u8 l -> byte_at (put_bytes g a l) x = mput (byte_at g) a l x.
Proof.
  intros Hl. revert g a. induction Hl as [|v l Hv _ IH]; intros g a; cbn [put_bytes].
  { by rewrite mput_out by (cbn; lia). }
  rewrite IH. unfold mput. cbn [length]. unfold byte_at at 1. destruct (Z.eq_dec x a) as [->|Hx].
  - rewrite lookup_insert_eq, Z.sub_diag. cbn.
    destruct (Z.leb_spec (a + 1) a), (Z.leb_spec a a), (Z.ltb_spec a (a + Z.of_nat (S (length l)))); try lia.
    cbn. by apply u8_id.
  - rewrite lookup_insert_ne by done. fold (byte_at g x).
    destruct (Z.leb_spec (a + 1) x), (Z.leb_spec a x); try lia; cbn [andb]; [|done].
    destruct (Z.ltb_spec x (a + 1 + Z.of_nat (length l))), (Z.ltb_spec x (a + Z.of_nat (S (length l)))); try lia; try done.
    replace (Z.to_nat (x - a)) with (S (Z.to_nat (x - (a + 1)))) by lia. done.
Qed.

#[global] Instance steady_chip : ChipMem steady_at.
Proof.
  split.
  - intros. apply u8_range.
  - intros a n c. exists (Z.max 0 n), c. by split_and!; [|lia|].
  - intros a l c Hl. eexists 0, _. split_and!; [done|done|]. intros x. by apply put_bytes_at.
Qed.

Lemma demo_map_ok : map_ok (map full_mask demo_map).
Proof. split; [by apply (bool_decide_unpack (Forall reg_ok _)); vm_compute|by vm_compute]. Qed.

Lemma demo_full : full_masks (map full_mask demo_map).
Proof. repeat constructor; by intros. Qed.

(** A device just registered has no valid copies. *)
Lemma demo_dev_dev o mode (c : steady_mem) :
  (mode, o) ∈ [(0, OpsCache); (4, OpsChip)] -> dev steady_at (map full_mask demo_map) o (demo_dev mode c).
Proof.
  intros H. apply list_elem_of_In in H.
  assert (safe (map full_mask demo_map) (demo_dev mode c)) as Hs.
  { assert (map_ok demo_map) by (split; [by apply (bool_decide_unpack (Forall reg_ok _)); vm_compute|by vm_compute]).
    destruct H as [[= <- <-]|[[= <- <-]|[]]];
      [apply (register_safe (demo_props 0) true true None c)|apply (register_safe (demo_props 4) true true None c)];
      done. }
  destruct H as [[= <- <-]|[[= <- <-]|[]]]; split_and!; try done. intros _ i rm k _ _ Hc.
  by destruct i as [|[|[|i]]].
Qed.


(** On a bus that works, a number written to a register of one to four bytes
    is read back modulo the size of the register, whatever its type, with
    copies or without: the byte order of the two directions agrees. *)
Theorem reg_roundtrip {C} `{!RtClient C} (mem : C -> Z -> Z) `{!ChipMem mem} rms o i rm data w :
  map_ok rms -> rms <> [] -> full_masks rms -> dev mem rms o w ->
  rt_format (rd w) = RT_LITTLE_ENDIAN -> rms !! i = Some rm -> 1 <= rm_size rm <= 4 -> is_u32 data ->
  let '(r, w1) := rt_regmap_reg_write (rm_addr rm) data w in
  r = 0 /\ eval (rt_regmap_reg_read (rm_addr rm) 0) w1 = (0, data mod 256 ^ rm_size rm).
Proof.
  intros Hm Hn Hf Hd Hfmt Hi Hs Hu. destruct (map_reg _ Hm _ _ Hi) as [((Ha1 & Ha2) & _) _].
  assert (is_u32 (rm_addr rm)) as Ha by (unfold is_u32; lia).
  pose proof (reg_write_run mem rms Hm Hn Hf o i rm data w Hd Hi) as H1. unfold wp, eval, exec in H1.
  unfold rt_regmap_reg_write, rt_regmap_reg_read. rewrite !u32_id by done.
  destruct (_rt_regmap_reg_write _ _ w) as [r w1]. destruct H1 as (H1 & H2 & H3 & H4). cbn in *.
  split; [done|]. destruct (reg_read_run mem rms Hm Hn o i rm 0 w1 H2 Hi) as (-> & _).
  rewrite H3, Hfmt, <- (abs_roundtrip rm (mem (cl w)) data Hs). f_equal.
  unfold abs_read. rewrite (mget_ext (mem (cl w1)) (abs_write RT_LITTLE_ENDIAN rm (mem (cl w)) data)); [done|].
  intros x. by rewrite H4, Hfmt.
Qed.

Lemma reg_roundtrip_witness :
  eval (rt_regmap_reg_read 0x12 0) (exec (rt_regmap_reg_write 0x12 0xAB123456) (demo_dev 0 (mk_steady ∅))) =
  (0, 0x123456).
Proof.
  pose proof (reg_roundtrip steady_at (map full_mask demo_map) OpsCache 1 (mk_reg 0x12 3 RT_NORMAL [0xff; 0xff; 0xff])
    0xAB123456 (demo_dev 0 (mk_steady ∅)) demo_map_ok) as H.
  assert (dev steady_at (map full_mask demo_map) OpsCache (demo_dev 0 (mk_steady ∅))) as Hd
    by (apply demo_dev_dev, list_elem_of_In; cbn; auto).
  specialize (H ltac:(done) demo_full Hd eq_refl eq_refl ltac:(cbn; lia) ltac:(by vm_compute)).
  cbn [rm_addr rm_size] in H. unfold exec.
  destruct (rt_regmap_reg_write 0x12 0xAB123456 (demo_dev 0 (mk_steady ∅))) as [r w1]. exact (proj2 H).
Defined.

(** Once a register of type NORMAL with WR_ONCE has been written, whether the
    chip took the value or the bus failed and the caller was told -EIO, the
    copy holds the value: writing it again reports success without touching
    the chip, and reading gives it without asking the chip.  A retry after a
    failed write is lost. *)
Theorem failed_write_sticks {C} `{!RtClient C} rms i rm data w :
  map_ok rms -> rms <> [] -> full_masks rms -> safe rms w ->
  rd_ops (rd w) = OpsCache -> blk_mode (rd w) = 0 -> rt_format (rd w) = RT_LITTLE_ENDIAN ->
  rms !! i = Some rm -> is_volatile rm = false -> wr_once rm = true -> 1 <= rm_size rm <= 4 ->
  let w1 := exec (_rt_regmap_reg_write (rm_addr rm) data) w in
  eval (_rt_regmap_reg_write (rm_addr rm) data) w1 = 0 /\
  cl (exec (_rt_regmap_reg_write (rm_addr rm) data) w1) = cl w1 /\
  eval (_rt_regmap_reg_read (rm_addr rm) 0) w1 = (0, data mod 256 ^ rm_size rm) /\
  cl (exec (_rt_regmap_reg_read (rm_addr rm) 0) w1) = cl w1.
Proof.
  intros Hm Hn Hf Hs Hops Hb Hfmt Hi Hv Ho Hsz. set (l := rev (le_bytes (Z.to_nat (rm_size rm)) data)).
  assert (write_bytes (rt_format (rd w)) (rm_size rm) data = Some l) as El by (by rewrite Hfmt, write_bytes_le).
  destruct (reg_write_copy rms Hm Hn Hf i rm data l w Hs Hops Hb Hi Hv El) as (Hs1 & Hc1 & Hca & Hsl & _).
  set (w1 := exec _ w) in *. cbv zeta.
  assert (rd_ops (rd w1) = OpsCache /\ blk_mode (rd w1) = 0 /\ rt_format (rd w1) = RT_LITTLE_ENDIAN) as (O1 & B1 & F1)
    by (unfold conf in Hc1; injection Hc1 as E1 E2 E3 _; unfold blk_mode in *; rewrite E1, E2, E3; done).
  rewrite Hfmt in El. rewrite <- F1 in El.
  destruct (reg_write_copy rms Hm Hn Hf i rm data l w1 Hs1 O1 B1 Hi Hv El) as (_ & _ & _ & _ & H).
  destruct (H Ho Hca Hsl) as [R1 R2]. split; [done|]. split; [done|].
  destruct (reg_read_copy rms Hm i rm w1 l Hs1 O1 Hi Hv Hca Hsl Hsz) as [R3 R4]. split; [|done].
  rewrite R3, F1, read_value_le by (done || apply rev_le_bytes_u8 ||
    (subst l; rewrite length_rev, length_le_bytes; lia)).
  subst l. by rewrite rev_involutive, le_value_bytes, Z2Nat.id by lia.
Qed.

(** The bus fails the first write: the caller gets -EIO, the retry 0, and the
    register of the chip is still 0. *)
Lemma failed_write_sticks_witness :
  let w := demo_dev 0 (mk_flaky ∅ [true]) in
  let w1 := exec (_rt_regmap_reg_write 0x10 5) w in
  let w2 := exec (_rt_regmap_reg_write 0x10 5) w1 in
  eval (_rt_regmap_reg_write 0x10 5) w = - EIO /\ eval (_rt_regmap_reg_write 0x10 5) w1 = 0 /\
  byte_at (fl_bytes (cl w2)) 0x10 = 0.
Proof.
  intros w w1 w2. split; [by vm_compute|].
  assert (safe (map full_mask demo_map) w) as Hs.
  { apply (register_safe (demo_props 0) true true None (mk_flaky ∅ [true])); try done.
    split; [by apply (bool_decide_unpack (Forall reg_ok _)); vm_compute|by vm_compute]. }
  destruct (failed_write_sticks (map full_mask demo_map) 0 (mk_reg 0x10 1 RT_NORMAL_WR_ONCE [0xff]) 5 w demo_map_ok
    ltac:(done) demo_full Hs eq_refl eq_refl eq_refl eq_refl eq_refl eq_refl ltac:(cbn; lia)) as (H1 & H2 & _).
  split; [exact H1|]. replace (cl w2) with (cl w1) by (symmetry; exact H2). by vm_compute.
Defined.

(** ** What goes wrong *)

(** In the big-endian format a write of two bytes or more writes zeros. *)
Example big_endian_write :
  write_bytes RT_BIG_ENDIAN 2 0x1234 = Some [0; 0] /\ write_bytes RT_BIG_ENDIAN 4 0x12345678 = Some [0; 0; 0; 0].
Proof. done. Qed.

(** A block that starts inside a register is sent from the start of the copy: the
    byte 9 for address 0x13 does not arrive, the byte of 0x12 does. *)
Example offset_write :
  let w := exec (rt_regmap_reg_write 0x12 0x010203) (demo_dev 0 (mk_steady ∅)) in
  let '(r, w1) := rt_regmap_block_write 0x13 [9] w in
  r = 0 /\ steady_at (cl w1) 0x13 = 1 /\ eval (rt_regmap_block_read 0x13 1) w1 = (0, [9]).
Proof. by vm_compute. Qed.

(** A block that starts inside a register and runs into the next one misses it:
    the offset is kept. *)
Example offset_kept :
  let '(r, w1) := rt_regmap_block_write 0x14 [9; 8; 7] (demo_dev 0 (mk_steady ∅)) in
  r = - EIO /\ rd_fault (rd w1) = true.
Proof. by vm_compute. Qed.

(** A block that runs over the end reads the table behind its end. *)
Example over_the_end :
  let '(r, w1) := rt_regmap_block_write 0x20 [1; 2; 3] (demo_dev 0 (mk_steady ∅)) in
  r = - EIO /\ rd_fault (rd w1) = true.
Proof. by vm_compute. Qed.

(** An address below the map is taken for its first register. *)
Example below_the_map :
  let '(r, w1) := rt_regmap_reg_write 0x03 0x5A (demo_dev 0 (mk_steady ∅)) in
  r = 0 /\ steady_at (cl w1) 0x10 = 0x5A.
Proof. by vm_compute. Qed.

(** With the log on, a delayed write of nine bytes is done, reported as -EINVAL,
    and its write-back is not scheduled. *)
Example asyn_log :
  io_log_asyn 8 0 0 = true /\ io_log_asyn 9 0 0 = false /\ io_log 42 0 = true /\ io_log 43 0 = false.
Proof. done. Qed.

(** Five wrong inputs overrun the buffer of the error message. *)
Example error_message_overrun :
  let cmd := ignore (general_write 4 (DbgData (Some [0]))) in
  let w := demo_dev 0 (mk_steady ∅) in
  rd_fault (rd (exec (cmd ;;; cmd ;;; cmd ;;; cmd) w)) = false /\
  rd_fault (rd (exec (cmd ;;; cmd ;;; cmd ;;; cmd ;;; cmd) w)) = true.
Proof. by vm_compute. Qed.
