(* ===== verification/Mt6370Map.v ===== *)
(** * The registers of the MT6370
    (drivers/misc/mediatek/subpmic/mt6370_pmu_reg.c, inc/mt6370_pmu.h)

    The table the driver registers with rt-regmap, and its access functions:
    every register has one byte; it is volatile, or normal and written once. *)

From S2P Require Import Prelude RtRegmap.
#[local] Open Scope Z_scope.

(** The addresses of [mt6370_pmu_regmap], in its order. *)
Definition mt6370_addrs : list Z :=
  [
    0x00; 0x01; 0x02; 0x03; 0x04; 0x07; 0x08; 0x09; 0x0A; 0x0B; 0x0C; 0x0D; 0x0E; 0x0F; 0x10;
    0x11; 0x12; 0x13; 0x14; 0x15; 0x16; 0x17; 0x18; 0x19; 0x1A; 0x1B; 0x1C; 0x1D; 0x1E; 0x1F;
    0x20; 0x21; 0x22; 0x23; 0x24; 0x25; 0x26; 0x27; 0x28; 0x29; 0x2A; 0x2B; 0x2C; 0x2D; 0x2E;
    0x2F; 0x30; 0x31; 0x33; 0x35; 0x36; 0x37; 0x38; 0x3E; 0x4A; 0x4B; 0x4C; 0x4D; 0x4E; 0x4F;
    0x50; 0x51; 0x52; 0x53; 0x60; 0x61; 0x62; 0x70; 0x72; 0x73; 0x74; 0x75; 0x76; 0x78; 0x79;
    0x7A; 0x7B; 0x7C; 0x7E; 0x80; 0x81; 0x82; 0x83; 0x84; 0x85; 0x86; 0x87; 0x88; 0x89; 0x8A;
    0x8B; 0x8C; 0x8D; 0x8E; 0x8F; 0x90; 0x91; 0x92; 0x93; 0x94; 0x95; 0x96; 0x97; 0x98; 0x99;
    0x9A; 0x9F; 0xA0; 0xA1; 0xA2; 0xA3; 0xA4; 0xA5; 0xA6; 0xA7; 0xA8; 0xA9; 0xAA; 0xAB; 0xAD;
    0xB0; 0xB1; 0xB2; 0xB3; 0xB4; 0xC0; 0xC1; 0xC2; 0xC3; 0xC4; 0xC5; 0xC6; 0xC7; 0xC8; 0xC9;
    0xCA; 0xCB; 0xCC; 0xCD; 0xCE; 0xCF; 0xD0; 0xD1; 0xD2; 0xD3; 0xD4; 0xD5; 0xD6; 0xD7; 0xD8;
    0xD9; 0xDA; 0xDB; 0xDC; 0xDD; 0xDE; 0xDF; 0xE0; 0xE1; 0xE2; 0xE3; 0xE4; 0xE5; 0xE6; 0xE7;
    0xE8; 0xE9; 0xEA; 0xEB; 0xEC; 0xED; 0xEE; 0xEF].

(** Those declared RT_VOLATILE; the others are RT_NORMAL_WR_ONCE. *)
Definition mt6370_volatile : list Z :=
  [
    0x00; 0x02; 0x07; 0x08; 0x09; 0x0A; 0x0B; 0x11; 0x12; 0x13; 0x14; 0x15; 0x16; 0x17; 0x18;
    0x19; 0x1A; 0x1B; 0x1C; 0x1D; 0x1E; 0x1F; 0x20; 0x21; 0x22; 0x26; 0x27; 0x28; 0x29; 0x2A;
    0x2B; 0x2C; 0x2D; 0x2E; 0x2F; 0x30; 0x31; 0x33; 0x35; 0x36; 0x37; 0x38; 0x3E; 0x4A; 0x4B;
    0x4C; 0x4D; 0x4E; 0x4F; 0x50; 0x51; 0x52; 0x53; 0x60; 0x61; 0x7A; 0x7B; 0x7E; 0x99; 0x9A;
    0xA5; 0xC0; 0xC1; 0xC2; 0xC3; 0xC4; 0xC5; 0xC6; 0xC7; 0xC8; 0xC9; 0xCA; 0xCB; 0xCC; 0xCD;
    0xCE; 0xCF; 0xD0; 0xD1; 0xD2; 0xD3; 0xD4; 0xD5; 0xD6; 0xD7; 0xD8; 0xD9; 0xDA; 0xDB; 0xDC;
    0xDD; 0xDE; 0xDF; 0xE2].

(** [RT_REG_DECL(addr, 1, type, {})]. *)
Definition mt6370_reg_decl (a : Z) : rt_register :=
  mk_reg a 1 (if bool_decide (a ∈ mt6370_volatile) then RT_VOLATILE else RT_NORMAL_WR_ONCE) [0].

Definition mt6370_pmu_regmap : list rt_register := map mt6370_reg_decl mt6370_addrs.

Definition mt6370_pmu_regmap_props : rt_regmap_properties :=
  mk_props true mt6370_pmu_regmap [] RT_LITTLE_ENDIAN RT_DBG_SPECIAL.

(** The table after [rt_regmap_cache_init]. *)
Definition mt6370_map : list rt_register := map full_mask mt6370_pmu_regmap.

(** [mt6370_pmu_regmap_register]. *)
Definition mt6370_pmu_regmap_register {C} `{!RtClient C} (dev_ok den_ok : bool) (oom : option nat) (c : C)
    : Z * option (rtworld C) :=
  match rt_regmap_device_register_ex mt6370_pmu_regmap_props dev_ok den_ok oom c with
  | Some w => (0, Some w)
  | None => (- EINVAL, None)
  end.

(** A register of the map. *)
Definition mapped (a : Z) : bool := bool_decide (a ∈ mt6370_addrs).

(** A block the register map writes as it is: the addresses are registers without
    a gap, and the bytes fit the log line of [rt_cache_block_write]. *)
Definition contiguous (a : Z) (n : nat) : bool :=
  Nat.leb 1 n && Nat.leb n 42 && forallb mapped (seqZ a (Z.of_nat n)).
