(* ===== verification/Mt6370Enc.v ===== *)
(** * Encodings of the MT6370 charger (drivers/misc/mediatek/subpmic)

    The parts of mt6370_pmu_charger.c that compute without touching the chip:
    the translation between physical values and register codes, and the
    calibration of the input current limit with the data of the production
    line. *)

From S2P Require Import Prelude.
#[local] Open Scope Z_scope.

(** ** Register codes *)

(** The loop of [mt6370_find_closest_reg_value] from index [i], with [n]
    iterations left. *)
Fixpoint closest_loop (n : nat) (i min max step num target : Z) : Z :=
  match n with
  | O => num - 1
  | S n' =>
      let cur_val := u32 (min + u32 (i * step)) in
      let next_val := u32 (cur_val + step) in
      let cur_val := if max <? cur_val then max else cur_val in
      let next_val := if max <? next_val then max else next_val in
      if (cur_val <=? target) && (target <? next_val) then i
      else closest_loop n' (i + 1) min max step num target
  end.

Definition mt6370_find_closest_reg_value (min max step num target : Z) : Z :=
  if target <? min then 0
  else u8 (closest_loop (Z.to_nat (num - 1)) 0 min max step num target).

Fixpoint table_loop (i : Z) (table : list Z) (size target_value : Z) : Z :=
  match table with
  | v :: ((v' :: _) as rest) =>
      if (v <=? target_value) && (target_value <? v') then i
      else table_loop (i + 1) rest size target_value
  | _ => size - 1
  end.

Definition mt6370_find_closest_reg_value_via_table (table : list Z) (target_value : Z) : Z :=
  match table with
  | [] => 0
  | v :: _ => if target_value <? v then 0
              else u8 (table_loop 0 table (Z.of_nat (length table)) target_value)
  end.

Definition mt6370_find_closest_real_value (min max step reg_val : Z) : Z :=
  let ret_val := u32 (min + u32 (reg_val * step)) in
  if max <? ret_val then max else ret_val.

(** A field of a register with its range: the constants [MT6370_X_MIN],
    [_MAX], [_STEP], [_NUM], [MT6370_MASK_X] and [MT6370_SHIFT_X] of
    mt6370_pmu_charger.h under one name. *)
Record reg_field : Type := mk_reg_field {
  f_reg : Z; f_mask : Z; f_shift : Z;
  f_min : Z; f_max : Z; f_step : Z; f_num : Z
}.

#[global] Instance reg_field_eq_dec : EqDecision reg_field.
Proof. solve_decision. Defined.

Definition MT6370_ICHG := mk_reg_field 0x17 0xFC 2 100000 5000000 100000 64.
Definition MT6370_IEOC := mk_reg_field 0x19 0xF0 4 100000 850000 50000 16.
Definition MT6370_MIVR := mk_reg_field 0x16 0xFE 1 3900000 13400000 100000 128.
Definition MT6370_AICR := mk_reg_field 0x13 0xFC 2 100000 3250000 50000 64.
Definition MT6370_BAT_VOREG := mk_reg_field 0x14 0xFE 1 3900000 4710000 10000 128.
Definition MT6370_WT_FC := mk_reg_field 0x1C 0xE0 5 4 20 2 8.
Definition MT6370_IRCMP_RES := mk_reg_field 0x2C 0x38 3 0 175000 25000 8.
Definition MT6370_IRCMP_VCLAMP := mk_reg_field 0x2C 0x07 0 0 224000 32000 8.
Definition MT6370_PEP20_VOLT := mk_reg_field 0x2B 0x1F 0 5500000 20000000 500000 30.
Definition MT6370_AICL_VTH := mk_reg_field 0x1E 0x07 0 4100000 4800000 100000 8.
Definition MT6370_DC_VBUSOV_LVL := mk_reg_field 0x2F 0x7C 2 3900000 7000000 100000 32.
Definition MT6370_DC_IBUSOC_LVL := mk_reg_field 0x2D 0x07 0 4000000 6500000 500000 8.

Definition mt6370_fields : list reg_field :=
  [MT6370_ICHG; MT6370_IEOC; MT6370_MIVR; MT6370_AICR; MT6370_BAT_VOREG; MT6370_WT_FC;
   MT6370_IRCMP_RES; MT6370_IRCMP_VCLAMP; MT6370_PEP20_VOLT; MT6370_AICL_VTH;
   MT6370_DC_VBUSOV_LVL; MT6370_DC_IBUSOC_LVL].

Definition reg_code (f : reg_field) (target : Z) : Z :=
  mt6370_find_closest_reg_value (f_min f) (f_max f) (f_step f) (f_num f) target.

Definition real_value (f : reg_field) (code : Z) : Z :=
  mt6370_find_closest_real_value (f_min f) (f_max f) (f_step f) code.

(** [(ret & MASK) >> SHIFT], stored in a [u8]. *)
Definition field_code (f : reg_field) (reg : Z) : Z :=
  u8 (Z.shiftr (Z.land reg (f_mask f)) (f_shift f)).

(** [code << SHIFT], passed as a [u8]. *)
Definition field_bits (f : reg_field) (code : Z) : Z := u8 (Z.shiftl code (f_shift f)).

(** ** Calibration of the input current limit

    Units are mA; [mult_frac] and [roundup] are the kernel's macros on [int].
    Where C leaves a division by zero undefined, the quotient is 0 as on
    arm64. *)

Definition mult_frac (x numer denom : Z) : Z :=
  s32 (s32 ((x ÷c denom) * numer) + s32 (Z.rem x denom * numer) ÷c denom).

Definition roundup (x y : Z) : Z := s32 (s32 (x + (y - 1)) ÷c y * y).

Definition clamp (v lo hi : Z) : Z := Z.min (Z.max v lo) hi.

Definition IAICR_ARRAY_NUM : Z := 4.

Record iaicr_calibration : Type := mk_iaicr {
  enable_iaicr_cal : bool;
  iaicr_cal_data : list Z;
  iaicr_itarget : list Z;
  iaicr_threshold : list Z
}.
#[global] Instance iaicr_struct : Struct iaicr_calibration := fun r =>
  mk_iaicr (enable_iaicr_cal r) (iaicr_cal_data r) (iaicr_itarget r) (iaicr_threshold r).

(** [a[i]] of one of the arrays; the loops below keep [i] in range. *)
Definition at_idx (l : list Z) (i : nat) : Z := nth i l 0.

Definition correct_iaicr_cal_data (iaicr_cal target_iaicr : Z) : Z :=
  let max_cal := mult_frac target_iaicr 15 100 in
  let max_cal := roundup max_cal 50 in
  clamp iaicr_cal 0 max_cal.

(** The index [i] at which [for (i = 1; i < IAICR_ARRAY_NUM; i++)] stops. *)
Definition aicl_index (c : iaicr_calibration) (uA : Z) : nat :=
  let below i := uA <? u32 (at_idx (iaicr_threshold c) i + s32 (at_idx (iaicr_cal_data c) i * 1000)) in
  if below 1%nat then 1%nat else if below 2%nat then 2%nat else if below 3%nat then 3%nat else 4%nat.

Definition mt6370_calibrate_aicl_result (c : iaicr_calibration) (uA : Z) : Z :=
  if negb (enable_iaicr_cal c) ||
     (uA <? u32 (at_idx (iaicr_threshold c) 0 + s32 (at_idx (iaicr_cal_data c) 0 * 1000)))
  then uA
  else
    let i := aicl_index c uA in
    let itarget := s32 (at_idx (iaicr_itarget c) (i - 1)) in
    let iaicr_cal := at_idx (iaicr_cal_data c) (i - 1) in
    let ma := s32 (uA ÷c 1000) in
    let calibrated_ma := mult_frac ma itarget (s32 (itarget + iaicr_cal)) in
    let calibrated_ma := Z.max calibrated_ma (f_min MT6370_AICR ÷c 1000) in
    u32 (calibrated_ma * 1000).

Definition aicr_index (c : iaicr_calibration) (uA : Z) : nat :=
  let upto i := uA <=? at_idx (iaicr_threshold c) i in
  if upto 1%nat then 1%nat else if upto 2%nat then 2%nat else if upto 3%nat then 3%nat else 4%nat.

Definition mt6370_calibrate_aicr (en_iaicr_cal : bool) (c : iaicr_calibration) (uA : Z) : Z :=
  if negb (enable_iaicr_cal c) || (uA <? at_idx (iaicr_threshold c) 0) || negb en_iaicr_cal
  then uA
  else
    let i := aicr_index c uA in
    let itarget := s32 (at_idx (iaicr_itarget c) (i - 1)) in
    let iaicr_cal := at_idx (iaicr_cal_data c) (i - 1) in
    let ma := clamp (s32 uA) (f_min MT6370_AICR) (f_max MT6370_AICR) ÷c 1000 in
    let ma := roundup ma 50 in
    let calibrated_ma := mult_frac ma (s32 (itarget + iaicr_cal)) itarget in
    let calibrated_ma := roundup calibrated_ma 50 in
    let calibrated_ma := Z.min calibrated_ma (f_max MT6370_AICR ÷c 1000) in
    u32 (calibrated_ma * 1000).

(** ** Calibration data of the device

    The property "/idme/iaicr_cal" is a string of hexadecimal digits: four
    16-bit little-endian numbers.  Characters are their codes. *)

Definition s8 (x : Z) : Z := (x + 128) mod 256 - 128.

Definition castChar (c : Z) : Z :=
  if (48 <=? c) && (c <=? 57) then c - 48
  else if (97 <=? c) && (c <=? 102) then c - 97 + 10
  else if (65 <=? c) && (c <=? 70) then c - 65 + 10
  else s8 255.

(** The bytes written to [gbuffer]; a byte beyond them is zero. *)
Fixpoint hexToBytes (inhex : list Z) : list Z :=
  match inhex with
  | c1 :: c2 :: rest => s8 (Z.lor (Z.shiftl (castChar c1) 4) (castChar c2)) :: hexToBytes rest
  | _ => []
  end.

(** [None] is a missing node or property. *)
Definition idme_get_iaicr_cal (prop : option (list Z)) : option (list Z) :=
  match prop with
  | None => None
  | Some s =>
      let retdata := hexToBytes s in
      Some (map (fun i => Z.lor (Z.land (at_idx retdata (2 * i)) 0x00FF)
                                (Z.shiftl (at_idx retdata (2 * i + 1)) 8)) (seq 0 4))
  end.

Definition mt6370_update_iaicr_cal_value (prop : option (list Z)) (c : iaicr_calibration)
    : Z * iaicr_calibration :=
  let c := c <| iaicr_cal_data := [0; 0; 0; 0] |> <| enable_iaicr_cal := false |> in
  match idme_get_iaicr_cal prop with
  | None => (-1, c)
  | Some idmedata =>
      let cal := map (fun i => correct_iaicr_cal_data (at_idx idmedata i)
                                 (s32 (at_idx (iaicr_itarget c) i))) (seq 0 4) in
      (0, c <| iaicr_cal_data := cal |> <| enable_iaicr_cal := true |>)
  end.

(** ** Theorems *)

(** A range whose arithmetic does not overflow [u32] and whose codes fit the
    [u8] the functions return. *)
Definition range_ok (min max step num : Z) : bool :=
  (0 <=? min) && (min <=? max) && (0 <? step) && (1 <=? num) && (num <=? 256) &&
  (min + num * step <? 2 ^ 32).

Lemma closest_loop_spec n i min max step num target :
  0 <= min <= max -> 0 < step -> i + Z.of_nat n = num - 1 -> 0 <= i ->
  min + num * step < 2 ^ 32 -> (max <= target \/ min + i * step <= target) ->
  closest_loop n i min max step num target =
  if max <=? target then num - 1 else Z.min (num - 1) ((target - min) / step).
Proof.
  intros Hm Hs. revert i. induction n as [|n IH]; intros i Hn Hi Hw Ht; cbn [closest_loop].
  - destruct (max <=? target) eqn:E; bool_prop; [done|].
    destruct Ht as [|Ht]; [lia|]. replace i with (num - 1) in Ht by lia.
    pose proof (Z.div_le_lower_bound (target - min) step (num - 1)). nia.
  - assert (u32 (i * step) = i * step) as -> by (apply u32_id; unfold is_u32; nia).
    assert (u32 (min + i * step) = min + i * step) as -> by (apply u32_id; unfold is_u32; nia).
    assert (u32 (min + i * step + step) = min + i * step + step) as ->
      by (apply u32_id; unfold is_u32; nia).
    destruct (max <=? target) eqn:E; bool_prop.
    + rewrite (proj2 (andb_false_iff _ _)).
      * by rewrite IH by lia.
      * right. apply Z.ltb_ge. case_match; bool_prop; lia.
    + destruct Ht as [|Ht]; [lia|]. rewrite (proj2 (Z.ltb_ge max (min + i * step))) by lia.
      rewrite (proj2 (Z.leb_le (min + i * step) target)) by done.
      destruct (Z.lt_ge_cases target (min + i * step + step)) as [Hl|Hl].
      * replace (target <? _) with true by (symmetry; apply Z.ltb_lt; case_match; lia).
        cbn [andb]. pose proof (Z.div_unique (target - min) step i (target - min - i * step)). lia.
      * replace (target <? _) with false by (symmetry; apply Z.ltb_ge; case_match; bool_prop; lia).
        cbn [andb]. by rewrite IH by nia.
Qed.

(** The search is a division. *)
Lemma find_closest_closed min max step num target :
  range_ok min max step num = true ->
  mt6370_find_closest_reg_value min max step num target =
  if target <? min then 0
  else if max <=? target then num - 1 else Z.min (num - 1) ((target - min) / step).
Proof.
  unfold range_ok. intros H. bool_prop. unfold mt6370_find_closest_reg_value.
  destruct (target <? min) eqn:E; bool_prop; [done|].
  rewrite closest_loop_spec by lia.
  assert (0 <= (target - min) / step) by (apply Z.div_pos; lia).
  apply u8_id. unfold is_u8. case_match; lia.
Qed.

Lemma reg_code_range f target :
  range_ok (f_min f) (f_max f) (f_step f) (f_num f) = true -> 0 <= reg_code f target < f_num f.
Proof.
  intros H. unfold reg_code. rewrite find_closest_closed by done.
  unfold range_ok in H. bool_prop.
  destruct (target <? f_min f) eqn:E; bool_prop; [lia|].
  assert (0 <= (target - f_min f) / f_step f) by (apply Z.div_pos; lia). case_match; lia.
Qed.

Lemma real_value_exact f code :
  range_ok (f_min f) (f_max f) (f_step f) (f_num f) = true -> 0 <= code < f_num f ->
  real_value f code = Z.min (f_max f) (f_min f + code * f_step f).
Proof.
  unfold range_ok. intros H Hc. bool_prop. unfold real_value, mt6370_find_closest_real_value.
  assert (0 <= code * f_step f <= f_num f * f_step f) by nia.
  rewrite (u32_id (code * f_step f)) by (unfold is_u32; lia).
  rewrite u32_id by (unfold is_u32; lia). case_match; bool_prop; lia.
Qed.

(** What the chip is told for a request: the nearest value of the range that
    is not above it. *)
Definition programmed (f : reg_field) (target : Z) : Z := real_value f (reg_code f target).

(** The highest value a field can hold: its last code, or its maximum. *)
Definition f_top (f : reg_field) : Z := Z.min (f_max f) (f_min f + (f_num f - 1) * f_step f).

Lemma programmed_exact f target :
  range_ok (f_min f) (f_max f) (f_step f) (f_num f) = true ->
  programmed f target =
  if target <? f_min f then f_min f
  else if f_top f <=? target then f_top f
  else f_min f + (target - f_min f) / f_step f * f_step f.
Proof.
  intros H. pose proof (reg_code_range f target H) as Hr. unfold programmed.
  rewrite real_value_exact by done. unfold reg_code in *. rewrite find_closest_closed in * by done.
  unfold range_ok in H. bool_prop. unfold f_top.
  destruct (target <? f_min f) eqn:E1; bool_prop; [lia|].
  assert ((target - f_min f) / f_step f * f_step f <= target - f_min f)
    by (rewrite Z.mul_comm; apply Z.mul_div_le; lia).
  destruct (f_max f <=? target) eqn:E2; bool_prop; [rewrite (proj2 (Z.leb_le _ _)) by lia; lia|].
  destruct (Z.leb_spec (Z.min (f_max f) (f_min f + (f_num f - 1) * f_step f)) target) as [Ht|Ht].
  - assert (f_num f - 1 <= (target - f_min f) / f_step f) by (apply Z.div_le_lower_bound; [lia|]; rewrite Z.mul_comm; lia).
    rewrite (Z.min_l (f_num f - 1)) by lia. lia.
  - assert ((target - f_min f) / f_step f < f_num f) by (apply Z.div_lt_upper_bound; nia).
    rewrite (Z.min_r (f_num f - 1)) by lia. lia.
Qed.

Lemma fields_range_ok f :
  f ∈ mt6370_fields -> range_ok (f_min f) (f_max f) (f_step f) (f_num f) = true.
Proof.
  assert (Forall (fun f => range_ok (f_min f) (f_max f) (f_step f) (f_num f) = true) mt6370_fields) as H
    by (repeat constructor).
  rewrite Forall_forall in H. apply H.
Qed.

(** Of the twelve fields only the fast-charge timer, whose eight codes end at 18
    hours, does not reach its maximum, which is 20. *)
Lemma fields_top f : f ∈ mt6370_fields -> f_top f = if bool_decide (f = MT6370_WT_FC) then 18 else f_max f.
Proof.
  assert (Forall (fun f => f_top f = if bool_decide (f = MT6370_WT_FC) then 18 else f_max f) mt6370_fields) as H
    by (repeat constructor).
  rewrite Forall_forall in H. apply H.
Qed.

(** C37: for every field of the chip and every request, the value the driver
    programs lies between the field's minimum and the highest value it can hold, is
    never above a request that is not below the minimum, misses a request between
    the two by less than a step, and is left as it is when programmed again.  The
    highest value is the field's maximum, but for the fast-charge timer, whose codes
    end at 18 hours while its maximum is 20. *)
Theorem programmed_sound f target :
  f ∈ mt6370_fields ->
  let p := programmed f target in
  f_min f <= p <= f_top f /\
  (f_min f <= target -> p <= target) /\
  (f_min f <= target <= f_top f -> target - p < f_step f) /\
  programmed f p = p /\
  f_top f = (if bool_decide (f = MT6370_WT_FC) then 18 else f_max f).
Proof.
  intros Hf. pose proof (fields_top f Hf) as Ht. apply fields_range_ok in Hf as H. cbv zeta.
  rewrite (programmed_exact f (programmed f target)) by done. rewrite (programmed_exact f target) by done.
  unfold range_ok in H. bool_prop.
  assert (f_min f <= f_top f) by (unfold f_top; nia).
  pose proof (Z.mul_div_le (target - f_min f) (f_step f)).
  pose proof (Z.mod_pos_bound (target - f_min f) (f_step f)).
  pose proof (Z.div_mod (target - f_min f) (f_step f)).
  pose proof (Z.div_pos (target - f_min f) (f_step f)).
  set (q := (target - f_min f) / f_step f) in *.
  assert ((f_min f + q * f_step f - f_min f) / f_step f = q) as Hq
    by (rewrite Z.add_simpl_l, Z.div_mul; lia).
  destruct (target <? f_min f) eqn:E1; bool_prop.
  - rewrite (proj2 (Z.ltb_ge _ _)) by lia. rewrite Z.sub_diag, Z.div_0_l by lia.
    destruct (f_top f <=? f_min f) eqn:E2; bool_prop; split_and!; try done; lia.
  - destruct (f_top f <=? target) eqn:E2; bool_prop.
    + rewrite (proj2 (Z.ltb_ge _ _)), (proj2 (Z.leb_le _ _)) by lia. split_and!; try done; nia.
    + rewrite (proj2 (Z.ltb_ge _ _)), (proj2 (Z.leb_gt _ _)) by nia. rewrite Hq. split_and!; try done; nia.
Qed.

Lemma programmed_sound_witness :
  programmed MT6370_BAT_VOREG 4355000 <= 4355000 /\
  4355000 - programmed MT6370_BAT_VOREG 4355000 < 10000.
Proof.
  destruct (programmed_sound MT6370_BAT_VOREG 4355000) as (_ & H1 & H2 & _).
  - unfold mt6370_fields. set_solver.
  - split; [apply H1|apply H2]; cbn; unfold f_top; cbn; lia.
Defined.

(** A code written into its bits of a register is read back from them. *)
Definition code_ok (f : reg_field) (code : Z) : bool :=
  Z.land (field_bits f code) (f_mask f) =? Z.shiftl code (f_shift f).

Lemma codes_ok f code : f ∈ mt6370_fields -> 0 <= code < f_num f -> code_ok f code = true.
Proof.
  assert (Forall (fun f => forallb (code_ok f) (seqZ 0 (f_num f)) = true) mt6370_fields) as H
    by (repeat constructor; vm_compute; reflexivity).
  rewrite Forall_forall in H. intros Hf Hc. specialize (H f Hf).
  rewrite forallb_forall in H. apply H, list_elem_of_In, elem_of_seqZ. lia.
Qed.

Lemma fields_shift f : f ∈ mt6370_fields -> 0 <= f_shift f /\ f_num f <= 256.
Proof.
  assert (Forall (fun f => 0 <= f_shift f /\ f_num f <= 256) mt6370_fields) as H
    by (repeat constructor; cbn; lia).
  rewrite Forall_forall in H. apply H.
Qed.

Lemma field_roundtrip f old code :
  f ∈ mt6370_fields -> 0 <= code < f_num f ->
  field_code f (update_bits old (f_mask f) (field_bits f code)) = code.
Proof.
  intros Hf Hc. pose proof (codes_ok f code Hf Hc) as H. unfold code_ok in H. bool_prop.
  destruct (fields_shift f Hf). unfold field_code. rewrite update_bits_same, H.
  rewrite Z.shiftr_shiftl_l, Z.sub_diag, Z.shiftl_0_r by lia. apply u8_id. unfold is_u8. lia.
Qed.

(** *** Calibration *)

Lemma mult_frac_floor x numer denom :
  0 <= x <= 10000 -> 0 <= numer <= 20000 -> 0 < denom <= 20000 ->
  mult_frac x numer denom = x * numer / denom.
Proof.
  intros Hx Hn Hd. unfold mult_frac.
  rewrite Z.quot_div_nonneg, Z.rem_mod_nonneg by lia.
  pose proof (Z.div_mod x denom). pose proof (Z.mod_pos_bound x denom).
  pose proof (Z.div_pos x denom). pose proof (Z.div_le_upper_bound x denom x).
  set (q := x / denom) in *. set (r := x mod denom) in *.
  assert (0 <= r * numer <= 200000000) by nia. assert (0 <= q * numer <= 200000000) by nia.
  rewrite (s32_id (r * numer)), (s32_id (q * numer)) by (unfold is_s32; lia).
  rewrite Z.quot_div_nonneg by lia.
  assert (0 <= r * numer / denom <= r * numer)
    by (split; [apply Z.div_pos; lia|apply Z.div_le_upper_bound; nia]).
  rewrite s32_id by (unfold is_s32; lia).
  replace (x * numer) with (q * numer * denom + r * numer) by nia.
  by rewrite Z.div_add_l by lia.
Qed.

Lemma roundup_spec x y :
  0 <= x <= 200000000 -> 0 < y <= 1000 ->
  x <= roundup x y < x + y /\ roundup x y mod y = 0.
Proof.
  intros Hx Hy. unfold roundup.
  rewrite (s32_id (x + (y - 1))) by (unfold is_s32; lia). rewrite Z.quot_div_nonneg by lia.
  pose proof (Z.div_mod (x + (y - 1)) y). pose proof (Z.mod_pos_bound (x + (y - 1)) y).
  rewrite s32_id by (unfold is_s32; nia). split; [nia|apply Z.mod_mul; lia].
Qed.

(** The correction keeps the data between nothing and 15 percent of the
    target, rounded up to 50 mA. *)
Lemma correct_iaicr_bounds cal target :
  0 <= target <= 10000 ->
  0 <= correct_iaicr_cal_data cal target < target * 15 / 100 + 50.
Proof.
  intros Ht. unfold correct_iaicr_cal_data, clamp. rewrite mult_frac_floor by lia.
  assert (0 <= target * 15 / 100 <= 1500)
    by (split; [apply Z.div_pos; lia|apply Z.div_le_upper_bound; lia]).
  destruct (roundup_spec (target * 15 / 100) 50) as [H1 _]; lia.
Qed.

(** Calibration data fit for use: four targets of at most 10 A and a
    correction of each between nothing and 15 percent and 50 mA. *)
Definition cal_ok (c : iaicr_calibration) : Prop :=
  forall i, (i < 4)%nat ->
    0 < s32 (at_idx (iaicr_itarget c) i) <= 10000 /\
    0 <= at_idx (iaicr_cal_data c) i <= s32 (at_idx (iaicr_itarget c) i) * 15 / 100 + 50.

Lemma at_idx_map (g : nat -> Z) i : (i < 4)%nat -> at_idx (map g (seq 0 4)) i = g i.
Proof. intros Hi. by destruct i as [|[|[|[|i]]]]; [..|lia]. Qed.

Lemma update_cal_ok prop c :
  (forall i, (i < 4)%nat -> 0 < s32 (at_idx (iaicr_itarget c) i) <= 10000) ->
  cal_ok (mt6370_update_iaicr_cal_value prop c).2.
Proof.
  intros H i Hi. specialize (H i Hi). unfold mt6370_update_iaicr_cal_value.
  assert (0 <= s32 (at_idx (iaicr_itarget c) i) * 15 / 100) by (apply Z.div_pos; lia).
  destruct (idme_get_iaicr_cal prop) as [l|]; (split; [exact H|]).
  - cbn -[Z.mul Z.div s32 correct_iaicr_cal_data at_idx seq map]. rewrite at_idx_map by done.
    pose proof (correct_iaicr_bounds (at_idx l i) (s32 (at_idx (iaicr_itarget c) i))). lia.
  - cbn -[Z.mul Z.div s32 at_idx].
    replace (at_idx [0; 0; 0; 0] i) with 0 by (by destruct i as [|[|[|[|i]]]]; [..|lia]). lia.
Qed.

Lemma calibrate_aicr_range en c uA :
  cal_ok c -> is_u32 uA ->
  let r := mt6370_calibrate_aicr en c uA in
  r = uA \/ (clamp (s32 uA) 100000 3250000 - 1000 < r <= 3250000 /\ r mod 50000 = 0).
Proof.
  intros Hc Hu. cbv zeta. unfold mt6370_calibrate_aicr.
  destruct (_ || _ || _); [by left|]. right.
  assert (aicr_index c uA - 1 < 4)%nat as Hi by (unfold aicr_index; case_tests; lia).
  destruct (Hc _ Hi) as [H1 H2]. set (it := s32 (at_idx (iaicr_itarget c) _)) in *.
  set (cal := at_idx (iaicr_cal_data c) _) in *. cbn [f_min f_max MT6370_AICR].
  assert (it * 15 / 100 <= 1500) by (apply Z.div_le_upper_bound; lia).
  assert (100000 <= clamp (s32 uA) 100000 3250000 <= 3250000) as Hk by (unfold clamp; lia).
  set (k := clamp (s32 uA) 100000 3250000) in *. rewrite Z.quot_div_nonneg by lia.
  pose proof (Z.div_mod k 1000). pose proof (Z.mod_pos_bound k 1000).
  destruct (roundup_spec (k / 1000) 50) as [Hr Hm]; [lia..|]. set (ma := roundup (k / 1000) 50) in *.
  rewrite (s32_id (it + cal)) by (unfold is_s32; lia). rewrite mult_frac_floor by lia.
  assert (0 <= ma) by lia. assert (it * ma <= ma * (it + cal)) by nia.
  assert (ma <= ma * (it + cal) / it) by (apply Z.div_le_lower_bound; lia).
  assert (it + cal <= it * 1551) by lia.
  assert (ma * (it + cal) <= it * (ma * 1551)) by nia.
  assert (ma * (it + cal) / it <= ma * 1551) by (apply Z.div_le_upper_bound; lia).
  destruct (roundup_spec (ma * (it + cal) / it) 50) as [Hr2 Hm2]; [lia..|].
  set (c2 := roundup (ma * (it + cal) / it) 50) in *.
  change (3250000 ÷c 1000) with 3250. assert (ma <= 3250).
  { pose proof (Z.div_mod ma 50). assert (k / 1000 <= 3250) by lia.
    assert (ma < 3300) by lia. lia. }
  rewrite u32_id by (unfold is_u32; lia). split; [lia|].
  destruct (Z.min_spec c2 3250) as [[_ ->]|[_ ->]]; [|done].
  rewrite (Z.div_mod c2 50), Hm2, Z.add_0_r by lia.
  replace (50 * (c2 / 50) * 1000) with (c2 / 50 * 50000) by lia. by apply Z.mod_mul.
Qed.

Lemma calibrate_aicl_range c uA :
  cal_ok c -> is_u32 uA -> uA <= 10000000 ->
  let r := mt6370_calibrate_aicl_result c uA in
  r = uA \/ 100000 <= r <= Z.max uA 100000.
Proof.
  intros Hc Hu Hb. cbv zeta. unfold mt6370_calibrate_aicl_result.
  destruct (_ || _); [by left|]. right.
  assert (aicl_index c uA - 1 < 4)%nat as Hi by (unfold aicl_index; case_tests; lia).
  destruct (Hc _ Hi) as [H1 H2]. set (it := s32 (at_idx (iaicr_itarget c) _)) in *.
  set (cal := at_idx (iaicr_cal_data c) _) in *. cbn [f_min f_max MT6370_AICR].
  assert (it * 15 / 100 <= 1500) by (apply Z.div_le_upper_bound; lia).
  unfold is_u32 in Hu. rewrite Z.quot_div_nonneg by lia.
  pose proof (Z.div_mod uA 1000). pose proof (Z.mod_pos_bound uA 1000).
  rewrite (s32_id (uA / 1000)), (s32_id (it + cal)) by (unfold is_s32; lia).
  rewrite mult_frac_floor by lia. change (100000 ÷c 1000) with 100.
  assert (0 <= uA / 1000) by lia. set (ma := uA / 1000) in *.
  assert (0 <= ma * it <= (it + cal) * ma) by nia.
  assert (0 <= ma * it / (it + cal) <= ma)
    by (split; [apply Z.div_pos; lia|apply Z.div_le_upper_bound; lia]).
  rewrite u32_id by (unfold is_u32; lia). lia.
Qed.

(** Whatever the production line stored, or nothing at all, the calibrated
    input current limit is the request itself or a step of the chip's range
    that reaches the request to within 1 mA and stays within 3.25 A; and the
    calibrated result of an AICL run is never above what was measured (or the
    chip's minimum). *)
Theorem calibration_bounds prop c en uA :
  (forall i, (i < 4)%nat -> 0 < s32 (at_idx (iaicr_itarget c) i) <= 10000) ->
  0 <= uA <= 10000000 ->
  let c' := (mt6370_update_iaicr_cal_value prop c).2 in
  let r := mt6370_calibrate_aicr en c' uA in
  let a := mt6370_calibrate_aicl_result c' uA in
  (r = uA \/ (clamp (s32 uA) 100000 3250000 - 1000 < r <= 3250000 /\ r mod 50000 = 0)) /\
  (a = uA \/ 100000 <= a <= Z.max uA 100000).
Proof.
  intros Ht Hu. pose proof (update_cal_ok prop c Ht) as Hc.
  split; [apply calibrate_aicr_range|apply calibrate_aicl_range]; try done; unfold is_u32; lia.
Qed.

Definition iaicr0 : iaicr_calibration :=
  mk_iaicr false [0; 0; 0; 0] [1000; 1500; 2000; 3000] [900000; 1200000; 1800000; 2500000].

Lemma calibration_bounds_witness :
  let c' := (mt6370_update_iaicr_cal_value (Some [51; 50; 48; 48; 54; 52; 48; 48]) iaicr0).2 in
  let r := mt6370_calibrate_aicr true c' 1500000 in
  r = 1600000 /\ (r = 1500000 \/ (clamp (s32 1500000) 100000 3250000 - 1000 < r <= 3250000 /\
                                  r mod 50000 = 0)).
Proof.
  split; [reflexivity|].
  refine (proj1 (calibration_bounds _ iaicr0 true 1500000 _ _)); [|lia].
  intros [|[|[|[|i]]]] Hi; [split; [reflexivity|discriminate]..|lia].
Defined.

(** *** The calibration string *)

(** The writer's side of the format: a 16-bit number as four digits, low byte
    first. *)
Definition hex_digit (n : Z) : Z := if n <? 10 then 48 + n else 87 + n.
Definition hex_byte (b : Z) : list Z := [hex_digit (b / 16); hex_digit (b mod 16)].
Definition hex_int16 (v : Z) : list Z := hex_byte (v mod 256) ++ hex_byte ((v / 256) mod 256).

Lemma hexToBytes_byte b l :
  0 <= b < 256 -> hexToBytes (hex_byte b ++ l) = s8 b :: hexToBytes l.
Proof.
  intros Hb. cbn [hex_byte app hexToBytes]. f_equal.
  assert (forallb (fun b => s8 (Z.lor (Z.shiftl (castChar (hex_digit (b / 16))) 4)
            (castChar (hex_digit (b mod 16)))) =? s8 b) (seqZ 0 256) = true) as H
    by (vm_compute; reflexivity).
  rewrite forallb_forall in H. apply Z.eqb_eq, H, list_elem_of_In, elem_of_seqZ. lia.
Qed.

Lemma int16_bytes v :
  - 2 ^ 15 <= v < 2 ^ 15 ->
  Z.lor (Z.land (s8 (v mod 256)) 255) (Z.shiftl (s8 ((v / 256) mod 256)) 8) = v.
Proof.
  intros Hv. pose proof (Z.div_mod v 256). pose proof (Z.mod_pos_bound v 256).
  replace (Z.land (s8 (v mod 256)) 255) with (v mod 256); cycle 1.
  { change 255 with (Z.ones 8). rewrite Z.land_ones by lia. unfold s8. change (2 ^ 8) with 256.
    rewrite Zminus_mod_idemp_l, Z.add_simpl_r. symmetry. apply Z.mod_mod. lia. }
  replace (s8 ((v / 256) mod 256)) with (v / 256); cycle 1.
  { unfold s8. rewrite Zplus_mod_idemp_l, Z.mod_small; [lia|].
    split; [|lia]. assert (-128 <= v / 256) by (apply Z.div_le_lower_bound; lia). lia. }
  rewrite Z.shiftl_mul_pow2 by lia. change (2 ^ 8) with 256.
  rewrite <- Z.lxor_lor, <- Z.add_nocarry_lxor; [lia|..].
  all: apply Z.bits_inj'; intros i Hi; rewrite Z.land_spec, Z.bits_0.
  all: destruct (Z.lt_ge_cases i 8);
    [rewrite Z.mul_comm; change 256 with (2 ^ 8); rewrite Z.mul_comm, Z.mul_pow2_bits_low by lia;
     apply andb_false_r|].
  all: change 256 with (2 ^ 8); rewrite Z.mod_pow2_bits_high by lia; done.
Qed.

(** The calibration string is decoded to the numbers that were written:
    four signed 16-bit values printed as hexadecimal digits, low byte first,
    come back unchanged. *)
Theorem idme_roundtrip v0 v1 v2 v3 :
  Forall (fun v => - 2 ^ 15 <= v < 2 ^ 15) [v0; v1; v2; v3] ->
  idme_get_iaicr_cal (Some (hex_int16 v0 ++ hex_int16 v1 ++ hex_int16 v2 ++ hex_int16 v3)) =
  Some [v0; v1; v2; v3].
Proof.
  rewrite !Forall_cons. intros (H0 & H1 & H2 & H3 & _). unfold idme_get_iaicr_cal, hex_int16.
  rewrite <- !(assoc_L (++)).
  rewrite !hexToBytes_byte by (apply Z.mod_pos_bound; lia).
  rewrite <- (app_nil_r (hex_byte ((v3 / 256) mod 256))), hexToBytes_byte by (apply Z.mod_pos_bound; lia).
  cbn [seq map at_idx nth Nat.mul Nat.add hexToBytes]. by rewrite !int16_bytes.
Qed.

Lemma idme_roundtrip_witness :
  idme_get_iaicr_cal (Some (hex_int16 50 ++ hex_int16 100 ++ hex_int16 (-20) ++ hex_int16 0)) =
  Some [50; 100; -20; 0].
Proof. apply idme_roundtrip. repeat constructor; lia. Defined.
