(* ===== verification/Mt6370.v ===== *)
(** * The MT6370 charger driver: state, chip access and internal functions
    (drivers/misc/mediatek/subpmic/mt6370_pmu_charger.c and mt6370_pmu_reg.c)

    The driver's memory is [mt6370_data]; the chip and the rest of the kernel
    are a state [B] behind the class [Mt6370Bus].  Log output is left out. *)

From S2P Require Import Prelude ChargerClass AlgClass ChargerTypes Platform BasicCharger Mt6370Enc.
#[local] Open Scope Z_scope.

(** ** Registers (inc/mt6370_pmu.h, inc/mt6370_pmu_charger.h) *)

Definition MT6370_PMU_REG_HIDDENPASCODE1 : Z := 0x07.
Definition MT6370_PMU_REG_OSCCTRL : Z := 0x10.
Definition MT6370_PMU_REG_CHGCTRL1 : Z := 0x11.
Definition MT6370_PMU_REG_CHGCTRL2 : Z := 0x12.
Definition MT6370_PMU_REG_CHGCTRL3 : Z := 0x13.
Definition MT6370_PMU_REG_CHGCTRL7 : Z := 0x17.
Definition MT6370_PMU_REG_CHGCTRL10 : Z := 0x1A.
Definition MT6370_PMU_REG_CHGCTRL12 : Z := 0x1C.
Definition MT6370_PMU_REG_CHGCTRL13 : Z := 0x1D.
Definition MT6370_PMU_REG_CHGCTRL14 : Z := 0x1E.
Definition MT6370_PMU_REG_CHGADC : Z := 0x21.
Definition MT6370_PMU_REG_DEVICETYPE : Z := 0x22.
Definition MT6370_PMU_REG_USBSTATUS1 : Z := 0x27.
Definition MT6370_PMU_REG_CHGPUMP : Z := 0x2A.
Definition MT6370_PMU_REG_CHGCTRL17 : Z := 0x2B.
Definition MT6370_PMU_REG_CHGHIDDENCTRL0 : Z := 0x30.
Definition MT6370_PMU_REG_CHGHIDDENCTRL1 : Z := 0x31.
Definition MT6370_PMU_REG_LG_CONTROL : Z := 0x33.
Definition MT6370_PMU_REG_CHGHIDDENCTRL6 : Z := 0x35.
Definition MT6370_PMU_REG_CHGHIDDENCTRL7 : Z := 0x36.
Definition MT6370_PMU_REG_CHGHIDDENCTRL9 : Z := 0x38.
Definition MT6370_PMU_REG_CHGHIDDENCTRL15 : Z := 0x3E.
Definition MT6370_PMU_REG_CHGSTAT : Z := 0x4A.
Definition MT6370_PMU_REG_ADCDATAH : Z := 0x4C.
Definition MT6370_PMU_REG_CHGSTAT1 : Z := 0xD0.

Definition MT6370_SHIFT_OPA_MODE : Z := 0.
Definition MT6370_MASK_OPA_MODE : Z := 0x01.
Definition MT6370_SHIFT_CHG_EN : Z := 0.
Definition MT6370_MASK_CHG_EN : Z := 0x01.
Definition MT6370_MASK_IINLMTSEL : Z := 0x0C.
Definition MT6370_SHIFT_IINLMTSEL : Z := 2.
Definition MT6370_MASK_TE_EN : Z := 0x10.
Definition MT6370_MASK_BYPASS_MODE : Z := 0x20.
Definition MT6370_MASK_BOOST_OC : Z := 0x07.
Definition MT6370_SHIFT_TMR_EN : Z := 1.
Definition MT6370_MASK_TMR_EN : Z := 0x02.
Definition MT6370_MASK_WDT_EN : Z := 0x80.
Definition MT6370_MASK_AICL_MEAS : Z := 0x80.
Definition MT6370_MASK_ADC_IN_SEL : Z := 0xF0.
Definition MT6370_SHIFT_ADC_IN_SEL : Z := 4.
Definition MT6370_SHIFT_ADC_START : Z := 0.
Definition MT6370_MASK_ADC_START : Z := 0x01.
Definition MT6370_MASK_USBCHGEN : Z := 0x80.
Definition MT6370_MASK_USB_STATUS : Z := 0x70.
Definition MT6370_SHIFT_USB_STATUS : Z := 4.
Definition MT6370_MASK_VG_EN : Z := 0x01.
Definition MT6370_SHIFT_PUMPX_EN : Z := 7.
Definition MT6370_MASK_PUMPX_EN : Z := 0x80.
Definition MT6370_MASK_PUMPX_20_10 : Z := 0x40.
Definition MT6370_MASK_PUMPX_UP_DN : Z := 0x20.
Definition MT6370_MASK_CHG_STAT : Z := 0xC0.
Definition MT6370_SHIFT_CHG_STAT : Z := 6.
Definition MT6370_MASK_CHG_MIVR : Z := 0x40.
Definition MT6370_SHIFT_MIVR_STAT : Z := 6.
Definition MT6370_MASK_MIVR_STAT : Z := 0x40.
Definition MT6370_MASK_AICR_STAT : Z := 0x20.
Definition MT6370_MASK_CHG_AICLMEASI : Z := 0x01.

Definition RT5081_VENDOR_ID : Z := 0x80.
Definition MT6370_VENDOR_ID : Z := 0xE0.
Definition MT6370_IINLMTSEL_AICR : Z := 2.

(** [enum mt6370_charging_status]. *)
Definition MT6370_CHG_STATUS_DONE : Z := 2.
Definition MT6370_CHG_STATUS_FAULT : Z := 3.

(** [enum mt6370_pmu_chg_type]. *)
Definition MT6370_CHG_TYPE_UNDER_GOING : Z := 1.
Definition MT6370_CHG_TYPE_SDP : Z := 2.
Definition MT6370_CHG_TYPE_SDPNSTD : Z := 3.
Definition MT6370_CHG_TYPE_DCP : Z := 4.
Definition MT6370_CHG_TYPE_CDP : Z := 5.
Definition POWER_SUPPLY_USB_TYPE_UNKNOWN : Z := 0.
Definition POWER_SUPPLY_USB_TYPE_SDP : Z := 1.
Definition POWER_SUPPLY_USB_TYPE_CDP : Z := 3.

(** [enum mt6370_adc_sel] with [mt6370_adc_unit] and [mt6370_adc_offset]. *)
Inductive mt6370_adc_sel : Type :=
  MT6370_ADC_VBUS_DIV5 | MT6370_ADC_VBUS_DIV2 | MT6370_ADC_VSYS | MT6370_ADC_VBAT
| MT6370_ADC_TS_BAT | MT6370_ADC_IBUS | MT6370_ADC_IBAT | MT6370_ADC_CHG_VDDP
| MT6370_ADC_TEMP_JC.

Definition adc_channel (s : mt6370_adc_sel) : Z :=
  match s with
  | MT6370_ADC_VBUS_DIV5 => 1 | MT6370_ADC_VBUS_DIV2 => 2 | MT6370_ADC_VSYS => 3
  | MT6370_ADC_VBAT => 4 | MT6370_ADC_TS_BAT => 6 | MT6370_ADC_IBUS => 8
  | MT6370_ADC_IBAT => 9 | MT6370_ADC_CHG_VDDP => 11 | MT6370_ADC_TEMP_JC => 12
  end.

Definition mt6370_adc_unit (s : mt6370_adc_sel) : Z :=
  match s with
  | MT6370_ADC_VBUS_DIV5 => 25000 | MT6370_ADC_VBUS_DIV2 => 10000 | MT6370_ADC_VSYS => 5000
  | MT6370_ADC_VBAT => 5000 | MT6370_ADC_TS_BAT => 25 | MT6370_ADC_IBUS => 50000
  | MT6370_ADC_IBAT => 50000 | MT6370_ADC_CHG_VDDP => 5000 | MT6370_ADC_TEMP_JC => 2
  end.

Definition mt6370_adc_offset (s : mt6370_adc_sel) : Z :=
  match s with MT6370_ADC_TEMP_JC => -40 | _ => 0 end.

Definition mt6370_chg_reg_addr : list Z :=
  [0x11; 0x12; 0x13; 0x14; 0x15; 0x16; 0x17; 0x18; 0x19; 0x1A; 0x1B; 0x1C; 0x1D; 0x1E; 0x1F;
   0x20; 0x21; 0x22; 0x23; 0x24; 0x25; 0x26; 0x27; 0x28; 0x29; 0x2A; 0x2B; 0x2C; 0x2D; 0x2E;
   0x2F; 0x4A; 0x4B; 0x4C; 0x4D; 0x60; 0xD0; 0xD1; 0xD2; 0xD3; 0xD4; 0xD5; 0xD6; 0xD7; 0xD8].

Definition mt6370_val_en_hidden_mode : list Z := [0x96; 0x69; 0xC3; 0x3C].

Definition mt6370_otg_oc_threshold : list Z :=
  [500000; 700000; 1100000; 1300000; 1800000; 2100000; 2400000; 3000000].

(** ** State *)

(** The mutexes of [struct mt6370_pmu_charger_data] that are modelled. *)
Inductive lock : Type :=
  AdcLock | IrqLock | AicrLock | IchgLock | PeLock | Bc12Lock | HiddenLock | IeocLock
| TchgLock | PpLock.

#[global] Instance lock_eq_dec : EqDecision lock.
Proof. solve_decision. Defined.

(** [struct mt6370_pmu_charger_desc]. *)
Record mt6370_desc : Type := mk_mt6370_desc {
  ds_ichg : Z;
  ds_aicr : Z;
  ds_mivr : Z;
  ds_cv : Z;
  ds_ieoc : Z;
  ds_safety_timer : Z;
  ds_ircmp_resistor : Z;
  ds_ircmp_vclamp : Z;
  ds_aicl_vth_offset : Z;
  ds_aicl_err_h : Z;
  ds_aicl_err_l : Z;
  ds_dc_wdt : Z;
  ds_lbp_hys_sel : Z;
  ds_lbp_dt : Z;
  ds_bc12_sel : Z;
  ds_power_switch_support : bool;
  ds_en_te : bool;
  ds_en_wdt : bool;
  ds_en_polling : bool;
  ds_disable_vlgc : bool;
  ds_fast_unknown_ta_dect : bool;
  ds_post_aicl : bool;
  ds_en_iaicr_cal : bool;
  ds_chg_dev_name : string;
  ds_ls_dev_name : string
}.
#[global] Instance mt6370_desc_struct : Struct mt6370_desc := fun r => mk_mt6370_desc
  (ds_ichg r) (ds_aicr r) (ds_mivr r) (ds_cv r) (ds_ieoc r) (ds_safety_timer r) (ds_ircmp_resistor r)
  (ds_ircmp_vclamp r) (ds_aicl_vth_offset r) (ds_aicl_err_h r) (ds_aicl_err_l r) (ds_dc_wdt r)
  (ds_lbp_hys_sel r) (ds_lbp_dt r) (ds_bc12_sel r) (ds_power_switch_support r) (ds_en_te r) (ds_en_wdt r)
  (ds_en_polling r) (ds_disable_vlgc r) (ds_fast_unknown_ta_dect r) (ds_post_aicl r) (ds_en_iaicr_cal r)
  (ds_chg_dev_name r) (ds_ls_dev_name r).

(** [struct mt6370_pmu_charger_data].  [mt_adapter_detect] is
    [chg_dev->is_adapter_detect], [mt_counter] the static of
    [mt6370_safety_check], [mt_mivr_dwork] whether the delayed work of that name
    is pending, [mt_noti_vbusov] is [chg_dev->noti.vbusov_stat]; [mt_held] are the mutexes held and
    [mt_deadlock] records an attempt to take one that is held. *)
Record mt6370_data : Type := mk_mt6370_data {
  mt_desc : mt6370_desc;
  mt_chip_vid : Z;
  mt_iaicr : iaicr_calibration;
  mt_pwr_rdy : bool;
  mt_irq5 : Z;
  mt_aicr_limit : Z;
  mt_zcv : Z;
  mt_adc_hang : bool;
  mt_bc12_en : bool;
  mt_psy_type : Z;
  mt_psy_usb_type : Z;
  mt_hidden_mode_cnt : Z;
  mt_ieoc : Z;
  mt_ichg : Z;
  mt_ichg_dis_chg : Z;
  mt_mivr : Z;
  mt_ieoc_wkard : bool;
  mt_dcd_timeout : bool;
  mt_bc12_cnt : Z;
  mt_bc12_wkard : bool;
  mt_tchg : Z;
  mt_tcpc_usb_connected : bool;
  mt_psy : bool;
  mt_pp_en : bool;
  mt_dcap_en : bool;
  mt_sgm2541 : bool;
  mt_adapter_detect : bool;
  mt_counter : Z;
  mt_mivr_dwork : bool;
  mt_noti_vbusov : bool;
  mt_held : list lock;
  mt_deadlock : bool
}.
#[global] Instance mt6370_data_struct : Struct mt6370_data := fun r => mk_mt6370_data
  (mt_desc r) (mt_chip_vid r) (mt_iaicr r) (mt_pwr_rdy r) (mt_irq5 r) (mt_aicr_limit r) (mt_zcv r)
  (mt_adc_hang r) (mt_bc12_en r) (mt_psy_type r) (mt_psy_usb_type r) (mt_hidden_mode_cnt r)
  (mt_ieoc r) (mt_ichg r) (mt_ichg_dis_chg r) (mt_mivr r) (mt_ieoc_wkard r) (mt_dcd_timeout r)
  (mt_bc12_cnt r) (mt_bc12_wkard r) (mt_tchg r) (mt_tcpc_usb_connected r) (mt_psy r) (mt_pp_en r)
  (mt_dcap_en r) (mt_sgm2541 r) (mt_adapter_detect r) (mt_counter r)
  (mt_mivr_dwork r) (mt_noti_vbusov r) (mt_held r) (mt_deadlock r).

(** ** What the driver calls *)

Class Mt6370Bus (B : Type) : Type := {
  (** The register map (drivers/misc/mediatek/rt-regmap) and the raw bus. *)
  rt_regmap_reg_read : Z -> M B (Z * Z);
  rt_regmap_reg_write : Z -> Z -> M B Z;
  rt_regmap_update_bits : Z -> Z -> Z -> M B Z;
  rt_regmap_block_read : Z -> nat -> M B (Z * list Z);
  rt_regmap_block_write : Z -> list Z -> M B Z;
  i2c_smbus_read : Z -> M B (Z * Z);
  i2c_smbus_write : Z -> Z -> M B Z;
  (** Waiting (in milliseconds, rounded up); the wait for an interrupt gives its result and the bits the
      handlers set in [irq_flag] meanwhile. *)
  mt_sleep : Z -> M B unit;
  wait_event_interruptible_timeout : M B (Z * Z);
  (** Interrupt lines, supplies, notifications, pins, the USB phy; the property
      "cdp-block" of the USB node, if there is one. *)
  platform_get_resource_byname : string -> M B (option Z);
  enable_irq : Z -> M B unit;
  disable_irq_nosync : Z -> M B unit;
  power_supply_changed : M B unit;
  charger_dev_notify : Z -> M B unit;
  pinctrl_select_state : string -> M B unit;
  phy_get : M B bool;
  phy_set_mode_ext : Z -> M B Z;
  phy_put : M B unit;
  of_usb_cdp_block : M B (option bool)
}.

Record mworld (B : Type) : Type := mk_mworld { md : mt6370_data; mb : B }.
Arguments mk_mworld {B}.
Arguments md {B}.
Arguments mb {B}.
#[global] Instance mworld_struct B : Struct (mworld B) := fun r => mk_mworld (md r) (mb r).

Section Access.
  Context {B : Type}.

Definition bus {A} (m : M B A) : M (mworld B) A :=
  fun w => let '(a, b) := m (mb w) in (a, w <| mb := b |>).
Definition getd {A} (f : mt6370_data -> A) : M (mworld B) A := gets (fun w => f (md w)).
Definition modd (f : mt6370_data -> mt6370_data) : M (mworld B) unit :=
  modify (fun w => w <| md ::= f |>).

Definition mutex_lock (l : lock) : M (mworld B) unit :=
  modd (fun d => if bool_decide (l ∈ mt_held d) then d <| mt_deadlock := true |>
                 else d <| mt_held ::= cons l |>).
Definition mutex_unlock (l : lock) : M (mworld B) unit :=
  modd (fun d => d <| mt_held ::= List.filter (fun x => negb (bool_decide (x = l))) |>).

(** A body between taking a mutex and releasing it. *)
Definition with_lock {A} (l : lock) (body : M (mworld B) A) : M (mworld B) A :=
  mutex_lock l ;;; let! r := body in mutex_unlock l ;;; ret r.
End Access.

Section Driver.
  Context {B : Type} `{!Mt6370Bus B}.

(** ** Chip access (mt6370_pmu_reg.c, with CONFIG_RT_REGMAP) *)

Definition mt6370_pmu_reg_read (addr : Z) : M (mworld B) Z :=
  let! r := bus (rt_regmap_reg_read addr) in
  ret (if fst r <? 0 then fst r else s32 (snd r)).

Definition mt6370_pmu_reg_write (addr data : Z) : M (mworld B) Z := bus (rt_regmap_reg_write addr (u8 data)).

Definition mt6370_pmu_reg_update_bits (addr mask data : Z) : M (mworld B) Z :=
  bus (rt_regmap_update_bits addr (u8 mask) (u8 data)).

Definition mt6370_pmu_reg_block_read (addr : Z) (len : nat) : M (mworld B) (Z * list Z) :=
  bus (rt_regmap_block_read addr len).

Definition mt6370_pmu_reg_block_write (addr : Z) (src : list Z) : M (mworld B) Z :=
  bus (rt_regmap_block_write addr src).

Definition mt6370_pmu_reg_set_bit (addr mask : Z) : M (mworld B) Z :=
  mt6370_pmu_reg_update_bits addr mask mask.
Definition mt6370_pmu_reg_clr_bit (addr mask : Z) : M (mworld B) Z :=
  mt6370_pmu_reg_update_bits addr mask 0x00.

(** [(en ? mt6370_pmu_reg_set_bit : mt6370_pmu_reg_clr_bit)(...)]. *)
Definition mt6370_pmu_reg_assign_bit (en : bool) (addr mask : Z) : M (mworld B) Z :=
  if en then mt6370_pmu_reg_set_bit addr mask else mt6370_pmu_reg_clr_bit addr mask.

Definition mt6370_pmu_reg_test_bit (cmd shift : Z) : M (mworld B) (Z * bool) :=
  let! r := mt6370_pmu_reg_read cmd in
  if r <? 0 then ret (r, false)
  else ret (r, negb (u8 (Z.land r (Z.shiftl 1 shift)) =? 0)).

(** Find the code of a value and store it in the field's bits. *)
Definition mt6370_set_field (f : reg_field) (v : Z) : M (mworld B) Z :=
  mt6370_pmu_reg_update_bits (f_reg f) (f_mask f) (field_bits f (reg_code f v)).

(** Read a field back as a value; a failed read leaves [old]. *)
Definition mt6370_get_field (f : reg_field) (old : Z) : M (mworld B) (Z * Z) :=
  let! r := mt6370_pmu_reg_read (f_reg f) in
  ret (if r <? 0 then (r, old) else (r, real_value f (field_code f r))).

(** ** Internal functions (mt6370_pmu_charger.c) *)

Definition mt6370_chg_irq_clr_flag (mask : Z) : M (mworld B) unit :=
  with_lock IrqLock (modd (fun d => d <| mt_irq5 ::= fun x => Z.land x (Z.lnot mask) |>)).

Definition mt6370_chg_irq_set_flag (mask : Z) : M (mworld B) unit :=
  with_lock IrqLock (modd (fun d => d <| mt_irq5 ::= fun x => Z.lor x mask |>)).

Definition mt6370_enable_irq (name : string) (en : bool) : M (mworld B) unit :=
  let! res := bus (platform_get_resource_byname name) in
  match res with
  | Some start => if en then bus (enable_irq start) else bus (disable_irq_nosync start)
  | None => ret tt
  end.

Definition mt6370_set_fast_charge_timer (hour : Z) : M (mworld B) Z := mt6370_set_field MT6370_WT_FC hour.

Definition mt6370_enable_hidden_mode (en : bool) : M (mworld B) Z :=
  with_lock HiddenLock (
    let! cnt := getd mt_hidden_mode_cnt in
    if en then
      let! r := if cnt =? 0
                then mt6370_pmu_reg_block_write MT6370_PMU_REG_HIDDENPASCODE1 mt6370_val_en_hidden_mode
                else ret 0 in
      if r <? 0 then ret r
      else modd (fun d => d <| mt_hidden_mode_cnt ::= fun c => u32 (c + 1) |>) ;;; ret r
    else
      let! r := if cnt =? 1
                then mt6370_pmu_reg_write MT6370_PMU_REG_HIDDENPASCODE1 0x00 else ret 0 in
      modd (fun d => d <| mt_hidden_mode_cnt ::= fun c => u32 (c - 1) |>) ;;; ret r).

Definition mt6370_get_ieoc (old : Z) : M (mworld B) (Z * Z) := mt6370_get_field MT6370_IEOC old.
Definition __mt6370_get_mivr (old : Z) : M (mworld B) (Z * Z) := mt6370_get_field MT6370_MIVR old.
Definition __mt6370_get_ichg (old : Z) : M (mworld B) (Z * Z) := mt6370_get_field MT6370_ICHG old.
Definition mt6370_get_aicr (old : Z) : M (mworld B) (Z * Z) := mt6370_get_field MT6370_AICR old.
Definition mt6370_get_ichg (old : Z) : M (mworld B) (Z * Z) := __mt6370_get_ichg old.

(** The end-of-charge current, with the workaround's factor and the rounding
    up whose remainder is kept in a [u8]. *)
Definition ieoc_request (wkard : bool) (ieoc : Z) : Z :=
  let ieoc := if wkard then u32 (ieoc * 100) ÷c 57 else ieoc in
  let ieoc_mod := u8 (ieoc mod f_step MT6370_IEOC) in
  if 0 <? ieoc_mod then u32 (ieoc + f_step MT6370_IEOC) else ieoc.

Definition __mt6370_set_ieoc (ieoc : Z) : M (mworld B) Z :=
  let! wk := getd mt_ieoc_wkard in
  mt6370_set_field MT6370_IEOC (ieoc_request wk ieoc).

Definition mt6370_get_charging_status (old : Z) : M (mworld B) (Z * Z) :=
  let! r := mt6370_pmu_reg_read MT6370_PMU_REG_CHGSTAT in
  ret (if r <? 0 then (r, old)
       else (r, Z.shiftr (Z.land r MT6370_MASK_CHG_STAT) MT6370_SHIFT_CHG_STAT)).

Definition mt6370_set_aicl_vth (aicl_vth : Z) : M (mworld B) Z := mt6370_set_field MT6370_AICL_VTH aicl_vth.
Definition __mt6370_set_mivr (uV : Z) : M (mworld B) Z := mt6370_set_field MT6370_MIVR uV.
Definition __mt6370_set_aicr (uA : Z) : M (mworld B) Z := mt6370_set_field MT6370_AICR uA.
Definition __mt6370_set_cv (uV : Z) : M (mworld B) Z := mt6370_set_field MT6370_BAT_VOREG uV.

Definition mt6370_select_input_current_limit (sel : Z) : M (mworld B) Z :=
  mt6370_pmu_reg_update_bits MT6370_PMU_REG_CHGCTRL2 MT6370_MASK_IINLMTSEL
    (Z.shiftl sel MT6370_SHIFT_IINLMTSEL).

Definition mt6370_enable_wdt (en : bool) : M (mworld B) Z :=
  mt6370_pmu_reg_assign_bit en MT6370_PMU_REG_CHGCTRL13 MT6370_MASK_WDT_EN.

Definition mt6370_is_charging_enable : M (mworld B) (Z * bool) :=
  mt6370_pmu_reg_test_bit MT6370_PMU_REG_CHGCTRL2 MT6370_SHIFT_CHG_EN.

Definition __mt6370_enable_te (en : bool) : M (mworld B) Z :=
  mt6370_pmu_reg_assign_bit en MT6370_PMU_REG_CHGCTRL2 MT6370_MASK_TE_EN.

Definition __mt6370_enable_safety_timer (en : bool) : M (mworld B) Z :=
  mt6370_pmu_reg_assign_bit en MT6370_PMU_REG_CHGCTRL12 MT6370_MASK_TMR_EN.

Definition mt6370_set_ircmp_resistor (uohm : Z) : M (mworld B) Z := mt6370_set_field MT6370_IRCMP_RES uohm.
Definition mt6370_set_ircmp_vclamp (uV : Z) : M (mworld B) Z := mt6370_set_field MT6370_IRCMP_VCLAMP uV.

Definition mt6370_ichg_workaround (uA : Z) : M (mworld B) Z :=
  mt6370_enable_hidden_mode true ;;;
  let! ichg := getd mt_ichg in
  let! r :=
    if (900000 <=? ichg) && (uA <? 900000)
    then mt6370_pmu_reg_update_bits MT6370_PMU_REG_CHGHIDDENCTRL7 0x60 0x00
    else if (900000 <=? uA) && (ichg <? 900000)
    then mt6370_pmu_reg_update_bits MT6370_PMU_REG_CHGHIDDENCTRL7 0x60 0x40
    else ret 0 in
  mt6370_enable_hidden_mode false ;;; ret r.

(** The revisions of the chip that need the workarounds. *)
Definition needs_wkard (chip_vid : Z) : bool :=
  (chip_vid =? RT5081_VENDOR_ID) || (chip_vid =? MT6370_VENDOR_ID).

Definition __mt6370_set_ichg (uA : Z) : M (mworld B) Z :=
  let! vid := getd mt_chip_vid in
  let uA := if uA <? 500000 then 500000 else uA in
  when (needs_wkard vid) (ignore (mt6370_ichg_workaround uA)) ;;;
  let! r := mt6370_set_field MT6370_ICHG uA in
  if r <? 0 then ret r
  else
    let! old := getd mt_ichg in
    let! g := __mt6370_get_ichg old in
    modd (fun d => d <| mt_ichg := snd g |>) ;;;
    if negb (needs_wkard vid) then ret r
    else
      let! wk := getd mt_ieoc_wkard in
      let! ieoc := getd mt_ieoc in
      if (uA <? 900000) && negb wk then
        modd (fun d => d <| mt_ieoc_wkard := true |>) ;;; __mt6370_set_ieoc ieoc
      else if (900000 <=? uA) && wk then
        modd (fun d => d <| mt_ieoc_wkard := false |>) ;;; __mt6370_set_ieoc ieoc
      else ret r.

(** *** Analog-to-digital conversion *)

(** Poll the start bit up to [n] times; whether it cleared. *)
Fixpoint adc_wait (n : nat) : M (mworld B) bool :=
  match n with
  | O => ret false
  | S n' =>
      bus (mt_sleep 35) ;;;
      let! r := mt6370_pmu_reg_test_bit MT6370_PMU_REG_CHGADC MT6370_SHIFT_ADC_START in
      if negb (snd r) && (0 <=? fst r) then ret true else adc_wait n'
  end.

(** The register dump of a conversion that did not end. *)
Definition adc_timeout : M (mworld B) unit :=
  let! hang := getd mt_adc_hang in
  when (negb hang)
    (for_each mt6370_chg_reg_addr (fun a => ignore (mt6370_pmu_reg_read a)) ;;;
     modd (fun d => d <| mt_adc_hang := true |>)) ;;;
  ignore (mt6370_pmu_reg_read MT6370_PMU_REG_OSCCTRL) ;;;
  ignore (mt6370_pmu_reg_read MT6370_PMU_REG_CHGHIDDENCTRL15).

(** Start, wait and read: the result code and [adc_result]. *)
Definition adc_convert (sel : mt6370_adc_sel) : M (mworld B) (Z * Z) :=
  let! r := mt6370_pmu_reg_set_bit MT6370_PMU_REG_CHGADC MT6370_MASK_ADC_START in
  if r <? 0 then ret (r, 0)
  else
    let! finished := adc_wait 6 in
    when (negb finished) adc_timeout ;;;
    bus (mt_sleep 1) ;;;
    let! r := mt6370_pmu_reg_block_read MT6370_PMU_REG_ADCDATAH 6 in
    if fst r <? 0 then ret (fst r, 0)
    else
      let adc_data := snd r in
      ret (fst r, s64 ((at_idx adc_data 0 * 256 + at_idx adc_data 1) * mt6370_adc_unit sel
                       + mt6370_adc_offset sel)).

(** The coefficients of IBUS and IBAT. *)
Definition ibus_scale (aicr adc_result : Z) : Z :=
  if aicr <? 400000 then s64 (adc_result * 67) ÷c 100 else adc_result.
Definition ibat_scale (ichg adc_result : Z) : Z :=
  if (100000 <=? ichg) && (ichg <=? 450000) then s64 (adc_result * 475) ÷c 1000
  else if (500000 <=? ichg) && (ichg <=? 850000) then s64 (adc_result * 536) ÷c 1000
  else adc_result.

(** A conversion under the lock of the limit it depends on. *)
Definition adc_locked (l : lock) (get : M (mworld B) (Z * Z)) (scale : Z -> Z -> Z) (sel : mt6370_adc_sel)
    : M (mworld B) (Z * Z) :=
  with_lock l (
    let! g := get in
    if fst g <? 0 then ret (fst g, scale (snd g) 0)
    else let! c := adc_convert sel in ret (fst c, scale (snd g) (snd c))).

Definition mt6370_get_adc (sel : mt6370_adc_sel) : M (mworld B) (Z * Z) :=
  with_lock AdcLock (
    mt6370_enable_hidden_mode true ;;;
    let! r := mt6370_pmu_reg_update_bits MT6370_PMU_REG_CHGADC MT6370_MASK_ADC_IN_SEL
                (Z.shiftl (adc_channel sel) MT6370_SHIFT_ADC_IN_SEL) in
    let! c :=
      if r <? 0 then ret (r, 0)
      else match sel with
           | MT6370_ADC_IBUS => adc_locked AicrLock (mt6370_get_aicr 0) ibus_scale sel
           | MT6370_ADC_IBAT => adc_locked IchgLock (mt6370_get_ichg 0) ibat_scale sel
           | _ => adc_convert sel
           end in
    mt6370_enable_hidden_mode false ;;;
    ret (fst c, s32 (snd c))).

(** *** AICL *)

(** [mt6370_post_aicl_measure]: raise the limit in steps until the MIVR loop
    acts; [n] bounds the iterations. *)
Fixpoint post_aicl_loop (n : nat) (cur stop step : Z) : M (mworld B) (Z + Z) :=
  match n with
  | O => ret (inr cur)
  | S n' =>
      if u32 cur <? stop then
        let! r := __mt6370_set_aicr (u32 (cur + step)) in
        if r <? 0 then ret (inl r)
        else
          bus (mt_sleep 1) ;;;
          let! r := mt6370_pmu_reg_read MT6370_PMU_REG_CHGSTAT1 in
          if r <? 0 then ret (inl r)
          else if negb (Z.land r MT6370_MASK_CHG_MIVR =? 0) then ret (inr cur)
          else post_aicl_loop n' (s32 (cur + step)) stop step
      else ret (inr cur)
  end.

(** Result code and [*measure], [old] before the call. *)
Definition mt6370_post_aicl_measure (start stop step old : Z) : M (mworld B) (Z * Z) :=
  let! r := post_aicl_loop (Z.to_nat ((stop - start) / step + 1)) (s32 start) stop step in
  match r with
  | inl e => ret (e, old)
  | inr cur => ret (0, if stop <? u32 cur then stop else u32 cur)
  end.

Definition HW_AICL_ERROR_THRESHOLD_UA : Z := 1500000.
Definition DETECTION_VTH_OFFSET_UV : Z := 100000.

(** The compensation at [skip_post_aicl]. *)
Definition aicl_compensate (d : mt6370_data) (aicr : Z) : Z :=
  if 1000000 <? aicr then
    if enable_iaicr_cal (mt_iaicr d) && ds_en_iaicr_cal (mt_desc d)
    then mt6370_calibrate_aicl_result (mt_iaicr d) aicr
    else if HW_AICL_ERROR_THRESHOLD_UA <? aicr then u32 (aicr - ds_aicl_err_h (mt_desc d))
    else u32 (aicr - ds_aicl_err_l (mt_desc d))
  else aicr.

Definition aicl_unlock (r : Z) : M (mworld B) Z := mutex_unlock AicrLock ;;; mutex_unlock PeLock ;;; ret r.

(** From [skip_post_aicl] on. *)
Definition aicl_finish (aicr r : Z) : M (mworld B) Z :=
  modd (fun d => d <| mt_aicr_limit := s32 (aicl_compensate d aicr) |>) ;;; aicl_unlock r.

(** The measurement, from taking the two mutexes on; the failure of the post
    measurement leaves without releasing them, as the source does. *)
Definition aicl_measure : M (mworld B) Z :=
  mutex_lock PeLock ;;;
  mutex_lock AicrLock ;;;
  let! r := mt6370_pmu_reg_set_bit MT6370_PMU_REG_CHGCTRL14 MT6370_MASK_AICL_MEAS in
  if r <? 0 then aicl_unlock r
  else
    let! wt := bus wait_event_interruptible_timeout in
    modd (fun d => d <| mt_irq5 ::= fun x => u8 (Z.lor x (snd wt)) |>) ;;;
    if fst wt <=? 0 then aicl_unlock (- EIO)
    else
      let! g := mt6370_get_aicr 0 in
      if fst g <? 0 then aicl_unlock (fst g)
      else
        let! post := getd (fun d => ds_post_aicl (mt_desc d)) in
        if negb post then aicl_finish (snd g) (fst g)
        else
          let aicr := snd g in
          let! p := mt6370_post_aicl_measure aicr (u32 (aicr + 200000)) 50000 aicr in
          if fst p <? 0 then ret (fst p)
          else aicl_finish (snd p) (fst p).

Definition __mt6370_run_aicl : M (mworld B) Z :=
  let! s := mt6370_pmu_reg_test_bit MT6370_PMU_REG_CHGSTAT1 MT6370_SHIFT_MIVR_STAT in
  if fst s <? 0 then ret (fst s)
  else if negb (snd s) then ret (fst s)
  else
    let! m := __mt6370_get_mivr 0 in
    if fst m <? 0 then ret (fst m)
    else
      let! detect := getd mt_adapter_detect in
      let! offset := getd (fun d => ds_aicl_vth_offset (mt_desc d)) in
      let aicl_vth := u32 (snd m + if detect then DETECTION_VTH_OFFSET_UV else offset) in
      if f_max MT6370_AICL_VTH <? aicl_vth then ret (- EINVAL)
      else
        let! r := mt6370_set_aicl_vth aicl_vth in
        if r <? 0 then ret r
        else
          mt6370_chg_irq_clr_flag MT6370_MASK_CHG_AICLMEASI ;;;
          aicl_measure.

(** *** BC 1.2 charger-type detection (with CONFIG_TCPC_CLASS and
    CONFIG_MT6370_DCDTOUT_SUPPORT) *)

Definition PHY_MODE_BC11_SET : Z := 1.
Definition PHY_MODE_BC11_CLR : Z := 2.
Definition MT6370_USBSW_CHG : Z := 0.
Definition MT6370_USBSW_USB : Z := 1.

Definition is_usb_rdy : M (mworld B) bool :=
  let! node := bus of_usb_cdp_block in
  ret (match node with Some blocked => negb blocked | None => true end).

Definition mt6370_set_usbsw_state (state : Z) : M (mworld B) Z :=
  let mode := if state =? MT6370_USBSW_CHG then PHY_MODE_BC11_SET else PHY_MODE_BC11_CLR in
  let! phy := bus phy_get in
  if negb phy then ret (- EINVAL)
  else ignore (bus (phy_set_mode_ext mode)) ;;; bus phy_put ;;; ret 0.

Definition __mt6370_enable_chgdet_flow (en : bool) : M (mworld B) Z :=
  ignore (mt6370_set_usbsw_state (if en then MT6370_USBSW_CHG else MT6370_USBSW_USB)) ;;;
  let! r := mt6370_pmu_reg_assign_bit en MT6370_PMU_REG_DEVICETYPE MT6370_MASK_USBCHGEN in
  when (0 <=? r) (modd (fun d => d <| mt_bc12_en := en |>)) ;;;
  ret r.

(** The wait for the USB stack, at most [n] rounds: [true] to go on, [false]
    when the cable was pulled. *)
Fixpoint cdp_wait (n : nat) : M (mworld B) bool :=
  match n with
  | O => ret true
  | S n' =>
      let! ready := is_usb_rdy in
      if ready then ret true
      else
        let! connected := getd mt_tcpc_usb_connected in
        if negb connected then ret false
        else bus (mt_sleep 100) ;;; cdp_wait n'
  end.

Definition mt6370_enable_chgdet_flow (en : bool) : M (mworld B) Z :=
  let! go := if en then cdp_wait 200 else ret true in
  if negb go then ret 0
  else with_lock Bc12Lock (__mt6370_enable_chgdet_flow en).

Definition mt6370_toggle_chgdet_flow : M (mworld B) Z :=
  let! r := bus (i2c_smbus_read MT6370_PMU_REG_DEVICETYPE) in
  if fst r <? 0 then ret (fst r)
  else
    let data := Z.land (u8 (snd r)) (Z.lnot MT6370_MASK_USBCHGEN) in
    let! w1 := bus (i2c_smbus_write MT6370_PMU_REG_DEVICETYPE data) in
    if w1 <? 0 then ret w1
    else
      bus (mt_sleep 1) ;;;
      bus (i2c_smbus_write MT6370_PMU_REG_DEVICETYPE (Z.lor data MT6370_MASK_USBCHGEN)).

Definition mt6370_bc12_workaround : M (mworld B) Z :=
  let! r := mt6370_toggle_chgdet_flow in
  if r <? 0 then ret r
  else bus (mt_sleep 10) ;;; mt6370_toggle_chgdet_flow.

(** *** Power path *)

Definition mt6370_enable_power_path (en : bool) : M (mworld B) Z :=
  with_lock PpLock (
    let! pp := getd mt_pp_en in
    if eqb en pp then ret 0
    else
      when (negb en) (mt6370_enable_irq "chg_mivr" false) ;;;
      let! mivr := getd mt_mivr in
      let! r := __mt6370_set_mivr (if en then mivr else f_max MT6370_MIVR) in
      when en (mt6370_enable_irq "chg_mivr" true) ;;;
      modd (fun d => d <| mt_pp_en := en |>) ;;;
      ret r).

(** The end of [__mt6370_chgdet_handler], from the label [dcd_timeout]. *)
Definition chgdet_end (r : Z) : M (mworld B) Z :=
  let! t := getd mt_psy_usb_type in
  mt6370_enable_power_path (negb (t =? POWER_SUPPLY_USB_TYPE_UNKNOWN)) ;;;
  let! r := if negb (t =? POWER_SUPPLY_USB_TYPE_DCP) then __mt6370_enable_chgdet_flow false
            else ret r in
  bus power_supply_changed ;;;
  ret r.

Definition chgdet_out (r : Z) : M (mworld B) Z :=
  modd (fun d => d <| mt_bc12_wkard := false |>) ;;; chgdet_end r.

(** The pair of supply type and USB type for a detection result. *)
Definition usb_types (usb_status : Z) : Z * Z :=
  if usb_status =? MT6370_CHG_TYPE_SDP then (POWER_SUPPLY_TYPE_USB, POWER_SUPPLY_USB_TYPE_SDP)
  else if usb_status =? MT6370_CHG_TYPE_SDPNSTD then
    (POWER_SUPPLY_TYPE_USB, POWER_SUPPLY_USB_TYPE_DCP)
  else if usb_status =? MT6370_CHG_TYPE_CDP then
    (POWER_SUPPLY_TYPE_USB_CDP, POWER_SUPPLY_USB_TYPE_CDP)
  else if usb_status =? MT6370_CHG_TYPE_DCP then
    (POWER_SUPPLY_TYPE_USB_DCP, POWER_SUPPLY_USB_TYPE_DCP)
  else (POWER_SUPPLY_TYPE_UNKNOWN, POWER_SUPPLY_USB_TYPE_UNKNOWN).

Definition __mt6370_chgdet_handler : M (mworld B) Z :=
  let! d := getd (fun d => d) in
  let pwr_rdy := mt_tcpc_usb_connected d in
  if eqb (mt_pwr_rdy d) pwr_rdy && negb (mt_bc12_wkard d) then
    if negb pwr_rdy then chgdet_out 0 else ret 0
  else
    modd (fun d => d <| mt_pwr_rdy := pwr_rdy |>) ;;;
    if negb pwr_rdy then
      modd (fun d => d <| mt_psy_type := POWER_SUPPLY_TYPE_UNKNOWN |>
                       <| mt_psy_usb_type := POWER_SUPPLY_USB_TYPE_UNKNOWN |>
                       <| mt_bc12_cnt := 0 |>) ;;;
      chgdet_out 0
    else
      modd (fun d => d <| mt_bc12_cnt ::= fun c => s32 (c + 1) |>) ;;;
      if mt_dcd_timeout d then
        modd (fun d => d <| mt_psy_type := POWER_SUPPLY_TYPE_USB |>
                         <| mt_psy_usb_type := POWER_SUPPLY_USB_TYPE_SDP |>
                         <| mt_dcd_timeout := false |>) ;;;
        chgdet_end 0
      else
        let! r := mt6370_pmu_reg_read MT6370_PMU_REG_USBSTATUS1 in
        if r <? 0 then ret r
        else
          let usb_status :=
            u8 (Z.shiftr (Z.land r MT6370_MASK_USB_STATUS) MT6370_SHIFT_USB_STATUS) in
          if usb_status =? MT6370_CHG_TYPE_UNDER_GOING then ret r
          else
            let t := usb_types usb_status in
            modd (fun d => d <| mt_psy_type := fst t |> <| mt_psy_usb_type := snd t |>) ;;;
            let! cnt := getd mt_bc12_cnt in
            if (cnt <? 3) && (snd t =? POWER_SUPPLY_USB_TYPE_SDP) && needs_wkard (mt_chip_vid d)
            then
              let! k := mt6370_bc12_workaround in
              if 0 <=? k then modd (fun d => d <| mt_bc12_wkard := true |>) ;;; ret k
              else chgdet_out k
            else chgdet_out r.

Definition mt6370_chgdet_handler : M (mworld B) Z := with_lock Bc12Lock __mt6370_chgdet_handler.

(** ** Released interfaces *)

Definition mt6370_enable_charging (en : bool) : M (mworld B) Z :=
  with_lock IchgLock (
    let! ichg := getd mt_ichg in
    let! dis := getd mt_ichg_dis_chg in
    (if negb en then
       if ichg <=? 500000 then ret tt
       else
         modd (fun d => d <| mt_ichg_dis_chg := mt_ichg d |>) ;;;
         let! r := mt6370_pmu_reg_update_bits MT6370_PMU_REG_CHGCTRL7 (f_mask MT6370_ICHG)
                     (Z.shiftl 0x04 (f_shift MT6370_ICHG)) in
         if r <? 0 then ret tt
         else bus (mt_sleep (u32 ((ichg - 500000) ÷c 50000 * 2)))
     else if ichg =? dis then ignore (__mt6370_set_ichg ichg)
     else ret tt) ;;;
    mt6370_pmu_reg_assign_bit en MT6370_PMU_REG_CHGCTRL2 MT6370_MASK_CHG_EN).

Definition mt6370_is_enabled_charging (old : bool) : M (mworld B) (Z * bool) :=
  mt6370_is_charging_enable.

Definition mt6370_enable_safety_timer (en : bool) : M (mworld B) Z := __mt6370_enable_safety_timer en.
Definition mt6370_enable_te (en : bool) : M (mworld B) Z := __mt6370_enable_te en.

Definition mt6370_reset_eoc_state : M (mworld B) Z :=
  mt6370_enable_hidden_mode true ;;;
  let! r := mt6370_pmu_reg_set_bit MT6370_PMU_REG_CHGHIDDENCTRL0 0x80 in
  let! r := if r <? 0 then ret r
            else bus (mt_sleep 1) ;;; mt6370_pmu_reg_clr_bit MT6370_PMU_REG_CHGHIDDENCTRL0 0x80 in
  mt6370_enable_hidden_mode false ;;;
  ret r.

Definition mt6370_safety_check (polling_ieoc : Z) : M (mworld B) Z :=
  let! a := mt6370_get_adc MT6370_ADC_IBAT in
  if fst a <? 0 then ret (fst a)
  else
    modd (fun d => d <| mt_counter ::= fun c =>
                        if u32 (snd a) <=? polling_ieoc then s32 (c + 1) else 0 |>) ;;;
    let! c := getd mt_counter in
    when (c =? 3) (bus (charger_dev_notify CHARGER_DEV_NOTIFY_EOC) ;;;
                   modd (fun d => d <| mt_counter := 0 |>)) ;;;
    ret (fst a).

Definition mt6370_is_safety_timer_enable (old : bool) : M (mworld B) (Z * bool) :=
  mt6370_pmu_reg_test_bit MT6370_PMU_REG_CHGCTRL12 MT6370_SHIFT_TMR_EN.

Definition mt6370_is_power_path_enable (old : bool) : M (mworld B) (Z * bool) :=
  with_lock PpLock (let! pp := getd mt_pp_en in ret (0, pp)).

Definition mt6370_set_ichg (uA : Z) : M (mworld B) Z :=
  with_lock IchgLock (with_lock IeocLock (__mt6370_set_ichg uA)).

Definition mt6370_set_ieoc (uA : Z) : M (mworld B) Z :=
  with_lock IchgLock (with_lock IeocLock (__mt6370_set_ieoc uA)).

Definition mt6370_set_aicr (uA : Z) : M (mworld B) Z :=
  with_lock AicrLock (
    let! d := getd (fun d => d) in
    __mt6370_set_aicr (mt6370_calibrate_aicr (ds_en_iaicr_cal (mt_desc d)) (mt_iaicr d) uA)).

Definition mt6370_get_mivr_state (old : bool) : M (mworld B) (Z * bool) :=
  let! r := mt6370_pmu_reg_read MT6370_PMU_REG_CHGSTAT1 in
  ret (if r <? 0 then (r, old) else (0, negb (Z.land r MT6370_MASK_MIVR_STAT =? 0))).

Definition mt6370_get_indpm_state (oldv oldi : bool) : M (mworld B) (Z * (bool * bool)) :=
  let! r := mt6370_pmu_reg_read MT6370_PMU_REG_CHGSTAT1 in
  ret (if r <? 0 then (r, (false, false))
       else (0, (negb (Z.land r MT6370_MASK_MIVR_STAT =? 0),
                 negb (Z.land r MT6370_MASK_AICR_STAT =? 0)))).

Definition mt6370_get_mivr (old : Z) : M (mworld B) (Z * Z) := __mt6370_get_mivr old.

Definition mt6370_set_mivr (uV : Z) : M (mworld B) Z :=
  with_lock PpLock (
    let! pp := getd mt_pp_en in
    let! r := if negb pp then ret 0 else __mt6370_set_mivr uV in
    when (0 <=? r) (modd (fun d => d <| mt_mivr := uV |>)) ;;;
    ret r).

Definition mt6370_get_cv (old : Z) : M (mworld B) (Z * Z) := mt6370_get_field MT6370_BAT_VOREG old.
Definition mt6370_set_cv (uV : Z) : M (mworld B) Z := __mt6370_set_cv uV.

(** The index of the first threshold not below [uA], or the last. *)
Fixpoint otg_index (i : Z) (table : list Z) (uA : Z) : Z :=
  match table with
  | v :: ((_ :: _) as rest) => if uA <=? v then i else otg_index (i + 1) rest uA
  | _ => i
  end.

Definition mt6370_set_otg_current_limit (uA : Z) : M (mworld B) Z :=
  let! ps := getd (fun d => ds_power_switch_support (mt_desc d)) in
  if ps then ret 0
  else mt6370_pmu_reg_update_bits MT6370_PMU_REG_CHGCTRL10 MT6370_MASK_BOOST_OC
         (otg_index 0 mt6370_otg_oc_threshold uA).
End Driver.
