(* ===== verification/Mt6370Ops.v ===== *)
(** * The MT6370 charger driver: the operations it offers
    (drivers/misc/mediatek/subpmic/mt6370_pmu_charger.c)

    The remaining released interfaces (OTG, pump express, direct charging,
    measurement, plugging) and the operation tables the driver registers with
    the charger class. *)

From S2P Require Import Prelude ChargerClass AlgClass ChargerTypes Platform BasicCharger Mt6370Enc.
From S2P Require Import Mt6370.
#[local] Open Scope Z_scope.

Section Ops.
  Context {B : Type} `{!Mt6370Bus B}.

(** ** OTG and discharge *)

(** The exit [err_en_otg]. *)
Definition otg_failed : M (mworld B) Z :=
  mt6370_pmu_reg_clr_bit MT6370_PMU_REG_CHGCTRL1 MT6370_MASK_OPA_MODE ;;;
  mt6370_enable_wdt false ;;;
  mt6370_pmu_reg_write MT6370_PMU_REG_LG_CONTROL 0x73 ;;;
  ret (- EIO).

Definition otg_by_power_switch (en : bool) : M (mworld B) unit :=
  if en then
    bus (pinctrl_select_state "sgm2541_output1") ;;;
    bus (mt_sleep 3) ;;;
    bus (pinctrl_select_state "usbc_otg_en1")
  else
    bus (pinctrl_select_state "usbc_otg_en0") ;;;
    bus (mt_sleep 50) ;;;
    bus (pinctrl_select_state "sgm2541_output0").

(** Between entering and leaving hidden mode. *)
Definition otg_switch (en : bool) : M (mworld B) Z :=
  let! r := mt6370_pmu_reg_write MT6370_PMU_REG_LG_CONTROL (if en then 0x7C else 0x73) in
  if r <? 0 then ret r
  else
    ignore (mt6370_pmu_reg_read MT6370_PMU_REG_LG_CONTROL) ;;;
    mt6370_enable_wdt false ;;;
    mt6370_pmu_reg_assign_bit en MT6370_PMU_REG_CHGCTRL1 MT6370_MASK_OPA_MODE ;;;
    bus (mt_sleep 20) ;;;
    let! failed :=
      if en then
        let! t := mt6370_pmu_reg_test_bit MT6370_PMU_REG_CHGCTRL1 MT6370_SHIFT_OPA_MODE in
        ret ((fst t <? 0) || negb (snd t))
      else ret false in
    if failed then otg_failed
    else
      let! r := mt6370_pmu_reg_write MT6370_PMU_REG_CHGHIDDENCTRL6 (if en then 0x00 else 0x0F) in
      if negb en then mt6370_enable_wdt false else ret r.

Definition mt6370_enable_otg (en : bool) : M (mworld B) Z :=
  let! d := getd (fun d => d) in
  if ds_power_switch_support (mt_desc d) && mt_sgm2541 d then otg_by_power_switch en ;;; ret 0
  else
    mt6370_enable_hidden_mode true ;;;
    let! r := otg_switch en in
    mt6370_enable_hidden_mode false ;;;
    ret r.

(** Clear the discharge bit again while it reads as set, at most [n] times. *)
Fixpoint dischg_clear (n : nat) (r : Z) : M (mworld B) Z :=
  match n with
  | O => ret r
  | S n' =>
      let! t := mt6370_pmu_reg_test_bit MT6370_PMU_REG_CHGHIDDENCTRL1 2 in
      if negb (snd t) then ret (fst t)
      else
        let! r := mt6370_pmu_reg_clr_bit MT6370_PMU_REG_CHGHIDDENCTRL1 0x04 in
        dischg_clear n' r
  end.

(** A failure to set the bit returns without leaving hidden mode, as the source
    does. *)
Definition mt6370_enable_discharge (en : bool) : M (mworld B) Z :=
  let! h := mt6370_enable_hidden_mode true in
  if h <? 0 then mt6370_enable_hidden_mode false ;;; ret h
  else
    let! r := mt6370_pmu_reg_assign_bit en MT6370_PMU_REG_CHGHIDDENCTRL1 0x04 in
    if r <? 0 then ret r
    else
      let! r := if negb en then dischg_clear 3 r else ret r in
      mt6370_enable_hidden_mode false ;;;
      ret r.

(** ** Pump express *)

Fixpoint pumpx_wait (n : nat) : M (mworld B) bool :=
  match n with
  | O => ret false
  | S n' =>
      bus (mt_sleep 2500) ;;;
      let! t := mt6370_pmu_reg_test_bit MT6370_PMU_REG_CHGCTRL17 MT6370_SHIFT_PUMPX_EN in
      if negb (snd t) && (0 <=? fst t) then ret true else pumpx_wait n'
  end.

Definition mt6370_enable_pump_express (en : bool) : M (mworld B) Z :=
  let! r := mt6370_set_aicr 800000 in
  if r <? 0 then ret r
  else
    let! r := mt6370_set_ichg 2000000 in
    if r <? 0 then ret r
    else
      let! r := mt6370_enable_charging true in
      if r <? 0 then ret r
      else
        mt6370_enable_hidden_mode true ;;;
        ignore (mt6370_pmu_reg_clr_bit MT6370_PMU_REG_CHGHIDDENCTRL9 0x80) ;;;
        let! r := mt6370_pmu_reg_assign_bit en MT6370_PMU_REG_CHGCTRL17 MT6370_MASK_PUMPX_EN in
        let! r := if r <? 0 then ret r
                  else let! ok := pumpx_wait 5 in ret (if ok then 0 else - EIO) in
        ignore (mt6370_pmu_reg_set_bit MT6370_PMU_REG_CHGHIDDENCTRL9 0x80) ;;;
        mt6370_enable_hidden_mode false ;;;
        ret r.

Definition mt6370_set_pep_current_pattern (is_increase : bool) : M (mworld B) Z :=
  with_lock PeLock (
    ignore (mt6370_pmu_reg_clr_bit MT6370_PMU_REG_CHGCTRL17 MT6370_MASK_PUMPX_20_10) ;;;
    let! r := mt6370_pmu_reg_assign_bit is_increase MT6370_PMU_REG_CHGCTRL17
                MT6370_MASK_PUMPX_UP_DN in
    if r <? 0 then ret r else mt6370_enable_pump_express true).

Definition mt6370_set_pep20_reset : M (mworld B) Z :=
  with_lock PeLock (
    mt6370_enable_hidden_mode true ;;;
    ignore (mt6370_pmu_reg_clr_bit MT6370_PMU_REG_CHGHIDDENCTRL9 0x80) ;;;
    let! r := mt6370_select_input_current_limit MT6370_IINLMTSEL_AICR in
    let! r := if r <? 0 then ret r
              else
                let! r := mt6370_set_aicr 100000 in
                if r <? 0 then ret r
                else bus (mt_sleep 250) ;;; mt6370_set_aicr 700000 in
    ignore (mt6370_pmu_reg_set_bit MT6370_PMU_REG_CHGHIDDENCTRL9 0x80) ;;;
    mt6370_enable_hidden_mode false ;;;
    ret r).

Definition mt6370_set_pep20_current_pattern (uV : Z) : M (mworld B) Z :=
  with_lock PeLock (
    let! r := mt6370_pmu_reg_set_bit MT6370_PMU_REG_CHGCTRL17 MT6370_MASK_PUMPX_20_10 in
    if r <? 0 then ret r
    else
      let! r := mt6370_set_field MT6370_PEP20_VOLT uV in
      if r <? 0 then ret r
      else
        let! r := mt6370_enable_pump_express true in
        ret (if 0 <=? r then 0 else r)).

Definition mt6370_set_pep20_efficiency_table : M (mworld B) Z := ret 0.

Definition mt6370_enable_cable_drop_comp (en : bool) : M (mworld B) Z :=
  with_lock PeLock (
    let! r := mt6370_pmu_reg_set_bit MT6370_PMU_REG_CHGCTRL17 MT6370_MASK_PUMPX_20_10 in
    if r <? 0 then ret r
    else
      let! r := mt6370_pmu_reg_update_bits MT6370_PMU_REG_CHGCTRL17 (f_mask MT6370_PEP20_VOLT)
                  (Z.shiftl 0x1F (f_shift MT6370_PEP20_VOLT)) in
      if r <? 0 then ret r else mt6370_enable_pump_express true).

(** ** Status *)

Definition mt6370_is_charging_done (old : bool) : M (mworld B) (Z * bool) :=
  let! s := mt6370_get_charging_status 0 in
  ret (if fst s <? 0 then (fst s, old) else (0, snd s =? MT6370_CHG_STATUS_DONE)).

Definition mt6370_kick_wdt : M (mworld B) Z :=
  let! s := mt6370_get_charging_status 0 in ret (fst s).

(** ** Direct charging *)

Definition dc_disable_bypass : M (mworld B) Z :=
  let! r := mt6370_pmu_reg_clr_bit MT6370_PMU_REG_CHGCTRL2 MT6370_MASK_BYPASS_MODE in
  mt6370_enable_irq "chg_mivr" true ;;;
  ret r.

Definition mt6370_enable_direct_charge (en : bool) : M (mworld B) Z :=
  if en then
    mt6370_enable_irq "chg_mivr" false ;;;
    let! r := mt6370_pmu_reg_set_bit MT6370_PMU_REG_CHGCTRL2 MT6370_MASK_BYPASS_MODE in
    if r <? 0 then mt6370_enable_irq "chg_mivr" true ;;; ret r
    else
      let! r := mt6370_pmu_reg_set_bit MT6370_PMU_REG_CHGPUMP MT6370_MASK_VG_EN in
      if r <? 0 then dc_disable_bypass else ret r
  else
    ignore (mt6370_pmu_reg_clr_bit MT6370_PMU_REG_CHGPUMP MT6370_MASK_VG_EN) ;;;
    dc_disable_bypass.

Definition mt6370_set_dc_vbusov (uV : Z) : M (mworld B) Z := mt6370_set_field MT6370_DC_VBUSOV_LVL uV.
Definition mt6370_set_dc_ibusoc (uA : Z) : M (mworld B) Z := mt6370_set_field MT6370_DC_IBUSOC_LVL uA.

(** ** Measurements *)

(** The retries of an implausible junction temperature. *)
Fixpoint tchg_retry (n : nat) (r adc_temp : Z) : M (mworld B) (Z * Z) :=
  match n with
  | O => ret (r, adc_temp)
  | S n' =>
      if 120 <=? adc_temp then
        ignore (mt6370_get_adc MT6370_ADC_VBAT) ;;;
        let! a := mt6370_get_adc MT6370_ADC_TEMP_JC in
        tchg_retry n' (fst a) (snd a)
      else ret (r, adc_temp)
  end.

Definition mt6370_get_tchg (oldmin oldmax : Z) : M (mworld B) (Z * (Z * Z)) :=
  let! a := mt6370_get_adc MT6370_ADC_TEMP_JC in
  if fst a <? 0 then ret (fst a, (oldmin, oldmax))
  else
    let! a := tchg_retry 3 (fst a) (snd a) in
    if fst a <? 0 then ret (fst a, (oldmin, oldmax))
    else
      let! t := with_lock TchgLock (
        if 120 <=? snd a then getd mt_tchg
        else modd (fun d => d <| mt_tchg := snd a |>) ;;; ret (snd a)) in
      ret (fst a, (t, t)).

Definition mt6370_get_vbus (old : Z) : M (mworld B) (Z * Z) :=
  let! a := mt6370_get_adc MT6370_ADC_VBUS_DIV5 in
  ret (if fst a <? 0 then (fst a, old) else (fst a, u32 (snd a))).

Definition mt6370_get_ibus (old : Z) : M (mworld B) (Z * Z) :=
  let! a := mt6370_get_adc MT6370_ADC_IBUS in
  ret (if fst a <? 0 then (fst a, old) else (fst a, u32 (snd a))).

(** ** Plugging, AICL and the rest *)

Definition mt6370_plug_out : M (mworld B) Z :=
  modd (fun d => d <| mt_aicr_limit := -1 |>) ;;;
  let! r := mt6370_enable_charging false in
  if r <? 0 then ret r
  else bus power_supply_changed ;;; mt6370_enable_wdt false.

Definition mt6370_plug_in : M (mworld B) Z :=
  let! wdt := getd (fun d => ds_en_wdt (mt_desc d)) in
  when wdt (ignore (mt6370_enable_wdt true)) ;;;
  let! r := mt6370_enable_charging true in
  if r <? 0 then ret r
  else bus power_supply_changed ;;; ret r.

Definition mt6370_run_aicl (old : Z) : M (mworld B) (Z * Z) :=
  let! r := __mt6370_run_aicl in
  let! limit := getd mt_aicr_limit in
  ret (r, if 0 <=? r then u32 limit else old).

Definition mt6370_get_min_ichg (old : Z) : M (mworld B) (Z * Z) := ret (0, 500000).
Definition mt6370_get_min_aicr (old : Z) : M (mworld B) (Z * Z) := ret (0, 100000).

Definition mt6370_enable_ir_comp (en : bool) : M (mworld B) Z :=
  let! ds := getd mt_desc in
  let! r := mt6370_set_ircmp_resistor (if en then ds_ircmp_resistor ds else 0) in
  if r <? 0 then ret r
  else mt6370_set_ircmp_vclamp (if en then ds_ircmp_vclamp ds else 0).

(** Read every register until a read fails. *)
Fixpoint dump_regs (l : list Z) : M (mworld B) Z :=
  match l with
  | [] => ret 0
  | a :: l' =>
      let! r := mt6370_pmu_reg_read a in
      if r <? 0 then ret r else dump_regs l'
  end.

Definition mt6370_dump_register : M (mworld B) Z :=
  ignore (mt6370_get_ichg 0) ;;;
  ignore (mt6370_get_aicr 0) ;;;
  let! s := mt6370_get_charging_status 0 in
  ignore (mt6370_get_ieoc 0) ;;;
  ignore (mt6370_get_mivr 0) ;;;
  ignore (mt6370_get_cv 0) ;;;
  ignore mt6370_is_charging_enable ;;;
  ignore (mt6370_get_adc MT6370_ADC_VSYS) ;;;
  ignore (mt6370_get_adc MT6370_ADC_VBAT) ;;;
  ignore (mt6370_get_adc MT6370_ADC_IBAT) ;;;
  ignore (mt6370_get_adc MT6370_ADC_IBUS) ;;;
  ignore (mt6370_get_adc MT6370_ADC_VBUS_DIV5) ;;;
  ignore (mt6370_pmu_reg_read MT6370_PMU_REG_CHGSTAT1) ;;;
  ignore (mt6370_pmu_reg_block_read MT6370_PMU_REG_CHGCTRL1 2) ;;;
  if snd s =? MT6370_CHG_STATUS_FAULT then dump_regs mt6370_chg_reg_addr else ret 0.

Definition mt6370_enable_chg_type_det (en : bool) : M (mworld B) Z :=
  let! sel := getd (fun d => ds_bc12_sel (mt_desc d)) in
  if negb (sel =? 0) then ret 0
  else
    modd (fun d => d <| mt_tcpc_usb_connected := en |>) ;;;
    if negb en then mt6370_chgdet_handler else mt6370_enable_chgdet_flow true.

Definition mt6370_get_zcv (old : Z) : M (mworld B) (Z * Z) :=
  let! z := getd mt_zcv in ret (0, z).

Definition mt6370_do_event (event args : Z) : M (mworld B) Z :=
  let! psy := getd mt_psy in
  if negb psy then ret (- ENODEV)
  else
    when ((event =? EVENT_FULL) || (event =? EVENT_RECHARGE) || (event =? EVENT_DISCHARGE))
      (bus power_supply_changed) ;;;
    ret 0.

Definition mt6370_enable_dcap (en : bool) : M (mworld B) Z :=
  modd (fun d => d <| mt_dcap_en := en |>) ;;; ret (b2z en).
(** ** The operation tables

    [mt6370_kick_dc_wdt] has the body of [mt6370_kick_wdt]. *)

Definition mt6370_chg_ops {V} : charger_ops (mworld B) V := {|
  ops_plug_in := Some mt6370_plug_in;
  ops_plug_out := Some mt6370_plug_out;
  ops_enable := Some mt6370_enable_charging;
  ops_is_enabled := Some mt6370_is_enabled_charging;
  ops_enable_chip := None;
  ops_is_chip_enabled := None;
  ops_get_charging_current := Some mt6370_get_ichg;
  ops_set_charging_current := Some mt6370_set_ichg;
  ops_get_min_charging_current := Some mt6370_get_min_ichg;
  ops_set_constant_voltage := Some mt6370_set_cv;
  ops_get_constant_voltage := Some mt6370_get_cv;
  ops_get_input_current := Some mt6370_get_aicr;
  ops_set_input_current := Some mt6370_set_aicr;
  ops_get_min_input_current := Some mt6370_get_min_aicr;
  ops_get_eoc_current := None;
  ops_set_eoc_current := Some mt6370_set_ieoc;
  ops_kick_wdt := Some mt6370_kick_wdt;
  ops_event := Some mt6370_do_event;
  ops_send_ta_current_pattern := Some mt6370_set_pep_current_pattern;
  ops_send_ta20_current_pattern := Some mt6370_set_pep20_current_pattern;
  ops_reset_ta := Some mt6370_set_pep20_reset;
  ops_enable_cable_drop_comp := Some mt6370_enable_cable_drop_comp;
  ops_set_mivr := Some mt6370_set_mivr;
  ops_get_mivr := Some mt6370_get_mivr;
  ops_get_mivr_state := Some mt6370_get_mivr_state;
  ops_get_indpm_state := Some mt6370_get_indpm_state;
  ops_is_powerpath_enabled := Some mt6370_is_power_path_enable;
  ops_enable_powerpath := Some mt6370_enable_power_path;
  ops_enable_vbus_ovp := None;
  ops_is_safety_timer_enabled := Some mt6370_is_safety_timer_enable;
  ops_enable_safety_timer := Some mt6370_enable_safety_timer;
  ops_enable_termination := Some mt6370_enable_te;
  ops_enable_direct_charging := None;
  ops_kick_direct_charging_wdt := None;
  ops_set_direct_charging_ibusoc := None;
  ops_set_direct_charging_vbusov := None;
  ops_enable_otg := Some mt6370_enable_otg;
  ops_enable_discharge := Some mt6370_enable_discharge;
  ops_set_boost_current_limit := Some mt6370_set_otg_current_limit;
  ops_enable_chg_type_det := Some mt6370_enable_chg_type_det;
  ops_get_wpc_online := None;
  ops_do_wpc_algorithm := None;
  ops_force_enable_wpc_charge := None;
  ops_get_temp := None;
  ops_set_wpc_en := None;
  ops_set_sleep_en := None;
  ops_run_aicl := Some mt6370_run_aicl;
  ops_reset_eoc_state := Some mt6370_reset_eoc_state;
  ops_safety_check := Some mt6370_safety_check;
  ops_is_charging_done := Some mt6370_is_charging_done;
  ops_set_pe20_efficiency_table := Some mt6370_set_pep20_efficiency_table;
  ops_dump_registers := Some mt6370_dump_register;
  ops_get_adc := None;
  ops_get_vbus_adc := Some mt6370_get_vbus;
  ops_get_ibus_adc := Some mt6370_get_ibus;
  ops_get_ibat_adc := None;
  ops_get_tchg_adc := Some mt6370_get_tchg;
  ops_get_zcv := Some mt6370_get_zcv;
  ops_enable_usbid := None;
  ops_set_usbid_rup := None;
  ops_set_usbid_src_ton := None;
  ops_enable_usbid_floating := None;
  ops_enable_force_typec_otp := None;
  ops_enable_hidden_mode := None;
  ops_get_ctd_dischg_status := None;
  ops_enable_hz := None;
  ops_set_property := None;
  ops_get_property := None;
  ops_enable_dcap := Some mt6370_enable_dcap;
  ops_enable_ir_comp := Some mt6370_enable_ir_comp
|}.

Definition mt6370_ls_ops {V} : charger_ops (mworld B) V := {|
  ops_plug_in := None;
  ops_plug_out := None;
  ops_enable := None;
  ops_is_enabled := None;
  ops_enable_chip := None;
  ops_is_chip_enabled := None;
  ops_get_charging_current := None;
  ops_set_charging_current := None;
  ops_get_min_charging_current := None;
  ops_set_constant_voltage := None;
  ops_get_constant_voltage := None;
  ops_get_input_current := None;
  ops_set_input_current := None;
  ops_get_min_input_current := None;
  ops_get_eoc_current := None;
  ops_set_eoc_current := None;
  ops_kick_wdt := None;
  ops_event := None;
  ops_send_ta_current_pattern := None;
  ops_send_ta20_current_pattern := None;
  ops_reset_ta := None;
  ops_enable_cable_drop_comp := None;
  ops_set_mivr := None;
  ops_get_mivr := None;
  ops_get_mivr_state := None;
  ops_get_indpm_state := None;
  ops_is_powerpath_enabled := None;
  ops_enable_powerpath := None;
  ops_enable_vbus_ovp := None;
  ops_is_safety_timer_enabled := None;
  ops_enable_safety_timer := None;
  ops_enable_termination := None;
  ops_enable_direct_charging := Some mt6370_enable_direct_charge;
  ops_kick_direct_charging_wdt := Some mt6370_kick_wdt;
  ops_set_direct_charging_ibusoc := Some mt6370_set_dc_ibusoc;
  ops_set_direct_charging_vbusov := Some mt6370_set_dc_vbusov;
  ops_enable_otg := None;
  ops_enable_discharge := None;
  ops_set_boost_current_limit := None;
  ops_enable_chg_type_det := None;
  ops_get_wpc_online := None;
  ops_do_wpc_algorithm := None;
  ops_force_enable_wpc_charge := None;
  ops_get_temp := None;
  ops_set_wpc_en := None;
  ops_set_sleep_en := None;
  ops_run_aicl := None;
  ops_reset_eoc_state := None;
  ops_safety_check := None;
  ops_is_charging_done := None;
  ops_set_pe20_efficiency_table := None;
  ops_dump_registers := None;
  ops_get_adc := None;
  ops_get_vbus_adc := None;
  ops_get_ibus_adc := Some mt6370_get_ibus;
  ops_get_ibat_adc := None;
  ops_get_tchg_adc := Some mt6370_get_tchg;
  ops_get_zcv := None;
  ops_enable_usbid := None;
  ops_set_usbid_rup := None;
  ops_set_usbid_src_ton := None;
  ops_enable_usbid_floating := None;
  ops_enable_force_typec_otp := None;
  ops_enable_hidden_mode := None;
  ops_get_ctd_dischg_status := None;
  ops_enable_hz := None;
  ops_set_property := None;
  ops_get_property := None;
  ops_enable_dcap := None;
  ops_enable_ir_comp := None
|}.
End Ops.
