(* ===== verification/Mt6370Chip.v ===== *)
(** * A concrete MT6370

    A register file that keeps what is written to it, behind a bus that can be
    told to fail one access: the smallest chip on which the driver runs.  It
    shows that the assumptions of the theorems can hold, and lets examples be
    evaluated. *)

From S2P Require Import Prelude ChargerClass AlgClass ChargerTypes Platform BasicCharger Mt6370Enc.
From S2P Require Import Mt6370 Mt6370Ops.
#[local] Open Scope Z_scope.

Record chip : Type := mk_chip {
  c_regs : gmap Z Z;     (* registers; an absent one reads 0 *)
  c_fail : Z;            (* accesses until the one that fails; negative: none *)
  c_changed : Z;         (* notifications of the supply *)
  c_depth : Z;           (* how often the interrupt lines are disabled *)
  c_known : gset string * gset string;   (* registered devices and files *)
  c_refuse : Z           (* registrations until the one that fails; negative: none *)
}.
#[global] Instance chip_struct : Struct chip :=
  fun r => mk_chip (c_regs r) (c_fail r) (c_changed r) (c_depth r) (c_known r) (c_refuse r).

Definition chip_reg (c : chip) (a : Z) : Z := u8 (default 0 (c_regs c !! a)).

(** Whether the next access works. *)
Definition chip_access : M chip bool :=
  fun c => (negb (c_fail c =? 0), c <| c_fail := if c_fail c <? 0 then -1 else c_fail c - 1 |>).

Definition chip_write (a v : Z) : M chip unit := modify (fun c => c <| c_regs ::= <[a := v]> |>).

Fixpoint chip_write_block (a : Z) (l : list Z) : M chip unit :=
  match l with
  | [] => ret tt
  | v :: l' => chip_write a v ;;; chip_write_block (a + 1) l'
  end.

(** An access that gives [r] or fails. *)
Definition chip_try {A} (fail : A) (m : M chip A) : M chip A :=
  let! ok := chip_access in if ok then m else ret fail.

#[global] Instance chip_bus : Mt6370Bus chip := {|
  rt_regmap_reg_read := fun a =>
    chip_try (- EIO, 0) (let! v := gets (fun c => chip_reg c a) in ret (0, v));
  rt_regmap_reg_write := fun a v => chip_try (- EIO) (chip_write a v ;;; ret 0);
  rt_regmap_update_bits := fun a m v =>
    chip_try (- EIO)
      (let! old := gets (fun c => chip_reg c a) in chip_write a (update_bits old m v) ;;; ret 0);
  rt_regmap_block_read := fun a n =>
    chip_try (- EIO, [])
      (let! c := get in ret (0, map (fun i => chip_reg c (a + Z.of_nat i)) (seq 0 n)));
  rt_regmap_block_write := fun a l => chip_try (- EIO) (chip_write_block a l ;;; ret 0);
  i2c_smbus_read := fun a =>
    chip_try (- EIO, 0) (let! v := gets (fun c => chip_reg c a) in ret (1, v));
  i2c_smbus_write := fun a v => chip_try (- EIO) (chip_write a v ;;; ret 0);
  mt_sleep := fun _ => ret tt;
  wait_event_interruptible_timeout := ret (1, MT6370_MASK_CHG_AICLMEASI);
  platform_get_resource_byname := fun _ => ret (Some 0);
  enable_irq := fun _ => modify (fun c => c <| c_depth ::= Z.pred |>);
  disable_irq_nosync := fun _ => modify (fun c => c <| c_depth ::= Z.succ |>);
  power_supply_changed := modify (fun c => c <| c_changed ::= Z.succ |>);
  charger_dev_notify := fun _ => ret tt;
  pinctrl_select_state := fun _ => ret tt;
  phy_get := ret true;
  phy_set_mode_ext := fun _ => ret 0;
  phy_put := ret tt;
  of_usb_cdp_block := ret None
|}.

(** A driver after probe, with the default description, and its chip: charging
    at 2 A, 4.35 V, MIVR 4.4 V. *)
Definition desc0 : mt6370_desc := 
  mk_mt6370_desc 2000000 500000 4400000 4350000 250000 12 25000 32000 0 0 0 4000000 0 0 0 false true true false false
    false true false "primary_chg" "primary_load_switch".

Definition mt0 : mt6370_data :=
  mk_mt6370_data desc0 MT6370_VENDOR_ID iaicr0 false 0 (-1) 0 false false POWER_SUPPLY_TYPE_UNKNOWN
    POWER_SUPPLY_USB_TYPE_UNKNOWN 0 250000 2000000 0 4400000 false false 0 false 25 false true true
    false false false 0 false false [] false.

Definition chip0 : chip :=
  mk_chip {[0x12 := 0x01; 0x13 := 0x20; 0x14 := 0x5A; 0x16 := 0x0A; 0x17 := 0x4C; 0x19 := 0x30;
            0xD0 := 0x40]} (-1) 0 0 (∅, ∅) (-1).

Definition mw0 : mworld chip := mk_mworld mt0 chip0.
