(* ===== verification/Mt6370Locks.v ===== *)
(** * The MT6370 charger driver: mutexes

    On every bus, whatever fails: which operations give back the mutexes they
    take and never take one twice. *)

From S2P Require Import Prelude ChargerClass AlgClass ChargerTypes Platform BasicCharger Mt6370Enc.
From S2P Require Import Mt6370 Mt6370Ops Mt6370Chip.
#[local] Open Scope Z_scope.

Section Access.
  Context {B : Type}.

Lemma md_exec_bus {A} (m : M B A) (w : mworld B) : md (exec (bus m) w) = md w.
Proof. unfold exec, bus. by destruct (m (mb w)). Qed.
Lemma mb_exec_bus {A} (m : M B A) (w : mworld B) : mb (exec (bus m) w) = exec m (mb w).
Proof. unfold exec, bus. by destruct (m (mb w)). Qed.
Lemma eval_bus {A} (m : M B A) (w : mworld B) : eval (bus m) w = eval m (mb w).
Proof. unfold eval, bus. by destruct (m (mb w)). Qed.

Lemma keeps_bus {A T} (f : mt6370_data -> T) (m : M B A) :
  keeps (fun w : mworld B => f (md w)) (bus m).
Proof. intros w. by rewrite md_exec_bus. Qed.
Lemma keeps_modd {T} (f : mt6370_data -> T) g :
  (forall d, f (g d) = f d) -> keeps (fun w : mworld B => f (md w)) (modd g).
Proof. intros H w. apply H. Qed.
End Access.

Section WpAccess.
  Context {B : Type}.

Lemma wp_bus {A} (m : M B A) (Q : A -> mworld B -> Prop) w :
  (forall a b, m (mb w) = (a, b) -> Q a (w <| mb := b |>)) -> wp (bus m) Q w.
Proof.
  intros H. unfold wp, eval, exec, bus. destruct (m (mb w)) as [a b] eqn:Em. by apply H.
Qed.
Lemma wp_getd {A} (f : mt6370_data -> A) (Q : A -> mworld B -> Prop) w :
  Q (f (md w)) w -> wp (getd f) Q w.
Proof. done. Qed.
Lemma wp_modd f (Q : unit -> mworld B -> Prop) w : Q tt (w <| md ::= f |>) -> wp (modd f) Q w.
Proof. done. Qed.
End WpAccess.

(** Forward symbolic execution, as [wp_step]. *)
Ltac mwp_step :=
  match goal with
  | |- wp (bus _) _ _ => apply wp_bus; intros ? ? ?
  | |- wp (getd _) _ _ => apply wp_getd
  | |- wp (modd _) _ _ => apply wp_modd
  | |- _ => wp_step
  end; cbn beta zeta.
Ltac mwps := repeat mwp_step.

(** ** Balanced use of mutexes *)

Definition locks (d : mt6370_data) : list lock * bool := (mt_held d, mt_deadlock d).

(** [m] may take the mutexes [L]: started with none of them held, it gives back
    all it took and never asked for one it had. *)
Definition balanced {B A} (L : list lock) (m : M (mworld B) A) : Prop :=
  forall w, (forall l, l ∈ L -> l ∉ mt_held (md w)) -> locks (md (exec m w)) = locks (md w).

Section Balanced.
  Context {B : Type}.

Lemma balanced_weaken {A} L L' (m : M (mworld B) A) : balanced L m -> L ⊆ L' -> balanced L' m.
Proof. intros H Hs w Hw. apply H. auto. Qed.
Lemma balanced_keeps {A} L (m : M (mworld B) A) :
  keeps (fun w => locks (md w)) m -> balanced L m.
Proof. intros H w _. apply H. Qed.
Lemma balanced_bind {A C} L (m : M (mworld B) A) (k : A -> M (mworld B) C) :
  balanced L m -> (forall a, balanced L (k a)) -> balanced L (bind m k).
Proof.
  intros Hm Hk w Hw. rewrite exec_bind. rewrite Hk; [by apply Hm|].
  intros l Hl. specialize (Hm w Hw). unfold locks in Hm. injection Hm as -> _. auto.
Qed.
Lemma balanced_ignore {A} L (m : M (mworld B) A) : balanced L m -> balanced L (ignore m).
Proof. intros H w. apply H. Qed.
Lemma balanced_when L (c : bool) (m : M (mworld B) unit) : balanced L m -> balanced L (when c m).
Proof. destruct c; [done|]. by intros _ w _. Qed.
Lemma balanced_for_each {X} L (l : list X) (body : X -> M (mworld B) unit) :
  (forall x, balanced L (body x)) -> balanced L (for_each l body).
Proof. intros H. induction l; simpl; [by intros w _|by apply balanced_bind]. Qed.
Lemma balanced_bus {A} L (m : M B A) : balanced L (bus m).
Proof. apply balanced_keeps, keeps_bus. Qed.
Lemma balanced_modd L f : (forall d, locks (f d) = locks d) -> balanced (B := B) L (modd f).
Proof. intros H w _. apply H. Qed.

(** The unlock removes what the lock put in front. *)
Lemma filter_unlock (l : lock) H :
  l ∉ H -> List.filter (fun x => negb (bool_decide (x = l))) (l :: H) = H.
Proof.
  intros Hl. simpl. rewrite bool_decide_true by done. simpl.
  induction H as [|x H IH]; [done|]. simpl. apply not_elem_of_cons in Hl as [Hx Hl].
  rewrite bool_decide_false by congruence. simpl. by rewrite IH.
Qed.

Lemma balanced_with_lock {A} L L' l (m : M (mworld B) A) :
  balanced L' m -> l ∉ L' -> l :: L' ⊆ L -> balanced L (with_lock l m).
Proof.
  intros Hm Hl Hs w Hw. unfold with_lock. rewrite !exec_bind, exec_ret.
  assert (l ∉ mt_held (md w)) as Hn by (apply Hw, Hs; left).
  set (w1 := exec (mutex_lock l) w).
  assert (locks (md w1) = (l :: mt_held (md w), mt_deadlock (md w))) as H1.
  { unfold w1, mutex_lock. cbn. by rewrite bool_decide_false. }
  clearbody w1.
  assert (locks (md (exec m w1)) = locks (md w1)) as H2.
  { apply Hm. intros x Hx. unfold locks in H1. injection H1 as -> _.
    apply not_elem_of_cons. split; [by intros ->|]. apply Hw, Hs. by right. }
  unfold mutex_unlock. cbn. unfold locks in *. cbn. rewrite H1 in H2. injection H2 as -> ->.
  by rewrite filter_unlock.
Qed.
End Balanced.

(** Inclusions of lists of mutexes are decided by evaluation. *)
Lemma locks_sub (L L' : list lock) :
  forallb (fun l => bool_decide (l ∈ L')) L = true -> L ⊆ L'.
Proof.
  rewrite forallb_forall. intros H l Hl. apply list_elem_of_In in Hl.
  by apply H, bool_decide_eq_true in Hl.
Qed.
Lemma locks_notin (l : lock) (L : list lock) : bool_decide (l ∈ L) = false -> l ∉ L.
Proof. by rewrite bool_decide_eq_false. Qed.
Ltac lock_dec := first [apply locks_sub; reflexivity|apply locks_notin; reflexivity].

(** Follow the structure of the code; a call needs a lemma in [kern]. *)
Ltac solve_balanced :=
  repeat match goal with
    | |- forall _, _ => intro
    | |- balanced _ (bind _ _) => apply balanced_bind
    | |- balanced _ (ret _) => apply balanced_keeps, keeps_ret
    | |- balanced _ (gets _) => apply balanced_keeps, keeps_gets
    | |- balanced _ (getd _) => apply balanced_keeps, keeps_gets
    | |- balanced _ (ignore _) => apply balanced_ignore
    | |- balanced _ (when _ _) => apply balanced_when
    | |- balanced _ (for_each _ _) => apply balanced_for_each
    | |- balanced _ (bus _) => apply balanced_bus
    | |- balanced _ (modd _) => apply balanced_modd; intros; try reflexivity
    | |- balanced _ (if ?b then _ else _) => destruct b
    | |- balanced _ (match ?x with _ => _ end) => destruct x
    | |- balanced _ _ => solve [eauto with kern nocore]
    | |- balanced _ _ => eapply balanced_weaken; [solve [eauto with kern nocore]|lock_dec]
    end.

Section LockFree.
  Context {B : Type} `{!Mt6370Bus B} (L : list lock).

(** *** Code that takes no mutex *)

Lemma bal_read a : balanced (B := B) L (mt6370_pmu_reg_read a).
Proof. unfold mt6370_pmu_reg_read. solve_balanced. Qed.
Lemma bal_write a v : balanced (B := B) L (mt6370_pmu_reg_write a v).
Proof. apply balanced_bus. Qed.
Lemma bal_update a m v : balanced (B := B) L (mt6370_pmu_reg_update_bits a m v).
Proof. apply balanced_bus. Qed.
Lemma bal_block_read a n : balanced (B := B) L (mt6370_pmu_reg_block_read a n).
Proof. apply balanced_bus. Qed.
Lemma bal_block_write a l : balanced (B := B) L (mt6370_pmu_reg_block_write a l).
Proof. apply balanced_bus. Qed.
Lemma bal_set_bit a m : balanced (B := B) L (mt6370_pmu_reg_set_bit a m).
Proof. apply balanced_bus. Qed.
Lemma bal_clr_bit a m : balanced (B := B) L (mt6370_pmu_reg_clr_bit a m).
Proof. apply balanced_bus. Qed.
#[local] Hint Resolve bal_read bal_write bal_update bal_block_read bal_block_write bal_set_bit
  bal_clr_bit : kern.
Lemma bal_assign_bit en a m : balanced (B := B) L (mt6370_pmu_reg_assign_bit en a m).
Proof. unfold mt6370_pmu_reg_assign_bit. solve_balanced. Qed.
Lemma bal_test_bit a n : balanced (B := B) L (mt6370_pmu_reg_test_bit a n).
Proof. unfold mt6370_pmu_reg_test_bit. solve_balanced. Qed.
Lemma bal_set_field f v : balanced (B := B) L (mt6370_set_field f v).
Proof. apply balanced_bus. Qed.
Lemma bal_get_field f v : balanced (B := B) L (mt6370_get_field f v).
Proof. unfold mt6370_get_field. solve_balanced. Qed.
#[local] Hint Resolve bal_assign_bit bal_test_bit bal_set_field bal_get_field : kern.
Lemma bal_set_ieoc v : balanced (B := B) L (__mt6370_set_ieoc v).
Proof. unfold __mt6370_set_ieoc. solve_balanced. Qed.
Lemma bal_status v : balanced (B := B) L (mt6370_get_charging_status v).
Proof. unfold mt6370_get_charging_status. solve_balanced. Qed.
Lemma bal_adc_wait n : balanced (B := B) L (adc_wait n).
Proof. induction n; simpl; solve_balanced; auto. Qed.
Lemma bal_adc_timeout : balanced (B := B) L adc_timeout.
Proof. unfold adc_timeout. solve_balanced. Qed.
#[local] Hint Resolve bal_set_ieoc bal_status bal_adc_wait bal_adc_timeout : kern.
Lemma bal_adc_convert s : balanced (B := B) L (adc_convert s).
Proof. unfold adc_convert. solve_balanced. Qed.
Lemma bal_post_loop n c st sp : balanced (B := B) L (post_aicl_loop n c st sp).
Proof. revert c. induction n; intros c; simpl; unfold __mt6370_set_aicr; solve_balanced; auto. Qed.
Lemma bal_enable_irq s en : balanced (B := B) L (mt6370_enable_irq s en).
Proof. unfold mt6370_enable_irq. solve_balanced. Qed.
Lemma bal_usbsw v : balanced (B := B) L (mt6370_set_usbsw_state v).
Proof. unfold mt6370_set_usbsw_state. solve_balanced. Qed.
Lemma bal_usb_rdy : balanced (B := B) L is_usb_rdy.
Proof. unfold is_usb_rdy. solve_balanced. Qed.
#[local] Hint Resolve bal_usbsw bal_usb_rdy : kern.
Lemma bal_chgdet_flow en : balanced (B := B) L (__mt6370_enable_chgdet_flow en).
Proof. unfold __mt6370_enable_chgdet_flow. solve_balanced. Qed.
Lemma bal_cdp_wait n : balanced (B := B) L (cdp_wait n).
Proof. induction n; simpl; solve_balanced; auto. Qed.
Lemma bal_bc12_workaround : balanced (B := B) L mt6370_bc12_workaround.
Proof. unfold mt6370_bc12_workaround, mt6370_toggle_chgdet_flow. solve_balanced. Qed.
Lemma bal_dischg_clear n r : balanced (B := B) L (dischg_clear n r).
Proof. revert r. induction n; intros r; simpl; solve_balanced; auto. Qed.
Lemma bal_pumpx_wait n : balanced (B := B) L (pumpx_wait n).
Proof. induction n; simpl; solve_balanced; auto. Qed.
Lemma bal_dump_regs l : balanced (B := B) L (dump_regs l).
Proof. induction l; simpl; solve_balanced; auto. Qed.
Lemma bal_otg_switch en : balanced (B := B) L (otg_switch en).
Proof. unfold otg_switch, otg_failed, mt6370_enable_wdt. solve_balanced. Qed.
End LockFree.

#[export] Hint Resolve bal_read bal_write bal_update bal_block_read bal_block_write bal_set_bit
  bal_clr_bit bal_assign_bit bal_test_bit bal_set_field bal_get_field bal_set_ieoc bal_status
  bal_adc_convert bal_post_loop bal_chgdet_flow bal_cdp_wait bal_bc12_workaround bal_dischg_clear
  bal_pumpx_wait bal_dump_regs bal_otg_switch bal_enable_irq bal_usbsw bal_usb_rdy : kern.

Section Locking.
  Context {B : Type} `{!Mt6370Bus B}.

(** A function whose body is one critical section. *)
Ltac section_ L' := apply (balanced_with_lock _ L'); [|lock_dec..]; solve_balanced.

Lemma bal_hidden en : balanced (B := B) [HiddenLock] (mt6370_enable_hidden_mode en).
Proof. section_ (@nil lock). Qed.
#[local] Hint Resolve bal_hidden : kern.

Lemma bal_ichg_workaround v : balanced (B := B) [HiddenLock] (mt6370_ichg_workaround v).
Proof. unfold mt6370_ichg_workaround. solve_balanced. Qed.
#[local] Hint Resolve bal_ichg_workaround : kern.

Lemma bal__set_ichg v : balanced (B := B) [HiddenLock] (__mt6370_set_ichg v).
Proof. unfold __mt6370_set_ichg, __mt6370_get_ichg. solve_balanced. Qed.
#[local] Hint Resolve bal__set_ichg : kern.

Lemma bal_adc_locked l get scale s :
  balanced (B := B) [] get -> balanced [l] (adc_locked l get scale s).
Proof. intros Hg. unfold adc_locked. destruct l; section_ (@nil lock). Qed.

Lemma bal_get_adc s :
  balanced (B := B) [AdcLock; HiddenLock; AicrLock; IchgLock] (mt6370_get_adc s).
Proof.
  unfold mt6370_get_adc.
  apply (balanced_with_lock _ [HiddenLock; AicrLock; IchgLock]); [|lock_dec..].
  solve_balanced; (eapply balanced_weaken; [apply bal_adc_locked|lock_dec]);
    unfold mt6370_get_aicr, mt6370_get_ichg, __mt6370_get_ichg; solve_balanced.
Qed.
#[local] Hint Resolve bal_get_adc : kern.

Lemma bal_power_path en : balanced (B := B) [PpLock] (mt6370_enable_power_path en).
Proof. unfold mt6370_enable_power_path, __mt6370_set_mivr. section_ (@nil lock). Qed.
#[local] Hint Resolve bal_power_path : kern.

Lemma bal_chgdet_out r : balanced (B := B) [PpLock] (chgdet_out r).
Proof. unfold chgdet_out, chgdet_end. solve_balanced. Qed.
Lemma bal_chgdet_end r : balanced (B := B) [PpLock] (chgdet_end r).
Proof. unfold chgdet_end. solve_balanced. Qed.
#[local] Hint Resolve bal_chgdet_out bal_chgdet_end : kern.

Lemma bal_chgdet : balanced (B := B) [PpLock] __mt6370_chgdet_handler.
Proof. unfold __mt6370_chgdet_handler. cbv zeta. solve_balanced. Qed.
#[local] Hint Resolve bal_chgdet : kern.

Lemma bal_chg_type_det en : balanced (B := B) [Bc12Lock; PpLock] (mt6370_enable_chg_type_det en).
Proof.
  unfold mt6370_enable_chg_type_det, mt6370_chgdet_handler, mt6370_enable_chgdet_flow.
  solve_balanced; apply (balanced_with_lock _ [PpLock]); try lock_dec; solve_balanced.
Qed.

Lemma bal_enable_charging en :
  balanced (B := B) [IchgLock; HiddenLock] (mt6370_enable_charging en).
Proof. unfold mt6370_enable_charging. section_ [HiddenLock]. Qed.
Lemma bal_set_aicr v : balanced (B := B) [AicrLock] (mt6370_set_aicr v).
Proof. unfold mt6370_set_aicr, __mt6370_set_aicr. section_ (@nil lock). Qed.
Lemma bal_set_ichg v : balanced (B := B) [IchgLock; IeocLock; HiddenLock] (mt6370_set_ichg v).
Proof.
  unfold mt6370_set_ichg. apply (balanced_with_lock _ [IeocLock; HiddenLock]); [|lock_dec..].
  section_ [HiddenLock].
Qed.
Lemma bal_set_ieoc_locked v : balanced (B := B) [IchgLock; IeocLock] (mt6370_set_ieoc v).
Proof.
  unfold mt6370_set_ieoc. apply (balanced_with_lock _ [IeocLock]); [|lock_dec..].
  section_ (@nil lock).
Qed.
Lemma bal_set_mivr v : balanced (B := B) [PpLock] (mt6370_set_mivr v).
Proof. unfold mt6370_set_mivr, __mt6370_set_mivr. section_ (@nil lock). Qed.
Lemma bal_pp_enabled b : balanced (B := B) [PpLock] (mt6370_is_power_path_enable b).
Proof. unfold mt6370_is_power_path_enable. section_ (@nil lock). Qed.
#[local] Hint Resolve bal_enable_charging bal_set_aicr bal_set_ichg bal_set_ieoc_locked bal_set_mivr
  bal_pp_enabled bal_chg_type_det : kern.

Lemma bal_pump en :
  balanced (B := B) [AicrLock; IchgLock; IeocLock; HiddenLock] (mt6370_enable_pump_express en).
Proof. unfold mt6370_enable_pump_express. solve_balanced. Qed.
#[local] Hint Resolve bal_pump : kern.

Lemma bal_tchg_retry n r t :
  balanced (B := B) [AdcLock; HiddenLock; AicrLock; IchgLock] (tchg_retry n r t).
Proof. revert r t. induction n; intros r t; simpl; solve_balanced; auto. Qed.
#[local] Hint Resolve bal_tchg_retry : kern.

(** Every mutex but the interrupt lock. *)
Definition chg_locks : list lock :=
  [AdcLock; AicrLock; IchgLock; PeLock; Bc12Lock; HiddenLock; IeocLock; TchgLock; PpLock].

Lemma bal_get_tchg a b : balanced (B := B) chg_locks (mt6370_get_tchg a b).
Proof.
  unfold mt6370_get_tchg. solve_balanced.
  apply (balanced_with_lock _ []); try lock_dec. solve_balanced.
Qed.
#[local] Hint Resolve bal_get_tchg : kern.

Ltac with_pe := apply (balanced_with_lock _ [AicrLock; IchgLock; IeocLock; HiddenLock]); [|lock_dec..];
  solve_balanced.

Lemma bal_pep b : balanced (B := B) chg_locks (mt6370_set_pep_current_pattern b).
Proof. with_pe. Qed.
Lemma bal_pep20_reset : balanced (B := B) chg_locks mt6370_set_pep20_reset.
Proof. unfold mt6370_set_pep20_reset, mt6370_select_input_current_limit. with_pe. Qed.
Lemma bal_pep20 v : balanced (B := B) chg_locks (mt6370_set_pep20_current_pattern v).
Proof. with_pe. Qed.
Lemma bal_cable_drop en : balanced (B := B) chg_locks (mt6370_enable_cable_drop_comp en).
Proof. with_pe. Qed.

(** ** Calls of the operation table *)

Inductive mt_call : Type :=
  CPlugIn | CPlugOut | CDump | CEnable (en : bool) | CIsEnabled | CGetIchg | CSetIchg (uA : Z)
| CGetAicr | CSetAicr (uA : Z) | CGetCv | CSetCv (uV : Z) | CKickWdt | CSetMivr (uV : Z) | CGetMivr
| CMivrState | CIndpmState | CDone | CZcv | CAicl | CSetIeoc (uA : Z) | CTe (en : bool) | CResetEoc
| CSafetyCheck (uA : Z) | CMinIchg | CMinAicr | CTimer (en : bool) | CIsTimer | CPowerPath (en : bool)
| CIsPowerPath | CTypeDet (en : bool) | COtg (en : bool) | COtgLimit (uA : Z) | CDischarge (en : bool)
| CPep (up : bool) | CPep20 (uV : Z) | CPep20Reset | CCableDrop (en : bool) | CTchg | CIbus | CVbus
| CEvent (ev a : Z) | CDcap (en : bool) | CIrComp (en : bool).

Definition mt_run (c : mt_call) : M (mworld B) unit :=
  match c with
  | CPlugIn => ignore mt6370_plug_in
  | CPlugOut => ignore mt6370_plug_out
  | CDump => ignore mt6370_dump_register
  | CEnable en => ignore (mt6370_enable_charging en)
  | CIsEnabled => ignore (mt6370_is_enabled_charging false)
  | CGetIchg => ignore (mt6370_get_ichg 0)
  | CSetIchg v => ignore (mt6370_set_ichg v)
  | CGetAicr => ignore (mt6370_get_aicr 0)
  | CSetAicr v => ignore (mt6370_set_aicr v)
  | CGetCv => ignore (mt6370_get_cv 0)
  | CSetCv v => ignore (mt6370_set_cv v)
  | CKickWdt => ignore mt6370_kick_wdt
  | CSetMivr v => ignore (mt6370_set_mivr v)
  | CGetMivr => ignore (mt6370_get_mivr 0)
  | CMivrState => ignore (mt6370_get_mivr_state false)
  | CIndpmState => ignore (mt6370_get_indpm_state false false)
  | CDone => ignore (mt6370_is_charging_done false)
  | CZcv => ignore (mt6370_get_zcv 0)
  | CAicl => ignore (mt6370_run_aicl 0)
  | CSetIeoc v => ignore (mt6370_set_ieoc v)
  | CTe en => ignore (mt6370_enable_te en)
  | CResetEoc => ignore mt6370_reset_eoc_state
  | CSafetyCheck v => ignore (mt6370_safety_check v)
  | CMinIchg => ignore (mt6370_get_min_ichg 0)
  | CMinAicr => ignore (mt6370_get_min_aicr 0)
  | CTimer en => ignore (mt6370_enable_safety_timer en)
  | CIsTimer => ignore (mt6370_is_safety_timer_enable false)
  | CPowerPath en => ignore (mt6370_enable_power_path en)
  | CIsPowerPath => ignore (mt6370_is_power_path_enable false)
  | CTypeDet en => ignore (mt6370_enable_chg_type_det en)
  | COtg en => ignore (mt6370_enable_otg en)
  | COtgLimit v => ignore (mt6370_set_otg_current_limit v)
  | CDischarge en => ignore (mt6370_enable_discharge en)
  | CPep b => ignore (mt6370_set_pep_current_pattern b)
  | CPep20 v => ignore (mt6370_set_pep20_current_pattern v)
  | CPep20Reset => ignore mt6370_set_pep20_reset
  | CCableDrop en => ignore (mt6370_enable_cable_drop_comp en)
  | CTchg => ignore (mt6370_get_tchg 0 0)
  | CIbus => ignore (mt6370_get_ibus 0)
  | CVbus => ignore (mt6370_get_vbus 0)
  | CEvent ev a => ignore (mt6370_do_event ev a)
  | CDcap en => ignore (mt6370_enable_dcap en)
  | CIrComp en => ignore (mt6370_enable_ir_comp en)
  end.

Definition is_aicl (c : mt_call) : bool := match c with CAicl => true | _ => false end.

#[local] Hint Resolve bal_pep bal_pep20_reset bal_pep20 bal_cable_drop : kern.
Lemma bal_run c : is_aicl c = false -> balanced chg_locks (mt_run c).
Proof.
  destruct c; intros Ha; try discriminate; cbn [mt_run]; apply balanced_ignore;
    unfold mt6370_plug_in, mt6370_plug_out, mt6370_enable_wdt, mt6370_dump_register,
      mt6370_is_enabled_charging, mt6370_is_charging_enable, mt6370_get_ichg, __mt6370_get_ichg,
      mt6370_get_aicr, mt6370_get_cv, mt6370_set_cv, __mt6370_set_cv, mt6370_kick_wdt,
      mt6370_get_mivr, __mt6370_get_mivr, mt6370_get_mivr_state, mt6370_get_indpm_state,
      mt6370_is_charging_done, mt6370_get_zcv, mt6370_enable_te, __mt6370_enable_te,
      mt6370_reset_eoc_state, mt6370_safety_check, mt6370_get_min_ichg, mt6370_get_min_aicr,
      mt6370_enable_safety_timer, __mt6370_enable_safety_timer, mt6370_is_safety_timer_enable,
      mt6370_enable_otg, otg_by_power_switch, mt6370_set_otg_current_limit, mt6370_enable_discharge,
      mt6370_get_ibus, mt6370_get_vbus, mt6370_do_event, mt6370_enable_dcap, mt6370_enable_ir_comp,
      mt6370_set_ircmp_resistor, mt6370_set_ircmp_vclamp, mt6370_get_ieoc;
    solve_balanced.
Qed.

(** Code that keeps the mutexes, in a [wp] proof. *)
Lemma wp_balanced {A} L (m : M (mworld B) A) Q w :
  balanced L m -> (forall l, l ∈ L -> l ∉ mt_held (md w)) ->
  (forall a w', locks (md w') = locks (md w) -> Q a w') -> wp m Q w.
Proof. intros Hm Hl HQ. apply HQ. by apply Hm. Qed.

(** A result of the post measurement is a code and keeps the mutexes. *)
Lemma bal_post_measure a b c d : balanced (B := B) [] (mt6370_post_aicl_measure a b c d).
Proof. unfold mt6370_post_aicl_measure. solve_balanced. Qed.

Lemma wp_mutex_lock l H dl Q (w : mworld B) :
  locks (md w) = (H, dl) -> l ∉ H ->
  (forall w', locks (md w') = (l :: H, dl) -> Q tt w') -> wp (mutex_lock l) Q w.
Proof.
  unfold locks. intros [= <- <-] Hn HQ. unfold mutex_lock. mwps. apply HQ. cbn.
  by rewrite bool_decide_false.
Qed.

Ltac wp_bal := eapply (wp_balanced []);
  [solve [eauto with kern nocore]|by intros ? ?%elem_of_nil|].

Lemma aicl_measure_locks (w : mworld B) :
  locks (md w) = ([], false) ->
  wp aicl_measure (fun r w' => 0 <= r -> locks (md w') = ([], false)) w.
Proof.
  intros H.
  assert (forall (r : Z) (w : mworld B), locks (md w) = ([AicrLock; PeLock], false) ->
    wp (aicl_unlock r) (fun r w' => 0 <= r -> locks (md w') = ([], false)) w) as Hu.
  { intros r w1 H1. unfold locks in H1. injection H1 as E1 E2. unfold aicl_unlock, mutex_unlock.
    mwps. intros _. unfold locks. cbn. by rewrite E1, E2. }
  assert (forall w1 : mworld B, locks (md w1) = ([AicrLock; PeLock], false) ->
    forall a r, wp (aicl_finish a r) (fun r w' => 0 <= r -> locks (md w') = ([], false)) w1) as Hf.
  { intros w1 H1 a r. unfold aicl_finish. do 2 mwp_step. by apply Hu. }
  unfold aicl_measure. mwp_step. apply (wp_mutex_lock _ [] false); [done|lock_dec|].
  intros w1 H1. mwp_step. apply (wp_mutex_lock _ [PeLock] false); [done|lock_dec|].
  intros w2 H2. mwp_step. wp_bal. intros r w3 H3. rewrite H2 in H3.
  mwp_step; [by apply Hu|]. do 3 mwp_step. mwp_step. mwp_step; [by apply Hu|]. mwp_step.
  unfold mt6370_get_aicr. wp_bal. intros g w4 Hg.
  assert (locks (md w4) = ([AicrLock; PeLock], false)) as Hg' by (rewrite Hg; exact H3).
  mwp_step; [by apply Hu|]. do 2 mwp_step. mwp_step; [by apply Hf|]. mwp_step.
  eapply (wp_balanced []); [apply bal_post_measure|by intros ? ?%elem_of_nil|].
  intros p w5 Hp5. rewrite Hg' in Hp5. mwp_step; [|by apply Hf].
  mwp_step. intros Hp. bool_prop. lia.
Qed.

Lemma run_aicl_locks (w : mworld B) :
  locks (md w) = ([], false) ->
  wp (mt6370_run_aicl 0) (fun r w' => 0 <= fst r -> locks (md w') = ([], false)) w.
Proof.
  intros H. unfold mt6370_run_aicl, __mt6370_run_aicl. do 2 mwp_step. wp_bal. intros s w1 Hw1.
  rewrite H in Hw1. mwp_step; [by mwps|]. mwp_step; [by mwps|]. mwp_step.
  unfold __mt6370_get_mivr. wp_bal. intros m w2 Hw2. rewrite Hw1 in Hw2.
  mwp_step; [by mwps|]. do 4 mwp_step. mwp_step; [by mwps|]. mwp_step.
  unfold mt6370_set_aicl_vth. wp_bal. intros r w3 Hw3. rewrite Hw2 in Hw3.
  mwp_step; [by mwps|]. mwp_step.
  apply (wp_balanced [IrqLock]).
  { unfold mt6370_chg_irq_clr_flag. section_ (@nil lock). }
  { unfold locks in Hw3. injection Hw3 as -> _. intros l _. apply not_elem_of_nil. }
  intros [] w4 Hw4. rewrite Hw3 in Hw4. eapply wp_mono; [by apply aicl_measure_locks|].
  intros r' w5 Hw5. mwps. intros Hr. cbn. by apply Hw5.
Qed.

(** C38: the mutexes of the driver, on every bus and whatever fails: starting
    with none held, any sequence of calls of the operation table other than
    AICL gives back every mutex and never asks for one it already holds, and so
    does an AICL run that succeeds. *)
Theorem lock_discipline (w : mworld B) (calls : list mt_call) :
  locks (md w) = ([], false) -> forallb (fun c => negb (is_aicl c)) calls = true ->
  let w' := exec (for_each calls mt_run) w in
  locks (md w') = ([], false) /\
  (0 <= fst (eval (mt6370_run_aicl 0) w') ->
   locks (md (exec (mt6370_run_aicl 0) w')) = ([], false)).
Proof.
  intros H Hc. cbv zeta.
  assert (locks (md (exec (for_each calls mt_run) w)) = ([], false)) as H'.
  { revert w H. induction calls as [|c calls IH]; intros w H; cbn [for_each]; [done|].
    cbn in Hc. bool_prop. rewrite exec_bind. apply IH; [done|].
    rewrite bal_run; [done..|]. unfold locks in H. injection H as -> _. intros l _. apply not_elem_of_nil. }
  split; [done|]. by apply run_aicl_locks.
Qed.
End Locking.

Lemma lock_discipline_witness :
  locks (md (exec (for_each [CSetAicr 800000; CPep true; CTchg] mt_run) mw0)) = ([], false).
Proof.
  exact (proj1 (lock_discipline mw0 [CSetAicr 800000; CPep true; CTchg] eq_refl eq_refl)).
Defined.

(** When a register access fails during the stepwise measurement of
    [mt6370_post_aicl_measure], [__mt6370_run_aicl] returns with two mutexes
    held; the next attempt to set the input current waits for one of them for
    ever. *)
Theorem run_aicl_leaks_mutexes :
  let w := exec (mt6370_run_aicl 0) (mw0 <| mb := chip0 <| c_fail := 5 |> |>) in
  mt_held (md w) = [AicrLock; PeLock] /\ mt_deadlock (md w) = false /\
  mt_deadlock (md (exec (mt6370_set_aicr 500000) w)) = true.
Proof. vm_compute. auto. Qed.
