(* ===== verification/Mt6370Regs.v ===== *)
(** * The MT6370 behind its bus: what the driver relies on

    [RegLaws reg healthy] says how the accesses of [Mt6370Bus] act on the
    configuration registers of the chip: [reg b a] is the contents of register
    [a], and [healthy b] that the bus works.  An access that fails leaves the
    configuration alone, a healthy bus stays so and does not fail, and apart
    from the driver only the input current limit is written by somebody else,
    the chip itself at the end of an AICL measurement.  The concrete chip
    satisfies the laws. *)

From S2P Require Import Prelude ChargerClass AlgClass ChargerTypes Platform BasicCharger Mt6370Enc.
From S2P Require Import RtRegmap Mt6370Map Mt6370 Mt6370Ops Mt6370Chip Mt6370Locks.
#[local] Open Scope Z_scope.

(** The configuration registers: control of charging, input current, voltage,
    MIVR, charging current, end-of-charge current, timers, IR compensation,
    voltage and current limit of the boost. *)
Definition cfg_regs : list Z := [0x12; 0x13; 0x14; 0x15; 0x16; 0x17; 0x19; 0x1A; 0x1C; 0x2C].

Definition cfg (a : Z) : bool := bool_decide (a ∈ cfg_regs).

(** [b'] has the configuration of [b], but for the registers in [except]. *)
Definition same_cfg {B} (reg : B -> Z -> Z) (except : list Z) (b b' : B) : Prop :=
  forall c, cfg c = true -> c ∉ except -> reg b' c = reg b c.

(** A call that has nothing to do with the configuration. *)
Definition neutral {B A} (reg : B -> Z -> Z) (healthy : B -> Prop) (m : M B A) : Prop :=
  forall b, same_cfg reg [] b (exec m b) /\ (healthy b -> healthy (exec m b)).

Class RegLaws {B} `{!Mt6370Bus B} (reg : B -> Z -> Z) (healthy : B -> Prop) : Prop := {
  law_u8 : forall b a, is_u8 (reg b a);
  law_read : forall a b, let '(r, b') := rt_regmap_reg_read a b in
    same_cfg reg [] b b' /\ (healthy b -> healthy b' /\ (mapped a = true -> 0 <= fst r)) /\
    (0 <= fst r -> is_u8 (snd r) /\ (cfg a = true -> snd r = reg b a));
  law_update : forall a m v b, is_u8 m -> let '(r, b') := rt_regmap_update_bits a m v b in
    same_cfg reg [u8 a] b b' /\ (healthy b -> healthy b' /\ (mapped a = true -> 0 <= r)) /\
    (cfg a = true -> reg b' a = if 0 <=? r then update_bits (reg b a) m v else reg b a);
  law_write : forall a v b, let b' := exec (rt_regmap_reg_write a v) b in
    same_cfg reg [u8 a] b b' /\ (healthy b -> healthy b');
  law_block_read : forall a n, neutral reg healthy (rt_regmap_block_read a n);
  law_block_write : forall a l b, contiguous a (length l) = true ->
    let '(r, b') := rt_regmap_block_write a l b in
    same_cfg reg (seqZ a (Z.of_nat (length l))) b b' /\ (healthy b -> healthy b' /\ 0 <= r);
  law_smbus_read : forall a, neutral reg healthy (i2c_smbus_read a);
  law_smbus_write : forall a v b, let b' := exec (i2c_smbus_write a v) b in
    same_cfg reg [a] b b' /\ (healthy b -> healthy b');
  law_wait : forall b, let b' := exec wait_event_interruptible_timeout b in
    same_cfg reg [0x13] b b' /\ (healthy b -> healthy b');
  law_sleep : forall ms, neutral reg healthy (mt_sleep ms);
  law_irq_res : forall s, neutral reg healthy (platform_get_resource_byname s);
  law_irq_on : forall i, neutral reg healthy (enable_irq i);
  law_irq_off : forall i, neutral reg healthy (disable_irq_nosync i);
  law_changed : neutral reg healthy power_supply_changed;
  law_notify : forall e, neutral reg healthy (charger_dev_notify e);
  law_pinctrl : forall s, neutral reg healthy (pinctrl_select_state s);
  law_phy_get : neutral reg healthy phy_get;
  law_phy_mode : forall m, neutral reg healthy (phy_set_mode_ext m);
  law_phy_put : neutral reg healthy phy_put;
  law_usb_node : neutral reg healthy of_usb_cdp_block
}.

(** ** The concrete chip *)

Lemma same_cfg_refl {B} (reg : B -> Z -> Z) L b : same_cfg reg L b b.
Proof. done. Qed.

Lemma chip_reg_insert c a v x :
  chip_reg (c <| c_regs ::= <[a := v]> |>) x = if bool_decide (x = a) then u8 v else chip_reg c x.
Proof.
  unfold chip_reg. cbn. case_bool_decide as E; [subst; by rewrite lookup_insert_eq|].
  by rewrite lookup_insert_ne.
Qed.

Lemma chip_write_block_other l a c x :
  x ∉ seqZ a (Z.of_nat (length l)) ->
  chip_reg (exec (chip_write_block a l) c) x = chip_reg c x /\
  c_fail (exec (chip_write_block a l) c) = c_fail c.
Proof.
  revert a c. induction l as [|v l IH]; intros a c Hx; [done|].
  cbn [chip_write_block]. rewrite exec_bind. rewrite elem_of_seqZ in Hx. cbn [length] in Hx.
  destruct (IH (a + 1) (exec (chip_write a v) c)) as [-> ->]; [rewrite elem_of_seqZ; lia|].
  split; [|done]. unfold chip_write. rewrite exec_modify, chip_reg_insert.
  case_bool_decide; [lia|done].
Qed.

(** The chip whose every access works. *)
Definition steady {A} (m : M chip A) : M chip A := fun c => m (c <| c_fail := -1 |>).

Definition steady_bus : Mt6370Bus chip := {|
  rt_regmap_reg_read := fun a => steady (rt_regmap_reg_read a);
  rt_regmap_reg_write := fun a v => steady (rt_regmap_reg_write a v);
  rt_regmap_update_bits := fun a m v => steady (rt_regmap_update_bits a m v);
  rt_regmap_block_read := fun a n => steady (rt_regmap_block_read a n);
  rt_regmap_block_write := fun a l => steady (rt_regmap_block_write a l);
  i2c_smbus_read := fun a => steady (i2c_smbus_read a);
  i2c_smbus_write := fun a v => steady (i2c_smbus_write a v);
  mt_sleep := mt_sleep;
  wait_event_interruptible_timeout := wait_event_interruptible_timeout;
  platform_get_resource_byname := platform_get_resource_byname;
  enable_irq := enable_irq;
  disable_irq_nosync := disable_irq_nosync;
  power_supply_changed := power_supply_changed;
  charger_dev_notify := charger_dev_notify;
  pinctrl_select_state := pinctrl_select_state;
  phy_get := phy_get;
  phy_set_mode_ext := phy_set_mode_ext;
  phy_put := phy_put;
  of_usb_cdp_block := of_usb_cdp_block
|}.

Lemma cfg_u8 a : cfg a = true -> u8 a = a.
Proof.
  unfold cfg. intros H%bool_decide_eq_true. apply u8_id.
  assert (Forall is_u8 cfg_regs) as Hf by (by apply (bool_decide_unpack (Forall _ _)); vm_compute).
  rewrite Forall_forall in Hf. by apply Hf.
Qed.

Lemma same_cfg_insert c a v L n :
  (cfg a = true -> a ∈ L) -> same_cfg chip_reg L c (c <| c_fail := n |> <| c_regs ::= <[a := v]> |>).
Proof.
  intros Ha x Hc Hx. rewrite chip_reg_insert. case_bool_decide; [subst; by destruct Hx; apply Ha|done].
Qed.

(** Run an access of the chip in both cases. *)
Ltac chip_run := cbn; unfold chip_try, chip_access, bind, exec, eval, gets, modify, ret; cbn;
  match goal with |- context [if negb ?b then _ else _] => destruct b eqn:? end; cbn.

(** What [chip_access] does to the fault counter. *)
Definition chip_count (n : Z) : Z := if n <? 0 then -1 else n - 1.

Lemma chip_count_neg n : n < 0 -> chip_count n < 0.
Proof. unfold chip_count. intros H. case_match; bool_prop; lia. Qed.

#[global] Instance chip_laws : RegLaws chip_reg (fun c => c_fail c < 0).
Proof.
  constructor; try (by intros); intros.
  - apply u8_range.
  - chip_run; bool_prop; (split_and!; [done|by split; [apply chip_count_neg|intros; lia]|]); [done|].
    intros _. split; [apply u8_range|done].
  - chip_run; bool_prop; (split_and!; [|by split; [apply chip_count_neg|intros; lia]|]); [done..| |].
    + unfold chip_write; cbn. apply same_cfg_insert. intros Hc. rewrite ?cfg_u8 by done. set_solver.
    + intros _. unfold chip_write; cbn. rewrite chip_reg_insert, bool_decide_true by done. apply u8_id, update_bits_u8; [apply u8_range|done].
  - subst b'. chip_run; bool_prop; (split; [|apply chip_count_neg]); [done|].
    unfold chip_write; cbn. apply same_cfg_insert. intros Hc. rewrite ?cfg_u8 by done. set_solver.
  - intros b. chip_run; bool_prop; (split; [done|apply chip_count_neg]).
  - destruct (rt_regmap_block_write a l b) as [r b1] eqn:E.
    cbn in E. unfold chip_try, chip_access, bind in E. cbn in E.
    destruct (c_fail b =? 0) eqn:Ef; cbn in E; bool_prop.
    + injection E as <- <-. split; [done|lia].
    + set (b2 := b <| c_fail ::= chip_count |>).
      assert (exec (chip_write_block a l) b2 = b1 /\ 0 <= r) as [<- Hr]
        by (unfold exec; change b2 with (b <| c_fail := if c_fail b <? 0 then -1 else c_fail b - 1 |>);
            destruct (chip_write_block a l _); by injection E as <- <-).
      split; [intros x _ Hx; by apply (chip_write_block_other l a b2)|].
      intros Hh. split; [|done]. destruct (chip_write_block_other l a b2 (a - 1)) as [_ ->];
        [rewrite elem_of_seqZ; lia|by apply chip_count_neg].
  - intros b. chip_run; bool_prop; (split; [done|apply chip_count_neg]).
  - subst b'. chip_run; bool_prop; (split; [|apply chip_count_neg]); [done|].
    unfold chip_write; cbn. apply same_cfg_insert. intros Hc. rewrite ?cfg_u8 by done. set_solver.
Qed.

(** The same for the chip whose every access works. *)
Lemma steady_laws : @RegLaws chip steady_bus chip_reg (fun _ => True).
Proof.
  constructor; cbn [rt_regmap_reg_read rt_regmap_update_bits rt_regmap_reg_write
    rt_regmap_block_read rt_regmap_block_write i2c_smbus_read i2c_smbus_write
    wait_event_interruptible_timeout mt_sleep platform_get_resource_byname enable_irq disable_irq_nosync power_supply_changed charger_dev_notify
    pinctrl_select_state phy_get phy_set_mode_ext phy_put of_usb_cdp_block steady_bus]; try (by intros).
  - intros. apply u8_range.
  - intros a b. pose proof (law_read a (b <| c_fail := -1 |>)) as H. unfold steady.
    destruct (rt_regmap_reg_read _ _). destruct H as (H1 & H2 & H3). split_and!; [done| |done].
    intros _. split; [done|]. by apply H2.
  - intros a m v b Hm. pose proof (law_update a m v (b <| c_fail := -1 |>) Hm) as H. unfold steady.
    destruct (rt_regmap_update_bits _ _ _ _). destruct H as (H1 & H2 & H3). split_and!; [done| |done].
    intros _. split; [done|]. by apply H2.
  - intros a v b. split; [|done]. exact (proj1 (law_write (reg := chip_reg) a v (b <| c_fail := -1 |>))).
  - intros a l b Hc. pose (b1 := b <| c_fail := -1 |>).
    pose proof (@law_block_write chip chip_bus chip_reg _ chip_laws a l b1 Hc) as H. unfold steady.
    destruct (rt_regmap_block_write a l b1) as [r b'] eqn:E. change (b <| c_fail := -1 |>) with b1. rewrite E.
    destruct H as [H1 H2]. split; [done|]. intros _. split; [done|]. by apply H2.
  - intros a v b. split; [|done].
    exact (proj1 (law_smbus_write (reg := chip_reg) a v (b <| c_fail := -1 |>))).
Qed.
