(* ===== verification/Mt6370Spec.v ===== *)
(** * The MT6370 charger driver: what it guarantees

    Against the laws of the bus ([RegLaws]): the driver honours the contract
    the charging manager is verified against, its setters and getters agree,
    and the limits it remembers are those of the chip. *)

From S2P Require Import Prelude ChargerClass AlgClass ChargerTypes ChargerDt Platform Board.
From S2P Require Import BasicCharger ChargerSpec Mt6370Enc RtRegmap Mt6370Map.
From S2P Require Import Mt6370 Mt6370Ops Mt6370Chip Mt6370Locks Mt6370Regs.
#[local] Open Scope Z_scope.

Section View.
  Context {B : Type} `{!Mt6370Bus B} (reg : B -> Z -> Z) (healthy : B -> Prop).
  Context `{!RegLaws reg healthy}.

(** The bit CHG_EN. *)
Definition charging (w : mworld B) : bool := Z.testbit (reg (mb w) MT6370_PMU_REG_CHGCTRL2) 0.

(** The registers and the fields of the driver that the properties are about. *)
Definition view (w : mworld B) :=
  (mt_mivr (md w), mt_pp_en (md w), mt_ichg (md w), mt_ichg_dis_chg (md w),
   (charging w, reg (mb w) (f_reg MT6370_MIVR), reg (mb w) (f_reg MT6370_ICHG))).

Definition stable (P : mworld B -> Prop) : Prop :=
  forall w w', view w' = view w -> (healthy (mb w) -> healthy (mb w')) -> P w -> P w'.

(** An update that does not touch what [view] sees. *)
Definition misses (a mask : Z) : bool :=
  negb (a =? f_reg MT6370_MIVR) && negb (a =? f_reg MT6370_ICHG) &&
  (negb (a =? MT6370_PMU_REG_CHGCTRL2) || negb (Z.testbit mask 0)).

Lemma view_regs w w' :
  md w' = md w -> (forall a, misses a 1 = false -> reg (mb w') a = reg (mb w) a) -> view w' = view w.
Proof.
  intros Hd H. unfold view, charging. rewrite Hd.
  by rewrite !H by (vm_compute; reflexivity).
Qed.

Lemma missed_cfg a : misses a 1 = false -> cfg a = true.
Proof.
  unfold misses. intros H. bool_prop.
  repeat match goal with H : _ \/ _ |- _ => destruct H; bool_prop end; subst; reflexivity.
Qed.

Lemma cfg_mapped a : cfg a = true -> mapped a = true.
Proof.
  unfold cfg, mapped. intros H%bool_decide_eq_true. apply bool_decide_eq_true.
  assert (Forall (fun a => a ∈ mt6370_addrs) cfg_regs) as Hf
    by (by apply (bool_decide_unpack (Forall _ _)); vm_compute).
  rewrite Forall_forall in Hf. by apply Hf.
Qed.

(** The effect of an update, on every bus. *)
Lemma update_spec a m v (w : mworld B) :
  let r := eval (mt6370_pmu_reg_update_bits a m v) w in
  let w' := exec (mt6370_pmu_reg_update_bits a m v) w in
  md w' = md w /\ same_cfg reg [u8 a] (mb w) (mb w') /\
  (healthy (mb w) -> healthy (mb w') /\ (mapped a = true -> 0 <= r)) /\
  (cfg a = true -> reg (mb w') a =
     if 0 <=? r then update_bits (reg (mb w) a) (u8 m) (u8 v) else reg (mb w) a).
Proof.
  cbv zeta. unfold mt6370_pmu_reg_update_bits. rewrite md_exec_bus, mb_exec_bus, eval_bus.
  split; [done|]. pose proof (law_update a (u8 m) (u8 v) (mb w) (u8_range m)) as H.
  unfold exec, eval. by destruct (rt_regmap_update_bits a (u8 m) (u8 v) (mb w)).
Qed.

(** The value a read gives. *)
Lemma read_spec a (w : mworld B) :
  let r := eval (mt6370_pmu_reg_read a) w in
  (healthy (mb w) -> mapped a = true -> 0 <= r) /\ (0 <= r -> cfg a = true -> r = reg (mb w) a).
Proof.
  cbv zeta. unfold mt6370_pmu_reg_read. rewrite eval_bind, eval_bus, eval_ret.
  pose proof (law_read a (mb w)) as H. unfold eval. destruct (rt_regmap_reg_read a (mb w)) as [[r v] b].
  cbn in *. destruct H as (_ & H2 & H3). destruct (r <? 0) eqn:E; bool_prop; [split; [|lia]; intros; by apply H2|].
  destruct (H3 E) as [H4 H5]. unfold is_u8 in H4. rewrite s32_id by (unfold is_s32; lia).
  split; [lia|]. auto.
Qed.

Section Stable.
  Context (P : mworld B -> Prop) (HP : stable P).

Lemma stable_update a m v :
  (u8 a =? a) && misses a (u8 m) = true -> preserves P (mt6370_pmu_reg_update_bits a m v).
Proof.
  intros [Eu%Z.eqb_eq Ha]%andb_true_iff w. destruct (update_spec a m v w) as (H1 & H2 & H3 & H4). rewrite Eu in H2.
  apply HP; [|intros Hh; by apply H3].
  assert (forall c, misses c 1 = false -> c <> a ->
    reg (mb (exec (mt6370_pmu_reg_update_bits a m v) w)) c = reg (mb w) c) as Hc
    by (intros c Hc Hn; apply H2; [by apply missed_cfg|by rewrite list_elem_of_singleton]).
  unfold misses in Ha. bool_prop. unfold view, charging. rewrite H1.
  rewrite (Hc (f_reg MT6370_MIVR)), (Hc (f_reg MT6370_ICHG)) by (done || reflexivity).
  do 2 f_equal. f_equal. destruct (Z.eq_dec a MT6370_PMU_REG_CHGCTRL2) as [->|Hn]; [|by rewrite Hc].
  rewrite H4 by done. case_match; [|done]. rewrite update_bits_spec by done.
  match goal with H : _ \/ _ |- _ => destruct H as [Hx|Hx] end; bool_prop; [done|by rewrite Hx].
Qed.

Lemma stable_bus {A} L (m : M B A) :
  (forall b, same_cfg reg L b (exec m b) /\ (healthy b -> healthy (exec m b))) ->
  forallb (fun a => misses a 1) L = true ->
  preserves P (bus m).
Proof.
  intros Hm HL w. apply HP.
  - apply view_regs; [apply md_exec_bus|]. intros a Ha. rewrite mb_exec_bus.
    apply (Hm (mb w)); [by apply missed_cfg|]. intros Hin%list_elem_of_In.
    rewrite forallb_forall in HL. specialize (HL a Hin). congruence.
  - rewrite mb_exec_bus. apply Hm.
Qed.

Lemma stable_neutral {A} (m : M B A) : neutral reg healthy m -> preserves P (bus m).
Proof. intros Hm. by apply (stable_bus []). Qed.

Lemma stable_read a : preserves P (mt6370_pmu_reg_read a).
Proof.
  apply preserves_bind; [|intros; apply preserves_ret]. apply (stable_bus []); [|done].
  intros b. pose proof (law_read a b) as H. unfold exec. destruct (rt_regmap_reg_read a b).
  destruct H as (H1 & H2 & _). split; [done|]. intros Hh. by apply H2.
Qed.

Lemma stable_write a v : misses (u8 a) 1 = true -> preserves P (mt6370_pmu_reg_write a v).
Proof.
  intros Ha. apply (stable_bus [u8 a]); [|cbn; by rewrite Ha]. intros b. apply law_write.
Qed.

Lemma stable_block_read a n : preserves P (mt6370_pmu_reg_block_read a n).
Proof. apply stable_neutral, law_block_read. Qed.

Lemma stable_block_write a l :
  contiguous a (length l) && forallb (fun a => misses a 1) (seqZ a (Z.of_nat (length l))) = true ->
  preserves P (mt6370_pmu_reg_block_write a l).
Proof.
  intros [Hc Ha]%andb_true_iff. apply (stable_bus (seqZ a (Z.of_nat (length l)))); [|done].
  intros b. pose proof (law_block_write a l b Hc) as H. unfold exec.
  destruct (rt_regmap_block_write a l b). destruct H as [H1 H2]. split; [done|]. intros Hh. by apply H2.
Qed.

Lemma stable_modd f :
  (forall d, (mt_mivr (f d), mt_pp_en (f d), mt_ichg (f d), mt_ichg_dis_chg (f d)) =
             (mt_mivr d, mt_pp_en d, mt_ichg d, mt_ichg_dis_chg d)) ->
  preserves P (modd f).
Proof.
  intros Hf w. apply HP; [|done]. unfold view, charging. cbn. specialize (Hf (md w)). congruence.
Qed.

Lemma stable_smbus_write a v : misses a 1 = true -> preserves P (bus (i2c_smbus_write a v)).
Proof. intros Ha. apply (stable_bus [a]); [|cbn; by rewrite Ha]. intros b. apply law_smbus_write. Qed.
Lemma stable_wait : preserves P (bus wait_event_interruptible_timeout).
Proof. apply (stable_bus [0x13]); [|done]. intros b. apply law_wait. Qed.
End Stable.
End View.

(** Follow the structure of the code; a call needs a lemma in [kern]. *)
Ltac solve_stable :=
  repeat match goal with
    | |- forall _, _ => intro
    | |- preserves _ (bind _ _) => apply preserves_bind
    | |- preserves _ (ret _) => apply preserves_ret
    | |- preserves _ (gets _) => apply preserves_gets
    | |- preserves _ (getd _) => apply preserves_gets
    | |- preserves _ (ignore _) => apply preserves_ignore
    | |- preserves _ (when _ _) => apply preserves_when
    | |- preserves _ (for_each _ _) => apply preserves_for_each
    | |- preserves _ (with_lock _ _) => unfold with_lock
    | |- preserves _ (mutex_lock _) =>
        eapply stable_modd; [eassumption|intros; by case_match]
    | |- preserves _ (mutex_unlock _) => eapply stable_modd; [eassumption|done]
    | |- preserves _ (modd _) => eapply stable_modd; [eassumption|intros; try reflexivity]
    | |- preserves _ (mt6370_pmu_reg_update_bits _ _ _) =>
        eapply stable_update; [eassumption..|reflexivity]
    | |- preserves _ (mt6370_set_field _ _) => eapply stable_update; [eassumption..|reflexivity]
    | |- preserves _ (mt6370_pmu_reg_set_bit _ _) => eapply stable_update; [eassumption..|reflexivity]
    | |- preserves _ (mt6370_pmu_reg_clr_bit _ _) => eapply stable_update; [eassumption..|reflexivity]
    | |- preserves _ (mt6370_pmu_reg_assign_bit ?b _ _) => unfold mt6370_pmu_reg_assign_bit
    | |- preserves _ (mt6370_pmu_reg_write _ _) => eapply stable_write; [eassumption..|reflexivity]
    | |- preserves _ (mt6370_pmu_reg_read _) => eapply stable_read; eassumption
    | |- preserves _ (mt6370_pmu_reg_block_read _ _) => eapply stable_block_read; eassumption
    | |- preserves _ (mt6370_pmu_reg_block_write _ _) =>
        eapply stable_block_write; [eassumption..|reflexivity]
    | |- preserves _ (bus (i2c_smbus_write _ _)) =>
        eapply stable_smbus_write; [eassumption..|reflexivity]
    | |- preserves _ (bus wait_event_interruptible_timeout) => eapply stable_wait; eassumption
    | |- preserves _ (bus _) => eapply stable_neutral; [eassumption|solve [eauto with kern nocore]]
    | |- preserves _ (if ?b then _ else _) => destruct b
    | |- preserves _ (match ?x with _ => _ end) => destruct x
    | |- preserves _ _ => solve [eauto with kern nocore]
    end.

#[export] Hint Resolve law_smbus_read law_sleep law_irq_res law_irq_on law_irq_off law_changed law_notify
  law_pinctrl law_phy_get law_phy_mode law_phy_put law_usb_node : kern.

(** ** Code outside the view *)

Section Outside.
  Context {B : Type} `{!Mt6370Bus B} (reg : B -> Z -> Z) (healthy : B -> Prop).
  Context `{!RegLaws reg healthy} (P : mworld B -> Prop) (HP : stable reg healthy P).

Lemma out_test_bit a n : preserves P (mt6370_pmu_reg_test_bit a n).
Proof. unfold mt6370_pmu_reg_test_bit. solve_stable. Qed.
Lemma out_get_field f old : preserves P (mt6370_get_field f old).
Proof. unfold mt6370_get_field. solve_stable. Qed.
Lemma out_hidden en : preserves P (mt6370_enable_hidden_mode en).
Proof. unfold mt6370_enable_hidden_mode. solve_stable. Qed.
#[local] Hint Resolve out_test_bit out_get_field out_hidden : kern.
Lemma out_set_ieoc v : preserves P (__mt6370_set_ieoc v).
Proof. unfold __mt6370_set_ieoc. solve_stable. Qed.
Lemma out_workaround v : preserves P (mt6370_ichg_workaround v).
Proof. unfold mt6370_ichg_workaround. solve_stable. Qed.
Lemma out_status v : preserves P (mt6370_get_charging_status v).
Proof. unfold mt6370_get_charging_status. solve_stable. Qed.
Lemma out_adc_wait n : preserves P (adc_wait n).
Proof. induction n; simpl; solve_stable; auto. Qed.
#[local] Hint Resolve out_set_ieoc out_workaround out_status out_adc_wait : kern.
Lemma out_adc_convert s : preserves P (adc_convert s).
Proof. unfold adc_convert, adc_timeout. solve_stable. Qed.
#[local] Hint Resolve out_adc_convert : kern.
Lemma out_adc_locked l get scale s : preserves P get -> preserves P (adc_locked l get scale s).
Proof. intros Hg. unfold adc_locked. solve_stable; done. Qed.
Lemma out_get_adc s : preserves P (mt6370_get_adc s).
Proof.
  unfold mt6370_get_adc. solve_stable; apply out_adc_locked;
    unfold mt6370_get_aicr, mt6370_get_ichg, __mt6370_get_ichg; solve_stable.
Qed.
#[local] Hint Resolve out_get_adc : kern.
Lemma out_post_loop n c st sp : preserves P (post_aicl_loop n c st sp).
Proof. revert c. induction n; intros c; simpl; unfold __mt6370_set_aicr; solve_stable; auto. Qed.
#[local] Hint Resolve out_post_loop : kern.
Lemma out_run_aicl v : preserves P (mt6370_run_aicl v).
Proof.
  unfold mt6370_run_aicl, __mt6370_run_aicl, __mt6370_get_mivr, mt6370_set_aicl_vth,
    mt6370_chg_irq_clr_flag, aicl_measure, mt6370_get_aicr, mt6370_post_aicl_measure, aicl_finish,
    aicl_unlock. solve_stable.
Qed.
Lemma out_enable_irq s en : preserves P (mt6370_enable_irq s en).
Proof. unfold mt6370_enable_irq. solve_stable. Qed.
Lemma out_usbsw v : preserves P (mt6370_set_usbsw_state v).
Proof. unfold mt6370_set_usbsw_state. solve_stable. Qed.
Lemma out_usb_rdy : preserves P is_usb_rdy.
Proof. unfold is_usb_rdy. solve_stable. Qed.
#[local] Hint Resolve out_enable_irq out_usbsw out_usb_rdy : kern.
Lemma out_chgdet_flow en : preserves P (__mt6370_enable_chgdet_flow en).
Proof. unfold __mt6370_enable_chgdet_flow. solve_stable. Qed.
Lemma out_cdp_wait n : preserves P (cdp_wait n).
Proof. induction n; simpl; solve_stable; auto. Qed.
Lemma out_bc12_workaround : preserves P mt6370_bc12_workaround.
Proof. unfold mt6370_bc12_workaround, mt6370_toggle_chgdet_flow. solve_stable. Qed.
Lemma out_dischg_clear n r : preserves P (dischg_clear n r).
Proof. revert r. induction n; intros r; simpl; solve_stable; auto. Qed.
Lemma out_pumpx_wait n : preserves P (pumpx_wait n).
Proof. induction n; simpl; solve_stable; auto. Qed.
Lemma out_dump_regs l : preserves P (dump_regs l).
Proof. induction l; simpl; solve_stable; auto. Qed.
Lemma out_otg_switch en : preserves P (otg_switch en).
Proof. unfold otg_switch, otg_failed, mt6370_enable_wdt. solve_stable. Qed.
Lemma out_tchg_retry n r t : preserves P (tchg_retry n r t).
Proof. revert r t. induction n; intros r t; simpl; solve_stable; auto. Qed.
Lemma out_set_aicr v : preserves P (mt6370_set_aicr v).
Proof. unfold mt6370_set_aicr, __mt6370_set_aicr. solve_stable. Qed.
#[local] Hint Resolve out_run_aicl out_dischg_clear out_dump_regs out_otg_switch out_tchg_retry
  out_set_aicr : kern.

(** The calls that set what the view shows. *)
Definition touches (c : mt_call) : bool :=
  match c with
  | CPlugIn | CPlugOut | CEnable _ | CSetIchg _ | CSetMivr _ | CPowerPath _ | CTypeDet _ | CPep _
  | CPep20 _ | CCableDrop _ => true
  | _ => false
  end.

Lemma out_run c : touches c = false -> preserves P (mt_run c).
Proof.
  destruct c; intros Hc; try discriminate; cbn [mt_run];
    unfold mt6370_dump_register, mt6370_is_enabled_charging, mt6370_is_charging_enable,
      mt6370_get_ichg, __mt6370_get_ichg, mt6370_get_aicr, mt6370_get_cv, mt6370_set_cv,
      __mt6370_set_cv, mt6370_kick_wdt, mt6370_get_mivr, __mt6370_get_mivr, mt6370_get_mivr_state,
      mt6370_get_indpm_state, mt6370_is_charging_done, mt6370_get_zcv, mt6370_set_ieoc,
      mt6370_enable_te, __mt6370_enable_te, mt6370_reset_eoc_state, mt6370_safety_check,
      mt6370_get_min_ichg, mt6370_get_min_aicr, mt6370_enable_safety_timer,
      __mt6370_enable_safety_timer, mt6370_is_safety_timer_enable, mt6370_is_power_path_enable,
      mt6370_enable_otg, otg_by_power_switch, mt6370_set_otg_current_limit, mt6370_enable_discharge,
      mt6370_set_pep20_reset, mt6370_select_input_current_limit, mt6370_get_tchg, mt6370_get_ibus,
      mt6370_get_vbus, mt6370_do_event, mt6370_enable_dcap, mt6370_enable_ir_comp,
      mt6370_set_ircmp_resistor, mt6370_set_ircmp_vclamp, mt6370_get_ieoc;
    solve_stable.
Qed.
End Outside.

#[export] Hint Resolve out_test_bit out_get_field out_hidden out_set_ieoc out_workaround out_status
  out_get_adc out_run_aicl out_chgdet_flow out_cdp_wait out_bc12_workaround out_dischg_clear
  out_pumpx_wait out_dump_regs out_otg_switch out_tchg_retry out_set_aicr out_enable_irq : kern.

(** ** The manager's contract *)

Section Contract.
  Context {B : Type} `{!Mt6370Bus B} (reg : B -> Z -> Z) (healthy : B -> Prop).
  Context `{!RegLaws reg healthy}.
Abbreviation charging := (charging reg).
Abbreviation off := (fun w : mworld B => charging w = false).

Lemma off_stable : stable reg healthy off.
Proof. intros w w' Hv _. unfold view in Hv. injection Hv as _ _ _ _ -> _ _. done. Qed.
#[local] Hint Resolve off_stable : core.

(** No update but one that sets the bit switches charging on. *)
Lemma off_update a m v :
  u8 a = a -> (a =? MT6370_PMU_REG_CHGCTRL2) && Z.testbit (u8 m) 0 && Z.testbit (u8 v) 0 = false ->
  preserves off (mt6370_pmu_reg_update_bits a m v).
Proof using RegLaws0.
  intros Eu Hb w Hw. destruct (update_spec reg healthy a m v w) as (_ & H2 & _ & H4). rewrite Eu in H2.
  unfold Mt6370Spec.charging in *. destruct (Z.eqb_spec a MT6370_PMU_REG_CHGCTRL2) as [->|Hn].
  - rewrite H4 by done. case_match; [|done]. rewrite update_bits_spec by done.
    cbn [andb] in Hb. destruct (Z.testbit (u8 m) 0); [|done]. by destruct (Z.testbit (u8 v) 0).
  - rewrite H2; [done..|]. by rewrite list_elem_of_singleton.
Qed.

Lemma off_modd f : preserves off (modd f).
Proof. by intros w. Qed.

Ltac solve_off :=
  repeat match goal with
    | |- forall _, _ => intro
    | |- preserves _ (bind _ _) => apply preserves_bind
    | |- preserves _ (ret _) => apply preserves_ret
    | |- preserves _ (getd _) => apply preserves_gets
    | |- preserves _ (when _ _) => apply preserves_when
    | |- preserves _ (ignore _) => apply preserves_ignore
    | |- preserves _ (with_lock _ _) => unfold with_lock
    | |- preserves _ (mutex_lock _) => apply off_modd
    | |- preserves _ (mutex_unlock _) => apply off_modd
    | |- preserves _ (modd _) => apply off_modd
    | |- preserves _ (mt6370_pmu_reg_update_bits _ _ _) => apply off_update; reflexivity
    | |- preserves _ (mt6370_set_field _ _) => apply off_update; reflexivity
    | |- preserves _ (mt6370_pmu_reg_clr_bit _ _) => apply off_update; reflexivity
    | |- preserves _ (mt6370_pmu_reg_read _) => apply (stable_read _ _ _ off_stable)
    | |- preserves _ (bus _) => apply (stable_neutral _ _ _ off_stable); solve [eauto with kern nocore]
    | |- preserves _ (mt6370_enable_irq _ _) => apply (out_enable_irq _ _ _ off_stable)
    | |- preserves _ (if ?b then _ else _) => destruct b
    | |- preserves _ (match ?x with _ => _ end) => destruct x
    | |- preserves _ _ => solve [eauto with kern nocore]
    end.

Lemma off_set_mivr v : preserves off (mt6370_set_mivr v).
Proof using RegLaws0. unfold mt6370_set_mivr, __mt6370_set_mivr. solve_off. Qed.
Lemma off_power_path en : preserves off (mt6370_enable_power_path en).
Proof using RegLaws0. unfold mt6370_enable_power_path, __mt6370_set_mivr. solve_off. Qed.
Lemma off_disable : preserves off (mt6370_enable_charging false).
Proof using RegLaws0.
  unfold mt6370_enable_charging, mt6370_pmu_reg_assign_bit. cbn [negb]. solve_off.
Qed.
Lemma off_plug_out : preserves off mt6370_plug_out.
Proof using RegLaws0.
  unfold mt6370_plug_out, mt6370_enable_wdt, mt6370_pmu_reg_assign_bit. pose proof off_disable. solve_off; try done.
Qed.

(** Unless the chip refuses, the command "off" clears the bit; a bus that always
    works does not refuse. *)
Lemma disable_off (w : mworld B) :
  wp (mt6370_enable_charging false)
    (fun r w' => (0 <= r -> off w') /\ ((forall b, healthy b) -> 0 <= r)) w.
Proof using RegLaws0.
  unfold mt6370_enable_charging, with_lock, mt6370_pmu_reg_assign_bit.
  mwp_step. apply wp_run. mwp_step. do 5 mwp_step. apply wp_run.
  match goal with |- wp _ _ ?w => generalize w end. intros w1. apply wp_run.
  unfold mutex_unlock. mwps.
  destruct (update_spec reg healthy MT6370_PMU_REG_CHGCTRL2 MT6370_MASK_CHG_EN 0 w1)
    as (_ & _ & H3 & H4). unfold mt6370_pmu_reg_clr_bit. split; [|intros Hh; by apply H3].
  intros Hr%Z.leb_le. unfold Mt6370Spec.charging. cbn [mb upd_field]. rewrite H4, Hr by done. cbv iota.
  by rewrite update_bits_spec.
Qed.

Lemma off_set_ichg v : preserves off (mt6370_set_ichg v).
Proof using RegLaws0. pose proof off_stable. unfold mt6370_set_ichg, __mt6370_set_ichg. solve_off. Qed.
Lemma off_chg_type_det en : preserves off (mt6370_enable_chg_type_det en).
Proof using RegLaws0.
  pose proof off_stable. pose proof off_power_path.
  unfold mt6370_enable_chg_type_det, mt6370_chgdet_handler, __mt6370_chgdet_handler, chgdet_out, chgdet_end,
    mt6370_enable_chgdet_flow. cbv zeta. solve_off.
Qed.

(** The calls that can set the bit. *)
Definition starts (c : mt_call) : bool :=
  match c with CPlugIn | CEnable true | CPep _ | CPep20 _ | CCableDrop _ => true | _ => false end.

Lemma off_run c : starts c = false -> preserves off (mt_run c).
Proof using RegLaws0.
  intros Hc. destruct (touches c) eqn:Ht; [|by apply (out_run reg healthy _ off_stable)].
  destruct c; try discriminate; cbn [mt_run]; apply preserves_ignore;
    try solve [eauto using off_plug_out, off_set_ichg, off_set_mivr, off_power_path, off_chg_type_det].
  destruct en; [discriminate|]. apply off_disable.
Qed.

(** On a bus that always works the command "on" sets the bit. *)
Lemma enable_on (w : mworld B) : (forall b, healthy b) -> charging (exec (mt6370_enable_charging true) w) = true.
Proof using RegLaws0.
  intros Hh. apply (wp_exec _ (fun w' => charging w' = true)).
  unfold mt6370_enable_charging, with_lock, mt6370_pmu_reg_assign_bit.
  mwp_step. apply wp_run. mwp_step. do 5 mwp_step. apply wp_run.
  match goal with |- wp _ _ ?w => generalize w end. intros w1. apply wp_run.
  unfold mutex_unlock. mwps.
  destruct (update_spec reg healthy MT6370_PMU_REG_CHGCTRL2 MT6370_MASK_CHG_EN MT6370_MASK_CHG_EN w1)
    as (_ & _ & H3 & H4). unfold mt6370_pmu_reg_set_bit. destruct (H3 (Hh _)) as [_ Hr].
  specialize (Hr eq_refl). apply Z.leb_le in Hr.
  unfold Mt6370Spec.charging. cbn [mb upd_field]. rewrite H4, Hr by done. cbv iota.
  by rewrite update_bits_spec.
Qed.

Lemma plug_in_on (w : mworld B) : (forall b, healthy b) -> charging (exec mt6370_plug_in w) = true.
Proof using RegLaws0.
  intros Hh. apply (wp_exec _ (fun w' => charging w' = true)). unfold mt6370_plug_in.
  mwp_step. mwp_step. mwp_step. apply wp_run. mwp_step. apply wp_run.
  match goal with |- context [exec (mt6370_enable_charging true) ?w1] => pose proof (enable_on w1 Hh) as Hc;
    generalize dependent (exec (mt6370_enable_charging true) w1) end.
  intros w2 Hc. mwp_step; [by mwp_step|]. mwp_step. apply wp_run. mwp_step.
  assert (stable reg healthy (fun w => charging w = true)) as Hs
    by (intros u u' Hv _; unfold view in Hv; by injection Hv as _ _ _ _ -> _ _).
  by apply (stable_neutral reg healthy _ Hs); [eauto with kern nocore|].
Qed.

Context `{!Platform (mworld B)}.

(** An operation of the class, for a driver or none. *)
Lemma quiet_op {T R} h (sel : charger_ops (mworld B) mtk_charger -> option T) fail (call : T -> M (mworld B) R) :
  (forall h e, dev_ops (charger_at h) e = Some mt6370_chg_ops \/ dev_ops (charger_at h) e = None) ->
  quiet charging fail ->
  match sel mt6370_chg_ops with Some f => quiet charging (call f) | None => True end ->
  quiet charging (call_op (chg h) sel fail call).
Proof.
  intros Hops Hf Hc e He. unfold exec, call_op, dev_op, chg. destruct h as [h|]; cbn; [|by apply Hf].
  destruct (Hops h e) as [-> | ->]; [|by apply Hf].
  destruct (sel mt6370_chg_ops); [by apply Hc|by apply Hf].
Qed.

Ltac op_quiet :=
  intros; apply quiet_op; [done|by intros ?|]; pose proof off_stable as HP;
  cbn; unfold mt6370_do_event, mt6370_set_cv, __mt6370_set_cv, mt6370_get_cv, mt6370_get_aicr,
    mt6370_get_ichg, __mt6370_get_ichg, mt6370_enable_ir_comp, mt6370_set_ircmp_resistor,
    mt6370_set_ircmp_vclamp, mt6370_get_vbus, mt6370_get_ibus, mt6370_get_tchg,
    mt6370_is_enabled_charging, mt6370_is_charging_enable, mt6370_is_charging_done,
    mt6370_get_indpm_state, mt6370_enable_safety_timer, __mt6370_enable_safety_timer, mt6370_get_min_ichg,
    mt6370_get_min_aicr, mt6370_get_mivr, __mt6370_get_mivr, mt6370_kick_wdt, mt6370_dump_register, mt6370_set_ieoc,
    mt6370_enable_te, __mt6370_enable_te;
  try done; change (@quiet (mworld B) ?A charging) with (@preserves (mworld B) A off); solve_stable.

Section Drivers.
Context (Hops : forall h e, dev_ops (charger_at h) e = Some mt6370_chg_ops \/ dev_ops (charger_at h) e = None).

Lemma charger_laws (h0 : nat) :
  (forall e, dev_ops (charger_at h0) e = Some mt6370_chg_ops) -> (forall b, healthy b) -> ChargerLaws charging h0.
Proof using RegLaws0 Hops.
  intros H0 Hh. constructor; try solve [op_quiet].
  - intros e. unfold exec, charger_dev_enable, call_op, chg, dev_op. cbn. rewrite H0.
    apply disable_off, disable_off, Hh.
  - intros h. apply quiet_op; [done|by intros ?|]. apply off_plug_out.
  - intros h v. apply quiet_op; [done|by intros ?|]. apply off_set_mivr.
  - intros h b. apply quiet_op; [done|by intros ?|]. apply off_power_path.
  - intros h i e. unfold wireless_charger_dev_do_algorithm, call_op, dev_op, eval, chg.
    destruct h as [h|]; [|done]. cbn. by destruct (Hops h e) as [-> | ->].
Qed.

Lemma alg_laws : AlgLaws charging.
Proof using RegLaws0 Hops.
  constructor; try solve [op_quiet].
  - intros h. apply quiet_op; [done|by intros ?|]. apply off_disable.
  - intros h v. apply quiet_op; [done|by intros ?|]. apply off_set_ichg.
Qed.
End Drivers.

(** C3: the MT6370 driver honours the contract the charging manager is verified
    against: where the chargers of the platform are MT6370s (or have no driver
    bound), every access of the bus works and nobody but the driver writes the
    configuration, the command to stop clears the enable bit of the chip, and none
    of the operations the contract names sets it, nor any of the calls of
    [AlgLaws], which the charging algorithms make besides. Of all operations of
    the table, whatever their arguments, none but five can set the bit: the
    command to start, plug-in, and the three that send a pattern to the adapter;
    the first two always do. *)
Theorem mt6370_honours_contract (h0 : nat) :
  (forall h e, dev_ops (charger_at h) e = Some mt6370_chg_ops \/ dev_ops (charger_at h) e = None) ->
  (forall e, dev_ops (charger_at h0) e = Some mt6370_chg_ops) ->
  (forall b, healthy b) ->
  ChargerLaws charging h0 /\ AlgLaws charging /\
  (forall c, starts c = false -> quiet charging (mt_run c)) /\
  (forall w, charging (exec (mt_run (CEnable true)) w) = true /\ charging (exec (mt_run CPlugIn) w) = true).
Proof using RegLaws0.
  intros Hops H0 Hh. split_and!; [by apply charger_laws|by apply alg_laws|intros c Hc; by apply off_run|].
  intros w. split; [by apply enable_on|by apply plug_in_on].
Qed.
End Contract.

(** A platform whose charger is the MT6370 with the chip whose accesses work;
    the rest of it answers that nothing is there. *)
Definition mt_charger : charger_device (mworld chip) mtk_charger := {|
  dev_ops := fun _ => Some (@mt6370_chg_ops chip steady_bus mtk_charger);
  dev_set_ops := fun _ => ret tt;
  dev_is_polling_mode := fun _ => false;
  dev_set_is_adapter_detect := fun b => modd (fun d => d <| mt_adapter_detect := b |>)
|}.

Definition mt_platform : Platform (mworld chip) := {|
  charger_at := fun _ => mt_charger;
  alg_at := fun _ => {| alg_ops := fun _ => None; alg_set_ops := fun _ => ret tt;
                        alg_set_config := fun _ => ret tt; alg_notifier_chain_register := ret 0 |};
  charger_list := fun _ => [("primary_chg"%string, 0%nat)];
  alg_list := fun _ => [];
  charger_notifier_chain_register := fun _ => ret 0;
  charger_dev_set_drvdata := fun _ => ret tt;
  tcpc_dev_get_by_name := fun _ => ret None;
  tcpm_inquire_typec_remote_rp_curr := fun _ => ret 500;
  get_adapter_by_name := fun _ => ret None;
  register_adapter_device_notifier := fun _ => ret 0;
  adapter_dev_get_property := fun _ _ => ret 0;
  power_supply_get_by_phandle := fun _ => ret None;
  power_supply_get_by_name := fun _ => ret None;
  power_supply_get_property := fun _ _ old => ret (- ENODEV, old);
  power_supply_set_property := fun _ _ _ => ret 0;
  power_supply_get_drvdata := fun _ => ret None;
  gauge_soc := fun _ => ret 0;
  gauge_use_aging_zcv := fun _ => ret 0;
  get_battery_id_status := ret true;
  pmic_regmap := ret None;
  regmap_update_bits := fun _ _ _ _ => ret 0;
  ktime_get_boottime := ret 0;
  msleep := fun _ => ret tt;
  alarm_try_to_cancel := ret 0;
  alarm_start := fun _ => ret tt;
  wake_up_interruptible := ret tt;
  kobject_uevent := ret 0;
  bat_metrics := fun _ => ret tt;
  kernel_power_off := ret tt;
  uninit := ret 0
|}.

Lemma mt6370_honours_contract_witness :
  @ChargerLaws (mworld chip) mt_platform (charging chip_reg) 0.
Proof.
  refine (proj1 (@mt6370_honours_contract chip steady_bus chip_reg (fun _ => True) steady_laws mt_platform 0 _ _ _));
    [by left|done|done].
Defined.

(** ** Limits: what is set is what is read *)

Section Limits.
  Context {B : Type} `{!Mt6370Bus B} (reg : B -> Z -> Z) (healthy : B -> Prop).
  Context `{!RegLaws reg healthy}.

(** The value a field of the chip stands for. *)
Definition decode (f : reg_field) (w : mworld B) : Z :=
  real_value f (field_code f (reg (mb w) (f_reg f))).

Lemma set_field_exact f v (w : mworld B) :
  f ∈ mt6370_fields -> cfg (f_reg f) = true ->
  wp (mt6370_set_field f v) (fun r w' => md w' = md w /\ (healthy (mb w) -> healthy (mb w') /\ 0 <= r) /\
    same_cfg reg [f_reg f] (mb w) (mb w') /\
    if 0 <=? r then field_code f (reg (mb w') (f_reg f)) = reg_code f v
    else reg (mb w') (f_reg f) = reg (mb w) (f_reg f)) w.
Proof using RegLaws0.
  intros Hf Hc. apply wp_run.
  destruct (update_spec reg healthy (f_reg f) (f_mask f) (field_bits f (reg_code f v)) w)
    as (H1 & H2 & H3 & H4). unfold mt6370_set_field. rewrite cfg_u8 in H2 by done.
  split_and!; [done|intros Hh; destruct (H3 Hh); auto using cfg_mapped|done|].
  case_match; rewrite H4 by done; [|done].
  assert (Forall (fun f => is_u8 (f_mask f)) mt6370_fields) as Hm by (repeat constructor; done).
  rewrite Forall_forall in Hm. rewrite (u8_id (f_mask f)) by (by apply Hm).
  rewrite (u8_id (field_bits f _)) by apply u8_range.
  apply field_roundtrip; [done|]. by apply reg_code_range, fields_range_ok.
Qed.

Lemma field_cfg f : f ∈ [MT6370_BAT_VOREG; MT6370_AICR; MT6370_ICHG; MT6370_MIVR; MT6370_IEOC] ->
  f ∈ mt6370_fields /\ cfg (f_reg f) = true.
Proof.
  assert (Forall (fun f => f ∈ mt6370_fields /\ cfg (f_reg f) = true)
    [MT6370_BAT_VOREG; MT6370_AICR; MT6370_ICHG; MT6370_MIVR; MT6370_IEOC]) as H.
  { repeat constructor; try reflexivity; by apply (bool_decide_unpack _); vm_compute. }
  rewrite Forall_forall in H. apply H.
Qed.

Ltac in_fields := apply field_cfg; apply (bool_decide_unpack _); vm_compute; exact I.

(** Nothing of the view has changed since [w0]. *)
Definition framed (w0 w : mworld B) : Prop :=
  view reg w = view reg w0 /\ (healthy (mb w0) -> healthy (mb w)).

Lemma framed_stable w0 : stable reg healthy (framed w0).
Proof. intros w w' Hv Hh [H1 H2]. split; [congruence|auto]. Qed.

Lemma framed_refl w : framed w w.
Proof. done. Qed.
Lemma framed_trans w0 w1 w2 : framed w0 w1 -> framed w1 w2 -> framed w0 w2.
Proof. intros [H1 H2] [H3 H4]. split; [congruence|auto]. Qed.

Lemma wp_framed {A} (m : M (mworld B) A) (Q : A -> mworld B -> Prop) w :
  (forall P, stable reg healthy P -> preserves P m) ->
  (forall a w', framed w w' -> Q a w') -> wp m Q w.
Proof. intros Hm HQ. apply HQ, (Hm (framed w)); [apply framed_stable|apply framed_refl]. Qed.

Lemma get_field_exact f old (w : mworld B) :
  cfg (f_reg f) = true ->
  wp (mt6370_get_field f old) (fun g w' => framed w w' /\ (0 <= fst g -> snd g = decode f w) /\
    (healthy (mb w) -> 0 <= fst g)) w.
Proof using RegLaws0.
  intros Hc. apply wp_run.
  split; [apply (out_get_field reg healthy _ (framed_stable w)), framed_refl|].
  unfold mt6370_get_field. rewrite eval_bind, eval_ret.
  destruct (read_spec reg healthy (f_reg f) w) as [Hh H]. unfold decode.
  case_match; bool_prop; cbn; (split; [|by auto using cfg_mapped]); [lia|]. intros Hr. by rewrite H.
Qed.

(** The rest of the view when the charging current is set. *)
Definition but_ichg (w : mworld B) :=
  (mt_mivr (md w), mt_pp_en (md w), mt_ichg_dis_chg (md w), charging reg w,
   reg (mb w) (f_reg MT6370_MIVR)).

Definition ichg_request (uA : Z) : Z := Z.max uA 500000.

Lemma view_ichg w w' :
  view reg w' = view reg w ->
  but_ichg w' = but_ichg w /\ mt_ichg (md w') = mt_ichg (md w) /\
  reg (mb w') (f_reg MT6370_ICHG) = reg (mb w) (f_reg MT6370_ICHG).
Proof. unfold view, but_ichg. intros H. split_and!; congruence. Qed.

Lemma cfg_ichg w w' :
  md w' = md w -> same_cfg reg [f_reg MT6370_ICHG] (mb w) (mb w') -> but_ichg w' = but_ichg w.
Proof.
  intros Hd Hs. unfold but_ichg, charging. rewrite Hd.
  rewrite (Hs MT6370_PMU_REG_CHGCTRL2), (Hs (f_reg MT6370_MIVR))
    by (reflexivity || by rewrite list_elem_of_singleton). done.
Qed.

Lemma set_ichg_exact uA (w : mworld B) :
  let k := reg_code MT6370_ICHG (ichg_request uA) in
  wp (__mt6370_set_ichg uA) (fun r w' =>
    (0 <= r -> field_code MT6370_ICHG (reg (mb w') (f_reg MT6370_ICHG)) = k) /\
    (healthy (mb w) -> healthy (mb w') /\ field_code MT6370_ICHG (reg (mb w') (f_reg MT6370_ICHG)) = k /\
       mt_ichg (md w') = real_value MT6370_ICHG k /\ but_ichg w' = but_ichg w)) w.
Proof using RegLaws0.
  cbv zeta. unfold __mt6370_set_ichg. do 2 mwp_step. replace (if uA <? 500000 then 500000 else uA)
    with (ichg_request uA) by (unfold ichg_request; case_match; bool_prop; lia).
  set (v := ichg_request uA). mwp_step. apply wp_framed; [intros; solve_stable|]. intros [] w1 [V1 H1].
  mwp_step. eapply wp_mono; [by apply set_field_exact; in_fields|].
  intros r w2 (D2 & H2 & S2 & R2).
  mwp_step; [mwp_step; bool_prop; split; [lia|intros Hh; destruct (H2 (H1 Hh)); lia]|].
  bool_prop. rewrite (proj2 (Z.leb_le 0 r)) in R2 by done. do 3 mwp_step.
  eapply wp_mono; [by apply get_field_exact|]. intros g w3 ((V3 & H3) & Hg & Hg'). do 2 mwp_step.
  set (w4 := w3 <| md ::= _ |>). apply wp_framed; [intros; solve_stable|]. intros r' w5 [V5 H5].
  destruct (view_ichg _ _ V1) as (B1 & _ & _), (view_ichg _ _ V3) as (B3 & _ & R3),
    (view_ichg _ _ V5) as (B5 & I5 & R5). pose proof (cfg_ichg _ _ D2 S2) as B2.
  change (reg (mb w4)) with (reg (mb w3)) in R5. rewrite R5, R3. split; [done|].
  intros Hh. destruct (H2 (H1 Hh)) as [Hh2 _]. split_and!; [by apply H5, H3|done| |].
  - rewrite I5. cbn. rewrite Hg by auto. unfold decode. by rewrite R2.
  - change (but_ichg w4) with (but_ichg w3) in B5. congruence.
Qed.

Lemma set_field_decode f v (w : mworld B) :
  f ∈ mt6370_fields -> cfg (f_reg f) = true ->
  wp (mt6370_set_field f v) (fun r w' => 0 <= r -> decode f w' = programmed f v) w.
Proof using RegLaws0.
  intros Hf Hc. eapply wp_mono; [by apply set_field_exact|]. intros r w' (_ & _ & _ & H) Hr%Z.leb_le.
  rewrite Hr in H. unfold decode. by rewrite H.
Qed.

(** Taking and releasing a mutex is not seen from outside. *)
Lemma wp_with_lock {A} l (m : M (mworld B) A) (Q : A -> mworld B -> Prop) w :
  (forall w1, mb w1 = mb w -> (exists H dl, md w1 = (md w) <| mt_held := H |> <| mt_deadlock := dl |>) ->
     wp m (fun a w2 => forall w3, mb w3 = mb w2 ->
       (exists H dl, md w3 = (md w2) <| mt_held := H |> <| mt_deadlock := dl |>) -> Q a w3) w1) ->
  wp (with_lock l m) Q w.
Proof.
  intros H. unfold with_lock. mwp_step. unfold mutex_lock. mwp_step. mwp_step.
  eapply wp_mono; [apply H; [done|]|].
  - exists (mt_held (md (exec (mutex_lock l) w))), (mt_deadlock (md (exec (mutex_lock l) w))).
    cbn. by destruct (md w), (bool_decide _).
  - intros a w2 H2. unfold mutex_unlock. mwps. apply H2; [done|].
    exists (mt_held (md (exec (mutex_unlock l) w2))), (mt_deadlock (md w2)). cbn. by destruct (md w2).
Qed.

(** C36: on every bus, and whatever fails: a setter that reports success has
    programmed exactly the nearest value that is not above the request (for the
    charging current not below 0.5 A, for the input current after calibration,
    for MIVR only while the power path is on; otherwise the request is kept for
    later), and a getter that reports success returns what the chip holds. *)
Theorem limits_exact (w : mworld B) (v old : Z) :
  (0 <= eval (mt6370_set_cv v) w ->
   decode MT6370_BAT_VOREG (exec (mt6370_set_cv v) w) = programmed MT6370_BAT_VOREG v) /\
  (0 <= eval (mt6370_set_aicr v) w ->
   decode MT6370_AICR (exec (mt6370_set_aicr v) w) = programmed MT6370_AICR
     (mt6370_calibrate_aicr (ds_en_iaicr_cal (mt_desc (md w))) (mt_iaicr (md w)) v)) /\
  (0 <= eval (mt6370_set_ichg v) w ->
   decode MT6370_ICHG (exec (mt6370_set_ichg v) w) = programmed MT6370_ICHG (ichg_request v)) /\
  (0 <= eval (mt6370_set_mivr v) w ->
   mt_mivr (md (exec (mt6370_set_mivr v) w)) = v /\
   decode MT6370_MIVR (exec (mt6370_set_mivr v) w) =
     if mt_pp_en (md w) then programmed MT6370_MIVR v else decode MT6370_MIVR w) /\
  (0 <= fst (eval (mt6370_get_cv old) w) -> snd (eval (mt6370_get_cv old) w) = decode MT6370_BAT_VOREG w) /\
  (0 <= fst (eval (mt6370_get_aicr old) w) -> snd (eval (mt6370_get_aicr old) w) = decode MT6370_AICR w) /\
  (0 <= fst (eval (mt6370_get_ichg old) w) -> snd (eval (mt6370_get_ichg old) w) = decode MT6370_ICHG w) /\
  (0 <= fst (eval (mt6370_get_mivr old) w) -> snd (eval (mt6370_get_mivr old) w) = decode MT6370_MIVR w).
Proof using RegLaws0.
  split_and!; try (by apply get_field_exact).
  - apply set_field_decode; in_fields.
  - revert w. enough (forall w, wp (mt6370_set_aicr v) (fun r w' => 0 <= r -> decode MT6370_AICR w' =
      programmed MT6370_AICR (mt6370_calibrate_aicr (ds_en_iaicr_cal (mt_desc (md w)))
        (mt_iaicr (md w)) v)) w) as H by exact H.
    intros w. apply wp_with_lock. intros w1 _ (L & dl & D1). do 2 mwp_step. rewrite D1.
    eapply wp_mono; [apply set_field_decode; in_fields|].
    intros r w2 H2 w3 E3 _ Hr. unfold decode. rewrite E3. by apply H2.
  - revert w. enough (forall w, wp (mt6370_set_ichg v) (fun r w' => 0 <= r -> decode MT6370_ICHG w' =
      programmed MT6370_ICHG (ichg_request v)) w) as H by exact H.
    intros w. do 2 (apply wp_with_lock; intros ? _ _). eapply wp_mono; [apply set_ichg_exact|].
    intros r w2 [H2 _] w3 E3 _ w4 E4 _ Hr. unfold decode. rewrite E4, E3, H2 by done. done.
  - revert w. enough (forall w, wp (mt6370_set_mivr v) (fun r w' => 0 <= r -> mt_mivr (md w') = v /\
      decode MT6370_MIVR w' = if mt_pp_en (md w) then programmed MT6370_MIVR v else decode MT6370_MIVR w) w)
      as H by exact H.
    intros w. apply wp_with_lock. intros w1 E1 (L & dl & D1). do 3 mwp_step.
    rewrite D1. cbn. destruct (mt_pp_en (md w)) eqn:Ep; cbn [negb].
    + eapply wp_mono; [apply set_field_decode; in_fields|]. intros r w2 H2.
      mwps; intros w3 E3 (L3 & dl3 & D3) Hr; bool_prop; [|lia].
      split; [by rewrite D3|]. unfold decode. rewrite E3. by apply H2.
    + mwps; intros w3 E3 (L3 & dl3 & D3) Hr; [|done]. split; [by rewrite D3|].
      unfold decode. rewrite E3. cbn. by rewrite E1.
Qed.
End Limits.

Lemma limits_exact_witness :
  decode chip_reg MT6370_BAT_VOREG (exec (mt6370_set_cv 4405000) mw0) = 4400000.
Proof. refine (proj1 (limits_exact chip_reg _ mw0 4405000 0) _). vm_compute. discriminate. Defined.

(** ** What the driver remembers is what the chip does *)

Ltac in_fields := apply field_cfg; apply (bool_decide_unpack _); vm_compute; exact I.

Section Remembered.
  Context {B : Type} `{!Mt6370Bus B} (reg : B -> Z -> Z) (healthy : B -> Prop).
  Context `{!RegLaws reg healthy}.
Abbreviation charging := (charging reg).
Abbreviation decode := (decode reg).

(** The charging current is one the chip has, and at least 0.5 A. *)
Definition is_ichg (v : Z) : Prop := exists k, 4 <= k < 64 /\ v = real_value MT6370_ICHG k.

(** On a working bus: MIVR is the remembered one, or the maximum while the
    power path is off; the charging current is the remembered one, or charging
    is off and the current to restore is noted. *)
Definition mivr_inv (w : mworld B) : Prop :=
  decode MT6370_MIVR w =
    programmed MT6370_MIVR (if mt_pp_en (md w) then mt_mivr (md w) else f_max MT6370_MIVR).

Definition chg_inv (w : mworld B) : Prop :=
  healthy (mb w) /\ mivr_inv w /\ is_ichg (mt_ichg (md w)) /\
  (decode MT6370_ICHG w = mt_ichg (md w) \/
   (charging w = false /\ mt_ichg_dis_chg (md w) = mt_ichg (md w))).

Lemma is_ichg_fixed v : is_ichg v -> 500000 <= v /\ programmed MT6370_ICHG v = v.
Proof.
  intros (k & Hk & ->).
  assert (forallb (fun k => let v := real_value MT6370_ICHG k in
    (500000 <=? v) && (programmed MT6370_ICHG v =? v)) (seqZ 4 60) = true) as H by (vm_compute; reflexivity).
  rewrite forallb_forall in H. specialize (H k). rewrite <- list_elem_of_In, elem_of_seqZ in H.
  specialize (H ltac:(lia)). cbv zeta in H. bool_prop. done.
Qed.

Lemma ichg_programmed v : is_ichg (programmed MT6370_ICHG (ichg_request v)).
Proof.
  exists (reg_code MT6370_ICHG (ichg_request v)). split; [|done].
  unfold reg_code. rewrite find_closest_closed by reflexivity. cbn [f_min f_max f_step f_num MT6370_ICHG].
  unfold ichg_request. repeat case_match; bool_prop; [lia..|].
  pose proof (Z.div_le_lower_bound (Z.max v 500000 - 100000) 100000 4). lia.
Qed.

Lemma chg_inv_stable : stable reg healthy chg_inv.
Proof.
  intros w w' Hv Hh (I1 & I2 & I3 & I4). unfold chg_inv, mivr_inv, Mt6370Spec.decode in *. unfold view in Hv.
  assert (reg (mb w') (f_reg MT6370_MIVR) = reg (mb w) (f_reg MT6370_MIVR)) as -> by congruence.
  assert (reg (mb w') (f_reg MT6370_ICHG) = reg (mb w) (f_reg MT6370_ICHG)) as -> by congruence.
  assert (charging w' = charging w) as -> by congruence.
  injection Hv as -> -> -> -> _ _ _. auto.
Qed.

(** The same with the remembered current, which enabling does not change. *)
Definition chg_inv_at (x : Z) (w : mworld B) : Prop := chg_inv w /\ mt_ichg (md w) = x.

Lemma chg_inv_at_stable x : stable reg healthy (chg_inv_at x).
Proof.
  intros w w' Hv Hh [H1 H2]. split; [by apply (chg_inv_stable w)|].
  destruct (view_ichg reg _ _ Hv) as (_ & -> & _). done.
Qed.

Lemma stable_with_lock {A} (P : mworld B -> Prop) l (m : M (mworld B) A) :
  stable reg healthy P -> preserves P m -> preserves P (with_lock l m).
Proof. intros HP Hm. solve_stable. Qed.

Lemma set_ichg_inv v (w : mworld B) :
  chg_inv w ->
  wp (__mt6370_set_ichg v) (fun _ w' => chg_inv_at (programmed MT6370_ICHG (ichg_request v)) w' /\
    decode MT6370_ICHG w' = mt_ichg (md w')) w.
Proof using RegLaws0.
  intros (I1 & I2 & I3 & I4). eapply wp_mono; [apply (set_ichg_exact reg healthy)|]. intros r w3 [_ H].
  destruct (H I1) as (H3 & C3 & M3 & B3). unfold but_ichg in B3.
  assert (decode MT6370_ICHG w3 = mt_ichg (md w3)) as Hd by (unfold Mt6370Spec.decode; by rewrite C3).
  split; [split|]; [|done..].
  split_and!; [done| | |].
  - unfold mivr_inv, Mt6370Spec.decode in *. replace (reg (mb w3) _) with (reg (mb w) (f_reg MT6370_MIVR)) by congruence.
    rewrite I2. by injection B3 as -> -> _ _ _.
  - rewrite M3. apply ichg_programmed.
  - by left.
Qed.

Lemma inv_set_ichg v : preserves chg_inv (mt6370_set_ichg v).
Proof using RegLaws0.
  do 2 (apply stable_with_lock; [apply chg_inv_stable|]). intros w Hw. by apply set_ichg_inv.
Qed.

(** Programming MIVR, with what is remembered already updated. *)
Lemma set_mivr_inv v (w : mworld B) :
  chg_inv w ->
  wp (__mt6370_set_mivr v) (fun r w' => 0 <= r /\ md w' = md w /\
    forall d, mt_ichg d = mt_ichg (md w) -> mt_ichg_dis_chg d = mt_ichg_dis_chg (md w) ->
      (if mt_pp_en d then mt_mivr d else f_max MT6370_MIVR) = v ->
      chg_inv (w' <| md := d |>)) w.
Proof using RegLaws0.
  intros (I1 & I2 & I3 & I4).
  eapply wp_mono; [apply (set_field_exact reg healthy); in_fields|].
  intros r w' (D & H & S & C). destruct (H I1) as [H' Hr]. apply Z.leb_le in Hr as Hr'.
  rewrite Hr' in C. split_and!; [done..|]. intros d E1 E2 E3. unfold chg_inv.
  split_and!; [done|..]; unfold mivr_inv, Mt6370Spec.decode, Mt6370Spec.charging in *; cbn [md mb upd_field].
  - rewrite C. by rewrite E3.
  - by rewrite E1.
  - rewrite (S (f_reg MT6370_ICHG)), (S MT6370_PMU_REG_CHGCTRL2)
      by (reflexivity || by rewrite list_elem_of_singleton).
    by rewrite E1, E2.
Qed.

Lemma inv_set_mivr v : preserves chg_inv (mt6370_set_mivr v).
Proof using RegLaws0.
  apply stable_with_lock; [apply chg_inv_stable|]. intros w Hw.
  match goal with |- chg_inv (exec ?m w) => apply (wp_exec m) end. do 3 mwp_step.
  destruct (mt_pp_en (md w)) eqn:Ep; cbn [negb].
  - eapply wp_mono; [by apply set_mivr_inv|]. intros r w' (Hr & D & H). mwps; bool_prop; [|lia].
    apply H; cbn; by rewrite ?D, ?Ep.
  - mwps; [|done]. destruct Hw as (I1 & I2 & I3 & I4). split_and!; [done| |done..].
    unfold mivr_inv in *. cbn. rewrite Ep. by rewrite Ep in I2.
Qed.

(** Only the driver's memory is replaced. *)
Lemma chg_inv_framed w1 w2 d :
  framed reg healthy w1 w2 -> chg_inv (w1 <| md := d |>) -> chg_inv (w2 <| md := d |>).
Proof.
  intros [V H]. apply chg_inv_stable; [|done]. unfold view, Mt6370Spec.charging in *.
  cbn [md mb upd_field]. congruence.
Qed.

Lemma inv_power_path en : preserves chg_inv (mt6370_enable_power_path en).
Proof using RegLaws0.
  apply stable_with_lock; [apply chg_inv_stable|]. intros w Hw.
  match goal with |- chg_inv (exec ?m w) => apply (wp_exec m) end. do 3 mwp_step; [by mwp_step|].
  mwp_step. apply (wp_framed reg healthy); [intros; solve_stable|]. intros [] w1 [V1 H1].
  apply (chg_inv_stable _ _ V1 H1) in Hw as Hw1. do 3 mwp_step.
  eapply wp_mono; [by apply set_mivr_inv|]. intros r w2 (Hr & D2 & H2).
  mwp_step. apply (wp_framed reg healthy); [intros; solve_stable|]. intros [] w3 F3.
  mwps. apply (chg_inv_framed w2); [done|].
  destruct F3 as [V3 _]. unfold view in V3. injection V3 as Em Ep Ei Ed _ _ _.
  apply H2; cbn; [congruence..|]. destruct en; congruence.
Qed.

(** Writing the enable bit. *)
Lemma assign_chg_en en x (w : mworld B) :
  healthy (mb w) -> mivr_inv w -> is_ichg x -> mt_ichg (md w) = x ->
  (decode MT6370_ICHG w = x \/ (en = false /\ mt_ichg_dis_chg (md w) = x)) ->
  wp (mt6370_pmu_reg_assign_bit en MT6370_PMU_REG_CHGCTRL2 MT6370_MASK_CHG_EN)
    (fun _ w' => chg_inv_at x w') w.
Proof using RegLaws0.
  intros I1 I2 I3 Hx I4.
  assert (mt6370_pmu_reg_assign_bit (B := B) en MT6370_PMU_REG_CHGCTRL2 MT6370_MASK_CHG_EN =
    mt6370_pmu_reg_update_bits MT6370_PMU_REG_CHGCTRL2 MT6370_MASK_CHG_EN (b2z en)) as -> by (by destruct en).
  apply wp_run.
  destruct (update_spec reg healthy MT6370_PMU_REG_CHGCTRL2 MT6370_MASK_CHG_EN (b2z en) w)
    as (D & S & H & C). destruct (H I1) as [H' Hr]. apply Z.leb_le in Hr; [|reflexivity]. rewrite Hr in C.
  unfold chg_inv_at, chg_inv, mivr_inv, Mt6370Spec.decode, Mt6370Spec.charging in *. rewrite D, Hx.
  rewrite (S (f_reg MT6370_ICHG)), (S (f_reg MT6370_MIVR))
    by (reflexivity || by rewrite list_elem_of_singleton).
  rewrite (C eq_refl), update_bits_spec by done.
  split_and!; [done..| |done]. destruct I4 as [|[-> ?]]; [by left|by right].
Qed.

Lemma inv_enable en x : preserves (chg_inv_at x) (mt6370_enable_charging en).
Proof using RegLaws0.
  apply stable_with_lock; [apply chg_inv_at_stable|]. intros w [Hw Hx]. subst x.
  match goal with |- chg_inv_at _ (exec ?m w) => apply (wp_exec m) end. do 5 mwp_step.
  destruct Hw as (I1 & I2 & I3 & I4). destruct (is_ichg_fixed _ I3) as [Hmin Hfix].
  destruct en; cbn [negb].
  - mwp_step; bool_prop.
    + mwp_step. eapply wp_mono; [by apply set_ichg_inv|]. intros _ w1 [[H1 H2] H3].
      unfold ichg_request in H2. rewrite Z.max_l, Hfix in H2 by lia.
      destruct H1 as (J1 & J2 & J3 & _). apply assign_chg_en; [done..|congruence|]. left; congruence.
    + mwp_step. apply assign_chg_en; [done..|]. left. destruct I4 as [|[_ ?]]; congruence.
  - mwp_step.
    + mwp_step. apply assign_chg_en; [done..|].
      destruct I4 as [|[_ ?]]; [by left|by right].
    + do 3 mwp_step. apply wp_run.
      match goal with |- wp _ _ (exec (mt6370_pmu_reg_update_bits ?a ?m ?v) ?w1) =>
        destruct (update_spec reg healthy a m v w1) as (D & S & Hh & _);
        set (w2 := exec (mt6370_pmu_reg_update_bits a m v) w1) in *; clearbody w2 end.
      destruct (Hh I1) as [Hh2 Hr]. specialize (Hr eq_refl). mwp_step; [bool_prop; lia|].
      apply (wp_framed reg healthy); [intros; solve_stable|]. intros [] w3 [V3 H3].
      unfold view in V3. injection V3 as Em Ep Ei Ed _ Er _.
      rewrite D in Em, Ep, Ei, Ed. cbn in Em, Ep, Ei, Ed.
      apply assign_chg_en; [auto| |done|congruence|].
      * unfold mivr_inv, Mt6370Spec.decode in *. cbn [f_reg MT6370_MIVR] in *. rewrite Er, Em, Ep, S;
          [done|reflexivity|]. by rewrite list_elem_of_singleton.
      * right. split; [done|congruence].
Qed.

Lemma inv_enable_charging en : preserves chg_inv (mt6370_enable_charging en).
Proof using RegLaws0. intros w Hw. by apply (inv_enable en (mt_ichg (md w))). Qed.

#[local] Hint Resolve inv_set_ichg inv_set_mivr inv_power_path inv_enable_charging : kern.
Ltac solve_inv := pose proof chg_inv_stable; solve_stable.

Lemma inv_pump en : preserves chg_inv (mt6370_enable_pump_express en).
Proof using RegLaws0. unfold mt6370_enable_pump_express. solve_inv. Qed.
Lemma inv_chgdet_end r : preserves chg_inv (chgdet_end r).
Proof using RegLaws0. unfold chgdet_end. solve_inv. Qed.
#[local] Hint Resolve inv_pump inv_chgdet_end : kern.
Lemma inv_chg_type_det en : preserves chg_inv (mt6370_enable_chg_type_det en).
Proof using RegLaws0.
  unfold mt6370_enable_chg_type_det, mt6370_chgdet_handler, __mt6370_chgdet_handler, chgdet_out,
    mt6370_enable_chgdet_flow. cbv zeta. solve_inv.
Qed.

Lemma inv_run c : preserves chg_inv (mt_run c).
Proof using RegLaws0.
  destruct (touches c) eqn:Hc; [|by apply (out_run reg healthy _ chg_inv_stable)].
  destruct c; try discriminate; cbn [mt_run]; apply preserves_ignore; try apply inv_chg_type_det;
    unfold mt6370_plug_in, mt6370_plug_out, mt6370_enable_wdt, mt6370_set_pep_current_pattern,
      mt6370_set_pep20_current_pattern, mt6370_enable_cable_drop_comp; solve_inv.
Qed.

(** On a working bus, after any sequence of calls of the operation table,
    the limits the driver remembers are those of the chip: MIVR is the one last
    set, or the maximum while the power path is off; whenever the chip charges,
    its charging current is the remembered one, although stopping lowers it to
    0.5 A first; and neither stopping nor starting forgets it. *)
Theorem remembered_limits (w : mworld B) (calls : list mt_call) (en : bool) :
  chg_inv w ->
  let w' := exec (for_each calls mt_run) w in
  chg_inv w' /\
  (charging w' = true -> decode MT6370_ICHG w' = mt_ichg (md w')) /\
  mt_ichg (md (exec (mt6370_enable_charging en) w')) = mt_ichg (md w').
Proof using RegLaws0.
  intros Hw. cbv zeta.
  assert (chg_inv (exec (for_each calls mt_run) w)) as Hw'
    by (apply preserves_for_each; [apply inv_run|done]).
  split; [done|]. split.
  - destruct Hw' as (_ & _ & _ & [?|[-> _]]); done.
  - apply inv_enable. done.
Qed.
End Remembered.

Lemma remembered_limits_witness :
  let w' := exec (for_each [CEnable false; CSetIchg 3050000; CPowerPath false; CEnable true] mt_run) mw0 in
  charging chip_reg w' = true /\ decode chip_reg MT6370_ICHG w' = mt_ichg (md w') /\
  mt_ichg (md w') = 3000000.
Proof.
  cbv zeta. split; [vm_compute; reflexivity|]. split; [|vm_compute; reflexivity].
  refine (proj1 (proj2 (remembered_limits chip_reg (fun c => c_fail c < 0) mw0
    [CEnable false; CSetIchg 3050000; CPowerPath false; CEnable true] true _)) _);
    [|vm_compute; reflexivity].
  split_and!; [vm_compute; reflexivity..|exists 19; split; [lia|reflexivity]|left; vm_compute; reflexivity].
Defined.

(** ** The bound of the AICL loop

    Any number of iterations that covers the distance gives the same run, so
    the one [mt6370_post_aicl_measure] takes stands for the unbounded loop of
    the source. *)

Section Fuel.
  Context {B : Type} `{!Mt6370Bus B}.

Lemma post_aicl_fuel n m cur stop step (w : mworld B) :
  0 < step -> 0 <= cur -> cur + step < 2 ^ 31 -> stop + 2 * step < 2 ^ 31 ->
  stop <= cur + Z.of_nat n * step -> stop <= cur + Z.of_nat m * step ->
  post_aicl_loop n cur stop step w = post_aicl_loop m cur stop step w.
Proof.
  intros Hs Hc Hw Hst. revert m cur w Hc Hw.
  assert (forall m cur w, 0 <= cur -> cur + step < 2 ^ 31 -> stop <= cur ->
    post_aicl_loop m cur stop step w = (inr cur, w)) as Hout.
  { intros [|m] cur w Hc Hw Hle; [done|]. cbn [post_aicl_loop]. rewrite u32_id by (unfold is_u32; lia).
    by rewrite (proj2 (Z.ltb_ge _ _)). }
  induction n as [|n IH]; intros [|m] cur w Hc Hw Hn Hm; [done|by rewrite !Hout by lia..|].
  destruct (Z.lt_ge_cases cur stop); [|by rewrite !Hout by lia].
  cbn [post_aicl_loop]. rewrite u32_id by (unfold is_u32; lia). rewrite (proj2 (Z.ltb_lt _ _)) by done.
  rewrite (s32_id (cur + step)) by (unfold is_s32; lia).
  unfold bind. destruct (__mt6370_set_aicr _ w) as [r w1]. case_match; [done|].
  destruct (bus (mt_sleep 1) w1) as [[] w2]. destruct (mt6370_pmu_reg_read _ w2) as [r2 w3].
  case_match; [done|]. case_match; [done|]. apply IH; lia.
Qed.
End Fuel.
