(* ===== verification/Mt6370Hidden.v ===== *)
(** * The MT6370 charger driver: hidden mode

    Some registers of the chip can be written only after a pass code; the
    driver counts the users of this mode.  On a working bus every operation
    leaves the count as it was. *)

From S2P Require Import Prelude ChargerClass AlgClass ChargerTypes Platform BasicCharger Mt6370Enc.
From S2P Require Import RtRegmap Mt6370Map Mt6370 Mt6370Ops Mt6370Chip Mt6370Locks.
From S2P Require Import Mt6370Regs Mt6370Spec.
#[local] Open Scope Z_scope.

Section Hidden.
  Context {B : Type} `{!Mt6370Bus B} (reg : B -> Z -> Z) (healthy : B -> Prop).
  Context `{!RegLaws reg healthy}.

(** A working bus and a counter of its C type. *)
Definition good (w : mworld B) : Prop := healthy (mb w) /\ is_u32 (mt_hidden_mode_cnt (md w)).

(** [m] enters hidden mode [k] times more often than it leaves it. *)
Definition cnt_step {A} (k : Z) (m : M (mworld B) A) : Prop :=
  forall w, good w ->
    good (exec m w) /\ mt_hidden_mode_cnt (md (exec m w)) = u32 (mt_hidden_mode_cnt (md w) + k).

Lemma u32_add x k j : u32 (u32 (x + k) + j) = u32 (x + (k + j)).
Proof. unfold u32, wrapu. rewrite Zplus_mod_idemp_l. f_equal. lia. Qed.

Lemma cnt_bind {A C} k j (m : M (mworld B) A) (f : A -> M (mworld B) C) :
  cnt_step k m -> (forall a, cnt_step j (f a)) -> cnt_step (k + j) (bind m f).
Proof.
  intros Hm Hf w Hw. rewrite exec_bind. destruct (Hm w Hw) as [H1 H2].
  destruct (Hf (eval m w) _ H1) as [H3 H4]. split; [done|]. by rewrite H4, H2, u32_add.
Qed.
Lemma cnt_bind0 {A C} j (m : M (mworld B) A) (f : A -> M (mworld B) C) :
  cnt_step 0 m -> (forall a, cnt_step j (f a)) -> cnt_step j (bind m f).
Proof. intros Hm Hf. by apply (cnt_bind 0 j). Qed.

Lemma cnt_keeps {A} (m : M (mworld B) A) :
  preserves (fun w => healthy (mb w)) m -> keeps (fun w => mt_hidden_mode_cnt (md w)) m -> cnt_step 0 m.
Proof.
  intros Hh Hk w [H1 H2]. unfold good. rewrite Hk, Z.add_0_r.
  split; [split; [by apply Hh|done]|]. symmetry. by apply u32_id.
Qed.
Lemma cnt_ret {A} (a : A) : cnt_step 0 (ret a).
Proof. apply cnt_keeps; [apply preserves_ret|apply keeps_ret]. Qed.
Lemma cnt_ignore {A} k (m : M (mworld B) A) : cnt_step k m -> cnt_step k (ignore m).
Proof. intros H w. apply H. Qed.
Lemma cnt_when c (m : M (mworld B) unit) : cnt_step 0 m -> cnt_step 0 (when c m).
Proof. destruct c; [done|]. intros _. apply cnt_ret. Qed.
Lemma cnt_for_each {X} (l : list X) (body : X -> M (mworld B) unit) :
  (forall x, cnt_step 0 (body x)) -> cnt_step 0 (for_each l body).
Proof. intros H. induction l; simpl; [apply cnt_ret|by apply cnt_bind0]. Qed.
Lemma cnt_modd f : (forall d, mt_hidden_mode_cnt (f d) = mt_hidden_mode_cnt d) -> cnt_step 0 (modd f).
Proof. intros Hf. apply cnt_keeps; [by intros w|]. intros w. apply Hf. Qed.
Lemma cnt_with_lock {A} k l (m : M (mworld B) A) : cnt_step k m -> cnt_step k (with_lock l m).
Proof.
  intros Hm. unfold with_lock. apply cnt_bind0; [apply cnt_modd; intros; by case_match|]. intros [].
  replace k with (k + 0) by lia. apply cnt_bind; [done|]. intros a.
  apply cnt_bind0; [by apply cnt_modd|intros; apply cnt_ret].
Qed.

(** Accesses of the chip. *)
Lemma cnt_bus {A} (m : M B A) : (forall b, healthy b -> healthy (exec m b)) -> cnt_step 0 (bus m).
Proof.
  intros Hm. apply cnt_keeps; [|apply keeps_bus]. intros w Hw. rewrite mb_exec_bus. auto.
Qed.
Lemma cnt_neutral {A} (m : M B A) : neutral reg healthy m -> cnt_step 0 (bus m).
Proof. intros Hm. apply cnt_bus. intros b. apply Hm. Qed.
Lemma cnt_read a : cnt_step 0 (mt6370_pmu_reg_read a).
Proof using RegLaws0.
  apply cnt_bind0; [|intros; apply cnt_ret]. apply cnt_bus. intros b Hb.
  pose proof (law_read a b) as H. unfold exec. destruct (rt_regmap_reg_read a b). by apply H.
Qed.
Lemma cnt_write a v : cnt_step 0 (mt6370_pmu_reg_write a v).
Proof using RegLaws0.
  apply cnt_bus. intros b. apply law_write.
Qed.
Lemma cnt_update a m v : cnt_step 0 (mt6370_pmu_reg_update_bits a m v).
Proof using RegLaws0.
  apply cnt_bus. intros b Hb. pose proof (law_update a (u8 m) (u8 v) b (u8_range m)) as H. unfold exec.
  destruct (rt_regmap_update_bits a (u8 m) (u8 v) b). by apply H.
Qed.
Lemma cnt_block_read a n : cnt_step 0 (mt6370_pmu_reg_block_read a n).
Proof using RegLaws0.
  apply cnt_neutral, law_block_read.
Qed.
Lemma cnt_smbus_write a v : cnt_step 0 (bus (i2c_smbus_write a v)).
Proof using RegLaws0. apply cnt_bus. intros b. apply law_smbus_write. Qed.
Lemma cnt_wait : cnt_step 0 (bus wait_event_interruptible_timeout).
Proof using RegLaws0. apply cnt_bus. intros b. apply law_wait. Qed.

(** Entering on a working bus succeeds and counts one up, leaving one down. *)
Lemma enter_hidden (w : mworld B) :
  good w -> wp (mt6370_enable_hidden_mode true) (fun r w' => 0 <= r /\ good w' /\
    mt_hidden_mode_cnt (md w') = u32 (mt_hidden_mode_cnt (md w) + 1)) w.
Proof using RegLaws0.
  intros [H1 H2]. unfold mt6370_enable_hidden_mode. apply wp_with_lock. intros w1 E1 (L & dl & D1).
  rewrite <- E1 in H1. assert (mt_hidden_mode_cnt (md w1) = mt_hidden_mode_cnt (md w)) as Hc by (by rewrite D1).
  do 3 mwp_step.
  apply (wp_mono _ (fun r w2 => 0 <= r /\ healthy (mb w2) /\ md w2 = md w1)).
  - mwp_step; [|by mwp_step]. unfold mt6370_pmu_reg_block_write. mwp_step.
    match goal with H : rt_regmap_block_write ?a ?l ?b = _ |- _ =>
      pose proof (law_block_write a l b eq_refl) as Hl; rewrite H in Hl; destruct Hl as [_ Hl] end.
    destruct (Hl H1). done.
  - intros r w2 (Hr & H2' & D2). mwp_step; [bool_prop; lia|]. mwps. intros w3 E3 (L3 & dl3 & D3).
    unfold good. rewrite E3, D3. cbn. rewrite D2, Hc. split_and!; [done..|apply u32_range|done].
Qed.

Lemma leave_hidden : cnt_step (-1) (mt6370_enable_hidden_mode false).
Proof using RegLaws0.
  intros w [H1 H2].
  enough (wp (mt6370_enable_hidden_mode false) (fun _ w' => good w' /\
    mt_hidden_mode_cnt (md w') = u32 (mt_hidden_mode_cnt (md w) + -1)) w) as H by exact H.
  unfold mt6370_enable_hidden_mode. apply wp_with_lock. intros w1 E1 (L & dl & D1).
  rewrite <- E1 in H1. assert (mt_hidden_mode_cnt (md w1) = mt_hidden_mode_cnt (md w)) as Hc by (by rewrite D1).
  do 3 mwp_step.
  apply (wp_mono _ (fun r w2 => healthy (mb w2) /\ md w2 = md w1)).
  - mwp_step; [|by mwp_step]. unfold mt6370_pmu_reg_write. mwp_step.
    match goal with H : rt_regmap_reg_write ?a ?v ?b = _ |- _ =>
      pose proof (law_write a v b) as Hl; unfold exec in Hl; rewrite H in Hl; destruct Hl as [_ Hl] end.
    by specialize (Hl H1).
  - intros r w2 (H2' & D2). mwps. intros w3 E3 (L3 & dl3 & D3).
    unfold good. rewrite E3, D3. cbn. rewrite D2, Hc. split; [|done]. split; [done|apply u32_range].
Qed.

(** A body between entering and leaving. *)
Lemma cnt_enter {A} (f : Z -> M (mworld B) A) :
  (forall r, 0 <= r -> cnt_step (-1) (f r)) -> cnt_step 0 (bind (mt6370_enable_hidden_mode true) f).
Proof using RegLaws0.
  intros Hf w Hw. rewrite exec_bind. destruct (enter_hidden w Hw) as (Hr & H1 & H2).
  destruct (Hf _ Hr _ H1) as [H3 H4]. split; [done|]. by rewrite H4, H2, u32_add.
Qed.
Lemma cnt_leave {A} (f : Z -> M (mworld B) A) :
  (forall r, cnt_step 0 (f r)) -> cnt_step (-1) (bind (mt6370_enable_hidden_mode false) f).
Proof using RegLaws0. intros Hf. apply (cnt_bind (-1) 0); [apply leave_hidden|done]. Qed.
End Hidden.

(** Follow the structure of the code; a call needs a lemma in [kern]. *)
Ltac solve_cnt :=
  repeat match goal with
    | |- forall _, _ => intro
    | |- cnt_step _ 0 (bind (mt6370_enable_hidden_mode true) _) => eapply cnt_enter; [eassumption|]
    | |- cnt_step _ (-1) (bind (mt6370_enable_hidden_mode false) _) => eapply cnt_leave; [eassumption|]
    | |- cnt_step _ _ (bind _ _) => apply cnt_bind0
    | |- cnt_step _ _ (ret _) => apply cnt_ret
    | |- cnt_step _ _ (getd _) => apply cnt_keeps; [apply preserves_gets|apply keeps_gets]
    | |- cnt_step _ _ (gets _) => apply cnt_keeps; [apply preserves_gets|apply keeps_gets]
    | |- cnt_step _ _ (ignore _) => apply cnt_ignore
    | |- cnt_step _ _ (when _ _) => apply cnt_when
    | |- cnt_step _ _ (for_each _ _) => apply cnt_for_each
    | |- cnt_step _ _ (with_lock _ _) => apply cnt_with_lock
    | |- cnt_step _ _ (mutex_lock _) => apply cnt_modd; intros; by case_match
    | |- cnt_step _ _ (mutex_unlock _) => apply cnt_modd; done
    | |- cnt_step _ _ (modd _) => apply cnt_modd; done
    | |- cnt_step _ _ (mt6370_pmu_reg_assign_bit ?b _ _) => unfold mt6370_pmu_reg_assign_bit
    | |- cnt_step _ _ (mt6370_pmu_reg_update_bits _ _ _) => eapply cnt_update; eassumption
    | |- cnt_step _ _ (mt6370_set_field _ _) => eapply cnt_update; eassumption
    | |- cnt_step _ _ (mt6370_pmu_reg_set_bit _ _) => eapply cnt_update; eassumption
    | |- cnt_step _ _ (mt6370_pmu_reg_clr_bit _ _) => eapply cnt_update; eassumption
    | |- cnt_step _ _ (mt6370_pmu_reg_write _ _) => eapply cnt_write; eassumption
    | |- cnt_step _ _ (mt6370_pmu_reg_read _) => eapply cnt_read; eassumption
    | |- cnt_step _ _ (mt6370_pmu_reg_block_read _ _) => eapply cnt_block_read; eassumption
    | |- cnt_step _ _ (bus (i2c_smbus_write _ _)) => eapply cnt_smbus_write; eassumption
    | |- cnt_step _ _ (bus wait_event_interruptible_timeout) => eapply cnt_wait; eassumption
    | |- cnt_step _ _ (bus _) => eapply cnt_neutral; solve [eauto with kern nocore]
    | |- cnt_step _ _ (if ?b then _ else _) => destruct b
    | |- cnt_step _ _ (match ?x with _ => _ end) => destruct x
    | |- cnt_step _ _ _ => solve [eauto with kern nocore]
    end.

Section HiddenCode.
  Context {B : Type} `{!Mt6370Bus B} (reg : B -> Z -> Z) (healthy : B -> Prop).
  Context `{!RegLaws reg healthy}.
Abbreviation cnt := (cnt_step healthy).

Lemma cnt_test_bit a n : cnt 0 (mt6370_pmu_reg_test_bit a n).
Proof using RegLaws0. unfold mt6370_pmu_reg_test_bit. solve_cnt. Qed.
Lemma cnt_get_field f old : cnt 0 (mt6370_get_field f old).
Proof using RegLaws0. unfold mt6370_get_field. solve_cnt. Qed.
#[local] Hint Resolve cnt_test_bit cnt_get_field : kern.
Lemma cnt_adc_wait n : cnt 0 (adc_wait n).
Proof using RegLaws0. induction n; simpl; solve_cnt; auto. Qed.
#[local] Hint Resolve cnt_adc_wait : kern.
Lemma cnt_get_adc s : cnt 0 (mt6370_get_adc s).
Proof using RegLaws0.
  unfold mt6370_get_adc, adc_locked, adc_convert, adc_timeout, mt6370_get_aicr, mt6370_get_ichg, __mt6370_get_ichg.
  solve_cnt.
Qed.
Lemma cnt_set_ichg v : cnt 0 (__mt6370_set_ichg v).
Proof using RegLaws0.
  unfold __mt6370_set_ichg, mt6370_ichg_workaround, __mt6370_get_ichg, __mt6370_set_ieoc. solve_cnt.
Qed.
Lemma cnt_post_loop n c st sp : cnt 0 (post_aicl_loop n c st sp).
Proof using RegLaws0. revert c. induction n; intros c; simpl; unfold __mt6370_set_aicr; solve_cnt; auto. Qed.
#[local] Hint Resolve cnt_get_adc cnt_set_ichg cnt_post_loop : kern.
Lemma cnt_run_aicl v : cnt 0 (mt6370_run_aicl v).
Proof using RegLaws0.
  unfold mt6370_run_aicl, __mt6370_run_aicl, __mt6370_get_mivr, mt6370_set_aicl_vth,
    mt6370_chg_irq_clr_flag, aicl_measure, mt6370_get_aicr, mt6370_post_aicl_measure, aicl_finish,
    aicl_unlock. solve_cnt.
Qed.
Lemma cnt_enable_irq s en : cnt 0 (mt6370_enable_irq s en).
Proof using RegLaws0. unfold mt6370_enable_irq. solve_cnt. Qed.
Lemma cnt_usbsw v : cnt 0 (mt6370_set_usbsw_state v).
Proof using RegLaws0. unfold mt6370_set_usbsw_state. solve_cnt. Qed.
Lemma cnt_usb_rdy : cnt 0 is_usb_rdy.
Proof using RegLaws0. unfold is_usb_rdy. solve_cnt. Qed.
#[local] Hint Resolve cnt_enable_irq cnt_usbsw cnt_usb_rdy : kern.
Lemma cnt_cdp_wait n : cnt 0 (cdp_wait n).
Proof using RegLaws0. induction n; simpl; solve_cnt; auto. Qed.
Lemma cnt_dischg_clear n r : cnt 0 (dischg_clear n r).
Proof using RegLaws0. revert r. induction n; intros r; simpl; solve_cnt; auto. Qed.
Lemma cnt_pumpx_wait n : cnt 0 (pumpx_wait n).
Proof using RegLaws0. induction n; simpl; solve_cnt; auto. Qed.
Lemma cnt_dump_regs l : cnt 0 (dump_regs l).
Proof using RegLaws0. induction l; simpl; solve_cnt; auto. Qed.
Lemma cnt_tchg_retry n r t : cnt 0 (tchg_retry n r t).
Proof using RegLaws0. revert r t. induction n; intros r t; simpl; solve_cnt; auto. Qed.
Lemma cnt_power_path en : cnt 0 (mt6370_enable_power_path en).
Proof using RegLaws0. unfold mt6370_enable_power_path, __mt6370_set_mivr. solve_cnt. Qed.
Lemma cnt_enable_charging en : cnt 0 (mt6370_enable_charging en).
Proof using RegLaws0. unfold mt6370_enable_charging. solve_cnt. Qed.
Lemma cnt_set_aicr v : cnt 0 (mt6370_set_aicr v).
Proof using RegLaws0. unfold mt6370_set_aicr, __mt6370_set_aicr. solve_cnt. Qed.
#[local] Hint Resolve cnt_run_aicl cnt_cdp_wait cnt_dischg_clear cnt_pumpx_wait cnt_dump_regs
  cnt_tchg_retry cnt_power_path cnt_enable_charging cnt_set_aicr : kern.
Lemma cnt_pump en : cnt 0 (mt6370_enable_pump_express en).
Proof using RegLaws0. unfold mt6370_enable_pump_express, mt6370_set_ichg. solve_cnt. Qed.
#[local] Hint Resolve cnt_pump : kern.
Lemma cnt_chg_type_det en : cnt 0 (mt6370_enable_chg_type_det en).
Proof using RegLaws0.
  unfold mt6370_enable_chg_type_det, mt6370_chgdet_handler, __mt6370_chgdet_handler, chgdet_out,
    chgdet_end, mt6370_enable_chgdet_flow, __mt6370_enable_chgdet_flow, mt6370_bc12_workaround,
    mt6370_toggle_chgdet_flow. cbv zeta. solve_cnt.
Qed.
#[local] Hint Resolve cnt_chg_type_det : kern.

(** An update on a working bus does not fail. *)
Lemma cnt_update_ok {A} k a m v (f : Z -> M (mworld B) A) :
  mapped a = true -> (forall r, 0 <= r -> cnt k (f r)) -> cnt k (bind (mt6370_pmu_reg_update_bits a m v) f).
Proof using RegLaws0.
  intros Ha Hf w Hw. rewrite exec_bind. destruct (cnt_update reg healthy a m v w Hw) as [H1 H2].
  destruct (update_spec reg healthy a m v w) as (_ & _ & H & _). destruct (H (proj1 Hw)) as [_ Hr].
  destruct (Hf _ (Hr Ha) _ H1) as [H3 H4]. split; [done|]. by rewrite H4, H2, u32_add.
Qed.

Lemma cnt_discharge en : cnt 0 (mt6370_enable_discharge en).
Proof using RegLaws0.
  unfold mt6370_enable_discharge. eapply cnt_enter; [eassumption|]. intros r Hr.
  rewrite (proj2 (Z.ltb_ge _ _)) by done. unfold mt6370_pmu_reg_assign_bit, mt6370_pmu_reg_set_bit,
    mt6370_pmu_reg_clr_bit. destruct en; (apply cnt_update_ok; [reflexivity|]); intros r' Hr';
    rewrite (proj2 (Z.ltb_ge _ _)) by done; cbn [negb]; solve_cnt.
Qed.
#[local] Hint Resolve cnt_discharge : kern.

Lemma cnt_run c : cnt 0 (mt_run c).
Proof using RegLaws0.
  destruct c; cbn [mt_run];
    unfold mt6370_plug_in, mt6370_plug_out, mt6370_enable_wdt, mt6370_set_ichg, mt6370_set_mivr,
      __mt6370_set_mivr, mt6370_set_pep_current_pattern, mt6370_set_pep20_current_pattern,
      mt6370_enable_cable_drop_comp, mt6370_dump_register, mt6370_is_enabled_charging,
      mt6370_is_charging_enable, mt6370_get_ichg, __mt6370_get_ichg, mt6370_get_aicr, mt6370_get_cv,
      mt6370_set_cv, __mt6370_set_cv, mt6370_kick_wdt, mt6370_get_mivr, __mt6370_get_mivr,
      mt6370_get_mivr_state, mt6370_get_indpm_state, mt6370_is_charging_done, mt6370_get_zcv,
      mt6370_set_ieoc, __mt6370_set_ieoc, mt6370_enable_te, __mt6370_enable_te,
      mt6370_reset_eoc_state, mt6370_safety_check, mt6370_get_min_ichg, mt6370_get_min_aicr,
      mt6370_enable_safety_timer, __mt6370_enable_safety_timer, mt6370_is_safety_timer_enable,
      mt6370_is_power_path_enable, mt6370_enable_otg, otg_by_power_switch, otg_switch, otg_failed,
      mt6370_enable_wdt, mt6370_set_otg_current_limit, mt6370_set_pep20_reset,
      mt6370_select_input_current_limit, mt6370_get_tchg, mt6370_get_ibus, mt6370_get_vbus,
      mt6370_do_event, mt6370_enable_dcap, mt6370_enable_ir_comp, mt6370_set_ircmp_resistor,
      mt6370_set_ircmp_vclamp, mt6370_get_ieoc, mt6370_get_charging_status;
    solve_cnt.
Qed.

(** The counter on any bus. *)
Lemma hidden_mode_any en (w : mworld B) :
  wp (mt6370_enable_hidden_mode en) (fun r w' =>
    if en then (r < 0 -> mt_hidden_mode_cnt (md w') = mt_hidden_mode_cnt (md w)) /\
               (mt_hidden_mode_cnt (md w) <> 0 -> mb w' = mb w)
    else mt_hidden_mode_cnt (md w') = u32 (mt_hidden_mode_cnt (md w) - 1)) w.
Proof.
  unfold mt6370_enable_hidden_mode, mt6370_pmu_reg_block_write, mt6370_pmu_reg_write.
  apply wp_with_lock. intros w1 E1 (L & dl & D1).
  assert (mt_hidden_mode_cnt (md w1) = mt_hidden_mode_cnt (md w)) as Hc by (by rewrite D1).
  destruct en; mwps; intros w3 E3 (L3 & dl3 & D3); rewrite ?E3, D3; cbn; rewrite ?Hc; bool_prop;
    try (split; intros); try congruence; try lia.
Qed.

(** On a working bus any sequence of calls of the operation table leaves
    the count of hidden-mode users as it found it; but one failed attempt to
    enter hidden mode, which callers answer by leaving it, takes the count from
    zero to its largest value, after which entering never again writes the pass
    code. *)
Theorem hidden_mode_count (w : mworld B) (calls : list mt_call) :
  let cnt w := mt_hidden_mode_cnt (md w) in
  (healthy (mb w) -> is_u32 (cnt w) -> cnt (exec (for_each calls mt_run) w) = cnt w) /\
  (cnt w = 0 -> eval (mt6370_enable_hidden_mode true) w < 0 ->
   let w' := exec (mt6370_enable_hidden_mode true ;;; mt6370_enable_hidden_mode false) w in
   cnt w' = 2 ^ 32 - 1 /\ mb (exec (mt6370_enable_hidden_mode true) w') = mb w').
Proof using RegLaws0.
  cbv zeta. split.
  - intros Hh Hu. destruct (cnt_for_each healthy calls mt_run cnt_run w (conj Hh Hu)) as [_ ->].
    rewrite Z.add_0_r. by apply u32_id.
  - intros H0 Hr. rewrite exec_bind.
    destruct (hidden_mode_any true w) as [H1 _]. specialize (H1 Hr).
    set (w1 := exec (mt6370_enable_hidden_mode true) w) in *.
    pose proof (hidden_mode_any false w1) as H2. unfold wp in H2. cbv iota in H2.
    set (w2 := exec (mt6370_enable_hidden_mode false) w1) in *.
    rewrite H1, H0 in H2. split; [done|]. apply (hidden_mode_any true w2). by rewrite H2.
Qed.
End HiddenCode.

Lemma hidden_mode_count_witness :
  mt_hidden_mode_cnt (md (exec (for_each [CDischarge true; CTchg; CResetEoc] mt_run) mw0)) =
  mt_hidden_mode_cnt (md mw0).
Proof.
  destruct (hidden_mode_count chip_reg (fun c => c_fail c < 0) mw0 [CDischarge true; CTchg; CResetEoc])
    as [H _].
  cbv beta in H. apply H; [reflexivity|split; [discriminate|reflexivity]].
Defined.
