(* ===== verification/Mt6370Rt.v ===== *)
(** * The MT6370 on its register map

    The accesses the charger driver uses, [Mt6370Bus], as mt6370_pmu_reg.c makes
    them: through rt-regmap with the table of [Mt6370Map], over an I2C client.
    What the driver was verified against, [RegLaws], is proved here from laws of
    the client alone: with its copies, its write-once registers and its error
    paths the register map is a faithful bus. *)

From S2P Require Import Prelude RtRegmap RtMem RtRegmapSpec RtCache Mt6370Map.
From S2P Require Import ChargerClass AlgClass ChargerTypes Platform BasicCharger Mt6370Enc.
From S2P Require Import Mt6370 Mt6370Ops Mt6370Chip Mt6370Locks Mt6370Regs.
#[local] Open Scope Z_scope.

(** ** The configuration of the device stays *)

(** A device of the map [rms] with copies that writes through. *)
Record device (rms : list rt_register) (d : rt_regmap_device) : Prop := {
  de_map : rm_map d = rms;
  de_group : rd_group d = default_group;
  de_ops : rd_ops d = OpsCache;
  de_blk : blk_mode d = 0;
  de_format : rt_format d = RT_LITTLE_ENDIAN;
  de_bytes : Forall is_u8 (alloc_data d)
}.

Section Conf.
  Context {C : Type} `{!RtClient C} (rms : list rt_register) (Hmap : map_ok rms).
  Abbreviation pd := (preserves (W := rtworld C) (fun w => device rms (rd w))).

Lemma pd_getr {A B} (f : rt_regmap_device -> A) (k : A -> M (rtworld C) B) :
  (forall d, device rms d -> pd (k (f d))) -> pd (bind (getr f) k).
Proof. intros H w Hw. rewrite exec_bind. by apply H. Qed.
Lemma pd_client {A} (m : M C A) : pd (client m).
Proof. intros w Hw. unfold client, exec. by destruct (m (cl w)). Qed.
Lemma pd_modr f : (forall d, device rms d -> device rms (f d)) -> pd (modr f).
Proof. intros H w. apply H. Qed.

Lemma yields_read_chip a n :
  yields (fun w : rtworld C => device rms (rd w)) (fun r => Forall is_u8 (snd r)) (read_chip a n).
Proof.
  intros w Hw. unfold read_chip. rewrite exec_bind, exec_ret, eval_bind. split; [by apply pd_client|apply map_u8].
Qed.
Lemma pd_read_chip {A} a n (k : Z * list Z -> M (rtworld C) A) :
  (forall r, Forall is_u8 (snd r) -> pd (k r)) -> pd (bind (read_chip a n) k).
Proof. apply preserves_post, yields_read_chip. Qed.

(** Follow the structure of the code. *)
Ltac solve_pd :=
  repeat match goal with
    | |- forall _, _ => intro
    | |- preserves _ (let x := _ in _) => cbv zeta
    | |- preserves _ (bind (getr _) _) => apply pd_getr
    | |- preserves _ (bind (is_cached _) _) => apply pd_getr
    | |- preserves _ (bind (read_chip _ _) _) => apply pd_read_chip
    | |- preserves _ (bind _ _) => apply preserves_bind
    | |- preserves _ (ret _) => apply preserves_ret
    | |- preserves _ (client _) => apply pd_client
    | |- preserves _ (modr _) => apply pd_modr; intros ? []; by constructor
    | |- preserves _ (set_cached _) => apply pd_modr; intros ? []; by constructor
    | |- preserves _ (set_flag _ _) => apply pd_modr; intros ? []; by constructor
    | |- preserves _ (down _) => apply pd_modr; intros ? []; by constructor
    | |- preserves _ (up _) => apply pd_modr; intros ? []; by constructor
    | |- preserves _ (fault_unless _) => apply preserves_when
    | |- preserves _ (ignore _) => apply preserves_ignore
    | |- preserves _ (when _ _) => apply preserves_when
    | |- preserves _ (with_sem _) => unfold with_sem
    | |- preserves _ (if ?b then _ else _) => destruct b
    | |- preserves _ _ => solve [auto with kern nocore]
    end.

Lemma pd_find {A} a (k : reg_index_offset -> M (rtworld C) A) :
  pd (k (find_rio rms a)) -> pd (bind (find_register_index a) k).
Proof using Hmap.
  intros H w Hw. rewrite exec_bind. pose proof Hw as []. unfold exec at 2, eval.
  rewrite (find_register_map rms) by done. by apply H.
Qed.
Lemma pd_reg_at idx : pd (reg_at idx).
Proof. unfold reg_at. solve_pd. Qed.
Lemma pd_cache_get i o n : pd (cache_get i o n).
Proof. unfold cache_get. solve_pd. Qed.
Lemma pd_cache_put i o l : Forall is_u8 l -> pd (cache_put i o l).
Proof.
  intros Hl. unfold cache_put. solve_pd. apply pd_modr. intros d' []. constructor; try done. by apply overlay_u8.
Qed.
Lemma pd_chip_write a l : pd (rt_chip_block_write a l).
Proof. unfold rt_chip_block_write. solve_pd. Qed.
#[local] Hint Resolve pd_reg_at pd_cache_get pd_chip_write : kern.

Lemma pd_wbit {A} rm i (k : Z -> M (rtworld C) A) :
  Forall is_u8 (rm_mask rm) -> (forall m, is_u8 m -> pd (k m)) -> pd (bind (wbit rm i) k).
Proof.
  intros Hm H w Hw. rewrite exec_bind. apply H.
  - unfold wbit. rewrite eval_bind, eval_ret. destruct (rm_mask rm !! i) eqn:E; [|done].
    rewrite Forall_lookup in Hm. by apply (Hm i).
  - assert (pd (wbit rm i)) as Hp by (unfold wbit; solve_pd). by apply Hp.
Qed.

Lemma pd_store rm idx i l : Forall is_u8 (rm_mask rm) -> pd (store_loop rm idx i l).
Proof.
  intros Hm. revert i. induction l as [|v l IH]; intros i; cbn [store_loop]; [apply preserves_ret|].
  apply preserves_bind; [|solve_pd; auto]. destruct (is_volatile rm); [apply preserves_ret|].
  apply pd_wbit; [done|]. intros m Hm8. solve_pd. apply pd_cache_put. auto with kern.
Qed.

Lemma pd_block_map blk rm off l idx : Forall is_u8 (rm_mask rm) -> pd (rt_block_map blk rm off l idx).
Proof.
  intros Hm. unfold rt_block_map, rt_block_write, rt_block_write_blk_all, rt_block_write_blk_cache,
    rt_block_write_blk_chip. repeat case_match; solve_pd; by apply pd_store.
Qed.

Lemma pd_write_loop l idx off data : Forall reg_ok l -> pd (cache_write_loop l idx off data).
Proof.
  intros Hl. revert idx data. induction Hl as [|rm l (_ & _ & _ & Hm) _ IH]; intros idx data; cbn [cache_write_loop];
    solve_pd; auto. by apply pd_block_map.
Qed.

Lemma yields_read_loop l idx n c buf :
  Forall is_u8 buf ->
  yields (fun w : rtworld C => device rms (rd w)) (fun r => Forall is_u8 (snd r)) (cache_read_loop l idx n c buf).
Proof.
  revert idx c buf. induction l as [|rm l IH]; intros idx c buf Hb; cbn [cache_read_loop].
  { apply yields_if; intros _; [by apply yields_ret|]. apply yields_bind; [solve_pd|intros; by apply yields_ret]. }
  apply yields_if; intros _; [by apply yields_ret|]. apply yields_bind; [apply preserves_gets|intros cd].
  apply yields_if; intros _; [|by apply IH]. apply yields_bind; [solve_pd|intros _].
  apply (yields_post _ (fun r => Forall is_u8 (snd r))); [apply yields_read_chip|intros r Hr].
  apply yields_if; intros _; [by apply yields_ret|]. apply yields_bind; [|intros _; apply IH; auto with kern].
  apply preserves_when, preserves_bind; [apply pd_cache_put; auto with kern|solve_pd].
Qed.

Lemma pd_block_write a l : pd (regmap_block_write a l).
Proof using Hmap.
  apply pd_getr. intros d []. rewrite de_ops0. unfold rt_cache_block_write.
  apply preserves_if; [apply preserves_ret|]. apply pd_find. solve_pd.
  apply pd_write_loop. subst rms. apply Forall_drop.
  match goal with H : device _ ?d |- Forall _ (rm_map ?d) => destruct H as [-> _ _ _ _ _] end. apply Hmap.
Qed.

Lemma yields_cache_get i o n :
  yields (fun w : rtworld C => device rms (rd w)) (fun l => Forall is_u8 l /\ (length l <= n)%nat) (cache_get i o n).
Proof.
  intros w Hw. split; [by apply pd_cache_get|]. pose proof Hw as []. unfold cache_get. rewrite !eval_bind, eval_ret, length_take.
  unfold getr. rewrite eval_gets. split; [auto with kern|lia].
Qed.

(** The first register of a block that is read. *)
Definition read_first (rm : rt_register) (idx : nat) (off : Z) (c : bool) (data : list Z)
    : M (rtworld C) (Z * (Z * list Z)) :=
  if is_volatile rm || negb c then
    fault_unless (rm_size rm <=? 32) ;;;
    let! r := read_chip (rm_addr rm) (rm_size rm) in
    if fst r <? 0 then ret (- EIO, (0, data))
    else
      let tmp := overlay (replicate 32 0) 0 (snd r) in
      let data := overlay data 0 (take (100 `min` Z.to_nat (rm_size rm - off)) (drop (Z.to_nat off) tmp)) in
      when (negb c) (cache_put idx 0 (take (Z.to_nat (rm_size rm)) tmp) ;;; set_cached idx) ;;;
      ret (0, (100 `min` Z.max 0 (rm_size rm - off), data))
  else ret (0, (u32 (rm_size rm - off), data)).

Lemma yields_read_first rm idx off c data :
  Forall is_u8 data ->
  yields (fun w : rtworld C => device rms (rd w)) (fun r => Forall is_u8 (snd (snd r))) (read_first rm idx off c data).
Proof.
  intros Hdata. unfold read_first.
  apply yields_if; intros _; [|by apply yields_ret]. apply yields_bind; [solve_pd|intros _].
  apply (yields_post _ (fun r => Forall is_u8 (snd r))); [apply yields_read_chip|intros r Hr].
  apply yields_if; intros _; [by apply yields_ret|].
  assert (Forall is_u8 (overlay (replicate 32 0) 0 (snd r))) by auto with kern.
  apply yields_bind; [|intros _; apply yields_ret; cbn [snd]; auto 10 with kern].
  apply preserves_when, preserves_bind; [apply pd_cache_put; auto with kern|solve_pd].
Qed.

Lemma yields_find {A} (Q : A -> Prop) a k :
  yields (fun w : rtworld C => device rms (rd w)) Q (k (find_rio rms a)) ->
  yields (fun w : rtworld C => device rms (rd w)) Q (bind (find_register_index a) k).
Proof using Hmap. apply yields_pure. intros w []. by apply find_register_map. Qed.

Lemma yields_block_read a n :
  yields (fun w : rtworld C => device rms (rd w)) (fun r => Forall is_u8 (snd r) /\ (length (snd r) <= Z.to_nat n)%nat)
    (regmap_block_read a n).
Proof using Hmap.
  intros w Hw. unfold regmap_block_read. rewrite exec_bind, eval_bind. unfold getr. rewrite eval_gets, exec_gets.
  rewrite (de_ops _ _ Hw). revert w Hw. change (yields (fun w : rtworld C => device rms (rd w))
    (fun r => Forall is_u8 (snd r) /\ (length (snd r) <= Z.to_nat n)%nat) (rt_cache_block_read (C := C) a n)).
  assert (Forall is_u8 [] /\ (@length Z [] <= Z.to_nat n)%nat) as H0 by (split; [constructor|cbn; lia]).
  unfold rt_cache_block_read. apply yields_if; intros _; [by apply yields_ret|]. apply yields_find.
  apply yields_if; intros _; [by apply yields_ret|]. apply yields_bind; [apply pd_reg_at|intros rm].
  apply yields_bind; [apply preserves_gets|intros rms']. apply yields_if; intros _; [by apply yields_ret|].
  apply yields_bind; [solve_pd|intros _]. eapply yields_post; [apply yields_cache_get|intros data [Hdata _]].
  apply yields_bind; [apply preserves_gets|intros c]. eapply yields_post; [by apply yields_read_first|].
  intros r Hr. apply yields_if; intros _; [by apply yields_ret|].
  eapply yields_post; [by apply yields_read_loop|intros r' Hr'].
  apply yields_if; intros _; [by apply yields_ret|]. apply yields_ret. cbn [snd]. rewrite length_take. auto with kern lia.
Qed.

Lemma pd_block_read a n : pd (regmap_block_read a n).
Proof using Hmap. intros w Hw. by apply yields_block_read. Qed.

Lemma pd_with_sem {A} (m : M (rtworld C) A) : pd m -> pd (with_sem m).
Proof. intros H. solve_pd. Qed.

Lemma pd_reg_write a v : pd (RtRegmap.rt_regmap_reg_write a v).
Proof using Hmap.
  apply pd_find. solve_pd. destruct (write_bytes _ _ _); solve_pd. apply pd_block_write.
Qed.

Lemma pd_update a m v : pd (RtRegmap.rt_regmap_update_bits a m v).
Proof using Hmap. apply pd_find. solve_pd; [apply pd_block_read|apply pd_block_write]. Qed.

Lemma pd_reg_read a v : pd (RtRegmap.rt_regmap_reg_read a v).
Proof using Hmap. apply pd_find. solve_pd. apply pd_block_read. Qed.
End Conf.

(** ** The client of the MT6370 *)

(** What the driver uses apart from the register map. *)
Class Mt6370Env (C : Type) : Type := {
  env_smbus_read : Z -> M C (Z * Z);
  env_smbus_write : Z -> Z -> M C Z;
  env_sleep : Z -> M C unit;
  env_wait : M C (Z * Z);
  env_irq_res : string -> M C (option Z);
  env_irq_on : Z -> M C unit;
  env_irq_off : Z -> M C unit;
  env_changed : M C unit;
  env_notify : Z -> M C unit;
  env_pinctrl : string -> M C unit;
  env_phy_get : M C bool;
  env_phy_mode : Z -> M C Z;
  env_phy_put : M C unit;
  env_usb_node : M C (option bool)
}.

(** Accesses of one byte on the bus: a failed one leaves the chip alone, a healthy
    bus does not fail. *)
Class I2cLaws {C} `{!RtClient C, !Mt6370Env C} (reg : C -> Z -> Z) (healthy : C -> Prop) : Prop := {
  i2c_u8 : forall c a, is_u8 (reg c a);
  i2c_read : forall a c, let '(x, c') := read_device a 1 c in
    same_cfg reg [] c c' /\ (healthy c -> healthy c' /\ 0 <= fst x) /\
    (0 <= fst x -> cfg a = true -> snd x = [reg c a]);
  i2c_write : forall a l c, (length l <= 1)%nat -> let '(r, c') := write_device a l c in
    same_cfg reg [a] c c' /\ (healthy c -> healthy c' /\ 0 <= r) /\
    (forall v, l = [v] -> is_u8 v -> cfg a = true -> reg c' a = if 0 <=? r then v else reg c a);
  i2c_smbus_r : forall a, neutral reg healthy (env_smbus_read a);
  i2c_smbus_w : forall a v c, let c' := exec (env_smbus_write a v) c in
    same_cfg reg [a] c c' /\ (healthy c -> healthy c');
  i2c_wait : forall c, let c' := exec env_wait c in same_cfg reg [0x13] c c' /\ (healthy c -> healthy c');
  i2c_sleep : forall ms, neutral reg healthy (env_sleep ms);
  i2c_irq_res : forall s, neutral reg healthy (env_irq_res s);
  i2c_irq_on : forall i, neutral reg healthy (env_irq_on i);
  i2c_irq_off : forall i, neutral reg healthy (env_irq_off i);
  i2c_changed : neutral reg healthy env_changed;
  i2c_notify : forall e, neutral reg healthy (env_notify e);
  i2c_pinctrl : forall s, neutral reg healthy (env_pinctrl s);
  i2c_phy_get : neutral reg healthy env_phy_get;
  i2c_phy_mode : forall m, neutral reg healthy (env_phy_mode m);
  i2c_phy_put : neutral reg healthy env_phy_put;
  i2c_usb_node : neutral reg healthy env_usb_node
}.

(** ** Accesses of one register *)

(** Only registers of [L] may have changed, health stays. *)
Definition frame {C} (reg : C -> Z -> Z) (healthy : C -> Prop) (L : list Z) (c c' : C) : Prop :=
  same_cfg reg L c c' /\ (healthy c -> healthy c').

Lemma frame_trans {C} (reg : C -> Z -> Z) healthy L c1 c2 c3 :
  frame reg healthy L c1 c2 -> frame reg healthy L c2 c3 -> frame reg healthy L c1 c3.
Proof. intros [H1 H2] [H3 H4]. split; [|auto]. intros x Hx Hn. by rewrite H3, H1. Qed.

Lemma frame_mono {C} (reg : C -> Z -> Z) healthy L L' c1 c2 :
  frame reg healthy L c1 c2 -> L ⊆ L' -> frame reg healthy L' c1 c2.
Proof. intros [H1 H2] Hs. split; [|done]. intros x Hx Hn. apply H1; [done|]. intros Hx'. by apply Hn, Hs. Qed.

Section Single.
  Context {C : Type} `{!RtClient C, !Mt6370Env C} (reg : C -> Z -> Z) (healthy : C -> Prop) `{!I2cLaws reg healthy}.
  Context (rms : list rt_register) (Hmap : map_ok rms) (Hone : Forall (fun rm => rm_size rm = 1) rms).
  Context (Hfirst : option_map rm_addr (head rms) = Some 0).
  Abbreviation W := (rtworld C).

(** [m] changes the registers of [L] at most and, on a healthy bus, gives a
    result in [P]. *)
Definition does {A} (L : list Z) (P : A -> Prop) (m : M W A) : Prop :=
  forall w, device rms (rd w) -> device rms (rd (exec m w)) /\ frame reg healthy L (cl w) (cl (exec m w)) /\
    (healthy (cl w) -> P (eval m w)).

Lemma does_bind {A D} L (P : A -> Prop) (Q : D -> Prop) m k :
  does L P m -> (forall a, does L (fun r => P a -> Q r) (k a)) -> does L Q (bind m k).
Proof.
  intros Hm Hk w Hw. rewrite exec_bind, eval_bind. destruct (Hm w Hw) as (D1 & F1 & P1).
  destruct (Hk (eval m w) (exec m w) D1) as (D2 & F2 & P2). split; [done|].
  split; [by eapply frame_trans|]. intros Hh. apply P2; [by apply F1|by apply P1].
Qed.

Lemma does_seq {A D} L (Q : D -> Prop) (m : M W A) k :
  does L (fun _ => True) m -> (forall a, does L Q (k a)) -> does L Q (bind m k).
Proof.
  intros Hm Hk. apply (does_bind _ _ _ _ _ Hm). intros a w Hw. destruct (Hk a w Hw) as (H1 & H2 & H3). auto.
Qed.

Lemma does_post {A D} L (U P : A -> Prop) (Q : D -> Prop) m k :
  yields (fun w => device rms (rd w)) U m -> does L P m ->
  (forall a, U a -> does L (fun r => P a -> Q r) (k a)) -> does L Q (bind m k).
Proof.
  intros HU Hm Hk w Hw. rewrite exec_bind, eval_bind. destruct (Hm w Hw) as (D1 & F1 & P1).
  destruct (Hk (eval m w) (proj2 (HU w Hw)) (exec m w) D1) as (D2 & F2 & P2). split; [done|].
  split; [by eapply frame_trans|]. intros Hh. apply P2; [by apply F1|by apply P1].
Qed.

Lemma does_ret {A} L (P : A -> Prop) a : P a -> does L P (ret a).
Proof. by intros H w Hw. Qed.

Lemma does_weak {A} L L' (P Q : A -> Prop) m :
  does L P m -> L ⊆ L' -> (forall a, P a -> Q a) -> does L' Q m.
Proof.
  intros H Hs Hp w Hw. destruct (H w Hw) as (H1 & H2 & H3). split; [done|]. split; [by eapply frame_mono|auto].
Qed.

(** Code that does not use the client. *)
Lemma does_quiet {A} L (P : A -> Prop) (m : M W A) :
  keeps (fun w => cl w) m -> preserves (fun w => device rms (rd w)) m -> (forall w, P (eval m w)) -> does L P m.
Proof.
  intros H1 H2 H3 w Hw. split; [by apply H2|]. specialize (H1 w). cbn in H1. rewrite H1. by split.
Qed.

Lemma does_modr L (P : unit -> Prop) f :
  (forall d, device rms d -> device rms (f d)) -> P tt -> does L P (modr f).
Proof. intros H Hp. apply does_quiet; [done|by apply pd_modr|done]. Qed.

Lemma does_when L (P : unit -> Prop) b m : does L P m -> P tt -> does L P (when b m).
Proof. intros H1 H2. destruct b; [done|by apply does_ret]. Qed.

Lemma does_getr {A D} L (Q : D -> Prop) (f : rt_regmap_device -> A) k :
  (forall d, device rms d -> does L Q (k (f d))) -> does L Q (bind (getr f) k).
Proof. intros H w Hw. rewrite exec_bind, eval_bind. by apply H. Qed.

Lemma does_pure {A D} L (Q : D -> Prop) a (m : M W A) k :
  (forall w, device rms (rd w) -> m w = (a, w)) -> does L Q (k a) -> does L Q (bind m k).
Proof.
  intros E H w Hw. specialize (E w Hw). rewrite exec_bind, eval_bind.
  assert (eval m w = a /\ exec m w = w) as [-> ->] by (unfold eval, exec; by rewrite E). by apply H.
Qed.

Lemma does_find {D} L (Q : D -> Prop) a k :
  does L Q (k (find_rio rms a)) -> does L Q (bind (find_register_index a) k).
Proof using Hmap. apply does_pure. intros w []. by apply find_register_map. Qed.

Lemma reg_at_run i rm (w : W) :
  device rms (rd w) -> rms !! i = Some rm -> reg_at (Z.of_nat i) w = (rm, w).
Proof.
  intros [] Hi. apply lookup_lt_Some in Hi as Hl. unfold reg_at, bind, getr, gets, id. rewrite de_map0. unfold fault_unless.
  destruct (Z.leb_spec 0 (Z.of_nat i)), (Z.ltb_spec (Z.of_nat i) (Z.of_nat (length rms))); try lia.
  cbn. by rewrite Nat2Z.id, Hi.
Qed.

Lemma does_reg_at {D} L (Q : D -> Prop) i rm k :
  rms !! i = Some rm -> does L Q (k rm) -> does L Q (bind (reg_at (Z.of_nat i)) k).
Proof. intros Hi. apply does_pure. intros w Hw. by apply reg_at_run. Qed.

Lemma does_read_chip a : does [] (fun r => 0 <= fst r) (read_chip a 1).
Proof using I2cLaws0.
  intros w Hw. unfold read_chip, bind, client, exec, eval. pose proof (i2c_read a (cl w)) as H.
  destruct (read_device a 1 (cl w)) as [x c']. destruct H as (H1 & H2 & _). cbn.
  split; [done|]. split; [split; [done|]|]; intros Hh; apply H2, Hh.
Qed.

Lemma does_read_bind {D} (Q : D -> Prop) a k :
  (forall r, Forall is_u8 (snd r) -> does [] (fun x => 0 <= fst r -> Q x) (k r)) -> does [] Q (bind (read_chip a 1) k).
Proof using I2cLaws0.
  eapply does_post; [apply yields_read_chip|apply does_read_chip].
Qed.

Lemma does_chip_write a l : (length l <= 1)%nat -> does [a] (fun r => 0 <= r) (rt_chip_block_write a l).
Proof using I2cLaws0.
  intros Hl. apply does_getr. intros d []. rewrite de_blk0. change ((0 =? RT_IO_BLK_ALL) || (0 =? RT_IO_BLK_CHIP)) with false.
  intros w Hw. unfold client, exec, eval. pose proof (i2c_write a l (cl w) Hl) as H.
  destruct (write_device a l (cl w)) as [r c']. destruct H as (H1 & H2 & _). cbn.
  split; [done|]. split; [split; [done|]|]; intros Hh; apply H2, Hh.
Qed.

(** Code on the copies. *)
Ltac solve_kl :=
  repeat match goal with
    | |- forall _, _ => intro
    | |- keeps _ (bind _ _) => apply keeps_bind
    | |- keeps _ (ret _) => apply keeps_ret
    | |- keeps _ (fault_unless _) => apply keeps_when
    | |- keeps _ (modr _) => done
    | |- keeps _ (getr _) => done
    | |- keeps _ (if ?b then _ else _) => destruct b
    end.

Lemma kl_cache_get i o n : keeps (fun w : W => cl w) (cache_get i o n).
Proof. unfold cache_get. solve_kl. Qed.
Lemma kl_cache_put i o l : keeps (fun w : W => cl w) (cache_put i o l).
Proof. unfold cache_put. solve_kl. Qed.
Lemma kl_store rm idx i l : keeps (fun w : W => cl w) (store_loop rm idx i l).
Proof. revert i. induction l; intros i; simpl; unfold wbit, cache_get, cache_put; solve_kl; auto. Qed.

Lemma does_true {A} L (m : M W A) :
  keeps (fun w => cl w) m -> preserves (fun w => device rms (rd w)) m -> does L (fun _ => True) m.
Proof. intros. by apply does_quiet. Qed.

Lemma does_cache_get {D} L (Q : D -> Prop) i o n k :
  (forall src, (length src <= n)%nat -> Forall is_u8 src -> does L Q (k src)) -> does L Q (bind (cache_get i o n) k).
Proof.
  intros H w Hw. rewrite exec_bind, eval_bind. pose proof (kl_cache_get i o n w) as E. cbn in E. rewrite <- E.
  pose proof Hw as []. apply H; [| |by apply pd_cache_get]; unfold cache_get; rewrite !eval_bind, eval_ret.
  - rewrite length_take. lia.
  - unfold getr. rewrite eval_gets. auto with kern.
Qed.

(** A register of one byte is written. *)
Lemma does_write_one rm idx l :
  reg_ok rm -> (length l <= 1)%nat ->
  does [rm_addr rm] (fun r => 0 <= r)
    (if is_volatile rm then rt_chip_block_write (u32 (rm_addr rm + 0)) l
     else let! m := getr blk_mode in rt_block_map (Z.shiftr m 3) rm 0 l idx).
Proof using I2cLaws0.
  intros ((Ha1 & Ha2) & Hs & _ & Hm) Hl.
  assert (u32 (rm_addr rm + 0) = rm_addr rm) as Ea by (rewrite Z.add_0_r; apply u32_id; unfold is_u32; lia).
  destruct (is_volatile rm); [rewrite Ea; by apply does_chip_write|].
  apply does_getr. intros d []. rewrite de_blk0. change (rt_block_map (Z.shiftr 0 3)) with rt_block_write.
  unfold rt_block_write. apply does_seq; [apply does_true; [done|apply pd_modr; intros ? []; by constructor]|intros _].
  apply does_getr. intros d' _. apply does_seq; [apply does_true; [apply kl_store|by apply pd_store]|intros n].
  apply does_seq; [apply does_true; [by apply keeps_when|apply preserves_when, pd_modr; intros ? []; by constructor]|intros _].
  cbv zeta. apply (does_bind _ (fun r => 0 <= r)).
  - case_match; [by apply does_ret|]. apply does_cache_get. intros src Hsrc _. rewrite Ea.
    apply does_chip_write. lia.
  - intros r. apply does_seq; [apply does_true; [done|apply pd_modr; intros ? []; by constructor]|intros _].
    by apply does_ret.
Qed.

Lemma chunk_one rm (data : list Z) :
  rm_size rm = 1 -> data <> [] -> Z.to_nat (chunk_size rm 0 (Z.of_nat (length data))) = 1%nat.
Proof.
  intros Hs Hd. unfold chunk_size. rewrite Hs. change (u32 (1 - 0)) with 1. change (s32 1) with 1.
  destruct data; [done|]. cbn [length]. destruct (Z.leb_spec (Z.of_nat (S (length data))) 1); lia.
Qed.

(** A block that ends within the table. *)
Lemma does_write_loop l idx data :
  Forall reg_ok l -> Forall (fun rm => rm_size rm = 1) l -> data <> [] -> (length data <= length l)%nat ->
  does (map rm_addr (take (length data) l)) (fun r => 0 <= r) (cache_write_loop l idx 0 data).
Proof using I2cLaws0.
  intros H1 H2. revert idx data H1. induction H2 as [|rm l Hs _ IH]; intros idx data H1 Hd Hl; [destruct data; cbn in Hl; [done|lia]|].
  apply Forall_cons in H1 as [Hrm H1]. destruct data as [|v data]; [done|]. cbn [cache_write_loop].
  rewrite chunk_one by done. cbn [length take drop map]. change (drop 0 data) with data.
  apply (does_bind _ (fun r => 0 <= r)); [|intros r].
  { eapply does_weak; [apply does_write_one; [done|by rewrite take_0]|by intros y ->%list_elem_of_singleton; left|done]. }
  case_match eqn:E; bool_prop; [apply does_ret; cbn; unfold EIO in *; lia|].
  apply does_seq; [apply does_true; [by apply keeps_when|]|intros _].
  { apply preserves_when, pd_modr. intros ? []; by constructor. }
  case_bool_decide; [by apply does_ret|].
  eapply does_weak; [apply IH; [done..|]| |auto]; [cbn in Hl; lia|by intros y Hy; right].
Qed.

Lemma does_read_loop l idx n c buf :
  Forall (fun rm => rm_size rm = 1) l -> Forall is_u8 buf ->
  does [] (fun r => 0 <= fst r) (cache_read_loop l idx n c buf).
Proof using I2cLaws0.
  intros H. revert idx c buf. induction H as [|rm l Hs _ IH]; intros idx c buf Hb; cbn [cache_read_loop].
  { case_match; [by apply does_ret|]. apply does_seq; [|intros; by apply does_ret].
    apply does_true; [by apply keeps_when|]. apply preserves_when, pd_modr. intros ? []; by constructor. }
  case_match; [by apply does_ret|]. apply does_getr. intros d _. case_match; [|by apply IH].
  apply does_seq; [|intros _].
  { apply does_true; [by apply keeps_when|]. apply preserves_when, pd_modr. intros ? []; by constructor. }
  rewrite Hs. apply does_read_bind. intros r Hr. case_match; bool_prop; [apply does_ret; cbn; unfold EIO in *; lia|].
  cbv zeta. apply does_seq; [|intros _].
  - apply does_true; [apply keeps_when, keeps_bind; [apply kl_cache_put|done]|].
    apply preserves_when, preserves_bind; [apply pd_cache_put; auto with kern|intros _].
    apply pd_modr. intros ? []; by constructor.
  - eapply does_weak; [apply IH; auto with kern|done|auto].
Qed.

(** Reading from the start of a register; one byte can always be read. *)
Lemma does_cache_read a n i rm :
  find_rio rms a = mk_rio (Z.of_nat i) 0 -> rms !! i = Some rm ->
  does [] (fun r => n = 1 -> 0 <= fst r) (rt_cache_block_read a n).
Proof using I2cLaws0 Hmap Hone.
  intros Ef Hi. assert (rm_size rm = 1) as Hs by (rewrite Forall_lookup in Hone; by eapply Hone).
  unfold rt_cache_block_read. case_match eqn:En; bool_prop; [apply does_ret; lia|].
  apply does_find. rewrite Ef. cbn [ri_index ri_offset]. destruct (Z.ltb_spec (Z.of_nat i) 0); [lia|].
  apply (does_reg_at _ _ i rm); [done|]. apply does_getr. intros d [-> _ _ _ _ _]. rewrite Nat2Z.id.
  rewrite total_size_base by apply Forall_drop, Hmap. case_match; bool_prop; [apply does_ret; lia|].
  apply does_seq; [|intros _].
  { apply does_true; [by apply keeps_when|]. apply preserves_when, pd_modr. intros ? []; by constructor. }
  apply does_cache_get. intros data _ Hdata. apply does_getr. intros d' _.
  eapply (does_post [] _ (fun r => 0 <= fst r)); [by apply yields_read_first| |intros r Hr].
  - unfold read_first. rewrite Hs. case_match; [|by apply does_ret]. apply does_seq; [|intros _].
    { apply does_true; [by apply keeps_when|]. apply preserves_when, pd_modr. intros ? []; by constructor. }
    apply does_read_bind. intros r Hr. case_match; bool_prop; [apply does_ret; cbn; unfold EIO in *; lia|].
    apply does_seq; [|intros _; by apply does_ret].
    apply does_true; [apply keeps_when, keeps_bind; [apply kl_cache_put|done]|].
    apply preserves_when, preserves_bind; [apply pd_cache_put; auto 10 with kern|intros _].
    apply pd_modr. intros ? []; by constructor.
  - cbn beta. case_match; bool_prop; [apply does_ret; cbn; unfold EIO in *; lia|].
    eapply does_bind; [apply does_read_loop; [by apply Forall_drop|done]|intros r'].
    case_match; bool_prop; [apply does_ret; cbn; unfold EIO in *; lia|by apply does_ret].
Qed.

(** ** Registers that are not copied *)

Lemma wp_cl {A} (m : M W A) Q (w : W) :
  keeps (fun w => cl w) m -> (forall a w', cl w' = cl w -> Q a w') -> wp m Q w.
Proof. intros H HQ. apply HQ, H. Qed.

Lemma addr_found i rm :
  rms !! i = Some rm -> u32 (rm_addr rm) = rm_addr rm /\ find_rio rms (rm_addr rm) = mk_rio (Z.of_nat i) 0 /\ rm_size rm = 1.
Proof using Hmap Hone.
  intros Hi. destruct (map_reg _ Hmap _ _ Hi) as [((Ha1 & Ha2) & Hs & _) _]. split; [apply u32_id; unfold is_u32; lia|].
  split; [by apply find_rio_reg|]. rewrite Forall_lookup in Hone. by eapply Hone.
Qed.

(** One is read from the chip every time. *)
Lemma vol_block_read i rm (w : W) :
  device rms (rd w) -> rms !! i = Some rm -> is_volatile rm = true ->
  wp (regmap_block_read (rm_addr rm) 1) (fun r w' =>
    let '(x, c') := read_device (rm_addr rm) 1 (cl w) in
    cl w' = c' /\ (fst r < 0 <-> fst x < 0) /\ (0 <= fst x -> forall v, snd x = [v] -> is_u8 v -> snd r = [v])) w.
Proof using Hmap Hone.
  intros Hw Hi Hv. destruct (addr_found i rm Hi) as (_ & Ef & Hs). apply wp_bind, wp_gets.
  pose proof Hw as []. rewrite de_ops0. unfold rt_cache_block_read. change (100 <? 1) with false. cbv iota.
  apply wp_bind. eapply wp_eq; [by apply (find_register_map rms)|]. rewrite Ef. cbn [ri_index ri_offset].
  destruct (Z.ltb_spec (Z.of_nat i) 0); [lia|]. apply wp_bind. eapply wp_eq; [by apply reg_at_run|].
  apply wp_bind, wp_gets. rewrite Hs, de_map0, Nat2Z.id, total_size_base by apply Forall_drop, Hmap.
  destruct (Z.ltb_spec (1 - 0 + Z.of_nat (base (drop (S i) rms) (length (drop (S i) rms)))) 1); [lia|].
  apply wp_bind, wp_cl; [by apply keeps_when|]. intros [] w1 E1. apply wp_bind, wp_cl; [apply kl_cache_get|].
  intros data w2 E2. apply wp_bind, wp_gets. rewrite Hv. cbn [orb].
  apply wp_bind, wp_bind, wp_cl; [by apply keeps_when|]. intros [] w3 E3.
  rewrite <- E1, <- E2, <- E3. clear E1 E2 E3. unfold read_chip. apply wp_bind, wp_bind. 
  unfold wp at 1, client, eval, exec. destruct (read_device (rm_addr rm) 1 (cl w3)) as [x c']. cbn [fst snd].
  apply wp_ret. cbn [fst snd]. destruct (Z.ltb_spec (fst x) 0) as [Hx|Hx].
  { apply wp_ret. cbn. apply wp_ret. cbn. split; [done|]. split; [unfold EIO; lia|lia]. }
  cbv zeta. apply wp_bind, wp_cl; [apply keeps_when, keeps_bind; [apply kl_cache_put|done]|].
  intros [] w4 E4. cbn in E4. apply wp_ret. cbn [fst snd]. change (0 <? 0) with false. cbv iota.
  change (100 `min` Z.max 0 (1 - 0)) with 1. apply wp_bind.
  assert (forall l idx buf w, cache_read_loop l idx 1 1 buf w = ((0, buf), w)) as El by (by intros []).
  eapply wp_eq; [apply El|]. cbn [fst snd]. change (0 <? 0) with false. apply wp_ret. cbn [fst snd].
  split; [done|]. split; [lia|]. intros _ v -> Hv8. cbn. by rewrite u8_id.
Qed.

(** One is written to the chip every time. *)
Lemma vol_block_write i rm v (w : W) :
  device rms (rd w) -> rms !! i = Some rm -> is_volatile rm = true ->
  wp (regmap_block_write (rm_addr rm) [v]) (fun r w' =>
    let '(x, c') := write_device (rm_addr rm) [v] (cl w) in cl w' = c' /\ (r < 0 <-> x < 0)) w.
Proof using Hmap Hone.
  intros Hw Hi Hv. destruct (addr_found i rm Hi) as (Eu & Ef & Hs). apply wp_bind, wp_gets.
  pose proof Hw as []. rewrite de_ops0. unfold rt_cache_block_write. change (64 <? Z.of_nat (length [v])) with false. cbv iota.
  apply wp_bind. eapply wp_eq; [by apply (find_register_map rms)|]. rewrite Ef. cbn [ri_index ri_offset].
  destruct (Z.ltb_spec (Z.of_nat i) 0); [lia|]. apply wp_bind.
  assert (ignore (reg_at (Z.of_nat i)) w = (tt, w)) as Er by (unfold ignore, bind; by rewrite (reg_at_run i rm)).
  eapply wp_eq; [exact Er|].
  apply wp_bind, wp_gets. rewrite de_map0, Nat2Z.id, (drop_S _ _ _ Hi). apply wp_bind.
  rewrite bool_decide_false by done. cbn [cache_write_loop]. rewrite chunk_one by done.
  cbn [take drop]. rewrite Hv, Z.add_0_r, Eu. cbn [negb when]. apply wp_bind. unfold rt_chip_block_write.
  apply wp_bind, wp_gets. rewrite de_blk0. change ((0 =? RT_IO_BLK_ALL) || (0 =? RT_IO_BLK_CHIP)) with false. cbv iota.
  unfold wp at 1, client, eval, exec. change (firstn 0 []) with (@nil Z). destruct (write_device (rm_addr rm) [v] (cl w)) as [x c']. cbn [fst snd].
  destruct (Z.ltb_spec x 0) as [Hx|Hx].
  - apply wp_ret. cbn. apply wp_ret. split; [done|]. unfold EIO. lia.
  - apply wp_bind, wp_ret. rewrite bool_decide_true by done. apply wp_ret. cbn. apply wp_bind, wp_gets, wp_ret.
    split; [done|]. rewrite andb_false_r. lia.
Qed.

(** ** The functions of the register map *)

(** The log line of a block of up to 42 bytes. *)
Lemma io_log_from n j : j + 3 * Z.of_nat n <= 126 -> io_log n j = true.
Proof.
  revert j. induction n as [|n IH]; intros j H; [done|]. cbn [io_log].
  destruct (Z.leb_spec (128 - j - 1) 3); [lia|]. apply IH. lia.
Qed.
Lemma io_log_short (l : list Z) : (length l <= 42)%nat -> io_log (length l) 0 = true.
Proof. intros H. apply io_log_from. lia. Qed.

Lemma does_with_sem {A} L (P : A -> Prop) m : does L P m -> does L P (with_sem m).
Proof.
  intros H. apply does_seq; [apply does_true; [done|apply pd_modr; intros ? []; by constructor]|intros _].
  eapply does_bind; [exact H|intros r].
  apply does_seq; [apply does_true; [done|apply pd_modr; intros ? []; by constructor]|intros _]. by apply does_ret.
Qed.

Definition found (a : Z) : Prop := exists i rm, rms !! i = Some rm /\ rm_addr rm = a.

(** A search gives no register, or the one with this address. *)
Lemma find_one a : 0 <= a -> (find_rio rms a = mk_rio (-1) (-1) /\ ~ found a) \/ found a.
Proof using Hmap Hone Hfirst.
  intros Ha. unfold find_rio. destruct (list_find (reg_covers a) rms) as [[i rm]|] eqn:E.
  - apply list_find_Some in E as (Hi & Hc & _). unfold reg_covers in Hc. right. exists i, rm.
    rewrite Forall_lookup in Hone. rewrite (Hone _ _ Hi) in Hc. split; [done|lia].
  - left. split.
    + destruct rms as [|rm l]; [done|]. injection Hfirst as E0. destruct (Z.ltb_spec a (rm_addr rm)); [lia|done].
    + intros (i & rm & Hi & <-). apply list_find_None in E. rewrite Forall_lookup in E. apply (E i rm Hi).
      rewrite Forall_lookup in Hone. unfold reg_covers. rewrite (Hone _ _ Hi). lia.
Qed.

Lemma does_block_read a n :
  0 <= a -> does [] (fun r => n = 1 -> found a -> 0 <= fst r) (regmap_block_read a n).
Proof using I2cLaws0 Hmap Hone Hfirst.
  intros Ha. apply does_getr. intros d []. rewrite de_ops0. destruct (find_one a Ha) as [[Ef Hn]|(i & rm & Hi & <-)].
  - unfold rt_cache_block_read. case_match; [by apply does_ret|]. apply does_find. rewrite Ef. by apply does_ret.
  - destruct (addr_found i rm Hi) as (_ & Ef & _).
    eapply does_weak; [by eapply does_cache_read|done|]. auto.
Qed.

(** A block of registers without a gap. *)
Lemma does_block_write i rm l :
  rms !! i = Some rm -> l <> [] -> (length l <= 42)%nat -> (length l <= length (drop i rms))%nat ->
  does (map rm_addr (take (length l) (drop i rms))) (fun r => 0 <= r) (regmap_block_write (rm_addr rm) l).
Proof using I2cLaws0 Hmap Hone.
  intros Hi Hl H42 Hn. apply does_getr. intros d []. rewrite de_ops0. destruct (addr_found i rm Hi) as (_ & Ef & _).
  unfold rt_cache_block_write. destruct (Z.ltb_spec 64 (Z.of_nat (length l))); [lia|].
  apply does_find. rewrite Ef. cbn [ri_index ri_offset]. destruct (Z.ltb_spec (Z.of_nat i) 0); [lia|].
  apply does_seq; [apply does_true|intros _].
  { apply keeps_ignore. unfold reg_at. solve_kl. }
  { apply preserves_ignore, pd_reg_at. }
  apply does_getr. intros d' [-> _ _ _ _ _]. rewrite Nat2Z.id, bool_decide_false by done.
  eapply does_bind; [apply does_write_loop; [apply Forall_drop, Hmap|by apply Forall_drop|done..]|intros r].
  cbn beta. destruct (Z.ltb_spec r 0); [apply does_ret; lia|]. apply does_getr. intros d'' _. apply does_ret.
  rewrite io_log_short by done. by rewrite andb_false_r.
Qed.

(** Writing one register. *)
Lemma does_one a v : found a -> does [a] (fun r => 0 <= r) (regmap_block_write a [v]).
Proof using I2cLaws0 Hmap Hone.
  intros (i & rm & Hi & <-). pose proof (does_block_write i rm [v] Hi) as H. rewrite (drop_S _ _ _ Hi) in H.
  apply H; [done|cbn; lia..].
Qed.

Lemma does_down L s : does L (fun _ => True) (down s).
Proof. apply does_true; [done|apply pd_modr; intros ? []; by constructor]. Qed.
Lemma does_up_ret {A} L (P : A -> Prop) s r : P r -> does L P (up s ;;; ret r).
Proof.
  intros H. apply does_seq; [|intros _; by apply does_ret].
  apply does_true; [done|apply pd_modr; intros ? []; by constructor].
Qed.

Lemma does_reg_write a v : does [u32 a] (fun _ => True) (RtRegmap.rt_regmap_reg_write a v).
Proof using I2cLaws0 Hmap Hone Hfirst.
  unfold RtRegmap.rt_regmap_reg_write, _rt_regmap_reg_write, reg_write_with. apply does_find.
  destruct (find_one (u32 a)) as [[Ef Hn]|Hf]; [apply u32_range|rewrite Ef; by apply does_ret|].
  pose proof Hf as (i & rm & Hi & Ha). rewrite <- Ha in *. destruct (addr_found i rm Hi) as (_ & Ef & Hs). rewrite Ef.
  cbn [ri_index ri_offset]. destruct (Z.ltb_spec (Z.of_nat i) 0); [lia|]. cbn [orb negb Z.eqb].
  apply does_seq; [apply does_down|intros _].
  apply (does_reg_at _ _ i rm); [done|]. apply does_getr. intros d [_ _ _ _ -> _]. rewrite Hs.
  cbn [write_bytes]. apply does_seq; [|intros; by apply does_up_ret].
  apply does_seq; [|intros; by apply does_ret]. by eapply does_weak; [apply does_one|..].
Qed.

Lemma does_update a m v : does [u32 a] (fun r => found (u32 a) -> 0 <= r) (RtRegmap.rt_regmap_update_bits a m v).
Proof using I2cLaws0 Hmap Hone Hfirst.
  unfold RtRegmap.rt_regmap_update_bits, _rt_regmap_update_bits. apply does_find.
  destruct (find_one (u32 a)) as [[Ef Hn]|Hf]; [apply u32_range|rewrite Ef; by apply does_ret|].
  pose proof Hf as (i & rm & Hi & Ha). rewrite <- Ha in *. destruct (addr_found i rm Hi) as (_ & Ef & Hs). rewrite Ef.
  cbn [ri_index ri_offset]. destruct (Z.ltb_spec (Z.of_nat i) 0); [lia|]. cbn [orb negb Z.eqb].
  apply does_seq; [apply does_down|intros _].
  apply (does_reg_at _ _ i rm); [done|]. apply does_getr. intros d [_ _ _ _ -> _]. rewrite Hs. cbv zeta. cbn [Z.leb Z.compare Pos.compare Pos.compare_cont andb].
  apply (does_bind _ (fun r => 0 <= r)); [|intros r; by apply does_up_ret].
  eapply does_bind.
  { eapply does_weak; [apply does_block_read; rewrite Ha; apply u32_range|apply list_subseteq_nil|done]. }
  intros r. cbn beta. destruct (Z.ltb_spec (fst r) 0); [apply does_ret; intros Hr; lia || by specialize (Hr eq_refl Hf); lia|].
  case_match; [|by apply does_ret]. by eapply does_weak; [apply does_one|..].
Qed.

Lemma does_reg_read a : does [] (fun r => found (u32 a) -> 0 <= fst r) (RtRegmap.rt_regmap_reg_read a 0).
Proof using I2cLaws0 Hmap Hone Hfirst.
  unfold RtRegmap.rt_regmap_reg_read, _rt_regmap_reg_read. apply does_find.
  destruct (find_one (u32 a)) as [[Ef Hn]|Hf]; [apply u32_range|rewrite Ef; by apply does_ret|].
  pose proof Hf as (i & rm & Hi & Ha). rewrite <- Ha in *. destruct (addr_found i rm Hi) as (_ & Ef & Hs). rewrite Ef.
  cbn [ri_index ri_offset]. destruct (Z.ltb_spec (Z.of_nat i) 0); [lia|]. cbn [orb negb Z.eqb].
  apply does_with_sem, (does_reg_at _ _ i rm); [done|]. apply does_getr. intros d [_ _ _ _ -> _]. rewrite Hs.
  cbn [Z.leb Z.compare Pos.compare Pos.compare_cont andb]. eapply does_bind; [apply does_block_read; rewrite Ha; apply u32_range|].
  intros r. cbn beta. destruct (Z.ltb_spec (fst r) 0); [apply does_ret; intros Hr; by specialize (Hr eq_refl Hf); lia|by apply does_ret].
Qed.

(** What a read gives is a byte. *)
Lemma reg_read_u8 a : yields (fun w : W => device rms (rd w)) (fun r => is_u8 (snd r)) (RtRegmap.rt_regmap_reg_read a 0).
Proof using Hmap Hone Hfirst.
  unfold RtRegmap.rt_regmap_reg_read, _rt_regmap_reg_read. apply yields_find; [done|].
  destruct (find_one (u32 a)) as [[Ef Hn]|(i & rm & Hi & Ha)]; [apply u32_range|rewrite Ef; by apply yields_ret|].
  rewrite <- Ha. destruct (addr_found i rm Hi) as (_ & Ef & Hs). rewrite Ef.
  cbn [ri_index ri_offset]. destruct (Z.ltb_spec (Z.of_nat i) 0); [lia|]. cbn [orb negb Z.eqb].
  apply yields_bind; [apply pd_modr; intros ? []; by constructor|intros _].
  apply (yields_post _ (fun r => is_u8 (snd r)));
    [|intros r Hr; apply yields_bind; [apply pd_modr; intros ? []; by constructor|intros _; by apply yields_ret]].
  eapply yields_pure; [intros w Hw; by apply (reg_at_run i rm)|]. rewrite Hs.
  apply yields_bind; [apply preserves_gets|intros fmt].
  cbn [Z.leb Z.compare Pos.compare Pos.compare_cont andb].
  eapply yields_post; [by apply yields_block_read|intros r [Hr Hl]]. apply yields_if; intros _; [by apply yields_ret|].
  apply yields_ret. cbn [snd]. destruct (snd r) as [|v [|]]; [done| |cbn in Hl; lia].
  apply Forall_cons in Hr as [Hr _]. replace (read_value fmt 1 0 [v]) with v; [exact Hr|by change (read_value fmt 1 0 [v]) with (v + 0); rewrite Z.add_0_r].
Qed.

(** A register that is not copied is read exactly. *)
Lemma vol_reg_read i rm (w : W) :
  device rms (rd w) -> rms !! i = Some rm -> is_volatile rm = true -> cfg (rm_addr rm) = true ->
  wp (RtRegmap.rt_regmap_reg_read (rm_addr rm) 0) (fun r _ => 0 <= fst r -> snd r = reg (cl w) (rm_addr rm)) w.
Proof using I2cLaws0 Hmap Hone.
  intros Hw Hi Hv Hc. destruct (addr_found i rm Hi) as (Eu & Ef & Hs). unfold RtRegmap.rt_regmap_reg_read. rewrite Eu.
  pose proof Hw as []. apply wp_bind. eapply wp_eq; [by apply (find_register_map rms)|]. rewrite Ef.
  cbn [ri_index ri_offset]. destruct (Z.ltb_spec (Z.of_nat i) 0); [lia|]. cbn [orb negb Z.eqb].
  apply wp_bind, wp_modify. set (w1 := w <| rd ::= _ |>).
  assert (device rms (rd w1)) as Hw1 by (by constructor). change (cl w) with (cl w1). clearbody w1. clear dependent w.
  apply wp_bind, wp_bind. eapply wp_eq; [by apply reg_at_run|]. rewrite Hs. apply wp_bind, wp_gets.
  rewrite (de_format _ _ Hw1). cbn [Z.leb Z.compare Pos.compare Pos.compare_cont andb]. apply wp_bind.
  eapply wp_mono; [by apply (vol_block_read i rm)|]. intros r w2 HB. pose proof (i2c_read (rm_addr rm) (cl w1)) as Hr.
  destruct (read_device (rm_addr rm) 1 (cl w1)) as [x c']. destruct HB as (_ & H1 & H2), Hr as (_ & _ & Hr).
  destruct (Z.ltb_spec (fst r) 0).
  - apply wp_ret, wp_bind, wp_modify, wp_ret. cbn. lia.
  - apply wp_ret, wp_bind, wp_modify, wp_ret. intros _. cbn [snd].
    rewrite (H2 ltac:(lia) (reg (cl w1) (rm_addr rm))); [|apply Hr; [lia|done]|apply i2c_u8].
    by change (read_value RT_LITTLE_ENDIAN 1 0 [reg (cl w1) (rm_addr rm)]) with (reg (cl w1) (rm_addr rm) + 0); rewrite Z.add_0_r.
Qed.

Lemma upd_one old m v :
  is_u8 old -> is_u8 m -> update_bits old (u32 m) (u8 (u32 v)) = update_bits old m v /\ is_u8 (update_bits old m v).
Proof.
  intros Ho Hm. split; [|by apply update_bits_u8]. unfold is_u8 in *. rewrite (u32_id m) by (unfold is_u32; lia).
  apply Z.bits_inj'. intros k Hk. rewrite !update_bits_spec by done. destruct (Z.testbit m k) eqn:E; [|done].
  destruct (Z.lt_ge_cases k 8); [|by rewrite (testbit_u8 m) in E].
  unfold u8, u32, wrapu. by rewrite !Z.mod_pow2_bits_low by lia.
Qed.

(** One that is not copied is updated exactly, or not at all. *)
Lemma vol_update i rm m v (w : W) :
  device rms (rd w) -> rms !! i = Some rm -> is_volatile rm = true -> wr_once rm = false -> cfg (rm_addr rm) = true -> is_u8 m ->
  wp (RtRegmap.rt_regmap_update_bits (rm_addr rm) m v) (fun r w' =>
    reg (cl w') (rm_addr rm) =
    if 0 <=? r then update_bits (reg (cl w) (rm_addr rm)) m v else reg (cl w) (rm_addr rm)) w.
Proof using I2cLaws0 Hmap Hone.
  intros Hw Hi Hv Ho Hc Hm. destruct (addr_found i rm Hi) as (Eu & Ef & Hs). unfold RtRegmap.rt_regmap_update_bits. rewrite Eu.
  pose proof Hw as []. apply wp_bind. eapply wp_eq; [by apply (find_register_map rms)|]. rewrite Ef.
  cbn [ri_index ri_offset]. destruct (Z.ltb_spec (Z.of_nat i) 0); [lia|]. cbn [orb negb Z.eqb].
  apply wp_bind, wp_modify. set (w1 := w <| rd ::= _ |>).
  assert (device rms (rd w1)) as Hw1 by (by constructor). change (cl w) with (cl w1). clearbody w1. clear dependent w.
  apply wp_bind. eapply wp_eq; [by apply reg_at_run|]. rewrite Hs. apply wp_bind, wp_gets.
  rewrite (de_format _ _ Hw1), Ho. cbv zeta. cbn [Z.leb Z.compare Pos.compare Pos.compare_cont andb orb negb]. apply wp_bind, wp_bind.
  set (old := reg (cl w1) (rm_addr rm)).
  apply (wp_mono _ (fun r w2 => device rms (rd w2) /\ reg (cl w2) (rm_addr rm) = old /\ (0 <= fst r -> snd r = [old]))).
  { pose proof (pd_block_read rms Hmap (rm_addr rm) 1 w1 Hw1) as Hd.
    pose proof (vol_block_read i rm w1 Hw1 Hi Hv) as HB. unfold wp in *. pose proof (i2c_read (rm_addr rm) (cl w1)) as Hr.
    destruct (read_device (rm_addr rm) 1 (cl w1)) as [x c']. destruct HB as (-> & H1 & H2), Hr as (Hr1 & _ & Hr).
    split; [done|]. split; [apply Hr1; [done|apply not_elem_of_nil]|]. intros H0. apply H2; [lia|apply Hr; [lia|done]|apply i2c_u8]. }
  intros r w2 (D2 & E2 & H2). destruct (Z.ltb_spec (fst r) 0).
  { apply wp_ret, wp_bind, wp_modify, wp_ret. cbn. destruct (Z.leb_spec 0 (fst r)); [lia|done]. }
  rewrite (H2 ltac:(done)). cbn [upd_data upd_decode stored overlay]. change (stored [old]) with (old + 256 * 0).
  rewrite Z.mul_0_r, Z.add_0_r. destruct (upd_one old m v) as [-> Hn]; [apply i2c_u8|done|].
  set (new := update_bits old m v) in *. change (upd_encode RT_LITTLE_ENDIAN 1 new) with [new mod 256].
  rewrite Z.mod_small by apply Hn.
  eapply wp_mono; [by apply (vol_block_write i rm)|]. intros r' w3 HB. pose proof (i2c_write (rm_addr rm) [new] (cl w2) ltac:(done)) as Hr.
  destruct (write_device (rm_addr rm) [new] (cl w2)) as [x c']. destruct HB as (HB & H1), Hr as (_ & _ & Hr).
  apply wp_bind, wp_modify, wp_ret. cbn. rewrite HB, (Hr new) by done. rewrite E2.
  destruct (Z.leb_spec 0 x), (Z.leb_spec 0 r'); done || lia.
Qed.
End Single.

(** ** The table of the MT6370 *)

Lemma mt6370_map_ok : map_ok mt6370_map.
Proof. split; [by apply (bool_decide_unpack (Forall reg_ok _)); vm_compute|by vm_compute]. Qed.

Lemma mt6370_map_one : Forall (fun rm => rm_size rm = 1) mt6370_map.
Proof. by apply (bool_decide_unpack (Forall _ _)); vm_compute. Qed.

Lemma mt6370_map_first : option_map rm_addr (head mt6370_map) = Some 0.
Proof. done. Qed.

Lemma mt6370_map_addrs : map rm_addr mt6370_map = mt6370_addrs.
Proof. by vm_compute. Qed.

Lemma found_mapped a : found mt6370_map a <-> mapped a = true.
Proof.
  unfold mapped. rewrite bool_decide_eq_true, <- mt6370_map_addrs. split.
  - intros (i & rm & Hi & <-). apply list_elem_of_fmap. exists rm. split; [done|]. by eapply list_elem_of_lookup_2.
  - intros (rm & -> & Hrm)%list_elem_of_fmap. apply list_elem_of_lookup in Hrm as [i Hi]. by exists i, rm.
Qed.

(** The configuration registers are not copied. *)
Lemma cfg_volatile a :
  cfg a = true -> exists i rm, mt6370_map !! i = Some rm /\ rm_addr rm = a /\ is_volatile rm = true /\ wr_once rm = false.
Proof.
  unfold cfg. intros H%bool_decide_eq_true.
  assert (Forall (fun a => Exists (fun rm => rm_addr rm = a /\ is_volatile rm = true /\ wr_once rm = false) mt6370_map) cfg_regs) as Hf
    by (apply (bool_decide_unpack (Forall _ _)); by vm_compute).
  rewrite Forall_forall in Hf. apply Hf in H. apply Exists_exists in H as (rm & Hrm & H).
  apply list_elem_of_lookup in Hrm as [i Hi]. eauto.
Qed.

(** Registers without a gap follow each other in the table. *)
Lemma next_addr i a : mt6370_addrs !! i = Some a -> mapped (a + 1) = true -> mt6370_addrs !! S i = Some (a + 1).
Proof.
  intros Hi Hm.
  assert (forallb (fun i => let a := default 0 (mt6370_addrs !! i) in
    implb (mapped (a + 1)) (bool_decide (mt6370_addrs !! S i = Some (a + 1)))) (seq 0 (length mt6370_addrs)) = true) as Hall
    by (by vm_compute).
  rewrite forallb_forall in Hall. specialize (Hall i). rewrite Hi in Hall. cbv zeta in Hall.
  change (default 0 (Some a)) with a in Hall. rewrite Hm in Hall. eapply bool_decide_eq_true, Hall, in_seq. apply lookup_lt_Some in Hi. lia.
Qed.

Lemma addr_run n i a :
  mt6370_addrs !! i = Some a -> (forall k, 0 < k < Z.of_nat n -> mapped (a + k) = true) ->
  take n (drop i mt6370_addrs) = seqZ a (Z.of_nat n).
Proof.
  revert i a. induction n as [|n IH]; intros i a Hi Hm; [done|].
  rewrite (drop_S _ _ _ Hi), seqZ_cons by lia. cbn [take]. f_equal.
  destruct n as [|n]; [done|]. rewrite Nat2Z.inj_succ, Z.pred_succ. apply IH.
  - apply next_addr; [done|]. apply Hm. lia.
  - intros k Hk. replace (Z.succ a + k) with (a + (k + 1)) by lia. apply Hm. lia.
Qed.

Lemma contiguous_block a (l : list Z) :
  contiguous a (length l) = true ->
  exists i rm, mt6370_map !! i = Some rm /\ rm_addr rm = a /\ l <> [] /\ (length l <= 42)%nat /\
    (length l <= length (drop i mt6370_map))%nat /\
    map rm_addr (take (length l) (drop i mt6370_map)) = seqZ a (Z.of_nat (length l)).
Proof.
  unfold contiguous. rewrite !andb_true_iff, !Nat.leb_le, forallb_forall. intros [[H1 H2] Hm].
  assert (forall k, 0 <= k < Z.of_nat (length l) -> mapped (a + k) = true) as Hk
    by (intros k Hk; apply Hm, list_elem_of_In, elem_of_seqZ; lia).
  assert (mapped (a + 0) = true) as (i & rm & Hi & Ea)%found_mapped by (apply Hk; lia).
  rewrite Z.add_0_r in Ea. exists i, rm.
  assert (map rm_addr (take (length l) (drop i mt6370_map)) = seqZ a (Z.of_nat (length l))) as E.
  { rewrite <- firstn_map, <- skipn_map, mt6370_map_addrs. apply addr_run; [|intros; apply Hk; lia].
    rewrite <- mt6370_map_addrs, list_lookup_fmap, Hi. cbn. by rewrite Ea. }
  split_and!; [done..|by intros ->; cbn in H1; lia|lia| |done].
  apply (f_equal length) in E. rewrite length_map, length_take, length_seqZ in E. lia.
Qed.

(** ** The bus of the driver *)

Section Bus.
  Context {C : Type} `{!RtClient C, !Mt6370Env C}.

(** A register map registered with the table. *)
Definition mt6370_state : Type := {w : rtworld C | device mt6370_map (rd w)}.

Definition lift {A} (m : M (rtworld C) A) (H : preserves (fun w => device mt6370_map (rd w)) m) : M mt6370_state A :=
  fun s => (eval m (`s), exist _ (exec m (`s)) (H _ (proj2_sig s))).
Definition lift_client {A} (m : M C A) : M mt6370_state A := lift (client m) (pd_client _ m).

(** mt6370_pmu_reg.c: the address is passed on as [u32], the length as [int]. *)
#[global] Instance rt_bus : Mt6370Bus mt6370_state := {|
  rt_regmap_reg_read := fun a => lift (RtRegmap.rt_regmap_reg_read a 0) (pd_reg_read _ mt6370_map_ok a 0);
  rt_regmap_reg_write := fun a v => lift (RtRegmap.rt_regmap_reg_write a v) (pd_reg_write _ mt6370_map_ok a v);
  rt_regmap_update_bits := fun a m v => lift (RtRegmap.rt_regmap_update_bits a m v) (pd_update _ mt6370_map_ok a m v);
  rt_regmap_block_read := fun a n =>
    lift (RtRegmap.rt_regmap_block_read (u32 a) (Z.of_nat n)) (pd_with_sem _ _ (pd_block_read _ mt6370_map_ok _ _));
  rt_regmap_block_write := fun a l =>
    lift (RtRegmap.rt_regmap_block_write (u32 a) l) (pd_with_sem _ _ (pd_block_write _ mt6370_map_ok _ _));
  i2c_smbus_read := fun a => lift_client (env_smbus_read a);
  i2c_smbus_write := fun a v => lift_client (env_smbus_write a v);
  mt_sleep := fun ms => lift_client (env_sleep ms);
  wait_event_interruptible_timeout := lift_client env_wait;
  platform_get_resource_byname := fun s => lift_client (env_irq_res s);
  enable_irq := fun i => lift_client (env_irq_on i);
  disable_irq_nosync := fun i => lift_client (env_irq_off i);
  power_supply_changed := lift_client env_changed;
  charger_dev_notify := fun e => lift_client (env_notify e);
  pinctrl_select_state := fun s => lift_client (env_pinctrl s);
  phy_get := lift_client env_phy_get;
  phy_set_mode_ext := fun m => lift_client (env_phy_mode m);
  phy_put := lift_client env_phy_put;
  of_usb_cdp_block := lift_client env_usb_node
|}.

Context (reg : C -> Z -> Z) (healthy : C -> Prop) `{!I2cLaws reg healthy}.
Definition sreg (s : mt6370_state) : Z -> Z := reg (cl (`s)).
Definition shealthy (s : mt6370_state) : Prop := healthy (cl (`s)).

Lemma neutral_client {A} (m : M C A) : neutral reg healthy m -> neutral sreg shealthy (lift_client m).
Proof.
  intros H [w Hw]. specialize (H (cl w)). unfold same_cfg, shealthy, sreg, lift_client, lift, exec, client in *. cbn in *.
  by destruct (m (cl w)).
Qed.

(** An address of the table is its low byte. *)
Lemma mapped_u8 a : mapped (u32 a) = true -> u8 a = u32 a.
Proof.
  intros H. assert (is_u8 (u32 a)) as Hu.
  { unfold mapped in H. apply bool_decide_eq_true in H.
    assert (Forall is_u8 mt6370_addrs) as Hf by (by apply (bool_decide_unpack (Forall _ _)); vm_compute).
    rewrite Forall_forall in Hf. by apply Hf. }
  rewrite <- (u8_id (u32 a)) by done. unfold u8, u32, wrapu. rewrite Z.mod_mod_divide; [done|by exists (2 ^ 24)].
Qed.

(** An access that changes the register at [u32 a] at most changes the one at [u8 a]. *)
Lemma frame_u8 a c c' : frame reg healthy [u32 a] c c' -> same_cfg reg [u8 a] c c'.
Proof.
  intros [H _] x Hx Hn. apply H; [done|]. rewrite list_elem_of_singleton in *. intros ->. apply Hn.
  symmetry. apply mapped_u8, found_mapped. destruct (cfg_volatile _ Hx) as (i & rm & Hi & E & _). by exists i, rm.
Qed.

Lemma cfg_u32 a : cfg a = true -> u32 a = a.
Proof.
  intros H%cfg_u8. rewrite <- H. apply u32_id. pose proof (u8_range a). unfold is_u8, is_u32 in *. lia.
Qed.
Lemma mapped_u32 a : mapped a = true -> u32 a = a.
Proof.
  intros H. assert (Forall is_u32 mt6370_addrs) as Hf by (by apply (bool_decide_unpack (Forall _ _)); vm_compute).
  unfold mapped in H. apply bool_decide_eq_true in H. rewrite Forall_forall in Hf. by apply u32_id, Hf.
Qed.

Lemma rt_law_read a s :
  let '(r, s') := rt_regmap_reg_read a s in
  same_cfg sreg [] s s' /\ (shealthy s -> shealthy s' /\ (mapped a = true -> 0 <= fst r)) /\
  (0 <= fst r -> is_u8 (snd r) /\ (cfg a = true -> snd r = sreg s a)).
Proof using I2cLaws0.
  destruct s as [w Hw]. cbn [rt_regmap_reg_read rt_bus]. unfold lift. cbn [proj1_sig].
  destruct (does_reg_read reg healthy _ mt6370_map_ok mt6370_map_one mt6370_map_first a w Hw) as (_ & [F1 F2] & H).
  split; [exact F1|]. split.
  - intros Hh. split; [by apply F2|]. intros Hm. apply H; [done|]. by rewrite found_mapped, mapped_u32.
  - intros Hr. split; [by apply (reg_read_u8 _ mt6370_map_ok mt6370_map_one mt6370_map_first a w Hw)|].
    intros Hc. destruct (cfg_volatile a Hc) as (i & rm & Hi & <- & Hv & _).
    exact (vol_reg_read reg healthy _ mt6370_map_ok mt6370_map_one i rm w Hw Hi Hv Hc Hr).
Qed.

Lemma rt_law_update a m v s :
  is_u8 m -> let '(r, s') := rt_regmap_update_bits a m v s in
  same_cfg sreg [u8 a] s s' /\ (shealthy s -> shealthy s' /\ (mapped a = true -> 0 <= r)) /\
  (cfg a = true -> sreg s' a = if 0 <=? r then update_bits (sreg s a) m v else sreg s a).
Proof using I2cLaws0.
  intros Hm. destruct s as [w Hw]. cbn [rt_regmap_update_bits rt_bus]. unfold lift. cbn [proj1_sig].
  destruct (does_update reg healthy _ mt6370_map_ok mt6370_map_one mt6370_map_first a m v w Hw) as (_ & F & H).
  split; [by apply frame_u8|]. split.
  - intros Hh. split; [by apply F|]. intros Hma. apply H; [done|]. by rewrite found_mapped, mapped_u32.
  - intros Hc. destruct (cfg_volatile a Hc) as (i & rm & Hi & <- & Hv & Ho).
    exact (vol_update reg healthy _ mt6370_map_ok mt6370_map_one i rm m v w Hw Hi Hv Ho Hc Hm).
Qed.

Lemma rt_law_block_write a l s :
  contiguous a (length l) = true -> let '(r, s') := rt_regmap_block_write a l s in
  same_cfg sreg (seqZ a (Z.of_nat (length l))) s s' /\ (shealthy s -> shealthy s' /\ 0 <= r).
Proof using I2cLaws0.
  intros (i & rm & Hi & Ea & Hl & H42 & Hn & E)%contiguous_block. destruct s as [w Hw].
  cbn [rt_regmap_block_write rt_bus]. unfold lift. cbn [proj1_sig].
  assert (u32 a = rm_addr rm) as -> by (rewrite Ea; apply mapped_u32, found_mapped; by exists i, rm).
  pose proof (does_with_sem reg healthy _ _ _ _
    (does_block_write reg healthy _ mt6370_map_ok mt6370_map_one i rm l Hi Hl H42 Hn) w Hw) as (_ & [F1 F2] & H).
  rewrite E in F1. split; [exact F1|]. intros Hh. split; [by apply F2|by apply H].
Qed.

End Bus.

(** ** A concrete client *)

(** The chip behind an I2C bus that may fail one access. *)
#[global] Instance chip_client : RtClient chip := {|
  read_device := fun a n => chip_try (- EIO, []) (let! c := get in ret (n, map (chip_reg c) (seqZ a n)));
  write_device := fun a l => chip_try (- EIO) (chip_write_block a l ;;; ret 0)
|}.

#[global] Instance chip_env : Mt6370Env chip := {|
  env_smbus_read := i2c_smbus_read (B := chip);
  env_smbus_write := i2c_smbus_write (B := chip);
  env_sleep := mt_sleep (B := chip);
  env_wait := wait_event_interruptible_timeout (B := chip);
  env_irq_res := platform_get_resource_byname (B := chip);
  env_irq_on := enable_irq (B := chip);
  env_irq_off := disable_irq_nosync (B := chip);
  env_changed := power_supply_changed (B := chip);
  env_notify := charger_dev_notify (B := chip);
  env_pinctrl := pinctrl_select_state (B := chip);
  env_phy_get := phy_get (B := chip);
  env_phy_mode := phy_set_mode_ext (B := chip);
  env_phy_put := phy_put (B := chip);
  env_usb_node := of_usb_cdp_block (B := chip)
|}.

#[global] Instance chip_i2c : I2cLaws chip_reg (fun c => c_fail c < 0).
Proof.
  constructor; try (exact law_smbus_read || exact law_smbus_write || exact law_wait || by intros).
  - intros. apply u8_range.
  - intros a c. chip_run; bool_prop; (split_and!; [done|split; [by apply chip_count_neg|lia]|]); [|done].
    unfold EIO. intros. lia.
  - intros a [|v [|? l]] c Hl; [| |cbn in Hl; lia]; chip_run; bool_prop.
    + split_and!; [done|lia|done].
    + split_and!; [done|split; [by apply chip_count_neg|lia]|done].
    + split_and!; [done|lia|done].
    + split_and!; [|split; [by apply chip_count_neg|lia]|].
      * unfold chip_write; cbn. apply same_cfg_insert. set_solver.
      * intros v' [= <-] Hv _. unfold chip_write; cbn. rewrite chip_reg_insert, bool_decide_true by done. by apply u8_id.
Qed.

