(* ===== verification/BatteryTable.v ===== *)
(** * The battery tables of the gauge (mtk_battery_algo.c, mtk_battery.c)

    A battery is described by tables of discharged charge, open-circuit voltage
    and resistance, one per temperature.  The algorithm interpolates between
    them to get a table for the present temperature, and looks up voltages and
    states of charge in it.  The thermistor has a table of its own. *)

From S2P Require Import Prelude.
#[local] Open Scope Z_scope.

(** [struct fuelgauge_profile_struct]: one [unsigned int] and four
    [unsigned short]. *)
Record fuelgauge_profile : Type := mk_prof {
  mah : Z;
  voltage : Z;
  resistance : Z;
  resistance2 : Z;
  percentage : Z
}.
#[global] Instance fuelgauge_profile_struct : Struct fuelgauge_profile := fun r =>
  mk_prof (mah r) (voltage r) (resistance r) (resistance2 r) (percentage r).
Definition prof0 : fuelgauge_profile := mk_prof 0 0 0 0 0.

(** [struct fuel_gauge_table]; its array has 100 entries. *)
Record fuel_gauge_table : Type := mk_table {
  temperature : Z;
  q_max : Z;
  q_max_h_current : Z;
  pseudo1 : Z;
  pseudo100 : Z;
  pmic_min_vol : Z;
  pon_iboot : Z;
  tb_shutdown_hl_zcv : Z;
  size : Z;
  tb_profile : list fuelgauge_profile
}.
#[global] Instance fuel_gauge_table_struct : Struct fuel_gauge_table := fun r =>
  mk_table (temperature r) (q_max r) (q_max_h_current r) (pseudo1 r) (pseudo100 r) (pmic_min_vol r)
    (pon_iboot r) (tb_shutdown_hl_zcv r) (size r) (tb_profile r).
Definition table0 : fuel_gauge_table := mk_table 0 0 0 0 0 0 0 0 0 [].

(** [struct fuel_gauge_table_custom_data]. *)
Record fuel_gauge_table_data : Type := mk_tables {
  active_table_number : Z;
  fg_profile : list fuel_gauge_table;
  temperature_tb0 : Z;
  fg_profile_temperature_0 : list fuelgauge_profile;
  temperature_tb1 : Z;
  fg_profile_temperature_1 : list fuelgauge_profile
}.
#[global] Instance fuel_gauge_table_data_struct : Struct fuel_gauge_table_data := fun r =>
  mk_tables (active_table_number r) (fg_profile r) (temperature_tb0 r) (fg_profile_temperature_0 r)
    (temperature_tb1 r) (fg_profile_temperature_1 r).

(** An element of an array. *)
Definition tab (t : fuel_gauge_table_data) (i : nat) : fuel_gauge_table := nth i (fg_profile t) table0.
Definition at_ (p : list fuelgauge_profile) (i : nat) : fuelgauge_profile := nth i p prof0.

(** [interpolation]: with [i2 = i1] the source divides by zero, which gives 0 on
    this processor, as [Z.quot] does. *)
Definition interpolation (i1 b1 i2 b2 i : Z) : Z :=
  s32 (s32 (s32 (s32 (b2 - b1) * s32 (i - i1)) ÷c s32 (i2 - i1)) + b1).

Definition fg_get_saddles (t : fuel_gauge_table_data) : Z := size (tab t 0).

(** What [fg_get_profile] points at. *)
Inductive profile_ref : Type := RefTable (i : nat) | RefTb0 | RefTb1.

Fixpoint find_temperature (l : list fuel_gauge_table) (i n : nat) (temp : Z) : option nat :=
  match n, l with
  | S n', x :: l' => if temperature x =? temp then Some i else find_temperature l' (S i) n' temp
  | _, _ => None
  end.

Definition fg_get_profile (t : fuel_gauge_table_data) (temp : Z) : option profile_ref :=
  match find_temperature (fg_profile t) 0 (Z.to_nat (active_table_number t)) temp with
  | Some i => Some (RefTable i)
  | None =>
      if temperature_tb0 t =? temp then Some RefTb0
      else if temperature_tb1 t =? temp then Some RefTb1
      else None
  end.

Definition read_profile (t : fuel_gauge_table_data) (r : profile_ref) : list fuelgauge_profile :=
  match r with
  | RefTable i => tb_profile (tab t i)
  | RefTb0 => fg_profile_temperature_0 t
  | RefTb1 => fg_profile_temperature_1 t
  end.

Definition write_profile (r : profile_ref) (p : list fuelgauge_profile) (t : fuel_gauge_table_data) : fuel_gauge_table_data :=
  match r with
  | RefTable i => t <| fg_profile ::= fun l => <[i := (tab t i) <| tb_profile := p |>]> l |>
  | RefTb0 => t <| fg_profile_temperature_0 := p |>
  | RefTb1 => t <| fg_profile_temperature_1 := p |>
  end.

(** One of the two loops of [fg_check_temperature_order]: it goes on while
    neighbours are not in the order [bad], and sets the flags every time. *)
Fixpoint order_loop (bad : Z -> Z -> bool) (t : fuel_gauge_table_data) (on : Z * Z) (i n : nat) (flags : Z * Z) : Z * Z :=
  match n with
  | O => flags
  | S n' =>
      if bad (temperature (tab t i)) (temperature (tab t (S i))) then flags
      else order_loop bad t on (S i) n' on
  end.

(** The result, and [*is_ascending] and [*is_descending]. *)
Definition fg_check_temperature_order (t : fuel_gauge_table_data) : Z * (Z * Z) :=
  let n := Z.to_nat (active_table_number t - 1) in
  let f1 := order_loop (fun a b => b <? a) t (1, 0) 0 n (0, 0) in
  let f2 := order_loop (fun a b => a <? b) t (0, 1) 0 n f1 in
  (if (fst f2 =? 0) && (snd f2 =? 0) then -1 else 0, f2).

(** The loop of [fgr_construct_battery_profile] over the tables from [i]. *)
Fixpoint table_search (asc : bool) (t : fuel_gauge_table_data) (temp : Z) (i n : nat) : nat :=
  match n with
  | O => i
  | S n' =>
      let here := temperature (tab t i) in
      if (if asc then temp <=? here else here <=? temp) then i else table_search asc t temp (S i) n'
  end.

(** The tables below and above a temperature. *)
Definition table_pair (asc : bool) (t : fuel_gauge_table_data) (temp : Z) : nat * nat :=
  let n := Z.to_nat (active_table_number t) in
  let i := table_search asc t temp 1 (n - 1) in
  let i := if Nat.ltb (n - 1) i then (n - 1)%nat else i in
  if asc then ((i - 1)%nat, i) else (i, (i - 1)%nat).

Definition clamp_temp (low high temp : Z) : Z :=
  if temp <? low then low else if high <? temp then high else temp.

(** One entry of the interpolated table. *)
Definition mix_entry (lt ht temp : Z) (low high old : fuelgauge_profile) : fuelgauge_profile :=
  let f (g : fuelgauge_profile -> Z) := interpolation lt (s32 (g low)) ht (s32 (g high)) temp in
  old <| mah := u32 (f mah) |> <| voltage := u16 (f voltage) |> <| resistance := u16 (f resistance) |>
      <| resistance2 := u16 (f resistance2) |>.

(** [for (i = 0; i < n; i++) p[i] = f(i, p[i])]. *)
Definition update_upto (n : Z) (f : nat -> fuelgauge_profile -> fuelgauge_profile) (p : list fuelgauge_profile)
    : list fuelgauge_profile :=
  imap (fun i x => if Z.of_nat i <? n then f i x else x) p.

(** [profile_p[i].percentage = profile_p[i].mah * 10000 / qmax], in [unsigned int]. *)
Definition set_percentage (qmax : Z) (x : fuelgauge_profile) : fuelgauge_profile :=
  x <| percentage := u16 (u32 (mah x * 10000) / u32 qmax) |>.
Definition set_percentages (qmax : Z) (p : list fuelgauge_profile) : list fuelgauge_profile :=
  update_upto 100 (fun _ => set_percentage qmax) p.

(** The first of [n] entries from [i] with [stop]; [i + n] if there is none. *)
Fixpoint entry_search (stop : fuelgauge_profile -> bool) (p : list fuelgauge_profile) (i n : nat) : nat :=
  match n with
  | O => i
  | S n' => if stop (at_ p i) then i else entry_search stop p (S i) n'
  end.

(** The charge that is left when the voltage has fallen to [vboot], in
    [fg_construct_battery_profile_by_vboot]. *)
Definition qmax_by_vboot (vboot : Z) (p : list fuelgauge_profile) : Z :=
  let j := entry_search (fun x => voltage x <? vboot) p 0 100 in
  match j with
  | O => s32 (mah (at_ p 0))
  | S j' =>
      if Nat.leb 100 j then s32 (mah (at_ p 99))
      else interpolation (voltage (at_ p j)) (s32 (mah (at_ p j))) (voltage (at_ p j')) (s32 (mah (at_ p j'))) vboot
  end.

(** The common part of the four look-ups: the first entry with [stop], its value
    by [y] interpolated over [x], or the value at an end of the table. *)
Definition table_lookup (stop : fuelgauge_profile -> bool) (x y : fuelgauge_profile -> Z) (n : Z)
    (p : list fuelgauge_profile) (v : Z) : Z :=
  let i := entry_search stop p 0 (Z.to_nat n) in
  match i with
  | O => y (at_ p 0)
  | S i' =>
      if n <=? Z.of_nat i then y (at_ p (Z.to_nat (n - 1)))
      else interpolation (x (at_ p i')) (y (at_ p i')) (x (at_ p i)) (y (at_ p i)) v
  end.

Section Lookups.
  Context (t : fuel_gauge_table_data).

(** The table for the present temperature, [None] for a null pointer. *)
Definition c_table : option (list fuelgauge_profile) :=
  match fg_get_profile t (temperature_tb1 t) with Some r => Some (read_profile t r) | None => None end.

Definition DOD_to_OCV_c (dod : Z) : Z :=
  match c_table with
  | Some p => table_lookup (fun e => dod <=? percentage e) percentage voltage (fg_get_saddles t) p dod
  | None => 0
  end.

Definition SOC_to_OCV_c (soc : Z) : Z :=
  match c_table with
  | Some p =>
      let dod := s32 (10000 - soc) in
      table_lookup (fun e => dod <=? percentage e) percentage voltage (fg_get_saddles t) p dod
  | None => 0
  end.

Definition OCV_to_DOD_c (ocv : Z) : Z :=
  match c_table with
  | Some p => table_lookup (fun e => voltage e <=? ocv) voltage percentage (fg_get_saddles t) p ocv
  | None => 0
  end.

Definition OCV_to_SOC_c (ocv : Z) : Z :=
  match c_table with
  | Some p =>
      s32 (10000 - table_lookup (fun e => voltage e <=? ocv) voltage percentage (fg_get_saddles t) p ocv)
  | None => 0
  end.
End Lookups.
