(* ===== verification/BatteryTableSpec.v ===== *)
(** * Look-ups in the battery tables: what they guarantee

    The look-ups are piecewise linear curves through the entries of the table.
    They never divide by zero and never leave the values of two neighbouring
    entries, whatever the table holds; they are monotone when the values are;
    and going from voltage to depth of discharge and back loses no more than the
    steepness of the table. *)

From S2P Require Import Prelude BatteryTable.
#[local] Open Scope Z_scope.

(** ** The line through two points, rounded towards the first *)

Definition lin (i1 b1 i2 b2 i : Z) : Z := b1 + (b2 - b1) * (i - i1) ÷c (i2 - i1).

Lemma lin_neg i1 b1 i2 b2 i : lin (- i1) b1 (- i2) b2 (- i) = lin i1 b1 i2 b2 i.
Proof.
  unfold lin. replace (- i - - i1) with (- (i - i1)) by lia. replace (- i2 - - i1) with (- (i2 - i1)) by lia.
  rewrite Z.mul_opp_r. destruct (Z.eq_dec (i2 - i1) 0) as [->|]; [by rewrite !Z.quot_0_r_ext|]. by rewrite Z.quot_opp_opp.
Qed.

Lemma quot_up c x d : 0 <= c -> 0 <= x -> 0 < d -> c * x ÷c d = c * x / d.
Proof. intros. apply Z.quot_div_nonneg; nia. Qed.
Lemma quot_down c x d : c <= 0 -> 0 <= x -> 0 < d -> c * x ÷c d = - (- c * x / d).
Proof. intros. replace (c * x) with (- (- c * x)) by lia. rewrite Z.quot_opp_l by lia. by rewrite Z.quot_div_nonneg by nia. Qed.

(** Between the end points. *)
Definition between (a b x : Z) : Prop := Z.min a b <= x <= Z.max a b.

Lemma share_bound c x d : 0 <= c -> 0 <= x <= d -> 0 < d -> 0 <= c * x / d <= c.
Proof. intros Hc Hx Hd. split; [apply Z.div_pos; nia|]. apply Z.div_le_upper_bound; nia. Qed.

Lemma lin_between i1 b1 i2 b2 i : i1 < i2 -> i1 <= i <= i2 -> between b1 b2 (lin i1 b1 i2 b2 i).
Proof.
  intros Hd Hi. unfold lin, between. destruct (Z.le_gt_cases b1 b2).
  - rewrite quot_up by lia. pose proof (share_bound (b2 - b1) (i - i1) (i2 - i1)). lia.
  - rewrite quot_down by lia. pose proof (share_bound (- (b2 - b1)) (i - i1) (i2 - i1)). lia.
Qed.

Lemma lin_start i1 b1 i2 b2 : lin i1 b1 i2 b2 i1 = b1.
Proof. unfold lin. rewrite Z.sub_diag, Z.mul_0_r. destruct (Z.eq_dec (i2 - i1) 0) as [->|]; [change (0 ÷c 0) with 0; lia|]. rewrite Z.quot_0_l by done. lia. Qed.
Lemma lin_end i1 b1 i2 b2 : i1 <> i2 -> lin i1 b1 i2 b2 i2 = b2.
Proof. intros. unfold lin. rewrite Z.quot_mul by lia. lia. Qed.

Lemma lin_mono i1 b1 i2 b2 i j : i1 < i2 -> b1 <= b2 -> i1 <= i -> i <= j -> lin i1 b1 i2 b2 i <= lin i1 b1 i2 b2 j.
Proof. intros. unfold lin. rewrite !quot_up by lia. apply Z.add_le_mono_l, Z.div_le_mono; nia. Qed.
Lemma lin_anti i1 b1 i2 b2 i j : i1 < i2 -> b2 <= b1 -> i1 <= i -> i <= j -> lin i1 b1 i2 b2 j <= lin i1 b1 i2 b2 i.
Proof. intros. unfold lin. rewrite !quot_down by lia. pose proof (Z.div_le_mono (- (b2 - b1) * (i - i1)) (- (b2 - b1) * (j - i1)) (i2 - i1)). nia. Qed.

(** ** A curve through a table *)

Section Curve.
  Context (key val : nat -> Z).

Fixpoint first_ge (v : Z) (i k : nat) : nat :=
  match k with O => i | S k' => if v <=? key i then i else first_ge v (S i) k' end.

Lemma first_ge_spec v k i :
  let r := first_ge v i k in
  (i <= r <= i + k)%nat /\ (forall j, (i <= j < r)%nat -> key j < v) /\ ((r < i + k)%nat -> v <= key r).
Proof.
  revert i. induction k as [|k IH]; intros i; cbn; [split_and!; lia|].
  destruct (Z.leb_spec v (key i)) as [H|H]; [split_and!; auto with lia|].
  destruct (IH (S i)) as (H1 & H2 & H3). split_and!; [lia|lia|..].
  - intros j Hj. destruct (Nat.eq_dec j i) as [->|]; [done|]. apply H2. lia.
  - intros Hr. apply H3. lia.
Qed.

Lemma first_ge_mono v v' k i : v <= v' -> (first_ge v i k <= first_ge v' i k)%nat.
Proof.
  intros Hv. revert i. induction k as [|k IH]; intros i; cbn; [done|].
  destruct (Z.leb_spec v (key i)), (Z.leb_spec v' (key i)); [done| |lia|apply IH].
  destruct (first_ge_spec v' k (S i)) as [? _]. lia.
Qed.

Definition curve (n : nat) (v : Z) : Z :=
  match first_ge v 0 n with
  | O => val 0
  | S i => if Nat.leb n (S i) then val (n - 1) else lin (key i) (val i) (key (S i)) (val (S i)) v
  end.

(** Where a point of the curve lies. *)
Inductive place (n : nat) (v : Z) : nat -> Z -> Prop :=
| PlaceStart : n = 0%nat \/ v <= key 0 -> place n v 0 (val 0)
| PlaceEnd : (0 < n)%nat -> (forall j, (j < n)%nat -> key j < v) -> place n v n (val (n - 1))
| PlaceSegment i : (S i < n)%nat -> (forall j, (j <= i)%nat -> key j < v) -> v <= key (S i) ->
    place n v (S i) (lin (key i) (val i) (key (S i)) (val (S i)) v).

Lemma curve_place n v : place n v (first_ge v 0 n) (curve n v).
Proof.
  unfold curve. destruct (first_ge_spec v n 0) as (H1 & H2 & H3). destruct (first_ge v 0 n) as [|i].
  - apply PlaceStart. destruct (Nat.eq_dec n 0); [by left|]. right. apply H3. lia.
  - destruct (Nat.leb_spec n (S i)).
    + replace (S i) with n by lia. apply PlaceEnd; [lia|]. intros j Hj. apply H2. lia.
    + apply PlaceSegment; [lia| |apply H3; lia]. intros j Hj. apply H2. lia.
Qed.

(** No table makes the curve leave its neighbours. *)
Lemma curve_between n v : (0 < n)%nat ->
  exists i j, (i < n)%nat /\ (j < n)%nat /\ (i <= j <= S i)%nat /\ between (val i) (val j) (curve n v).
Proof.
  intros Hn. destruct (curve_place n v) as [H|H1 H2|i H1 H2 H3].
  - exists 0%nat, 0%nat. unfold between. split_and!; lia.
  - exists (n - 1)%nat, (n - 1)%nat. unfold between. split_and!; lia.
  - exists i, (S i). split_and!; [lia..|]. specialize (H2 i). apply lin_between; lia.
Qed.

Lemma curve_at n i : (forall j k, (j < k < n)%nat -> key j < key k) -> (i < n)%nat -> curve n (key i) = val i.
Proof.
  intros Hk Hi. destruct (curve_place n (key i)) as [[H|H]|H1 H2|m H1 H2 H3].
  - lia.
  - destruct i as [|i]; [done|]. specialize (Hk 0%nat (S i)). lia.
  - specialize (H2 i Hi). lia.
  - assert (i = S m) as ->; [|apply lin_end; specialize (H2 m); lia].
    destruct (Nat.lt_trichotomy i (S m)) as [?|[?|?]]; [|done|].
    + specialize (H2 i). lia.
    + specialize (Hk (S m) i). lia.
Qed.

(** The curve falls when the values do; nothing is asked of the keys. *)
Lemma curve_anti n v v' :
  (forall j k, (j <= k < n)%nat -> val k <= val j) -> v <= v' -> curve n v' <= curve n v.
Proof.
  intros Hval Hv. pose proof (first_ge_mono v v' n 0 Hv) as Hm.
  destruct (curve_place n v) as [H|H1 H2|i H1 H2 H3]; destruct (curve_place n v') as [H'|H1' H2'|i' H1' H2' H3']; try lia.
  - apply Hval. lia.
  - specialize (H2' i'). destruct (lin_between (key i') (val i') (key (S i')) (val (S i')) v'); [lia..|].
    pose proof (Hval 0%nat i'). pose proof (Hval i' (S i')). lia.
  - specialize (H2 i). destruct (lin_between (key i) (val i) (key (S i)) (val (S i)) v); [lia..|].
    pose proof (Hval i (S i)). pose proof (Hval (S i) (n - 1)%nat). lia.
  - specialize (H2 i). specialize (H2' i'). destruct (Nat.eq_dec i i') as [->|].
    + apply lin_anti; [lia|apply Hval; lia|lia..].
    + destruct (lin_between (key i) (val i) (key (S i)) (val (S i)) v); [lia..|].
      destruct (lin_between (key i') (val i') (key (S i')) (val (S i')) v'); [lia..|].
      pose proof (Hval i (S i)). pose proof (Hval i' (S i')). pose proof (Hval (S i) i'). lia.
Qed.
End Curve.

Lemma curve_mono key val n v v' :
  (forall j k, (j <= k < n)%nat -> val j <= val k) -> v <= v' -> curve key val n v <= curve key val n v'.
Proof.
  intros Hval Hv. assert (forall x, curve key (fun i => - val i) n x = - curve key val n x) as E.
  { intros x. unfold curve. destruct (first_ge key x 0 n) as [|i]; [done|]. destruct (Nat.leb n (S i)); [done|].
    unfold lin. replace ((- val (S i) - - val i) * (x - key i)) with (- ((val (S i) - val i) * (x - key i))) by lia.
    destruct (Z.eq_dec (key (S i) - key i) 0) as [->|]; [rewrite !Z.quot_0_r_ext by done; lia|]. rewrite Z.quot_opp_l by done. lia. }
  pose proof (curve_anti key (fun i => - val i) n v v') as H. rewrite !E in H.
  enough (- curve key val n v' <= - curve key val n v) by lia. apply H; [|done]. intros j k Hjk. specialize (Hval j k Hjk). lia.
Qed.

(** ** The code follows the curve *)

Lemma interpolation_lin i1 b1 i2 b2 i :
  is_s32 b1 -> is_s32 b2 -> is_s32 (i2 - i1) -> i1 < i2 -> i1 <= i <= i2 -> Z.abs (b2 - b1) * (i2 - i1) < 2 ^ 31 ->
  interpolation i1 b1 i2 b2 i = lin i1 b1 i2 b2 i.
Proof.
  unfold is_s32. intros H1 H2 H3 Hlt Hi Hp. pose proof (lin_between i1 b1 i2 b2 i Hlt Hi) as Hb.
  unfold interpolation, lin, between in *. rewrite (s32_id (b2 - b1)), (s32_id (i - i1)), (s32_id (i2 - i1)) by (unfold is_s32; nia).
  rewrite (s32_id ((b2 - b1) * (i - i1))) by (unfold is_s32; nia).
  rewrite (s32_id (_ ÷c _)) by (unfold is_s32; nia). rewrite s32_id by (unfold is_s32; lia). lia.
Qed.

Lemma interpolation_neg i1 b1 i2 b2 i :
  is_s32 (i - i1) -> is_s32 (i2 - i1) -> is_s32 (i1 - i) -> is_s32 (i1 - i2) -> is_s32 (b2 - b1) ->
  is_s32 ((b2 - b1) * (i - i1)) -> is_s32 ((b2 - b1) * (i1 - i)) ->
  interpolation (- i1) b1 (- i2) b2 (- i) = interpolation i1 b1 i2 b2 i.
Proof.
  intros. unfold interpolation. rewrite (s32_id (b2 - b1)) by done.
  replace (- i - - i1) with (i1 - i) by lia. replace (- i2 - - i1) with (i1 - i2) by lia.
  rewrite (s32_id (i - i1)), (s32_id (i2 - i1)), (s32_id (i1 - i)), (s32_id (i1 - i2)) by done.
  rewrite (s32_id ((b2 - b1) * (i - i1))), (s32_id ((b2 - b1) * (i1 - i))) by done.
  do 3 f_equal. replace ((b2 - b1) * (i1 - i)) with (- ((b2 - b1) * (i - i1))) by lia. replace (i1 - i2) with (- (i2 - i1)) by lia.
  destruct (Z.eq_dec (i2 - i1) 0) as [->|]; [by rewrite !Z.quot_0_r_ext|]. by rewrite Z.quot_opp_opp.
Qed.

(** The entries have the types of the source, and percentages below 328 %. *)
Definition sane (e : fuelgauge_profile) : Prop := 0 <= voltage e < 2 ^ 16 /\ 0 <= percentage e < 2 ^ 15.

Lemma sane_at p i : Forall sane p -> sane (at_ p i).
Proof.
  intros H. unfold at_. destruct (Nat.lt_ge_cases i (length p)) as [Hi|Hi]; [|rewrite nth_overflow by done; by unfold sane; cbn].
  rewrite Forall_forall in H. apply H, list_elem_of_In, nth_In. done.
Qed.

Definition volt_at (p : list fuelgauge_profile) (i : nat) : Z := voltage (at_ p i).
Definition pct_at (p : list fuelgauge_profile) (i : nat) : Z := percentage (at_ p i).

Lemma search_ge stop key v p k i :
  (forall i, stop (at_ p i) = (v <=? key i)) -> entry_search stop p i k = first_ge key v i k.
Proof. intros H. revert i. induction k as [|k IH]; intros i; cbn; [done|]. rewrite H, IH. done. Qed.

(** A look-up is a curve, given that its interpolations are lines. *)
Lemma lookup_curve stop x y key n p v kv :
  (forall i, stop (at_ p i) = (kv <=? key i)) ->
  (forall i, (forall j, (j <= i)%nat -> key j < kv) -> kv <= key (S i) ->
     interpolation (x (at_ p i)) (y (at_ p i)) (x (at_ p (S i))) (y (at_ p (S i))) v =
     lin (key i) (y (at_ p i)) (key (S i)) (y (at_ p (S i))) kv) ->
  table_lookup stop x y n p v = curve key (fun i => y (at_ p i)) (Z.to_nat n) kv.
Proof.
  intros Hs Hl. unfold table_lookup, curve. rewrite (search_ge _ key kv) by done.
  destruct (first_ge_spec key kv (Z.to_nat n) 0) as (H1 & H2 & H3).
  destruct (first_ge key kv 0 (Z.to_nat n)) as [|i]; [done|].
  destruct (Z.leb_spec n (Z.of_nat (S i))), (Nat.leb_spec (Z.to_nat n) (S i)); try lia; [do 2 f_equal; lia|].
  apply Hl; [intros j Hj; apply H2; lia|apply H3; lia].
Qed.

Lemma dod_curve p n v : Forall sane p ->
  table_lookup (fun e => v <=? percentage e) percentage voltage n p v = curve (pct_at p) (volt_at p) (Z.to_nat n) v.
Proof.
  intros Hp. apply lookup_curve; [done|]. intros i Hlt Hge. unfold pct_at in *. specialize (Hlt i).
  destruct (sane_at p i Hp), (sane_at p (S i) Hp). apply interpolation_lin; unfold is_s32; nia.
Qed.

Lemma ocv_curve p n v : Forall sane p ->
  table_lookup (fun e => voltage e <=? v) voltage percentage n p v =
  curve (fun i => - volt_at p i) (pct_at p) (Z.to_nat n) (- v).
Proof.
  intros Hp. apply lookup_curve; [intros i; unfold volt_at; destruct (Z.leb_spec (voltage (at_ p i)) v), (Z.leb_spec (- v) (- voltage (at_ p i))); lia|].
  intros i Hlt Hge. unfold volt_at in *. specialize (Hlt i). destruct (sane_at p i Hp), (sane_at p (S i) Hp).
  rewrite <- interpolation_neg by (unfold is_s32; nia). apply interpolation_lin; unfold is_s32; nia.
Qed.

Section Tables.
  Context (t : fuel_gauge_table_data) (p : list fuelgauge_profile).
  Context (Ht : c_table t = Some p) (Hsane : Forall sane p) (Hsize : 0 < fg_get_saddles t).
  Abbreviation n := (Z.to_nat (fg_get_saddles t)).

Lemma DOD_to_OCV_curve d : DOD_to_OCV_c t d = curve (pct_at p) (volt_at p) n d.
Proof using Ht Hsane. unfold DOD_to_OCV_c. rewrite Ht. by apply dod_curve. Qed.
Lemma OCV_to_DOD_curve v : OCV_to_DOD_c t v = curve (fun i => - volt_at p i) (pct_at p) n (- v).
Proof using Ht Hsane. unfold OCV_to_DOD_c. rewrite Ht. by apply ocv_curve. Qed.

Lemma ocv_to_dod_range v : 0 <= OCV_to_DOD_c t v < 2 ^ 15.
Proof using Ht Hsane Hsize.
  rewrite OCV_to_DOD_curve. destruct (curve_between (fun i => - volt_at p i) (pct_at p) n (- v)) as (i & j & _ & _ & _ & H); [lia|].
  assert (forall i, 0 <= pct_at p i < 2 ^ 15) as Hr by (intros k; apply (sane_at p k Hsane)). unfold between in H.
  pose proof (Hr i). pose proof (Hr j). lia.
Qed.

Lemma OCV_to_SOC_eq v : OCV_to_SOC_c t v = 10000 - OCV_to_DOD_c t v.
Proof using Ht Hsane Hsize.
  pose proof (ocv_to_dod_range v) as H. unfold OCV_to_SOC_c, OCV_to_DOD_c in *. rewrite Ht in *. apply s32_id. unfold is_s32. lia.
Qed.
Lemma SOC_to_OCV_eq s : is_s32 (10000 - s) -> SOC_to_OCV_c t s = DOD_to_OCV_c t (10000 - s).
Proof using Ht. intros H. unfold SOC_to_OCV_c, DOD_to_OCV_c. rewrite Ht. by rewrite s32_id. Qed.

(** The look-up of the depth of discharge for a voltage is safe for any
    table the types allow: it never divides by zero (the two voltages between
    which it interpolates differ), and its result lies between the percentages
    of two neighbouring entries. *)
Theorem ocv_lookup_safe v :
  exists i j, (i < n)%nat /\ (j < n)%nat /\ (i <= j <= S i)%nat /\
    between (pct_at p i) (pct_at p j) (OCV_to_DOD_c t v) /\ (i <> j -> volt_at p i <> volt_at p j).
Proof using Ht Hsane Hsize.
  rewrite OCV_to_DOD_curve. destruct (curve_place (fun i => - volt_at p i) (pct_at p) n (- v)) as [H|H1 H2|i H1 H2 H3].
  - exists 0%nat, 0%nat. unfold between. split_and!; lia.
  - exists (n - 1)%nat, (n - 1)%nat. unfold between. split_and!; lia.
  - exists i, (S i). specialize (H2 i (Nat.le_refl i)). cbn beta in *. split_and!; [lia..|apply lin_between; lia|lia].
Qed.

(** C23: a higher voltage never means a lower state of charge, for every table that
    has entries, 16-bit voltages in any order, and percentages that do not fall and
    stay below 2^15 hundredths (327.68 %): beyond that the interpolation in 32 bits
    can overflow. *)
Theorem ocv_to_soc_monotone v v' :
  (forall j k, (j <= k < n)%nat -> pct_at p j <= pct_at p k) -> v <= v' -> OCV_to_SOC_c t v <= OCV_to_SOC_c t v'.
Proof using Ht Hsane Hsize.
  intros Hp Hv. rewrite !OCV_to_SOC_eq, !OCV_to_DOD_curve.
  pose proof (curve_mono (fun i => - volt_at p i) (pct_at p) n (- v') (- v)) as H. specialize (H Hp ltac:(lia)). lia.
Qed.

Lemma curve_segment key val m v i :
  (S i < m)%nat -> (forall j, (j <= i)%nat -> key j < v) -> v <= key (S i) ->
  curve key val m v = lin (key i) (val i) (key (S i)) (val (S i)) v.
Proof.
  intros Hi Hlt Hge. destruct (curve_place key val m v) as [[H|H]|H1 H2|k H1 H2 H3].
  - lia.
  - specialize (Hlt 0%nat). lia.
  - specialize (H2 (S i) ltac:(lia)). lia.
  - destruct (Nat.lt_trichotomy i k) as [?|[->|?]]; [|done|].
    + specialize (H2 (S i)). lia.
    + specialize (Hlt (S k)). lia.
Qed.

(** One segment: down to a percentage and back up. *)
Lemma segment_back dp dv x k : 0 < dp -> 0 < dv <= k * dp -> 0 <= x <= dv ->
  let d := dp * x / dv in 0 <= d <= dp /\ 0 <= x - dv * d / dp <= k.
Proof.
  intros Hdp Hdv Hx d. pose proof (share_bound dp x dv ltac:(lia) ltac:(lia) ltac:(lia)) as Hd. fold d in Hd. split; [done|].
  assert (dv * d <= dp * x < dv * d + dv) as [E1 E2].
  { unfold d. pose proof (Z.mul_div_le (dp * x) dv). pose proof (Z.mul_succ_div_gt (dp * x) dv). lia. }
  assert (dv * d / dp <= x) by (apply Z.div_le_upper_bound; lia).
  assert (x - k <= dv * d / dp) by (apply Z.div_le_lower_bound; nia). lia.
Qed.

(** C24: the round trip from voltage to depth of discharge and back, on a table
    with rising percentages below 2^15 hundredths and falling 16-bit voltages:
    within the table, the voltage that comes back is the one that went in or up to
    [k] above it, where [k] is the steepest fall of the voltage per hundredth of a
    percent. *)
Theorem ocv_dod_roundtrip (k v : Z) :
  (forall i j, (i < j < n)%nat -> pct_at p i < pct_at p j /\ volt_at p j < volt_at p i) ->
  (forall i, (S i < n)%nat -> volt_at p i - volt_at p (S i) <= k * (pct_at p (S i) - pct_at p i)) ->
  volt_at p (n - 1) <= v <= volt_at p 0 ->
  v <= DOD_to_OCV_c t (OCV_to_DOD_c t v) <= v + Z.max 0 k.
Proof using Ht Hsane Hsize.
  intros Hm Hk Hv. rewrite DOD_to_OCV_curve, OCV_to_DOD_curve.
  assert (forall i, (i < n)%nat -> curve (pct_at p) (volt_at p) n (pct_at p i) = volt_at p i) as Hat
    by (intros i Hi; apply curve_at; [intros j q Hj; by apply Hm|done]).
  destruct (curve_place (fun i => - volt_at p i) (pct_at p) n (- v)) as [H|H1 H2|i H1 H2 H3].
  - rewrite Hat by lia. lia.
  - specialize (H2 (n - 1)%nat). lia.
  - destruct (Hm i (S i)) as [Hp1 Hv1]; [lia|]. specialize (Hk i H1). specialize (H2 i (Nat.le_refl i)).
    destruct (segment_back (pct_at p (S i) - pct_at p i) (volt_at p i - volt_at p (S i)) (volt_at p i - v) k) as [Hd Hb]; [lia..|].
    unfold lin at 1 2. replace (- volt_at p (S i) - - volt_at p i) with (volt_at p i - volt_at p (S i)) by lia.
    replace (- v - - volt_at p i) with (volt_at p i - v) by lia. rewrite quot_up by lia. cbv zeta in Hd, Hb.
    set (d := (pct_at p (S i) - pct_at p i) * (volt_at p i - v) / (volt_at p i - volt_at p (S i))) in *.
    clearbody d. destruct (Z.eq_dec d 0) as [->|Hnz].
    + rewrite Z.add_0_r, Hat by lia. rewrite Z.mul_0_r, Z.div_0_l in Hb by lia. lia.
    + rewrite (curve_segment _ _ _ _ i); [|done| |lia].
      * unfold lin. rewrite quot_down by lia. replace (pct_at p i + d - pct_at p i) with d by lia.
        replace (- (volt_at p (S i) - volt_at p i)) with (volt_at p i - volt_at p (S i)) by lia. lia.
      * intros j Hj. destruct (Nat.eq_dec j i) as [->|]; [lia|]. destruct (Hm j i); lia.
Qed.
End Tables.

(** ** Which order the temperatures have *)

Lemma order_loop_stops bad t on k i flags :
  order_loop bad t on i (S k) flags =
  if bad (temperature (tab t i)) (temperature (tab t (S i))) then flags else on.
Proof.
  revert i flags. induction k as [|k IH]; intros i flags; cbn in *; [done|].
  destruct (bad (temperature (tab t i)) _); [done|]. rewrite IH. by case_match.
Qed.

(** [fg_check_temperature_order] looks at the first two tables only: it
    accepts any list of two or more tables, in whatever order the others are,
    and calls it descending if the second temperature is not above the first,
    ascending otherwise; it never reports the setting error it is there for. *)
Theorem temperature_order_unchecked t :
  2 <= active_table_number t ->
  fg_check_temperature_order t =
    (0, if temperature (tab t 1) <=? temperature (tab t 0) then (0, 1) else (1, 0)).
Proof.
  intros Hn. unfold fg_check_temperature_order.
  replace (Z.to_nat (active_table_number t - 1)) with (S (Z.to_nat (active_table_number t - 2))) by lia.
  rewrite !order_loop_stops. destruct (Z.ltb_spec (temperature (tab t 1)) (temperature (tab t 0))),
    (Z.ltb_spec (temperature (tab t 0)) (temperature (tab t 1))), (Z.leb_spec (temperature (tab t 1)) (temperature (tab t 0)));
    try lia; done.
Qed.

(** ** Interpolating between two tables *)

Lemma div_sum a b d : 0 < d -> a / d + b / d <= (a + b) / d.
Proof. intros Hd. apply Z.div_le_lower_bound; [done|]. pose proof (Z.mul_div_le a d Hd). pose proof (Z.mul_div_le b d Hd). lia. Qed.

(** Rounding keeps the order of two lines over the same points. *)
Lemma lin_order i1 i2 i a b a' b' : i1 < i2 -> i1 <= i <= i2 -> a' <= a -> b' <= b ->
  lin i1 a' i2 b' i <= lin i1 a i2 b i.
Proof.
  intros Hd Hi Ha Hb. unfold lin. set (d := i2 - i1). set (x := i - i1). assert (0 < d /\ 0 <= x <= d) as [Hd' Hx] by lia. clearbody d x.
  destruct (Z.le_gt_cases a b), (Z.le_gt_cases a' b').
  - rewrite !quot_up by lia. rewrite <- !Z.div_add_l by lia. apply Z.div_le_mono; nia.
  - rewrite (quot_up (b - a)), (quot_down (b' - a')) by lia. pose proof (share_bound (- (b' - a')) x d). pose proof (share_bound (b - a) x d). lia.
  - rewrite (quot_down (b - a)), (quot_up (b' - a')) by lia. assert ((b' - a') * x / d + - (b - a) * x / d <= a - a'); [|lia].
    transitivity (((b' - a') * x + - (b - a) * x) / d); [by apply div_sum|]. apply Z.div_le_upper_bound; nia.
  - rewrite !quot_down by lia. assert (- (b - a) * x / d <= a - a' + - (b' - a') * x / d); [|lia].
    rewrite <- Z.div_add_l by lia. apply Z.div_le_mono; nia.
Qed.

(** Along the table the battery empties: the charge taken out does not fall and
    the voltage does not rise. *)
Definition emptying (n : nat) (p : list fuelgauge_profile) : Prop :=
  forall j k, (j <= k < n)%nat -> mah (at_ p j) <= mah (at_ p k) /\ voltage (at_ p k) <= voltage (at_ p j).

(** Up to 105 Ah and 6.5 V. *)
Definition entry_ok (e : fuelgauge_profile) : Prop := 0 <= mah e < 2 ^ 20 /\ 0 <= voltage e < 2 ^ 16.

Lemma ok_at p i : Forall entry_ok p -> entry_ok (at_ p i).
Proof.
  intros H. unfold at_. destruct (Nat.lt_ge_cases i (length p)) as [Hi|Hi]; [|rewrite nth_overflow by done; by unfold entry_ok; cbn].
  rewrite Forall_forall in H. apply H, list_elem_of_In, nth_In. done.
Qed.

Lemma at_update n f p i : (i < length p)%nat ->
  at_ (update_upto n f p) i = if Z.of_nat i <? n then f i (at_ p i) else at_ p i.
Proof.
  intros Hi. unfold at_, update_upto. apply nth_lookup_Some. rewrite list_lookup_imap.
  destruct (nth_lookup_or_length p i prof0) as [->|]; [done|lia].
Qed.

Lemma mix_values lt ht T lo hi old :
  entry_ok lo -> entry_ok hi -> lt < ht -> ht - lt < 2 ^ 11 -> lt <= T <= ht ->
  let e := mix_entry lt ht T lo hi old in
  mah e = lin lt (mah lo) ht (mah hi) T /\ voltage e = lin lt (voltage lo) ht (voltage hi) T /\ entry_ok e.
Proof.
  intros [M1 V1] [M2 V2] H1 H2 HT e.
  destruct (lin_between lt (mah lo) ht (mah hi) T H1 HT) as [B1 B2].
  destruct (lin_between lt (voltage lo) ht (voltage hi) T H1 HT) as [B3 B4].
  assert (mah e = lin lt (mah lo) ht (mah hi) T /\ voltage e = lin lt (voltage lo) ht (voltage hi) T) as [E1 E2].
  { unfold e, mix_entry. cbn. rewrite !s32_id by (unfold is_s32; lia). rewrite !interpolation_lin by (unfold is_s32; nia).
    split; [by apply u32_id; unfold is_u32; lia|]. unfold u16, wrapu. apply Z.mod_small. lia. }
  split_and!; [done..|]. unfold entry_ok. lia.
Qed.

(** Interpolating between two tables keeps their order: when the charge
    taken out rises and the voltage falls along both tables, they do so along
    the table that is made of them for a temperature in between, although every
    entry is rounded on its own. *)
Theorem mixed_table_emptying (n : nat) lt ht T lo hi old :
  Forall entry_ok lo -> Forall entry_ok hi -> emptying n lo -> emptying n hi -> (n <= length old)%nat ->
  lt < ht -> ht - lt < 2 ^ 11 -> lt <= T <= ht ->
  emptying n (update_upto (Z.of_nat n) (fun i => mix_entry lt ht T (at_ lo i) (at_ hi i)) old).
Proof.
  intros Olo Ohi Elo Ehi Hn H1 H2 HT j k Hjk. rewrite !at_update by lia. rewrite !(proj2 (Z.ltb_lt _ _)) by lia.
  destruct (mix_values lt ht T (at_ lo j) (at_ hi j) (at_ old j) (ok_at _ _ Olo) (ok_at _ _ Ohi) H1 H2 HT) as (-> & -> & _).
  destruct (mix_values lt ht T (at_ lo k) (at_ hi k) (at_ old k) (ok_at _ _ Olo) (ok_at _ _ Ohi) H1 H2 HT) as (-> & -> & _).
  destruct (Elo j k Hjk), (Ehi j k Hjk). split; by apply lin_order.
Qed.

(** The percentages rise with the charge. *)
Lemma percentages_rise (n : nat) q p :
  Forall entry_ok p -> emptying n p -> (n <= 100)%nat -> (n <= length p)%nat -> 0 < q < 2 ^ 32 ->
  (forall i, (i < n)%nat -> mah (at_ p i) * 10000 < 2 ^ 16 * q /\ mah (at_ p i) * 10000 < 2 ^ 32) ->
  forall j k, (j <= k < n)%nat -> pct_at (set_percentages q p) j <= pct_at (set_percentages q p) k.
Proof.
  intros Hok He H100 Hl Hq Hm j k Hjk. unfold pct_at, set_percentages. rewrite !at_update by lia.
  rewrite !(proj2 (Z.ltb_lt _ _)) by lia. cbn. destruct (He j k Hjk) as [Hle _].
  assert (forall i, (i < n)%nat -> u16 (u32 (mah (at_ p i) * 10000) / u32 q) = mah (at_ p i) * 10000 / q) as E.
  { intros i Hi. destruct (Hm i Hi) as [B1 B2]. destruct (ok_at p i Hok) as [Hmi _]. rewrite !u32_id by (unfold is_u32; lia).
    unfold u16, wrapu. apply Z.mod_small. split; [apply Z.div_pos; lia|apply Z.div_lt_upper_bound; lia]. }
  rewrite !E by lia. apply Z.div_le_mono; lia.
Qed.

(** ** A battery of 5 Ah *)

Module TestTable.
Definition pad (l : list fuelgauge_profile) : list fuelgauge_profile := l ++ repeat prof0 (100 - length l).
Definition cold : list fuelgauge_profile := pad
  [mk_prof 0 43000 2200 2200 0; mk_prof 16000 38800 2300 2300 4000; mk_prof 32000 36500 2500 2500 8000; mk_prof 40000 33500 3000 3000 10000].
Definition warm : list fuelgauge_profile := pad
  [mk_prof 0 43500 1000 1000 0; mk_prof 20000 39000 1100 1100 4000; mk_prof 40000 37000 1200 1200 8000; mk_prof 50000 34000 1500 1500 10000].
Definition at_temp (temp q : Z) (p : list fuelgauge_profile) : fuel_gauge_table := mk_table temp q q 0 0 33500 3000 3300 4 p.
(** The table in use is the one for 25 degrees. *)
Definition t : fuel_gauge_table_data := mk_tables 2 [at_temp 25 5000 warm; at_temp 0 4000 cold] 255 warm 254 warm.

Lemma steps : forall i, (i < 3)%nat ->
  pct_at warm i < pct_at warm (S i) /\ volt_at warm (S i) < volt_at warm i /\
  volt_at warm i - volt_at warm (S i) <= 2 * (pct_at warm (S i) - pct_at warm i).
Proof. intros [|[|[|]]] Hi; try lia; vm_compute; done. Qed.
Lemma steps_order i j : (i < j < 4)%nat -> pct_at warm i < pct_at warm j /\ volt_at warm j < volt_at warm i.
Proof. intros [Hij Hj]. destruct i as [|[|[|]]], j as [|[|[|[|]]]]; try lia; vm_compute; done. Qed.
Lemma sane_warm : Forall sane warm.
Proof. unfold warm, pad. repeat constructor; cbn; lia. Qed.
Lemma ok_cold : Forall entry_ok cold.
Proof. repeat constructor; cbn; lia. Qed.
Lemma ok_warm : Forall entry_ok warm.
Proof. repeat constructor; cbn; lia. Qed.
Lemma emptying_tables p : p = cold \/ p = warm -> emptying 4 p.
Proof. intros Hp j k [Hjk Hk]. destruct Hp as [-> | ->]; destruct j as [|[|[|[|]]]], k as [|[|[|[|]]]]; try lia; vm_compute; split; discriminate. Qed.
End TestTable.

Lemma ocv_lookup_safe_witness :
  exists i j, (i < 4)%nat /\ (j < 4)%nat /\ (i <= j <= S i)%nat /\
    between (pct_at TestTable.warm i) (pct_at TestTable.warm j) (OCV_to_DOD_c TestTable.t 38000) /\
    (i <> j -> volt_at TestTable.warm i <> volt_at TestTable.warm j).
Proof. exact (ocv_lookup_safe TestTable.t TestTable.warm eq_refl TestTable.sane_warm eq_refl 38000). Defined.

Lemma ocv_to_soc_monotone_witness : OCV_to_SOC_c TestTable.t 38000 <= OCV_to_SOC_c TestTable.t 40000.
Proof.
  apply (ocv_to_soc_monotone TestTable.t TestTable.warm eq_refl TestTable.sane_warm eq_refl); [|lia].
  intros j k [Hjk Hk]. destruct (Nat.eq_dec j k) as [->|]; [lia|]. apply Z.lt_le_incl, TestTable.steps_order. cbn in *. lia.
Defined.

Lemma ocv_dod_roundtrip_witness : 38001 <= DOD_to_OCV_c TestTable.t (OCV_to_DOD_c TestTable.t 38001) <= 38001 + Z.max 0 2.
Proof.
  apply (ocv_dod_roundtrip TestTable.t TestTable.warm eq_refl TestTable.sane_warm eq_refl 2 38001).
  - apply TestTable.steps_order.
  - intros i Hi. apply TestTable.steps. cbn in *. lia.
  - vm_compute. split; discriminate.
Defined.

Lemma temperature_order_unchecked_witness : fg_check_temperature_order TestTable.t = (0, (0, 1)).
Proof. apply (temperature_order_unchecked TestTable.t). done. Defined.

Lemma mixed_table_emptying_witness :
  emptying 4 (update_upto 4 (fun i => mix_entry 0 25 10 (at_ TestTable.cold i) (at_ TestTable.warm i)) TestTable.warm).
Proof.
  apply (mixed_table_emptying 4 0 25 10 TestTable.cold TestTable.warm TestTable.warm TestTable.ok_cold TestTable.ok_warm);
    [apply TestTable.emptying_tables; by left|apply TestTable.emptying_tables; by right|cbn; lia|lia..].
Defined.
