(* ===== verification/BatteryAlgo.v ===== *)
(** * The battery algorithm in the kernel (mtk_battery_algo.c)

    It tracks the state of charge by counting coulombs from an initial
    open-circuit voltage, and moves the percentage that the user sees after it.
    It runs when the gauge daemon does not: the interrupts of the gauge, the
    coulomb service and the timers call [do_fg_algo].  What it calls of the rest
    of the system is the type class [AlgoEnv]. *)

From S2P Require Import Prelude Mt6357 BatteryTable.
#[local] Open Scope Z_scope.

(** ** State *)

(** [struct mtk_battery_algo]. *)
Record battery_algo : Type := mk_algo {
  active : bool;
  last_temp : Z;
  T_table : Z;
  T_table_c : Z;
  dod_init_done : bool;
  soc : Z;
  fg_bat_tmp_c_gap : Z;
  fg_c_d0_ocv : Z;
  fg_c_d0_dod : Z;
  fg_c_d0_soc : Z;
  fg_c_dod : Z;
  fg_c_soc : Z;
  fg_bat_int1_gap : Z;
  prev_car_bat0 : Z;
  rtc_ui_soc : Z;
  ui_soc : Z;
  ui_d0_soc : Z;
  vboot : Z;
  vboot_c : Z;
  qmax_t_0ma : Z;
  qmax_t_0ma_tb1 : Z;
  qmax_t_0ma_h : Z;
  qmax_t_Nma_h : Z;
  quse_tb0 : Z;
  quse_tb1 : Z;
  car : Z;
  batterypseudo1_h : Z;
  batterypseudo100 : Z;
  shutdown_hl_zcv : Z;
  qmax_t_0ma_h_tb1 : Z;
  qmax_t_Nma_h_tb1 : Z;
  qmax_t_aging : Z;
  aging_factor : Z;
  fg_resistance_bat : Z;
  DC_ratio : Z;
  ht_gap : Z;
  lt_gap : Z;
  low_tracking_enable : Z;
  fg_vbat2_lt : Z;
  fg_vbat2_ht : Z;
  uisoc_ht_en : Z;
  uisoc_lt_en : Z
}.
#[global] Instance battery_algo_struct : Struct battery_algo := fun r => mk_algo
  (active r) (last_temp r) (T_table r) (T_table_c r) (dod_init_done r) (soc r) (fg_bat_tmp_c_gap r)
  (fg_c_d0_ocv r) (fg_c_d0_dod r) (fg_c_d0_soc r) (fg_c_dod r) (fg_c_soc r) (fg_bat_int1_gap r)
  (prev_car_bat0 r) (rtc_ui_soc r) (ui_soc r) (ui_d0_soc r) (vboot r) (vboot_c r) (qmax_t_0ma r)
  (qmax_t_0ma_tb1 r) (qmax_t_0ma_h r) (qmax_t_Nma_h r) (quse_tb0 r) (quse_tb1 r) (car r) (batterypseudo1_h r)
  (batterypseudo100 r) (shutdown_hl_zcv r) (qmax_t_0ma_h_tb1 r) (qmax_t_Nma_h_tb1 r) (qmax_t_aging r)
  (aging_factor r) (fg_resistance_bat r) (DC_ratio r) (ht_gap r) (lt_gap r) (low_tracking_enable r)
  (fg_vbat2_lt r) (fg_vbat2_ht r) (uisoc_ht_en r) (uisoc_lt_en r).

(** [struct fuel_gauge_custom_data]: the fields the algorithm reads. *)
Record fg_custom : Type := mk_custom {
  pseudo1_en : Z;
  pseudo100_en : Z;
  qmax_sel : Z;
  iboot_sel : Z;
  shutdown_system_iboot : Z;
  fg_meter_resistance : Z;
  r_fg_value : Z;
  diff_soc_setting : Z;
  discharge_tracking_time : Z;
  vbat2_det_voltage1 : Z;
  vbat2_det_voltage2 : Z;
  vbat2_det_voltage3 : Z;
  d0_sel : Z;
  aging_sel : Z;
  ui_old_soc : Z
}.
#[global] Instance fg_custom_struct : Struct fg_custom := fun r => mk_custom
  (pseudo1_en r) (pseudo100_en r) (qmax_sel r) (iboot_sel r) (shutdown_system_iboot r)
  (fg_meter_resistance r) (r_fg_value r) (diff_soc_setting r) (discharge_tracking_time r)
  (vbat2_det_voltage1 r) (vbat2_det_voltage2 r) (vbat2_det_voltage3 r) (d0_sel r) (aging_sel r)
  (ui_old_soc r).

(** The part of [struct mtk_battery] the algorithm uses.  [div_by_zero] records a
    division by zero: undefined in C, 0 on this processor. *)
Record algo_battery : Type := mk_ab {
  algo : battery_algo;
  ptable : fuel_gauge_table_data;
  pdata : fg_custom;
  gm_soc : Z;
  gm_ui_soc : Z;
  gm_disabled : bool;
  gm_capacity : Z;
  gm_bat_status : Z;
  gm_init_flag : Z;
  div_by_zero : bool
}.
#[global] Instance algo_battery_struct : Struct algo_battery := fun r => mk_ab
  (algo r) (ptable r) (pdata r) (gm_soc r) (gm_ui_soc r) (gm_disabled r) (gm_capacity r) (gm_bat_status r)
  (gm_init_flag r) (div_by_zero r).

(** The battery properties the algorithm sets that belong to other components. *)
Inductive battery_property : Type :=
| BAT_PROP_COULOMB_INT_GAP | BAT_PROP_UISOC_HT_INT_GAP | BAT_PROP_UISOC_LT_INT_GAP
| BAT_PROP_ENABLE_UISOC_HT_INT | BAT_PROP_ENABLE_UISOC_LT_INT | BAT_PROP_FG_RESET | BAT_PROP_TEMP_TH_GAP.

(** The gauge ([gauge_get_int_property], [gauge_set_property]), the coulomb
    service and the temperature window behind [battery_set_property], the
    temperature of the battery, the supplies "ac" and "usb" ([None] without the
    supply, [Some None] when it does not tell), the battery's current from the
    gauge's supply, the boot clock in seconds and the tracking alarm, the
    shutdown controller, and the refresh of the battery's supply. *)
Class AlgoEnv (E : Type) : Type := {
  env_gauge_get : gauge_property -> M E Z;
  env_gauge_set : gauge_property -> Z -> M E unit;
  env_battery_set : battery_property -> Z -> M E unit;
  env_tbat : M E Z;
  env_online : string -> M E (option (option Z));
  env_ptim_current : M E (option Z);
  env_boottime : M E Z;
  env_alarm_start : Z -> Z -> M E unit;
  env_get_shutdown_cond : M E Z;
  env_set_shutdown_cond : Z -> M E unit;
  env_battery_update : M E unit
}.

Record aworld (E : Type) : Type := mk_aworld { ab : algo_battery; ae : E }.
Arguments mk_aworld {E}.
Arguments ab {E}.
Arguments ae {E}.
#[global] Instance aworld_struct E : Struct (aworld E) := fun r => mk_aworld (ab r) (ae r).

Definition UNIT_TRANS_10 : Z := 10.
Definition UNIT_TRANS_100 : Z := 100.
Definition CAR_MIN_GAP : Z := 15.
Definition LOW_BAT_VOLT : Z := 4.
Definition POWER_SUPPLY_STATUS_NOT_CHARGING : Z := 3.

Inductive fg_intr : Type :=
| FG_INTR_FG_TIME | FG_INTR_BAT_INT1_HT | FG_INTR_BAT_INT1_LT | FG_INTR_BAT_INT2_HT | FG_INTR_BAT_INT2_LT
| FG_INTR_SHUTDOWN | FG_INTR_VBAT2_L | FG_INTR_VBAT2_H | FG_INTR_DLPT_SD | FG_INTR_BAT_TMP_C_HT | FG_INTR_BAT_TMP_C_LT
| FG_INTR_other (n : Z).

(** [undef] is what an uninitialised variable holds, [before] the memory before
    an array. *)
Section Algo.
  Context {E : Type} `{!AlgoEnv E} (undef : Z) (before : fuelgauge_profile).
  Abbreviation W := (aworld E).

Definition lift {A} (m : M E A) : M W A := fun w => let '(a, e) := m (ae w) in (a, w <| ae := e |>).
Definition geta {A} (f : battery_algo -> A) : M W A := gets (fun w => f (algo (ab w))).
Definition moda (f : battery_algo -> battery_algo) : M W unit := modify (fun w => w <| ab ::= fun b => b <| algo ::= f |> |>).
Definition getp {A} (f : fg_custom -> A) : M W A := gets (fun w => f (pdata (ab w))).
Definition gett {A} (f : fuel_gauge_table_data -> A) : M W A := gets (fun w => f (ptable (ab w))).
Definition modt (f : fuel_gauge_table_data -> fuel_gauge_table_data) : M W unit :=
  modify (fun w => w <| ab ::= fun b => b <| ptable ::= f |> |>).
Definition modb (f : algo_battery -> algo_battery) : M W unit := modify (fun w => w <| ab ::= f |>).

(** [x / y] of [int]s. *)
Definition cdiv (x y : Z) : M W Z :=
  when (y =? 0) (modb (fun b => b <| div_by_zero := true |>)) ;;; ret (s32 (x ÷c y)).

Definition gauge_get_int_property (p : gauge_property) : M W Z := let! v := lift (env_gauge_get p) in ret (s32 v).
Definition gauge_set_property (p : gauge_property) (v : Z) : M W unit := lift (env_gauge_set p v).
Definition battery_set_property (p : battery_property) (v : Z) : M W unit := lift (env_battery_set p v).
Definition force_get_tbat : M W Z := let! v := lift env_tbat in ret (s32 v).

(** ** Helpers *)

(** [uisoc_set] of mtk_battery.c, behind [BAT_PROP_UISOC]. *)
Definition uisoc_set (val : Z) : M W unit :=
  let daemon_ui_soc := if val <? 0 then 0 else val in
  modb (fun b => b <| pdata ::= fun p => p <| ui_old_soc := daemon_ui_soc |> |>) ;;;
  modb (fun b => b <| gm_ui_soc := if gm_disabled b then 50 else s32 (daemon_ui_soc + 50) ÷c 100 |>) ;;;
  modb (fun b => b <| gm_capacity := gm_ui_soc b |>) ;;;
  lift env_battery_update.

Definition set_kernel_soc (_soc : Z) : M W Z :=
  modb (fun b => b <| gm_soc := s32 (_soc + 50) ÷c 100 |>) ;;; ret 0.

Definition set_fg_bat_tmp_c_gap (tmp : Z) : M W unit := battery_set_property BAT_PROP_TEMP_TH_GAP tmp.

(** The nanoseconds come from an uninitialised field. *)
Definition set_fg_time (_time : Z) : M W unit :=
  let! now := lift env_boottime in lift (env_alarm_start (now + _time) undef).

Definition get_d0_c_soc_cust (value : Z) : Z := value.
Definition get_uisoc_cust (value : Z) : Z := value.
Definition get_ptimrac : M W Z := gauge_get_int_property GAUGE_PROP_PTIM_RESIST.
Definition get_ptim_vbat : M W Z :=
  let! v := gauge_get_int_property GAUGE_PROP_PTIM_BATTERY_VOLTAGE in ret (s32 (v * 10)).
Definition get_ptim_i : M W Z := let! v := lift env_ptim_current in ret (default undef v).
Definition get_hw_info : M W unit := gauge_set_property GAUGE_PROP_HW_INFO 0.

Definition online (name : string) : M W bool :=
  let! r := lift (env_online name) in
  ret (match r with Some v => default undef v =? 1 | None => false end).
Definition get_charger_exist : M W bool :=
  let! ac := online "ac" in if ac then ret true else online "usb".

Definition get_charger_status : M W Z :=
  gets (fun w => if gm_bat_status (ab w) =? POWER_SUPPLY_STATUS_NOT_CHARGING then -1 else 0).
Definition get_imix_r : M W Z := ret 0.
Definition fg_adc_reset : M W Z := battery_set_property BAT_PROP_FG_RESET 0 ;;; ret 0.

(** ** Tables for the present temperature *)

(** [fgr_construct_battery_profile] once the two tables are known: the end of
    the function, from the limits on the temperature. *)
Definition mix_tables (table_idx : Z) (ref lowp highp : profile_ref) (lo hi : fuel_gauge_table) : M W unit :=
  let lt := temperature lo in
  let ht := temperature hi in
  let! temp := geta (fun a => clamp_temp lt ht (last_temp a)) in
  let mix x y := interpolation lt x ht y temp in
  when (table_idx =? 255) (moda (fun a => a <| T_table := temp |>)) ;;;
  when (table_idx =? 254) (moda (fun a => a <| T_table_c := temp |>)) ;;;
  modt (fun t => write_profile ref
    (update_upto (fg_get_saddles t)
       (fun i => mix_entry lt ht temp (at_ (read_profile t lowp) i) (at_ (read_profile t highp) i))
       (read_profile t ref)) t) ;;;
  let! t := gett (fun t => t) in
  let! p := getp (fun p => p) in
  let mix10 (q : fuel_gauge_table -> Z) := mix (s32 (UNIT_TRANS_10 * q lo)) (s32 (UNIT_TRANS_10 * q hi)) in
  if table_idx =? temperature_tb0 t then
    when (pseudo1_en p =? 1) (moda (fun a => a <| batterypseudo1_h := mix (pseudo1 lo) (pseudo1 hi) |>)) ;;;
    when (pseudo100_en p =? 1) (moda (fun a => a <| batterypseudo100 := mix (pseudo100 lo) (pseudo100 hi) |>)) ;;;
    moda (fun a => a <| qmax_t_0ma_h := mix10 q_max |> <| qmax_t_Nma_h := mix10 q_max_h_current |>
                     <| shutdown_hl_zcv := mix10 tb_shutdown_hl_zcv |>)
  else when (table_idx =? temperature_tb1 t)
    (moda (fun a => a <| qmax_t_0ma_h_tb1 := mix10 q_max |> <| qmax_t_Nma_h_tb1 := mix10 q_max_h_current |>)).

Definition fgr_construct_battery_profile (table_idx : Z) : M W unit :=
  let! t := gett (fun t => t) in
  match fg_get_profile t table_idx with
  | None => ret tt
  | Some ref =>
      let order := fg_check_temperature_order t in
      if negb (fst order =? 0) then ret tt
      else
        let! temp := geta last_temp in
        let '(l, h) := table_pair (negb (fst (snd order) =? 0)) t temp in
        match fg_get_profile t (temperature (tab t l)), fg_get_profile t (temperature (tab t h)) with
        | Some lowp, Some highp => mix_tables table_idx ref lowp highp (tab t l) (tab t h)
        | _, _ => ret tt
        end
  end.

Definition fgr_construct_table_by_temp (update : bool) (table_idx : Z) : M W unit :=
  let! fg_temp := force_get_tbat in
  let! last := geta last_temp in
  when (negb (fg_temp =? last) || update)
    (moda (fun a => a <| last_temp := fg_temp |>) ;;; fgr_construct_battery_profile table_idx).

(** [profile_p] is not tested for a null pointer; [None] stands for the fault. *)
Definition with_profile (table_idx : Z) (k : profile_ref -> list fuelgauge_profile -> M W unit) : M W unit :=
  let! t := gett (fun t => t) in
  match fg_get_profile t table_idx with Some r => k r (read_profile t r) | None => ret tt end.

Definition store_percentages (r : profile_ref) (q : Z) : M W unit :=
  when (q =? 0) (modb (fun b => b <| div_by_zero := true |>)) ;;;
  modt (fun t => write_profile r (set_percentages q (read_profile t r)) t).

Definition fg_construct_battery_profile_by_qmax (qmax table_index : Z) : M W unit :=
  with_profile table_index (fun r _ =>
    let! t := gett (fun t => t) in
    if table_index =? temperature_tb0 t then
      moda (fun a => a <| qmax_t_0ma := qmax |>) ;;; store_percentages r qmax
    else when (table_index =? temperature_tb1 t)
      (moda (fun a => a <| qmax_t_0ma_tb1 := qmax |>) ;;; store_percentages r qmax)).

Definition fg_construct_battery_profile_by_vboot (_vboot table_index : Z) : M W unit :=
  with_profile table_index (fun r p =>
    let! t := gett (fun t => t) in
    let q := qmax_by_vboot _vboot p in
    if table_index =? temperature_tb0 t then
      moda (fun a => a <| qmax_t_0ma := q |>) ;;; store_percentages r q
    else when (table_index =? temperature_tb1 t)
      (moda (fun a => a <| qmax_t_0ma_tb1 := q |>) ;;; store_percentages r q)).

(** *** The voltage behind a load *)

(** The drop over the internal resistance [r] at [curr]. *)
Definition ir_drop (dc : Z) (p : fg_custom) (curr r : Z) : Z :=
  let v := s32 (curr * s32 (s32 (r * dc) ÷c 100 + r_fg_value p + fg_meter_resistance p)) ÷c 1000 in
  s32 (s32 v + 5) ÷c 10.

(** The first loop: the last entry above which the battery is not empty. *)
Fixpoint find_high (p : list fuelgauge_profile) (sz : nat) : nat :=
  match sz with
  | O => 0
  | S s => if Nat.leb 1 s && (percentage (at_ p (s - 1)) <? 10000) then s else find_high p s
  end.

(** The second loop, downwards from [high]: the entry where the voltage with the
    drop exceeds [oriv]; 0 if there is none. *)
Fixpoint find_hit (dc : Z) (c : fg_custom) (p : list fuelgauge_profile) (oriv curr : Z) (high : nat) (r : Z) : nat * Z :=
  match high with
  | O => (O, r)
  | S h =>
      let e := at_ p h in
      if oriv <? s32 (voltage e + ir_drop dc c curr (resistance e)) then (high, resistance e)
      else find_hit dc c p oriv curr h (resistance e)
  end.

(** [profile_p[high - 1]]. *)
Definition below (p : list fuelgauge_profile) (high : nat) : fuelgauge_profile :=
  match high with O => before | S h => at_ p h end.

(** The third loop, every 0.1 %, at most [n] rounds; the voltage and the
    resistance of the last one. *)
Fixpoint find_volt (n : nat) (dc : Z) (c : fg_custom) (p : list fuelgauge_profile) (oriv curr : Z) (high : nat)
    (i lowest volt r : Z) : Z * Z :=
  match n with
  | O => (volt, r)
  | S n' =>
      if i <? lowest then (volt, r)
      else
        let lo := below p high in
        let hi := at_ p high in
        let v := interpolation (percentage lo) (voltage lo) (percentage hi) (voltage hi) i in
        let r := interpolation (percentage lo) (resistance lo) (percentage hi) (resistance hi) i in
        if oriv <? s32 (v + ir_drop dc c curr r) then (v, r)
        else find_volt n' dc c p oriv curr high (i - 10) lowest v r
  end.

Definition compensate_rounds (h l : Z) : nat := Z.to_nat ((h - l) / 10 + 1).

Definition fg_compensate_battery_voltage_from_low (oriv curr tablei : Z) : M W Z :=
  let! t := gett (fun t => t) in
  match fg_get_profile t tablei with
  | None => ret 0
  | Some ref =>
      let p := read_profile t ref in
      let! c := getp (fun c => c) in
      let! dc := geta DC_ratio in
      let! r0 := geta fg_resistance_bat in
      let '(high, r) := find_hit dc c p oriv curr (find_high p (Z.to_nat (fg_get_saddles t))) r0 in
      let '(h, l, v0) := match high with
                         | O => (0, 0, undef)
                         | S k => (percentage (at_ p high), percentage (at_ p k), voltage (at_ p k))
                         end in
      let '(v, r) := find_volt (compensate_rounds h l) dc c p oriv curr high h l v0 r in
      moda (fun a => a <| fg_resistance_bat := r |>) ;;; ret v
  end.

Definition fgr_construct_vboot (table_idx : Z) : M W unit :=
  let! rac := get_ptimrac in
  ignore force_get_tbat ;;;
  ignore get_ptim_i ;;;
  ignore get_ptim_vbat ;;;
  let! p := getp (fun p => p) in
  let! t := gett (fun t => t) in
  let min_vol := pmic_min_vol (tab t 0) in
  let iboot := if iboot_sel p =? 0 then pon_iboot (tab t 0) else shutdown_system_iboot p in
  let vb := s32 (min_vol + s32 (iboot * rac) ÷c 10000) in
  (if qmax_sel p =? 0 then
     moda (fun a => a <| vboot := vb |>) ;;;
     (let! q := geta qmax_t_0ma_h in
      when (table_idx =? temperature_tb0 t) (fg_construct_battery_profile_by_qmax q table_idx)) ;;;
     (let! q := geta qmax_t_0ma_h_tb1 in
      when (table_idx =? temperature_tb1 t) (fg_construct_battery_profile_by_qmax q table_idx))
   else when (qmax_sel p =? 1)
     (fg_construct_battery_profile_by_vboot vb table_idx ;;;
      if table_idx =? 255 then
        let! v := fg_compensate_battery_voltage_from_low min_vol (s32 (0 - iboot)) table_idx in
        moda (fun a => a <| vboot := v |>) ;;; fg_construct_battery_profile_by_vboot v table_idx
      else when (table_idx =? 254)
        (let! v := fg_compensate_battery_voltage_from_low min_vol (s32 (0 - iboot)) table_idx in
         moda (fun a => a <| vboot_c := v |>) ;;; fg_construct_battery_profile_by_vboot v table_idx))) ;;;
  let! q := geta qmax_t_aging in
  let! f := geta aging_factor in
  when ((q =? 9999999) || (10000 <? f)) (moda (fun a => a <| aging_factor := 10000 |>)).

(** ** Thresholds *)

(** [caller] 1 updates the table for the coulomb counter. *)
Definition fgr_update_quse (caller : Z) : M W unit :=
  let! sel := getp aging_sel in
  let! a := geta (fun a => a) in
  let factor := if sel =? 1 then 0 else aging_factor a in
  if caller =? 1 then moda (fun a => a <| quse_tb1 := s32 (s32 (qmax_t_0ma_tb1 a * factor) ÷c 10000) |>)
  else moda (fun a => a <| quse_tb0 := s32 (s32 (qmax_t_0ma a * factor) ÷c 10000) |>).

Definition fgr_update_uisoc_threshold : M W unit :=
  (let! car_ := gauge_get_int_property GAUGE_PROP_COULOMB in moda (fun a => a <| car := car_ |>)) ;;;
  fgr_update_quse 1 ;;;
  moda (fun a => a <| ht_gap := quse_tb1 a ÷c 100 |>) ;;;
  moda (fun a => if ht_gap a <? quse_tb1 a ÷c 1000 then a <| ht_gap := quse_tb1 a ÷c 1000 |> else a) ;;;
  moda (fun a => if ui_soc a <=? 100 then a <| ht_gap := quse_tb1 a ÷c 200 |> else a) ;;;
  moda (fun a => if ht_gap a <? CAR_MIN_GAP then a <| ht_gap := CAR_MIN_GAP |> else a) ;;;
  let! a := geta (fun a => a) in
  let! setting := getp diff_soc_setting in
  let d_remain := s32 (s32 (soc a * quse_tb1 a) ÷c 10000) in
  (let! gap := cdiv (s32 (d_remain * setting)) (ui_soc a) in moda (fun a => a <| lt_gap := gap |>)) ;;;
  moda (fun a => if lt_gap a <? quse_tb1 a ÷c 1000 then a <| lt_gap := quse_tb1 a ÷c 1000 |> else a) ;;;
  moda (fun a => if ui_soc a <=? 100 then a <| lt_gap := quse_tb1 a ÷c 200 |> else a) ;;;
  moda (fun a => if lt_gap a <? CAR_MIN_GAP then a <| lt_gap := CAR_MIN_GAP |> else a).

Definition fgr_update_uisoc_ht : M W unit :=
  fgr_update_uisoc_threshold ;;;
  let! gap := geta ht_gap in battery_set_property BAT_PROP_UISOC_HT_INT_GAP gap.

Definition fgr_update_uisoc_lt : M W unit :=
  fgr_update_uisoc_threshold ;;;
  let! gap := geta lt_gap in battery_set_property BAT_PROP_UISOC_LT_INT_GAP gap.

Definition fg_enable_uisoc_ht (en : Z) : M W unit :=
  moda (fun a => a <| uisoc_ht_en := en |>) ;;; battery_set_property BAT_PROP_ENABLE_UISOC_HT_INT en.
Definition fg_enable_uisoc_lt (en : Z) : M W unit :=
  moda (fun a => a <| uisoc_lt_en := en |>) ;;; battery_set_property BAT_PROP_ENABLE_UISOC_LT_INT en.

(** ** State of charge *)

Definition Set_fg_c_d0_by_ocv (_ocv : Z) : M W unit :=
  let! t := gett (fun t => t) in
  moda (fun a => a <| fg_c_d0_ocv := _ocv |> <| fg_c_d0_dod := OCV_to_DOD_c t _ocv |>) ;;;
  moda (fun a => a <| fg_c_d0_soc := s32 (10000 - fg_c_d0_dod a) |>).

Definition fgr_set_soc_by_vc_mode : M W unit := moda (fun a => a <| soc := fg_c_soc a |>).
Definition fgr_update_fg_bat_tmp_threshold_c : M W unit := moda (fun a => a <| fg_bat_tmp_c_gap := 1 |>).

Definition fgr_update_c_dod : M W unit :=
  (let! car_ := gauge_get_int_property GAUGE_PROP_COULOMB in moda (fun a => a <| car := car_ |>)) ;;;
  fgr_update_quse 1 ;;;
  (let! ocv := geta fg_c_d0_ocv in Set_fg_c_d0_by_ocv ocv) ;;;
  let! a := geta (fun a => a) in
  let! q := cdiv (s32 (car a * 10000)) (quse_tb1 a) in
  moda (fun a => a <| fg_c_dod := s32 (fg_c_d0_dod a - q) |>) ;;;
  moda (fun a => a <| fg_c_soc := s32 (10000 - fg_c_dod a) |>).

Definition fgr_dod_init : M W unit :=
  ignore get_ptim_vbat ;;;
  let! con0_soc := gauge_get_int_property GAUGE_PROP_CON0_SOC in
  let! con0_uisoc := gauge_get_int_property GAUGE_PROP_RTC_UI_SOC in
  moda (fun a => a <| rtc_ui_soc := s32 (UNIT_TRANS_100 * con0_uisoc) |>) ;;;
  let! init_swocv := get_ptim_vbat in
  let! rtc := geta rtc_ui_soc in
  (if (rtc =? 0) || (con0_soc =? 0) then
     let! t := gett (fun t => t) in
     moda (fun a => a <| rtc_ui_soc := OCV_to_SOC_c t init_swocv |>) ;;;
     moda (fun a => a <| fg_c_d0_soc := rtc_ui_soc a |>) ;;;
     moda (fun a => if rtc_ui_soc a <? 0 then a <| rtc_ui_soc := 0 |> else a) ;;;
     moda (fun a => a <| ui_d0_soc := rtc_ui_soc a |>)
   else
     moda (fun a => a <| ui_d0_soc := rtc_ui_soc a |> <| fg_c_d0_soc := s32 (UNIT_TRANS_100 * con0_soc) |>)) ;;;
  let by_soc : M W unit :=
    let! t := gett (fun t => t) in
    moda (fun a => a <| fg_c_d0_ocv := SOC_to_OCV_c t (fg_c_d0_soc a) |>) ;;;
    let! ocv := geta fg_c_d0_ocv in Set_fg_c_d0_by_ocv ocv in
  by_soc ;;;
  ignore fg_adc_reset ;;;
  let! sel := getp d0_sel in
  when (sel =? 1)
    (moda (fun a => a <| fg_c_d0_soc ::= get_d0_c_soc_cust |> <| ui_d0_soc ::= get_uisoc_cust |>) ;;; by_soc) ;;;
  fgr_update_c_dod ;;;
  moda (fun a => a <| ui_soc := ui_d0_soc a |>) ;;;
  fgr_set_soc_by_vc_mode ;;;
  moda (fun a => a <| dod_init_done := true |>).

(** ** Shutdown and the end of every interrupt *)

Definition fgr_imix_error_calibration : M W unit :=
  let! imix := get_imix_r in
  let! iboot := getp shutdown_system_iboot in
  when ((imix <? iboot) && (0 <? imix)) (ignore fg_adc_reset).

Definition fgr_dlpt_sd_handler : M W unit :=
  modb (fun b => b <| gm_ui_soc := 0 |>) ;;;
  moda (fun a => a <| low_tracking_enable := 0 |>) ;;;
  set_fg_time 0 ;;;
  battery_set_property BAT_PROP_ENABLE_UISOC_HT_INT 0 ;;;
  battery_set_property BAT_PROP_ENABLE_UISOC_LT_INT 0 ;;;
  (let! u := geta ui_soc in uisoc_set u) ;;;
  fgr_imix_error_calibration.

Definition fgr_shutdown_int_handler : M W unit :=
  moda (fun a => a <| low_tracking_enable := 1 |>) ;;;
  (let! s := getp discharge_tracking_time in set_fg_time s) ;;;
  fgr_imix_error_calibration.

Definition fgr_error_calibration2 : M W unit :=
  let! cond := lift env_get_shutdown_cond in
  when (negb (cond =? 1)) (moda (fun a => a <| low_tracking_enable := 0 |>)).

(** The state of charge that is kept over a reboot, with the bound [top]. *)
Definition store_soc (top : Z) : M W unit :=
  (let! s := geta soc in ignore (set_kernel_soc s)) ;;;
  (let! u := geta ui_soc in uisoc_set u) ;;;
  (let! u := geta ui_soc in gauge_set_property GAUGE_PROP_RTC_UI_SOC (s32 (u + 50) ÷c 100)) ;;;
  let! s := geta soc in
  gauge_set_property GAUGE_PROP_CON0_SOC (if s <=? 100 then 100 else if top <=? s then 10000 else s).

(** The name of the interrupt is only logged. *)
Definition fgr_int_end_flow : M W unit :=
  (let! car_ := gauge_get_int_property GAUGE_PROP_COULOMB in moda (fun a => a <| car := car_ |>)) ;;;
  get_hw_info ;;;
  ignore (gauge_get_int_property GAUGE_PROP_BATTERY_VOLTAGE) ;;;
  ignore force_get_tbat ;;;
  (let! done_ := geta dod_init_done in when done_ (store_soc 10000)) ;;;
  fgr_error_calibration2.

(** ** Interrupts *)

Definition fgr_temp_c_int_handler : M W unit :=
  let! tb1 := gett temperature_tb1 in
  fgr_construct_table_by_temp true tb1 ;;;
  fgr_construct_vboot tb1 ;;;
  fgr_update_c_dod ;;;
  fgr_set_soc_by_vc_mode ;;;
  moda (fun a => a <| fg_bat_tmp_c_gap := 1 |>) ;;;
  let! gap := geta fg_bat_tmp_c_gap in set_fg_bat_tmp_c_gap gap.

Definition fgr_update_fg_bat_int1_threshold : M W unit :=
  let! setting := getp diff_soc_setting in
  moda (fun a => a <| fg_bat_int1_gap := s32 (quse_tb1 a * setting) ÷c 10000 |>) ;;;
  moda (fun a => if fg_bat_int1_gap a <? CAR_MIN_GAP then a <| fg_bat_int1_gap := CAR_MIN_GAP |> else a).

Definition fgr_bat_int1_handler : M W unit :=
  fgr_update_c_dod ;;;
  fgr_update_fg_bat_int1_threshold ;;;
  (let! gap := geta fg_bat_int1_gap in battery_set_property BAT_PROP_COULOMB_INT_GAP gap) ;;;
  fgr_set_soc_by_vc_mode.

Definition set_ui (u : Z) : M W unit := moda (fun a => a <| ui_soc := u |>).

Definition fgr_bat_int2_h_handler : M W unit :=
  let! _car := gauge_get_int_property GAUGE_PROP_COULOMB in
  let! prev := geta prev_car_bat0 in
  let delta := s32 (Z.abs (s32 (prev - _car))) in
  fgr_update_uisoc_threshold ;;;
  let! gap := geta ht_gap in
  let! g := cdiv (s32 (delta * UNIT_TRANS_100)) gap in
  let g := if 100 <? g then 100 else g in
  when (0 <? g) (moda (fun a => a <| prev_car_bat0 := _car |>)) ;;;
  (let! u := geta ui_soc in
   if 10000 <=? u then set_ui 10000
   else if 10000 <=? s32 (u + g) then set_ui 10000
   else set_ui (s32 (u + g))) ;;;
  (let! u := geta ui_soc in when (10000 <=? u) (set_ui 10000)) ;;;
  fgr_update_uisoc_ht ;;;
  fgr_update_uisoc_lt.

Definition fgr_bat_int2_l_handler : M W unit :=
  let! charger := get_charger_exist in
  let! _car := gauge_get_int_property GAUGE_PROP_COULOMB in
  let! prev := geta prev_car_bat0 in
  let delta := s32 (Z.abs (s32 (prev - _car))) in
  fgr_update_uisoc_threshold ;;;
  let! a := geta (fun a => a) in
  let! g := cdiv (s32 (delta * UNIT_TRANS_100)) (lt_gap a) in
  let! g := if (soc a <? ui_soc a) && (100 <=? soc a) then cdiv (s32 (g * ui_soc a)) (soc a) else ret g in
  let g := if 100 <? g then 100 else g in
  let g := if g <? 0 then 0 else g in
  when (0 <? g) (moda (fun a => a <| prev_car_bat0 := _car |>)) ;;;
  (let! u := geta ui_soc in
   if charger then set_ui (s32 (u - g))
   else if u <=? 100 then set_ui (if u =? 0 then 0 else 100)
   else
     (if s32 (u - g) <? 100 then set_ui 100 else set_ui (s32 (u - g))) ;;;
     let! u := geta ui_soc in when (u <? 100) (set_ui 100)) ;;;
  fgr_update_uisoc_ht ;;;
  fgr_update_uisoc_lt.

Definition fgr_bat_int2_handler : M W unit :=
  let! _car := gauge_get_int_property GAUGE_PROP_COULOMB in
  let! prev := geta prev_car_bat0 in
  if prev <? _car then fgr_bat_int2_h_handler
  else when (_car <? prev) fgr_bat_int2_l_handler.

Definition fgr_time_handler : M W unit :=
  let! charger := get_charger_exist in
  let! low := geta low_tracking_enable in
  if negb (low =? 0) then
    if charger then ret tt
    else
      moda (fun a => a <| ui_soc := s32 (ui_soc a - 100) |>) ;;;
      let! u := geta ui_soc in
      when (u <=? 0) (moda (fun a => a <| ui_soc := 0 |> <| low_tracking_enable := 0 |>))
  else set_fg_time 0.

Definition fgr_vbat2_h_int_handler : M W unit :=
  gauge_set_property GAUGE_PROP_EN_HIGH_VBAT_INTERRUPT 0 ;;;
  let! p := getp (fun p => p) in
  moda (fun a => a <| fg_vbat2_lt := vbat2_det_voltage1 p |>) ;;;
  gauge_set_property GAUGE_PROP_VBAT_LT_INTR_THRESHOLD (vbat2_det_voltage1 p) ;;;
  gauge_set_property GAUGE_PROP_EN_LOW_VBAT_INTERRUPT 1.

Definition fgr_vbat2_l_int_handler : M W unit :=
  let! p := getp (fun p => p) in
  let! lt := geta fg_vbat2_lt in
  when (lt =? vbat2_det_voltage1 p)
    (lift (env_set_shutdown_cond LOW_BAT_VOLT) ;;;
     moda (fun a => a <| fg_vbat2_lt := vbat2_det_voltage2 p |> <| fg_vbat2_ht := vbat2_det_voltage3 p |>) ;;;
     gauge_set_property GAUGE_PROP_VBAT_LT_INTR_THRESHOLD (vbat2_det_voltage2 p) ;;;
     gauge_set_property GAUGE_PROP_VBAT_HT_INTR_THRESHOLD (vbat2_det_voltage3 p) ;;;
     gauge_set_property GAUGE_PROP_EN_LOW_VBAT_INTERRUPT 1 ;;;
     gauge_set_property GAUGE_PROP_EN_HIGH_VBAT_INTERRUPT 1).

Definition do_fg_algo (intr : fg_intr) : M W unit :=
  match intr with
  | FG_INTR_BAT_TMP_C_HT | FG_INTR_BAT_TMP_C_LT => fgr_temp_c_int_handler ;;; fgr_int_end_flow
  | FG_INTR_BAT_INT1_HT | FG_INTR_BAT_INT1_LT =>
      fgr_bat_int1_handler ;;; fgr_bat_int2_handler ;;; fgr_int_end_flow
  | FG_INTR_BAT_INT2_HT => fgr_bat_int2_h_handler ;;; fgr_bat_int1_handler ;;; fgr_int_end_flow
  | FG_INTR_BAT_INT2_LT => fgr_bat_int2_l_handler ;;; fgr_bat_int1_handler ;;; fgr_int_end_flow
  | FG_INTR_FG_TIME => fgr_time_handler ;;; fgr_int_end_flow
  | FG_INTR_SHUTDOWN => fgr_shutdown_int_handler ;;; fgr_int_end_flow
  | FG_INTR_DLPT_SD => fgr_dlpt_sd_handler ;;; fgr_int_end_flow
  | FG_INTR_VBAT2_H => fgr_vbat2_h_int_handler ;;; fgr_int_end_flow
  | FG_INTR_VBAT2_L => fgr_vbat2_l_int_handler ;;; fgr_int_end_flow
  | FG_INTR_other _ => ret tt
  end.

(** ** Start *)

Definition fgr_set_int1 : M W unit :=
  let! car_now := gauge_get_int_property GAUGE_PROP_COULOMB in
  fgr_update_quse 1 ;;;
  fgr_update_fg_bat_int1_threshold ;;;
  (let! gap := geta fg_bat_int1_gap in battery_set_property BAT_PROP_COULOMB_INT_GAP gap) ;;;
  moda (fun a => a <| prev_car_bat0 := car_now |>) ;;;
  fgr_update_uisoc_ht ;;;
  fgr_update_uisoc_lt ;;;
  battery_set_property BAT_PROP_ENABLE_UISOC_HT_INT 1 ;;;
  battery_set_property BAT_PROP_ENABLE_UISOC_LT_INT 1 ;;;
  moda (fun a => a <| fg_bat_tmp_c_gap := 1 |>) ;;;
  set_fg_bat_tmp_c_gap 1 ;;;
  (let! v := getp vbat2_det_voltage1 in
   moda (fun a => a <| fg_vbat2_lt := v |>) ;;; gauge_set_property GAUGE_PROP_VBAT_LT_INTR_THRESHOLD v) ;;;
  gauge_set_property GAUGE_PROP_EN_LOW_VBAT_INTERRUPT 1 ;;;
  store_soc 12000.

Definition battery_algo_init : M W unit :=
  moda (fun a => a <| fg_bat_tmp_c_gap := 1 |> <| aging_factor := 10000 |> <| DC_ratio := 100 |>) ;;;
  let! exist_ := gauge_get_int_property GAUGE_PROP_BATTERY_EXIST in
  when (negb (exist_ =? 0))
    (let! tb1 := gett temperature_tb1 in
     fgr_construct_table_by_temp true tb1 ;;;
     fgr_construct_vboot tb1 ;;;
     fgr_dod_init ;;;
     fgr_set_int1 ;;;
     modb (fun b => b <| gm_init_flag := 1 |>) ;;;
     gauge_set_property GAUGE_PROP_IS_NVRAM_FAIL_MODE 1).
End Algo.
