(* ===== verification/BatteryAlgoSpec.v ===== *)
(** * The battery algorithm: what it guarantees

    For every environment: the displayed charge moves by at most one percent per
    interrupt and stays in its range while no charger is connected, the
    thresholds of the coulomb service stay positive, and the state of charge is
    the initial one plus the counted share of the capacity.  The places where
    the code does not do what it means to are theorems too. *)

From S2P Require Import Prelude Mt6357 BatteryTable BatteryTableSpec BatteryAlgo.
#[local] Open Scope Z_scope.

(** ** Running the code *)

Section Access.
  Context {E : Type}.
  Abbreviation W := (aworld E).

Lemma wp_lift {A} (m : M E A) (Q : A -> W -> Prop) w :
  (forall a e, m (ae w) = (a, e) -> Q a (w <| ae := e |>)) -> wp (lift m) Q w.
Proof. intros H. unfold wp, eval, exec, lift. destruct (m (ae w)) as [a e] eqn:Em. by apply H. Qed.
Lemma wp_geta {A} (f : battery_algo -> A) (Q : A -> W -> Prop) w : Q (f (algo (ab w))) w -> wp (geta f) Q w.
Proof. done. Qed.
Lemma wp_getp {A} (f : fg_custom -> A) (Q : A -> W -> Prop) w : Q (f (pdata (ab w))) w -> wp (getp f) Q w.
Proof. done. Qed.
Lemma wp_gett {A} (f : fuel_gauge_table_data -> A) (Q : A -> W -> Prop) w : Q (f (ptable (ab w))) w -> wp (gett f) Q w.
Proof. done. Qed.
Lemma wp_moda f (Q : unit -> W -> Prop) w : Q tt (w <| ab ::= fun b => b <| algo ::= f |> |>) -> wp (moda f) Q w.
Proof. done. Qed.
Lemma wp_modt f (Q : unit -> W -> Prop) w : Q tt (w <| ab ::= fun b => b <| ptable ::= f |> |>) -> wp (modt f) Q w.
Proof. done. Qed.
Lemma wp_modb f (Q : unit -> W -> Prop) w : Q tt (w <| ab ::= f |>) -> wp (modb f) Q w.
Proof. done. Qed.

Lemma keeps_lift {A T} (f : algo_battery -> T) (m : M E A) : keeps (fun w : W => f (ab w)) (lift m).
Proof. intros w. unfold exec, lift. by destruct (m (ae w)). Qed.
Lemma keeps_moda {T} (f : algo_battery -> T) g :
  (forall b, f (b <| algo ::= g |>) = f b) -> keeps (fun w : W => f (ab w)) (moda g).
Proof. intros H w. apply H. Qed.
Lemma keeps_modt {T} (f : algo_battery -> T) g :
  (forall b, f (b <| ptable ::= g |>) = f b) -> keeps (fun w : W => f (ab w)) (modt g).
Proof. intros H w. apply H. Qed.
Lemma keeps_modb {T} (f : algo_battery -> T) g : (forall b, f (g b) = f b) -> keeps (fun w : W => f (ab w)) (modb g).
Proof. intros H w. apply H. Qed.
End Access.

(** Observations that are unfolded to see that an assignment misses them. *)
Create HintDb obs.

(** What the code leaves alone, by its structure. *)
Ltac solve_ka :=
  repeat match goal with
    | |- forall _, _ => intro
    | |- keeps _ (bind _ _) => apply keeps_bind
    | |- keeps _ (ret _) => apply keeps_ret
    | |- keeps _ (gets _) => apply keeps_gets
    | |- keeps _ (geta _) => apply keeps_gets
    | |- keeps _ (getp _) => apply keeps_gets
    | |- keeps _ (gett _) => apply keeps_gets
    | |- keeps _ (ignore _) => apply keeps_ignore
    | |- keeps _ (when _ _) => apply keeps_when
    | |- keeps _ (lift _) => apply keeps_lift
    | |- keeps _ (moda _) => apply keeps_moda; intros; autounfold with obs; cbn; repeat case_match; reflexivity
    | |- keeps _ (modt _) => apply keeps_modt; intros; reflexivity
    | |- keeps _ (modb _) => apply keeps_modb; intros; reflexivity
    | |- keeps _ (if ?b then _ else _) => destruct b
    | |- keeps _ (match ?x with _ => _ end) => destruct x
    | |- keeps _ _ => solve [auto with kern nocore]
    end.

(** Forward symbolic execution. *)
Ltac awp_step :=
  match goal with
  | |- wp (bind _ _) _ _ => apply wp_bind
  | |- wp (ret _) _ _ => apply wp_ret
  | |- wp (gets _) _ _ => apply wp_gets
  | |- wp (geta _) _ _ => apply wp_geta
  | |- wp (getp _) _ _ => apply wp_getp
  | |- wp (gett _) _ _ => apply wp_gett
  | |- wp (moda _) _ _ => apply wp_moda
  | |- wp (modb _) _ _ => apply wp_modb
  | |- wp (modt _) _ _ => apply wp_modt
  | |- wp (lift _) _ _ => apply wp_lift; intros ? ? ?
  | |- wp (ignore _) _ _ => apply wp_ignore
  | |- wp (when _ _) _ _ => apply wp_when; intros ?
  | |- wp (if ?b then _ else _) _ _ => apply wp_if; intros ?
  end; cbn beta zeta.
Ltac awps := repeat awp_step.

Section Keeps.
  Context {E : Type} `{!AlgoEnv E} (undef : Z) (before : fuelgauge_profile).
  Abbreviation W := (aworld E).

(** *** The displayed charge and the reading it was last moved at *)

Definition shown (b : algo_battery) : Z * Z := (ui_soc (algo b), prev_car_bat0 (algo b)).
#[local] Hint Unfold shown : obs.
Abbreviation quiet := (keeps (fun w : W => shown (ab w))).

Definition quiet_code {A} (m : M W A) : Prop := quiet m.

Lemma quiet_get p : quiet (gauge_get_int_property p).
Proof. unfold gauge_get_int_property. solve_ka. Qed.
Lemma quiet_set p v : quiet (gauge_set_property p v).
Proof. unfold gauge_set_property. solve_ka. Qed.
Lemma quiet_bset p v : quiet (battery_set_property p v).
Proof. unfold battery_set_property. solve_ka. Qed.
Lemma quiet_tbat : quiet force_get_tbat.
Proof. unfold force_get_tbat. solve_ka. Qed.
Lemma quiet_cdiv x y : quiet (cdiv x y).
Proof. unfold cdiv. solve_ka. Qed.
#[local] Hint Resolve quiet_get quiet_set quiet_bset quiet_tbat quiet_cdiv : kern.
Lemma quiet_uisoc v : quiet (uisoc_set v).
Proof. unfold uisoc_set. solve_ka. Qed.
Lemma quiet_time v : quiet (set_fg_time undef v).
Proof. unfold set_fg_time. solve_ka. Qed.
Lemma quiet_charger : quiet (get_charger_exist undef).
Proof. unfold get_charger_exist, online. solve_ka. Qed.
Lemma quiet_quse c : quiet (fgr_update_quse c).
Proof. unfold fgr_update_quse. solve_ka. Qed.
Lemma quiet_store_pct r q : quiet (store_percentages r q).
Proof. unfold store_percentages. solve_ka. Qed.
#[local] Hint Resolve quiet_uisoc quiet_time quiet_charger quiet_quse quiet_store_pct : kern.
Lemma quiet_threshold : quiet fgr_update_uisoc_threshold.
Proof. unfold fgr_update_uisoc_threshold. cbv zeta. solve_ka. Qed.
#[local] Hint Resolve quiet_threshold : kern.
Lemma quiet_ht : quiet fgr_update_uisoc_ht.
Proof. unfold fgr_update_uisoc_ht. solve_ka. Qed.
Lemma quiet_lt : quiet fgr_update_uisoc_lt.
Proof. unfold fgr_update_uisoc_lt. solve_ka. Qed.
Lemma quiet_d0 v : quiet (Set_fg_c_d0_by_ocv v).
Proof. unfold Set_fg_c_d0_by_ocv. solve_ka. Qed.
#[local] Hint Resolve quiet_ht quiet_lt quiet_d0 : kern.
Lemma quiet_c_dod : quiet fgr_update_c_dod.
Proof. unfold fgr_update_c_dod. solve_ka. Qed.
#[local] Hint Resolve quiet_c_dod : kern.
Lemma quiet_int1 : quiet fgr_bat_int1_handler.
Proof. unfold fgr_bat_int1_handler, fgr_update_fg_bat_int1_threshold, fgr_set_soc_by_vc_mode. solve_ka. Qed.
Lemma silent_store top : quiet (store_soc top).
Proof. unfold store_soc, set_kernel_soc. solve_ka. Qed.
#[local] Hint Resolve quiet_int1 silent_store : kern.
Lemma quiet_end : quiet fgr_int_end_flow.
Proof. unfold fgr_int_end_flow, get_hw_info, fgr_error_calibration2. solve_ka. Qed.
Lemma quiet_by_qmax q i : quiet (fg_construct_battery_profile_by_qmax q i).
Proof. unfold fg_construct_battery_profile_by_qmax, with_profile. solve_ka. Qed.
Lemma quiet_by_vboot q i : quiet (fg_construct_battery_profile_by_vboot q i).
Proof. unfold fg_construct_battery_profile_by_vboot, with_profile. solve_ka. Qed.
Lemma quiet_compensate a b c : quiet (fg_compensate_battery_voltage_from_low undef before a b c).
Proof. unfold fg_compensate_battery_voltage_from_low. solve_ka. Qed.
#[local] Hint Resolve quiet_end quiet_by_qmax quiet_by_vboot quiet_compensate : kern.
Lemma quiet_vboot i : quiet (fgr_construct_vboot undef before i).
Proof. unfold fgr_construct_vboot, get_ptimrac, get_ptim_i, get_ptim_vbat. cbv zeta. solve_ka. Qed.
Lemma quiet_table i : quiet (fgr_construct_table_by_temp true i).
Proof. unfold fgr_construct_table_by_temp, fgr_construct_battery_profile, mix_tables. cbv zeta. solve_ka. Qed.
#[local] Hint Resolve quiet_vboot quiet_table : kern.
Lemma quiet_temp : quiet (fgr_temp_c_int_handler undef before).
Proof. unfold fgr_temp_c_int_handler, fgr_set_soc_by_vc_mode, set_fg_bat_tmp_c_gap. solve_ka. Qed.
Lemma quiet_calibration : quiet fgr_imix_error_calibration.
Proof. unfold fgr_imix_error_calibration, get_imix_r, fg_adc_reset. solve_ka. Qed.
#[local] Hint Resolve quiet_calibration : kern.
Lemma quiet_dlpt : quiet (fgr_dlpt_sd_handler undef).
Proof. unfold fgr_dlpt_sd_handler. solve_ka. Qed.
Lemma quiet_shutdown : quiet (fgr_shutdown_int_handler undef).
Proof. unfold fgr_shutdown_int_handler. solve_ka. Qed.
Lemma quiet_vbat2_h : quiet fgr_vbat2_h_int_handler.
Proof. unfold fgr_vbat2_h_int_handler. solve_ka. Qed.
Lemma quiet_vbat2_l : quiet fgr_vbat2_l_int_handler.
Proof. unfold fgr_vbat2_l_int_handler. solve_ka. Qed.

Lemma wp_quiet {A} (m : M W A) Q w : quiet m -> (forall a w', shown (ab w') = shown (ab w) -> Q a w') -> wp m Q w.
Proof. apply (wp_keeps (fun w => shown (ab w))). Qed.

Lemma wp_any {A} (m : M W A) (Q : A -> W -> Prop) w : (forall a w', Q a w') -> wp m Q w.
Proof. intros H. apply H. Qed.

(** *** The thresholds are positive *)

Definition gap_h (b : algo_battery) : Z := ht_gap (algo b).
#[local] Hint Unfold gap_h : obs.

Lemma threshold_wp (Q : unit -> W -> Prop) w :
  (forall w', shown (ab w') = shown (ab w) -> CAR_MIN_GAP <= ht_gap (algo (ab w')) -> CAR_MIN_GAP <= lt_gap (algo (ab w')) -> Q tt w') ->
  wp fgr_update_uisoc_threshold Q w.
Proof.
  intros HQ.
  assert (wp fgr_update_uisoc_threshold (fun _ w' => CAR_MIN_GAP <= ht_gap (algo (ab w')) /\ CAR_MIN_GAP <= lt_gap (algo (ab w'))) w) as [H1 H2].
  { unfold fgr_update_uisoc_threshold. do 5 (apply wp_bind, wp_any; intros _ ?). apply wp_bind, wp_moda, wp_bind, wp_geta, wp_bind, wp_getp, wp_bind.
    match goal with |- wp _ _ ?w1 => apply (wp_keeps (fun w : W => gap_h (ab w)) _ _ w1); [unfold cdiv; solve_ka|]; assert (CAR_MIN_GAP <= gap_h (ab w1)) as Hh;
      [unfold gap_h; cbn; case_match; bool_prop; cbn; lia|] end.
    intros _ w2 E2. rewrite <- E2 in Hh. clear E2. do 2 (apply wp_bind, wp_moda).
    match goal with |- wp _ _ ?x => set (w3 := x); assert (CAR_MIN_GAP <= gap_h (ab w3)) as H3
      by (unfold gap_h in *; cbn; repeat case_match; exact Hh) end.
    clearbody w3. apply wp_moda. unfold gap_h in H3. cbn. destruct (Z.ltb_spec (lt_gap (algo (ab w3))) CAR_MIN_GAP); cbn; lia. }
  unfold wp. destruct (eval fgr_update_uisoc_threshold w). apply HQ; [apply quiet_threshold|done..].
Qed.
End Keeps.

(** ** Pace and range of the displayed charge *)

(** The reading of the coulomb counter, in 0.1 mAh, stays below 1000 Ah. *)
Definition CAR_MAX : Z := 10000000.
Class CarBounded (E : Type) `{!AlgoEnv E} : Prop :=
  car_bounded : forall e, Z.abs (eval (env_gauge_get GAUGE_PROP_COULOMB) e) <= CAR_MAX.

Section Pace.
  Context {E : Type} `{!AlgoEnv E} `{!CarBounded E} (undef : Z) (before : fuelgauge_profile).
  Abbreviation W := (aworld E).

Definition u_ (w : W) : Z := ui_soc (algo (ab w)).
Definition prev_ok (w : W) : Prop := Z.abs (prev_car_bat0 (algo (ab w))) <= CAR_MAX.

Lemma wp_get_car (Q : Z -> W -> Prop) w :
  (forall c w', Z.abs c <= CAR_MAX -> shown (ab w') = shown (ab w) -> Q c w') -> wp (gauge_get_int_property GAUGE_PROP_COULOMB) Q w.
Proof using CarBounded0.
  intros HQ. unfold gauge_get_int_property. awps. pose proof (car_bounded (ae w)) as Hb. unfold eval in Hb.
  match goal with H : env_gauge_get _ _ = _ |- _ => rewrite H in Hb end. cbn in Hb. unfold CAR_MAX in *.
  rewrite s32_id by (unfold is_s32; lia). by apply HQ.
Qed.

Lemma shown_eq (w w' : W) : shown (ab w') = shown (ab w) -> u_ w' = u_ w /\ prev_car_bat0 (algo (ab w')) = prev_car_bat0 (algo (ab w)).
Proof. unfold shown, u_. by intros [= -> ->]. Qed.

(** One move, up or down, within the range. *)
Definition moved (w w' : W) : Prop := Z.abs (u_ w' - u_ w) <= 100 /\ 0 <= u_ w' <= 10000 /\ prev_ok w'.
Definition in_range (w : W) : Prop := 0 <= u_ w <= 10000 /\ prev_ok w.

Lemma moved_quiet {A} (m : M W A) w0 w : quiet_code m -> moved w0 w -> wp m (fun _ => moved w0) w.
Proof.
  intros Hm H. apply wp_quiet; [exact Hm|]. intros _ w' [E1 P1]%shown_eq. unfold moved, prev_ok in *. by rewrite E1, P1.
Qed.
Lemma moved_refl w : in_range w -> moved w w.
Proof. unfold in_range, moved. intros [? ?]. split_and!; [lia|lia..|done]. Qed.

(** Writes of [ui_soc] and of the reading that keep the rest. *)
Lemma set_ui_wp v (Q : unit -> W -> Prop) w :
  (forall w', u_ w' = v -> (prev_ok w -> prev_ok w') -> Q tt w') -> wp (set_ui v) Q w.
Proof. intros H. apply wp_moda, H; done. Qed.
Lemma set_prev_wp b c (Q : unit -> W -> Prop) w :
  Z.abs c <= CAR_MAX -> prev_ok w -> (forall w', u_ w' = u_ w -> prev_ok w' -> Q tt w') ->
  wp (when b (moda (fun a => a <| prev_car_bat0 := c |>))) Q w.
Proof. intros Hc Hp H. apply wp_when; intros _; [apply wp_moda|]; by apply H. Qed.

Lemma cdiv_wp x y (Q : Z -> W -> Prop) w :
  (forall w', shown (ab w') = shown (ab w) -> soc (algo (ab w')) = soc (algo (ab w)) -> Q (s32 (x ÷c y)) w') -> wp (cdiv x y) Q w.
Proof. intros H. unfold cdiv. apply wp_bind, wp_when; intros _; [apply wp_modb|]; by apply H. Qed.

Definition clip (lo hi x : Z) : Z := let x := if hi <? x then hi else x in if x <? lo then lo else x.
Lemma clip_range lo hi x : lo <= hi -> lo <= clip lo hi x <= hi.
Proof. unfold clip. intros. destruct (Z.ltb_spec hi x); [destruct (Z.ltb_spec hi lo)|destruct (Z.ltb_spec x lo)]; lia. Qed.

Lemma delta_gap d gap : 0 <= d <= 2 * CAR_MAX -> CAR_MIN_GAP <= gap -> is_s32 (d * 100) /\ 0 <= d * 100 ÷c gap < 2 ^ 31.
Proof.
  unfold CAR_MAX, CAR_MIN_GAP, is_s32. intros Hd Hg. split; [lia|]. rewrite Z.quot_div_nonneg by lia.
  split; [apply Z.div_pos; lia|apply Z.div_lt_upper_bound; lia].
Qed.
Lemma delta_bound p c : Z.abs p <= CAR_MAX -> Z.abs c <= CAR_MAX -> 0 <= s32 (Z.abs (s32 (p - c))) <= 2 * CAR_MAX.
Proof. unfold CAR_MAX. intros. rewrite (s32_id (p - c)) by (unfold is_s32; lia). rewrite s32_id by (unfold is_s32; lia). lia. Qed.

Lemma int2_h_wp w : in_range w -> wp fgr_bat_int2_h_handler (fun _ w' => moved w w' /\ u_ w <= u_ w') w.
Proof using CarBounded0.
  intros [Hu Hp]. unfold fgr_bat_int2_h_handler. apply wp_bind, wp_get_car. intros c w1 Hc [E1 P1]%shown_eq. apply wp_bind, wp_geta.
  rewrite P1. pose proof (delta_bound _ c Hp Hc) as Hd. set (d := s32 (Z.abs _)) in *. clearbody d.
  apply wp_bind, threshold_wp. intros w2 [E2 P2]%shown_eq Hg _. apply wp_bind, wp_geta, wp_bind.
  destruct (delta_gap d _ Hd Hg) as [Hm Hq]. unfold UNIT_TRANS_100. rewrite (s32_id _ Hm).
  apply cdiv_wp. intros w3 [E3 P3]%shown_eq _. rewrite s32_id by (unfold is_s32; lia). set (g := d * 100 ÷c _) in *.
  set (g' := if 100 <? g then 100 else g). assert (0 <= g' <= 100) as Hg' by (unfold g'; case_match; bool_prop; lia). clearbody g'.
  apply wp_bind, set_prev_wp; [done|unfold prev_ok in *; by rewrite P3, P2, P1|]. intros w4 E4 P4. apply wp_bind, wp_bind, wp_geta.
  fold (u_ w4). rewrite E4, E3, E2, E1. rewrite (s32_id (u_ w + g')) by (unfold is_s32; lia).
  eapply (wp_mono _ (fun _ w' => u_ w' = Z.min 10000 (u_ w + g') /\ prev_ok w')).
  { repeat (apply wp_if; intros ?; bool_prop); apply set_ui_wp; intros w' -> ?; split; auto; lia. }
  intros _ w5 [E5 P5]. apply wp_bind, wp_bind, wp_geta. fold (u_ w5). rewrite E5.
  eapply (wp_mono _ (fun _ w' => u_ w' = Z.min 10000 (u_ w + g') /\ prev_ok w')).
  { apply wp_when; intros ?; bool_prop; [apply set_ui_wp; intros w' -> ?; split; auto; lia|done]. }
  intros _ w6 [E6 P6]. apply wp_quiet; [solve_ka; auto using quiet_ht, quiet_lt|]. intros _ w7 [E7 P7]%shown_eq.
  unfold moved, prev_ok in *. rewrite P7, E7, E6. split_and!; lia.
Qed.

(** No supply says it is online. *)
Definition NoCharger : Prop :=
  forall s e, match eval (env_online s) e with Some v => default undef v <> 1 | None => True end.
Context (Hno : NoCharger).

(** What reading a supply leaves alone. *)
Definition calm (w w' : W) : Prop := ab w' = ab w.

Lemma wp_offline s (Q : bool -> W -> Prop) w : (forall w', calm w w' -> Q false w') -> wp (online undef s) Q w.
Proof using Hno.
  intros H. unfold online. apply wp_bind, wp_lift. intros r e Hr. specialize (Hno s (ae w)). unfold eval in Hno. rewrite Hr in Hno. cbn in Hno.
  apply wp_ret. replace (match r with Some v => _ | None => _ end) with false; [by apply H|].
  destruct r; [by symmetry; apply Z.eqb_neq|done].
Qed.

Lemma wp_no_charger (Q : bool -> W -> Prop) w : (forall w', calm w w' -> Q false w') -> wp (get_charger_exist undef) Q w.
Proof using Hno.
  intros H. unfold get_charger_exist. apply wp_bind, wp_offline. intros w1 C1. apply wp_offline. intros w2 C2.
  apply H. unfold calm in *. congruence.
Qed.

(** Without a charger the displayed charge ends in the range, one step away at most. *)
Lemma int2_l_wp w : in_range w -> wp (fgr_bat_int2_l_handler undef) (fun _ w' => moved w w') w.
Proof using CarBounded0 Hno.
  intros [Hu Hp]. unfold fgr_bat_int2_l_handler. apply wp_bind, wp_no_charger. intros w0 C0.
  apply wp_bind, wp_get_car. intros c w1 Hc [E1 P1]%shown_eq. apply wp_bind, wp_geta.
  apply wp_bind, threshold_wp. intros w2 [E2 P2]%shown_eq _ _. apply wp_bind, wp_geta, wp_bind, cdiv_wp. intros w3 H3 _.
  apply wp_bind. eapply (wp_mono _ (fun _ w' => u_ w' = u_ w /\ prev_ok w')).
  { unfold calm, shown, u_, prev_ok in *. injection H3 as E3 P3. rewrite C0 in *.
    apply wp_if; intros _; [apply cdiv_wp; intros ? [= E4 P4] _; rewrite P4, E4|apply wp_ret]; rewrite P3, P2, P1; split; [congruence|done|congruence|done]. }
  intros g w4 [E4 P4]. pose proof (clip_range 0 100 g ltac:(lia)) as Hg. fold (clip 0 100 g). set (g' := clip 0 100 g) in *. clearbody g'.
  apply wp_bind, set_prev_wp; [done..|]. intros w5 E5 P5. apply wp_bind.
  apply (wp_mono _ (fun _ => moved w)).
  { apply wp_bind, wp_geta. fold (u_ w5). rewrite E5, E4. rewrite (s32_id (u_ w - g')) by (unfold is_s32; lia).
    apply wp_if; intros ?; bool_prop.
    - apply set_ui_wp. intros w6 E6 P6. unfold moved. rewrite E6. case_match; bool_prop; split_and!; auto; lia.
    - apply wp_bind. eapply (wp_mono _ (fun _ w' => u_ w' = Z.max 100 (u_ w - g') /\ prev_ok w')).
      { apply wp_if; intros ?; bool_prop; apply set_ui_wp; intros w6 -> P6; split; auto; lia. }
      intros _ w6 [E6 P6]. apply wp_bind, wp_geta. fold (u_ w6). apply wp_when; intros ?; bool_prop;
        [apply set_ui_wp; intros w7 E7 P7; lia|]. unfold moved. rewrite E6. split_and!; [lia..|done]. }
  intros _ w6 H6. apply moved_quiet; [|done]. unfold quiet_code. solve_ka; auto using quiet_ht, quiet_lt.
Qed.

Lemma bat_int2_wp w : in_range w -> wp (fgr_bat_int2_handler undef) (fun _ w' => moved w w') w.
Proof using CarBounded0 Hno.
  intros Hw. unfold fgr_bat_int2_handler. apply wp_bind, wp_get_car. intros c w1 Hc [E1 P1]%shown_eq. apply wp_bind, wp_geta.
  assert (in_range w1) as H1 by (unfold in_range, prev_ok in *; by rewrite E1, P1).
  assert (forall w', moved w1 w' -> moved w w') as Hm by (unfold moved; by rewrite E1).
  apply wp_if; intros _; [|apply wp_when; intros _; [|by apply Hm, moved_refl]].
  - eapply wp_mono; [by apply int2_h_wp|]. intros _ w' [? _]. auto.
  - eapply wp_mono; [by apply int2_l_wp|]. auto.
Qed.

Lemma time_wp w : in_range w -> wp (fgr_time_handler undef) (fun _ w' => moved w w') w.
Proof using Hno.
  intros [Hu Hp]. unfold fgr_time_handler. apply wp_bind, wp_no_charger. intros w1 C1. apply wp_bind, wp_geta.
  apply wp_if; intros _.
  - apply wp_bind, wp_moda, wp_bind, wp_geta. cbn. unfold calm in C1. rewrite C1. fold (u_ w). rewrite s32_id by (unfold is_s32; lia).
    apply wp_when; intros ?; bool_prop; [apply wp_moda|]; unfold moved, u_, prev_ok in *; cbn; rewrite ?C1; rewrite ?s32_id by (unfold is_s32; lia); split_and!; lia.
  - apply moved_quiet; [apply quiet_time|]. unfold calm in C1. unfold moved, u_, prev_ok in *. rewrite C1. split_and!; lia.
Qed.

Lemma quiet_first {A B} (m : M W A) (k : M W B) w :
  quiet_code m -> (forall w', in_range w' -> wp k (fun _ => moved w') w') -> in_range w -> wp (m ;;; k) (fun _ => moved w) w.
Proof.
  intros Hm Hk Hw. apply wp_bind, wp_quiet; [exact Hm|]. intros _ w1 [E1 P1]%shown_eq.
  eapply wp_mono; [apply Hk; unfold in_range, prev_ok in *; by rewrite E1, P1|]. intros ? w2. unfold moved. by rewrite E1.
Qed.
Lemma quiet_then {A B} (m : M W A) (k : M W B) w :
  (in_range w -> wp m (fun _ => moved w) w) -> quiet_code k -> in_range w -> wp (m ;;; k) (fun _ => moved w) w.
Proof. intros Hm Hk Hw. apply wp_bind. eapply wp_mono; [by apply Hm|]. intros ? w1 H1. by apply moved_quiet. Qed.
Lemma quiet_only {A} (m : M W A) w : quiet_code m -> in_range w -> wp m (fun _ => moved w) w.
Proof. intros Hm Hw. by apply moved_quiet, moved_refl. Qed.

Lemma step_moves i w : in_range w -> moved w (exec (do_fg_algo undef before i) w).
Proof using CarBounded0 Hno.
  intros Hw. apply (wp_exec _ (moved w)). pose proof (@quiet_end E _) as Qe. pose proof (@quiet_int1 E _) as Q1.
  destruct i; cbn [do_fg_algo]; try solve [apply quiet_only; [unfold quiet_code; solve_ka;
    auto using quiet_temp, quiet_dlpt, quiet_shutdown, quiet_vbat2_h, quiet_vbat2_l|done]].
  - by apply quiet_then; [apply time_wp| |].
  - apply quiet_first; [done| |done]. intros. by apply quiet_then; [apply bat_int2_wp| |].
  - apply quiet_first; [done| |done]. intros. by apply quiet_then; [apply bat_int2_wp| |].
  - apply quiet_then; [|unfold quiet_code; by solve_ka|done]. intros. eapply wp_mono; [by apply int2_h_wp|]. by intros ?? [? _].
  - apply quiet_then; [by apply int2_l_wp|unfold quiet_code; by solve_ka|done].
Qed.
(** *** What is displayed *)

Definition flags_of (b : algo_battery) : bool * bool := (dod_init_done (algo b), gm_disabled b).
#[local] Hint Unfold flags_of : obs.
Definition flags (w : W) : bool * bool := flags_of (ab w).
Definition seen (b : algo_battery) : Z * Z := (gm_ui_soc b, ui_soc (algo b)).

Lemma flags_kept i : keeps flags (do_fg_algo undef before i).
Proof.
  change flags with (fun w : W => flags_of (ab w)).
  destruct i; cbn [do_fg_algo]; [..|solve_ka];
  unfold fgr_temp_c_int_handler, fgr_bat_int1_handler, fgr_bat_int2_handler, fgr_bat_int2_h_handler, fgr_bat_int2_l_handler,
    fgr_time_handler, fgr_shutdown_int_handler, fgr_dlpt_sd_handler, fgr_vbat2_h_int_handler, fgr_vbat2_l_int_handler, fgr_int_end_flow,
    fgr_construct_table_by_temp, fgr_construct_battery_profile, mix_tables, fgr_construct_vboot, fg_construct_battery_profile_by_vboot,
    fg_construct_battery_profile_by_qmax, with_profile, store_percentages, fg_compensate_battery_voltage_from_low, get_ptimrac, get_ptim_i,
    get_ptim_vbat, fgr_update_c_dod, Set_fg_c_d0_by_ocv, fgr_set_soc_by_vc_mode, set_fg_bat_tmp_c_gap, fgr_update_fg_bat_int1_threshold,
    fgr_update_uisoc_ht, fgr_update_uisoc_lt, fgr_update_uisoc_threshold, fgr_update_quse, get_charger_exist, online, set_ui,
    set_fg_time, fgr_imix_error_calibration, get_imix_r, fg_adc_reset, fgr_error_calibration2, store_soc, set_kernel_soc,
    uisoc_set, get_hw_info, cdiv, gauge_get_int_property, gauge_set_property, battery_set_property, force_get_tbat; cbv zeta; solve_ka.
Qed.

Lemma end_flow_shows w : flags w = (true, false) -> is_s32 (u_ w + 50) ->
  wp fgr_int_end_flow (fun _ w' => u_ w' = u_ w /\ gm_ui_soc (ab w') = (Z.max 0 (u_ w) + 50) ÷c 100) w.
Proof.
  intros [= Hd Hg] Hu. unfold fgr_int_end_flow, get_hw_info, gauge_get_int_property, gauge_set_property, force_get_tbat, fgr_error_calibration2. awps; cbn in *; try congruence.
  unfold store_soc, set_kernel_soc, uisoc_set, gauge_set_property. awps; cbn; unfold u_ in *; rewrite Hg;
    (split; [done|]); unfold is_s32 in Hu; (destruct (Z.ltb_spec (ui_soc (algo (ab w))) 0);
      [replace (Z.max _ _) with 0 by lia|replace (Z.max _ _) with (ui_soc (algo (ab w))) by lia]; rewrite s32_id by (unfold is_s32; lia); done).
Qed.
Lemma flags_end : keeps flags fgr_int_end_flow.
Proof.
  change flags with (fun w : W => flags_of (ab w)).
  unfold fgr_int_end_flow, get_hw_info, gauge_get_int_property, gauge_set_property, force_get_tbat, fgr_error_calibration2, store_soc,
    set_kernel_soc, uisoc_set, gauge_set_property. solve_ka.
Qed.

Definition known (i : fg_intr) : bool := match i with FG_INTR_other _ => false | _ => true end.

Lemma known_end i : known i = true -> exists m : W -> W, forall w, exec (do_fg_algo undef before i) w = exec fgr_int_end_flow (m w).
Proof. destruct i; try done; intros _; cbn [do_fg_algo]; eexists; intros w; rewrite !exec_bind; reflexivity. Qed.

(** Interrupts in any order, with anything happening to the rest of the system between them. *)
Inductive astep : W -> W -> Prop :=
| astep_interrupt i w : astep w (exec (do_fg_algo undef before i) w)
| astep_elsewhere e w : astep w (w <| ae := e |>).

Lemma reachable_range w w' : rtc astep w w' -> in_range w -> in_range w' /\ flags w' = flags w.
Proof using CarBounded0 Hno.
  induction 1 as [|w1 w2 w3 H12 _ IH]; [done|]. intros H1. destruct H12 as [i w1|e w1]; [|by apply IH].
  destruct (step_moves i w1 H1) as (_ & Hr & Hp). destruct IH as [? ->]; [by split|]. by rewrite flags_kept.
Qed.

(** C11: once the algorithm is initialised and the gauge is enabled, without a
    charger, with readings of the coulomb counter in their range, from a displayed
    charge in its range, whatever interrupts arrive, in any order and with
    anything happening in the rest of the system between them: the displayed
    charge stays between 0 and 100 %, one interrupt moves it by at most one
    percent, and what the supply shows is that charge rounded to a percent. *)
Theorem ui_soc_paced w w1 i :
  in_range w -> flags w = (true, false) -> rtc astep w w1 ->
  let w2 := exec (do_fg_algo undef before i) w1 in
  0 <= u_ w2 <= 10000 /\ Z.abs (u_ w2 - u_ w1) <= 100 /\
  (known i = true -> gm_ui_soc (ab w2) = (u_ w2 + 50) / 100 /\ 0 <= gm_ui_soc (ab w2) <= 100).
Proof using CarBounded0 Hno.
  intros Hw Hf Hr w2. destruct (reachable_range _ _ Hr Hw) as [H1 F1]. destruct (step_moves i w1 H1) as (Hd & H2 & _).
  split; [exact H2|]. split; [exact Hd|]. intros Hk. destruct (known_end i Hk) as [m Em]. subst w2.
  pose proof (flags_kept i w1) as F2. rewrite Em in *. rewrite flags_end, F1, Hf in F2.
  assert (u_ (m w1) = u_ (exec fgr_int_end_flow (m w1))) as Eu.
  { destruct (shown_eq (m w1) (exec fgr_int_end_flow (m w1)) (quiet_end (m w1))) as [-> _]. done. }
  destruct (end_flow_shows (m w1) F2) as [_ ->]; [unfold is_s32; rewrite Eu; lia|].
  rewrite Eu, Z.max_r, Z.quot_div_nonneg by lia. split; [done|]. split; [apply Z.div_pos; lia|apply Z.lt_succ_r, Z.div_lt_upper_bound; lia].
Qed.
End Pace.

(** ** Counting *)

Section Counting.
  Context {E : Type} `{!AlgoEnv E} (undef : Z) (before : fuelgauge_profile).
  Abbreviation W := (aworld E).

(** The capacity in use. *)
Definition quse (w : W) : Z := quse_tb1 (algo (ab (exec (fgr_update_quse 1) w))).

(** C12: the state of charge is what the initial open-circuit voltage stands for
    in the table in use (a depth of discharge between 0 and 100 %), plus the
    counted charge as a share of the capacity, exactly and without overflow for
    counts up to 21 Ah; and the division is by zero only when the capacity is
    zero. *)
Theorem coulomb_counting_exact w :
  let c := s32 (eval (env_gauge_get GAUGE_PROP_COULOMB) (ae w)) in
  Z.abs c <= 214747 -> quse w <> 0 -> 0 <= OCV_to_DOD_c (ptable (ab w)) (fg_c_d0_ocv (algo (ab w))) <= 10000 ->
  let w' := exec fgr_update_c_dod w in
  fg_c_soc (algo (ab w')) = 10000 - OCV_to_DOD_c (ptable (ab w)) (fg_c_d0_ocv (algo (ab w))) + c * 10000 ÷c quse w /\
  car (algo (ab w')) = c /\ fg_c_soc (algo (ab w')) = 10000 - fg_c_dod (algo (ab w')) /\ div_by_zero (ab w') = div_by_zero (ab w).
Proof.
  intros c Hc Hq Hd. pose proof (wp_exec fgr_update_c_dod) as H. specialize (H (fun w' =>
    fg_c_soc (algo (ab w')) = 10000 - OCV_to_DOD_c (ptable (ab w)) (fg_c_d0_ocv (algo (ab w))) + c * 10000 ÷c quse w /\
    car (algo (ab w')) = c /\ fg_c_soc (algo (ab w')) = 10000 - fg_c_dod (algo (ab w')) /\ div_by_zero (ab w') = div_by_zero (ab w)) w).
  apply H. clear H. unfold quse in *. cbn in Hq |- *. set (q := s32 (s32 _ ÷c 10000)) in *. set (d := OCV_to_DOD_c _ _) in *.
  unfold fgr_update_c_dod, gauge_get_int_property, fgr_update_quse, Set_fg_c_d0_by_ocv, cdiv. awps; cbn in *; try discriminate; [bool_prop; fold q in H1; lia|].
  match goal with H : env_gauge_get _ _ = (?x, _) |- _ => assert (c = s32 x) as Ec by (unfold c, eval; by rewrite H) end.
  cbn in *. rewrite <- Ec. fold q. rewrite (s32_id (c * 10000)) by (unfold is_s32; lia).
  pose proof (Z.quot_abs (c * 10000) q Hq) as Ha. assert (Z.abs (c * 10000 ÷c q) <= 2147470000) as Hb.
  { rewrite <- Ha. rewrite Z.quot_div_nonneg by lia. apply Z.div_le_upper_bound; [lia|]. nia. }
  fold d. rewrite (s32_id (c * 10000 ÷c q)) by (unfold is_s32; lia).
  rewrite (s32_id (d - _)) by (unfold is_s32; lia). rewrite s32_id by (unfold is_s32; lia). split_and!; [lia|done..].
Qed.
End Counting.

(** ** Over a reboot *)

(** What the algorithm asks of the store for its two percentages: in states
    [ok], what is written is read back, and neither the other one nor a
    measurement changes it. *)
Class SocStore {E : Type} `{!AlgoEnv E} (ok : E -> Prop) (held con0 : E -> Z) : Prop := {
  ss_set_rtc : forall v e, ok e -> 0 <= v < 128 ->
    let e' := exec (env_gauge_set GAUGE_PROP_RTC_UI_SOC v) e in ok e' /\ held e' = v;
  ss_set_con0 : forall v e, ok e -> 100 <= v < 12800 ->
    let e' := exec (env_gauge_set GAUGE_PROP_CON0_SOC v) e in ok e' /\ held e' = held e /\ con0 e' = v ÷c 100;
  ss_get : forall p e, ok e -> p = GAUGE_PROP_RTC_UI_SOC \/ p = GAUGE_PROP_CON0_SOC \/ p = GAUGE_PROP_PTIM_BATTERY_VOLTAGE ->
    let e' := exec (env_gauge_get p) e in ok e' /\ held e' = held e /\ con0 e' = con0 e;
  ss_rtc : forall e, ok e -> eval (env_gauge_get GAUGE_PROP_RTC_UI_SOC) e = held e;
  ss_con0 : forall e, ok e -> eval (env_gauge_get GAUGE_PROP_CON0_SOC) e = con0 e;
  ss_update : forall e, ok e -> ok (exec env_battery_update e)
}.

Section Reboot.
  Context {E : Type} `{!AlgoEnv E} (ok : E -> Prop) (held con0 : E -> Z) `{!SocStore ok held con0}.
  Abbreviation W := (aworld E).

Lemma wp_lift_exec {A} (m : M E A) (Q : A -> W -> Prop) w : Q (eval m (ae w)) (w <| ae := exec m (ae w) |>) -> wp (lift m) Q w.
Proof. intros H. apply wp_lift. intros a e Em. unfold eval, exec in H. by rewrite Em in H. Qed.

(** The same with the result of each call named. *)
Ltac awp_det :=
  repeat (match goal with
    | |- wp (lift _) _ _ => apply wp_lift_exec
    | |- wp (when _ _) _ _ => fail 1
    | |- wp (if _ then _ else _) _ _ => fail 1
    | |- wp _ _ _ => awp_step
    end; cbn beta zeta).

(** What [store_soc] leaves in the store. *)
Definition stored_soc (u : Z) (e : E) : Prop := ok e /\ held e = (u + 50) / 100 /\ 1 <= con0 e < 128.

Lemma store_soc_wp top w :
  ok (ae w) -> 0 <= ui_soc (algo (ab w)) <= 10000 -> top <= 12800 -> wp (store_soc top) (fun _ w' => stored_soc (ui_soc (algo (ab w))) (ae w')) w.
Proof using SocStore0.
  intros Hok Hu Ht. unfold store_soc, set_kernel_soc, uisoc_set, gauge_set_property.
  awp_det. cbn -[s32].
  rewrite (s32_id (ui_soc (algo (ab w)) + 50)) by (unfold is_s32; lia). rewrite Z.quot_div_nonneg by lia.
  assert (0 <= (ui_soc (algo (ab w)) + 50) / 100 < 128) as Hr by (split; [apply Z.div_pos; lia|apply Z.div_lt_upper_bound; lia]).
  destruct (ss_set_rtc _ _ (ss_update _ Hok) Hr) as [Hok1 H1]. set (e1 := exec (env_gauge_set GAUGE_PROP_RTC_UI_SOC _) _) in *.
  set (s := if _ <=? 100 then _ else _). assert (100 <= s < 12800) as Hs by (unfold s; repeat case_match; bool_prop; lia).
  destruct (ss_set_con0 s e1 Hok1 Hs) as (Hok2 & H2 & H3). unfold stored_soc. rewrite H2, H1, H3, Z.quot_div_nonneg by lia.
  split_and!; [done|done|apply Z.div_le_lower_bound; lia|apply Z.div_lt_upper_bound; lia].
Qed.

Definition start_soc (b : algo_battery) : Z := ui_d0_soc (algo b).
#[local] Hint Unfold start_soc : obs.

Lemma dod_init_wp u w : 50 <= u <= 10000 -> stored_soc u (ae w) -> wp fgr_dod_init (fun _ w' => ui_soc (algo (ab w')) = 100 * ((u + 50) / 100)) w.
Proof using SocStore0.
  intros Hu (Hok & Hh & Hc). unfold fgr_dod_init, get_ptim_vbat, gauge_get_int_property.
  assert (1 <= (u + 50) / 100 < 128) as Hr by (split; [apply Z.div_le_lower_bound; lia|apply Z.div_lt_upper_bound; lia]).
  awp_det. cbn -[s32].
  destruct (ss_get GAUGE_PROP_PTIM_BATTERY_VOLTAGE (ae w) Hok) as (K1 & H1 & C1); [by auto|]. set (e1 := exec _ (ae w)) in *.
  rewrite (ss_con0 e1 K1). destruct (ss_get GAUGE_PROP_CON0_SOC e1 K1) as (K2 & H2 & C2); [by auto|]. set (e2 := exec _ e1) in *.
  rewrite (ss_rtc e2 K2). rewrite H2, H1, Hh, C1. unfold UNIT_TRANS_100.
  rewrite (s32_id (con0 _)), (s32_id ((u + 50) / 100)), s32_id by (unfold is_s32; lia).
  rewrite (proj2 (Z.eqb_neq (100 * _) _)), (proj2 (Z.eqb_neq (con0 _) _)) by lia. cbn [orb]. apply wp_moda.
  match goal with |- wp _ _ ?x => set (w3 := x); assert (start_soc (ab w3) = 100 * ((u + 50) / 100)) as E3 by reflexivity; clearbody w3 end.
  assert (forall c, keeps (fun w : W => start_soc (ab w)) (Set_fg_c_d0_by_ocv c)) as Kd by (unfold Set_fg_c_d0_by_ocv; solve_ka).
  assert (keeps (fun w : W => start_soc (ab w)) fgr_update_c_dod) as Ku
    by (unfold fgr_update_c_dod, gauge_get_int_property, fgr_update_quse, cdiv; solve_ka).
  apply wp_bind. apply (wp_keeps (fun w : W => start_soc (ab w))); [solve_ka; apply Kd|]. intros _ w4 E4. apply wp_bind.
  apply (wp_keeps (fun w : W => start_soc (ab w))); [unfold fg_adc_reset, battery_set_property; solve_ka|]. intros _ w5 E5. apply wp_bind, wp_getp, wp_bind.
  apply (wp_keeps (fun w : W => start_soc (ab w))); [solve_ka; apply Kd|]. intros _ w6 E6. apply wp_bind. apply (wp_keeps (fun w : W => start_soc (ab w))); [apply Ku|]. intros _ w7 E7.
  unfold fgr_set_soc_by_vc_mode. awp_det. cbn. unfold start_soc in *. congruence.
Qed.

(** The displayed charge survives a reboot: what an interrupt stores on its
    way out is, rounded to a percent, what the algorithm starts from the next
    time, whatever its own state then is. *)
Theorem reboot_keeps_percentage top w b :
  ok (ae w) -> 50 <= ui_soc (algo (ab w)) <= 10000 -> top <= 12800 ->
  let u := ui_soc (algo (ab (exec fgr_dod_init (mk_aworld b (ae (exec (store_soc top) w)))))) in
  u = 100 * ((ui_soc (algo (ab w)) + 50) / 100) /\ Z.abs (u - ui_soc (algo (ab w))) <= 50.
Proof using SocStore0.
  intros Hok Hu Ht u. pose proof (store_soc_wp top w Hok ltac:(lia) Ht) as Hs. unfold wp in Hs.
  assert (u = 100 * ((ui_soc (algo (ab w)) + 50) / 100)) as ->.
  { exact (dod_init_wp _ (mk_aworld b (ae (exec (store_soc top) w))) Hu Hs). }
  split; [done|]. pose proof (Z.div_mod (ui_soc (algo (ab w)) + 50) 100). pose proof (Z.mod_pos_bound (ui_soc (algo (ab w)) + 50) 100). lia.
Qed.
End Reboot.

(** ** Where the code does not do what it means to *)

Section Defects.
  Context {E : Type} `{!AlgoEnv E} (undef : Z) (before : fuelgauge_profile).
  Abbreviation W := (aworld E).

(** A shutdown for too high a load is meant to show an empty battery: the
    handler sets the displayed percentage to zero, and overwrites it with the
    tracked charge before it returns.  The supply goes on showing that. *)
Theorem dlpt_zero_lost w :
  flags w = (true, false) -> is_s32 (u_ w + 50) ->
  gm_ui_soc (ab (exec (do_fg_algo undef before FG_INTR_DLPT_SD) w)) = (Z.max 0 (u_ w) + 50) ÷c 100.
Proof.
  intros Hf Hu. pose proof (flags_kept undef before FG_INTR_DLPT_SD w) as Hk. cbn [do_fg_algo] in *. rewrite exec_bind in *.
  rewrite flags_end, Hf in Hk. destruct (shown_eq _ _ (quiet_dlpt undef w)) as [Eu _].
  destruct (end_flow_shows _ Hk) as [_ ->]; rewrite Eu; done.
Qed.

(** Division by zero, seen from outside. *)
Definition trapped (w : W) : bool := div_by_zero (ab w).
Definition charge_trap (b : algo_battery) : bool * Z := (div_by_zero b, ui_soc (algo b)).
#[local] Hint Unfold charge_trap : obs.

(** The distance to the next lower percent is computed with a division by
    the displayed charge; it divides by zero exactly when that is zero, a value
    that the tracking of an empty battery assigns. *)
Theorem threshold_divides w :
  trapped (exec fgr_update_uisoc_threshold w) = trapped w || (u_ w =? 0).
Proof.
  apply (wp_exec _ (fun w' => trapped w' = trapped w || (u_ w =? 0))). unfold fgr_update_uisoc_threshold.
  apply wp_bind, (wp_keeps (fun w : W => charge_trap (ab w))); [unfold gauge_get_int_property; solve_ka|]. intros _ w1 E1.
  apply wp_bind, (wp_keeps (fun w : W => charge_trap (ab w))); [unfold fgr_update_quse; solve_ka|]. intros _ w2 E2.
  do 4 (apply wp_bind, (wp_keeps (fun w : W => charge_trap (ab w))); [solve_ka|]; intros _ ? ?).
  apply wp_bind, wp_geta, wp_bind, wp_getp, wp_bind, wp_bind.
  match goal with |- wp _ _ ?x => assert (charge_trap (ab x) = charge_trap (ab w)) as [= Et Eu] by congruence; set (w3 := x) in *; clearbody w3 end.
  unfold cdiv. apply wp_bind, (wp_mono _ (fun _ w' => trapped w' = trapped w || (u_ w =? 0))).
  { unfold trapped, u_. rewrite <- Et, Eu. apply wp_when; intros ->; [apply wp_modb; by rewrite orb_true_r|by rewrite orb_false_r]. }
  intros _ w4 E4. apply wp_ret. rewrite <- E4. unfold trapped.
  apply (wp_keeps (fun w : W => div_by_zero (ab w))); [solve_ka|]. intros _ w5 E5. rewrite <- E5.
  apply (wp_keeps (fun w : W => div_by_zero (ab w))); [solve_ka|done].
Qed.
Lemma charger_calm w : ab (exec (get_charger_exist undef) w) = ab w.
Proof.
  apply (wp_exec _ (fun w' => ab w' = ab w)). unfold get_charger_exist, online. awps; done.
Qed.

(** Tracking an empty battery takes a percent off the display at each expiry
    of an alarm.  The handler of the alarm starts it again only when tracking is
    off, and then to expire at once; while tracking it does nothing but ask the
    supplies and count.  So tracking takes off one percent and stops, and an
    alarm that expires after tracking ended repeats without pause. *)
Theorem tracking_timer_inverted w :
  let e := ae (exec (get_charger_exist undef) w) in
  let w' := exec (fgr_time_handler undef) w in
  if low_tracking_enable (algo (ab w)) =? 0
  then w' = mk_aworld (ab w) (exec (let! now := env_boottime in env_alarm_start (now + 0) undef) e)
  else ae w' = e.
Proof.
  intros e w'. subst w'. unfold fgr_time_handler. rewrite exec_bind. pose proof (charger_calm w) as Hc.
  destruct (exec (get_charger_exist undef) w) as [b1 e1] eqn:Ew. cbn in Hc, e. subst b1 e.
  rewrite exec_bind. change (eval (geta low_tracking_enable) _) with (low_tracking_enable (algo (ab w))).
  change (exec (geta low_tracking_enable) ?x) with x.
  destruct (low_tracking_enable (algo (ab w)) =? 0); cbn [negb].
  - unfold set_fg_time, lift, exec, bind. cbn. by destruct (env_boottime e1), (env_alarm_start _ _ _).
  - destruct (eval (get_charger_exist undef) w); [done|].
    match goal with |- ae (exec ?m ?x) = _ => apply (wp_exec m (fun w' => ae w' = e1) x) end. awps; done.
Qed.
End Defects.

(** ** A small environment *)

Module TestEnv.
(** The counter's reading; no supply; nothing else happens. *)
#[global] Instance env : AlgoEnv Z := {
  env_gauge_get p := match p with GAUGE_PROP_COULOMB => gets (clip (- CAR_MAX) CAR_MAX) | GAUGE_PROP_RTC_UI_SOC | GAUGE_PROP_CON0_SOC => ret 60 | _ => ret 4000 end;
  env_gauge_set _ _ := ret tt;
  env_battery_set _ _ := ret tt;
  env_tbat := ret 25;
  env_online _ := ret None;
  env_ptim_current := ret None;
  env_boottime := ret 0;
  env_alarm_start _ _ := ret tt;
  env_get_shutdown_cond := ret 0;
  env_set_shutdown_cond _ := ret tt;
  env_battery_update := ret tt
}.
#[global] Instance bounded : CarBounded Z.
Proof. intros e. cbn. pose proof (clip_range (- CAR_MAX) CAR_MAX e ltac:(done)). lia. Qed.

Lemma offline : NoCharger (E := Z) 0.
Proof. done. Qed.

Definition algo0 : battery_algo := mk_algo false 0 0 0 false 0 0 0 0 0 0 0 0 0 0 0 0 0 0 0 0 0 0 0 0 0 0 0 0 0 0 0 0 0 0 0 0 0 0 0 0 0.
Definition custom0 : fg_custom := mk_custom 0 0 0 0 0 75 100 50 10 34500 33500 36000 0 0 0.
Definition ab0 : algo_battery := mk_ab algo0 TestTable.t custom0 0 0 false 0 0 0 false.
Definition w0 : aworld Z := exec (battery_algo_init 0 prof0) (mk_aworld ab0 0).
(** The counter falls by 60 mAh, and the interrupt for it comes. *)
Definition w1 : aworld Z := exec (do_fg_algo 0 prof0 FG_INTR_BAT_INT2_LT) (w0 <| ae := -600 |>).
End TestEnv.

Lemma ui_soc_paced_witness :
  let w2 := exec (do_fg_algo 0 prof0 FG_INTR_BAT_INT2_LT) TestEnv.w1 in
  0 <= u_ w2 <= 10000 /\ Z.abs (u_ w2 - u_ TestEnv.w1) <= 100 /\ gm_ui_soc (ab w2) = (u_ w2 + 50) / 100 /\ u_ w2 <> u_ TestEnv.w0.
Proof.
  destruct (ui_soc_paced 0 prof0 TestEnv.offline TestEnv.w0 TestEnv.w1 FG_INTR_BAT_INT2_LT) as (H1 & H2 & H3).
  - vm_compute. repeat split; discriminate.
  - vm_compute. reflexivity.
  - eapply rtc_l; [apply (astep_elsewhere 0 prof0 (-600) TestEnv.w0)|]. apply rtc_once, astep_interrupt.
  - split; [exact H1|]. split; [exact H2|]. split; [by apply H3|]. vm_compute. discriminate.
Defined.

Lemma coulomb_counting_exact_witness :
  fg_c_soc (algo (ab (exec fgr_update_c_dod (TestEnv.w0 <| ae := -600 |>)))) = 10000 - 4000 - 120 /\ quse TestEnv.w0 = 50000.
Proof.
  split; [|vm_compute; reflexivity].
  destruct (coulomb_counting_exact (TestEnv.w0 <| ae := -600 |>)) as [H _]; [vm_compute; discriminate..|vm_compute; split; discriminate|].
  rewrite H. vm_compute. reflexivity.
Defined.

Lemma dlpt_zero_lost_witness : gm_ui_soc (ab (exec (do_fg_algo 0 prof0 FG_INTR_DLPT_SD) TestEnv.w0)) <> 0.
Proof.
  rewrite (dlpt_zero_lost 0 prof0 TestEnv.w0); [vm_compute; discriminate|vm_compute; reflexivity|vm_compute; split; done].
Defined.
