(* ===== verification/BatteryGauge.v ===== *)
(** * The battery algorithm on the coulomb service and the MT6357

    The environment [AlgoEnv] of the algorithm, built from the modelled parts:
    the gauge driver answers for the gauge, the coulomb service holds the
    thresholds, the real-time clock of the chip keeps the displayed charge over
    a reboot. *)

From S2P Require Import Prelude Coulomb Mt6357 Mt6357Ops Mt6357Spec BatteryTable BatteryTableSpec.
From S2P Require Import BatteryAlgo BatteryAlgoSpec.
#[local] Open Scope Z_scope.

(** The coulomb service over the gauge, which also keeps the interrupts sent to
    the algorithm; the supplies, the boot clock and the tracking alarm; the
    temperature and its window; the shutdown condition and those raised. *)
Record desk (P : Type) : Type := mk_desk {
  dk_co : bworld (gworld P * list Z);
  dk_supply : string -> option (option Z);
  dk_now : Z;
  dk_alarm : option (Z * Z);
  dk_tbat : Z;
  dk_window : Z * Z;
  dk_cond : Z;
  dk_raised : list Z
}.
Arguments mk_desk {P}.
Arguments dk_co {P}.
Arguments dk_supply {P}.
Arguments dk_now {P}.
Arguments dk_alarm {P}.
Arguments dk_tbat {P}.
Arguments dk_window {P}.
Arguments dk_cond {P}.
Arguments dk_raised {P}.
#[global] Instance desk_struct P : Struct (desk P) := fun r =>
  mk_desk (dk_co r) (dk_supply r) (dk_now r) (dk_alarm r) (dk_tbat r) (dk_window r) (dk_cond r) (dk_raised r).

Section Desk.
  Context {P : Type} `{!Pmic P} (undef : Z).

Definition on_gauge {A} (m : M (gworld P) A) : M (gworld P * list Z) A := fun g => let '(a, w) := m (fst g) in (a, (w, snd g)).

#[export] Instance gauge_of_chip : Gauge (gworld P * list Z) := {
  gauge_get_coulomb := on_gauge (Mt6357Ops.gauge_get_int_property undef GAUGE_PROP_COULOMB);
  gauge_set_ht_interrupt v := ignore (on_gauge (Mt6357Ops.gauge_set_property undef GAUGE_PROP_COULOMB_HT_INTERRUPT v));
  gauge_set_lt_interrupt v := ignore (on_gauge (Mt6357Ops.gauge_set_property undef GAUGE_PROP_COULOMB_LT_INTERRUPT v));
  gauge_set_reset := ignore (on_gauge (Mt6357Ops.gauge_set_property undef GAUGE_PROP_RESET 0));
  fg_sw_bat_cycle_accu := ignore (on_gauge (Mt6357Ops.gauge_get_int_property undef GAUGE_PROP_COULOMB));
  wakeup_fg_algo e := modify (fun g => (fst g, e :: snd g))
}.

Definition on_service {A} (m : M (bworld (gworld P * list Z)) A) : M (desk P) A :=
  fun d => let '(a, w) := m (dk_co d) in (a, d <| dk_co := w |>).
Definition on_chip {A} (m : M (gworld P) A) : M (desk P) A := on_service (gauge (on_gauge m)).

(** [battery_sysfs_field_tbl], for the properties the algorithm sets. *)
Definition desk_battery_set (p : battery_property) (v : Z) : M (desk P) unit :=
  match p with
  | BAT_PROP_COULOMB_INT_GAP => on_service (coulomb_int_gap_set v)
  | BAT_PROP_UISOC_HT_INT_GAP => on_service (uisoc_ht_int_gap_set v)
  | BAT_PROP_UISOC_LT_INT_GAP => on_service (uisoc_lt_int_gap_set v)
  | BAT_PROP_ENABLE_UISOC_HT_INT => on_service (en_uisoc_ht_int_set v)
  | BAT_PROP_ENABLE_UISOC_LT_INT => on_service (en_uisoc_lt_int_set v)
  | BAT_PROP_FG_RESET => on_service Coulomb.reset_set
  | BAT_PROP_TEMP_TH_GAP => modify (fun d => d <| dk_window := (s32 (dk_tbat d - v), s32 (dk_tbat d + v)) |>)
  end.

#[export] Instance desk_env : AlgoEnv (desk P) := {
  env_gauge_get p := on_chip (Mt6357Ops.gauge_get_int_property undef p);
  env_gauge_set p v := ignore (on_chip (Mt6357Ops.gauge_set_property undef p v));
  env_battery_set := desk_battery_set;
  env_tbat := gets dk_tbat;
  env_online s := gets (fun d => dk_supply d s);
  env_ptim_current := let! r := on_chip (psy_gauge_get_property undef POWER_SUPPLY_PROP_CURRENT_NOW undef) in ret (Some (snd r));
  env_boottime := gets dk_now;
  env_alarm_start s ns := modify (fun d => d <| dk_alarm := Some (s, ns) |>);
  env_get_shutdown_cond := gets dk_cond;
  env_set_shutdown_cond c := modify (fun d => d <| dk_raised ::= cons c |>);
  env_battery_update := ret tt
}.
End Desk.

(** ** The store *)

Section Store.
  Context {P : Type} `{!Pmic P} (reg : P -> Z -> Z) (raw : P -> Z) (cell : P -> rtc_cell -> Z) `{!FgLaws reg raw cell} (undef : Z).
  (** A measurement changes neither the registers nor the real-time clock. *)
  Context (Hiio : forall c p, reg (exec (iio_read_channel_processed c) p) = reg p /\ cell (exec (iio_read_channel_processed c) p) = cell p).

Definition chip_of (d : desk P) : gworld P := fst (ga (dk_co d)).
Definition bound (w : gworld P) : Prop := gauge_psy (gg w) = true /\ gauge_attr (gg w) = true.
Definition rtc_held (w : gworld P) : Z := Z.land (cell (pm w) StateOfCharge) 0x7f.
Definition con0_held (w : gworld P) : Z := info_read GAUGE_PROP_CON0_SOC (reg (pm w) PMIC_RG_SYSTEM_INFO_CON0_ADDR) 0 0.

Lemma on_chip_run {A} (m : M (gworld P) A) d :
  eval (on_chip m) d = eval m (chip_of d) /\ chip_of (exec (on_chip m) d) = exec m (chip_of d).
Proof. unfold eval, exec, on_chip, on_service, gauge, on_gauge, chip_of. by destruct (m (fst (ga (dk_co d)))). Qed.

(** An access through the table of properties. *)
Lemma set_wp p a f v w (Q : gworld P -> Prop) :
  bound w -> mt6357_sysfs_field_tbl undef !! prop_index p = Some a -> fi_prop a = p -> fi_set a = Some f ->
  wp (f v) (fun _ => Q) w -> Q (exec (Mt6357Ops.gauge_set_property undef p v) w).
Proof.
  intros [Hp Ha] Ht Ep Ef Hq. apply (wp_exec _ Q). apply wp_bind, wp_gets. rewrite Hp, Ha, Ht. cbn [negb].
  rewrite decide_True, Ef by done. apply wp_bind, wp_ignore. eapply wp_mono; [exact Hq|]. intros ? ? H. by apply wp_ret.
Qed.
Lemma get_wp p a f w (Q : Z -> gworld P -> Prop) :
  bound w -> mt6357_sysfs_field_tbl undef !! prop_index p = Some a -> fi_prop a = p -> fi_get a = Some f ->
  wp (f undef) Q w -> wp (Mt6357Ops.gauge_get_int_property undef p) Q w.
Proof.
  intros [Hp Ha] Ht Ep Ef Hq. apply wp_bind, wp_bind, wp_gets. rewrite Hp, Ha, Ht. cbn [negb].
  rewrite decide_True, Ef by done. apply wp_bind. eapply wp_mono; [exact Hq|]. intros v w' H. by apply wp_ret, wp_ret.
Qed.

Definition same_store (w w' : gworld P) : Prop := bound w' /\ rtc_held w' = rtc_held w /\ con0_held w' = con0_held w.

Lemma same_chip_store w p : bound w -> same_chip reg raw cell w (w <| pm := p |>) -> same_store w (w <| pm := p |>).
Proof. intros Hb [R _ C]. unfold same_store, rtc_held, con0_held. cbn in *. by rewrite C, R. Qed.

Lemma rtc_get_wp w : bound w ->
  wp (Mt6357Ops.gauge_get_int_property undef GAUGE_PROP_RTC_UI_SOC) (fun v w' => v = rtc_held w /\ same_store w w') w.
Proof using FgLaws0.
  intros Hb. eapply get_wp; [done|reflexivity..|]. apply wp_bind, (wp_rtc reg raw cell). intros p S. apply wp_ret.
  split; [done|by apply same_chip_store].
Qed.
Lemma con0_get_wp w : bound w ->
  wp (Mt6357Ops.gauge_get_int_property undef GAUGE_PROP_CON0_SOC) (fun v w' => v = con0_held w /\ same_store w w') w.
Proof using FgLaws0.
  intros Hb. eapply get_wp; [done|reflexivity..|]. apply wp_bind, wp_gets, (get_info_wp reg raw cell). intros p S.
  split; [done|by apply same_chip_store].
Qed.
Lemma ptim_get_wp w : bound w ->
  wp (Mt6357Ops.gauge_get_int_property undef GAUGE_PROP_PTIM_BATTERY_VOLTAGE) (fun _ w' => same_store w w') w.
Proof using Hiio.
  intros Hb. eapply get_wp; [done|reflexivity..|]. apply wp_bind, wp_gets, wp_if; intros _; [|by apply wp_ret].
  apply wp_bind, wp_chip, wp_ret. destruct (Hiio Chan_ptim_bat_voltage (pm w)) as [R C].
  unfold same_store, rtc_held, con0_held. cbn. by rewrite R, C.
Qed.
Lemma rtc_set_wp v w : bound w -> 0 <= v < 128 ->
  let w' := exec (Mt6357Ops.gauge_set_property undef GAUGE_PROP_RTC_UI_SOC v) w in bound w' /\ rtc_held w' = v.
Proof using FgLaws0.
  intros Hb Hv w'. subst w'. eapply (set_wp _ _ _ _ _ (fun w' => bound w' /\ rtc_held w' = v)); [done|reflexivity..|].
  apply wp_bind, (wp_rtc reg raw cell). intros p1 [_ _ C1]. apply wp_bind, (wp_set_rtc reg raw cell). intros p2 _ C2. apply wp_ret.
  split; [done|]. unfold rtc_held. cbn in *. rewrite C2, bool_decide_eq_true_2 by done.
  by destruct (spare_bits (cell (pm w) StateOfCharge) v (fl_cell _ _) Hv).
Qed.
Lemma con0_set_wp v w : bound w -> 100 <= v < 12800 ->
  let w' := exec (Mt6357Ops.gauge_set_property undef GAUGE_PROP_CON0_SOC v) w in bound w' /\ rtc_held w' = rtc_held w /\ con0_held w' = v ÷c 100.
Proof using FgLaws0.
  intros Hb Hv w'. subst w'. eapply (set_wp _ _ _ _ _ (fun w' => bound w' /\ rtc_held w' = rtc_held w /\ con0_held w' = v ÷c 100)); [done|reflexivity..|].
  apply wp_bind, (wp_update reg raw cell). intros p R _ C. apply wp_ret. split; [done|]. unfold rtc_held, con0_held. cbn -[Z.shiftl] in *. rewrite C, R.
  split; [done|]. rewrite Z.eqb_refl.
  rewrite field_write by lia. rewrite (Z.land_ones _ 7) by lia. apply Z.mod_small. rewrite Z.quot_div_nonneg by lia.
  split; [apply Z.div_pos; lia|apply Z.div_lt_upper_bound; lia].
Qed.

(** The chip keeps the two percentages, as long as the driver is bound. *)
#[export] Instance mt6357_soc_store :
  @SocStore (desk P) (desk_env undef) (fun d => bound (chip_of d)) (fun d => rtc_held (chip_of d)) (fun d => con0_held (chip_of d)).
Proof using FgLaws0 Hiio.
  constructor.
  - intros v d Hb Hv e'. destruct (on_chip_run (Mt6357Ops.gauge_set_property undef GAUGE_PROP_RTC_UI_SOC v) d) as [_ E].
    change e' with (exec (on_chip (Mt6357Ops.gauge_set_property undef GAUGE_PROP_RTC_UI_SOC v)) d). rewrite E. by apply rtc_set_wp.
  - intros v d Hb Hv e'. destruct (on_chip_run (Mt6357Ops.gauge_set_property undef GAUGE_PROP_CON0_SOC v) d) as [_ E].
    change e' with (exec (on_chip (Mt6357Ops.gauge_set_property undef GAUGE_PROP_CON0_SOC v)) d). rewrite E. by apply con0_set_wp.
  - intros p d Hb Hp e'. destruct (on_chip_run (Mt6357Ops.gauge_get_int_property undef p) d) as [_ E].
    change e' with (exec (on_chip (Mt6357Ops.gauge_get_int_property undef p)) d). rewrite E.
    destruct Hp as [-> |[-> | ->]]; [apply (rtc_get_wp _ Hb)|apply (con0_get_wp _ Hb)|apply (ptim_get_wp _ Hb)].
  - intros d Hb. destruct (on_chip_run (Mt6357Ops.gauge_get_int_property undef GAUGE_PROP_RTC_UI_SOC) d) as [E _].
    cbn. rewrite E. apply (rtc_get_wp _ Hb).
  - intros d Hb. destruct (on_chip_run (Mt6357Ops.gauge_get_int_property undef GAUGE_PROP_CON0_SOC) d) as [E _].
    cbn. rewrite E. apply (con0_get_wp _ Hb).
  - done.
Qed.
End Store.

(** C13: a displayed charge between 0.5 % and 100 % survives a reboot on the
    MT6357, rounded to a percent: with registers that keep what is written to
    them, what the algorithm leaves in the real-time clock and in the register of
    the chip is what it starts from the next time. A smaller charge is outside of
    this claim ([drained_on_charger_reboots_at_127]). *)
Theorem mt6357_reboot_keeps_percentage {P} `{!Pmic P} reg raw cell `{!FgLaws reg raw cell} undef
    (Hiio : forall c p, reg (exec (iio_read_channel_processed c) p) = reg p /\ cell (exec (iio_read_channel_processed c) p) = cell p)
    (w : aworld (desk P)) b :
  bound (chip_of (ae w)) -> 50 <= ui_soc (algo (ab w)) <= 10000 ->
  let env := desk_env undef in
  let d := ae (exec (store_soc 10000) w) in
  ui_soc (algo (ab (exec fgr_dod_init (mk_aworld b d)))) = 100 * ((ui_soc (algo (ab w)) + 50) / 100).
Proof.
  intros Hb Hu env d. pose proof (mt6357_soc_store reg raw cell undef Hiio) as L.
  exact (proj1 (reboot_keeps_percentage _ _ _ 10000 w b Hb Hu ltac:(lia))).
Qed.

(** ** A device *)

Module TestDesk.
Import TestChip.
#[global] Instance env : AlgoEnv (desk fg) := desk_env 0.
(** Power on with the chip as it is; the supplies say [online]. *)
Definition fresh (g : gworld fg) (online : Z) : aworld (desk fg) := mk_aworld TestEnv.ab0
  (mk_desk (mk_bworld (mk_battery (mk_cs [] [] 0 false false 0 true []) (fun _ => mk_consumer 0 0 0 true) 100 0 0 0 0 0 0 false) (g, []))
    (fun _ => Some (Some online)) 100 None 25 (0, 0) 0 []).
Definition boot (g : gworld fg) (online : Z) : aworld (desk fg) := exec (battery_algo_init 0 prof0) (fresh g online).
(** 60 mAh leave the battery, and the interrupt for a falling charge comes. *)
Definition drain (w : aworld (desk fg)) : aworld (desk fg) :=
  w <| ae ::= fun d => d <| dk_co ::= fun c => c <| ga ::= fun g =>
    ((fst g) <| pm ::= fun p => p <| f_raw ::= fun r => r - 11000000 |> |>, snd g) |> |> |>.
Definition down (w : aworld (desk fg)) : aworld (desk fg) := exec (do_fg_algo 0 prof0 FG_INTR_BAT_INT2_LT) (drain w).
Definition downs (n : nat) (w : aworld (desk fg)) : aworld (desk fg) := Nat.iter n down w.
Lemma iio_quiet c (p : fg) :
  f_regs (exec (iio_read_channel_processed c) p) = f_regs p /\ cell (exec (iio_read_channel_processed c) p) = cell p.
Proof. done. Qed.
End TestDesk.

Lemma mt6357_reboot_keeps_percentage_witness :
  let w := TestDesk.downs 3 (TestDesk.boot TestChip.w0 0) in
  ui_soc (algo (ab (exec fgr_dod_init (mk_aworld TestEnv.ab0 (ae (exec (store_soc 10000) w)))))) = 6600 /\ ui_soc (algo (ab w)) = 6589.
Proof.
  cbv zeta. split; [|vm_compute; reflexivity].
  etransitivity; [|shelve]. apply (mt6357_reboot_keeps_percentage TestChip.f_regs TestChip.raw TestChip.cell 0 TestDesk.iio_quiet
    (TestDesk.downs 3 (TestDesk.boot TestChip.w0 0)) TestEnv.ab0); [vm_compute; split; reflexivity|vm_compute; split; discriminate].
  Unshelve. vm_compute. reflexivity.
Defined.

(** With a charger connected the displayed charge has no lower bound.  A
    device that draws more than its charger gives shows 0 %, and the stored
    percentage becomes -1; that is written to the real-time clock's seven bits,
    which then say 127 (and the mark of valid contents is gone).  The next boot
    takes it: the supply shows 127 %. *)
Theorem drained_on_charger_reboots_at_127 :
  let w := TestDesk.downs 71 (TestDesk.boot TestChip.w0 1) in
  let w' := TestDesk.boot (chip_of (ae w)) 0 in
  ui_soc (algo (ab w)) = -211 /\ gm_ui_soc (ab w) = 0 /\
  Z.testbit (TestChip.cell (pm (chip_of (ae w))) StateOfCharge) 7 = false /\
  ui_soc (algo (ab w')) = 12700 /\ gm_ui_soc (ab w') = 127.
Proof. vm_compute. repeat split. Qed.
