(* ===== verification/BatteryCust.v ===== *)
(** * The custom data of the fuel gauge (mtk_battery.h)

    The fields of [struct fuel_gauge_custom_data], all of them [int], in the
    order of the source, which is the order of their words in memory; and the
    places of the fields of [struct fuel_gauge_log_data] that the kernel reads. *)

From S2P Require Import Prelude RtRegmap.
#[local] Open Scope Z_scope.

Inductive cust_field : Type :=
| cf_versionID1 | cf_versionID2 | cf_versionID3 | cf_hardwareVersion | cf_low_temp_mode | cf_low_temp_mode_temp
| cf_q_max_L_current | cf_q_max_H_current | cf_q_max_sys_voltage | cf_pseudo1_en | cf_pseudo100_en
| cf_pseudo100_en_dis | cf_pseudo1_iq_offset | cf_qmax_sel | cf_iboot_sel | cf_shutdown_system_iboot
| cf_multi_temp_gauge0 | cf_car_tune_value | cf_fg_meter_resistance | cf_com_fg_meter_resistance | cf_r_fg_value
| cf_com_r_fg_value | cf_mtk_chr_exist | cf_aging_one_en | cf_aging1_update_soc | cf_aging1_load_soc
| cf_aging4_update_soc | cf_aging4_load_soc | cf_aging5_update_soc | cf_aging5_load_soc | cf_aging6_update_soc
| cf_aging6_load_soc | cf_aging_temp_diff | cf_aging_temp_low_limit | cf_aging_temp_high_limit | cf_aging_100_en
| cf_difference_voltage_update | cf_aging_two_en | cf_aging_third_en | cf_aging_4_en | cf_aging_5_en
| cf_aging_6_en | cf_diff_soc_setting | cf_keep_100_percent | cf_difference_full_cv | cf_diff_bat_temp_setting
| cf_diff_bat_temp_setting_c | cf_discharge_tracking_time | cf_charge_tracking_time | cf_difference_fullocv_vth
| cf_difference_fullocv_ith | cf_charge_pseudo_full_level | cf_over_discharge_level
| cf_full_tracking_bat_int2_multiply | cf_rtc_oldsoc_valid_diff | cf_hwocv_swocv_diff | cf_hwocv_swocv_diff_lt
| cf_hwocv_swocv_diff_lt_temp | cf_hwocv_oldocv_diff | cf_hwocv_oldocv_diff_chr | cf_swocv_oldocv_diff
| cf_swocv_oldocv_diff_chr | cf_vbat_oldocv_diff | cf_tnew_told_pon_diff | cf_tnew_told_pon_diff2
| cf_pmic_shutdown_time | cf_bat_plug_out_time | cf_swocv_oldocv_diff_emb | cf_vir_oldocv_diff_emb
| cf_vir_oldocv_diff_emb_lt | cf_vir_oldocv_diff_emb_tmp | cf_difference_fgc_fgv_th1 | cf_difference_fgc_fgv_th2
| cf_difference_fgc_fgv_th3 | cf_difference_fgc_fgv_th_soc1 | cf_difference_fgc_fgv_th_soc2
| cf_nafg_time_setting | cf_nafg_ratio | cf_nafg_ratio_en | cf_nafg_ratio_tmp_thr | cf_nafg_resistance
| cf_pmic_shutdown_current | cf_pmic_shutdown_sw_en | cf_force_vc_mode | cf_embedded_sel | cf_loading_1_en
| cf_loading_2_en | cf_diff_iavg_th | cf_r_bat_sense | cf_r_i_sense | cf_r_charger_1 | cf_r_charger_2
| cf_fg_pre_tracking_en | cf_vbat2_det_time | cf_vbat2_det_counter | cf_vbat2_det_voltage1
| cf_vbat2_det_voltage2 | cf_vbat2_det_voltage3 | cf_shutdown_1_time | cf_shutdown_gauge0
| cf_shutdown_gauge1_xmins | cf_shutdown_gauge1_mins | cf_shutdown_gauge0_voltage | cf_shutdown_gauge1_vbat_en
| cf_shutdown_gauge1_vbat | cf_zcv_suspend_time | cf_sleep_current_avg | cf_dc_ratio_sel | cf_dc_r_cnt
| cf_pseudo1_sel | cf_ui_full_limit_en | cf_ui_full_limit_soc0 | cf_ui_full_limit_ith0 | cf_ui_full_limit_soc1
| cf_ui_full_limit_ith1 | cf_ui_full_limit_soc2 | cf_ui_full_limit_ith2 | cf_ui_full_limit_soc3
| cf_ui_full_limit_ith3 | cf_ui_full_limit_soc4 | cf_ui_full_limit_ith4 | cf_ui_full_limit_time
| cf_ui_low_limit_en | cf_ui_low_limit_soc0 | cf_ui_low_limit_vth0 | cf_ui_low_limit_soc1 | cf_ui_low_limit_vth1
| cf_ui_low_limit_soc2 | cf_ui_low_limit_vth2 | cf_ui_low_limit_soc3 | cf_ui_low_limit_vth3
| cf_ui_low_limit_soc4 | cf_ui_low_limit_vth4 | cf_ui_low_limit_time | cf_moving_battemp_en
| cf_moving_battemp_thr | cf_d0_sel | cf_dod_init_sel | cf_aging_sel | cf_fg_tracking_current
| cf_fg_tracking_current_iboot_en | cf_ui_fast_tracking_en | cf_ui_fast_tracking_gap | cf_bat_par_i
| cf_c_old_d0 | cf_v_old_d0 | cf_c_soc | cf_v_soc | cf_ui_old_soc | cf_dlpt_ui_remap_en | cf_aging_factor_min
| cf_aging_factor_diff | cf_keep_100_percent_minsoc | cf_battery_tmp_to_disable_gm30
| cf_battery_tmp_to_disable_nafg | cf_battery_tmp_to_enable_nafg | cf_disable_nafg | cf_zcv_car_gap_percentage
| cf_uisoc_update_type | cf_pl_charger_status | cf_power_on_car_chr | cf_power_on_car_nochr
| cf_shutdown_car_ratio | cf_min_uisoc_at_kpoc | cf_daemon_log_level | cf_record_log.

Definition cust_layout : list cust_field :=
  [cf_versionID1; cf_versionID2; cf_versionID3; cf_hardwareVersion; cf_low_temp_mode; cf_low_temp_mode_temp;
   cf_q_max_L_current; cf_q_max_H_current; cf_q_max_sys_voltage; cf_pseudo1_en; cf_pseudo100_en;
   cf_pseudo100_en_dis; cf_pseudo1_iq_offset; cf_qmax_sel; cf_iboot_sel; cf_shutdown_system_iboot;
   cf_multi_temp_gauge0; cf_car_tune_value; cf_fg_meter_resistance; cf_com_fg_meter_resistance; cf_r_fg_value;
   cf_com_r_fg_value; cf_mtk_chr_exist; cf_aging_one_en; cf_aging1_update_soc; cf_aging1_load_soc;
   cf_aging4_update_soc; cf_aging4_load_soc; cf_aging5_update_soc; cf_aging5_load_soc; cf_aging6_update_soc;
   cf_aging6_load_soc; cf_aging_temp_diff; cf_aging_temp_low_limit; cf_aging_temp_high_limit; cf_aging_100_en;
   cf_difference_voltage_update; cf_aging_two_en; cf_aging_third_en; cf_aging_4_en; cf_aging_5_en;
   cf_aging_6_en; cf_diff_soc_setting; cf_keep_100_percent; cf_difference_full_cv; cf_diff_bat_temp_setting;
   cf_diff_bat_temp_setting_c; cf_discharge_tracking_time; cf_charge_tracking_time; cf_difference_fullocv_vth;
   cf_difference_fullocv_ith; cf_charge_pseudo_full_level; cf_over_discharge_level;
   cf_full_tracking_bat_int2_multiply; cf_rtc_oldsoc_valid_diff; cf_hwocv_swocv_diff; cf_hwocv_swocv_diff_lt;
   cf_hwocv_swocv_diff_lt_temp; cf_hwocv_oldocv_diff; cf_hwocv_oldocv_diff_chr; cf_swocv_oldocv_diff;
   cf_swocv_oldocv_diff_chr; cf_vbat_oldocv_diff; cf_tnew_told_pon_diff; cf_tnew_told_pon_diff2;
   cf_pmic_shutdown_time; cf_bat_plug_out_time; cf_swocv_oldocv_diff_emb; cf_vir_oldocv_diff_emb;
   cf_vir_oldocv_diff_emb_lt; cf_vir_oldocv_diff_emb_tmp; cf_difference_fgc_fgv_th1; cf_difference_fgc_fgv_th2;
   cf_difference_fgc_fgv_th3; cf_difference_fgc_fgv_th_soc1; cf_difference_fgc_fgv_th_soc2;
   cf_nafg_time_setting; cf_nafg_ratio; cf_nafg_ratio_en; cf_nafg_ratio_tmp_thr; cf_nafg_resistance;
   cf_pmic_shutdown_current; cf_pmic_shutdown_sw_en; cf_force_vc_mode; cf_embedded_sel; cf_loading_1_en;
   cf_loading_2_en; cf_diff_iavg_th; cf_r_bat_sense; cf_r_i_sense; cf_r_charger_1; cf_r_charger_2;
   cf_fg_pre_tracking_en; cf_vbat2_det_time; cf_vbat2_det_counter; cf_vbat2_det_voltage1; cf_vbat2_det_voltage2;
   cf_vbat2_det_voltage3; cf_shutdown_1_time; cf_shutdown_gauge0; cf_shutdown_gauge1_xmins;
   cf_shutdown_gauge1_mins; cf_shutdown_gauge0_voltage; cf_shutdown_gauge1_vbat_en; cf_shutdown_gauge1_vbat;
   cf_zcv_suspend_time; cf_sleep_current_avg; cf_dc_ratio_sel; cf_dc_r_cnt; cf_pseudo1_sel; cf_ui_full_limit_en;
   cf_ui_full_limit_soc0; cf_ui_full_limit_ith0; cf_ui_full_limit_soc1; cf_ui_full_limit_ith1;
   cf_ui_full_limit_soc2; cf_ui_full_limit_ith2; cf_ui_full_limit_soc3; cf_ui_full_limit_ith3;
   cf_ui_full_limit_soc4; cf_ui_full_limit_ith4; cf_ui_full_limit_time; cf_ui_low_limit_en;
   cf_ui_low_limit_soc0; cf_ui_low_limit_vth0; cf_ui_low_limit_soc1; cf_ui_low_limit_vth1; cf_ui_low_limit_soc2;
   cf_ui_low_limit_vth2; cf_ui_low_limit_soc3; cf_ui_low_limit_vth3; cf_ui_low_limit_soc4; cf_ui_low_limit_vth4;
   cf_ui_low_limit_time; cf_moving_battemp_en; cf_moving_battemp_thr; cf_d0_sel; cf_dod_init_sel; cf_aging_sel;
   cf_fg_tracking_current; cf_fg_tracking_current_iboot_en; cf_ui_fast_tracking_en; cf_ui_fast_tracking_gap;
   cf_bat_par_i; cf_c_old_d0; cf_v_old_d0; cf_c_soc; cf_v_soc; cf_ui_old_soc; cf_dlpt_ui_remap_en;
   cf_aging_factor_min; cf_aging_factor_diff; cf_keep_100_percent_minsoc; cf_battery_tmp_to_disable_gm30;
   cf_battery_tmp_to_disable_nafg; cf_battery_tmp_to_enable_nafg; cf_disable_nafg; cf_zcv_car_gap_percentage;
   cf_uisoc_update_type; cf_pl_charger_status; cf_power_on_car_chr; cf_power_on_car_nochr;
   cf_shutdown_car_ratio; cf_min_uisoc_at_kpoc; cf_daemon_log_level; cf_record_log].
Definition cust_idx (f : cust_field) : nat :=
  match f with
  | cf_versionID1 => 0 | cf_versionID2 => 1 | cf_versionID3 => 2 | cf_hardwareVersion => 3
  | cf_low_temp_mode => 4 | cf_low_temp_mode_temp => 5 | cf_q_max_L_current => 6 | cf_q_max_H_current => 7
  | cf_q_max_sys_voltage => 8 | cf_pseudo1_en => 9 | cf_pseudo100_en => 10 | cf_pseudo100_en_dis => 11
  | cf_pseudo1_iq_offset => 12 | cf_qmax_sel => 13 | cf_iboot_sel => 14 | cf_shutdown_system_iboot => 15
  | cf_multi_temp_gauge0 => 16 | cf_car_tune_value => 17 | cf_fg_meter_resistance => 18 | cf_com_fg_meter_resistance => 19
  | cf_r_fg_value => 20 | cf_com_r_fg_value => 21 | cf_mtk_chr_exist => 22 | cf_aging_one_en => 23
  | cf_aging1_update_soc => 24 | cf_aging1_load_soc => 25 | cf_aging4_update_soc => 26 | cf_aging4_load_soc => 27
  | cf_aging5_update_soc => 28 | cf_aging5_load_soc => 29 | cf_aging6_update_soc => 30 | cf_aging6_load_soc => 31
  | cf_aging_temp_diff => 32 | cf_aging_temp_low_limit => 33 | cf_aging_temp_high_limit => 34 | cf_aging_100_en => 35
  | cf_difference_voltage_update => 36 | cf_aging_two_en => 37 | cf_aging_third_en => 38 | cf_aging_4_en => 39
  | cf_aging_5_en => 40 | cf_aging_6_en => 41 | cf_diff_soc_setting => 42 | cf_keep_100_percent => 43
  | cf_difference_full_cv => 44 | cf_diff_bat_temp_setting => 45 | cf_diff_bat_temp_setting_c => 46 | cf_discharge_tracking_time => 47
  | cf_charge_tracking_time => 48 | cf_difference_fullocv_vth => 49 | cf_difference_fullocv_ith => 50 | cf_charge_pseudo_full_level => 51
  | cf_over_discharge_level => 52 | cf_full_tracking_bat_int2_multiply => 53 | cf_rtc_oldsoc_valid_diff => 54 | cf_hwocv_swocv_diff => 55
  | cf_hwocv_swocv_diff_lt => 56 | cf_hwocv_swocv_diff_lt_temp => 57 | cf_hwocv_oldocv_diff => 58 | cf_hwocv_oldocv_diff_chr => 59
  | cf_swocv_oldocv_diff => 60 | cf_swocv_oldocv_diff_chr => 61 | cf_vbat_oldocv_diff => 62 | cf_tnew_told_pon_diff => 63
  | cf_tnew_told_pon_diff2 => 64 | cf_pmic_shutdown_time => 65 | cf_bat_plug_out_time => 66 | cf_swocv_oldocv_diff_emb => 67
  | cf_vir_oldocv_diff_emb => 68 | cf_vir_oldocv_diff_emb_lt => 69 | cf_vir_oldocv_diff_emb_tmp => 70 | cf_difference_fgc_fgv_th1 => 71
  | cf_difference_fgc_fgv_th2 => 72 | cf_difference_fgc_fgv_th3 => 73 | cf_difference_fgc_fgv_th_soc1 => 74 | cf_difference_fgc_fgv_th_soc2 => 75
  | cf_nafg_time_setting => 76 | cf_nafg_ratio => 77 | cf_nafg_ratio_en => 78 | cf_nafg_ratio_tmp_thr => 79
  | cf_nafg_resistance => 80 | cf_pmic_shutdown_current => 81 | cf_pmic_shutdown_sw_en => 82 | cf_force_vc_mode => 83
  | cf_embedded_sel => 84 | cf_loading_1_en => 85 | cf_loading_2_en => 86 | cf_diff_iavg_th => 87
  | cf_r_bat_sense => 88 | cf_r_i_sense => 89 | cf_r_charger_1 => 90 | cf_r_charger_2 => 91
  | cf_fg_pre_tracking_en => 92 | cf_vbat2_det_time => 93 | cf_vbat2_det_counter => 94 | cf_vbat2_det_voltage1 => 95
  | cf_vbat2_det_voltage2 => 96 | cf_vbat2_det_voltage3 => 97 | cf_shutdown_1_time => 98 | cf_shutdown_gauge0 => 99
  | cf_shutdown_gauge1_xmins => 100 | cf_shutdown_gauge1_mins => 101 | cf_shutdown_gauge0_voltage => 102 | cf_shutdown_gauge1_vbat_en => 103
  | cf_shutdown_gauge1_vbat => 104 | cf_zcv_suspend_time => 105 | cf_sleep_current_avg => 106 | cf_dc_ratio_sel => 107
  | cf_dc_r_cnt => 108 | cf_pseudo1_sel => 109 | cf_ui_full_limit_en => 110 | cf_ui_full_limit_soc0 => 111
  | cf_ui_full_limit_ith0 => 112 | cf_ui_full_limit_soc1 => 113 | cf_ui_full_limit_ith1 => 114 | cf_ui_full_limit_soc2 => 115
  | cf_ui_full_limit_ith2 => 116 | cf_ui_full_limit_soc3 => 117 | cf_ui_full_limit_ith3 => 118 | cf_ui_full_limit_soc4 => 119
  | cf_ui_full_limit_ith4 => 120 | cf_ui_full_limit_time => 121 | cf_ui_low_limit_en => 122 | cf_ui_low_limit_soc0 => 123
  | cf_ui_low_limit_vth0 => 124 | cf_ui_low_limit_soc1 => 125 | cf_ui_low_limit_vth1 => 126 | cf_ui_low_limit_soc2 => 127
  | cf_ui_low_limit_vth2 => 128 | cf_ui_low_limit_soc3 => 129 | cf_ui_low_limit_vth3 => 130 | cf_ui_low_limit_soc4 => 131
  | cf_ui_low_limit_vth4 => 132 | cf_ui_low_limit_time => 133 | cf_moving_battemp_en => 134 | cf_moving_battemp_thr => 135
  | cf_d0_sel => 136 | cf_dod_init_sel => 137 | cf_aging_sel => 138 | cf_fg_tracking_current => 139
  | cf_fg_tracking_current_iboot_en => 140 | cf_ui_fast_tracking_en => 141 | cf_ui_fast_tracking_gap => 142 | cf_bat_par_i => 143
  | cf_c_old_d0 => 144 | cf_v_old_d0 => 145 | cf_c_soc => 146 | cf_v_soc => 147
  | cf_ui_old_soc => 148 | cf_dlpt_ui_remap_en => 149 | cf_aging_factor_min => 150 | cf_aging_factor_diff => 151
  | cf_keep_100_percent_minsoc => 152 | cf_battery_tmp_to_disable_gm30 => 153 | cf_battery_tmp_to_disable_nafg => 154 | cf_battery_tmp_to_enable_nafg => 155
  | cf_disable_nafg => 156 | cf_zcv_car_gap_percentage => 157 | cf_uisoc_update_type => 158 | cf_pl_charger_status => 159
  | cf_power_on_car_chr => 160 | cf_power_on_car_nochr => 161 | cf_shutdown_car_ratio => 162 | cf_min_uisoc_at_kpoc => 163
  | cf_daemon_log_level => 164 | cf_record_log => 165
  end.

(** The layout has every field at its index. *)
Lemma cust_layout_idx f : cust_layout !! cust_idx f = Some f.
Proof. destruct f; reflexivity. Qed.
#[global] Instance cust_idx_inj : Inj (=) (=) cust_idx.
Proof. intros x y H. pose proof (cust_layout_idx x) as Hx. rewrite H, cust_layout_idx in Hx. by injection Hx. Qed.

(** Words of [struct fuel_gauge_log_data]. *)
Definition lg_gm30_soc : nat := 0.
Definition lg_gm30_fg_c_soc : nat := 1.
Definition lg_gm30_fg_v_soc : nat := 2.
Definition lg_gm30_vc_diff : nat := 4.
Definition lg_gm30_vc_mode : nat := 5.
Definition lg_gm30_quse_wo_lf_tb1 : nat := 15.
Definition word_at (l : list Z) (i : nat) : Z := s32 (le_value (take 4 (drop (4 * i) l))).
