(* ===== verification/BatteryCore.v ===== *)
(** * The battery manager (mtk_battery.c, mtk_battery_daemon.c): state and temperature

    The variables of [struct mtk_battery] that the manager, the protocol of the
    gauge daemon, the interrupts and the shutdown controller share; what they
    call of the rest of the system, as the type class [BattEnv]; how an
    interrupt reaches the algorithm; and the battery's temperature. *)

From S2P Require Import Prelude RtRegmap Coulomb Mt6357 BatteryTable BatteryCust.
#[local] Open Scope Z_scope.

(** ** State *)

(** The integer variables, of [struct mtk_battery] and of what it contains
    (hardware status and information of the gauge, custom data, the battery's
    supply data), and the function-local static ones. *)
Inductive bvar : Type :=
| v_init_flag | v_soc | v_ui_soc | v_ui_old_soc | v_bat_capacity | v_bat_status | v_bat_batt_temp | v_bootmode
| v_disableGM30 | v_algo_active | v_disable_nafg_int | v_cmd_disable_nafg | v_ntc_disable_nafg | v_disable_nafg
| v_is_nafg_broken | v_last_nafg_cnt | v_last_nafg_update_time | v_fgd_pid | v_is_probe_done | v_cmd_disable_intr
| v_ptim_lk_v | v_ptim_lk_i | v_ptim_vbat | v_ptim_i | v_badcmd | v_fake_rtc_soc | v_pl_two_sec_reboot | v_pl_shutdown_time
| v_nafg_cnt | v_nafg_dltv | v_nafg_c_dltv | v_nafg_c_dltv_th | v_nafg_zcv | v_log_nafg_zcv | v_sw_ocv | v_hw_ocv
| v_is_bat_plugout | v_bat_plug_out_time | v_flag_hw_ocv_unreliable | v_rtc_invalid | v_iavg_intr_flag | v_iavg_lt
| v_ncar | v_current_1 | v_current_2 | v_current_avg_valid
| v_coulomb_int_gap | v_coulomb_int_ht | v_coulomb_int_lt | v_uisoc_int_ht_gap | v_uisoc_int_lt_gap
| v_uisoc_int_ht_en | v_uisoc_int_lt_en
| v_bat_tmp_c_int_gap | v_bat_tmp_c_ht | v_bat_tmp_c_lt | v_bat_tmp_int_gap | v_bat_tmp_ht | v_bat_tmp_lt
| v_sw_iavg | v_sw_iavg_time | v_sw_iavg_car | v_sw_iavg_ht | v_sw_iavg_lt | v_sw_iavg_gap
| v_bat_cycle | v_bat_cycle_thr | v_bat_cycle_car | v_bat_cycle_ncar | v_is_reset_battery_cycle | v_is_reset_aging_factor
| v_c_old_d0 | v_v_old_d0 | v_c_soc | v_v_soc | v_d_saved_car | v_aging_factor | v_algo_qmax | v_algo_ocv_to_mah
| v_algo_vtemp | v_algo_ocv_to_soc | v_algo_req_ocv | v_soc_decimal_rate
| v_sw_low_battery_ht_en | v_sw_low_battery_lt_en | v_vbat2_det_voltage1 | v_vbat2_det_voltage2 | v_vbat2_det_voltage3
| v_sleep_current_avg | v_plug_miss_count | v_disable_plug_int | v_chr_full_handler_time
| v_enable_tmp_intr_suspend | v_no_bat_temp_compensate | v_com_r_fg_value | v_com_fg_meter_resistance
| v_rbat_pull_up_r | v_rbat_pull_up_volt | v_pre_bat_temperature_val | v_tbat_precise | v_cur_bat_temp | v_fixed_bat_tmp
| v_bat_health | v_bat_present | v_bat_technology | v_bat_batt_vol | v_fixed_uisoc | v_b_EOC | v_chr_type | v_current_difference_full_cv
| v_min_battery_temp | v_tt_fg_current_temp | v_tt_fg_current_state | v_uisoc_oldtime | v_ue_old_ui_soc | v_ue_old_status
| v_chg_psy | v_bs_chg_psy | v_eoc_chg_psy | v_fg_update_flag | v_suspend_active | v_log_level
| v_use_aging_zcv | v_aging_factor_old | v_bat_cycle_old | v_qmax_old.

Definition all_bvars : list bvar :=
  [v_init_flag; v_soc; v_ui_soc; v_ui_old_soc; v_bat_capacity; v_bat_status; v_bat_batt_temp; v_bootmode;
   v_disableGM30; v_algo_active; v_disable_nafg_int; v_cmd_disable_nafg; v_ntc_disable_nafg; v_disable_nafg;
   v_is_nafg_broken; v_last_nafg_cnt; v_last_nafg_update_time; v_fgd_pid; v_is_probe_done; v_cmd_disable_intr;
   v_ptim_lk_v; v_ptim_lk_i; v_ptim_vbat; v_ptim_i; v_badcmd; v_fake_rtc_soc; v_pl_two_sec_reboot;
   v_pl_shutdown_time; v_nafg_cnt; v_nafg_dltv; v_nafg_c_dltv; v_nafg_c_dltv_th; v_nafg_zcv; v_log_nafg_zcv;
   v_sw_ocv; v_hw_ocv; v_is_bat_plugout; v_bat_plug_out_time; v_flag_hw_ocv_unreliable; v_rtc_invalid;
   v_iavg_intr_flag; v_iavg_lt; v_ncar; v_current_1; v_current_2; v_current_avg_valid; v_coulomb_int_gap;
   v_coulomb_int_ht; v_coulomb_int_lt; v_uisoc_int_ht_gap; v_uisoc_int_lt_gap; v_uisoc_int_ht_en;
   v_uisoc_int_lt_en; v_bat_tmp_c_int_gap; v_bat_tmp_c_ht; v_bat_tmp_c_lt; v_bat_tmp_int_gap; v_bat_tmp_ht;
   v_bat_tmp_lt; v_sw_iavg; v_sw_iavg_time; v_sw_iavg_car; v_sw_iavg_ht; v_sw_iavg_lt; v_sw_iavg_gap;
   v_bat_cycle; v_bat_cycle_thr; v_bat_cycle_car; v_bat_cycle_ncar; v_is_reset_battery_cycle;
   v_is_reset_aging_factor; v_c_old_d0; v_v_old_d0; v_c_soc; v_v_soc; v_d_saved_car; v_aging_factor;
   v_algo_qmax; v_algo_ocv_to_mah; v_algo_vtemp; v_algo_ocv_to_soc; v_algo_req_ocv; v_soc_decimal_rate;
   v_sw_low_battery_ht_en; v_sw_low_battery_lt_en; v_vbat2_det_voltage1; v_vbat2_det_voltage2;
   v_vbat2_det_voltage3; v_sleep_current_avg; v_plug_miss_count; v_disable_plug_int; v_chr_full_handler_time;
   v_enable_tmp_intr_suspend; v_no_bat_temp_compensate; v_com_r_fg_value; v_com_fg_meter_resistance;
   v_rbat_pull_up_r; v_rbat_pull_up_volt; v_pre_bat_temperature_val; v_tbat_precise; v_cur_bat_temp;
   v_fixed_bat_tmp; v_bat_health; v_bat_present; v_bat_technology; v_bat_batt_vol; v_fixed_uisoc; v_b_EOC;
   v_chr_type; v_current_difference_full_cv; v_min_battery_temp; v_tt_fg_current_temp; v_tt_fg_current_state;
   v_uisoc_oldtime; v_ue_old_ui_soc; v_ue_old_status; v_chg_psy; v_bs_chg_psy; v_eoc_chg_psy;
   v_fg_update_flag; v_suspend_active; v_log_level; v_use_aging_zcv; v_aging_factor_old; v_bat_cycle_old; v_qmax_old].
Definition bvar_idx (v : bvar) : nat :=
  match v with
  | v_init_flag => 0 | v_soc => 1 | v_ui_soc => 2 | v_ui_old_soc => 3
  | v_bat_capacity => 4 | v_bat_status => 5 | v_bat_batt_temp => 6 | v_bootmode => 7
  | v_disableGM30 => 8 | v_algo_active => 9 | v_disable_nafg_int => 10 | v_cmd_disable_nafg => 11
  | v_ntc_disable_nafg => 12 | v_disable_nafg => 13 | v_is_nafg_broken => 14 | v_last_nafg_cnt => 15
  | v_last_nafg_update_time => 16 | v_fgd_pid => 17 | v_is_probe_done => 18 | v_cmd_disable_intr => 19
  | v_ptim_lk_v => 20 | v_ptim_lk_i => 21 | v_ptim_vbat => 22 | v_ptim_i => 23
  | v_badcmd => 24 | v_fake_rtc_soc => 25 | v_pl_two_sec_reboot => 26 | v_pl_shutdown_time => 27
  | v_nafg_cnt => 28 | v_nafg_dltv => 29 | v_nafg_c_dltv => 30 | v_nafg_c_dltv_th => 31
  | v_nafg_zcv => 32 | v_log_nafg_zcv => 33 | v_sw_ocv => 34 | v_hw_ocv => 35
  | v_is_bat_plugout => 36 | v_bat_plug_out_time => 37 | v_flag_hw_ocv_unreliable => 38 | v_rtc_invalid => 39
  | v_iavg_intr_flag => 40 | v_iavg_lt => 41 | v_ncar => 42 | v_current_1 => 43
  | v_current_2 => 44 | v_current_avg_valid => 45 | v_coulomb_int_gap => 46 | v_coulomb_int_ht => 47
  | v_coulomb_int_lt => 48 | v_uisoc_int_ht_gap => 49 | v_uisoc_int_lt_gap => 50 | v_uisoc_int_ht_en => 51
  | v_uisoc_int_lt_en => 52 | v_bat_tmp_c_int_gap => 53 | v_bat_tmp_c_ht => 54 | v_bat_tmp_c_lt => 55
  | v_bat_tmp_int_gap => 56 | v_bat_tmp_ht => 57 | v_bat_tmp_lt => 58 | v_sw_iavg => 59
  | v_sw_iavg_time => 60 | v_sw_iavg_car => 61 | v_sw_iavg_ht => 62 | v_sw_iavg_lt => 63
  | v_sw_iavg_gap => 64 | v_bat_cycle => 65 | v_bat_cycle_thr => 66 | v_bat_cycle_car => 67
  | v_bat_cycle_ncar => 68 | v_is_reset_battery_cycle => 69 | v_is_reset_aging_factor => 70 | v_c_old_d0 => 71
  | v_v_old_d0 => 72 | v_c_soc => 73 | v_v_soc => 74 | v_d_saved_car => 75
  | v_aging_factor => 76 | v_algo_qmax => 77 | v_algo_ocv_to_mah => 78 | v_algo_vtemp => 79
  | v_algo_ocv_to_soc => 80 | v_algo_req_ocv => 81 | v_soc_decimal_rate => 82 | v_sw_low_battery_ht_en => 83
  | v_sw_low_battery_lt_en => 84 | v_vbat2_det_voltage1 => 85 | v_vbat2_det_voltage2 => 86 | v_vbat2_det_voltage3 => 87
  | v_sleep_current_avg => 88 | v_plug_miss_count => 89 | v_disable_plug_int => 90 | v_chr_full_handler_time => 91
  | v_enable_tmp_intr_suspend => 92 | v_no_bat_temp_compensate => 93 | v_com_r_fg_value => 94 | v_com_fg_meter_resistance => 95
  | v_rbat_pull_up_r => 96 | v_rbat_pull_up_volt => 97 | v_pre_bat_temperature_val => 98 | v_tbat_precise => 99
  | v_cur_bat_temp => 100 | v_fixed_bat_tmp => 101 | v_bat_health => 102 | v_bat_present => 103
  | v_bat_technology => 104 | v_bat_batt_vol => 105 | v_fixed_uisoc => 106 | v_b_EOC => 107
  | v_chr_type => 108 | v_current_difference_full_cv => 109 | v_min_battery_temp => 110 | v_tt_fg_current_temp => 111
  | v_tt_fg_current_state => 112 | v_uisoc_oldtime => 113 | v_ue_old_ui_soc => 114 | v_ue_old_status => 115
  | v_chg_psy => 116 | v_bs_chg_psy => 117 | v_eoc_chg_psy => 118 | v_fg_update_flag => 119
  | v_suspend_active => 120 | v_log_level => 121 | v_use_aging_zcv => 122 | v_aging_factor_old => 123
  | v_bat_cycle_old => 124 | v_qmax_old => 125
  end.
Lemma all_bvars_idx v : all_bvars !! bvar_idx v = Some v.
Proof. destruct v; reflexivity. Qed.
#[global] Instance bvar_idx_inj : Inj (=) (=) bvar_idx.
Proof. intros x y H. pose proof (all_bvars_idx x) as Hx. rewrite H, all_bvars_idx in Hx. by injection Hx. Qed.
#[global] Instance bvar_eq_dec : EqDecision bvar := fun x y =>
  match decide (bvar_idx x = bvar_idx y) with
  | left e => left (bvar_idx_inj x y e)
  | right n => right (fun e => n (f_equal bvar_idx e))
  end.

(** [struct fg_temp]: a temperature and the thermistor's resistance there. *)
Record fg_temp : Type := mk_fg_temp { BatteryTemp : Z; TemperatureR : Z }.

(** [struct shutdown_controller], with [struct shutdown_condition] and the two
    static variables of its handler. *)
Record shutdown_controller : Type := mk_sdc {
  sd_timeout : bool;
  sd_overheat : bool;
  is_overheat : bool;
  is_soc_zero_percent : bool;
  is_uisoc_one_percent : bool;
  is_under_shutdown_voltage : bool;
  is_dlpt_shutdown : bool;
  pre_time : Z -> Z;
  avgvbat : Z;
  lowbatteryshutdown : bool;
  batdata : list Z;
  batidx : Z;
  vbat_lt : Z;
  vbat_lt_lv1 : Z;
  shutdown_cond_flag : Z;
  ui_zero_time_flag : Z;
  down_to_low_bat : Z
}.
#[global] Instance shutdown_controller_struct : Struct shutdown_controller := fun r =>
  mk_sdc (sd_timeout r) (sd_overheat r) (is_overheat r) (is_soc_zero_percent r) (is_uisoc_one_percent r)
    (is_under_shutdown_voltage r) (is_dlpt_shutdown r) (pre_time r) (avgvbat r) (lowbatteryshutdown r) (batdata r)
    (batidx r) (vbat_lt r) (vbat_lt_lv1 r) (shutdown_cond_flag r) (ui_zero_time_flag r) (down_to_low_bat r).

(** The two tables of the source, for thermistors of 10 and 47 kOhm. *)
Definition fg_temp_table_ntc_10 : list fg_temp :=
  [mk_fg_temp (-40) 195652; mk_fg_temp (-35) 148171; mk_fg_temp (-30) 113347; mk_fg_temp (-25) 87559; mk_fg_temp (-20) 68237; mk_fg_temp (-15) 53650;
   mk_fg_temp (-10) 42506; mk_fg_temp (-5) 33892; mk_fg_temp 0 27219; mk_fg_temp 5 22021; mk_fg_temp 10 17926; mk_fg_temp 15 14674;
   mk_fg_temp 20 12081; mk_fg_temp 25 10000; mk_fg_temp 30 8315; mk_fg_temp 35 6948; mk_fg_temp 40 5834; mk_fg_temp 45 4917;
   mk_fg_temp 50 4161; mk_fg_temp 55 3535; mk_fg_temp 60 3014].
Definition fg_temp_table : list fg_temp :=
  [mk_fg_temp (-40) 1747920; mk_fg_temp (-35) 1245428; mk_fg_temp (-30) 898485; mk_fg_temp (-25) 655802; mk_fg_temp (-20) 483954; mk_fg_temp (-15) 360850;
   mk_fg_temp (-10) 271697; mk_fg_temp (-5) 206463; mk_fg_temp 0 158214; mk_fg_temp 5 122259; mk_fg_temp 10 95227; mk_fg_temp 15 74730;
   mk_fg_temp 20 59065; mk_fg_temp 25 47000; mk_fg_temp 30 37643; mk_fg_temp 35 30334; mk_fg_temp 40 24591; mk_fg_temp 45 20048;
   mk_fg_temp 50 16433; mk_fg_temp 55 13539; mk_fg_temp 60 11210].

(** The variables, the shutdown controller, the thermistor's table, the charge of
    the full battery, the data that the daemon sends ([fg_data], [fg_log_data]) as
    bytes, the custom data (the fields that are not variables) and its tables as
    bytes, and whether memory outside an object was accessed. *)
Record battery_state : Type := mk_bstate {
  vars : bvar -> Z;
  sdc : shutdown_controller;
  tmp_table : list fg_temp;
  q_max_now : Z;
  fg_data : list Z;
  fg_log_data : list Z;
  cust : cust_field -> Z;
  cust_table : list Z;
  mem_error : bool
}.
#[global] Instance battery_state_struct : Struct battery_state := fun r =>
  mk_bstate (vars r) (sdc r) (tmp_table r) (q_max_now r) (fg_data r) (fg_log_data r) (cust r) (cust_table r) (mem_error r).

Inductive btimer : Type := tracking_timer | one_percent_timer | sw_uisoc_timer | kthread_fgtimer.

(** The charger's data that the battery's supply shows and sets. *)
Inductive chg_field : Type :=
| chg_force_charging_current | chg_force_input_current_limit | chg_thermal_input_power_limit
| chg_thermal_charging_current_limit | chg_difference_full_cv | chg_input_current_limit | chg_charging_current_limit.

(** Properties of other supplies: the charger that the gauge's node names, the
    master charger, and the gauge. *)
Inductive supply_prop : Type := ps_online | ps_status | ps_usb_type | ps_vbus | ps_eoc_protect | ps_gauge_current.

(** What the manager calls: the gauge (a result, and the value if one was
    stored), the boot clock in nanoseconds, alarms, the coulomb service and the
    reset of the counter, the interrupts of the gauge, the algorithm in the
    kernel, the socket to the daemon, the notification of the supply's users,
    user events, power off, the report of a thermal shutdown, the other supplies
    and the charger's data, the timer of the update thread, sleeping and
    printing. *)
Class BattEnv (E : Type) : Type := {
  be_get : gauge_property -> M E (Z * option Z);
  be_set : gauge_property -> Z -> M E unit;
  be_clock : M E Z;
  be_timer : btimer -> option Z -> M E unit;
  be_coulomb_start : consumer -> Z -> M E unit;
  be_coulomb_stop : consumer -> M E unit;
  be_reset : M E unit;
  be_irq : gauge_irq -> bool -> M E unit;
  be_algo : Z -> M E unit;
  be_unicast : Z -> Z -> list Z -> M E unit;
  be_changed : M E unit;
  be_uevent : list Z -> M E unit;
  be_power_off : M E unit;
  be_thermal_report : M E unit;
  be_find_charger : M E bool;
  be_find_supply : M E bool;
  be_supply : supply_prop -> M E (option Z);
  be_chg_get : chg_field -> M E Z;
  be_chg_set : chg_field -> Z -> M E unit;
  be_chg_notify : M E unit;
  be_chg_done : M E (option Z);
  be_wireless_sleep : bool -> M E unit;
  be_hrtimer : Z -> M E unit;
  be_sleep : Z -> M E unit;
  be_print : list Z -> M E unit;
  be_metrics_aging : Z -> Z -> Z -> M E unit
}.

Record mworld (E : Type) : Type := mk_mworld { bs : battery_state; be : E }.
Arguments mk_mworld {E}.
Arguments bs {E}.
Arguments be {E}.
#[global] Instance mworld_struct E : Struct (mworld E) := fun r => mk_mworld (bs r) (be r).

Definition FG_INTR_BAT_CYCLE : Z := 2.
Definition FG_INTR_CHARGER_IN : Z := 8.
Definition FG_INTR_FG_TIME : Z := 16.
Definition FG_INTR_BAT_TMP_HT : Z := 512.
Definition FG_INTR_BAT_TMP_LT : Z := 1024.
Definition FG_INTR_NAG_C_DLTV : Z := 4096.
Definition FG_INTR_FG_ZCV : Z := 8192.
Definition FG_INTR_BAT_PLUGOUT : Z := 65536.
Definition FG_INTR_IAVG : Z := 0x20000.
Definition FG_INTR_VBAT2_L : Z := 0x40000.
Definition FG_INTR_VBAT2_H : Z := 0x80000.
Definition FG_INTR_CHR_FULL : Z := 0x100000.
Definition FG_INTR_BAT_TMP_C_HT : Z := 0x400000.
Definition FG_INTR_BAT_TMP_C_LT : Z := 0x800000.
Definition FG_INTR_KERNEL_CMD : Z := 0x2000000.
Definition FG_KERNEL_CMD_DUMP_REGULAR_LOG : Z := 1.
Definition FG_KERNEL_CMD_DISABLE_NAFG : Z := 2.
Definition FG_DAEMON_CMD_NOTIFY_DAEMON : Z := 9.
Definition FGD_NL_MAGIC : Z := 2015060303.
Definition FGD_NL_HDR_LEN : Z := 32.
Definition FGD_NL_MSG_MAX_LEN : Z := 9200.
Definition POWER_SUPPLY_TECHNOLOGY_LION : Z := 2.
Definition POWER_SUPPLY_HEALTH_GOOD : Z := 1.
Definition GAUGE_NO_HW : Z := 0.
Definition GAUGE_HW_V1000 : Z := 1000.
Definition GAUGE_HW_V2000 : Z := 2000.
Definition NSEC_PER_SEC : Z := 1000000000.

(** [struct fgd_nl_msg_t]; its data is what was allocated or received of it. *)
Record fgd_nl_msg : Type := mk_msg {
  nl_cmd : Z;
  fgd_cmd : Z;
  fgd_cmd_hash : Z;
  fgd_subcmd : Z;
  fgd_subcmd_para1 : Z;
  fgd_data_len : Z;
  fgd_ret_data_len : Z;
  identity : Z;
  fgd_data : list Z
}.
#[global] Instance fgd_nl_msg_struct : Struct fgd_nl_msg := fun r =>
  mk_msg (nl_cmd r) (fgd_cmd r) (fgd_cmd_hash r) (fgd_subcmd r) (fgd_subcmd_para1 r) (fgd_data_len r)
    (fgd_ret_data_len r) (identity r) (fgd_data r).
Definition header (m : fgd_nl_msg) : list Z :=
  flat_map (le_bytes 4)
    [nl_cmd m; fgd_cmd m; fgd_cmd_hash m; fgd_subcmd m; fgd_subcmd_para1 m; fgd_data_len m; fgd_ret_data_len m; identity m].

(** [undef] is what an uninitialised variable holds, [stray] what memory outside
    an object holds. *)
Section Core.
  Context {E : Type} `{!BattEnv E} (undef stray : Z).
  Abbreviation W := (mworld E).

Definition liftb {A} (m : M E A) : M W A := fun w => let '(a, e) := m (be w) in (a, w <| be := e |>).
Definition getv (v : bvar) : M W Z := gets (fun w => vars (bs w) v).
Definition setv (v : bvar) (x : Z) : M W unit :=
  modify (fun w => w <| bs ::= fun b => b <| vars ::= fun f => fun y => if Nat.eqb (bvar_idx y) (bvar_idx v) then x else f y |> |>).
Definition getsd {A} (f : shutdown_controller -> A) : M W A := gets (fun w => f (sdc (bs w))).
Definition modsd (f : shutdown_controller -> shutdown_controller) : M W unit :=
  modify (fun w => w <| bs ::= fun b => b <| sdc ::= f |> |>).
Definition mods (f : battery_state -> battery_state) : M W unit := modify (fun w => w <| bs ::= f |>).
Definition memory_error : M W unit := mods (fun b => b <| mem_error := true |>).

(** [gauge_get_property(gp, &val)] from [old], and [gauge_get_int_property]. *)
Definition gauge_get (p : gauge_property) (old : Z) : M W (Z * Z) :=
  let! r := liftb (be_get p) in ret (fst r, default old (snd r)).
Definition gauge_int (p : gauge_property) : M W Z := let! r := gauge_get p undef in ret (s32 (snd r)).
Definition gauge_put (p : gauge_property) (v : Z) : M W unit := liftb (be_set p v).

(** The boot clock in seconds. *)
Definition now_sec : M W Z := let! t := liftb be_clock in ret (t / NSEC_PER_SEC).

(** ** From an interrupt to the algorithm *)

(** The bytes after the allocated ones are [stray], and reading them is an error. *)
Definition mtk_battery_send_to_user (seq : Z) (reply : fgd_nl_msg) : M W unit :=
  let! pid := getv v_fgd_pid in
  let reply := reply <| identity := FGD_NL_MAGIC |> in
  let n := Z.to_nat (fgd_data_len reply) in
  when (Nat.ltb (length (fgd_data reply)) n) memory_error ;;;
  liftb (be_unicast pid seq (header reply ++ take n (fgd_data reply) ++ replicate (n - length (fgd_data reply)) stray)).

Definition wakeup_fg_daemon (flow_state cmd para1 : Z) : M W Z :=
  let! pid := getv v_fgd_pid in
  if negb (pid =? 0) then
    mtk_battery_send_to_user 0
      (mk_msg 0 FG_DAEMON_CMD_NOTIFY_DAEMON 0 (u32 cmd) (u32 para1) 4 0 0 (le_bytes 4 flow_state)) ;;; ret 0
  else ret (-1).

Definition is_algo_active : M W bool := let! a := getv v_algo_active in ret (z2b a).

Definition wakeup_fg_algo_cmd (flow_state cmd para1 : Z) : M W Z :=
  let! off := getv v_disableGM30 in
  if z2b off then ret (-1)
  else
    let! active := is_algo_active in
    if active then liftb (be_algo flow_state) ;;; ret 0
    else wakeup_fg_daemon flow_state cmd para1.
Definition wakeup_algo (flow_state : Z) : M W unit := ignore (wakeup_fg_algo_cmd flow_state 0 0).

(** ** The battery's temperature *)

Definition therm (t : list fg_temp) (i : nat) : fg_temp := nth i t (mk_fg_temp 0 0).

(** The loop: the entry before and the entry at which [stop] first holds. *)
Fixpoint therm_scan (stop : fg_temp -> bool) (l : list fg_temp) (last : fg_temp) : fg_temp * fg_temp :=
  match l with
  | [] => (last, mk_fg_temp 0 0)
  | e :: l' => if stop e then (last, e) else therm_scan stop l' e
  end.

(** In tenths of a degree. *)
Definition adc_battemp (t : list fg_temp) (res : Z) : Z :=
  if TemperatureR (therm t 0) <=? res then -400
  else if res <=? TemperatureR (therm t 20) then 600
  else
    let '(a, b) := therm_scan (fun e => TemperatureR e <=? res) (take 21 t) (therm t 0) in
    s32 (s32 (s32 (s32 (res - TemperatureR b) * BatteryTemp a) + s32 (s32 (TemperatureR a - res) * BatteryTemp b)) * 10)
      ÷c s32 (TemperatureR a - TemperatureR b).

Definition volttotemp (dwVolt volt_cali : Z) : M W Z :=
  let! r := getv v_rbat_pull_up_r in
  let! pull := getv v_rbat_pull_up_volt in
  let tres_temp := s64 (r * dwVolt) in
  let! bif := gauge_get GAUGE_PROP_BIF_VOLTAGE undef in
  let vbif28 := if negb (fst bif =? - ENOTSUPP) then s32 (snd bif + volt_cali) else pull in
  let delta_v := s32 (Z.abs (s32 (vbif28 - dwVolt))) in
  let delta_v := if delta_v =? 0 then 1 else delta_v in
  let! t := gets (fun w => tmp_table (bs w)) in
  ret (adc_battemp t (s32 (tres_temp ÷c delta_v))).

(** The drop over the meter and the fuel gauge resistor at a current in mA. *)
Definition temp_drop (cur : Z) : M W Z :=
  let! fg_r := getv v_com_r_fg_value in
  let! no := getv v_no_bat_temp_compensate in
  let! meter := getv v_com_fg_meter_resistance in
  let meter := if no =? 0 then meter else 0 in
  ret (s32 (cur * s32 (meter + fg_r)) ÷c 10000).

(** The other static variables of the source are only logged. *)
Definition force_get_tbat_internal (update : bool) : M W Z :=
  let! pre := getv v_pre_bat_temperature_val in
  (if update || (pre =? -1) then
     let! adc := gauge_get GAUGE_PROP_BATTERY_TEMPERATURE_ADC 2 in
     let volt := s32 (snd adc) in
     (if negb (volt =? 0) then
        let! cur := gauge_get GAUGE_PROP_BATTERY_CURRENT 0 in
        let cur := s32 (snd cur) in
        let! drop := temp_drop (Z.abs cur ÷c 10) in
        let cali := if 0 <? cur then s32 (- drop) else drop in
        let! v := volttotemp (s32 (volt + cali)) cali in setv v_tbat_precise v
      else setv v_tbat_precise 0) ;;;
     ignore (liftb be_clock)
   else setv v_tbat_precise pre) ;;;
  let! v := getv v_tbat_precise in ret (v ÷c 10).

Definition force_get_tbat (update : bool) : M W Z :=
  let! done_ := getv v_is_probe_done in
  if negb (z2b done_) then setv v_tbat_precise 250 ;;; setv v_cur_bat_temp 25 ;;; ret 25
  else
    let! fixed := getv v_fixed_bat_tmp in
    if negb (fixed =? 0xffff) then
      setv v_cur_bat_temp fixed ;;; setv v_tbat_precise (s32 (fixed * 10)) ;;; ret fixed
    else
      let! v := force_get_tbat_internal true in
      setv v_cur_bat_temp v ;;; ret v.

(** The resistance at a temperature in degrees. *)
Definition TempConverBattThermistor (t : list fg_temp) (temp : Z) : Z :=
  if BatteryTemp (therm t 20) <=? temp then u32 (TemperatureR (therm t 20))
  else if temp <=? BatteryTemp (therm t 0) then u32 (TemperatureR (therm t 0))
  else
    let '(a, b) := therm_scan (fun e => temp <=? BatteryTemp e) (take 21 t) (therm t 0) in
    u32 (interpolation (BatteryTemp a) (TemperatureR a) (BatteryTemp b) (TemperatureR b) temp).

(** The voltage at the converter, in 0.1 mV, at a temperature; [do_div] is
    unsigned. *)
Definition TempToBattVolt (temp update : Z) : M W Z :=
  let! t := gets (fun w => tmp_table (bs w)) in
  let r_ntc := TempConverBattThermistor t temp in
  let! pull := getv v_rbat_pull_up_volt in
  let! pull_r := getv v_rbat_pull_up_r in
  let vin := u64 (s64 (r_ntc * pull * 10)) / u32 (r_ntc + pull_r) in
  when (update =? 1)
    (let! cur := gauge_int GAUGE_PROP_BATTERY_CURRENT in
     setv v_tt_fg_current_temp cur ;;; setv v_tt_fg_current_state (b2z (0 <? cur))) ;;;
  let! cur := getv v_tt_fg_current_temp in
  let! state := getv v_tt_fg_current_state in
  let! drop := temp_drop cur in
  ret (u32 (if state =? 1 then vin + drop else vin - drop)).

(** ** The supply's data *)

Definition battery_update_psd : M W unit :=
  (let! old := getv v_bat_batt_vol in let! r := gauge_get GAUGE_PROP_BATTERY_VOLTAGE old in setv v_bat_batt_vol (s32 (snd r))) ;;;
  let! t := force_get_tbat true in setv v_bat_batt_temp t.

(** The supply is registered before any caller can run. *)
Definition battery_update : M W unit :=
  let! done_ := getv v_is_probe_done in
  when (z2b done_)
    (battery_update_psd ;;;
     setv v_bat_technology POWER_SUPPLY_TECHNOLOGY_LION ;;;
     setv v_bat_health POWER_SUPPLY_HEALTH_GOOD ;;;
     (let! v := gauge_int GAUGE_PROP_BATTERY_EXIST in setv v_bat_present v) ;;;
     (let! off := getv v_disableGM30 in when (z2b off) (setv v_bat_capacity 50)) ;;;
     (let! active := is_algo_active in let! u := getv v_ui_soc in when active (setv v_bat_capacity u)) ;;;
     liftb be_changed).

(** ** Interrupts that are on *)

Definition all_irqs : list gauge_irq :=
  [COULOMB_H_IRQ; COULOMB_L_IRQ; VBAT_H_IRQ; VBAT_L_IRQ; NAFG_IRQ; BAT_PLUGOUT_IRQ; ZCV_IRQ; FG_N_CHARGE_L_IRQ;
   FG_IAVG_H_IRQ; FG_IAVG_L_IRQ; BAT_TMP_H_IRQ; BAT_TMP_L_IRQ].
Definition disable_all_irq : M W unit := for_each all_irqs (fun i => liftb (be_irq i false)).

Definition disable_fg : M W unit :=
  setv v_disableGM30 1 ;;; setv v_ui_soc 50 ;;; setv v_bat_capacity 50 ;;; disable_all_irq.

Definition fg_interrupt_check : M W bool :=
  let! off := getv v_disableGM30 in
  if z2b off then disable_fg ;;; ret false else ret true.

(** ** Not-accurate-gauge detection, average current, cycles *)

Definition gauge_set_nag_en (nafg_zcv_en : Z) : M W unit :=
  let! off := getv v_disableGM30 in
  when (negb (z2b off))
    (let! dis := getv v_disable_nafg_int in when (dis =? 0) (gauge_put GAUGE_PROP_NAFG_EN nafg_zcv_en)).

(** The average current, and [*valid] from its contents before. *)
Definition gauge_get_average_current (valid : Z) : M W (Z * Z) :=
  let! ver := gauge_int GAUGE_PROP_HW_VERSION in
  let! off := getv v_disableGM30 in
  if z2b off then ret (0, valid)
  else if (GAUGE_HW_V1000 <=? ver) && (ver <? GAUGE_HW_V2000) then let! i := getv v_sw_iavg in ret (i, valid)
  else
    let! valid := getv v_current_avg_valid in
    let! i := gauge_int GAUGE_PROP_AVERAGE_CURRENT in ret (i, valid).

Definition fg_sw_bat_cycle_accu : M W unit :=
  let! car := gauge_int GAUGE_PROP_COULOMB in
  let! last := getv v_bat_cycle_car in
  let diff_car := s32 (car - last) in
  (if 0 <? diff_car then setv v_bat_cycle_car car
   else
     (let! n := getv v_bat_cycle_ncar in setv v_bat_cycle_ncar (s32 (n + s32 (Z.abs diff_car)))) ;;;
     setv v_bat_cycle_car car) ;;;
  gauge_put GAUGE_PROP_HW_INFO 0 ;;;
  let! ver := gauge_int GAUGE_PROP_HW_VERSION in
  when ((GAUGE_HW_V1000 <=? ver) && (ver <? GAUGE_HW_V2000))
    (let! thr := getv v_bat_cycle_thr in
     let! n := getv v_bat_cycle_ncar in
     when ((0 <? thr) && (thr <=? n)) (setv v_bat_cycle_ncar 0 ;;; wakeup_algo FG_INTR_BAT_CYCLE)).
End Core.
