(* ===== verification/BatteryCoreSpec.v ===== *)
(** * The battery manager: temperature, and what its environment promises

    The conversion from the thermistor's resistance is bounded and falls with
    the resistance for every sane table, and undoes the conversion in the other
    direction up to the rounding; both tables of the source are sane.  A reading
    of 0 mV gives 0 degrees, and the threshold for the next temperature is
    corrected for the current in the wrong direction when the battery
    discharges. *)

From S2P Require Import Prelude Mt6357 BatteryTable BatteryTableSpec BatteryCore.
#[local] Open Scope Z_scope.

(** ** The thermistor *)

(** 21 entries, temperatures rising within -40 and 60 and resistances falling. *)
Record sane_therm (t : list fg_temp) : Prop := {
  st_len : length t = 21%nat;
  st_first : BatteryTemp (therm t 0) = -40;
  st_last : BatteryTemp (therm t 20) = 60;
  st_step : forall i, (i < 20)%nat ->
    0 < BatteryTemp (therm t (S i)) - BatteryTemp (therm t i) /\ TemperatureR (therm t (S i)) < TemperatureR (therm t i);
  st_range : forall i, (i <= 20)%nat -> 0 < TemperatureR (therm t i) < 2 ^ 21
}.

Section Therm.
  Context (t : list fg_temp) (Ht : sane_therm t).

Abbreviation R i := (TemperatureR (therm t i)).
Abbreviation T i := (BatteryTemp (therm t i)).

Lemma therm_order i j : (i < j <= 20)%nat -> T i < T j /\ R j < R i.
Proof using Ht.
  intros [Hij Hj]. induction j as [|j IH]; [lia|]. destruct (st_step t Ht j ltac:(lia)) as [H1 H2].
  destruct (Nat.eq_dec i j) as [->|]; [lia|]. destruct (IH ltac:(lia) ltac:(lia)). lia.
Qed.
Lemma therm_T i : (i <= 20)%nat -> -40 <= T i <= 60.
Proof using Ht.
  intros Hi. pose proof (st_first t Ht). pose proof (st_last t Ht).
  assert (T 0%nat <= T i) by (destruct (Nat.eq_dec i 0) as [->|]; [lia|pose proof (therm_order 0 i ltac:(lia)); lia]).
  assert (T i <= T 20%nat) by (destruct (Nat.eq_dec i 20) as [->|]; [lia|pose proof (therm_order i 20 ltac:(lia)); lia]). lia.
Qed.

(** Where the scan stops. *)
Lemma scan_at stop k i l last :
  (forall j, (i <= j < k)%nat -> stop (therm t j) = false) -> stop (therm t k) = true -> (i <= k)%nat ->
  (forall j, (i <= j <= k)%nat -> nth (j - i) l (mk_fg_temp 0 0) = therm t j) -> (k - i < length l)%nat ->
  (last = if Nat.eqb i 0 then therm t 0 else therm t (i - 1)) ->
  therm_scan stop l last = (if Nat.eqb k 0 then therm t 0 else therm t (k - 1), therm t k).
Proof.
  revert i last. induction l as [|e l IH]; intros i last Hf Hs Hik Hn Hl ->; [cbn in Hl; lia|].
  assert (e = therm t i) as -> by (rewrite <- (Hn i) by lia; by rewrite Nat.sub_diag). cbn [therm_scan].
  destruct (Nat.eq_dec i k) as [->|Hne]; [by rewrite Hs|]. rewrite Hf by lia.
  apply (IH (S i)); try lia; try done.
  - intros j Hj. apply Hf. lia.
  - intros j Hj. rewrite <- (Hn j) by lia. by replace (j - i)%nat with (S (j - S i)) by lia.
  - cbn in Hl. lia.
  - cbn. by rewrite Nat.sub_0_r.
Qed.

(** A resistance inside the table lies in one segment. *)
Lemma therm_segment res : R 20%nat < res < R 0%nat -> exists k, (k < 20)%nat /\ R (S k) <= res < R k.
Proof using Ht.
  intros H. assert (forall n, (n <= 20)%nat -> res < R n \/ exists k, (k < n)%nat /\ R (S k) <= res < R k) as Hn.
  { induction n as [|n IH]; intros Hle; [left; lia|]. destruct (IH ltac:(lia)) as [Hlt|(k & Hk & Hr)]; [|right; exists k; split; [lia|done]].
    destruct (Z.lt_ge_cases res (R (S n))); [by left|]. right. exists n. split; [lia|]. lia. }
  destruct (Hn 20%nat ltac:(lia)) as [|(k & Hk & Hr)]; [lia|]. by exists k.
Qed.

(** The line between two neighbours, in tenths of a degree. *)
Definition segment (k : nat) (res : Z) : Z :=
  ((res - R (S k)) * T k + (R k - res) * T (S k)) * 10 ÷c (R k - R (S k)).

Lemma battemp_segment k res : (k < 20)%nat -> R (S k) <= res < R k -> R 20%nat < res -> adc_battemp t res = segment k res.
Proof using Ht.
  intros Hk Hr H20. unfold adc_battemp. pose proof (st_range t Ht) as Hb.
  assert (res < R 0%nat) by (destruct (Nat.eq_dec k 0) as [->|]; [lia|pose proof (therm_order 0 k ltac:(lia)); lia]).
  rewrite (proj2 (Z.leb_gt _ _)), (proj2 (Z.leb_gt res _)) by lia.
  rewrite (scan_at _ (S k) 0); [|intros j Hj; cbv beta; apply Z.leb_gt|cbv beta; apply Z.leb_le; lia|lia|..].
  - cbn [Nat.eqb]. rewrite Nat.sub_succ, Nat.sub_0_r. unfold segment.
    pose proof (Hb k ltac:(lia)) as B1. pose proof (Hb (S k) ltac:(lia)) as B2.
    pose proof (therm_T k ltac:(lia)) as C1. pose proof (therm_T (S k) ltac:(lia)) as C2. cbn beta in *.
    set (a := therm t k) in *. set (b := therm t (S k)) in *. clearbody a b.
    assert (Z.abs ((res - TemperatureR b) * BatteryTemp a) <= 2 ^ 21 * 60) by nia.
    assert (Z.abs ((TemperatureR a - res) * BatteryTemp b) <= 2 ^ 21 * 60) by nia.
    assert (Z.abs ((res - TemperatureR b) * BatteryTemp a + (TemperatureR a - res) * BatteryTemp b) <= 2 ^ 21 * 60) by nia.
    rewrite (s32_id (res - _)), (s32_id (TemperatureR a - res)), (s32_id (TemperatureR a - TemperatureR b)) by (unfold is_s32; lia).
    rewrite (s32_id (_ * BatteryTemp a)), (s32_id (_ * BatteryTemp b)) by (unfold is_s32; lia).
    rewrite (s32_id (_ + _)) by (unfold is_s32; lia). by rewrite s32_id by (unfold is_s32; lia).
  - destruct (Nat.eq_dec j k) as [->|]; [lia|]. pose proof (therm_order j k ltac:(lia)). lia.
  - intros j Hj. rewrite Nat.sub_0_r. unfold therm. rewrite <- (firstn_skipn 21 t) at 2.
    rewrite app_nth1; [done|]. rewrite length_take, (st_len t Ht). lia.
  - rewrite length_take, (st_len t Ht). lia.
  - done.
Qed.

Lemma segment_bounds k res : (k < 20)%nat -> R (S k) <= res <= R k -> 10 * T k <= segment k res <= 10 * T (S k).
Proof using Ht.
  intros Hk Hr. unfold segment. destruct (st_step t Ht k Hk) as [H1 H2]. set (D := R k - R (S k)).
  assert (0 < D) as HD by (unfold D; lia).
  assert (10 * T k * D <= ((res - R (S k)) * T k + (R k - res) * T (S k)) * 10 <= 10 * T (S k) * D) as [HL HU] by (unfold D; nia).
  pose proof (Z.quot_le_mono _ _ D HD HL) as Q1. pose proof (Z.quot_le_mono _ _ D HD HU) as Q2. rewrite !Z.quot_mul in * by lia. lia.
Qed.

Lemma battemp_cases res :
  (R 0%nat <= res /\ adc_battemp t res = -400) \/ (res <= R 20%nat /\ adc_battemp t res = 600) \/
  R 20%nat < res /\ exists k, (k < 20)%nat /\ R (S k) <= res < R k /\ adc_battemp t res = segment k res.
Proof using Ht.
  destruct (Z.le_gt_cases (R 0%nat) res) as [H|H]; [left|right].
  { split; [done|]. unfold adc_battemp. by rewrite (proj2 (Z.leb_le _ _)). }
  destruct (Z.le_gt_cases res (R 20%nat)) as [H'|H']; [left|right].
  { split; [done|]. unfold adc_battemp. by rewrite (proj2 (Z.leb_gt _ _)), (proj2 (Z.leb_le _ _)). }
  split; [done|]. destruct (therm_segment res) as (k & Hk & Hr); [lia|]. exists k. split; [done|]. split; [done|]. by apply battemp_segment.
Qed.

(** C25: for every table of 21 entries whose temperatures rise from -40 to 60 degrees
    and whose resistances fall and lie between 1 and 2^21 - 1 (both tables of the
    source are such), and every resistance measured: the temperature is between -40
    and 60 degrees; a higher resistance never means a higher temperature; and
    between the ends the 32-bit computation gives the linear interpolation of the
    two neighbouring entries in unbounded arithmetic. *)
Theorem battemp_antitone res res' :
  -400 <= adc_battemp t res <= 600 /\ (res <= res' -> adc_battemp t res' <= adc_battemp t res) /\
  (R 20%nat < res < R 0%nat -> exists k, (k < 20)%nat /\ R (S k) <= res < R k /\ adc_battemp t res = segment k res).
Proof using Ht.
  assert (forall r, -400 <= adc_battemp t r <= 600) as Hb.
  { intros r. destruct (battemp_cases r) as [[_ ->]|[[_ ->]|(_ & k & Hk & Hr & ->)]]; [lia..|].
    pose proof (segment_bounds k r Hk ltac:(lia)). pose proof (therm_T k ltac:(lia)). pose proof (therm_T (S k) ltac:(lia)). lia. }
  split; [apply Hb|]. split; [|intros Hr; destruct (battemp_cases res) as [[? _]|[[? _]|(_ & H)]]; [lia..|exact H]].
  intros Hle. pose proof (Hb res). pose proof (Hb res').
  destruct (battemp_cases res') as [[_ E']|[[H' E']|(_ & k' & Hk' & Hr' & E')]]; [lia| |].
  - destruct (battemp_cases res) as [[H1 E]|[[_ E]|(H20 & k & Hk & Hr & E)]]; [pose proof (therm_order 0 20 ltac:(lia)); lia|lia|]. lia.
  - destruct (battemp_cases res) as [[H1 E]|[[_ E]|(H20 & k & Hk & Hr & E)]].
    + exfalso. destruct (Nat.eq_dec k' 0) as [->|]; [lia|pose proof (therm_order 0 k' ltac:(lia)); lia].
    + lia.
    + rewrite E, E'. destruct (Nat.lt_trichotomy k k') as [Hlt|[->|Hgt]].
      * exfalso. destruct (Nat.eq_dec (S k) k') as [<-|]; [lia|pose proof (therm_order (S k) k' ltac:(lia)); lia].
      * unfold segment. destruct (st_step t Ht k' Hk') as [H1 H2]. apply Z.quot_le_mono; [lia|]. nia.
      * pose proof (segment_bounds k' res' Hk' ltac:(lia)). pose proof (segment_bounds k res Hk ltac:(lia)).
        destruct (Nat.eq_dec (S k') k) as [<-|]; [lia|pose proof (therm_order (S k') k ltac:(lia)); lia].
Qed.
End Therm.

Lemma table_sane t : t = fg_temp_table \/ t = fg_temp_table_ntc_10 -> sane_therm t.
Proof.
  intros Ht. assert (forallb (fun i => (BatteryTemp (therm t i) <? BatteryTemp (therm t (S i))) && (TemperatureR (therm t (S i)) <? TemperatureR (therm t i))
      && (0 <? TemperatureR (therm t i)) && (TemperatureR (therm t i) <? 2 ^ 21)) (seq 0 20) = true /\ 0 < TemperatureR (therm t 20) < 2 ^ 21 /\
      length t = 21%nat /\ BatteryTemp (therm t 0) = -40 /\ BatteryTemp (therm t 20) = 60) as (H & H20 & H1 & H2 & H3)
    by (destruct Ht as [-> | ->]; vm_compute; repeat split; done).
  rewrite forallb_forall in H.
  assert (forall i, (i < 20)%nat -> BatteryTemp (therm t i) < BatteryTemp (therm t (S i)) /\ TemperatureR (therm t (S i)) < TemperatureR (therm t i) /\
    0 < TemperatureR (therm t i) < 2 ^ 21) as Hi.
  { intros i Hi. specialize (H i). rewrite in_seq in H. specialize (H ltac:(lia)). rewrite !andb_true_iff, !Z.ltb_lt in H. lia. }
  constructor; [done..| |].
  - intros i Hlt. pose proof (Hi i Hlt). lia.
  - intros i Hle. destruct (Nat.eq_dec i 20) as [->|]; [done|]. apply Hi. lia.
Qed.

(** The conversion from a temperature to the thermistor's resistance, which
    sets the thresholds of the temperature interrupt, and the one back agree on
    both tables of the source, at every whole degree from -40 to 60: what comes
    back is the temperature, or a tenth of a degree less. *)
Theorem thermistor_roundtrip t temp :
  t = fg_temp_table \/ t = fg_temp_table_ntc_10 -> -40 <= temp <= 60 ->
  10 * temp - 1 <= adc_battemp t (TempConverBattThermistor t temp) <= 10 * temp.
Proof.
  intros Ht Hr. pose (ok t x := let d := adc_battemp t (TempConverBattThermistor t x) - 10 * x in (-1 <=? d) && (d <=? 0)).
  assert (forallb (fun i => ok t (Z.of_nat i - 40)) (seq 0 101) = true) as H by (destruct Ht as [-> | ->]; vm_compute; reflexivity).
  rewrite forallb_forall in H. specialize (H (Z.to_nat (temp + 40))). rewrite in_seq in H. specialize (H ltac:(lia)).
  replace (Z.of_nat (Z.to_nat (temp + 40)) - 40) with temp in H by lia. unfold ok in H. bool_prop. lia.
Qed.

Lemma battemp_antitone_witness : adc_battemp fg_temp_table 60000 <= adc_battemp fg_temp_table 20000 /\ adc_battemp fg_temp_table 47000 = 250.
Proof. split; [|reflexivity]. apply (battemp_antitone fg_temp_table (table_sane _ (or_introl eq_refl)) 20000 60000). lia. Defined.

Lemma thermistor_roundtrip_witness : 10 * 33 - 1 <= adc_battemp fg_temp_table (TempConverBattThermistor fg_temp_table 33) <= 10 * 33.
Proof. apply (thermistor_roundtrip fg_temp_table 33); [by left|lia]. Defined.

(** ** Running the code *)

Section Access.
  Context {E : Type}.
  Abbreviation W := (mworld E).

Lemma wp_liftb {A} (m : M E A) (Q : A -> W -> Prop) w : Q (eval m (be w)) (w <| be := exec m (be w) |>) -> wp (liftb m) Q w.
Proof. unfold wp, liftb, eval, exec. by destruct (m (be w)). Qed.
Lemma wp_getv v (Q : Z -> W -> Prop) w : Q (vars (bs w) v) w -> wp (getv v) Q w.
Proof. done. Qed.
Lemma wp_setv v x (Q : unit -> W -> Prop) w :
  Q tt (w <| bs ::= fun b => b <| vars ::= fun f => fun y => if Nat.eqb (bvar_idx y) (bvar_idx v) then x else f y |> |>) -> wp (setv v x) Q w.
Proof. done. Qed.
Lemma wp_getsd {A} (f : shutdown_controller -> A) (Q : A -> W -> Prop) w : Q (f (sdc (bs w))) w -> wp (getsd f) Q w.
Proof. done. Qed.
Lemma wp_modsd f (Q : unit -> W -> Prop) w : Q tt (w <| bs ::= fun b => b <| sdc ::= f |> |>) -> wp (modsd f) Q w.
Proof. done. Qed.
Lemma wp_mods f (Q : unit -> W -> Prop) w : Q tt (w <| bs ::= f |>) -> wp (mods f) Q w.
Proof. done. Qed.

Lemma keeps_liftb {A T} (f : E -> T) (m : M E A) : keeps f m -> keeps (fun w : W => f (be w)) (liftb m).
Proof. intros H w. unfold exec, liftb. specialize (H (be w)). unfold exec in H. by destruct (m (be w)). Qed.
Lemma keeps_bs {A T} (f : battery_state -> T) (m : M E A) : keeps (fun w : W => f (bs w)) (liftb m).
Proof. intros w. unfold exec, liftb. by destruct (m (be w)). Qed.
Lemma keeps_be {T} (f : E -> T) (g : W -> W) : (forall w, be (g w) = be w) -> keeps (fun w : W => f (be w)) (modify g).
Proof. intros H w. unfold exec, modify. cbn. by rewrite H. Qed.
End Access.

(** ** What the environment promises *)

(** Whether the device was switched off, the alarm of the shutdown thread and
    the clock change only by the calls that are for that. *)
Class BattLaws {E : Type} `{!BattEnv E} (off : E -> bool) (alarm : E -> option Z) (clk : E -> Z) : Prop := {
  bl_get : forall p, keeps (fun e => (off e, alarm e, clk e)) (be_get p);
  bl_set : forall p v, keeps (fun e => (off e, alarm e, clk e)) (be_set p v);
  bl_clock : forall e, eval be_clock e = clk e;
  bl_clock_keeps : keeps (fun e => (off e, alarm e, clk e)) be_clock;
  bl_algo : forall i, keeps (fun e => (off e, alarm e, clk e)) (be_algo i);
  bl_unicast : forall p s l, keeps (fun e => (off e, alarm e, clk e)) (be_unicast p s l);
  bl_report : keeps (fun e => (off e, alarm e, clk e)) be_thermal_report;
  bl_off : forall e, let e' := exec be_power_off e in off e' = true /\ alarm e' = alarm e /\ clk e' = clk e;
  bl_timer : forall v e, let e' := exec (be_timer kthread_fgtimer v) e in off e' = off e /\ alarm e' = v /\ clk e' = clk e
}.

(** What the code leaves alone, by its structure. *)
Ltac solve_kb :=
  repeat match goal with
    | |- forall _, _ => intro
    | |- keeps _ (bind _ _) => apply keeps_bind
    | |- keeps _ (ret _) => apply keeps_ret
    | |- keeps _ (gets _) => apply keeps_gets
    | |- keeps _ (getv _) => apply keeps_gets
    | |- keeps _ (getsd _) => apply keeps_gets
    | |- keeps _ (ignore _) => apply keeps_ignore
    | |- keeps _ (when _ _) => apply keeps_when
    | |- keeps _ (if ?b then _ else _) => destruct b
    | |- keeps _ (match ?x with _ => _ end) => destruct x
    | |- keeps _ (setv _ _) => apply keeps_modify; intros; reflexivity
    | |- keeps _ (mods _) => apply keeps_modify; intros; reflexivity
    | |- keeps _ (modsd _) => apply keeps_modify; intros; reflexivity
    | |- keeps _ (modify _) => apply keeps_modify; intros; reflexivity
    | |- keeps _ _ => solve [auto with kern nocore]
    | |- keeps _ (liftb _) => apply keeps_bs
    | |- keeps _ (liftb _) => apply keeps_liftb; solve [auto with kern nocore]
    end.

Ltac bwp_step :=
  match goal with
  | |- wp (bind _ _) _ _ => apply wp_bind
  | |- wp (ret _) _ _ => apply wp_ret
  | |- wp (gets _) _ _ => apply wp_gets
  | |- wp (getv _) _ _ => apply wp_getv
  | |- wp (setv _ _) _ _ => apply wp_setv
  | |- wp (getsd _) _ _ => apply wp_getsd
  | |- wp (modsd _) _ _ => apply wp_modsd
  | |- wp (mods _) _ _ => apply wp_mods
  | |- wp (liftb _) _ _ => apply wp_liftb
  | |- wp (ignore _) _ _ => apply wp_ignore
  | |- wp (when _ _) _ _ => apply wp_when; intros ?
  | |- wp (if ?b then _ else _) _ _ => apply wp_if; intros ?
  end; cbn beta zeta.
Ltac bwps := repeat bwp_step.

Section Temperature.
  Context {E : Type} `{!BattEnv E} (undef stray : Z).
  Abbreviation W := (mworld E).

(** What the manager does for a temperature changes its own variables only. *)
Lemma tbat_sdc u : keeps (fun w : W => sdc (bs w)) (force_get_tbat undef u).
Proof.
  unfold force_get_tbat, force_get_tbat_internal, volttotemp, temp_drop, gauge_get. cbv zeta. solve_kb.
Qed.
Lemma wakeup_sdc i : keeps (fun w : W => sdc (bs w)) (wakeup_algo stray i).
Proof.
  unfold wakeup_algo, wakeup_fg_algo_cmd, wakeup_fg_daemon, mtk_battery_send_to_user, is_algo_active, memory_error. cbv zeta. solve_kb.
Qed.

(** The voltage that the converter reads. *)
Definition adc_reading (e : E) : Z := s32 (default 2 (snd (eval (be_get GAUGE_PROP_BATTERY_TEMPERATURE_ADC) e))).

(** A thermistor that is shorted reads 0 mV, and the code takes that for 0
    degrees instead of for the highest temperature: the battery never seems hot,
    whatever the table. *)
Theorem shorted_thermistor_reads_zero (w : W) :
  z2b (vars (bs w) v_is_probe_done) = true -> vars (bs w) v_fixed_bat_tmp = 0xffff -> adc_reading (be w) = 0 ->
  let w' := exec (force_get_tbat undef true) w in
  eval (force_get_tbat undef true) w = 0 /\ vars (bs w') v_cur_bat_temp = 0 /\ vars (bs w') v_tbat_precise = 0.
Proof.
  intros Hp Hf Ha. change (wp (force_get_tbat undef true) (fun r w' => r = 0 /\ vars (bs w') v_cur_bat_temp = 0 /\ vars (bs w') v_tbat_precise = 0) w).
  unfold force_get_tbat, force_get_tbat_internal, gauge_get. bwps; cbn in *; try (rewrite ?Hp, ?Hf, ?Ha in *; discriminate);
    unfold adc_reading in Ha; try (rewrite Ha in *; discriminate); done.
Qed.

(** The voltage, in 0.1 mV, at the converter without a current. *)
Definition divider (r_ntc pull pull_r : Z) : Z := r_ntc * pull * 10 / (r_ntc + pull_r).

(** The threshold for the next temperature adds the drop over the meter to
    the voltage of the thermistor whether the battery charges or discharges,
    since a discharge current is negative and its drop is subtracted; the
    conversion of a reading subtracts it when charging and adds it when
    discharging, so a threshold that is set while the battery discharges is off
    by twice the drop. *)
Theorem discharge_threshold_adds (w : W) temp :
  let r_ntc := TempConverBattThermistor (tmp_table (bs w)) temp in
  let cur := s32 (default undef (snd (eval (be_get GAUGE_PROP_BATTERY_CURRENT) (be w)))) in
  let meter := if vars (bs w) v_no_bat_temp_compensate =? 0 then vars (bs w) v_com_fg_meter_resistance else 0 in
  let res := meter + vars (bs w) v_com_r_fg_value in
  0 < r_ntc < 2 ^ 21 -> 0 <= vars (bs w) v_rbat_pull_up_volt < 10000 -> 0 < vars (bs w) v_rbat_pull_up_r < 2 ^ 20 ->
  0 <= res < 10000 -> Z.abs cur < 200000 ->
  eval (TempToBattVolt undef temp 1) w =
    divider r_ntc (vars (bs w) v_rbat_pull_up_volt) (vars (bs w) v_rbat_pull_up_r) + Z.abs cur * res ÷c 10000.
Proof.
  intros r_ntc cur meter res Hr Hv Hp Hres Hc.
  change (wp (TempToBattVolt undef temp 1) (fun x _ => x =
    divider r_ntc (vars (bs w) v_rbat_pull_up_volt) (vars (bs w) v_rbat_pull_up_r) + Z.abs cur * res ÷c 10000) w).
  unfold TempToBattVolt, gauge_int, gauge_get, temp_drop. bwps; [|discriminate]. cbn -[s32 u32 u64 s64]. fold cur r_ntc meter.
  set (vin := r_ntc * vars (bs w) v_rbat_pull_up_volt * 10).
  assert (0 <= vin < 2 ^ 40) by (unfold vin; nia).
  rewrite (s32_id (meter + _)) by (unfold is_s32; fold res; lia). fold res.
  rewrite (s32_id (cur * res)) by (unfold is_s32; nia).
  assert (s64 vin = vin) as -> by (unfold s64; rewrite Z.mod_small by lia; lia).
  assert (u64 vin = vin) as -> by (unfold u64, wrapu; apply Z.mod_small; lia).
  rewrite (u32_id (r_ntc + _)) by (unfold is_u32; lia).
  change (vin / (r_ntc + vars (bs w) v_rbat_pull_up_r)) with (divider r_ntc (vars (bs w) v_rbat_pull_up_volt) (vars (bs w) v_rbat_pull_up_r)).
  assert (0 <= divider r_ntc (vars (bs w) v_rbat_pull_up_volt) (vars (bs w) v_rbat_pull_up_r) < 2 ^ 20) as Hd.
  { unfold divider. fold vin. split; [apply Z.div_pos; lia|]. apply Z.div_lt_upper_bound; [lia|]. assert (vin <= r_ntc * 100000) by (unfold vin; nia). lia. }
  assert (0 <= Z.abs cur * res ÷c 10000 < 2 ^ 20) as Hq.
  { assert (0 <= Z.abs cur * res <= 200000 * 10000) by (split; [nia|apply Z.mul_le_mono_nonneg; lia]).
    rewrite Z.quot_div_nonneg by lia. split; [apply Z.div_pos; lia|apply Z.div_lt_upper_bound; lia]. }
  destruct (Z.ltb_spec 0 cur) as [Hpos|Hneg]; cbn [b2z Z.eqb Pos.eqb].
  - rewrite (Z.abs_eq cur) in Hq |- * by lia.  by rewrite u32_id by (unfold is_u32; lia).
  - replace (cur * res) with (- (Z.abs cur * res)) by (rewrite Z.abs_neq by lia; lia). rewrite Z.quot_opp_l by lia.
    rewrite Z.sub_opp_r. by rewrite u32_id by (unfold is_u32; lia).
Qed.
End Temperature.

(** ** A device *)

(** Gauge and system as the manager sees them: the readings stay what they are,
    and what the manager calls is kept. *)
Module TestBatt.
Record dev : Type := mk_dev {
  d_read : gauge_property -> Z;
  d_clk : Z;
  d_off : bool;
  d_alarm : btimer -> option Z;
  d_algo : list Z;
  d_sent : list (Z * Z * list Z);
  d_put : list (gauge_property * Z);
  d_irq : list (gauge_irq * bool);
  d_supply : supply_prop -> Z
}.
#[global] Instance dev_struct : Struct dev := fun r =>
  mk_dev (d_read r) (d_clk r) (d_off r) (d_alarm r) (d_algo r) (d_sent r) (d_put r) (d_irq r) (d_supply r).
Definition btimer_idx (t : btimer) : nat :=
  match t with tracking_timer => 0 | one_percent_timer => 1 | sw_uisoc_timer => 2 | kthread_fgtimer => 3 end.
#[global] Instance dev_env : BattEnv dev := {
  be_get p := gets (fun d => (0, Some (d_read d p)));
  be_set p v := modify (fun d => d <| d_put ::= cons (p, v) |>);
  be_clock := gets d_clk;
  be_timer t v := modify (fun d => d <| d_alarm ::= fun f => fun t' => if Nat.eqb (btimer_idx t') (btimer_idx t) then v else f t' |>);
  be_coulomb_start _ _ := ret tt;
  be_coulomb_stop _ := ret tt;
  be_reset := ret tt;
  be_irq i on := modify (fun d => d <| d_irq ::= cons (i, on) |>);
  be_algo i := modify (fun d => d <| d_algo ::= cons i |>);
  be_unicast p s l := modify (fun d => d <| d_sent ::= cons (p, s, l) |>);
  be_changed := ret tt;
  be_uevent _ := ret tt;
  be_power_off := modify (fun d => d <| d_off := true |>);
  be_thermal_report := ret tt;
  be_find_charger := ret true;
  be_find_supply := ret true;
  be_supply p := gets (fun d => Some (d_supply d p));
  be_chg_get _ := ret 0;
  be_chg_set _ _ := ret tt;
  be_chg_notify := ret tt;
  be_chg_done := ret (Some 0);
  be_wireless_sleep _ := ret tt;
  be_hrtimer _ := ret tt;
  be_sleep _ := ret tt;
  be_print _ := ret tt;
  be_metrics_aging _ _ _ := ret tt
}.
#[global] Instance dev_laws : BattLaws d_off (fun d => d_alarm d kthread_fgtimer) d_clk.
Proof. constructor; repeat intro; done. Qed.

Definition volts (v i t : Z) (p : gauge_property) : Z :=
  match p with
  | GAUGE_PROP_BATTERY_VOLTAGE => v
  | GAUGE_PROP_BATTERY_CURRENT => i
  | GAUGE_PROP_BATTERY_TEMPERATURE_ADC => t
  | GAUGE_PROP_BIF_VOLTAGE => 1800
  | _ => 0
  end.
Definition dev0 (v i t : Z) : dev := mk_dev (volts v i t) (200 * NSEC_PER_SEC) false (fun _ => None) [] [] [] [] (fun _ => 0).
Definition sdc0 : shutdown_controller :=
  mk_sdc false false false false false false false (fun _ => 0) 0 false [] 0 34500 35000 0 0 0.
Definition vars0 (v : bvar) : Z :=
  match v with
  | v_is_probe_done => 1
  | v_fixed_bat_tmp => 0xffff
  | v_rbat_pull_up_r => 16900
  | v_rbat_pull_up_volt => 1800
  | v_com_r_fg_value => 100
  | v_com_fg_meter_resistance => 75
  | _ => 0
  end.
Definition state0 : battery_state := mk_bstate vars0 sdc0 fg_temp_table_ntc_10 0 [] [] (fun _ => 0) [] false.
Definition world0 (v i t : Z) : mworld dev := mk_mworld state0 (dev0 v i t).
End TestBatt.

Lemma shorted_thermistor_reads_zero_witness :
  eval (force_get_tbat 0 true) (TestBatt.world0 3800 100 0) = 0 /\
  eval (force_get_tbat 0 true) (TestBatt.world0 3800 100 1) = 60.
Proof. split; [|reflexivity]. apply (shorted_thermistor_reads_zero 0 (TestBatt.world0 3800 100 0)); reflexivity. Defined.

Lemma discharge_threshold_adds_witness :
  eval (TempToBattVolt 0 25 1) (TestBatt.world0 3800 (-20000) 0) = 6691 + 350.
Proof.
  exact (discharge_threshold_adds 0 (TestBatt.world0 3800 (-20000) 0) 25 ltac:(vm_compute; split; reflexivity)
    ltac:(vm_compute; split; [discriminate|reflexivity]) ltac:(vm_compute; split; reflexivity)
    ltac:(vm_compute; split; [discriminate|reflexivity]) ltac:(vm_compute; reflexivity)).
Defined.
