(* ===== verification/BatteryShutdown.v ===== *)
(** * The shutdown controller (mtk_battery.c)

    Conditions that call for a shutdown are raised by interrupts, by the daemon
    and by the algorithm; a thread checks them, every ten seconds as long as one
    is pending, and switches the device off when one has lasted. *)

From S2P Require Import Prelude Mt6357 BatteryCore.
#[local] Open Scope Z_scope.

Definition OVERHEAT : Z := 1.
Definition SOC_ZERO_PERCENT : Z := 2.
Definition UISOC_ONE_PERCENT : Z := 3.
Definition LOW_BAT_VOLT : Z := 4.
Definition DLPT_SHUTDOWN : Z := 5.
Definition LOW_BATTERY_TEMP : Z := 6.
Definition FG_INTR_SHUTDOWN : Z := 16384.
Definition FG_INTR_DLPT_SD : Z := 0x200000.
Definition SHUTDOWN_TIME : Z := 40.
Definition AVGVBAT_ARRAY_SIZE : nat := 30.
Definition BAT_VOLTAGE_LOW_BOUND : Z := 3400.
Definition LOW_TMP_BAT_VOLTAGE_LOW_BOUND : Z := 3350.
Definition LOW_TEMP_THRESHOLD : Z := 5.
Definition VBAT2_DET_VOLTAGE1 : Z := 34500.
Definition BATTERY_SHUTDOWN_TEMPERATURE : Z := 58.

Section Shutdown.
  Context {E : Type} `{!BattEnv E} (undef stray : Z).
  Abbreviation W := (mworld E).
  Abbreviation wakeup_algo := (wakeup_algo stray).
  Abbreviation gauge_int := (gauge_int undef).

Definition wake_up_power_misc : M W unit := modsd (fun s => s <| sd_timeout := true |>).
Definition wake_up_overheat : M W unit := modsd (fun s => s <| sd_overheat := true |>).

Definition set_shutdown_vbat_lt (lt lt_lv1 : Z) : M W unit := modsd (fun s => s <| vbat_lt := lt |> <| vbat_lt_lv1 := lt_lv1 |>).

Definition get_shutdown_cond : M W Z :=
  ignore (gauge_int GAUGE_PROP_BATTERY_VOLTAGE) ;;;
  getsd (fun s => b2z (is_soc_zero_percent s || is_uisoc_one_percent s || lowbatteryshutdown s)).

Definition set_shutdown_cond_flag (val : Z) : M W unit := modsd (fun s => s <| shutdown_cond_flag := val |>).
Definition get_shutdown_cond_flag : M W Z := getsd shutdown_cond_flag.

Definition is_kernel_power_off_charging : M W bool := let! b := getv v_bootmode in ret (b =? 8).

Definition disable_shutdown_cond (cond : Z) : M W Z :=
  ignore (gauge_int GAUGE_PROP_BATTERY_CURRENT) ;;;
  ignore (gauge_int GAUGE_PROP_BATTERY_VOLTAGE) ;;;
  when (cond =? LOW_BAT_VOLT)
    (modsd (fun s => s <| is_under_shutdown_voltage := false |> <| lowbatteryshutdown := false |>)) ;;;
  ret 0.

Definition set_pre_time (c t : Z) (f : Z -> Z) : Z -> Z := fun x => if x =? c then t else f x.

(** Raise a condition that counts from now on, unless the device charges. *)
Definition raise_empty (c : Z) (mark : shutdown_controller -> shutdown_controller) (charging : bool) : M W unit :=
  let! kpoc := is_kernel_power_off_charging in
  when (negb kpoc && negb charging)
    (modsd mark ;;;
     (let! t := liftb be_clock in modsd (fun s => s <| pre_time ::= set_pre_time c t |>)) ;;;
     wakeup_algo FG_INTR_SHUTDOWN).

Definition set_shutdown_cond (cond : Z) : M W Z :=
  let! now_current := gauge_int GAUGE_PROP_BATTERY_CURRENT in
  let! kpoc := is_kernel_power_off_charging in
  ignore (gauge_int GAUGE_PROP_BATTERY_VOLTAGE) ;;;
  let charging := 0 <=? now_current in
  let! flag := getsd shutdown_cond_flag in
  if flag =? 1 then ret 0
  else if (flag =? 2) && negb (cond =? LOW_BAT_VOLT) then ret 0
  else if (flag =? 3) && negb (cond =? DLPT_SHUTDOWN) then ret 0
  else
    let! s := getsd (fun s => s) in
    (if cond =? OVERHEAT then modsd (fun s => s <| is_overheat := true |>) ;;; liftb be_power_off
     else if cond =? SOC_ZERO_PERCENT then
       when (negb (is_soc_zero_percent s)) (raise_empty cond (fun s => s <| is_soc_zero_percent := true |>) charging)
     else if cond =? UISOC_ONE_PERCENT then
       when (negb (is_uisoc_one_percent s)) (raise_empty cond (fun s => s <| is_uisoc_one_percent := true |>) charging)
     else if cond =? LOW_BAT_VOLT then
       when (negb (is_under_shutdown_voltage s) && negb kpoc)
         (modsd (fun s => s <| is_under_shutdown_voltage := true |>
                            <| batdata := replicate AVGVBAT_ARRAY_SIZE (VBAT2_DET_VOLTAGE1 ÷c 10) |> <| batidx := 0 |>))
     else if cond =? DLPT_SHUTDOWN then
       when (negb (is_dlpt_shutdown s))
         (modsd (fun s => s <| is_dlpt_shutdown := true |>) ;;;
          (let! t := liftb be_clock in modsd (fun s => s <| pre_time ::= set_pre_time DLPT_SHUTDOWN t |>)) ;;;
          wakeup_algo FG_INTR_DLPT_SD)
     else when (cond =? LOW_BATTERY_TEMP) (liftb be_thermal_report ;;; liftb be_power_off)) ;;;
    wake_up_power_misc ;;; ret 0.

Definition next_waketime (polling : Z) : Z := if polling <=? 0 then 0 else 10.

(** The seconds from [t] to [now], both in nanoseconds. *)
Definition lasted (now t : Z) : Z := (now - t) ÷c NSEC_PER_SEC.

(** ** The handler

    Its four parts in turn; each returns the count of the polls so far and
    whether the handler has returned. *)

Definition check_soc_zero (now ui soc : Z) : M W (Z * bool) :=
  let! s := getsd (fun s => s) in
  if negb (is_soc_zero_percent s) then ret (0, false)
  else if ui =? 0 then
    if SHUTDOWN_TIME <=? lasted now (pre_time s SOC_ZERO_PERCENT) then liftb be_power_off ;;; ret (1, true)
    else ret (1, false)
  else if 0 <? soc then modsd (fun s => s <| is_soc_zero_percent := false |>) ;;; ret (0, false)
  else ret (1, false).

Definition check_uisoc_one (polling now ui soc : Z) : M W (Z * bool) :=
  let! s := getsd (fun s => s) in
  if negb (is_uisoc_one_percent s) then ret (polling, false)
  else
    let! now_current := gauge_int GAUGE_PROP_BATTERY_CURRENT in
    if ui =? 0 then
      if SHUTDOWN_TIME <=? lasted now (pre_time s UISOC_ONE_PERCENT) then liftb be_power_off ;;; ret (polling, true)
      else ret (polling + 1, false)
    else if (0 <? now_current) && (0 <? soc) then
      modsd (fun s => s <| is_uisoc_one_percent := false |>) ;;; ret (0, true)
    else ret (polling + 1, false).

Definition check_dlpt (polling now : Z) : M W (Z * bool) :=
  let! s := getsd (fun s => s) in
  if negb (is_dlpt_shutdown s) then ret (polling, false)
  else ret (polling + 1, SHUTDOWN_TIME <=? lasted now (pre_time s DLPT_SHUTDOWN)).

(** The average of the last thirty readings. *)
Definition average (l : list Z) : Z := foldl (fun a x => s32 (a + x)) 0 l ÷c 30.

Definition take_reading (vbat : Z) : M W unit :=
  modsd (fun s => s <| batdata ::= fun l => <[Z.to_nat (batidx s) := vbat]> l |>) ;;;
  modsd (fun s => s <| avgvbat := average (batdata s) |>).

(** Tell the algorithm once that the voltage is low. *)
Definition tell_low (tmp : Z) : M W unit :=
  let! s := getsd (fun s => s) in
  when ((down_to_low_bat s =? 0) && ((LOW_TEMP_THRESHOLD <=? tmp) || (avgvbat s <=? LOW_TMP_BAT_VOLTAGE_LOW_BOUND)))
    (modsd (fun s => s <| down_to_low_bat := 1 |>) ;;; wakeup_algo FG_INTR_SHUTDOWN).

Definition check_low_voltage (polling now ui vbat : Z) : M W (Z * bool) :=
  let! under := getsd is_under_shutdown_voltage in
  if negb under then ret (polling, false)
  else
    take_reading vbat ;;;
    let! tmp := force_get_tbat undef true in
    let! avg := getsd avgvbat in
    let! off :=
      (if avg <? BAT_VOLTAGE_LOW_BOUND then
         modsd (fun s => s <| lowbatteryshutdown := true |>) ;;;
         tell_low tmp ;;;
         (let! s := getsd (fun s => s) in
          when ((ui =? 0) && (ui_zero_time_flag s =? 0))
            (let! t := liftb be_clock in
             modsd (fun s => s <| pre_time ::= set_pre_time LOW_BAT_VOLT t |> <| ui_zero_time_flag := 1 |>))) ;;;
         if ui =? 0 then
           let! s := getsd (fun s => s) in
           modsd (fun s => s <| ui_zero_time_flag := 1 |>) ;;;
           if SHUTDOWN_TIME <=? lasted now (pre_time s LOW_BAT_VOLT) then liftb be_power_off ;;; ret true else ret false
         else ret false
       else
         modsd (fun s => s <| down_to_low_bat := 0 |> <| ui_zero_time_flag := 0 |>
                           <| pre_time ::= set_pre_time LOW_BAT_VOLT 0 |> <| lowbatteryshutdown := false |>) ;;;
         ret false) in
    if off then ret (polling + 1, true)
    else
      modsd (fun s => s <| batidx := if Z.of_nat AVGVBAT_ARRAY_SIZE <=? batidx s + 1 then 0 else batidx s + 1 |>) ;;;
      ret (polling + 2, false).

Definition shutdown_event_handler : M W Z :=
  let! ui := getv v_ui_soc in
  let! soc := getv v_soc in
  let! vbat := gauge_int GAUGE_PROP_BATTERY_VOLTAGE in
  let! now := liftb be_clock in
  let! r := check_soc_zero now ui soc in
  if snd r then ret (next_waketime (fst r))
  else
    let! r := check_uisoc_one (fst r) now ui soc in
    if snd r then ret (next_waketime (fst r))
    else
      let! r := check_dlpt (fst r) now in
      if snd r then ret (next_waketime (fst r))
      else
        let! r := check_low_voltage (fst r) now ui vbat in
        ret (next_waketime (fst r)).

(** The nanoseconds of the alarm come from an uninitialised field. *)
Definition power_misc_handler : M W unit :=
  let! secs := shutdown_event_handler in
  let! off := getv v_disableGM30 in
  when (negb (secs =? 0) && (off =? 0))
    (let! t := now_sec in liftb (be_timer kthread_fgtimer (Some ((t + secs) * NSEC_PER_SEC + undef)))).

(** A pass of [power_misc_routine_thread] once it is woken; whether it ends. *)
Definition power_misc_pass : M W bool :=
  (let! t := getsd sd_timeout in
   when t (modsd (fun s => s <| sd_timeout := false |>) ;;; power_misc_handler)) ;;;
  let! o := getsd sd_overheat in
  if o then
    modsd (fun s => s <| sd_overheat := false |>) ;;; liftb be_thermal_report ;;; liftb be_power_off ;;; ret true
  else ret false.

Definition power_misc_kthread_fgtimer_func : M W unit := wake_up_power_misc.

(** For the supply "battery". *)
Definition mtk_power_misc_psy_event (battery : bool) : M W unit :=
  when battery
    (let! t := getv v_cur_bat_temp in when (BATTERY_SHUTDOWN_TEMPERATURE <=? t) wake_up_overheat).
End Shutdown.
