(* ===== verification/BatteryShutdownSpec.v ===== *)
(** * The shutdown controller: when it switches off, and when it looks again

    For every environment that keeps the laws [BattLaws]: the exact condition
    under which a pass switches the device off; that a pending condition is
    looked at again; and the two places where it is not. *)

From S2P Require Import Prelude Mt6357 BatteryCore BatteryCoreSpec BatteryShutdown.
#[local] Open Scope Z_scope.

(** Rewrite with the outcome of the tests. *)
Ltac known_tests :=
  repeat match goal with
    | H : negb _ = true |- _ => apply negb_true_iff in H
    | H : negb _ = false |- _ => apply negb_false_iff in H
    end;
  repeat match goal with
    | H : ?x = true |- context [?x] => rewrite H
    | H : ?x = false |- context [?x] => rewrite H
    end; rewrite ?andb_true_r, ?andb_false_r, ?orb_true_r, ?orb_false_r; cbn [andb orb negb b2z fst snd].

Section Shutdown.
  Context {E : Type} `{!BattEnv E} (off : E -> bool) (alarm : E -> option Z) (clk : E -> Z) `{!BattLaws off alarm clk}.
  Context (undef stray : Z).
  Abbreviation W := (mworld E).

Definition seen (e : E) : bool * option Z * Z := (off e, alarm e, clk e).
Abbreviation sd w := (sdc (bs w)).

Lemma k_get p : keeps seen (be_get p).
Proof using BattLaws0. apply bl_get. Qed.
Lemma k_clock : keeps seen be_clock.
Proof using BattLaws0. apply bl_clock_keeps. Qed.
Lemma k_algo i : keeps seen (be_algo i).
Proof using BattLaws0. apply bl_algo. Qed.
Lemma k_unicast p s l : keeps seen (be_unicast p s l).
Proof using BattLaws0. apply bl_unicast. Qed.
#[local] Hint Resolve k_get k_clock k_algo k_unicast : kern.

Lemma seen_tbat u : keeps (fun w : W => seen (be w)) (force_get_tbat undef u).
Proof using BattLaws0.
  unfold force_get_tbat, force_get_tbat_internal, volttotemp, temp_drop, gauge_get. cbv zeta. solve_kb; apply keeps_liftb; auto with kern nocore.
Qed.
Lemma seen_wakeup i : keeps (fun w : W => seen (be w)) (wakeup_algo stray i).
Proof using BattLaws0.
  unfold wakeup_algo, wakeup_fg_algo_cmd, wakeup_fg_daemon, mtk_battery_send_to_user, is_algo_active, memory_error. cbv zeta.
  solve_kb; apply keeps_liftb; auto with kern nocore.
Qed.

(** Readings of the pass that starts in [e]. *)
Definition read (p : gauge_property) (e : E) : Z := s32 (default undef (snd (eval (be_get p) e))).
Definition after_first (e : E) : E := exec be_clock (exec (be_get GAUGE_PROP_BATTERY_VOLTAGE) e).

(** A condition that the pass at [now] finds to have lasted. *)
Definition due (now ui : Z) (c : Z) (s : shutdown_controller) : bool :=
  (ui =? 0) && (SHUTDOWN_TIME <=? lasted now (pre_time s c)).
(** The shutdown for an empty battery was called off: the battery charges. *)
Definition called_off (ui soc cur : Z) (s : shutdown_controller) : bool :=
  is_uisoc_one_percent s && negb (ui =? 0) && ((0 <? cur) && (0 <? soc)).
Definition dlpt_over (now : Z) (s : shutdown_controller) : bool :=
  is_dlpt_shutdown s && (SHUTDOWN_TIME <=? lasted now (pre_time s DLPT_SHUTDOWN)).
Definition new_average (vbat : Z) (s : shutdown_controller) : Z := average (<[Z.to_nat (batidx s) := vbat]> (batdata s)).

(** The device goes off: two of the conditions have lasted with an empty display,
    or the voltage has been low with it, and neither of the others keeps the
    pass from looking. *)
Definition goes_off (now ui soc cur vbat : Z) (s : shutdown_controller) : bool :=
  is_soc_zero_percent s && due now ui SOC_ZERO_PERCENT s
  || is_uisoc_one_percent s && due now ui UISOC_ONE_PERCENT s
  || negb (called_off ui soc cur s) && negb (dlpt_over now s) &&
     (is_under_shutdown_voltage s && (new_average vbat s <? BAT_VOLTAGE_LOW_BOUND) && negb (ui_zero_time_flag s =? 0) && due now ui LOW_BAT_VOLT s).

(** ** The parts of a pass *)

(** Two states of the controller that differ at most in whether the charge is zero. *)
Definition but_soc (s s' : shutdown_controller) : Prop :=
  s' <| is_soc_zero_percent := true |> = s <| is_soc_zero_percent := true |>.
Lemma but_soc_fields s s' : but_soc s s' ->
  is_uisoc_one_percent s' = is_uisoc_one_percent s /\ is_dlpt_shutdown s' = is_dlpt_shutdown s /\ pre_time s' = pre_time s /\
  is_under_shutdown_voltage s' = is_under_shutdown_voltage s /\ batdata s' = batdata s /\ batidx s' = batidx s /\
  ui_zero_time_flag s' = ui_zero_time_flag s.
Proof. unfold but_soc. destruct s, s'. cbn. by intros [=]; subst. Qed.

Lemma soc_zero_wp now ui soc w :
  wp (check_soc_zero now ui soc) (fun r w' =>
    snd r = is_soc_zero_percent (sd w) && due now ui SOC_ZERO_PERCENT (sd w) /\
    fst r = b2z (is_soc_zero_percent (sd w')) /\ but_soc (sd w) (sd w') /\ vars (bs w') = vars (bs w) /\
    (if snd r then off (be w') = true /\ alarm (be w') = alarm (be w) /\ clk (be w') = clk (be w) else be w' = be w) /\
    (is_soc_zero_percent (sd w) = false -> w' = w)) w.
Proof using BattLaws0.
  unfold check_soc_zero, due. bwps; cbn in *; known_tests; try done; split_and!; try done; apply bl_off.
Qed.

Lemma uisoc_one_wp polling now ui soc w :
  let s := sd w in
  let cur := read GAUGE_PROP_BATTERY_CURRENT (be w) in
  wp (check_uisoc_one undef polling now ui soc) (fun r w' =>
    snd r = is_uisoc_one_percent s && due now ui UISOC_ONE_PERCENT s || called_off ui soc cur s /\
    (if snd r then off (be w') = off (be w) || due now ui UISOC_ONE_PERCENT s /\ alarm (be w') = alarm (be w) /\ clk (be w') = clk (be w) /\
                   (called_off ui soc cur s = true -> fst r = 0 /\ sd w' = s <| is_uisoc_one_percent := false |>)
     else seen (be w') = seen (be w) /\ sd w' = s /\ vars (bs w') = vars (bs w) /\ fst r = polling + b2z (is_uisoc_one_percent s))) w.
Proof using BattLaws0.
  cbv zeta. unfold check_uisoc_one, due, called_off. unfold gauge_int, gauge_get.
  pose proof (k_get GAUGE_PROP_BATTERY_CURRENT (be w)) as [= K1 K2 K3].
  bwps; cbn in *; fold (read GAUGE_PROP_BATTERY_CURRENT (be w)) in *; known_tests.
  - split_and!; try done. lia.
  - destruct (bl_off (exec (be_get GAUGE_PROP_BATTERY_CURRENT) (be w))) as (F1 & F2 & F3). split_and!; [done|by rewrite F1|congruence|congruence|done].
  - split_and!; try done. unfold seen. congruence.
  - split_and!; try done.
  - split_and!; try done. unfold seen. congruence.
Qed.

Lemma wp_tbat (Q : Z -> W -> Prop) w :
  (forall r w', seen (be w') = seen (be w) -> sd w' = sd w -> Q r w') -> wp (force_get_tbat undef true) Q w.
Proof using BattLaws0. intros H. apply H; [apply seen_tbat|apply tbat_sdc]. Qed.
Lemma wp_wakeup i (Q : unit -> W -> Prop) w :
  (forall w', seen (be w') = seen (be w) -> sd w' = sd w -> Q tt w') -> wp (wakeup_algo stray i) Q w.
Proof using BattLaws0. intros H. unfold wp. destruct (eval _ _). apply H; [apply seen_wakeup|apply wakeup_sdc]. Qed.

Lemma dlpt_wp polling now (w : W) :
  wp (check_dlpt polling now) (fun r w' => w' = w /\ snd r = dlpt_over now (sd w) /\ fst r = polling + b2z (is_dlpt_shutdown (sd w))) w.
Proof. unfold check_dlpt, dlpt_over. bwps; cbn in *; known_tests; split_and!; try done. lia. Qed.

(** The conditions that are pending. *)
Definition flags_sd (s : shutdown_controller) : bool * bool * bool * bool :=
  (is_soc_zero_percent s, is_uisoc_one_percent s, is_dlpt_shutdown s, is_under_shutdown_voltage s).
Definition pending (s : shutdown_controller) : bool :=
  is_soc_zero_percent s || is_uisoc_one_percent s || is_dlpt_shutdown s || is_under_shutdown_voltage s.

(** What telling the algorithm leaves alone. *)
Definition but_told (s s' : shutdown_controller) : Prop :=
  s' <| down_to_low_bat := 1 |> = s <| down_to_low_bat := 1 |>.
Lemma told_fields s s' : but_told s s' ->
  flags_sd s' = flags_sd s /\ pre_time s' = pre_time s /\ ui_zero_time_flag s' = ui_zero_time_flag s.
Proof. unfold but_told. destruct s, s'. cbn. by intros [=]; subst. Qed.
Lemma tell_low_wp tmp (Q : unit -> W -> Prop) w :
  (forall w', seen (be w') = seen (be w) -> but_told (sd w) (sd w') -> Q tt w') -> wp (tell_low stray tmp) Q w.
Proof using BattLaws0.
  intros H. unfold tell_low. bwp_step. bwp_step. apply wp_when; intros _; [|by apply H].
  bwp_step. bwp_step. apply wp_wakeup. intros w' E1 E2. apply H; [done|]. unfold but_told. by rewrite E2.
Qed.

Lemma low_voltage_wp polling now ui vbat w :
  clk (be w) = now ->
  let s := sd w in
  wp (check_low_voltage undef stray polling now ui vbat) (fun r w' =>
    off (be w') = off (be w) || (is_under_shutdown_voltage s && (new_average vbat s <? BAT_VOLTAGE_LOW_BOUND) && negb (ui_zero_time_flag s =? 0) && due now ui LOW_BAT_VOLT s) /\
    alarm (be w') = alarm (be w) /\ clk (be w') = clk (be w) /\ flags_sd (sd w') = flags_sd s /\
    (is_under_shutdown_voltage s = false -> fst r = polling) /\ (is_under_shutdown_voltage s = true -> polling + 1 <= fst r)) w.
Proof using BattLaws0.
  intros Hc s. unfold check_low_voltage. bwp_step. bwp_step. apply wp_if; intros Hu; [rewrite negb_true_iff in Hu|rewrite negb_false_iff in Hu].
  { apply wp_ret. unfold s. rewrite Hu. cbn. rewrite orb_false_r. split_and!; try done. }
  unfold take_reading. bwp_step. bwp_step. bwp_step. bwp_step. bwp_step. apply wp_tbat. intros tmp w1 E1 S1. bwp_step. bwp_step.
  cbn in S1. fold s in S1. assert (avgvbat (sd w1) = new_average vbat s) as Ea by (rewrite S1; reflexivity). rewrite Ea.
  unfold seen in E1. cbn in E1. injection E1 as O1 A1 C1.
  assert (is_under_shutdown_voltage s = true) as Hu' by exact Hu.
  bwp_step. apply wp_if; intros Hl.
  - bwp_step. bwp_step. bwp_step. apply tell_low_wp. intros w2 E2 T2. unfold seen in E2. injection E2 as O2 A2 C2. cbn in T2, O2, A2, C2.
    destruct (told_fields _ _ T2) as (F1 & F2 & F3). rewrite S1 in F1, F2, F3. cbn in F1, F2, F3.
    bwp_step. bwp_step. bwp_step. rewrite F3. unfold due. destruct (Z.eqb_spec (ui_zero_time_flag s) 0) as [Hf|Hf];
      (destruct (Z.eqb_spec ui 0) as [Hui|Hui]; cbn [andb negb]; unfold when).
    + pose proof (k_clock (be w2)) as [= K1 K2 K3]. bwps; cbn in *.
      { match goal with H : (SHUTDOWN_TIME <=? _) = true |- _ => unfold set_pre_time, lasted in H; cbn in H; rewrite bl_clock, C2, C1, Hc, Z.sub_diag in H; discriminate H end. }
      rewrite !andb_false_r, orb_false_r. split_and!; [congruence..|exact F1|congruence|lia].
    + bwps; cbn in *; try done. rewrite !andb_false_r, orb_false_r. split_and!; [congruence..|exact F1|congruence|lia].
    + bwps; cbn in *; rewrite F2 in *; known_tests.
      * destruct (bl_off (be w2)) as (B1 & B2 & B3). split_and!; [congruence..|exact F1|congruence|lia].
      * split_and!; [congruence..|exact F1|congruence|lia].
    + bwps; cbn in *; try done. rewrite !andb_false_r, orb_false_r. split_and!; [congruence..|exact F1|congruence|lia].
  - bwps; cbn in *; try done. known_tests. rewrite S1. split_and!; [congruence..|reflexivity|congruence|lia].
Qed.

(** ** A pass *)

Definition pass_now (w : W) : Z := clk (be w).
Definition ui_of (w : W) : Z := vars (bs w) v_ui_soc.
Definition soc_of (w : W) : Z := vars (bs w) v_soc.
Definition vbat_of (w : W) : Z := read GAUGE_PROP_BATTERY_VOLTAGE (be w).
Definition cur_of (w : W) : Z := read GAUGE_PROP_BATTERY_CURRENT (after_first (be w)).
Definition off_of (w : W) : bool := goes_off (pass_now w) (ui_of w) (soc_of w) (cur_of w) (vbat_of w) (sd w).

Lemma due_eq now ui c s s' : pre_time s' = pre_time s -> due now ui c s' = due now ui c s.
Proof. unfold due. by intros ->. Qed.

Lemma shutdown_handler_wp w :
  wp (shutdown_event_handler undef stray) (fun r w' =>
    off (be w') = off (be w) || off_of w /\ alarm (be w') = alarm (be w) /\ clk (be w') = clk (be w) /\
    (r = 0 \/ r = 10) /\
    (off_of w = false -> called_off (ui_of w) (soc_of w) (cur_of w) (sd w) = false -> r = if pending (sd w') then 10 else 0) /\
    (called_off (ui_of w) (soc_of w) (cur_of w) (sd w) = true -> r = 0 /\
       exists s1, but_soc (sd w) s1 /\ sd w' = s1 <| is_uisoc_one_percent := false |>) /\
    (dlpt_over (pass_now w) (sd w) = true -> is_soc_zero_percent (sd w) = false -> is_uisoc_one_percent (sd w) = false ->
       sd w' = sd w /\ r = 10)) w.
Proof using BattLaws0.
  unfold shutdown_event_handler. bwp_step. bwp_step. bwp_step. bwp_step. bwp_step. unfold gauge_int at 1, gauge_get at 1.
  do 5 bwp_step. bwp_step. bwp_step. cbn.
  assert (seen (after_first (be w)) = seen (be w)) as Ef by (unfold after_first; rewrite (k_clock _); apply k_get).
  pose proof (k_get GAUGE_PROP_BATTERY_VOLTAGE (be w)) as Ev. rewrite bl_clock. unfold seen in Ev. injection Ev as _ _ Ec. rewrite Ec.
  fold (after_first (be w)) (read GAUGE_PROP_BATTERY_VOLTAGE (be w)). unfold seen in Ef. injection Ef as O0 A0 C0.
  change (clk (be w)) with (pass_now w). change (vars (bs w) v_ui_soc) with (ui_of w). change (vars (bs w) v_soc) with (soc_of w).
  bwp_step. eapply wp_mono; [apply soc_zero_wp|]. cbn. intros [p1 r1] w1 (R1 & P1 & B1 & V1 & X1 & N1). cbn [fst snd] in *.
  destruct (but_soc_fields _ _ B1) as (G1 & G2 & G3 & G4 & G5 & G6 & G7).
  unfold off_of, goes_off. destruct (is_soc_zero_percent (sd w) && due (pass_now w) (ui_of w) SOC_ZERO_PERCENT (sd w)) eqn:D1; subst r1.
  { destruct X1 as (X1 & X2 & X3). apply andb_prop in D1 as [D1 D2]. unfold due in D2. apply andb_prop in D2 as [D2 _].
    apply wp_ret. cbn [orb]. rewrite orb_true_r. rewrite D1 in *. unfold called_off. rewrite D2. cbn [negb]. rewrite andb_false_r.
    unfold pass_now. split_and!; try done; try congruence. unfold next_waketime. case_match; auto. }
  bwp_step. eapply wp_mono; [apply uisoc_one_wp|]. cbn. intros [p2 r2] w2 (R2 & X2). cbn [fst snd] in *.
  rewrite X1 in *. unfold pass_now in *. fold (cur_of w) in *. 
  assert (called_off (ui_of w) (soc_of w) (cur_of w) (sd w1) = called_off (ui_of w) (soc_of w) (cur_of w) (sd w)) as Ecall by (unfold called_off; by rewrite G1).
  rewrite Ecall, (due_eq _ _ _ _ _ G3), G1 in *.
  destruct r2; symmetry in R2.
  { destruct X2 as (Y1 & Y2 & Y3 & Y4). apply wp_ret. unfold next_waketime.
    assert (dlpt_over (clk (be w)) (sd w) = true -> is_soc_zero_percent (sd w) = false -> is_uisoc_one_percent (sd w) = false ->
      sd w2 = sd w /\ (if p2 <=? 0 then 0 else 10) = 10) as Hd by (intros _ _ Ho; rewrite Ho in R2; unfold called_off in R2; by rewrite Ho in R2).
    assert ((if p2 <=? 0 then 0 else 10) = 0 \/ (if p2 <=? 0 then 0 else 10) = 10) as Hr by (case_match; auto).
    destruct (called_off (ui_of w) (soc_of w) (cur_of w) (sd w)) eqn:Hc.
    - destruct (Y4 eq_refl) as [-> Es]. unfold called_off in Hc. apply andb_prop in Hc as [Hc _]. apply andb_prop in Hc as [_ Hui]. apply negb_true_iff in Hui.
      unfold due in *. rewrite Hui in *. cbn [andb orb negb] in *. rewrite !andb_false_r in *. cbn [orb negb andb] in *.
      split_and!; try done; try congruence. intros _. split; [done|]. by exists (sd w1).
    - rewrite orb_false_r in R2. rewrite R2. apply andb_prop in R2 as [R2 R3]. rewrite R3, orb_true_r in Y1. cbn [orb]. rewrite orb_true_r.
      split_and!; try done; congruence. }
  apply orb_false_iff in R2 as [R2 Rc]. destruct X2 as (Y1 & Y2 & Y3 & Y4). unfold seen in Y1. injection Y1 as Y1 Y1' Y1''.
  rewrite R2, Rc. cbn [orb negb andb].
  bwp_step. eapply wp_mono; [apply dlpt_wp|]. intros [p3 r3] w3 (-> & R3 & P3). cbn [fst snd] in *.
  assert (dlpt_over (clk (be w)) (sd w2) = dlpt_over (clk (be w)) (sd w)) as Edl by (unfold dlpt_over; by rewrite Y2, G2, G3).
  rewrite Edl in R3. assert (0 <= p1) as Hp1 by (rewrite P1; unfold b2z; case_match; lia).
  destruct r3; rewrite <- R3; cbn [negb andb].
  - apply wp_ret. rewrite orb_false_r. unfold dlpt_over in R3. symmetry in R3. apply andb_prop in R3 as [R3 _].
    assert (next_waketime p3 = 10) as ->.
    { unfold next_waketime. rewrite (proj2 (Z.leb_gt _ _)); [done|]. rewrite P3, Y4, Y2, G2, R3. destruct (is_uisoc_one_percent (sd w)); cbn; lia. }
    split_and!; try done; try congruence; auto.
    + intros _ _. unfold pending. rewrite Y2, G2, R3. by rewrite orb_true_r.
    + intros _ Hz _. split; [|done]. rewrite Y2. by rewrite (N1 Hz).
  - bwp_step. eapply wp_mono; [apply low_voltage_wp; congruence|]. intros [p4 r4] w4 (Z1 & Z2 & Z3 & Z4 & Z5 & Z6). apply wp_ret. cbn [fst snd] in *.
    rewrite Y2 in *. fold (vbat_of w) in *. unfold new_average in *. rewrite G4, G5, G6, G7, (due_eq _ _ _ _ _ G3) in *.
    assert (next_waketime p4 = 0 \/ next_waketime p4 = 10) as Hn by (unfold next_waketime; case_match; auto).
    split_and!; try done; try congruence.
    intros _ _. unfold flags_sd in Z4. injection Z4 as T1 T2 T3 T4. unfold pending. rewrite T1, T2, T3, T4, G1, G2, G4.
    rewrite P3, Y4, P1, G2 in *. unfold next_waketime.
    destruct (is_soc_zero_percent (sd w1)), (is_uisoc_one_percent (sd w)), (is_dlpt_shutdown (sd w)), (is_under_shutdown_voltage (sd w)); cbn in *;
      try specialize (Z5 eq_refl); try specialize (Z6 eq_refl); (destruct (Z.leb_spec p4 0); [try lia; try done|try lia; try done]).
Qed.

Lemma handler_gm30 : keeps (fun w : W => vars (bs w) v_disableGM30) (shutdown_event_handler undef stray).
Proof.
  unfold shutdown_event_handler, check_soc_zero, check_uisoc_one, check_dlpt, check_low_voltage, take_reading, tell_low,
    wakeup_algo, wakeup_fg_algo_cmd, wakeup_fg_daemon, mtk_battery_send_to_user, is_algo_active, memory_error,
    force_get_tbat, force_get_tbat_internal, volttotemp, temp_drop, gauge_int, gauge_get. cbv zeta. solve_kb; exact (keeps_bs (fun b => vars b v_disableGM30) _).
Qed.

(** The alarm of the thread, [secs] from now. *)
Definition alarm_in (w : W) (secs : Z) : Z := (clk (be w) / NSEC_PER_SEC + secs) * NSEC_PER_SEC + undef.

Lemma pass_run w :
  let w1 := exec (shutdown_event_handler undef stray) w in
  let r := eval (shutdown_event_handler undef stray) w in
  let w' := exec (power_misc_handler undef stray) w in
  bs w' = bs w1 /\ off (be w') = off (be w) || off_of w /\ clk (be w') = clk (be w) /\
  alarm (be w') = if negb (r =? 0) && (vars (bs w) v_disableGM30 =? 0) then Some (alarm_in w r) else alarm (be w).
Proof using BattLaws0.
  intros w1 r w'. destruct (shutdown_handler_wp w) as (H1 & H2 & H3 & _). fold w1 in H1, H2, H3. pose proof (handler_gm30 w) as Hg. fold w1 in Hg.
  subst w'. unfold power_misc_handler. rewrite exec_bind. fold w1 r. rewrite exec_bind. change (exec (getv v_disableGM30) w1) with w1.
  change (eval (getv v_disableGM30) w1) with (vars (bs w1) v_disableGM30). rewrite Hg, exec_when.
  destruct (negb (r =? 0) && (vars (bs w) v_disableGM30 =? 0)); [|by rewrite H1, H2, H3].
  match goal with |- bs (exec ?m _) = _ /\ _ => apply (wp_exec m (fun w' => bs w' = bs w1 /\ off (be w') = off (be w) || off_of w /\ clk (be w') = clk (be w) /\
    alarm (be w') = Some (alarm_in w r)) w1) end.
  unfold now_sec. bwps. cbn. rewrite bl_clock. pose proof (k_clock (be w1)) as [= K1 K2 K3].
  destruct (bl_timer (Some ((clk (be w1) / NSEC_PER_SEC + r) * NSEC_PER_SEC + undef)) (exec be_clock (be w1))) as (B1 & B2 & B3).
  unfold alarm_in. rewrite <- H3. split_and!; congruence.
Qed.

Lemma handler_overheat : keeps (fun w : W => sd_overheat (sd w)) (power_misc_handler undef stray).
Proof.
  unfold power_misc_handler, now_sec, shutdown_event_handler, check_soc_zero, check_uisoc_one, check_dlpt, check_low_voltage,
    take_reading, tell_low, wakeup_algo, wakeup_fg_algo_cmd, wakeup_fg_daemon, mtk_battery_send_to_user, is_algo_active, memory_error,
    force_get_tbat, force_get_tbat_internal, volttotemp, temp_drop, gauge_int, gauge_get. cbv zeta.
  solve_kb; exact (keeps_bs (fun b => sd_overheat (sdc b)) _).
Qed.


(** C22: as long as a condition is pending it is looked at again.  While the gauge is
    in use, unless the device goes off or the shutdown at one percent is called off,
    a pass that leaves a condition pending sets the alarm to the present whole
    second plus ten, plus the nanoseconds of a field nobody has set: if that field
    holds less than a second, the alarm is more than nine and less than eleven
    seconds away.  A pass that leaves no condition does not touch the alarm. *)
Theorem pending_looked_at_again w :
  vars (bs w) v_disableGM30 = 0 -> off_of w = false -> called_off (ui_of w) (soc_of w) (cur_of w) (sd w) = false ->
  let w' := exec (power_misc_handler undef stray) w in
  alarm (be w') = (if pending (sd w') then Some (alarm_in w 10) else alarm (be w)) /\
  (0 <= undef < NSEC_PER_SEC ->
   clk (be w) + 9 * NSEC_PER_SEC < alarm_in w 10 < clk (be w) + 11 * NSEC_PER_SEC).
Proof using BattLaws0.
  intros Hg Ho Hc w'. split.
  - destruct (pass_run w) as (B & _ & _ & A). fold w' in B, A. rewrite A, Hg. cbn. rewrite andb_true_r.
    destruct (shutdown_handler_wp w) as (_ & _ & _ & _ & H & _). rewrite (H Ho Hc). rewrite B. by destruct (pending _).
  - unfold alarm_in. intros Hu. pose proof (Z.div_mod (clk (be w)) NSEC_PER_SEC ltac:(done)).
    pose proof (Z.mod_pos_bound (clk (be w)) NSEC_PER_SEC ltac:(done)). lia.
Qed.

(** Calling off the shutdown at one percent ends the pass before the overload
    and the low voltage are looked at, and without setting the alarm: a low
    voltage that is pending stays pending, and nothing looks at it again. *)
Theorem calling_off_stops_watch w :
  called_off (ui_of w) (soc_of w) (cur_of w) (sd w) = true ->
  let w' := exec (power_misc_handler undef stray) w in
  alarm (be w') = alarm (be w) /\ is_under_shutdown_voltage (sd w') = is_under_shutdown_voltage (sd w) /\
  is_dlpt_shutdown (sd w') = is_dlpt_shutdown (sd w) /\ batdata (sd w') = batdata (sd w) /\ is_uisoc_one_percent (sd w') = false.
Proof using BattLaws0.
  intros Hc w'. destruct (pass_run w) as (B & _ & _ & A). fold w' in B, A. destruct (shutdown_handler_wp w) as (_ & _ & _ & _ & _ & H & _).
  destruct (H Hc) as (Hr & s1 & Hs & Eq1). rewrite Hr in A. cbn in A. rewrite B, Eq1. destruct (but_soc_fields _ _ Hs) as (_ & G2 & _ & G4 & G5 & _).
  split_and!; done.
Qed.

(** Passes of the thread, with time going by and the rest of the device doing
    what it does short of switching it off. *)
Inductive watch : W -> W -> Prop :=
| watch_pass w : watch w (exec (power_misc_handler undef stray) w)
| watch_time w e : clk (be w) <= clk e -> off e = off (be w) -> watch w (w <| be := e |>).

Definition overload (s : shutdown_controller) (now : Z) : Prop :=
  is_dlpt_shutdown s = true /\ is_soc_zero_percent s = false /\ is_uisoc_one_percent s = false /\ SHUTDOWN_TIME <= lasted now (pre_time s DLPT_SHUTDOWN).

(** Once an overload has been pending for 40 s the pass returns before it
    looks at the voltage, and does nothing about the overload either: however
    long the voltage stays low and however empty the display is, no further pass
    switches the device off or takes a reading. *)
Theorem overload_starves_low_voltage w w' :
  overload (sd w) (clk (be w)) -> off (be w) = false -> rtc watch w w' ->
  off (be w') = false /\ sd w' = sd w.
Proof using BattLaws0.
  intros Ho Hf Hr. induction Hr as [|w w1 w' Hs _ IH]; [done|]. destruct Ho as (D1 & D2 & D3 & D4).
  destruct Hs as [w|w e Hle He].
  - destruct (pass_run w) as (B & O & C & _). destruct (shutdown_handler_wp w) as (_ & _ & _ & _ & _ & _ & H).
    assert (dlpt_over (pass_now w) (sd w) = true) as Hd by (unfold dlpt_over; rewrite D1; by apply Z.leb_le).
    destruct (H Hd D2 D3) as [Eq1 _]. assert (sd (exec (power_misc_handler undef stray) w) = sd w) as Es by (by rewrite B).
    rewrite Es, C, O in IH. destruct IH as [? ->]; [by split_and!| |done].
    unfold off_of, goes_off. rewrite D2, D3, Hd, Hf. cbn. by rewrite andb_false_r.
  - apply IH; [|cbn; congruence]. cbn. split_and!; try done. unfold lasted in *.
    assert ((clk (be w) - pre_time (sd w) DLPT_SHUTDOWN) ÷c NSEC_PER_SEC <= (clk e - pre_time (sd w) DLPT_SHUTDOWN) ÷c NSEC_PER_SEC)
      by (apply Z.quot_le_mono; [done|lia]). lia.
Qed.
End Shutdown.

(** ** Runs *)

Module TestShutdown.
Import TestBatt.
(** A device with the display at [ui] and the charge at [soc], whose battery
    gives 3.2 V and a current of [i]; the clock says 200 s. *)
Definition device (ui soc i : Z) (s : shutdown_controller) : mworld dev :=
  (exec (setv v_ui_soc ui ;;; setv v_soc soc) (world0 3200 i 700)) <| bs ::= fun b => b <| sdc := s |> |>.
Definition low (c : Z -> Z) : shutdown_controller :=
  sdc0 <| is_under_shutdown_voltage := true |> <| batdata := replicate 30 3200 |> <| ui_zero_time_flag := 1 |> <| pre_time := c |>.
Definition quiet : mworld dev := device 5 5 (-100) (low (fun _ => 0)).
Definition charging : mworld dev := device 5 5 100 ((low (fun _ => 0)) <| is_uisoc_one_percent := true |>).
Definition loaded : mworld dev := device 0 0 (-100) ((low (fun _ => 0)) <| is_dlpt_shutdown := true |>).
Abbreviation pass := (exec (power_misc_handler 0 0)).
Abbreviation fgtimer := (fun d => d_alarm d kthread_fgtimer).
End TestShutdown.


Lemma pending_looked_at_again_witness :
  TestBatt.d_alarm (be (TestShutdown.pass TestShutdown.quiet)) kthread_fgtimer = Some (210 * NSEC_PER_SEC).
Proof.
  etransitivity; [|shelve].
  apply (pending_looked_at_again TestBatt.d_off TestShutdown.fgtimer TestBatt.d_clk 0 0 TestShutdown.quiet); vm_compute; reflexivity.
  Unshelve. vm_compute. reflexivity.
Defined.

Lemma calling_off_stops_watch_witness :
  let w' := TestShutdown.pass TestShutdown.charging in
  TestBatt.d_alarm (be w') kthread_fgtimer = None /\ is_under_shutdown_voltage (sdc (bs w')) = true.
Proof.
  assert (called_off (ui_of TestShutdown.charging) (soc_of TestShutdown.charging) (cur_of 0 TestShutdown.charging) (sdc (bs TestShutdown.charging)) = true) as H
    by (vm_compute; reflexivity).
  pose proof (calling_off_stops_watch TestBatt.d_off TestShutdown.fgtimer TestBatt.d_clk 0 0 TestShutdown.charging H) as C.
  cbv zeta in C |- *. destruct C as (A & U & _). split; [etransitivity; [exact A|reflexivity]|etransitivity; [exact U|reflexivity]].
Defined.

Lemma overload_starves_low_voltage_witness :
  let w := TestShutdown.loaded in
  let w' := TestShutdown.pass (w <| be ::= fun d => d <| TestBatt.d_clk := 5000 * NSEC_PER_SEC |> |>) in
  TestBatt.d_off (be w') = false /\ sdc (bs w') = sdc (bs w).
Proof.
  cbv zeta. apply (overload_starves_low_voltage TestBatt.d_off TestShutdown.fgtimer TestBatt.d_clk 0 0 TestShutdown.loaded);
    [vm_compute; repeat split; discriminate|reflexivity|].
  eapply rtc_l; [|apply rtc_once, watch_pass].
  apply watch_time with (e := (be TestShutdown.loaded) <| TestBatt.d_clk := 5000 * NSEC_PER_SEC |>); [vm_compute; discriminate|reflexivity].
Defined.
