(* ===== verification/BatteryDaemon.v ===== *)
(** * The protocol of the gauge daemon (mtk_battery_daemon.c)

    The daemon is a process; it asks the kernel for readings, sets what the
    kernel keeps for it, and sends blocks of data, one message at a time over a
    netlink socket.  A message and its reply are a header and data; what they
    hold is bytes, in the order of a little-endian machine, and reading or
    writing past the end of a buffer is seen in [mem_error]. *)

From S2P Require Import Prelude RtRegmap Coulomb Mt6357 BatteryCust BatteryCore BatteryShutdown.
#[local] Open Scope Z_scope.

(** The commands in the order of their numbers; with CONFIG_MTK_USE_AGING_ZCV, as
    in the configuration of the device. *)
Inductive fg_daemon_cmds : Type :=
| FG_DAEMON_CMD_PRINT_LOG | FG_DAEMON_CMD_SET_DAEMON_PID | FG_DAEMON_CMD_GET_CUSTOM_SETTING
| FG_DAEMON_CMD_GET_CUSTOM_TABLE | FG_DAEMON_CMD_SEND_CUSTOM_TABLE | FG_DAEMON_CMD_SEND_CUSTOM_LOG_DATA
| FG_DAEMON_CMD_IS_BAT_EXIST | FG_DAEMON_CMD_GET_INIT_FLAG | FG_DAEMON_CMD_SET_INIT_FLAG
| FG_DAEMON_CMD_NOTIFY_DAEMON | FG_DAEMON_CMD_CHECK_FG_DAEMON_VERSION | FG_DAEMON_CMD_FGADC_RESET
| FG_DAEMON_CMD_GET_TEMPERTURE | FG_DAEMON_CMD_GET_RAC | FG_DAEMON_CMD_GET_PTIM_VBAT | FG_DAEMON_CMD_GET_PTIM_I
| FG_DAEMON_CMD_IS_CHARGER_EXIST | FG_DAEMON_CMD_GET_HW_OCV | FG_DAEMON_CMD_GET_FG_HW_CAR
| FG_DAEMON_CMD_SET_FG_BAT_INT1_GAP | FG_DAEMON_CMD_SET_FG_BAT_TMP_GAP | FG_DAEMON_CMD_SET_FG_BAT_INT2_HT_GAP
| FG_DAEMON_CMD_ENABLE_FG_BAT_INT2_HT | FG_DAEMON_CMD_SET_FG_BAT_INT2_LT_GAP
| FG_DAEMON_CMD_ENABLE_FG_BAT_INT2_LT | FG_DAEMON_CMD_IS_BAT_PLUGOUT | FG_DAEMON_CMD_IS_BAT_CHARGING
| FG_DAEMON_CMD_GET_CHARGER_STATUS | FG_DAEMON_CMD_SET_SW_OCV | FG_DAEMON_CMD_GET_SHUTDOWN_DURATION_TIME
| FG_DAEMON_CMD_GET_BAT_PLUG_OUT_TIME | FG_DAEMON_CMD_GET_IS_FG_INITIALIZED
| FG_DAEMON_CMD_SET_IS_FG_INITIALIZED | FG_DAEMON_CMD_SET_FG_RESET_RTC_STATUS
| FG_DAEMON_CMD_IS_HWOCV_UNRELIABLE | FG_DAEMON_CMD_GET_FG_CURRENT_AVG | FG_DAEMON_CMD_SET_FG_TIME
| FG_DAEMON_CMD_GET_FG_TIME | FG_DAEMON_CMD_GET_ZCV | FG_DAEMON_CMD_GET_FG_SW_CAR_NAFG_CNT
| FG_DAEMON_CMD_GET_FG_SW_CAR_NAFG_DLTV | FG_DAEMON_CMD_GET_FG_SW_CAR_NAFG_C_DLTV | FG_DAEMON_CMD_SET_NAG_ZCV
| FG_DAEMON_CMD_SET_NAG_ZCV_EN | FG_DAEMON_CMD_SET_NAG_C_DLTV | FG_DAEMON_CMD_SET_ZCV_INTR
| FG_DAEMON_CMD_SET_FG_QUSE | FG_DAEMON_CMD_SET_FG_RESISTANCE | FG_DAEMON_CMD_SET_FG_DC_RATIO
| FG_DAEMON_CMD_SET_BATTERY_CYCLE_THRESHOLD | FG_DAEMON_CMD_SOFF_RESET | FG_DAEMON_CMD_NCAR_RESET
| FG_DAEMON_CMD_GET_IMIX | FG_DAEMON_CMD_GET_AGING_FACTOR_CUST | FG_DAEMON_CMD_GET_D0_C_SOC_CUST
| FG_DAEMON_CMD_GET_D0_V_SOC_CUST | FG_DAEMON_CMD_GET_UISOC_CUST | FG_DAEMON_CMD_IS_KPOC
| FG_DAEMON_CMD_GET_NAFG_VBAT | FG_DAEMON_CMD_GET_HW_INFO | FG_DAEMON_CMD_SET_KERNEL_SOC
| FG_DAEMON_CMD_SET_KERNEL_UISOC | FG_DAEMON_CMD_SET_KERNEL_INIT_VBAT | FG_DAEMON_CMD_SET_BAT_PLUGOUT_INTR
| FG_DAEMON_CMD_SET_IAVG_INTR | FG_DAEMON_CMD_SET_FG_SHUTDOWN_COND | FG_DAEMON_CMD_GET_FG_SHUTDOWN_COND
| FG_DAEMON_CMD_ENABLE_FG_VBAT_L_INT | FG_DAEMON_CMD_ENABLE_FG_VBAT_H_INT | FG_DAEMON_CMD_SET_FG_VBAT_L_TH
| FG_DAEMON_CMD_SET_FG_VBAT_H_TH | FG_DAEMON_CMD_SET_CAR_TUNE_VALUE | FG_DAEMON_CMD_GET_FG_CURRENT_IAVG_VALID
| FG_DAEMON_CMD_GET_RTC_UI_SOC | FG_DAEMON_CMD_SET_RTC_UI_SOC | FG_DAEMON_CMD_GET_CON0_SOC
| FG_DAEMON_CMD_SET_CON0_SOC | FG_DAEMON_CMD_GET_NVRAM_FAIL_STATUS | FG_DAEMON_CMD_SET_NVRAM_FAIL_STATUS
| FG_DAEMON_CMD_SET_FG_BAT_TMP_C_GAP | FG_DAEMON_CMD_IS_BATTERY_CYCLE_RESET
| FG_DAEMON_CMD_GET_RTC_TWO_SEC_REBOOT | FG_DAEMON_CMD_GET_RTC_INVALID | FG_DAEMON_CMD_GET_VBAT
| FG_DAEMON_CMD_GET_DISABLE_NAFG | FG_DAEMON_CMD_DUMP_LOG | FG_DAEMON_CMD_GET_SHUTDOWN_CAR
| FG_DAEMON_CMD_GET_NCAR | FG_DAEMON_CMD_GET_CURR_1 | FG_DAEMON_CMD_GET_CURR_2 | FG_DAEMON_CMD_GET_REFRESH
| FG_DAEMON_CMD_GET_IS_AGING_RESET | FG_DAEMON_CMD_SET_SOC | FG_DAEMON_CMD_SET_C_D0_SOC
| FG_DAEMON_CMD_SET_V_D0_SOC | FG_DAEMON_CMD_SET_C_SOC | FG_DAEMON_CMD_SET_V_SOC
| FG_DAEMON_CMD_SET_QMAX_T_AGING | FG_DAEMON_CMD_SET_SAVED_CAR | FG_DAEMON_CMD_SET_AGING_FACTOR
| FG_DAEMON_CMD_SET_QMAX | FG_DAEMON_CMD_SET_BAT_CYCLES | FG_DAEMON_CMD_SET_NCAR | FG_DAEMON_CMD_SET_OCV_MAH
| FG_DAEMON_CMD_SET_OCV_VTEMP | FG_DAEMON_CMD_SET_OCV_SOC | FG_DAEMON_CMD_SET_CON0_SOFF_VALID
| FG_DAEMON_CMD_SET_AGING_INFO | FG_DAEMON_CMD_GET_SOC_DECIMAL_RATE | FG_DAEMON_CMD_GET_DIFF_SOC_SET
| FG_DAEMON_CMD_SET_ZCV_INTR_EN | FG_DAEMON_CMD_SEND_FG_USE_2ND_ZCV.

Definition daemon_cmds : list fg_daemon_cmds :=
  [FG_DAEMON_CMD_PRINT_LOG; FG_DAEMON_CMD_SET_DAEMON_PID; FG_DAEMON_CMD_GET_CUSTOM_SETTING;
   FG_DAEMON_CMD_GET_CUSTOM_TABLE; FG_DAEMON_CMD_SEND_CUSTOM_TABLE; FG_DAEMON_CMD_SEND_CUSTOM_LOG_DATA;
   FG_DAEMON_CMD_IS_BAT_EXIST; FG_DAEMON_CMD_GET_INIT_FLAG; FG_DAEMON_CMD_SET_INIT_FLAG;
   FG_DAEMON_CMD_NOTIFY_DAEMON; FG_DAEMON_CMD_CHECK_FG_DAEMON_VERSION; FG_DAEMON_CMD_FGADC_RESET;
   FG_DAEMON_CMD_GET_TEMPERTURE; FG_DAEMON_CMD_GET_RAC; FG_DAEMON_CMD_GET_PTIM_VBAT; FG_DAEMON_CMD_GET_PTIM_I;
   FG_DAEMON_CMD_IS_CHARGER_EXIST; FG_DAEMON_CMD_GET_HW_OCV; FG_DAEMON_CMD_GET_FG_HW_CAR;
   FG_DAEMON_CMD_SET_FG_BAT_INT1_GAP; FG_DAEMON_CMD_SET_FG_BAT_TMP_GAP; FG_DAEMON_CMD_SET_FG_BAT_INT2_HT_GAP;
   FG_DAEMON_CMD_ENABLE_FG_BAT_INT2_HT; FG_DAEMON_CMD_SET_FG_BAT_INT2_LT_GAP;
   FG_DAEMON_CMD_ENABLE_FG_BAT_INT2_LT; FG_DAEMON_CMD_IS_BAT_PLUGOUT; FG_DAEMON_CMD_IS_BAT_CHARGING;
   FG_DAEMON_CMD_GET_CHARGER_STATUS; FG_DAEMON_CMD_SET_SW_OCV; FG_DAEMON_CMD_GET_SHUTDOWN_DURATION_TIME;
   FG_DAEMON_CMD_GET_BAT_PLUG_OUT_TIME; FG_DAEMON_CMD_GET_IS_FG_INITIALIZED;
   FG_DAEMON_CMD_SET_IS_FG_INITIALIZED; FG_DAEMON_CMD_SET_FG_RESET_RTC_STATUS;
   FG_DAEMON_CMD_IS_HWOCV_UNRELIABLE; FG_DAEMON_CMD_GET_FG_CURRENT_AVG; FG_DAEMON_CMD_SET_FG_TIME;
   FG_DAEMON_CMD_GET_FG_TIME; FG_DAEMON_CMD_GET_ZCV; FG_DAEMON_CMD_GET_FG_SW_CAR_NAFG_CNT;
   FG_DAEMON_CMD_GET_FG_SW_CAR_NAFG_DLTV; FG_DAEMON_CMD_GET_FG_SW_CAR_NAFG_C_DLTV; FG_DAEMON_CMD_SET_NAG_ZCV;
   FG_DAEMON_CMD_SET_NAG_ZCV_EN; FG_DAEMON_CMD_SET_NAG_C_DLTV; FG_DAEMON_CMD_SET_ZCV_INTR;
   FG_DAEMON_CMD_SET_FG_QUSE; FG_DAEMON_CMD_SET_FG_RESISTANCE; FG_DAEMON_CMD_SET_FG_DC_RATIO;
   FG_DAEMON_CMD_SET_BATTERY_CYCLE_THRESHOLD; FG_DAEMON_CMD_SOFF_RESET; FG_DAEMON_CMD_NCAR_RESET;
   FG_DAEMON_CMD_GET_IMIX; FG_DAEMON_CMD_GET_AGING_FACTOR_CUST; FG_DAEMON_CMD_GET_D0_C_SOC_CUST;
   FG_DAEMON_CMD_GET_D0_V_SOC_CUST; FG_DAEMON_CMD_GET_UISOC_CUST; FG_DAEMON_CMD_IS_KPOC;
   FG_DAEMON_CMD_GET_NAFG_VBAT; FG_DAEMON_CMD_GET_HW_INFO; FG_DAEMON_CMD_SET_KERNEL_SOC;
   FG_DAEMON_CMD_SET_KERNEL_UISOC; FG_DAEMON_CMD_SET_KERNEL_INIT_VBAT; FG_DAEMON_CMD_SET_BAT_PLUGOUT_INTR;
   FG_DAEMON_CMD_SET_IAVG_INTR; FG_DAEMON_CMD_SET_FG_SHUTDOWN_COND; FG_DAEMON_CMD_GET_FG_SHUTDOWN_COND;
   FG_DAEMON_CMD_ENABLE_FG_VBAT_L_INT; FG_DAEMON_CMD_ENABLE_FG_VBAT_H_INT; FG_DAEMON_CMD_SET_FG_VBAT_L_TH;
   FG_DAEMON_CMD_SET_FG_VBAT_H_TH; FG_DAEMON_CMD_SET_CAR_TUNE_VALUE; FG_DAEMON_CMD_GET_FG_CURRENT_IAVG_VALID;
   FG_DAEMON_CMD_GET_RTC_UI_SOC; FG_DAEMON_CMD_SET_RTC_UI_SOC; FG_DAEMON_CMD_GET_CON0_SOC;
   FG_DAEMON_CMD_SET_CON0_SOC; FG_DAEMON_CMD_GET_NVRAM_FAIL_STATUS; FG_DAEMON_CMD_SET_NVRAM_FAIL_STATUS;
   FG_DAEMON_CMD_SET_FG_BAT_TMP_C_GAP; FG_DAEMON_CMD_IS_BATTERY_CYCLE_RESET;
   FG_DAEMON_CMD_GET_RTC_TWO_SEC_REBOOT; FG_DAEMON_CMD_GET_RTC_INVALID; FG_DAEMON_CMD_GET_VBAT;
   FG_DAEMON_CMD_GET_DISABLE_NAFG; FG_DAEMON_CMD_DUMP_LOG; FG_DAEMON_CMD_GET_SHUTDOWN_CAR;
   FG_DAEMON_CMD_GET_NCAR; FG_DAEMON_CMD_GET_CURR_1; FG_DAEMON_CMD_GET_CURR_2; FG_DAEMON_CMD_GET_REFRESH;
   FG_DAEMON_CMD_GET_IS_AGING_RESET; FG_DAEMON_CMD_SET_SOC; FG_DAEMON_CMD_SET_C_D0_SOC;
   FG_DAEMON_CMD_SET_V_D0_SOC; FG_DAEMON_CMD_SET_C_SOC; FG_DAEMON_CMD_SET_V_SOC; FG_DAEMON_CMD_SET_QMAX_T_AGING;
   FG_DAEMON_CMD_SET_SAVED_CAR; FG_DAEMON_CMD_SET_AGING_FACTOR; FG_DAEMON_CMD_SET_QMAX;
   FG_DAEMON_CMD_SET_BAT_CYCLES; FG_DAEMON_CMD_SET_NCAR; FG_DAEMON_CMD_SET_OCV_MAH; FG_DAEMON_CMD_SET_OCV_VTEMP;
   FG_DAEMON_CMD_SET_OCV_SOC; FG_DAEMON_CMD_SET_CON0_SOFF_VALID; FG_DAEMON_CMD_SET_AGING_INFO;
   FG_DAEMON_CMD_GET_SOC_DECIMAL_RATE; FG_DAEMON_CMD_GET_DIFF_SOC_SET; FG_DAEMON_CMD_SET_ZCV_INTR_EN;
   FG_DAEMON_CMD_SEND_FG_USE_2ND_ZCV].
Definition cmd_of (n : Z) : option fg_daemon_cmds := daemon_cmds !! Z.to_nat n.

Definition SET_DAEMON_PID_NUMBER : Z := 1.
Definition DATA_SIZE : Z := 2048.
Definition POWER_SUPPLY_STATUS_CHARGING : Z := 1.
Definition POWER_SUPPLY_STATUS_NOT_CHARGING : Z := 3.
Definition POWER_SUPPLY_STATUS_FULL : Z := 4.
Definition UNIT_TRANS_10 : Z := 10.
Definition REPORT_RESOLUTION : Z := 40.

Definition get_customized_aging_factor (orig_af : Z) : Z := s32 (orig_af + 100).
Definition get_customized_d0_c_soc (origin_d0_c_soc : Z) : Z := s32 (origin_d0_c_soc + 0).
Definition get_customized_d0_v_soc (origin_d0_v_soc : Z) : Z := s32 (origin_d0_v_soc + 0).
Definition get_customized_uisoc (origin_uisoc : Z) : Z := s32 (origin_uisoc + 0).
Definition fg_get_imix : Z := 1.

(** ** The custom data *)

(** The fields that are variables of the manager. *)
Definition cust_var (f : cust_field) : option bvar :=
  match f with
  | cf_com_fg_meter_resistance => Some v_com_fg_meter_resistance
  | cf_com_r_fg_value => Some v_com_r_fg_value
  | cf_vbat2_det_voltage1 => Some v_vbat2_det_voltage1
  | cf_vbat2_det_voltage2 => Some v_vbat2_det_voltage2
  | cf_vbat2_det_voltage3 => Some v_vbat2_det_voltage3
  | cf_sleep_current_avg => Some v_sleep_current_avg
  | cf_c_old_d0 => Some v_c_old_d0
  | cf_v_old_d0 => Some v_v_old_d0
  | cf_c_soc => Some v_c_soc
  | cf_v_soc => Some v_v_soc
  | cf_ui_old_soc => Some v_ui_old_soc
  | cf_disable_nafg => Some v_disable_nafg
  | _ => None
  end.
Definition cust_value (b : battery_state) (f : cust_field) : Z :=
  match cust_var f with Some v => vars b v | None => cust b f end.
(** [fg_cust_data] in memory. *)
Definition cust_bytes (b : battery_state) : list Z := flat_map (fun f => le_bytes 4 (cust_value b f)) cust_layout.

(** ** Buffers *)

(** Store [d] at [off] in a buffer: what is outside is lost. *)
Definition buf_write (l : list Z) (off : nat) (d : list Z) : list Z := take (length l) (overlay l off d).

(** Whether an access of [n] bytes at [off] leaves the buffer. *)
Definition out_of_bounds (l : list Z) (off n : nat) : bool := Nat.ltb 0 n && Nat.ltb (length l) (off + n).

(** A string up to its first NUL, and whether there is one. *)
Fixpoint c_string (l : list Z) : list Z * bool :=
  match l with
  | [] => ([], false)
  | c :: l' => if c =? 0 then ([], true) else let '(s, t) := c_string l' in (c :: s, t)
  end.

(** The loop of the log: pieces of at most 512 characters; the measure falls. *)
Fixpoint log_pieces (fuel : nat) (s : list Z) : list (list Z) :=
  match fuel, s with
  | O, _ | _, [] => []
  | S n, _ => take 512 s :: log_pieces n (drop 512 s)
  end.

Section Daemon.
  Context {E : Type} `{!BattEnv E} (undef stray : Z).
  Abbreviation W := (mworld E).
  Abbreviation wakeup_algo := (wakeup_algo stray).
  Abbreviation gauge_int := (gauge_int undef).
  Abbreviation force_get_tbat := (force_get_tbat undef).
  Abbreviation reply := fgd_nl_msg.

Definition buf_read (l : list Z) (off n : nat) : M W (list Z) :=
  let got := take n (drop off l) in
  when (out_of_bounds l off n) memory_error ;;;
  ret (got ++ replicate (n - length got) stray).
Definition buf_check (l : list Z) (off n : nat) : M W unit := when (out_of_bounds l off n) memory_error.

(** [memcpy(ret_msg->fgd_data, d)], with and without adding to the length. *)
Definition put (d : list Z) (r : reply) : M W reply :=
  buf_check (fgd_data r) 0 (length d) ;;; ret (r <| fgd_data ::= fun l => buf_write l 0 d |>).
Definition answer_bytes (d : list Z) (r : reply) : M W reply :=
  put d (r <| fgd_data_len ::= fun n => u32 (n + Z.of_nat (length d)) |>).
Definition answer (v : Z) : reply -> M W reply := answer_bytes (le_bytes 4 v).

(** The [int] and the [bool] at the start of the message's data. *)
Definition rcv_int (msg : fgd_nl_msg) : M W Z := let! b := buf_read (fgd_data msg) 0 4 in ret (s32 (le_value b)).
Definition rcv_bool (msg : fgd_nl_msg) : M W Z := let! b := buf_read (fgd_data msg) 0 1 in ret (le_value b).

(** A command that answers, that takes a value, that takes one and answers, and
    that does neither. *)
Definition gives (m : M W Z) (r : reply) : M W reply := let! v := m in answer v r.
Definition takes (msg : fgd_nl_msg) (f : Z -> M W unit) (r : reply) : M W reply := let! v := rcv_int msg in f v ;;; ret r.
Definition turns (msg : fgd_nl_msg) (f : Z -> M W Z) (r : reply) : M W reply :=
  let! v := rcv_int msg in let! x := f v in answer x r.
Definition does (m : M W unit) (r : reply) : M W reply := m ;;; ret r.

(** ** Parts of the commands *)

Definition fg_cmd_check (msg : fgd_nl_msg) : M W unit :=
  when ((fgd_subcmd msg =? 0) && negb (fgd_subcmd_para1 msg =? FGD_NL_HDR_LEN)) (liftb (be_sleep 10000)).

(** [struct fgd_cmd_param_t_4] at the start of a message's data. *)
Record param_4 : Type := mk_param_4 { total_size : Z; size : Z; idx : Z }.
Definition param_head (p : param_4) : list Z := flat_map (le_bytes 4) [total_size p; size p; idx p].
Definition rcv_param (msg : fgd_nl_msg) : M W param_4 :=
  let! t := buf_read (fgd_data msg) 0 4 in
  let! s := buf_read (fgd_data msg) 4 4 in
  let! i := buf_read (fgd_data msg) 8 4 in
  ret (mk_param_4 (le_value t) (le_value s) (le_value i)).

(** The metrics of an aging battery; what is reported goes to the environment. *)
Definition bat_metrics_aging (aging_factor bat_cycle qmax : Z) : M W unit :=
  let! a := getv v_aging_factor_old in
  let! c := getv v_bat_cycle_old in
  let! q := getv v_qmax_old in
  if (a =? aging_factor) && (c =? bat_cycle) && (q =? qmax) then ret tt
  else
    setv v_aging_factor_old aging_factor ;;; setv v_bat_cycle_old bat_cycle ;;; setv v_qmax_old qmax ;;;
    liftb (be_metrics_aging (aging_factor ÷c 100) bat_cycle (qmax ÷c 10)).
(** The word [i] of [struct fuel_gauge_log_data]. *)
Definition log_word (l : list Z) (i : nat) : Z := s32 (le_value (take 4 (drop (4 * i) l))).

(** Neither the place nor the size is checked against the object's; a size that
    differs from the object's is logged. *)
Definition fg_daemon_send_data (log : bool) (msg : fgd_nl_msg) (r : reply) : M W reply :=
  let! p := rcv_param msg in
  let! r := put (param_head p) r in
  let n := Z.to_nat (size p) in
  let i := Z.to_nat (idx p) in
  let! d := buf_read (fgd_data msg) 12 n in
  (if log then
     (let! l := gets (fun w => fg_log_data (bs w)) in buf_check l i n) ;;;
     mods (fun b => b <| fg_log_data ::= fun l => buf_write l i d |>) ;;;
     let! lg := gets (fun w => fg_log_data (bs w)) in
     bat_metrics_aging (log_word lg 16) (log_word lg 17) (log_word lg 31)
   else
     (let! l := gets (fun w => fg_data (bs w)) in buf_check l i n) ;;;
     mods (fun b => b <| fg_data ::= fun l => buf_write l i d |>)) ;;;
  ret r.

Definition fg_daemon_get_data (table : bool) (msg : fgd_nl_msg) (r : reply) : M W reply :=
  let! p := rcv_param msg in
  let! r := put (param_head p) r in
  let n := Z.to_nat (size p) in
  let! src := gets (fun w => if table then cust_table (bs w) else cust_bytes (bs w)) in
  let! d := buf_read src (Z.to_nat (idx p)) n in
  buf_check (fgd_data r) 12 n ;;;
  ret (r <| fgd_data ::= fun l => buf_write l 12 d |>).

(** [reset_set]; the counter is reset between the two halves of the coulomb
    service's reset. *)
Definition reset_set : M W unit :=
  let! off := getv v_disableGM30 in
  when (negb (z2b off))
    (fg_sw_bat_cycle_accu undef stray ;;;
     setv v_bat_cycle_car 0 ;;;
     ignore (gauge_int GAUGE_PROP_COULOMB) ;;;
     liftb be_reset ;;;
     (let! t := liftb be_clock in setv v_sw_iavg_time t) ;;;
     (let! c := gauge_int GAUGE_PROP_COULOMB in setv v_sw_iavg_car c) ;;;
     setv v_bat_cycle_car 0).

(** The charger, looked up once. *)
Definition chg_info : M W bool :=
  let! c := getv v_chg_psy in
  if z2b c then ret true else let! f := liftb be_find_charger in setv v_chg_psy (b2z f) ;;; ret f.

(** The values of the event are in the order of its strings. *)
Definition battery_report_uevent : M W Z :=
  let! found := chg_info in
  if negb found then ret (-1)
  else
    let! vbus := liftb (be_supply ps_vbus) in
    let! ui := getv v_ui_old_soc in
    let! old_ui := getv v_ue_old_ui_soc in
    let! st := getv v_bat_status in
    let! old_st := getv v_ue_old_status in
    if (s32 (Z.abs (s32 (ui - old_ui))) <? REPORT_RESOLUTION) && (old_st =? st) then ret 0
    else
      setv v_ue_old_ui_soc ui ;;; setv v_ue_old_status st ;;;
      let! vbat := gauge_int GAUGE_PROP_BATTERY_VOLTAGE in
      let! ibat := gauge_int GAUGE_PROP_BATTERY_CURRENT in
      let! cap := getv v_bat_capacity in
      let! iusb := liftb (be_chg_get chg_input_current_limit) in
      let! ilim := liftb (be_chg_get chg_charging_current_limit) in
      let! temp := getv v_tbat_precise in
      let! chr := getv v_chr_type in
      let! lg := gets (fun w => fg_log_data (bs w)) in
      liftb (be_uevent
        [cap; st; temp; vbat; ibat ÷c 10; default undef vbus; chr; iusb ÷c 1000; ilim ÷c 1000; ui;
         word_at lg lg_gm30_soc; word_at lg lg_gm30_fg_c_soc; word_at lg lg_gm30_fg_v_soc; word_at lg lg_gm30_vc_diff;
         word_at lg lg_gm30_vc_mode; word_at lg lg_gm30_quse_wo_lf_tb1 ÷c 10]) ;;;
      ret 0.

(** The voltage of the bootloader, or a new one; the current is read and lost. *)
Definition ptim_vbat_cmd : M W Z :=
  let fresh := let! v := gauge_int GAUGE_PROP_PTIM_BATTERY_VOLTAGE in
               ignore (liftb (be_supply ps_gauge_current)) ;;; ret (s32 (v * 10)) in
  let! init := getv v_init_flag in
  let! r := (if init =? 1 then let! v := fresh in ret (v, 0)
             else
               let! v := getv v_ptim_lk_v in
               let! i := getv v_ptim_lk_i in
               if v =? 0 then let! v := fresh in ret (v, i) else ret (v, i)) in
  setv v_ptim_vbat (fst r) ;;; setv v_ptim_i (snd r) ;;; ret (fst r).

(** A reading, or what the last interrupt left of it. *)
Definition nafg_value (p : gauge_property) (v : bvar) (update : Z) : M W Z :=
  if update =? 1 then gauge_int p else getv v.

(** [para1] chooses the timer. *)
Definition set_fg_time (para1 secs : Z) : M W unit :=
  let t := if para1 =? 0 then tracking_timer else one_percent_timer in
  if 0 <? secs then
    let! now := now_sec in liftb (be_timer t (Some ((now + secs) * NSEC_PER_SEC)))
  else liftb (be_timer t None).

Definition set_int1_gap (car gap : Z) : M W unit :=
  setv v_coulomb_int_gap gap ;;;
  setv v_coulomb_int_ht (s32 (car + gap)) ;;;
  setv v_coulomb_int_lt (s32 (car - gap)) ;;;
  liftb (be_coulomb_start CoulombPlus gap) ;;;
  liftb (be_coulomb_start CoulombMinus (s32 (- gap))).

(** The time of the software timer is 60 s after boot. *)
Definition enable_int2_ht (ver en : Z) : M W unit :=
  setv v_uisoc_int_ht_en en ;;;
  when (en =? 0)
    (if negb (ver =? GAUGE_NO_HW) then liftb (be_coulomb_stop UisocPlus)
     else
       let! s := getv v_soc in
       let! u := getv v_ui_soc in
       when (negb (s =? u)) (liftb (be_timer sw_uisoc_timer (Some (60 * NSEC_PER_SEC))))).

(** The event for user space is sent before the value is stored. *)
Definition set_kernel_uisoc (daemon_ui_soc : Z) : M W unit :=
  let ui := if daemon_ui_soc <? 0 then 0 else daemon_ui_soc in
  ignore battery_report_uevent ;;;
  setv v_ui_old_soc ui ;;;
  let! old := getv v_ui_soc in
  let! off := getv v_disableGM30 in
  let new := if off =? 1 then 50 else s32 (ui + 50) ÷c 100 in
  setv v_ui_soc new ;;;
  when (negb (old =? new)) (let! t := liftb be_clock in setv v_uisoc_oldtime t) ;;;
  setv v_bat_capacity new ;;;
  battery_update undef.

Definition set_rtc_ui_soc (msg : fgd_nl_msg) : M W unit :=
  let! fake := getv v_fake_rtc_soc in
  when (negb ((0 <? fake) && (fake <? 100)))
    (let! v := rcv_int msg in gauge_put GAUGE_PROP_RTC_UI_SOC (if v <? 0 then 0 else v)).

(** A change of the shutdown's coulomb count of more than 100 mAh is dropped. *)
Definition shutdown_car : M W Z :=
  let! d := gauge_int GAUGE_PROP_SHUTDOWN_CAR in ret (if 1000 <? s32 (Z.abs d) then 0 else d).

Definition print_string (l : list Z) : M W unit :=
  let '(s, t) := c_string l in when (negb t) memory_error ;;; liftb (be_print s).
Definition dump_log (l : list Z) : M W unit :=
  let '(s, t) := c_string l in
  when (negb t) memory_error ;;; for_each (log_pieces (length s) s) (fun x => liftb (be_print x)).

(** ** The commands

    The cases of the handler's [switch] in the order of the source. *)

Definition daemon_boot (c : fg_daemon_cmds) (msg : fgd_nl_msg) : option (reply -> M W reply) :=
  match c with
  | FG_DAEMON_CMD_IS_BAT_EXIST => Some (gives (let! r := gauge_get GAUGE_PROP_BATTERY_EXIST 0 in ret (snd r)))
  | FG_DAEMON_CMD_FGADC_RESET => Some (does reset_set)
  | FG_DAEMON_CMD_GET_INIT_FLAG => Some (fun r => let! v := getv v_init_flag in answer_bytes (le_bytes 1 v) r)
  | FG_DAEMON_CMD_SET_INIT_FLAG =>
      Some (does (let! v := rcv_bool msg in
                  setv v_init_flag v ;;; when (v =? 1) (gauge_put GAUGE_PROP_SHUTDOWN_CAR (-99999))))
  | FG_DAEMON_CMD_GET_TEMPERTURE => Some (fun r => ignore (rcv_bool msg) ;;; gives (force_get_tbat true) r)
  | FG_DAEMON_CMD_GET_RAC => Some (gives (gauge_int GAUGE_PROP_PTIM_RESIST))
  | FG_DAEMON_CMD_GET_DISABLE_NAFG => Some (gives (let! v := getv v_ntc_disable_nafg in ret (b2z (v =? 1))))
  | FG_DAEMON_CMD_GET_PTIM_VBAT => Some (gives ptim_vbat_cmd)
  | FG_DAEMON_CMD_GET_PTIM_I => Some (gives (getv v_ptim_i))
  | FG_DAEMON_CMD_IS_CHARGER_EXIST =>
      Some (gives (let! s := getv v_bat_status in
                   ret (b2z ((s =? POWER_SUPPLY_STATUS_CHARGING) || (s =? POWER_SUPPLY_STATUS_FULL)))))
  | _ => None
  end.

Definition daemon_readings (c : fg_daemon_cmds) (msg : fgd_nl_msg) : option (reply -> M W reply) :=
  match c with
  | FG_DAEMON_CMD_GET_HW_OCV =>
      Some (gives ((let! t := force_get_tbat true in setv v_bat_batt_temp t) ;;;
                   let! v := gauge_int GAUGE_PROP_BOOT_ZCV in setv v_hw_ocv v ;;; ret v))
  | FG_DAEMON_CMD_GET_FG_SW_CAR_NAFG_CNT => Some (turns msg (nafg_value GAUGE_PROP_NAFG_CNT v_nafg_cnt))
  | FG_DAEMON_CMD_GET_FG_SW_CAR_NAFG_DLTV => Some (turns msg (nafg_value GAUGE_PROP_NAFG_DLTV v_nafg_dltv))
  | FG_DAEMON_CMD_GET_FG_SW_CAR_NAFG_C_DLTV => Some (turns msg (nafg_value GAUGE_PROP_NAFG_C_DLTV v_nafg_c_dltv))
  | FG_DAEMON_CMD_GET_FG_HW_CAR => Some (gives (gauge_int GAUGE_PROP_COULOMB))
  | FG_DAEMON_CMD_SET_SW_OCV => Some (takes msg (setv v_sw_ocv))
  | FG_DAEMON_CMD_SET_FG_TIME => Some (takes msg (set_fg_time (fgd_subcmd_para1 msg)))
  | FG_DAEMON_CMD_GET_FG_TIME => Some (gives (let! t := now_sec in ret (s32 t)))
  | _ => None
  end.

Definition daemon_gaps (c : fg_daemon_cmds) (msg : fgd_nl_msg) : option (reply -> M W reply) :=
  match c with
  | FG_DAEMON_CMD_SET_FG_BAT_INT1_GAP => Some (fun r => let! car := gauge_int GAUGE_PROP_COULOMB in takes msg (set_int1_gap car) r)
  | FG_DAEMON_CMD_SET_FG_BAT_INT2_HT_GAP =>
      Some (takes msg (fun v => setv v_uisoc_int_ht_gap v ;;; liftb (be_coulomb_start UisocPlus v)))
  | FG_DAEMON_CMD_SET_FG_BAT_INT2_LT_GAP =>
      Some (takes msg (fun v => setv v_uisoc_int_lt_gap v ;;; liftb (be_coulomb_start UisocMinus (s32 (- v)))))
  | FG_DAEMON_CMD_ENABLE_FG_BAT_INT2_HT => Some (fun r => let! ver := gauge_int GAUGE_PROP_HW_VERSION in takes msg (enable_int2_ht ver) r)
  | FG_DAEMON_CMD_ENABLE_FG_BAT_INT2_LT =>
      Some (takes msg (fun v => setv v_uisoc_int_lt_en v ;;; when (v =? 0) (liftb (be_coulomb_stop UisocMinus))))
  | FG_DAEMON_CMD_SET_FG_BAT_TMP_C_GAP =>
      Some (fun r => let! t := force_get_tbat true in
        takes msg (fun v => setv v_bat_tmp_c_int_gap v ;;; setv v_bat_tmp_c_ht (s32 (t + v)) ;;; setv v_bat_tmp_c_lt (s32 (t - v))) r)
  | FG_DAEMON_CMD_SET_FG_BAT_TMP_GAP =>
      Some (fun r => let! t := force_get_tbat true in
        takes msg (fun v => setv v_bat_tmp_int_gap v ;;; setv v_bat_tmp_ht (s32 (t + v)) ;;; setv v_bat_tmp_lt (s32 (t - v))) r)
  | _ => None
  end.

Definition daemon_battery (c : fg_daemon_cmds) (msg : fgd_nl_msg) : option (reply -> M W reply) :=
  match c with
  | FG_DAEMON_CMD_IS_BAT_PLUGOUT => Some (gives (getv v_is_bat_plugout))
  | FG_DAEMON_CMD_GET_BAT_PLUG_OUT_TIME => Some (gives (getv v_bat_plug_out_time))
  | FG_DAEMON_CMD_IS_BAT_CHARGING => Some (gives (let! i := gauge_int GAUGE_PROP_BATTERY_CURRENT in ret (b2z (0 <? i))))
  | FG_DAEMON_CMD_GET_CHARGER_STATUS =>
      Some (gives (let! s := getv v_bat_status in ret (if s =? POWER_SUPPLY_STATUS_NOT_CHARGING then -1 else 0)))
  | FG_DAEMON_CMD_CHECK_FG_DAEMON_VERSION => Some (does (ret tt))
  | FG_DAEMON_CMD_GET_SHUTDOWN_DURATION_TIME => Some (gives (getv v_pl_shutdown_time))
  | FG_DAEMON_CMD_SET_FG_RESET_RTC_STATUS => Some (takes msg (fun _ => gauge_put GAUGE_PROP_RESET_FG_RTC 0))
  | FG_DAEMON_CMD_SET_IS_FG_INITIALIZED => Some (takes msg (gauge_put GAUGE_PROP_GAUGE_INITIALIZED))
  | FG_DAEMON_CMD_GET_IS_FG_INITIALIZED => Some (gives (gauge_int GAUGE_PROP_GAUGE_INITIALIZED))
  | FG_DAEMON_CMD_IS_HWOCV_UNRELIABLE => Some (gives (getv v_flag_hw_ocv_unreliable))
  | _ => None
  end.

Definition daemon_current (c : fg_daemon_cmds) (msg : fgd_nl_msg) : option (reply -> M W reply) :=
  match c with
  | FG_DAEMON_CMD_GET_FG_CURRENT_AVG =>
      Some (gives (let! i := getv v_sw_iavg in
                   let! ver := gauge_int GAUGE_PROP_HW_VERSION in
                   if GAUGE_HW_V2000 <=? ver then let! r := gauge_get_average_current undef undef in ret (fst r) else ret i))
  | FG_DAEMON_CMD_GET_FG_CURRENT_IAVG_VALID =>
      Some (gives (let! ver := gauge_int GAUGE_PROP_HW_VERSION in
                   if GAUGE_HW_V2000 <=? ver then let! r := gauge_get_average_current undef 0 in ret (b2z (z2b (snd r))) else ret 1))
  | FG_DAEMON_CMD_GET_ZCV => Some (gives (gauge_int GAUGE_PROP_ZCV))
  | FG_DAEMON_CMD_SET_NAG_ZCV_EN => Some (takes msg gauge_set_nag_en)
  | FG_DAEMON_CMD_SET_NAG_ZCV =>
      Some (takes msg (fun v => gauge_put GAUGE_PROP_NAFG_ZCV v ;;; setv v_log_nafg_zcv v ;;; setv v_nafg_zcv v))
  | FG_DAEMON_CMD_SET_NAG_C_DLTV =>
      Some (takes msg (fun v => setv v_nafg_c_dltv_th v ;;; gauge_put GAUGE_PROP_NAFG_C_DLTV v ;;; gauge_set_nag_en 1))
  | FG_DAEMON_CMD_SET_IAVG_INTR => Some (does (ret tt))
  | FG_DAEMON_CMD_SET_BAT_PLUGOUT_INTR => Some (takes msg (gauge_put GAUGE_PROP_BAT_PLUGOUT_EN))
  | FG_DAEMON_CMD_SET_ZCV_INTR =>
      Some (takes msg (fun v => gauge_put GAUGE_PROP_ZCV_INTR_THRESHOLD v ;;; gauge_put GAUGE_PROP_ZCV_INTR_EN 1))
  | FG_DAEMON_CMD_SET_FG_QUSE => Some (takes msg (fun _ => ret tt))
  | FG_DAEMON_CMD_SET_FG_DC_RATIO => Some (takes msg (fun _ => ret tt))
  | FG_DAEMON_CMD_SOFF_RESET => Some (does (gauge_put GAUGE_PROP_SOFF_RESET 1))
  | _ => None
  end.

Definition daemon_cycle (c : fg_daemon_cmds) (msg : fgd_nl_msg) : option (reply -> M W reply) :=
  match c with
  | FG_DAEMON_CMD_NCAR_RESET => Some (does (gauge_put GAUGE_PROP_NCAR_RESET 1))
  | FG_DAEMON_CMD_SET_BATTERY_CYCLE_THRESHOLD =>
      Some (takes msg (fun v => setv v_bat_cycle_thr v ;;; gauge_put GAUGE_PROP_BAT_CYCLE_INTR_THRESHOLD v ;;;
                                fg_sw_bat_cycle_accu undef stray))
  | FG_DAEMON_CMD_GET_IMIX => Some (gives (ret (UNIT_TRANS_10 * fg_get_imix)))
  | FG_DAEMON_CMD_IS_BATTERY_CYCLE_RESET =>
      Some (fun r => let! v := getv v_is_reset_battery_cycle in let! r := answer v r in setv v_is_reset_battery_cycle 0 ;;; ret r)
  | FG_DAEMON_CMD_GET_AGING_FACTOR_CUST => Some (turns msg (fun v => ret (get_customized_aging_factor v)))
  | FG_DAEMON_CMD_GET_D0_C_SOC_CUST => Some (turns msg (fun v => ret (get_customized_d0_c_soc v)))
  | FG_DAEMON_CMD_GET_D0_V_SOC_CUST => Some (turns msg (fun v => ret (get_customized_d0_v_soc v)))
  | FG_DAEMON_CMD_GET_UISOC_CUST => Some (turns msg (fun v => ret (get_customized_uisoc v)))
  | FG_DAEMON_CMD_IS_KPOC => Some (gives (let! k := is_kernel_power_off_charging in ret (b2z k)))
  | FG_DAEMON_CMD_GET_NAFG_VBAT => Some (gives (gauge_int GAUGE_PROP_NAFG_VBAT))
  | FG_DAEMON_CMD_GET_HW_INFO => Some (does (gauge_put GAUGE_PROP_HW_INFO 1))
  | _ => None
  end.

Definition daemon_shown (c : fg_daemon_cmds) (msg : fgd_nl_msg) : option (reply -> M W reply) :=
  match c with
  | FG_DAEMON_CMD_SET_KERNEL_SOC =>
      Some (takes msg (fun v => when (fgd_subcmd_para1 msg =? 0) (setv v_soc (s32 (v + 50) ÷c 100))))
  | FG_DAEMON_CMD_SET_KERNEL_UISOC => Some (takes msg set_kernel_uisoc)
  | FG_DAEMON_CMD_SET_KERNEL_INIT_VBAT => Some (takes msg (fun _ => ret tt))
  | FG_DAEMON_CMD_SET_FG_SHUTDOWN_COND => Some (takes msg (fun v => ignore (set_shutdown_cond undef stray v)))
  | FG_DAEMON_CMD_GET_FG_SHUTDOWN_COND => Some (gives (get_shutdown_cond undef))
  | FG_DAEMON_CMD_ENABLE_FG_VBAT_L_INT => Some (takes msg (gauge_put GAUGE_PROP_EN_LOW_VBAT_INTERRUPT))
  | FG_DAEMON_CMD_ENABLE_FG_VBAT_H_INT => Some (takes msg (gauge_put GAUGE_PROP_EN_HIGH_VBAT_INTERRUPT))
  | FG_DAEMON_CMD_SET_FG_VBAT_L_TH =>
      Some (takes msg (fun v => gauge_put GAUGE_PROP_VBAT_LT_INTR_THRESHOLD v ;;;
                                let! v1 := getv v_vbat2_det_voltage1 in set_shutdown_vbat_lt v v1))
  | FG_DAEMON_CMD_SET_FG_VBAT_H_TH => Some (takes msg (gauge_put GAUGE_PROP_VBAT_HT_INTR_THRESHOLD))
  | _ => None
  end.

Definition daemon_stored (c : fg_daemon_cmds) (msg : fgd_nl_msg) : option (reply -> M W reply) :=
  match c with
  | FG_DAEMON_CMD_SET_CAR_TUNE_VALUE => Some (takes msg (fun _ => ret tt))
  | FG_DAEMON_CMD_GET_RTC_UI_SOC => Some (gives (gauge_int GAUGE_PROP_RTC_UI_SOC))
  | FG_DAEMON_CMD_SET_RTC_UI_SOC => Some (does (set_rtc_ui_soc msg))
  | FG_DAEMON_CMD_SET_CON0_SOC => Some (takes msg (gauge_put GAUGE_PROP_CON0_SOC))
  | FG_DAEMON_CMD_GET_CON0_SOC => Some (gives (gauge_int GAUGE_PROP_CON0_SOC))
  | FG_DAEMON_CMD_GET_NVRAM_FAIL_STATUS => Some (gives (gauge_int GAUGE_PROP_IS_NVRAM_FAIL_MODE))
  | FG_DAEMON_CMD_SET_NVRAM_FAIL_STATUS => Some (takes msg (gauge_put GAUGE_PROP_IS_NVRAM_FAIL_MODE))
  | FG_DAEMON_CMD_GET_RTC_TWO_SEC_REBOOT => Some (gives (getv v_pl_two_sec_reboot))
  | FG_DAEMON_CMD_GET_RTC_INVALID => Some (gives (getv v_rtc_invalid))
  | FG_DAEMON_CMD_SET_DAEMON_PID =>
      Some (does (fg_cmd_check msg ;;; let! b := buf_read (fgd_data msg) 0 4 in setv v_fgd_pid (le_value b)))
  | FG_DAEMON_CMD_GET_VBAT => Some (gives (let! v := gauge_int GAUGE_PROP_BATTERY_VOLTAGE in ret (s32 (v * 10))))
  | _ => None
  end.

Definition daemon_blocks (c : fg_daemon_cmds) (msg : fgd_nl_msg) : option (reply -> M W reply) :=
  match c with
  | FG_DAEMON_CMD_PRINT_LOG => Some (does (fg_cmd_check msg ;;; print_string (fgd_data msg)))
  | FG_DAEMON_CMD_SEND_CUSTOM_TABLE => Some (fg_daemon_send_data false msg)
  | FG_DAEMON_CMD_GET_CUSTOM_SETTING =>
      Some (fun r => fg_cmd_check msg ;;; let! r := fg_daemon_get_data false msg r in ret (r <| fgd_data_len := 12 + DATA_SIZE |>))
  | FG_DAEMON_CMD_GET_CUSTOM_TABLE =>
      Some (fun r => fg_cmd_check msg ;;; let! r := fg_daemon_get_data true msg r in ret (r <| fgd_data_len := 12 + DATA_SIZE |>))
  | FG_DAEMON_CMD_DUMP_LOG => Some (does (dump_log (fgd_data msg)))
  | FG_DAEMON_CMD_SEND_CUSTOM_LOG_DATA => Some (fg_daemon_send_data true msg)
  | _ => None
  end.

(** Here the length is not added to. *)
Definition daemon_counters (c : fg_daemon_cmds) (msg : fgd_nl_msg) : option (reply -> M W reply) :=
  let refresh := gauge_put GAUGE_PROP_HW_INFO 1 in
  match c with
  | FG_DAEMON_CMD_GET_SHUTDOWN_CAR => Some (gives shutdown_car)
  | FG_DAEMON_CMD_GET_NCAR =>
      Some (fun r =>
        let! ver := gauge_int GAUGE_PROP_HW_VERSION in
        let! v := (if (GAUGE_HW_V1000 <=? ver) && (ver <? GAUGE_HW_V2000) then getv v_bat_cycle_ncar
                   else refresh ;;; getv v_ncar) in
        put (le_bytes 4 v) r)
  | FG_DAEMON_CMD_GET_CURR_1 => Some (fun r => refresh ;;; let! v := getv v_current_1 in put (le_bytes 4 v) r)
  | FG_DAEMON_CMD_GET_CURR_2 => Some (fun r => refresh ;;; let! v := getv v_current_2 in put (le_bytes 4 v) r)
  | FG_DAEMON_CMD_GET_REFRESH => Some (does refresh)
  | FG_DAEMON_CMD_GET_IS_AGING_RESET =>
      Some (fun r => let! v := getv v_is_reset_aging_factor in let! r := put (le_bytes 4 v) r in setv v_is_reset_aging_factor 0 ;;; ret r)
  | FG_DAEMON_CMD_SET_SOC => Some (takes msg (fun v => setv v_soc (s32 (v + 50) ÷c 100)))
  | FG_DAEMON_CMD_SET_C_D0_SOC => Some (takes msg (setv v_c_old_d0))
  | FG_DAEMON_CMD_SET_V_D0_SOC => Some (takes msg (setv v_v_old_d0))
  | FG_DAEMON_CMD_SET_C_SOC => Some (takes msg (setv v_c_soc))
  | FG_DAEMON_CMD_SET_V_SOC => Some (takes msg (setv v_v_soc))
  | FG_DAEMON_CMD_SET_QMAX_T_AGING => Some (does (ret tt))
  | _ => None
  end.

Definition daemon_results (c : fg_daemon_cmds) (msg : fgd_nl_msg) : option (reply -> M W reply) :=
  match c with
  | FG_DAEMON_CMD_SET_SAVED_CAR => Some (takes msg (setv v_d_saved_car))
  | FG_DAEMON_CMD_SET_AGING_FACTOR => Some (takes msg (setv v_aging_factor))
  | FG_DAEMON_CMD_SET_QMAX => Some (takes msg (setv v_algo_qmax))
  | FG_DAEMON_CMD_SET_BAT_CYCLES => Some (takes msg (setv v_bat_cycle))
  | FG_DAEMON_CMD_SET_NCAR => Some (takes msg (setv v_bat_cycle_ncar))
  | FG_DAEMON_CMD_SET_OCV_MAH => Some (takes msg (setv v_algo_ocv_to_mah))
  | FG_DAEMON_CMD_SET_OCV_VTEMP => Some (takes msg (setv v_algo_vtemp))
  | FG_DAEMON_CMD_SET_OCV_SOC => Some (takes msg (setv v_algo_ocv_to_soc))
  | FG_DAEMON_CMD_SET_CON0_SOFF_VALID =>
      Some (takes msg (fun v => ignore (gauge_int GAUGE_PROP_MONITOR_SOFF_VALIDTIME) ;;; gauge_put GAUGE_PROP_MONITOR_SOFF_VALIDTIME v))
  | FG_DAEMON_CMD_SET_AGING_INFO => Some (does (ret tt))
  | FG_DAEMON_CMD_GET_SOC_DECIMAL_RATE => Some (gives (getv v_soc_decimal_rate))
  | FG_DAEMON_CMD_GET_DIFF_SOC_SET => Some (gives (ret 1))
  | FG_DAEMON_CMD_SET_ZCV_INTR_EN => Some (does (ret tt))
  | FG_DAEMON_CMD_SEND_FG_USE_2ND_ZCV => Some (takes msg (setv v_use_aging_zcv))
  | _ => None
  end.

(** What a command does; the others ([FG_DAEMON_CMD_NOTIFY_DAEMON], which is for
    the other direction, and [FG_DAEMON_CMD_SET_FG_RESISTANCE], which is gone)
    and the numbers that are no command are bad. *)
Definition command (c : fg_daemon_cmds) (msg : fgd_nl_msg) : option (reply -> M W reply) :=
  foldr (fun part rest => match part c msg with Some f => Some f | None => rest end) None
    [daemon_boot; daemon_readings; daemon_gaps; daemon_battery; daemon_current; daemon_cycle; daemon_shown; daemon_stored;
     daemon_blocks; daemon_counters; daemon_results].

Definition mtk_battery_daemon_handler (msg : fgd_nl_msg) (r : reply) : M W reply :=
  let r := r <| nl_cmd := nl_cmd msg |> <| fgd_cmd := fgd_cmd msg |> in
  match cmd_of (fgd_cmd msg) ≫= fun c => command c msg with
  | Some f => f r
  | None => (let! n := getv v_badcmd in setv v_badcmd (s32 (n + 1))) ;;; ret r
  end.

(** ** The socket *)

(** The message in what was received. *)
Definition parse_msg (l : list Z) : fgd_nl_msg :=
  let word i := le_value (take 4 (drop (4 * i) l ++ replicate 4 stray)) in
  mk_msg (word 0%nat) (word 1%nat) (word 2%nat) (word 3%nat) (word 4%nat) (word 5%nat) (word 6%nat) (word 7%nat) (drop 32 l).

(** Allocations succeed. *)
Definition mtk_battery_netlink_handler (pid seq : Z) (l : list Z) : M W unit :=
  when (Nat.ltb (length l) 32) memory_error ;;;
  let msg := parse_msg l in
  if negb (identity msg =? FGD_NL_MAGIC) then ret tt
  else
    let! fgd_pid := getv v_fgd_pid in
    if negb (fgd_pid =? pid) && (SET_DAEMON_PID_NUMBER <? fgd_cmd msg) then ret tt
    else if FGD_NL_MSG_MAX_LEN <? fgd_ret_data_len msg then ret tt
    else
      let! r := mtk_battery_daemon_handler msg (mk_msg 0 0 0 0 0 0 0 0 (replicate (Z.to_nat (fgd_ret_data_len msg)) 0)) in
      mtk_battery_send_to_user stray seq r.
End Daemon.
