(* ===== verification/BatteryDaemonSpec.v ===== *)
(** * The protocol of the gauge daemon: who may speak, what is answered, and memory

    Which messages have an effect; how long the reply to each command is; when a
    message keeps to the buffers and objects, and what it reaches when it does
    not; that blocks of data arrive as they were sent. *)

From S2P Require Import Prelude RtRegmap RtRegmapSpec RtCache Coulomb Mt6357 BatteryCust.
From S2P Require Import BatteryCore BatteryCoreSpec BatteryShutdown BatteryDaemon.
#[local] Open Scope Z_scope.

(** ** Buffers *)

Lemma length_buf_write l off d : length (buf_write l off d) = length l.
Proof. unfold buf_write, overlay. rewrite length_take, !length_app, length_take, length_drop. lia. Qed.

(** A write that fits, after what is there already. *)
Lemma buf_write_at pre old d :
  (length d <= length old)%nat -> buf_write (pre ++ old) (length pre) d = pre ++ d ++ drop (length d) old.
Proof.
  intros H. unfold buf_write, overlay. rewrite take_app_length, drop_app_ge by lia.
  replace (length pre + length d - length pre)%nat with (length d) by lia.
  rewrite take_ge; [done|]. rewrite !length_app, length_drop. lia.
Qed.

Lemma length_param_head p : length (param_head p) = 12%nat.
Proof. reflexivity. Qed.
Lemma length_header m : length (header m) = 32%nat.
Proof. reflexivity. Qed.
Lemma length_cust_bytes b : length (cust_bytes b) = 664%nat.
Proof. reflexivity. Qed.

Lemma le_value_u32 v : is_u32 v -> le_value (le_bytes 4 v) = v.
Proof. intros H. rewrite le_value_bytes. unfold is_u32 in H. apply Z.mod_small. lia. Qed.

(** Words at the start of a list of bytes. *)
Lemma take_word v l : take 4 (le_bytes 4 v ++ l) = le_bytes 4 v.
Proof. reflexivity. Qed.
Lemma drop_word v l n : drop (4 + n) (le_bytes 4 v ++ l) = drop n l.
Proof. reflexivity. Qed.

Record wf_msg (m : fgd_nl_msg) : Prop := {
  wm_nl : is_u32 (nl_cmd m);
  wm_cmd : is_u32 (fgd_cmd m);
  wm_hash : is_u32 (fgd_cmd_hash m);
  wm_sub : is_u32 (fgd_subcmd m);
  wm_para : is_u32 (fgd_subcmd_para1 m);
  wm_len : is_u32 (fgd_data_len m);
  wm_ret : is_u32 (fgd_ret_data_len m);
  wm_id : is_u32 (identity m)
}.

(** What is sent is what is parsed. *)
Lemma parse_header stray m : wf_msg m -> parse_msg stray (header m ++ fgd_data m) = m.
Proof.
  intros Hm. destruct m as [n1 n2 n3 n4 n5 n6 n7 n8 l]. destruct Hm as [H1 H2 H3 H4 H5 H6 H7 H8]. cbn in H1, H2, H3, H4, H5, H6, H7, H8. unfold parse_msg.
  f_equal; try (match goal with |- le_value _ = ?x => transitivity (le_value (le_bytes 4 x)); [reflexivity|by apply le_value_u32] end).
Qed.

(** ** What a command reads and writes *)

Inductive kind : Type :=
| KGive | KTake | KTurn | KDo | KPut | KGetInit | KSetInit | KTemp | KRtc | KSend (log : bool) | KBlock (table : bool) | KPrint | KBad.

Definition kind_of (c : fg_daemon_cmds) : kind :=
  match c with
  | FG_DAEMON_CMD_IS_BAT_EXIST | FG_DAEMON_CMD_GET_RAC | FG_DAEMON_CMD_GET_DISABLE_NAFG | FG_DAEMON_CMD_GET_PTIM_VBAT
  | FG_DAEMON_CMD_GET_PTIM_I | FG_DAEMON_CMD_IS_CHARGER_EXIST | FG_DAEMON_CMD_GET_HW_OCV | FG_DAEMON_CMD_GET_FG_HW_CAR
  | FG_DAEMON_CMD_GET_FG_TIME | FG_DAEMON_CMD_IS_BAT_PLUGOUT | FG_DAEMON_CMD_GET_BAT_PLUG_OUT_TIME | FG_DAEMON_CMD_IS_BAT_CHARGING
  | FG_DAEMON_CMD_GET_CHARGER_STATUS | FG_DAEMON_CMD_GET_SHUTDOWN_DURATION_TIME | FG_DAEMON_CMD_GET_IS_FG_INITIALIZED
  | FG_DAEMON_CMD_IS_HWOCV_UNRELIABLE | FG_DAEMON_CMD_GET_FG_CURRENT_AVG | FG_DAEMON_CMD_GET_FG_CURRENT_IAVG_VALID
  | FG_DAEMON_CMD_GET_ZCV | FG_DAEMON_CMD_GET_IMIX | FG_DAEMON_CMD_IS_BATTERY_CYCLE_RESET | FG_DAEMON_CMD_IS_KPOC
  | FG_DAEMON_CMD_GET_NAFG_VBAT | FG_DAEMON_CMD_GET_FG_SHUTDOWN_COND | FG_DAEMON_CMD_GET_RTC_UI_SOC | FG_DAEMON_CMD_GET_CON0_SOC
  | FG_DAEMON_CMD_GET_NVRAM_FAIL_STATUS | FG_DAEMON_CMD_GET_RTC_TWO_SEC_REBOOT | FG_DAEMON_CMD_GET_RTC_INVALID
  | FG_DAEMON_CMD_GET_VBAT | FG_DAEMON_CMD_GET_SHUTDOWN_CAR | FG_DAEMON_CMD_GET_SOC_DECIMAL_RATE | FG_DAEMON_CMD_GET_DIFF_SOC_SET => KGive
  | FG_DAEMON_CMD_GET_FG_SW_CAR_NAFG_CNT | FG_DAEMON_CMD_GET_FG_SW_CAR_NAFG_DLTV | FG_DAEMON_CMD_GET_FG_SW_CAR_NAFG_C_DLTV
  | FG_DAEMON_CMD_GET_AGING_FACTOR_CUST | FG_DAEMON_CMD_GET_D0_C_SOC_CUST | FG_DAEMON_CMD_GET_D0_V_SOC_CUST
  | FG_DAEMON_CMD_GET_UISOC_CUST => KTurn
  | FG_DAEMON_CMD_GET_NCAR | FG_DAEMON_CMD_GET_CURR_1 | FG_DAEMON_CMD_GET_CURR_2 | FG_DAEMON_CMD_GET_IS_AGING_RESET => KPut
  | FG_DAEMON_CMD_FGADC_RESET | FG_DAEMON_CMD_CHECK_FG_DAEMON_VERSION | FG_DAEMON_CMD_SET_IAVG_INTR | FG_DAEMON_CMD_SOFF_RESET
  | FG_DAEMON_CMD_NCAR_RESET | FG_DAEMON_CMD_GET_HW_INFO | FG_DAEMON_CMD_GET_REFRESH | FG_DAEMON_CMD_SET_QMAX_T_AGING
  | FG_DAEMON_CMD_SET_AGING_INFO | FG_DAEMON_CMD_SET_ZCV_INTR_EN => KDo
  | FG_DAEMON_CMD_GET_INIT_FLAG => KGetInit
  | FG_DAEMON_CMD_SET_INIT_FLAG => KSetInit
  | FG_DAEMON_CMD_GET_TEMPERTURE => KTemp
  | FG_DAEMON_CMD_SET_RTC_UI_SOC => KRtc
  | FG_DAEMON_CMD_SEND_CUSTOM_TABLE => KSend false
  | FG_DAEMON_CMD_SEND_CUSTOM_LOG_DATA => KSend true
  | FG_DAEMON_CMD_GET_CUSTOM_SETTING => KBlock false
  | FG_DAEMON_CMD_GET_CUSTOM_TABLE => KBlock true
  | FG_DAEMON_CMD_PRINT_LOG | FG_DAEMON_CMD_DUMP_LOG => KPrint
  | FG_DAEMON_CMD_NOTIFY_DAEMON | FG_DAEMON_CMD_SET_FG_RESISTANCE => KBad
  | _ => KTake
  end.

(** The length of the data that the daemon gets back. *)
Definition reply_len (k : kind) : Z :=
  match k with KGive | KTurn | KTemp => 4 | KGetInit => 1 | KBlock _ => 2060 | _ => 0 end.

(** The block that a message names. *)
Definition param_of (stray : Z) (l : list Z) : param_4 :=
  let word i := le_value (take 4 (drop (4 * i) l ++ replicate 4 stray)) in mk_param_4 (word 0%nat) (word 1%nat) (word 2%nat).

(** Whether a command keeps to what was sent, to the buffer for the reply, of [n]
    bytes, and to the objects that it names. *)
Definition in_bounds (stray : Z) (k : kind) (l : list Z) (n : nat) (b : battery_state) : bool :=
  let p := param_of stray l in
  match k with
  | KGive | KPut => Nat.leb 4 n
  | KTake => Nat.leb 4 (length l)
  | KTurn => Nat.leb 4 (length l) && Nat.leb 4 n
  | KGetInit => Nat.leb 1 n
  | KSetInit => Nat.leb 1 (length l)
  | KTemp => Nat.leb 1 (length l) && Nat.leb 4 n
  | KRtc => (0 <? vars b v_fake_rtc_soc) && (vars b v_fake_rtc_soc <? 100) || Nat.leb 4 (length l)
  | KSend log =>
      Nat.leb 12 (length l) && Nat.leb 12 n && negb (out_of_bounds l 12 (Z.to_nat (size p))) &&
      negb (out_of_bounds (if log then fg_log_data b else fg_data b) (Z.to_nat (idx p)) (Z.to_nat (size p)))
  | KBlock table =>
      Nat.leb 12 (length l) && Nat.leb (12 + Z.to_nat (size p)) n &&
      negb (out_of_bounds (if table then cust_table b else cust_bytes b) (Z.to_nat (idx p)) (Z.to_nat (size p)))
  | KPrint => snd (c_string l)
  | KDo | KBad => true
  end.

Section Daemon.
  Context {E : Type} `{!BattEnv E} (undef stray : Z).
  Abbreviation W := (mworld E).

Lemma wp_any_reply {A} (m : M W A) (Q : A -> W -> Prop) w : (forall a w', Q a w') -> wp m Q w.
Proof. intros H. apply H. Qed.

(** ** Who may speak *)

(** A message that the kernel takes from the process [pid]. *)
Definition accepted (pid : Z) (m : fgd_nl_msg) (b : battery_state) : bool :=
  (identity m =? FGD_NL_MAGIC) && ((vars b v_fgd_pid =? pid) || (fgd_cmd m <=? 1)) && (fgd_ret_data_len m <=? FGD_NL_MSG_MAX_LEN).

Abbreviation empty_reply m := (mk_msg 0 0 0 0 0 0 0 0 (replicate (Z.to_nat (fgd_ret_data_len m)) 0)).
Abbreviation handler := (mtk_battery_daemon_handler undef stray).
Abbreviation netlink := (mtk_battery_netlink_handler undef stray).

Lemma netlink_run pid seq m w : wf_msg m ->
  exec (netlink pid seq (header m ++ fgd_data m)) w =
    if accepted pid m (bs w) then
      exec (mtk_battery_send_to_user stray seq (eval (handler m (empty_reply m)) w)) (exec (handler m (empty_reply m)) w)
    else w.
Proof.
  intros Hm. unfold mtk_battery_netlink_handler. rewrite exec_bind, exec_when.
  rewrite length_app, length_header. replace (Nat.ltb _ 32) with false by (symmetry; apply Nat.ltb_ge; lia).
  rewrite (parse_header _ _ Hm). cbv zeta. unfold accepted. destruct (identity m =? FGD_NL_MAGIC); [cbn [negb andb]|done].
  rewrite exec_bind. change (eval (getv v_fgd_pid) w) with (vars (bs w) v_fgd_pid). change (exec (getv v_fgd_pid) w) with w.
  rewrite exec_if. rewrite <- (Z.ltb_antisym (fgd_cmd m) 1) || rewrite Z.leb_antisym. change SET_DAEMON_PID_NUMBER with 1.
  destruct (vars (bs w) v_fgd_pid =? pid), (1 <? fgd_cmd m); cbn [negb andb orb]; try done;
    (rewrite exec_if; rewrite Z.leb_antisym; destruct (FGD_NL_MSG_MAX_LEN <? fgd_ret_data_len m); [done|cbn [negb]; by rewrite exec_bind]).
Qed.

(** A message is taken exactly if it carries the magic number, comes from the
    process that registered as the daemon or has one of the first two commands
    (printing, and registering), and asks for a reply of at most 9200 bytes; any
    other message changes nothing and is not answered. *)
Theorem strangers_change_nothing pid seq m (w : W) : wf_msg m ->
  accepted pid m (bs w) = false -> exec (netlink pid seq (header m ++ fgd_data m)) w = w.
Proof. intros Hm Ha. by rewrite netlink_run, Ha. Qed.

(** ** What is answered, and memory *)

Abbreviation merr w := (mem_error (bs w)).
(** A state with the error noted, if there is one. *)
Definition mark (e : bool) (w : W) : W := if e then w <| bs ::= fun b => b <| mem_error := true |> |> else w.
Lemma merr_mark e w : merr (mark e w) = merr w || e.
Proof. destruct e; cbn; by rewrite ?orb_true_r, ?orb_false_r. Qed.
Lemma vars_mark e w : vars (bs (mark e w)) = vars (bs w).
Proof. by destruct e. Qed.

Lemma wp_check l off n (Q : unit -> W -> Prop) w : Q tt (mark (out_of_bounds l off n) w) -> wp (buf_check l off n) Q w.
Proof. unfold buf_check, when. by destruct (out_of_bounds l off n). Qed.
Lemma wp_buf_read l off n (Q : list Z -> W -> Prop) w :
  Q (take n (drop off l) ++ replicate (n - length (take n (drop off l))) stray) (mark (out_of_bounds l off n) w) -> wp (buf_read stray l off n) Q w.
Proof. unfold buf_read, when. by destruct (out_of_bounds l off n). Qed.

(** The reply with [k] bytes. *)
Definition shape (k : Z) (r r' : fgd_nl_msg) : Prop :=
  r' = r <| fgd_data_len := k |> <| fgd_data := fgd_data r' |> /\ length (fgd_data r') = length (fgd_data r).
Lemma shape_refl r : fgd_data_len r = 0 -> shape 0 r r.
Proof. destruct r. cbn. by intros ->. Qed.

Lemma oob_0 l n : out_of_bounds l 0 (S n) = negb (Nat.leb (S n) (length l)).
Proof. unfold out_of_bounds. rewrite Nat.add_0_l. destruct (Nat.ltb_spec (length l) (S n)), (Nat.leb_spec (S n) (length l)); cbn; try done; lia. Qed.

(** A piece of a command: the reply's length, and the error it makes. *)
Definition piece (k : Z) (ok : bool) (f : fgd_nl_msg -> M W fgd_nl_msg) (r : fgd_nl_msg) (w : W) : Prop :=
  wp (f r) (fun r' w' => shape k r r' /\ merr w' = merr w || negb ok) w.
Abbreviation quiet m := (keeps (fun w : W => merr w) m).

Lemma put_wp d r w :
  wp (put d r) (fun r' w' => r' = r <| fgd_data := buf_write (fgd_data r) 0 d |> /\ w' = mark (out_of_bounds (fgd_data r) 0 (length d)) w) w.
Proof. apply wp_bind, wp_check, wp_ret. done. Qed.
Lemma answer_piece d r w : (0 < length d)%nat -> Z.of_nat (length d) < 2 ^ 32 -> fgd_data_len r = 0 ->
  piece (Z.of_nat (length d)) (Nat.leb (length d) (length (fgd_data r))) (answer_bytes d) r w.
Proof.
  intros H0 Hd Hr. assert (u32 (fgd_data_len r + Z.of_nat (length d)) = Z.of_nat (length d)) as Ek
    by (rewrite Hr, Z.add_0_l, u32_id by (unfold is_u32; lia); done).
  eapply wp_mono; [apply put_wp|]. cbn -[u32]. intros r' w' [-> ->]. split.
  - split; [|cbn; apply length_buf_write]. unfold upd_field; destruct r; cbn -[u32] in *. by rewrite Ek.
  - rewrite merr_mark. destruct (length d) as [|n] eqn:En; [lia|]. by rewrite oob_0.
Qed.
Lemma answer4_piece v r w : fgd_data_len r = 0 -> piece 4 (Nat.leb 4 (length (fgd_data r))) (answer v) r w.
Proof. apply (answer_piece (le_bytes 4 v)); rewrite length_le_bytes; lia. Qed.

Lemma piece_after {A} (m : M W A) k ok (f : A -> fgd_nl_msg -> M W fgd_nl_msg) r w :
  quiet m -> (forall a w', piece k ok (f a) r w') -> piece k ok (fun r => bind m (fun a => f a r)) r w.
Proof.
  intros Hm Hf. apply wp_bind. unfold wp. specialize (Hm w). specialize (Hf (eval m w) (exec m w)). cbn beta in Hm.
  unfold piece in Hf. by rewrite Hm in Hf.
Qed.
Lemma gives_piece m r w : quiet m -> fgd_data_len r = 0 -> piece 4 (Nat.leb 4 (length (fgd_data r))) (gives m) r w.
Proof. intros Hm Hr. apply (piece_after m); [done|]. intros v w'. by apply answer4_piece. Qed.
Lemma does_piece m r w : quiet m -> fgd_data_len r = 0 -> piece 0 true (does m) r w.
Proof.
  intros Hm Hr. apply (piece_after m 0 true (fun _ r => ret r)); [done|]. intros _ w'. apply wp_ret.
  rewrite orb_false_r. split; [by apply shape_refl|done].
Qed.
Lemma takes_piece msg f r w : (forall v, quiet (f v)) -> fgd_data_len r = 0 ->
  piece 0 (Nat.leb 4 (length (fgd_data msg))) (takes stray msg f) r w.
Proof.
  intros Hf Hr. apply wp_bind, wp_bind, wp_buf_read, wp_ret, wp_bind. set (v := s32 _). specialize (Hf v (mark (out_of_bounds (fgd_data msg) 0 4) w)).
  unfold wp. split; [by apply shape_refl|]. change (exec (ret ?x) ?w) with w. cbn beta in Hf. rewrite Hf, merr_mark, oob_0. done.
Qed.
Lemma turns_piece msg f r w : (forall v, quiet (f v)) -> fgd_data_len r = 0 ->
  piece 4 (Nat.leb 4 (length (fgd_data msg)) && Nat.leb 4 (length (fgd_data r))) (turns stray msg f) r w.
Proof.
  intros Hf Hr. apply wp_bind, wp_bind, wp_buf_read, wp_ret. set (v := s32 _). set (w1 := mark _ w).
  eapply wp_mono; [apply (piece_after (f v) 4 (Nat.leb 4 (length (fgd_data r))) (fun x r => answer x r) r w1); [done|]|].
  - intros x w'. by apply answer4_piece.
  - intros r' w' [H1 H2]. split; [done|]. rewrite H2. unfold w1. rewrite merr_mark, oob_0, negb_andb, orb_assoc. done.
Qed.

(** What the manager calls for a command makes no error of its own. *)
Lemma send_merr seq r w :
  merr (exec (mtk_battery_send_to_user stray seq r) w) = merr w || Nat.ltb (length (fgd_data r)) (Z.to_nat (fgd_data_len r)).
Proof.
  unfold mtk_battery_send_to_user. rewrite exec_bind. change (exec (getv v_fgd_pid) w) with w. cbv zeta. rewrite exec_bind, exec_when.
  rewrite (keeps_bs mem_error). change (fgd_data (upd_field _ r)) with (fgd_data r). change (fgd_data_len (upd_field _ r)) with (fgd_data_len r).
  destruct (Nat.ltb _ _); cbn; by rewrite ?orb_true_r, ?orb_false_r.
Qed.
Lemma q_wakeup_cmd i c p : quiet (wakeup_fg_algo_cmd stray i c p).
Proof.
  unfold wakeup_fg_algo_cmd, wakeup_fg_daemon, is_algo_active. cbv zeta. solve_kb; intros w1. by rewrite send_merr, orb_false_r.
Qed.
Lemma q_wakeup i : quiet (wakeup_algo stray i).
Proof. apply keeps_ignore, q_wakeup_cmd. Qed.
Lemma q_tbat u : quiet (force_get_tbat undef u).
Proof. unfold force_get_tbat, force_get_tbat_internal, volttotemp, temp_drop, gauge_get. cbv zeta. solve_kb. Qed.
#[local] Hint Resolve q_wakeup_cmd q_wakeup q_tbat : kern.
Lemma q_accu : quiet (fg_sw_bat_cycle_accu undef stray).
Proof. unfold fg_sw_bat_cycle_accu, gauge_int, gauge_get, gauge_put. cbv zeta. solve_kb. Qed.
Lemma q_update : quiet (battery_update undef).
Proof. unfold battery_update, battery_update_psd, is_algo_active, gauge_int, gauge_get. cbv zeta. solve_kb. Qed.
Lemma q_uevent : quiet (battery_report_uevent undef).
Proof. unfold battery_report_uevent, chg_info, gauge_int, gauge_get. cbv zeta. solve_kb. Qed.
Lemma q_cond c : quiet (set_shutdown_cond undef stray c).
Proof.
  unfold set_shutdown_cond, raise_empty, is_kernel_power_off_charging, wake_up_power_misc, gauge_int, gauge_get. cbv zeta. solve_kb.
Qed.
#[local] Hint Resolve q_accu q_update q_uevent q_cond : kern.
Lemma q_reset : quiet (reset_set undef stray).
Proof. unfold reset_set, gauge_int, gauge_get. cbv zeta. solve_kb. Qed.
Lemma q_uisoc v : quiet (set_kernel_uisoc undef v).
Proof. unfold set_kernel_uisoc. cbv zeta. solve_kb. Qed.
#[local] Hint Resolve q_reset q_uisoc : kern.

Ltac solve_quiet :=
  intros; unfold ptim_vbat_cmd, nafg_value, set_fg_time, set_int1_gap, enable_int2_ht, shutdown_car, gauge_get_average_current,
    gauge_set_nag_en, get_shutdown_cond, is_kernel_power_off_charging, set_shutdown_vbat_lt, fg_cmd_check, now_sec, gauge_int, gauge_get, gauge_put;
  cbv zeta; solve_kb.

Definition spec (c : fg_daemon_cmds) (msg : fgd_nl_msg) (f : fgd_nl_msg -> M W fgd_nl_msg) : Prop :=
  forall r w, fgd_data_len r = 0 ->
    piece (reply_len (kind_of c)) (in_bounds stray (kind_of c) (fgd_data msg) (length (fgd_data r)) (bs w)) f r w.

Ltac solve_piece :=
  intros; repeat match goal with
    | |- piece ?k ?ok (fun x => ?g x) ?r ?w => change (piece k ok g r w)
    | |- piece _ _ (gives _) _ _ => apply gives_piece; [solve_quiet|done]
    | |- piece _ _ (takes _ _ _) _ _ => apply takes_piece; [solve_quiet|done]
    | |- piece _ _ (turns _ _ _) _ _ => apply turns_piece; [solve_quiet|done]
    | |- piece _ _ (does _) _ _ => apply does_piece; [solve_quiet|done]
    end.

(** A byte of the message first. *)
Lemma byte_piece msg k ok (f : fgd_nl_msg -> M W fgd_nl_msg) r w :
  (forall w', piece k ok f r w') -> piece k (Nat.leb 1 (length (fgd_data msg)) && ok) (fun r => ignore (rcv_bool stray msg) ;;; f r) r w.
Proof.
  intros Hf. apply wp_bind, wp_ignore, wp_bind, wp_buf_read, wp_ret. eapply wp_mono; [apply Hf|]. cbn beta. intros r' w' [H1 H2]. split; [done|].
  rewrite H2, merr_mark, oob_0, negb_andb, orb_assoc. done.
Qed.
(** An answer, and a variable that is cleared after it. *)
Lemma cleared_piece v x k ok (f : fgd_nl_msg -> M W fgd_nl_msg) r w :
  piece k ok f r w -> piece k ok (fun r => let! r := f r in setv v x ;;; ret r) r w.
Proof. intros H. apply wp_bind. exact H. Qed.
Lemma put4_piece v r w : fgd_data_len r = 0 -> piece 0 (Nat.leb 4 (length (fgd_data r))) (put (le_bytes 4 v)) r w.
Proof.
  intros Hr. eapply wp_mono; [apply put_wp|]. intros r' w' [-> ->]. split.
  - split; [|cbn; apply length_buf_write]. destruct r; cbn in *; by subst.
  - by rewrite merr_mark, length_le_bytes, oob_0.
Qed.

Ltac spec_start c H := destruct c; try discriminate H; injection H as <-; intros r w Hr; cbn [kind_of reply_len in_bounds]; solve_piece.
Ltac after := apply piece_after; [solve_quiet|intros ? ?; cbn beta].

Lemma spec_boot c msg f : daemon_boot undef stray c msg = Some f -> spec c msg f.
Proof.
  intros H. spec_start c H.
  - after. apply (answer_piece (le_bytes 1 _)); rewrite ?length_le_bytes; [lia|lia|done].
  - apply wp_bind, wp_bind, wp_bind, wp_buf_read, wp_ret. set (v := le_value _). set (w1 := mark _ w).
    assert (quiet (setv v_init_flag v ;;; when (v =? 1) (gauge_put GAUGE_PROP_SHUTDOWN_CAR (-99999)))) as Hq by solve_quiet.
    unfold wp at 1. split; [by apply shape_refl|]. change (exec (ret ?x) ?w) with w. specialize (Hq w1). cbn beta in Hq. rewrite Hq.
    unfold w1. by rewrite merr_mark, oob_0.
  - apply byte_piece. intros w'. solve_piece.
Qed.
Lemma spec_readings c msg f : daemon_readings undef stray c msg = Some f -> spec c msg f.
Proof. intros H. spec_start c H. Qed.
Lemma spec_gaps c msg f : daemon_gaps undef stray c msg = Some f -> spec c msg f.
Proof. intros H. spec_start c H; after; solve_piece. Qed.
Lemma spec_battery c msg f : daemon_battery undef stray c msg = Some f -> spec c msg f.
Proof. intros H. spec_start c H. Qed.
Lemma spec_current c msg f : daemon_current undef stray c msg = Some f -> spec c msg f.
Proof. intros H. spec_start c H. Qed.
Lemma spec_cycle c msg f : daemon_cycle undef stray c msg = Some f -> spec c msg f.
Proof. intros H. spec_start c H. after. apply cleared_piece. by apply answer4_piece. Qed.
Lemma spec_shown c msg f : daemon_shown undef stray c msg = Some f -> spec c msg f.
Proof. intros H. spec_start c H. Qed.
Lemma spec_counters c msg f : daemon_counters undef stray c msg = Some f -> spec c msg f.
Proof. intros H. spec_start c H; repeat after; [by apply put4_piece..|]. apply cleared_piece. by apply put4_piece. Qed.
Lemma spec_results c msg f : daemon_results undef stray c msg = Some f -> spec c msg f.
Proof. intros H. spec_start c H. Qed.

Lemma rtc_piece msg r w : fgd_data_len r = 0 ->
  piece 0 (in_bounds stray KRtc (fgd_data msg) (length (fgd_data r)) (bs w)) (does (set_rtc_ui_soc stray msg)) r w.
Proof.
  intros Hr. apply wp_bind, wp_bind, wp_getv, wp_when; intros Hf; cbn [in_bounds].
  - rewrite negb_true_iff in Hf. rewrite Hf. cbn [orb]. apply wp_bind, wp_bind, wp_buf_read, wp_ret, wp_liftb, wp_ret.
    split; [by apply shape_refl|]. transitivity (merr (mark (out_of_bounds (fgd_data msg) 0 4) w)); [done|by rewrite merr_mark, oob_0].
  - rewrite negb_false_iff in Hf. rewrite Hf. apply wp_ret. split; [by apply shape_refl|]. by rewrite orb_false_r.
Qed.
Lemma pid_piece msg r w : fgd_data_len r = 0 ->
  piece 0 (Nat.leb 4 (length (fgd_data msg)))
    (does (fg_cmd_check msg ;;; let! b := buf_read stray (fgd_data msg) 0 4 in setv v_fgd_pid (le_value b))) r w.
Proof.
  intros Hr. assert (quiet (fg_cmd_check msg)) as Hq by solve_quiet. apply wp_bind, wp_bind. unfold wp at 1. specialize (Hq w). cbn beta in Hq.
  apply wp_bind, wp_buf_read, wp_setv, wp_ret. split; [by apply shape_refl|].
  transitivity (merr (mark (out_of_bounds (fgd_data msg) 0 4) (exec (fg_cmd_check msg) w))); [done|by rewrite merr_mark, oob_0, Hq].
Qed.
Lemma spec_stored c msg f : daemon_stored undef stray c msg = Some f -> spec c msg f.
Proof.
  intros H. destruct c; try discriminate H; injection H as <-; intros r w Hr; cbn [kind_of reply_len];
    try (by apply rtc_piece); try (by apply pid_piece); cbn [in_bounds]; solve_piece.
Qed.

(** The string is read to its end. *)
Lemma print_merr l (m : list Z -> M W unit) w : (forall s, quiet (m s)) ->
  merr (exec (let '(s, t) := c_string l in when (negb t) memory_error ;;; m s) w) = merr w || negb (snd (c_string l)).
Proof.
  intros Hm. destruct (c_string l) as [x t]. rewrite exec_bind, (Hm x). destruct t; cbn; by rewrite ?orb_true_r, ?orb_false_r.
Qed.

(** The block's parameters. *)
Lemma oob_words (l : list Z) : out_of_bounds l 0 4 || out_of_bounds l 4 4 || out_of_bounds l 8 4 = negb (Nat.leb 12 (length l)).
Proof.
  unfold out_of_bounds. change (Nat.ltb 0 4) with true. cbn [andb Nat.add].
  destruct (Nat.ltb_spec (length l) 4), (Nat.ltb_spec (length l) 8), (Nat.ltb_spec (length l) 12), (Nat.leb_spec 12 (length l)); cbn; try done; lia.
Qed.
Lemma word_pad (l : list Z) i :
  take 4 (drop i l) ++ replicate (4 - length (take 4 (drop i l))) stray = take 4 (drop i l ++ replicate 4 stray).
Proof.
  rewrite take_app. f_equal. rewrite take_replicate, length_take. f_equal. lia.
Qed.
Lemma param_wp msg (Q : param_4 -> W -> Prop) w :
  Q (param_of stray (fgd_data msg)) (mark (negb (Nat.leb 12 (length (fgd_data msg)))) w) -> wp (rcv_param stray msg) Q w.
Proof.
  intros H. unfold rcv_param. apply wp_bind, wp_buf_read, wp_bind, wp_buf_read, wp_bind, wp_buf_read, wp_ret.
  rewrite !word_pad, <- oob_words in *. unfold param_of in H. cbn [Nat.mul Nat.add] in H.
  destruct (out_of_bounds _ 0 4), (out_of_bounds _ 4 4), (out_of_bounds _ 8 4); exact H.
Qed.

Definition region (log : bool) (b : battery_state) : list Z := if log then fg_log_data b else fg_data b.
Definition source (table : bool) (b : battery_state) : list Z := if table then cust_table b else cust_bytes b.

Lemma bs_mark e w : bs (mark e w) = if e then (bs w) <| mem_error := true |> else bs w.
Proof. by destruct e. Qed.
Lemma region_mark log e w : region log (bs (mark e w)) = region log (bs w).
Proof. by destruct e. Qed.
Lemma source_mark t e w : source t (bs (mark e w)) = source t (bs w).
Proof. by destruct e. Qed.

(** The metrics leave the log data and the daemon's process alone. *)
Lemma metrics_wp a c q (Q : unit -> W -> Prop) w :
  (forall w', (merr w', fg_log_data (bs w'), vars (bs w') v_fgd_pid) = (merr w, fg_log_data (bs w), vars (bs w) v_fgd_pid) -> Q tt w') ->
  wp (bat_metrics_aging a c q) Q w.
Proof.
  intros HQ. assert (keeps (fun w : W => (merr w, fg_log_data (bs w), vars (bs w) v_fgd_pid)) (bat_metrics_aging a c q)) as Hk.
  { unfold bat_metrics_aging. solve_kb. apply (keeps_bs (fun b => (mem_error b, fg_log_data b, vars b v_fgd_pid))). }
  unfold wp. destruct (eval _ w). apply HQ, Hk.
Qed.

(** What arrives of a block, and where it goes. *)
Lemma send_wp log msg r w :
  let l := fgd_data msg in
  let p := param_of stray l in
  let n := Z.to_nat (size p) in
  wp (fg_daemon_send_data stray log msg r) (fun (r' : fgd_nl_msg) (w' : W) =>
    r' = r <| fgd_data := buf_write (fgd_data r) 0 (param_head p) |> /\
    merr w' = merr w || negb (in_bounds stray (KSend log) l (length (fgd_data r)) (bs w)) /\
    region log (bs w') = buf_write (region log (bs w)) (Z.to_nat (idx p)) (take n (drop 12 l) ++ replicate (n - length (take n (drop 12 l))) stray) /\
    vars (bs w') v_fgd_pid = vars (bs w) v_fgd_pid) w.
Proof.
  intros l p n. unfold fg_daemon_send_data. apply wp_bind, param_wp. fold l p. apply wp_bind. eapply wp_mono; [apply put_wp|].
  intros r' w' [-> ->]. cbv zeta. fold n. apply wp_bind, wp_buf_read. fold l. set (d := _ ++ _). set (w1 := mark _ (mark _ (mark _ w))).
  assert (merr w1 = merr w || negb (Nat.leb 12 (length l)) || negb (Nat.leb 12 (length (fgd_data r))) || out_of_bounds l 12 n) as E1
    by (unfold w1; rewrite !merr_mark, length_param_head, oob_0; done).
  assert (region log (bs w1) = region log (bs w) /\ vars (bs w1) = vars (bs w)) as (R1 & V1)
    by (unfold w1, mark; by repeat case_match).
  assert (forall lg : list Z, lg = region log (bs w) ->
    merr w1 || out_of_bounds lg (Z.to_nat (idx p)) n = merr w || negb (in_bounds stray (KSend log) l (length (fgd_data r)) (bs w))) as E2.
  { intros lg ->. rewrite E1. unfold in_bounds. fold p n. fold (region log (bs w)). rewrite !negb_andb, !negb_involutive, !orb_assoc. done. }
  destruct log; cbn [region] in *.
  - apply wp_bind, wp_bind, wp_bind, wp_gets, wp_check. set (w2 := mark _ w1). apply wp_bind, wp_mods, wp_bind, wp_gets.
    set (w3 := upd_field _ w2). apply metrics_wp. intros w4 H4. injection H4 as M4 L4 P4. apply wp_ret. split_and!; [done| | |].
    + rewrite M4, <- (E2 _ R1), <- merr_mark. done.
    + rewrite L4. transitivity (buf_write (fg_log_data (bs w2)) (Z.to_nat (idx p)) d); [done|]. unfold w2. rewrite (region_mark true _ w1 : fg_log_data _ = fg_log_data _). by rewrite R1.
    + rewrite P4, <- V1. transitivity (vars (bs w2) v_fgd_pid); [done|]. unfold w2. by rewrite vars_mark.
  - apply wp_bind, wp_bind, wp_bind, wp_gets, wp_check, wp_mods, wp_ret. split_and!; try done.
    + rewrite <- (E2 _ R1), <- merr_mark. done.
    + transitivity (buf_write (fg_data (bs w1)) (Z.to_nat (idx p)) d); [|by rewrite R1]. by destruct (out_of_bounds (fg_data (bs w1)) (Z.to_nat (idx p)) n).
    + rewrite <- V1. by destruct (out_of_bounds (fg_data (bs w1)) (Z.to_nat (idx p)) n).
Qed.

Lemma oob_reply (l : list Z) n : out_of_bounds l 0 12 || out_of_bounds l 12 n = negb (Nat.leb (12 + n) (length l)).
Proof.
  rewrite oob_0. unfold out_of_bounds. destruct n as [|n].
  - cbn [Nat.ltb Nat.leb andb]. by rewrite orb_false_r.
  - change (Nat.ltb 0 (S n)) with true. cbn [andb].
    destruct (Nat.leb_spec 12 (length l)), (Nat.ltb_spec (length l) (12 + S n)), (Nat.leb_spec (12 + S n) (length l)); cbn [negb orb]; try done; lia.
Qed.

(** What is copied of an object, and into what. *)
Lemma block_wp table msg r w :
  let l := fgd_data msg in
  let p := param_of stray l in
  let n := Z.to_nat (size p) in
  let got := take n (drop (Z.to_nat (idx p)) (source table (bs w))) in
  wp (fg_daemon_get_data stray table msg r) (fun (r' : fgd_nl_msg) (w' : W) =>
    r' = r <| fgd_data := buf_write (buf_write (fgd_data r) 0 (param_head p)) 12 (got ++ replicate (n - length got) stray) |> /\
    w' = mark (negb (in_bounds stray (KBlock table) l (length (fgd_data r)) (bs w))) w) w.
Proof.
  intros l p n got. unfold fg_daemon_get_data. apply wp_bind, param_wp. fold l p. apply wp_bind. eapply wp_mono; [apply put_wp|].
  intros r' w' [-> ->]. cbv zeta. fold n. apply wp_bind, wp_gets. rewrite length_param_head.
  set (w1 := mark _ (mark _ w)). fold (source table (bs w1)).
  assert (source table (bs w1) = source table (bs w)) as R1 by (unfold w1; by rewrite !source_mark). rewrite R1.
  apply wp_bind, wp_buf_read, wp_bind, wp_check, wp_ret. split; [done|]. cbn [fgd_data upd_field].
  assert (out_of_bounds (buf_write (fgd_data r) 0 (param_head p)) 12 n = out_of_bounds (fgd_data r) 12 n) as -> by (unfold out_of_bounds; by rewrite length_buf_write).
  unfold in_bounds. fold p n (source table (bs w)). rewrite !negb_andb, !negb_involutive, <- oob_reply. unfold w1.
  destruct (Nat.leb 12 (length l)), (out_of_bounds (fgd_data r) 0 12), (out_of_bounds (fgd_data r) 12 n), (out_of_bounds (source table (bs w)) (Z.to_nat (idx p)) n); reflexivity.
Qed.

Lemma send_piece log msg r w : fgd_data_len r = 0 ->
  piece 0 (in_bounds stray (KSend log) (fgd_data msg) (length (fgd_data r)) (bs w)) (fg_daemon_send_data stray log msg) r w.
Proof.
  intros Hr. eapply wp_mono; [apply send_wp|]. cbv zeta. intros r' w' (-> & Hm & _). split; [|done].
  split; [|apply length_buf_write]. destruct r; cbn in *; by subst.
Qed.
Lemma block_piece table msg r w : fgd_data_len r = 0 ->
  piece 2060 (in_bounds stray (KBlock table) (fgd_data msg) (length (fgd_data r)) (bs w))
    (fun r => fg_cmd_check msg ;;; let! r := fg_daemon_get_data stray table msg r in ret (r <| fgd_data_len := 12 + DATA_SIZE |>)) r w.
Proof.
  intros Hr. assert (keeps (fun w : W => bs w) (fg_cmd_check msg)) as Hq by (apply keeps_when, (keeps_bs (fun b => b))). apply wp_bind. unfold wp at 1.
  specialize (Hq w). cbn beta in Hq. apply wp_bind. eapply wp_mono; [apply block_wp|]. cbv zeta. intros r' w' (-> & ->). apply wp_ret. rewrite Hq, merr_mark, Hq. split; [|done].
  split; [destruct r; cbn in *; by subst|]. cbn [fgd_data upd_field]. by rewrite !length_buf_write.
Qed.

Lemma spec_blocks c msg f : daemon_blocks stray c msg = Some f -> spec c msg f.
Proof.
  intros H. destruct c; try discriminate H; injection H as <-; intros r w Hr; cbn [kind_of reply_len];
    try (by apply send_piece); try (by apply block_piece); unfold in_bounds.
  - assert (quiet (fg_cmd_check msg)) as Hq by solve_quiet. unfold does. split; [rewrite eval_bind, eval_ret; by apply shape_refl|]. rewrite !exec_bind, exec_ret.
    unfold print_string. rewrite (print_merr _ (fun s => liftb (be_print s))) by (intros ?; apply (keeps_bs mem_error)). by rewrite (Hq w).
  - unfold does. split; [rewrite eval_bind, eval_ret; by apply shape_refl|]. rewrite !exec_bind, exec_ret. unfold dump_log.
    apply (print_merr _ (fun s => for_each (log_pieces (length s) s) (fun x => liftb (be_print x)))).
    intros x. apply keeps_for_each. intros y. apply (keeps_bs mem_error).
Qed.

(** Every command, by the part of the [switch] that it is in. *)
Lemma command_spec c msg f : command undef stray c msg = Some f -> spec c msg f.
Proof.
  unfold command. cbn [foldr]. intros H.
  repeat match type of H with
    | match ?x with _ => _ end = _ => let E' := fresh "E'" in destruct x eqn:E'; [injection H as ->|]
    end;
  try discriminate; eauto using spec_boot, spec_readings, spec_gaps, spec_battery, spec_current, spec_cycle, spec_shown, spec_stored, spec_blocks, spec_counters, spec_results.
Qed.
Lemma command_some c msg : is_Some (command undef stray c msg) <-> kind_of c <> KBad.
Proof. destruct c; cbn; split; intros H; try done; try (by destruct H); eauto. Qed.

(** The kind of a message. *)
Definition kind_msg (m : fgd_nl_msg) : kind := default KBad (kind_of <$> cmd_of (fgd_cmd m)).
Definition echoed (m r : fgd_nl_msg) : fgd_nl_msg := r <| nl_cmd := nl_cmd m |> <| fgd_cmd := fgd_cmd m |>.

Lemma handler_spec m r w : fgd_data_len r = 0 ->
  wp (handler m r) (fun r' w' => shape (reply_len (kind_msg m)) (echoed m r) r' /\
    merr w' = merr w || negb (in_bounds stray (kind_msg m) (fgd_data m) (length (fgd_data r)) (bs w))) w.
Proof.
  intros Hr. unfold mtk_battery_daemon_handler, kind_msg. fold (echoed m r).
  assert (forall w' : W, merr w' = merr w -> wp ((let! n := getv v_badcmd in setv v_badcmd (s32 (n + 1))) ;;; ret (echoed m r))
    (fun r' (w'' : W) => shape 0 (echoed m r) r' /\ merr w'' = merr w || negb true) w') as Hbad.
  { intros w' Hw. split; [by apply shape_refl|]. rewrite orb_false_r, <- Hw. reflexivity. }
  destruct (cmd_of (fgd_cmd m)) as [c|]; cbn [mbind option_bind fmap option_fmap option_map default from_option]; [|by apply Hbad].
  destruct (command undef stray c m) as [f|] eqn:Ec.
  - by apply (command_spec c m f Ec (echoed m r) w).
  - destruct (kind_of c) eqn:Ek; try (exfalso; destruct (proj2 (command_some c m)); [by rewrite Ek|congruence]). by apply Hbad.
Qed.

(** The bytes of a reply, and sending it. *)
Definition sent_bytes (r : fgd_nl_msg) : list Z :=
  let n := Z.to_nat (fgd_data_len r) in
  header (r <| identity := FGD_NL_MAGIC |>) ++ take n (fgd_data r) ++ replicate (n - length (fgd_data r)) stray.
Lemma length_sent r : length (sent_bytes r) = (32 + Z.to_nat (fgd_data_len r))%nat.
Proof. unfold sent_bytes. rewrite !length_app, length_header, length_take, length_replicate. lia. Qed.
Lemma send_run seq r w :
  let w' := exec (mtk_battery_send_to_user stray seq r) w in
  be w' = exec (be_unicast (vars (bs w) v_fgd_pid) seq (sent_bytes r)) (be w) /\
  bs w' = bs (mark (Nat.ltb (length (fgd_data r)) (Z.to_nat (fgd_data_len r))) w).
Proof.
  cbv zeta. unfold mtk_battery_send_to_user. rewrite exec_bind. change (exec (getv v_fgd_pid) w) with w. change (eval (getv v_fgd_pid) w) with (vars (bs w) v_fgd_pid).
  cbv zeta. rewrite exec_bind, exec_when. change (fgd_data (upd_field _ r)) with (fgd_data r). change (fgd_data_len (upd_field _ r)) with (fgd_data_len r).
  unfold mark. destruct (Nat.ltb _ _); unfold exec, liftb; cbn [fst snd]; match goal with |- context [be_unicast ?a ?b ?c ?d] => destruct (be_unicast a b c d) eqn:Eu end; cbn in *;
    rewrite ?Eu; split; try done; unfold sent_bytes; cbn in *; by rewrite Eu.
Qed.

(** A buffer of the reply for [m]. *)
Definition reply_room (m : fgd_nl_msg) : nat := Z.to_nat (fgd_ret_data_len m).

(** C26: every message that is taken is answered, once its command is done, with
    one message to the daemon (to the process that registers, if that was the
    command): it repeats the command's number, says how long its data is, and that
    length is the one of the command: 4 bytes for a value, 1 for the flag, 2060
    for a block, none for the rest. Four commands that put a value into the reply
    (FG_DAEMON_CMD_GET_NCAR, GET_CURR_1, GET_CURR_2 and GET_IS_AGING_RESET) are
    among the rest: they forget the length, and the value is not sent. *)
Theorem messages_answered pid seq m (w : W) : wf_msg m -> accepted pid m (bs w) = true ->
  let w1 := exec (handler m (empty_reply m)) w in
  let r := eval (handler m (empty_reply m)) w in
  let w' := exec (netlink pid seq (header m ++ fgd_data m)) w in
  be w' = exec (be_unicast (vars (bs w1) v_fgd_pid) seq (sent_bytes r)) (be w1) /\ vars (bs w') = vars (bs w1) /\
  nl_cmd r = nl_cmd m /\ fgd_cmd r = fgd_cmd m /\ fgd_data_len r = reply_len (kind_msg m) /\
  Z.of_nat (length (sent_bytes r)) = 32 + reply_len (kind_msg m).
Proof.
  intros Hm Ha w1 r w'. subst w'. rewrite netlink_run, Ha by done. fold w1 r. destruct (send_run seq r w1) as [B1 B2].
  destruct (handler_spec m (empty_reply m) w eq_refl) as [[Hs Hl] _]. fold r in Hs, Hl.
  assert (fgd_data_len r = reply_len (kind_msg m)) as Ek by (by rewrite Hs).
  split; [done|]. split; [by rewrite B2, vars_mark|]. split; [by rewrite Hs|]. split; [by rewrite Hs|]. split; [done|].
  rewrite length_sent, Ek. destruct (kind_msg m); reflexivity.
Qed.

Lemma netlink_merr pid seq m (w : W) : wf_msg m -> accepted pid m (bs w) = true ->
  merr (exec (netlink pid seq (header m ++ fgd_data m)) w) =
    merr w || negb (in_bounds stray (kind_msg m) (fgd_data m) (reply_room m) (bs w) && (reply_len (kind_msg m) <=? fgd_ret_data_len m)).
Proof.
  intros Hm Ha. rewrite netlink_run, Ha by done. destruct (handler_spec m (empty_reply m) w eq_refl) as [[Hs Hl] He].
  assert (fgd_data_len (eval (handler m (empty_reply m)) w) = reply_len (kind_msg m)) as Ek by (by rewrite Hs).
  rewrite send_merr, He, Ek, Hl. change (fgd_data (echoed m (empty_reply m))) with (replicate (Z.to_nat (fgd_ret_data_len m)) 0).
  cbn [fgd_data]. rewrite length_replicate. fold (reply_room m).
  rewrite negb_andb, orb_assoc. f_equal. unfold reply_room. pose proof (wm_ret m Hm) as Hret. unfold is_u32 in Hret.
  assert (0 <= reply_len (kind_msg m)) by (destruct (kind_msg m); cbn; lia).
  destruct (Nat.ltb_spec (Z.to_nat (fgd_ret_data_len m)) (Z.to_nat (reply_len (kind_msg m)))), (Z.leb_spec (reply_len (kind_msg m)) (fgd_ret_data_len m)); cbn; try done; lia.
Qed.

(** C14: a message that is taken (with a whole header, and asking for a reply of
    at most 9200 bytes) accesses memory outside the message, outside the buffer of
    the reply, of the size that the sender asks for, or outside the objects of the
    kernel exactly if its command needs more than there is: the code compares none
    of the other lengths, places and sizes that it carries with what there is. *)
Theorem memory_exact pid seq m (w : W) : wf_msg m -> accepted pid m (bs w) = true ->
  merr (exec (netlink pid seq (header m ++ fgd_data m)) w) =
    merr w || negb (in_bounds stray (kind_msg m) (fgd_data m) (reply_room m) (bs w) && (reply_len (kind_msg m) <=? fgd_ret_data_len m)).
Proof. apply netlink_merr. Qed.

(** ** Blocks of data *)

Lemma param_parse p d : is_u32 (total_size p) -> is_u32 (size p) -> is_u32 (idx p) -> param_of stray (param_head p ++ d) = p.
Proof.
  intros H1 H2 H3. destruct p as [t s i]. cbn in H1, H2, H3. unfold param_of. f_equal;
    (match goal with |- le_value _ = ?x => transitivity (le_value (le_bytes 4 x)); [reflexivity|by apply le_value_u32] end).
Qed.

(** The message that sends the bytes [d] for the place [off]. *)
Definition block_msg (log : bool) (total off : Z) (d : list Z) : fgd_nl_msg :=
  mk_msg 0 (if log then 5 else 4) 0 0 0 0 12 FGD_NL_MAGIC (param_head (mk_param_4 total (Z.of_nat (length d)) off) ++ d).
(** The bytes [ds] in turn. *)
Fixpoint send_blocks (pid : Z) (log : bool) (total off : Z) (ds : list (list Z)) : M W unit :=
  match ds with
  | [] => ret tt
  | d :: ds' =>
      let m := block_msg log total off d in
      netlink pid 0 (header m ++ fgd_data m) ;;; send_blocks pid log total (off + Z.of_nat (length d)) ds'
  end.

Lemma block_handler log total off d r :
  handler (block_msg log total off d) r = fg_daemon_send_data stray log (block_msg log total off d) (echoed (block_msg log total off d) r).
Proof. by destruct log. Qed.
Lemma block_wf log total off d : wf_msg (block_msg log total off d).
Proof. constructor; destruct log; cbn; unfold is_u32, FGD_NL_MAGIC; lia. Qed.

Lemma oob_fits (l : list Z) off n : (off + n <= length l)%nat -> out_of_bounds l off n = false.
Proof. intros H. unfold out_of_bounds. destruct (Nat.ltb_spec (length l) (off + n)); [lia|apply andb_false_r]. Qed.

(** One block, after the ones before it. *)
Lemma block_step pid log total pre old d w :
  vars (bs w) v_fgd_pid = pid -> region log (bs w) = pre ++ old -> (length d <= length old)%nat -> Z.of_nat (length (pre ++ old)) < 2 ^ 32 -> is_u32 total ->
  let m := block_msg log total (Z.of_nat (length pre)) d in
  let w' := exec (netlink pid 0 (header m ++ fgd_data m)) w in
  region log (bs w') = pre ++ d ++ drop (length d) old /\ merr w' = merr w /\ vars (bs w') v_fgd_pid = pid.
Proof.
  intros Hp Hr Hd Hl Ht m w'. subst w'. rewrite length_app in Hl. rewrite netlink_run by apply block_wf.
  assert (accepted pid m (bs w) = true) as -> by (unfold accepted; rewrite Hp, !Z.eqb_refl; reflexivity).
  pose proof (send_wp log m (echoed m (empty_reply m)) w) as Hw. unfold wp in Hw.
  pose proof (block_handler log total (Z.of_nat (length pre)) d (empty_reply m)) as Hh. fold m in Hh. rewrite <- Hh in Hw. clear Hh.
  set (w1 := exec (handler m (empty_reply m)) w) in *. set (r := eval (handler m (empty_reply m)) w) in *.
  change (fgd_data m) with (param_head (mk_param_4 total (Z.of_nat (length d)) (Z.of_nat (length pre))) ++ d) in Hw.
  assert (param_of stray (param_head (mk_param_4 total (Z.of_nat (length d)) (Z.of_nat (length pre))) ++ d) = mk_param_4 total (Z.of_nat (length d)) (Z.of_nat (length pre))) as Ep
    by (apply param_parse; cbn; unfold is_u32 in *; lia).
  unfold in_bounds in Hw. rewrite Ep in Hw. cbn [size idx] in Hw. rewrite !Nat2Z.id in Hw. destruct Hw as (Er & Em & Eg & Ev).
  rewrite drop_app_length' in Eg by reflexivity. rewrite take_ge in Eg by lia. rewrite Nat.sub_diag, app_nil_r, Hr, buf_write_at in Eg by done.
  fold (region log (bs w)) in Em. rewrite Hr, length_app, length_param_head in Em. rewrite !oob_fits in Em by (rewrite ?length_app, ?length_param_head; lia).
  change (length (fgd_data (echoed m (empty_reply m)))) with 12%nat in Em. cbn in Em. rewrite orb_false_r in Em.
  destruct (send_run 0 r w1) as [_ B]. rewrite B. rewrite region_mark, vars_mark, merr_mark, Eg, Em, Ev, Hp.
  assert (fgd_data_len r = 0) as -> by (by rewrite Er). cbn. rewrite orb_false_r. done.
Qed.

(** C15: the data that the daemon sends in blocks arrives as it was sent: blocks that
    follow one another and together have the size of the object, of any sizes,
    leave in it their bytes in order, and no access is outside. *)
Theorem blocks_arrive pid log ds (w : W) :
  vars (bs w) v_fgd_pid = pid -> length (concat ds) = length (region log (bs w)) -> Z.of_nat (length (concat ds)) < 2 ^ 32 ->
  let w' := exec (send_blocks pid log (Z.of_nat (length (concat ds))) 0 ds) w in
  region log (bs w') = concat ds /\ merr w' = merr w.
Proof.
  intros Hp Hl H32. set (total := Z.of_nat (length (concat ds))). assert (is_u32 total) as Ht by (unfold is_u32, total; lia). clearbody total.
  assert (forall pre old w, vars (bs w) v_fgd_pid = pid -> region log (bs w) = pre ++ old -> length (concat ds) = length old -> Z.of_nat (length (pre ++ old)) < 2 ^ 32 ->
    region log (bs (exec (send_blocks pid log total (Z.of_nat (length pre)) ds) w)) = pre ++ concat ds /\ merr (exec (send_blocks pid log total (Z.of_nat (length pre)) ds) w) = merr w) as Hgen.
  { clear w Hp Hl H32. induction ds as [|d ds IH]; intros pre old w Hp Hr Hl H32; cbn [send_blocks concat] in *.
    - destruct old; [|done]. rewrite exec_ret. done.
    - rewrite length_app in Hl. rewrite exec_bind. destruct (block_step pid log total pre old d w Hp Hr ltac:(lia) H32 Ht) as (R1 & M1 & P1).
      set (w1 := exec _ w) in *. destruct (IH (pre ++ d) (drop (length d) old) w1 P1) as [R2 M2].
      + by rewrite R1, app_assoc.
      + rewrite length_drop. lia.
      + rewrite !length_app, length_drop in *. lia.
      + rewrite length_app, Nat2Z.inj_add in R2, M2. rewrite R2, M2, M1, <- app_assoc. done. }
  apply (Hgen [] (region log (bs w)) w Hp eq_refl Hl). cbn. by rewrite <- Hl.
Qed.

(** The message that asks for [n] bytes of the custom data from the place [off],
    with room for [room] bytes. *)
Definition read_msg (off n room : Z) : fgd_nl_msg :=
  mk_msg 0 2 0 0 32 0 room FGD_NL_MAGIC (param_head (mk_param_4 664 n off)).

Lemma read_sent pid off n room w :
  vars (bs w) v_fgd_pid = pid -> 0 <= off -> 0 <= n -> off + n <= 664 -> 12 + n <= room <= FGD_NL_MSG_MAX_LEN ->
  let m := read_msg off n room in
  let got := take (Z.to_nat n) (drop (Z.to_nat off) (cust_bytes (bs w))) in
  let w' := exec (netlink pid 0 (header m ++ fgd_data m)) w in
  exists h, length h = 44%nat /\
  be w' = exec (be_unicast pid 0
    (h ++ take 2048 (got ++ replicate (Z.to_nat (room - 12 - n)) 0) ++ replicate (Z.to_nat (2060 - room)) stray)) (be w).
Proof.
  intros Hp H0 Hn Hin Hroom m got w'. unfold FGD_NL_MSG_MAX_LEN in Hroom.
  assert (wf_msg m) as Hm by (constructor; cbn; unfold is_u32, FGD_NL_MAGIC; lia).
  subst w'. rewrite netlink_run by done.
  assert (accepted pid m (bs w) = true) as -> by (unfold accepted; rewrite Hp, !Z.eqb_refl; cbn; apply Z.leb_le; unfold FGD_NL_MSG_MAX_LEN; lia).
  set (p := mk_param_4 664 n off).
  assert (param_of stray (fgd_data m) = p) as Ep
    by (change (fgd_data m) with (param_head p); rewrite <- (app_nil_r (param_head p)); apply param_parse; cbn; unfold is_u32; lia).
  pose proof (block_wp false m (echoed m (empty_reply m)) w) as Hw. cbv zeta in Hw. rewrite Ep in Hw. cbn [size idx p source] in Hw. fold got in Hw.
  assert (length got = Z.to_nat n) as Lg by (unfold got; rewrite length_take, length_drop, length_cust_bytes; lia).
  rewrite Lg, Nat.sub_diag, app_nil_r in Hw. destruct Hw as [Er Ew].
  assert (handler m (empty_reply m) = (let! r := fg_daemon_get_data stray false m (echoed m (empty_reply m)) in ret (r <| fgd_data_len := 12 + DATA_SIZE |>))) as Eh
    by reflexivity.
  rewrite Eh, eval_bind, exec_bind, Er, Ew, eval_ret, exec_ret. clear Eh Er Ew.
  set (r := upd_field (f := fgd_data_len) _ _).
  assert (fgd_data r = param_head p ++ got ++ replicate (Z.to_nat (room - 12 - n)) 0) as Ed.
  { change (fgd_data r) with (buf_write (buf_write (replicate (Z.to_nat room) 0) 0 (param_head p)) 12 got).
    pose proof (buf_write_at [] (replicate (Z.to_nat room) 0) (param_head p)) as E1. cbn [app length] in E1.
    rewrite E1 by (rewrite length_replicate, length_param_head; lia). rewrite length_param_head, drop_replicate. change 12%nat with (length (param_head p)) at 2.
    rewrite buf_write_at by (rewrite length_replicate; lia). rewrite drop_replicate. do 2 f_equal. f_equal. lia. }
  destruct (send_run 0 r (mark (negb (in_bounds stray (KBlock false) (fgd_data m) (length (fgd_data (echoed m (empty_reply m)))) (bs w))) w)) as [B _].
  rewrite B, vars_mark, Hp. exists (header (r <| identity := FGD_NL_MAGIC |>) ++ param_head p). split; [reflexivity|].
  unfold sent_bytes. change (fgd_data_len r) with 2060. rewrite Ed, !length_app, Lg, length_replicate, length_param_head. rewrite <- app_assoc.
  rewrite take_app, length_param_head. rewrite (take_ge (param_head p)) by (rewrite length_param_head; lia).
  change (Z.to_nat 2060 - 12)%nat with 2048%nat.
  replace (Z.to_nat 2060 - (12 + (Z.to_nat n + Z.to_nat (room - 12 - n))))%nat with (Z.to_nat (2060 - room)) by lia.
  rewrite <- app_assoc. unfold mark. by destruct (negb _).
Qed.

(** The daemon reads a field of the custom data at the field's place: it gets
    the bytes of the value that the kernel holds, if it asked for room for a block. *)
Theorem custom_field_read pid f room (w : W) :
  vars (bs w) v_fgd_pid = pid -> 2060 <= room <= FGD_NL_MSG_MAX_LEN ->
  let m := read_msg (4 * Z.of_nat (cust_idx f)) 4 room in
  let w' := exec (netlink pid 0 (header m ++ fgd_data m)) w in
  exists l, be w' = exec (be_unicast pid 0 l) (be w) /\ length l = 2092%nat /\ take 4 (drop 44 l) = le_bytes 4 (cust_value (bs w) f).
Proof.
  intros Hp Hroom m w'. assert (cust_idx f < 166)%nat as Hi by (destruct f; cbn; lia).
  destruct (read_sent pid (4 * Z.of_nat (cust_idx f)) 4 room w Hp) as (h & Hh & B); [lia..|]. fold m w' in B. eexists. split; [exact B|].
  assert (take (Z.to_nat 4) (drop (Z.to_nat (4 * Z.of_nat (cust_idx f))) (cust_bytes (bs w))) = le_bytes 4 (cust_value (bs w) f)) as Eg
    by (destruct f; reflexivity).
  rewrite Eg. replace (Z.to_nat (2060 - room)) with 0%nat by lia. rewrite app_nil_r. split.
  - rewrite length_app, length_take, length_app, length_replicate, Hh, length_le_bytes. lia.
  - rewrite <- Hh, drop_app_length, take_take. rewrite take_app_length'; [done|]. by rewrite length_le_bytes.
Qed.

(** If the daemon asks for less room than a block has, the kernel still sends a
    block: what follows the buffer in the kernel's memory goes to the process, as
    many bytes as are missing. *)
Theorem short_room_leaks pid off n room (w : W) :
  vars (bs w) v_fgd_pid = pid -> 0 <= off -> 0 <= n -> off + n <= 664 -> 12 + n <= room < 2060 ->
  let m := read_msg off n room in
  let w' := exec (netlink pid 0 (header m ++ fgd_data m)) w in
  exists l, be w' = exec (be_unicast pid 0 (l ++ replicate (Z.to_nat (2060 - room)) stray)) (be w) /\ merr w' = true.
Proof.
  intros Hp H0 Hn Hin Hroom m w'. destruct (read_sent pid off n room w Hp) as (h & _ & B); [unfold FGD_NL_MSG_MAX_LEN; lia..|]. fold m w' in B.
  eexists. split; [rewrite B, app_assoc; reflexivity|]. subst w'. unfold FGD_NL_MSG_MAX_LEN in *.
  rewrite netlink_merr; [|constructor; cbn; unfold is_u32, FGD_NL_MAGIC; lia|unfold accepted; rewrite Hp, !Z.eqb_refl; cbn; apply Z.leb_le; unfold FGD_NL_MSG_MAX_LEN; lia].
  change (reply_len (kind_msg m)) with 2060. change (fgd_ret_data_len m) with room.
  rewrite (proj2 (Z.leb_gt 2060 room)) by lia. by rewrite andb_false_r, orb_true_r.
Qed.
End Daemon.

(** ** Answers that are lost *)

Section Lost.
  Context {E : Type} `{!BattEnv E} (undef stray : Z).
  Abbreviation W := (mworld E).

Definition aging_msg (room : Z) : fgd_nl_msg := mk_msg 0 91 0 0 0 0 room FGD_NL_MAGIC [].

(** Asking whether the aging factor was reset clears the mark and sends a header
    without data: the answer is the same whether it was or not, so a reset that the
    user asked for is lost on the first question.  (The cycle's coulomb count and
    the two currents are asked for in the same way, and not sent either.) *)
Theorem aging_reset_lost pid seq room (w : W) :
  vars (bs w) v_fgd_pid = pid -> 4 <= room <= FGD_NL_MSG_MAX_LEN ->
  let m := aging_msg room in
  let w' := exec (mtk_battery_netlink_handler undef stray pid seq (header m ++ fgd_data m)) w in
  vars (bs w') v_is_reset_aging_factor = 0 /\
  be w' = exec (be_unicast pid seq (header (mk_msg 0 91 0 0 0 0 0 FGD_NL_MAGIC []))) (be w).
Proof.
  intros Hp Hr m w'. subst w'. unfold FGD_NL_MSG_MAX_LEN in Hr. rewrite netlink_run by (constructor; cbn; unfold is_u32, FGD_NL_MAGIC; lia).
  assert (accepted pid m (bs w) = true) as -> by (unfold accepted; rewrite Hp, !Z.eqb_refl; cbn; apply Z.leb_le; unfold FGD_NL_MSG_MAX_LEN; lia).
  set (r0 := mk_msg _ _ _ _ _ _ _ _ _). set (d := le_bytes 4 (vars (bs w) v_is_reset_aging_factor)).
  assert (out_of_bounds (replicate (Z.to_nat room) 0) 0 4 = false) as Ho by (apply oob_fits; rewrite length_replicate; lia).
  assert (mtk_battery_daemon_handler undef stray m r0 w =
    ((echoed m r0) <| fgd_data ::= fun l => buf_write l 0 d |>, exec (setv v_is_reset_aging_factor 0) w)) as Eh.
  { transitivity ((let! r := put d (echoed m r0) in setv v_is_reset_aging_factor 0 ;;; ret r) w); [reflexivity|].
    unfold put, buf_check, bind. change (fgd_data (echoed m r0)) with (replicate (Z.to_nat room) 0). change (length d) with 4%nat.
    by rewrite Ho. }
  set (r := upd_field _ _) in Eh. set (w1 := exec _ w) in Eh.
  assert (eval (mtk_battery_daemon_handler undef stray m r0) w = r) as -> by (unfold eval; by rewrite Eh).
  assert (exec (mtk_battery_daemon_handler undef stray m r0) w = w1) as -> by (unfold exec; by rewrite Eh).
  destruct (send_run stray seq r w1) as [B1 B2]. rewrite B1, B2, vars_mark. split; [reflexivity|]. rewrite <- Hp. reflexivity.
Qed.

(** Once the gauge is initialised the current of a measurement under load is read
    and dropped: the daemon's question for the voltage sets the current that the
    next question answers to 0, whatever flows. *)
Theorem ptim_current_dropped (w : W) :
  vars (bs w) v_init_flag = 1 ->
  let w' := exec (ptim_vbat_cmd undef) w in eval (getv v_ptim_i) w' = 0.
Proof.
  intros Hi. apply (wp_exec _ (fun w' => vars (bs w') v_ptim_i = 0)). unfold ptim_vbat_cmd, gauge_int, gauge_get.
  bwps; cbn in *; rewrite ?Hi in *; try discriminate; done.
Qed.
End Lost.

(** ** What a stranger reaches *)

Section Takeover.
  Context {E : Type} `{!BattEnv E} (off : E -> bool) (alarm : E -> option Z) (clk : E -> Z) `{!BattLaws off alarm clk}.
  Context (undef stray : Z).
  Abbreviation W := (mworld E).

(** A process registers as the daemon, and reports that the battery is too hot. *)
Definition register_msg (pid : Z) : fgd_nl_msg := mk_msg 0 1 0 0 32 0 0 FGD_NL_MAGIC (le_bytes 4 pid).
Definition overheat_msg : fgd_nl_msg := mk_msg 0 65 0 0 0 0 0 FGD_NL_MAGIC (le_bytes 4 OVERHEAT).
Definition speak (pid : Z) (m : fgd_nl_msg) : M W unit := mtk_battery_netlink_handler undef stray pid 0 (header m ++ fgd_data m).

Lemma register_run pid w : is_u32 pid ->
  let w' := exec (speak pid (register_msg pid)) w in vars (bs w') v_fgd_pid = pid /\ sdc (bs w') = sdc (bs w).
Proof.
  intros Hp w'. subst w'. unfold speak. rewrite netlink_run by (constructor; cbn; unfold is_u32, FGD_NL_MAGIC; lia).
  assert (accepted pid (register_msg pid) (bs w) = true) as -> by (unfold accepted; cbn; by rewrite orb_true_r).
  set (r := eval _ w). set (w1 := exec _ w).
  assert (w1 = exec (setv v_fgd_pid (le_value (le_bytes 4 pid))) w) as E1 by reflexivity.
  destruct (send_run stray 0 r w1) as [_ B]. rewrite B, vars_mark, E1. split; [apply le_value_u32; done|]. by destruct (Nat.ltb _ _).
Qed.

Lemma overheat_run pid w : vars (bs w) v_fgd_pid = pid -> shutdown_cond_flag (sdc (bs w)) = 0 ->
  off (be (exec (speak pid overheat_msg) w)) = true.
Proof using BattLaws0.
  intros Hp Hf. unfold speak. rewrite netlink_run by (constructor; cbn; unfold is_u32, FGD_NL_MAGIC; lia).
  assert (accepted pid overheat_msg (bs w) = true) as -> by (unfold accepted; rewrite Hp, !Z.eqb_refl; reflexivity).
  set (r := eval _ w). set (w1 := exec (mtk_battery_daemon_handler _ _ _ _) w). destruct (send_run stray 0 r w1) as [B _]. rewrite B.
  assert (off (be w1) = true) as Ho.
  { unfold w1. match goal with |- off (be (exec (mtk_battery_daemon_handler _ _ _ ?x) _)) = _ =>
      change (mtk_battery_daemon_handler undef stray overheat_msg x) with (takes stray overheat_msg (fun v => ignore (set_shutdown_cond undef stray v)) (echoed overheat_msg x)) end.
    unfold takes. rewrite exec_bind. change (exec (rcv_int stray overheat_msg) w) with w. change (eval (rcv_int stray overheat_msg) w) with OVERHEAT.
    rewrite exec_bind, exec_ret, exec_ignore. apply (wp_exec _ (fun w' => off (be w') = true)).
    unfold set_shutdown_cond, is_kernel_power_off_charging, gauge_int, gauge_get. bwps; cbn in *; rewrite ?Hf in *; try discriminate. apply bl_off. }
  pose proof (bl_unicast (vars (bs w1) v_fgd_pid) 0 (sent_bytes stray r) (be w1)) as [= K1 _ _]. congruence.
Qed.

(** C27: two messages from any process switch the device off, unless the shutdown
    conditions are switched off: registering as the daemon is open to all,
    whatever daemon runs, and the registered process may raise the condition of an
    overheated battery, which powers off at once. *)
Theorem any_process_powers_off pid w :
  is_u32 pid -> shutdown_cond_flag (sdc (bs w)) = 0 ->
  off (be (exec (speak pid (register_msg pid) ;;; speak pid overheat_msg) w)) = true.
Proof using BattLaws0.
  intros Hp Hf. rewrite exec_bind. destruct (register_run pid w Hp) as [P S]. apply overheat_run; [done|]. by rewrite S.
Qed.
End Takeover.

(** ** Runs *)

Module TestDaemon.
Import TestBatt.
(** The daemon has the pid 77; the object for its data has six bytes. *)
Definition device : mworld dev :=
  (exec (setv v_fgd_pid 77 ;;; setv v_c_soc 4711 ;;; setv v_is_reset_aging_factor 1 ;;; setv v_init_flag 1) (world0 3800 100 700))
    <| bs ::= fun b => b <| fg_data := replicate 6 0 |> |>.
Definition vbat_msg : fgd_nl_msg := mk_msg 0 83 0 0 0 0 4 FGD_NL_MAGIC [].
Definition bytes (m : fgd_nl_msg) : list Z := header m ++ fgd_data m.
Abbreviation hear pid m := (exec (mtk_battery_netlink_handler 0 0 pid 5 (bytes m))).
Lemma vbat_wf : wf_msg vbat_msg.
Proof. constructor; cbn; unfold is_u32, FGD_NL_MAGIC; lia. Qed.
End TestDaemon.

Lemma strangers_change_nothing_witness : TestDaemon.hear 78 TestDaemon.vbat_msg TestDaemon.device = TestDaemon.device.
Proof. apply (strangers_change_nothing 0 0 78 5 TestDaemon.vbat_msg TestDaemon.device TestDaemon.vbat_wf). vm_compute. reflexivity. Defined.

Lemma messages_answered_witness :
  let w' := TestDaemon.hear 77 TestDaemon.vbat_msg TestDaemon.device in
  vars (bs w') v_fgd_pid = 77 /\ TestBatt.d_sent (be w') =
    [(77, 5, header (mk_msg 0 83 0 0 0 4 0 FGD_NL_MAGIC []) ++ le_bytes 4 38000)].
Proof.
  pose proof (messages_answered 0 0 77 5 TestDaemon.vbat_msg TestDaemon.device TestDaemon.vbat_wf ltac:(vm_compute; reflexivity)) as H.
  cbv zeta in H |- *. destruct H as (B & V & _). split; [|vm_compute; reflexivity].
  unfold TestDaemon.bytes. rewrite V. vm_compute. reflexivity.
Defined.

Lemma memory_exact_witness :
  mem_error (bs (TestDaemon.hear 77 TestDaemon.vbat_msg TestDaemon.device)) = false /\
  mem_error (bs (TestDaemon.hear 77 (block_msg false 6 6 [1]) TestDaemon.device)) = true.
Proof.
  split.
  - unfold TestDaemon.bytes. rewrite (memory_exact 0 0 77 5 TestDaemon.vbat_msg TestDaemon.device TestDaemon.vbat_wf ltac:(vm_compute; reflexivity)). vm_compute. reflexivity.
  - vm_compute. reflexivity.
Defined.

Lemma blocks_arrive_witness :
  fg_data (bs (exec (send_blocks 0 0 77 false 6 0 [[1; 2]; [3; 4; 5]; [6]]) TestDaemon.device)) = [1; 2; 3; 4; 5; 6].
Proof. apply (blocks_arrive 0 0 77 false [[1; 2]; [3; 4; 5]; [6]] TestDaemon.device); vm_compute; reflexivity. Defined.

Lemma custom_field_read_witness :
  let m := read_msg (4 * Z.of_nat (cust_idx cf_c_soc)) 4 2060 in
  exists l, be (exec (mtk_battery_netlink_handler 0 0 77 0 (TestDaemon.bytes m)) TestDaemon.device) = exec (be_unicast 77 0 l) (be TestDaemon.device) /\
    length l = 2092%nat /\ take 4 (drop 44 l) = le_bytes 4 4711.
Proof. apply (custom_field_read 0 0 77 cf_c_soc 2060 TestDaemon.device); [reflexivity|unfold FGD_NL_MSG_MAX_LEN; lia]. Defined.

Lemma short_room_leaks_witness :
  let m := read_msg 0 4 16 in
  exists l, be (exec (mtk_battery_netlink_handler 0 170 77 0 (TestDaemon.bytes m)) TestDaemon.device) =
      exec (be_unicast 77 0 (l ++ replicate 2044 170)) (be TestDaemon.device) /\
    mem_error (bs (exec (mtk_battery_netlink_handler 0 170 77 0 (TestDaemon.bytes m)) TestDaemon.device)) = true.
Proof. apply (short_room_leaks 0 170 77 0 4 16 TestDaemon.device); [reflexivity|lia..]. Defined.

Lemma aging_reset_lost_witness :
  let w' := TestDaemon.hear 77 (aging_msg 4) TestDaemon.device in
  vars (bs TestDaemon.device) v_is_reset_aging_factor = 1 /\ vars (bs w') v_is_reset_aging_factor = 0.
Proof.
  split; [reflexivity|]. apply (aging_reset_lost 0 0 77 5 4 TestDaemon.device); [reflexivity|unfold FGD_NL_MSG_MAX_LEN; lia].
Defined.

Lemma ptim_current_dropped_witness : eval (getv v_ptim_i) (exec (ptim_vbat_cmd 0) TestDaemon.device) = 0.
Proof. apply (ptim_current_dropped 0 TestDaemon.device). reflexivity. Defined.

Lemma any_process_powers_off_witness :
  TestBatt.d_off (be (exec (speak 0 0 99 (register_msg 99) ;;; speak 0 0 99 overheat_msg) TestDaemon.device)) = true.
Proof.
  apply (any_process_powers_off TestBatt.d_off (fun d => TestBatt.d_alarm d kthread_fgtimer) TestBatt.d_clk 0 0 99 TestDaemon.device);
    [unfold is_u32; lia|reflexivity].
Defined.
