(* ===== verification/BatteryIrq.v ===== *)
(** * The battery manager: interrupts, the update thread, suspend (mtk_battery_daemon.c, mtk_battery.c)

    Interrupts of the gauge end in an event for the algorithm, a check of the
    temperature and a check that the battery is there; a thread keeps the
    software's average current and the monitor of the gauge, and looks whether
    the battery is too cold. *)

From S2P Require Import Prelude Coulomb Mt6357 BatteryCust BatteryCore BatteryShutdown.
#[local] Open Scope Z_scope.

Definition EVT_INT_CHR_FULL : Z := 0.
Definition EVT_INT_ZCV : Z := 1.
Definition EVT_INT_BAT_CYCLE : Z := 2.
Definition EVT_INT_IAVG : Z := 3.
Definition EVT_INT_BAT_PLUGOUT : Z := 4.
Definition EVT_INT_NAFG : Z := 5.
Definition EVT_INT_VBAT_L : Z := 10.
Definition EVT_INT_VBAT_H : Z := 11.
Definition EVT_INT_NAFG_CHECK : Z := 12.
Definition FG_KERNEL_CMD_REQ_ALGO_DATA : Z := 6.
Definition POWER_SUPPLY_STATUS_UNKNOWN : Z := 0.
Definition BMLOG_ERROR_LEVEL : Z := 3.
Definition BMLOG_DEBUG_LEVEL : Z := 7.

Section Irq.
  Context {E : Type} `{!BattEnv E} (undef stray : Z).
  Abbreviation W := (mworld E).
  Abbreviation wakeup_algo := (wakeup_algo stray).
  Abbreviation gauge_int := (gauge_int undef).
  Abbreviation force_get_tbat := (force_get_tbat undef).
  Abbreviation battery_update := (battery_update undef).

(** ** Temperature *)

(** The event for a temperature outside of a window. *)
Definition window_event (tmp ht lt up down : Z) : M W unit :=
  if ht <=? tmp then wakeup_algo up else when (tmp <=? lt) (wakeup_algo down).

Definition fg_bat_temp_int_internal : M W unit :=
  let! off := getv v_disableGM30 in
  if z2b off then setv v_bat_batt_temp 25 ;;; battery_update
  else
    let! tmp := force_get_tbat true in
    gauge_put GAUGE_PROP_EN_BAT_TMP_LT 0 ;;;
    gauge_put GAUGE_PROP_EN_BAT_TMP_HT 0 ;;;
    (let! cht := getv v_bat_tmp_c_ht in
     let! clt := getv v_bat_tmp_c_lt in
     window_event tmp cht clt FG_INTR_BAT_TMP_C_HT FG_INTR_BAT_TMP_C_LT) ;;;
    (let! ht := getv v_bat_tmp_ht in
     let! lt := getv v_bat_tmp_lt in
     window_event tmp ht lt FG_INTR_BAT_TMP_HT FG_INTR_BAT_TMP_LT) ;;;
    let! new_ht := TempToBattVolt undef (s32 (tmp + 1)) 1 in
    let! new_lt := TempToBattVolt undef (s32 (tmp - 1)) 0 in
    let! fixed := getv v_fixed_bat_tmp in
    when (fixed =? 0xffff)
      (gauge_put GAUGE_PROP_BAT_TMP_LT_THRESHOLD (s32 new_lt) ;;;
       gauge_put GAUGE_PROP_EN_BAT_TMP_LT 1 ;;;
       gauge_put GAUGE_PROP_BAT_TMP_HT_THRESHOLD (s32 new_ht) ;;;
       gauge_put GAUGE_PROP_EN_BAT_TMP_HT 1) ;;;
    setv v_bat_batt_temp tmp ;;;
    battery_update.

Definition fg_bat_temp_int_sw_check : M W unit :=
  let! tmp := force_get_tbat true in
  let! off := getv v_disableGM30 in
  when (negb (z2b off))
    (let! ht := getv v_bat_tmp_ht in
     let! lt := getv v_bat_tmp_lt in
     when ((ht <=? tmp) || (tmp <=? lt)) fg_bat_temp_int_internal).

Definition fg_int_event (evt : Z) : M W unit :=
  when (negb (evt =? EVT_INT_NAFG_CHECK)) fg_bat_temp_int_sw_check ;;;
  gauge_put GAUGE_PROP_EVENT evt.

(** ** The battery is gone *)

Definition battery_gone : M W unit :=
  setv v_bat_status POWER_SUPPLY_STATUS_UNKNOWN ;;; wakeup_algo FG_INTR_BAT_PLUGOUT ;;; battery_update.

Definition sw_check_bat_plugout : M W unit :=
  let! dis := getv v_disable_plug_int in
  let! off := getv v_disableGM30 in
  when (z2b dis && negb (off =? 1))
    (let! is_bat_exist := gauge_int GAUGE_PROP_BATTERY_EXIST in
     when (is_bat_exist =? 0) (battery_gone ;;; liftb be_power_off)).

(** ** Low battery *)

Definition stop_sw_low : M W unit := setv v_sw_low_battery_ht_en 0 ;;; setv v_sw_low_battery_lt_en 0.

(** [thd] and the thresholds are compared as unsigned numbers. *)
Definition fg_update_sw_low_battery_check (thd : Z) : M W unit :=
  let! t1 := getv v_vbat2_det_voltage1 in
  let! t2 := getv v_vbat2_det_voltage2 in
  let! t3 := getv v_vbat2_det_voltage3 in
  let! ver := gauge_get GAUGE_PROP_HW_VERSION 0 in
  when (snd ver <? GAUGE_HW_V2000)
    (ignore (gauge_int GAUGE_PROP_BATTERY_VOLTAGE) ;;;
     (let! ht := getv v_sw_low_battery_ht_en in
      when ((ht =? 1) && (thd =? u32 (t3 ÷c 10)))
        (stop_sw_low ;;; ignore (disable_shutdown_cond undef LOW_BAT_VOLT) ;;; wakeup_algo FG_INTR_VBAT2_H)) ;;;
     (let! lt := getv v_sw_low_battery_lt_en in
      when ((lt =? 1) && ((thd =? u32 (t1 ÷c 10)) || (thd =? u32 (t2 ÷c 10))))
        (stop_sw_low ;;; wakeup_algo FG_INTR_VBAT2_L))).

Definition vbat_off : M W unit :=
  gauge_put GAUGE_PROP_EN_HIGH_VBAT_INTERRUPT 0 ;;; gauge_put GAUGE_PROP_EN_LOW_VBAT_INTERRUPT 0.

Definition sw_vbat_h_irq_handler : M W unit :=
  vbat_off ;;; ignore (disable_shutdown_cond undef LOW_BAT_VOLT) ;;; wakeup_algo FG_INTR_VBAT2_H ;;;
  fg_int_event EVT_INT_VBAT_H ;;; sw_check_bat_plugout.
Definition sw_vbat_l_irq_handler : M W unit :=
  vbat_off ;;; wakeup_algo FG_INTR_VBAT2_L ;;; fg_int_event EVT_INT_VBAT_L ;;; sw_check_bat_plugout.

(** Nothing is done with the gauge disabled. *)
Definition checked (m : M W unit) : M W unit := let! ok := fg_interrupt_check in when ok m.
Definition vbat_h_irq : M W unit := checked sw_vbat_h_irq_handler.
Definition vbat_l_irq : M W unit := checked sw_vbat_l_irq_handler.

(** ** The other interrupts *)

Definition nafg_irq_handler : M W unit :=
  fg_int_event EVT_INT_NAFG_CHECK ;;;
  let! cnt := gauge_int GAUGE_PROP_NAFG_CNT in
  let! dltv := gauge_int GAUGE_PROP_NAFG_DLTV in
  let! c_dltv := gauge_int GAUGE_PROP_NAFG_C_DLTV in
  setv v_nafg_cnt cnt ;;; setv v_nafg_dltv dltv ;;; setv v_nafg_c_dltv c_dltv ;;;
  ignore (gauge_int GAUGE_PROP_BATTERY_VOLTAGE) ;;;
  gauge_set_nag_en 0 ;;;
  fg_int_event EVT_INT_NAFG ;;;
  wakeup_algo FG_INTR_NAG_C_DLTV ;;;
  let! t := liftb be_clock in setv v_last_nafg_update_time t.
Definition nafg_irq : M W unit := checked nafg_irq_handler.

(** Three interrupts with a battery there switch the interrupt off. *)
Definition bat_plugout_irq : M W unit :=
  let! is_bat_exist := gauge_int GAUGE_PROP_BATTERY_EXIST in
  checked
    (when (is_bat_exist =? 1)
       (fg_int_event EVT_INT_BAT_PLUGOUT ;;;
        (let! n := getv v_plug_miss_count in setv v_plug_miss_count (s32 (n + 1))) ;;;
        let! n := getv v_plug_miss_count in
        when (3 <=? n) (liftb (be_irq BAT_PLUGOUT_IRQ false) ;;; setv v_disable_plug_int 1)) ;;;
     when (is_bat_exist =? 0) (battery_gone ;;; fg_int_event EVT_INT_BAT_PLUGOUT ;;; liftb be_power_off)).

Definition zcv_irq : M W unit :=
  checked
    (ignore (gauge_int GAUGE_PROP_COULOMB) ;;;
     let! cur := gauge_int GAUGE_PROP_ZCV_CURRENT in
     ignore (gauge_int GAUGE_PROP_ZCV) ;;;
     let! avg := getv v_sleep_current_avg in
     when (s32 (Z.abs cur) <? avg) (wakeup_algo FG_INTR_FG_ZCV ;;; gauge_put GAUGE_PROP_ZCV_INTR_EN 0) ;;;
     fg_int_event EVT_INT_ZCV ;;; sw_check_bat_plugout).

Definition cycle_irq : M W unit :=
  checked
    (liftb (be_irq FG_N_CHARGE_L_IRQ false) ;;; wakeup_algo FG_INTR_BAT_CYCLE ;;;
     fg_int_event EVT_INT_BAT_CYCLE ;;; sw_check_bat_plugout).

Definition iavg_irq : M W unit :=
  checked
    (setv v_iavg_intr_flag 0 ;;; liftb (be_irq FG_IAVG_H_IRQ false) ;;; liftb (be_irq FG_IAVG_L_IRQ false) ;;;
     wakeup_algo FG_INTR_IAVG ;;; fg_int_event EVT_INT_IAVG ;;; sw_check_bat_plugout).
Definition iavg_h_irq : M W unit := iavg_irq.
Definition iavg_l_irq : M W unit := iavg_irq.

Definition bat_temp_irq : M W unit := checked fg_bat_temp_int_internal.

(** At most every ten seconds. *)
Definition notify_fg_chr_full : M W unit :=
  let! now := liftb be_clock in
  let! pre := getv v_chr_full_handler_time in
  when ((now <=? 10) || (10 <=? (now - pre) / NSEC_PER_SEC))
    (setv v_chr_full_handler_time now ;;; wakeup_algo FG_INTR_CHR_FULL ;;; fg_int_event EVT_INT_CHR_FULL).

Definition fg_ocv_query_soc (ocv : Z) : M W unit :=
  when (negb ((50000 <? ocv) || (ocv <=? 0)))
    (setv v_algo_req_ocv ocv ;;; ignore (wakeup_fg_algo_cmd stray FG_INTR_KERNEL_CMD FG_KERNEL_CMD_REQ_ALGO_DATA ocv)).

(** ** The average current of the software *)

Definition iavg_window (i : Z) : M W unit :=
  let! gap := getv v_sw_iavg_gap in setv v_sw_iavg_ht (s32 (i + gap)) ;;; setv v_sw_iavg_lt (s32 (i - gap)).

Definition sw_iavg_init : M W unit :=
  (let! t := liftb be_clock in setv v_sw_iavg_time t) ;;;
  (let! c := gauge_int GAUGE_PROP_COULOMB in setv v_sw_iavg_car c) ;;;
  let! i := gauge_int GAUGE_PROP_BATTERY_CURRENT in
  setv v_sw_iavg i ;;; iavg_window i.

Definition fg_update_sw_iavg : M W unit :=
  let! now := liftb be_clock in
  let! last := getv v_sw_iavg_time in
  let secs := (now - last) / NSEC_PER_SEC in
  when (60 <=? secs)
    (let! c := gauge_int GAUGE_PROP_COULOMB in
     let! old := getv v_sw_iavg_car in
     let i := s32 (s32 (s32 (c - old) * 3600) ÷c secs) in
     setv v_sw_iavg i ;;; setv v_sw_iavg_time now ;;; setv v_sw_iavg_car c ;;;
     let! ver := gauge_int GAUGE_PROP_HW_VERSION in
     let! ht := getv v_sw_iavg_ht in
     let! lt := getv v_sw_iavg_lt in
     when ((ht <=? i) || (i <=? lt)) (iavg_window i ;;; when (ver <? GAUGE_HW_V2000) (wakeup_algo FG_INTR_IAVG))).

(** ** The thread *)

Definition fg_nafg_monitor : M W unit :=
  let! off := getv v_disableGM30 in
  let! cmd := getv v_cmd_disable_nafg in
  let! ntc := getv v_ntc_disable_nafg in
  when (negb (z2b off || z2b cmd || z2b ntc))
    (let! cnt := gauge_int GAUGE_PROP_NAFG_CNT in
     let! last := getv v_last_nafg_cnt in
     if negb (last =? cnt) then
       setv v_last_nafg_cnt cnt ;;; let! t := liftb be_clock in setv v_last_nafg_update_time t
     else
       let! now := liftb be_clock in
       let! t := getv v_last_nafg_update_time in
       when (600 <=? (now - t) / NSEC_PER_SEC)
         (setv v_is_nafg_broken 1 ;;; ignore (wakeup_fg_algo_cmd stray FG_INTR_KERNEL_CMD FG_KERNEL_CMD_DISABLE_NAFG 1))).

Definition fg_drv_update_daemon : M W unit :=
  fg_update_sw_iavg ;;; fg_nafg_monitor ;;;
  ignore (gauge_get_average_current undef 0) ;;;
  ignore (wakeup_fg_algo_cmd stray FG_INTR_KERNEL_CMD FG_KERNEL_CMD_DUMP_REGULAR_LOG 0).

Definition timer_secs : M W Z := let! l := getv v_log_level in ret (if BMLOG_DEBUG_LEVEL <=? l then 10 else 60).

(** The readings at the start, the temperature's among them, are arguments of a
    log statement. *)
Definition fg_drv_update_hw_status : M W unit :=
  (let! l := getv v_log_level in
   when (BMLOG_ERROR_LEVEL <=? l)
     (ignore (gauge_int GAUGE_PROP_COULOMB) ;;; ignore (force_get_tbat true) ;;;
      ignore (gauge_int GAUGE_PROP_BATTERY_VOLTAGE) ;;; ignore (gauge_int GAUGE_PROP_BATTERY_CURRENT))) ;;;
  fg_drv_update_daemon ;;;
  (let! a := getv v_algo_active in when (a =? 1) battery_update) ;;;
  (let! t := getv v_tbat_precise in
   let! cold := getv v_min_battery_temp in
   when (t <=? cold) (ignore (set_shutdown_cond undef stray LOW_BATTERY_TEMP))) ;;;
  let! s := timer_secs in liftb (be_hrtimer s).

(** A pass of [battery_update_routine] once it is woken. *)
Definition battery_update_pass : M W unit := setv v_fg_update_flag 0 ;;; fg_drv_update_hw_status.
Definition fg_update_routine_wakeup : M W unit := setv v_fg_update_flag 1.

(** Whether the timer starts again. *)
Definition fg_drv_thread_hrtimer_func : M W bool :=
  let! s := getv v_suspend_active in
  if s =? 0 then fg_update_routine_wakeup ;;; ret false
  else let! t := timer_secs in liftb (be_hrtimer t) ;;; ret true.

(** ** Alarms *)

Definition tracking_timer_work_handler : M W unit := wakeup_algo FG_INTR_FG_TIME.
Definition one_percent_timer_work_handler : M W unit := ignore (wakeup_fg_algo_cmd stray FG_INTR_FG_TIME 0 1).

(** ** Shutdown, suspend, resume *)

Definition mtk_battery_shutdown : M W unit :=
  let! c := gauge_int GAUGE_PROP_COULOMB in
  (let! saved := getv v_d_saved_car in
   when (negb (saved =? 0)) (gauge_put GAUGE_PROP_SHUTDOWN_CAR (s32 (c - saved)))) ;;;
  ignore (gauge_int GAUGE_PROP_SHUTDOWN_CAR).

Definition enable_bat_temp_det (en : bool) : M W unit := gauge_put GAUGE_PROP_BAT_TEMP_FROZE_EN (b2z (negb en)).

(** The interrupts for the average current, off or on. *)
Definition switch_iavg (on : bool) : M W unit :=
  let! ver := gauge_int GAUGE_PROP_HW_VERSION in
  let! flag := getv v_iavg_intr_flag in
  when ((GAUGE_HW_V2000 <=? ver) && (flag =? 1))
    (liftb (be_irq FG_IAVG_H_IRQ on) ;;;
     let! lt := getv v_iavg_lt in when (0 <? lt) (liftb (be_irq FG_IAVG_L_IRQ on))).

Definition mtk_battery_suspend : M W unit :=
  (let! t := getv v_enable_tmp_intr_suspend in
   when (t =? 0)
     (gauge_put GAUGE_PROP_EN_BAT_TMP_LT 0 ;;; gauge_put GAUGE_PROP_EN_BAT_TMP_HT 0 ;;; enable_bat_temp_det false)) ;;;
  switch_iavg false.

Definition mtk_battery_resume : M W unit :=
  switch_iavg true ;;;
  (let! t := liftb be_clock in setv v_last_nafg_update_time t) ;;;
  fg_update_sw_iavg ;;;
  let! t := getv v_enable_tmp_intr_suspend in
  when (t =? 0)
    (gauge_put GAUGE_PROP_EN_BAT_TMP_LT 1 ;;; gauge_put GAUGE_PROP_EN_BAT_TMP_HT 1 ;;; enable_bat_temp_det true).
End Irq.
