(* ===== verification/BatteryIrqSpec.v ===== *)
(** * Interrupts of the battery manager: a battery that is taken out, the average current, the cold

    A battery that is taken out is noticed whatever interrupts came before; the
    average current stays in its window; the check for a battery that is too cold
    looks at an old temperature if nothing is logged. *)

From S2P Require Import Prelude Coulomb Mt6357 BatteryCore BatteryCoreSpec BatteryShutdown BatteryIrq.
#[local] Open Scope Z_scope.

(** ** The environment *)

(** Whether the device was switched off, whether the interrupt for a battery that
    is taken out is on, and whether it was taken out.  The algorithm may switch
    the device off, and nothing switches it on again. *)
Class IrqLaws {E : Type} `{!BattEnv E} (off plug gone : E -> bool) : Prop := {
  il_get : forall p, keeps (fun e => (off e, plug e, gone e)) (be_get p);
  il_set : forall p v, p <> GAUGE_PROP_BAT_PLUGOUT_EN -> keeps (fun e => (off e, plug e, gone e)) (be_set p v);
  il_clock : keeps (fun e => (off e, plug e, gone e)) be_clock;
  il_unicast : forall p s l, keeps (fun e => (off e, plug e, gone e)) (be_unicast p s l);
  il_changed : keeps (fun e => (off e, plug e, gone e)) be_changed;
  il_algo : forall i e, let e' := exec (be_algo i) e in plug e' = plug e /\ gone e' = gone e /\ (off e = true -> off e' = true);
  il_irq : forall i on e, let e' := exec (be_irq i on) e in
    off e' = off e /\ gone e' = gone e /\ plug e' = if bool_decide (i = BAT_PLUGOUT_IRQ) then on else plug e;
  il_off : forall e, let e' := exec be_power_off e in off e' = true /\ plug e' = plug e /\ gone e' = gone e;
  il_exist : forall e, snd (eval (be_get GAUGE_PROP_BATTERY_EXIST) e) = Some (if gone e then 0 else 1)
}.

Section Irq.
  Context {E : Type} `{!BattEnv E} (off plug gone : E -> bool) `{!IrqLaws off plug gone}.
  Context (undef stray : Z).
  Abbreviation W := (mworld E).

(** ** A battery that is taken out *)

(** What a part of a handler may do: the variables of the plug-out check stay, the
    interrupt and the battery stay, and the device does not come back on. *)
Record calm (w w' : W) : Prop := {
  ca_plug : plug (be w') = plug (be w);
  ca_gone : gone (be w') = gone (be w);
  ca_off : off (be w) = true -> off (be w') = true;
  ca_dis : vars (bs w') v_disable_plug_int = vars (bs w) v_disable_plug_int;
  ca_gm : vars (bs w') v_disableGM30 = vars (bs w) v_disableGM30;
  ca_miss : vars (bs w') v_plug_miss_count = vars (bs w) v_plug_miss_count
}.
#[local] Instance calm_refl : Reflexive calm.
Proof. intros w. by constructor. Qed.
#[local] Instance calm_trans : Transitive calm.
Proof. intros w1 w2 w3 [] []. constructor; try congruence; auto. Qed.
Definition calmly {A} (m : M W A) : Prop := forall w, calm w (exec m w).

Lemma calmly_bind {A B} (m : M W A) (k : A -> M W B) : calmly m -> (forall a, calmly (k a)) -> calmly (bind m k).
Proof. intros Hm Hk w. rewrite exec_bind. etransitivity; [apply Hm|apply Hk]. Qed.
Lemma calmly_ret {A} (a : A) : calmly (ret a : M W A).
Proof. intros w. by constructor. Qed.
Lemma calmly_gets {A} (f : W -> A) : calmly (gets f).
Proof. intros w. by constructor. Qed.
Lemma calmly_when b (m : M W unit) : calmly m -> calmly (when b m).
Proof. intros H. destruct b; [apply H|apply calmly_ret]. Qed.
Lemma calmly_ignore {A} (m : M W A) : calmly m -> calmly (ignore m).
Proof. intros H w. rewrite exec_ignore. apply H. Qed.
Lemma calmly_setv v x : bvar_idx v <> bvar_idx v_disable_plug_int -> bvar_idx v <> bvar_idx v_disableGM30 -> bvar_idx v <> bvar_idx v_plug_miss_count -> calmly (setv v x).
Proof.
  intros H1 H2 H3 w. constructor; try done; cbn -[bvar_idx Nat.eqb]; (destruct (Nat.eqb_spec (bvar_idx v_disable_plug_int) (bvar_idx v)) || idtac);
    repeat match goal with |- context [Nat.eqb ?a ?b] => destruct (Nat.eqb_spec a b) end; congruence.
Qed.
Lemma calmly_mods f : (forall b, vars (f b) = vars b) -> calmly (mods f).
Proof. intros H w. constructor; try done; cbn; by rewrite H. Qed.
Lemma calmly_lift {A} (m : M E A) :
  (forall e, let e' := exec m e in plug e' = plug e /\ gone e' = gone e /\ (off e = true -> off e' = true)) -> calmly (liftb m).
Proof. intros H w. specialize (H (be w)). unfold calmly, exec, liftb in *. destruct (m (be w)). destruct H as (H1 & H2 & H3). by constructor. Qed.
Lemma calmly_keeps {A} (m : M E A) : keeps (fun e => (off e, plug e, gone e)) m -> calmly (liftb m).
Proof. intros H. apply calmly_lift. intros e e'. specialize (H e). cbn beta in H. injection H as H1 H2 H3. subst e'. split_and!; congruence. Qed.

Lemma calmly_irq i on : i <> BAT_PLUGOUT_IRQ -> calmly (liftb (be_irq i on)).
Proof using IrqLaws0.
  intros Hi. apply calmly_lift. intros e e'. destruct (il_irq i on e) as (H1 & H2 & H3). subst e'.
  rewrite bool_decide_eq_false_2 in H3 by done. split_and!; congruence.
Qed.
Lemma calmly_put p v : p <> GAUGE_PROP_BAT_PLUGOUT_EN -> calmly (gauge_put p v).
Proof using IrqLaws0. intros H. by apply calmly_keeps, il_set. Qed.
Lemma calmly_off : calmly (liftb be_power_off).
Proof using IrqLaws0. apply calmly_lift. intros e e'. destruct (il_off e) as (? & ? & ?). done. Qed.

Ltac solve_calm :=
  repeat match goal with
    | |- forall _, _ => intro
    | |- calmly (bind _ _) => apply calmly_bind
    | |- calmly (ret _) => apply calmly_ret
    | |- calmly (gets _) => apply calmly_gets
    | |- calmly (getv _) => apply calmly_gets
    | |- calmly (getsd _) => apply calmly_gets
    | |- calmly (ignore _) => apply calmly_ignore
    | |- calmly (when _ _) => apply calmly_when
    | |- calmly (if ?b then _ else _) => destruct b
    | |- calmly (setv _ _) => apply calmly_setv; discriminate
    | |- calmly (mods _) => apply calmly_mods; reflexivity
    | |- calmly (modsd _) => apply (calmly_mods (fun b => b <| sdc ::= _ |>)); reflexivity
    | |- calmly (gauge_put _ _) => apply calmly_put; discriminate
    | |- calmly (liftb (be_get _)) => apply calmly_keeps, il_get
    | |- calmly (liftb be_clock) => apply calmly_keeps, il_clock
    | |- calmly (liftb be_changed) => apply calmly_keeps, il_changed
    | |- calmly (liftb (be_unicast _ _ _)) => apply calmly_keeps, il_unicast
    | |- calmly (liftb (be_algo _)) => apply calmly_lift, il_algo
    | |- calmly (liftb (be_irq _ _)) => apply calmly_irq; discriminate
    | |- calmly (liftb be_power_off) => apply calmly_off
    | |- calmly _ => solve [auto with nocore]
    end.

Lemma calm_wakeup_cmd i c p : calmly (wakeup_fg_algo_cmd stray i c p).
Proof using IrqLaws0.
  unfold wakeup_fg_algo_cmd, wakeup_fg_daemon, mtk_battery_send_to_user, is_algo_active, memory_error. cbv zeta. solve_calm.
Qed.
Lemma calm_wakeup i : calmly (wakeup_algo stray i).
Proof using IrqLaws0. apply calmly_ignore, calm_wakeup_cmd. Qed.
Lemma calm_tbat u : calmly (force_get_tbat undef u).
Proof using IrqLaws0. unfold force_get_tbat, force_get_tbat_internal, volttotemp, temp_drop, gauge_get. cbv zeta. solve_calm. Qed.
#[local] Hint Resolve calm_wakeup_cmd calm_wakeup calm_tbat : core.
Lemma calm_update : calmly (battery_update undef).
Proof using IrqLaws0.
  unfold battery_update, battery_update_psd, is_algo_active, gauge_int, gauge_get. cbv zeta. solve_calm; auto.
Qed.
#[local] Hint Resolve calm_update : core.
Lemma calm_event e : calmly (fg_int_event undef stray e).
Proof using IrqLaws0.
  unfold fg_int_event, fg_bat_temp_int_sw_check, fg_bat_temp_int_internal, window_event, TempToBattVolt, temp_drop, gauge_int, gauge_get. cbv zeta.
  solve_calm; auto.
Qed.
Lemma calm_temp : calmly (fg_bat_temp_int_internal undef stray).
Proof using IrqLaws0.
  unfold fg_bat_temp_int_internal, window_event, TempToBattVolt, temp_drop, gauge_int, gauge_get. cbv zeta. solve_calm; auto.
Qed.
Lemma calm_gone : calmly (battery_gone undef stray).
Proof using IrqLaws0. unfold battery_gone. solve_calm; auto. Qed.
#[local] Hint Resolve calm_event calm_temp calm_gone : core.
Lemma calm_plugout : calmly (sw_check_bat_plugout undef stray).
Proof using IrqLaws0. unfold sw_check_bat_plugout, gauge_int, gauge_get. solve_calm; auto. Qed.
#[local] Hint Resolve calm_plugout : core.

Lemma checked_run (m : M W unit) w : vars (bs w) v_disableGM30 = 0 -> exec (checked m) w = exec m w.
Proof. intros H. unfold checked, fg_interrupt_check. rewrite !exec_bind, eval_bind. cbn. by rewrite H. Qed.

(** The battery is gone, and the interrupt for that is not relied on. *)
Record alarmed (w : W) : Prop := {
  al_gone : gone (be w) = true;
  al_dis : vars (bs w) v_disable_plug_int = 1;
  al_gm : vars (bs w) v_disableGM30 = 0
}.
Lemma alarmed_calm w w' : calm w w' -> alarmed w -> alarmed w'.
Proof. intros [] []. constructor; congruence. Qed.
Definition ends (m : M W unit) : Prop := forall w, alarmed w -> off (be (exec m w)) = true.
Lemma ends_bind {A} (m : M W A) (k : A -> M W unit) : calmly m -> (forall a, ends (k a)) -> ends (bind m k).
Proof. intros Hm Hk w Ha. rewrite exec_bind. apply Hk. by eapply alarmed_calm; [apply Hm|]. Qed.
Lemma power_off_run (w : W) : off (be (exec (liftb be_power_off) w)) = true.
Proof using IrqLaws0. unfold exec, liftb. destruct (il_off (be w)) as (H & _). unfold exec in H. by destruct (be_power_off (be w)). Qed.
Lemma ends_off (m : M W unit) : calmly m -> ends (m ;;; liftb be_power_off).
Proof using IrqLaws0. intros _ w _. rewrite exec_bind. apply power_off_run. Qed.
Lemma exist_read w : eval (gauge_int undef GAUGE_PROP_BATTERY_EXIST) w = if gone (be w) then 0 else 1.
Proof using IrqLaws0.
  unfold gauge_int, gauge_get. rewrite !eval_bind, !eval_ret. cbn [fst snd].
  assert (snd (eval (liftb (be_get GAUGE_PROP_BATTERY_EXIST)) w) = Some (if gone (be w) then 0 else 1)) as ->; [|by destruct (gone (be w))].
  rewrite <- il_exist. unfold eval, liftb. by destruct (be_get _ _).
Qed.
Lemma calm_read p : calmly (gauge_int undef p).
Proof using IrqLaws0. unfold gauge_int, gauge_get. solve_calm. Qed.
#[local] Hint Resolve calm_read : core.

Lemma ends_plugout : ends (sw_check_bat_plugout undef stray).
Proof using IrqLaws0.
  intros w [Hg Hd Hm]. unfold sw_check_bat_plugout. rewrite exec_bind, exec_bind. cbn [eval exec getv gets fst snd]. rewrite Hd, Hm. cbn [z2b Z.eqb negb andb].
  rewrite exec_when, exec_bind, exist_read, Hg, exec_when. cbn [Z.eqb]. unfold battery_gone.
  apply (ends_off (battery_gone undef stray) calm_gone). constructor; try done; destruct (calm_read GAUGE_PROP_BATTERY_EXIST w); cbn; congruence.
Qed.

Ltac solve_ends :=
  repeat match goal with
    | |- forall _, _ => intro
    | |- ends (sw_check_bat_plugout _ _) => apply ends_plugout
    | |- ends (bind _ _) => apply ends_bind
    end; unfold vbat_off, disable_shutdown_cond, gauge_int, gauge_get; solve_calm; auto.

(** The handlers that check for the battery at their end. *)
Definition checking : list (M W unit) :=
  [vbat_h_irq undef stray; vbat_l_irq undef stray; zcv_irq undef stray; cycle_irq undef stray; iavg_h_irq undef stray; iavg_l_irq undef stray].
Lemma checking_ends h w : In h checking -> alarmed w -> off (be (exec h w)) = true.
Proof using IrqLaws0.
  intros Hh Ha. pose proof (al_gm w Ha) as Hm. unfold checking in Hh. cbn [In] in Hh.
  destruct Hh as [<-|[<-|[<-|[<-|[<-|[<-|[]]]]]]]; unfold vbat_h_irq, vbat_l_irq, zcv_irq, cycle_irq, iavg_h_irq, iavg_l_irq, iavg_irq;
    rewrite checked_run by done; match goal with |- off (be (exec ?m _)) = true => cut (ends m); [intros He; by apply He|] end;
    unfold sw_vbat_h_irq_handler, sw_vbat_l_irq_handler; solve_ends.
Qed.

Definition others : list (M W unit) := checking ++ [nafg_irq undef stray; bat_temp_irq undef stray].
Lemma others_calm h w : In h others -> vars (bs w) v_disableGM30 = 0 -> calm w (exec h w).
Proof using IrqLaws0.
  intros Hh Hm. unfold others, checking in Hh. cbn [In app] in Hh.
  destruct Hh as [<-|[<-|[<-|[<-|[<-|[<-|[<-|[<-|[]]]]]]]]];
    unfold vbat_h_irq, vbat_l_irq, zcv_irq, cycle_irq, iavg_h_irq, iavg_l_irq, iavg_irq, nafg_irq, bat_temp_irq; rewrite checked_run by done;
    match goal with |- calm _ (exec ?m _) => cut (calmly m); [intros Hc; apply Hc|] end;
    unfold sw_vbat_h_irq_handler, sw_vbat_l_irq_handler, nafg_irq_handler, vbat_off, disable_shutdown_cond, gauge_set_nag_en, gauge_int, gauge_get;
    solve_calm; auto.
Qed.

(** Interrupts, in any order, and time in which the battery may be taken out. *)
Inductive irq_step : W -> W -> Prop :=
| irq_plugout w : irq_step w (exec (bat_plugout_irq undef stray) w)
| irq_other h w : In h others -> irq_step w (exec h w)
| irq_time w e : plug e = plug (be w) -> irq_step w (w <| be := e |>).

(** The gauge is in use, and one of the two checks is on. *)
Definition watched (w : W) : Prop :=
  vars (bs w) v_disableGM30 = 0 /\ (plug (be w) = true \/ vars (bs w) v_disable_plug_int = 1).

Lemma plugout_watched w : watched w -> watched (exec (bat_plugout_irq undef stray) w).
Proof using IrqLaws0.
  intros [Hm Hw]. unfold bat_plugout_irq. rewrite exec_bind. pose proof (calm_read GAUGE_PROP_BATTERY_EXIST w) as C0.
  set (w0 := exec _ w) in *. set (x := eval _ w). assert (watched w0) as Hw0 by (destruct C0; split; [congruence|rewrite ca_plug0, ca_dis0; done]).
  rewrite checked_run by apply Hw0. clearbody w0 x. clear C0 Hm Hw w.
  assert (forall w w', calm w w' -> watched w -> watched w') as Hcalm by (intros w w' [] [? ?]; split; [congruence|rewrite ca_plug0, ca_dis0; done]).
  rewrite exec_bind, !exec_when.
  assert (forall w, watched w -> watched (if x =? 0 then exec (battery_gone undef stray ;;; fg_int_event undef stray EVT_INT_BAT_PLUGOUT ;;; liftb be_power_off) w else w)) as Hend.
  { intros w Hw. destruct (x =? 0); [|done]. eapply Hcalm; [|exact Hw]. match goal with |- calm _ (exec ?m _) => cut (calmly m); [intros Hc; apply Hc|] end. solve_calm; auto. }
  apply Hend. destruct (x =? 1); [|done]. rewrite exec_bind. set (w1 := exec (fg_int_event _ _ _) w0).
  assert (watched w1) as Hw1 by (eapply Hcalm; [apply calm_event|done]). clearbody w1. clear Hw0 w0 Hend.
  rewrite exec_bind. set (w2 := exec _ w1). assert (watched w2) as Hw2 by exact Hw1. clearbody w2. clear Hw1 w1.
  rewrite exec_bind. change (exec (getv v_plug_miss_count) w2) with w2. rewrite exec_when. destruct (3 <=? _); [|done].
  rewrite exec_bind. split; [|right; reflexivity]. destruct Hw2 as [Hm _]. cbn. pose proof (keeps_bs (fun b => vars b v_disableGM30) (be_irq BAT_PLUGOUT_IRQ false) w2) as K. cbn beta in K. rewrite K. exact Hm.
Qed.

(** C5: while the gauge is in use, a battery that is taken out is noticed, as long
    as one of the two checks was on at first: the interrupt for the removal, or
    the look for it that the other interrupts take. However many interrupts of the
    gauge came before, in whatever order, among them interrupts that reported a
    missing battery falsely and made the driver switch that interrupt off: if the
    battery is out, the device is switched off by the interrupt for it when that
    is on, and when it is not, by the next interrupt for the voltage, for the
    open-circuit voltage, for a cycle or for the average current. *)
Theorem removal_noticed w w' :
  watched w -> rtc irq_step w w' -> gone (be w') = true ->
  (plug (be w') = true -> off (be (exec (bat_plugout_irq undef stray) w')) = true) /\
  (plug (be w') = false -> forall h, In h checking -> off (be (exec h w')) = true).
Proof using IrqLaws0.
  intros Hw Hs Hg. assert (watched w') as [Hm Hp].
  { clear Hg. induction Hs as [|w w1 w2 Hst _ IH]; [done|]. apply IH. destruct Hst as [w|h w Hh|w e He].
    - by apply plugout_watched.
    - destruct (others_calm h w Hh (proj1 Hw)). destruct Hw. split; [congruence|rewrite ca_plug0, ca_dis0; done].
    - destruct Hw as [? ?]. split; [done|]. cbn. by rewrite He. }
  split.
  - intros _. unfold bat_plugout_irq. rewrite exec_bind, exist_read, Hg. pose proof (calm_read GAUGE_PROP_BATTERY_EXIST w') as C0.
    rewrite checked_run by (destruct C0; congruence). rewrite exec_bind, !exec_when. cbn [Z.eqb]. rewrite !exec_bind.
    apply power_off_run.
  - intros Hf h Hh. apply checking_ends; [done|]. constructor; [done| |done]. destruct Hp; [congruence|done].
Qed.

(** With the gauge disabled an interrupt only switches all interrupts off and
    shows 50 %: no handler reaches the algorithm or the daemon. *)
Theorem disabled_is_silent h w : In h others -> vars (bs w) v_disableGM30 = 1 -> exec h w = exec disable_fg w.
Proof.
  intros Hh Hm. unfold others, checking in Hh. cbn [In app] in Hh.
  assert (forall m : M W unit, exec (checked m) w = exec disable_fg w) as Hc.
  { intros m. unfold checked, fg_interrupt_check. rewrite !exec_bind, eval_bind. cbn [eval exec getv gets fst snd]. rewrite Hm. cbn [z2b Z.eqb negb].
    rewrite exec_bind, eval_bind, exec_ret, eval_ret. by rewrite exec_when. }
  destruct Hh as [<-|[<-|[<-|[<-|[<-|[<-|[<-|[<-|[]]]]]]]]]; apply Hc.
Qed.
End Irq.

(** ** The average current *)

Section Average.
  Context {E : Type} `{!BattEnv E} (undef stray : Z).
  Abbreviation W := (mworld E).

Lemma wakeup_cmd_vars i c p : keeps (fun w : W => vars (bs w)) (wakeup_fg_algo_cmd stray i c p).
Proof.
  unfold wakeup_fg_algo_cmd, wakeup_fg_daemon, mtk_battery_send_to_user, is_algo_active, memory_error. cbv zeta. solve_kb.
Qed.
Lemma wakeup_vars i : keeps (fun w : W => vars (bs w)) (wakeup_algo stray i).
Proof. apply keeps_ignore, wakeup_cmd_vars. Qed.

Definition passed (w : W) : Z := (eval be_clock (be w) - vars (bs w) v_sw_iavg_time) / NSEC_PER_SEC.
Definition coulombs (w : W) : Z := s32 (default undef (snd (eval (be_get GAUGE_PROP_COULOMB) (exec be_clock (be w))))).

Lemma average_wp w :
  60 <= passed w -> Z.abs (coulombs w - vars (bs w) v_sw_iavg_car) < 500000 -> 0 < vars (bs w) v_sw_iavg_gap < 2 ^ 20 ->
  let i := (coulombs w - vars (bs w) v_sw_iavg_car) * 3600 ÷c passed w in
  wp (fg_update_sw_iavg undef stray) (fun _ w' =>
    vars (bs w') v_sw_iavg = i /\ vars (bs w') v_sw_iavg_car = coulombs w /\ vars (bs w') v_sw_iavg_time = eval be_clock (be w) /\
    vars (bs w') v_sw_iavg_lt < i < vars (bs w') v_sw_iavg_ht) w.
Proof.
  intros Hs Hc Hg i.
  assert (Z.abs i <= 500000 * 60) as Hi.
  { unfold i. rewrite <- Z.quot_abs by lia. rewrite Z.abs_mul, (Z.abs_eq 3600), (Z.abs_eq (passed w)) by lia.
    rewrite Z.quot_div_nonneg by lia. apply Z.div_le_upper_bound; lia. }
  set (dc := coulombs w - vars (bs w) v_sw_iavg_car) in *.
  assert (s32 (s32 (s32 dc * 3600) ÷c passed w) = i) as Ei.
  { rewrite (s32_id dc) by (unfold is_s32; lia). rewrite (s32_id (dc * 3600)) by (unfold is_s32; lia). apply s32_id. change (dc * 3600 ÷c passed w) with i. clearbody i. unfold is_s32. lia. }
  assert (s32 (i + vars (bs w) v_sw_iavg_gap) = i + vars (bs w) v_sw_iavg_gap) as Eh by (apply s32_id; unfold is_s32; lia).
  assert (s32 (i - vars (bs w) v_sw_iavg_gap) = i - vars (bs w) v_sw_iavg_gap) as El by (apply s32_id; unfold is_s32; lia).
  unfold fg_update_sw_iavg. bwp_step. bwp_step. bwp_step. bwp_step. apply wp_when; intros Hsec; [|change ((60 <=? passed w) = false) in Hsec; apply Z.leb_gt in Hsec; lia].
  bwp_step. unfold gauge_int at 1, gauge_get at 1. bwp_step. bwp_step. bwp_step. bwp_step. bwp_step. bwp_step. bwp_step.
  match goal with |- context [s32 (s32 (s32 ?a * 3600) ÷c ?b)] => change (s32 (s32 (s32 a * 3600) ÷c b)) with (s32 (s32 (s32 dc * 3600) ÷c passed w)) end.
  rewrite Ei. unfold iavg_window, gauge_int, gauge_get.
  bwps; cbn -[s32] in *.
  - apply (wp_keeps (fun w : W => vars (bs w)) _ _ _ (wakeup_vars _)). intros _ w' Hv. rewrite Hv. cbn -[s32]. rewrite Eh, El. split_and!; try done; lia.
  - rewrite Eh, El. split_and!; try done; lia.
  - split_and!; try done; lia.
Qed.

(** After an update the software's average current is the charge that went
    through the battery since the last one divided by the time, no computation
    overflows, and it lies inside the window around the last reported average
    current; an update within a minute changes nothing. *)
Theorem average_in_window w :
  Z.abs (coulombs w - vars (bs w) v_sw_iavg_car) < 500000 -> 0 < vars (bs w) v_sw_iavg_gap < 2 ^ 20 ->
  let w' := exec (fg_update_sw_iavg undef stray) w in
  if 60 <=? passed w then
    vars (bs w') v_sw_iavg = (coulombs w - vars (bs w) v_sw_iavg_car) * 3600 ÷c passed w /\ vars (bs w') v_sw_iavg_car = coulombs w /\
    vars (bs w') v_sw_iavg_lt < vars (bs w') v_sw_iavg < vars (bs w') v_sw_iavg_ht
  else bs w' = bs w.
Proof.
  intros Hc Hg w'. destruct (Z.leb_spec 60 (passed w)) as [Hs|Hs].
  - destruct (average_wp w Hs Hc Hg) as (H1 & H2 & _ & H4). fold w' in H1, H2, H4. rewrite H1. done.
  - apply (wp_exec _ (fun w' => bs w' = bs w)). unfold fg_update_sw_iavg. bwp_step. bwp_step. bwp_step. bwp_step.
    apply wp_when; intros Hsec; [|done]. change ((60 <=? passed w) = true) in Hsec. apply Z.leb_le in Hsec. lia.
Qed.

(** ** The cold *)

(** The thread that looks whether the battery is too cold reads the temperature
    as an argument of a log statement.  With a log level below "error", and the
    algorithm in the daemon, a pass leaves the temperature that it compares as it
    was, whatever the thermistor says. *)
Theorem cold_check_needs_log w :
  vars (bs w) v_log_level < BMLOG_ERROR_LEVEL -> vars (bs w) v_algo_active = 0 ->
  let w' := exec (fg_drv_update_daemon undef stray) w in
  exec (fg_drv_update_hw_status undef stray) w =
    exec ((let! cold := getv v_min_battery_temp in
           when (vars (bs w) v_tbat_precise <=? cold) (ignore (set_shutdown_cond undef stray LOW_BATTERY_TEMP))) ;;;
          let! s := timer_secs in liftb (be_hrtimer s)) w'.
Proof.
  intros Hl Ha w'. unfold fg_drv_update_hw_status. rewrite exec_bind.
  match goal with |- exec _ (exec ?m w) = _ => assert (exec m w = w) as -> end.
  { rewrite exec_bind. change (exec (getv v_log_level) w) with w. change (eval (getv v_log_level) w) with (vars (bs w) v_log_level).
    rewrite exec_when, (proj2 (Z.leb_gt _ _)) by done. done. }
  rewrite exec_bind. fold w'.
  assert (keeps (fun w : W => (vars (bs w) v_algo_active, vars (bs w) v_tbat_precise)) (fg_drv_update_daemon undef stray)) as K.
  { unfold fg_drv_update_daemon, fg_update_sw_iavg, fg_nafg_monitor, iavg_window, gauge_get_average_current, gauge_int, gauge_get. cbv zeta. solve_kb;
      try (exact (keeps_bs (fun b => (vars b v_algo_active, vars b v_tbat_precise)) _)); intros w1; first [by rewrite (wakeup_vars _ w1)|by rewrite (wakeup_cmd_vars _ _ _ w1)]. }
  specialize (K w). cbn beta in K. fold w' in K. injection K as K1 K2.
  rewrite exec_bind. change (exec (let! a := getv v_algo_active in when (a =? 1) (battery_update undef)) w') with (exec (when (vars (bs w') v_algo_active =? 1) (battery_update undef)) w').
  rewrite K1, Ha, exec_when. cbn [Z.eqb]. rewrite exec_bind. rewrite exec_bind.
  change (exec (let! t := getv v_tbat_precise in let! cold := getv v_min_battery_temp in when (t <=? cold) (ignore (set_shutdown_cond undef stray LOW_BATTERY_TEMP))) w')
    with (exec (let! cold := getv v_min_battery_temp in when (vars (bs w') v_tbat_precise <=? cold) (ignore (set_shutdown_cond undef stray LOW_BATTERY_TEMP))) w').
  by rewrite K2, !exec_bind.
Qed.
End Average.

(** ** Runs *)

Module TestIrq.
(** A device with a battery that can be taken out. *)
Record tray : Type := mk_tray { tr_off : bool; tr_plug : bool; tr_gone : bool; tr_clock : Z; tr_car : Z }.
#[global] Instance tray_struct : Struct tray := fun r => mk_tray (tr_off r) (tr_plug r) (tr_gone r) (tr_clock r) (tr_car r).
#[global] Instance tray_env : BattEnv tray := {
  be_get p := gets (fun d => (0, Some (match p with
    | GAUGE_PROP_BATTERY_EXIST => if tr_gone d then 0 else 1 | GAUGE_PROP_COULOMB => tr_car d | _ => 700 end)));
  be_set p v := ret tt;
  be_clock := gets tr_clock;
  be_timer _ _ := ret tt;
  be_coulomb_start _ _ := ret tt;
  be_coulomb_stop _ := ret tt;
  be_reset := ret tt;
  be_irq i on := when (bool_decide (i = BAT_PLUGOUT_IRQ)) (modify (fun d => d <| tr_plug := on |>));
  be_algo i := ret tt;
  be_unicast p s l := ret tt;
  be_changed := ret tt;
  be_uevent _ := ret tt;
  be_power_off := modify (fun d => d <| tr_off := true |>);
  be_thermal_report := ret tt;
  be_find_charger := ret true;
  be_find_supply := ret true;
  be_supply p := ret (Some (match p with ps_online => 1 | ps_status => 4 | _ => 0 end));
  be_chg_get _ := ret 0;
  be_chg_set _ _ := ret tt;
  be_chg_notify := ret tt;
  be_chg_done := ret None;
  be_wireless_sleep _ := ret tt;
  be_hrtimer _ := ret tt;
  be_sleep _ := ret tt;
  be_print _ := ret tt;
  be_metrics_aging _ _ _ := ret tt
}.
#[global] Instance tray_laws : IrqLaws tr_off tr_plug tr_gone.
Proof.
  constructor; try (repeat intro; done). intros i on e. cbn. destruct (bool_decide_reflect (i = BAT_PLUGOUT_IRQ)); done.
Qed.
Definition start : mworld tray := mk_mworld TestBatt.state0 (mk_tray false true false (100 * NSEC_PER_SEC) 1000).
(** Three false alarms; then the battery is taken out. *)
Abbreviation false_alarm := (exec (bat_plugout_irq 0 0)).
Definition alarms : mworld tray := false_alarm (false_alarm (false_alarm start)).
Definition taken : mworld tray := alarms <| be := (be alarms) <| tr_gone := true |> |>.
Lemma taken_reached : rtc (irq_step tr_plug 0 0) start taken.
Proof.
  eapply (rtc_l _ _ (false_alarm start)); [apply irq_plugout|]. eapply (rtc_l _ _ (false_alarm (false_alarm start))); [apply irq_plugout|].
  eapply (rtc_l _ _ alarms); [apply irq_plugout|]. apply rtc_once. apply irq_time. vm_compute. reflexivity.
Qed.
End TestIrq.

Lemma removal_noticed_witness :
  TestIrq.tr_plug (be TestIrq.taken) = false /\ TestIrq.tr_off (be (exec (vbat_l_irq 0 0) TestIrq.taken)) = true.
Proof.
  split; [vm_compute; reflexivity|].
  destruct (removal_noticed TestIrq.tr_off TestIrq.tr_plug TestIrq.tr_gone 0 0 TestIrq.start TestIrq.taken) as [_ H];
    [split; [reflexivity|by left]|exact TestIrq.taken_reached|vm_compute; reflexivity|].
  apply H; [vm_compute; reflexivity|right; left; reflexivity].
Defined.

Lemma disabled_is_silent_witness :
  exec (nafg_irq 0 0) (exec (setv v_disableGM30 1) TestIrq.start) = exec disable_fg (exec (setv v_disableGM30 1) TestIrq.start).
Proof. apply (disabled_is_silent 0 0 (nafg_irq 0 0) (exec (setv v_disableGM30 1) TestIrq.start)); [cbn; tauto|reflexivity]. Defined.

Lemma average_in_window_witness :
  let w := exec (setv v_sw_iavg_gap 500) TestIrq.start in
  vars (bs (exec (fg_update_sw_iavg 0 0) w)) v_sw_iavg = 36000.
Proof.
  cbv zeta. set (w := exec (setv v_sw_iavg_gap 500) TestIrq.start).
  assert (passed w = 100) as Hp by (vm_compute; reflexivity).
  assert (Z.abs (coulombs 0 w - vars (bs w) v_sw_iavg_car) < 500000) as Hc by (vm_compute; reflexivity).
  assert (0 < vars (bs w) v_sw_iavg_gap < 2 ^ 20) as Hg by (vm_compute; split; reflexivity).
  pose proof (average_in_window 0 0 w Hc Hg) as H. cbv zeta in H. rewrite Hp in H. destruct H as [H _]. rewrite H. vm_compute. reflexivity.
Defined.

Lemma cold_check_needs_log_witness :
  vars (bs (exec (fg_drv_update_hw_status 0 0) TestIrq.start)) v_tbat_precise = 0.
Proof.
  rewrite (cold_check_needs_log 0 0 TestIrq.start); [vm_compute; reflexivity|vm_compute; reflexivity|reflexivity].
Defined.
