(* ===== verification/BatterySupply.v ===== *)
(** * The battery's power supply (mtk_battery.c)

    What the rest of the system reads of the battery, what it may set, and what
    happens when the charger's supply changes. *)

From S2P Require Import Prelude Coulomb Mt6357 BatteryCust BatteryCore BatteryShutdown BatteryDaemon.
From S2P Require Import BatteryIrq.
#[local] Open Scope Z_scope.

Definition POWER_SUPPLY_CAPACITY_LEVEL_UNKNOWN : Z := 0.
Definition POWER_SUPPLY_CAPACITY_LEVEL_CRITICAL : Z := 1.
Definition POWER_SUPPLY_CAPACITY_LEVEL_LOW : Z := 2.
Definition POWER_SUPPLY_CAPACITY_LEVEL_NORMAL : Z := 3.
Definition POWER_SUPPLY_CAPACITY_LEVEL_HIGH : Z := 4.
Definition POWER_SUPPLY_CAPACITY_LEVEL_FULL : Z := 5.
Definition POWER_SUPPLY_STATUS_DISCHARGING : Z := 2.
Definition POWER_SUPPLY_TYPE_UNKNOWN : Z := 0.
Definition FG_KERNEL_CMD_SET_FULL_CV : Z := 14.

Inductive power_supply_property : Type :=
| POWER_SUPPLY_PROP_STATUS | POWER_SUPPLY_PROP_HEALTH | POWER_SUPPLY_PROP_PRESENT | POWER_SUPPLY_PROP_TECHNOLOGY
| POWER_SUPPLY_PROP_CYCLE_COUNT | POWER_SUPPLY_PROP_CAPACITY | POWER_SUPPLY_PROP_CURRENT_NOW | POWER_SUPPLY_PROP_CURRENT_AVG
| POWER_SUPPLY_PROP_VOLTAGE_NOW | POWER_SUPPLY_PROP_CHARGE_FULL | POWER_SUPPLY_PROP_CHARGE_COUNTER | POWER_SUPPLY_PROP_TEMP
| POWER_SUPPLY_PROP_CAPACITY_LEVEL | POWER_SUPPLY_PROP_TIME_TO_FULL_NOW | POWER_SUPPLY_PROP_CHARGE_FULL_DESIGN
| POWER_SUPPLY_PROP_CONSTANT_CHARGE_CURRENT | POWER_SUPPLY_PROP_INPUT_CURRENT_LIMIT | POWER_SUPPLY_PROP_DIFF_FULL_CV
| POWER_SUPPLY_PROP_THERMAL_INPUT_POWER_LIMIT | POWER_SUPPLY_PROP_CHARGE_CONTROL_LIMIT | POWER_SUPPLY_PROP_OTHER.

Definition check_cap_level (uisoc : Z) : Z :=
  if 100 <=? uisoc then POWER_SUPPLY_CAPACITY_LEVEL_FULL
  else if (80 <=? uisoc) && (uisoc <? 100) then POWER_SUPPLY_CAPACITY_LEVEL_HIGH
  else if (20 <=? uisoc) && (uisoc <? 80) then POWER_SUPPLY_CAPACITY_LEVEL_NORMAL
  else if (0 <? uisoc) && (uisoc <? 20) then POWER_SUPPLY_CAPACITY_LEVEL_LOW
  else if uisoc =? 0 then POWER_SUPPLY_CAPACITY_LEVEL_CRITICAL
  else POWER_SUPPLY_CAPACITY_LEVEL_UNKNOWN.

Definition battery_psy_property_is_writeable (psp : power_supply_property) : bool :=
  match psp with
  | POWER_SUPPLY_PROP_CONSTANT_CHARGE_CURRENT | POWER_SUPPLY_PROP_INPUT_CURRENT_LIMIT | POWER_SUPPLY_PROP_DIFF_FULL_CV
  | POWER_SUPPLY_PROP_THERMAL_INPUT_POWER_LIMIT | POWER_SUPPLY_PROP_CHARGE_CONTROL_LIMIT => true
  | _ => false
  end.

Section Supply.
  Context {E : Type} `{!BattEnv E} (undef stray : Z).
  Abbreviation W := (mworld E).
  Abbreviation gauge_int := (gauge_int undef).

Definition is_recovery_mode : M W bool := let! b := getv v_bootmode in ret (b =? 2).

(** [val] arrives as an [unsigned long]. *)
Definition fg_update_difference_full_cv (val : Z) : M W unit :=
  let! old := getv v_current_difference_full_cv in
  when (negb (old =? u64 val))
    (ignore (wakeup_fg_algo_cmd stray FG_INTR_KERNEL_CMD FG_KERNEL_CMD_SET_FULL_CV (s32 (u64 val))) ;;;
     setv v_current_difference_full_cv (u64 val)).

(** A field of the charger, if there is one, and its users told. *)
Definition set_charger (f : chg_field) (val : Z) : M W unit := liftb (be_chg_set f val) ;;; liftb be_chg_notify.

Definition battery_psy_set_property (psp : power_supply_property) (val : Z) : M W Z :=
  let! info := chg_info in
  match psp with
  | POWER_SUPPLY_PROP_CONSTANT_CHARGE_CURRENT => when info (set_charger chg_force_charging_current val) ;;; ret 0
  | POWER_SUPPLY_PROP_INPUT_CURRENT_LIMIT => when info (set_charger chg_force_input_current_limit val) ;;; ret 0
  | POWER_SUPPLY_PROP_DIFF_FULL_CV => fg_update_difference_full_cv val ;;; ret 0
  | POWER_SUPPLY_PROP_THERMAL_INPUT_POWER_LIMIT =>
      when info (set_charger chg_thermal_input_power_limit val ;;; liftb (be_wireless_sleep (val =? 0))) ;;; ret 0
  | _ => ret (- EINVAL)
  end.

(** A field of the charger, or -1. *)
Definition get_charger (info : bool) (f : chg_field) : M W Z := if info then liftb (be_chg_get f) else ret (-1).

Definition show_capacity : M W Z :=
  let! boot := getv v_bootmode in
  let! fixed := getv v_fixed_uisoc in
  let! cap := getv v_bat_capacity in
  ret (if (boot =? 1) || (boot =? 4) || (boot =? 5) || (boot =? 6) then 75
       else if negb (fixed =? 0xffff) then fixed else cap).

(** In seconds; 3600 s times 0.1 mAh over 0.1 mA. *)
Definition show_time_to_full : M W Z :=
  let! cap := getv v_bat_capacity in
  let level := check_cap_level cap in
  if (level =? POWER_SUPPLY_CAPACITY_LEVEL_FULL) || (level =? POWER_SUPPLY_CAPACITY_LEVEL_UNKNOWN) then ret 0
  else
    let! q := gets (fun w => q_max_now (bs w)) in
    let remain_mah := s32 (s32 (100 - cap) * q) ÷c 10 in
    let! cur := gauge_int GAUGE_PROP_BATTERY_CURRENT in
    ret (s32 (Z.abs (if negb (cur =? 0) then s32 (remain_mah * 3600) ÷c cur else 0))).

Definition show_full_design : M W Z :=
  let! cap := getv v_bat_capacity in
  if check_cap_level cap =? POWER_SUPPLY_CAPACITY_LEVEL_UNKNOWN then ret 0
  else
    let! q := gets (fun w => q_max_now (bs w)) in
    let uah := s32 (q ÷c 10 * 1000) in
    ret (if uah <=? 100000 then 100001 else uah).

(** The result, and the value if there is one; [q_max_now] is the charge of the
    profile that is in use. *)
Definition battery_psy_get_property (psp : power_supply_property) : M W (Z * option Z) :=
  let! info := chg_info in
  (let! a := getv v_algo_active in let! u := getv v_ui_soc in when (a =? 1) (setv v_bat_capacity u)) ;;;
  let show (m : M W Z) := let! v := m in ret (0, Some v) in
  match psp with
  | POWER_SUPPLY_PROP_STATUS => show (getv v_bat_status)
  | POWER_SUPPLY_PROP_HEALTH => show (getv v_bat_health)
  | POWER_SUPPLY_PROP_PRESENT => show (let! v := gauge_int GAUGE_PROP_BATTERY_EXIST in setv v_bat_present v ;;; ret v)
  | POWER_SUPPLY_PROP_TECHNOLOGY => show (getv v_bat_technology)
  | POWER_SUPPLY_PROP_CYCLE_COUNT => show (ret 1)
  | POWER_SUPPLY_PROP_CAPACITY => show show_capacity
  | POWER_SUPPLY_PROP_CURRENT_NOW | POWER_SUPPLY_PROP_CURRENT_AVG =>
      show (let! v := gauge_int GAUGE_PROP_BATTERY_CURRENT in ret (s32 (v * 100)))
  | POWER_SUPPLY_PROP_CHARGE_FULL => show (gets (fun w => s32 (q_max_now (bs w) * 1000)))
  | POWER_SUPPLY_PROP_CHARGE_COUNTER =>
      show (let! u := getv v_ui_soc in gets (fun w => s32 (s32 (u * q_max_now (bs w)) * 1000) ÷c 100))
  | POWER_SUPPLY_PROP_VOLTAGE_NOW =>
      show (let! old := getv v_bat_batt_vol in let! r := gauge_get GAUGE_PROP_BATTERY_VOLTAGE old in
            setv v_bat_batt_vol (s32 (snd r)) ;;; ret (s32 (s32 (snd r) * 1000)))
  | POWER_SUPPLY_PROP_TEMP => show (ignore (force_get_tbat undef true) ;;; getv v_tbat_precise)
  | POWER_SUPPLY_PROP_CAPACITY_LEVEL => show (let! c := getv v_bat_capacity in ret (check_cap_level c))
  | POWER_SUPPLY_PROP_TIME_TO_FULL_NOW => show show_time_to_full
  | POWER_SUPPLY_PROP_CHARGE_FULL_DESIGN => show show_full_design
  | POWER_SUPPLY_PROP_INPUT_CURRENT_LIMIT => show (get_charger info chg_force_input_current_limit)
  | POWER_SUPPLY_PROP_THERMAL_INPUT_POWER_LIMIT => show (get_charger info chg_thermal_input_power_limit)
  | POWER_SUPPLY_PROP_CONSTANT_CHARGE_CURRENT => show (get_charger info chg_force_charging_current)
  | POWER_SUPPLY_PROP_DIFF_FULL_CV => show (get_charger info chg_difference_full_cv)
  | POWER_SUPPLY_PROP_CHARGE_CONTROL_LIMIT => show (get_charger info chg_thermal_charging_current_limit)
  | POWER_SUPPLY_PROP_OTHER => ret (- EINVAL, None)
  end.

(** ** The charger's supply changes *)

(** The charger is looked up once more, by this function itself; without it the
    result is not initialised. *)
Definition is_bat_eoc_protect : M W Z :=
  let! c := getv v_eoc_chg_psy in
  let! found := (if z2b c then ret true else let! f := liftb be_find_charger in setv v_eoc_chg_psy (b2z f) ;;; ret f) in
  if found then let! v := liftb (be_supply ps_eoc_protect) in ret (default undef v) else ret undef.

(** A property of the charger's supply, from an uninitialised variable. *)
Definition supply_value (p : supply_prop) : M W Z := let! v := liftb (be_supply p) in ret (default undef v).

(** What the battery's status becomes while the charger is online; the charger's
    data is reached through a pointer that another function sets. *)
Definition online_status (status : Z) : M W unit :=
  let! protect := is_bat_eoc_protect in
  (if z2b protect then setv v_bat_status POWER_SUPPLY_STATUS_FULL
   else
     (let! c := getv v_chg_psy in when (negb (z2b c)) memory_error) ;;;
     let! done_ := liftb be_chg_done in
     let! ui := getv v_ui_soc in
     setv v_bat_status
       (if z2b (default 0 done_) && (ui =? 100) then POWER_SUPPLY_STATUS_FULL
        else if status =? POWER_SUPPLY_STATUS_NOT_CHARGING then POWER_SUPPLY_STATUS_NOT_CHARGING
        else POWER_SUPPLY_STATUS_CHARGING)) ;;;
  fg_sw_bat_cycle_accu undef stray.

(** The mark of a full battery is cleared by the event after the one that set it,
    whatever that says. *)
Definition end_of_charge (status : Z) : M W unit :=
  let! eoc := getv v_b_EOC in
  if (status =? POWER_SUPPLY_STATUS_FULL) && negb (eoc =? 1) then
    setv v_b_EOC 1 ;;; notify_fg_chr_full undef stray
  else setv v_b_EOC 0.

Definition mtk_battery_external_power_changed : M W unit :=
  let! done_ := getv v_is_probe_done in
  when (z2b done_)
    (let! psy := getv v_bs_chg_psy in
     if negb (z2b psy) then
       (let! f := liftb be_find_supply in setv v_bs_chg_psy (b2z f)) ;;; setv v_chr_type 0
     else
       let! online := supply_value ps_online in
       let! status := supply_value ps_status in
       (if online =? 0 then setv v_bat_status POWER_SUPPLY_STATUS_DISCHARGING else online_status status) ;;;
       ignore (battery_report_uevent undef) ;;;
       end_of_charge status ;;;
       battery_update undef ;;;
       let! cur := supply_value ps_usb_type in
       (let! old := getv v_chr_type in
        when (negb (cur =? POWER_SUPPLY_TYPE_UNKNOWN) && (old =? POWER_SUPPLY_TYPE_UNKNOWN)) (wakeup_algo stray FG_INTR_CHARGER_IN)) ;;;
       setv v_chr_type cur).

Definition battery_service_data_init : M W unit :=
  setv v_bat_status POWER_SUPPLY_STATUS_DISCHARGING ;;;
  ignore (battery_report_uevent undef) ;;;
  setv v_bat_health POWER_SUPPLY_HEALTH_GOOD ;;;
  setv v_bat_present 1 ;;;
  setv v_bat_technology POWER_SUPPLY_TECHNOLOGY_LION ;;;
  setv v_bat_capacity (-1) ;;;
  setv v_bat_batt_vol 0 ;;;
  setv v_bat_batt_temp 0 ;;;
  setv v_fixed_uisoc 0xffff.
End Supply.
