(* ===== verification/BatterySupplySpec.v ===== *)
(** * The battery's power supply: what it shows, and the charger's events

    The levels of the capacity; the full charge and its design value; the time to
    a full battery; which properties can be set; and the mark of a full battery. *)

From S2P Require Import Prelude Coulomb Mt6357 BatteryCore BatteryCoreSpec BatteryShutdown BatteryDaemon.
From S2P Require Import BatteryDaemonSpec BatteryIrq BatteryIrqSpec BatterySupply.
#[local] Open Scope Z_scope.

Section Supply.
  Context {E : Type} `{!BattEnv E} (undef stray : Z).
  Abbreviation W := (mworld E).
  Abbreviation shown psp w := (snd (eval (battery_psy_get_property undef psp) w)).

(** A higher percentage never has a lower level: the level of the capacity is
    monotone from 0 % on, is critical exactly at 0, full exactly from 100 on, and
    unknown exactly below 0. *)
Theorem capacity_level_monotone a b :
  0 <= a <= b -> check_cap_level a <= check_cap_level b /\
  (check_cap_level a = POWER_SUPPLY_CAPACITY_LEVEL_CRITICAL <-> a = 0) /\ (check_cap_level b = POWER_SUPPLY_CAPACITY_LEVEL_FULL <-> 100 <= b) /\
  check_cap_level (- 1 - a) = POWER_SUPPLY_CAPACITY_LEVEL_UNKNOWN.
Proof.
  intros H. unfold check_cap_level.
  repeat match goal with
    | |- context [?x <=? ?y] => destruct (Z.leb_spec x y); try lia
    | |- context [?x <? ?y] => destruct (Z.ltb_spec x y); try lia
    | |- context [?x =? ?y] => destruct (Z.eqb_spec x y); try lia
    end; cbn [andb]; unfold POWER_SUPPLY_CAPACITY_LEVEL_CRITICAL, POWER_SUPPLY_CAPACITY_LEVEL_LOW, POWER_SUPPLY_CAPACITY_LEVEL_NORMAL,
      POWER_SUPPLY_CAPACITY_LEVEL_HIGH, POWER_SUPPLY_CAPACITY_LEVEL_FULL, POWER_SUPPLY_CAPACITY_LEVEL_UNKNOWN in *; split_and!; lia.
Qed.

(** What a look at the supply does first. *)
Lemma chg_info_vars v : bvar_idx v <> bvar_idx v_chg_psy -> keeps (fun w : W => vars (bs w) v) chg_info.
Proof.
  intros Hv w. apply (wp_exec _ (fun w' => vars (bs w') v = vars (bs w) v)). unfold chg_info. bwps; try done.
  cbn -[bvar_idx Nat.eqb]. destruct (Nat.eqb_spec (bvar_idx v) (bvar_idx v_chg_psy)); done.
Qed.
Lemma chg_info_q : keeps (fun w : W => q_max_now (bs w)) chg_info.
Proof. unfold chg_info. solve_kb. Qed.

(** The state in which a property is shown. *)
Definition looked (w : W) : W := exec chg_info w.
Lemma looked_var v w : bvar_idx v <> bvar_idx v_chg_psy -> vars (bs (looked w)) v = vars (bs w) v.
Proof. intros H. by apply chg_info_vars. Qed.
Lemma shown_wp psp (Q : Z * option Z -> W -> Prop) w :
  vars (bs w) v_algo_active = 0 ->
  (forall info : bool, wp (let show (m : M W Z) := let! v := m in ret (0, Some v) in
     match psp with
     | POWER_SUPPLY_PROP_CHARGE_FULL => show (gets (fun w => s32 (q_max_now (bs w) * 1000)))
     | POWER_SUPPLY_PROP_TIME_TO_FULL_NOW => show (show_time_to_full undef)
     | POWER_SUPPLY_PROP_CHARGE_FULL_DESIGN => show show_full_design
     | _ => ret (0, None)
     end) Q (looked w)) ->
  In psp [POWER_SUPPLY_PROP_CHARGE_FULL; POWER_SUPPLY_PROP_TIME_TO_FULL_NOW; POWER_SUPPLY_PROP_CHARGE_FULL_DESIGN] ->
  wp (battery_psy_get_property undef psp) Q w.
Proof.
  intros Ha H Hin. apply wp_bind. unfold wp at 1. fold (looked w). apply wp_bind, wp_bind, wp_getv, wp_bind, wp_getv.
  rewrite looked_var, Ha by discriminate. apply wp_when; [discriminate|]. intros _.
  destruct psp; cbn in Hin; try (exfalso; intuition discriminate); exact (H true).
Qed.

(** The charge of a full battery by design is shown as a tenth of the charge of a
    full battery: the one divides the profile's mAh by ten before it turns them into
    microampere-hours, the other does not. *)
Theorem design_is_a_tenth (w : W) :
  vars (bs w) v_algo_active = 0 -> 0 <= vars (bs w) v_bat_capacity -> 1010 <= q_max_now (bs w) < 2000000 ->
  exists full design, shown POWER_SUPPLY_PROP_CHARGE_FULL w = Some full /\ shown POWER_SUPPLY_PROP_CHARGE_FULL_DESIGN w = Some design /\
    full = q_max_now (bs w) * 1000 /\ 10 * design <= full < 10 * design + 10000.
Proof.
  intros Ha Hc Hq. exists (q_max_now (bs w) * 1000), (q_max_now (bs w) / 10 * 1000).
  assert (q_max_now (bs (looked w)) = q_max_now (bs w)) as Eq by apply chg_info_q. split_and!; try done.
  - apply (shown_wp POWER_SUPPLY_PROP_CHARGE_FULL (fun r _ => snd r = Some (q_max_now (bs w) * 1000)) w Ha); [|by left].
    intros _. apply wp_bind, wp_gets, wp_ret. cbn [snd]. rewrite Eq, s32_id by (unfold is_s32; lia). done.
  - apply (shown_wp POWER_SUPPLY_PROP_CHARGE_FULL_DESIGN (fun r _ => snd r = Some (q_max_now (bs w) / 10 * 1000)) w Ha); [|by right; right; left].
    intros _. apply wp_bind. unfold show_full_design. apply wp_bind, wp_getv. rewrite looked_var by discriminate.
    assert ((check_cap_level (vars (bs w) v_bat_capacity) =? POWER_SUPPLY_CAPACITY_LEVEL_UNKNOWN) = false) as ->.
    { apply Z.eqb_neq. unfold check_cap_level. repeat case_match; try discriminate. bool_prop. lia. }
    apply wp_bind, wp_gets, wp_ret, wp_ret. cbn [snd]. rewrite Eq, Z.quot_div_nonneg by lia.
    assert (101 <= q_max_now (bs w) / 10 <= 200000) by (split; [apply Z.div_le_lower_bound; lia|apply Z.div_le_upper_bound; lia]).
    rewrite s32_id by (unfold is_s32; lia). by rewrite (proj2 (Z.leb_gt _ _)) by lia.
  - pose proof (Z.div_mod (q_max_now (bs w)) 10 ltac:(lia)). pose proof (Z.mod_pos_bound (q_max_now (bs w)) 10 ltac:(lia)). lia.
  - pose proof (Z.div_mod (q_max_now (bs w)) 10 ltac:(lia)). pose proof (Z.mod_pos_bound (q_max_now (bs w)) 10 ltac:(lia)). lia.
Qed.

(** A battery that discharges shows a time to full: the magnitude of the quotient
    is taken, so a battery at [cap] percent that loses charge shows the time in
    which it would fill up if it charged with the same current. *)
Theorem discharging_shows_time_to_full (w : W) :
  let cap := vars (bs w) v_bat_capacity in
  let cur := s32 (default undef (snd (eval (be_get GAUGE_PROP_BATTERY_CURRENT) (be (looked w))))) in
  vars (bs w) v_algo_active = 0 -> 0 <= cap < 100 -> 0 < q_max_now (bs w) < 50000 -> -50000 < cur < 0 ->
  shown POWER_SUPPLY_PROP_TIME_TO_FULL_NOW w = Some ((100 - cap) * q_max_now (bs w) / 10 * 3600 / (- cur)).
Proof.
  intros cap cur Ha Hc Hq Hi. assert (q_max_now (bs (looked w)) = q_max_now (bs w)) as Eq by apply chg_info_q.
  apply (shown_wp POWER_SUPPLY_PROP_TIME_TO_FULL_NOW (fun r _ => snd r = Some ((100 - cap) * q_max_now (bs w) / 10 * 3600 / (- cur))) w Ha); [|by right; left].
  intros _. apply wp_bind. unfold show_time_to_full, gauge_int, gauge_get. apply wp_bind, wp_getv. rewrite looked_var by discriminate. fold cap.
  assert ((check_cap_level cap =? POWER_SUPPLY_CAPACITY_LEVEL_FULL) || (check_cap_level cap =? POWER_SUPPLY_CAPACITY_LEVEL_UNKNOWN) = false) as ->.
  { unfold check_cap_level. repeat case_match; try done; bool_prop; lia. }
  apply wp_bind, wp_gets. bwps. cbn [snd fst]. fold cur. rewrite Eq. rewrite (proj2 (Z.eqb_neq cur 0)) by lia. cbn [negb].
  assert (0 <= (100 - cap) * q_max_now (bs w) <= 5000000) by (split; [nia|transitivity (100 * q_max_now (bs w)); [apply Z.mul_le_mono_nonneg_r; lia|lia]]).
  rewrite (s32_id (100 - cap)) by (unfold is_s32; lia). rewrite (s32_id (_ * q_max_now _)) by (unfold is_s32; lia).
  rewrite (Z.quot_div_nonneg _ 10) by lia. set (m := (100 - cap) * q_max_now (bs w) / 10).
  assert (0 <= m <= 500000) by (unfold m; split; [apply Z.div_pos; lia|apply Z.div_le_upper_bound; lia]).
  rewrite (s32_id (m * 3600)) by (unfold is_s32; lia). f_equal.
  rewrite <- (Z.opp_involutive cur) at 1. rewrite Z.quot_opp_r by lia. rewrite Z.abs_opp, Z.quot_div_nonneg by lia.
  assert (0 <= m * 3600 / - cur <= 1800000000) by (split; [apply Z.div_pos; lia|apply Z.div_le_upper_bound; nia]).
  rewrite Z.abs_eq by lia. apply s32_id. unfold is_s32. lia.
Qed.

(** Of the properties that are shown as writable all can be set but one: setting
    the limit of the charge control fails whatever the value. *)
Theorem writable_properties_set psp val (w : W) :
  battery_psy_property_is_writeable psp = true ->
  eval (battery_psy_set_property stray psp val) w =
    match psp with POWER_SUPPLY_PROP_CHARGE_CONTROL_LIMIT => - EINVAL | _ => 0 end.
Proof.
  intros Hw. unfold battery_psy_set_property. rewrite eval_bind. destruct psp; try discriminate Hw; rewrite ?eval_bind, ?eval_ret; done.
Qed.

(** ** The mark of a full battery *)

Definition marks (w : W) : Z * Z * Z := (vars (bs w) v_b_EOC, vars (bs w) v_is_probe_done, vars (bs w) v_bs_chg_psy).
Abbreviation leaves m := (keeps marks m).
Lemma l_wakeup_cmd i c p : leaves (wakeup_fg_algo_cmd stray i c p).
Proof.
  unfold wakeup_fg_algo_cmd, wakeup_fg_daemon, mtk_battery_send_to_user, is_algo_active, memory_error. cbv zeta.
  solve_kb; exact (keeps_bs (fun b => (vars b v_b_EOC, vars b v_is_probe_done, vars b v_bs_chg_psy)) _).
Qed.
Lemma l_wakeup i : leaves (wakeup_algo stray i).
Proof. apply keeps_ignore, l_wakeup_cmd. Qed.
Ltac solve_leaves := cbv zeta; solve_kb; try exact (keeps_bs (fun b => (vars b v_b_EOC, vars b v_is_probe_done, vars b v_bs_chg_psy)) _).
Lemma l_tbat u : leaves (force_get_tbat undef u).
Proof. unfold force_get_tbat, force_get_tbat_internal, volttotemp, temp_drop, gauge_get. solve_leaves. Qed.
#[local] Hint Resolve l_wakeup_cmd l_wakeup l_tbat : kern.
Lemma l_update : leaves (battery_update undef).
Proof. unfold battery_update, battery_update_psd, is_algo_active, gauge_int, gauge_get. solve_leaves. Qed.
Lemma l_uevent : leaves (battery_report_uevent undef).
Proof. unfold battery_report_uevent, chg_info, gauge_int, gauge_get. solve_leaves. Qed.
Lemma l_accu : leaves (fg_sw_bat_cycle_accu undef stray).
Proof. unfold fg_sw_bat_cycle_accu, gauge_int, gauge_get, gauge_put. solve_leaves. Qed.
#[local] Hint Resolve l_update l_uevent l_accu : kern.
Lemma l_full : leaves (notify_fg_chr_full undef stray).
Proof.
  unfold notify_fg_chr_full, fg_int_event, fg_bat_temp_int_sw_check, fg_bat_temp_int_internal, window_event, TempToBattVolt, temp_drop, gauge_int, gauge_get, gauge_put.
  solve_leaves.
Qed.
Lemma l_online st : leaves (online_status undef stray st).
Proof. unfold online_status, is_bat_eoc_protect, memory_error. solve_leaves. Qed.

Section Eoc.
  Context (st : Z) (Hst : forall e, default undef (eval (be_supply ps_status) e) = st).

Lemma changed_eoc w : z2b (vars (bs w) v_is_probe_done) = true -> z2b (vars (bs w) v_bs_chg_psy) = true ->
  let w' := exec (mtk_battery_external_power_changed undef stray) w in
  vars (bs w') v_b_EOC = b2z ((st =? POWER_SUPPLY_STATUS_FULL) && negb (vars (bs w) v_b_EOC =? 1)) /\
  z2b (vars (bs w') v_is_probe_done) = true /\ z2b (vars (bs w') v_bs_chg_psy) = true.
Proof using Hst.
  intros Hp Hb. apply (wp_exec _ (fun w' => vars (bs w') v_b_EOC = b2z ((st =? POWER_SUPPLY_STATUS_FULL) && negb (vars (bs w) v_b_EOC =? 1)) /\
    z2b (vars (bs w') v_is_probe_done) = true /\ z2b (vars (bs w') v_bs_chg_psy) = true)).
  unfold mtk_battery_external_power_changed, supply_value. bwp_step. bwp_step. rewrite Hp. unfold when. bwp_step. bwp_step. rewrite Hb. cbn [negb].
  do 8 bwp_step. rewrite Hst. set (w0 := upd_field _ (upd_field _ w)). assert (marks w0 = marks w) as M0 by done. clearbody w0. 
  bwp_step. match goal with |- wp ?m _ _ => apply (wp_keeps marks m) end.
  { destruct (_ =? 0); [solve_leaves|apply l_online]. }
  intros _ w1 M1. bwp_step. apply (wp_keeps marks); [apply keeps_ignore, l_uevent|]. intros _ w2 M2.
  rewrite M1, M0 in M2. unfold marks in M2. injection M2 as F1 F2 F3.
  bwp_step. unfold end_of_charge. bwp_step. bwp_step. rewrite F1. clear M0 M1.
  assert (forall x w3, vars (bs w3) v_b_EOC = x -> vars (bs w3) v_is_probe_done = vars (bs w) v_is_probe_done -> vars (bs w3) v_bs_chg_psy = vars (bs w) v_bs_chg_psy ->
    wp (battery_update undef ;;; (let! cur := let! v := liftb (be_supply ps_usb_type) in ret (default undef v) in
       (let! old := getv v_chr_type in when (negb (cur =? POWER_SUPPLY_TYPE_UNKNOWN) && (old =? POWER_SUPPLY_TYPE_UNKNOWN)) (wakeup_algo stray FG_INTR_CHARGER_IN)) ;;; setv v_chr_type cur))
      (fun _ w' => vars (bs w') v_b_EOC = x /\ z2b (vars (bs w') v_is_probe_done) = true /\ z2b (vars (bs w') v_bs_chg_psy) = true) w3) as Hrest.
  { intros x w3 G1 G2 G3. match goal with |- wp ?m _ _ => apply (wp_keeps marks m) end; [solve_leaves|].
    intros _ w4 M4. unfold marks in M4. injection M4 as J1 J2 J3. split_and!; congruence. }
  apply wp_if; intros Hc; rewrite Hc; cbn [b2z].
  - bwp_step. bwp_step. apply (wp_keeps marks); [apply l_full|]. intros _ w3 M3. unfold marks in M3. cbn in M3. injection M3 as J1 J2 J3.
    apply (Hrest 1); congruence.
  - bwp_step. apply (Hrest 0); done.
Qed.
End Eoc.

(** While the charger says that the battery is full, the mark of a full battery
    is set and cleared by turns, since the event after the one that set it clears
    it: every second event counts as a new end of the charge. *)
Theorem full_mark_alternates n (w : W) :
  (forall e, default undef (eval (be_supply ps_status) e) = POWER_SUPPLY_STATUS_FULL) ->
  z2b (vars (bs w) v_is_probe_done) = true -> z2b (vars (bs w) v_bs_chg_psy) = true -> vars (bs w) v_b_EOC = 0 ->
  vars (bs (Nat.iter n (exec (mtk_battery_external_power_changed undef stray)) w)) v_b_EOC = Z.of_nat n mod 2.
Proof.
  intros Hst Hp Hb He. cut (vars (bs (Nat.iter n (exec (mtk_battery_external_power_changed undef stray)) w)) v_b_EOC = Z.of_nat n mod 2 /\
    z2b (vars (bs (Nat.iter n (exec (mtk_battery_external_power_changed undef stray)) w)) v_is_probe_done) = true /\
    z2b (vars (bs (Nat.iter n (exec (mtk_battery_external_power_changed undef stray)) w)) v_bs_chg_psy) = true); [tauto|].
  induction n as [|n (I1 & I2 & I3)]; [done|]. cbn [Nat.iter nat_rect]. rewrite Nat2Z.inj_succ.
  destruct (changed_eoc _ Hst _ I2 I3) as (J1 & J2 & J3). split; [|done]. etransitivity; [exact J1|]. rewrite I1.
  assert (Z.of_nat n mod 2 = 0 \/ Z.of_nat n mod 2 = 1) as [Em|Em] by (pose proof (Z.mod_pos_bound (Z.of_nat n) 2); lia); rewrite Em; cbn;
    rewrite <- Z.add_1_r, Zplus_mod, Em; done.
Qed.

(** ** A pointer that is not set *)

Abbreviation quiet m := (keeps (fun w : W => mem_error (bs w)) m).
Lemma q_full : quiet (notify_fg_chr_full undef stray).
Proof.
  assert (forall i, quiet (wakeup_algo stray i)) by apply q_wakeup. assert (forall u, quiet (force_get_tbat undef u)) by apply q_tbat.
  assert (quiet (battery_update undef)) by apply q_update.
  unfold notify_fg_chr_full, fg_int_event, fg_bat_temp_int_sw_check, fg_bat_temp_int_internal, window_event, TempToBattVolt, temp_drop, gauge_int, gauge_get, gauge_put.
  cbv zeta. solve_kb; auto.
Qed.

(** The charger that is asked whether it is done is reached through a pointer that
    only a look at the supply or an event for user space sets: if the charger's
    supply appears before that found the charger, the first event with the charger
    online goes through a null pointer. *)
Theorem charger_pointer_unset (w : W) :
  (forall e, default undef (eval (be_supply ps_online) e) <> 0) -> (forall e, default undef (eval (be_supply ps_eoc_protect) e) = 0) ->
  (forall e, eval be_find_charger e = true) ->
  z2b (vars (bs w) v_is_probe_done) = true -> z2b (vars (bs w) v_bs_chg_psy) = true -> vars (bs w) v_chg_psy = 0 ->
  mem_error (bs (exec (mtk_battery_external_power_changed undef stray) w)) = true.
Proof.
  intros Hon Heoc Hfind Hp Hb Hc. apply (wp_exec _ (fun w' => mem_error (bs w') = true)).
  assert (forall (m : M W unit) w0, quiet m -> mem_error (bs w0) = true -> wp m (fun _ w' => mem_error (bs w') = true) w0) as Hq.
  { intros m w0 Hm H. unfold wp. rewrite (Hm w0). done. }
  pose proof (q_wakeup stray : forall i, quiet (wakeup_algo stray i)) as Q1. pose proof (q_update undef : quiet (battery_update undef)) as Q2.
  pose proof (q_uevent undef : quiet (battery_report_uevent undef)) as Q3. pose proof (q_accu undef stray : quiet (fg_sw_bat_cycle_accu undef stray)) as Q4. pose proof q_full as Q5.
  unfold mtk_battery_external_power_changed, supply_value. bwp_step. bwp_step. rewrite Hp. unfold when at 1. bwp_step. bwp_step. rewrite Hb. cbn [negb].
  do 8 bwp_step. cbn [be bs upd_field]. match goal with |- context [?a =? 0] => rewrite (proj2 (Z.eqb_neq a 0)) by apply Hon end.
  set (w0 := upd_field _ (upd_field _ w)). assert (vars (bs w0) v_chg_psy = 0) as C0 by done. clearbody w0.
  bwp_step. unfold online_status. bwp_step.
  assert (wp (is_bat_eoc_protect undef) (fun r w' => r = 0 /\ vars (bs w') v_chg_psy = 0) w0) as Hprot.
  { unfold is_bat_eoc_protect. bwps; cbn; rewrite ?Heoc, ?Hfind in *; try done. }
  eapply wp_mono; [exact Hprot|]. intros r w1 [-> C1]. cbn [z2b Z.eqb negb]. bwp_step. bwp_step. bwp_step. bwp_step. rewrite C1. cbn [z2b Z.eqb negb when]. unfold memory_error.
  bwp_step. match goal with |- wp ?m ?Q ?x => apply (wp_mono m (fun _ w' => mem_error (bs w') = true)); [apply Hq; [solve_kb|done]|] end.
  intros _ w2 M2. apply (wp_mono _ (fun _ w' => mem_error (bs w') = true)); [by apply Hq|]. intros _ w3 M3.
  apply Hq; [|done]. unfold end_of_charge. solve_kb; auto.
Qed.
End Supply.

(** ** Runs *)

Module TestSupply.
Import TestIrq.
(** The charger is online and says that the battery is full; the battery has 4850 mAh. *)
Definition device : mworld tray :=
  (exec (setv v_bs_chg_psy 1 ;;; setv v_bat_capacity 40) start) <| bs ::= fun b => b <| q_max_now := 4850 |> |>.
End TestSupply.

Lemma capacity_level_monotone_witness : check_cap_level 19 <= check_cap_level 85.
Proof. apply (capacity_level_monotone 19 85). lia. Defined.
Lemma writable_properties_set_witness :
  eval (battery_psy_set_property 0 POWER_SUPPLY_PROP_CHARGE_CONTROL_LIMIT 500000) (TestBatt.world0 3800 0 700) = - EINVAL.
Proof. apply (writable_properties_set 0 POWER_SUPPLY_PROP_CHARGE_CONTROL_LIMIT 500000 (TestBatt.world0 3800 0 700)). reflexivity. Defined.

Lemma design_is_a_tenth_witness :
  exists full design, snd (eval (battery_psy_get_property 0 POWER_SUPPLY_PROP_CHARGE_FULL) TestSupply.device) = Some full /\
    snd (eval (battery_psy_get_property 0 POWER_SUPPLY_PROP_CHARGE_FULL_DESIGN) TestSupply.device) = Some design /\
    full = 4850000 /\ 10 * design <= full < 10 * design + 10000.
Proof.
  apply (design_is_a_tenth 0 TestSupply.device); [reflexivity|vm_compute; discriminate|vm_compute; split; [discriminate|reflexivity]].
Defined.

Lemma discharging_shows_time_to_full_witness :
  snd (eval (battery_psy_get_property 0 POWER_SUPPLY_PROP_TIME_TO_FULL_NOW) (exec (setv v_bat_capacity 40) ((TestBatt.world0 3800 (-9700) 700) <| bs ::= fun b => b <| q_max_now := 4850 |> |>)))
    = Some 10800.
Proof.
  etransitivity; [apply (discharging_shows_time_to_full 0); vm_compute; repeat split; discriminate|vm_compute; reflexivity].
Defined.

Lemma full_mark_alternates_witness :
  vars (bs (Nat.iter 3 (exec (mtk_battery_external_power_changed 0 0)) TestSupply.device)) v_b_EOC = 1.
Proof. apply (full_mark_alternates 0 0 3 TestSupply.device); [intros e; reflexivity|vm_compute; reflexivity..]. Defined.

Lemma charger_pointer_unset_witness :
  mem_error (bs (exec (mtk_battery_external_power_changed 0 0) TestSupply.device)) = true.
Proof.
  apply (charger_pointer_unset 0 0 TestSupply.device); [intros e; discriminate|intros e; reflexivity|intros e; reflexivity|vm_compute; reflexivity..].
Defined.
