(* ===== verification/AdapterClass.v ===== *)
(** * Charging adapters (adapter_class.c, mtk_pd_adapter.c)

    A charging adapter registers a [struct adapter_ops]; the charging code asks
    it for its kind and its capabilities and requests one of them through the
    functions of the class.  The one adapter of the system is the partner at the
    Type-C port; its driver, mtk_pd_adapter.c, is on top of the type class
    [Tcpm], the interface of the port controller. *)

From S2P Require Import Prelude ChargerTypes Platform.
#[local] Open Scope Z_scope.

(** ** The class *)

Definition ADAPTER_CAP_MAX_NR : nat := 10.

(** [struct adapter_power_cap]; its arrays have ten entries. *)
Record adapter_power_cap : Type := mk_cap {
  selected_cap_idx : Z;
  nr : Z;
  pdp : Z;
  pwr_limit : list Z;
  max_mv : list Z;
  min_mv : list Z;
  ma : list Z;
  maxwatt : list Z;
  minwatt : list Z;
  cap_type : list Z;
  cap_info : list Z
}.
#[global] Instance adapter_power_cap_struct : Struct adapter_power_cap := fun r => mk_cap
  (selected_cap_idx r) (nr r) (pdp r) (pwr_limit r) (max_mv r) (min_mv r) (ma r) (maxwatt r) (minwatt r)
  (cap_type r) (cap_info r).

Definition zeros : list Z := replicate ADAPTER_CAP_MAX_NR 0.
Definition cap0 : adapter_power_cap := mk_cap 0 0 0 zeros zeros zeros zeros zeros zeros zeros zeros.

(** [enum adapter_property], [enum adapter_cap_type], [enum adapter_return_value];
    the events are in [Platform]. *)
Definition PD_TYPE : Z := 1.
Definition MTK_PD_APDO_START : Z := 0.
Definition MTK_PD_APDO_END : Z := 1.
Definition MTK_PD : Z := 2.
Definition MTK_PD_APDO : Z := 3.
Definition MTK_ADAPTER_OK : Z := 0.
Definition MTK_ADAPTER_NOT_SUPPORT : Z := 1.
Definition MTK_ADAPTER_TIMEOUT : Z := 2.
Definition MTK_ADAPTER_REJECT : Z := 3.
Definition MTK_ADAPTER_ERROR : Z := 4.

(** [struct adapter_status]. *)
Record adapter_status : Type := mk_status { temperature : Z; ocp : bool; otp : bool; ovp : bool }.

Section AdapterClass.
  Context {E : Type}.

(** [struct adapter_ops]; [suspend] and [resume] are called by nothing. *)
Record adapter_ops : Type := {
  ad_get_property : option (Z -> M E Z);
  ad_get_status : option (adapter_status -> M E (Z * adapter_status));
  ad_set_cap : option (Z -> Z -> Z -> M E Z);
  ad_get_cap : option (Z -> adapter_power_cap -> M E (Z * adapter_power_cap));
  ad_get_output : option (Z -> Z -> M E (Z * (Z * Z)))
}.

(** [struct adapter_device]: the object lives in [E]. *)
Record adapter_device : Type := {
  ad_ops : E -> option adapter_ops;
  ad_set_ops : option adapter_ops -> M E unit
}.

Definition call_ad {T R} (d : option adapter_device) (sel : adapter_ops -> option T) (fail : R) (call : T -> M E R)
    : M E R :=
  fun e => match d with
           | Some d' => match ad_ops d' e with
                        | Some o => match sel o with Some f => call f e | None => (fail, e) end
                        | None => (fail, e)
                        end
           | None => (fail, e)
           end.

Definition adapter_dev_get_property (d : option adapter_device) (sta : Z) : M E Z :=
  call_ad d ad_get_property (- EOPNOTSUPP) (fun f => f sta).
Definition adapter_dev_get_status (d : option adapter_device) (sta : adapter_status) : M E (Z * adapter_status) :=
  call_ad d ad_get_status (- EOPNOTSUPP, sta) (fun f => f sta).
Definition adapter_dev_get_output (d : option adapter_device) (mV mA : Z) : M E (Z * (Z * Z)) :=
  call_ad d ad_get_output (- EOPNOTSUPP, (mV, mA)) (fun f => f mV mA).
Definition adapter_dev_set_cap (d : option adapter_device) (type mV mA : Z) : M E Z :=
  call_ad d ad_set_cap (- EOPNOTSUPP) (fun f => f type mV mA).
Definition adapter_dev_get_cap (d : option adapter_device) (type : Z) (cap : adapter_power_cap)
    : M E (Z * adapter_power_cap) :=
  call_ad d ad_get_cap (- EOPNOTSUPP, cap) (fun f => f type cap).

Definition adapter_device_unregister (d : option adapter_device) : M E unit :=
  match d with None => ret tt | Some d' => ad_set_ops d' None end.

(** The class device list, searched by name. *)
Definition get_adapter_by_name {D} (devices : list (string * D)) (name : option string) : option D :=
  match name with
  | None => None
  | Some n => snd <$> find (fun d => bool_decide (fst d = n)) devices
  end.
End AdapterClass.

Arguments adapter_ops : clear implicits.
Arguments adapter_device : clear implicits.

(** ** The partner at the Type-C port *)

(** A power data object of the partner, as [struct tcpm_remote_power_cap] has it;
    the arrays of that struct up to [nr] are a list of these. *)
Record pdo : Type := mk_pdo { pdo_type : Z; pdo_max_mv : Z; pdo_min_mv : Z; pdo_ma : Z }.
Record remote_power_cap : Type := mk_remote { rc_selected : Z; rc_pdos : list pdo }.
(** [struct tcpm_power_cap_val]. *)
Record power_cap_val : Type := mk_val { val_pwr_limit : Z; val_max_mv : Z; val_min_mv : Z; val_ma : Z }.

(** The events of the port controller, with what of the notification is read. *)
Inductive tcp_notify : Type :=
| TCP_NOTIFY_PD_STATE (connected : Z)
| TCP_NOTIFY_TYPEC_STATE (old_state new_state : Z)
| TCP_NOTIFY_WD_STATUS (water_detected : bool)
| TCP_NOTIFY_other.

Definition PD_CONNECT_NONE : Z := 0.
Definition PD_CONNECT_TYPEC_ONLY_SNK_DFT : Z := 1.
Definition PD_CONNECT_TYPEC_ONLY_SNK : Z := 2.
Definition PD_CONNECT_PE_READY_SNK : Z := 4.
Definition PD_CONNECT_PE_READY_SNK_PD30 : Z := 6.
Definition PD_CONNECT_PE_READY_SNK_APDO : Z := 8.
Definition PD_CONNECT_HARD_RESET : Z := 9.
Definition TYPEC_UNATTACHED : Z := 0.
Definition TYPEC_ATTACHED_CUSTOM_SRC : Z := 6.
Definition TYPEC_ATTACHED_NORP_SRC : Z := 7.
Definition TCPM_SUCCESS : Z := 0.
Definition TCPM_ERROR_NOT_FOUND : Z := -15.
Definition TCP_DPM_RET_REJECT : Z := 21.
Definition TCP_DPM_RET_TIMEOUT : Z := 22.
Definition TCP_DPM_RET_NOT_SUPPORT : Z := 24.

(** The port controller's interface, and the notifier chain of the adapter. *)
Class Tcpm (T : Type) : Type := {
  inquire_typec_remote_rp_curr : M T Z;
  set_apdo_charging_policy : Z -> Z -> M T Z;
  set_pd_charging_policy_vsafe5v : M T Z;
  dpm_pd_request : Z -> Z -> M T Z;
  dpm_pd_get_pps_status : M T (Z * (Z * Z));
  dpm_pd_get_status : M T (Z * (Z * Z));
  inquire_pd_source_apdo : Z -> M T (Z * (Z * power_cap_val));
  dpm_pd_get_source_cap_ext : M T (Z * Z);
  get_remote_power_cap : M T remote_power_cap;
  adapter_notifier_call_chain : Z -> option bool -> M T Z
}.

(** [struct mtk_pd_adapter_info]; [tcpc] tells whether the controller was found. *)
Record pd_adapter_info : Type := mk_ainfo { tcpc : bool; pd_type : Z }.
#[global] Instance pd_adapter_info_struct : Struct pd_adapter_info := fun r => mk_ainfo (tcpc r) (pd_type r).

Record adworld (T : Type) : Type := mk_adworld { ainfo : pd_adapter_info; port : T }.
Arguments mk_adworld {T}.
Arguments ainfo {T}.
Arguments port {T}.
#[global] Instance adworld_struct T : Struct (adworld T) := fun r => mk_adworld (ainfo r) (port r).

Section PdAdapter.
  Context {T : Type} `{!Tcpm T}.
  Abbreviation W := (adworld T).

Definition tcpm {A} (m : M T A) : M W A := fun w => let '(a, t) := m (port w) in (a, w <| port := t |>).

(** Note the kind of partner and tell it on. *)
Definition connected_as (kind evt : Z) : M W Z :=
  modify (fun w => w <| ainfo ::= fun i => i <| pd_type := kind |> |>) ;;; tcpm (adapter_notifier_call_chain evt None).

Definition pd_tcp_notifier_call (event : tcp_notify) : M W Z :=
  match event with
  | TCP_NOTIFY_PD_STATE c =>
      if c =? PD_CONNECT_NONE then connected_as MTK_PD_CONNECT_NONE MTK_PD_CONNECT_NONE
      else if c =? PD_CONNECT_HARD_RESET then connected_as MTK_PD_CONNECT_NONE MTK_PD_CONNECT_HARD_RESET
      else if c =? PD_CONNECT_PE_READY_SNK then connected_as MTK_PD_CONNECT_PE_READY_SNK MTK_PD_CONNECT_PE_READY_SNK
      else if c =? PD_CONNECT_PE_READY_SNK_PD30 then
        connected_as MTK_PD_CONNECT_PE_READY_SNK_PD30 MTK_PD_CONNECT_PE_READY_SNK_PD30
      else if c =? PD_CONNECT_PE_READY_SNK_APDO then
        connected_as MTK_PD_CONNECT_PE_READY_SNK_APDO MTK_PD_CONNECT_PE_READY_SNK_APDO
      else if (c =? PD_CONNECT_TYPEC_ONLY_SNK_DFT) || (c =? PD_CONNECT_TYPEC_ONLY_SNK) then
        connected_as MTK_PD_CONNECT_TYPEC_ONLY_SNK MTK_PD_CONNECT_TYPEC_ONLY_SNK
      else ret 0
  | TCP_NOTIFY_TYPEC_STATE o n =>
      if (o =? TYPEC_UNATTACHED) && ((n =? TYPEC_ATTACHED_CUSTOM_SRC) || (n =? TYPEC_ATTACHED_NORP_SRC)) then
        connected_as MTK_PD_CONNECT_TYPEC_ONLY_SNK MTK_PD_CONNECT_TYPEC_ONLY_SNK
      else if ((o =? TYPEC_ATTACHED_CUSTOM_SRC) || (o =? TYPEC_ATTACHED_NORP_SRC)) && (n =? TYPEC_UNATTACHED) then
        connected_as MTK_PD_CONNECT_NONE MTK_PD_CONNECT_NONE
      else ret 0
  | TCP_NOTIFY_WD_STATUS wd => tcpm (adapter_notifier_call_chain MTK_TYPEC_WD_STATUS (Some wd))
  | TCP_NOTIFY_other => ret 0
  end.

Definition with_tcpc {A} (fail : A) (m : M W A) : M W A :=
  let! t := gets (fun w => tcpc (ainfo w)) in if t then m else ret fail.

Definition pd_get_property (sta : Z) : M W Z :=
  with_tcpc (-1)
    (if sta =? TYPEC_RP_LEVEL then tcpm inquire_typec_remote_rp_curr
     else if sta =? PD_TYPE then gets (fun w => pd_type (ainfo w))
     else ret (-1)).

Definition pd_set_cap (type mV mA : Z) : M W Z :=
  with_tcpc (-1)
    (let! r :=
       (if type =? MTK_PD_APDO_START then tcpm (set_apdo_charging_policy mV mA)
        else if type =? MTK_PD_APDO_END then tcpm set_pd_charging_policy_vsafe5v
        else if (type =? MTK_PD_APDO) || (type =? MTK_PD) then tcpm (dpm_pd_request mV mA)
        else ret TCPM_SUCCESS) in
     ret (if r =? TCP_DPM_RET_REJECT then MTK_ADAPTER_REJECT
          else if negb (r =? 0) then MTK_ADAPTER_ERROR
          else MTK_ADAPTER_OK)).

Definition pd_get_output (mV mA : Z) : M W (Z * (Z * Z)) :=
  with_tcpc (MTK_ADAPTER_NOT_SUPPORT, (mV, mA))
    (let! r := tcpm dpm_pd_get_pps_status in
     ret (if fst r =? TCP_DPM_RET_NOT_SUPPORT then (MTK_ADAPTER_NOT_SUPPORT, (mV, mA))
          else if negb (fst r =? 0) then (MTK_ADAPTER_ERROR, (mV, mA))
          else (MTK_ADAPTER_OK, snd r))).

(** The controller gives the temperature and the event flags. *)
Definition pd_get_status (sta : adapter_status) : M W (Z * adapter_status) :=
  with_tcpc (MTK_ADAPTER_ERROR, sta)
    (let! r := tcpm dpm_pd_get_status in
     let '(code, (temp, flags)) := r in
     ret (if code =? TCP_DPM_RET_NOT_SUPPORT then MTK_ADAPTER_NOT_SUPPORT
          else if code =? TCP_DPM_RET_TIMEOUT then MTK_ADAPTER_TIMEOUT
          else if code =? 0 then MTK_ADAPTER_OK
          else MTK_ADAPTER_ERROR,
          mk_status temp (Z.testbit flags 1) (Z.testbit flags 2) (Z.testbit flags 3))).

(** The loop over the programmable supplies, up to [n] of them. *)
Fixpoint apdo_loop (n idx : nat) (cap_i : Z) (cap : adapter_power_cap) : M W (nat * adapter_power_cap) :=
  match n with
  | O => ret (idx, cap)
  | S n' =>
      let! r := tcpm (inquire_pd_source_apdo cap_i) in
      let '(code, (cap_i, v)) := r in
      if negb (code =? TCPM_SUCCESS) then ret (idx, cap)
      else
        let! ext := tcpm dpm_pd_get_source_cap_ext in
        let p := if fst ext =? TCPM_SUCCESS then u8 (snd ext) else 0 in
        let lim := if (0 <? p) && (val_pwr_limit v =? 0) then 1 else val_pwr_limit v in
        apdo_loop n' (S idx) cap_i
          (cap <| pdp := p |> <| pwr_limit ::= <[idx := lim]> |> <| ma ::= <[idx := val_ma v]> |>
               <| max_mv ::= <[idx := val_max_mv v]> |> <| min_mv ::= <[idx := val_min_mv v]> |>
               <| maxwatt ::= <[idx := s32 (val_max_mv v * val_ma v)]> |>
               <| minwatt ::= <[idx := s32 (val_min_mv v * val_ma v)]> |> <| cap_type ::= <[idx := MTK_PD_APDO]> |>)
  end.

(** The loop over the objects of the partner, [i] counting all of them and [j]
    the fixed supplies; the power is computed with entry [i] of [ma]. *)
Fixpoint fixed_loop (l : list pdo) (i j : nat) (cap : adapter_power_cap) : nat * adapter_power_cap :=
  match l with
  | [] => (j, cap)
  | p :: l' =>
      if (pdo_type p =? 0) && Nat.ltb j ADAPTER_CAP_MAX_NR then
        let cap := cap <| cap_type ::= <[j := MTK_PD]> |> <| ma ::= <[j := pdo_ma p]> |>
                       <| max_mv ::= <[j := pdo_max_mv p]> |> <| min_mv ::= <[j := pdo_min_mv p]> |> in
        let cap := cap <| maxwatt ::= <[j := s32 (nth j (max_mv cap) 0 * nth i (ma cap) 0)]> |>
                       <| minwatt ::= <[j := s32 (nth j (min_mv cap) 0 * nth i (ma cap) 0)]> |> in
        fixed_loop l' (S i) (S j) cap
      else fixed_loop l' (S i) j cap
  end.

Definition pd_get_cap (type : Z) (cap : adapter_power_cap) : M W (Z * adapter_power_cap) :=
  with_tcpc (MTK_ADAPTER_ERROR, cap)
    (if type =? MTK_PD_APDO then
       let! r := apdo_loop ADAPTER_CAP_MAX_NR 0 0 cap in
       ret (MTK_ADAPTER_OK, (snd r) <| nr := Z.of_nat (fst r) |>)
     else if type =? MTK_PD then
       let! rc := tcpm get_remote_power_cap in
       ret (MTK_ADAPTER_OK,
         match rc_pdos rc with
         | [] => cap
         | l =>
             let '(j, cap) := fixed_loop l 0 0 (cap <| selected_cap_idx := u8 (rc_selected rc - 1) |>) in
             cap <| nr := Z.of_nat j |>
         end)
     else ret (MTK_ADAPTER_OK, cap)).

Definition pd_adapter_ops : adapter_ops W := {|
  ad_get_property := Some pd_get_property;
  ad_get_status := Some pd_get_status;
  ad_set_cap := Some pd_set_cap;
  ad_get_cap := Some pd_get_cap;
  ad_get_output := Some pd_get_output
|}.
End PdAdapter.
