(* ===== verification/AdapterSpec.v ===== *)
(** * Charging adapters: their theorems *)

From S2P Require Import Prelude ChargerTypes Platform AdapterClass.
#[local] Open Scope Z_scope.

(** Entry [j] of a table: voltages, current, power, kind. *)
Definition entry (c : adapter_power_cap) (j : nat) :=
  (nth j (max_mv c) 0, nth j (min_mv c) 0, nth j (ma c) 0, nth j (maxwatt c) 0, nth j (minwatt c) 0, nth j (cap_type c) 0).

(** The entry that stands for a fixed supply. *)
Definition entry_of (p : pdo) :=
  (pdo_max_mv p, pdo_min_mv p, pdo_ma p, s32 (pdo_max_mv p * pdo_ma p), s32 (pdo_min_mv p * pdo_ma p), MTK_PD).

(** The arrays that a table of fixed supplies fills have ten entries. *)
Definition sized (c : adapter_power_cap) : Prop :=
  Forall (fun l => length l = ADAPTER_CAP_MAX_NR) [max_mv c; min_mv c; ma c; maxwatt c; minwatt c; cap_type c].

Lemma nth_insert_eq (l : list Z) i v : (i < length l)%nat -> nth i (<[i := v]> l) 0 = v.
Proof. intros H. rewrite nth_lookup, list_lookup_insert_eq by done. done. Qed.
Lemma nth_insert_ne (l : list Z) i j v : i <> j -> nth j (<[i := v]> l) 0 = nth j l 0.
Proof. intros H. by rewrite !nth_lookup, list_lookup_insert_ne. Qed.

(** Storing one fixed supply. *)
Definition store_fixed (p : pdo) (i j : nat) (c : adapter_power_cap) : adapter_power_cap :=
  let c := c <| cap_type ::= <[j := MTK_PD]> |> <| ma ::= <[j := pdo_ma p]> |>
             <| max_mv ::= <[j := pdo_max_mv p]> |> <| min_mv ::= <[j := pdo_min_mv p]> |> in
  c <| maxwatt ::= <[j := s32 (nth j (max_mv c) 0 * nth i (ma c) 0)]> |>
    <| minwatt ::= <[j := s32 (nth j (min_mv c) 0 * nth i (ma c) 0)]> |>.

Lemma store_sized p i j c : sized c -> sized (store_fixed p i j c).
Proof. unfold sized, store_fixed. intros H. repeat (apply Forall_cons in H as [? H]). repeat constructor; cbn; by rewrite length_insert. Qed.

Lemma store_other p i j k c : j <> k -> entry (store_fixed p i j c) k = entry c k.
Proof. intros H. unfold entry, store_fixed. cbn. by rewrite !nth_insert_ne. Qed.

Lemma store_here p j c : sized c -> (j < ADAPTER_CAP_MAX_NR)%nat -> entry (store_fixed p j j c) j = entry_of p.
Proof.
  unfold sized. intros H Hj. repeat (apply Forall_cons in H as [? H]). unfold entry, store_fixed, entry_of. cbn.
  by rewrite !nth_insert_eq by lia.
Qed.

Lemma fixed_loop_cons p l i j c :
  fixed_loop (p :: l) i j c =
    if (pdo_type p =? 0) && Nat.ltb j ADAPTER_CAP_MAX_NR then fixed_loop l (S i) (S j) (store_fixed p i j c)
    else fixed_loop l (S i) j c.
Proof. done. Qed.

(** Objects that are no fixed supplies change nothing. *)
Lemma fixed_loop_others l i j c : Forall (fun p => pdo_type p <> 0) l -> fixed_loop l i j c = (j, c).
Proof.
  intros H. revert i. induction H as [|p l Hp H IH]; intros i; [done|]. rewrite fixed_loop_cons.
  apply Z.eqb_neq in Hp. rewrite Hp. apply IH.
Qed.

Lemma fixed_loop_fixed f o j c :
  sized c -> Forall (fun p => pdo_type p = 0) f -> Forall (fun p => pdo_type p <> 0) o ->
  (j + length f <= ADAPTER_CAP_MAX_NR)%nat ->
  exists c', fixed_loop (f ++ o) j j c = ((j + length f)%nat, c') /\ sized c' /\ selected_cap_idx c' = selected_cap_idx c /\
    (forall k, (k < j)%nat -> entry c' k = entry c k) /\
    (forall k p, f !! k = Some p -> entry c' (j + k) = entry_of p).
Proof.
  revert j c. induction f as [|p f IH]; intros j c Hc Hf Ho Hl.
  - exists c. cbn [app length]. rewrite fixed_loop_others, Nat.add_0_r by done. done.
  - apply Forall_cons in Hf as [Hp Hf]. cbn [length] in Hl. cbn [app]. rewrite fixed_loop_cons, Hp.
    replace (Nat.ltb j ADAPTER_CAP_MAX_NR) with true by (symmetry; apply Nat.ltb_lt; lia). cbn [Z.eqb andb].
    destruct (IH (S j) (store_fixed p j j c) (store_sized _ _ _ _ Hc) Hf Ho ltac:(lia)) as (c' & E1 & H1 & H2 & H3 & H4).
    exists c'. split_and!; [rewrite E1; f_equal; cbn [length]; lia|done|done|..].
    + intros k Hk. rewrite H3 by lia. apply store_other. lia.
    + intros [|k] q Hq; cbn in Hq.
      * injection Hq as <-. rewrite Nat.add_0_r, H3 by lia. apply store_here; [done|lia].
      * replace (j + S k)%nat with (S j + k)%nat by lia. by apply H4.
Qed.

(** Whatever the partner lists, the table stays in its arrays. *)
Lemma fixed_loop_sized l i j c :
  sized c -> (j <= ADAPTER_CAP_MAX_NR)%nat ->
  let '(j', c') := fixed_loop l i j c in sized c' /\ (j' <= ADAPTER_CAP_MAX_NR)%nat /\ selected_cap_idx c' = selected_cap_idx c.
Proof.
  revert i j c. induction l as [|p l IH]; intros i j c Hc Hj; [done|]. rewrite fixed_loop_cons.
  destruct (pdo_type p =? 0); cbn [andb]; [|by apply IH]. destruct (Nat.ltb_spec j ADAPTER_CAP_MAX_NR) as [Hl|Hl]; [|by apply IH].
  specialize (IH (S i) (S j) (store_fixed p i j c) (store_sized _ _ _ _ Hc) Hl).
  by destruct (fixed_loop l (S i) (S j) (store_fixed p i j c)).
Qed.

Section Table.
  Context {T : Type} `{!Tcpm T}.

Lemma get_cap_run (w : adworld T) : tcpc (ainfo w) = true ->
  let rc := eval get_remote_power_cap (port w) in
  eval (pd_get_cap MTK_PD cap0) w =
    (MTK_ADAPTER_OK, match rc_pdos rc with
                     | [] => cap0
                     | l => let '(j, cap) := fixed_loop l 0 0 (cap0 <| selected_cap_idx := u8 (rc_selected rc - 1) |>) in
                            cap <| nr := Z.of_nat j |>
                     end).
Proof.
  intros Ht. unfold eval, pd_get_cap, with_tcpc, bind, gets, tcpm. rewrite Ht. cbn.
  by destruct (get_remote_power_cap (port w)).
Qed.

(** The table of the adapter is the list of the fixed supplies that the partner
    offers, in order, each with its voltages, its current and its power, if the
    partner lists them before its other supplies, as the standard asks, and no
    more than ten; the selected entry is the partner's object, counted from 0. *)
Theorem adapter_table_exact (w : adworld T) f o :
  tcpc (ainfo w) = true -> rc_pdos (eval get_remote_power_cap (port w)) = f ++ o -> f <> [] ->
  Forall (fun p => pdo_type p = 0) f -> Forall (fun p => pdo_type p <> 0) o -> (length f <= ADAPTER_CAP_MAX_NR)%nat ->
  let c := (eval (pd_get_cap MTK_PD cap0) w).2 in
  nr c = Z.of_nat (length f) /\ selected_cap_idx c = u8 (rc_selected (eval get_remote_power_cap (port w)) - 1) /\
  (forall k p, f !! k = Some p -> entry c k = entry_of p).
Proof.
  intros Ht El Hn Hf Ho Hl. rewrite get_cap_run by done. revert El. generalize (eval get_remote_power_cap (port w)).
  intros rc El. rewrite El. cbn [snd].
  destruct (fixed_loop_fixed f o 0 (cap0 <| selected_cap_idx := u8 (rc_selected rc - 1) |>))
    as (c' & E1 & H1 & H2 & H3 & H4); [by repeat constructor|done|done|lia|].
  assert (exists x l, f ++ o = x :: l) as (x & l & Ex) by (destruct f; [done|cbn; eauto]).
  rewrite Ex in E1 |- *. rewrite E1. cbv zeta. split_and!; [by cbn|by cbn|]. intros k p Hk. by rewrite <- (H4 k p Hk).
Qed.
End Table.

(** A partner that offers its list of supplies, and takes every request. *)
#[global] Instance quiet_port : Tcpm remote_power_cap := {|
  inquire_typec_remote_rp_curr := ret 3000;
  set_apdo_charging_policy := fun _ _ => ret 0;
  set_pd_charging_policy_vsafe5v := ret 0;
  dpm_pd_request := fun _ _ => ret 0;
  dpm_pd_get_pps_status := ret (0, (5000, 3000));
  dpm_pd_get_status := ret (0, (25, 0));
  inquire_pd_source_apdo := fun i => ret (TCPM_ERROR_NOT_FOUND, (i, mk_val 0 0 0 0));
  dpm_pd_get_source_cap_ext := ret (0, 0);
  get_remote_power_cap := gets (fun r => r);
  adapter_notifier_call_chain := fun _ _ => ret 0
|}.

(** A charger for 5 V and 9 V that also has a programmable supply. *)
Definition partner0 : adworld remote_power_cap :=
  mk_adworld (mk_ainfo true MTK_PD_CONNECT_PE_READY_SNK)
    (mk_remote 1 [mk_pdo 0 5000 5000 3000; mk_pdo 0 9000 9000 2000; mk_pdo 3 11000 3300 2000]).

Lemma adapter_table_exact_witness :
  let c := (eval (pd_get_cap MTK_PD cap0) partner0).2 in
  nr c = 2 /\ selected_cap_idx c = 0 /\ entry c 1 = (9000, 9000, 2000, 18000000, 18000000, MTK_PD).
Proof.
  destruct (adapter_table_exact partner0 [mk_pdo 0 5000 5000 3000; mk_pdo 0 9000 9000 2000] [mk_pdo 3 11000 3300 2000])
    as (H1 & H2 & H3); [done|done|done|..|unfold ADAPTER_CAP_MAX_NR; cbn; lia|].
  1, 2: repeat (apply Forall_cons; split; [done|]); apply Forall_nil; done.
  split_and!; [exact H1|exact H2|exact (H3 1%nat _ eq_refl)].
Defined.
