(* ===== verification/MtkPd.v ===== *)
(** * Charging by USB power delivery (mtk_pd.c, mtk_pd_hal.c)

    An algorithm of the class of [AlgClass]: it asks the adapter for its
    capabilities, requests the one that fits the power that is drawn, and
    programs one charger, or two in series.  mtk_pd_hal.c is its access to the
    chargers, the adapter and the battery's supply.  Its mutexes are not part of
    the state: it calls nothing that calls it. *)

From S2P Require Import Prelude ChargerClass AlgClass ChargerTypes ChargerDt Platform AdapterClass.
#[local] Open Scope Z_scope.

(** ** Data *)

Definition PD_VBUS_UPPER_BOUND : Z := 10000000.
Definition PD_VBUS_LOW_BOUND : Z := 5000000.
Definition PD_FAIL_CURRENT : Z := 500000.
Definition PD_SC_INPUT_CURRENT : Z := 3000000.
Definition PD_SC_CHARGER_CURRENT : Z := 3000000.
Definition PD_DCS_INPUT_CURRENT : Z := 3200000.
Definition PD_DCS_CHG1_CHARGER_CURRENT : Z := 1500000.
Definition PD_DCS_CHG2_CHARGER_CURRENT : Z := 1500000.
Definition PD_STOP_BATTERY_SOC : Z := 80.
Definition SLAVE_MIVR_DIFF : Z := 100000.
Definition VSYS_WATT : Z := 5000000.
Definition IBUS_ERR : Z := 14.
Definition PD_VBUS_IR_DROP_THRESHOLD : Z := 1200.
Definition PD_CAP_MAX_NR : Z := 10.

(** [enum pd_state_enum]; the source switches over an [int]. *)
Definition PD_HW_UNINIT : Z := 0.
Definition PD_HW_FAIL : Z := 1.
Definition PD_HW_READY : Z := 2.
Definition PD_TA_NOT_SUPPORT : Z := 3.
Definition PD_RUN : Z := 4.
Definition PD_TUNING : Z := 5.
Definition PD_POSTCC : Z := 6.

(** [enum chg_idx]. *)
Inductive chg_idx : Type := CHG1 | CHG2.

(** [struct mtk_pd] without the fields that nothing uses, with the fields of the
    [struct chg_alg_device] that the algorithm reads, its [struct pd_hal], and the
    static variable of [get_pmic_vbus].  [struct pd_power_cap] has the fields of
    [struct adapter_power_cap]. *)
Record mtk_pd : Type := mk_pd {
  p_state : Z;
  p_config : Z;
  p_is_polling_mode : bool;
  p_chg1 : option nat;
  p_chg2 : option nat;
  p_adapter : option nat;
  p_bat_psy : option nat;
  p_chg_psy : option nat;
  p_cv : Z;
  p_input_current_limit1 : Z;
  p_input_current_limit2 : Z;
  p_charging_current_limit1 : Z;
  p_charging_current_limit2 : Z;
  p_input_current1 : Z;
  p_charging_current1 : Z;
  p_charging_current2 : Z;
  p_vbus_l : Z;
  p_vbus_h : Z;
  p_vsys_watt : Z;
  p_ibus_err : Z;
  p_slave_mivr_diff : Z;
  p_min_charger_voltage : Z;
  p_stop_battery_soc : Z;
  p_sc_input_current : Z;
  p_sc_charger_current : Z;
  p_dcs_input_current : Z;
  p_dcs_chg1_charger_current : Z;
  p_dcs_chg2_charger_current : Z;
  p_dual_polling_ieoc : Z;
  p_cap : adapter_power_cap;
  p_pdc_max_watt_setting : Z;
  p_check_impedance : bool;
  p_cap_max_watt : Z;
  p_idx : Z;
  p_reset_idx : Z;
  p_boost_idx : Z;
  p_buck_idx : Z
}.
#[global] Instance mtk_pd_struct : Struct mtk_pd := fun r => mk_pd
  (p_state r) (p_config r) (p_is_polling_mode r) (p_chg1 r) (p_chg2 r) (p_adapter r) (p_bat_psy r) (p_chg_psy r)
  (p_cv r) (p_input_current_limit1 r) (p_input_current_limit2 r) (p_charging_current_limit1 r)
  (p_charging_current_limit2 r) (p_input_current1 r) (p_charging_current1 r) (p_charging_current2 r) (p_vbus_l r)
  (p_vbus_h r) (p_vsys_watt r) (p_ibus_err r) (p_slave_mivr_diff r) (p_min_charger_voltage r) (p_stop_battery_soc r)
  (p_sc_input_current r) (p_sc_charger_current r) (p_dcs_input_current r) (p_dcs_chg1_charger_current r)
  (p_dcs_chg2_charger_current r) (p_dual_polling_ieoc r) (p_cap r) (p_pdc_max_watt_setting r) (p_check_impedance r)
  (p_cap_max_watt r) (p_idx r) (p_reset_idx r) (p_boost_idx r) (p_buck_idx r).

(** As [devm_kzalloc] leaves it. *)
Definition pd0 : mtk_pd :=
  mk_pd 0 0 false None None None None None 0 0 0 0 0 0 0 0 0 0 0 0 0 0 0 0 0 0 0 0 0 cap0 0 false 0 0 0 0 0.

(** The adapters of the system, and [mtk_chg_enable_vbus_ovp] of the charging
    manager. *)
Class PdPlatform (E : Type) : Type := {
  adapter_at : nat -> adapter_device E;
  adapter_list : E -> list (string * nat);
  chg_enable_vbus_ovp : bool -> M E Z
}.

Record pdworld (E : Type) : Type := mk_pdworld { pd : mtk_pd; pe : E }.
Arguments mk_pdworld {E}.
Arguments pd {E}.
Arguments pe {E}.
#[global] Instance pdworld_struct E : Struct (pdworld E) := fun r => mk_pdworld (pd r) (pe r).

(** A call into the rest of the system. *)
Definition liftp {E A} (m : M E A) : M (pdworld E) A := fun w => let '(a, e) := m (pe w) in (a, w <| pe := e |>).

Section Pd.
  Context {E : Type} `{!Platform E} `{!PdPlatform E}.
  Abbreviation W := (pdworld E).

Definition getp {A} (f : mtk_pd -> A) : M W A := gets (fun w => f (pd w)).
Definition modp (f : mtk_pd -> mtk_pd) : M W unit := modify (fun w => w <| pd ::= f |>).

(** Entry [i] of an array of a capability table. *)
Definition at_idx (l : list Z) (i : Z) : Z := nth (Z.to_nat i) l 0.

(** ** Hardware (mtk_pd_hal.c) *)

Definition on_chg1 {A} (f : option (charger_device E mtk_charger) -> M E A) : M W A :=
  let! h := getp p_chg1 in liftp (f (chg h)).
Definition on_chg2 {A} (f : option (charger_device E mtk_charger) -> M E A) : M W A :=
  let! h := getp p_chg2 in liftp (f (chg h)).
Definition on_chg {A} (i : chg_idx) (f : option (charger_device E mtk_charger) -> M E A) : M W A :=
  match i with CHG1 => on_chg1 f | CHG2 => on_chg2 f end.
Definition adapter : M W (option (adapter_device E)) := let! h := getp p_adapter in ret (adapter_at <$> h).

(** [if (chgN_dev != NULL)]. *)
Definition if_chg (i : chg_idx) (m : M W unit) : M W unit :=
  let! h := getp (match i with CHG1 => p_chg1 | CHG2 => p_chg2 end) in
  match h with Some _ => m | None => ret tt end.

Definition pd_hal_init_hardware : M W Z :=
  (let! h := liftp (find_charger "primary_chg"%string) in modp (fun p => p <| p_chg1 := h |>)) ;;;
  let! h := getp p_chg1 in
  match h with
  | None => ret (- ENODEV)
  | Some _ =>
      (let! h := liftp (find_charger "secondary_chg"%string) in modp (fun p => p <| p_chg2 := h |>)) ;;;
      (let! h := liftp (gets (fun e => get_adapter_by_name (adapter_list e) (Some "pd_adapter"%string))) in
       modp (fun p => p <| p_adapter := h |>)) ;;;
      let! h := getp p_adapter in
      ret (match h with None => - ENODEV | Some _ => 0 end)
  end.

Definition pd_hal_is_pd_adapter_ready : M W Z :=
  let! a := adapter in
  let! type := liftp (adapter_dev_get_property a PD_TYPE) in
  ret (if (type =? MTK_PD_CONNECT_PE_READY_SNK) || (type =? MTK_PD_CONNECT_PE_READY_SNK_PD30)
          || (type =? MTK_PD_CONNECT_PE_READY_SNK_APDO) then ALG_READY
       else if type =? MTK_PD_CONNECT_TYPEC_ONLY_SNK then ALG_TA_NOT_SUPPORT
       else ALG_TA_CHECKING).

(** The table of the adapter, which starts at zero, replaces [*cap]. *)
Definition pd_hal_get_adapter_cap : M W Z :=
  let! a := adapter in
  let! r := liftp (adapter_dev_get_cap a MTK_PD cap0) in
  modp (fun p => p <| p_cap := snd r |>) ;;; ret (fst r).

Definition get_pmic_vbus : M W (Z * Z) :=
  let! prop := liftp uninit in
  let! h := getp p_chg_psy in
  (match h with
   | Some _ => ret tt
   | None => let! h := liftp (power_supply_get_by_name "mtk_charger_type"%string) in modp (fun p => p <| p_chg_psy := h |>)
   end) ;;;
  let! h := getp p_chg_psy in
  let! r := match h with
            | None => ret (-1, prop)
            | Some s => liftp (power_supply_get_property s PSP_VOLTAGE_NOW prop)
            end in
  ret (fst r, s32 (snd r * 1000)).

Definition pd_hal_get_vbus : M W Z :=
  let! r := on_chg1 (fun d => charger_dev_get_vbus d 0) in
  if fst r <? 0 then let! r := get_pmic_vbus in ret (snd r) else ret (s32 (snd r)).

Definition pd_hal_get_ibus (ibus : Z) : M W (Z * Z) := on_chg1 (fun d => charger_dev_get_ibus d ibus).

Definition pd_hal_get_mivr_state (i : chg_idx) (in_loop : bool) : M W bool :=
  let! r := on_chg i (fun d => charger_dev_get_mivr_state d in_loop) in ret (snd r).

(** The primary charger is asked in any case. *)
Definition pd_hal_get_mivr (i : chg_idx) (mivr : Z) : M W Z :=
  let! r := on_chg1 (fun d => charger_dev_get_mivr d mivr) in
  let! r := on_chg i (fun d => charger_dev_get_mivr d (snd r)) in
  ret (u32 (snd r)).

Definition pd_hal_get_charger_cnt : M W Z :=
  let! a := getp p_chg1 in
  let! b := getp p_chg2 in
  ret ((match a with Some _ => 1 | None => 0 end) + (match b with Some _ => 1 | None => 0 end)).

Definition pd_hal_is_chip_enable (i : chg_idx) : M W bool :=
  let! r := on_chg i (fun d => charger_dev_is_chip_enabled d false) in ret (snd r).

Definition pd_hal_enable_vbus_ovp (enable : bool) : M W unit := ignore (liftp (chg_enable_vbus_ovp enable)).

(** Both chargers are programmed, whichever is asked for. *)
Definition pd_hal_set_mivr (i : chg_idx) (uV : Z) : M W Z :=
  let! r := on_chg1 (fun d => charger_dev_set_mivr d (u32 uV)) in
  let! h := getp p_chg2 in
  match h with
  | None => ret r
  | Some _ =>
      let! en := on_chg2 (fun d => charger_dev_is_chip_enabled d false) in
      if snd en then
        let! diff := getp p_slave_mivr_diff in
        on_chg2 (fun d => charger_dev_set_mivr d (u32 (uV + diff)))
      else ret r
  end.

Definition pd_hal_get_input_current (i : chg_idx) (ua : Z) : M W Z :=
  let! r := on_chg i (fun d => charger_dev_get_input_current d ua) in ret (u32 (snd r)).

(** The primary charger is programmed in any case. *)
Definition pd_hal_set_input_current (i : chg_idx) (ua : Z) : M W unit :=
  ignore (on_chg1 (fun d => charger_dev_set_input_current d (u32 ua))) ;;;
  ignore (on_chg i (fun d => charger_dev_set_input_current d (u32 ua))).

Definition pd_hal_set_cv (i : chg_idx) (uv : Z) : M W unit :=
  ignore (on_chg i (fun d => charger_dev_set_constant_voltage d (u32 uv))).

(** The primary charger is programmed in any case. *)
Definition pd_hal_set_charging_current (i : chg_idx) (ua : Z) : M W unit :=
  ignore (on_chg1 (fun d => charger_dev_set_charging_current d (u32 ua))) ;;;
  ignore (on_chg i (fun d => charger_dev_set_charging_current d (u32 ua))).

Definition pd_hal_set_adapter_cap (mV mA : Z) : M W Z :=
  let! a := adapter in liftp (adapter_dev_set_cap a MTK_PD mV mA).

Definition pd_hal_is_charger_enable (i : chg_idx) (en : bool) : M W bool :=
  let! h := getp (match i with CHG1 => p_chg1 | CHG2 => p_chg2 end) in
  match h with
  | Some _ => let! r := on_chg i (fun d => charger_dev_is_enabled d en) in ret (snd r)
  | None => ret en
  end.

Definition pd_hal_enable_charger (i : chg_idx) (en : bool) : M W unit :=
  if_chg i (ignore (on_chg i (fun d => charger_dev_enable d en))).

(** A value the caller holds in an [int]. *)
Definition asks (i : chg_idx) (old : Z) (f : option (charger_device E mtk_charger) -> Z -> M E (Z * Z)) : M W Z :=
  let! h := getp (match i with CHG1 => p_chg1 | CHG2 => p_chg2 end) in
  match h with
  | Some _ => let! r := on_chg i (fun d => f d (u32 old)) in ret (s32 (snd r))
  | None => ret old
  end.
Definition pd_hal_get_charging_current (i : chg_idx) (ua : Z) : M W Z := asks i ua charger_dev_get_charging_current.
(** The result is 0 even when the charger does not support it. *)
Definition pd_hal_get_min_charging_current (i : chg_idx) (ua : Z) : M W Z := asks i ua charger_dev_get_min_charging_current.
Definition pd_hal_get_min_input_current (i : chg_idx) (ua : Z) : M W Z := asks i ua charger_dev_get_min_input_current.

Definition pd_hal_safety_check (ieoc : Z) : M W unit := ignore (on_chg1 (fun d => charger_dev_safety_check d (u32 ieoc))).
Definition pd_hal_set_eoc_current (i : chg_idx) (uA : Z) : M W unit :=
  if_chg i (ignore (on_chg i (fun d => charger_dev_set_eoc_current d (u32 uA)))).
Definition pd_hal_enable_termination (i : chg_idx) (en : bool) : M W unit :=
  if_chg i (ignore (on_chg i (fun d => charger_dev_enable_termination d en))).
Definition pd_hal_charger_enable_chip (i : chg_idx) (en : bool) : M W unit :=
  if_chg i (ignore (on_chg i (fun d => charger_dev_enable_chip d en))).

Definition pd_hal_get_uisoc : M W Z :=
  let! prop := liftp uninit in
  let! h := getp p_bat_psy in
  (match h with
   | Some _ => ret tt
   | None => let! h := liftp (power_supply_get_by_phandle "gauge"%string) in modp (fun p => p <| p_bat_psy := h |>)
   end) ;;;
  let! h := getp p_bat_psy in
  match h with
  | None => ret 50
  | Some s => let! r := liftp (power_supply_get_property s PSP_CAPACITY prop) in ret (s32 (snd r))
  end.

(** ** The table of capabilities (mtk_pd.c) *)

Definition __mtk_pdc_init_table : M W unit :=
  modp (fun p => p <| p_cap ::= fun c => c <| nr := 0 |> <| selected_cap_idx := u8 (-1) |> |>) ;;;
  let! r := pd_hal_is_pd_adapter_ready in
  when (r =? ALG_READY) (ignore pd_hal_get_adapter_cap).

(** The indices a loop over the table runs through. *)
Definition cap_indices (c : adapter_power_cap) : list Z := Z.of_nat <$> seq 0 (Z.to_nat (nr c)).

(** The last capability of exactly [vbus_l]; 0 if there is none. *)
Definition reset_idx_of (p : mtk_pd) : Z :=
  let c := p_cap p in
  foldl (fun idx i => if (at_idx (min_mv c) i =? p_vbus_l p) && (at_idx (max_mv c) i =? p_vbus_l p) then i else idx)
    0 (cap_indices c).

Definition __mtk_pdc_get_reset_idx : M W unit :=
  modp (fun p => if p_reset_idx p =? -1 then p <| p_reset_idx := reset_idx_of p |> else p).

(** [vbus_l <= min_mv, max_mv <= vbus_h]. *)
Definition in_window (p : mtk_pd) (i : Z) : bool :=
  let c := p_cap p in
  (p_vbus_l p <=? at_idx (min_mv c) i) && (p_vbus_l p <=? at_idx (max_mv c) i)
  && (at_idx (min_mv c) i <=? p_vbus_h p) && (at_idx (max_mv c) i <=? p_vbus_h p).

Definition cap_max_watt_of (p : mtk_pd) : Z :=
  foldl (fun m i => if in_window p i && (m <? at_idx (maxwatt (p_cap p)) i) then at_idx (maxwatt (p_cap p)) i else m)
    (-1) (cap_indices (p_cap p)).

Definition __mtk_pdc_get_cap_max_watt : M W unit :=
  modp (fun p => if p_cap_max_watt p =? -1 then p <| p_cap_max_watt := cap_max_watt_of p |> else p).

(** The two loops of [__mtk_pdc_get_idx]: the capability next to the selected
    one, [lt] being "has less power" for the next higher and "has more" for the
    next lower. *)
Definition next_idx (lt : Z -> Z -> bool) (p : mtk_pd) (selected : Z) : Z :=
  let w i := at_idx (maxwatt (p_cap p)) i in
  foldl (fun idx i =>
           if negb (in_window p i) then idx
           else if idx =? selected then (if lt (w idx) (w i) then i else idx)
           else if lt (w i) (w idx) && lt (w selected) (w i) then i else idx)
    selected (cap_indices (p_cap p)).

Definition __mtk_pdc_get_idx (selected_idx : Z) : M W unit :=
  if selected_idx <? 0 then modp (fun p => p <| p_boost_idx := 0 |> <| p_buck_idx := 0 |>)
  else modp (fun p => p <| p_boost_idx := next_idx Z.ltb p selected_idx |> <| p_buck_idx := next_idx Z.gtb p selected_idx |>).

(** ** Requesting a capability *)

(** Whether the input voltage limit of a charger is too far below the voltage of
    capability [idx]; the differences are unsigned.  The second result of
    [needs_update] is what the variable [oldmivr] holds. *)
Definition mivr_behind (max_mv oldmivr threshold : Z) : bool := u32 threshold <? u32 (max_mv - oldmivr / 1000).

Definition needs_update (idx : Z) : M W (bool * Z) :=
  let! p := getp (fun p => p) in
  if negb (p_idx p =? idx) then ret (true, 4600000)
  else
    let mv := at_idx (max_mv (p_cap p)) idx in
    let! old := pd_hal_get_mivr CHG1 4600000 in
    let force := mivr_behind mv old PD_VBUS_IR_DROP_THRESHOLD in
    let! cnt := pd_hal_get_charger_cnt in
    if (1 <? cnt) && (p_config p =? DUAL_CHARGERS_IN_SERIES) then
      let! en := pd_hal_is_chip_enable CHG2 in
      if en then
        let! old := pd_hal_get_mivr CHG2 old in
        ret (force || mivr_behind mv old (PD_VBUS_IR_DROP_THRESHOLD - p_slave_mivr_diff p ÷c 1000), old)
      else ret (force, old)
    else ret (force, old).

(** The voltage and the current of a capability, requested; the input current
    limit is lowered before and raised after. *)
Definition request (idx oldmivr : Z) : M W Z :=
  let! p := getp (fun p => p) in
  let mv := at_idx (max_mv (p_cap p)) idx in
  let mA := at_idx (ma (p_cap p)) idx in
  pd_hal_enable_vbus_ovp (negb (5000 <? mv)) ;;;
  let! oldmivr := pd_hal_get_mivr CHG1 oldmivr in
  let mivr := u32 (p_min_charger_voltage p ÷c 1000) in
  ignore (pd_hal_set_mivr CHG1 (p_min_charger_voltage p)) ;;;
  let! old := pd_hal_get_input_current CHG1 3000000 in
  let oldmA := old / 1000 in
  when (u32 mA <? oldmA) (pd_hal_set_input_current CHG1 (mA * 1000)) ;;;
  let! r := pd_hal_set_adapter_cap mv mA in
  (if r =? 0 then
     when (oldmA <? u32 mA) (pd_hal_set_input_current CHG1 (mA * 1000)) ;;;
     let m := u32 (mv - PD_VBUS_IR_DROP_THRESHOLD) in
     ignore (pd_hal_set_mivr CHG1 (s32 ((if mivr <? m then m else mivr) * 1000)))
   else
     when (u32 mA <? oldmA) (pd_hal_set_input_current CHG1 (oldmA * 1000)) ;;;
     ignore (pd_hal_set_mivr CHG1 (s32 oldmivr))) ;;;
  __mtk_pdc_get_idx idx ;;; ret r.

Definition __mtk_pdc_setup (idx : Z) : M W Z :=
  let! todo := needs_update idx in
  let! r := if fst todo then request idx (snd todo) else ret (-100) in
  modp (fun p => p <| p_idx := idx |>) ;;; ret r.

Definition mtk_pdc_reset : M W unit :=
  __mtk_pdc_init_table ;;;
  __mtk_pdc_get_reset_idx ;;;
  let! i := getp p_reset_idx in ignore (__mtk_pdc_setup i).

(** ** The choice of a capability *)

(** The power the selected capability gives with the error of the current meter,
    the power that is drawn, and the power the next lower one gives; unsigned. *)
Definition pd_max_watt (p : mtk_pd) (idx : Z) : Z :=
  u32 (at_idx (max_mv (p_cap p)) idx * (at_idx (ma (p_cap p)) idx ÷c 100 * (100 - p_ibus_err p) - 100)).
Definition now_max_watt (p : mtk_pd) (idx ibus : Z) : Z := u32 (at_idx (max_mv (p_cap p)) idx * ibus).
Definition pd_min_watt (p : mtk_pd) : Z :=
  let b := p_buck_idx p in
  let w := u32 (s32 (at_idx (max_mv (p_cap p)) b * at_idx (ma (p_cap p)) b) ÷c 100 * (100 - p_ibus_err p) - p_vsys_watt p) in
  if w <=? 5000000 then 5000000 else w.

Definition choose_idx (p : mtk_pd) (ibus : Z) (in_mivr : bool) : Z :=
  let sel := selected_cap_idx (p_cap p) in
  let idx := if PD_CAP_MAX_NR <=? sel then 0 else sel in
  if (pd_max_watt p idx <=? now_max_watt p idx ibus) || in_mivr then p_boost_idx p
  else if now_max_watt p idx ibus <=? pd_min_watt p then p_buck_idx p
  else idx.

(** The bus has fallen below the input voltage limit: the source compares [vbus]
    with the limit in mV, unsigned. *)
Definition collapsed (in_mivr : bool) (vbus mivr : Z) : bool := in_mivr && (u32 vbus <? u32 (mivr / 1000 - 500)).

(** Voltage, current and index, or [None] for the result -1. *)
Definition __mtk_pdc_get_setting : M W (option (Z * Z * Z)) :=
  __mtk_pdc_init_table ;;;
  __mtk_pdc_get_reset_idx ;;;
  __mtk_pdc_get_cap_max_watt ;;;
  let! n := getp (fun p => nr (p_cap p)) in
  if n =? 0 then ret None
  else
    let! ib := pd_hal_get_ibus 0 in
    if fst ib <? 0 then ret None
    else
      let! m1 := pd_hal_get_mivr_state CHG1 false in
      let! mivr1 := pd_hal_get_mivr CHG1 0 in
      let! cnt := pd_hal_get_charger_cnt in
      let! config := getp p_config in
      let! two :=
        (if (1 <? cnt) && (config =? DUAL_CHARGERS_IN_SERIES) then
           let! en := pd_hal_is_chip_enable CHG2 in
           if en then
             let! m2 := pd_hal_get_mivr_state CHG2 false in
             let! mivr2 := pd_hal_get_mivr CHG2 0 in ret (m2, mivr2)
           else ret (false, 0)
         else ret (false, 0)) in
      let! vbus := pd_hal_get_vbus in
      let i := s32 (snd ib) ÷c 1000 in
      let ibus := if i =? 0 then 1000 else i in
      let! newidx :=
        (if collapsed m1 vbus mivr1 || collapsed (fst two) vbus (snd two) then mtk_pdc_reset ;;; getp p_reset_idx
         else getp (fun p => choose_idx p ibus (m1 || fst two))) in
      getp (fun p => Some (at_idx (max_mv (p_cap p)) newidx, at_idx (ma (p_cap p)) newidx, newidx)).

(** ** Programming the chargers *)

(** [limit], where it is one ([-1] is none) and below [most]: it applies, but is 0
    below the minimum of the charger. *)
Definition capped (limit most : Z) (min : M W Z) : M W Z :=
  if negb (limit =? -1) && (limit <? most) then
    let! m := min in ret (if limit <? m then 0 else limit)
  else ret most.

(** With a limit that is not below the configured current, [charging_current1]
    keeps its value unless the limit is below the minimum of the charger. *)
Definition pd_sc_set_charger : M W Z :=
  let! p := getp (fun p => p) in
  if (p_input_current_limit1 p =? 0) || (p_charging_current_limit1 p =? 0) then ret (-1)
  else
    let limit := p_charging_current_limit1 p in
    (if negb (limit =? -1) then
       when (limit <? p_sc_charger_current p) (modp (fun p => p <| p_charging_current1 := limit |>)) ;;;
       let! m := pd_hal_get_min_charging_current CHG1 (-1) in
       when (limit <? m) (modp (fun p => p <| p_charging_current1 := 0 |>))
     else modp (fun p => p <| p_charging_current1 := p_sc_charger_current p |>)) ;;;
    (let! i := capped (p_input_current_limit1 p) (p_sc_input_current p) (pd_hal_get_min_input_current CHG1 (-1)) in
     modp (fun p => p <| p_input_current1 := i |>)) ;;;
    let! p := getp (fun p => p) in
    if (p_input_current1 p =? 0) || (p_charging_current1 p =? 0) then ret (-1)
    else
      pd_hal_set_charging_current CHG1 (p_charging_current1 p) ;;;
      pd_hal_set_input_current CHG1 (p_input_current1 p) ;;;
      pd_hal_set_cv CHG1 (p_cv p) ;;;
      ret 0.

(** The currents for two chargers in series. *)
Definition dcs_currents : M W unit :=
  let! p := getp (fun p => p) in
  (let! i := capped (p_input_current_limit1 p) (p_dcs_input_current p) (pd_hal_get_min_input_current CHG1 (-1)) in
   modp (fun p => p <| p_input_current1 := i |>)) ;;;
  (let! i := capped (p_charging_current_limit1 p) (p_dcs_chg1_charger_current p) (pd_hal_get_min_charging_current CHG1 (-1)) in
   modp (fun p => p <| p_charging_current1 := i |>)) ;;;
  modp (fun p => if p_state p =? PD_RUN then p <| p_charging_current2 := p_dcs_chg2_charger_current p |> else p) ;;;
  let! now := getp p_charging_current2 in
  let! i := capped (p_charging_current_limit2 p) now (pd_hal_get_min_charging_current CHG2 (-1)) in
  modp (fun p => p <| p_charging_current2 := i |>).

(** The second charger on, with the primary one's termination left to polling. *)
Definition second_on (currents : M W unit) : M W unit :=
  let! ieoc := getp p_dual_polling_ieoc in
  pd_hal_enable_charger CHG2 true ;;;
  currents ;;;
  pd_hal_set_eoc_current CHG1 ieoc ;;;
  pd_hal_enable_termination CHG1 false ;;;
  pd_hal_safety_check ieoc.

Definition pd_dcs_set_charger : M W Z :=
  let! p := getp (fun p => p) in
  if (p_input_current_limit1 p =? 0) || (p_charging_current_limit1 p =? 0) || (p_charging_current_limit2 p =? 0) then ret (-1)
  else
    dcs_currents ;;;
    let! p := getp (fun p => p) in
    if (p_input_current1 p =? 0) || (p_charging_current1 p =? 0) || (p_charging_current2 p =? 0) then
      pd_hal_enable_charger CHG2 false ;;; pd_hal_charger_enable_chip CHG2 false ;;; ret (-1)
    else
      let! en := pd_hal_is_chip_enable CHG2 in
      let! ok :=
        (if p_state p =? PD_RUN then
           when (negb en) (pd_hal_charger_enable_chip CHG2 true) ;;;
           second_on (pd_hal_set_input_current CHG2 (p_charging_current2 p) ;;;
                      pd_hal_set_charging_current CHG2 (p_charging_current2 p)) ;;; ret true
         else if p_state p =? PD_TUNING then
           when (negb en) (pd_hal_charger_enable_chip CHG2 true) ;;; second_on (ret tt) ;;; ret true
         else if p_state p =? PD_POSTCC then
           pd_hal_set_eoc_current CHG1 150000 ;;; pd_hal_enable_termination CHG1 true ;;; ret true
         else ret false) in
      if ok then
        pd_hal_set_charging_current CHG1 (p_charging_current1 p) ;;;
        pd_hal_set_input_current CHG1 (p_input_current1 p) ;;;
        pd_hal_set_cv CHG1 (p_cv p) ;;;
        ret 0
      else ret (-1).

(** ** The operations of the algorithm *)

Definition __pd_run : M W Z :=
  (let! s := __mtk_pdc_get_setting in
   match s with
   | Some (_, cur, idx) =>
       if negb (idx =? -1) then
         modp (fun p => if negb (p_input_current_limit1 p =? -1) && (p_input_current_limit1 p <? s32 (cur * 1000)) then p
                        else p <| p_input_current_limit1 := s32 (cur * 1000) |>) ;;;
         ignore (__mtk_pdc_setup idx)
       else modp (fun p => p <| p_input_current_limit1 := PD_FAIL_CURRENT |> <| p_charging_current_limit1 := PD_FAIL_CURRENT |>)
   | None => modp (fun p => p <| p_input_current_limit1 := PD_FAIL_CURRENT |> <| p_charging_current_limit1 := PD_FAIL_CURRENT |>)
   end) ;;;
  let! config := getp p_config in
  let! r := if config =? DUAL_CHARGERS_IN_SERIES then pd_dcs_set_charger else pd_sc_set_charger in
  ret (if r =? 0 then ALG_RUNNING else ALG_DONE).

Definition _pd_init_algo : M W Z :=
  let! r := pd_hal_init_hardware in
  modp (fun p => p <| p_state := if r =? 0 then PD_HW_READY else PD_HW_FAIL |>) ;;;
  let! config := getp p_config in
  (if config =? DUAL_CHARGERS_IN_SERIES then
     let! cnt := pd_hal_get_charger_cnt in
     modp (fun p => p <| p_config := if cnt =? 2 then DUAL_CHARGERS_IN_SERIES else SINGLE_CHARGER |>)
   else modp (fun p => p <| p_config := SINGLE_CHARGER |>)) ;;;
  modp (fun p => p <| p_pdc_max_watt_setting := -1 |> <| p_check_impedance := true |> <| p_cap_max_watt := -1 |>
                   <| p_idx := -1 |> <| p_reset_idx := -1 |> <| p_boost_idx := 0 |> <| p_buck_idx := 0 |>) ;;;
  ret 0.

(** A limit is set, or the battery is charged enough. *)
Definition not_wanted (p : mtk_pd) (uisoc : Z) : bool :=
  negb (p_input_current_limit1 p =? -1) || negb (p_charging_current_limit1 p =? -1) || negb (p_input_current_limit2 p =? -1)
  || negb (p_charging_current_limit2 p =? -1) || (p_stop_battery_soc p <=? uisoc).

Definition is_running (s : Z) : bool := (s =? PD_RUN) || (s =? PD_TUNING) || (s =? PD_POSTCC).

Definition _pd_is_algo_ready : M W Z :=
  let! s := getp p_state in
  if (s =? PD_HW_UNINIT) || (s =? PD_HW_FAIL) then ret ALG_INIT_FAIL
  else if s =? PD_HW_READY then
    let! r := pd_hal_is_pd_adapter_ready in
    if r =? ALG_READY then
      let! uisoc := pd_hal_get_uisoc in
      let! p := getp (fun p => p) in ret (if not_wanted p uisoc then ALG_NOT_READY else r)
    else
      modp (fun p => p <| p_state := if r =? ALG_TA_CHECKING then PD_HW_READY else PD_TA_NOT_SUPPORT |>) ;;; ret r
  else if s =? PD_TA_NOT_SUPPORT then ret ALG_TA_NOT_SUPPORT
  else if is_running s then ret ALG_RUNNING
  else ret ALG_INIT_FAIL.

(** One round of the loop of [_pd_start_algo]: the result, and [again]. *)
Definition start_round : M W (Z * bool) :=
  let! s := getp p_state in
  if (s =? PD_HW_UNINIT) || (s =? PD_HW_FAIL) then ret (ALG_INIT_FAIL, false)
  else if s =? PD_HW_READY then
    let! r := pd_hal_is_pd_adapter_ready in
    if r =? ALG_TA_NOT_SUPPORT then modp (fun p => p <| p_state := PD_TA_NOT_SUPPORT |>) ;;; ret (r, false)
    else if r =? ALG_READY then
      let! uisoc := pd_hal_get_uisoc in
      let! p := getp (fun p => p) in
      if not_wanted p uisoc then ret (ALG_NOT_READY, false)
      else modp (fun p => p <| p_state := PD_RUN |>) ;;; ret (r, true)
    else ret (r, false)
  else if s =? PD_TA_NOT_SUPPORT then ret (ALG_TA_NOT_SUPPORT, false)
  else if is_running s then let! r := __pd_run in ret (r, false)
  else ret (ALG_INIT_FAIL, false).

(** [do ... while (again)]; [None] when [fuel] rounds were not enough. *)
Fixpoint start_loop (fuel : nat) : M W (option Z) :=
  match fuel with
  | O => ret None
  | S n => let! r := start_round in if snd r then start_loop n else ret (Some (fst r))
  end.
Definition _pd_start_algo : M W Z := let! r := start_loop 2 in ret (default 0 r).

Definition _pd_is_algo_running : M W bool := getp (fun p => is_running (p_state p)).

(** The second charger off. *)
Definition second_off : M W unit :=
  let! config := getp p_config in
  when (config =? DUAL_CHARGERS_IN_SERIES) (pd_hal_enable_charger CHG2 false ;;; pd_hal_charger_enable_chip CHG2 false).

Definition _pd_stop_algo : M W Z :=
  let! s := getp p_state in
  if (s =? PD_HW_UNINIT) || (s =? PD_HW_FAIL) || (s =? PD_HW_READY) || (s =? PD_TA_NOT_SUPPORT) then ret 0
  else if is_running s then
    mtk_pdc_reset ;;;
    pd_hal_set_charging_current CHG1 PD_FAIL_CURRENT ;;;
    pd_hal_set_input_current CHG1 PD_FAIL_CURRENT ;;;
    (let! cv := getp p_cv in pd_hal_set_cv CHG1 cv) ;;;
    modp (fun p => p <| p_state := PD_HW_READY |>) ;;;
    second_off ;;;
    ret 0
  else ret ALG_INIT_FAIL.

(** The end of charge with two chargers. *)
Definition dcs_full : M W Z :=
  let! en := pd_hal_is_charger_enable CHG2 true in
  let! chip := pd_hal_is_chip_enable CHG2 in
  if negb en || negb chip then
    modp (fun p => p <| p_state := PD_HW_READY |>) ;;;
    let! poll := getp p_is_polling_mode in ret (if poll then 0 else 1)
  else
    let! ichg2 := pd_hal_get_charging_current CHG2 0 in
    let! ichg2_min := pd_hal_get_min_charging_current CHG2 100000 in
    (if s32 (ichg2 - 500000) <=? ichg2_min then
       modp (fun p => p <| p_state := PD_POSTCC |>) ;;;
       pd_hal_enable_charger CHG2 false ;;;
       pd_hal_set_eoc_current CHG1 150000 ;;;
       pd_hal_enable_termination CHG1 true
     else
       modp (fun p => p <| p_state := PD_TUNING |>) ;;;
       modp (fun p => if 500000 <=? p_charging_current2 p then p <| p_charging_current2 := s32 (ichg2 - 500000) |> else p) ;;;
       let! c := getp p_charging_current2 in pd_hal_set_charging_current CHG2 c) ;;;
    ret 1.

Definition pd_full_evt : M W Z :=
  let! p := getp (fun p => p) in
  let s := p_state p in
  if (s =? PD_HW_UNINIT) || (s =? PD_HW_FAIL) || (s =? PD_HW_READY) || (s =? PD_TA_NOT_SUPPORT) then ret 0
  else if is_running s then
    if p_config p =? DUAL_CHARGERS_IN_SERIES then dcs_full
    else when (s =? PD_RUN) (modp (fun p => p <| p_state := PD_HW_READY |>)) ;;; ret 0
  else ret ALG_INIT_FAIL.

Definition pd_plugout_reset : M W Z :=
  let! s := getp p_state in
  (if s =? PD_TA_NOT_SUPPORT then modp (fun p => p <| p_state := PD_HW_READY |>)
   else when (is_running s)
     (modp (fun p => p <| p_state := PD_HW_READY |>) ;;;
      second_off ;;;
      modp (fun p => p <| p_cap_max_watt := -1 |> <| p_idx := -1 |> <| p_reset_idx := -1 |> <| p_boost_idx := 0 |>
                       <| p_buck_idx := 0 |>))) ;;;
  ret 0.

Definition _pd_notifier_call (notify : chg_alg_notify) : M W Z :=
  match notify_evt notify with
  | EVT_PLUG_OUT => pd_plugout_reset
  | EVT_FULL => pd_full_evt
  | _ => ret (- EINVAL)
  end.

Definition _pd_get_prop (s value : Z) : M W (Z * Z) := ret (0, if s =? ALG_MAX_VBUS then 10000 else value).
Definition _pd_set_prop (s value : Z) : M W Z := ret 0.

Definition _pd_set_setting (s : chg_limit_setting) : M W Z :=
  modp (fun p => p <| p_cv := set_cv s |> <| p_input_current_limit1 := input_current_limit1 s |>
                   <| p_charging_current_limit1 := charging_current_limit1 s |>
                   <| p_input_current_limit2 := input_current_limit2 s |>
                   <| p_charging_current_limit2 := charging_current_limit2 s |>) ;;;
  ret 0.

Definition pd_alg_ops : chg_alg_ops W := {|
  alg_init_algo := Some _pd_init_algo;
  alg_is_algo_ready := Some _pd_is_algo_ready;
  alg_start_algo := Some _pd_start_algo;
  alg_is_algo_running := Some _pd_is_algo_running;
  alg_stop_algo := Some _pd_stop_algo;
  alg_notifier_call := Some _pd_notifier_call;
  alg_get_prop := Some _pd_get_prop;
  alg_set_prop := Some _pd_set_prop;
  alg_set_current_limit := Some _pd_set_setting
|}.

(** ** Device tree and probe *)

Definition mtk_pd_parse_dt (np : device_node) (p : mtk_pd) : mtk_pd :=
  p <| p_min_charger_voltage := read_int np "min_charger_voltage"%string V_CHARGER_MIN |>
    <| p_vbus_h := s32 (read_u32 np "pd_vbus_upper_bound"%string PD_VBUS_UPPER_BOUND / 1000) |>
    <| p_vbus_l := s32 (read_u32 np "pd_vbus_low_bound"%string PD_VBUS_LOW_BOUND / 1000) |>
    <| p_vsys_watt := read_int np "vsys_watt"%string VSYS_WATT |>
    <| p_ibus_err := read_int np "ibus_err"%string IBUS_ERR |>
    <| p_stop_battery_soc := read_int np "pd_stop_battery_soc"%string PD_STOP_BATTERY_SOC |>
    <| p_sc_input_current := read_int np "sc_input_current"%string PD_SC_INPUT_CURRENT |>
    <| p_sc_charger_current := read_int np "sc_charger_current"%string PD_SC_CHARGER_CURRENT |>
    <| p_dcs_input_current := read_int np "dcs_input_current"%string PD_DCS_INPUT_CURRENT |>
    <| p_dcs_chg1_charger_current := read_int np "dcs_chg1_charger_current"%string PD_DCS_CHG1_CHARGER_CURRENT |>
    <| p_dcs_chg2_charger_current := read_int np "dcs_chg2_charger_current"%string PD_DCS_CHG2_CHARGER_CURRENT |>
    <| p_slave_mivr_diff := read_int np "slave_mivr_diff"%string SLAVE_MIVR_DIFF |>
    <| p_dual_polling_ieoc := read_int np "dual_polling_ieoc"%string 750000 |>.

Definition mtk_pd_probe (np : device_node) : M W Z :=
  modp (fun _ => mtk_pd_parse_dt np pd0) ;;;
  (let! h := liftp (power_supply_get_by_phandle "gauge"%string) in modp (fun p => p <| p_bat_psy := h |>)) ;;;
  ret 0.

(** The device that probe registers as "pd". *)
Definition pd_alg_device : chg_alg_device W := {|
  alg_ops := fun _ => Some pd_alg_ops;
  alg_set_ops := fun _ => ret tt;
  alg_set_config := fun c => modp (fun p => p <| p_config := c |>);
  alg_notifier_chain_register := ret 0
|}.
End Pd.
