(* ===== verification/MtkPdSpec.v ===== *)
(** * Charging by power delivery: its theorems *)

From S2P Require Import Prelude ChargerClass AlgClass ChargerTypes ChargerDt Platform Board.
From S2P Require Import ChargerSpec AdapterClass AdapterSpec MtkPd.
#[local] Open Scope Z_scope.

(** ** The neighbours of a capability *)

(** Capability [i] is in the table and in the window of voltages. *)
Definition offered (p : mtk_pd) (i : Z) : Prop := In i (cap_indices (p_cap p)) /\ in_window p i = true.
Definition watts (p : mtk_pd) (i : Z) : Z := at_idx (maxwatt (p_cap p)) i.

Section Neighbour.
  Context (p : mtk_pd) (sel s : Z).
  Abbreviation w := (watts p).
  Abbreviation lt := (fun a b => s * a <? s * b).

(** The index of one step of the loop. *)
Definition step_idx (idx i : Z) : Z :=
  if negb (in_window p i) then idx
  else if idx =? sel then (if lt (w idx) (w i) then i else idx)
  else if lt (w i) (w idx) && lt (w sel) (w i) then i else idx.

(** [idx] is the nearest beyond [sel] among the indices of [l]. *)
Definition nearest (l : list Z) (idx : Z) : Prop :=
  (idx = sel \/ (In idx l /\ in_window p idx = true /\ s * w sel < s * w idx)) /\
  (forall i, In i l -> in_window p i = true -> s * w sel < s * w i -> idx <> sel /\ s * w idx <= s * w i).

Lemma nearest_step l idx i : nearest l idx -> nearest (l ++ [i]) (step_idx idx i).
Proof.
  unfold nearest, step_idx. intros [H1 H2].
  assert (forall j, In j (l ++ [i]) <-> In j l \/ j = i) as Hin.
  { intros j. rewrite in_app_iff. simpl. intuition. }
  split.
  - destruct (in_window p i) eqn:Ei; cbn [negb]; [|setoid_rewrite Hin; tauto].
    destruct (Z.eqb_spec idx sel) as [->|Hn].
    + destruct (Z.ltb_spec (s * w sel) (s * w i)); [right|by left]. rewrite Hin. auto.
    + destruct (Z.ltb_spec (s * w i) (s * w idx)), (Z.ltb_spec (s * w sel) (s * w i)); cbn [andb];
        rewrite Hin; tauto.
  - intros j Hj Hw Hlt. apply Hin in Hj.
    destruct (in_window p i) eqn:Ei; cbn [negb].
    2:{ destruct Hj as [Hj| ->]; [auto|congruence]. }
    destruct (Z.eqb_spec idx sel) as [->|Hn].
    + destruct (Z.ltb_spec (s * w sel) (s * w i)) as [Hl|Hl].
      * destruct Hj as [Hj| ->]; [by destruct (H2 j Hj Hw Hlt)|]. split; [|lia]. intros ->. lia.
      * destruct Hj as [Hj| ->]; [by apply H2|lia].
    + destruct (Z.ltb_spec (s * w i) (s * w idx)), (Z.ltb_spec (s * w sel) (s * w i)); cbn [andb].
      all: destruct Hj as [Hj| ->]; try (destruct (H2 j Hj Hw Hlt)); split; try lia; intros ->; lia.
Qed.

Lemma nearest_fold l l0 idx : nearest l0 idx -> nearest (l0 ++ l) (foldl step_idx idx l).
Proof.
  revert l0 idx. induction l as [|i l IH]; intros l0 idx H; [by rewrite app_nil_r|].
  simpl. replace (l0 ++ i :: l) with ((l0 ++ [i]) ++ l) by (by rewrite <- app_assoc). apply IH. by apply nearest_step.
Qed.

Lemma nearest_all : nearest (cap_indices (p_cap p)) (foldl step_idx sel (cap_indices (p_cap p))).
Proof. apply (nearest_fold _ []). split; [by left|]. intros i []. Qed.
End Neighbour.

Lemma foldl_ext_fun {A B} (f g : A -> B -> A) a l : (forall x y, f x y = g x y) -> foldl f a l = foldl g a l.
Proof. intros H. revert a. induction l as [|y l IH]; intros a; [done|]. simpl. rewrite H. apply IH. Qed.

Lemma next_up p sel : nearest p sel 1 (cap_indices (p_cap p)) (next_idx Z.ltb p sel).
Proof.
  unfold next_idx. rewrite (foldl_ext_fun _ (step_idx p sel 1)); [apply nearest_all|].
  intros idx i. unfold step_idx, watts. by rewrite !Z.mul_1_l.
Qed.
Lemma next_down p sel : nearest p sel (-1) (cap_indices (p_cap p)) (next_idx Z.gtb p sel).
Proof.
  unfold next_idx. rewrite (foldl_ext_fun _ (step_idx p sel (-1))); [apply nearest_all|].
  intros idx i. unfold step_idx, watts.
  assert (forall a b, (a >? b) = (-1 * a <? -1 * b)) as E.
  { intros a b. destruct (Z.gtb_spec a b), (Z.ltb_spec (-1 * a) (-1 * b)); lia. }
  by rewrite !E.
Qed.

(** The two loops that look for the neighbours of a capability find them, for
    any table and any selected entry: the next higher one has the least power
    above the selected one's among those whose voltages are allowed, the next
    lower one the most power below it, and where there is none the selected one
    stands. *)
Theorem neighbours_exact p sel :
  let up := next_idx Z.ltb p sel in
  let down := next_idx Z.gtb p sel in
  (up = sel \/ offered p up /\ watts p sel < watts p up) /\
  (forall i, offered p i -> watts p sel < watts p i -> watts p sel < watts p up <= watts p i) /\
  (down = sel \/ offered p down /\ watts p down < watts p sel) /\
  (forall i, offered p i -> watts p i < watts p sel -> watts p i <= watts p down < watts p sel).
Proof.
  destruct (next_up p sel) as [U1 U2], (next_down p sel) as [D1 D2]. cbv zeta. unfold offered. split_and!.
  - destruct U1 as [H|(? & ? & ?)]; [by left|right]. split; [done|lia].
  - intros i [Hi Hw] H. destruct (U2 i Hi Hw ltac:(lia)). destruct U1 as [?|(? & ? & ?)]; [done|lia].
  - destruct D1 as [H|(? & ? & ?)]; [by left|right]. split; [done|lia].
  - intros i [Hi Hw] H. destruct (D2 i Hi Hw ltac:(lia)). destruct D1 as [?|(? & ? & ?)]; [done|lia].
Qed.

(** ** Indices *)

(** A table of capabilities whose entries are in its arrays. *)
Definition cap_ok (c : adapter_power_cap) : Prop :=
  0 <= nr c <= PD_CAP_MAX_NR /\ 0 <= selected_cap_idx c /\
  Forall (fun l => length l = ADAPTER_CAP_MAX_NR) [max_mv c; min_mv c; ma c; maxwatt c].

Definition idx_ok (i : Z) : Prop := 0 <= i < PD_CAP_MAX_NR.

(** Every index the algorithm keeps is in the arrays, or -1 where that means none. *)
Definition pd_ok (p : mtk_pd) : Prop :=
  cap_ok (p_cap p) /\ (p_idx p = -1 \/ idx_ok (p_idx p)) /\ (p_reset_idx p = -1 \/ idx_ok (p_reset_idx p)) /\
  idx_ok (p_boost_idx p) /\ idx_ok (p_buck_idx p).

Lemma cap_indices_range c i : cap_ok c -> In i (cap_indices c) -> idx_ok i.
Proof.
  intros ([Hn Hn'] & _ & _) Hi. unfold cap_indices in Hi. apply list_elem_of_In, list_elem_of_fmap in Hi as (k & -> & Hk).
  apply elem_of_seq in Hk. unfold idx_ok. lia.
Qed.

Lemma foldl_in {A} (P : A -> Prop) (f : A -> A -> A) l a :
  P a -> (forall x i, P x -> In i l -> P (f x i)) -> P (foldl f a l).
Proof.
  revert a. induction l as [|i l IH]; intros a Ha Hf; [done|]. simpl. apply IH; [by apply Hf; [|left]|].
  intros x j Hx Hj. apply Hf; [done|by right].
Qed.

Lemma reset_idx_ok p : cap_ok (p_cap p) -> idx_ok (reset_idx_of p).
Proof.
  intros Hc. unfold reset_idx_of. apply foldl_in; [unfold idx_ok, PD_CAP_MAX_NR; lia|].
  intros x i Hx Hi. case_match; [by eapply cap_indices_range|done].
Qed.

Lemma next_idx_ok lt p sel : cap_ok (p_cap p) -> idx_ok sel -> idx_ok (next_idx lt p sel).
Proof.
  intros Hc Hs. unfold next_idx. apply foldl_in; [done|]. intros x i Hx Hi.
  case_tests; first [done|by eapply cap_indices_range].
Qed.

Section Ok.
  Context {E : Type} `{!Platform E} `{!PdPlatform E}.
  Abbreviation W := (pdworld E).
  (** What is asked of an adapter: a table that fits its arrays. *)
  Context (Had : forall h e, cap_ok (eval (adapter_dev_get_cap (adapter_at <$> h) MTK_PD cap0) e).2).

Lemma pd_liftp {A} (m : M E A) : keeps pd (liftp m).
Proof. intros w. unfold exec, liftp. by destruct (m (pe w)). Qed.

(** A property of the algorithm's own state. *)
Context (P : mtk_pd -> Prop).
Abbreviation inv := (fun w : W => P (pd w)).

Lemma inv_liftp {A} (m : M E A) : preserves inv (liftp m).
Proof. intros w Hw. by rewrite pd_liftp. Qed.
Lemma inv_modp f : (forall p, P p -> P (f p)) -> preserves inv (modp (E := E) f).
Proof. intros Hf w Hw. apply Hf, Hw. Qed.
Lemma inv_getp {A} (f : mtk_pd -> A) : preserves inv (getp (E := E) f).
Proof. by intros w. Qed.
Lemma inv_pure {A} (m : M W A) : keeps pd m -> preserves inv m.
Proof. intros Hm w Hw. by rewrite Hm. Qed.
End Ok.

(** Follow the structure of the code down to updates of the algorithm's state. *)
Ltac pd_inv :=
  repeat match goal with
    | |- forall _, _ => intro
    | |- preserves _ (bind _ _) => apply preserves_bind
    | |- preserves _ (ret _) => apply preserves_ret
    | |- preserves _ (getp _) => apply inv_getp
    | |- preserves _ (when _ _) => apply preserves_when
    | |- preserves _ (ignore _) => apply preserves_ignore
    | |- preserves _ (liftp _) => apply inv_liftp
    | |- preserves _ (modp _) => apply inv_modp
    | |- preserves _ (if ?b then _ else _) => destruct b
    | |- preserves _ (match ?o with Some _ => _ | None => _ end) => destruct o
    | |- preserves _ (match ?o with CHG1 => _ | CHG2 => _ end) => destruct o
    | |- preserves _ (on_chg1 _) => unfold on_chg1
    | |- preserves _ (on_chg2 _) => unfold on_chg2
    | |- preserves _ (on_chg _ _) => unfold on_chg
    | |- preserves _ (if_chg _ _) => unfold if_chg
    | |- preserves _ (asks _ _ _) => unfold asks
    | |- preserves _ adapter => unfold adapter
    | |- preserves _ (let '(_, _) := ?x in _) => destruct x
    end.

Section Indices.
  Context {E : Type} `{!Platform E} `{!PdPlatform E}.
  Abbreviation W := (pdworld E).
  Context (Had : forall h e, cap_ok (eval (adapter_dev_get_cap (adapter_at <$> h) MTK_PD cap0) e).2).

(** The invariant, with [b] once the index for 5 V is known. *)
Definition okp (b : bool) (p : mtk_pd) : Prop := pd_ok p /\ (b = true -> idx_ok (p_reset_idx p)).
Abbreviation okr b := (fun w : W => okp b (pd w)).

Ltac ok_upd := intros; unfold okp, pd_ok in *; cbn in *; first [tauto|intuition congruence].
Ltac ok_pure := pd_inv; try ok_upd.

Lemma ok_ready b : preserves (okr b) (pd_hal_is_pd_adapter_ready (E := E)).
Proof. unfold pd_hal_is_pd_adapter_ready. ok_pure. Qed.

Lemma ok_adapter_cap b : preserves (okr b) (pd_hal_get_adapter_cap (E := E)).
Proof using Had.
  unfold pd_hal_get_adapter_cap, adapter. apply (preserves_post _ (fun a => exists h, a = adapter_at <$> h)).
  { intros w Hw. split; [done|]. by eexists. }
  intros a [h ->]. apply (preserves_post _ (fun r => cap_ok r.2)).
  - intros w Hw. split; [by rewrite pd_liftp|]. specialize (Had h (pe w)).
    unfold eval, liftp in *. by destruct (adapter_dev_get_cap _ _ _ _).
  - intros r Hr. ok_pure.
Qed.

Lemma ok_init_table b : preserves (okr b) (__mtk_pdc_init_table (E := E)).
Proof using Had.
  unfold __mtk_pdc_init_table. apply preserves_bind.
  { apply inv_modp. intros p ((Hc & Hi) & Hr). split; [split; [|done]|done].
    destruct Hc as (_ & _ & Hl). split_and!; [cbn..|done]; [lia|unfold PD_CAP_MAX_NR; lia|done]. }
  intros _. apply preserves_bind; [apply ok_ready|]. intros r. apply preserves_when, preserves_ignore, ok_adapter_cap.
Qed.

Lemma ok_get_reset b w : okr b w -> okr true (exec (__mtk_pdc_get_reset_idx (E := E)) w).
Proof.
  intros ((Hc & Hi & Hr & Hb) & _). unfold exec, __mtk_pdc_get_reset_idx, modp, modify, okp. cbn [snd pd upd_field].
  destruct (Z.eqb_spec (p_reset_idx (pd w)) (-1)) as [En|En].
  - pose proof (reset_idx_ok _ Hc). unfold pd_ok. cbn. tauto.
  - unfold pd_ok. destruct Hr as [?|?]; [done|]. tauto.
Qed.

Lemma ok_neighbours b i : idx_ok i -> preserves (okr b) (__mtk_pdc_get_idx (E := E) i).
Proof.
  intros Hi. unfold __mtk_pdc_get_idx. assert (idx_ok 0) by (unfold idx_ok, PD_CAP_MAX_NR; lia). pd_inv; [ok_upd|].
  match goal with H : okp _ ?p |- _ => pose proof (next_idx_ok Z.ltb p i); pose proof (next_idx_ok Z.gtb p i) end. ok_upd.
Qed.

Ltac ok_hal :=
  unfold needs_update, pd_hal_get_mivr, pd_hal_get_charger_cnt, pd_hal_is_chip_enable, pd_hal_enable_vbus_ovp,
    pd_hal_set_mivr, pd_hal_get_input_current, pd_hal_set_input_current, pd_hal_set_charging_current, pd_hal_set_cv,
    pd_hal_set_adapter_cap, pd_hal_get_mivr_state, pd_hal_get_ibus, pd_hal_get_vbus, get_pmic_vbus, pd_hal_get_uisoc,
    pd_hal_is_charger_enable, pd_hal_enable_charger, pd_hal_get_charging_current, pd_hal_get_min_charging_current,
    pd_hal_get_min_input_current, pd_hal_safety_check, pd_hal_set_eoc_current, pd_hal_enable_termination,
    pd_hal_charger_enable_chip, capped; ok_pure.

Lemma ok_request b i m : idx_ok i -> preserves (okr b) (request (E := E) i m).
Proof. intros Hi. unfold request. pose proof (ok_neighbours b i Hi). ok_hal; done. Qed.

Lemma ok_setup b i : idx_ok i -> preserves (okr b) (__mtk_pdc_setup (E := E) i).
Proof. intros Hi. unfold __mtk_pdc_setup. pose proof (ok_request b i). ok_hal; auto. Qed.

Lemma ok_reset b w : okr b w -> okr true (exec (mtk_pdc_reset (E := E)) w).
Proof using Had.
  intros Hw. unfold mtk_pdc_reset. rewrite !exec_bind. set (w1 := exec __mtk_pdc_get_reset_idx _).
  assert (okr true w1) as H1 by (eapply ok_get_reset, ok_init_table, Hw).
  rewrite exec_ignore. apply ok_setup; [apply H1; done|done].
Qed.

Lemma choose_idx_ok p ibus m : pd_ok p -> idx_ok (choose_idx p ibus m).
Proof.
  intros ((_ & Hs & _) & _ & _ & Hb & Hc). unfold choose_idx.
  case_tests; bool_prop; try done; unfold idx_ok, PD_CAP_MAX_NR in *; lia.
Qed.

Lemma ok_setting b w : okr b w -> okr true (exec (__mtk_pdc_get_setting (E := E)) w) /\
  (forall v c i, eval (__mtk_pdc_get_setting (E := E)) w = Some (v, c, i) -> idx_ok i).
Proof using Had.
  intros Hw. unfold __mtk_pdc_get_setting.
  rewrite exec_bind, eval_bind. assert (okr b (exec __mtk_pdc_init_table w)) as H0 by (by apply ok_init_table). revert H0.
  generalize (exec (__mtk_pdc_init_table (E := E)) w). clear w Hw. intros w Hw. rewrite exec_bind, eval_bind.
  assert (okr true (exec __mtk_pdc_get_reset_idx w)) as H0 by (by eapply ok_get_reset). revert H0.
  generalize (exec (__mtk_pdc_get_reset_idx (E := E)) w). clear w Hw. intros w Hw.
  set (Q := fun r : option (Z * Z * Z) => forall v c i, r = Some (v, c, i) -> idx_ok i).
  match goal with |- context [exec ?m w] => cut (yields (okr true) Q m); [intros Hy; by apply Hy|] end.
  assert (forall m1 m2 : bool, forall vbus mivr1 mivr2 ibus, yields (okr true) idx_ok
    (if collapsed m1 vbus mivr1 || collapsed m2 vbus mivr2 then mtk_pdc_reset (E := E) ;;; getp p_reset_idx
     else getp (fun p => choose_idx p ibus (m1 || m2)))) as Hy.
  { intros. apply yields_if; intros _ v Hv.
    - rewrite exec_bind, eval_bind. pose proof (ok_reset true v Hv) as Hr. split; [exact Hr|]. by apply Hr.
    - split; [done|]. apply choose_idx_ok, Hv. }
  apply yields_bind; [apply inv_modp; intros; case_match; ok_upd|]. intros _.
  apply yields_bind; [ok_pure|]. intros n. apply yields_if; intros _; [by apply yields_ret|].
  apply yields_bind; [ok_hal|]. intros ib. apply yields_if; intros _; [by apply yields_ret|].
  do 6 (apply yields_bind; [ok_hal|]; intros ?).
  eapply yields_post; [apply Hy|]. intros i Hi v Hv. split; [done|]. intros ? ? j [= _ _ <-]. done.
Qed.

Abbreviation inv := (okr false).

Lemma weaken b w : okr b w -> inv w.
Proof. intros [H _]. by split. Qed.

Lemma ok_run : preserves inv (__pd_run (E := E)).
Proof using Had.
  unfold __pd_run. apply preserves_bind.
  - apply (preserves_post _ (fun s => forall v c i, s = Some (v, c, i) -> idx_ok i)).
    { intros w Hw. destruct (ok_setting false w Hw) as [H1 H2]. split; [by eapply weaken|done]. }
    intros [[[v c] i]|] Hs; [|ok_pure]. pose proof (ok_setup false i (Hs v c i eq_refl)). ok_pure.
    case_match; ok_upd.
  - intros _. unfold pd_dcs_set_charger, pd_sc_set_charger, dcs_currents, second_on. ok_hal; try (case_match; ok_upd).
Qed.

Lemma ok_init : preserves inv (_pd_init_algo (E := E)).
Proof.
  unfold _pd_init_algo, pd_hal_init_hardware, find_charger. assert (idx_ok 0) by (unfold idx_ok, PD_CAP_MAX_NR; lia). ok_hal.
Qed.

Lemma ok_stop : preserves inv (_pd_stop_algo (E := E)).
Proof using Had.
  unfold _pd_stop_algo. assert (preserves inv (mtk_pdc_reset (E := E))) by (intros w Hw; by eapply weaken, ok_reset).
  unfold second_off. ok_hal.
Qed.

Lemma ok_algo_ready : preserves inv (_pd_is_algo_ready (E := E)).
Proof. unfold _pd_is_algo_ready, pd_hal_is_pd_adapter_ready. ok_hal. Qed.

Lemma ok_start : preserves inv (_pd_start_algo (E := E)).
Proof using Had.
  assert (preserves inv (start_round (E := E))) as H.
  { pose proof ok_run. unfold start_round, pd_hal_is_pd_adapter_ready. ok_hal. }
  unfold _pd_start_algo, start_loop. ok_pure.
Qed.

Lemma ok_notify n : preserves inv (_pd_notifier_call (E := E) n).
Proof.
  assert (idx_ok 0) by (unfold idx_ok, PD_CAP_MAX_NR; lia).
  unfold _pd_notifier_call, pd_plugout_reset, pd_full_evt, dcs_full, second_off. destruct (notify_evt n); ok_hal.
  case_match; ok_upd.
Qed.

(** What happens to the algorithm: its operations and changes of the world. *)
Inductive pd_step (w : W) : W -> Prop :=
| step_init : pd_step w (exec _pd_init_algo w)
| step_ready : pd_step w (exec _pd_is_algo_ready w)
| step_start : pd_step w (exec _pd_start_algo w)
| step_stop : pd_step w (exec _pd_stop_algo w)
| step_notify n : pd_step w (exec (_pd_notifier_call n) w)
| step_limits s : pd_step w (exec (_pd_set_setting s) w)
| step_config c : pd_step w (exec (alg_set_config pd_alg_device c) w)
| step_world e : pd_step w (w <| pe := e |>).

Lemma ok_step w w' : pd_step w w' -> inv w -> inv w'.
Proof using Had.
  destruct 1; [apply ok_init|apply ok_algo_ready|apply ok_start|apply ok_stop|apply ok_notify|..|done].
  - unfold _pd_set_setting. revert w. change (preserves inv (_pd_set_setting (E := E) s)). unfold _pd_set_setting. ok_pure.
  - revert w. change (preserves inv (modp (E := E) (fun p => p <| p_config := c |>))). ok_pure.
Qed.

(** C17: after probe, whatever operations of the algorithm are called in whatever
    order, with any changes of the rest of the system between them, every index
    the algorithm keeps is inside its arrays of ten capabilities (or -1, where
    that means none), provided the adapter reports at most ten. *)
Theorem pd_indices_in_range np w w' :
  rtc pd_step (exec (mtk_pd_probe np) w) w' -> pd_ok (pd w').
Proof using Had.
  intros Hr. assert (inv (exec (mtk_pd_probe np) w)) as H0.
  { unfold mtk_pd_probe. rewrite !exec_bind. set (w1 := exec (liftp _) _).
    assert (pd w1 = mtk_pd_parse_dt np pd0) as E1 by (unfold w1; by rewrite pd_liftp).
    unfold exec, modp, modify, ret. cbn [snd pd upd_field]. rewrite E1.
    unfold okp, pd_ok, cap_ok, idx_ok, PD_CAP_MAX_NR. cbn.
    split; [|done]. split_and!; first [lia|repeat constructor|right; lia]. }
  remember (exec (mtk_pd_probe np) w) as w0 eqn:E0. clear E0. induction Hr as [w0|w0 w1 w2 Hs Hr IH]; [apply H0|].
  apply IH. by eapply ok_step.
Qed.
End Indices.

(** ** Starting *)

Section Run.
  Context {E : Type} `{!Platform E} `{!PdPlatform E}.
  Abbreviation W := (pdworld E).

Lemma wp_liftp {A} (m : M E A) (Q : A -> W -> Prop) w : (forall a w', pd w' = pd w -> Q a w') -> wp (liftp m) Q w.
Proof. intros H. apply (wp_keeps pd); [apply pd_liftp|done]. Qed.
Lemma wp_of_pd {A} (f : mtk_pd -> A) (Q : A -> W -> Prop) w : Q (f (pd w)) w -> wp (getp f) Q w.
Proof. done. Qed.
Lemma wp_modp f (Q : unit -> W -> Prop) w : Q tt (w <| pd ::= f |>) -> wp (modp f) Q w.
Proof. done. Qed.

(** A round that asks for another has set the state to running, and a round of a
    running algorithm asks for none. *)
Lemma round_again w : wp (start_round (E := E)) (fun r w' => snd r = true -> p_state (pd w') = PD_RUN) w.
Proof.
  unfold start_round. apply wp_bind, wp_of_pd. apply wp_if; [by intros; apply wp_ret|intros _].
  apply wp_if; intros Hs.
  2:{ apply wp_if; [by intros; apply wp_ret|intros _]. apply wp_if; intros _; [|by apply wp_ret].
      apply wp_bind, wp_run. by apply wp_ret. }
  apply wp_bind, wp_run. apply wp_if; intros _; [by apply wp_bind, wp_modp, wp_ret|].
  apply wp_if; intros _; [|by apply wp_ret]. apply wp_bind, wp_run. apply wp_bind, wp_of_pd.
  apply wp_if; intros _; [by apply wp_ret|]. by apply wp_bind, wp_modp, wp_ret.
Qed.

Lemma round_running w : p_state (pd w) = PD_RUN -> wp (start_round (E := E)) (fun r _ => snd r = false) w.
Proof.
  intros Hs. unfold start_round. apply wp_bind, wp_of_pd. rewrite Hs. cbn. apply wp_bind, wp_run. by apply wp_ret.
Qed.

(** The loop that starts the algorithm ends within two rounds, with a result,
    from every state and whatever the adapter and the chargers answer; more
    rounds change nothing. *)
Theorem pd_start_settles n (w : W) :
  start_loop (S (S n)) w = start_loop 2 w /\ exists r, eval (start_loop 2) w = Some r.
Proof.
  pose proof (round_again w) as H1. unfold wp, eval, exec in *. cbn [start_loop]. unfold bind.
  destruct (start_round w) as [[r again] w1]. cbn [fst snd] in *. destruct again; [|by split; [|eexists]].
  pose proof (round_running w1 (H1 eq_refl)) as H2. unfold wp, eval in H2.
  destruct (start_round w1) as [[r2 again2] w2]. cbn [fst snd] in *. subst. by split; [|eexists].
Qed.

(** ** Currents *)

Lemma asks_pd i old f : keeps pd (asks (E := E) i old f).
Proof.
  intros w. unfold asks. rewrite exec_bind. cbn. destruct (match i with CHG1 => p_chg1 | CHG2 => p_chg2 end (pd w)); [|done].
  rewrite exec_bind. unfold on_chg, on_chg1, on_chg2. destruct i; rewrite exec_bind; cbn; by rewrite pd_liftp.
Qed.

Lemma capped_wp limit most m (w : W) : keeps pd m ->
  wp (capped limit most m) (fun i w' => pd w' = pd w /\ i <= Z.max 0 most /\ (limit <> -1 -> i <= Z.max 0 limit) /\ (i <> 0 -> i <= most)) w.
Proof.
  intros Hm. unfold capped. apply wp_if; intros Hl; bool_prop.
  - apply wp_bind, (wp_keeps pd); [done|]. intros a w' Hw. apply wp_ret. split; [done|]. case_match; lia.
  - apply wp_ret. split; [done|]. lia.
Qed.

Lemma on_chg_pd {A} i (f : _ -> M E A) : keeps pd (on_chg i f).
Proof. intros w. unfold on_chg, on_chg1, on_chg2. destruct i; rewrite exec_bind; cbn; by rewrite pd_liftp. Qed.

Lemma on_chg1_pd {A} (f : _ -> M E A) : keeps pd (on_chg1 f).
Proof. exact (on_chg_pd CHG1 f). Qed.

(** What programs one charger. *)
Definition program (c i cv : Z) : M W unit :=
  pd_hal_set_charging_current CHG1 c ;;; pd_hal_set_input_current CHG1 i ;;; pd_hal_set_cv CHG1 cv.

Lemma program_pd c i cv : keeps pd (program c i cv).
Proof.
  unfold program, pd_hal_set_charging_current, pd_hal_set_input_current, pd_hal_set_cv.
  repeat match goal with
    | |- forall _, _ => intro
    | |- keeps _ (bind _ _) => apply keeps_bind
    | |- keeps _ (ignore _) => apply keeps_ignore
    | |- keeps _ (on_chg1 _) => apply on_chg1_pd
    | |- keeps _ (on_chg _ _) => apply on_chg_pd
    end.
Qed.

(** The choice of the charging current. *)
Definition sc_charging (p : mtk_pd) : M W unit :=
  let limit := p_charging_current_limit1 p in
  if negb (limit =? -1) then
    when (limit <? p_sc_charger_current p) (modp (fun p => p <| p_charging_current1 := limit |>)) ;;;
    let! m := pd_hal_get_min_charging_current CHG1 (-1) in
    when (limit <? m) (modp (fun p => p <| p_charging_current1 := 0 |>))
  else modp (fun p => p <| p_charging_current1 := p_sc_charger_current p |>).

Lemma sc_charging_wp (w : W) :
  p_charging_current1 (pd w) <= p_sc_charger_current (pd w) -> 0 <= p_sc_charger_current (pd w) ->
  wp (sc_charging (pd w)) (fun _ w' => exists c, pd w' = (pd w) <| p_charging_current1 := c |> /\ c <= p_sc_charger_current (pd w) /\
    (p_charging_current_limit1 (pd w) <> -1 -> c <= Z.max 0 (p_charging_current_limit1 (pd w)))) w.
Proof.
  intros Hc Hs. unfold sc_charging. apply wp_if; intros Hl; bool_prop.
  2:{ apply wp_modp. eexists. split; [reflexivity|]. lia. }
  apply wp_bind. apply (wp_mono _ (fun _ w1 => exists c, pd w1 = (pd w) <| p_charging_current1 := c |> /\
    c <= p_sc_charger_current (pd w) /\ c <= Z.max 0 (p_charging_current_limit1 (pd w)))).
  - apply wp_when; intros H; bool_prop.
    + apply wp_modp. eexists. split; [reflexivity|]. lia.
    + exists (p_charging_current1 (pd w)). split; [by destruct (pd w)|]. lia.
  - intros _ w1 (c & E1 & H1 & H2). apply wp_bind, (wp_keeps pd); [apply asks_pd|]. intros m w2 E2.
    apply wp_when; intros H.
    + apply wp_modp. exists 0. split; [cbn; by rewrite E2, E1|]. lia.
    + exists c. rewrite E2, E1. split; [done|]. split; [done|]. intros _. exact H2.
Qed.

(** C16: with one charger, whatever limits are set and whatever the charger answers:
    if the algorithm goes on, the last thing it did was to program the charger
    with a charging and an input current that are within the limits and within
    the configured currents, and not zero.  The charging current it remembers
    stays within the configured one in any case. *)
Theorem sc_within_limits (w : W) :
  p_charging_current1 (pd w) <= p_sc_charger_current (pd w) -> 0 <= p_sc_charger_current (pd w) ->
  let w' := exec pd_sc_set_charger w in
  let p := pd w' in
  p_charging_current1 p <= p_sc_charger_current p /\
  (eval pd_sc_set_charger w = 0 ->
   let c := p_charging_current1 p in
   let i := p_input_current1 p in
   c <> 0 /\ i <> 0 /\ i <= p_sc_input_current p /\
   (p_charging_current_limit1 p <> -1 -> c <= Z.max 0 (p_charging_current_limit1 p)) /\
   (p_input_current_limit1 p <> -1 -> i <= Z.max 0 (p_input_current_limit1 p)) /\
   exists w1, pd w1 = p /\ w' = exec (program c i (p_cv p)) w1).
Proof.
  intros Hc Hs. cbv zeta. pattern (eval pd_sc_set_charger w), (exec pd_sc_set_charger w).
  match goal with |- ?F _ _ => set (Q := F) end. change (wp pd_sc_set_charger Q w). unfold pd_sc_set_charger.
  apply wp_bind, wp_of_pd, wp_if; intros Hz; [apply wp_ret; by split|].
  apply wp_bind. fold (sc_charging (pd w)). eapply wp_mono; [by apply sc_charging_wp|]. intros _ w1 (c & E1 & H1 & H2).
  apply wp_bind, wp_bind. eapply wp_mono; [apply capped_wp, asks_pd|]. intros i w2 (E2 & H3 & H4 & H5).
  apply wp_modp, wp_bind, wp_of_pd. cbn [pd upd_field]. rewrite E2, E1.
  cbn [p_input_current1 p_charging_current1 p_cv upd_field].
  apply wp_if; intros Hn; bool_prop; [apply wp_ret; split; [cbn; rewrite E2, E1; cbn; lia|done]|].
  set (w3 := w2 <| pd ::= _ |>). assert (pd w3 = (pd w) <| p_charging_current1 := c |> <| p_input_current1 := i |>) as E3.
  { unfold w3. cbn [pd upd_field]. by rewrite E2, E1. }
  clearbody w3. change (wp (program c i (p_cv (pd w)) ;;; ret 0) Q w3). apply wp_bind, wp_run, wp_ret. subst Q. cbv beta.
  pose proof (program_pd c i (p_cv (pd w)) w3) as E4. rewrite E4, E3.
  split; [exact H1|]. intros _. split_and!; [done|done|by apply H5|exact H2|exact H4|].
  exists w3. split; [done|]. reflexivity.
Qed.

(** With one charger, a limit of the charging current that is not below the
    configured current is not taken over: the current stays what it was before
    (or becomes 0), so after a low limit was raised the charger goes on with the
    low one. *)
Theorem raised_limit_ignored (w : W) :
  p_charging_current_limit1 (pd w) <> -1 -> p_sc_charger_current (pd w) <= p_charging_current_limit1 (pd w) ->
  let c := p_charging_current1 (pd (exec pd_sc_set_charger w)) in c = p_charging_current1 (pd w) \/ c = 0.
Proof.
  intros Hl Hs. cbv zeta. pattern (exec pd_sc_set_charger w). match goal with |- ?F _ => set (Q := F) end.
  change (wp pd_sc_set_charger (fun _ => Q) w). unfold pd_sc_set_charger.
  apply wp_bind, wp_of_pd, wp_if; intros Hz; [apply wp_ret; by left|]. apply wp_bind. fold (sc_charging (pd w)).
  apply (wp_mono _ (fun _ => Q)).
  { unfold sc_charging. apply Z.eqb_neq in Hl as ->. apply Z.ltb_ge in Hs as ->. cbn [negb]. apply wp_bind, wp_ret.
    apply wp_bind, (wp_keeps pd); [apply asks_pd|]. intros m w2 E2. apply wp_when; intros _.
    - apply wp_modp. by right.
    - left. by rewrite E2. }
  intros _ w1 H1. apply wp_bind, wp_bind. eapply wp_mono; [apply capped_wp, asks_pd|]. intros i w2 (E2 & _).
  apply wp_modp. set (w3 := w2 <| pd ::= _ |>).
  assert (p_charging_current1 (pd w3) = p_charging_current1 (pd w1)) as E3 by (cbn; by rewrite E2). clearbody w3.
  assert (Q w3) as H3 by (unfold Q in *; by rewrite E3). apply wp_bind, wp_of_pd, wp_if; intros _; [by apply wp_ret|].
  change (wp (program (p_charging_current1 (pd w3)) (p_input_current1 (pd w3)) (p_cv (pd w3)) ;;; ret 0) (fun _ => Q) w3).
  apply wp_bind, (wp_keeps pd); [apply program_pd|]. intros _ w4 E4. apply wp_ret. unfold Q in *. by rewrite E4.
Qed.

(** ** The end of charge *)

(** With one charger, the end of charge takes the algorithm out of its running
    state without a call to the adapter or the charger, and the command to stop
    then does nothing: the bus stays at the raised voltage, with the manager's
    over-voltage protection off, until the cable is pulled. *)
Theorem full_keeps_voltage n (w : W) :
  notify_evt n = EVT_FULL -> p_config (pd w) <> DUAL_CHARGERS_IN_SERIES -> p_state (pd w) = PD_RUN ->
  let w' := exec (_pd_notifier_call n) w in
  pe w' = pe w /\ p_state (pd w') = PD_HW_READY /\ p_idx (pd w') = p_idx (pd w) /\ exec _pd_stop_algo w' = w'.
Proof.
  intros Hn Hc Hs. unfold _pd_notifier_call, pd_full_evt. rewrite Hn. unfold exec at 1 2 3. cbn. rewrite Hs. cbn.
  apply Z.eqb_neq in Hc. rewrite Hc. cbn. split_and!; try done.
  unfold exec. cbn. rewrite Hs. cbn. rewrite Hc. cbn. done.
Qed.

(** ** The choice of a capability *)

(** A bus that collapses below the input voltage limit is never noticed: the
    voltage is taken in microvolts, as the charger gives it, and compared with
    the limit in millivolts.  For every limit the chip can be set to, a bus above
    13 mV counts as standing. *)
Theorem collapse_never_seen (w : W) v mivr m :
  eval (on_chg1 (fun d => charger_dev_get_vbus d 0)) w = (0, v) -> 13000 <= v < 2 ^ 31 -> 500000 <= mivr <= 13400000 ->
  collapsed m (eval pd_hal_get_vbus w) mivr = false.
Proof.
  intros Hv Hr Hm. assert (eval pd_hal_get_vbus w = v) as ->.
  { unfold pd_hal_get_vbus. rewrite eval_bind, Hv. cbn. apply s32_id. unfold is_s32. lia. }
  unfold collapsed. replace (u32 v <? u32 (mivr / 1000 - 500)) with false; [by destruct m|].
  assert (500 <= mivr / 1000 <= 13400) by (split; [apply Z.div_le_lower_bound|apply Z.div_le_upper_bound]; lia).
  symmetry. apply Z.ltb_ge. rewrite !u32_id by (unfold is_u32; lia). lia.
Qed.
End Run.

(** The power of the next lower capability, less what the system needs, is
    computed unsigned.  When that capability gives less than the system needs (5 W
    by default, so already for 5 V at 1 A), the difference wraps around and every
    draw counts as small: unless the selected capability is exhausted, the
    algorithm steps down, whatever is drawn, and never stays. *)
Theorem weak_step_always_down p ibus :
  let b := p_buck_idx p in
  let weak := at_idx (max_mv (p_cap p)) b * at_idx (ma (p_cap p)) b in
  let sel := if PD_CAP_MAX_NR <=? selected_cap_idx (p_cap p) then 0 else selected_cap_idx (p_cap p) in
  0 <= weak < 2 ^ 31 -> 0 <= p_ibus_err p <= 100 -> weak / 100 * (100 - p_ibus_err p) < p_vsys_watt p < 2 ^ 31 ->
  now_max_watt p sel ibus < 2 ^ 31 ->
  choose_idx p ibus false = if pd_max_watt p sel <=? now_max_watt p sel ibus then p_boost_idx p else b.
Proof.
  cbv zeta. intros Hw He Hv Hn. unfold choose_idx. rewrite orb_false_r.
  match goal with |- context [pd_max_watt p ?i <=? _] => set (sel := i) in * end.
  destruct (pd_max_watt p sel <=? now_max_watt p sel ibus); [done|].
  replace (now_max_watt p sel ibus <=? pd_min_watt p) with true; [done|]. symmetry. apply Z.leb_le. unfold pd_min_watt.
  set (weak := at_idx (max_mv (p_cap p)) (p_buck_idx p) * at_idx (ma (p_cap p)) (p_buck_idx p)) in *.
  rewrite (s32_id weak) by (unfold is_s32; lia). rewrite Z.quot_div_nonneg by lia.
  set (d := weak / 100 * (100 - p_ibus_err p)) in *. assert (0 <= d) by (unfold d; apply Z.mul_nonneg_nonneg; [apply Z.div_pos|]; lia).
  assert (u32 (d - p_vsys_watt p) = d - p_vsys_watt p + 2 ^ 32) as ->.
  { unfold u32, wrapu. rewrite <- (Z.mod_small (d - p_vsys_watt p + 2 ^ 32) (2 ^ 32)) by lia.
    by rewrite Zplus_mod, Z_mod_same_full, Z.add_0_r, Zmod_mod. }
  destruct (Z.leb_spec (d - p_vsys_watt p + 2 ^ 32) 5000000); lia.
Qed.

(** ** On a board

    The board of [Board] with the partner of [AdapterSpec] at its port. *)

#[global] Instance board_pd : PdPlatform board := {|
  adapter_at := fun _ => {|
    ad_ops := fun _ => Some {|
      ad_get_property := Some (fun _ => ret MTK_PD_CONNECT_PE_READY_SNK);
      ad_get_status := None;
      ad_set_cap := Some (fun _ _ _ => ret 0);
      ad_get_cap := Some (fun t c => ret (eval (pd_get_cap t c) partner0));
      ad_get_output := None |};
    ad_set_ops := fun _ => ret tt |};
  adapter_list := fun _ => [("pd_adapter"%string, 0%nat)];
  chg_enable_vbus_ovp := fun _ => ret 0
|}.

(** A device tree without properties. *)
Definition bare_node : device_node :=
  {| of_u32 := fun _ => None; of_bool := fun _ => false; of_string := fun _ => None; of_bootmode := None |}.

Definition no_limits : chg_limit_setting := mk_chg_limit_setting 4400000 (-1) (-1) (-1) (-1).
Definition pd_board0 : pdworld board := exec (mtk_pd_probe bare_node) (mk_pdworld pd0 board0).
(** Running at the selected 5 V. *)
Definition pd_board1 : pdworld board :=
  exec (_pd_init_algo ;;; _pd_set_setting no_limits ;;; _pd_start_algo) pd_board0.

Lemma board_table : forall h e, cap_ok (eval (adapter_dev_get_cap (E := board) (adapter_at <$> h) MTK_PD cap0) e).2.
Proof. intros [h|] e; (split_and!; [by vm_compute..|]); repeat constructor. Qed.

Lemma pd_indices_in_range_witness : pd_ok (pd pd_board1).
Proof.
  apply (pd_indices_in_range (E := board) board_table bare_node (mk_pdworld pd0 board0)). unfold pd_board1.
  rewrite !exec_bind. eapply rtc_l; [apply step_init|]. eapply rtc_l; [apply (step_limits _ no_limits)|].
  eapply rtc_l; [apply step_start|]. apply rtc_refl.
Defined.

Lemma sc_within_limits_witness :
  p_state (pd pd_board1) = PD_RUN /\ eval pd_sc_set_charger pd_board1 = 0 /\
  p_charging_current1 (pd (exec pd_sc_set_charger pd_board1)) <= 3000000.
Proof.
  split; [by vm_compute|]. split; [by vm_compute|].
  destruct (sc_within_limits pd_board1) as [H _]; [by vm_compute|by vm_compute|].
  etransitivity; [exact H|]. by vm_compute.
Defined.

(** A limit of 1 A is lifted to 3.1 A. *)
Definition pd_board2 : pdworld board :=
  pd_board1 <| pd ::= fun p => p <| p_charging_current1 := 1000000 |> <| p_charging_current_limit1 := 3100000 |> |>.

Lemma raised_limit_ignored_witness : p_charging_current1 (pd (exec pd_sc_set_charger pd_board2)) <= 1000000.
Proof.
  destruct (raised_limit_ignored pd_board2) as [H|H]; [by vm_compute|by vm_compute|..]; rewrite H; by vm_compute.
Defined.

Lemma full_keeps_voltage_witness :
  exec _pd_stop_algo (exec (_pd_notifier_call (mk_chg_alg_notify EVT_FULL 0)) pd_board1) =
    exec (_pd_notifier_call (mk_chg_alg_notify EVT_FULL 0)) pd_board1.
Proof. apply (full_keeps_voltage (mk_chg_alg_notify EVT_FULL 0) pd_board1); [done|by vm_compute|by vm_compute]. Defined.

(** The bus at 4 V while the limit is at 7.8 V. *)
Definition pd_board3 : pdworld board := pd_board1 <| pe ::= fun b => b <| b_vbus := 4000000 |> |>.

Lemma collapse_never_seen_witness : collapsed true (eval pd_hal_get_vbus pd_board3) 7800000 = false.
Proof. apply (collapse_never_seen pd_board3 4000000); [by vm_compute|lia|lia]. Defined.

(** 5 V at 1 A and 9 V at 2 A, the second selected, and 9 W drawn. *)
Definition weak_adapter : mtk_pd :=
  mtk_pd_parse_dt bare_node pd0
    <| p_cap := cap0 <| nr := 2 |> <| selected_cap_idx := 1 |> <| max_mv := 5000 :: 9000 :: replicate 8 0 |>
                     <| min_mv := 5000 :: 9000 :: replicate 8 0 |> <| ma := 1000 :: 2000 :: replicate 8 0 |>
                     <| maxwatt := 5000000 :: 18000000 :: replicate 8 0 |> |>
    <| p_boost_idx := 1 |> <| p_buck_idx := 0 |>.

Lemma weak_step_always_down_witness : now_max_watt weak_adapter 1 1000 = 9000000 /\ choose_idx weak_adapter 1000 false = 0.
Proof.
  split; [by vm_compute|]. etransitivity; [apply weak_step_always_down|by vm_compute].
  all: vm_compute; intuition discriminate.
Defined.
