(* ===== verification/MtkPdContract.v ===== *)
(** * The charging manager with power delivery

    The manager of [ChargerSpec] is safe on every platform that honours
    [ChipLaws].  Here a platform is extended by the power-delivery algorithm of
    [MtkPd]: its state joins the state of the platform, every operation of the
    platform acts on its part, and the algorithm is the device behind one of the
    handles of the algorithm class.  The extended platform honours the contract if
    the platform does. *)

From S2P Require Import Prelude ChargerClass AlgClass ChargerTypes ChargerDt Platform Board.
From S2P Require Import ChargerIntf MtkCharger ChargerSpec AdapterClass AdapterSpec MtkPd MtkPdSpec.
From S2P Require Import Mt6370 Mt6370Ops Mt6370Chip Mt6370Regs Mt6370Spec.
#[local] Open Scope Z_scope.

(** ** The extended platform *)

Section Extend.
  Context {E : Type} `{!Platform E} `{!PdPlatform E}.

(** A driver of the platform.  Of the operations on a device's table only taking
    it away is used. *)
Definition lift_ops (o : charger_ops E mtk_charger) : charger_ops (pdworld E) mtk_charger := {|
  ops_plug_in := liftp <$> ops_plug_in o;
  ops_plug_out := liftp <$> ops_plug_out o;
  ops_enable := (fun f a => liftp (f a)) <$> ops_enable o;
  ops_is_enabled := (fun f a => liftp (f a)) <$> ops_is_enabled o;
  ops_enable_chip := (fun f a => liftp (f a)) <$> ops_enable_chip o;
  ops_is_chip_enabled := (fun f a => liftp (f a)) <$> ops_is_chip_enabled o;
  ops_get_charging_current := (fun f a => liftp (f a)) <$> ops_get_charging_current o;
  ops_set_charging_current := (fun f a => liftp (f a)) <$> ops_set_charging_current o;
  ops_get_min_charging_current := (fun f a => liftp (f a)) <$> ops_get_min_charging_current o;
  ops_set_constant_voltage := (fun f a => liftp (f a)) <$> ops_set_constant_voltage o;
  ops_get_constant_voltage := (fun f a => liftp (f a)) <$> ops_get_constant_voltage o;
  ops_get_input_current := (fun f a => liftp (f a)) <$> ops_get_input_current o;
  ops_set_input_current := (fun f a => liftp (f a)) <$> ops_set_input_current o;
  ops_get_min_input_current := (fun f a => liftp (f a)) <$> ops_get_min_input_current o;
  ops_get_eoc_current := (fun f a => liftp (f a)) <$> ops_get_eoc_current o;
  ops_set_eoc_current := (fun f a => liftp (f a)) <$> ops_set_eoc_current o;
  ops_kick_wdt := liftp <$> ops_kick_wdt o;
  ops_event := (fun f a b => liftp (f a b)) <$> ops_event o;
  ops_send_ta_current_pattern := (fun f a => liftp (f a)) <$> ops_send_ta_current_pattern o;
  ops_send_ta20_current_pattern := (fun f a => liftp (f a)) <$> ops_send_ta20_current_pattern o;
  ops_reset_ta := liftp <$> ops_reset_ta o;
  ops_enable_cable_drop_comp := (fun f a => liftp (f a)) <$> ops_enable_cable_drop_comp o;
  ops_set_mivr := (fun f a => liftp (f a)) <$> ops_set_mivr o;
  ops_get_mivr := (fun f a => liftp (f a)) <$> ops_get_mivr o;
  ops_get_mivr_state := (fun f a => liftp (f a)) <$> ops_get_mivr_state o;
  ops_get_indpm_state := (fun f a b => liftp (f a b)) <$> ops_get_indpm_state o;
  ops_is_powerpath_enabled := (fun f a => liftp (f a)) <$> ops_is_powerpath_enabled o;
  ops_enable_powerpath := (fun f a => liftp (f a)) <$> ops_enable_powerpath o;
  ops_enable_vbus_ovp := (fun f a => liftp (f a)) <$> ops_enable_vbus_ovp o;
  ops_is_safety_timer_enabled := (fun f a => liftp (f a)) <$> ops_is_safety_timer_enabled o;
  ops_enable_safety_timer := (fun f a => liftp (f a)) <$> ops_enable_safety_timer o;
  ops_enable_termination := (fun f a => liftp (f a)) <$> ops_enable_termination o;
  ops_enable_direct_charging := (fun f a => liftp (f a)) <$> ops_enable_direct_charging o;
  ops_kick_direct_charging_wdt := liftp <$> ops_kick_direct_charging_wdt o;
  ops_set_direct_charging_ibusoc := (fun f a => liftp (f a)) <$> ops_set_direct_charging_ibusoc o;
  ops_set_direct_charging_vbusov := (fun f a => liftp (f a)) <$> ops_set_direct_charging_vbusov o;
  ops_enable_otg := (fun f a => liftp (f a)) <$> ops_enable_otg o;
  ops_enable_discharge := (fun f a => liftp (f a)) <$> ops_enable_discharge o;
  ops_set_boost_current_limit := (fun f a => liftp (f a)) <$> ops_set_boost_current_limit o;
  ops_enable_chg_type_det := (fun f a => liftp (f a)) <$> ops_enable_chg_type_det o;
  ops_get_wpc_online := (fun f a => liftp (f a)) <$> ops_get_wpc_online o;
  ops_do_wpc_algorithm := (fun f a => liftp (f a)) <$> ops_do_wpc_algorithm o;
  ops_force_enable_wpc_charge := (fun f a => liftp (f a)) <$> ops_force_enable_wpc_charge o;
  ops_get_temp := liftp <$> ops_get_temp o;
  ops_set_wpc_en := (fun f a => liftp (f a)) <$> ops_set_wpc_en o;
  ops_set_sleep_en := (fun f a => liftp (f a)) <$> ops_set_sleep_en o;
  ops_run_aicl := (fun f a => liftp (f a)) <$> ops_run_aicl o;
  ops_reset_eoc_state := liftp <$> ops_reset_eoc_state o;
  ops_safety_check := (fun f a => liftp (f a)) <$> ops_safety_check o;
  ops_is_charging_done := (fun f a => liftp (f a)) <$> ops_is_charging_done o;
  ops_set_pe20_efficiency_table := liftp <$> ops_set_pe20_efficiency_table o;
  ops_dump_registers := liftp <$> ops_dump_registers o;
  ops_get_adc := (fun f a b c => liftp (f a b c)) <$> ops_get_adc o;
  ops_get_vbus_adc := (fun f a => liftp (f a)) <$> ops_get_vbus_adc o;
  ops_get_ibus_adc := (fun f a => liftp (f a)) <$> ops_get_ibus_adc o;
  ops_get_ibat_adc := (fun f a => liftp (f a)) <$> ops_get_ibat_adc o;
  ops_get_tchg_adc := (fun f a b => liftp (f a b)) <$> ops_get_tchg_adc o;
  ops_get_zcv := (fun f a => liftp (f a)) <$> ops_get_zcv o;
  ops_enable_usbid := (fun f a => liftp (f a)) <$> ops_enable_usbid o;
  ops_set_usbid_rup := (fun f a => liftp (f a)) <$> ops_set_usbid_rup o;
  ops_set_usbid_src_ton := (fun f a => liftp (f a)) <$> ops_set_usbid_src_ton o;
  ops_enable_usbid_floating := (fun f a => liftp (f a)) <$> ops_enable_usbid_floating o;
  ops_enable_force_typec_otp := (fun f a => liftp (f a)) <$> ops_enable_force_typec_otp o;
  ops_enable_hidden_mode := (fun f a => liftp (f a)) <$> ops_enable_hidden_mode o;
  ops_get_ctd_dischg_status := (fun f a => liftp (f a)) <$> ops_get_ctd_dischg_status o;
  ops_enable_hz := (fun f a => liftp (f a)) <$> ops_enable_hz o;
  ops_set_property := (fun f a b => liftp (f a b)) <$> ops_set_property o;
  ops_get_property := (fun f a b => liftp (f a b)) <$> ops_get_property o;
  ops_enable_dcap := (fun f a => liftp (f a)) <$> ops_enable_dcap o;
  ops_enable_ir_comp := (fun f a => liftp (f a)) <$> ops_enable_ir_comp o
|}.

Definition lift_charger (d : charger_device E mtk_charger) : charger_device (pdworld E) mtk_charger := {|
  dev_ops := fun w => lift_ops <$> dev_ops d (pe w);
  dev_set_ops := fun o => match o with None => liftp (dev_set_ops d None) | Some _ => ret tt end;
  dev_is_polling_mode := fun w => dev_is_polling_mode d (pe w);
  dev_set_is_adapter_detect := fun b => liftp (dev_set_is_adapter_detect d b)
|}.

(** Another algorithm of the platform. *)
Definition lift_alg_ops (o : chg_alg_ops E) : chg_alg_ops (pdworld E) := {|
  alg_init_algo := liftp <$> alg_init_algo o;
  alg_is_algo_ready := liftp <$> alg_is_algo_ready o;
  alg_start_algo := liftp <$> alg_start_algo o;
  alg_is_algo_running := liftp <$> alg_is_algo_running o;
  alg_stop_algo := liftp <$> alg_stop_algo o;
  alg_notifier_call := (fun f n => liftp (f n)) <$> alg_notifier_call o;
  alg_get_prop := (fun f a b => liftp (f a b)) <$> alg_get_prop o;
  alg_set_prop := (fun f a b => liftp (f a b)) <$> alg_set_prop o;
  alg_set_current_limit := (fun f s => liftp (f s)) <$> alg_set_current_limit o
|}.

Definition lift_alg (d : chg_alg_device E) : chg_alg_device (pdworld E) := {|
  alg_ops := fun w => lift_alg_ops <$> alg_ops d (pe w);
  alg_set_ops := fun o => match o with None => liftp (alg_set_ops d None) | Some _ => ret tt end;
  alg_set_config := fun c => liftp (alg_set_config d c);
  alg_notifier_chain_register := liftp (alg_notifier_chain_register d)
|}.

(** The platform with the algorithm behind handle [hpd]. *)
Definition pd_platform (hpd : nat) : Platform (pdworld E) := {|
  charger_at := fun h => lift_charger (charger_at h);
  alg_at := fun h => if Nat.eqb h hpd then pd_alg_device else lift_alg (alg_at h);
  charger_list := fun w => charger_list (pe w);
  alg_list := fun w => alg_list (pe w);
  charger_notifier_chain_register := fun a => liftp (charger_notifier_chain_register a);
  charger_dev_set_drvdata := fun a => liftp (charger_dev_set_drvdata a);
  tcpc_dev_get_by_name := fun a => liftp (tcpc_dev_get_by_name a);
  tcpm_inquire_typec_remote_rp_curr := fun a => liftp (tcpm_inquire_typec_remote_rp_curr a);
  Platform.get_adapter_by_name := fun a => liftp (Platform.get_adapter_by_name a);
  register_adapter_device_notifier := fun a => liftp (register_adapter_device_notifier a);
  Platform.adapter_dev_get_property := fun a b => liftp (Platform.adapter_dev_get_property a b);
  power_supply_get_by_phandle := fun a => liftp (power_supply_get_by_phandle a);
  power_supply_get_by_name := fun a => liftp (power_supply_get_by_name a);
  power_supply_get_property := fun a b c => liftp (power_supply_get_property a b c);
  power_supply_set_property := fun a b c => liftp (power_supply_set_property a b c);
  power_supply_get_drvdata := fun a => liftp (power_supply_get_drvdata a);
  gauge_soc := fun a => liftp (gauge_soc a);
  gauge_use_aging_zcv := fun a => liftp (gauge_use_aging_zcv a);
  get_battery_id_status := liftp get_battery_id_status;
  pmic_regmap := liftp pmic_regmap;
  regmap_update_bits := fun a b c d => liftp (regmap_update_bits a b c d);
  ktime_get_boottime := liftp ktime_get_boottime;
  msleep := fun a => liftp (msleep a);
  alarm_try_to_cancel := liftp alarm_try_to_cancel;
  alarm_start := fun a => liftp (alarm_start a);
  wake_up_interruptible := liftp wake_up_interruptible;
  kobject_uevent := liftp kobject_uevent;
  bat_metrics := fun a => liftp (bat_metrics a);
  kernel_power_off := liftp kernel_power_off;
  uninit := liftp uninit
|}.
End Extend.

(** ** What the algorithm asks of the platform *)

(** Besides [AlgLaws] of the chargers: the adapters do not switch the chip on, and
    neither does [mtk_chg_enable_vbus_ovp] of the charging manager ([ovp_quiet]). *)
Class PdLaws {E} `{!Platform E} `{!PdPlatform E} (on : E -> bool) : Prop := {
  q_adapter_property : forall h p, quiet on (adapter_dev_get_property (adapter_at <$> h) p);
  q_adapter_cap : forall h t c, quiet on (adapter_dev_get_cap (adapter_at <$> h) t c);
  q_adapter_set : forall h t v i, quiet on (adapter_dev_set_cap (adapter_at <$> h) t v i);
  q_ovp : forall b, quiet on (chg_enable_vbus_ovp b)
}.

#[export] Hint Resolve q_adapter_property q_adapter_cap q_adapter_set q_ovp : kern.

(** The law for [chg_enable_vbus_ovp], of the manager's code: it writes its own
    limit and a register of the PMIC. *)
Lemma ovp_quiet {E} `{!Platform E} (on : E -> bool) (ready en : bool) :
  quiet on pmic_regmap -> (forall r a m v, quiet on (regmap_update_bits r a m v)) ->
  quiet (fun w => on (env w)) (mtk_chg_enable_vbus_ovp ready en).
Proof.
  intros Hp Hr w Hw. revert w Hw.
  enough (preserves (fun w => on (env w) = false) (mtk_chg_enable_vbus_ovp ready en)) as H by exact H.
  assert (forall A (m : M E A), quiet on m -> preserves (fun w => on (env w) = false) (call m)) as Hc
    by (intros A m Hm w Hw; rewrite env_exec_call; by apply Hm).
  unfold mtk_chg_enable_vbus_ovp, disable_hw_ovp, pmic_set_register_value.
  destruct ready; cbn [negb]; [|apply preserves_ret].
  apply preserves_bind; [by intros ?|intros _]. apply preserves_bind; [|intros _; apply preserves_ret].
  apply preserves_bind; [by apply Hc|]. intros [map|]; [|apply preserves_ret].
  apply preserves_bind; [by apply Hc|intros _; apply preserves_ret].
Qed.

Section Contract.
  Context {E : Type} `{!Platform E} `{!PdPlatform E} (on : E -> bool) (h0 : nat) `{!ChipLaws on h0} `{!AlgLaws on} `{!PdLaws on}.
  Abbreviation W := (pdworld E).
  Abbreviation off := (fun w : W => on (pe w) = false).

Lemma off_liftp {A} (m : M E A) : quiet on m -> preserves off (liftp m).
Proof. intros H w Hw. specialize (H (pe w) Hw). unfold exec, liftp in *. by destruct (m (pe w)). Qed.
Lemma off_modp f : preserves off (modp (E := E) f).
Proof. by intros w. Qed.
Lemma off_getp {A} (f : mtk_pd -> A) : preserves off (getp (E := E) f).
Proof. by intros w. Qed.
Lemma off_adapter {A} (k : option (adapter_device E) -> M W A) :
  (forall h, preserves off (k (adapter_at <$> h))) -> preserves off (let! a := adapter in k a).
Proof. intros H w Hw. unfold adapter. rewrite !exec_bind. by apply H. Qed.

Ltac pd_off :=
  repeat match goal with
    | |- forall _, _ => intro
    | |- preserves _ (bind adapter _) => apply off_adapter
    | |- preserves _ (bind _ _) => apply preserves_bind
    | |- preserves _ (ret _) => apply preserves_ret
    | |- preserves _ (getp _) => apply off_getp
    | |- preserves _ (when _ _) => apply preserves_when
    | |- preserves _ (ignore _) => apply preserves_ignore
    | |- preserves _ (liftp _) => apply off_liftp; eauto with kern nocore
    | |- preserves _ (modp _) => apply off_modp
    | |- preserves _ (if ?b then _ else _) => destruct b
    | |- preserves _ (match ?o with Some _ => _ | None => _ end) => destruct o
    | |- preserves _ (on_chg1 _) => unfold on_chg1
    | |- preserves _ (on_chg2 _) => unfold on_chg2
    | |- preserves _ (on_chg ?i _) => unfold on_chg; try destruct i
    | |- preserves _ (if_chg _ _) => unfold if_chg
    | |- preserves _ (asks _ _ _) => unfold asks
    end.

Ltac pd_off_hal :=
  unfold second_off, pd_hal_is_pd_adapter_ready, pd_hal_get_adapter_cap, needs_update, pd_hal_get_mivr, pd_hal_get_charger_cnt,
    pd_hal_is_chip_enable, pd_hal_enable_vbus_ovp, pd_hal_set_mivr, pd_hal_get_input_current, pd_hal_set_input_current,
    pd_hal_set_charging_current, pd_hal_set_cv, pd_hal_set_adapter_cap, pd_hal_get_uisoc, pd_hal_is_charger_enable,
    pd_hal_enable_charger, pd_hal_get_charging_current, pd_hal_get_min_charging_current, pd_hal_set_eoc_current,
    pd_hal_enable_termination, pd_hal_charger_enable_chip; pd_off.

Lemma off_reset : preserves off (mtk_pdc_reset (E := E)).
Proof using ChipLaws0 AlgLaws0 PdLaws0.
  unfold mtk_pdc_reset, __mtk_pdc_init_table, __mtk_pdc_get_reset_idx, __mtk_pdc_setup, request, __mtk_pdc_get_idx. pd_off_hal.
Qed.

Lemma off_stop : preserves off (_pd_stop_algo (E := E)).
Proof using ChipLaws0 AlgLaws0 PdLaws0. pose proof off_reset. unfold _pd_stop_algo. pd_off_hal. done. Qed.

Lemma off_algo_ready : preserves off (_pd_is_algo_ready (E := E)).
Proof using ChipLaws0 AlgLaws0 PdLaws0. unfold _pd_is_algo_ready. pd_off_hal. Qed.

Lemma off_notify n : preserves off (_pd_notifier_call (E := E) n).
Proof using ChipLaws0 AlgLaws0 PdLaws0.
  unfold _pd_notifier_call, pd_plugout_reset, pd_full_evt, dcs_full. destruct (notify_evt n); pd_off_hal.
Qed.

(** A call of the class on a device of the platform. *)
Lemma quiet_lift_op {A R} hpd h (sel : charger_ops E mtk_charger -> option A) (sel' : charger_ops W mtk_charger -> option R)
    {B} (fail : M E B) (fail' : M W B) (call : A -> M E B) (call' : R -> M W B) :
  (forall o, match sel' (lift_ops o), sel o with
             | Some f', Some f => forall w, pe (exec (call' f') w) = exec (call f) (pe w)
             | None, None => True
             | _, _ => False
             end) ->
  (forall w, pe (exec fail' w) = exec fail (pe w)) ->
  quiet on (call_op (chg h) sel fail call) ->
  quiet (fun w : W => on (pe w)) (call_op (@chg W (pd_platform hpd) h) sel' fail' call').
Proof.
  intros Ho Hf Hq w Hw. specialize (Hq (pe w) Hw). revert Hq. unfold exec, call_op, chg, dev_op in *.
  destruct h as [h|]; cbn; [|intros H; by rewrite Hf].
  destruct (dev_ops (charger_at h) (pe w)) as [o|]; cbn; [|intros H; by rewrite Hf].
  specialize (Ho o). destruct (sel' (lift_ops o)), (sel o); try done; intros H; [by rewrite Ho|by rewrite Hf].
Qed.

Lemma pe_liftp {A} (m : M E A) (w : W) : pe (exec (liftp m) w) = exec m (pe w).
Proof. unfold exec, liftp. by destruct (m (pe w)). Qed.
Lemma quiet_liftp {A} (m : M E A) : quiet on m -> quiet (fun w : W => on (pe w)) (liftp m).
Proof. intros H w Hw. rewrite pe_liftp. by apply H. Qed.

(** A law of the platform, for the extended one. *)
Ltac lift_op law :=
  intros; eapply quiet_lift_op; cycle 2; [apply law|..|by intros ?];
  let o := fresh "o" in
  intros o; cbn; match goal with |- match _ <$> ?x with _ => _ end => destruct x; [|done] end; cbn;
  intros ?; rewrite ?exec_bind, ?exec_ret; first [apply pe_liftp|done].

(** An operation of an algorithm: this one, or another of the platform. *)
Lemma quiet_lift_alg {A B R} hpd h (sel : chg_alg_ops E -> option A) (sel' : chg_alg_ops W -> option B)
    (fail : M E R) (fail' : M W R) (call : A -> M E R) (call' : B -> M W R) :
  match sel' pd_alg_ops with Some f => preserves off (call' f) | None => preserves off fail' end ->
  (forall o, match sel' (lift_alg_ops o), sel o with
             | Some f', Some f => forall w, pe (exec (call' f') w) = exec (call f) (pe w)
             | None, None => True
             | _, _ => False
             end) ->
  (forall w, pe (exec fail' w) = exec fail (pe w)) ->
  quiet on (call_alg (algd h) sel fail call) ->
  quiet (fun w : W => on (pe w)) (call_alg (@algd W (pd_platform hpd) h) sel' fail' call').
Proof.
  intros Hpd Ho Hf Hq w Hw. specialize (Hq (pe w) Hw). revert Hq. unfold exec, call_alg, algd, alg_op in *.
  destruct h as [h|]; cbn; [|intros H; by rewrite Hf].
  destruct (Nat.eqb h hpd); cbn.
  { intros _. destruct (sel' pd_alg_ops); by apply Hpd. }
  destruct (alg_ops (alg_at h) (pe w)) as [o|]; cbn; [|intros H; by rewrite Hf].
  specialize (Ho o). destruct (sel' (lift_alg_ops o)), (sel o); try done; intros H; [by rewrite Ho|by rewrite Hf].
Qed.

Ltac lift_alg law mine :=
  intros; eapply quiet_lift_alg; cycle 3; [apply law|apply mine|..|by intros ?];
  let o := fresh "o" in
  intros o; cbn; match goal with |- match _ <$> ?x with _ => _ end => destruct x; [|done] end; cbn; intros ?; apply pe_liftp.

Lemma extended_charger hpd : @ChargerLaws W (pd_platform hpd) (fun w : W => on (pe w)) h0.
Proof using ChipLaws0.
  constructor.
  - intros w. pose proof (law_off (on := on) (h0 := h0) (pe w)) as H. revert H.
    unfold charger_dev_enable, call_op, exec, chg, dev_op. cbn.
    destruct (dev_ops (charger_at h0) (pe w)) as [o|]; cbn; [|done]. destruct (ops_enable o) as [f|]; cbn; [|done].
    unfold liftp. by destruct (f false (pe w)).
  - lift_op (q_plug_out (on := on) (h0 := h0)).
  - lift_op (q_do_event (on := on) (h0 := h0)).
  - lift_op (q_set_cv (on := on) (h0 := h0)).
  - lift_op (q_get_cv (on := on) (h0 := h0)).
  - lift_op (q_set_mivr (on := on) (h0 := h0)).
  - lift_op (q_set_input (on := on) (h0 := h0)).
  - lift_op (q_get_input (on := on) (h0 := h0)).
  - lift_op (q_get_charging (on := on) (h0 := h0)).
  - lift_op (q_ir_comp (on := on) (h0 := h0)).
  - lift_op (q_vbus (on := on) (h0 := h0)).
  - lift_op (q_ibus (on := on) (h0 := h0)).
  - lift_op (q_temperature (on := on) (h0 := h0)).
  - lift_op (q_is_enabled (on := on) (h0 := h0)).
  - lift_op (q_done (on := on) (h0 := h0)).
  - lift_op (q_indpm (on := on) (h0 := h0)).
  - lift_op (q_powerpath (on := on) (h0 := h0)).
  - lift_op (q_safety_timer (on := on) (h0 := h0)).
  - lift_op (q_wpc_online (on := on) (h0 := h0)).
  - lift_op (q_wpc (on := on) (h0 := h0)).
  - intros h i w. pose proof (law_wpc (on := on) (h0 := h0) h i (pe w)) as H. revert H.
    unfold wireless_charger_dev_do_algorithm, call_op, eval, chg, dev_op. destruct h as [h|]; cbn; [|done].
    destruct (dev_ops (charger_at h) (pe w)) as [o|]; cbn; [|done]. destruct (ops_do_wpc_algorithm o) as [f|]; cbn; [|done].
    unfold liftp. by destruct (f i (pe w)).
Qed.

Lemma extended_kernel hpd : @KernelLaws W (pd_platform hpd) (fun w : W => on (pe w)).
Proof using ChipLaws0 AlgLaws0 PdLaws0.
  constructor; [lift_alg (q_alg_ready (on := on)) off_algo_ready|lift_alg (q_alg_notify (on := on)) off_notify|
    lift_alg (q_alg_stop (on := on)) off_stop|intros; apply quiet_liftp; eauto with kern nocore..].
Qed.

(** The calls that only algorithms make. *)
Lemma extended_alg hpd : @AlgLaws W (pd_platform hpd) (fun w : W => on (pe w)).
Proof using AlgLaws0.
  constructor.
  - lift_op (q_disable (on := on)).
  - lift_op (q_set_charging (on := on)).
  - lift_op (q_min_charging (on := on)).
  - lift_op (q_min_input (on := on)).
  - lift_op (q_get_mivr (on := on)).
  - lift_op (q_aicl (on := on)).
  - lift_op (q_kick_wdt (on := on)).
  - lift_op (q_dump (on := on)).
  - lift_op (q_chip_enabled (on := on)).
  - lift_op (q_disable_chip (on := on)).
  - lift_op (q_eoc (on := on)).
  - lift_op (q_termination (on := on)).
Qed.

(** C4: power delivery keeps the contract the charging manager is verified against.
    Where the chargers and the rest of the platform honour it, where none of the
    calls that only algorithms make (currents, minima, MIVR, end of charge,
    termination, the commands to stop) switches a charger on, and neither do the
    adapters nor the manager's switch for the over-voltage protection, the platform
    with the power-delivery algorithm attached honours both.  So asking the
    algorithm whether it is ready, telling it of the end of charge or of the plug,
    and stopping it never switch the primary charger on, whatever state it is in
    and whatever its adapter answers. *)
Theorem pd_honours_contract hpd :
  @ChipLaws W (pd_platform hpd) (fun w : W => on (pe w)) h0 /\ @AlgLaws W (pd_platform hpd) (fun w : W => on (pe w)).
Proof using ChipLaws0 AlgLaws0 PdLaws0.
  split; [constructor; [apply extended_charger|apply extended_kernel]|apply extended_alg].
Qed.
End Contract.

(** ** The MT6370 with a power-delivery adapter *)

(** The platform of [Mt6370Spec], with an adapter that offers what [partner0] does. *)
#[local] Instance mt_pd : PdPlatform (mworld chip) := {|
  adapter_at := fun _ => {|
    ad_ops := fun _ => Some {|
      ad_get_property := Some (fun _ => ret MTK_PD_CONNECT_PE_READY_SNK);
      ad_get_status := None;
      ad_set_cap := Some (fun _ _ _ => ret 0);
      ad_get_cap := Some (fun t c => ret (eval (pd_get_cap t c) partner0));
      ad_get_output := None |};
    ad_set_ops := fun _ => ret tt |};
  adapter_list := fun _ => [("pd_adapter"%string, 0%nat)];
  chg_enable_vbus_ovp := fun _ => ret 0
|}.

#[local] Existing Instance mt_platform.

Lemma mt_drivers (h : nat) (e : mworld chip) :
  dev_ops (charger_at h) e = Some (@mt6370_chg_ops chip steady_bus mtk_charger) \/ dev_ops (charger_at h) e = None.
Proof. by left. Qed.

Lemma mt_chip_laws : ChipLaws (charging chip_reg) 0.
Proof.
  constructor; [by apply (@charger_laws chip steady_bus chip_reg (fun _ => True) steady_laws mt_platform mt_drivers)|].
  constructor; try (intros; intros e He; exact He); intros [h|]; intros; by intros e He.
Qed.

Lemma mt_pd_laws : PdLaws (charging chip_reg).
Proof. constructor; [intros [h|]; intros; intros e He; exact He..|by intros b e He]. Qed.

(** The premises hold of the MT6370. *)
Lemma pd_honours_contract_witness :
  @ChipLaws (pdworld (mworld chip)) (pd_platform 0) (fun w => charging chip_reg (pe w)) 0.
Proof.
  exact (proj1 (@pd_honours_contract (mworld chip) mt_platform mt_pd (charging chip_reg) 0 mt_chip_laws
    (@alg_laws chip steady_bus chip_reg (fun _ => True) steady_laws mt_platform mt_drivers) mt_pd_laws 0)).
Defined.
