(* ===== verification/Mt6370Irq.v ===== *)
(** * The MT6370 charger driver: interrupts, power supply, regulator and files
    (drivers/misc/mediatek/subpmic/mt6370_pmu_charger.c)

    The handlers of the driver's interrupts with the delayed work of one of them,
    the power supply that shows the charger, the regulator of the boost, and the
    files in sysfs.  A handler runs as a whole; CONFIG_TCPC_CLASS is set, as in
    [Mt6370].  The mutex of the chip that makes one access to the bus, or the
    accesses of [mt6370_toggle_cfo], indivisible is not part of the state. *)

From S2P Require Import Prelude ChargerClass AlgClass ChargerTypes Platform BasicCharger Mt6370Enc.
From S2P Require Import Kstrtox Mt6370 Mt6370Ops.
#[local] Open Scope Z_scope.

(** ** Registers *)

Definition MT6370_PMU_REG_CORECTRL2 : Z := 0x02.
Definition MT6370_PMU_REG_RSTPASCODE1 : Z := 0x03.
Definition MT6370_PMU_REG_RSTPASCODE2 : Z := 0x04.
Definition MT6370_PMU_REG_CHGCTRL4 : Z := 0x14.
Definition MT6370_PMU_REG_CHGCTRL5 : Z := 0x15.
Definition MT6370_PMU_REG_CHGCTRL6 : Z := 0x16.
Definition MT6370_PMU_REG_FLEDEN : Z := 0x7E.
Definition MT6370_PMU_REG_CHGSTAT2 : Z := 0xD1.
Definition MT6370_PMU_REG_CHGSTAT4 : Z := 0xD3.
Definition MT6370_PMU_REG_CHGSTAT5 : Z := 0xD4.
Definition MT6370_STROBE_EN_MASK : Z := 0x04.
Definition MT6370_MASK_CFO_EN : Z := 0x02.
Definition MT6370_MASK_BOOST_VOREG : Z := 0xFC.
Definition MT6370_SHIFT_CHG_TREG : Z := 4.
Definition MT6370_SHIFT_CHG_VBUSOV_STAT : Z := 7.
Definition MT6370_SHIFT_CHG_TMRI_STAT : Z := 3.
Definition MT6370_SHIFT_CHG_IEOCI_STAT : Z := 7.
Definition MT6370_SHIFT_DCDT : Z := 2.
Definition MT6370_CHG_STATUS_READY : Z := 0.
Definition MT6370_CHG_STATUS_PROGRESS : Z := 1.
Definition ENODATA : Z := 61.

(** What the rest of the driver calls: the wireless charger of the class, and the
    metrics. *)
Class Mt6370Sys (B : Type) : Type := {
  wireless_charger_online : M B bool;
  bat_metrics_chrdet : Z -> M B unit
}.

Section Irq.
  Context {B : Type} `{!Mt6370Bus B} `{!Mt6370Sys B}.
  Abbreviation W := (mworld B).

(** ** Interrupts *)

(** The accesses go to the bus directly. *)
Definition mt6370_toggle_cfo : M W Z :=
  let! f := bus (i2c_smbus_read MT6370_PMU_REG_FLEDEN) in
  if fst f <? 0 then ret (fst f)
  else if negb (Z.land (u8 (snd f)) MT6370_STROBE_EN_MASK =? 0) then ret (fst f)
  else
    let! r := bus (i2c_smbus_read MT6370_PMU_REG_CHGCTRL2) in
    if fst r <? 0 then ret (fst r)
    else
      let data := Z.land (u8 (snd r)) (Z.lnot MT6370_MASK_CFO_EN) in
      let! w := bus (i2c_smbus_write MT6370_PMU_REG_CHGCTRL2 data) in
      if w <? 0 then ret w
      else bus (i2c_smbus_write MT6370_PMU_REG_CHGCTRL2 (Z.lor data MT6370_MASK_CFO_EN)).

Definition mt6370_pmu_chg_treg_irq_handler : M W unit :=
  ignore (mt6370_pmu_reg_test_bit MT6370_PMU_REG_CHGSTAT1 MT6370_SHIFT_CHG_TREG).

(** The delayed work runs once for each time it was scheduled while idle. *)
Definition mt6370_pmu_chg_mivr_dwork_handler : M W unit :=
  modd (fun d => d <| mt_mivr_dwork := false |>) ;;; mt6370_enable_irq "chg_mivr" true.

Definition mt6370_pmu_chg_mivr_irq_handler : M W unit :=
  (let! t := mt6370_pmu_reg_test_bit MT6370_PMU_REG_CHGSTAT1 MT6370_SHIFT_MIVR_STAT in
   if (fst t <? 0) || negb (snd t) then ret tt
   else
     let! a := mt6370_get_adc MT6370_ADC_IBUS in
     if fst a <? 0 then ret tt
     else when (snd a <? 100000) (ignore mt6370_toggle_cfo)) ;;;
  mt6370_enable_irq "chg_mivr" false ;;;
  modd (fun d => d <| mt_mivr_dwork := true |>).

Definition mt6370_pmu_chg_vbusov_irq_handler : M W unit :=
  let! t := mt6370_pmu_reg_test_bit MT6370_PMU_REG_CHGSTAT2 MT6370_SHIFT_CHG_VBUSOV_STAT in
  if fst t <? 0 then ret tt
  else
    modd (fun d => d <| mt_noti_vbusov := snd t |>) ;;;
    bus (charger_dev_notify CHARGER_DEV_NOTIFY_VBUS_OVP).

(** A notification that is sent while a status bit is set. *)
Definition notify_if_set (reg shift event : Z) : M W unit :=
  let! t := mt6370_pmu_reg_test_bit reg shift in
  if (fst t <? 0) || negb (snd t) then ret tt else bus (charger_dev_notify event).

Definition mt6370_pmu_chg_tmri_irq_handler : M W unit :=
  notify_if_set MT6370_PMU_REG_CHGSTAT4 MT6370_SHIFT_CHG_TMRI_STAT CHARGER_DEV_NOTIFY_SAFETY_TIMEOUT.

(** The waiter for the flag is part of [wait_event_interruptible_timeout]. *)
Definition mt6370_pmu_chg_aiclmeasi_irq_handler : M W unit := mt6370_chg_irq_set_flag MT6370_MASK_CHG_AICLMEASI.

Definition mt6370_pmu_chg_wdtmri_irq_handler : M W unit := ignore mt6370_kick_wdt.

Definition mt6370_pmu_chg_rechgi_irq_handler : M W unit := bus (charger_dev_notify CHARGER_DEV_NOTIFY_RECHG).

Definition mt6370_pmu_chg_ieoci_irq_handler : M W unit :=
  notify_if_set MT6370_PMU_REG_CHGSTAT5 MT6370_SHIFT_CHG_IEOCI_STAT CHARGER_DEV_NOTIFY_EOC.

Definition mt6370_pmu_attachi_irq_handler : M W unit :=
  let! sel := getd (fun d => ds_bc12_sel (mt_desc d)) in
  if negb (sel =? 0) then ret tt
  else with_lock Bc12Lock (let! en := getd mt_bc12_en in when en (ignore __mt6370_chgdet_handler)).

Definition mt6370_pmu_dcdti_irq_handler : M W unit :=
  let! ds := getd mt_desc in
  if ds_fast_unknown_ta_dect ds && (ds_bc12_sel ds =? 0) then
    let! t := mt6370_pmu_reg_test_bit MT6370_PMU_REG_USBSTATUS1 MT6370_SHIFT_DCDT in
    if (fst t <? 0) || negb (snd t) then ret tt
    else with_lock Bc12Lock (modd (fun d => d <| mt_dcd_timeout := true |>) ;;; ignore __mt6370_chgdet_handler)
  else ret tt.

(** With CONFIG_TCPC_CLASS the handler ends after the notification. *)
Definition mt6370_pmu_ovpctrl_uvp_d_evt_irq_handler : M W unit :=
  bus (charger_dev_notify CHARGER_DEV_NOTIFY_VBUS_EVENT).

(** The interrupts of [mt6370_chg_irq_desc]. *)
Inductive chg_irq : Type :=
  chg_treg | chg_aicr | chg_mivr | pwr_rdy | chg_vinovp | chg_vsysuv | chg_vsysov | chg_vbatov | chg_vbusov
| ts_bat_cold | ts_bat_cool | ts_bat_warm | ts_bat_hot | chg_tmri | chg_batabsi | chg_adpbadi | chg_rvpi | otpi
| chg_aiclmeasi | chg_ichgmeasi | chgdet_donei | chg_wdtmri | ssfinishi | chg_rechgi | chg_termi | chg_ieoci
| adc_donei | pumpx_donei | bst_batuvi | bst_vbusovi | bst_olpi | attachi | detachi | qc30stpdone | qc_vbusdet_done
| hvdcp_det | chgdeti | dcdti | dirchg_vgoki | dirchg_wdtmri | dirchg_uci | dirchg_oci | dirchg_ovi
| ovpctrl_swon_evt | ovpctrl_uvp_d_evt | ovpctrl_uvp_evt | ovpctrl_ovp_d_evt | ovpctrl_ovp_evt.

(** The handler of the table; those that are not named only log. *)
Definition irq_handler (i : chg_irq) : M W unit :=
  match i with
  | chg_treg => mt6370_pmu_chg_treg_irq_handler
  | chg_mivr => mt6370_pmu_chg_mivr_irq_handler
  | chg_vbusov => mt6370_pmu_chg_vbusov_irq_handler
  | chg_tmri => mt6370_pmu_chg_tmri_irq_handler
  | chg_aiclmeasi => mt6370_pmu_chg_aiclmeasi_irq_handler
  | chg_wdtmri => mt6370_pmu_chg_wdtmri_irq_handler
  | chg_rechgi => mt6370_pmu_chg_rechgi_irq_handler
  | chg_ieoci => mt6370_pmu_chg_ieoci_irq_handler
  | attachi => mt6370_pmu_attachi_irq_handler
  | dcdti => mt6370_pmu_dcdti_irq_handler
  | ovpctrl_uvp_d_evt => mt6370_pmu_ovpctrl_uvp_d_evt_irq_handler
  | _ => ret tt
  end.

(** ** The power supply *)

(** [enum power_supply_property], the properties of the table and any other. *)
Inductive mt_prop : Type :=
  PROP_ONLINE | PROP_STATUS | PROP_TYPE | PROP_USB_TYPE | PROP_CURRENT_MAX | PROP_VOLTAGE_MAX | PROP_DCAP_EN | PROP_OTHER.

Definition STATUS_CHARGING : Z := 1.
Definition STATUS_DISCHARGING : Z := 2.
Definition STATUS_NOT_CHARGING : Z := 3.
Definition STATUS_FULL : Z := 4.

Definition mt6370_charger_get_online : M W (Z * bool) :=
  let! wpc := bus wireless_charger_online in
  if wpc then ret (0, true) else let! c := getd mt_tcpc_usb_connected in ret (0, c).

Definition mt6370_charger_set_online (val : Z) : M W Z := mt6370_enable_chg_type_det (z2b val).

(** The property and what [val->intval] holds, [old] before the call. *)
Definition mt6370_charger_get_property (psp : mt_prop) (old : Z) : M W (Z * Z) :=
  match psp with
  | PROP_ONLINE => let! o := mt6370_charger_get_online in ret (fst o, b2z (snd o))
  | PROP_STATUS =>
      let! o := mt6370_charger_get_online in
      let! en := mt6370_is_charging_enable in
      let! s := mt6370_get_charging_status MT6370_CHG_STATUS_READY in
      ret (if negb (snd o) then (fst s, STATUS_NOT_CHARGING)
           else if (snd s =? MT6370_CHG_STATUS_READY) || (snd s =? MT6370_CHG_STATUS_PROGRESS)
           then (fst s, if snd en then STATUS_CHARGING else STATUS_NOT_CHARGING)
           else if snd s =? MT6370_CHG_STATUS_DONE then (fst s, STATUS_FULL)
           else if snd s =? MT6370_CHG_STATUS_FAULT then (fst s, STATUS_DISCHARGING)
           else (- ENODATA, old))
  | PROP_TYPE => let! t := getd mt_psy_type in bus (bat_metrics_chrdet t) ;;; ret (0, t)
  | PROP_USB_TYPE => let! t := getd mt_psy_usb_type in ret (0, t)
  | PROP_CURRENT_MAX => let! t := getd mt_psy_type in ret (0, if t =? POWER_SUPPLY_TYPE_USB then 500000 else old)
  | PROP_VOLTAGE_MAX => let! t := getd mt_psy_type in ret (0, if t =? POWER_SUPPLY_TYPE_USB then 5000000 else old)
  | PROP_DCAP_EN => let! c := getd mt_dcap_en in ret (0, b2z c)
  | PROP_OTHER => ret (- ENODATA, old)
  end.

Definition mt6370_charger_set_property (psp : mt_prop) (val : Z) : M W Z :=
  match psp with
  | PROP_ONLINE => mt6370_charger_set_online val
  | PROP_TYPE => modd (fun d => d <| mt_psy_type := val |>) ;;; ret 0
  | _ => ret (- EINVAL)
  end.

Definition mt6370_charger_property_is_writeable (psp : mt_prop) : bool :=
  match psp with PROP_ONLINE => true | _ => false end.

(** ** The regulator of the boost *)

(** [struct regulator_desc], the fields the operations use. *)
Record regulator_desc : Type := mk_rdesc {
  min_uV : Z;
  uV_step : Z;
  n_voltages : Z;
  vsel_reg : Z;
  vsel_mask : Z;
  enable_reg : Z;
  enable_mask : Z;
  csel_reg : Z;
  csel_mask : Z
}.

Definition mt6370_otg_rdesc : regulator_desc :=
  mk_rdesc 4425000 25000 57 MT6370_PMU_REG_CHGCTRL5 MT6370_MASK_BOOST_VOREG MT6370_PMU_REG_CHGCTRL1
    MT6370_MASK_OPA_MODE MT6370_PMU_REG_CHGCTRL10 MT6370_MASK_BOOST_OC.

(** [ffs(mask) - 1]. *)
Definition ffs_shift (mask : Z) : Z := Z.log2 (Z.land mask (- mask)).

Definition mt6370_boost_enable : M W Z := mt6370_enable_otg true.
Definition mt6370_boost_disable : M W Z := mt6370_enable_otg false.

Definition mt6370_boost_is_enabled (desc : regulator_desc) : M W Z :=
  let! r := mt6370_pmu_reg_read (enable_reg desc) in
  ret (if r <? 0 then r else if negb (Z.land r (enable_mask desc) =? 0) then 1 else 0).

Definition mt6370_boost_set_voltage_sel (desc : regulator_desc) (sel : Z) : M W Z :=
  mt6370_pmu_reg_update_bits (vsel_reg desc) (vsel_mask desc) (u32 (Z.shiftl sel (ffs_shift (vsel_mask desc)))).

Definition mt6370_boost_get_voltage_sel (desc : regulator_desc) : M W Z :=
  let! r := mt6370_pmu_reg_read (vsel_reg desc) in
  ret (if r <? 0 then r else Z.shiftr (Z.land r (vsel_mask desc)) (ffs_shift (vsel_mask desc))).

(** The first threshold that is not below [min_uA], compared unsigned, with its
    index. *)
Fixpoint first_threshold (i : Z) (table : list Z) (min_uA : Z) : option (Z * Z) :=
  match table with
  | [] => None
  | v :: rest => if u32 min_uA <=? v then Some (i, v) else first_threshold (i + 1) rest min_uA
  end.

Definition mt6370_boost_set_current_limit (desc : regulator_desc) (min_uA max_uA : Z) : M W Z :=
  match first_threshold 0 mt6370_otg_oc_threshold min_uA with
  | None => ret (- EINVAL)
  | Some (i, v) =>
      if u32 max_uA <? v then ret (- EINVAL)
      else mt6370_pmu_reg_update_bits (csel_reg desc) (csel_mask desc) (Z.shiftl i (ffs_shift (csel_mask desc)))
  end.

Definition mt6370_boost_get_current_limit (desc : regulator_desc) : M W Z :=
  let! r := mt6370_pmu_reg_read (csel_reg desc) in
  if r <? 0 then ret r
  else
    ret (match mt6370_otg_oc_threshold !! Z.to_nat (Z.shiftr (Z.land r (csel_mask desc)) (ffs_shift (csel_mask desc))) with
         | Some v => v
         | None => - EINVAL
         end).

(** ** Files *)

(** Past the check of the number the mutex of the converter is taken, and no
    path releases it. *)
Definition shipping_mode_store (buf : cstr) : M W Z :=
  match kstrtoint buf 10 with
  | KErr _ => ret (- EINVAL)
  | KOk tmp =>
      if negb (tmp =? 5526789) then ret (- EINVAL)
      else
        mutex_lock AdcLock ;;;
        let! r := mt6370_pmu_reg_write MT6370_PMU_REG_RSTPASCODE1 0xA9 in
        if r <? 0 then ret r
        else
          let! r := mt6370_pmu_reg_write MT6370_PMU_REG_RSTPASCODE2 0x96 in
          if r <? 0 then ret r
          else
            let! r := mt6370_pmu_reg_write MT6370_PMU_REG_CORECTRL2 0x7F in
            if r <? 0 then ret r
            else
              mt6370_enable_hidden_mode true ;;;
              let! r := mt6370_pmu_reg_clr_bit MT6370_PMU_REG_CHGHIDDENCTRL15 0x01 in
              if r <? 0 then ret r
              else
                mt6370_enable_hidden_mode false ;;;
                bus (mt_sleep 50) ;;;
                let! r := mt6370_pmu_reg_set_bit MT6370_PMU_REG_CHGCTRL2 0x80 in
                ret (if r <? 0 then r else Z.of_nat (length buf))
  end.

Definition enable_iaicr_calibration_store (buf : cstr) : M W Z :=
  match kstrtoint buf 10 with
  | KErr _ => ret (- EINVAL)
  | KOk val =>
      (if val =? 1 then modd (fun d => d <| mt_iaicr ::= fun c => c <| enable_iaicr_cal := true |> |>)
       else when (val =? 0) (modd (fun d => d <| mt_iaicr ::= fun c => c <| enable_iaicr_cal := false |> |>))) ;;;
      ret (Z.of_nat (length buf))
  end.

Definition enable_iaicr_calibration_show : M W Z := getd (fun d => b2z (enable_iaicr_cal (mt_iaicr d))).

(** The registers of the text, or the error of the first read that failed. *)
Fixpoint read_all (l : list Z) : M W (Z + list Z) :=
  match l with
  | [] => ret (inr [])
  | a :: rest =>
      let! r := mt6370_pmu_reg_read a in
      if r <? 0 then ret (inl r)
      else let! s := read_all rest in ret (match s with inl e => inl e | inr vs => inr (r :: vs) end)
  end.
Definition CHG_REGS_show : M W (Z + list Z) :=
  read_all [MT6370_PMU_REG_CHGCTRL3; MT6370_PMU_REG_CHGCTRL4; MT6370_PMU_REG_CHGCTRL6; MT6370_PMU_REG_CHGCTRL7;
            MT6370_PMU_REG_CHGSTAT; MT6370_PMU_REG_CHGSTAT1].
End Irq.
