(* ===== verification/Mt6370Probe.v ===== *)
(** * The MT6370 charger driver: device tree, initial setting and probe
    (drivers/misc/mediatek/subpmic/mt6370_pmu_charger.c)

    What [mt6370_pmu_charger_probe] does before the driver's operations can be
    called: it reads the description of the board, programs the chip with it, and
    registers the charger, the load switch, the interrupts, the files, the supply
    and the regulator. *)

From S2P Require Import Prelude ChargerClass AlgClass ChargerTypes ChargerDt Platform BasicCharger.
From S2P Require Import Mt6370Enc Mt6370 Mt6370Ops Mt6370Irq.
#[local] Open Scope Z_scope.

(** ** Registers *)

Definition MT6370_PMU_REG_CHGCTRL16 : Z := 0x20.
Definition MT6370_PMU_REG_QCCTRL2 : Z := 0x24.
Definition MT6370_PMU_REG_QCSTATUS1 : Z := 0x28.
Definition MT6370_PMU_REG_CHGDIRCHG2 : Z := 0x2E.
Definition MT6370_PMU_REG_ADCBATDATAH : Z := 0x52.
Definition MT6370_PMU_REG_VDDASUPPLY : Z := 0x62.
Definition MT6370_MASK_AICR_EN : Z := 0x02.
Definition MT6370_SHIFT_AICR_EN : Z := 1.
Definition MT6370_MASK_ILIM_EN : Z := 0x01.
Definition MT6370_MASK_HZ_EN : Z := 0x04.
Definition MT6370_MASK_HIGHER_OCP : Z := 0x04.
Definition MT6370_MASK_JEITA_EN : Z := 0x10.
Definition MT6370_MASK_DC_WDT : Z := 0x70.
Definition MT6370_SHIFT_DC_WDT : Z := 4.
Definition MT6370_MASK_EN_DCP : Z := 0x02.
Definition MT6370_SHIFT_LBPHYS_SEL : Z := 7.
Definition MT6370_SHIFT_LBP_DT : Z := 5.
Definition MT6370_MASK_LBP : Z := 0xE0.
Definition MT6370_MASK_VLGC_DISABLE : Z := 0x80.
Definition MT6370_MASK_FAST_UNKNOWN_TA_DECT : Z := 0x80.
Definition THRESHOLD_ENABLE_HIGHER_OCP : Z := 2500000.

(** ** What probe calls

    Registrations give 0 or a negative error; those with [devm_] are undone by
    the kernel. *)

Class ProbeEnv (B : Type) : Type := {
  devm_pinctrl_get : M B Z;
  pinctrl_lookup_state : string -> M B Z;
  charger_device_register : string -> M B Z;
  charger_device_unregister : string -> M B unit;
  devm_request_threaded_irq : Z -> chg_irq -> M B Z;
  device_create_file : string -> M B Z;
  device_remove_file : string -> M B unit;
  devm_power_supply_register : M B Z;
  devm_regulator_register : M B Z
}.

(** The node of the driver, the node its phandle "bc12_ref" names, and
    [of_property_read_u32_array] for four elements. *)
Record mt_node : Type := mk_node {
  np : device_node;
  bc12_ref : option device_node;
  of_u32_array : string -> option (list Z)
}.

(** [mt6370_default_chg_desc]. *)
Definition mt6370_default_chg_desc : mt6370_desc :=
  mk_mt6370_desc 2000000 500000 4400000 4350000 250000 12 25000 32000 0 0 0 4000000 0 0 0 false true true false false
    false true true "primary_chg" "primary_load_switch".

Definition mt6370_dc_wdt : list Z := [0; 125000; 250000; 500000; 1000000; 2000000; 4000000; 8000000].

Definition mt6370_chg_irq_desc : list (string * chg_irq) :=
  [
   ("chg_treg"%string, chg_treg); ("chg_aicr"%string, chg_aicr); ("chg_mivr"%string, chg_mivr);
   ("pwr_rdy"%string, pwr_rdy); ("chg_vinovp"%string, chg_vinovp); ("chg_vsysuv"%string, chg_vsysuv);
   ("chg_vsysov"%string, chg_vsysov); ("chg_vbatov"%string, chg_vbatov); ("chg_vbusov"%string, chg_vbusov);
   ("ts_bat_cold"%string, ts_bat_cold); ("ts_bat_cool"%string, ts_bat_cool); ("ts_bat_warm"%string, ts_bat_warm);
   ("ts_bat_hot"%string, ts_bat_hot); ("chg_tmri"%string, chg_tmri); ("chg_batabsi"%string, chg_batabsi);
   ("chg_adpbadi"%string, chg_adpbadi); ("chg_rvpi"%string, chg_rvpi); ("otpi"%string, otpi);
   ("chg_aiclmeasi"%string, chg_aiclmeasi); ("chg_ichgmeasi"%string, chg_ichgmeasi);
   ("chgdet_donei"%string, chgdet_donei); ("chg_wdtmri"%string, chg_wdtmri); ("ssfinishi"%string, ssfinishi);
   ("chg_rechgi"%string, chg_rechgi); ("chg_termi"%string, chg_termi); ("chg_ieoci"%string, chg_ieoci);
   ("adc_donei"%string, adc_donei); ("pumpx_donei"%string, pumpx_donei); ("bst_batuvi"%string, bst_batuvi);
   ("bst_vbusovi"%string, bst_vbusovi); ("bst_olpi"%string, bst_olpi); ("attachi"%string, attachi);
   ("detachi"%string, detachi); ("qc30stpdone"%string, qc30stpdone); ("qc_vbusdet_done"%string, qc_vbusdet_done);
   ("hvdcp_det"%string, hvdcp_det); ("chgdeti"%string, chgdeti); ("dcdti"%string, dcdti);
   ("dirchg_vgoki"%string, dirchg_vgoki); ("dirchg_wdtmri"%string, dirchg_wdtmri); ("dirchg_uci"%string, dirchg_uci);
   ("dirchg_oci"%string, dirchg_oci); ("dirchg_ovi"%string, dirchg_ovi);
   ("ovpctrl_swon_evt"%string, ovpctrl_swon_evt); ("ovpctrl_uvp_d_evt"%string, ovpctrl_uvp_d_evt);
   ("ovpctrl_uvp_evt"%string, ovpctrl_uvp_evt); ("ovpctrl_ovp_d_evt"%string, ovpctrl_ovp_d_evt);
   ("ovpctrl_ovp_evt"%string, ovpctrl_ovp_evt)].

Definition mt6370_get_wpc_support (command_line : string) : bool :=
  match String.index 0 "androidboot.wpc.support=1" command_line with Some _ => true | None => false end.

Section Probe.
  Context {B : Type} `{!Mt6370Bus B} `{!Mt6370Sys B} `{!ProbeEnv B}.
  Abbreviation W := (mworld B).

(** ** Device tree *)

(** The states are looked up in this order until one is missing; the pointer
    [sgm2541_pinctrl] is not null even after a failure. *)
Fixpoint lookup_states (l : list string) : M W Z :=
  match l with
  | [] => ret 0
  | s :: rest => let! r := bus (pinctrl_lookup_state s) in if r <? 0 then ret r else lookup_states rest
  end.

Definition sgm2541_get_gpio_info : M W Z :=
  modd (fun d => d <| mt_sgm2541 := true |>) ;;;
  let! r := bus devm_pinctrl_get in
  if r <? 0 then ret r
  else
    let! r := lookup_states ["sgm2541_en_output0"; "sgm2541_en_output1"; "usbc_otg_en0"; "usbc_otg_en1"]%string in
    if r <? 0 then ret r
    else
      bus (pinctrl_select_state "usbc_otg_en0") ;;;
      bus (pinctrl_select_state "sgm2541_output0") ;;;
      ret 0.

(** A string property stored in a name. *)
Definition read_name (n : device_node) (name default : string) : string :=
  match of_string n name with Some s => s | None => default end.

Definition parse_desc (node : mt_node) (command_line : string) (d : mt6370_desc) : mt6370_desc :=
  let n := np node in
  d <| ds_chg_dev_name ::= read_name n "charger_name" |>
    <| ds_ls_dev_name ::= read_name n "load_switch_name" |>
    <| ds_ichg ::= read_u32 n "ichg"%string |>
    <| ds_aicr ::= read_u32 n "aicr"%string |>
    <| ds_mivr ::= read_u32 n "mivr"%string |>
    <| ds_cv ::= read_u32 n "cv"%string |>
    <| ds_ieoc ::= read_u32 n "ieoc"%string |>
    <| ds_safety_timer ::= read_u32 n "safety_timer"%string |>
    <| ds_dc_wdt ::= read_u32 n "dc_wdt"%string |>
    <| ds_ircmp_resistor ::= read_u32 n "ircmp_resistor"%string |>
    <| ds_ircmp_vclamp ::= read_u32 n "ircmp_vclamp"%string |>
    <| ds_lbp_hys_sel ::= read_u32 n "lbp_hys_sel"%string |>
    <| ds_lbp_dt ::= read_u32 n "lbp_dt"%string |>
    <| ds_bc12_sel ::= fun v => match bc12_ref node with Some r => read_u32 r "bc12_sel"%string v | None => v end |>
    <| ds_aicl_vth_offset := read_u32 n "aicl_vth_offset"%string 200000 |>
    <| ds_aicl_err_h := read_u32 n "aicl_err_h"%string 200000 |>
    <| ds_aicl_err_l := read_u32 n "aicl_err_l"%string 100000 |>
    <| ds_en_te := of_bool n "enable_te"%string |>
    <| ds_en_wdt := of_bool n "enable_wdt"%string |>
    <| ds_en_polling := of_bool n "enable_polling"%string |>
    <| ds_disable_vlgc := of_bool n "disable_vlgc"%string |>
    <| ds_fast_unknown_ta_dect := of_bool n "fast_unknown_ta_dect"%string |>
    <| ds_post_aicl := of_bool n "post_aicl"%string |>
    <| ds_en_iaicr_cal := of_bool n "enable_iaicr_cal"%string |>
    <| ds_power_switch_support := mt6370_get_wpc_support command_line |>.

(** The alias names of the two devices are left out.  [chg_desc] points to the
    default while the pins are looked up, which reads nothing of it. *)
Definition mt_parse_dt (node : mt_node) (command_line : string) : M W Z :=
  let desc := parse_desc node command_line mt6370_default_chg_desc in
  modd (fun d => d <| mt_iaicr ::= fun c =>
    c <| iaicr_itarget ::= fun l => default l (of_u32_array node "iaicr_itarget") |>
      <| iaicr_threshold ::= fun l => default l (of_u32_array node "iaicr_threshold") |> |>) ;;;
  when (ds_power_switch_support desc) (ignore sgm2541_get_gpio_info) ;;;
  modd (fun d => d <| mt_desc := desc |>) ;;;
  ret 0.

(** ** Initial setting *)

Definition mt6370_enable_ilim (en : bool) : M W Z :=
  mt6370_pmu_reg_assign_bit en MT6370_PMU_REG_CHGCTRL3 MT6370_MASK_ILIM_EN.
Definition mt6370_enable_higher_ocp (en : bool) : M W Z :=
  mt6370_pmu_reg_assign_bit en MT6370_PMU_REG_CHGCTRL13 MT6370_MASK_HIGHER_OCP.
Definition mt6370_enable_jeita (en : bool) : M W Z :=
  mt6370_pmu_reg_assign_bit en MT6370_PMU_REG_CHGCTRL16 MT6370_MASK_JEITA_EN.
Definition mt6370_enable_hz (en : bool) : M W Z :=
  mt6370_pmu_reg_assign_bit en MT6370_PMU_REG_CHGCTRL1 MT6370_MASK_HZ_EN.
Definition mt6370_set_dc_wdt (us : Z) : M W Z :=
  mt6370_pmu_reg_update_bits MT6370_PMU_REG_CHGDIRCHG2 MT6370_MASK_DC_WDT
    (Z.shiftl (mt6370_find_closest_reg_value_via_table mt6370_dc_wdt us) MT6370_SHIFT_DC_WDT).
Definition mt6370_set_otglbp (lbp_hys_sel lbp_dt : Z) : M W Z :=
  mt6370_pmu_reg_update_bits MT6370_PMU_REG_VDDASUPPLY MT6370_MASK_LBP
    (u8 (Z.lor (Z.shiftl lbp_hys_sel MT6370_SHIFT_LBPHYS_SEL) (Z.shiftl lbp_dt MT6370_SHIFT_LBP_DT))).
Definition mt6370_disable_vlgc (dis : bool) : M W Z :=
  mt6370_pmu_reg_assign_bit dis MT6370_PMU_REG_QCSTATUS1 MT6370_MASK_VLGC_DISABLE.
Definition mt6370_enable_fast_unknown_ta_dect (en : bool) : M W Z :=
  mt6370_pmu_reg_assign_bit (negb en) MT6370_PMU_REG_USBSTATUS1 MT6370_MASK_FAST_UNKNOWN_TA_DECT.

(** The result is that of the last step; the others are only logged. *)
Definition mt6370_chg_init_setting : M W Z :=
  let! ds := getd mt_desc in
  ignore (mt6370_pmu_reg_update_bits MT6370_PMU_REG_CHGCTRL3 MT6370_MASK_AICR_EN (Z.shiftl 1 MT6370_SHIFT_AICR_EN)) ;;;
  ignore (mt6370_select_input_current_limit MT6370_IINLMTSEL_AICR) ;;;
  bus (mt_sleep 5) ;;;
  ignore (mt6370_enable_ilim false) ;;;
  ignore (__mt6370_set_ichg (ds_ichg ds)) ;;;
  ignore (__mt6370_set_aicr (ds_aicr ds)) ;;;
  ignore (__mt6370_set_mivr (ds_mivr ds)) ;;;
  modd (fun d => d <| mt_mivr := ds_mivr ds |>) ;;;
  ignore (__mt6370_set_cv (ds_cv ds)) ;;;
  ignore (__mt6370_set_ieoc (ds_ieoc ds)) ;;;
  (let! old := getd mt_ieoc in
   let! g := mt6370_get_ieoc old in modd (fun d => d <| mt_ieoc := snd g |>)) ;;;
  ignore (__mt6370_enable_te (ds_en_te ds)) ;;;
  ignore (mt6370_set_fast_charge_timer (ds_safety_timer ds)) ;;;
  ignore (mt6370_set_dc_wdt (ds_dc_wdt ds)) ;;;
  ignore (__mt6370_enable_safety_timer true) ;;;
  ignore (mt6370_enable_wdt false) ;;;
  when (THRESHOLD_ENABLE_HIGHER_OCP <=? ds_ichg ds) (ignore (mt6370_enable_higher_ocp true)) ;;;
  ignore (mt6370_enable_jeita false) ;;;
  ignore (mt6370_enable_hz false) ;;;
  ignore (mt6370_set_ircmp_resistor 0) ;;;
  ignore (mt6370_set_ircmp_vclamp 0) ;;;
  ignore (__mt6370_enable_chgdet_flow false) ;;;
  ignore (mt6370_set_otglbp (ds_lbp_hys_sel ds) (ds_lbp_dt ds)) ;;;
  ignore (mt6370_disable_vlgc (ds_disable_vlgc ds)) ;;;
  mt6370_enable_fast_unknown_ta_dect (ds_fast_unknown_ta_dect ds).

Definition mt6370_chg_sw_workaround : M W Z :=
  mt6370_enable_hidden_mode true ;;;
  (let! r := mt6370_pmu_reg_block_read MT6370_PMU_REG_ADCBATDATAH 2 in
   when (0 <=? fst r)
     (modd (fun d => d <| mt_zcv := u32 (5000 * (at_idx (snd r) 0 * 256 + at_idx (snd r) 1)) |>))) ;;;
  ignore (mt6370_pmu_reg_write MT6370_PMU_REG_CHGADC 0x11) ;;;
  ignore (mt6370_pmu_reg_set_bit MT6370_PMU_REG_OSCCTRL 0x04) ;;;
  ignore (mt6370_pmu_reg_clr_bit MT6370_PMU_REG_CHGHIDDENCTRL15 0x01) ;;;
  let! r := mt6370_pmu_reg_clr_bit MT6370_PMU_REG_QCCTRL2 MT6370_MASK_EN_DCP in
  mt6370_enable_hidden_mode false ;;;
  ret r.

(** ** Probe and remove *)

Definition mt6370_pmu_charger_irq_register : M W unit :=
  for_each mt6370_chg_irq_desc (fun '(name, i) =>
    let! res := bus (platform_get_resource_byname name) in
    match res with
    | None => ret tt
    | Some start => ignore (bus (devm_request_threaded_irq start i))
    end).

(** [chg_data] as [devm_kzalloc] gives it, with the assignments before the
    device tree is read. *)
Definition probe_data (chip_vid : Z) : mt6370_data :=
  mk_mt6370_data mt6370_default_chg_desc chip_vid (mk_iaicr false [0; 0; 0; 0] [0; 0; 0; 0] [0; 0; 0; 0])
    false 0 (-1) 0 false true 0 0 0 250000 2000000 2000000 0 false false 0 false 0 false false true
    false false false 0 false false [] false.

(** [err_register_ls_dev] and [err_devfs]. *)
Definition undo_chg (r : Z) : M W Z :=
  let! ds := getd mt_desc in bus (charger_device_unregister (ds_chg_dev_name ds)) ;;; ret r.
Definition undo_ls (r : Z) : M W Z :=
  let! ds := getd mt_desc in bus (charger_device_unregister (ds_ls_dev_name ds)) ;;; undo_chg r.

Fixpoint create_files (l : list string) : M W Z :=
  match l with
  | [] => ret 0
  | f :: rest => let! r := bus (device_create_file f) in if r <? 0 then ret r else create_files rest
  end.

Definition chg_files : list string := ["shipping_mode"; "enable_iaicr_calibration"; "CHG_REGS"]%string.

(** The supply and the regulator; the description of the supply replaces what
    [psy_desc.type] held. *)
Definition register_supplies : M W Z :=
  modd (fun d => d <| mt_psy_type := POWER_SUPPLY_TYPE_USB |>) ;;;
  let! r := bus devm_power_supply_register in
  modd (fun d => d <| mt_psy := true |>) ;;;
  let! r := if r <? 0 then ret r else bus devm_regulator_register in
  if r <? 0 then bus (device_remove_file "shipping_mode") ;;; undo_ls r else ret 0.

(** From the registration of the charger on. *)
Definition register_devices : M W Z :=
  let! ds := getd mt_desc in
  let! r := bus (charger_device_register (ds_chg_dev_name ds)) in
  if r <? 0 then ret r
  else
    let! r := bus (charger_device_register (ds_ls_dev_name ds)) in
    if r <? 0 then undo_chg r
    else
      mt6370_pmu_charger_irq_register ;;;
      let! r := create_files chg_files in
      if r <? 0 then undo_ls r else register_supplies.

(** [idme] is the calibration property of the device. *)
Definition mt6370_pmu_charger_probe (node : mt_node) (command_line : string) (idme : option (list Z)) (chip_vid : Z)
    : M W Z :=
  modd (fun _ => probe_data chip_vid) ;;;
  ignore (mt_parse_dt node command_line) ;;;
  let! r := mt6370_chg_init_setting in
  if r <? 0 then ret r
  else
    let! r := mt6370_chg_sw_workaround in
    if r <? 0 then ret r
    else
      modd (fun d => d <| mt_iaicr ::= fun c => snd (mt6370_update_iaicr_cal_value idme c) |>) ;;;
      register_devices.

Definition mt6370_pmu_charger_remove : M W Z :=
  let! ds := getd mt_desc in
  for_each chg_files (fun f => bus (device_remove_file f)) ;;;
  bus (charger_device_unregister (ds_ls_dev_name ds)) ;;;
  bus (charger_device_unregister (ds_chg_dev_name ds)) ;;;
  ret 0.
End Probe.
