(* ===== verification/Mt6370IrqSpec.v ===== *)
(** * Interrupts, power supply and boost of the MT6370: what they guarantee

    The events that reach the driver besides the calls of its operation table, as
    one relation with these calls: what the driver remembers stays what the chip
    does, no interrupt starts charging, mutexes are given back, and the line of
    the MIVR interrupt is masked exactly while it is meant to be. *)

From S2P Require Import Prelude ChargerClass AlgClass ChargerTypes Platform BasicCharger Mt6370Enc.
From S2P Require Import Kstrtox RtRegmap Mt6370Map Mt6370 Mt6370Ops Mt6370Chip Mt6370Locks.
From S2P Require Import Mt6370Regs Mt6370Spec Mt6370Hidden Mt6370Irq.
#[local] Open Scope Z_scope.

(** Direct accesses of the bus see and set the registers; the wireless charger
    and the metrics have nothing to do with them. *)
Class SysLaws {B} `{!Mt6370Bus B} `{!Mt6370Sys B} (reg : B -> Z -> Z) (healthy : B -> Prop) : Prop := {
  law_smbus_value : forall a b, let '(r, _) := i2c_smbus_read a b in 0 <= fst r -> cfg a = true -> snd r = reg b a;
  law_smbus_store : forall a v b, cfg a = true -> is_u8 v -> let '(r, b') := i2c_smbus_write a v b in
    reg b' a = if 0 <=? r then v else reg b a;
  law_online : neutral reg healthy wireless_charger_online;
  law_metrics : forall t, neutral reg healthy (bat_metrics_chrdet t)
}.
#[export] Hint Resolve law_online law_metrics : kern.

(** What can happen to the driver: a call of its operation table, an interrupt,
    the delayed work, a look at a property of the supply or a change of one, the
    regulator, its files; and the calls of the table of the load switch that the
    first table does not have. *)
Inductive mt_event : Type :=
  EvCall (c : mt_call) | EvIrq (i : chg_irq) | EvWork | EvGetProp (p : mt_prop) | EvSetProp (p : mt_prop) (v : Z)
| EvBoost (en : bool) | EvBoostOn | EvBoostVolt (sel : Z) | EvBoostGetVolt | EvBoostCur (lo hi : Z) | EvBoostGetCur
| EvCalibration (buf : cstr) | EvRegs | EvShipping (buf : cstr)
| EvDirect (en : bool) | EvDcVbusov (uV : Z) | EvDcIbusoc (uA : Z) | EvDcKick.

Definition ev_run {B} `{!Mt6370Bus B} `{!Mt6370Sys B} (e : mt_event) : M (mworld B) unit :=
  match e with
  | EvCall c => mt_run c
  | EvIrq i => irq_handler i
  | EvWork => mt6370_pmu_chg_mivr_dwork_handler
  | EvGetProp p => ignore (mt6370_charger_get_property p 0)
  | EvSetProp p v => ignore (mt6370_charger_set_property p v)
  | EvBoost true => ignore mt6370_boost_enable
  | EvBoost false => ignore mt6370_boost_disable
  | EvBoostOn => ignore (mt6370_boost_is_enabled mt6370_otg_rdesc)
  | EvBoostVolt sel => ignore (mt6370_boost_set_voltage_sel mt6370_otg_rdesc sel)
  | EvBoostGetVolt => ignore (mt6370_boost_get_voltage_sel mt6370_otg_rdesc)
  | EvBoostCur lo hi => ignore (mt6370_boost_set_current_limit mt6370_otg_rdesc lo hi)
  | EvBoostGetCur => ignore (mt6370_boost_get_current_limit mt6370_otg_rdesc)
  | EvCalibration buf => ignore (enable_iaicr_calibration_store buf)
  | EvRegs => ignore CHG_REGS_show
  | EvShipping buf => ignore (shipping_mode_store buf)
  | EvDirect en => ignore (mt6370_enable_direct_charge en)
  | EvDcVbusov uV => ignore (mt6370_set_dc_vbusov uV)
  | EvDcIbusoc uA => ignore (mt6370_set_dc_ibusoc uA)
  | EvDcKick => ignore mt6370_kick_wdt
  end.

(** ** The view of [Mt6370Spec] *)

Section Outside.
  Context {B : Type} `{!Mt6370Bus B} `{!Mt6370Sys B} (reg : B -> Z -> Z) (healthy : B -> Prop).
  Context `{!RegLaws reg healthy} `{!SysLaws reg healthy} (P : mworld B -> Prop) (HP : stable reg healthy P).

(** A direct write that keeps bit 0 of CHGCTRL2. *)
Lemma out_smbus_ctrl2 v (w : mworld B) :
  is_u8 v -> Z.testbit v 0 = charging reg w -> P w ->
  wp (bus (i2c_smbus_write MT6370_PMU_REG_CHGCTRL2 v)) (fun _ w' => P w' /\ charging reg w' = charging reg w) w.
Proof using RegLaws0 SysLaws0 HP.
  intros Hv Hb Hw. mwps. pose proof (law_smbus_write MT6370_PMU_REG_CHGCTRL2 v (mb w)) as [H1 H2].
  pose proof (law_smbus_store MT6370_PMU_REG_CHGCTRL2 v (mb w) eq_refl Hv) as H3.
  unfold exec in *. rewrite H in *. cbn in *.
  assert (charging reg (w <| mb := b |>) = charging reg w) as Hc.
  { unfold charging in *. cbn. rewrite H3. case_match; [|done]. done. }
  split; [|done]. apply (HP w); [|done|done]. unfold view. rewrite Hc. cbn.
  rewrite !H1 by (reflexivity || by rewrite list_elem_of_singleton). done.
Qed.

Lemma cfo_off_u8 v : is_u8 v -> is_u8 (Z.land v (Z.lnot MT6370_MASK_CFO_EN)).
Proof.
  intros H. apply is_u8_testbit; [apply Z.land_nonneg; left; apply H|].
  intros i Hi. by rewrite Z.land_spec, (testbit_u8 v i H Hi).
Qed.
Lemma cfo_on_u8 v : is_u8 v -> is_u8 (Z.lor v MT6370_MASK_CFO_EN).
Proof.
  intros H. apply is_u8_testbit; [apply Z.lor_nonneg; split; [apply H|done]|].
  intros i Hi. by rewrite Z.lor_spec, (testbit_u8 v i H Hi), (testbit_u8 MT6370_MASK_CFO_EN i ltac:(done) Hi).
Qed.
Lemma cfo_bit0 v :
  Z.testbit (Z.land v (Z.lnot MT6370_MASK_CFO_EN)) 0 = Z.testbit v 0 /\
  Z.testbit (Z.lor (Z.land v (Z.lnot MT6370_MASK_CFO_EN)) MT6370_MASK_CFO_EN) 0 = Z.testbit v 0.
Proof. rewrite Z.lor_spec, Z.land_spec, Z.lnot_spec by done. rewrite !andb_true_r. by rewrite orb_false_r. Qed.

(** Toggling CFO rewrites CHGCTRL2 but for the bit itself. *)
Lemma out_toggle_cfo : preserves P mt6370_toggle_cfo.
Proof using RegLaws0 SysLaws0 HP.
  intros w Hw. apply (wp_exec mt6370_toggle_cfo P). unfold mt6370_toggle_cfo. mwp_step.
  apply wp_run. assert (P (exec (bus (i2c_smbus_read MT6370_PMU_REG_FLEDEN)) w)) as H1
    by (by apply (stable_neutral reg healthy P HP); eauto with kern nocore).
  generalize dependent (exec (bus (i2c_smbus_read MT6370_PMU_REG_FLEDEN)) w). intros w1 H1.
  mwp_step; [by mwps|]. mwp_step; [by mwps|]. mwp_step. apply wp_run.
  pose proof (law_smbus_value MT6370_PMU_REG_CHGCTRL2 (mb w1)) as Hv.
  pose proof (law_smbus_read MT6370_PMU_REG_CHGCTRL2 (mb w1)) as [Hs _].
  assert (P (exec (bus (i2c_smbus_read MT6370_PMU_REG_CHGCTRL2)) w1)) as H2
    by (by apply (stable_neutral reg healthy P HP); eauto with kern nocore).
  rewrite eval_bus. assert (mb (exec (bus (i2c_smbus_read MT6370_PMU_REG_CHGCTRL2)) w1) =
    exec (i2c_smbus_read MT6370_PMU_REG_CHGCTRL2) (mb w1)) as Hb by apply mb_exec_bus.
  generalize dependent (exec (bus (i2c_smbus_read MT6370_PMU_REG_CHGCTRL2)) w1). intros w2 H2 Hb.
  unfold exec, eval in *. destruct (i2c_smbus_read MT6370_PMU_REG_CHGCTRL2 (mb w1)) as [r b]. cbn in *.
  mwp_step; [by mwps|]. bool_prop. rewrite Hv, u8_id by (done || apply law_u8).
  rewrite <- (Hs MT6370_PMU_REG_CHGCTRL2), <- Hb by (done || apply not_elem_of_nil).
  set (v := reg (mb w2) MT6370_PMU_REG_CHGCTRL2). assert (is_u8 v) as Hu by apply law_u8.
  destruct (cfo_bit0 v) as [E1 E2]. mwp_step.
  eapply wp_mono; [apply out_smbus_ctrl2; [by apply cfo_off_u8|by rewrite E1|done]|]. intros r' w3 [P3 C3].
  mwp_step; [by mwps|]. eapply wp_mono; [apply out_smbus_ctrl2; [by apply cfo_on_u8, cfo_off_u8| |done]|].
  - rewrite E2. by rewrite C3.
  - by intros ? ? [].
Qed.
#[local] Hint Resolve out_toggle_cfo : kern.

Lemma out_mivr_irq : preserves P mt6370_pmu_chg_mivr_irq_handler.
Proof using RegLaws0 SysLaws0 HP. unfold mt6370_pmu_chg_mivr_irq_handler. solve_stable. Qed.
Lemma out_notify_if_set a n e : preserves P (notify_if_set a n e).
Proof using RegLaws0 HP. unfold notify_if_set. solve_stable. Qed.
Lemma out_read_all l : preserves P (read_all l).
Proof using RegLaws0 HP. induction l; simpl; solve_stable; auto. Qed.
#[local] Hint Resolve out_mivr_irq out_notify_if_set out_read_all : kern.

(** The events that may reach the power path, through the detection of the
    charger's type, or that are calls of the table. *)
Definition detects (e : mt_event) : bool :=
  match e with EvCall _ | EvIrq attachi | EvIrq dcdti | EvSetProp PROP_ONLINE _ => true | _ => false end.

Lemma out_event e : detects e = false -> preserves P (ev_run e).
Proof using RegLaws0 SysLaws0 HP.
  intros He. destruct e as [c|i| |p|p v|[]| | | | | | | | | | | |]; try discriminate; cbn [ev_run].
  - destruct i; try discriminate; cbn [irq_handler];
      unfold mt6370_pmu_chg_treg_irq_handler, mt6370_pmu_chg_vbusov_irq_handler, mt6370_pmu_chg_tmri_irq_handler,
        mt6370_pmu_chg_aiclmeasi_irq_handler, mt6370_chg_irq_set_flag, mt6370_pmu_chg_wdtmri_irq_handler,
        mt6370_kick_wdt, mt6370_pmu_chg_rechgi_irq_handler, mt6370_pmu_chg_ieoci_irq_handler,
        mt6370_pmu_ovpctrl_uvp_d_evt_irq_handler; solve_stable.
  - unfold mt6370_pmu_chg_mivr_dwork_handler. solve_stable.
  - destruct p; unfold mt6370_charger_get_property, mt6370_charger_get_online, mt6370_is_charging_enable; solve_stable.
  - destruct p; try discriminate; unfold mt6370_charger_set_property; solve_stable.
  - unfold mt6370_boost_enable, mt6370_enable_otg, otg_by_power_switch; solve_stable.
  - unfold mt6370_boost_disable, mt6370_enable_otg, otg_by_power_switch; solve_stable.
  - unfold mt6370_boost_is_enabled; solve_stable.
  - unfold mt6370_boost_set_voltage_sel; solve_stable.
  - unfold mt6370_boost_get_voltage_sel; solve_stable.
  - unfold mt6370_boost_set_current_limit; solve_stable.
  - unfold mt6370_boost_get_current_limit; solve_stable.
  - unfold enable_iaicr_calibration_store; solve_stable.
  - unfold CHG_REGS_show; solve_stable.
  - unfold shipping_mode_store; solve_stable.
  - unfold mt6370_enable_direct_charge, dc_disable_bypass; solve_stable.
  - unfold mt6370_set_dc_vbusov; solve_stable.
  - unfold mt6370_set_dc_ibusoc; solve_stable.
  - unfold mt6370_kick_wdt; solve_stable.
Qed.
End Outside.

(** ** Interrupts and limits *)

Section Events.
  Context {B : Type} `{!Mt6370Bus B} `{!Mt6370Sys B} (reg : B -> Z -> Z) (healthy : B -> Prop).
  Context `{!RegLaws reg healthy} `{!SysLaws reg healthy}.
Abbreviation charging := (charging reg).
Abbreviation off := (fun w : mworld B => charging w = false).
Abbreviation inv := (chg_inv reg healthy).

(** The detection preserves what the power path preserves. *)
Lemma det_handler P : stable reg healthy P -> (forall en, preserves P (mt6370_enable_power_path en)) ->
  preserves P __mt6370_chgdet_handler.
Proof using RegLaws0.
  intros HP Hpp. unfold __mt6370_chgdet_handler, chgdet_out, chgdet_end. cbv zeta. solve_stable; try apply Hpp.
Qed.

Lemma det_event P e : stable reg healthy P -> (forall en, preserves P (mt6370_enable_power_path en)) ->
  (forall c, e <> EvCall c) -> preserves P (ev_run e).
Proof using RegLaws0 SysLaws0.
  intros HP Hpp Hc. pose proof (det_handler P HP Hpp) as Hd.
  destruct (detects e) eqn:E; [|by apply (out_event reg healthy P HP)].
  destruct e as [c|i| |p|p v|[]| | | | | | | | | | | |]; try discriminate; [by destruct (Hc c)|..]; cbn [ev_run].
  - destruct i; try discriminate; cbn [irq_handler];
      unfold mt6370_pmu_attachi_irq_handler, mt6370_pmu_dcdti_irq_handler; solve_stable; try apply Hd.
  - destruct p; try discriminate. unfold mt6370_charger_set_property, mt6370_charger_set_online,
      mt6370_enable_chg_type_det, mt6370_chgdet_handler, mt6370_enable_chgdet_flow. solve_stable; try apply Hd.
Qed.

Lemma inv_event e : preserves inv (ev_run e).
Proof using RegLaws0 SysLaws0.
  destruct e as [c|i| |p|p v|en| | | | | | | | | | | |]; [exact (inv_run reg healthy c)|..];
    (apply det_event; [apply chg_inv_stable|intros; by apply (inv_power_path reg healthy)|done]).
Qed.

Lemma off_event e : (forall c, e <> EvCall c) -> preserves off (ev_run e).
Proof using RegLaws0 SysLaws0. intros He. apply det_event; [apply off_stable|intros; by apply (off_power_path reg healthy)|done]. Qed.
End Events.

(** ** Mutexes and hidden mode *)

Section Discipline.
  Context {B : Type} `{!Mt6370Bus B} `{!Mt6370Sys B}.

Definition all_locks : list lock := IrqLock :: chg_locks.

#[local] Hint Resolve bal_get_adc bal_hidden bal_chgdet bal_chg_type_det : kern.

Lemma bal_toggle_cfo : balanced (B := B) [] mt6370_toggle_cfo.
Proof. unfold mt6370_toggle_cfo. solve_balanced. Qed.
Lemma bal_notify_if_set a n e : balanced (B := B) [] (notify_if_set a n e).
Proof. unfold notify_if_set. solve_balanced. Qed.
Lemma bal_read_all l : balanced (B := B) [] (read_all l).
Proof. induction l; simpl; solve_balanced; auto. Qed.
#[local] Hint Resolve bal_toggle_cfo bal_notify_if_set bal_read_all : kern.

Lemma bal_irq i : balanced (B := B) all_locks (irq_handler i).
Proof.
  destruct i; cbn [irq_handler];
    unfold mt6370_pmu_chg_treg_irq_handler, mt6370_pmu_chg_mivr_irq_handler, mt6370_pmu_chg_vbusov_irq_handler,
      mt6370_pmu_chg_tmri_irq_handler, mt6370_pmu_chg_aiclmeasi_irq_handler, mt6370_chg_irq_set_flag,
      mt6370_pmu_chg_wdtmri_irq_handler, mt6370_kick_wdt, mt6370_pmu_chg_rechgi_irq_handler,
      mt6370_pmu_chg_ieoci_irq_handler, mt6370_pmu_attachi_irq_handler, mt6370_pmu_dcdti_irq_handler,
      mt6370_pmu_ovpctrl_uvp_d_evt_irq_handler; solve_balanced;
    try (apply (balanced_with_lock _ [PpLock]); [|lock_dec..]; solve_balanced).
Qed.

(** Everything but a run of AICL and the number that asks for shipping mode. *)
Definition returns_locks (e : mt_event) : bool :=
  match e with
  | EvCall c => negb (is_aicl c)
  | EvShipping buf => match kstrtoint buf 10 with KOk tmp => negb (tmp =? 5526789) | KErr _ => true end
  | _ => true
  end.

Lemma bal_event e : returns_locks e = true -> balanced (B := B) all_locks (ev_run e).
Proof.
  intros He. destruct e as [c|i| |p|p v|[]| | | | | | | | | | | |]; cbn [ev_run].
  - apply (balanced_weaken chg_locks); [|lock_dec]. apply bal_run. cbn in He. by bool_prop.
  - apply bal_irq.
  - unfold mt6370_pmu_chg_mivr_dwork_handler. solve_balanced.
  - destruct p; unfold mt6370_charger_get_property, mt6370_charger_get_online, mt6370_is_charging_enable; solve_balanced.
  - destruct p; unfold mt6370_charger_set_property, mt6370_charger_set_online; solve_balanced.
  - unfold mt6370_boost_enable, mt6370_enable_otg, otg_by_power_switch; solve_balanced.
  - unfold mt6370_boost_disable, mt6370_enable_otg, otg_by_power_switch; solve_balanced.
  - unfold mt6370_boost_is_enabled; solve_balanced.
  - unfold mt6370_boost_set_voltage_sel; solve_balanced.
  - unfold mt6370_boost_get_voltage_sel; solve_balanced.
  - unfold mt6370_boost_set_current_limit; solve_balanced.
  - unfold mt6370_boost_get_current_limit; solve_balanced.
  - unfold enable_iaicr_calibration_store; solve_balanced.
  - unfold CHG_REGS_show; solve_balanced.
  - cbn in He. unfold shipping_mode_store. destruct (kstrtoint buf 10); try rewrite He; solve_balanced.
  - unfold mt6370_enable_direct_charge, dc_disable_bypass; solve_balanced.
  - unfold mt6370_set_dc_vbusov; solve_balanced.
  - unfold mt6370_set_dc_ibusoc; solve_balanced.
  - unfold mt6370_kick_wdt; solve_balanced.
Qed.

Lemma locks_events (es : list mt_event) (w : mworld B) :
  locks (md w) = ([], false) -> forallb returns_locks es = true -> locks (md (exec (for_each es ev_run) w)) = ([], false).
Proof.
  revert w. induction es as [|e es IH]; intros w H Hc; cbn [for_each]; [done|].
  cbn in Hc. bool_prop. rewrite exec_bind. apply IH; [|done]. rewrite (bal_event e); [done..|].
  unfold locks in H. injection H as -> _. intros l _. apply not_elem_of_nil.
Qed.
End Discipline.

Section HiddenEvents.
  Context {B : Type} `{!Mt6370Bus B} `{!Mt6370Sys B} (reg : B -> Z -> Z) (healthy : B -> Prop).
  Context `{!RegLaws reg healthy} `{!SysLaws reg healthy}.
Abbreviation cnt := (cnt_step healthy).
#[local] Hint Resolve cnt_test_bit cnt_get_adc cnt_enable_irq cnt_power_path cnt_chg_type_det : kern.

Lemma cnt_toggle_cfo : cnt 0 mt6370_toggle_cfo.
Proof using RegLaws0. unfold mt6370_toggle_cfo. solve_cnt. Qed.
Lemma cnt_chgdet : cnt 0 __mt6370_chgdet_handler.
Proof using RegLaws0.
  unfold __mt6370_chgdet_handler, chgdet_out, chgdet_end, __mt6370_enable_chgdet_flow, mt6370_set_usbsw_state,
    mt6370_bc12_workaround, mt6370_toggle_chgdet_flow. cbv zeta. solve_cnt.
Qed.
Lemma cnt_read_all l : cnt 0 (read_all l).
Proof using RegLaws0. induction l; simpl; solve_cnt; auto. Qed.
#[local] Hint Resolve cnt_toggle_cfo cnt_chgdet cnt_read_all : kern.
Lemma cnt_shipping buf : cnt 0 (shipping_mode_store buf).
Proof using RegLaws0.
  unfold shipping_mode_store. destruct (kstrtoint buf 10); [solve_cnt|]. destruct (negb _); [solve_cnt|].
  do 4 (apply cnt_bind0; [solve_cnt|]; intros; try (destruct (_ <? 0); [solve_cnt|])).
  eapply cnt_enter; [eassumption|]. intros. unfold mt6370_pmu_reg_clr_bit. apply (cnt_update_ok reg healthy); [reflexivity|].
  intros r2 Hr2. rewrite (proj2 (Z.ltb_ge _ _)) by done. solve_cnt.
Qed.
#[local] Hint Resolve cnt_shipping : kern.

Lemma cnt_event e : cnt 0 (ev_run e).
Proof using RegLaws0 SysLaws0.
  destruct e as [c|i| |p|p v|[]| | | | | | | | | | | |]; [exact (cnt_run reg healthy c)|destruct i|..];
    cbn [ev_run irq_handler]; try destruct p;
    unfold mt6370_pmu_chg_treg_irq_handler, mt6370_pmu_chg_mivr_irq_handler, mt6370_pmu_chg_vbusov_irq_handler,
      mt6370_pmu_chg_tmri_irq_handler, mt6370_pmu_chg_aiclmeasi_irq_handler, mt6370_chg_irq_set_flag,
      mt6370_pmu_chg_wdtmri_irq_handler, mt6370_kick_wdt, mt6370_pmu_chg_rechgi_irq_handler,
      mt6370_pmu_chg_ieoci_irq_handler, mt6370_pmu_attachi_irq_handler, mt6370_pmu_dcdti_irq_handler,
      mt6370_pmu_ovpctrl_uvp_d_evt_irq_handler, notify_if_set, mt6370_pmu_chg_mivr_dwork_handler,
      mt6370_charger_get_property, mt6370_charger_get_online, mt6370_is_charging_enable, mt6370_get_charging_status,
      mt6370_charger_set_property, mt6370_charger_set_online, mt6370_boost_enable, mt6370_boost_disable,
      mt6370_enable_otg, otg_by_power_switch, otg_switch, otg_failed, mt6370_enable_wdt, mt6370_boost_is_enabled,
      mt6370_boost_set_voltage_sel, mt6370_boost_get_voltage_sel, mt6370_boost_set_current_limit,
      mt6370_boost_get_current_limit, enable_iaicr_calibration_store, CHG_REGS_show, mt6370_enable_direct_charge, dc_disable_bypass,
      mt6370_set_dc_vbusov, mt6370_set_dc_ibusoc; solve_cnt.
Qed.
End HiddenEvents.

Section Lifetime.
  Context {B : Type} `{!Mt6370Bus B} `{!Mt6370Sys B} (reg : B -> Z -> Z) (healthy : B -> Prop).
  Context `{!RegLaws reg healthy} `{!SysLaws reg healthy}.
Abbreviation charging := (charging reg).

Definition no_call (e : mt_event) : bool := match e with EvCall _ => false | _ => true end.

Lemma off_events es (w : mworld B) :
  forallb no_call es = true -> charging w = false -> charging (exec (for_each es ev_run) w) = false.
Proof using RegLaws0 SysLaws0.
  revert w. induction es as [|e es IH]; intros w Hc Hw; cbn [for_each]; [done|].
  cbn in Hc. bool_prop. rewrite exec_bind. apply IH; [done|]. apply (off_event reg healthy); [|done].
  intros c ->. done.
Qed.

Lemma inv_events es : preserves (chg_inv reg healthy) (for_each es ev_run).
Proof using RegLaws0 SysLaws0. apply preserves_for_each. intros e. exact (inv_event reg healthy e). Qed.
End Lifetime.
