(* ===== verification/Mt6370Line.v ===== *)
(** * The line of the MIVR interrupt

    The handler of the MIVR interrupt masks its line and leaves it to a delayed
    work to open it again; switching the power path off masks it too.  The kernel
    counts: a line is open only when it was enabled as often as it was disabled.
    Here the count is related to the state of the driver, over everything that
    can happen to it. *)

From S2P Require Import Prelude ChargerClass AlgClass ChargerTypes Platform BasicCharger Mt6370Enc.
From S2P Require Import Kstrtox Mt6370 Mt6370Ops Mt6370Chip Mt6370Locks.
From S2P Require Import Mt6370Irq Mt6370IrqSpec.
#[local] Open Scope Z_scope.

(** [depth b] is how often the line has been disabled and not enabled; only
    [enable_irq] and [disable_irq_nosync] change it. *)
Definition keeps_depth {B A} (depth : B -> Z) (m : M B A) : Prop := forall b, depth (exec m b) = depth b.

Class LineLaws {B} `{!Mt6370Bus B} `{!Mt6370Sys B} (depth : B -> Z) (line : Z) : Prop := {
  line_mivr : forall b, eval (platform_get_resource_byname "chg_mivr"%string) b = Some line;
  line_on : forall b, depth (exec (enable_irq line) b) = depth b - 1;
  line_off : forall b, depth (exec (disable_irq_nosync line) b) = depth b + 1;
  line_res : forall s, keeps_depth depth (platform_get_resource_byname s);
  line_read : forall a, keeps_depth depth (rt_regmap_reg_read a);
  line_write : forall a v, keeps_depth depth (rt_regmap_reg_write a v);
  line_update : forall a m v, keeps_depth depth (rt_regmap_update_bits a m v);
  line_block_read : forall a n, keeps_depth depth (rt_regmap_block_read a n);
  line_block_write : forall a l, keeps_depth depth (rt_regmap_block_write a l);
  line_smbus_read : forall a, keeps_depth depth (i2c_smbus_read a);
  line_smbus_write : forall a v, keeps_depth depth (i2c_smbus_write a v);
  line_sleep : forall ms, keeps_depth depth (mt_sleep ms);
  line_wait : keeps_depth depth wait_event_interruptible_timeout;
  line_changed : keeps_depth depth power_supply_changed;
  line_notify : forall e, keeps_depth depth (charger_dev_notify e);
  line_pinctrl : forall s, keeps_depth depth (pinctrl_select_state s);
  line_phy_get : keeps_depth depth phy_get;
  line_phy_mode : forall m, keeps_depth depth (phy_set_mode_ext m);
  line_phy_put : keeps_depth depth phy_put;
  line_usb_node : keeps_depth depth of_usb_cdp_block;
  line_online : keeps_depth depth wireless_charger_online;
  line_metrics : forall t, keeps_depth depth (bat_metrics_chrdet t)
}.
#[export] Hint Resolve line_res line_read line_write line_update line_block_read line_block_write line_smbus_read
  line_smbus_write line_sleep line_wait line_changed line_notify line_pinctrl line_phy_get line_phy_mode line_phy_put
  line_usb_node line_online line_metrics : kern.

Section Line.
  Context {B : Type} `{!Mt6370Bus B} `{!Mt6370Sys B} (depth : B -> Z) (line : Z) `{!LineLaws depth line}.

(** What the count is compared with. *)
Definition masks (w : mworld B) : Z * bool * bool := (depth (mb w), mt_pp_en (md w), mt_mivr_dwork (md w)).

(** The line is masked once for the delayed work and once for the power path. *)
Definition line_inv (w : mworld B) : Prop := depth (mb w) = b2z (mt_mivr_dwork (md w)) + b2z (negb (mt_pp_en (md w))).

Lemma line_inv_masks w w' : masks w' = masks w -> line_inv w -> line_inv w'.
Proof. unfold masks, line_inv. intros H. injection H as -> -> ->. done. Qed.

Lemma masks_bus {A} (m : M B A) : keeps_depth depth m -> keeps masks (bus m).
Proof. intros Hm w. unfold masks. by rewrite md_exec_bus, mb_exec_bus, Hm. Qed.
Lemma masks_modd f :
  (forall d, (mt_pp_en (f d), mt_mivr_dwork (f d)) = (mt_pp_en d, mt_mivr_dwork d)) -> keeps masks (modd f).
Proof. intros Hf w. unfold masks. cbn. specialize (Hf (md w)). congruence. Qed.
Lemma masks_with_lock {A} l (m : M (mworld B) A) : keeps masks m -> keeps masks (with_lock l m).
Proof.
  intros Hm. unfold with_lock. apply keeps_bind; [apply masks_modd; intros; by case_match|intros].
  apply keeps_bind; [done|intros]. apply keeps_bind; [by apply masks_modd|intros; apply keeps_ret].
Qed.
End Line.

(** Follow the structure of the code; a call needs a lemma in [kern]. *)
Ltac solve_masks :=
  repeat match goal with
    | |- forall _, _ => intro
    | |- keeps _ (bind _ _) => apply keeps_bind
    | |- keeps _ (ret _) => apply keeps_ret
    | |- keeps _ (gets _) => apply keeps_gets
    | |- keeps _ (getd _) => apply keeps_gets
    | |- keeps _ (ignore _) => apply keeps_ignore
    | |- keeps _ (when _ _) => apply keeps_when
    | |- keeps _ (for_each _ _) => apply keeps_for_each
    | |- keeps _ (with_lock _ _) => apply masks_with_lock
    | |- keeps _ (mutex_lock _) => apply masks_modd; intros; by case_match
    | |- keeps _ (mutex_unlock _) => apply masks_modd; done
    | |- keeps _ (modd _) => apply masks_modd; done
    | |- keeps _ (bus _) => apply masks_bus; solve [eauto with kern nocore]
    | |- keeps _ (mt6370_pmu_reg_assign_bit ?b _ _) => unfold mt6370_pmu_reg_assign_bit
    | |- keeps _ (mt6370_pmu_reg_update_bits _ _ _) => apply masks_bus, line_update
    | |- keeps _ (mt6370_set_field _ _) => apply masks_bus, line_update
    | |- keeps _ (mt6370_pmu_reg_set_bit _ _) => apply masks_bus, line_update
    | |- keeps _ (mt6370_pmu_reg_clr_bit _ _) => apply masks_bus, line_update
    | |- keeps _ (mt6370_pmu_reg_write _ _) => apply masks_bus, line_write
    | |- keeps _ (mt6370_pmu_reg_block_read _ _) => apply masks_bus, line_block_read
    | |- keeps _ (mt6370_pmu_reg_block_write _ _) => apply masks_bus, line_block_write
    | |- keeps _ (if ?b then _ else _) => destruct b
    | |- keeps _ (match ?x with _ => _ end) => destruct x
    | |- keeps _ _ => solve [eauto with kern nocore]
    end.

(** ** Code that does not touch the line *)

Section Code.
  Context {B : Type} `{!Mt6370Bus B} `{!Mt6370Sys B} (depth : B -> Z) (line : Z) `{!LineLaws depth line}.
Abbreviation masks := (masks depth).
Abbreviation line_inv := (line_inv depth).

Lemma msk_read a : keeps masks (mt6370_pmu_reg_read a).
Proof using LineLaws0. unfold mt6370_pmu_reg_read. solve_masks. Qed.
#[local] Hint Resolve msk_read : kern.
Lemma msk_test_bit a n : keeps masks (mt6370_pmu_reg_test_bit a n).
Proof using LineLaws0. unfold mt6370_pmu_reg_test_bit. solve_masks. Qed.
Lemma msk_get_field f old : keeps masks (mt6370_get_field f old).
Proof using LineLaws0. unfold mt6370_get_field. solve_masks. Qed.
Lemma msk_hidden en : keeps masks (mt6370_enable_hidden_mode en).
Proof using LineLaws0. unfold mt6370_enable_hidden_mode. solve_masks. Qed.
#[local] Hint Resolve msk_test_bit msk_get_field msk_hidden : kern.
Lemma msk_adc_wait n : keeps masks (adc_wait n).
Proof using LineLaws0. induction n; simpl; solve_masks; auto. Qed.
#[local] Hint Resolve msk_adc_wait : kern.
Lemma msk_get_adc s : keeps masks (mt6370_get_adc s).
Proof using LineLaws0.
  unfold mt6370_get_adc, adc_locked, adc_convert, adc_timeout, mt6370_get_aicr, mt6370_get_ichg, __mt6370_get_ichg.
  solve_masks.
Qed.
Lemma msk_set_ichg v : keeps masks (__mt6370_set_ichg v).
Proof using LineLaws0.
  unfold __mt6370_set_ichg, mt6370_ichg_workaround, __mt6370_get_ichg, __mt6370_set_ieoc. solve_masks.
Qed.
Lemma msk_post_loop n c st sp : keeps masks (post_aicl_loop n c st sp).
Proof using LineLaws0. revert c. induction n; intros c; simpl; unfold __mt6370_set_aicr; solve_masks; auto. Qed.
Lemma msk_usb_rdy : keeps masks is_usb_rdy.
Proof using LineLaws0. unfold is_usb_rdy. solve_masks. Qed.
#[local] Hint Resolve msk_get_adc msk_set_ichg msk_post_loop msk_usb_rdy : kern.
Lemma msk_cdp_wait n : keeps masks (cdp_wait n).
Proof using LineLaws0. induction n; simpl; solve_masks; auto. Qed.
Lemma msk_dischg_clear n r : keeps masks (dischg_clear n r).
Proof using LineLaws0. revert r. induction n; intros r; simpl; solve_masks; auto. Qed.
Lemma msk_pumpx_wait n : keeps masks (pumpx_wait n).
Proof using LineLaws0. induction n; simpl; solve_masks; auto. Qed.
Lemma msk_dump_regs l : keeps masks (dump_regs l).
Proof using LineLaws0. induction l; simpl; solve_masks; auto. Qed.
Lemma msk_tchg_retry n r t : keeps masks (tchg_retry n r t).
Proof using LineLaws0. revert r t. induction n; intros r t; simpl; solve_masks; auto. Qed.
Lemma msk_read_all l : keeps masks (read_all l).
Proof using LineLaws0. induction l; simpl; solve_masks; auto. Qed.
#[local] Hint Resolve msk_cdp_wait msk_dischg_clear msk_pumpx_wait msk_dump_regs msk_tchg_retry msk_read_all : kern.
Lemma msk_chgdet_flow en : keeps masks (__mt6370_enable_chgdet_flow en).
Proof using LineLaws0. unfold __mt6370_enable_chgdet_flow, mt6370_set_usbsw_state. solve_masks. Qed.
Lemma msk_pump en : keeps masks (mt6370_enable_pump_express en).
Proof using LineLaws0.
  unfold mt6370_enable_pump_express, mt6370_set_ichg, mt6370_set_aicr, __mt6370_set_aicr, mt6370_enable_charging.
  solve_masks.
Qed.
#[local] Hint Resolve msk_chgdet_flow msk_pump : kern.

(** The events that touch the line or the power path. *)
Definition masking (e : mt_event) : bool :=
  match e with
  | EvCall (CPowerPath _) | EvCall (CTypeDet _) | EvIrq chg_mivr | EvIrq attachi | EvIrq dcdti | EvWork
  | EvSetProp PROP_ONLINE _ | EvDirect _ => true
  | _ => false
  end.

Lemma msk_run c : masking (EvCall c) = false -> keeps masks (mt_run c).
Proof using LineLaws0.
  intros Hc. destruct c; try discriminate; cbn [mt_run];
    unfold mt6370_plug_in, mt6370_plug_out, mt6370_enable_charging, mt6370_enable_wdt, mt6370_set_ichg, mt6370_set_mivr,
      __mt6370_set_mivr, mt6370_set_pep_current_pattern, mt6370_set_pep20_current_pattern,
      mt6370_enable_cable_drop_comp, mt6370_dump_register, mt6370_is_enabled_charging,
      mt6370_is_charging_enable, mt6370_get_ichg, __mt6370_get_ichg, mt6370_get_aicr, mt6370_get_cv,
      mt6370_set_cv, __mt6370_set_cv, mt6370_kick_wdt, mt6370_get_mivr, __mt6370_get_mivr,
      mt6370_get_mivr_state, mt6370_get_indpm_state, mt6370_is_charging_done, mt6370_get_zcv,
      mt6370_set_ieoc, __mt6370_set_ieoc, mt6370_enable_te, __mt6370_enable_te,
      mt6370_reset_eoc_state, mt6370_safety_check, mt6370_get_min_ichg, mt6370_get_min_aicr,
      mt6370_enable_safety_timer, __mt6370_enable_safety_timer, mt6370_is_safety_timer_enable,
      mt6370_is_power_path_enable, mt6370_enable_otg, otg_by_power_switch, otg_switch, otg_failed, mt6370_enable_wdt,
      mt6370_set_otg_current_limit, mt6370_set_pep20_reset, mt6370_enable_discharge, mt6370_set_aicr, __mt6370_set_aicr,
      mt6370_select_input_current_limit, mt6370_get_tchg, mt6370_get_ibus, mt6370_get_vbus,
      mt6370_do_event, mt6370_enable_dcap, mt6370_enable_ir_comp, mt6370_set_ircmp_resistor,
      mt6370_set_ircmp_vclamp, mt6370_get_ieoc, mt6370_get_charging_status, mt6370_run_aicl, __mt6370_run_aicl,
      mt6370_set_aicl_vth, mt6370_chg_irq_clr_flag, aicl_measure, mt6370_post_aicl_measure, aicl_finish, aicl_unlock;
    solve_masks.
Qed.

Lemma msk_event e : masking e = false -> keeps masks (ev_run e).
Proof using LineLaws0.
  intros He. destruct e as [c|i| |p|p v|[]| | | | | | | | | | | |]; try discriminate; [by apply msk_run|destruct i|..];
    try discriminate; cbn [ev_run irq_handler]; try destruct p; try discriminate;
    unfold mt6370_pmu_chg_treg_irq_handler, mt6370_pmu_chg_vbusov_irq_handler,
      mt6370_pmu_chg_tmri_irq_handler, mt6370_pmu_chg_aiclmeasi_irq_handler, mt6370_chg_irq_set_flag,
      mt6370_pmu_chg_wdtmri_irq_handler, mt6370_kick_wdt, mt6370_pmu_chg_rechgi_irq_handler,
      mt6370_pmu_chg_ieoci_irq_handler, mt6370_pmu_ovpctrl_uvp_d_evt_irq_handler, notify_if_set,
      mt6370_charger_get_property, mt6370_charger_get_online, mt6370_is_charging_enable, mt6370_get_charging_status,
      mt6370_charger_set_property, mt6370_boost_enable, mt6370_boost_disable,
      mt6370_enable_otg, otg_by_power_switch, otg_switch, otg_failed, mt6370_enable_wdt, mt6370_boost_is_enabled,
      mt6370_boost_set_voltage_sel, mt6370_boost_get_voltage_sel, mt6370_boost_set_current_limit,
      mt6370_boost_get_current_limit, enable_iaicr_calibration_store, CHG_REGS_show, shipping_mode_store,
      mt6370_set_dc_vbusov, mt6370_set_dc_ibusoc; solve_masks.
Qed.

(** ** Code that does *)

Lemma inv_of_masks {A} (m : M (mworld B) A) : keeps masks m -> preserves line_inv m.
Proof. intros Hm w. apply line_inv_masks, Hm. Qed.

Lemma line_enable (en : bool) (w : mworld B) :
  wp (mt6370_enable_irq "chg_mivr" en) (fun _ w' => md w' = md w /\
    depth (mb w') = depth (mb w) + (if en then -1 else 1)) w.
Proof using LineLaws0.
  unfold mt6370_enable_irq. mwp_step. mwp_step.
  pose proof (line_mivr (depth := depth) (line := line) (mb w)) as Hr.
  pose proof (line_res (depth := depth) (line := line) "chg_mivr"%string (mb w)) as Hd.
  unfold eval, exec in *. rewrite H in *. cbn in Hr, Hd. subst.
  destruct en; mwps; (split; [done|]); cbn.
  - pose proof (line_on (depth := depth) (line := line) b) as E. unfold exec in E.
    match goal with Hx : enable_irq line _ = _ |- _ => cbn in Hx; rewrite Hx in E end. cbn in E. lia.
  - pose proof (line_off (depth := depth) (line := line) b) as E. unfold exec in E.
    match goal with Hx : disable_irq_nosync line _ = _ |- _ => cbn in Hx; rewrite Hx in E end. cbn in E. lia.
Qed.

Lemma inv_with_lock {A} l (m : M (mworld B) A) : preserves line_inv m -> preserves line_inv (with_lock l m).
Proof.
  intros Hm. unfold with_lock. apply preserves_bind; [apply inv_of_masks; solve_masks|intros].
  apply preserves_bind; [done|intros]. apply preserves_bind; [apply inv_of_masks; solve_masks|intros; apply preserves_ret].
Qed.

Lemma line_power_path en : preserves line_inv (mt6370_enable_power_path en).
Proof using LineLaws0.
  apply inv_with_lock. intros w Hw. match goal with |- _ (exec ?m w) => apply (wp_exec m) end.
  unfold Mt6370Line.line_inv in *. do 2 mwp_step. mwp_step; [by mwps|]. mwp_step.
  assert (forall (m : M (mworld B) Z) w1 Q, keeps masks m ->
    (forall r w2, masks w2 = masks w1 -> Q r w2) -> wp m Q w1) as Hk by (intros m w1 Q Hm HQ; apply wp_run, HQ, Hm).
  destruct en; cbn [negb when]; destruct (mt_pp_en (md w)) eqn:Ep; try discriminate.
  - mwp_step. mwp_step. mwp_step. mwp_step. apply Hk; [unfold __mt6370_set_mivr; solve_masks|]. intros r w2 H2.
    injection H2 as Hd Hp Hw2. mwp_step. eapply wp_mono; [apply line_enable|]. intros [] w3 [E3 D3]. mwps. cbn.
    rewrite D3, Hd, E3, Hw2, Hw. cbn. lia.
  - eapply wp_mono; [apply line_enable|]. intros [] w1 [E1 D1]. mwp_step. mwp_step. mwp_step.
    apply Hk; [unfold __mt6370_set_mivr; solve_masks|]. intros r w2 H2. injection H2 as Hd Hp Hw2.
    mwps. cbn. rewrite Hd, D1, Hw2, E1, Hw. cbn. lia.
Qed.

(** Follow the code down to the calls that touch the line. *)
Ltac solve_line :=
  repeat match goal with
    | |- forall _, _ => intro
    | |- preserves _ (mt6370_enable_power_path _) => apply line_power_path
    | |- preserves _ _ => solve [apply inv_of_masks; solve_masks]
    | |- preserves _ (bind _ _) => apply preserves_bind
    | |- preserves _ (ignore _) => apply preserves_ignore
    | |- preserves _ (when _ _) => apply preserves_when
    | |- preserves _ (with_lock _ _) => apply inv_with_lock
    | |- preserves _ (if ?b then _ else _) => destruct b
    | |- preserves _ _ => solve [eauto with kern nocore]
    end.

Lemma line_chgdet : preserves line_inv __mt6370_chgdet_handler.
Proof using LineLaws0.
  unfold __mt6370_chgdet_handler, chgdet_out, chgdet_end, mt6370_bc12_workaround, mt6370_toggle_chgdet_flow.
  cbv zeta. solve_line.
Qed.
#[local] Hint Resolve line_chgdet : kern.
Lemma line_type_det en : preserves line_inv (mt6370_enable_chg_type_det en).
Proof using LineLaws0.
  unfold mt6370_enable_chg_type_det, mt6370_chgdet_handler, mt6370_enable_chgdet_flow. solve_line.
Qed.
Lemma line_irq_det i : i = attachi \/ i = dcdti -> preserves line_inv (irq_handler i).
Proof using LineLaws0.
  intros [-> | ->]; cbn [irq_handler]; unfold mt6370_pmu_attachi_irq_handler, mt6370_pmu_dcdti_irq_handler; solve_line.
Qed.
End Code.

(** ** The count over everything that can happen *)

Section Steps.
  Context {B : Type} `{!Mt6370Bus B} `{!Mt6370Sys B} (depth : B -> Z) (line : Z) `{!LineLaws depth line}.
Abbreviation W := (mworld B).

(** The kernel delivers the interrupt only while its line is open, and runs a
    work only when it was scheduled.  Direct charging is left out: its end enables
    the line whether or not its start disabled it. *)
Definition deliverable (e : mt_event) (w : W) : Prop :=
  match e with
  | EvIrq chg_mivr => depth (mb w) = 0
  | EvWork => mt_mivr_dwork (md w) = true
  | EvDirect _ => False
  | _ => True
  end.

Inductive line_step (w : W) : W -> Prop :=
| LineEvent e : deliverable e w -> line_step w (exec (ev_run e) w)
| LineWorld b : depth b = depth (mb w) -> line_step w (w <| mb := b |>).

Lemma line_mivr_irq (w : W) :
  line_inv depth w -> depth (mb w) = 0 -> line_inv depth (exec mt6370_pmu_chg_mivr_irq_handler w).
Proof using LineLaws0.
  intros Hw H0. apply (wp_exec mt6370_pmu_chg_mivr_irq_handler). unfold mt6370_pmu_chg_mivr_irq_handler. mwp_step.
  match goal with |- wp ?m _ _ => assert (keeps (masks depth) m) as Hk end.
  { unfold mt6370_toggle_cfo. pose proof (msk_test_bit depth line). pose proof (msk_get_adc depth line). solve_masks. }
  apply wp_run. specialize (Hk w). injection Hk as Hd Hp Hr. unfold line_inv in *. mwp_step.
  eapply wp_mono; [apply (line_enable depth line)|]. intros [] w1 [E1 D1]. mwps. cbn.
  rewrite D1, Hd, E1, Hp. destruct (mt_mivr_dwork (md w)), (mt_pp_en (md w)); cbn in *; lia.
Qed.

Lemma line_work (w : W) :
  line_inv depth w -> mt_mivr_dwork (md w) = true ->
  wp mt6370_pmu_chg_mivr_dwork_handler (fun _ w' => line_inv depth w' /\ mt_mivr_dwork (md w') = false /\
    mt_pp_en (md w') = mt_pp_en (md w)) w.
Proof using LineLaws0.
  intros Hw H0. unfold mt6370_pmu_chg_mivr_dwork_handler, line_inv in *. do 2 mwp_step.
  eapply wp_mono; [apply (line_enable depth line)|]. intros [] w1 [E1 D1]. rewrite D1, E1. cbn.
  rewrite Hw, H0. split; [cbn; lia|done].
Qed.

Lemma line_step_inv w w' : line_step w w' -> line_inv depth w -> line_inv depth w'.
Proof using LineLaws0.
  intros [e He|b Hb] Hw; [|unfold line_inv in *; cbn; by rewrite Hb].
  destruct (masking e) eqn:Em; [|by apply (inv_of_masks depth), Hw; apply (msk_event depth line)].
  destruct e as [c|i| |p|p v|[]| | | | | | | | | | | |]; try discriminate.
  - clear He. revert w Hw. change (preserves (line_inv depth) (mt_run c)).
    destruct c; try discriminate; apply preserves_ignore;
      [apply (line_power_path depth line)|apply (line_type_det depth line)].
  - destruct i; try discriminate; cbn [ev_run]; [by apply line_mivr_irq|..];
      (apply (line_irq_det depth line); [auto|done]).
  - by apply line_work.
  - destruct p; try discriminate. by apply (line_type_det depth line).
  - by destruct He.
Qed.

(** The end of direct charging enables the line whether or not its start disabled it. *)
Lemma direct_charge_unbalanced (w : W) :
  depth (mb (exec (mt6370_enable_direct_charge false) w)) = depth (mb w) - 1.
Proof using LineLaws0.
  enough (wp (mt6370_enable_direct_charge false) (fun _ w' => depth (mb w') = depth (mb w) - 1) w) as H by exact H.
  unfold mt6370_enable_direct_charge, dc_disable_bypass. mwp_step. mwp_step. apply wp_run. mwp_step. apply wp_run.
  pose proof (masks_bus depth _ (line_update (line := line) MT6370_PMU_REG_CHGPUMP (u8 MT6370_MASK_VG_EN) (u8 0)) w) as H1.
  set (w1 := exec (mt6370_pmu_reg_clr_bit MT6370_PMU_REG_CHGPUMP MT6370_MASK_VG_EN) w) in *.
  pose proof (masks_bus depth _ (line_update (line := line) MT6370_PMU_REG_CHGCTRL2 (u8 MT6370_MASK_BYPASS_MODE) (u8 0)) w1)
    as H2.
  set (w2 := exec (mt6370_pmu_reg_clr_bit MT6370_PMU_REG_CHGCTRL2 MT6370_MASK_BYPASS_MODE) w1) in *.
  injection H1 as D1 _ _. injection H2 as D2 _ _.
  mwp_step. eapply wp_mono; [apply (line_enable depth line)|]. intros [] w3 [_ D3]. mwps.
  change (depth (mb w1) = depth (mb w)) in D1. change (depth (mb w2) = depth (mb w1)) in D2. lia.
Qed.

(** C35: where the interrupt's number is found: whatever happens to the driver short
    of direct charging, in any order and on any bus, the line of the MIVR interrupt is disabled once while the delayed work
    is pending and once while the power path is off, and not otherwise: enabling and
    disabling are balanced, the line is open exactly when neither holds, and the
    delayed work opens it again if the power path is on.  The end of direct charging
    takes one from the count in every state, whether or not its start added one. *)
Theorem mivr_line_counted (w w' : W) :
  line_inv depth w -> rtc line_step w w' ->
  line_inv depth w' /\
  (depth (mb w') = 0 <-> mt_mivr_dwork (md w') = false /\ mt_pp_en (md w') = true) /\
  (mt_mivr_dwork (md w') = true -> mt_pp_en (md w') = true ->
   depth (mb (exec mt6370_pmu_chg_mivr_dwork_handler w')) = 0) /\
  depth (mb (exec (ev_run (EvDirect false)) w')) = depth (mb w') - 1.
Proof using LineLaws0.
  intros Hw Hs. assert (line_inv depth w') as Hi.
  { induction Hs as [|w w1 w2 H1 _ IH]; [done|]. by apply IH, (line_step_inv w). }
  split; [done|]. split_and!; [| |apply direct_charge_unbalanced].
  - unfold line_inv in Hi. rewrite Hi. destruct (mt_mivr_dwork (md w')), (mt_pp_en (md w')); cbn;
      (split; [intros ?; lia || done|intros [? ?]; done]).
  - intros Hd Hp. destruct (line_work w' Hi Hd) as (H1 & H2 & H3). unfold line_inv in H1. by rewrite H1, H2, H3, Hp.
Qed.
End Steps.

(** ** A concrete system *)

#[global] Instance chip_sys : Mt6370Sys chip := {|
  wireless_charger_online := ret false;
  bat_metrics_chrdet := fun _ => ret tt
|}.

Lemma chip_write_block_depth a l c : c_depth (exec (chip_write_block a l) c) = c_depth c.
Proof. revert a c. induction l as [|v l IH]; intros a c; cbn [chip_write_block]; [done|]. by rewrite exec_bind, IH. Qed.

#[global] Instance chip_line : LineLaws c_depth 0.
Proof.
  constructor; try (by intros); intros;
    try (intros b; cbn; unfold chip_try, chip_access, bind, exec, gets, modify, ret; cbn;
         by destruct (negb (c_fail b =? 0))).
  - intros b. cbn. unfold chip_try. rewrite exec_bind. unfold chip_access at 1. cbn.
    destruct (negb (c_fail b =? 0)); [|done]. rewrite exec_bind, exec_ret, chip_write_block_depth. done.
Qed.

(** The interrupt comes, the power path is switched off and on, the work runs. *)
Definition mw3 : mworld chip :=
  exec (ev_run (EvCall (CPowerPath true))) (exec (ev_run (EvCall (CPowerPath false))) (exec (ev_run (EvIrq chg_mivr)) mw0)).

Lemma mivr_line_counted_witness : c_depth (mb (exec mt6370_pmu_chg_mivr_dwork_handler mw3)) = 0.
Proof.
  assert (rtc (line_step c_depth) mw0 mw3) as Hr.
  { eapply rtc_l; [apply (LineEvent c_depth mw0 (EvIrq chg_mivr)); reflexivity|].
    eapply rtc_l; [apply (LineEvent c_depth _ (EvCall (CPowerPath false))); exact I|].
    apply rtc_once, (LineEvent c_depth _ (EvCall (CPowerPath true))). exact I. }
  destruct (mivr_line_counted c_depth 0 mw0 mw3 ltac:(vm_compute; reflexivity) Hr) as (_ & _ & H & _).
  apply H; vm_compute; reflexivity.
Defined.
