(* ===== verification/Mt6370ProbeSpec.v ===== *)
(** * From probe on: the life of the MT6370 charger driver

    What [mt6370_pmu_charger_probe] establishes on a working bus, and that
    nothing that can happen to the driver afterwards breaks it; and what a probe
    that fails leaves behind. *)

From S2P Require Import Prelude ChargerClass AlgClass ChargerTypes ChargerDt Platform BasicCharger Mt6370Enc.
From S2P Require Import RtRegmap Mt6370Map Mt6370 Mt6370Ops Mt6370Chip Mt6370Locks Mt6370Regs.
From S2P Require Import Mt6370Spec Mt6370Hidden Mt6370Irq Mt6370Probe Mt6370IrqSpec Mt6370Line.
#[local] Open Scope Z_scope.

(** Registering with the kernel has nothing to do with the registers. *)
Class ProbeLaws {B} `{!Mt6370Bus B} `{!ProbeEnv B} (reg : B -> Z -> Z) (healthy : B -> Prop) : Prop := {
  law_pinctrl_get : neutral reg healthy devm_pinctrl_get;
  law_lookup_state : forall s, neutral reg healthy (pinctrl_lookup_state s);
  law_register : forall s, neutral reg healthy (charger_device_register s);
  law_unregister : forall s, neutral reg healthy (charger_device_unregister s);
  law_request_irq : forall l i, neutral reg healthy (devm_request_threaded_irq l i);
  law_create : forall s, neutral reg healthy (device_create_file s);
  law_remove : forall s, neutral reg healthy (device_remove_file s);
  law_psy : neutral reg healthy devm_power_supply_register;
  law_regulator : neutral reg healthy devm_regulator_register
}.
#[export] Hint Resolve law_pinctrl_get law_lookup_state law_register law_unregister law_request_irq law_create law_remove
  law_psy law_regulator : kern.

Section ProbeLimits.
  Context {B : Type} `{!Mt6370Bus B} `{!Mt6370Sys B} `{!ProbeEnv B} (reg : B -> Z -> Z) (healthy : B -> Prop).
  Context `{!RegLaws reg healthy} `{!SysLaws reg healthy} `{!ProbeLaws reg healthy}.
Abbreviation W := (mworld B).
Abbreviation charging := (charging reg).
Abbreviation decode := (decode reg).

(** A step that keeps what is known, before the rest. *)
Lemma wp_keep {A C} (P : W -> Prop) (m : M W A) (k : A -> M W C) Q w :
  preserves P m -> P w -> (forall a w', P w' -> wp (k a) Q w') -> wp (bind m k) Q w.
Proof. intros Hm Hw Hk. apply wp_bind, wp_run, Hk, Hm, Hw. Qed.

(** The limits of the description are those of the chip and of the driver;
    charging is as it was. *)
Definition set_up (ds : mt6370_desc) (c : bool) (w : W) : Prop :=
  chg_inv_at reg healthy (programmed MT6370_ICHG (ichg_request (ds_ichg ds))) w /\
  mt_mivr (md w) = ds_mivr ds /\ mt_pp_en (md w) = true /\ charging w = c.

Lemma set_up_stable ds c : stable reg healthy (set_up ds c).
Proof.
  intros w w' Hv Hh (H1 & H2 & H3 & H4). unfold set_up. split; [by apply (chg_inv_at_stable reg healthy _ w)|].
  unfold view in Hv. split_and!; congruence.
Qed.

(** Before the limits are set. *)
Definition fresh (c : bool) (w : W) : Prop := healthy (mb w) /\ mt_pp_en (md w) = true /\ charging w = c.
Lemma fresh_stable c : stable reg healthy (fresh c).
Proof. intros w w' Hv Hh (H1 & H2 & H3). unfold fresh, view in *. split_and!; [auto|congruence..]. Qed.

Lemma assign_ok b a m (w : W) : mapped a = true -> healthy (mb w) -> 0 <= eval (mt6370_pmu_reg_assign_bit b a m) w.
Proof using RegLaws0.
  intros Ha Hh. unfold mt6370_pmu_reg_assign_bit, mt6370_pmu_reg_set_bit, mt6370_pmu_reg_clr_bit.
  destruct b; by apply (update_spec reg healthy).
Qed.

(** The steps that set the limits, before the rest. *)
Lemma init_limits {C} (w : W) ds c (rest : M W C) Q :
  fresh c w -> (forall w', set_up ds c w' -> wp rest Q w') ->
  wp (ignore (__mt6370_set_ichg (ds_ichg ds)) ;;; ignore (__mt6370_set_aicr (ds_aicr ds)) ;;;
      ignore (__mt6370_set_mivr (ds_mivr ds)) ;;; modd (fun d => d <| mt_mivr := ds_mivr ds |>) ;;; rest) Q w.
Proof using RegLaws0.
  intros (Hh & Hp & Hc) HQ. do 2 mwp_step. eapply wp_mono; [apply (set_ichg_exact reg healthy)|]. intros r w1 [_ H1].
  destruct (H1 Hh) as (Hh1 & C1 & M1 & B1). do 2 mwp_step.
  apply (wp_framed reg healthy); [intros; unfold __mt6370_set_aicr; solve_stable|].
  intros r2 w2 [V2 F2]. do 2 mwp_step. eapply wp_mono; [apply (set_field_exact reg healthy); in_fields|].
  intros r3 w3 (D3 & H3 & S3 & C3). destruct (H3 (F2 Hh1)) as [Hh3 Hr3]. apply Z.leb_le in Hr3. rewrite Hr3 in C3.
  destruct (view_ichg reg _ _ V2) as (B2 & I2 & R2). do 2 mwp_step. apply HQ.
  unfold set_up, chg_inv_at, chg_inv, but_ichg in *.
  assert (reg (mb w3) (f_reg MT6370_ICHG) = reg (mb w2) (f_reg MT6370_ICHG)) as R3
    by (apply S3; [done|by rewrite list_elem_of_singleton]).
  assert (Mt6370Spec.charging reg w3 = Mt6370Spec.charging reg w2) as E3
    by (unfold Mt6370Spec.charging; rewrite (S3 MT6370_PMU_REG_CHGCTRL2); [done|done|by rewrite list_elem_of_singleton]).
  assert (decode MT6370_ICHG w3 = programmed MT6370_ICHG (ichg_request (ds_ichg ds))) as Ed
    by (unfold Mt6370Spec.decode; by rewrite R3, R2, C1).
  assert (mt_ichg (md w3) = programmed MT6370_ICHG (ichg_request (ds_ichg ds))) as Ei by (by rewrite D3, I2, M1).
  assert (mt_pp_en (md w3) = true) as Ep by (rewrite D3; congruence).
  assert (Mt6370Spec.charging reg w3 = c) as Ec by congruence.
  split_and!; try done.
  - unfold mivr_inv, Mt6370Spec.decode. change (real_value MT6370_MIVR (field_code MT6370_MIVR (reg (mb w3) (f_reg MT6370_MIVR))) =
      programmed MT6370_MIVR (if mt_pp_en (md w3) then ds_mivr ds else f_max MT6370_MIVR)). by rewrite C3, Ep.
  - change (is_ichg (mt_ichg (md w3))). rewrite Ei. apply ichg_programmed.
  - left. change (decode MT6370_ICHG w3 = mt_ichg (md w3)). by rewrite Ed.
Qed.

(** Follow the code step by step, keeping [P]. *)
Ltac keep_step P := apply (wp_keep P); [|done|intros ? ? ?].

Lemma init_sets_up (w : W) c :
  fresh c w -> wp mt6370_chg_init_setting (fun r w' => 0 <= r /\ set_up (mt_desc (md w)) c w') w.
Proof using RegLaws0.
  intros Hw. pose proof (fresh_stable c) as Hf. unfold mt6370_chg_init_setting. do 2 mwp_step.
  set (ds := mt_desc (md w)). pose proof (set_up_stable ds c) as Hs.
  do 4 (keep_step (fresh c); [unfold mt6370_select_input_current_limit, mt6370_enable_ilim; solve_stable|]).
  apply (init_limits _ ds c); [done|]. intros wl Hwl.
  repeat (keep_step (set_up ds c);
    [unfold __mt6370_set_cv, mt6370_get_ieoc, __mt6370_enable_te, mt6370_set_fast_charge_timer, mt6370_set_dc_wdt,
       __mt6370_enable_safety_timer, mt6370_enable_wdt, mt6370_enable_higher_ocp, mt6370_enable_jeita, mt6370_enable_hz,
       mt6370_set_ircmp_resistor, mt6370_set_ircmp_vclamp, mt6370_set_otglbp, mt6370_disable_vlgc; solve_stable|]).
  apply wp_run. split.
  - apply assign_ok; [reflexivity|].
    match goal with H : set_up _ _ ?w |- healthy (mb ?w) => by destruct H as [[(? & _) _] _] end.
  - match goal with H : set_up _ _ ?w |- set_up _ _ (exec ?m ?w) => assert (preserves (set_up ds c) m) as Hl
      by (unfold mt6370_enable_fast_unknown_ta_dect; solve_stable); exact (Hl w H) end.
Qed.

Lemma workaround_ok (w : W) : healthy (mb w) -> 0 <= eval mt6370_chg_sw_workaround w.
Proof using RegLaws0.
  intros Hw. enough (wp mt6370_chg_sw_workaround (fun r _ => 0 <= r) w) as H by exact H.
  assert (stable reg healthy (fun w : W => healthy (mb w))) as Hs by (intros ? ? _ H; exact H).
  unfold mt6370_chg_sw_workaround. do 5 (keep_step (fun w : W => healthy (mb w)); [solve_stable|]).
  mwp_step. apply wp_run. mwp_step. apply wp_run, wp_ret.
  match goal with H : healthy (mb ?w) |- 0 <= eval (mt6370_pmu_reg_clr_bit ?a ?m) ?w =>
    exact (assign_ok false a m w eq_refl H) end.
Qed.

Section Registration.
  Context (P : W -> Prop) (HP : stable reg healthy P).

Lemma out_workaround_all : preserves P mt6370_chg_sw_workaround.
Proof using RegLaws0 HP. unfold mt6370_chg_sw_workaround. solve_stable. Qed.
Lemma out_lookup l : preserves P (lookup_states l).
Proof using ProbeLaws0 HP. induction l; simpl; solve_stable; auto. Qed.
Lemma out_create l : preserves P (create_files l).
Proof using ProbeLaws0 HP. induction l; simpl; solve_stable; auto. Qed.
#[local] Hint Resolve out_lookup out_create : kern.
Lemma out_parse node cmd : preserves P (mt_parse_dt node cmd).
Proof using RegLaws0 ProbeLaws0 HP. unfold mt_parse_dt, sgm2541_get_gpio_info. solve_stable. Qed.
Lemma out_register : preserves P register_devices.
Proof using RegLaws0 ProbeLaws0 HP.
  unfold register_devices, register_supplies, undo_ls, undo_chg, mt6370_pmu_charger_irq_register. solve_stable.
Qed.
End Registration.

Lemma parse_sets_desc node cmd (w : W) :
  mt_desc (md (exec (mt_parse_dt node cmd) w)) = parse_desc node cmd mt6370_default_chg_desc.
Proof.
  unfold mt_parse_dt. cbv zeta. rewrite !exec_bind, exec_ret.
  set (w1 := exec (when _ _) _). by destruct w1.
Qed.

Lemma probe_sets_up node cmd idme vid (w : W) :
  healthy (mb w) ->
  set_up (parse_desc node cmd mt6370_default_chg_desc) (charging w)
    (exec (mt6370_pmu_charger_probe node cmd idme vid) w).
Proof using RegLaws0 ProbeLaws0.
  intros Hh. set (ds := parse_desc _ _ _). set (c := charging w).
  apply (wp_exec (mt6370_pmu_charger_probe node cmd idme vid) (set_up ds c)).
  pose proof (set_up_stable ds c) as Hs. unfold mt6370_pmu_charger_probe. do 2 mwp_step.
  mwp_step. mwp_step. apply wp_run. cbn beta. set (w0 := w <| md := probe_data vid |>).
  pose proof (parse_sets_desc node cmd w0) as Hd.
  assert (fresh c (exec (mt_parse_dt node cmd) w0)) as Hf by (apply (out_parse (fresh c) (fresh_stable c)); done).
  generalize dependent (exec (mt_parse_dt node cmd) w0). intros w1 Hd Hf.
  mwp_step. eapply wp_mono; [exact (init_sets_up w1 c Hf)|]. cbn beta. intros r w2 [_ H2]. rewrite Hd in H2. fold ds in H2.
  pose proof (out_workaround_all _ Hs). pose proof (out_register _ Hs).
  mwp_step; [by mwps|]. keep_step (set_up ds c); [done|]. mwp_step; [by mwps|].
  match goal with |- wp ?m (fun _ => ?P) ?w => enough (P (exec m w)) as Hx by exact Hx;
    assert (preserves P m) as Hp by solve_stable; by apply Hp end.
Qed.

#[local] Hint Resolve bal_hidden bal__set_ichg cnt_set_ichg cnt_get_field : kern.

Lemma bal_lookup l : balanced (B := B) [] (lookup_states l).
Proof. induction l; simpl; solve_balanced; auto. Qed.
Lemma bal_create l : balanced (B := B) [] (create_files l).
Proof. induction l; simpl; solve_balanced; auto. Qed.
#[local] Hint Resolve bal_lookup bal_create : kern.

Lemma probe_locks node cmd idme vid (w : W) :
  locks (md (exec (mt6370_pmu_charger_probe node cmd idme vid) w)) = ([], false).
Proof.
  unfold mt6370_pmu_charger_probe. rewrite exec_bind.
  match goal with |- locks (md (exec ?m ?w1)) = _ => assert (balanced [HiddenLock] m) as Hb end.
  { unfold mt_parse_dt, sgm2541_get_gpio_info, mt6370_chg_init_setting, mt6370_chg_sw_workaround, register_devices,
      register_supplies, undo_ls, undo_chg, mt6370_pmu_charger_irq_register, mt6370_select_input_current_limit,
      mt6370_enable_ilim, __mt6370_set_aicr, __mt6370_set_mivr, __mt6370_set_cv, mt6370_get_ieoc, __mt6370_enable_te,
      mt6370_set_fast_charge_timer, mt6370_set_dc_wdt, __mt6370_enable_safety_timer, mt6370_enable_wdt,
      mt6370_enable_higher_ocp, mt6370_enable_jeita, mt6370_enable_hz, mt6370_set_ircmp_resistor,
      mt6370_set_ircmp_vclamp, mt6370_set_otglbp, mt6370_disable_vlgc, mt6370_enable_fast_unknown_ta_dect. cbv zeta.
    solve_balanced. }
  rewrite Hb; [done|]. intros l _. apply not_elem_of_nil.
Qed.

Lemma cnt_lookup l : cnt_step healthy 0 (lookup_states l).
Proof using RegLaws0 ProbeLaws0. induction l; simpl; solve_cnt; auto. Qed.
Lemma cnt_create l : cnt_step healthy 0 (create_files l).
Proof using RegLaws0 ProbeLaws0. induction l; simpl; solve_cnt; auto. Qed.
#[local] Hint Resolve cnt_lookup cnt_create : kern.

Lemma probe_count node cmd idme vid (w : W) :
  healthy (mb w) -> mt_hidden_mode_cnt (md (exec (mt6370_pmu_charger_probe node cmd idme vid) w)) = 0.
Proof using RegLaws0 ProbeLaws0.
  intros Hh. unfold mt6370_pmu_charger_probe. rewrite exec_bind.
  match goal with |- mt_hidden_mode_cnt (md (exec ?m ?w1)) = _ => assert (cnt_step healthy 0 m) as Hb end.
  { unfold mt_parse_dt, sgm2541_get_gpio_info, mt6370_chg_init_setting, mt6370_chg_sw_workaround, register_devices,
      register_supplies, undo_ls, undo_chg, mt6370_pmu_charger_irq_register, mt6370_select_input_current_limit,
      mt6370_enable_ilim, __mt6370_set_aicr, __mt6370_set_mivr, __mt6370_set_cv, mt6370_get_ieoc, __mt6370_enable_te,
      mt6370_set_fast_charge_timer, mt6370_set_dc_wdt, __mt6370_enable_safety_timer, mt6370_enable_wdt,
      mt6370_enable_higher_ocp, mt6370_enable_jeita, mt6370_enable_hz, mt6370_set_ircmp_resistor, __mt6370_set_ieoc,
      mt6370_set_ircmp_vclamp, mt6370_set_otglbp, mt6370_disable_vlgc, mt6370_enable_fast_unknown_ta_dect,
      __mt6370_enable_chgdet_flow, mt6370_set_usbsw_state. cbv zeta.
    solve_cnt. }
  destruct (Hb (w <| md ::= fun _ => probe_data vid |>)) as [_ E]; [by split|]. exact E.
Qed.
End ProbeLimits.

(** ** The life of the driver *)

(** Every registration succeeds. *)
Definition registers_ok {B} `{!ProbeEnv B} : Prop :=
  (forall s b, 0 <= eval (charger_device_register s) b) /\ (forall s b, 0 <= eval (device_create_file s) b) /\
  (forall b, 0 <= eval devm_power_supply_register b) /\ (forall b, 0 <= eval devm_regulator_register b).

Section Life.
  Context {B : Type} `{!Mt6370Bus B} `{!Mt6370Sys B} `{!ProbeEnv B} (reg : B -> Z -> Z) (healthy : B -> Prop).
  Context `{!RegLaws reg healthy} `{!SysLaws reg healthy} `{!ProbeLaws reg healthy}.
Abbreviation W := (mworld B).
Abbreviation charging := (charging reg).

Lemma wp_nonneg (m : M B Z) (k : Z -> M W Z) (f : Z -> M W Z) Q (w : W) :
  (forall b, 0 <= eval m b) -> (forall r w', 0 <= r -> wp (k r) Q w') ->
  wp (bind (bus m) (fun r => if r <? 0 then f r else k r)) Q w.
Proof.
  intros Hm Hk. apply wp_bind, wp_run. rewrite eval_bus. specialize (Hm (mb w)). cbn beta.
  rewrite (proj2 (Z.ltb_ge (eval m (mb w)) 0)) by done. by apply Hk.
Qed.

Lemma register_ok (w : W) : registers_ok -> wp register_devices (fun r _ => r = 0) w.
Proof.
  intros (H1 & H2 & H3 & H4). unfold register_devices. do 2 mwp_step.
  apply wp_nonneg; [done|]. intros r w1 _. apply wp_nonneg; [done|]. intros r2 w2 _.
  mwp_step. apply wp_run. mwp_step.
  assert (forall l (w : W), wp (create_files l) (fun r _ => r = 0) w) as Hc.
  { induction l as [|f l IH]; intros w4; [by mwps|]. cbn [create_files]. apply wp_nonneg; [done|]. intros. apply IH. }
  eapply wp_mono; [apply Hc|]. intros r4 w4 ->. cbn. unfold register_supplies. do 3 mwp_step. apply wp_run.
  rewrite eval_bus. cbn beta. do 2 mwp_step.
  rewrite (proj2 (Z.ltb_ge (eval devm_power_supply_register (mb _)) 0)) by apply H3.
  apply (wp_nonneg _ (fun _ => ret 0)); [done|]. intros r5 w5 _. by mwps.
Qed.

Lemma probe_succeeds node cmd idme vid (w : W) :
  healthy (mb w) -> registers_ok -> eval (mt6370_pmu_charger_probe node cmd idme vid) w = 0.
Proof using RegLaws0 ProbeLaws0.
  intros Hh Hr. enough (wp (mt6370_pmu_charger_probe node cmd idme vid) (fun r _ => r = 0) w) as H by exact H.
  unfold mt6370_pmu_charger_probe. do 4 mwp_step. apply wp_run. cbn beta. set (w0 := w <| md := probe_data vid |>).
  assert (fresh reg healthy (charging w) (exec (mt_parse_dt node cmd) w0)) as Hf
    by (apply (out_parse reg healthy _ (fresh_stable reg healthy (charging w))); done).
  mwp_step. eapply wp_mono; [exact (init_sets_up reg healthy _ _ Hf)|]. cbn beta. intros r w2 [H0 H2].
  rewrite (proj2 (Z.ltb_ge r 0)) by done. mwp_step. apply wp_run. cbn beta.
  pose proof (workaround_ok reg healthy w2 ltac:(apply H2)) as Hw. rewrite (proj2 (Z.ltb_ge _ 0)) by done.
  do 2 mwp_step. by apply register_ok.
Qed.

End Life.

(** ** What is registered *)

(** [known b] is the registered devices and the files; only registering and
    unregistering change it. *)
Definition untouched {B A T} (known : B -> T) (m : M B A) : Prop := forall b, known (exec m b) = known b.

Class Registry {B} `{!Mt6370Bus B} `{!ProbeEnv B} (known : B -> gset string * gset string) : Prop := {
  known_register : forall s b, let '(r, b') := charger_device_register s b in
    known b' = if r <? 0 then known b else ({[s]} ∪ fst (known b), snd (known b));
  known_unregister : forall s b,
    known (exec (charger_device_unregister s) b) = (fst (known b) ∖ {[s]}, snd (known b));
  known_create : forall s b, let '(r, b') := device_create_file s b in
    known b' = if r <? 0 then known b else (fst (known b), {[s]} ∪ snd (known b));
  known_remove : forall s b, known (exec (device_remove_file s) b) = (fst (known b), snd (known b) ∖ {[s]});
  known_pinctrl_get : untouched known devm_pinctrl_get;
  known_lookup : forall s, untouched known (pinctrl_lookup_state s);
  known_request : forall l i, untouched known (devm_request_threaded_irq l i);
  known_psy : untouched known devm_power_supply_register;
  known_regulator : untouched known devm_regulator_register;
  known_pinctrl : forall s, untouched known (pinctrl_select_state s);
  known_res : forall s, untouched known (platform_get_resource_byname s);
  known_sleep : forall ms, untouched known (mt_sleep ms);
  known_read : forall a, untouched known (rt_regmap_reg_read a);
  known_write : forall a v, untouched known (rt_regmap_reg_write a v);
  known_update : forall a m v, untouched known (rt_regmap_update_bits a m v);
  known_block_read : forall a n, untouched known (rt_regmap_block_read a n);
  known_block_write : forall a l, untouched known (rt_regmap_block_write a l);
  known_phy_get : untouched known phy_get;
  known_phy_mode : forall m, untouched known (phy_set_mode_ext m);
  known_phy_put : untouched known phy_put;
  known_usb_node : untouched known of_usb_cdp_block
}.
#[export] Hint Resolve known_pinctrl_get known_lookup known_request known_psy known_regulator known_pinctrl known_res
  known_sleep known_read known_write known_update known_block_read known_block_write known_phy_get known_phy_mode
  known_phy_put known_usb_node : kern.

Section Known.
  Context {B : Type} `{!Mt6370Bus B} `{!ProbeEnv B} (known : B -> gset string * gset string) `{!Registry known}.
Abbreviation W := (mworld B).

(** What is registered and under which names. *)
Definition book (w : W) : gset string * gset string * mt6370_desc := (known (mb w), mt_desc (md w)).

Lemma book_bus {A} (m : M B A) : untouched known m -> keeps book (bus m).
Proof. intros Hm w. unfold book. by rewrite md_exec_bus, mb_exec_bus, Hm. Qed.
Lemma book_modd f : (forall d, mt_desc (f d) = mt_desc d) -> keeps book (modd f).
Proof. intros Hf w. unfold book. cbn. by rewrite Hf. Qed.
Lemma book_with_lock {A} l (m : M W A) : keeps book m -> keeps book (with_lock l m).
Proof.
  intros Hm. unfold with_lock. apply keeps_bind; [apply book_modd; intros; by case_match|intros].
  apply keeps_bind; [done|intros]. apply keeps_bind; [by apply book_modd|intros; apply keeps_ret].
Qed.
End Known.

(** Follow the structure of the code; a call needs a lemma in [kern]. *)
Ltac solve_book :=
  repeat match goal with
    | |- forall _, _ => intro
    | |- keeps _ (bind _ _) => apply keeps_bind
    | |- keeps _ (ret _) => apply keeps_ret
    | |- keeps _ (getd _) => apply keeps_gets
    | |- keeps _ (ignore _) => apply keeps_ignore
    | |- keeps _ (when _ _) => apply keeps_when
    | |- keeps _ (for_each _ _) => apply keeps_for_each
    | |- keeps _ (with_lock _ _) => apply book_with_lock
    | |- keeps _ (modd _) => apply book_modd; done
    | |- keeps _ (bus _) => apply book_bus; solve [eauto with kern nocore]
    | |- keeps _ (mt6370_pmu_reg_assign_bit ?b _ _) => unfold mt6370_pmu_reg_assign_bit
    | |- keeps _ (mt6370_pmu_reg_update_bits _ _ _) => apply book_bus, known_update
    | |- keeps _ (mt6370_set_field _ _) => apply book_bus, known_update
    | |- keeps _ (mt6370_pmu_reg_set_bit _ _) => apply book_bus, known_update
    | |- keeps _ (mt6370_pmu_reg_clr_bit _ _) => apply book_bus, known_update
    | |- keeps _ (mt6370_pmu_reg_write _ _) => apply book_bus, known_write
    | |- keeps _ (mt6370_pmu_reg_block_read _ _) => apply book_bus, known_block_read
    | |- keeps _ (mt6370_pmu_reg_block_write _ _) => apply book_bus, known_block_write
    | |- keeps _ (if ?b then _ else _) => destruct b
    | |- keeps _ (match ?x with _ => _ end) => destruct x
    | |- keeps _ _ => solve [eauto with kern nocore]
    end.

(** The devices and files after each undoing. *)
Lemma undo_one (a : string) : ({[a]} ∪ ∅ : gset string) ∖ {[a]} = ∅.
Proof. set_solver. Qed.
Lemma undo_two (a b : string) : ({[b]} ∪ ({[a]} ∪ ∅) : gset string) ∖ {[b]} ∖ {[a]} = ∅.
Proof. set_solver. Qed.
Lemma pair_set (a b : string) : ({[b]} ∪ ({[a]} ∪ ∅) : gset string) = {[a; b]}.
Proof. set_solver. Qed.
Lemma pair_minus (a b : string) : ({[a; b]} : gset string) ∖ {[b]} ∖ {[a]} = ∅.
Proof. set_solver. Qed.

Section Failure.
  Context {B : Type} `{!Mt6370Bus B} `{!ProbeEnv B} (known : B -> gset string * gset string) `{!Registry known}.
Abbreviation W := (mworld B).
Abbreviation book := (book known).

Lemma bk_read a : keeps book (mt6370_pmu_reg_read a).
Proof using Registry0. unfold mt6370_pmu_reg_read. solve_book. Qed.
#[local] Hint Resolve bk_read : kern.
Lemma bk_hidden en : keeps book (mt6370_enable_hidden_mode en).
Proof using Registry0. unfold mt6370_enable_hidden_mode. solve_book. Qed.
Lemma bk_get_field f old : keeps book (mt6370_get_field f old).
Proof using Registry0. unfold mt6370_get_field. solve_book. Qed.
#[local] Hint Resolve bk_hidden bk_get_field : kern.
Lemma bk_lookup l : keeps book (lookup_states l).
Proof using Registry0. induction l; simpl; solve_book; auto. Qed.
#[local] Hint Resolve bk_lookup : kern.

Lemma bk_workaround : keeps book mt6370_chg_sw_workaround.
Proof using Registry0. unfold mt6370_chg_sw_workaround. solve_book. Qed.
Lemma bk_init : keeps book mt6370_chg_init_setting.
Proof using Registry0.
  unfold mt6370_chg_init_setting, mt6370_select_input_current_limit, mt6370_enable_ilim, __mt6370_set_ichg,
    mt6370_ichg_workaround, __mt6370_get_ichg, __mt6370_set_aicr, __mt6370_set_mivr, __mt6370_set_cv, mt6370_get_ieoc,
    __mt6370_enable_te, mt6370_set_fast_charge_timer, mt6370_set_dc_wdt, __mt6370_enable_safety_timer, mt6370_enable_wdt,
    mt6370_enable_higher_ocp, mt6370_enable_jeita, mt6370_enable_hz, mt6370_set_ircmp_resistor, __mt6370_set_ieoc,
    mt6370_set_ircmp_vclamp, mt6370_set_otglbp, mt6370_disable_vlgc, mt6370_enable_fast_unknown_ta_dect,
    __mt6370_enable_chgdet_flow, mt6370_set_usbsw_state. solve_book.
Qed.

Lemma bk_parse node cmd (w : W) :
  book (exec (mt_parse_dt node cmd) w) = (known (mb w), parse_desc node cmd mt6370_default_chg_desc).
Proof using Registry0.
  unfold Mt6370ProbeSpec.book. rewrite parse_sets_desc. f_equal. unfold mt_parse_dt. cbv zeta.
  rewrite !exec_bind, exec_ret. set (w1 := exec (when _ _) _). change (known (mb w1) = known (mb w)).
  match goal with w1 := exec ?m ?w0 |- _ => assert (keeps book m) as Hk by (unfold sgm2541_get_gpio_info; solve_book);
    specialize (Hk w0); fold w1 in Hk end. by injection Hk.
Qed.

(** One registration. *)
Lemma bk_register s D F ds (w : W) : book w = (D, F, ds) ->
  wp (bus (charger_device_register s)) (fun r w' => book w' = if r <? 0 then (D, F, ds) else ({[s]} ∪ D, F, ds)) w.
Proof using Registry0.
  intros Hw. mwp_step. injection Hw as E1 E2. pose proof (known_register s (mb w)) as Hk. rewrite H, E1 in Hk.
  unfold Mt6370ProbeSpec.book. cbn in *. rewrite Hk, E2. by case_match.
Qed.
Lemma bk_unregister s D F ds (w : W) : book w = (D, F, ds) ->
  wp (bus (charger_device_unregister s)) (fun r w' => book w' = (D ∖ {[s]}, F, ds)) w.
Proof using Registry0.
  intros Hw. apply wp_run. unfold Mt6370ProbeSpec.book in *. rewrite md_exec_bus, mb_exec_bus, known_unregister.
  by injection Hw as -> ->.
Qed.
Lemma bk_create s D F ds (w : W) : book w = (D, F, ds) ->
  wp (bus (device_create_file s)) (fun r w' => book w' = if r <? 0 then (D, F, ds) else (D, {[s]} ∪ F, ds)) w.
Proof using Registry0.
  intros Hw. mwp_step. injection Hw as E1 E2. pose proof (known_create s (mb w)) as Hk. rewrite H, E1 in Hk.
  unfold Mt6370ProbeSpec.book. cbn in *. rewrite Hk, E2. by case_match.
Qed.
Lemma bk_remove s D F ds (w : W) : book w = (D, F, ds) ->
  wp (bus (device_remove_file s)) (fun r w' => book w' = (D, F ∖ {[s]}, ds)) w.
Proof using Registry0.
  intros Hw. apply wp_run. unfold Mt6370ProbeSpec.book in *. rewrite md_exec_bus, mb_exec_bus, known_remove.
  by injection Hw as -> ->.
Qed.

Lemma bk_create_files l D F ds (w : W) : book w = (D, F, ds) ->
  wp (create_files l) (fun r w' => exists n, book w' = (D, list_to_set (take n l) ∪ F, ds) /\
    if r <? 0 then (n < length l)%nat else r = 0 /\ n = length l) w.
Proof using Registry0.
  revert F w. induction l as [|f l IH]; intros F w Hw; cbn [create_files].
  - mwps. exists 0%nat. rewrite Hw. split; [|done]. by rewrite take_nil, list_to_set_nil, union_empty_l_L.
  - mwp_step. eapply wp_mono; [by apply bk_create|]. cbn beta. intros r w1 H1. destruct (r <? 0) eqn:E.
    + mwps. exists 0%nat. rewrite E, H1. split; [by rewrite take_0, list_to_set_nil, union_empty_l_L|cbn; lia].
    + eapply wp_mono; [by apply IH|]. cbn beta. intros r2 w2 (n & H2 & H3). exists (S n). rewrite H2. split.
      * cbn. by rewrite (assoc_L (∪)), (comm_L (∪) _ {[f]}).
      * destruct (r2 <? 0); cbn; [lia|]. destruct H3. by subst.
Qed.

Lemma bk_undo_chg r D F ds (w : W) : book w = (D, F, ds) ->
  wp (undo_chg r) (fun r' w' => r' = r /\ book w' = (D ∖ {[ds_chg_dev_name ds]}, F, ds)) w.
Proof using Registry0.
  intros Hw. unfold undo_chg. do 3 mwp_step. injection Hw as E1 E2. rewrite E2.
  eapply wp_mono; [apply bk_unregister; unfold Mt6370ProbeSpec.book; by rewrite E1, E2|]. cbn beta. intros _ w1 H1. by mwps.
Qed.
Lemma bk_undo_ls r D F ds (w : W) : book w = (D, F, ds) ->
  wp (undo_ls r) (fun r' w' => r' = r /\
    book w' = (D ∖ {[ds_ls_dev_name ds]} ∖ {[ds_chg_dev_name ds]}, F, ds)) w.
Proof using Registry0.
  intros Hw. unfold undo_ls. do 3 mwp_step. pose proof Hw as Hw'. injection Hw' as E1 E2. rewrite E2.
  eapply wp_mono; [apply bk_unregister; exact Hw|]. cbn beta. intros _ w1 H1. by apply bk_undo_chg.
Qed.

Lemma book_keep {A} X (m : M W A) : keeps book m -> preserves (fun w => book w = X) m.
Proof. intros Hm w <-. apply Hm. Qed.

(** The files that a failure leaves: those made before the one that could not be,
    or all but the first. *)
Definition leftover (F : gset string) : Prop :=
  exists n, (n <= 3)%nat /\ F = list_to_set (if (n =? 3)%nat then tail chg_files else take n chg_files).

Lemma bk_supplies D ds (w : W) : book w = (D, list_to_set chg_files, ds) ->
  wp register_supplies (fun r w' => if r <? 0
    then book w' = (D ∖ {[ds_ls_dev_name ds]} ∖ {[ds_chg_dev_name ds]}, list_to_set (tail chg_files), ds)
    else r = 0 /\ book w' = (D, list_to_set chg_files, ds)) w.
Proof using Registry0.
  intros Hw. unfold register_supplies.
  do 4 (apply (wp_keep (fun w => book w = (D, list_to_set chg_files, ds)));
    [apply book_keep; solve_book|done|intros ? ? H1; try clear Hw; rename H1 into Hw]).
  match goal with |- wp (if ?c then _ else _) _ _ => destruct c eqn:E; [|by mwps] end.
  mwp_step. eapply wp_mono; [apply bk_remove; exact Hw|]. cbn beta. intros _ w2 H2.
  eapply wp_mono; [apply bk_undo_ls; exact H2|]. cbn beta. intros r w3 [-> ->]. rewrite E. do 2 f_equal.
Qed.

(** What is known at the end. *)
Definition settled (ds : mt6370_desc) (r : Z) (w : W) : Prop :=
  if r <? 0 then exists F, book w = (∅, F, ds) /\ leftover F
  else r = 0 /\ book w = ({[ds_chg_dev_name ds; ds_ls_dev_name ds]}, list_to_set chg_files, ds).

Lemma settled_early r ds (w : W) : (r <? 0) = true -> book w = (∅, ∅, ds) -> settled ds r w.
Proof. intros Hr Hw. unfold settled. rewrite Hr. exists ∅. split; [done|]. exists 0%nat. split; [lia|done]. Qed.

Lemma bk_devices ds (w : W) : book w = (∅, ∅, ds) -> wp register_devices (settled ds) w.
Proof using Registry0.
  intros Hw. unfold register_devices. do 2 mwp_step. injection Hw as E1 E2. rewrite E2. mwp_step.
  assert (book w = (∅, ∅, ds)) as Hw by (unfold Mt6370ProbeSpec.book; by rewrite E1, E2).
  eapply wp_mono; [by apply bk_register|]. cbn beta. intros r w1 H1. destruct (r <? 0) eqn:E; [mwps; by apply settled_early|].
  mwp_step. eapply wp_mono; [by apply bk_register|]. cbn beta. intros r2 w2 H2. destruct (r2 <? 0) eqn:Er2.
  - eapply wp_mono; [by apply bk_undo_chg|]. cbn beta. intros r3 w3 [-> H3]. apply settled_early; [done|]. by rewrite H3, undo_one.
  - apply (wp_keep (fun w => book w = ({[ds_ls_dev_name ds]} ∪ ({[ds_chg_dev_name ds]} ∪ ∅), ∅, ds)));
      [apply book_keep; unfold mt6370_pmu_charger_irq_register; solve_book|done|]. intros _ w3 H3.
    mwp_step. eapply wp_mono; [by apply bk_create_files|]. cbn beta. intros r4 w4 (n & H4 & H5).
    destruct (r4 <? 0) eqn:Er4.
    + eapply wp_mono; [by apply bk_undo_ls|]. cbn beta. intros r5 w5 [-> H5']. unfold settled. rewrite Er4, H5'.
      exists (list_to_set (take n chg_files)). rewrite undo_two, union_empty_r_L. split; [done|]. exists n.
      cbn in H5. rewrite (proj2 (Nat.eqb_neq n 3)) by lia. split; [lia|done].
    + destruct H5 as [_ ->]. rewrite firstn_all in H4. rewrite (union_empty_r_L (list_to_set chg_files)) in H4.
      eapply wp_mono; [by apply bk_supplies|]. cbn beta. intros r5 w5 H5. unfold settled. destruct (r5 <? 0).
      * exists (list_to_set (tail chg_files)). rewrite H5, undo_two. split; [done|]. by exists 3%nat.
      * destruct H5 as [-> ->]. split; [done|]. by rewrite pair_set.
Qed.

Lemma probe_settled node cmd idme vid (w : W) :
  known (mb w) = (∅, ∅) ->
  wp (mt6370_pmu_charger_probe node cmd idme vid) (settled (parse_desc node cmd mt6370_default_chg_desc)) w.
Proof using Registry0.
  intros Hw. set (ds := parse_desc _ _ _). unfold mt6370_pmu_charger_probe. do 4 mwp_step. apply wp_run. cbn beta.
  assert (book (exec (mt_parse_dt node cmd) (w <| md := probe_data vid |>)) = (∅, ∅, ds)) as Hp
    by (rewrite bk_parse; cbn; by rewrite Hw).
  apply (wp_keep (fun w => book w = (∅, ∅, ds))); [apply book_keep, bk_init|done|]. intros r w1 H1.
  mwp_step; [mwps; by apply settled_early|].
  apply (wp_keep (fun w => book w = (∅, ∅, ds))); [apply book_keep, bk_workaround|done|]. intros r2 w2 H2.
  mwp_step; [mwps; by apply settled_early|].
  apply (wp_keep (fun w => book w = (∅, ∅, ds))); [apply book_keep; solve_book|done|]. intros _ w3 H3.
  by apply bk_devices.
Qed.

Lemma remove_all ds (w : W) :
  book w = ({[ds_chg_dev_name ds; ds_ls_dev_name ds]}, list_to_set chg_files, ds) ->
  wp mt6370_pmu_charger_remove (fun _ w' => known (mb w') = (∅, ∅)) w.
Proof using Registry0.
  intros Hb. unfold mt6370_pmu_charger_remove. do 2 mwp_step. pose proof Hb as Hb'. injection Hb' as _ ->.
  cbn [for_each chg_files]. mwp_step.
  do 3 (mwp_step; eapply wp_mono; [by apply bk_remove|]; cbn beta; clear Hb; intros _ ? Hb). do 2 mwp_step.
  eapply wp_mono; [by apply bk_unregister|]. cbn beta. intros _ w4 H4. mwp_step.
  eapply wp_mono; [by apply bk_unregister|]. cbn beta. intros _ w5 H5. mwps. injection H5 as -> _. by rewrite pair_minus.
Qed.

(** C29: on every bus, and whichever step fails: a probe that succeeds has
    registered the charger, the load switch and the three files, and remove takes
    all of them back; a probe that fails has taken back both devices, but of the
    files it made only "shipping_mode", and that only when all three were made:
    the others stay, with a driver that is gone behind them. *)
Theorem probe_failure_leftovers (node : mt_node) (cmd : string) (idme : option (list Z)) (vid : Z) (w : W) :
  known (mb w) = (∅, ∅) ->
  let ds := parse_desc node cmd mt6370_default_chg_desc in
  let r := eval (mt6370_pmu_charger_probe node cmd idme vid) w in
  let w' := exec (mt6370_pmu_charger_probe node cmd idme vid) w in
  (r < 0 -> fst (known (mb w')) = ∅ /\ leftover (snd (known (mb w')))) /\
  (0 <= r -> r = 0 /\ known (mb w') = ({[ds_chg_dev_name ds; ds_ls_dev_name ds]}, list_to_set chg_files) /\
     known (mb (exec mt6370_pmu_charger_remove w')) = (∅, ∅)).
Proof using Registry0.
  intros Hw. cbv zeta. pose proof (probe_settled node cmd idme vid w Hw) as H. unfold wp in H. revert H.
  generalize (eval (mt6370_pmu_charger_probe node cmd idme vid) w) (exec (mt6370_pmu_charger_probe node cmd idme vid) w).
  intros r w'. unfold settled. destruct (r <? 0) eqn:E; bool_prop; intros H; (split; intros Hr); try lia.
  - destruct H as (F & HF & Hl). injection HF as -> _. done.
  - destruct H as [-> HF]. pose proof HF as HF'. injection HF' as E1 _. split_and!; [done..|]. exact (remove_all _ _ HF).
Qed.
End Failure.

(** ** The concrete chip *)

#[global] Instance chip_sys_laws : SysLaws chip_reg (fun c => c_fail c < 0).
Proof.
  constructor; try (by intros).
  - intros a b. cbn. unfold chip_try, chip_access, bind, gets, ret. cbn. by destruct (negb (c_fail b =? 0)).
  - intros a v b Hc Hv. cbn. unfold chip_try, chip_access, bind, chip_write, modify, ret. cbn.
    destruct (negb (c_fail b =? 0)); cbn; [|done]. rewrite chip_reg_insert, bool_decide_true by done. by apply u8_id.
Qed.

(** The next registration, and what it does if it works. *)
Definition chip_accept (f : gset string * gset string -> gset string * gset string) : M chip Z :=
  let! n := gets c_refuse in
  modify (fun c => c <| c_refuse ::= Z.pred |>) ;;;
  if n =? 0 then ret (- EIO) else modify (fun c => c <| c_known ::= f |>) ;;; ret 0.

#[global] Instance chip_probe : ProbeEnv chip := {|
  devm_pinctrl_get := ret 0;
  pinctrl_lookup_state := fun _ => ret 0;
  charger_device_register := fun s => chip_accept (fun k => ({[s]} ∪ fst k, snd k));
  charger_device_unregister := fun s => modify (fun c => c <| c_known ::= fun k => (fst k ∖ {[s]}, snd k) |>);
  devm_request_threaded_irq := fun _ _ => ret 0;
  device_create_file := fun s => chip_accept (fun k => (fst k, {[s]} ∪ snd k));
  device_remove_file := fun s => modify (fun c => c <| c_known ::= fun k => (fst k, snd k ∖ {[s]}) |>);
  devm_power_supply_register := chip_accept (fun k => k);
  devm_regulator_register := chip_accept (fun k => k)
|}.

Lemma chip_accept_neutral f : neutral chip_reg (fun c => c_fail c < 0) (chip_accept f).
Proof. intros b. unfold chip_accept, bind, gets, modify, ret, exec. cbn. by destruct (c_refuse b =? 0). Qed.
#[global] Instance chip_probe_laws : ProbeLaws chip_reg (fun c => c_fail c < 0).
Proof. constructor; try (by intros); intros; apply chip_accept_neutral. Qed.

Lemma chip_write_block_known a l c : c_known (exec (chip_write_block a l) c) = c_known c.
Proof. revert a c. induction l as [|v l IH]; intros a c; cbn [chip_write_block]; [done|]. by rewrite exec_bind, IH. Qed.
#[global] Instance chip_registry : Registry c_known.
Proof.
  constructor; try (by intros); intros;
    try (try intros b; cbn; unfold chip_accept, chip_try, chip_access, bind, exec, gets, modify, ret; cbn;
         first [by destruct (c_refuse b =? 0)|by destruct (negb (c_fail b =? 0))]).
  intros b. cbn. unfold chip_try. rewrite exec_bind. unfold chip_access at 1. cbn.
  destruct (negb (c_fail b =? 0)); [|done]. rewrite exec_bind, exec_ret, chip_write_block_known. done.
Qed.

(** A board that asks for 3 A and a minimal input voltage of 4.5 V, on a chip that
    has just been powered. *)
Definition board_node : mt_node := mk_node {|
    of_u32 := fun s => if (s =? "ichg")%string then Some 3000000 else if (s =? "mivr")%string then Some 4500000 else None;
    of_bool := fun _ => false; of_string := fun _ => None; of_bootmode := None |} None (fun _ => None).

Definition boot_world : mworld chip := mk_mworld mt0 (mk_chip ∅ (-1) 0 0 (∅, ∅) (-1)).

Definition boot_events : list mt_event :=
  [EvCall (CEnable true); EvIrq chg_mivr; EvIrq attachi; EvCall (CPowerPath false); EvWork; EvSetProp PROP_ONLINE 1].


(** The last registration is refused: two files stay. *)
Definition refused : mworld chip := boot_world <| mb ::= fun c => c <| c_refuse := 6 |> |>.

Lemma probe_failure_leftovers_witness :
  let w' := exec (mt6370_pmu_charger_probe board_node "" None MT6370_VENDOR_ID) refused in
  fst (c_known (mb w')) = ∅ /\ snd (c_known (mb w')) = {["enable_iaicr_calibration"; "CHG_REGS"]}.
Proof.
  split; [|vm_compute; reflexivity].
  refine (proj1 (proj1 (probe_failure_leftovers c_known board_node "" None MT6370_VENDOR_ID refused _) _));
    vm_compute; reflexivity.
Defined.
