(* ===== verification/Mt6370Supply.v ===== *)
(** * The boost regulator, the files and the charger type of the MT6370

    The regulator operations program what is asked for, and two ways in which the
    driver is left in a state it should not be in: writing the file
    "shipping_mode", and an interrupt of the detection that comes late. *)

From Stdlib Require Import Sorting.Sorted.
From S2P Require Import Prelude ChargerClass AlgClass ChargerTypes Platform BasicCharger Mt6370Enc.
From S2P Require Import Kstrtox RtRegmap Mt6370Map Mt6370 Mt6370Ops Mt6370Chip Mt6370Locks.
From S2P Require Import Mt6370Regs Mt6370Spec Mt6370Irq Mt6370IrqSpec Mt6370Line.
#[local] Open Scope Z_scope.

(** ** The regulator *)

(** The first threshold that is enough is the smallest one, as the table grows. *)
Lemma first_threshold_spec i table lo :
  is_u32 lo -> Sorted Z.lt table ->
  match first_threshold i table lo with
  | Some (j, v) => exists k, table !! k = Some v /\ j = i + Z.of_nat k /\ lo <= v /\ forall v', v' ∈ table -> lo <= v' -> v <= v'
  | None => forall v', v' ∈ table -> v' < lo
  end.
Proof.
  intros Hlo Hs. revert i. induction table as [|x table IH]; intros i; cbn [first_threshold];
    [by intros v' ?%elem_of_nil|].
  apply Sorted_StronglySorted in Hs as Hss; [|intros ? ? ?; lia].
  apply StronglySorted_inv in Hss as [_ Hx]. rewrite Forall_forall in Hx. apply Sorted_inv in Hs as [Hs _].
  rewrite u32_id by done. destruct (lo <=? x) eqn:E; bool_prop.
  - exists 0%nat. split_and!; [done|lia|done|]. intros v' [->|H]%elem_of_cons _; [lia|]. specialize (Hx v' H). lia.
  - specialize (IH Hs (i + 1)). destruct (first_threshold (i + 1) table lo) as [[j v]|].
    + destruct IH as (k & H1 & H2 & H3 & H4). exists (S k). split_and!; [done|lia|done|].
      intros v' [->|H]%elem_of_cons Hv'; [lia|auto].
    + intros v' [->|H]%elem_of_cons; [lia|auto].
Qed.

Lemma thresholds_sorted : Sorted Z.lt mt6370_otg_oc_threshold.
Proof. by repeat constructor. Qed.

Section Boost.
  Context {B : Type} `{!Mt6370Bus B} (reg : B -> Z -> Z) (healthy : B -> Prop) `{!RegLaws reg healthy}.
Abbreviation W := (mworld B).

(** A part of a configuration register that was written is read. *)
Lemma write_then_read a m v (w : W) :
  healthy (mb w) -> cfg a = true -> is_u8 m -> is_u8 v ->
  let w' := exec (mt6370_pmu_reg_update_bits a m v) w in
  0 <= eval (mt6370_pmu_reg_update_bits a m v) w /\
  exists r, eval (mt6370_pmu_reg_read a) w' = r /\ 0 <= r /\ Z.land r m = Z.land v m.
Proof using RegLaws0.
  intros Hh Ha Hm Hv. cbv zeta. destruct (update_spec reg healthy a m v w) as (_ & _ & H3 & H4).
  destruct (H3 Hh) as [Hh' Hr]. specialize (Hr (cfg_mapped a Ha)). split; [done|]. apply Z.leb_le in Hr.
  destruct (read_spec reg healthy a (exec (mt6370_pmu_reg_update_bits a m v) w)) as [R1 R2].
  specialize (R1 Hh' (cfg_mapped a Ha)). eexists. split_and!; [done..|]. rewrite R2, H4, Hr by done.
  rewrite !u8_id by done. apply update_bits_same.
Qed.

Lemma shift_back m x n : 0 <= n -> Z.land (Z.shiftl x n) m = Z.shiftl x n -> Z.shiftr (Z.land (Z.shiftl x n) m) n = x.
Proof. intros Hn ->. rewrite Z.shiftr_shiftl_l, Z.sub_diag by done. apply Z.shiftl_0_r. Qed.

(** Codes of a table of this size, in place. *)
Lemma codes_in_place m n N x : forallb (fun x => let v := Z.shiftl x n in (0 <=? v) && (v <? 256) && (Z.land v m =? v)) (seqZ 0 N) = true ->
  0 <= x < N -> is_u8 (Z.shiftl x n) /\ Z.land (Z.shiftl x n) m = Z.shiftl x n.
Proof.
  intros H Hx. rewrite forallb_forall in H. specialize (H x). rewrite <- list_elem_of_In, elem_of_seqZ in H.
  specialize (H ltac:(lia)). cbv zeta in H. bool_prop. by split.
Qed.

Lemma voltage_roundtrip sel (w : W) :
  healthy (mb w) -> 0 <= sel < 64 ->
  eval (mt6370_boost_get_voltage_sel mt6370_otg_rdesc) (exec (mt6370_boost_set_voltage_sel mt6370_otg_rdesc sel) w) = sel.
Proof using RegLaws0.
  intros Hh Hs. destruct (codes_in_place 0xFC 2 64 sel eq_refl Hs) as [H1 H2].
  unfold mt6370_boost_set_voltage_sel, mt6370_boost_get_voltage_sel. cbn [vsel_reg vsel_mask mt6370_otg_rdesc].
  change (ffs_shift MT6370_MASK_BOOST_VOREG) with 2. rewrite u32_id by (unfold is_u8, is_u32 in *; lia).
  destruct (write_then_read MT6370_PMU_REG_CHGCTRL5 MT6370_MASK_BOOST_VOREG (Z.shiftl sel 2) w Hh eq_refl ltac:(done) H1)
    as (_ & r & E & Hr & El). rewrite eval_bind, eval_ret, E. rewrite (proj2 (Z.ltb_ge r 0)) by done. rewrite El.
  by apply shift_back.
Qed.

Lemma current_roundtrip i v (w : W) :
  healthy (mb w) -> mt6370_otg_oc_threshold !! i = Some v ->
  let set := mt6370_pmu_reg_update_bits MT6370_PMU_REG_CHGCTRL10 MT6370_MASK_BOOST_OC (Z.shiftl (Z.of_nat i) 0) in
  0 <= eval set w /\ eval (mt6370_boost_get_current_limit mt6370_otg_rdesc) (exec set w) = v.
Proof using RegLaws0.
  intros Hh Hi. pose proof (lookup_lt_Some _ _ _ Hi) as Hl. cbn in Hl. cbv zeta.
  destruct (codes_in_place 0x07 0 8 (Z.of_nat i) eq_refl ltac:(lia)) as [H1 H2].
  destruct (write_then_read MT6370_PMU_REG_CHGCTRL10 MT6370_MASK_BOOST_OC (Z.shiftl (Z.of_nat i) 0) w Hh eq_refl ltac:(done) H1)
    as (H0 & r & E & Hr & El). split; [done|]. unfold mt6370_boost_get_current_limit.
  cbn [csel_reg csel_mask mt6370_otg_rdesc]. change (ffs_shift MT6370_MASK_BOOST_OC) with 0.
  rewrite eval_bind, E. rewrite (proj2 (Z.ltb_ge r 0)) by done. rewrite eval_ret, El, shift_back by done.
  by rewrite Nat2Z.id, Hi.
Qed.

(** On a working bus the voltage selected for the boost is the one read back;
    a current limit is the smallest threshold the chip has from the lower bound on,
    and is read back as such; it is refused, and nothing written, exactly when no
    threshold lies between the bounds. *)
Theorem boost_exact (sel lo hi : Z) (w : W) :
  healthy (mb w) -> 0 <= sel < 64 -> is_u32 lo -> is_u32 hi ->
  let set := mt6370_boost_set_current_limit mt6370_otg_rdesc lo hi in
  eval (mt6370_boost_get_voltage_sel mt6370_otg_rdesc) (exec (mt6370_boost_set_voltage_sel mt6370_otg_rdesc sel) w) = sel /\
  (0 <= eval set w ->
   let v := eval (mt6370_boost_get_current_limit mt6370_otg_rdesc) (exec set w) in
   v ∈ mt6370_otg_oc_threshold /\ lo <= v <= hi /\ forall v', v' ∈ mt6370_otg_oc_threshold -> lo <= v' -> v <= v') /\
  (eval set w < 0 <-> forall v, v ∈ mt6370_otg_oc_threshold -> ~ (lo <= v <= hi)) /\
  (eval set w < 0 -> exec set w = w).
Proof using RegLaws0.
  intros Hh Hs Hlo Hhi. cbv zeta. split; [by apply voltage_roundtrip|]. unfold mt6370_boost_set_current_limit.
  pose proof (first_threshold_spec 0 _ lo Hlo thresholds_sorted) as Hf.
  destruct (first_threshold 0 mt6370_otg_oc_threshold lo) as [[j v]|].
  - destruct Hf as (k & H1 & -> & H3 & H4). rewrite (u32_id hi) by done.
    assert (v ∈ mt6370_otg_oc_threshold) as Hv by (by apply list_elem_of_lookup; exists k).
    destruct (hi <? v) eqn:E; bool_prop.
    + change (eval (ret (- EINVAL)) w) with (-22). split; [lia|]. split; [|done]. split; [intros _ v' Hv' [? ?]; specialize (H4 v' Hv'); lia|lia].
    + cbn [csel_reg csel_mask mt6370_otg_rdesc]. change (ffs_shift MT6370_MASK_BOOST_OC) with 0. rewrite Z.add_0_l.
      destruct (current_roundtrip k v w Hh H1) as [R1 R2]. rewrite R2. split; [done|]. split; [|lia].
      split; [lia|]. intros H. by destruct (H v Hv).
  - change (eval (ret (- EINVAL)) w) with (-22). split; [lia|]. split; [|done]. split; [intros _ v' Hv' [? _]; specialize (Hf v' Hv'); lia|lia].
Qed.
End Boost.

Lemma boost_exact_witness :
  let set := mt6370_boost_set_current_limit mt6370_otg_rdesc 1000000 1200000 in
  0 <= eval set mw0 /\ eval (mt6370_boost_get_current_limit mt6370_otg_rdesc) (exec set mw0) <= 1200000.
Proof.
  assert (0 <= eval (mt6370_boost_set_current_limit mt6370_otg_rdesc 1000000 1200000) mw0) as H
    by (vm_compute; discriminate).
  destruct (boost_exact chip_reg (fun c => c_fail c < 0) 20 1000000 1200000 mw0 ltac:(reflexivity) ltac:(lia)
    ltac:(done) ltac:(done)) as (_ & H1 & _). split; [exact H|]. destruct (H1 H) as (_ & [_ H2] & _). exact H2.
Defined.

(** ** The file "shipping_mode" *)

Section Shipping.
  Context {B : Type} `{!Mt6370Bus B}.
Abbreviation W := (mworld B).
#[local] Hint Resolve bal_hidden : kern.

(** Whatever the bus does, after the right number was written the mutex of the
    converter is held and the call is over: the next conversion waits for ever. *)
Theorem shipping_mode_keeps_mutex (buf : cstr) (w : W) :
  kstrtoint buf 10 = KOk 5526789 -> locks (md w) = ([], false) ->
  let w' := exec (shipping_mode_store buf) w in
  locks (md w') = ([AdcLock], false) /\ mt_deadlock (md (exec (mutex_lock AdcLock) w')) = true.
Proof.
  intros Hb Hw. cbv zeta. enough (locks (md (exec (shipping_mode_store buf) w)) = ([AdcLock], false)) as H.
  { split; [done|]. unfold locks in H. injection H as Hh _. cbn. rewrite Hh. done. }
  enough (wp (shipping_mode_store buf) (fun _ w' => locks (md w') = ([AdcLock], false)) w) as H by exact H.
  unfold shipping_mode_store. rewrite Hb. mwp_step; [done|]. mwp_step.
  eapply wp_mutex_lock; [done|apply not_elem_of_nil|]. intros w1 H1.
  match goal with |- wp ?m _ _ => assert (balanced [HiddenLock] m) as Hm by solve_balanced end.
  eapply (wp_balanced [HiddenLock]); [done| |by intros ? ? ->].
  intros l ->%list_elem_of_singleton. unfold locks in H1. injection H1 as -> _. apply locks_notin. reflexivity.
Qed.
End Shipping.

(** ** A late interrupt of the detection *)

(** What the detection decides, and the note it decides by. *)
Definition verdict (d : mt6370_data) : Z * Z * bool := (mt_psy_type d, mt_psy_usb_type d, mt_dcd_timeout d).

Lemma verdict_inv d d' : verdict d = verdict d' ->
  mt_psy_type d = mt_psy_type d' /\ mt_psy_usb_type d = mt_psy_usb_type d' /\ mt_dcd_timeout d = mt_dcd_timeout d'.
Proof. unfold verdict. by intros [= -> -> ->]. Qed.

Ltac solve_verdict :=
  repeat match goal with
    | |- forall _, _ => intro
    | |- keeps _ (bind _ _) => apply keeps_bind
    | |- keeps _ (ret _) => apply keeps_ret
    | |- keeps _ (getd _) => apply keeps_gets
    | |- keeps _ (when _ _) => apply keeps_when
    | |- keeps _ (with_lock _ _) => unfold with_lock
    | |- keeps _ (mutex_lock _) => apply keeps_modd; intros; by case_match
    | |- keeps _ (mutex_unlock _) => apply keeps_modd; done
    | |- keeps _ (modd _) => apply keeps_modd; done
    | |- keeps _ (ignore _) => apply keeps_ignore
    | |- keeps _ (mt6370_pmu_reg_read _) => unfold mt6370_pmu_reg_read
    | |- keeps _ (bus _) => apply keeps_bus
    | |- keeps _ (mt6370_pmu_reg_assign_bit ?b _ _) => unfold mt6370_pmu_reg_assign_bit
    | |- keeps _ (mt6370_pmu_reg_update_bits _ _ _) => apply keeps_bus
    | |- keeps _ (mt6370_set_field _ _) => apply keeps_bus
    | |- keeps _ (mt6370_pmu_reg_set_bit _ _) => apply keeps_bus
    | |- keeps _ (mt6370_pmu_reg_clr_bit _ _) => apply keeps_bus
    | |- keeps _ (if ?b then _ else _) => destruct b
    | |- keeps _ (match ?x with _ => _ end) => destruct x
    end.

Section Late.
  Context {B : Type} `{!Mt6370Bus B}.
Abbreviation W := (mworld B).

Lemma verdict_end r : keeps (fun w : W => verdict (md w)) (chgdet_end r).
Proof.
  unfold chgdet_end, mt6370_enable_power_path, mt6370_enable_irq, __mt6370_set_mivr, __mt6370_enable_chgdet_flow,
    mt6370_set_usbsw_state. solve_verdict.
Qed.
Lemma verdict_out r : keeps (fun w : W => verdict (md w)) (chgdet_out r).
Proof. unfold chgdet_out. apply keeps_bind; [solve_verdict|intros; apply verdict_end]. Qed.

(** Data contact detection may time out when the detection is over, or the cable
    gone: the handler notes the time-out, the detection sees no change and leaves
    the note.  Taking the cable out does not remove it.  The next charger is then
    taken for a standard port, whatever the chip says it is. *)
Theorem late_dcdt_misleads (w : W) :
  let det := exec __mt6370_chgdet_handler in
  mt_dcd_timeout (md w) = true ->
  (mt_pwr_rdy (md w) = mt_tcpc_usb_connected (md w) -> mt_bc12_wkard (md w) = false ->
   mt_dcd_timeout (md (det w)) = true) /\
  (mt_tcpc_usb_connected (md w) = false -> mt_dcd_timeout (md (det w)) = true) /\
  (mt_pwr_rdy (md w) = false -> mt_tcpc_usb_connected (md w) = true ->
   mt_psy_type (md (det w)) = POWER_SUPPLY_TYPE_USB /\ mt_psy_usb_type (md (det w)) = POWER_SUPPLY_USB_TYPE_SDP).
Proof.
  cbv zeta. intros Hd. unfold __mt6370_chgdet_handler. rewrite exec_bind. set (d := eval (getd (fun d => d)) w).
  change (md w) with d in *. change (exec (getd (fun d => d)) w) with w. split_and!.
  - intros -> ->. rewrite eqb_reflx. cbn [andb negb]. destruct (mt_tcpc_usb_connected d); cbn [negb]; [done|].
    pose proof (verdict_out 0 w) as E. by destruct (verdict_inv _ _ E) as (_ & _ & ->).
  - intros ->. destruct (eqb _ _ && _); cbn [negb].
    + pose proof (verdict_out 0 w) as E. by destruct (verdict_inv _ _ E) as (_ & _ & ->).
    + rewrite !exec_bind. match goal with |- context [exec (chgdet_out 0) ?w1] => pose proof (verdict_out 0 w1) as E end.
      by destruct (verdict_inv _ _ E) as (_ & _ & ->).
  - intros -> ->. cbn [eqb andb negb]. rewrite !exec_bind, Hd. rewrite exec_bind.
    match goal with |- context [exec (chgdet_end 0) ?w1] => pose proof (verdict_end 0 w1) as E end.
    by destruct (verdict_inv _ _ E) as (-> & -> & _).
Qed.
End Late.
