(* ===== verification/TypeDet.v ===== *)
(** * Detecting the type of a charger at the Type-C port
    (drivers/power/supply/mtk_chg_type_det.c)

    The port controller reports changes of the port; a notifier turns them into a
    flag and a count, and a thread passes the flag on to the supply that detects
    the type of the charger.  The notifier and the thread run beside each other:
    what they do under [attach_lock] is one step, what the thread does outside of
    it another. *)

From S2P Require Import Prelude AdapterClass ChargerTypes ChargerDt Platform BasicCharger.
#[local] Open Scope Z_scope.

Definition MTK_CTD_BY_SUBPMIC : Z := 0.
Definition MTK_CTD_BY_MAINPMIC : Z := 1.
Definition MTK_CTD_BY_EXTCHG : Z := 2.
Definition TYPEC_ATTACHED_SNK : Z := 1.
Definition TYPEC_ATTACHED_SRC : Z := 2.
Definition NOTIFY_OK : Z := 1.

(** [struct mtk_ctd_info]; [ext_psy] is the static [bc12_psy] of
    [mtk_ext_get_charger_type]. *)
Record mtk_ctd_info : Type := mk_ctd_info {
  bc12_sel : Z;
  bc12_psy : option nat;
  ctd_tcpc_dev : option nat;
  chrdet_start : Z;
  typec_attach : bool;
  tcpc_kpoc : bool;
  ext_psy : option nat
}.
#[global] Instance ctd_struct : Struct mtk_ctd_info := fun r =>
  mk_ctd_info (bc12_sel r) (bc12_psy r) (ctd_tcpc_dev r) (chrdet_start r) (typec_attach r) (tcpc_kpoc r) (ext_psy r).

(** What the driver calls.  A supply that is not found is [None]. *)
Class CtdPlatform (E : Type) : Type := {
  ctd_psy_by_name : string -> M E (option nat);
  ctd_psy_by_phandle : string -> M E (Z + nat);
  ctd_set_online : nat -> bool -> M E Z;
  ctd_power_off : M E unit;
  ctd_tcpc_by_name : string -> M E (option nat);
  register_tcp_dev_notifier : nat -> M E Z;
  kthread_run : string -> M E Z;
  kthread_stop : string -> M E unit
}.

(** Where the thread is: at [wait_event], or with a value it has taken. *)
Inductive thread_pc : Type := AtWait | Took (attach : bool).

Record cworld (E : Type) : Type := mk_cworld { mci : mtk_ctd_info; pc : thread_pc; cenv : E }.
Arguments mk_cworld {E}.
Arguments mci {E}.
Arguments pc {E}.
Arguments cenv {E}.
#[global] Instance cworld_struct E : Struct (cworld E) := fun r => mk_cworld (mci r) (pc r) (cenv r).

Section TypeDet.
  Context {E : Type} `{!CtdPlatform E}.
  Abbreviation W := (cworld E).

Definition ctd {A} (m : M E A) : M W A := fun w => let '(a, e) := m (cenv w) in (a, w <| cenv := e |>).
Definition getc {A} (f : mtk_ctd_info -> A) : M W A := gets (fun w => f (mci w)).
Definition modc (f : mtk_ctd_info -> mtk_ctd_info) : M W unit := modify (fun w => w <| mci ::= f |>).

(** The supply is looked up each time, and kept when [bc12_sel] names none. *)
Definition mtk_ext_get_charger_type (attach : bool) : M W Z :=
  let! sel := getc bc12_sel in
  (if sel =? MTK_CTD_BY_MAINPMIC then
     let! p := ctd (ctd_psy_by_name "mtk_charger_type"%string) in modc (fun c => c <| ext_psy := p |>)
   else when (sel =? MTK_CTD_BY_EXTCHG)
     (let! p := ctd (ctd_psy_by_name "ext_charger_type"%string) in modc (fun c => c <| ext_psy := p |>))) ;;;
  let! p := getc ext_psy in
  match p with
  | None => ret 0
  | Some h => ctd (ctd_set_online h attach)
  end.

(** One round of [typec_attach_thread]: what it takes under the mutex, and what it
    does with it.  [bc12_psy] is not null after probe. *)
Definition thread_take : M W unit :=
  let! a := getc typec_attach in
  modc (fun c => c <| chrdet_start := 0 |>) ;;;
  modify (fun w => w <| pc := Took a |>).

Definition thread_deliver (attach : bool) : M W unit :=
  let! sel := getc bc12_sel in
  (if sel =? MTK_CTD_BY_SUBPMIC then
     let! p := getc bc12_psy in
     match p with Some h => ignore (ctd (ctd_set_online h attach)) | None => ret tt end
   else ignore (mtk_ext_get_charger_type attach)) ;;;
  modify (fun w => w <| pc := AtWait |>).

Definition handle_typec_attach (en : bool) : M W unit :=
  modc (fun c => c <| typec_attach := en |> <| chrdet_start ::= fun n => s32 (n + 1) |>).

(** What a change of the port means, and whether it is a removal that may power
    off the device. *)
Definition from_sink (s : Z) : bool :=
  (s =? TYPEC_ATTACHED_SNK) || (s =? TYPEC_ATTACHED_CUSTOM_SRC) || (s =? TYPEC_ATTACHED_NORP_SRC).

Definition ctd_tcp_notifier_call (event : tcp_notify) : M W Z :=
  (match event with
   | TCP_NOTIFY_TYPEC_STATE old new =>
       if (old =? TYPEC_UNATTACHED) && from_sink new then handle_typec_attach true
       else if from_sink old && (new =? TYPEC_UNATTACHED) then
         let! k := getc tcpc_kpoc in
         when k (ctd ctd_power_off) ;;;
         handle_typec_attach false
       else if (old =? TYPEC_ATTACHED_SRC) && (new =? TYPEC_ATTACHED_SNK) then handle_typec_attach true
       else when ((old =? TYPEC_ATTACHED_SNK) && (new =? TYPEC_ATTACHED_SRC)) (handle_typec_attach false)
   | _ => ret tt
   end) ;;;
  ret NOTIFY_OK.

Definition mtk_ctd_parse_dt (np : device_node) (c : mtk_ctd_info) : mtk_ctd_info :=
  c <| bc12_sel := read_u32 np "bc12_sel"%string MTK_CTD_BY_SUBPMIC |>.

(** [devm_kzalloc] gives zeros. *)
Definition ctd0 : mtk_ctd_info := mk_ctd_info MTK_CTD_BY_SUBPMIC None None 0 false false None.

Definition mtk_ctd_probe (np : device_node) : M W Z :=
  modc (fun _ => mtk_ctd_parse_dt np ctd0) ;;;
  let! p := ctd (ctd_psy_by_phandle "bc12"%string) in
  match p with
  | inl e => ret e
  | inr h =>
      modc (fun c => c <| bc12_psy := Some h |>) ;;;
      let! t := ctd (ctd_tcpc_by_name "type_c_port0"%string) in
      modc (fun c => c <| ctd_tcpc_dev := t |>) ;;;
      match t with
      | None => ret (- ENODEV)
      | Some d =>
          let! r := ctd (register_tcp_dev_notifier d) in
          if r <? 0 then ret (- EINVAL)
          else
            let! r := ctd (kthread_run "attach_thread"%string) in
            ret (if r <? 0 then r else 0)
      end
  end.

Definition mtk_ctd_remove : M W Z := ctd (kthread_stop "attach_thread"%string) ;;; ret 0.

(** The notifier and the thread beside each other. *)
Inductive ctd_step (w : W) : W -> Prop :=
| CtdNotify ev : ctd_step w (exec (ctd_tcp_notifier_call ev) w)
| CtdTake : pc w = AtWait -> 0 < chrdet_start (mci w) -> ctd_step w (exec thread_take w)
| CtdDeliver a : pc w = Took a -> ctd_step w (exec (thread_deliver a) w).
End TypeDet.
