(* ===== verification/TypeDetSpec.v ===== *)
(** * Detecting the type of a charger: what reaches the supply

    However the reports of the port and the rounds of the thread interleave, the
    supply is told the last state of the port, after the changes the notifier
    knows; but not every state in between. *)

From S2P Require Import Prelude AdapterClass ChargerTypes ChargerDt Platform BasicCharger TypeDet.
#[local] Open Scope Z_scope.

(** [seen e] is what the detecting supply was told last; [ok e] that it listens. *)
Class CtdLaws {E} `{!CtdPlatform E} (seen : E -> bool) (ok : E -> Prop) : Prop := {
  law_set_online : forall h b e, ok e -> let e' := exec (ctd_set_online h b) e in ok e' /\ seen e' = b;
  law_named_quiet : forall s e, ok e -> let e' := exec (ctd_psy_by_name s) e in ok e' /\ seen e' = seen e;
  law_poweroff : forall e, ok e -> let e' := exec ctd_power_off e in ok e' /\ seen e' = seen e
}.

Section Ctd.
  Context {E : Type} `{!CtdPlatform E} (seen : E -> bool) (ok : E -> Prop) `{!CtdLaws seen ok}.
Abbreviation W := (cworld E).

(** The supply was found at probe, or is one of the two that are looked up each
    time, and the look-up finds it. *)
Definition wired (c : mtk_ctd_info) : Prop :=
  (bc12_sel c = MTK_CTD_BY_SUBPMIC /\ bc12_psy c <> None) \/
  ((bc12_sel c = MTK_CTD_BY_MAINPMIC \/ bc12_sel c = MTK_CTD_BY_EXTCHG) /\
   forall s (e : E), eval (ctd_psy_by_name s) e <> None).

(** Nothing is under way. *)
Definition idle (w : W) : Prop := pc w = AtWait /\ chrdet_start (mci w) = 0.

(** At most [n] reports are waiting; what is under way is the last flag. *)
Definition ctd_inv (n : Z) (w : W) : Prop :=
  wired (mci w) /\ ok (cenv w) /\ 0 <= chrdet_start (mci w) <= n /\
  (chrdet_start (mci w) = 0 ->
   match pc w with AtWait => seen (cenv w) | Took a => a end = typec_attach (mci w)).

Lemma exec_ctd {A} (m : M E A) (w : W) : exec (ctd m) w = w <| cenv := exec m (cenv w) |>.
Proof. unfold exec, ctd. by destruct (m (cenv w)). Qed.
Lemma eval_ctd {A} (m : M E A) (w : W) : eval (ctd m) w = eval m (cenv w).
Proof. unfold eval, ctd. by destruct (m (cenv w)). Qed.

(** A report: the flag and one more, or nothing. *)
Definition meaning (ev : tcp_notify) : option bool :=
  match ev with
  | TCP_NOTIFY_TYPEC_STATE old new =>
      if (old =? TYPEC_UNATTACHED) && from_sink new then Some true
      else if from_sink old && (new =? TYPEC_UNATTACHED) then Some false
      else if (old =? TYPEC_ATTACHED_SRC) && (new =? TYPEC_ATTACHED_SNK) then Some true
      else if (old =? TYPEC_ATTACHED_SNK) && (new =? TYPEC_ATTACHED_SRC) then Some false else None
  | _ => None
  end.

Lemma notifier_spec ev (w : W) : ok (cenv w) ->
  let w' := exec (ctd_tcp_notifier_call ev) w in
  pc w' = pc w /\ ok (cenv w') /\ seen (cenv w') = seen (cenv w) /\
  mci w' = match meaning ev with
           | Some b => (mci w) <| typec_attach := b |> <| chrdet_start ::= fun n => s32 (n + 1) |>
           | None => mci w
           end.
Proof using CtdLaws0.
  intros Hok. cbv zeta. unfold ctd_tcp_notifier_call, meaning. rewrite exec_bind, exec_ret.
  destruct ev as [c|old new|b|]; try done.
  destruct (_ && _); [done|]. destruct (_ && _).
  - unfold getc. rewrite exec_bind, exec_gets, eval_gets, exec_bind. destruct (tcpc_kpoc (mci w)); cbn [when]; [|done].
    rewrite exec_ctd. destruct (law_poweroff (cenv w) Hok). done.
  - destruct (_ && _); [done|]. by destruct (_ && _).
Qed.

Lemma take_spec (w : W) :
  exec thread_take w = w <| mci ::= fun c => c <| chrdet_start := 0 |> |> <| pc := Took (typec_attach (mci w)) |>.
Proof. done. Qed.

Lemma deliver_spec a (w : W) : wired (mci w) -> ok (cenv w) ->
  let w' := exec (thread_deliver a) w in
  pc w' = AtWait /\ ok (cenv w') /\ seen (cenv w') = a /\
  exists p, mci w' = (mci w) <| ext_psy := p |>.
Proof using CtdLaws0.
  intros Hw Hok. cbv zeta. unfold thread_deliver, getc. rewrite exec_bind, exec_gets, eval_gets, exec_bind.
  destruct Hw as [[-> Hp]|[Hs law_named]].
  - change (MTK_CTD_BY_SUBPMIC =? MTK_CTD_BY_SUBPMIC) with true. cbv iota. rewrite exec_bind, exec_gets, eval_gets.
    destruct (bc12_psy (mci w)) as [h|]; [|done]. rewrite exec_ignore, exec_ctd.
    destruct (law_set_online h a (cenv w) Hok). split_and!; [done..|]. exists (ext_psy (mci w)). by destruct w as [[]].
  - assert ((bc12_sel (mci w) =? MTK_CTD_BY_SUBPMIC) = false) as -> by (destruct Hs as [-> | ->]; done).
    rewrite exec_ignore. unfold mtk_ext_get_charger_type, getc. rewrite exec_bind, exec_gets, eval_gets.
    assert (forall s, let w1 := exec (let! p := ctd (ctd_psy_by_name s) in modc (fun c => c <| ext_psy := p |>)) w in
      exists h, mci w1 = (mci w) <| ext_psy := Some h |> /\ ok (cenv w1)) as Hl.
    { intros s. cbv zeta. rewrite exec_bind, eval_ctd, exec_ctd. pose proof (law_named s (cenv w)) as Hn.
      destruct (eval (ctd_psy_by_name s) (cenv w)) as [h|]; [|done]. exists h. split; [done|].
      exact (proj1 (law_named_quiet s (cenv w) Hok)). }
    rewrite exec_bind. match goal with |- context [exec (if ?c then ?x else ?y) w] => set (w1 := exec (if c then x else y) w) end.
    assert (exists h, mci w1 = (mci w) <| ext_psy := Some h |> /\ ok (cenv w1)) as (h & H1 & H2)
      by (unfold w1; destruct Hs as [-> | ->]; apply Hl).
    rewrite exec_bind, exec_gets, eval_gets.
    replace (ext_psy (mci w1)) with (Some h) by (by rewrite H1). rewrite exec_ctd. cbn.
    destruct (law_set_online h a (cenv w1) H2). split_and!; [done..|]. by exists (Some h).
Qed.

Lemma ctd_inv_step n w w' : n + 1 < 2 ^ 31 -> ctd_step w w' -> ctd_inv n w -> ctd_inv (n + 1) w'.
Proof using CtdLaws0.
  intros Hn Hs (Hw & Hok & Hc & Hl). destruct Hs as [ev|Hp Hpos|a Hp].
  - destruct (notifier_spec ev w Hok) as (P & O & S & Ec). unfold ctd_inv. rewrite P, S, Ec.
    destruct (meaning ev) as [b|] eqn:Em; cbn.
    + rewrite s32_id by (unfold is_s32; lia). split_and!; [done..|lia|lia|]. lia.
    + split_and!; [done..|lia|lia|done].
  - rewrite take_spec. split_and!; cbn; [done..|lia|lia|done].
  - destruct (deliver_spec a w Hw Hok) as (P & O & S & p & Em). unfold ctd_inv. rewrite P, S, Em, Hp in *. cbn.
    split_and!; [done..|lia|lia|done].
Qed.

Lemma ctd_inv_steps k n w w' : n + Z.of_nat k < 2 ^ 31 -> nsteps ctd_step k w w' -> ctd_inv n w -> ctd_inv (n + Z.of_nat k) w'.
Proof using CtdLaws0.
  intros Hn Hs. revert n Hn. induction Hs as [w|k w w1 w2 H1 _ IH]; intros n Hn Hi; [by rewrite Z.add_0_r|].
  replace (n + Z.of_nat (S k)) with (n + 1 + Z.of_nat k) by lia. apply IH; [lia|]. apply (ctd_inv_step n w); [lia|done..].
Qed.

(** The thread on its own. *)
Definition thread_round : M W unit :=
  let! p := gets pc in
  match p with
  | Took a => thread_deliver a
  | AtWait => let! n := getc chrdet_start in when (0 <? n) thread_take
  end.

Lemma round_inv n w : n + 1 < 2 ^ 31 -> ctd_inv n w -> ctd_inv (n + 1) (exec thread_round w).
Proof using CtdLaws0.
  intros Hn Hi. unfold thread_round. rewrite exec_bind, exec_gets, eval_gets. destruct (pc w) eqn:Ep.
  - unfold getc. rewrite exec_bind, exec_gets, eval_gets. destruct (0 <? chrdet_start (mci w)) eqn:Ec; cbn [when]; bool_prop.
    + apply (ctd_inv_step n w); [done|by apply CtdTake|done].
    + rewrite exec_ret. destruct Hi as (H1 & H2 & H3 & H4). split_and!; [done..|lia|lia|done].
  - apply (ctd_inv_step n w); [done|by apply CtdDeliver|done].
Qed.

Definition up (w : W) : Prop := wired (mci w) /\ ok (cenv w) /\ 0 <= chrdet_start (mci w).

Lemma round_idle w : idle w -> exec thread_round w = w.
Proof. intros [Hp Hc]. unfold thread_round. rewrite exec_bind, exec_gets, eval_gets, Hp. unfold getc.
  rewrite exec_bind, exec_gets, eval_gets, Hc. done. Qed.
Lemma round_take w : up w -> pc w = AtWait -> 0 < chrdet_start (mci w) ->
  let w' := exec thread_round w in up w' /\ (exists a, pc w' = Took a) /\ chrdet_start (mci w') = 0.
Proof.
  intros (H1 & H2 & H3) Hp Hc. cbv zeta. unfold thread_round. rewrite exec_bind, exec_gets, eval_gets, Hp. unfold getc.
  rewrite exec_bind, exec_gets, eval_gets, (proj2 (Z.ltb_lt 0 _)) by done. cbn [when]. rewrite take_spec.
  split; [split_and!; done|]. split; [by eexists|done].
Qed.
Lemma round_deliver w a : up w -> pc w = Took a ->
  let w' := exec thread_round w in up w' /\ pc w' = AtWait /\ chrdet_start (mci w') = chrdet_start (mci w).
Proof using CtdLaws0.
  intros (H1 & H2 & H3) Hp. cbv zeta. unfold thread_round. rewrite exec_bind, exec_gets, eval_gets, Hp.
  destruct (deliver_spec a w H1 H2) as (P & O & _ & p & Em). unfold up. rewrite Em. by split_and!.
Qed.

Lemma two_rounds w : up w -> pc w = AtWait -> idle (exec (thread_round ;;; thread_round) w).
Proof using CtdLaws0.
  intros Hu Hp. rewrite exec_bind. destruct (Z.eq_dec (chrdet_start (mci w)) 0) as [H0|Hn].
  - rewrite !round_idle by (rewrite ?round_idle; done). done.
  - destruct (round_take w Hu Hp ltac:(destruct Hu as (_ & _ & ?); lia)) as (U1 & [a Ha] & C1).
    destruct (round_deliver _ a U1 Ha) as (_ & P2 & C2). split; [done|]. by rewrite C2.
Qed.

Lemma three_rounds w : up w -> idle (exec (thread_round ;;; thread_round ;;; thread_round) w).
Proof using CtdLaws0.
  intros Hu. rewrite exec_bind. destruct (pc w) as [|a] eqn:Hp.
  - destruct (two_rounds w Hu Hp) as [Q1 Q2]. rewrite exec_bind in Q1, Q2. rewrite exec_bind.
    rewrite (round_idle (exec thread_round (exec thread_round w))); by split.
  - destruct (round_deliver w a Hu Hp) as (U & P & _). by apply two_rounds.
Qed.

(** ** The port *)

(** The changes of the port the notifier knows: those that keep the role, begin or
    end with nothing attached, or swap the role of a plain connection. *)
Definition known_change (old new : Z) : bool :=
  eqb (from_sink old) (from_sink new) || (old =? TYPEC_UNATTACHED) || (new =? TYPEC_UNATTACHED) ||
  ((old =? TYPEC_ATTACHED_SRC) && (new =? TYPEC_ATTACHED_SNK)) || ((old =? TYPEC_ATTACHED_SNK) && (new =? TYPEC_ATTACHED_SRC)).

(** The changes it acts upon. *)
Definition acted (old new : Z) : bool := match meaning (TCP_NOTIFY_TYPEC_STATE old new) with Some _ => true | None => false end.

(** Whether the flag is the opposite of the port after a change, if it was [wrong]
    before: a change it acts upon puts it right, another change of the role that it
    does not know turns it over. *)
Definition flag_after (old new : Z) (wrong : bool) : bool :=
  if acted old new then false else if known_change old new then wrong else negb wrong.

Lemma flag_follows old new wrong :
  match meaning (TCP_NOTIFY_TYPEC_STATE old new) with Some b => b | None => xorb (from_sink old) wrong end =
  xorb (from_sink new) (flag_after old new wrong).
Proof.
  unfold flag_after, acted, known_change, meaning, from_sink, TYPEC_UNATTACHED, TYPEC_ATTACHED_SNK, TYPEC_ATTACHED_SRC,
    TYPEC_ATTACHED_CUSTOM_SRC, TYPEC_ATTACHED_NORP_SRC.
  destruct (old =? 0) eqn:E0, (old =? 1) eqn:E1, (old =? 2) eqn:E2, (old =? 6) eqn:E6, (old =? 7) eqn:E7,
    (new =? 0) eqn:F0, (new =? 1) eqn:F1, (new =? 2) eqn:F2, (new =? 6) eqn:F6, (new =? 7) eqn:F7;
    bool_prop; subst; try lia; by destruct wrong.
Qed.

(** The port, the driver and the thread: the state of the port, whether the flag is
    its opposite, and the driver.  The port changes as it likes. *)
Inductive port_step : Z * bool * W -> Z * bool * W -> Prop :=
| PortChange old new wrong w :
    port_step (old, wrong, w) (new, flag_after old new wrong, exec (ctd_tcp_notifier_call (TCP_NOTIFY_TYPEC_STATE old new)) w)
| PortOther p wrong ev w : (forall old new, ev <> TCP_NOTIFY_TYPEC_STATE old new) ->
    port_step (p, wrong, w) (p, wrong, exec (ctd_tcp_notifier_call ev) w)
| PortThread p wrong w : port_step (p, wrong, w) (p, wrong, exec thread_round w).

Definition port_inv (n : Z) (s : Z * bool * W) : Prop :=
  let '(p, wrong, w) := s in ctd_inv n w /\ typec_attach (mci w) = xorb (from_sink p) wrong.

Lemma port_inv_step n s s' : n + 1 < 2 ^ 31 -> port_step s s' -> port_inv n s -> port_inv (n + 1) s'.
Proof using CtdLaws0.
  intros Hn Hs. destruct Hs as [old new wrong w|p wrong ev w He|p wrong w]; intros [Hi Ht]; unfold port_inv.
  - split; [apply (ctd_inv_step n w); [done|apply CtdNotify|done]|].
    destruct (notifier_spec (TCP_NOTIFY_TYPEC_STATE old new) w ltac:(apply Hi)) as (_ & _ & _ & ->).
    rewrite <- flag_follows, <- Ht. by destruct (meaning _).
  - split; [apply (ctd_inv_step n w); [done|apply CtdNotify|done]|].
    destruct (notifier_spec ev w ltac:(apply Hi)) as (_ & _ & _ & ->). by destruct ev as [|old new| |]; [|destruct (He old new)|..].
  - split; [by apply round_inv|]. rewrite <- Ht. unfold thread_round. rewrite exec_bind, exec_gets, eval_gets.
    destruct (pc w) as [|a].
    + unfold getc. rewrite exec_bind, exec_gets, eval_gets. by destruct (0 <? chrdet_start (mci w)).
    + destruct Hi as (H1 & H2 & _). destruct (deliver_spec a w H1 H2) as (_ & _ & _ & p0 & ->). done.
Qed.

Lemma port_inv_steps k n s s' : n + Z.of_nat k < 2 ^ 31 -> nsteps port_step k s s' -> port_inv n s -> port_inv (n + Z.of_nat k) s'.
Proof using CtdLaws0.
  intros Hn Hs. revert n Hn. induction Hs as [s|k s s1 s2 H1 _ IH]; intros n Hn Hi; [by rewrite Z.add_0_r|].
  replace (n + Z.of_nat (S k)) with (n + 1 + Z.of_nat k) by lia. apply IH; [lia|]. apply (port_inv_step n s); [lia|done..].
Qed.

(** C28: for a supply that takes what it is told and is there when it is looked
    up: however the port changes, and however its reports and the rounds of the
    thread interleave, for fewer than 2^31 steps: whenever nothing is under way,
    and from every point after three rounds of the thread, what the supply was
    told last is the present state of the port, unless the changes of the role
    that the notifier does not know (those of a plugged port between a sink and
    another state, other than between a plain sink and a plain source) that came
    since the last change it acted upon are odd in number: then it is the
    opposite. *)
Theorem supply_told_of_port (k : nat) (p p' : Z) (wrong' : bool) (w w' : W) :
  Z.of_nat k + 3 < 2 ^ 31 -> nsteps port_step k (p, false, w) (p', wrong', w') ->
  wired (mci w) -> ok (cenv w) -> idle w -> seen (cenv w) = from_sink p -> typec_attach (mci w) = from_sink p ->
  (idle w' -> seen (cenv w') = xorb (from_sink p') wrong') /\
  let w3 := exec (thread_round ;;; thread_round ;;; thread_round) w' in
  idle w3 /\ seen (cenv w3) = xorb (from_sink p') wrong'.
Proof using CtdLaws0.
  intros Hk Hs Hw Hok [Hi1 Hi2] Hsn Ht.
  assert (port_inv 0 (p, false, w)) as H0.
  { split; [|by rewrite xorb_false_r]. split_and!; cbn; [done..|lia|lia|]. rewrite Hi1. congruence. }
  assert (forall m p b w, port_inv m (p, b, w) -> idle w -> seen (cenv w) = xorb (from_sink p) b) as Hq.
  { intros m q b v [(_ & _ & _ & Hl) Hf] [I1 I2]. rewrite I1 in Hl. rewrite <- Hf. by apply Hl. }
  pose proof (port_inv_steps k 0 _ _ ltac:(lia) Hs H0) as Hk'. split; [by apply (Hq (0 + Z.of_nat k))|]. cbv zeta.
  assert (idle (exec (thread_round ;;; thread_round ;;; thread_round) w')) as Hd
    by (apply three_rounds; destruct Hk' as [(H1 & H2 & H3 & _) _]; split_and!; [done..|apply H3]).
  split; [done|]. apply (Hq (Z.of_nat k + 3)); [|done].
  assert (nsteps port_step (k + 3) (p, false, w) (p', wrong', exec (thread_round ;;; thread_round ;;; thread_round) w')) as Hs3.
  { eapply nsteps_trans; [exact Hs|]. rewrite !exec_bind. do 3 (eapply nsteps_l; [apply PortThread|]). apply nsteps_O. }
  pose proof (port_inv_steps (k + 3) 0 _ _ ltac:(lia) Hs3 H0) as H3. replace (0 + Z.of_nat (k + 3)) with (Z.of_nat k + 3) in H3 by lia.
  done.
Qed.

(** A cable that is taken out and put back before the thread looks is not noticed:
    the supply is told once more that something is attached, and nothing else. *)
Theorem quick_replug_unseen (w : W) (h : nat) :
  idle w -> bc12_sel (mci w) = MTK_CTD_BY_SUBPMIC -> bc12_psy (mci w) = Some h -> tcpc_kpoc (mci w) = false ->
  let replug := ctd_tcp_notifier_call (TCP_NOTIFY_TYPEC_STATE TYPEC_ATTACHED_SNK TYPEC_UNATTACHED) ;;;
                ctd_tcp_notifier_call (TCP_NOTIFY_TYPEC_STATE TYPEC_UNATTACHED TYPEC_ATTACHED_SNK) in
  cenv (exec (replug ;;; thread_round ;;; thread_round) w) = exec (ctd_set_online h true) (cenv w).
Proof.
  intros [Hp Hc] Hs Hb Hk. destruct w as [[sel psy dev cnt att kp ext] p e]. cbn in *. subst.
  unfold exec. cbv - [ctd_set_online]. by destruct (ctd_set_online h true e).
Qed.
End Ctd.
