(* ===== verification/Mt6370TypeDet.v ===== *)
(** * The MT6370 as the supply that detects the type

    The driver of the Type-C port tells the power supply of the MT6370 driver that
    something is attached: the MT6370 driver meets what [CtdLaws] asks of the
    supply, so its flag [tcpc_usb_connected] follows the port. *)

From S2P Require Import Prelude ChargerClass AlgClass ChargerTypes Platform BasicCharger Mt6370Enc.
From S2P Require Import AdapterClass Mt6370 Mt6370Ops Mt6370Chip Mt6370Locks Mt6370Irq Mt6370Line.
From S2P Require Import Mt6370Supply TypeDet TypeDetSpec.
#[local] Open Scope Z_scope.

Section Link.
  Context {B : Type} `{!Mt6370Bus B} `{!Mt6370Sys B}.
Abbreviation W := (mworld B).

(** The supply is behind every name; powering off is not seen by the driver. *)
#[global] Instance mt_ctd : CtdPlatform W := {|
  ctd_psy_by_name := fun _ => ret (Some 0%nat);
  ctd_psy_by_phandle := fun _ => ret (inr 0%nat);
  ctd_set_online := fun _ b => mt6370_charger_set_property PROP_ONLINE (b2z b);
  ctd_power_off := ret tt;
  ctd_tcpc_by_name := fun _ => ret (Some 0%nat);
  register_tcp_dev_notifier := fun _ => ret 0;
  kthread_run := fun _ => ret 0;
  kthread_stop := fun _ => ret tt
|}.

Definition plugged (w : W) : bool := mt_tcpc_usb_connected (md w).
Definition detecting (w : W) : Prop := ds_bc12_sel (mt_desc (md w)) = 0.
Definition plug_view (d : mt6370_data) : bool * mt6370_desc := (mt_tcpc_usb_connected d, mt_desc d).

Lemma pv_cdp_wait n : keeps (fun w : W => plug_view (md w)) (cdp_wait n).
Proof. induction n as [|n IH]; simpl; unfold is_usb_rdy; solve_verdict; apply IH. Qed.
Lemma pv_chgdet : keeps (fun w : W => plug_view (md w)) __mt6370_chgdet_handler.
Proof.
  unfold __mt6370_chgdet_handler, chgdet_out, chgdet_end, mt6370_enable_power_path, mt6370_enable_irq, __mt6370_set_mivr,
    mt6370_bc12_workaround, mt6370_toggle_chgdet_flow, __mt6370_enable_chgdet_flow, mt6370_set_usbsw_state. cbv zeta.
  solve_verdict.
Qed.
Lemma pv_handler : keeps (fun w : W => plug_view (md w)) mt6370_chgdet_handler.
Proof. unfold mt6370_chgdet_handler. solve_verdict. apply pv_chgdet. Qed.
Lemma pv_flow : keeps (fun w : W => plug_view (md w)) (mt6370_enable_chgdet_flow true).
Proof.
  unfold mt6370_enable_chgdet_flow. apply keeps_bind; [apply pv_cdp_wait|].
  unfold __mt6370_enable_chgdet_flow, mt6370_set_usbsw_state. solve_verdict.
Qed.

Lemma set_online_view (b : bool) (w : W) : detecting w ->
  let w' := exec (mt6370_charger_set_property PROP_ONLINE (b2z b)) w in detecting w' /\ plugged w' = b.
Proof.
  intros Hd. unfold mt6370_charger_set_property, mt6370_charger_set_online, mt6370_enable_chg_type_det. cbv zeta.
  assert (z2b (b2z b) = b) as -> by (by destruct b).
  change (exec (let! sel := getd (fun d => ds_bc12_sel (mt_desc d)) in _) w) with
    (exec (if negb (ds_bc12_sel (mt_desc (md w)) =? 0) then ret 0
           else modd (fun d => d <| mt_tcpc_usb_connected := b |>) ;;;
                if negb b then mt6370_chgdet_handler else mt6370_enable_chgdet_flow true) w).
  rewrite Hd. cbn [negb Z.eqb]. rewrite exec_bind. set (w0 := exec (modd _) w).
  assert (keeps (fun w : W => plug_view (md w)) (if negb b then mt6370_chgdet_handler else mt6370_enable_chgdet_flow true)) as Hk
    by (destruct b; [apply pv_flow|apply pv_handler]).
  specialize (Hk w0). unfold plug_view in Hk. unfold detecting, plugged. injection Hk as -> ->. done.
Qed.

#[global] Instance mt_ctd_laws : CtdLaws plugged detecting.
Proof. constructor; [|by intros..]. intros h b w Hd. by apply set_online_view. Qed.
End Link.

(** The port of the concrete chip: a charger is attached, the cable is swapped for
    a host, and the thread runs in between. *)
Definition port_world : cworld (mworld chip) :=
  mk_cworld (mk_ctd_info MTK_CTD_BY_SUBPMIC (Some 0%nat) (Some 0%nat) 0 false false None) AtWait mw0.

Definition report (old new : Z) (w : cworld (mworld chip)) : cworld (mworld chip) :=
  exec (ctd_tcp_notifier_call (TCP_NOTIFY_TYPEC_STATE old new)) w.

Definition port_end : cworld (mworld chip) :=
  report TYPEC_UNATTACHED TYPEC_ATTACHED_SNK
    (exec thread_round (report TYPEC_ATTACHED_SRC TYPEC_UNATTACHED (report TYPEC_UNATTACHED TYPEC_ATTACHED_SRC port_world))).

Lemma supply_told_of_port_witness :
  plugged (cenv (exec (thread_round ;;; thread_round ;;; thread_round) port_end)) = true.
Proof.
  assert (nsteps port_step 4 (TYPEC_UNATTACHED, false, port_world) (TYPEC_ATTACHED_SNK, false, port_end)) as Hs.
  { eapply nsteps_l; [apply (PortChange TYPEC_UNATTACHED TYPEC_ATTACHED_SRC)|].
    eapply nsteps_l; [apply (PortChange TYPEC_ATTACHED_SRC TYPEC_UNATTACHED)|].
    eapply nsteps_l; [apply PortThread|].
    eapply nsteps_l; [apply (PortChange TYPEC_UNATTACHED TYPEC_ATTACHED_SNK)|apply nsteps_O]. }
  destruct (supply_told_of_port plugged detecting 4 _ _ _ _ _ ltac:(reflexivity) Hs
    ltac:(left; split; [reflexivity|discriminate]) ltac:(reflexivity) ltac:(split; reflexivity) ltac:(reflexivity)
    ltac:(reflexivity)) as [_ [_ H]]. exact H.
Defined.
